(* ===== verification/_CoqProject ===== *)
-Q . S2P
Prelude.v
PyDict.v
PyText.v
TextFacts.v
Protocol.v
Domain.v
Sha256.v
Runs.v
RunsFacts.v
RunsTheorems.v
Retry.v
Manager.v
ManagerTheorems.v
RunsExamples.v
Codecs.v
Tables.v
SqlRuns.v
SqlRunRelation.v
SqlRunSim.v
SqlRunEvents.v
SqlRunTheorems.v
Graph.v
Templates.v
Flow.v
FlowTheorems.v
Versioned.v
Quality.v
Automation.v
Projects.v
EnvironmentCrypto.v
Environments.v
EnvironmentTheorems.v
ResolverTheorems.v
TestPlans.v
TestPlanTheorems.v
SecretBroker.v
BrokerTheorems.v
Dispatch.v
DispatchTheorems.v
Parameters.v
Connectors.v
Auth.v
AuthTheorems.v
WorkflowSchemas.v
Workflows.v
LoadTests.v
LoadTestTheorems.v
Urls.v
Files.v
FileFacts.v
Json.v
JsonFacts.v
SourceStore.v
SourceStoreTheorems.v
SourceReferences.v
HostSources.v
SourceImport.v
SourceProperties.v
SourceStoreExamples.v
SecretFiles.v
SecretFileTheorems.v
Artifacts.v
ArtifactTheorems.v
DockerExecutor.v
DockerTheorems.v
DockerTransport.v
Agent.v
AgentTheorems.v
SubprocessAdapter.v
ScriptTheorems.v
HostExecutor.v
HttpAdapter.v
HttpTheorems.v
RunnerExamples.v
LoadAuth.v
LoadRequests.v
LoadRequestTheorems.v
LoadTraffic.v
LoadTrafficTheorems.v
ConnectorClient.v
