(* ===== verification/Prelude.v ===== *)
(** * Smarttest platform: verification development (root file)

    The platform runs automated tests: a FastAPI service keeps requirements, test cases,
    scripts, environments and test plans; executing a plan expands it into runs; a
    worker gives every run to a runner as a task, supervises its attempts through
    leases, stores its events and decides retries; the runner, on the host or in a
    container, runs a script or sends the HTTP requests of the task and reports events;
    a workflow executor runs graphs of HTTP calls.  The development models the logic of
    the service and the runner, in pure functions and a state-and-error monad, from the Python code under [src/].

    ** Conventions

    [M S A] (this file) is [S -> res A * S]: a call that raises has already changed the
    state as far as the code had, as in Python.  [res] is the error monad of pure code
    ([let?]); [exn] has one constructor per exception class the code raises or catches.
    A dict is a [dict K V] (PyDict): a finite map with its keys in insertion order,
    which is the order the code iterates in.  Values of JSON are [pyval].  Strings are
    [string]s of Latin-1 code points, floats are finite dyadic numbers, datetimes are
    microseconds in [Z], UUIDs are 128-bit numbers in [N].  What a call draws from the
    outside (the clock, [uuid4], random bytes) is an argument, [clock] being the
    successive readings inside one call.  Decisions and orders that Python fixes
    (truthiness, [str.strip], [sorted], [json.dumps]) are definitions of PyText.

    ** Components

    - Prelude, PyDict, PyText, TextFacts: the monads, dicts and text routines the code
      takes from Python, with their lemmas.  Codecs, Json, JsonFacts: [int], UTF-8 and
      [json.loads] with its inverse; Urls: [urlsplit]; Files, FileFacts: a file system
      with links as a map from paths to nodes, and [pathlib] and [os] over it.
    - Protocol: [packages/protocol/models.py], the task, result and event messages and
      their validation; RunSpec tasks carry a digest computed by Sha256, which also has
      [uuid5], the names of retry attempts.
    - Domain, Runs: [services/api/domain.py] and [repository.py]; the transition tables
      of runs and attempts, and the repository of runs, attempts and events
      ([RunRepository.t]), with every method.  RunsFacts has the invariant [wf],
      RunsTheorems its preservation by all calls ([reachable]) and the theorems on
      events, idempotent creation and the lease reaper.
    - Tables, SqlRuns: [sql_repository.py], [models.py]: the same repository over tables
      with keys, sequences and row locks; SqlRunRelation relates its states to those of
      Runs, SqlRunSim and SqlRunEvents prove the methods, SqlRunTheorems the refinement
      and the races.
    - Retry, Manager: [services/retry_policy.py] and [runner_manager.py]; one execution
      of a task from the claim to the final state.  The executor and the concurrent
      changes of the repository while it runs are a [World] that the theorems
      quantify over.
    - Graph, Flow, Templates: [data_factory_domain.py] and [data_factory_executor.py];
      validation of a workflow graph, the scheduling loop, templates and JSON paths.
    - Versioned: the shape shared by the revisioned repositories, as a class
      [Revisioned] with the theorems every instance inherits; Quality
      ([quality_domain.py], [quality_repository.py]), Automation ([automation_*.py]),
      Environments and TestPlans are instances.  It also has the index of unique names of
      Projects ([project_*.py]), Parameters ([parameter_*.py]), Connectors
      ([connector_domain.py], [connector_repository.py]).
    - ConnectorClient: [connector_client.py] and the test in [connector_routes.py]; the
      MCP session of a connection test, and what the route stores of it.
    - EnvironmentCrypto, Environments: [environment_crypto.py],
      [environment_domain.py], [environment_repository.py]: encrypted values bound to
      their place by associated data, environments with their revisions and the
      resolver.  AES-GCM is a parameter (the class [Aead], with what the code relies on in [AeadLaws]).
    - TestPlans: [test_plan_domain.py], [test_plan_repository.py]: plans, the expansion
      of a plan into runs, the claim of runs under [max_parallel], and the task built
      from a run specification.  The state is the plan store beside the run repository,
      which [execute] and [claim_available_runs] share.
    - Dispatch: [dispatcher.py], [execution_coordinator.py] and the task functions of
      [workers/tasks.py]; the coordinator is proved against the class [RunDispatcher]
      and the two dispatchers of the code are its instances.
    - SecretBroker: [services/secret_broker.py]; single-use capabilities bound to an
      attempt, which the broker reads from the run repository.
    - Auth: [auth_domain.py], [auth_repository.py], [auth_throttle.py] and the handlers
      of [auth_routes.py]; PBKDF2 is computed from Sha256, user names are normalised as
      NFKC and case folding do on Latin-1.  The theorems interleave the steps of
      concurrent logins over the throttle, and follow sequences of requests.
    - WorkflowSchemas, Workflows: [data_factory_schemas.py],
      [data_factory_repository.py]; the validators of workflow definitions and the
      repository of workflows, whose definitions Graph validates and Flow runs.
    - LoadTests: [load_test_domain.py], [load_test_repository.py], the target of
      [load_test_schemas.py] and [load_test_service.py]; what the load generator reports,
      how it ends and when other threads signal the run are arguments of [_execute].
    - LoadAuth, LoadRequests, LoadTraffic: [load_test_auth.py] and
      [load_test_executor.py], the load generator: the configuration of a login, the
      templates, destinations and requests, and the metrics and workers.  The workers
      are machines over a shared state and the theorems quantify over their schedules.
    - SourceStore, HostSources, SourceImport: [source_store.py], [source_import.py]:
      scripts and archives stored under their digest and put into a workspace; the
      references ([SourceReferences]) and the properties (SourceStoreTheorems,
      SourceProperties) are proved over the file system.
    - SecretFiles: [secret_files.py], [runner/secrets.py]: secrets staged on a tmpfs.
    - Artifacts: [artifacts.py]: the stores and the collector of what a runner left.
    - DockerExecutor: [docker_executor.py], [runner/container_entrypoint.py]: both ends
      of a containerised execution; DockerTheorems: what it leaves behind,
      DockerTransport: its transport.
    - Agent: [runner/agent.py], [runner/adapters/base.py]; the agent is proved against
      the class [AdapterLaw], of which SubprocessAdapter ([adapters/subprocess.py]) and
      HttpAdapter ([adapters/http.py]) are instances.  HostExecutor
      ([services/host_executor.py]) runs it over the file system.
    - Files named [...Theorems] have the theorems of a component and often the
      instances and witnesses; files named [...Examples] have the witnesses of several.

    ** What the theorems show

    Runs: every reachable repository is well formed, no history is rewritten, events are
    stored exactly once and a reader that resumes misses none; keys are idempotent.
    Executions: with a repository that changes under it, [execute] returns what is
    stored, ends attempt and run, and handles a cancellation (cases where the code
    stops short are stated: a retry of a cancelled run, a workflow whose last nodes
    are skipped, an HTTP assertion that indexes past a list, a load test cancelled as it
    ends).  The SQL repository refines the one in memory on the calls that [portable] admits,
    also when creations race; a blank key is not among them.  Retries are bounded.
    Workflows: validation is exactly acyclicity with the checks of the code, and the
    executor runs each node once in dependency order.  Assets: revisions are append-only
    and pinned, stale versions never overwrite, names are unique.  Secrets: a value
    decrypts only in its place, and a capability is spent once.  Plans: execution is idempotent and never above
    [max_parallel], the dispatch loop ends.  Parameters and connectors: stored values
    keep their types and credentials.  Sessions: a cookie is worth what was granted for
    it, and failed logins are bounded under concurrency.  Stored workflows stay
    executable.  Load tests: one active run each, and an execution always ends its run
    with every response stored once, whenever other threads cancel it; a test by count
    sends the request of every index once, round robin, under every schedule and ends, its
    requests reach permitted addresses only, and what is kept of complete JSON answers shows
    no credential (a cut answer keeps them, which is stated).  Tests of connectors reach
    permitted addresses only and their discovery is bounded.  Sources: a workspace gets the
    bytes that were stored, and nothing outside it changes.  Executors: no secret, spool or
    capability outlives an execution, the transport delivers the events of the agent in
    order, with and without a spool, and what the agent announces the collector finds
    unless its name or path is too long.  The agent numbers its events without a gap and
    reports unless its sink fails or the artifacts exceed their limits; scripts read back
    their parameters, and streaming changes no result; before each HTTP request its host was
    found to be public and the clock read (the connection resolves the name once more, which
    the code does not check), and the outcome is that of the first required step that
    failed.  The properties are numbered C1, C2, ... in
    the comments.

    ** Fuel

    [traverse] (Graph) gets the number of nodes plus one, since each round removes a
    node; [skip_all] and [run_waves] (Flow) the pending nodes plus one; [substitute]
    (Templates) the length of the text plus one; [dispatch_loop] (Dispatch) the runs in
    state CREATED plus one, since each round claims one; [loads] (Json) twice the
    characters plus two; [replace_all] (HttpAdapter), [substitute_dynamic],
    [normalize_indices] and [redact_all] (LoadRequests) the length of the text plus one
    and [chunks_of] its length.  Each bound is proved to be enough: the functions return a
    value, never the out-of-fuel one ([loads] for every text that [dumps] writes).  Path
    walks follow 40 links and [create_rounds] draws 128 names, as the system and the
    code do.

    ** Not modelled, and why

    The other SQL repositories, the table definitions and the migrations (they follow the
    pattern of the SQL run repository); the FastAPI application, the other routes and
    schemas (glue over a web framework and pydantic, whose coercion of raw bodies to
    typed fields is where the modelled schemas start); the language
    model behind case generation (network traffic); git and
    service control and the supervisor (subprocesses); the web front end.  Of what is
    modelled: the branches for Windows, signals to process groups and the thread
    schedules inside a library are left out; processes, containers, sessions, DNS and
    ciphers are arguments; the load generator reads exact microseconds where the code
    computes with floats.  A call that holds the repository's lock is one step;
    interleavings are sequences of calls, and within [RunnerManager.execute] arbitrary
    changes between its calls. *)
From stdpp Require Export base tactics list gmap strings sorting.
From Stdlib Require Export ZArith Lia.

(** ** Exceptions

    One constructor for every exception class the modelled code raises.
    [ValueError], the class the code raises from many guards, carries its
    message so that the guards stay distinguishable. *)
Inductive exn : Type :=
  (* builtins *)
  | ValueError (msg : string)
  | KeyError
  | TypeError
  | IndexError
  | RuntimeError (msg : string)
  | OverflowError
  | OtherException (name : string)
  (* services/api/domain.py *)
  | InvalidTransition
  (* services/api/repository.py *)
  | RunNotFound | IdempotencyConflict | TerminalRunConflict
  | AttemptNotFound | AttemptConflict | EventConflict
  | ArtifactNotFound | ArtifactConflict
  (* services/runner_manager.py *)
  | RunnerIdentityError
  (* services/api/quality_*.py, automation_*.py *)
  | InvalidAssetTransition | AssetVersionConflict
  | RequirementNotFound | TestCaseNotFound | TraceLinkConflict
  | ScriptNotFound | ScriptLinkConflict
  (* services/api/environment_*.py *)
  | InvalidEnvironmentTransition
  | EnvironmentNotFound | EnvironmentConflict | EnvironmentVersionConflict
  (* services/api/test_plan_*.py *)
  | InvalidTestPlanTransition
  | TestPlanNotFound | RunSpecNotFound | TestPlanConflict | TestPlanVersionConflict
  (* services/api/project_*.py *)
  | InvalidProjectTransition | ProjectNotFound | ProjectNameConflict
  | ProjectVersionConflict
  (* services/api/data_factory_*.py *)
  | WorkflowValidationError (msg : string)
  | WorkflowExecutionError (msg : string)
  | WorkflowNotFound | WorkflowConflict | WorkflowNameConflict
  | WorkflowVersionConflict
  (* services/api/environment_crypto.py *)
  | SecretEncryptionUnavailable | SecretDecryptionError
  (* services/api/parameter_repository.py *)
  | ParameterEnumNotFound | ParameterEnumConflict | ParameterEnumVersionConflict
  | ScriptParameterConflict
  (* services/api/connector_repository.py *)
  | ConnectorNotFound | ConnectorNameConflict | ConnectorVersionConflict
  | ConnectorCredentialRequired
  (* services/api/auth_repository.py *)
  | AuthAlreadyInitialized | UsernameConflict | InvalidCredentials
  (* services/api/load_test_repository.py *)
  | LoadTestNotFound | LoadTestRunNotFound | LoadTestConflict | LoadTestNameConflict
  | LoadTestVersionConflict | LoadTestActiveRunConflict
  (* services/source_store.py *)
  | SourceStoreError (msg : string)
  (* services/secret_broker.py *)
  | CapabilityRejected
  (* services/api/auth_throttle.py *)
  | LoginRateLimited
  (* builtins raised by the file system and the parsers *)
  | OSError (name : string) | TimeoutError | JSONDecodeError | UnicodeDecodeError
  (* sqlalchemy.exc *)
  | IntegrityError
  (* services/artifacts.py, secret_files.py *)
  | ArtifactUploadError (msg : string) | SecretStagingError
  (* services/docker_executor.py, host_executor.py *)
  | DockerExecutionError (msg : string) | HostExecutionError (msg : string)
  (* services/api/load_test_executor.py *)
  | LoadTestExecutionError (msg code : string) (status : option Z)
  (* services/api/connector_client.py *)
  | ConnectorConnectionError (msg : string)
  (* services/api/ai_cases.py *)
  | CaseGenerationUnavailable | CaseGenerationError (msg : string)
  (* services/api/version_control_service.py, by subclass *)
  | VersionControlError (name : string).

#[export] Instance exn_eq_dec : EqDecision exn.
Proof. solve_decision. Defined.

(** The classes of [exn] that derive from [ValueError] (the [class X(ValueError)]
    declarations of the modelled files and the errors of the parsers). *)
Definition is_ValueError (e : exn) : bool :=
  match e with
  | ValueError _ | InvalidTransition | IdempotencyConflict | TerminalRunConflict
  | AttemptConflict | EventConflict | ArtifactConflict | RunnerIdentityError
  | InvalidAssetTransition | AssetVersionConflict | TraceLinkConflict
  | ScriptLinkConflict | InvalidEnvironmentTransition | EnvironmentConflict
  | EnvironmentVersionConflict | InvalidTestPlanTransition | TestPlanConflict
  | TestPlanVersionConflict | InvalidProjectTransition | ProjectNameConflict
  | ProjectVersionConflict | WorkflowValidationError _ | WorkflowExecutionError _
  | WorkflowConflict | WorkflowNameConflict | WorkflowVersionConflict
  | ParameterEnumConflict | ParameterEnumVersionConflict | ScriptParameterConflict
  | ConnectorNameConflict | ConnectorVersionConflict | ConnectorCredentialRequired
  | AuthAlreadyInitialized | UsernameConflict | LoadTestConflict | LoadTestNameConflict
  | LoadTestVersionConflict | LoadTestActiveRunConflict | SourceStoreError _
  | JSONDecodeError | UnicodeDecodeError | LoadTestExecutionError _ _ _ => true
  | _ => false
  end.

(** [except OSError]: [TimeoutError] and the errors of the file system. *)
Definition is_OSError (e : exn) : bool :=
  match e with OSError _ | TimeoutError => true | _ => false end.

(** [type(exc).__name__]. *)
Definition exn_name (e : exn) : string :=
  match e with
  | ValueError _ => "ValueError" | KeyError => "KeyError" | TypeError => "TypeError"
  | IndexError => "IndexError" | RuntimeError _ => "RuntimeError"
  | OverflowError => "OverflowError" | OtherException name => name
  | InvalidTransition => "InvalidTransition" | RunNotFound => "RunNotFound"
  | IdempotencyConflict => "IdempotencyConflict" | TerminalRunConflict => "TerminalRunConflict"
  | AttemptNotFound => "AttemptNotFound" | AttemptConflict => "AttemptConflict"
  | EventConflict => "EventConflict" | ArtifactNotFound => "ArtifactNotFound"
  | ArtifactConflict => "ArtifactConflict" | RunnerIdentityError => "RunnerIdentityError"
  | InvalidAssetTransition => "InvalidAssetTransition"
  | AssetVersionConflict => "AssetVersionConflict"
  | RequirementNotFound => "RequirementNotFound" | TestCaseNotFound => "TestCaseNotFound"
  | TraceLinkConflict => "TraceLinkConflict" | ScriptNotFound => "ScriptNotFound"
  | ScriptLinkConflict => "ScriptLinkConflict"
  | InvalidEnvironmentTransition => "InvalidEnvironmentTransition"
  | EnvironmentNotFound => "EnvironmentNotFound" | EnvironmentConflict => "EnvironmentConflict"
  | EnvironmentVersionConflict => "EnvironmentVersionConflict"
  | InvalidTestPlanTransition => "InvalidTestPlanTransition"
  | TestPlanNotFound => "TestPlanNotFound" | RunSpecNotFound => "RunSpecNotFound"
  | TestPlanConflict => "TestPlanConflict" | TestPlanVersionConflict => "TestPlanVersionConflict"
  | InvalidProjectTransition => "InvalidProjectTransition" | ProjectNotFound => "ProjectNotFound"
  | ProjectNameConflict => "ProjectNameConflict"
  | ProjectVersionConflict => "ProjectVersionConflict"
  | WorkflowValidationError _ => "WorkflowValidationError"
  | WorkflowExecutionError _ => "WorkflowExecutionError" | WorkflowNotFound => "WorkflowNotFound"
  | WorkflowConflict => "WorkflowConflict" | WorkflowNameConflict => "WorkflowNameConflict"
  | WorkflowVersionConflict => "WorkflowVersionConflict"
  | SecretEncryptionUnavailable => "SecretEncryptionUnavailable"
  | SecretDecryptionError => "SecretDecryptionError"
  | ParameterEnumNotFound => "ParameterEnumNotFound"
  | ParameterEnumConflict => "ParameterEnumConflict"
  | ParameterEnumVersionConflict => "ParameterEnumVersionConflict"
  | ScriptParameterConflict => "ScriptParameterConflict"
  | ConnectorNotFound => "ConnectorNotFound"
  | ConnectorNameConflict => "ConnectorNameConflict"
  | ConnectorVersionConflict => "ConnectorVersionConflict"
  | ConnectorCredentialRequired => "ConnectorCredentialRequired"
  | AuthAlreadyInitialized => "AuthAlreadyInitialized"
  | UsernameConflict => "UsernameConflict" | InvalidCredentials => "InvalidCredentials"
  | LoadTestNotFound => "LoadTestNotFound"
  | LoadTestRunNotFound => "LoadTestRunNotFound"
  | LoadTestConflict => "LoadTestConflict"
  | LoadTestNameConflict => "LoadTestNameConflict"
  | LoadTestVersionConflict => "LoadTestVersionConflict"
  | LoadTestActiveRunConflict => "LoadTestActiveRunConflict"
  | SourceStoreError _ => "SourceStoreError"
  | CapabilityRejected => "CapabilityRejected" | LoginRateLimited => "LoginRateLimited"
  | OSError name => name | TimeoutError => "TimeoutError"
  | JSONDecodeError => "JSONDecodeError" | UnicodeDecodeError => "UnicodeDecodeError"
  | IntegrityError => "IntegrityError" | ArtifactUploadError _ => "ArtifactUploadError"
  | SecretStagingError => "SecretStagingError"
  | DockerExecutionError _ => "DockerExecutionError"
  | HostExecutionError _ => "HostExecutionError"
  | LoadTestExecutionError _ _ _ => "LoadTestExecutionError"
  | ConnectorConnectionError _ => "ConnectorConnectionError"
  | CaseGenerationUnavailable => "CaseGenerationUnavailable"
  | CaseGenerationError _ => "CaseGenerationError" | VersionControlError name => name
  end%string.

(** ** Results and the state-and-exception monad *)

Inductive res (A : Type) : Type :=
  | Ok (a : A)
  | Err (e : exn).
Arguments Ok {A} a.
Arguments Err {A} e.

#[export] Instance res_eq_dec {A} `{EqDecision A} : EqDecision (res A).
Proof. solve_decision. Defined.

Definition is_ok {A} (r : res A) : bool := match r with Ok _ => true | Err _ => false end.

(** [M S A]: a Python call that may raise and that works on an object of state
    [S]; an exception keeps the state reached when it was raised. *)
Definition M (S A : Type) : Type := S -> res A * S.

Definition ret {S A} (a : A) : M S A := fun s => (Ok a, s).
Definition raise {S A} (e : exn) : M S A := fun s => (Err e, s).
Definition lift {S A} (r : res A) : M S A := fun s => (r, s).
Definition get {S} : M S S := fun s => (Ok s, s).
Definition put {S} (s' : S) : M S unit := fun _ => (Ok tt, s').
Definition bind {S A B} (c : M S A) (k : A -> M S B) : M S B := fun s =>
  match c s with
  | (Ok a, s') => k a s'
  | (Err e, s') => (Err e, s')
  end.
Definition rbind {A B} (r : res A) (k : A -> res B) : res B :=
  match r with Ok a => k a | Err e => Err e end.

(** [try: c except <handled>: h]: the handler runs on the state the exception left. *)
Definition try_except {S A} (c : M S A) (handled : exn -> bool) (h : exn -> M S A) : M S A :=
  fun s => match c s with
           | (Err e, s') => if handled e then h e s' else (Err e, s')
           | r => r
           end.

(** [try: c finally: last]. *)
Definition try_finally {S A} (c : M S A) (last : M S unit) : M S A := fun s =>
  let '(r, s1) := c s in
  match last s1 with
  | (Ok _, s2) => (r, s2)
  | (Err e, s2) => (Err e, s2)
  end.

(** [except Exception]: every exception of the model derives from [Exception]. *)
Definition any_exn (e : exn) : bool := true.

Declare Scope py_scope.
Delimit Scope py_scope with py.
Notation "'let*' x ':=' c 'in' k" := (bind c (fun x => k))
  (at level 10, x name, c at level 100, k at level 200) : py_scope.
Notation "'let*' ' p ':=' c 'in' k" := (bind c (fun p => k))
  (at level 10, p strict pattern, c at level 100, k at level 200) : py_scope.
Notation "c ;;; k" := (bind c (fun _ => k)) (at level 199, right associativity) : py_scope.
Notation "'let?' x ':=' c 'in' k" := (rbind c (fun x => k))
  (at level 10, x name, c at level 100, k at level 200) : py_scope.
Notation "'let?' ' p ':=' c 'in' k" := (rbind c (fun p => k))
  (at level 10, p strict pattern, c at level 100, k at level 200) : py_scope.
#[global] Open Scope py_scope.

(** [for x in xs: body]: the body runs on each element in turn and an exception
    stops the loop. *)
Fixpoint for_each {S A} (xs : list A) (body : A -> M S unit) : M S unit :=
  match xs with
  | [] => ret tt
  | x :: rest => body x ;;; for_each rest body
  end.

(** A list comprehension whose element expression may raise. *)
Fixpoint rmap {A B} (f : A -> res B) (xs : list A) : res (list B) :=
  match xs with
  | [] => Ok []
  | x :: rest => let? y := f x in let? ys := rmap f rest in Ok (y :: ys)
  end.

(** A loop that threads an accumulator and may raise. *)
Fixpoint rfold {A B} (f : B -> A -> res B) (acc : B) (xs : list A) : res B :=
  match xs with
  | [] => Ok acc
  | x :: rest => let? acc' := f acc x in rfold f acc' rest
  end.

(** ** Identifiers and clock readings

    [UUID] is the 128-bit integer Python orders and hashes it by; [datetime] is
    UTC, in microseconds since the epoch.  [uuid4()] results and clock readings
    are arguments of the operations: an operation takes a clock whose [i]-th
    reading is the [i]-th call of [datetime.now(timezone.utc)] it makes. *)
Notation uuid := N (only parsing).
Notation datetime := Z (only parsing).
Definition clock : Type := nat -> datetime.

(** [datetime.max] is the last microsecond of year 9999. *)
Definition DATETIME_MIN : datetime := (-62135596800000000)%Z.
Definition DATETIME_MAX : datetime := 253402300799999999%Z.

(** [now + timedelta(seconds=n)] raises [OverflowError] outside the range. *)
Definition add_seconds (now : datetime) (n : Z) : res datetime :=
  let t := (now + n * 1000000)%Z in
  if ((DATETIME_MIN <=? t) && (t <=? DATETIME_MAX))%Z then Ok t else Err OverflowError.

(** ** Stable sorting, [sorted(xs, key=...)] *)

(** [insert_sorted leb x ys] puts [x] before the first element it is not
    greater than. *)
Fixpoint insert_sorted {A} (leb : A -> A -> bool) (x : A) (ys : list A) : list A :=
  match ys with
  | [] => [x]
  | y :: rest => if leb x y then x :: ys else y :: insert_sorted leb x rest
  end.

Definition py_sorted {A} (leb : A -> A -> bool) (xs : list A) : list A :=
  foldr (insert_sorted leb) [] xs.

(** Sort by an integer key, by a key pair of an integer and a UUID. *)
Definition by_key {A} (key : A -> Z) (x y : A) : bool := (key x <=? key y)%Z.
Definition by_key2 {A} (k1 : A -> Z) (k2 : A -> N) (x y : A) : bool :=
  ((k1 x <? k1 y) || ((k1 x =? k1 y) && (Z.of_N (k2 x) <=? Z.of_N (k2 y))))%Z.

(** ** Properties of calls *)

(** An exception leaves the object as it was. *)
Definition atomic {S A} (c : M S A) : Prop :=
  forall s e s', c s = (Err e, s') -> s' = s.

(** Whatever the outcome, the call's effect on the object is in [R]. *)
Definition steps {S A} (R : S -> S -> Prop) (c : M S A) : Prop :=
  forall s, R s (c s).2.

(** Whatever the outcome, the call keeps [I]. *)
Definition preserves {S A} (I : S -> Prop) (c : M S A) : Prop :=
  forall s, I s -> I (c s).2.

(** ** Tactics *)

Ltac py_unfold :=
  unfold bind, rbind, lift, get, put, raise, ret, try_except, any_exn in *; cbn beta iota in *.

(** Case analysis on the guards of the code in the goal. *)
Ltac py_case :=
  repeat (match goal with
          | |- context [match ?x with _ => _ end] =>
              lazymatch x with
              | context [match _ with _ => _ end] => fail
              | _ => destruct x eqn:?
              end
          end; cbn [fst snd] in *).

(** The same on the hypothesis [H] that says what a call returned. *)
Ltac py_inv H :=
  repeat (match type of H with
          | context [match ?x with _ => _ end] =>
              lazymatch x with
              | context [match _ with _ => _ end] => fail
              | _ => destruct x eqn:?
              end
          end; try discriminate H; cbn [fst snd] in H);
  simplify_eq.

Ltac bool_prop :=
  repeat match goal with
         | H : (_ && _)%bool = true |- _ => apply andb_true_iff in H as [? ?]
         | H : (_ && _)%bool = false |- _ => apply andb_false_iff in H
         | H : (_ || _)%bool = true |- _ => apply orb_true_iff in H
         | H : (_ || _)%bool = false |- _ => apply orb_false_iff in H as [? ?]
         | H : negb _ = true |- _ => apply negb_true_iff in H
         | H : negb _ = false |- _ => apply negb_false_iff in H
         | H : bool_decide _ = true |- _ => apply bool_decide_eq_true in H
         | H : bool_decide _ = false |- _ => apply bool_decide_eq_false in H
         | H : (_ <=? _)%Z = true |- _ => apply Z.leb_le in H
         | H : (_ <=? _)%Z = false |- _ => apply Z.leb_gt in H
         | H : (_ <? _)%Z = true |- _ => apply Z.ltb_lt in H
         | H : (_ <? _)%Z = false |- _ => apply Z.ltb_ge in H
         | H : (_ =? _)%Z = true |- _ => apply Z.eqb_eq in H
         | H : (_ =? _)%Z = false |- _ => apply Z.eqb_neq in H
         | H : (_ <=? _)%nat = true |- _ => apply Nat.leb_le in H
         | H : (_ <=? _)%nat = false |- _ => apply Nat.leb_gt in H
         | H : (_ <? _)%nat = true |- _ => apply Nat.ltb_lt in H
         | H : (_ <? _)%nat = false |- _ => apply Nat.ltb_ge in H
         end.

(** ** Lemmas on calls *)

Section calls.
  Context {S : Type}.

Lemma bind_Ok {A B} (c : M S A) (k : A -> M S B) s b s' :
  bind c k s = (Ok b, s') <-> exists a s1, c s = (Ok a, s1) /\ k a s1 = (Ok b, s').
Proof.
  unfold bind. split.
  - destruct (c s) as [[a|e] s1] eqn:E; [eauto | discriminate].
  - by intros (a & s1 & -> & ?).
Qed.

Lemma rbind_Ok {A B} (r : res A) (k : A -> res B) b :
  rbind r k = Ok b <-> exists a, r = Ok a /\ k a = Ok b.
Proof.
  destruct r as [a|e]; simpl; split; [eauto | by intros (a' & [= <-] & ?) | done | by intros (? & ? & ?)].
Qed.

Lemma preserves_bind {A B} (I : S -> Prop) (c : M S A) (k : A -> M S B) :
  preserves I c -> (forall a, preserves I (k a)) -> preserves I (bind c k).
Proof.
  intros Hc Hk s Hs. specialize (Hc s Hs). unfold bind.
  destruct (c s) as [[a|e] s1]; simpl in *; [by apply Hk | done].
Qed.

Lemma preserves_lift {A} (I : S -> Prop) (r : res A) : preserves I (lift (S:=S) r).
Proof. by intros s Hs. Qed.

Lemma preserves_get (I : S -> Prop) : preserves I (get (S:=S)).
Proof. by intros s Hs. Qed.

Lemma preserves_for_each {A} (I : S -> Prop) (xs : list A) body :
  (forall x, preserves I (body x)) -> preserves I (for_each xs body).
Proof.
  intros Hb. induction xs as [|x xs IH]; simpl; [by intros s Hs |].
  by apply preserves_bind.
Qed.

Lemma steps_bind {A B} (R : S -> S -> Prop) `{!Transitive R} (c : M S A) (k : A -> M S B) :
  steps R c -> (forall a, steps R (k a)) -> steps R (bind c k).
Proof.
  intros Hc Hk s. specialize (Hc s). unfold bind.
  destruct (c s) as [[a|e] s1]; simpl in *; [| done].
  etrans; [exact Hc | apply Hk].
Qed.

Lemma steps_for_each {A} (R : S -> S -> Prop) `{!PreOrder R} (xs : list A) body :
  (forall x, steps R (body x)) -> steps R (for_each xs body).
Proof.
  intros Hb. induction xs as [|x xs IH]; simpl; [by intros s |].
  by apply (steps_bind _).
Qed.

Lemma steps_ret {A} (R : S -> S -> Prop) `{!PreOrder R} (x : A) : steps R (ret x).
Proof. intros s. cbn. reflexivity. Qed.
Lemma steps_raise {A} (R : S -> S -> Prop) `{!PreOrder R} e : steps R (@raise S A e).
Proof. intros s. cbn. reflexivity. Qed.
Lemma steps_get (R : S -> S -> Prop) `{!PreOrder R} : steps R (@get S).
Proof. intros s. cbn. reflexivity. Qed.
Lemma steps_lift {A} (R : S -> S -> Prop) `{!PreOrder R} (r : res A) : steps R (lift r).
Proof. intros s. cbn. reflexivity. Qed.
Lemma steps_try {A} (R : S -> S -> Prop) `{!PreOrder R} (c : M S A) p h :
  steps R c -> (forall e, steps R (h e)) -> steps R (try_except c p h).
Proof.
  intros Hc Hh s. unfold try_except. specialize (Hc s). destruct (c s) as [[x|e] s1]; cbn [snd] in *; [done |].
  destruct (p e); [| done]. etrans; [exact Hc | apply Hh].
Qed.
Lemma steps_finally {A} (R : S -> S -> Prop) `{!PreOrder R} (c : M S A) l :
  steps R c -> steps R l -> steps R (try_finally c l).
Proof.
  intros Hc Hl s. unfold try_finally. specialize (Hc s). destruct (c s) as [r s1]. cbn [snd] in *.
  specialize (Hl s1). destruct (l s1) as [[[]|e] s2]; cbn [snd] in *; by etrans.
Qed.
End calls.

Lemma rmap_Ok {A B} (f : A -> res B) xs ys :
  rmap f xs = Ok ys <-> Forall2 (fun x y => f x = Ok y) xs ys.
Proof.
  revert ys. induction xs as [|x xs IH]; intros ys; simpl.
  { split; [intros [= <-]; constructor | by inversion 1]. }
  rewrite rbind_Ok. setoid_rewrite rbind_Ok. split.
  - intros (y & Hy & ys' & Hys & [= <-]). constructor; [done |]. by apply IH.
  - inversion 1; subst. eexists; split; [done |]. eexists; split; [by apply IH | done].
Qed.

Lemma rmap_Err {A B} (f : A -> res B) xs e : rmap f xs = Err e -> exists x, x ∈ xs /\ f x = Err e.
Proof.
  induction xs as [|x xs IH]; simpl; [done |].
  destruct (f x) as [y|e'] eqn:Ex; simpl.
  - destruct (rmap f xs) as [ys|e'']; simpl; [done |].
    intros [= ->]. destruct IH as (z & ? & ?); [done |]. exists z. split; [by right | done].
  - intros [= ->]. exists x. split; [by left | done].
Qed.

Lemma elem_of_map {A B} (f : A -> B) (l : list A) y : y ∈ map f l <-> exists x, y = f x /\ x ∈ l.
Proof. rewrite list_elem_of_In, in_map_iff. setoid_rewrite list_elem_of_In. naive_solver. Qed.

Lemma NoDup_map_filter {A B} (f : A -> B) (keep : A -> bool) l :
  NoDup (map f l) -> NoDup (map f (List.filter keep l)).
Proof.
  induction l as [|x l IH]; simpl; [done |]. intros [Hx Hl]%NoDup_cons.
  destruct (keep x); simpl; [| by apply IH]. apply NoDup_cons. split; [| by apply IH].
  intros Hin. apply Hx. apply elem_of_map in Hin as (y & Hy & Hi). apply elem_of_map. exists y.
  split; [done |]. apply list_elem_of_In, filter_In in Hi as [Hi _]. by apply list_elem_of_In.
Qed.

(** ** Lemmas on sorting *)

Section sorting.
  Context {A : Type} (leb : A -> A -> bool).

Lemma insert_sorted_perm x ys : insert_sorted leb x ys ≡ₚ x :: ys.
Proof.
  induction ys as [|y ys IH]; simpl; [done |].
  destruct (leb x y); [done |]. rewrite IH. apply Permutation_swap.
Qed.

Lemma py_sorted_perm xs : py_sorted leb xs ≡ₚ xs.
Proof. induction xs as [|x xs IH]; simpl; [done |]. by rewrite insert_sorted_perm, IH. Qed.

Lemma elem_of_py_sorted x xs : x ∈ py_sorted leb xs <-> x ∈ xs.
Proof. by rewrite py_sorted_perm. Qed.

Lemma py_sorted_length xs : length (py_sorted leb xs) = length xs.
Proof. by rewrite py_sorted_perm. Qed.

Lemma insert_sorted_Sorted x ys :
  (forall a b, leb a b = false -> leb b a = true) ->
  Sorted (fun a b => leb a b = true) ys ->
  Sorted (fun a b => leb a b = true) (insert_sorted leb x ys).
Proof.
  intros Htot. induction 1 as [|y ys Hs IH Hd]; simpl; [by repeat constructor |].
  destruct (leb x y) eqn:E; [by repeat constructor |].
  constructor; [done |]. destruct Hd as [|z ys Hz]; simpl.
  - constructor. auto.
  - destruct (leb x z); constructor; auto.
Qed.

Lemma py_sorted_Sorted xs :
  (forall a b, leb a b = false -> leb b a = true) ->
  Sorted (fun a b => leb a b = true) (py_sorted leb xs).
Proof.
  intros Htot. induction xs as [|x xs IH]; simpl; [constructor |].
  by apply insert_sorted_Sorted.
Qed.
End sorting.

Lemma by_key_total {A} (key : A -> Z) a b : by_key key a b = false -> by_key key b a = true.
Proof. unfold by_key. intros ?%Z.leb_gt. apply Z.leb_le. lia. Qed.

Lemma by_key2_total {A} (k1 : A -> Z) (k2 : A -> N) a b :
  by_key2 k1 k2 a b = false -> by_key2 k1 k2 b a = true.
Proof.
  unfold by_key2. intros [H1 H2]%orb_false_iff. bool_prop.
  apply orb_true_iff. destruct H2 as [H2|H2]; bool_prop.
  - left. apply Z.ltb_lt. lia.
  - destruct (decide (k1 a = k1 b)).
    + right. apply andb_true_iff. rewrite Z.eqb_eq, Z.leb_le. lia.
    + left. apply Z.ltb_lt. lia.
Qed.

(** Sorting by a key that tells the elements apart. *)
Section strict.
  Context {A : Type} (key : A -> Z).

Definition key_lt (x y : A) : Prop := (key x < key y)%Z.

Lemma strict_sorted_unique l1 l2 :
  StronglySorted key_lt l1 -> StronglySorted key_lt l2 -> (forall x, x ∈ l1 <-> x ∈ l2) -> l1 = l2.
Proof.
  intros H1. revert l2. induction H1 as [|x l1 H1 IH Hx]; intros l2 H2 Heq.
  - destruct l2 as [|y l2]; [done |]. exfalso. apply (not_elem_of_nil y), Heq. by left.
  - destruct H2 as [|y l2 H2 Hy].
    { exfalso. apply (not_elem_of_nil x), Heq. by left. }
    rewrite Forall_forall in Hx, Hy. unfold key_lt in *.
    assert (x = y) as ->.
    { assert (x ∈ y :: l2) as [?|Hxy]%elem_of_cons by (apply Heq; by left); [done |].
      assert (y ∈ x :: l1) as [?|Hyx]%elem_of_cons by (apply Heq; by left); [done |].
      apply Hy in Hxy. apply Hx in Hyx. lia. }
    f_equal. apply IH; [done |]. intros z. split; intros Hz.
    + assert (z ∈ y :: l2) as [->|?]%elem_of_cons by (apply Heq; by right); [| done].
      apply Hx in Hz. lia.
    + assert (z ∈ y :: l1) as [->|?]%elem_of_cons by (apply Heq; by right); [| done].
      apply Hy in Hz. lia.
Qed.

Lemma strict_sorted_app l1 l2 :
  StronglySorted key_lt l1 -> StronglySorted key_lt l2 ->
  (forall x y, x ∈ l1 -> y ∈ l2 -> key_lt x y) -> StronglySorted key_lt (l1 ++ l2).
Proof.
  intros H1 H2. induction H1 as [|x l1 H1 IH Hx]; simpl; intros H12; [done |].
  constructor; [apply IH; intros; apply H12; [by right | done] |].
  apply Forall_app. split; [done |]. apply Forall_forall. intros y Hy. apply H12; [by left | done].
Qed.

Lemma py_sorted_strict xs :
  NoDup xs -> (forall x y, x ∈ xs -> y ∈ xs -> key x = key y -> x = y) ->
  StronglySorted key_lt (py_sorted (by_key key) xs).
Proof.
  intros Hnd Hinj.
  assert (StronglySorted (fun a b => by_key key a b = true) (py_sorted (by_key key) xs)) as Hs.
  { apply Sorted_StronglySorted.
    - intros a b c. unfold by_key. rewrite !Z.leb_le. lia.
    - apply py_sorted_Sorted, by_key_total. }
  assert (NoDup (py_sorted (by_key key) xs)) as Hnd' by by rewrite py_sorted_perm.
  assert (forall x, x ∈ py_sorted (by_key key) xs -> x ∈ xs) as Hin
    by (intros x; by rewrite elem_of_py_sorted).
  revert Hs Hnd' Hin. generalize (py_sorted (by_key key) xs). intros l Hs.
  induction Hs as [|x l Hs IH Hx]; intros Hnd' Hin; [constructor |].
  apply NoDup_cons in Hnd' as [Hx' Hnd']. constructor.
  - apply IH; [done |]. intros y Hy. apply Hin. by right.
  - rewrite Forall_forall in Hx |- *. intros y Hy. unfold key_lt.
    specialize (Hx y Hy). unfold by_key in Hx. apply Z.leb_le in Hx.
    destruct (decide (key x = key y)) as [He|]; [| lia].
    apply Hinj in He; [by subst | by apply Hin; left | by apply Hin; right].
Qed.
End strict.

Create HintDb py discriminated.
Create HintDb steps.
#[export] Hint Resolve steps_ret steps_raise steps_get steps_lift : steps.
#[export] Hint Extern 1 (PreOrder _) => typeclasses eauto : steps.

(** Break a call into its parts, each a step of the relation. *)
Ltac by_steps :=
  repeat first
    [ progress auto with steps
    | simple apply steps_bind; [typeclasses eauto | | intros ?]
    | simple apply steps_try; [typeclasses eauto | | intros ?]
    | simple apply steps_finally; [typeclasses eauto | |]
    | simple apply steps_for_each; [typeclasses eauto | intros ?]
    | case_match ].
#[export] Hint Resolve preserves_bind preserves_lift preserves_get preserves_for_each : py.
#[export] Hint Resolve by_key_total by_key2_total : py.
