(* ===== verification/PyDict.v ===== *)
(** * Python dictionaries

    [pydict K V] is a [dict]: a finite map that iterates in insertion order.
    Assigning to a present key keeps its place, a new key goes to the end, and
    [del]/[pop] closes the gap.  The record carries the proof that keys do not
    repeat, so [d !! k] and membership in [d.items()] agree without a side
    condition.  [to_gmap] relates it to stdpp's unordered finite maps. *)
From S2P Require Import Prelude.

Fixpoint assoc {K V} `{EqDecision K} (k : K) (l : list (K * V)) : option V :=
  match l with
  | [] => None
  | (k', v) :: rest => if decide (k = k') then Some v else assoc k rest
  end.

Fixpoint assoc_set {K V} `{EqDecision K} (k : K) (v : V) (l : list (K * V)) : list (K * V) :=
  match l with
  | [] => [(k, v)]
  | (k', v') :: rest =>
      if decide (k = k') then (k, v) :: rest else (k', v') :: assoc_set k v rest
  end.

Fixpoint assoc_del {K V} `{EqDecision K} (k : K) (l : list (K * V)) : list (K * V) :=
  match l with
  | [] => []
  | (k', v') :: rest => if decide (k = k') then rest else (k', v') :: assoc_del k rest
  end.

Lemma assoc_set_keys_elem {K V} `{EqDecision K} (k : K) (v : V) l x :
  x ∈ (assoc_set k v l).*1 <-> x = k \/ x ∈ l.*1.
Proof.
  induction l as [|[k' v'] l IH]; simpl; [set_solver |].
  case_decide; simpl; set_solver.
Qed.

Lemma assoc_del_keys_elem {K V} `{EqDecision K} (k : K) (l : list (K * V)) x :
  x ∈ (assoc_del k l).*1 -> x ∈ l.*1.
Proof. induction l as [|[k' v'] l IH]; simpl; [done |]. case_decide; simpl; set_solver. Qed.

Lemma assoc_set_nodup {K V} `{EqDecision K} (k : K) (v : V) l :
  NoDup l.*1 -> NoDup (assoc_set k v l).*1.
Proof.
  induction l as [|[k' v'] l IH]; simpl; [repeat constructor; set_solver |].
  intros [Hn Hl]%NoDup_cons. case_decide; simpl; subst; [by apply NoDup_cons |].
  apply NoDup_cons. split; [| by apply IH].
  rewrite assoc_set_keys_elem. intros [->|?]; done.
Qed.

Lemma assoc_del_nodup {K V} `{EqDecision K} (k : K) (l : list (K * V)) :
  NoDup l.*1 -> NoDup (assoc_del k l).*1.
Proof.
  induction l as [|[k' v'] l IH]; simpl; [done |].
  intros [Hn Hl]%NoDup_cons. case_decide; simpl; [done |].
  apply NoDup_cons. split; [| by apply IH].
  by intros ?%assoc_del_keys_elem.
Qed.

Lemma filter_fst_nodup {K V} (P : K * V -> Prop) `{!forall x, Decision (P x)} (l : list (K * V)) :
  NoDup l.*1 -> NoDup (filter P l).*1.
Proof.
  induction l as [|[k v] l IH]; simpl; [done |].
  intros [Hn Hl]%NoDup_cons. rewrite filter_cons. case_decide; simpl; [| auto].
  apply NoDup_cons. split; [| auto].
  intros (y & -> & Hy)%list_elem_of_fmap. apply Hn.
  apply list_elem_of_fmap. exists y. split; [done |].
  by apply list_elem_of_filter in Hy as [_ ?].
Qed.

Record pydict (K V : Type) `{EqDecision K} := PyDict {
  items : list (K * V);
  items_nodup : NoDup items.*1
}.
Arguments PyDict {K V _} items items_nodup.
Arguments items {K V _} _.
Arguments items_nodup {K V _} _.

Section ops.
  Context {K V : Type} `{EqDecision K}.
  Implicit Types (d : pydict K V) (k : K) (v : V).

#[export] Instance pydict_empty : Empty (pydict K V) := PyDict [] NoDup_nil_2.
#[export] Instance pydict_lookup : Lookup K V (pydict K V) := fun k d => assoc k (items d).
#[export] Instance pydict_insert : Insert K V (pydict K V) := fun k v d =>
  PyDict (assoc_set k v (items d)) (assoc_set_nodup k v (items d) (items_nodup d)).
#[export] Instance pydict_delete : Delete K (pydict K V) := fun k d =>
  PyDict (assoc_del k (items d)) (assoc_del_nodup k (items d) (items_nodup d)).
#[export] Instance pydict_size : Size (pydict K V) := fun d => length (items d).

(** [d.keys()], [d.values()], [k in d]. *)
Definition keys d : list K := (items d).*1.
Definition values d : list V := (items d).*2.
Definition has_key k d : bool := bool_decide (is_Some (d !! k)).

(** [d.update(pairs)]. *)
Definition update (pairs : list (K * V)) d : pydict K V :=
  fold_left (fun acc kv => <[kv.1 := kv.2]> acc) pairs d.

(** [{k: v for k, v in d.items() if keep(k, v)}]. *)
Definition dict_filter (keep : K * V -> bool) d : pydict K V :=
  PyDict (filter (fun kv => Is_true (keep kv)) (items d)) (filter_fst_nodup _ _ (items_nodup d)).

(** [d[k]]: a [KeyError] when absent. *)
Definition subscript k d : res V := match d !! k with Some v => Ok v | None => Err KeyError end.

(** [{k: v for ...}] and [{k: f(k) for k in ks}]: later pairs overwrite earlier ones. *)
Definition of_pairs (pairs : list (K * V)) : pydict K V := update pairs (PyDict [] NoDup_nil_2).

(** The unordered finite map a dictionary denotes. *)
Definition to_gmap `{Countable K} d : gmap K V := list_to_map (items d).
End ops.

#[global] Arguments pydict_lookup : simpl never.
#[global] Arguments pydict_insert : simpl never.
#[global] Arguments pydict_delete : simpl never.

(** ** Lookup laws *)

Section laws.
  Context {K V : Type} `{EqDecision K}.
  Implicit Types (d : pydict K V) (k : K) (v : V).

Lemma elem_of_items d k v : (k, v) ∈ items d <-> d !! k = Some v.
Proof.
  destruct d as [l Hl]. unfold lookup, pydict_lookup; simpl.
  induction l as [|[k' v'] l IH]; simpl in *; [set_solver |].
  apply NoDup_cons in Hl as [Hn Hl]. specialize (IH Hl).
  rewrite elem_of_cons. case_decide; subst.
  - split; [intros [[= ->]|Hin]; [done |] | intros [= ->]; by left].
    destruct Hn. apply list_elem_of_fmap. by exists (k', v).
  - rewrite <- IH. split; [intros [[= -> ->]|?]; done | by right].
Qed.

Lemma elem_of_keys d k : k ∈ keys d <-> is_Some (d !! k).
Proof.
  unfold keys. rewrite list_elem_of_fmap. split.
  - intros ([k' v] & -> & H%elem_of_items). by eexists.
  - intros [v H%elem_of_items]. by exists (k, v).
Qed.

Lemma elem_of_values d v : v ∈ values d <-> exists k, d !! k = Some v.
Proof.
  unfold values. rewrite list_elem_of_fmap. split.
  - intros ([k v'] & -> & H%elem_of_items). by exists k.
  - intros [k H%elem_of_items]. by exists (k, v).
Qed.

Lemma keys_nodup d : NoDup (keys d).
Proof. apply items_nodup. Qed.

(** Records filed under a field of their own do not repeat among the values. *)
Lemma values_nodup d (field : V -> K) :
  (forall k v, d !! k = Some v -> field v = k) -> NoDup (values d).
Proof.
  intros Hf. unfold values. apply NoDup_fmap_2_strong; [| apply NoDup_fmap_1 with fst, items_nodup].
  intros [k v] [k' v'] H1 H2 Hv. simpl in Hv. subst.
  apply elem_of_items, Hf in H1. apply elem_of_items, Hf in H2. congruence.
Qed.

Lemma has_key_true d k : has_key k d = true <-> is_Some (d !! k).
Proof. unfold has_key. by rewrite bool_decide_eq_true. Qed.

Lemma has_key_false d k : has_key k d = false <-> d !! k = None.
Proof. unfold has_key. rewrite bool_decide_eq_false. by rewrite eq_None_not_Some. Qed.

Lemma dict_lookup_empty k : (∅ : pydict K V) !! k = None.
Proof. done. Qed.

Lemma dict_lookup_insert d k k' v :
  <[k:=v]> d !! k' = if decide (k' = k) then Some v else d !! k'.
Proof.
  unfold lookup, pydict_lookup, insert, pydict_insert; simpl.
  induction (items d) as [|[k1 v1] l IH]; simpl; [done |].
  destruct (decide (k = k1)); simpl; subst; repeat case_decide; subst; try done.
Qed.

Lemma dict_lookup_insert_eq d k v : <[k:=v]> d !! k = Some v.
Proof. rewrite dict_lookup_insert. by rewrite decide_True. Qed.

Lemma dict_lookup_insert_ne d k k' v : k <> k' -> <[k:=v]> d !! k' = d !! k'.
Proof. intros. rewrite dict_lookup_insert. by rewrite decide_False. Qed.

Lemma assoc_not_elem k (l : list (K * V)) : k ∉ l.*1 -> assoc k l = None.
Proof. induction l as [|[k' v'] l IH]; simpl; [done |]. intros. case_decide; set_solver. Qed.

Lemma dict_lookup_delete d k k' :
  delete k d !! k' = if decide (k' = k) then None else d !! k'.
Proof.
  destruct d as [l Hl]. unfold lookup, pydict_lookup, delete, pydict_delete; simpl.
  induction l as [|[k1 v1] l IH]; simpl in *; [by case_decide |].
  apply NoDup_cons in Hl as [Hn Hl]. specialize (IH Hl).
  destruct (decide (k = k1)); subst; simpl.
  - repeat case_decide; subst; try done. by apply assoc_not_elem.
  - repeat case_decide; subst; done.
Qed.

Lemma dict_lookup_delete_eq d k : delete k d !! k = None.
Proof. rewrite dict_lookup_delete. by rewrite decide_True. Qed.

Lemma dict_lookup_delete_ne d k k' : k <> k' -> delete k d !! k' = d !! k'.
Proof. intros. rewrite dict_lookup_delete. by rewrite decide_False. Qed.

Lemma lookup_dict_filter keep d k :
  dict_filter keep d !! k =
    match d !! k with Some v => if keep (k, v) then Some v else None | None => None end.
Proof.
  destruct (dict_filter keep d !! k) as [v|] eqn:E.
  - apply elem_of_items in E. simpl in E. apply list_elem_of_filter in E as [Hk E].
    apply elem_of_items in E. rewrite E. simpl in Hk. by rewrite (Is_true_true_1 _ Hk).
  - destruct (d !! k) as [v|] eqn:E'; [| done].
    destruct (keep (k, v)) eqn:Hk; [| done].
    exfalso. apply elem_of_items in E'.
    assert (dict_filter keep d !! k = Some v) as Hc; [| congruence].
    apply elem_of_items. simpl. apply list_elem_of_filter. split; [| done].
    by rewrite Hk.
Qed.
End laws.

#[export] Hint Rewrite @elem_of_items @elem_of_keys @elem_of_values @has_key_true @has_key_false
  : pydict.
#[export] Hint Rewrite @dict_lookup_insert_eq @dict_lookup_delete_eq : pydict.
#[export] Hint Rewrite @dict_lookup_insert_ne @dict_lookup_delete_ne using congruence : pydict.

(** A lookup that is both absent and present, or two keys both equal and not. *)
Ltac dict_absurd :=
  solve [ match goal with
          | H1 : ?x = None, H2 : ?x = Some _ |- _ => rewrite H1 in H2; discriminate H2
          end
        | congruence ].

(** Decide every key comparison an insertion or deletion leaves in [H] or the goal. *)
Ltac dict_case :=
  repeat match goal with
         | H : context [<[?k:=_]> ?d !! ?k'] |- _ =>
             rewrite (dict_lookup_insert d k k') in H; case_decide; simplify_eq; try dict_absurd
         | |- context [<[?k:=_]> ?d !! ?k'] =>
             rewrite (dict_lookup_insert d k k'); case_decide; subst; try dict_absurd
         | H : context [delete ?k ?d !! ?k'] |- _ =>
             rewrite (dict_lookup_delete d k k') in H; case_decide; simplify_eq; try dict_absurd
         | |- context [delete ?k ?d !! ?k'] =>
             rewrite (dict_lookup_delete d k k'); case_decide; subst; try dict_absurd
         end.

(** ** Iteration order and size *)

Section order.
  Context {K V : Type} `{EqDecision K}.
  Implicit Types (d : pydict K V) (k : K) (v : V).

(** A new key is appended; a present key keeps its place. *)
Lemma items_insert_new d k v : d !! k = None -> items (<[k:=v]> d) = items d ++ [(k, v)].
Proof.
  unfold lookup, pydict_lookup, insert, pydict_insert; simpl.
  induction (items d) as [|[k' v'] l IH]; simpl; [done |].
  case_decide; [done |]. intros. by rewrite IH.
Qed.

Lemma keys_insert_old d k v : is_Some (d !! k) -> keys (<[k:=v]> d) = keys d.
Proof.
  unfold keys, lookup, pydict_lookup, insert, pydict_insert; simpl.
  induction (items d) as [|[k' v'] l IH]; simpl; [by intros [? ?] |].
  case_decide; subst; [done |]. intros. simpl. f_equal. by apply IH.
Qed.

Lemma size_insert_new d k v : d !! k = None -> size (<[k:=v]> d) = S (size d).
Proof.
  intros H. unfold size, pydict_size. rewrite items_insert_new by done.
  rewrite length_app; simpl. lia.
Qed.

Lemma size_insert_old d k v : is_Some (d !! k) -> size (<[k:=v]> d) = size d.
Proof.
  intros Hk. pose proof (keys_insert_old d k v Hk) as Hks. unfold keys in Hks.
  apply (f_equal length) in Hks. by rewrite !length_fmap in Hks.
Qed.

Context `{Countable K}.

(** The dictionary operations implement those of the finite map it denotes. *)
Lemma lookup_to_gmap d k : to_gmap d !! k = d !! k.
Proof.
  unfold to_gmap. destruct (d !! k) as [v|] eqn:E.
  - apply elem_of_list_to_map_1; [apply items_nodup | by apply elem_of_items].
  - apply not_elem_of_list_to_map_1. intros Hk. apply elem_of_keys in Hk as [v Hv]. congruence.
Qed.

Lemma to_gmap_insert d k v : to_gmap (<[k:=v]> d) = <[k:=v]> (to_gmap d).
Proof.
  apply map_eq. intros k'. rewrite lookup_to_gmap, dict_lookup_insert, lookup_insert, lookup_to_gmap.
  repeat case_decide; subst; done.
Qed.

Lemma to_gmap_delete d k : to_gmap (delete k d) = delete k (to_gmap d).
Proof.
  apply map_eq. intros k'. rewrite lookup_to_gmap, dict_lookup_delete, lookup_delete, lookup_to_gmap.
  repeat case_decide; subst; done.
Qed.
End order.

(** Two dictionaries with the same lookups: the equality that forgets the order. *)
#[export] Instance pydict_equiv {K V} `{EqDecision K} : Equiv (pydict K V) :=
  fun d1 d2 => forall k, d1 !! k = d2 !! k.

#[export] Instance pydict_equivalence {K V} `{EqDecision K} :
  Equivalence (≡@{pydict K V}).
Proof.
  split; [by intros d k | by intros d1 d2 H k | intros d1 d2 d3 H1 H2 k; by rewrite H1].
Qed.

#[export] Instance pydict_lookup_proper {K V} `{EqDecision K} (k : K) :
  Proper ((≡) ==> (=)) (lookup (M := pydict K V) k).
Proof. intros d1 d2 H. apply H. Qed.

#[export] Instance pydict_insert_proper {K V} `{EqDecision K} (k : K) (v : V) :
  Proper ((≡) ==> (≡)) (insert (M := pydict K V) k v).
Proof. intros d1 d2 H k'. rewrite !dict_lookup_insert. by rewrite H. Qed.

#[export] Instance pydict_delete_proper {K V} `{EqDecision K} (k : K) :
  Proper ((≡) ==> (≡)) (delete (M := pydict K V) k).
Proof. intros d1 d2 H k'. rewrite !dict_lookup_delete. by rewrite H. Qed.

(** [dict.update] seen through lookups: the last pair of a key wins. *)
Lemma lookup_update_ne {K V} `{EqDecision K} (pairs : list (K * V)) (d : pydict K V) k :
  k ∉ pairs.*1 -> update pairs d !! k = d !! k.
Proof.
  revert d. unfold update. induction pairs as [|[k' v'] l IH]; intros d Hk; simpl; [done |].
  rewrite IH by set_solver. apply dict_lookup_insert_ne. set_solver.
Qed.

Lemma lookup_update_in {K V} `{EqDecision K} (pairs : list (K * V)) (d : pydict K V) k v :
  NoDup pairs.*1 -> (k, v) ∈ pairs -> update pairs d !! k = Some v.
Proof.
  revert d. induction pairs as [|[k' v'] l IH]; intros d; simpl; [by intros _ ?%elem_of_nil |].
  intros [Hn Hl]%NoDup_cons Hin. apply elem_of_cons in Hin as [[= <- <-]|Hin].
  - change (update l (<[k:=v]> d) !! k = Some v). rewrite lookup_update_ne by done.
    apply dict_lookup_insert_eq.
  - by apply IH.
Qed.

Lemma lookup_of_pairs {K V} `{EqDecision K} (pairs : list (K * V)) k v :
  NoDup pairs.*1 -> (k, v) ∈ pairs -> of_pairs pairs !! k = Some v.
Proof. intros. by apply lookup_update_in. Qed.

Lemma lookup_of_pairs_None {K V} `{EqDecision K} (pairs : list (K * V)) k :
  k ∉ pairs.*1 -> of_pairs pairs !! k = None.
Proof. intros Hk. unfold of_pairs. rewrite lookup_update_ne by done. apply (dict_lookup_empty k). Qed.

Lemma lookup_of_pairs_Some {K V} `{EqDecision K} (pairs : list (K * V)) k v :
  NoDup pairs.*1 -> of_pairs pairs !! k = Some v <-> (k, v) ∈ pairs.
Proof.
  intros Hnd. split; [| by apply lookup_of_pairs]. intros Hk.
  destruct (decide (k ∈ pairs.*1)) as [Hin|Hni]; [| by rewrite lookup_of_pairs_None in Hk].
  apply list_elem_of_fmap in Hin as ([k' v'] & -> & Hin). simpl in *.
  rewrite (lookup_of_pairs _ _ _ Hnd Hin) in Hk. by injection Hk as [= ->].
Qed.

(** How many values satisfy a test. *)
Section counting.
  Context {K V : Type} `{EqDecision K} (p : V -> bool).

Definition count (d : pydict K V) : nat := length (List.filter p (values d)).

Lemma count_insert_new (d : pydict K V) k v :
  d !! k = None -> count (<[k:=v]> d) = (count d + if p v then 1 else 0)%nat.
Proof.
  intros Hk. unfold count, values. rewrite items_insert_new by done.
  rewrite fmap_app, List.filter_app, length_app. simpl. by destruct (p v).
Qed.

Lemma count_insert_old (d : pydict K V) k v v' :
  d !! k = Some v -> p v' = p v -> count (<[k:=v']> d) = count d.
Proof.
  unfold count, values, insert, lookup, pydict_insert, pydict_lookup. simpl.
  destruct d as [l Hl]. simpl. clear Hl. intros Hk Hp.
  induction l as [|[k1 v1] l IH]; simpl in *; [done |].
  case_decide; simpl; simplify_eq; [rewrite Hp; by destruct (p v) |].
  destruct (p v1); simpl; [f_equal |]; by apply IH.
Qed.
End counting.

(** Proofs use the laws above; [vm_compute] still evaluates the operations. *)
#[global] Opaque pydict_lookup pydict_insert pydict_delete.
