(* ===== verification/PyText.v ===== *)
(** * Python text and JSON values

    A [str] is a [string] whose characters are the code points 0..255 (the model
    restricts text to Latin-1).  [pyval] is the universe of the dynamically typed
    values that the code passes around as [Any]: JSON values and the immutable
    containers of [packages/protocol/models.py].  A finite [float] is the exact
    dyadic number [m * 2^e]; its [repr] is the parameter [PyFloat] of the printers. *)
From S2P Require Import Prelude.
From stdpp Require Import pretty.
From Stdlib Require Import Ascii.
Open Scope string_scope.
Open Scope list_scope.

(** ** Text *)

Definition code (c : ascii) : N := N_of_ascii c.
(** [chr(n)]. *)
Definition chr (n : N) : string := String (ascii_of_N n) EmptyString.
Definition py_len (s : string) : Z := Z.of_nat (String.length s).

(** [str.isspace] on the code points of the model. *)
Definition is_space (c : ascii) : bool :=
  let n := code c in
  ((9 <=? n) && (n <=? 13) || (28 <=? n) && (n <=? 32) || (n =? 133) || (n =? 160))%N.

Fixpoint lstrip (s : string) : string :=
  match s with
  | EmptyString => EmptyString
  | String c rest => if is_space c then lstrip rest else s
  end.

Fixpoint rstrip (s : string) : string :=
  match s with
  | EmptyString => EmptyString
  | String c rest =>
      match rstrip rest with
      | EmptyString => if is_space c then EmptyString else String c EmptyString
      | rest' => String c rest'
      end
  end.

(** [s.strip()]. *)
Definition strip (s : string) : string := rstrip (lstrip s).

(** [not s]. *)
Definition empty_str (s : string) : bool := bool_decide (s = EmptyString).

(** [s.strip()] that must hold 1 to [max] characters, the test every name goes
    through. *)
Definition bounded_text (max : Z) (msg : string) (s : string) : res string :=
  let normalized := strip s in
  if empty_str normalized || (max <? py_len normalized)%Z then Err (ValueError msg)
  else Ok normalized.

(** [str.casefold()] on the code points of the model, up to 255: the sharp s becomes
    [ss] and the micro sign the Greek letter mu, which is beyond them. *)
Definition casefold_char (c : Ascii.ascii) : list N :=
  let n := code c in
  (if ((65 <=? n) && (n <=? 90)) || ((192 <=? n) && (n <=? 222) && negb (n =? 215)) then [n + 32]
   else if n =? 223 then [115; 115]
   else if n =? 181 then [956]
   else [n])%N.
Definition casefold (s : string) : list N := concat (map casefold_char (String.list_ascii_of_string s)).

Fixpoint join (sep : string) (parts : list string) : string :=
  match parts with
  | [] => EmptyString
  | [p] => p
  | p :: rest => (p ++ sep ++ join sep rest)%string
  end.

(** ** Bytes *)

(** [s.encode("utf-8")] on the code points of the model. *)
Fixpoint utf8 (s : string) : list N :=
  match s with
  | EmptyString => []
  | String c rest =>
      let n := code c in
      if (n <? 128)%N then n :: utf8 rest
      else (192 + n / 64)%N :: (128 + n mod 64)%N :: utf8 rest
  end.

(** [bytes.decode("utf-8")] as far as it yields the text of the model: sequences for
    code points from 256 on fall under [None] like invalid bytes. *)
Fixpoint utf8_decode (l : list N) : option string :=
  match l with
  | [] => Some EmptyString
  | b :: r =>
      if (b <? 128)%N then String (ascii_of_N b) <$> utf8_decode r
      else if ((b =? 194) || (b =? 195))%N then
        match r with
        | c :: r' =>
            if ((128 <=? c) && (c <? 192))%N
            then String (ascii_of_N ((b - 192) * 64 + (c - 128))) <$> utf8_decode r'
            else None
        | [] => None
        end
      else None
  end.

Definition hex_digit (n : N) : string :=
  chr (if (n <? 10)%N then 48 + n else 87 + n)%N.

(** The [digits] low hexadecimal digits of [n], most significant first. *)
Fixpoint hex (digits : nat) (n : N) : string :=
  match digits with
  | O => EmptyString
  | S d => (hex d (n / 16) ++ hex_digit (n mod 16))%string
  end.

(** [str(uuid)]. *)
Definition uuid_str (u : uuid) : string :=
  join "-" [hex 8 (u / 2 ^ 96); hex 4 (u / 2 ^ 80); hex 4 (u / 2 ^ 64);
            hex 4 (u / 2 ^ 48); hex 12 u]%N.

(** ** Dynamically typed values *)

#[local] Unset Elimination Schemes.
Inductive pyval : Type :=
  | PNone
  | PBool (b : bool)
  | PInt (z : Z)
  | PFloat (m e : Z)
  | PStr (s : string)
  | PBytes (l : list N)
  | PBytearray (l : list N)
  | PList (l : list pyval)
  | PTuple (l : list pyval)
  | PSet (l : list pyval)
  | PFrozenset (l : list pyval)
  | PDict (kvs : list (string * pyval))
  | PFrozenMapping (kvs : list (string * pyval)).
#[local] Set Elimination Schemes.

Section pyval_ind.
  Variable P : pyval -> Prop.
  Hypotheses (HNone : P PNone) (HBool : forall b, P (PBool b)) (HInt : forall z, P (PInt z))
    (HFloat : forall m e, P (PFloat m e)) (HStr : forall s, P (PStr s))
    (HBytes : forall l, P (PBytes l)) (HBytearray : forall l, P (PBytearray l))
    (HList : forall l, Forall P l -> P (PList l))
    (HTuple : forall l, Forall P l -> P (PTuple l))
    (HSet : forall l, Forall P l -> P (PSet l))
    (HFrozenset : forall l, Forall P l -> P (PFrozenset l))
    (HDict : forall kvs, Forall (fun kv => P kv.2) kvs -> P (PDict kvs))
    (HFrozenMapping : forall kvs, Forall (fun kv => P kv.2) kvs -> P (PFrozenMapping kvs)).

Fixpoint pyval_ind (v : pyval) : P v :=
  let all := fix all (l : list pyval) : Forall P l :=
    match l with [] => Forall_nil_2 _ | x :: r => Forall_cons_2 _ _ _ (pyval_ind x) (all r) end in
  let allkv := fix allkv (l : list (string * pyval)) : Forall (fun kv => P kv.2) l :=
    match l with [] => Forall_nil_2 _ | x :: r => Forall_cons_2 _ _ _ (pyval_ind x.2) (allkv r) end in
  match v with
  | PNone => HNone | PBool b => HBool b | PInt z => HInt z | PFloat m e => HFloat m e
  | PStr s => HStr s | PBytes l => HBytes l | PBytearray l => HBytearray l
  | PList l => HList l (all l) | PTuple l => HTuple l (all l)
  | PSet l => HSet l (all l) | PFrozenset l => HFrozenset l (all l)
  | PDict l => HDict l (allkv l) | PFrozenMapping l => HFrozenMapping l (allkv l)
  end.
End pyval_ind.

#[export] Instance pyval_eq_dec : EqDecision pyval.
Proof.
  refine (fix go (x y : pyval) : {x = y} + {x <> y} := _).
  pose (list_dec := list_eq_dec (dec := go)).
  assert (forall p q : string * pyval, {p = q} + {p <> q}) as pair_dec.
  { intros [k v] [k' v']. destruct (decide (k = k')) as [->|]; [| right; congruence].
    destruct (go v v') as [->|]; [by left | right; congruence]. }
  destruct x, y; try (right; discriminate); try (left; reflexivity);
  try match goal with
      | |- {?f ?a = ?f ?b} + {_} =>
          first [ destruct (decide (a = b)) as [->|]; [left; reflexivity | right; congruence]
                | destruct (list_dec a b) as [->|]; [left; reflexivity | right; congruence]
                | destruct (list_eq_dec (dec := pair_dec) a b) as [->|];
                    [left; reflexivity | right; congruence] ]
      | |- {?f ?a ?c = ?f ?b ?d} + {_} =>
          destruct (decide (a = b)) as [->|]; [| right; congruence];
          destruct (decide (c = d)) as [->|]; [left; reflexivity | right; congruence]
      end.
Defined.

(** [dict.get(key)] on a keyword dictionary. *)
Fixpoint kv_get (k : string) (kvs : list (string * pyval)) : option pyval :=
  match kvs with
  | [] => None
  | (k', v) :: rest => if decide (k = k') then Some v else kv_get k rest
  end.

(** [d[k] = v] on a keyword dictionary. *)
Fixpoint kv_set (k : string) (v : pyval) (kvs : list (string * pyval)) : list (string * pyval) :=
  match kvs with
  | [] => [(k, v)]
  | (k', v') :: rest => if decide (k = k') then (k, v) :: rest else (k', v') :: kv_set k v rest
  end.

(** [{**a, **b}]. *)
Definition kv_merge (a b : list (string * pyval)) : list (string * pyval) :=
  fold_left (fun acc kv => kv_set kv.1 kv.2 acc) b a.

(** ** Python equality, [==] on dynamically typed values

    Numbers compare across [bool], [int] and [float]; dictionaries compare without
    regard to order, and a frozen mapping equals the dictionary with its pairs. *)
Definition as_number (v : pyval) : option (Z * Z) :=
  match v with
  | PBool b => Some (if b then 1 else 0, 0)%Z
  | PInt z => Some (z, 0%Z)
  | PFloat m e => Some (m, e)
  | _ => None
  end.

(** [m1 * 2^e1] against [m2 * 2^e2], exactly. *)
Definition dyadic_compare (x y : Z * Z) : comparison :=
  let e := Z.min x.2 y.2 in
  (x.1 * 2 ^ (x.2 - e) ?= y.1 * 2 ^ (y.2 - e))%Z.

Definition as_mapping (v : pyval) : option (list (string * pyval)) :=
  match v with PDict kvs | PFrozenMapping kvs => Some kvs | _ => None end.
Definition as_set (v : pyval) : option (list pyval) :=
  match v with PSet l | PFrozenset l => Some l | _ => None end.
Definition as_bytes (v : pyval) : option (list N) :=
  match v with PBytes l | PBytearray l => Some l | _ => None end.

Fixpoint py_eqb (a b : pyval) : bool :=
  let seq_eqb := fix seq_eqb (l : list pyval) (l' : list pyval) : bool :=
    match l, l' with
    | [], [] => true
    | x :: r, y :: r' => py_eqb x y && seq_eqb r r'
    | _, _ => false
    end in
  let map_eqb kvs b :=
    match as_mapping b with
    | Some kvs' =>
        bool_decide (length kvs = length kvs')
        && forallb (fun kv => match kv_get kv.1 kvs' with
                              | Some v' => py_eqb kv.2 v' | None => false end) kvs
    | None => false
    end in
  let set_eqb l b :=
    match as_set b with
    | Some l' => bool_decide (length l = length l')
                 && forallb (fun x => existsb (py_eqb x) l') l
    | None => false
    end in
  match a with
  | PNone => match b with PNone => true | _ => false end
  | PBool _ | PInt _ | PFloat _ _ =>
      match as_number a, as_number b with
      | Some x, Some y => match dyadic_compare x y with Eq => true | _ => false end
      | _, _ => false
      end
  | PStr s => match b with PStr s' => bool_decide (s = s') | _ => false end
  | PBytes l | PBytearray l =>
      match as_bytes b with Some l' => bool_decide (l = l') | None => false end
  | PList l => match b with PList l' => seq_eqb l l' | _ => false end
  | PTuple l => match b with PTuple l' => seq_eqb l l' | _ => false end
  | PSet l | PFrozenset l => set_eqb l b
  | PDict kvs | PFrozenMapping kvs => map_eqb kvs b
  end.

(** No key occurs twice in any dictionary of the value: what Python guarantees. *)
Fixpoint unique_keys (v : pyval) : bool :=
  match v with
  | PList l | PTuple l | PSet l | PFrozenset l => forallb unique_keys l
  | PDict kvs | PFrozenMapping kvs =>
      bool_decide (NoDup kvs.*1) && forallb (fun kv => unique_keys kv.2) kvs
  | _ => true
  end.

(** ** JSON printing, [json.dumps(value, separators=(",", ":"))] *)

Class PyFloat := float_repr : Z -> Z -> string.

Definition quote : string := chr 34.

Definition json_escape (ensure_ascii : bool) (c : ascii) : string :=
  let n := code c in
  if (n =? 34)%N then (chr 92 ++ quote)%string
  else if (n =? 92)%N then (chr 92 ++ chr 92)%string
  else if (n =? 10)%N then (chr 92 ++ "n")%string
  else if (n =? 13)%N then (chr 92 ++ "r")%string
  else if (n =? 9)%N then (chr 92 ++ "t")%string
  else if (n =? 12)%N then (chr 92 ++ "f")%string
  else if (n =? 8)%N then (chr 92 ++ "b")%string
  else if (n <? 32)%N || (ensure_ascii && (126 <? n)%N) then (chr 92 ++ "u" ++ hex 4 n)%string
  else String c EmptyString.

Fixpoint json_chars (ensure_ascii : bool) (s : string) : string :=
  match s with
  | EmptyString => EmptyString
  | String c rest => (json_escape ensure_ascii c ++ json_chars ensure_ascii rest)%string
  end.

Definition json_string (ensure_ascii : bool) (s : string) : string :=
  (quote ++ json_chars ensure_ascii s ++ quote)%string.

(** The order of [sort_keys]: by code points. *)
Fixpoint str_leb (a b : string) : bool :=
  match a, b with
  | EmptyString, _ => true
  | String _ _, EmptyString => false
  | String c a', String d b' =>
      if (code c <? code d)%N then true
      else if (code d <? code c)%N then false else str_leb a' b'
  end.

Section dumps.
  Context `{PyFloat} (sort_keys ensure_ascii : bool).

Fixpoint dumps (v : pyval) : res string :=
  let many := fix many (l : list pyval) : res (list string) :=
    match l with
    | [] => Ok []
    | x :: r => let? t := dumps x in let? ts := many r in Ok (t :: ts)
    end in
  let pairs := fix pairs (l : list (string * pyval)) : res (list (string * string)) :=
    match l with
    | [] => Ok []
    | (k, x) :: r => let? t := dumps x in let? ts := pairs r in Ok ((k, t) :: ts)
    end in
  match v with
  | PNone => Ok "null"
  | PBool b => Ok (if b then "true" else "false")
  | PInt z => Ok (pretty z)
  | PFloat m e => Ok (float_repr m e)
  | PStr s => Ok (json_string ensure_ascii s)
  | PList l | PTuple l =>
      let? ts := many l in Ok ("[" ++ join "," ts ++ "]")%string
  | PDict kvs =>
      let? ts := pairs kvs in
      let ts := if sort_keys then py_sorted (fun a b => str_leb a.1 b.1) ts else ts in
      Ok ("{" ++ join "," (map (fun kt => json_string ensure_ascii kt.1 ++ ":" ++ kt.2)%string ts)
          ++ "}")%string
  | PBytes _ | PBytearray _ | PSet _ | PFrozenset _ | PFrozenMapping _ => Err TypeError
  end.
End dumps.

(** ** Lemmas *)

Lemma is_space_strip_empty s : strip EmptyString = EmptyString /\ (lstrip s = EmptyString -> strip s = EmptyString).
Proof. split; [done |]. unfold strip. by intros ->. Qed.

Lemma lstrip_head s : match lstrip s with String c _ => is_space c = false | EmptyString => True end.
Proof. induction s as [|c s IH]; simpl; [done |]. by destruct (is_space c) eqn:E. Qed.

Lemma rstrip_head c s : is_space c = false -> exists s', rstrip (String c s) = String c s'.
Proof. intros Hc. simpl. rewrite Hc. destruct (rstrip s); eauto. Qed.

Lemma rstrip_idemp s : rstrip (rstrip s) = rstrip s.
Proof.
  induction s as [|c s IH]; [done |].
  simpl. destruct (rstrip s) as [|d t] eqn:E.
  - destruct (is_space c) eqn:Ec; [done |]. simpl. by rewrite Ec.
  - cbn [rstrip] in IH |- *. by rewrite IH.
Qed.

(** [s.strip().strip() == s.strip()]: a normalised name is its own normal form. *)
Lemma strip_idemp s : strip (strip s) = strip s.
Proof.
  unfold strip. pose proof (lstrip_head s) as Hh.
  destruct (lstrip s) as [|c t] eqn:E; [done |].
  destruct (rstrip_head c t Hh) as [t' Ht]. rewrite Ht. simpl lstrip. rewrite Hh.
  rewrite <- Ht. apply rstrip_idemp.
Qed.

Lemma strip_length s : (py_len (strip s) <= py_len s)%Z.
Proof.
  assert (forall t, String.length (rstrip t) <= String.length t)%nat as Hr.
  { induction t as [|c t IH]; [done |]. cbn [rstrip String.length]. destruct (rstrip t); [destruct (is_space c) |]; cbn in *; lia. }
  assert (String.length (lstrip s) <= String.length s)%nat as Hl.
  { induction s as [|c s IH]; [done |]. cbn [lstrip String.length]. destruct (is_space c); cbn; lia. }
  unfold py_len, strip. specialize (Hr (lstrip s)). lia.
Qed.

Lemma bounded_text_Ok max msg s n :
  bounded_text max msg s = Ok n ->
  n = strip s /\ strip n = n /\ n <> EmptyString /\ (1 <= py_len n <= max)%Z.
Proof.
  unfold bounded_text, empty_str. intros Hb. py_inv Hb. bool_prop.
  split_and!; [done | apply strip_idemp | done | | lia].
  unfold py_len. destruct (strip s); simpl in *; [done | lia].
Qed.

Lemma kv_get_set k k' v kvs :
  kv_get k' (kv_set k v kvs) = if decide (k' = k) then Some v else kv_get k' kvs.
Proof.
  induction kvs as [|[k1 v1] l IH]; simpl; [done |].
  destruct (decide (k = k1)); simpl; subst; repeat case_decide; subst; done.
Qed.

(** [{**a, **b}]: the pairs of [b] win. *)
Lemma kv_get_merge k a b :
  kv_get k (kv_merge a b) = match kv_get k (rev b) with Some v => Some v | None => kv_get k a end.
Proof.
  unfold kv_merge. revert a. induction b as [|[k1 v1] b IH]; intros a; simpl; [done |].
  rewrite IH, kv_get_set.
  assert (forall l, kv_get k (l ++ [(k1, v1)]) =
    match kv_get k l with Some v => Some v | None => if decide (k = k1) then Some v1 else None end)
    as Happ.
  { induction l as [|[k2 v2] l IHl]; simpl; [done |]. by destruct (decide (k = k2)). }
  rewrite Happ. destruct (kv_get k (rev b)); [done |]. by destruct (decide (k = k1)).
Qed.

Lemma kv_get_elem k v kvs : NoDup kvs.*1 -> (k, v) ∈ kvs -> kv_get k kvs = Some v.
Proof.
  induction kvs as [|[k' v'] l IH]; simpl; [by intros _ ?%elem_of_nil |].
  intros [Hn Hl]%NoDup_cons [[= <- <-]|Hin]%elem_of_cons; [by rewrite decide_True |].
  case_decide; subst; [| auto]. destruct Hn. apply list_elem_of_fmap. by exists (k', v).
Qed.

Lemma kv_get_is_Some k kvs : is_Some (kv_get k kvs) <-> k ∈ kvs.*1.
Proof.
  induction kvs as [|[k' v] l IH]; simpl.
  - split; [by intros [? ?] | by intros ?%elem_of_nil].
  - rewrite elem_of_cons, <- IH. case_decide; split; eauto; naive_solver.
Qed.

(** [{**a, **b}] defines what [a] or [b] defines. *)
Lemma kv_merge_is_Some k a b :
  is_Some (kv_get k (kv_merge a b)) <-> is_Some (kv_get k a) \/ k ∈ b.*1.
Proof.
  rewrite kv_get_merge.
  assert (is_Some (kv_get k (rev b)) <-> k ∈ b.*1) as Hr.
  { rewrite kv_get_is_Some. assert (rev b ≡ₚ b) as -> by (symmetry; apply Permutation_rev). done. }
  rewrite <- Hr. destruct (kv_get k (rev b)) as [v|]; split; eauto; naive_solver.
Qed.

Lemma dyadic_compare_refl x : dyadic_compare x x = Eq.
Proof. apply Z.compare_refl. Qed.

(** [v == v]. *)
Lemma py_eqb_refl v : unique_keys v = true -> py_eqb v v = true.
Proof.
  assert (forall l, Forall (fun x => unique_keys x = true -> py_eqb x x = true) l ->
    forallb unique_keys l = true -> Forall (fun x => py_eqb x x = true) l) as Hall.
  { induction 1; simpl; [constructor |]. intros [? ?]%andb_true_iff. constructor; auto. }
  assert (forall l, Forall (fun x => py_eqb x x = true) l ->
    forallb (fun x => existsb (py_eqb x) l) l = true) as Hset.
  { intros l Hl. apply forallb_forall. intros x Hx. apply existsb_exists. exists x.
    split; [done |]. rewrite Forall_forall in Hl. apply Hl. by apply list_elem_of_In. }
  assert (forall kvs, Forall (fun kv => unique_keys kv.2 = true -> py_eqb kv.2 kv.2 = true) kvs ->
    bool_decide (NoDup kvs.*1) && forallb (fun kv => unique_keys kv.2) kvs = true ->
    forallb (fun kv => match kv_get kv.1 kvs with
                       | Some v' => py_eqb kv.2 v' | None => false end) kvs = true) as Hmap.
  { intros kvs HF [Hnd Hu]%andb_true_iff. apply bool_decide_eq_true in Hnd.
    apply forallb_forall. intros [k x] Hx. apply list_elem_of_In in Hx. simpl.
    rewrite (kv_get_elem k x) by done. rewrite Forall_forall in HF. apply (HF (k, x)); [done |].
    apply (proj1 (forallb_forall _ _) Hu (k, x)). by apply list_elem_of_In. }
  induction v as [|b|z|m e|s|l|l|l IH|l IH|l IH|l IH|kvs IH|kvs IH] using pyval_ind;
    intros Hu; cbn [unique_keys] in Hu; cbn -[dyadic_compare];
    rewrite ?dyadic_compare_refl; try done;
    rewrite ?bool_decide_true by done; cbn -[dyadic_compare]; auto.
  - specialize (Hall l IH Hu). clear -Hall. induction Hall as [|x l Hx ? IHl]; [done |]. by rewrite Hx.
  - specialize (Hall l IH Hu). clear -Hall. induction Hall as [|x l Hx ? IHl]; [done |]. by rewrite Hx.
Qed.
