(* ===== verification/TextFacts.v ===== *)
(** * Facts about text

    Appending, and the unique readability of what the code prints: hexadecimal digits,
    identifiers, JSON strings, numbers and UTF-8. *)
From S2P Require Import Prelude PyText.
From stdpp Require Import pretty.
From Stdlib Require Import Ascii.
Open Scope string_scope.
Open Scope list_scope.

Lemma append_cons c (a b : string) : (String c a ++ b = String c (a ++ b))%string.
Proof. reflexivity. Qed.

Lemma append_empty (b : string) : (EmptyString ++ b = b)%string.
Proof. reflexivity. Qed.

Lemma str_app_assoc (a b c : string) : ((a ++ b) ++ c = a ++ (b ++ c))%string.
Proof. induction a as [|x a IH]; [done |]. by rewrite !append_cons, IH. Qed.

Lemma str_app_nil (a : string) : (a ++ EmptyString = a)%string.
Proof. induction a as [|x a IH]; [done |]. by rewrite append_cons, IH. Qed.

Lemma str_length_app (a b : string) : String.length (a ++ b)%string = (String.length a + String.length b)%nat.
Proof. induction a as [|x a IH]; [done |]. rewrite append_cons. simpl. by rewrite IH. Qed.

(** Texts whose first parts are equally long split in one way. *)
Lemma str_app_split (a b r r' : string) :
  String.length a = String.length b -> (a ++ r = b ++ r')%string -> a = b /\ r = r'.
Proof.
  revert b. induction a as [|c a IH]; intros [|d b]; simpl; try done.
  rewrite !append_cons. intros [= Hl] [= -> Hr]. destruct (IH _ Hl Hr) as [-> ->]. done.
Qed.

Lemma str_app_cancel_l (a r r' : string) : (a ++ r = a ++ r')%string -> r = r'.
Proof. intros H. by apply str_app_split in H as [_ ?]. Qed.

Lemma str_app_cancel_r (a b r : string) : (a ++ r = b ++ r)%string -> a = b.
Proof.
  intros H. pose proof (f_equal String.length H) as Hl. rewrite !str_length_app in Hl.
  apply str_app_split in H as [? _]; [done | lia].
Qed.

(** ** Hexadecimal *)

Lemma hex_length d n : String.length (hex d n) = d.
Proof.
  revert n. induction d as [|d IH]; intros n; simpl; [done |].
  rewrite str_length_app, IH. unfold hex_digit, chr. simpl. lia.
Qed.

Lemma hex_digit_inj n m : (n < 16)%N -> (m < 16)%N -> hex_digit n = hex_digit m -> n = m.
Proof.
  intros Hn Hm. unfold hex_digit, chr. intros [= H]. apply (f_equal N_of_ascii) in H.
  destruct (N.ltb_spec n 10), (N.ltb_spec m 10); rewrite !N_ascii_embedding in H by lia; lia.
Qed.

Lemma hex_inj d n m : hex d n = hex d m -> (n mod 16 ^ N.of_nat d = m mod 16 ^ N.of_nat d)%N.
Proof.
  revert n m. induction d as [|d IH]; intros n m; simpl hex.
  - intros _. simpl. by rewrite !N.mod_1_r.
  - intros H. apply str_app_split in H as [Hd Hh]; [| by rewrite !hex_length].
    apply IH in Hd. apply hex_digit_inj in Hh; [| by apply N.mod_lt..].
    rewrite Nat2N.inj_succ, N.pow_succ_r'.
    rewrite !N.Div0.mod_mul_r. by rewrite Hd, Hh.
Qed.

(** ** Identifiers *)

Lemma uuid_str_length u : String.length (uuid_str u) = 36%nat.
Proof. unfold uuid_str. cbn [PyText.join]. rewrite !str_length_app, !hex_length. done. Qed.

Lemma mod_div_join (k j u v : N) :
  (u / 2 ^ (k + j) = v / 2 ^ (k + j) -> (u / 2 ^ k) mod 2 ^ j = (v / 2 ^ k) mod 2 ^ j ->
   u / 2 ^ k = v / 2 ^ k)%N.
Proof.
  intros Hd Hm. rewrite N.pow_add_r, <- !N.Div0.div_div in Hd.
  rewrite (N.div_mod' (u / 2 ^ k) (2 ^ j)), (N.div_mod' (v / 2 ^ k) (2 ^ j)). by rewrite Hd, Hm.
Qed.

Lemma uuid_str_inj u v : (u < 2 ^ 128)%N -> (v < 2 ^ 128)%N -> uuid_str u = uuid_str v -> u = v.
Proof.
  intros Hu Hv H. unfold uuid_str in H. cbn [PyText.join] in H.
  repeat match goal with
         | H : (_ ++ _ = _ ++ _)%string |- _ =>
             apply str_app_split in H as [? ?]; [| by rewrite ?str_length_app, ?hex_length]
         end.
  repeat match goal with H : hex _ _ = hex _ _ |- _ => apply hex_inj in H; simpl in H end.
  assert (u / 2 ^ 128 = v / 2 ^ 128)%N as H128 by by rewrite !N.div_small.
  assert (u / 2 ^ 96 = v / 2 ^ 96)%N by by apply (mod_div_join 96 32).
  assert (u / 2 ^ 80 = v / 2 ^ 80)%N by by apply (mod_div_join 80 16).
  assert (u / 2 ^ 64 = v / 2 ^ 64)%N by by apply (mod_div_join 64 16).
  assert (u / 2 ^ 48 = v / 2 ^ 48)%N by by apply (mod_div_join 48 16).
  assert (u / 2 ^ 0 = v / 2 ^ 0)%N as Hzero.
  { apply (mod_div_join 0 48); [done |]. rewrite N.pow_0_r, !N.div_1_r. done. }
  by rewrite N.pow_0_r, !N.div_1_r in Hzero.
Qed.

(** ** JSON strings *)

Definition unhex (c : ascii) : N :=
  let n := code c in if (n <? 58)%N then (n - 48)%N else (n - 87)%N.

(** Read one character of a JSON string: the character and the rest. *)
Definition json_read (s : string) : option (ascii * string) :=
  match s with
  | String c r =>
      if (code c =? 34)%N then None
      else if (code c =? 92)%N then
        match r with
        | String d r' =>
            if (code d =? 117)%N then
              match r' with
              | String _ (String _ (String x (String y r''))) =>
                  Some (ascii_of_N (16 * unhex x + unhex y), r'')
              | _ => None
              end
            else
              Some (ascii_of_N (if code d =? 110 then 10 else if code d =? 114 then 13
                                else if code d =? 116 then 9 else if code d =? 102 then 12
                                else if code d =? 98 then 8 else code d)%N, r')
        | EmptyString => None
        end
      else Some (c, r)
  | EmptyString => None
  end.

Lemma json_read_escape ea c r : json_read (json_escape ea c ++ r) = Some (c, r).
Proof. destruct ea, c as [[] [] [] [] [] [] [] []]; reflexivity. Qed.

Lemma json_read_quote r : json_read (quote ++ r) = None.
Proof. reflexivity. Qed.

(** A JSON string is followed by its rest in one way only. *)
Lemma json_string_split ea a b r r' :
  (json_string ea a ++ r = json_string ea b ++ r')%string -> a = b /\ r = r'.
Proof.
  unfold json_string. rewrite !str_app_assoc. intros H. apply str_app_cancel_l in H. revert b H.
  induction a as [|c a IH]; intros [|d b] H; simpl json_chars in H; rewrite ?append_empty, ?str_app_assoc in H.
  - by apply str_app_cancel_l in H.
  - apply (f_equal json_read) in H. by rewrite json_read_escape, json_read_quote in H.
  - apply (f_equal json_read) in H. by rewrite json_read_escape, json_read_quote in H.
  - apply (f_equal json_read) in H. rewrite !json_read_escape in H. injection H as [= -> H].
    apply IH in H as [-> ->]. done.
Qed.

(** ** UTF-8 *)

Lemma utf8_roundtrip s : utf8_decode (utf8 s) = Some s.
Proof.
  induction s as [|c s IH]; [done |].
  destruct c as [[] [] [] [] [] [] [] []]; simpl; by rewrite IH.
Qed.

Lemma utf8_inj a b : utf8 a = utf8 b -> a = b.
Proof. intros H. apply (f_equal utf8_decode) in H. rewrite !utf8_roundtrip in H. congruence. Qed.

Lemma utf8_app a b : utf8 (a ++ b)%string = utf8 a ++ utf8 b.
Proof.
  induction a as [|c a IH]; [done |]. rewrite append_cons. simpl. rewrite IH. by destruct (_ <? _)%N.
Qed.

(** ** Prefixes of texts *)

Lemma substring0_length n s : String.length (String.substring 0 n s) = Nat.min n (String.length s).
Proof.
  revert n. induction s as [|c s IH]; intros n; [by destruct n |].
  destruct n as [|n]; [done |]. cbn [String.substring String.length]. rewrite IH. lia.
Qed.

Lemma substring0_all n s : (String.length s <= n)%nat -> String.substring 0 n s = s.
Proof.
  revert n. induction s as [|c s IH]; intros n Hn; [by destruct n |].
  destruct n as [|n]; cbn [String.length] in Hn; [lia |]. cbn [String.substring]. by rewrite IH by lia.
Qed.

Lemma substring0_app n a b :
  String.substring 0 n (a ++ b)%string = (String.substring 0 n a ++ String.substring 0 (n - String.length a) b)%string.
Proof.
  revert n. induction a as [|c a IH]; intros n.
  - change (EmptyString ++ b)%string with b. change (String.length EmptyString) with O. rewrite Nat.sub_0_r.
    by destruct n.
  - change (String c a ++ b)%string with (String c (a ++ b)). destruct n as [|n]; [by destruct b |].
    cbn [String.substring String.length Nat.sub]. by rewrite IH.
Qed.

Lemma substring0_substring0 n m s : String.substring 0 n (String.substring 0 m s) = String.substring 0 (Nat.min n m) s.
Proof.
  revert n m. induction s as [|c s IH]; intros n m; [by destruct m, n |].
  destruct m as [|m]; [by rewrite Nat.min_0_r; destruct n |]. destruct n as [|n]; [done |].
  cbn [String.substring Nat.min]. by rewrite IH.
Qed.
