(* ===== verification/Protocol.v ===== *)
(** * Protocol models ([src/packages/protocol/models.py])

    The enumerations, the freezing of payload values, and the pydantic models with
    their field bounds and [model_validator]s.  A model's [validate] returns the
    first [ValueError] the construction would raise. *)
From S2P Require Import Prelude PyText.
From Stdlib Require Import Ascii.
Open Scope string_scope.
Open Scope list_scope.

(** ** Enumerations *)

Module Engine.
Inductive t := HTTP | PYTEST | PLAYWRIGHT.
#[global] Instance eq_dec : EqDecision t.
Proof. solve_decision. Defined.
Definition value (e : t) : string :=
  match e with HTTP => "http" | PYTEST => "pytest" | PLAYWRIGHT => "playwright" end.
End Engine.

Module EventType.
Inductive t :=
  | STARTED | PROGRESS | LOG | ASSERTION | EXTRACTION | SCREENSHOT | ERROR
  | HEARTBEAT | ARTIFACT | FINISHED.
#[global] Instance eq_dec : EqDecision t.
Proof. solve_decision. Defined.
Definition value (e : t) : string :=
  match e with
  | STARTED => "started" | PROGRESS => "progress" | LOG => "log"
  | ASSERTION => "assertion" | EXTRACTION => "extraction" | SCREENSHOT => "screenshot"
  | ERROR => "error" | HEARTBEAT => "heartbeat" | ARTIFACT => "artifact"
  | FINISHED => "finished"
  end.
End EventType.

Module ResultOutcome.
Inductive t := SUCCEEDED | FAILED | CANCELLED | TIMED_OUT | INFRA_ERROR.
#[global] Instance eq_dec : EqDecision t.
Proof. solve_decision. Defined.
Definition value (o : t) : string :=
  match o with
  | SUCCEEDED => "succeeded" | FAILED => "failed" | CANCELLED => "cancelled"
  | TIMED_OUT => "timed_out" | INFRA_ERROR => "infra_error"
  end.
End ResultOutcome.

(** ** Freezing and thawing of payload values *)

Fixpoint _deep_freeze (v : pyval) : pyval :=
  match v with
  | PFrozenMapping _ => v
  | PDict kvs => PFrozenMapping (map (fun kv => (kv.1, _deep_freeze kv.2)) kvs)
  | PList l | PTuple l => PTuple (map _deep_freeze l)
  | PSet l | PFrozenset l => PFrozenset (map _deep_freeze l)
  | PBytearray b => PBytes b
  | _ => v
  end.

Fixpoint _deep_thaw (v : pyval) : pyval :=
  match v with
  | PDict kvs | PFrozenMapping kvs => PDict (map (fun kv => (kv.1, _deep_thaw kv.2)) kvs)
  | PTuple l | PFrozenset l => PList (map _deep_thaw l)
  | _ => v
  end.

(** [FrozenMapping(values)], and [_freeze_mapping]. *)
Definition FrozenMapping (values : list (string * pyval)) : pyval :=
  PFrozenMapping (map (fun kv => (kv.1, _deep_freeze kv.2)) values).

(** Payloads are typed [Mapping[str, Any]]: the keyword pairs of the frozen mapping,
    and the dictionary [model_dump(mode="json")] produces from them. *)
Definition frozen_pairs (values : list (string * pyval)) : list (string * pyval) :=
  map (fun kv => (kv.1, _deep_freeze kv.2)) values.
Definition thawed_pairs (values : list (string * pyval)) : list (string * pyval) :=
  map (fun kv => (kv.1, _deep_thaw kv.2)) values.

(** JSON values: what [json.loads] builds. *)
Fixpoint is_json (v : pyval) : bool :=
  match v with
  | PNone | PBool _ | PInt _ | PFloat _ _ | PStr _ => true
  | PList l => forallb is_json l
  | PDict kvs => forallb (fun kv => is_json kv.2) kvs
  | _ => false
  end.

(** No mutable container anywhere in the value. *)
Fixpoint immutable (v : pyval) : bool :=
  match v with
  | PNone | PBool _ | PInt _ | PFloat _ _ | PStr _ | PBytes _ => true
  | PTuple l | PFrozenset l => forallb immutable l
  | PFrozenMapping kvs => forallb (fun kv => immutable kv.2) kvs
  | PBytearray _ | PList _ | PSet _ | PDict _ => false
  end.

(** Every [FrozenMapping] inside the value was built by its constructor. *)
Fixpoint well_frozen (v : pyval) : bool :=
  match v with
  | PList l | PTuple l | PSet l | PFrozenset l => forallb well_frozen l
  | PDict kvs => forallb (fun kv => well_frozen kv.2) kvs
  | PFrozenMapping kvs => forallb (fun kv => immutable kv.2) kvs
  | _ => true
  end.

(** ** Name patterns *)

Definition is_alpha (c : ascii) : bool :=
  let n := code c in ((65 <=? n) && (n <=? 90) || (97 <=? n) && (n <=? 122))%N.
Definition is_digit (c : ascii) : bool := let n := code c in ((48 <=? n) && (n <=? 57))%N.
Definition is_underscore (c : ascii) : bool := (code c =? 95)%N.

Fixpoint all_chars (p : ascii -> bool) (s : string) : bool :=
  match s with EmptyString => true | String c r => p c && all_chars p r end.

(** [^<first><rest>{0,max}$] used with [fullmatch]. *)
Definition matches_name (first rest : ascii -> bool) (max : nat) (s : string) : bool :=
  match s with
  | EmptyString => false
  | String c r => first c && all_chars rest r && (String.length r <=? max)%nat
  end.

(** [ENVIRONMENT_NAME_PATTERN = ^[A-Za-z_][A-Za-z0-9_]{0,127}$]. *)
Definition ENVIRONMENT_NAME_PATTERN : string -> bool :=
  matches_name (fun c => is_alpha c || is_underscore c)
               (fun c => is_alpha c || is_digit c || is_underscore c) 127.

Definition unique {A} `{EqDecision A} (l : list A) : bool := bool_decide (NoDup l).

(** ** Models *)

Module SecretReference.
Inductive Category := environment_variable | common_parameter.
#[global] Instance category_eq_dec : EqDecision Category.
Proof. solve_decision. Defined.
Record t := mk { category : Category; name : string; secret_ref : uuid }.
#[global] Instance eq_dec : EqDecision t.
Proof. solve_decision. Defined.
Definition validate (r : t) : res t :=
  if ((1 <=? py_len (name r)) && (py_len (name r) <=? 128))%Z then Ok r
  else Err (ValueError "name").
End SecretReference.

Module AssertionRule.
Inductive Source := status_code | header | json_path | body | response_time_ms.
Inductive Operator := eq | ne | gt | gte | lt | lte | contains | matches.
#[global] Instance source_eq_dec : EqDecision Source.
Proof. solve_decision. Defined.
#[global] Instance operator_eq_dec : EqDecision Operator.
Proof. solve_decision. Defined.
Record t := mk {
  source : Source; expression : option string; operator : Operator; expected : pyval }.
Definition takes_expression (s : Source) : bool :=
  match s with header | json_path => true | _ => false end.
Definition validate (r : t) : res t :=
  match expression r with
  | Some e =>
      if (1024 <? py_len e)%Z then Err (ValueError "expression")
      else if takes_expression (source r) && empty_str e then
        Err (ValueError "assertions require an expression")
      else if negb (takes_expression (source r)) then
        Err (ValueError "assertions do not accept an expression")
      else Ok r
  | None =>
      if takes_expression (source r) then Err (ValueError "assertions require an expression")
      else Ok r
  end.
End AssertionRule.

Module ExtractionRule.
Inductive Source := header | json_path | regex | cookie.
Record t := mk { name : string; source : Source; expression : string; required : bool }.
Definition validate (r : t) : res t :=
  if negb (ENVIRONMENT_NAME_PATTERN (name r)) then Err (ValueError "name")
  else if ((1 <=? py_len (expression r)) && (py_len (expression r) <=? 1024))%Z then Ok r
  else Err (ValueError "expression").
End ExtractionRule.

Module HttpStep.
Record t := mk {
  name : string; request : list (string * pyval);
  assertions : list AssertionRule.t; extractions : list ExtractionRule.t; required : bool }.
Definition validate (s : t) : res t :=
  if negb ((1 <=? py_len (name s)) && (py_len (name s) <=? 128))%Z then Err (ValueError "name")
  else
    let? _ := rmap AssertionRule.validate (assertions s) in
    if (50 <? length (assertions s))%nat then Err (ValueError "assertions") else
    let? _ := rmap ExtractionRule.validate (extractions s) in
    if (50 <? length (extractions s))%nat then Err (ValueError "extractions") else Ok s.
End HttpStep.

Module RetryPolicy.
Record t := mk {
  max_attempts : Z; retry_on : list ResultOutcome.t; backoff_seconds : Z;
  max_backoff_seconds : Z; allow_non_idempotent_http : bool }.
Definition default : t := mk 1 [ResultOutcome.INFRA_ERROR; ResultOutcome.TIMED_OUT] 1 60 false.
Definition not_retryable (o : ResultOutcome.t) : bool :=
  match o with ResultOutcome.SUCCEEDED | ResultOutcome.CANCELLED => true | _ => false end.
Definition validate (p : t) : res t :=
  if negb ((1 <=? max_attempts p) && (max_attempts p <=? 5))%Z then
    Err (ValueError "max_attempts")
  else if negb ((0 <=? backoff_seconds p) && (backoff_seconds p <=? 300))%Z then
    Err (ValueError "backoff_seconds")
  else if negb ((0 <=? max_backoff_seconds p) && (max_backoff_seconds p <=? 600))%Z then
    Err (ValueError "max_backoff_seconds")
  else if negb (unique (retry_on p)) then
    Err (ValueError "retry outcomes must be unique")
  else if existsb not_retryable (retry_on p) then
    Err (ValueError "successful or cancelled results cannot be retried")
  else if (max_backoff_seconds p <? backoff_seconds p)%Z then
    Err (ValueError "max_backoff_seconds cannot be less than backoff_seconds")
  else Ok p.
End RetryPolicy.

Module ExecutionPolicy.
Record t := mk {
  before_steps : list HttpStep.t; assertions : list AssertionRule.t;
  extractions : list ExtractionRule.t; after_steps : list HttpStep.t;
  retry : RetryPolicy.t }.
Definition default : t := mk [] [] [] [] RetryPolicy.default.
(** The [names] list of [validate_extraction_names]. *)
Definition extraction_names (p : t) : list string :=
  map ExtractionRule.name (extractions p) ++
  map ExtractionRule.name
    (concat (map HttpStep.extractions (before_steps p ++ after_steps p))).
Definition validate (p : t) : res t :=
  let? _ := rmap HttpStep.validate (before_steps p) in
  if (20 <? length (before_steps p))%nat then Err (ValueError "before_steps") else
  let? _ := rmap AssertionRule.validate (assertions p) in
  if (50 <? length (assertions p))%nat then Err (ValueError "assertions") else
  let? _ := rmap ExtractionRule.validate (extractions p) in
  if (50 <? length (extractions p))%nat then Err (ValueError "extractions") else
  let? _ := rmap HttpStep.validate (after_steps p) in
  if (20 <? length (after_steps p))%nat then Err (ValueError "after_steps") else
  let? _ := RetryPolicy.validate (retry p) in
  if negb (unique (extraction_names p)) then
    Err (ValueError "extraction names must be unique across an execution policy")
  else Ok p.
(** The HTTP-only parts, tested by the task and by the plan validation. *)
Definition uses_http (p : t) : bool :=
  negb (bool_decide (length (before_steps p) = 0%nat))
  || negb (bool_decide (length (after_steps p) = 0%nat))
  || negb (bool_decide (length (assertions p) = 0%nat))
  || negb (bool_decide (length (extractions p) = 0%nat)).
End ExecutionPolicy.

Module TaskEnvelope.
Record t := mk {
  run_id : uuid; attempt_id : uuid; engine : Engine.t; task_id : uuid;
  tenant_id : uuid; project_id : uuid; idempotency_key : string;
  created_at : datetime; deadline : datetime; entrypoint : string;
  parameters : list (string * pyval); run_spec_id : option uuid;
  source_ref : option string; content_digest : option string;
  environment_variables : list (string * pyval); environment_id : option uuid;
  environment_revision : option Z; secret_references : list SecretReference.t;
  execution_policy : ExecutionPolicy.t }.

(** [_strip_idempotency_key] followed by the length bound of the field. *)
Definition _strip_idempotency_key (value : string) : res string :=
  let value := strip value in
  if empty_str value then Err (ValueError "idempotency_key must not be blank")
  else if (255 <? py_len value)%Z then Err (ValueError "idempotency_key") else Ok value.

Definition is_some {A} (o : option A) : bool := match o with Some _ => true | None => false end.
Definition is_str (v : pyval) : bool := match v with PStr _ => true | _ => false end.

Definition deadline_follows_creation (e : t) : res t :=
  if (deadline e <=? created_at e)%Z then
    Err (ValueError "deadline must be after created_at")
  else if xorb (is_some (environment_id e)) (is_some (environment_revision e)) then
    Err (ValueError "environment_id and environment_revision must be provided together")
  else if negb (bool_decide (secret_references e = [])) && negb (is_some (environment_id e)) then
    Err (ValueError "secret references require an environment")
  else if existsb (fun kv => negb (ENVIRONMENT_NAME_PATTERN kv.1) || negb (is_str kv.2))
            (environment_variables e) then
    Err (ValueError "environment variables must have valid names and string values")
  else if negb (unique (map (fun r => (SecretReference.category r, SecretReference.name r))
                            (secret_references e))) then
    Err (ValueError "secret references must be unique")
  else if negb (unique (map SecretReference.secret_ref (secret_references e))) then
    Err (ValueError "secret reference IDs must be unique")
  else if negb (bool_decide (engine e = Engine.HTTP))
          && ExecutionPolicy.uses_http (execution_policy e) then
    Err (ValueError "HTTP steps, assertions, and extractions require the HTTP engine")
  else Ok e.

(** [^[0-9a-f]{64}$]. *)
Definition is_digest (s : string) : bool :=
  (String.length s =? 64)%nat
  && forallb (fun c => let n := Ascii.N_of_ascii c in
                       ((48 <=? n) && (n <=? 57))%N || ((97 <=? n) && (n <=? 102))%N)
       (String.list_ascii_of_string s).

(** [TaskEnvelope(...)]: the constraints of the fields, the mappings frozen, then the
    validator of the whole. *)
Definition validate (e : t) : res t :=
  let? key := _strip_idempotency_key (idempotency_key e) in
  if empty_str (entrypoint e) || (512 <? py_len (entrypoint e))%Z then Err (ValueError "entrypoint")
  else if match source_ref e with
          | Some s => empty_str s || (512 <? py_len s)%Z
          | None => false
          end then Err (ValueError "source_ref")
  else if match content_digest e with Some s => negb (is_digest s) | None => false end
  then Err (ValueError "content_digest")
  else if match environment_revision e with Some r => (r <? 1)%Z | None => false end
  then Err (ValueError "environment_revision")
  else deadline_follows_creation
    (mk (run_id e) (attempt_id e) (engine e) (task_id e) (tenant_id e) (project_id e) key
        (created_at e) (deadline e) (entrypoint e) (frozen_pairs (parameters e)) (run_spec_id e)
        (source_ref e) (content_digest e) (frozen_pairs (environment_variables e))
        (environment_id e) (environment_revision e) (secret_references e) (execution_policy e)).
End TaskEnvelope.

Module EventEnvelope.
Record t := mk {
  run_id : uuid; attempt_id : uuid; engine : Engine.t; event_id : uuid; seq : Z;
  occurred_at : datetime; type : EventType.t; payload : list (string * pyval) }.
Definition validate (e : t) : res t :=
  if (seq e <? 0)%Z then Err (ValueError "seq") else Ok e.
End EventEnvelope.

Module ResultEnvelope.
Record t := mk {
  run_id : uuid; attempt_id : uuid; engine : Engine.t; outcome : ResultOutcome.t;
  completed_at : datetime; duration_ms : Z; summary : list (string * pyval) }.
Definition validate (r : t) : res t :=
  if (duration_ms r <? 0)%Z then Err (ValueError "duration_ms") else Ok r.
End ResultEnvelope.

(** ** Lemmas *)

Lemma map_Forall_ext {A B} (f g : A -> B) l :
  Forall (fun x => f x = g x) l -> map f l = map g l.
Proof. induction 1; simpl; congruence. Qed.

Lemma forallb_Forall_impl {A} (p : A -> bool) (Q : A -> Prop) l :
  Forall (fun x => p x = true -> Q x) l -> forallb p l = true -> Forall Q l.
Proof. induction 1; simpl; [done |]. intros [? ?]%andb_true_iff. auto. Qed.

Lemma forallb_map_Forall {A B} (p : B -> bool) (f : A -> B) l :
  Forall (fun x => p (f x) = true) l -> forallb p (map f l) = true.
Proof. induction 1; simpl; [done |]. by apply andb_true_iff. Qed.

Lemma thaw_freeze_json v : is_json v = true -> _deep_thaw (_deep_freeze v) = v.
Proof.
  induction v as [| | | | | | |l IH| | | |kvs IH|] using pyval_ind; simpl; try done.
  - intros H. f_equal. rewrite map_map. rewrite <- (map_id l) at 2.
    apply map_Forall_ext. by eapply forallb_Forall_impl.
  - intros H. f_equal. rewrite map_map. rewrite <- (map_id kvs) at 2.
    apply map_Forall_ext. pose proof (forallb_Forall_impl _ _ _ IH H) as HF.
    eapply Forall_impl; [exact HF |]. intros [k x] Hx. simpl in *. by rewrite Hx.
Qed.

Lemma freeze_immutable v : well_frozen v = true -> immutable (_deep_freeze v) = true.
Proof.
  induction v as [| | | | | | |l IH|l IH|l IH|l IH|kvs IH|kvs IH] using pyval_ind; simpl; try done;
    intros H; apply forallb_map_Forall;
    first [ exact (forallb_Forall_impl _ _ _ IH H)
          | by apply Forall_forall; intros x Hx; apply (proj1 (forallb_forall _ _) H);
            apply list_elem_of_In ].
Qed.

Lemma freeze_idemp v : _deep_freeze (_deep_freeze v) = _deep_freeze v.
Proof.
  induction v as [| | | | | | |l IH|l IH|l IH|l IH|kvs IH|kvs IH] using pyval_ind; simpl; try done;
    f_equal; rewrite map_map; by apply map_Forall_ext.
Qed.

Lemma immutable_well_frozen v : immutable v = true -> well_frozen v = true.
Proof.
  induction v as [| | | | | | |l IH|l IH|l IH|l IH|kvs IH|kvs IH] using pyval_ind; simpl; try done;
    intros H; apply forallb_forall; intros x Hx; rewrite Forall_forall in IH;
    apply IH; try (by apply list_elem_of_In); by eapply forallb_forall in H.
Qed.

(** Thawing keeps the keys, so a thawed payload is a dictionary again. *)
Lemma unique_keys_thaw v : unique_keys v = true -> unique_keys (_deep_thaw v) = true.
Proof.
  assert (forall kvs : list (string * pyval), Forall (fun kv => unique_keys kv.2 = true -> unique_keys (_deep_thaw kv.2) = true) kvs ->
    bool_decide (NoDup kvs.*1) && forallb (fun kv => unique_keys kv.2) kvs = true ->
    bool_decide (NoDup (map (fun kv => (kv.1, _deep_thaw kv.2)) kvs).*1)
    && forallb (fun kv => unique_keys kv.2) (map (fun kv => (kv.1, _deep_thaw kv.2)) kvs) = true) as Hm.
  { intros kvs IH [Hn Hu]%andb_true_iff. apply andb_true_iff. split.
    - apply bool_decide_eq_true in Hn. apply bool_decide_eq_true.
      replace ((map _ kvs).*1) with (kvs.*1); [done |].
      clear. induction kvs as [|[k v] l IHl]; simpl; [done |]. f_equal. exact IHl.
    - apply forallb_map_Forall. exact (forallb_Forall_impl _ _ _ IH Hu). }
  induction v as [| | | | | | |l IH|l IH|l IH|l IH|kvs IH|kvs IH] using pyval_ind;
    cbn [unique_keys _deep_thaw]; intros H; try done; auto;
    apply forallb_map_Forall; exact (forallb_Forall_impl _ _ _ IH H).
Qed.

(** ** Character classes *)

Lemma all_chars_app p a b : all_chars p (a ++ b)%string = all_chars p a && all_chars p b.
Proof.
  induction a as [|c a IH]; [done |].
  change (String c a ++ b)%string with (String c (a ++ b)). cbn [all_chars]. by rewrite IH, andb_assoc.
Qed.

Lemma all_chars_impl (p q : ascii -> bool) s :
  (forall c, p c = true -> q c = true) -> all_chars p s = true -> all_chars q s = true.
Proof.
  intros Hpq. induction s as [|c s IH]; [done |]. simpl. rewrite !andb_true_iff.
  intros [? ?]. split; auto.
Qed.
