(* ===== verification/Domain.v ===== *)
(** * Run and attempt state machines ([src/services/api/domain.py])

    The two state enumerations with their transition tables, and the record
    methods [with_state], [with_result], [claimed], [with_heartbeat], [lost]. *)
From S2P Require Import Prelude PyText Protocol.
Open Scope list_scope.

Module RunState.
Inductive t :=
  | CREATED | QUEUED | DISPATCHING | RUNNING | RETRY_WAIT | CANCELLING
  | SUCCEEDED | FAILED | CANCELLED | TIMED_OUT | INFRA_ERROR.
#[global] Instance eq_dec : EqDecision t.
Proof. solve_decision. Defined.
End RunState.

Module AttemptState.
Inductive t :=
  | PENDING | CLAIMED | PREPARING | RUNNING | COLLECTING
  | SUCCEEDED | FAILED | CANCELLED | TIMED_OUT | INFRA_ERROR | LOST.
#[global] Instance eq_dec : EqDecision t.
Proof. solve_decision. Defined.
End AttemptState.

Definition RUN_TERMINAL : list RunState.t :=
  [RunState.SUCCEEDED; RunState.FAILED; RunState.CANCELLED; RunState.TIMED_OUT;
   RunState.INFRA_ERROR].
Definition ATTEMPT_TERMINAL : list AttemptState.t :=
  [AttemptState.SUCCEEDED; AttemptState.FAILED; AttemptState.CANCELLED;
   AttemptState.TIMED_OUT; AttemptState.INFRA_ERROR; AttemptState.LOST].
Definition ATTEMPT_LEASED : list AttemptState.t :=
  [AttemptState.CLAIMED; AttemptState.PREPARING; AttemptState.RUNNING; AttemptState.COLLECTING].

(** The value of [RUN_TRANSITIONS.get(current, set())]. *)
Definition RUN_TRANSITIONS (current : RunState.t) : list RunState.t :=
  match current with
  | RunState.CREATED => [RunState.QUEUED; RunState.CANCELLING]
  | RunState.QUEUED => [RunState.DISPATCHING; RunState.CANCELLING; RunState.FAILED;
                        RunState.TIMED_OUT; RunState.INFRA_ERROR]
  | RunState.DISPATCHING => [RunState.RUNNING; RunState.CANCELLING; RunState.FAILED;
                             RunState.TIMED_OUT; RunState.INFRA_ERROR]
  | RunState.RUNNING => [RunState.CANCELLING; RunState.SUCCEEDED; RunState.FAILED;
                         RunState.TIMED_OUT; RunState.INFRA_ERROR; RunState.RETRY_WAIT]
  | RunState.RETRY_WAIT => [RunState.QUEUED; RunState.CANCELLING; RunState.INFRA_ERROR]
  | RunState.CANCELLING => [RunState.CANCELLED; RunState.FAILED; RunState.TIMED_OUT;
                            RunState.INFRA_ERROR]
  | _ => []
  end.

(** The value of [ATTEMPT_TRANSITIONS.get(current, set())]. *)
Definition ATTEMPT_TRANSITIONS (current : AttemptState.t) : list AttemptState.t :=
  match current with
  | AttemptState.PENDING => [AttemptState.CLAIMED; AttemptState.CANCELLED]
  | AttemptState.CLAIMED => [AttemptState.PREPARING; AttemptState.CANCELLED;
                             AttemptState.INFRA_ERROR; AttemptState.LOST]
  | AttemptState.PREPARING => [AttemptState.RUNNING; AttemptState.CANCELLED;
                               AttemptState.INFRA_ERROR; AttemptState.LOST]
  | AttemptState.RUNNING => [AttemptState.COLLECTING; AttemptState.CANCELLED;
                             AttemptState.FAILED; AttemptState.TIMED_OUT;
                             AttemptState.INFRA_ERROR; AttemptState.LOST]
  | AttemptState.COLLECTING => ATTEMPT_TERMINAL
  | _ => []
  end.

Definition _transition {State} `{EqDecision State}
    (current target : State) (rules : State -> list State) : res State :=
  if bool_decide (target ∈ rules current) then Ok target else Err InvalidTransition.

Definition transition_run (current target : RunState.t) : res RunState.t :=
  _transition current target RUN_TRANSITIONS.

Definition transition_attempt (current target : AttemptState.t) : res AttemptState.t :=
  _transition current target ATTEMPT_TRANSITIONS.

Module RunRecord.
Record t := mk {
  id : uuid; engine : Engine.t; parameters : list (string * pyval);
  state : RunState.t; created_at : datetime; updated_at : datetime; state_version : Z }.

Definition with_state (now : datetime) (r : t) (target : RunState.t) : res t :=
  let? next_state := transition_run (state r) target in
  Ok (mk (id r) (engine r) (parameters r) next_state (created_at r) now
         (state_version r + 1)%Z).
End RunRecord.

Module AttemptRecord.
Record t := mk {
  id : uuid; run_id : uuid; state : AttemptState.t; created_at : datetime;
  updated_at : datetime; state_version : Z; outcome : option ResultOutcome.t;
  duration_ms : option Z; summary : option (list (string * pyval));
  completed_at : option datetime; runner_id : option string;
  heartbeat_at : option datetime; lease_expires_at : option datetime }.

(** [AttemptRecord(id, run_id, AttemptState.PENDING, now, now)]. *)
Definition pending (id run_id : uuid) (now : datetime) : t :=
  mk id run_id AttemptState.PENDING now now 0 None None None None None None None.

Definition with_state (now : datetime) (a : t) (target : AttemptState.t) : res t :=
  let? next_state := transition_attempt (state a) target in
  Ok (mk (id a) (run_id a) next_state (created_at a) now (state_version a + 1)%Z
         (outcome a) (duration_ms a) (summary a) (completed_at a) (runner_id a)
         (heartbeat_at a) (lease_expires_at a)).

Definition with_result (now : datetime) (a : t) (target : AttemptState.t)
    (result : ResultEnvelope.t) : res t :=
  if negb (bool_decide (ResultEnvelope.attempt_id result = id a))
     || negb (bool_decide (ResultEnvelope.run_id result = run_id a)) then
    Err (ValueError "result identity does not match the attempt")
  else
    let? next_state := transition_attempt (state a) target in
    Ok (mk (id a) (run_id a) next_state (created_at a) now (state_version a + 1)%Z
           (Some (ResultEnvelope.outcome result))
           (Some (ResultEnvelope.duration_ms result))
           (Some (thawed_pairs (ResultEnvelope.summary result)))
           (Some (ResultEnvelope.completed_at result))
           (runner_id a) (heartbeat_at a) (lease_expires_at a)).

(** [read] is the clock reading [with_state] makes. *)
Definition claimed (read : datetime) (a : t) (runner : string) (lease_seconds : Z)
    (now : datetime) : res t :=
  let identity := strip runner in
  if empty_str identity || (255 <? py_len identity)%Z then
    Err (ValueError "runner_id must contain 1 to 255 characters")
  else if (lease_seconds <=? 0)%Z then Err (ValueError "lease_seconds must be positive")
  else
    let? c := with_state read a AttemptState.CLAIMED in
    let? expires := add_seconds now lease_seconds in
    Ok (mk (id c) (run_id c) (state c) (created_at c) (updated_at c) (state_version c)
           (outcome c) (duration_ms c) (summary c) (completed_at c)
           (Some identity) (Some now) (Some expires)).

Definition with_heartbeat (a : t) (runner : string) (lease_seconds : Z)
    (now : datetime) : res t :=
  if negb (bool_decide (state a ∈ ATTEMPT_LEASED)) then Err InvalidTransition
  else if negb (bool_decide (runner_id a = Some runner)) then
    Err (ValueError "runner identity does not own this attempt")
  else if match lease_expires_at a with None => true | Some l => (l <=? now)%Z end then
    Err InvalidTransition
  else if (lease_seconds <=? 0)%Z then Err (ValueError "lease_seconds must be positive")
  else
    let? expires := add_seconds now lease_seconds in
    Ok (mk (id a) (run_id a) (state a) (created_at a) now (state_version a)
           (outcome a) (duration_ms a) (summary a) (completed_at a)
           (runner_id a) (Some now) (Some expires)).

Definition lost (read : datetime) (a : t) (now : datetime) : res t :=
  let? l := with_state read a AttemptState.LOST in
  Ok (mk (id l) (run_id l) (state l) (created_at l) (updated_at l) (state_version l)
         (Some ResultOutcome.INFRA_ERROR) (duration_ms l)
         (Some [("reason", PStr "runner_lease_expired")]) (Some now)
         (runner_id l) (heartbeat_at l) (lease_expires_at l)).
End AttemptRecord.

Module EventRecord.
Record t := mk {
  cursor : Z; event_id : uuid; run_id : uuid; attempt_id : uuid; engine : Engine.t;
  seq : Z; occurred_at : datetime; type : EventType.t; payload : list (string * pyval) }.
End EventRecord.

Module ArtifactRecord.
Record t := mk {
  id : uuid; run_id : uuid; attempt_id : uuid; kind : string; name : string;
  content_type : string; size_bytes : Z; storage_key : string; created_at : datetime }.
#[global] Instance eq_dec : EqDecision t.
Proof. solve_decision. Defined.
End ArtifactRecord.

(** ** Lemmas *)

Lemma transition_run_Ok s t u :
  transition_run s t = Ok u <-> u = t /\ t ∈ RUN_TRANSITIONS s.
Proof.
  unfold transition_run, _transition. case_bool_decide; split; try done.
  - by intros [= <-].
  - by intros [-> _].
  - by intros [_ ?].
Qed.

Lemma transition_attempt_Ok s t u :
  transition_attempt s t = Ok u <-> u = t /\ t ∈ ATTEMPT_TRANSITIONS s.
Proof.
  unfold transition_attempt, _transition. case_bool_decide; split; try done.
  - by intros [= <-].
  - by intros [-> _].
  - by intros [_ ?].
Qed.

(** A terminal state has no successor, and only terminal states have none. *)
Lemma run_terminal_stuck s : s ∈ RUN_TERMINAL <-> RUN_TRANSITIONS s = [].
Proof. destruct s; simpl; split; intros; try done; set_solver. Qed.

Lemma attempt_terminal_stuck s : s ∈ ATTEMPT_TERMINAL <-> ATTEMPT_TRANSITIONS s = [].
Proof. destruct s; simpl; split; intros; try done; set_solver. Qed.

(** How far a run is from the end of its life.  Only [RETRY_WAIT -> QUEUED] goes back. *)
Definition run_rank (s : RunState.t) : nat :=
  match s with
  | RunState.CREATED => 6 | RunState.QUEUED => 5 | RunState.DISPATCHING => 4
  | RunState.RUNNING => 3 | RunState.RETRY_WAIT => 2 | RunState.CANCELLING => 1 | _ => 0
  end%nat.

Lemma run_rank_decreases s t :
  t ∈ RUN_TRANSITIONS s -> (run_rank t < run_rank s)%nat \/ (s = RunState.RETRY_WAIT /\ t = RunState.QUEUED).
Proof.
  destruct s; simpl; rewrite ?elem_of_cons, ?elem_of_nil; intros H;
    repeat destruct H as [->|H]; simpl; try lia; try done; auto.
Qed.

Definition attempt_rank (s : AttemptState.t) : nat :=
  match s with
  | AttemptState.PENDING => 5 | AttemptState.CLAIMED => 4 | AttemptState.PREPARING => 3
  | AttemptState.RUNNING => 2 | AttemptState.COLLECTING => 1 | _ => 0
  end%nat.

Lemma attempt_rank_decreases s t :
  t ∈ ATTEMPT_TRANSITIONS s -> (attempt_rank t < attempt_rank s)%nat.
Proof.
  destruct s; simpl; unfold ATTEMPT_TERMINAL; rewrite ?elem_of_cons, ?elem_of_nil; intros H;
    repeat destruct H as [->|H]; simpl; try lia; done.
Qed.

Lemma run_with_state_Ok now r t r' :
  RunRecord.with_state now r t = Ok r' ->
  t ∈ RUN_TRANSITIONS (RunRecord.state r) /\ RunRecord.state r' = t
  /\ RunRecord.id r' = RunRecord.id r
  /\ RunRecord.engine r' = RunRecord.engine r
  /\ RunRecord.parameters r' = RunRecord.parameters r
  /\ RunRecord.created_at r' = RunRecord.created_at r
  /\ RunRecord.state_version r' = (RunRecord.state_version r + 1)%Z.
Proof.
  unfold RunRecord.with_state. intros (s & [-> Hs]%transition_run_Ok & [= <-])%rbind_Ok.
  by split_and!.
Qed.

Lemma run_with_state_defined now r t :
  t ∈ RUN_TRANSITIONS (RunRecord.state r) -> exists r', RunRecord.with_state now r t = Ok r'.
Proof.
  intros Ht. unfold RunRecord.with_state, transition_run, _transition.
  rewrite bool_decide_true by done. simpl. by eexists.
Qed.

Lemma run_with_state_Err now r t e :
  RunRecord.with_state now r t = Err e ->
  e = InvalidTransition /\ t ∉ RUN_TRANSITIONS (RunRecord.state r).
Proof.
  unfold RunRecord.with_state, transition_run, _transition.
  case_bool_decide; simpl; [done |]. by intros [= <-].
Qed.

(** What an operation on an attempt never changes. *)
Definition attempt_frame (a a' : AttemptRecord.t) : Prop :=
  AttemptRecord.id a' = AttemptRecord.id a
  /\ AttemptRecord.run_id a' = AttemptRecord.run_id a
  /\ AttemptRecord.created_at a' = AttemptRecord.created_at a.

Lemma attempt_with_state_Ok now a t a' :
  AttemptRecord.with_state now a t = Ok a' ->
  t ∈ ATTEMPT_TRANSITIONS (AttemptRecord.state a) /\ AttemptRecord.state a' = t
  /\ attempt_frame a a' /\ AttemptRecord.runner_id a' = AttemptRecord.runner_id a
  /\ AttemptRecord.lease_expires_at a' = AttemptRecord.lease_expires_at a.
Proof.
  unfold AttemptRecord.with_state, attempt_frame.
  intros (s & [-> Hs]%transition_attempt_Ok & [= <-])%rbind_Ok. by split_and!.
Qed.

Lemma attempt_with_result_Ok now a t r a' :
  AttemptRecord.with_result now a t r = Ok a' ->
  t ∈ ATTEMPT_TRANSITIONS (AttemptRecord.state a) /\ AttemptRecord.state a' = t
  /\ attempt_frame a a'
  /\ ResultEnvelope.attempt_id r = AttemptRecord.id a
  /\ ResultEnvelope.run_id r = AttemptRecord.run_id a
  /\ AttemptRecord.outcome a' = Some (ResultEnvelope.outcome r).
Proof.
  unfold AttemptRecord.with_result, attempt_frame. case_match eqn:E; [done |].
  intros (s & [-> Hs]%transition_attempt_Ok & [= <-])%rbind_Ok. bool_prop. by split_and!.
Qed.

Lemma attempt_claimed_Ok rd a r n now a' :
  AttemptRecord.claimed rd a r n now = Ok a' ->
  AttemptRecord.state a = AttemptState.PENDING
  /\ AttemptRecord.state a' = AttemptState.CLAIMED /\ attempt_frame a a'
  /\ AttemptRecord.runner_id a' = Some (strip r) /\ (0 < n)%Z
  /\ AttemptRecord.lease_expires_at a' = Some (now + n * 1000000)%Z.
Proof.
  unfold AttemptRecord.claimed. case_match; [done |]. case_match eqn:E; [done |].
  intros (c & (Ht & Hs & Hf & _)%attempt_with_state_Ok & (x & Hx & [= <-])%rbind_Ok)%rbind_Ok.
  unfold add_seconds in Hx. py_inv Hx. bool_prop.
  assert (AttemptRecord.state a = AttemptState.PENDING).
  { destruct (AttemptRecord.state a); simpl in Ht; [done |..]; set_solver. }
  unfold attempt_frame in *. simpl. destruct Hf as (?&?&?). split_and!; done.
Qed.

Lemma attempt_with_heartbeat_Ok a r n now a' :
  AttemptRecord.with_heartbeat a r n now = Ok a' ->
  AttemptRecord.state a ∈ ATTEMPT_LEASED /\ AttemptRecord.state a' = AttemptRecord.state a
  /\ attempt_frame a a' /\ AttemptRecord.runner_id a = Some r
  /\ AttemptRecord.runner_id a' = Some r
  /\ (exists l, AttemptRecord.lease_expires_at a = Some l /\ now < l)%Z
  /\ AttemptRecord.lease_expires_at a' = Some (now + n * 1000000)%Z /\ (0 < n)%Z.
Proof.
  unfold AttemptRecord.with_heartbeat. intros H. repeat case_match; try done.
  apply rbind_Ok in H as (x & Hx & [= <-]). unfold add_seconds in Hx. py_inv Hx.
  bool_prop. unfold attempt_frame; simpl. split_and!; try done. eauto.
Qed.

Lemma attempt_lost_Ok rd a now a' :
  AttemptRecord.lost rd a now = Ok a' ->
  AttemptState.LOST ∈ ATTEMPT_TRANSITIONS (AttemptRecord.state a)
  /\ AttemptRecord.state a' = AttemptState.LOST /\ attempt_frame a a'
  /\ AttemptRecord.outcome a' = Some ResultOutcome.INFRA_ERROR.
Proof.
  unfold AttemptRecord.lost.
  intros (l & (Ht & Hs & Hf & _)%attempt_with_state_Ok & [= <-])%rbind_Ok.
  by split_and!.
Qed.

Lemma leased_can_be_lost s :
  s ∈ ATTEMPT_LEASED -> AttemptState.LOST ∈ ATTEMPT_TRANSITIONS s.
Proof. destruct s; unfold ATTEMPT_LEASED; simpl; unfold ATTEMPT_TERMINAL; set_solver. Qed.

Lemma attempt_lost_defined rd a now :
  AttemptRecord.state a ∈ ATTEMPT_LEASED -> exists a', AttemptRecord.lost rd a now = Ok a'.
Proof.
  intros H%leased_can_be_lost.
  unfold AttemptRecord.lost, AttemptRecord.with_state, transition_attempt, _transition.
  rewrite bool_decide_true by done. simpl. by eexists.
Qed.
