(* ===== verification/Sha256.v ===== *)
(** * [hashlib.sha256(...).hexdigest()]

    The SHA-256 of FIPS 180-4 on byte lists, with 32-bit words as [N] and every
    addition reduced modulo [2^32].  It is the standard-library function behind
    request fingerprints, source digests and capability digests. *)
From S2P Require Import Prelude PyText.
Open Scope N_scope.

Definition w32 (x : N) : N := x mod 4294967296.
Definition rotr (n x : N) : N := N.lor (N.shiftr x n) (w32 (N.shiftl x (32 - n))).
Definition not32 (x : N) : N := N.lxor x 4294967295.

Definition Ch (x y z : N) : N := N.lxor (N.land x y) (N.land (not32 x) z).
Definition Maj (x y z : N) : N := N.lxor (N.lxor (N.land x y) (N.land x z)) (N.land y z).
Definition Sigma0 (x : N) : N := N.lxor (N.lxor (rotr 2 x) (rotr 13 x)) (rotr 22 x).
Definition Sigma1 (x : N) : N := N.lxor (N.lxor (rotr 6 x) (rotr 11 x)) (rotr 25 x).
Definition sigma0 (x : N) : N := N.lxor (N.lxor (rotr 7 x) (rotr 18 x)) (N.shiftr x 3).
Definition sigma1 (x : N) : N := N.lxor (N.lxor (rotr 17 x) (rotr 19 x)) (N.shiftr x 10).

(** The constants of the standard: the first 32 bits of the fractional parts of the cube
    roots of the first 64 primes, and of the square roots of the first 8. *)
Definition is_prime (n : N) : bool :=
  forallb (fun d => negb (n mod N.of_nat d =? 0)) (seq 2 (N.to_nat (N.sqrt n) - 1)).
Definition primes_below (bound : nat) : list N :=
  List.filter is_prime (map N.of_nat (seq 2 (bound - 2))).

(** The greatest [r < 2^bits] above [r0] with [r^3 <= n], bit by bit. *)
Fixpoint cube_root (bits : nat) (r0 n : N) : N :=
  match bits with
  | O => r0
  | S b =>
      let r := r0 + 2 ^ N.of_nat b in
      cube_root b (if r * r * r <=? n then r else r0) n
  end.

Definition round_constants : list N :=
  Eval vm_compute in map (fun p => w32 (cube_root 36 0 (p * 2 ^ 96))) (take 64 (primes_below 312)).

Definition initial_hash : list N :=
  Eval vm_compute in map (fun p => w32 (N.sqrt (p * 2 ^ 64))) (take 8 (primes_below 20)).

(** The message schedule: [rev_w] holds the words so far, last word first. *)
Fixpoint schedule (n : nat) (rev_w : list N) : list N :=
  match n with
  | O => rev rev_w
  | S n' =>
      let w i := nth i rev_w 0 in
      schedule n' (w32 (sigma1 (w 1%nat) + w 6%nat + sigma0 (w 14%nat) + w 15%nat) :: rev_w)
  end.

Definition round (h : list N) (kw : N * N) : list N :=
  match h with
  | [a; b; c; d; e; f; g; hh] =>
      let t1 := w32 (hh + Sigma1 e + Ch e f g + kw.1 + kw.2) in
      let t2 := w32 (Sigma0 a + Maj a b c) in
      [w32 (t1 + t2); a; b; c; w32 (d + t1); e; f; g]
  | _ => h
  end.

Definition compress (h : list N) (block : list N) : list N :=
  let w := schedule 48 (rev block) in
  zip_with (fun x y => w32 (x + y)) h (fold_left round (zip round_constants w) h).

Definition be_bytes (len : nat) (x : N) : list N :=
  map (fun i => (N.shiftr x (8 * N.of_nat i)) mod 256) (rev (seq 0 len)).

(** Append [0x80], zeros to 56 modulo 64, and the bit length on 8 bytes. *)
Definition padding (m : list N) : list N :=
  let len := length m in
  let zeros := ((119 - len mod 64) mod 64)%nat in
  m ++ [128] ++ replicate zeros 0 ++ be_bytes 8 (8 * N.of_nat len).

Fixpoint words (bytes : list N) : list N :=
  match bytes with
  | a :: b :: c :: d :: rest => (((a * 256 + b) * 256 + c) * 256 + d) :: words rest
  | _ => []
  end.

Fixpoint blocks (fuel : nat) (h : list N) (ws : list N) : list N :=
  match fuel, ws with
  | S fuel', _ :: _ => blocks fuel' (compress h (take 16 ws)) (drop 16 ws)
  | _, _ => h
  end.

Definition sha256 (m : list N) : list N :=
  let ws := words (padding m) in blocks (length ws) initial_hash ws.

Definition sha256_hex (m : list N) : string := join EmptyString (map (hex 8) (sha256 m)).

(** The FIPS test vectors for the empty message and for [abc]. *)
Example sha256_empty :
  sha256_hex [] = "e3b0c44298fc1c149afbf4c8996fb92427ae41e4649b934ca495991b7852b855"%string.
Proof. vm_compute. reflexivity. Qed.

Example sha256_abc :
  sha256_hex [97; 98; 99] = "ba7816bf8f01cfea414140de5dae2223b00361a396177a9cb410ff61f20015ad"%string.
Proof. vm_compute. reflexivity. Qed.

Example sha256_two_blocks :
  sha256_hex (utf8 "abcdbcdecdefdefgefghfghighijhijkijkljklmklmnlmnomnopnopq")
  = "248d6a61d20638b8e5c026930c3e6039a33ce45964ff2167f6ecedd419db06c1"%string.
Proof. vm_compute. reflexivity. Qed.

(** ** The digest has eight words *)

Lemma round_length h kw : length h = 8%nat -> length (round h kw) = 8%nat.
Proof.
  intros Hl. do 9 (destruct h as [|? h]; [done |]). done.
Qed.

Lemma rounds_length kws h : length h = 8%nat -> length (fold_left round kws h) = 8%nat.
Proof.
  revert h. induction kws as [|kw kws IH]; intros h Hl; [done |]. by apply IH, round_length.
Qed.

Lemma compress_length h block : length h = 8%nat -> length (compress h block) = 8%nat.
Proof. intros Hl. unfold compress. rewrite length_zip_with, rounds_length; lia. Qed.

Lemma blocks_length fuel h ws : length h = 8%nat -> length (blocks fuel h ws) = 8%nat.
Proof.
  revert h ws. induction fuel as [|fuel IH]; intros h ws Hl; simpl; [done |].
  destruct ws; [done |]. by apply IH, compress_length.
Qed.

Lemma initial_length : length initial_hash = 8%nat.
Proof. vm_compute. reflexivity. Qed.

Lemma sha256_length m : length (sha256 m) = 8%nat.
Proof. apply blocks_length, initial_length. Qed.

(** * [uuid.uuid5]

    The SHA-1 of FIPS 180-4 on byte lists, padded as SHA-256 is, and the name-based UUID
    of RFC 4122 that the standard library builds from it. *)
Open Scope N_scope.

Definition rotl (n x : N) : N := N.lor (w32 (N.shiftl x n)) (N.shiftr x (32 - n)).
Definition Parity (x y z : N) : N := N.lxor (N.lxor x y) z.

(** The function and the constant of step [t]. *)
Definition sha1_f (t : nat) (x y z : N) : N :=
  if (t <? 20)%nat then Ch x y z
  else if (t <? 40)%nat then Parity x y z
  else if (t <? 60)%nat then Maj x y z
  else Parity x y z.
Definition sha1_k (t : nat) : N :=
  if (t <? 20)%nat then 0x5a827999
  else if (t <? 40)%nat then 0x6ed9eba1
  else if (t <? 60)%nat then 0x8f1bbcdc
  else 0xca62c1d6.

(** The message schedule: [rev_w] holds the words so far, last word first. *)
Fixpoint sha1_schedule (n : nat) (rev_w : list N) : list N :=
  match n with
  | O => rev rev_w
  | S n' =>
      let w i := nth i rev_w 0 in
      sha1_schedule n' (rotl 1 (N.lxor (N.lxor (w 2%nat) (w 7%nat)) (N.lxor (w 13%nat) (w 15%nat))) :: rev_w)
  end.

Definition sha1_round (h : list N) (tw : nat * N) : list N :=
  match h with
  | [a; b; c; d; e] =>
      [w32 (rotl 5 a + sha1_f tw.1 b c d + e + sha1_k tw.1 + tw.2); a; rotl 30 b; c; d]
  | _ => h
  end.

Definition sha1_compress (h block : list N) : list N :=
  let w := sha1_schedule 64 (rev block) in
  zip_with (fun x y => w32 (x + y)) h (fold_left sha1_round (zip (seq 0 80) w) h).

Fixpoint sha1_blocks (fuel : nat) (h ws : list N) : list N :=
  match fuel, ws with
  | S fuel', _ :: _ => sha1_blocks fuel' (sha1_compress h (take 16 ws)) (drop 16 ws)
  | _, _ => h
  end.

Definition sha1 (m : list N) : list N :=
  let ws := words (padding m) in
  sha1_blocks (length ws) [0x67452301; 0xefcdab89; 0x98badcfe; 0x10325476; 0xc3d2e1f0] ws.

Example sha1_abc : map (hex 8) (sha1 [97; 98; 99])
  = ["a9993e36"; "4706816a"; "ba3e2571"; "7850c26c"; "9cd0d89d"]%string.
Proof. vm_compute. reflexivity. Qed.

Definition NAMESPACE_URL : uuid := 0x6ba7b8119dad11d180b400c04fd430c8.

(** The first 16 bytes of the digest, with the variant and version bits set. *)
Definition uuid5 (namespace : uuid) (name : string) : uuid :=
  match sha1 (be_bytes 16 namespace ++ utf8 name) with
  | a :: b :: c :: d :: _ =>
      let int := N.lor (N.shiftl a 96) (N.lor (N.shiftl b 64) (N.lor (N.shiftl c 32) d)) in
      let int := N.lor (N.ldiff int (N.shiftl 0xc000 48)) (N.shiftl 0x8000 48) in
      N.lor (N.ldiff int (N.shiftl 0xf000 64)) (N.shiftl 5 76)
  | _ => 0
  end.

Example uuid5_abc : uuid5 NAMESPACE_URL "abc" = 138769752481070991578786837332754324916.
Proof. vm_compute. reflexivity. Qed.
