(* ===== verification/Runs.v ===== *)
(** * The run repository ([src/services/api/repository.py])

    [RunRepository.t] is the state of the in-memory [RunRepository]; every method
    that holds the lock is one atomic call of the monad [M].  [deepcopy] is the
    identity on values.  [repo_op] reifies the calls other threads may make between
    two calls of a client. *)
From S2P Require Import Prelude PyDict PyText Protocol Domain Sha256.
Open Scope list_scope.

Module RunRepository.

Record t := mk {
  _runs : pydict uuid RunRecord.t;
  _idempotency : pydict string (string * uuid);
  _attempts : pydict uuid AttemptRecord.t;
  _events : pydict uuid EventRecord.t;
  _event_sequences : pydict (uuid * Z) uuid;
  _artifacts : pydict uuid ArtifactRecord.t;
  _next_cursor : Z }.

(** [__init__]. *)
Definition init : t := mk ∅ ∅ ∅ ∅ ∅ ∅ 1.

Definition set_runs (f : pydict uuid RunRecord.t -> pydict uuid RunRecord.t) : M t unit := fun s =>
  (Ok tt, mk (f (_runs s)) (_idempotency s) (_attempts s) (_events s) (_event_sequences s)
             (_artifacts s) (_next_cursor s)).
Definition set_attempts (f : pydict uuid AttemptRecord.t -> pydict uuid AttemptRecord.t) : M t unit :=
  fun s => (Ok tt, mk (_runs s) (_idempotency s) (f (_attempts s)) (_events s)
                      (_event_sequences s) (_artifacts s) (_next_cursor s)).
Definition set_idempotency (f : pydict string (string * uuid) -> pydict string (string * uuid)) : M t unit :=
  fun s => (Ok tt, mk (_runs s) (f (_idempotency s)) (_attempts s) (_events s)
                      (_event_sequences s) (_artifacts s) (_next_cursor s)).
Definition set_artifacts (f : pydict uuid ArtifactRecord.t -> pydict uuid ArtifactRecord.t) : M t unit :=
  fun s => (Ok tt, mk (_runs s) (_idempotency s) (_attempts s) (_events s)
                      (_event_sequences s) (f (_artifacts s)) (_next_cursor s)).
(** The three assignments that store an event. *)
Definition store_event (record : EventRecord.t) : M t unit := fun s =>
  (Ok tt, mk (_runs s) (_idempotency s) (_attempts s)
             (<[EventRecord.event_id record := record]> (_events s))
             (<[(EventRecord.attempt_id record, EventRecord.seq record) :=
                  EventRecord.event_id record]> (_event_sequences s))
             (_artifacts s) (_next_cursor s + 1)).

(** [self._runs[run_id]], a [KeyError] when absent. *)
Definition index {K V} `{EqDecision K} (k : K) (d : pydict K V) : res V :=
  match d !! k with Some v => Ok v | None => Err KeyError end.

Definition _get_locked (run_id : uuid) : M t RunRecord.t := fun s =>
  (match _runs s !! run_id with Some r => Ok r | None => Err RunNotFound end, s).

Definition _get_attempt_locked (attempt_id : uuid) : M t AttemptRecord.t := fun s =>
  (match _attempts s !! attempt_id with Some a => Ok a | None => Err AttemptNotFound end, s).

(** [now or datetime.now(timezone.utc)]. *)
Definition default_now (now : option datetime) (read : datetime) : datetime :=
  match now with Some n => n | None => read end.

(** ** Runs *)

Section fingerprint.
  Context `{PyFloat}.

Definition _fingerprint (engine : Engine.t) (parameters : list (string * pyval)) : res string :=
  let? canonical_request :=
    dumps true true (PDict [("engine", PStr (Engine.value engine));
                            ("parameters", PDict parameters)]) in
  Ok (sha256_hex (utf8 canonical_request)).

(** [idempotency_key.strip() if idempotency_key else None], then the truth of it. *)
Definition effective_key (idempotency_key : option string) : option string :=
  match idempotency_key with
  | Some k => if empty_str (strip k) then None else Some (strip k)
  | None => None
  end.

Definition create_or_get (clk : clock) (fresh : uuid) (engine : Engine.t)
    (parameters : list (string * pyval)) (idempotency_key : option string)
    : M t (RunRecord.t * bool) :=
  let key := effective_key idempotency_key in
  let* fingerprint := lift (_fingerprint engine parameters) in
  let* s := get in
  let create :=
    let now := clk 0%nat in
    let run := RunRecord.mk fresh engine parameters RunState.CREATED now now 0 in
    set_runs (fun d => <[fresh := run]> d) ;;;
    (match key with
     | Some k => set_idempotency (fun d => <[k := (fingerprint, fresh)]> d)
     | None => ret tt
     end) ;;;
    ret (run, false) in
  match key with
  | Some k =>
      match _idempotency s !! k with
      | Some (saved_fingerprint, run_id) =>
          if negb (bool_decide (saved_fingerprint = fingerprint)) then raise IdempotencyConflict
          else let* run := lift (index run_id (_runs s)) in ret (run, true)
      | None => create
      end
  | None => create
  end.

Definition create (clk : clock) (fresh : uuid) (engine : Engine.t)
    (parameters : list (string * pyval)) (idempotency_key : option string)
    : M t RunRecord.t :=
  let* ' (run, _) := create_or_get clk fresh engine parameters idempotency_key in ret run.
End fingerprint.

Definition list_runs : M t (list RunRecord.t) :=
  let* s := get in ret (py_sorted (by_key RunRecord.created_at) (values (_runs s))).

Definition get_run (run_id : uuid) : M t RunRecord.t := _get_locked run_id.

Definition transition (clk : clock) (run_id : uuid) (target : RunState.t) : M t RunRecord.t :=
  let* current := _get_locked run_id in
  let* updated := lift (RunRecord.with_state (clk 0%nat) current target) in
  set_runs (fun d => <[run_id := updated]> d) ;;;
  ret updated.

Definition cancel (clk : clock) (run_id : uuid) : M t RunRecord.t :=
  let* current := _get_locked run_id in
  if bool_decide (RunRecord.state current ∈ RUN_TERMINAL) then raise TerminalRunConflict
  else if bool_decide (RunRecord.state current = RunState.CANCELLING) then ret current
  else
    let* updated := lift (RunRecord.with_state (clk 0%nat) current RunState.CANCELLING) in
    set_runs (fun d => <[run_id := updated]> d) ;;;
    ret updated.

(** ** Attempts *)

Definition create_attempt (clk : clock) (fresh : uuid) (run_id : uuid)
    (attempt_id : option uuid) : M t AttemptRecord.t :=
  _get_locked run_id ;;;
  let resolved_id := match attempt_id with Some a => a | None => fresh end in
  let* s := get in
  if has_key resolved_id (_attempts s) then raise AttemptConflict
  else
    let attempt := AttemptRecord.pending resolved_id run_id (clk 0%nat) in
    set_attempts (fun d => <[resolved_id := attempt]> d) ;;;
    ret attempt.

Definition begin_attempt (clk : clock) (run_id attempt_id : uuid) (runner_id : string)
    (lease_seconds : Z) : M t (RunRecord.t * AttemptRecord.t) :=
  let* run := _get_locked run_id in
  let* s := get in
  if has_key attempt_id (_attempts s) then raise AttemptConflict
  else
    let* running := lift (RunRecord.with_state (clk 0%nat) run RunState.RUNNING) in
    let now := clk 1%nat in
    let pending := AttemptRecord.pending attempt_id run_id now in
    let* claimed := lift (AttemptRecord.claimed (clk 2%nat) pending runner_id lease_seconds now) in
    set_runs (fun d => <[run_id := running]> d) ;;;
    set_attempts (fun d => <[attempt_id := claimed]> d) ;;;
    ret (running, claimed).

Definition get_attempt (attempt_id : uuid) : M t AttemptRecord.t := _get_attempt_locked attempt_id.

Definition list_attempts (run_id : uuid) : M t (list AttemptRecord.t) :=
  _get_locked run_id ;;;
  let* s := get in
  let attempts := List.filter (fun a => bool_decide (AttemptRecord.run_id a = run_id))
                    (values (_attempts s)) in
  ret (py_sorted (by_key2 AttemptRecord.created_at AttemptRecord.id) attempts).

Definition transition_attempt (clk : clock) (attempt_id : uuid) (target : AttemptState.t)
    : M t AttemptRecord.t :=
  let* current := _get_attempt_locked attempt_id in
  let* updated := lift (AttemptRecord.with_state (clk 0%nat) current target) in
  set_attempts (fun d => <[attempt_id := updated]> d) ;;;
  ret updated.

Definition claim_attempt (clk : clock) (attempt_id : uuid) (runner_id : string)
    (lease_seconds : Z) (now : option datetime) : M t AttemptRecord.t :=
  let heartbeat := default_now now (clk 0%nat) in
  let* current := _get_attempt_locked attempt_id in
  let* updated := lift (AttemptRecord.claimed (clk 1%nat) current runner_id lease_seconds heartbeat) in
  set_attempts (fun d => <[attempt_id := updated]> d) ;;;
  ret updated.

Definition renew_attempt_lease (clk : clock) (attempt_id : uuid) (runner_id : string)
    (lease_seconds : Z) (now : option datetime) : M t AttemptRecord.t :=
  let heartbeat := default_now now (clk 0%nat) in
  let* current := _get_attempt_locked attempt_id in
  let* updated := lift (AttemptRecord.with_heartbeat current runner_id lease_seconds heartbeat) in
  set_attempts (fun d => <[attempt_id := updated]> d) ;;;
  ret updated.

(** The [continue] condition of the loop, negated. *)
Definition lease_is_expired (cutoff : datetime) (current : AttemptRecord.t) : bool :=
  bool_decide (AttemptRecord.state current ∈ ATTEMPT_LEASED)
  && match AttemptRecord.lease_expires_at current with
     | Some l => (l <=? cutoff)%Z
     | None => false
     end.

(** One round of the loop body past the guard. *)
Definition expire_one (clk : clock) (i : nat) (cutoff : datetime) (attempt_id : uuid)
    (current : AttemptRecord.t) : M t AttemptRecord.t :=
  let* updated := lift (AttemptRecord.lost (clk (2 * i)%nat) current cutoff) in
  set_attempts (fun d => <[attempt_id := updated]> d) ;;;
  let* s := get in
  let* run := lift (index (AttemptRecord.run_id current) (_runs s)) in
  (if bool_decide (RunRecord.state run ∈ RUN_TERMINAL) then ret tt
   else
     let* failed := lift (RunRecord.with_state (clk (2 * i + 1)%nat) run RunState.INFRA_ERROR) in
     set_runs (fun d => <[RunRecord.id run := failed]> d)) ;;;
  ret updated.

Fixpoint expire_loop (clk : clock) (i : nat) (cutoff : datetime)
    (snapshot : list (uuid * AttemptRecord.t)) : M t (list AttemptRecord.t) :=
  match snapshot with
  | [] => ret []
  | (attempt_id, current) :: rest =>
      if lease_is_expired cutoff current then
        let* updated := expire_one clk i cutoff attempt_id current in
        let* expired := expire_loop clk (S i) cutoff rest in
        ret (updated :: expired)
      else expire_loop clk (S i) cutoff rest
  end.

Definition expire_attempt_leases (clk : clock) (now : option datetime)
    : M t (list AttemptRecord.t) :=
  let cutoff := default_now now (clk 0%nat) in
  let* s := get in
  expire_loop (fun i => clk (S i)) 0 cutoff (items (_attempts s)).

Definition complete_attempt (clk : clock) (attempt_id : uuid) (target : AttemptState.t)
    (result : ResultEnvelope.t) : M t AttemptRecord.t :=
  let* current := _get_attempt_locked attempt_id in
  let* updated := lift (AttemptRecord.with_result (clk 0%nat) current target result) in
  set_attempts (fun d => <[attempt_id := updated]> d) ;;;
  ret updated.

(** ** Events *)

(** [event.model_dump(mode="json")["payload"]]. *)
Definition event_payload (event : EventEnvelope.t) : list (string * pyval) :=
  thawed_pairs (EventEnvelope.payload event).

Definition _event_matches (record : EventRecord.t) (event : EventEnvelope.t) : bool :=
  bool_decide (EventRecord.run_id record = EventEnvelope.run_id event)
  && bool_decide (EventRecord.attempt_id record = EventEnvelope.attempt_id event)
  && bool_decide (EventRecord.engine record = EventEnvelope.engine event)
  && (EventRecord.seq record =? EventEnvelope.seq event)%Z
  && (EventRecord.occurred_at record =? EventEnvelope.occurred_at event)%Z
  && bool_decide (EventRecord.type record = EventEnvelope.type event)
  && py_eqb (PDict (EventRecord.payload record)) (PDict (event_payload event)).

Definition append_event (event : EventEnvelope.t) : M t EventRecord.t :=
  let* attempt := _get_attempt_locked (EventEnvelope.attempt_id event) in
  if negb (bool_decide (AttemptRecord.run_id attempt = EventEnvelope.run_id event)) then
    raise EventConflict
  else
    let* run := _get_locked (EventEnvelope.run_id event) in
    if negb (bool_decide (RunRecord.engine run = EventEnvelope.engine event)) then
      raise EventConflict
    else
      let* s := get in
      match _events s !! EventEnvelope.event_id event with
      | Some existing =>
          if _event_matches existing event then ret existing else raise EventConflict
      | None =>
          let sequence_key := (EventEnvelope.attempt_id event, EventEnvelope.seq event) in
          if has_key sequence_key (_event_sequences s) then raise EventConflict
          else
            let record :=
              EventRecord.mk (_next_cursor s) (EventEnvelope.event_id event)
                (EventEnvelope.run_id event) (EventEnvelope.attempt_id event)
                (EventEnvelope.engine event) (EventEnvelope.seq event)
                (EventEnvelope.occurred_at event) (EventEnvelope.type event)
                (event_payload event) in
            store_event record ;;;
            ret record
      end.

Definition list_events (run_id : uuid) (after : Z) : M t (list EventRecord.t) :=
  if (after <? 0)%Z then raise (ValueError "event cursor must not be negative")
  else
    _get_locked run_id ;;;
    let* s := get in
    let events :=
      List.filter (fun e => bool_decide (EventRecord.run_id e = run_id)
                            && (after <? EventRecord.cursor e)%Z)
        (values (_events s)) in
    ret (py_sorted (by_key EventRecord.cursor) events).

(** ** Artifacts *)

Definition create_artifact (record : ArtifactRecord.t) : M t ArtifactRecord.t :=
  let* attempt := _get_attempt_locked (ArtifactRecord.attempt_id record) in
  if negb (bool_decide (AttemptRecord.run_id attempt = ArtifactRecord.run_id record)) then
    raise ArtifactConflict
  else
    _get_locked (ArtifactRecord.run_id record) ;;;
    let* s := get in
    match _artifacts s !! ArtifactRecord.id record with
    | Some existing => if bool_decide (existing = record) then ret existing else raise ArtifactConflict
    | None =>
        set_artifacts (fun d => <[ArtifactRecord.id record := record]> d) ;;;
        ret record
    end.

Definition get_artifact (artifact_id : uuid) : M t ArtifactRecord.t := fun s =>
  (match _artifacts s !! artifact_id with Some a => Ok a | None => Err ArtifactNotFound end, s).

Definition list_artifacts (run_id : uuid) : M t (list ArtifactRecord.t) :=
  _get_locked run_id ;;;
  let* s := get in
  let records := List.filter (fun a => bool_decide (ArtifactRecord.run_id a = run_id))
                   (values (_artifacts s)) in
  ret (py_sorted (by_key2 ArtifactRecord.created_at ArtifactRecord.id) records).

End RunRepository.
