(* ===== verification/RunsFacts.v ===== *)
(** * Facts about the run repository

    [wf] is the representation invariant of [RunRepository], [evolves] says what any
    sequence of calls may do to the stored records; [run_op_good] shows that every
    call keeps both, whatever it returns.  [reachable] is the closure of the empty
    repository under all calls. *)
From S2P Require Import Prelude PyDict PyText Protocol Domain Sha256 Runs.
Import RunRepository.
Open Scope list_scope.

(** ** The calls, reified *)

Section calls.
  Context `{PyFloat}.

(** One constructor for every method of the repository. *)
Inductive repo_op : Type :=
  | OpCreate (clk : clock) (fresh : uuid) (engine : Engine.t)
      (parameters : list (string * pyval)) (key : option string)
  | OpListRuns
  | OpGetRun (run_id : uuid)
  | OpTransition (clk : clock) (run_id : uuid) (target : RunState.t)
  | OpCancel (clk : clock) (run_id : uuid)
  | OpCreateAttempt (clk : clock) (fresh run_id : uuid) (attempt_id : option uuid)
  | OpBeginAttempt (clk : clock) (run_id attempt_id : uuid) (runner_id : string) (lease : Z)
  | OpGetAttempt (attempt_id : uuid)
  | OpListAttempts (run_id : uuid)
  | OpTransitionAttempt (clk : clock) (attempt_id : uuid) (target : AttemptState.t)
  | OpClaimAttempt (clk : clock) (attempt_id : uuid) (runner_id : string) (lease : Z)
      (now : option datetime)
  | OpRenewLease (clk : clock) (attempt_id : uuid) (runner_id : string) (lease : Z)
      (now : option datetime)
  | OpExpireLeases (clk : clock) (now : option datetime)
  | OpCompleteAttempt (clk : clock) (attempt_id : uuid) (target : AttemptState.t)
      (result : ResultEnvelope.t)
  | OpAppendEvent (event : EventEnvelope.t)
  | OpListEvents (run_id : uuid) (after : Z)
  | OpCreateArtifact (record : ArtifactRecord.t)
  | OpGetArtifact (artifact_id : uuid)
  | OpListArtifacts (run_id : uuid).

(** The effect of a call on the repository; its return value is dropped. *)
Definition run_op (o : repo_op) (s : t) : t :=
  match o with
  | OpCreate clk fresh e p k => (create_or_get clk fresh e p k s).2
  | OpListRuns => (list_runs s).2
  | OpGetRun r => (get_run r s).2
  | OpTransition clk r st => (transition clk r st s).2
  | OpCancel clk r => (cancel clk r s).2
  | OpCreateAttempt clk fresh r a => (create_attempt clk fresh r a s).2
  | OpBeginAttempt clk r a n l => (begin_attempt clk r a n l s).2
  | OpGetAttempt a => (get_attempt a s).2
  | OpListAttempts r => (list_attempts r s).2
  | OpTransitionAttempt clk a st => (transition_attempt clk a st s).2
  | OpClaimAttempt clk a n l now => (claim_attempt clk a n l now s).2
  | OpRenewLease clk a n l now => (renew_attempt_lease clk a n l now s).2
  | OpExpireLeases clk now => (expire_attempt_leases clk now s).2
  | OpCompleteAttempt clk a st r => (complete_attempt clk a st r s).2
  | OpAppendEvent e => (append_event e s).2
  | OpListEvents r after => (list_events r after s).2
  | OpCreateArtifact r => (create_artifact r s).2
  | OpGetArtifact a => (get_artifact a s).2
  | OpListArtifacts r => (list_artifacts r s).2
  end.

(** [uuid4()] does not return the id of a stored run. *)
Definition fresh_for (o : repo_op) (s : t) : Prop :=
  match o with OpCreate _ fresh _ _ _ => _runs s !! fresh = None | _ => True end.

Inductive reachable : t -> Prop :=
  | reachable_init : reachable init
  | reachable_op s o : reachable s -> fresh_for o s -> reachable (run_op o s).

(** A sequence of calls by other threads, as executed. *)
Fixpoint run_ops (ops : list repo_op) (s : t) : t :=
  match ops with [] => s | o :: rest => run_ops rest (run_op o s) end.

Fixpoint all_fresh (ops : list repo_op) (s : t) : Prop :=
  match ops with [] => True | o :: rest => fresh_for o s /\ all_fresh rest (run_op o s) end.

(** ** The representation invariant *)

Record wf (s : t) : Prop := {
  wf_runs : forall i r, _runs s !! i = Some r -> RunRecord.id r = i;
  wf_attempts : forall i a, _attempts s !! i = Some a ->
    AttemptRecord.id a = i /\ is_Some (_runs s !! AttemptRecord.run_id a);
  wf_idempotency : forall k f i, _idempotency s !! k = Some (f, i) ->
    exists r, _runs s !! i = Some r
              /\ _fingerprint (RunRecord.engine r) (RunRecord.parameters r) = Ok f;
  wf_events : forall i e, _events s !! i = Some e ->
    EventRecord.event_id e = i
    /\ _event_sequences s !! (EventRecord.attempt_id e, EventRecord.seq e) = Some i
    /\ (1 <= EventRecord.cursor e < _next_cursor s)%Z
    /\ exists a r, _attempts s !! EventRecord.attempt_id e = Some a
                   /\ AttemptRecord.run_id a = EventRecord.run_id e
                   /\ _runs s !! EventRecord.run_id e = Some r
                   /\ RunRecord.engine r = EventRecord.engine e;
  wf_sequences : forall a q i, _event_sequences s !! (a, q) = Some i ->
    exists e, _events s !! i = Some e /\ EventRecord.attempt_id e = a /\ EventRecord.seq e = q;
  wf_cursors : forall i j e f, _events s !! i = Some e -> _events s !! j = Some f ->
    EventRecord.cursor e = EventRecord.cursor f -> i = j;
  wf_next_cursor : (1 <= _next_cursor s)%Z;
  wf_artifacts : forall i x, _artifacts s !! i = Some x ->
    ArtifactRecord.id x = i
    /\ exists a, _attempts s !! ArtifactRecord.attempt_id x = Some a
                 /\ AttemptRecord.run_id a = ArtifactRecord.run_id x
}.

(** ** Evolution of the stored records *)

Definition run_next (a b : RunState.t) : Prop := b ∈ RUN_TRANSITIONS a.
Definition attempt_next (a b : AttemptState.t) : Prop := b ∈ ATTEMPT_TRANSITIONS a.

(** A run keeps its identity and walks the transition table; its version counts the
    transitions; a terminal run is frozen. *)
Definition run_evolves (r r' : RunRecord.t) : Prop :=
  RunRecord.id r' = RunRecord.id r /\ RunRecord.engine r' = RunRecord.engine r
  /\ RunRecord.parameters r' = RunRecord.parameters r
  /\ RunRecord.created_at r' = RunRecord.created_at r
  /\ (RunRecord.state r ∈ RUN_TERMINAL -> r' = r)
  /\ exists n, nsteps run_next n (RunRecord.state r) (RunRecord.state r')
               /\ RunRecord.state_version r' = (RunRecord.state_version r + Z.of_nat n)%Z.

Definition attempt_evolves (a a' : AttemptRecord.t) : Prop :=
  attempt_frame a a' /\ (AttemptRecord.state a ∈ ATTEMPT_TERMINAL -> a' = a)
  /\ rtc attempt_next (AttemptRecord.state a) (AttemptRecord.state a').

Record evolves (s s' : t) : Prop := {
  ev_runs : forall i r, _runs s !! i = Some r ->
    exists r', _runs s' !! i = Some r' /\ run_evolves r r';
  ev_attempts : forall i a, _attempts s !! i = Some a ->
    exists a', _attempts s' !! i = Some a' /\ attempt_evolves a a';
  ev_events : forall i e, _events s !! i = Some e -> _events s' !! i = Some e;
  ev_idempotency : forall k v, _idempotency s !! k = Some v -> _idempotency s' !! k = Some v;
  ev_artifacts : forall i x, _artifacts s !! i = Some x -> _artifacts s' !! i = Some x;
  ev_cursor : (_next_cursor s <= _next_cursor s')%Z;
  ev_new_events : forall i e, _events s' !! i = Some e ->
    _events s !! i = Some e \/ (_next_cursor s <= EventRecord.cursor e)%Z
}.

(** What a call may do: keep the invariant and evolve the records. *)
Definition good (s s' : t) : Prop := wf s' /\ evolves s s'.

Lemma run_evolves_refl r : run_evolves r r.
Proof. repeat split; try done. exists 0%nat. split; [constructor | lia]. Qed.

Lemma run_evolves_trans r1 r2 r3 : run_evolves r1 r2 -> run_evolves r2 r3 -> run_evolves r1 r3.
Proof.
  intros (?&?&?&?&T1&n&Hn&?) (?&?&?&?&T2&m&Hm&?). split_and!; try congruence.
  - intros Ht. rewrite <- (T1 Ht). apply T2. by rewrite (T1 Ht).
  - exists (n + m)%nat. split; [by eapply nsteps_trans | lia].
Qed.

Lemma run_evolves_step now r st r' :
  RunRecord.with_state now r st = Ok r' -> run_evolves r r'.
Proof.
  intros (Ht & <- & ? & ? & ? & ? & ?)%run_with_state_Ok. split_and!; try done.
  - intros Hst%run_terminal_stuck. rewrite Hst in Ht. by apply elem_of_nil in Ht.
  - exists 1%nat. split; [by apply nsteps_once | lia].
Qed.

Lemma attempt_evolves_refl a : attempt_evolves a a.
Proof. repeat split; try done. Qed.

Lemma attempt_evolves_trans a b c :
  attempt_evolves a b -> attempt_evolves b c -> attempt_evolves a c.
Proof.
  intros [(?&?&?) [T1 ?]] [(?&?&?) [T2 ?]]. split_and!; [by split_and!; congruence | | by etrans].
  intros Ht. rewrite <- (T1 Ht). apply T2. by rewrite (T1 Ht).
Qed.

#[export] Instance evolves_preorder : PreOrder evolves.
Proof.
  split.
  - intros s. split; try done; [| | by intros; left]; intros i x Hx; exists x; split; try done;
      first [apply run_evolves_refl | apply attempt_evolves_refl].
  - intros s1 s2 s3 H1 H2. split.
    + intros i r (r2 & Hr2 & ?)%(ev_runs _ _ H1). apply (ev_runs _ _ H2) in Hr2 as (r3 & ? & ?).
      exists r3. split; [done |]. by eapply run_evolves_trans.
    + intros i a (a2 & Ha2 & ?)%(ev_attempts _ _ H1).
      apply (ev_attempts _ _ H2) in Ha2 as (a3 & ? & ?).
      exists a3. split; [done |]. by eapply attempt_evolves_trans.
    + intros i e He. by apply (ev_events _ _ H2), (ev_events _ _ H1).
    + intros k v Hv. by apply (ev_idempotency _ _ H2), (ev_idempotency _ _ H1).
    + intros i x Hx. by apply (ev_artifacts _ _ H2), (ev_artifacts _ _ H1).
    + pose proof (ev_cursor _ _ H1). pose proof (ev_cursor _ _ H2). lia.
    + intros i e [He|?]%(ev_new_events _ _ H2).
      * apply (ev_new_events _ _ H1) in He as [?|?]; auto.
      * right. pose proof (ev_cursor _ _ H1). lia.
Qed.

Lemma good_refl s : wf s -> good s s.
Proof. by split. Qed.

Lemma good_trans s1 s2 s3 : good s1 s2 -> good s2 s3 -> good s1 s3.
Proof. intros [_ ?] [? ?]. split; [done |]. by etrans. Qed.

(** ** The elementary updates are good *)

Lemma good_put_run s i r r' :
  wf s -> _runs s !! i = Some r -> run_evolves r r' -> good s (set_runs (fun d => <[i:=r']> d) s).2.
Proof.
  intros W Hr Hev. assert (RunRecord.id r = i) as Hid by by apply (wf_runs _ W).
  destruct Hev as (Hi & He & Hp & Hc & HT & Hn).
  assert (forall j x, _runs s !! j = Some x -> exists x', <[i:=r']> (_runs s) !! j = Some x'
    /\ run_evolves x x') as Hkeep.
  { intros j x Hx. dict_case; [| exists x; by split; [| apply run_evolves_refl]].
    exists r'. split; [done |]. simplify_eq. by split_and!. }
  split; split; simpl; try apply W; try done; try (by intros; left).
  - intros j x Hx. dict_case. by apply (wf_runs _ W).
  - intros j a Ha. destruct (wf_attempts _ W _ _ Ha) as [? [x Hx]]. split; [done |].
    destruct (Hkeep _ _ Hx) as (x' & ? & _). by eexists.
  - intros k f j Hk. destruct (wf_idempotency _ W _ _ _ Hk) as (x & Hx & Hf).
    destruct (Hkeep _ _ Hx) as (x' & Hx' & _ & Hxe & Hxp & _). exists x'.
    split; [done |]. by rewrite Hxe, Hxp.
  - intros j e Hj. destruct (wf_events _ W _ _ Hj) as (? & ? & ? & a & x & ? & ? & Hx & ?).
    split_and!; try done; try lia. destruct (Hkeep _ _ Hx) as (x' & Hx' & _ & Hxe & _).
    exists a, x'. split_and!; try done. congruence.
  - intros j a Ha. exists a. by split; [| apply attempt_evolves_refl].
Qed.

Lemma good_add_run s i r :
  wf s -> _runs s !! i = None -> RunRecord.id r = i -> good s (set_runs (fun d => <[i:=r]> d) s).2.
Proof.
  intros W Hr Hid.
  assert (forall j x, _runs s !! j = Some x -> <[i:=r]> (_runs s) !! j = Some x) as Hkeep.
  { intros j x Hx. by dict_case. }
  split; split; simpl; try apply W; try done; try (by intros; left).
  - intros j x Hx. dict_case; by apply (wf_runs _ W).
  - intros j a Ha. destruct (wf_attempts _ W _ _ Ha) as [? [x Hx]]. split; [done |].
    exists x. auto.
  - intros k f j Hk. destruct (wf_idempotency _ W _ _ _ Hk) as (x & Hx & Hf). eauto.
  - intros j e Hj. destruct (wf_events _ W _ _ Hj) as (? & ? & ? & a & x & ? & ? & Hx & ?).
    split_and!; try done; try lia. exists a, x. auto.
  - intros j x Hx. exists x. split; [auto | apply run_evolves_refl].
  - intros j a Ha. exists a. by split; [| apply attempt_evolves_refl].
Qed.

Lemma good_add_key s k f i r :
  wf s -> _idempotency s !! k = None -> _runs s !! i = Some r ->
  _fingerprint (RunRecord.engine r) (RunRecord.parameters r) = Ok f ->
  good s (set_idempotency (fun d => <[k := (f, i)]> d) s).2.
Proof.
  intros W Hk Hr Hf. split; split; simpl; try apply W; try done; try (by intros; left).
  - intros k' f' i' Hk'. dict_case; [by eauto | by apply (wf_idempotency _ W) in Hk'].
  - intros j x Hx. exists x. by split; [| apply run_evolves_refl].
  - intros j a Ha. exists a. by split; [| apply attempt_evolves_refl].
  - intros k' v Hv. by dict_case.
Qed.

(** Storing [a'] under [i], a new attempt of a stored run or a stored one evolved. *)
Lemma good_put_attempt s i a' :
  wf s -> AttemptRecord.id a' = i -> is_Some (_runs s !! AttemptRecord.run_id a') ->
  (forall a, _attempts s !! i = Some a -> attempt_evolves a a') ->
  good s (set_attempts (fun d => <[i:=a']> d) s).2.
Proof.
  intros W Hi Hrun Hev.
  assert (forall j a, _attempts s !! j = Some a -> exists b, <[i:=a']> (_attempts s) !! j = Some b
    /\ attempt_evolves a b) as Hkeep.
  { intros j a Ha. dict_case; [| exists a; by split; [| apply attempt_evolves_refl]].
    exists a'. auto. }
  split; split; simpl; try apply W; try done; try (by intros; left).
  - intros j a Ha. dict_case; [done | by apply (wf_attempts _ W)].
  - intros j e Hj. destruct (wf_events _ W _ _ Hj) as (? & ? & ? & a & x & Ha & ? & Hx & ?).
    split_and!; try done; try lia. destruct (Hkeep _ _ Ha) as (b & Hb & (_ & Hbr & _) & _).
    exists b, x. split_and!; try done. congruence.
  - intros j x Hx. destruct (wf_artifacts _ W _ _ Hx) as (? & a & Ha & ?).
    split; [done |]. destruct (Hkeep _ _ Ha) as (b & Hb & (_ & Hbr & _) & _).
    exists b. split; [done | congruence].
  - intros j x Hx. exists x. by split; [| apply run_evolves_refl].
Qed.

(** Replacing a stored attempt by a later state of it. *)
Lemma good_step_attempt s i a a' :
  wf s -> _attempts s !! i = Some a -> attempt_evolves a a' ->
  good s (set_attempts (fun d => <[i:=a']> d) s).2.
Proof.
  intros W Ha Hev. destruct (wf_attempts _ W _ _ Ha) as [Hid Hrun].
  destruct Hev as [(Hi & Hr & Hc) [HT Hs]].
  apply good_put_attempt; [done | congruence | by rewrite Hr |].
  intros b Hb. simplify_eq. by split_and!.
Qed.

Lemma good_store_event s e r :
  wf s -> _events s !! EventRecord.event_id e = None ->
  _event_sequences s !! (EventRecord.attempt_id e, EventRecord.seq e) = None ->
  EventRecord.cursor e = _next_cursor s ->
  (exists a, _attempts s !! EventRecord.attempt_id e = Some a
             /\ AttemptRecord.run_id a = EventRecord.run_id e) ->
  _runs s !! EventRecord.run_id e = Some r -> RunRecord.engine r = EventRecord.engine e ->
  good s (store_event e s).2.
Proof.
  intros W Hnew Hseq Hcur (a & Ha & Har) Hr Hre.
  pose proof (wf_next_cursor _ W) as Hnc.
  split; split; simpl; try apply W; try done; try lia.
  - intros j x Hx. destruct (decide (j = EventRecord.event_id e)) as [->|Hj].
    + rewrite dict_lookup_insert_eq in Hx. simplify_eq.
      rewrite dict_lookup_insert_eq. split_and!; [done | done | lia | lia | by eauto 10].
    + rewrite dict_lookup_insert_ne in Hx by done.
      destruct (wf_events _ W _ _ Hx) as (Hi & Hs & ? & ?).
      split_and!; [done | | lia | lia | done]. by dict_case.
  - intros a' q i Hi. rewrite dict_lookup_insert in Hi. case_decide; simplify_eq.
    + exists e. by dict_case.
    + apply (wf_sequences _ W) in Hi as (x & Hx & ? & ?). exists x. by dict_case.
  - intros i j x y Hx Hy Hc. rewrite dict_lookup_insert in Hx, Hy.
    repeat case_decide; simplify_eq; try done.
    + apply (wf_events _ W) in Hx as (_ & _ & ? & _). lia.
    + apply (wf_events _ W) in Hy as (_ & _ & ? & _). lia.
    + by eapply (wf_cursors _ W).
  - intros j x Hx. exists x. by split; [| apply run_evolves_refl].
  - intros j x Hx. exists x. by split; [| apply attempt_evolves_refl].
  - intros j x Hx. by dict_case.
  - intros j x Hx. rewrite dict_lookup_insert in Hx. case_decide; simplify_eq; [right; lia | by left].
Qed.

Lemma good_add_artifact s x :
  wf s -> _artifacts s !! ArtifactRecord.id x = None ->
  (exists a, _attempts s !! ArtifactRecord.attempt_id x = Some a
             /\ AttemptRecord.run_id a = ArtifactRecord.run_id x) ->
  good s (set_artifacts (fun d => <[ArtifactRecord.id x := x]> d) s).2.
Proof.
  intros W Hnew Ha. split; split; simpl; try apply W; try done; try (by intros; left).
  - intros i y Hy. dict_case; [by split | by apply (wf_artifacts _ W)].
  - intros j y Hy. exists y. by split; [| apply run_evolves_refl].
  - intros j y Hy. exists y. by split; [| apply attempt_evolves_refl].
  - intros i y Hy. by dict_case.
Qed.
End calls.

(** ** Every call is good *)

(** [calls_good c]: from a well-formed repository the call keeps the invariant and
    evolves the records, whether it returns or raises. *)
Definition calls_good `{PyFloat} {A} (c : M t A) : Prop := forall s, wf s -> good s (c s).2.

(** An elementary update returns [None] and leaves [(update s).2]. *)
Ltac name_updates :=
  repeat match goal with
         | H : ?u ?s = (Err _, _) |- _ => discriminate H
         | H : ?u ?s = (Ok _, ?s') |- _ =>
             is_var s'; assert (s' = (u s).2) as -> by (by rewrite H); clear H
         end.

(** Run a call to its outcomes; the outcomes that touch nothing are closed. *)
Ltac run_call :=
  intros s W;
  unfold _get_locked, _get_attempt_locked, get_run, get_attempt, get_artifact, raise, ret, lift,
    get, bind, index in *;
  cbn [fst snd] in *; py_case; name_updates; try (by apply good_refl).

(** Invert the equation [H] that says what a call returned. *)
Ltac run_inv H :=
  unfold _get_locked, _get_attempt_locked, get_run, get_attempt, get_artifact, raise, ret, lift,
    get, bind, index in H;
  cbn [fst snd] in H; py_inv H; name_updates; simplify_eq; bool_prop;
  repeat match goal with
         | Hk : has_key _ _ = false |- _ => apply has_key_false in Hk
         | Hk : has_key _ _ = true |- _ => apply has_key_true in Hk
         end.

Section good_calls.
  Context `{PyFloat}.

Lemma good_bind {A B} (c : M t A) (k : A -> M t B) :
  calls_good c -> (forall a, calls_good (k a)) -> calls_good (bind c k).
Proof.
  intros Hc Hk s W. specialize (Hc s W). unfold bind.
  destruct (c s) as [[a|e] s1]; [| done]. eapply good_trans; [done |].
  apply Hk, Hc.
Qed.

Lemma good_pure {A} (c : M t A) : (forall s, (c s).2 = s) -> calls_good c.
Proof. intros Hc s W. rewrite Hc. by apply good_refl. Qed.

Lemma create_or_get_good clk fresh e p k s :
  wf s -> _runs s !! fresh = None -> good s (create_or_get clk fresh e p k s).2.
Proof.
  intros W Hf. unfold create_or_get, bind, lift, get, ret, raise, index. cbn [fst snd].
  destruct (_fingerprint e p) as [fp|] eqn:Efp; [| by apply good_refl].
  set (run := RunRecord.mk fresh e p RunState.CREATED (clk 0%nat) (clk 0%nat) 0).
  pose proof (good_add_run s fresh run W Hf eq_refl) as Hadd.
  destruct (effective_key k) as [k'|]; [| exact Hadd].
  destruct (_idempotency s !! k') as [[fp' i]|] eqn:Ek.
  - case_bool_decide; simpl; [| by apply good_refl].
    destruct (_runs s !! i); by apply good_refl.
  - eapply good_trans; [exact Hadd |].
    eapply (good_add_key _ k' fp fresh run); [apply Hadd | done | | exact Efp].
    apply dict_lookup_insert_eq.
Qed.

Lemma transition_good clk i st : calls_good (transition clk i st).
Proof.
  unfold transition. run_call. simplify_eq. eapply good_put_run; try done.
  by eapply run_evolves_step.
Qed.

Lemma cancel_good clk i : calls_good (cancel clk i).
Proof.
  unfold cancel. run_call. simplify_eq. eapply good_put_run; try done.
  by eapply run_evolves_step.
Qed.

Lemma create_attempt_good clk fresh i a : calls_good (create_attempt clk fresh i a).
Proof.
  unfold create_attempt. run_call; simplify_eq;
    apply good_put_attempt; simpl; try done; intros b Hb;
    repeat match goal with Hk : has_key _ _ = false |- _ => apply has_key_false in Hk end;
    congruence.
Qed.

(** One transition of the attempt table, or none on a leased attempt. *)
Lemma attempt_evolves_next a a' :
  AttemptRecord.state a' ∈ ATTEMPT_TRANSITIONS (AttemptRecord.state a) -> attempt_frame a a' ->
  attempt_evolves a a'.
Proof.
  intros Ht Hf. split_and!; [done | | by apply rtc_once].
  intros Hst%attempt_terminal_stuck. rewrite Hst in Ht. by apply elem_of_nil in Ht.
Qed.

Lemma attempt_step_evolves now a st a' :
  AttemptRecord.with_state now a st = Ok a' -> attempt_evolves a a'.
Proof. intros (Ht & <- & Hf & _)%attempt_with_state_Ok. by apply attempt_evolves_next. Qed.

Lemma claimed_evolves rd a n l now a' :
  AttemptRecord.claimed rd a n l now = Ok a' -> attempt_evolves a a'.
Proof.
  intros (Hs & Hs' & Hf & _)%attempt_claimed_Ok. apply attempt_evolves_next; [| done].
  rewrite Hs, Hs'. simpl. set_solver.
Qed.

Lemma heartbeat_evolves a n l now a' :
  AttemptRecord.with_heartbeat a n l now = Ok a' -> attempt_evolves a a'.
Proof.
  intros (Hl & Hs & Hf & _)%attempt_with_heartbeat_Ok. split_and!; [done | | by rewrite Hs].
  intros Ht. exfalso. revert Hl Ht. unfold ATTEMPT_LEASED, ATTEMPT_TERMINAL.
  destruct (AttemptRecord.state a); set_solver.
Qed.

Lemma lost_evolves rd a now a' : AttemptRecord.lost rd a now = Ok a' -> attempt_evolves a a'.
Proof.
  intros (Ht & Hs & Hf & _)%attempt_lost_Ok. apply attempt_evolves_next; [| done]. by rewrite Hs.
Qed.

Lemma result_evolves now a st r a' :
  AttemptRecord.with_result now a st r = Ok a' -> attempt_evolves a a'.
Proof. intros (Ht & <- & Hf & _)%attempt_with_result_Ok. by apply attempt_evolves_next. Qed.

Lemma begin_attempt_good clk i a n l : calls_good (begin_attempt clk i a n l).
Proof.
  unfold begin_attempt. run_call. simplify_eq.
  match goal with
  | Hw : RunRecord.with_state _ ?r _ = Ok ?r', Hc : AttemptRecord.claimed _ _ _ _ _ = Ok ?c |- _ =>
      pose proof (run_evolves_step _ _ _ _ Hw) as Hr;
      destruct (attempt_claimed_Ok _ _ _ _ _ _ Hc) as (_ & _ & (Hi & Hrun & _) & _)
  end.
  eapply good_trans; [by eapply good_put_run |].
  apply good_put_attempt; [by eapply good_put_run | done | |].
  - rewrite Hrun. simpl. by rewrite dict_lookup_insert_eq.
  - intros b Hb. simpl in Hb. apply has_key_false in Heqb. congruence.
Qed.

Lemma transition_attempt_good clk a st : calls_good (transition_attempt clk a st).
Proof.
  unfold transition_attempt. run_call. simplify_eq.
  eapply good_step_attempt; try done. by eapply attempt_step_evolves.
Qed.

Lemma claim_attempt_good clk a n l now : calls_good (claim_attempt clk a n l now).
Proof.
  unfold claim_attempt. run_call. simplify_eq.
  eapply good_step_attempt; try done. by eapply claimed_evolves.
Qed.

Lemma renew_good clk a n l now : calls_good (renew_attempt_lease clk a n l now).
Proof.
  unfold renew_attempt_lease. run_call. simplify_eq.
  eapply good_step_attempt; try done. by eapply heartbeat_evolves.
Qed.

Lemma complete_attempt_good clk a st r : calls_good (complete_attempt clk a st r).
Proof.
  unfold complete_attempt. run_call. simplify_eq.
  eapply good_step_attempt; try done. by eapply result_evolves.
Qed.

Lemma expire_one_good clk n cutoff i a s :
  wf s -> _attempts s !! i = Some a -> good s (expire_one clk n cutoff i a s).2.
Proof.
  intros W Ha. unfold expire_one, bind, lift, get, ret, raise, index. cbn [fst snd].
  destruct (AttemptRecord.lost _ a cutoff) as [a'|] eqn:El; [| by apply good_refl].
  assert (good s (set_attempts (fun d => <[i:=a']> d) s).2) as Hg.
  { eapply good_step_attempt; try done. by eapply lost_evolves. }
  cbn [set_attempts fst snd _runs] in *.
  destruct (_runs s !! AttemptRecord.run_id a) as [r|] eqn:Er; [| exact Hg].
  case_bool_decide; [exact Hg |].
  destruct (RunRecord.with_state _ r _) as [r'|] eqn:Ew; [| exact Hg].
  eapply good_trans; [exact Hg |].
  assert (RunRecord.id r = AttemptRecord.run_id a) as -> by by apply (wf_runs _ W).
  apply (good_put_run _ _ r r'); [apply Hg | done | by eapply run_evolves_step].
Qed.

(** The loop over the snapshot: the entries still to come are unchanged, because
    keys do not repeat. *)
Lemma expire_one_frame clk n cutoff i a s j :
  i <> j -> _attempts (expire_one clk n cutoff i a s).2 !! j = _attempts s !! j.
Proof.
  intros Hij. unfold expire_one, bind, lift, get, ret, raise, index. cbn [fst snd].
  py_case; name_updates; simpl; try done; by apply dict_lookup_insert_ne.
Qed.

Lemma expire_loop_good clk n cutoff snapshot s :
  wf s -> NoDup snapshot.*1 -> (forall i a, (i, a) ∈ snapshot -> _attempts s !! i = Some a) ->
  good s (expire_loop clk n cutoff snapshot s).2.
Proof.
  revert n s. induction snapshot as [|[i a] rest IH]; intros n s W Hnd Hin; simpl;
    [by apply good_refl |].
  apply NoDup_cons in Hnd as [Hni Hnd].
  assert (forall s' j b, (forall j, i <> j -> _attempts s' !! j = _attempts s !! j) ->
    (j, b) ∈ rest -> _attempts s' !! j = Some b) as Hrest.
  { intros s' j b Hs' Hj. rewrite Hs'; [apply Hin; by right |].
    intros ->. apply Hni. apply list_elem_of_fmap. by exists (j, b). }
  destruct (lease_is_expired cutoff a); [| apply IH; try done; intros j b Hj; by apply Hrest].
  assert (good s (expire_one clk n cutoff i a s).2) as Hg.
  { apply expire_one_good; [done |]. apply Hin. by left. }
  unfold bind at 1. destruct (expire_one clk n cutoff i a s) as [[a'|e] s1] eqn:E;
    cbn [fst snd] in Hg; [| exact Hg].
  eapply good_trans; [exact Hg |]. unfold bind.
  destruct (expire_loop clk (S n) cutoff rest s1) as [[l|e] s2] eqn:E2; cbn;
    (replace s2 with (expire_loop clk (S n) cutoff rest s1).2 by by rewrite E2);
    (apply IH; [apply Hg | done | intros j b; apply Hrest]);
    intros k Hk; (replace s1 with (expire_one clk n cutoff i a s).2 by by rewrite E);
    by apply expire_one_frame.
Qed.

Lemma expire_good clk now : calls_good (expire_attempt_leases clk now).
Proof.
  intros s W. unfold expire_attempt_leases, bind, get. cbn [fst snd].
  apply expire_loop_good; [done | apply items_nodup |]. intros i a. by apply elem_of_items.
Qed.

Lemma append_event_good e : calls_good (append_event e).
Proof.
  unfold append_event. run_call. simplify_eq. bool_prop.
  repeat match goal with H0 : has_key _ _ = false |- _ => apply has_key_false in H0 end.
  eapply good_store_event; simpl; eauto.
Qed.

Lemma create_artifact_good x : calls_good (create_artifact x).
Proof.
  unfold create_artifact. run_call. simplify_eq. bool_prop.
  apply good_add_artifact; eauto.
Qed.

(** The calls that only read. *)
Lemma get_locked_reads i s : (_get_locked i s).2 = s.
Proof. done. Qed.

Lemma list_attempts_reads i s : (list_attempts i s).2 = s.
Proof. unfold list_attempts, _get_locked, bind, get, ret. by destruct (_runs s !! i). Qed.

Lemma list_artifacts_reads i s : (list_artifacts i s).2 = s.
Proof. unfold list_artifacts, _get_locked, bind, get, ret. by destruct (_runs s !! i). Qed.

Lemma list_events_reads i after s : (list_events i after s).2 = s.
Proof.
  unfold list_events, _get_locked, bind, get, ret, raise.
  destruct (after <? 0)%Z; [done |]. by destruct (_runs s !! i).
Qed.

(** Every call of the interface. *)
Lemma run_op_good o s : wf s -> fresh_for o s -> good s (run_op o s).
Proof.
  intros W Hf. destruct o; simpl in *;
    first [ by apply create_or_get_good
          | by apply transition_good | by apply cancel_good | by apply create_attempt_good
          | by apply begin_attempt_good | by apply transition_attempt_good
          | by apply claim_attempt_good | by apply renew_good | by apply expire_good
          | by apply complete_attempt_good | by apply append_event_good
          | by apply create_artifact_good
          | by rewrite ?list_attempts_reads, ?list_artifacts_reads, ?list_events_reads;
            apply good_refl ].
Qed.

Lemma wf_init : wf init.
Proof. by split. Qed.

Lemma run_ops_good ops s : wf s -> all_fresh ops s -> good s (run_ops ops s).
Proof.
  revert s. induction ops as [|o ops IH]; intros s W; simpl; [by intros _; apply good_refl |].
  intros [Hf Hr]. pose proof (run_op_good o s W Hf) as Hg.
  eapply good_trans; [exact Hg |]. apply IH; [apply Hg | done].
Qed.

Lemma reachable_wf s : reachable s -> wf s.
Proof. induction 1; [apply wf_init | by apply run_op_good]. Qed.
End good_calls.

#[export] Hint Resolve transition_good cancel_good create_attempt_good begin_attempt_good
  transition_attempt_good claim_attempt_good renew_good expire_good complete_attempt_good
  append_event_good create_artifact_good good_bind : py.
