(* ===== verification/RunsTheorems.v ===== *)
(** * Properties of the run repository

    What [RunRepository] guarantees to its clients whatever calls other threads make
    in between: append-only history, idempotent creation and event delivery,
    resumable event listing, and the lease reaper. *)
From S2P Require Import Prelude PyDict PyText Protocol Domain Sha256 Runs RunsFacts.
Import RunRepository.
Open Scope list_scope.

Section theorems.
  Context `{PyFloat}.

(** ** Helper lemmas *)

Lemma run_walk_from_terminal n a b :
  a ∈ RUN_TERMINAL -> nsteps run_next n a b -> n = 0%nat /\ b = a.
Proof.
  intros Ht%run_terminal_stuck Hn. destruct n as [|n]; [by inversion Hn |].
  inversion Hn as [|? ? y ? Hy]; subst. unfold run_next in Hy. rewrite Ht in Hy.
  by apply elem_of_nil in Hy.
Qed.

Lemma key_of_strip k : effective_key (Some k) = Some (strip k) <-> strip k <> EmptyString.
Proof. unfold effective_key, empty_str. case_bool_decide; naive_solver. Qed.

(** What a successful creation leaves in the index. *)
Lemma create_or_get_stored clk fresh e p k s r b s' :
  wf s -> create_or_get clk fresh e p (Some k) s = (Ok (r, b), s') -> strip k <> EmptyString ->
  exists f, _fingerprint e p = Ok f /\ _idempotency s' !! strip k = Some (f, RunRecord.id r)
            /\ _runs s' !! RunRecord.id r = Some r.
Proof.
  intros W Hc Hk. unfold create_or_get in Hc. rewrite (proj2 (key_of_strip k) Hk) in Hc.
  unfold bind, lift, get, ret, raise, index in Hc. cbn [fst snd] in Hc.
  destruct (_fingerprint e p) as [f|] eqn:Ef; [| done]. exists f. split; [done |].
  destruct (_idempotency s !! strip k) as [[f' i]|] eqn:Ei.
  - case_bool_decide as Hf; simpl in Hc; [| done].
    destruct (_runs s !! i) as [x|] eqn:Ex; simplify_eq.
    by rewrite (wf_runs _ W i r Ex).
  - simpl in Hc. simplify_eq. simpl. by rewrite !dict_lookup_insert_eq.
Qed.

(** ** The representation invariant and the evolution of records *)

(** C3. Type invariant: in every repository reachable by any sequence of repository
    calls (successful or raising), records are filed under their own id, attempts,
    events and artifacts refer to stored runs and attempts of the same run, the event
    index by (attempt, seq) and the event table are inverse to each other, cursors are
    unique and below the next one, and every idempotency entry carries the fingerprint
    of the run it points to. *)
Theorem reachable_repository_wf s : reachable s -> wf s.
Proof. apply reachable_wf. Qed.

(** C4. History is append-only and states only walk the transition tables: whatever
    calls other threads make, every stored run is still there with the same identity,
    engine and parameters, its state is reached by transitions of [RUN_TRANSITIONS]
    counted by [state_version], the record of a terminal run or a terminal attempt never
    changes again, and events, artifacts and idempotency entries are never altered. *)
Theorem repository_history_append_only s ops :
  reachable s -> all_fresh ops s ->
  let s' := run_ops ops s in
  evolves s s'
  /\ (forall i r, _runs s !! i = Some r -> RunRecord.state r ∈ RUN_TERMINAL ->
        _runs s' !! i = Some r)
  /\ (forall i a, _attempts s !! i = Some a -> AttemptRecord.state a ∈ ATTEMPT_TERMINAL ->
        _attempts s' !! i = Some a).
Proof.
  intros Hr Hf. destruct (run_ops_good ops s (reachable_wf s Hr) Hf) as [_ Hev].
  split; [done | split].
  - intros i r Hi Ht. destruct (ev_runs _ _ Hev _ _ Hi) as (r' & Hr' & _ & _ & _ & _ & HT & _).
    by rewrite <- (HT Ht).
  - intros i a Hi Ht. destruct (ev_attempts _ _ Hev _ _ Hi) as (a' & Ha' & _ & HT & _).
    by rewrite <- (HT Ht).
Qed.

(** ** Idempotent creation *)

(** Idempotent creation: once a creation under a non-blank key has returned run
    [r], then after any calls of other threads, a creation under a key with the same
    stripped text and an equal request returns a run with the same id and the replay
    flag, and changes nothing; a request with another fingerprint is refused with
    [IdempotencyConflict] and changes nothing. *)
Theorem create_or_get_idempotent clk fresh e p k s r b s1 ops clk' fresh' e' p' k' :
  reachable s -> _runs s !! fresh = None ->
  create_or_get clk fresh e p (Some k) s = (Ok (r, b), s1) -> strip k <> EmptyString ->
  all_fresh ops s1 -> strip k' = strip k ->
  let s2 := run_ops ops s1 in
  let again := create_or_get clk' fresh' e' p' (Some k') s2 in
  (_fingerprint e' p' = _fingerprint e p ->
     exists r', again = (Ok (r', true), s2) /\ RunRecord.id r' = RunRecord.id r)
  /\ (forall f', _fingerprint e' p' = Ok f' -> _fingerprint e p <> Ok f' ->
     again = (Err IdempotencyConflict, s2)).
Proof.
  intros Hr Hfresh Hc Hk Hall Hk' s2.
  pose proof (reachable_wf s Hr) as W.
  destruct (create_or_get_stored _ _ _ _ _ _ _ _ _ W Hc Hk) as (f & Hf & Hidx & Hrun).
  assert (wf s1) as W1.
  { replace s1 with (create_or_get clk fresh e p (Some k) s).2 by by rewrite Hc.
    by apply create_or_get_good. }
  destruct (run_ops_good ops s1 W1 Hall) as [W2 Hev].
  apply (ev_idempotency _ _ Hev) in Hidx. fold s2 in Hidx, W2.
  destruct (ev_runs _ _ Hev _ _ Hrun) as (r2 & Hr2 & Hid2 & _). fold s2 in Hr2.
  unfold create_or_get, bind, lift, get, ret, raise, index. cbn [fst snd].
  rewrite (proj2 (key_of_strip k')) by congruence. rewrite Hk'.
  split.
  - intros ->. rewrite Hf, Hidx. rewrite bool_decide_true by done. cbn [negb fst snd].
    rewrite Hr2. eauto.
  - intros f' -> Hne. rewrite Hidx. rewrite bool_decide_false by congruence. done.
Qed.

(** ** Event delivery *)

Lemma append_event_stored e s x s' :
  append_event e s = (Ok x, s') -> wf s ->
  _events s' !! EventEnvelope.event_id e = Some x
  /\ (exists a, _attempts s !! EventEnvelope.attempt_id e = Some a
                /\ AttemptRecord.run_id a = EventEnvelope.run_id e)
  /\ (exists r, _runs s !! EventEnvelope.run_id e = Some r
                /\ RunRecord.engine r = EventEnvelope.engine e)
  /\ (_event_matches x e = true
      \/ (_events s !! EventEnvelope.event_id e = None /\ EventRecord.payload x = event_payload e
          /\ EventRecord.cursor x = _next_cursor s)).
Proof.
  intros Hc W. unfold append_event in Hc. run_inv Hc.
  - split_and!; eauto.
  - simpl. rewrite dict_lookup_insert_eq. split_and!; eauto.
Qed.

Lemma event_matches_self e n :
  unique_keys (PDict (EventEnvelope.payload e)) = true ->
  _event_matches
    (EventRecord.mk n (EventEnvelope.event_id e) (EventEnvelope.run_id e)
       (EventEnvelope.attempt_id e) (EventEnvelope.engine e) (EventEnvelope.seq e)
       (EventEnvelope.occurred_at e) (EventEnvelope.type e) (event_payload e)) e = true.
Proof.
  intros Hu. unfold _event_matches. simpl EventRecord.run_id. simpl EventRecord.attempt_id.
  simpl EventRecord.engine. simpl EventRecord.seq. simpl EventRecord.occurred_at.
  simpl EventRecord.type. simpl EventRecord.payload.
  rewrite !bool_decide_true by done. rewrite !Z.eqb_refl.
  change (py_eqb (PDict (event_payload e)) (PDict (event_payload e)) = true).
  apply py_eqb_refl. exact (unique_keys_thaw _ Hu).
Qed.

Lemma append_event_matches e s x s' :
  append_event e s = (Ok x, s') -> unique_keys (PDict (EventEnvelope.payload e)) = true ->
  _event_matches x e = true.
Proof.
  intros Hc Hu. unfold append_event in Hc. run_inv Hc; [done |]. by apply event_matches_self.
Qed.

(** C5. Exactly-once events: once [append_event] has accepted an event, then after any
    calls of other threads delivering the same envelope again returns the stored record
    with its first cursor and changes nothing, and another event id with the same
    attempt and sequence number, or the same id with other contents, is refused with
    [EventConflict]. *)
Theorem append_event_exactly_once e s x s1 ops e' :
  reachable s -> append_event e s = (Ok x, s1) ->
  unique_keys (PDict (EventEnvelope.payload e)) = true -> all_fresh ops s1 ->
  let s2 := run_ops ops s1 in
  append_event e s2 = (Ok x, s2)
  /\ (EventEnvelope.attempt_id e' = EventEnvelope.attempt_id e ->
      EventEnvelope.run_id e' = EventEnvelope.run_id e ->
      EventEnvelope.engine e' = EventEnvelope.engine e ->
      EventEnvelope.seq e' = EventEnvelope.seq e ->
      EventEnvelope.event_id e' <> EventEnvelope.event_id e ->
      _events s2 !! EventEnvelope.event_id e' = None ->
      append_event e' s2 = (Err EventConflict, s2))
  /\ (EventEnvelope.event_id e' = EventEnvelope.event_id e ->
      _event_matches x e' = false ->
      append_event e' s2 = (Err EventConflict, s2)
      \/ append_event e' s2 = (Err AttemptNotFound, s2)
      \/ append_event e' s2 = (Err RunNotFound, s2)).
Proof.
  intros Hr Hc Hu Hall s2. pose proof (reachable_wf s Hr) as W.
  destruct (append_event_stored _ _ _ _ Hc W) as (Hx & (a & Ha & Har) & (r & Hrn & Hre) & _).
  pose proof (append_event_matches _ _ _ _ Hc Hu) as Hm.
  pose proof (append_event_good e s W) as [W1 Hev1]. rewrite Hc in W1, Hev1. cbn [snd] in W1, Hev1.
  destruct (run_ops_good ops s1 W1 Hall) as [W2 Hev2]. fold s2 in W2, Hev2.
  pose proof (transitivity Hev1 Hev2) as Hev.
  apply (ev_events _ _ Hev2) in Hx.
  destruct (ev_attempts _ _ Hev _ _ Ha) as (a2 & Ha2 & (_ & Har2 & _) & _).
  destruct (ev_runs _ _ Hev _ _ Hrn) as (r2 & Hr2 & _ & Hre2 & _).
  split_and!.
  - unfold append_event, _get_attempt_locked, _get_locked, bind, get, ret, raise. cbn [fst snd].
    rewrite Ha2. rewrite bool_decide_true by congruence. cbn [negb]. rewrite Hr2.
    rewrite bool_decide_true by congruence. cbn [negb]. by rewrite Hx, Hm.
  - intros Ea Er Ee Eq Ei Hnone.
    unfold append_event, _get_attempt_locked, _get_locked, bind, get, ret, raise. cbn [fst snd].
    rewrite Ea, Er, Ee, Eq, Ha2. rewrite bool_decide_true by congruence. cbn [negb]. rewrite Hr2.
    rewrite bool_decide_true by congruence. cbn [negb]. rewrite Hnone.
    destruct (wf_events _ W2 _ _ Hx) as (_ & Hseq & _).
    assert (EventRecord.attempt_id x = EventEnvelope.attempt_id e
            /\ EventRecord.seq x = EventEnvelope.seq e) as [Hxa Hxq].
    { unfold _event_matches in Hm. bool_prop. done. }
    rewrite Hxa, Hxq in Hseq.
    rewrite (proj2 (has_key_true _ _)) by (by eexists). done.
  - intros Ei Hmf.
    unfold append_event, _get_attempt_locked, _get_locked, bind, get, ret, raise. cbn [fst snd].
    rewrite Ei. py_case; simplify_eq; auto; congruence.
Qed.

(** ** Event listing *)

Lemma elem_of_List_filter {A} (p : A -> bool) x l : x ∈ List.filter p l <-> x ∈ l /\ p x = true.
Proof. rewrite !list_elem_of_In. apply filter_In. Qed.

Lemma NoDup_List_filter {A} (p : A -> bool) (l : list A) : NoDup l -> NoDup (List.filter p l).
Proof. intros Hn. apply NoDup_ListNoDup in Hn. apply NoDup_ListNoDup. by apply List.NoDup_filter. Qed.

Lemma list_events_spec s run after l s' :
  wf s -> list_events run after s = (Ok l, s') ->
  s' = s /\ (0 <= after)%Z /\ is_Some (_runs s !! run)
  /\ StronglySorted (key_lt EventRecord.cursor) l
  /\ (forall x, x ∈ l <-> _events s !! EventRecord.event_id x = Some x
                         /\ EventRecord.run_id x = run /\ (after < EventRecord.cursor x)%Z).
Proof.
  intros W Hc. unfold list_events in Hc. run_inv Hc.
  split_and!; [done | done | by eexists | |].
  - apply py_sorted_strict.
    + apply NoDup_List_filter. apply (values_nodup _ EventRecord.event_id).
      intros i e He. by destruct (wf_events _ W _ _ He).
    + intros x y [Hx _]%elem_of_List_filter [Hy _]%elem_of_List_filter Hxy.
      apply elem_of_values in Hx as [i Hx]. apply elem_of_values in Hy as [j Hy].
      pose proof (wf_cursors _ W _ _ _ _ Hx Hy Hxy) as ->. congruence.
  - intros x. rewrite elem_of_py_sorted, elem_of_List_filter, elem_of_values.
    rewrite andb_true_iff, bool_decide_eq_true, Z.ltb_lt. split.
    + intros [[i Hx] ?]. split; [| done]. by destruct (wf_events _ W _ _ Hx) as [-> _].
    + intros [Hx ?]. eauto.
Qed.

Definition last_cursor (after : Z) (l : list EventRecord.t) : Z :=
  match last l with Some e => EventRecord.cursor e | None => after end.

Lemma last_is_max l e x :
  StronglySorted (key_lt EventRecord.cursor) l -> last l = Some e -> x ∈ l ->
  (EventRecord.cursor x <= EventRecord.cursor e)%Z.
Proof.
  intros Hs. induction Hs as [|y l Hs IH Hy]; intros Hl Hx; [done |].
  destruct l as [|z l]; [apply list_elem_of_singleton in Hx; simpl in Hl; simplify_eq; lia |].
  change (last (z :: l) = Some e) in Hl. apply elem_of_cons in Hx as [->|Hx]; [| auto].
  rewrite Forall_forall in Hy. unfold key_lt in Hy. specialize (Hy e).
  apply last_Some_elem_of in Hl. apply Hy in Hl. lia.
Qed.

(** Resumable event streams: a client that has listed the events of a run after
    cursor [a] and later asks for the events after the last cursor it saw gets exactly
    the rest of the stream: after any calls of other threads the full listing is what
    it had followed by what it gets now, in strictly increasing cursor order. *)
Theorem list_events_resumable s ops run a old new all :
  reachable s -> all_fresh ops s ->
  let s' := run_ops ops s in
  list_events run a s = (Ok old, s) ->
  list_events run (last_cursor a old) s' = (Ok new, s') ->
  list_events run a s' = (Ok all, s') ->
  all = old ++ new /\ StronglySorted (key_lt EventRecord.cursor) all.
Proof.
  intros Hr Hf s' Hold Hnew Hall. pose proof (reachable_wf s Hr) as W.
  destruct (run_ops_good ops s W Hf) as [W' Hev]. fold s' in W', Hev.
  destruct (list_events_spec _ _ _ _ _ W Hold) as (_ & _ & _ & So & Io).
  destruct (list_events_spec _ _ _ _ _ W' Hnew) as (_ & _ & _ & Sn & In).
  destruct (list_events_spec _ _ _ _ _ W' Hall) as (_ & _ & _ & Sa & Ia).
  split; [| done].
  assert (forall x, x ∈ old -> (EventRecord.cursor x <= last_cursor a old)%Z
                               /\ (a < EventRecord.cursor x)%Z) as Hle.
  { intros x Hx. split; [| by apply Io in Hx as (_ & _ & ?)]. unfold last_cursor.
    destruct (last old) as [e|] eqn:El; [exact (last_is_max _ _ _ So El Hx) |].
    apply last_None in El. subst. by apply not_elem_of_nil in Hx. }
  assert ((a <= last_cursor a old)%Z) as Hmono.
  { unfold last_cursor. destruct (last old) as [e|] eqn:El; [| lia].
    apply last_Some_elem_of, Io in El as (_ & _ & ?). lia. }
  apply (strict_sorted_unique EventRecord.cursor); [done | |].
  - apply strict_sorted_app; [done | done |]. intros x y Hx Hy. unfold key_lt.
    apply Hle in Hx as [? _]. apply In in Hy as (_ & _ & ?). lia.
  - intros x. rewrite elem_of_app, Ia. split.
    + intros (Hx & Hrun & Hc). destruct (decide (EventRecord.cursor x <= last_cursor a old)%Z) as [Hl|Hl].
      * left. apply Io. split_and!; [| done | done].
        destruct (ev_new_events _ _ Hev _ _ Hx) as [?|Hge]; [done |]. exfalso.
        unfold last_cursor in Hl. destruct (last old) as [e|] eqn:El; [| lia].
        apply last_Some_elem_of, Io in El as (He & _ & _).
        apply (wf_events _ W) in He as (_ & _ & ? & _). lia.
      * right. apply In. split_and!; [done | done | lia].
    + intros [(Hx & ? & ?)%Io|(Hx & ? & ?)%In].
      * split_and!; [by apply (ev_events _ _ Hev) | done | done].
      * split_and!; [done | done | lia].
Qed.

(** ** The lease reaper *)

(** The attempts the reaper must take down, in the order of the table. *)
Definition expired_ids (cutoff : datetime) (l : list (uuid * AttemptRecord.t)) : list uuid :=
  (List.filter (fun ia => lease_is_expired cutoff ia.2) l).*1.

(** The lease of [a] has run out at [cutoff]: some runner holds [a] and its deadline is
    not after the cutoff. *)
Definition lease_due (cutoff : datetime) (a : AttemptRecord.t) : Prop :=
  (AttemptRecord.state a = AttemptState.CLAIMED \/ AttemptRecord.state a = AttemptState.PREPARING
   \/ AttemptRecord.state a = AttemptState.RUNNING \/ AttemptRecord.state a = AttemptState.COLLECTING)
  /\ exists l, AttemptRecord.lease_expires_at a = Some l /\ (l <= cutoff)%Z.

Lemma lease_is_expired_due cutoff a : lease_is_expired cutoff a = true <-> lease_due cutoff a.
Proof.
  unfold lease_is_expired, lease_due, ATTEMPT_LEASED.
  rewrite andb_true_iff, bool_decide_eq_true, !elem_of_cons, elem_of_nil.
  destruct (AttemptRecord.lease_expires_at a) as [l|]; rewrite ?Z.leb_le; naive_solver.
Qed.

(** What one expired attempt and its run look like afterwards. *)
Definition reaped (cutoff : datetime) (s : t) (i : uuid) (a : AttemptRecord.t) : Prop :=
  exists a' r, _attempts s !! i = Some a' /\ AttemptRecord.state a' = AttemptState.LOST
    /\ AttemptRecord.outcome a' = Some ResultOutcome.INFRA_ERROR
    /\ AttemptRecord.completed_at a' = Some cutoff
    /\ _runs s !! AttemptRecord.run_id a = Some r /\ RunRecord.state r ∈ RUN_TERMINAL.

Definition run_started (s : t) (i : uuid) : Prop :=
  forall r, _runs s !! i = Some r -> RunRecord.state r <> RunState.CREATED.

Lemma infra_error_reachable st :
  st ∉ RUN_TERMINAL -> st <> RunState.CREATED -> RunState.INFRA_ERROR ∈ RUN_TRANSITIONS st.
Proof. destruct st; unfold RUN_TERMINAL; simpl; try done; set_solver. Qed.

Lemma expire_one_Ok clk n cutoff i a s :
  wf s -> _attempts s !! i = Some a -> lease_is_expired cutoff a = true ->
  run_started s (AttemptRecord.run_id a) ->
  exists a' s1, expire_one clk n cutoff i a s = (Ok a', s1) /\ AttemptRecord.id a' = i
    /\ reaped cutoff s1 i a
    /\ (forall j, j <> i -> _attempts s1 !! j = _attempts s !! j)
    /\ (forall j, j <> AttemptRecord.run_id a -> _runs s1 !! j = _runs s !! j).
Proof.
  intros W Ha He Hst. unfold lease_is_expired in He. bool_prop.
  destruct (attempt_lost_defined (clk (2 * n)%nat) a cutoff) as [a' Hl]; [done |].
  destruct (wf_attempts _ W _ _ Ha) as [Hid [r Hr]].
  pose proof (attempt_lost_Ok _ _ _ _ Hl) as (_ & Hs' & (Hi' & _ & _) & Ho').
  assert (AttemptRecord.completed_at a' = Some cutoff) as Hc'.
  { unfold AttemptRecord.lost in Hl. by apply rbind_Ok in Hl as (? & _ & [= <-]). }
  pose proof (wf_runs _ W _ _ Hr) as Hrid.
  unfold expire_one, bind, lift, get, ret, raise, index. cbn [fst snd]. rewrite Hl.
  cbn [set_attempts fst snd _runs]. rewrite Hr.
  case_bool_decide as Ht.
  - do 2 eexists. split; [done |]. split_and!; [congruence | | |]; simpl.
    + exists a', r. simpl. by rewrite dict_lookup_insert_eq.
    + intros j Hj. by apply dict_lookup_insert_ne.
    + done.
  - destruct (run_with_state_defined (clk (2 * n + 1)%nat) r RunState.INFRA_ERROR) as [r' Hr'].
    { apply infra_error_reachable; [done | by apply Hst]. }
    rewrite Hr'. do 2 eexists. split; [done |].
    apply run_with_state_Ok in Hr' as (_ & Hst' & _).
    split_and!; [congruence | | |]; simpl.
    + exists a', r'. simpl. rewrite Hrid, !dict_lookup_insert_eq. split_and!; try done.
      rewrite Hst'. unfold RUN_TERMINAL. set_solver.
    + intros j Hj. by apply dict_lookup_insert_ne.
    + intros j Hj. apply dict_lookup_insert_ne. congruence.
Qed.

(** Later rounds of the loop keep what an earlier round did. *)
Lemma reaped_stays cutoff s s' i a :
  wf s -> good s s' -> reaped cutoff s i a ->
  _attempts s' !! i = _attempts s !! i -> reaped cutoff s' i a.
Proof.
  intros W [_ Hev] (a' & r & Ha' & Hs & Ho & Hc & Hr & Ht) Heq.
  destruct (ev_runs _ _ Hev _ _ Hr) as (r' & Hr' & _ & _ & _ & _ & _ & n & Hn & _).
  destruct (run_walk_from_terminal n _ _ Ht Hn) as [_ Hst].
  exists a', r'. rewrite Heq, Hst. by split_and!.
Qed.

Lemma run_started_stays s s' i : good s s' -> is_Some (_runs s !! i) -> run_started s i -> run_started s' i.
Proof.
  intros [_ Hev] [r Hr] Hst r' Hr' Hc.
  destruct (ev_runs _ _ Hev _ _ Hr) as (r2 & Hr2 & _ & _ & _ & _ & _ & n & Hn & _). simplify_eq.
  specialize (Hst r Hr). apply rtc_nsteps_2 in Hn. rewrite Hc in Hn.
  apply rtc_inv_r in Hn as [Heq|(y & _ & Hy)]; [done |].
  unfold run_next in Hy. destruct y; simpl in Hy; set_solver.
Qed.

Lemma expire_loop_Ok clk n cutoff snapshot s :
  wf s -> NoDup snapshot.*1 -> (forall i a, (i, a) ∈ snapshot -> _attempts s !! i = Some a) ->
  (forall i a, (i, a) ∈ snapshot -> lease_is_expired cutoff a = true ->
     run_started s (AttemptRecord.run_id a)) ->
  exists l s', expire_loop clk n cutoff snapshot s = (Ok l, s')
    /\ map AttemptRecord.id l = expired_ids cutoff snapshot
    /\ (forall i a, (i, a) ∈ snapshot -> lease_is_expired cutoff a = true -> reaped cutoff s' i a)
    /\ (forall i, i ∉ expired_ids cutoff snapshot -> _attempts s' !! i = _attempts s !! i)
    /\ (forall j, (forall i a, (i, a) ∈ snapshot -> lease_is_expired cutoff a = true ->
                    AttemptRecord.run_id a <> j) -> _runs s' !! j = _runs s !! j).
Proof.
  revert n s. induction snapshot as [|[i a] rest IH]; intros n s W Hnd Hin Hst; simpl.
  { do 2 eexists. split; [done |]. split_and!; try done. intros ? ? ?%elem_of_nil; done. }
  apply NoDup_cons in Hnd as [Hni Hnd]. simpl in Hni.
  assert (forall j b, (j, b) ∈ rest -> j <> i) as Hne.
  { intros j b Hj ->. apply Hni. apply list_elem_of_fmap. by exists (i, b). }
  unfold expired_ids. simpl. destruct (lease_is_expired cutoff a) eqn:Ee; simpl.
  - assert (_attempts s !! i = Some a) as Ha by (apply Hin; by left).
    destruct (expire_one_Ok clk n cutoff i a s W Ha Ee) as (a' & s1 & E1 & Hid & Hre & Hat & Hru).
    { eapply (Hst i a); [by left | done]. }
    pose proof (expire_one_good clk n cutoff i a s W Ha) as Hg. rewrite E1 in Hg. cbn [snd] in Hg.
    destruct (IH (S n) s1) as (l & s2 & E2 & Hl & Hre2 & Hat2 & Hru2); [apply Hg | done | | |].
    { intros j b Hj. rewrite Hat by (by eapply Hne). apply Hin. by right. }
    { intros j b Hj Hb. eapply run_started_stays; [exact Hg | | eapply Hst; [by right | done]].
      eapply wf_attempts; [exact W |]. apply Hin. by right. }
    assert (good s1 s2) as Hg2.
    { replace s2 with (expire_loop clk (S n) cutoff rest s1).2 by by rewrite E2.
      apply expire_loop_good; [apply Hg | done |].
      intros j b Hj. rewrite Hat by (by eapply Hne). apply Hin. by right. }
    assert (i ∉ expired_ids cutoff rest) as Hni'.
    { unfold expired_ids. intros ([j b] & -> & Hj)%list_elem_of_fmap.
      apply elem_of_List_filter in Hj as [Hj _]. by apply (Hne _ _ Hj). }
    exists (a' :: l), s2. unfold bind at 1. rewrite E1. unfold bind. rewrite E2.
    split; [done |]. split_and!.
    + simpl. by rewrite Hid, Hl.
    + intros j b [[= -> ->]|Hj]%elem_of_cons Hb; [| by apply Hre2].
      eapply reaped_stays; [apply Hg | exact Hg2 | done | by apply Hat2].
    + intros j [Hji Hj]%not_elem_of_cons. rewrite Hat2 by done. by apply Hat.
    + intros j Hj. rewrite Hru2; [apply Hru |].
      * intros ->. eapply (Hj i a); [by left | done | done].
      * intros k b Hk. apply (Hj k b). by right.
  - destruct (IH (S n) s) as (l & s2 & E2 & Hl & Hre2 & Hat2 & Hru2); [done | done | | |].
    { intros j b Hj. apply Hin. by right. }
    { intros j b Hj. apply (Hst j b). by right. }
    exists l, s2. split; [done |]. split_and!; try done.
    + intros j b [[= -> ->]|Hj]%elem_of_cons Hb; [congruence | by apply Hre2].
    + intros j Hj. apply Hru2. intros k b Hk. apply (Hj k b). by right.
Qed.

(** C6. The lease reaper is total and exact: if no attempt with an expired lease
    belongs to a run still in [CREATED], [expire_attempt_leases] returns the records of
    exactly those attempts ([lease_due]: leased state, deadline at or before the cutoff)
    in table order, each is [LOST] with outcome [infra_error] and completion time [cutoff], its
    run is terminal, and every other attempt and every other run is unchanged. *)
Theorem expire_attempt_leases_exact clk now s :
  let cutoff := default_now now (clk 0%nat) in
  reachable s ->
  (forall i a, _attempts s !! i = Some a -> lease_due cutoff a ->
     run_started s (AttemptRecord.run_id a)) ->
  exists l s', expire_attempt_leases clk now s = (Ok l, s')
    /\ map AttemptRecord.id l = expired_ids cutoff (items (_attempts s))
    /\ (forall i a, _attempts s !! i = Some a -> lease_due cutoff a -> reaped cutoff s' i a)
    /\ (forall i a, _attempts s !! i = Some a -> ~ lease_due cutoff a -> _attempts s' !! i = Some a)
    /\ (forall j r, _runs s !! j = Some r ->
          (forall i a, _attempts s !! i = Some a -> lease_due cutoff a ->
             AttemptRecord.run_id a <> j) -> _runs s' !! j = Some r).
Proof.
  intros cutoff Hr Hst. setoid_rewrite <- lease_is_expired_due in Hst.
  setoid_rewrite <- lease_is_expired_due. pose proof (reachable_wf s Hr) as W.
  destruct (expire_loop_Ok (fun i => clk (S i)) 0 cutoff (items (_attempts s)) s)
    as (l & s' & E & Hl & Hre & Hat & Hru); [done | apply items_nodup | | |].
  { intros i a. by rewrite elem_of_items. }
  { intros i a Hi. apply (Hst i). by apply elem_of_items. }
  exists l, s'. unfold expire_attempt_leases, bind, get. cbn [fst snd]. split; [exact E |].
  split; [done |]. split_and!.
  - intros i a Ha Ee. apply Hre; [by apply elem_of_items | done].
  - intros i a Ha Ee. rewrite Hat; [done |]. unfold expired_ids. intros ([j b] & -> & Hj)%list_elem_of_fmap.
      apply elem_of_List_filter in Hj as [Hj Hb]. apply elem_of_items in Hj. simpl in *. naive_solver congruence.
  - intros j r Hj Hnone. rewrite Hru; [done |]. intros i a Hi. apply (Hnone i).
    by apply elem_of_items.
Qed.
End theorems.
