(* ===== verification/Retry.v ===== *)
(** * Retry decisions ([src/services/retry_policy.py])

    [decide_retry], its bounds, and the fact that it ends every retry loop. *)
From S2P Require Import Prelude PyText Protocol Domain.
From Stdlib Require Import Ascii.
Open Scope list_scope.

Module RetryDecision.
Record t := mk { should_retry : bool; delay_seconds : Z; reason : string }.
End RetryDecision.

(** [str.upper] on ASCII letters. *)
Definition ascii_upper (c : ascii) : ascii :=
  let n := code c in if ((97 <=? n) && (n <=? 122))%N then ascii_of_N (n - 32) else c.
Fixpoint upper (s : string) : string :=
  match s with EmptyString => EmptyString | String c r => String (ascii_upper c) (upper r) end.

(** [str(request.get("method", "GET")).upper()], or the empty text for a request that
    is not a mapping.  [None] stands for the text of a value that is not a [str]: no
    such text is an HTTP method. *)
Definition request_method (request : pyval) : option string :=
  match as_mapping request with
  | Some kvs =>
      match kv_get "method" kvs with
      | None => Some "GET"%string
      | Some (PStr s) => Some (upper s)
      | Some _ => None
      end
  | None => Some EmptyString
  end.

Definition IDEMPOTENT_METHODS : list string :=
  ["GET"; "HEAD"; "OPTIONS"; "TRACE"; "PUT"; "DELETE"]%string.

Definition is_idempotent (m : option string) : bool :=
  match m with Some s => bool_decide (s ∈ IDEMPOTENT_METHODS) | None => false end.

(** The requests a task sends: the main one and the steps'. *)
Definition task_requests (task : TaskEnvelope.t) : list pyval :=
  match kv_get "request" (TaskEnvelope.parameters task) with
  | Some r => r
  | None => PDict []
  end
  :: map (fun s => PFrozenMapping (HttpStep.request s))
       (ExecutionPolicy.before_steps (TaskEnvelope.execution_policy task))
  ++ map (fun s => PFrozenMapping (HttpStep.request s))
       (ExecutionPolicy.after_steps (TaskEnvelope.execution_policy task)).

Definition decide_retry (task : TaskEnvelope.t) (result : ResultEnvelope.t)
    (attempt_number : Z) : RetryDecision.t :=
  let policy := ExecutionPolicy.retry (TaskEnvelope.execution_policy task) in
  if (RetryPolicy.max_attempts policy <=? attempt_number)%Z then
    RetryDecision.mk false 0 "max_attempts_reached"
  else if negb (bool_decide (ResultEnvelope.outcome result ∈ RetryPolicy.retry_on policy)) then
    RetryDecision.mk false 0 "outcome_not_retryable"
  else if bool_decide (TaskEnvelope.engine task = Engine.HTTP)
          && negb (RetryPolicy.allow_non_idempotent_http policy)
          && negb (forallb is_idempotent (map request_method (task_requests task))) then
    RetryDecision.mk false 0 "non_idempotent_http"
  else
    let exponent := Z.max 0 (attempt_number - 1) in
    let delay := Z.min (RetryPolicy.backoff_seconds policy * 2 ^ exponent)
                       (RetryPolicy.max_backoff_seconds policy) in
    RetryDecision.mk true delay
      ("retryable_" ++ ResultOutcome.value (ResultEnvelope.outcome result))%string.

(** ** Lemmas *)

Lemma retry_policy_bounds p p' :
  RetryPolicy.validate p = Ok p' ->
  p' = p /\ (1 <= RetryPolicy.max_attempts p <= 5)%Z
  /\ (0 <= RetryPolicy.backoff_seconds p <= RetryPolicy.max_backoff_seconds p)%Z
  /\ (RetryPolicy.max_backoff_seconds p <= 600)%Z
  /\ ResultOutcome.SUCCEEDED ∉ RetryPolicy.retry_on p
  /\ ResultOutcome.CANCELLED ∉ RetryPolicy.retry_on p.
Proof.
  unfold RetryPolicy.validate. intros Hv. py_inv Hv. bool_prop.
  assert (forall o, RetryPolicy.not_retryable o = true -> o ∉ RetryPolicy.retry_on p') as Hno.
  { intros o Ho Hin. apply list_elem_of_In in Hin.
    assert (existsb RetryPolicy.not_retryable (RetryPolicy.retry_on p') = true) as Hex; [| congruence].
    apply existsb_exists. eauto. }
  split_and!; try done; try lia; by apply Hno.
Qed.

(** The test on the HTTP methods, as the guard of the code decides it. *)
Definition methods_allowed (task : TaskEnvelope.t) : Prop :=
  TaskEnvelope.engine task = Engine.HTTP ->
  RetryPolicy.allow_non_idempotent_http (ExecutionPolicy.retry (TaskEnvelope.execution_policy task))
    = true
  \/ Forall (fun r => is_idempotent (request_method r) = true) (task_requests task).

Lemma idempotent_requests l :
  forallb is_idempotent (map request_method l) = true <->
  Forall (fun r => is_idempotent (request_method r) = true) l.
Proof.
  induction l as [|r l IH]; simpl; [by split; [constructor |] |].
  rewrite andb_true_iff, IH, Forall_cons. done.
Qed.

(** Either the retry is decided and every guard let it through, or one guard did not. *)
Lemma decide_retry_cases task result n :
  let policy := ExecutionPolicy.retry (TaskEnvelope.execution_policy task) in
  let d := decide_retry task result n in
  let guards := (n < RetryPolicy.max_attempts policy)%Z
                /\ ResultEnvelope.outcome result ∈ RetryPolicy.retry_on policy
                /\ methods_allowed task in
  (RetryDecision.should_retry d = true /\ guards
   /\ RetryDecision.delay_seconds d
      = Z.min (RetryPolicy.backoff_seconds policy * 2 ^ Z.max 0 (n - 1))
              (RetryPolicy.max_backoff_seconds policy))
  \/ (RetryDecision.should_retry d = false /\ ~ guards /\ RetryDecision.delay_seconds d = 0%Z).
Proof.
  intros policy d guards. unfold d, guards, methods_allowed, decide_retry. fold policy.
  destruct (RetryPolicy.max_attempts policy <=? n)%Z eqn:E1; bool_prop.
  { right. split_and!; [done | intros (? & _); lia | done]. }
  case_bool_decide as E2; cbn [negb]; [| right; by split_and!; [| intros (_ & ? & _) |]].
  case_bool_decide as E3; cbn [andb]; [| left; split_and!; try done; by intros].
  destruct (RetryPolicy.allow_non_idempotent_http policy) eqn:E4; cbn [negb andb];
    [left; split_and!; auto |].
  destruct (forallb is_idempotent _) eqn:E5; cbn [negb].
  - left. split_and!; try done. intros _. right. by apply idempotent_requests.
  - right. split_and!; [done | | done]. intros (_ & _ & [?|HF]%(fun H => H E3)); [congruence |].
    apply idempotent_requests in HF. congruence.
Qed.

(** C8. Retries are bounded and only for retryable outcomes: under a valid policy a retry
    is decided exactly when the attempt count is below [max_attempts], the outcome is
    listed, and, for an HTTP task that does not opt in, every request uses an idempotent
    method; success and cancellation are never retried and no retry is decided from the
    fifth attempt on; the delay is the exponential backoff capped by
    [max_backoff_seconds], so between 0 and 600 seconds, and it does not decrease with
    the attempt number. *)
Theorem decide_retry_correct task result n m :
  let policy := ExecutionPolicy.retry (TaskEnvelope.execution_policy task) in
  let d := decide_retry task result in
  RetryPolicy.validate policy = Ok policy -> (1 <= n <= m)%Z ->
  (RetryDecision.should_retry (d n) = true <->
     (n < RetryPolicy.max_attempts policy)%Z
     /\ ResultEnvelope.outcome result ∈ RetryPolicy.retry_on policy /\ methods_allowed task)
  /\ (RetryDecision.should_retry (d n) = true ->
        ResultEnvelope.outcome result <> ResultOutcome.SUCCEEDED
        /\ ResultEnvelope.outcome result <> ResultOutcome.CANCELLED /\ (n < 5)%Z
        /\ (RetryDecision.delay_seconds (d n)
            = Z.min (RetryPolicy.backoff_seconds policy * 2 ^ (n - 1))
                    (RetryPolicy.max_backoff_seconds policy))%Z)
  /\ (0 <= RetryDecision.delay_seconds (d n) <= 600)%Z
  /\ (RetryDecision.should_retry (d m) = true ->
        RetryDecision.should_retry (d n) = true
        /\ (RetryDecision.delay_seconds (d n) <= RetryDecision.delay_seconds (d m))%Z).
Proof.
  intros policy d Hv Hn.
  destruct (retry_policy_bounds _ _ Hv) as (_ & Hmax & Hb & Hmb & Hs & Hc).
  pose proof (decide_retry_cases task result n) as Dn. pose proof (decide_retry_cases task result m) as Dm.
  cbv zeta in Dn, Dm. fold policy in Dn, Dm. fold (d n) in Dn. fold (d m) in Dm.
  assert (2 ^ Z.max 0 (n - 1) = 2 ^ (n - 1))%Z as En by (f_equal; lia).
  assert (0 < 2 ^ (n - 1) <= 2 ^ Z.max 0 (m - 1))%Z as Hpow.
  { split; [apply Z.pow_pos_nonneg; lia | apply Z.pow_le_mono_r; lia]. }
  rewrite En in Dn.
  destruct Dn as [(-> & (Hg1 & Hg2 & Hg3) & ->)|(-> & Hng & ->)].
  - split_and!; try done; try nia.
    + intros _. split_and!; [by intros Ho; rewrite Ho in Hg2 | by intros Ho; rewrite Ho in Hg2 | lia | done].
    + intros Hm. split; [done |]. destruct Dm as [(_ & _ & ->)|(Hf & _ & _)]; [nia |]. congruence.
  - split_and!; try done; try lia. intros Ht.
    destruct Dm as [(_ & (? & ? & ?) & _)|(Hf & _ & _)]; [| congruence].
    destruct Hng. split_and!; [lia | done | done].
Qed.
