(* ===== verification/Manager.v ===== *)
(** * The runner manager ([src/services/runner_manager.py])

    [RunnerManager.execute] is not atomic: between two calls it makes on the
    repository, other threads (cancellation, the lease reaper, other managers) may
    call it too.  A [World] holds the repository and the schedule of those foreign
    calls; [call] lets the next batch of them happen before each call of the manager.
    The executor is an arbitrary finite behaviour that delivers events and reacts to
    the exceptions of the event sink. *)
From S2P Require Import Prelude PyDict PyText Protocol Domain Sha256 Runs RunsFacts Retry.
Open Scope list_scope.

(** ** The repository among other threads *)

Record World `{PyFloat} := mkWorld {
  repo : RunRepository.t;
  schedule : list (list repo_op);
  ticks : nat -> clock;
  step : nat }.

Section manager.
  Context `{PyFloat}.

(** A foreign call.  [uuid4()] ids are fresh, so a creation under a used id is not one. *)
Definition env_op (o : repo_op) (s : RunRepository.t) : RunRepository.t :=
  match o with
  | OpCreate _ fresh _ _ _ => if has_key fresh (RunRepository._runs s) then s else run_op o s
  | _ => run_op o s
  end.

Definition env_ops (ops : list repo_op) (s : RunRepository.t) : RunRepository.t :=
  fold_left (fun s o => env_op o s) ops s.

(** One atomic repository call of the manager, after the foreign calls due before it. *)
Definition call {A} (f : clock -> M RunRepository.t A) : M World A := fun w =>
  let s := env_ops (hd [] (schedule w)) (repo w) in
  let '(r, s') := f (ticks w (step w)) s in
  (r, mkWorld _ s' (tl (schedule w)) (ticks w) (S (step w))).

(** [datetime.now(timezone.utc)] outside a repository call. *)
Definition now : M World datetime := fun w =>
  (Ok (ticks w (step w) 0%nat),
   mkWorld _ (repo w) (schedule w) (ticks w) (S (step w))).

(** ** The executor boundary *)

(** What an executor may do: return a result, raise, or deliver an event and go on
    according to what the sink did. *)
Inductive behaviour : Type :=
  | Return (result : ResultEnvelope.t)
  | Throw (e : exn)
  | Emit (event : EventEnvelope.t) (k : res unit -> behaviour).

Fixpoint run_behaviour (sink : EventEnvelope.t -> M World unit) (b : behaviour)
    : M World ResultEnvelope.t :=
  match b with
  | Return r => ret r
  | Throw e => raise e
  | Emit event k => fun w => let '(r, w') := sink event w in run_behaviour sink (k r) w'
  end.

(** The collaborators the manager is constructed with.  [collect] may only touch the
    artifact table; [schedule_retry] posts a message outside the repository; the
    completion callback may dispatch further runs. *)
Record RunnerManager := mkManager {
  executor : TaskEnvelope.t -> behaviour;
  runner_id : string;
  lease_seconds : Z;
  artifact_collector : option (TaskEnvelope.t -> EventEnvelope.t -> M World EventEnvelope.t);
  retry_scheduler : option (uuid -> Z -> res unit);
  completion_callback : option (uuid -> M World unit) }.

(** ** The manager *)

Definition _RESULT_STATES (o : ResultOutcome.t) : AttemptState.t * RunState.t :=
  match o with
  | ResultOutcome.SUCCEEDED => (AttemptState.SUCCEEDED, RunState.SUCCEEDED)
  | ResultOutcome.FAILED => (AttemptState.FAILED, RunState.FAILED)
  | ResultOutcome.CANCELLED => (AttemptState.CANCELLED, RunState.CANCELLED)
  | ResultOutcome.TIMED_OUT => (AttemptState.TIMED_OUT, RunState.TIMED_OUT)
  | ResultOutcome.INFRA_ERROR => (AttemptState.INFRA_ERROR, RunState.INFRA_ERROR)
  end.

Definition _validate_event (task : TaskEnvelope.t) (event : EventEnvelope.t) : res unit :=
  if negb (bool_decide (EventEnvelope.run_id event = TaskEnvelope.run_id task))
     || negb (bool_decide (EventEnvelope.attempt_id event = TaskEnvelope.attempt_id task))
     || negb (bool_decide (EventEnvelope.engine event = TaskEnvelope.engine task)) then
    Err RunnerIdentityError
  else Ok tt.

Definition _validate_result (task : TaskEnvelope.t) (result : ResultEnvelope.t) : res unit :=
  if negb (bool_decide (ResultEnvelope.run_id result = TaskEnvelope.run_id task))
     || negb (bool_decide (ResultEnvelope.attempt_id result = TaskEnvelope.attempt_id task))
     || negb (bool_decide (ResultEnvelope.engine result = TaskEnvelope.engine task)) then
    Err RunnerIdentityError
  else Ok tt.

Definition _infra_result (task : TaskEnvelope.t) (e : exn) : M World ResultEnvelope.t :=
  let* completed := now in
  ret (ResultEnvelope.mk (TaskEnvelope.run_id task) (TaskEnvelope.attempt_id task)
         (TaskEnvelope.engine task) ResultOutcome.INFRA_ERROR completed 0
         (frozen_pairs [("error_type", PStr (exn_name e))])).

Definition _cancelled_result (task : TaskEnvelope.t) (original : ResultEnvelope.t)
    : ResultEnvelope.t :=
  ResultEnvelope.mk (TaskEnvelope.run_id task) (TaskEnvelope.attempt_id task)
    (TaskEnvelope.engine task) ResultOutcome.CANCELLED (ResultEnvelope.completed_at original)
    (ResultEnvelope.duration_ms original)
    (frozen_pairs (kv_set "cancel_requested" (PBool true) (ResultEnvelope.summary original))).

Definition _lost_result (task : TaskEnvelope.t) : M World ResultEnvelope.t :=
  let* completed := now in
  ret (ResultEnvelope.mk (TaskEnvelope.run_id task) (TaskEnvelope.attempt_id task)
         (TaskEnvelope.engine task) ResultOutcome.INFRA_ERROR completed 0
         (frozen_pairs [("reason", PStr "runner_lease_expired")])).

Section with_manager.
  Variable self : RunnerManager.
  Variable task : TaskEnvelope.t.

Definition is_artifact_event (event : EventEnvelope.t) : bool :=
  match EventEnvelope.type event with
  | EventType.ARTIFACT | EventType.SCREENSHOT => true
  | _ => false
  end.

(** The nested function [persist_event]. *)
Definition persist_event (event : EventEnvelope.t) : M World unit :=
  lift (_validate_event task event) ;;;
  let* event :=
    (if is_artifact_event event then
       match artifact_collector self with
       | None => raise RunnerIdentityError
       | Some collect => collect task event
       end
     else ret event) in
  (if bool_decide (EventEnvelope.type event = EventType.HEARTBEAT) then
     call (fun clk => RunRepository.renew_attempt_lease clk (TaskEnvelope.attempt_id task)
                        (runner_id self) (lease_seconds self) None) ;;; ret tt
   else ret tt) ;;;
  call (fun _ => RunRepository.append_event event) ;;; ret tt.

Definition is_RunnerIdentityError (e : exn) : bool := bool_decide (e = RunnerIdentityError).
Definition is_InvalidTransition (e : exn) : bool := bool_decide (e = InvalidTransition).

(** The first [try]: the result, and the identity error to re-raise at the end. *)
Definition run_executor : M World (option exn * ResultEnvelope.t) :=
  try_except
    (let* result := run_behaviour persist_event (executor self task) in
     lift (_validate_result task result) ;;;
     ret (None, result))
    any_exn
    (fun e =>
       let* result := _infra_result task e in
       ret (if is_RunnerIdentityError e then Some e else None, result)).

Definition _notify_completion (run_id : uuid) : M World unit :=
  match completion_callback self with
  | None => ret tt
  | Some callback => try_except (callback run_id) any_exn (fun _ => ret tt)
  end.

Definition transition (target : RunState.t) : M World RunRecord.t :=
  call (fun clk => RunRepository.transition clk (TaskEnvelope.run_id task) target).
Definition get_run : M World RunRecord.t :=
  call (fun _ => RunRepository.get_run (TaskEnvelope.run_id task)).
Definition get_attempt : M World AttemptRecord.t :=
  call (fun _ => RunRepository.get_attempt (TaskEnvelope.attempt_id task)).
Definition transition_attempt (target : AttemptState.t) : M World AttemptRecord.t :=
  call (fun clk => RunRepository.transition_attempt clk (TaskEnvelope.attempt_id task) target).

(** The second [try]: [true] when the attempt was completed, [false] when it was lost
    meanwhile. *)
Definition complete (attempt_state : AttemptState.t) (result : ResultEnvelope.t) : M World bool :=
  try_except
    (transition_attempt AttemptState.COLLECTING ;;;
     call (fun clk => RunRepository.complete_attempt clk (TaskEnvelope.attempt_id task)
                        attempt_state result) ;;;
     ret true)
    is_InvalidTransition
    (fun e =>
       let* current := get_attempt in
       if bool_decide (AttemptRecord.state current = AttemptState.LOST) then ret false
       else raise e).

(** The branch of [execute] that retries. *)
Definition schedule_retry (result : ResultEnvelope.t) (delay_seconds : Z)
    : M World ResultEnvelope.t :=
  match retry_scheduler self with
  | None =>
      transition RunState.INFRA_ERROR ;;;
      _notify_completion (TaskEnvelope.run_id task) ;;;
      ret result
  | Some schedule =>
      transition RunState.RETRY_WAIT ;;;
      match schedule (TaskEnvelope.run_id task) delay_seconds with
      | Ok _ => ret result
      | Err _ =>
          transition RunState.INFRA_ERROR ;;;
          _notify_completion (TaskEnvelope.run_id task) ;;;
          ret result
      end
  end.

(** The branch that ends the run in [run_state]. *)
Definition settle (identity_error : option exn) (result : ResultEnvelope.t) (run_state : RunState.t)
    : M World ResultEnvelope.t :=
  (if bool_decide (run_state = RunState.CANCELLED) then
     let* current := get_run in
     if bool_decide (RunRecord.state current = RunState.CANCELLING) then ret tt
     else transition RunState.CANCELLING ;;; ret tt
   else ret tt) ;;;
  transition run_state ;;;
  _notify_completion (TaskEnvelope.run_id task) ;;;
  match identity_error with
  | Some e => raise e
  | None => ret result
  end.

(** From the completed attempt to the end of [execute]. *)
Definition finish (identity_error : option exn) (result : ResultEnvelope.t) (run_state : RunState.t)
    : M World ResultEnvelope.t :=
  let* attempts := call (fun _ => RunRepository.list_attempts (TaskEnvelope.run_id task)) in
  let decision := decide_retry task result (Z.of_nat (length attempts)) in
  if RetryDecision.should_retry decision then
    schedule_retry result (RetryDecision.delay_seconds decision)
  else settle identity_error result run_state.

(** The result the attempt is completed with: the executor's, or a cancelled one. *)
Definition chosen (r : ResultEnvelope.t) : M World ResultEnvelope.t :=
  if bool_decide (ResultEnvelope.outcome r = ResultOutcome.SUCCEEDED) then
    let* run := get_run in
    ret (if bool_decide (RunRecord.state run = RunState.CANCELLING)
         then _cancelled_result task r else r)
  else ret r.

(** Everything after the executor has returned. *)
Definition record_result (identity_error : option exn) (result : ResultEnvelope.t)
    : M World ResultEnvelope.t :=
  let* result := chosen result in
  let* current_attempt := get_attempt in
  if bool_decide (AttemptRecord.state current_attempt = AttemptState.LOST) then _lost_result task
  else
    let '(attempt_state, run_state) := _RESULT_STATES (ResultEnvelope.outcome result) in
    let* completed := complete attempt_state result in
    if completed then finish identity_error result run_state else _lost_result task.

(** Claiming the run: everything before the executor is called. *)
Definition claim : M World unit :=
  let* run := get_run in
  if negb (bool_decide (RunRecord.engine run = TaskEnvelope.engine task)) then
    raise RunnerIdentityError
  else if negb (bool_decide (RunRecord.state run = RunState.DISPATCHING)) then
    raise RunnerIdentityError
  else
    let* ' (_, attempt) :=
      try_except
        (call (fun clk => RunRepository.begin_attempt clk (TaskEnvelope.run_id task)
                            (TaskEnvelope.attempt_id task) (runner_id self) (lease_seconds self)))
        is_InvalidTransition (fun _ => raise RunnerIdentityError) in
    if negb (bool_decide (AttemptRecord.id attempt = TaskEnvelope.attempt_id task))
       || negb (bool_decide (AttemptRecord.run_id attempt = TaskEnvelope.run_id task)) then
      raise RunnerIdentityError
    else
      transition_attempt AttemptState.PREPARING ;;;
      transition_attempt AttemptState.RUNNING ;;;
      ret tt.

(** [RunnerManager.execute]. *)
Definition execute : M World ResultEnvelope.t :=
  claim ;;;
  let* ' (identity_error, result) := run_executor in
  record_result identity_error result.
End with_manager.
End manager.
