(* ===== verification/ManagerTheorems.v ===== *)
(** * Theorems about the runner manager

    [world_good] lifts the guarantee of the run repository to calls of the manager
    that other threads interleave with; [settled] is what a returned result says
    about the stored attempt.  The second half runs the manager without other threads
    and shows that it ends the run for every behaviour of the executor. *)
From S2P Require Import Prelude PyDict PyText Protocol Domain Sha256 Runs RunsFacts Retry Manager.
Open Scope list_scope.

(** ** Interference *)

Section interference.
  Context `{PyFloat}.

(** Whatever other threads do meanwhile and whatever the call returns, the repository
    stays well-formed and its records evolve. *)
Definition world_good {A} (c : M World A) : Prop :=
  forall w, wf (repo w) -> good (repo w) (repo (c w).2).

(** What the manager needs from its collaborators. *)
Record collaborators_good (self : RunnerManager) : Prop := {
  collector_good : forall f task event, artifact_collector self = Some f -> world_good (f task event);
  callback_good : forall f run_id, completion_callback self = Some f -> world_good (f run_id) }.

Lemma env_op_good o s : wf s -> good s (env_op o s).
Proof.
  intros W. unfold env_op. destruct o; try by apply run_op_good.
  destruct (has_key fresh _) eqn:Hk; [by apply good_refl |].
  apply run_op_good; [done |]. by apply has_key_false.
Qed.

Lemma env_ops_good ops s : wf s -> good s (env_ops ops s).
Proof.
  revert s. induction ops as [|o ops IH]; intros s W; [by apply good_refl |].
  pose proof (env_op_good o s W) as Hg. eapply good_trans; [exact Hg |]. apply IH, Hg.
Qed.

Lemma world_good_call {A} (f : clock -> M RunRepository.t A) :
  (forall clk, calls_good (f clk)) -> world_good (call f).
Proof.
  intros Hf w W. unfold call. pose proof (env_ops_good (hd [] (schedule w)) _ W) as Hg.
  pose proof (Hf (ticks w (step w)) _ (proj1 Hg)) as Hg'.
  destruct (f _ _) as [r s']. eapply good_trans; [exact Hg | exact Hg'].
Qed.

Lemma world_good_ret {A} (a : A) : world_good (ret a).
Proof. intros w W. by apply good_refl. Qed.

Lemma world_good_raise {A} e : world_good (raise (A:=A) e).
Proof. intros w W. by apply good_refl. Qed.

Lemma world_good_lift {A} (r : res A) : world_good (lift r).
Proof. intros w W. by apply good_refl. Qed.

Lemma world_good_now : world_good now.
Proof. intros w W. by apply good_refl. Qed.

Lemma world_good_bind {A B} (c : M World A) (k : A -> M World B) :
  world_good c -> (forall a, world_good (k a)) -> world_good (bind c k).
Proof.
  intros Hc Hk w W. specialize (Hc w W). unfold bind.
  destruct (c w) as [[a|e] w1]; [| done]. eapply good_trans; [done |]. apply Hk, Hc.
Qed.

Lemma world_good_try {A} (c : M World A) handled h :
  world_good c -> (forall e, world_good (h e)) -> world_good (try_except c handled h).
Proof.
  intros Hc Hh w W. specialize (Hc w W). unfold try_except.
  destruct (c w) as [[a|e] w1]; [done |]. destruct (handled e); [| done].
  eapply good_trans; [done |]. apply Hh, Hc.
Qed.

Lemma world_good_if {A} (b : bool) (c d : M World A) :
  world_good c -> world_good d -> world_good (if b then c else d).
Proof. by destruct b. Qed.

Lemma world_good_behaviour sink b :
  (forall event, world_good (sink event)) -> world_good (run_behaviour sink b).
Proof.
  intros Hs. induction b as [r|e|event k IH]; simpl.
  - apply world_good_ret.
  - apply world_good_raise.
  - intros w W. specialize (Hs event w W). destruct (sink event w) as [r w1].
    eapply good_trans; [done |]. apply IH, Hs.
Qed.

Lemma list_attempts_good i : calls_good (RunRepository.list_attempts i).
Proof. apply good_pure, list_attempts_reads. Qed.

Lemma get_run_good i : calls_good (RunRepository.get_run i).
Proof. by apply good_pure. Qed.

Lemma get_attempt_good i : calls_good (RunRepository.get_attempt i).
Proof. by apply good_pure. Qed.
End interference.

#[export] Hint Resolve world_good_call world_good_ret world_good_raise world_good_lift
  world_good_now world_good_bind world_good_try world_good_if world_good_behaviour
  list_attempts_good get_run_good get_attempt_good : py.

(** Decompose a call of the manager into the calls it makes. *)
Ltac world_steps :=
  repeat (first [assumption | lazymatch goal with
    | |- world_good (ret _) => apply world_good_ret
    | |- world_good (raise _) => apply world_good_raise
    | |- world_good (lift _) => apply world_good_lift
    | |- world_good now => apply world_good_now
    | |- world_good (call _) => apply world_good_call; intros; eauto with py
    | |- world_good (bind _ _) => apply world_good_bind; [| intros]
    | |- world_good (try_except _ _ _) => apply world_good_try; [| intros]
    | |- world_good (run_behaviour _ _) => apply world_good_behaviour; intros
    | |- world_good (match ?x with _ => _ end) => destruct x eqn:?
    end]).

Section manager_good.
  Context `{PyFloat} (self : RunnerManager) (Hself : collaborators_good self)
    (task : TaskEnvelope.t).

Lemma persist_event_good event : world_good (persist_event self task event).
Proof.
  unfold persist_event. world_steps. by apply (collector_good _ Hself).
Qed.

Lemma run_executor_good : world_good (run_executor self task).
Proof. unfold run_executor, _infra_result. world_steps. apply persist_event_good. Qed.

Lemma notify_good i : world_good (_notify_completion self i).
Proof. unfold _notify_completion. world_steps. by apply (callback_good _ Hself). Qed.

Lemma claim_good : world_good (claim self task).
Proof. unfold claim, get_run, transition_attempt. world_steps. Qed.

Lemma complete_good st r : world_good (complete task st r).
Proof. unfold complete, get_attempt, transition_attempt. world_steps. Qed.

Lemma finish_good ie r st : world_good (finish self task ie r st).
Proof. unfold finish, schedule_retry, settle, get_run, transition. world_steps; apply notify_good. Qed.

Lemma record_result_good ie r : world_good (record_result self task ie r).
Proof.
  unfold record_result, chosen, get_run, get_attempt, _lost_result.
  world_steps; first [apply complete_good | apply finish_good].
Qed.

Lemma execute_good : world_good (execute self task).
Proof.
  unfold execute. world_steps; first [apply claim_good | apply run_executor_good | apply record_result_good].
Qed.

End manager_good.

(** ** What a returned result says *)

Section settled.
  Context `{PyFloat}.

Lemma call_inv {A} (f : clock -> M RunRepository.t A) w r w' :
  wf (repo w) -> call f w = (r, w') ->
  exists clk s, good (repo w) s /\ f clk s = (r, repo w').
Proof.
  intros W. unfold call. destruct (f _ _) as [r1 s1] eqn:E. intros [= <- <-].
  eexists _, _. split; [by apply env_ops_good | exact E].
Qed.

(** The stored attempt of the task. *)
Definition owned (task : TaskEnvelope.t) (s : RunRepository.t) : Prop :=
  exists a, RunRepository._attempts s !! TaskEnvelope.attempt_id task = Some a
            /\ AttemptRecord.run_id a = TaskEnvelope.run_id task.

(** The attempt is stored in state [st] with the recorded outcome [o]. *)
Definition recorded (task : TaskEnvelope.t) (st : AttemptState.t) (o : option ResultOutcome.t)
    (s : RunRepository.t) : Prop :=
  exists a, RunRepository._attempts s !! TaskEnvelope.attempt_id task = Some a
            /\ AttemptRecord.run_id a = TaskEnvelope.run_id task
            /\ AttemptRecord.state a = st
            /\ (st <> AttemptState.LOST -> AttemptRecord.outcome a = o).

(** What [execute] owes to the caller that gets [res]. *)
Definition settled (task : TaskEnvelope.t) (res : ResultEnvelope.t) (s : RunRepository.t) : Prop :=
  _validate_result task res = Ok tt
  /\ (recorded task (fst (_RESULT_STATES (ResultEnvelope.outcome res)))
        (Some (ResultEnvelope.outcome res)) s
      \/ (recorded task AttemptState.LOST None s
          /\ ResultEnvelope.outcome res = ResultOutcome.INFRA_ERROR
          /\ ResultEnvelope.summary res = frozen_pairs [("reason", PStr "runner_lease_expired")])).

Lemma owned_good task s s' : good s s' -> owned task s -> owned task s'.
Proof.
  intros [_ E] (a & Ha & Hr). apply (ev_attempts _ _ E) in Ha as (a' & Ha' & (_ & Hr' & _) & _).
  exists a'. split; [done | congruence].
Qed.

Lemma result_state_terminal o : fst (_RESULT_STATES o) ∈ ATTEMPT_TERMINAL.
Proof. unfold ATTEMPT_TERMINAL. destruct o; simpl; set_solver. Qed.

Lemma recorded_good task st o s s' :
  st ∈ ATTEMPT_TERMINAL -> good s s' -> recorded task st o s -> recorded task st o s'.
Proof.
  intros Ht [_ E] (a & Ha & Hr & <- & Ho). apply (ev_attempts _ _ E) in Ha as (a' & Ha' & _ & HT & _).
  rewrite (HT Ht) in Ha'. by exists a.
Qed.

Lemma settled_good task res s s' : good s s' -> settled task res s -> settled task res s'.
Proof.
  intros Hg [Hv [Hr|[Hr Ho]]]; (split; [done |]).
  - left. eapply recorded_good; [apply result_state_terminal | done | done].
  - right. split; [| done]. eapply recorded_good; try done. unfold ATTEMPT_TERMINAL; set_solver.
Qed.

Lemma validate_result_fields task res :
  ResultEnvelope.run_id res = TaskEnvelope.run_id task ->
  ResultEnvelope.attempt_id res = TaskEnvelope.attempt_id task ->
  ResultEnvelope.engine res = TaskEnvelope.engine task -> _validate_result task res = Ok tt.
Proof. unfold _validate_result. intros -> -> ->. by rewrite !bool_decide_true by done. Qed.

Lemma get_attempt_lost task w a w' :
  wf (repo w) -> owned task (repo w) -> get_attempt task w = (Ok a, w') ->
  good (repo w) (repo w')
  /\ (AttemptRecord.state a = AttemptState.LOST -> recorded task AttemptState.LOST None (repo w')).
Proof.
  intros W Ho Hc. destruct (call_inv _ _ _ _ W Hc) as (clk & s & Hg & Hf).
  unfold RunRepository.get_attempt, RunRepository._get_attempt_locked in Hf.
  destruct (RunRepository._attempts s !! TaskEnvelope.attempt_id task) as [b|] eqn:Eb; [| done].
  injection Hf as [= -> <-]. split; [done |]. intros Hs.
  destruct (owned_good _ _ _ Hg Ho) as (x & Hx & Hr). exists a.
  rewrite Eb in Hx. injection Hx as [= ->]. by split_and!.
Qed.

Lemma begin_attempt_owned clk r a n l s x s' :
  RunRepository.begin_attempt clk r a n l s = (Ok x, s') ->
  exists c, RunRepository._attempts s' !! a = Some c /\ AttemptRecord.run_id c = r.
Proof.
  unfold RunRepository.begin_attempt. intros Hb. run_inv Hb. simpl.
  match goal with Hc : AttemptRecord.claimed _ _ _ _ _ = Ok ?c |- _ =>
    destruct (attempt_claimed_Ok _ _ _ _ _ _ Hc) as (_ & _ & (Hi & Hr & _) & _); exists c end.
  split; [apply dict_lookup_insert_eq | done].
Qed.

Lemma claim_owned self task w u w' :
  wf (repo w) -> claim self task w = (Ok u, w') -> owned task (repo w').
Proof.
  intros W Hc. unfold claim in Hc. apply bind_Ok in Hc as (run & w1 & H1 & Hc).
  assert (good (repo w) (repo w1)) as G1.
  { pose proof (world_good_call (fun _ => RunRepository.get_run (TaskEnvelope.run_id task))
      (fun _ => get_run_good _) w W) as G. unfold get_run in H1. by rewrite H1 in G. }
  case_match eqn:E1; [done |]. case_match eqn:E2; [done |].
  apply bind_Ok in Hc as ([r1 a1] & w2 & H2 & Hc).
  unfold try_except in H2. destruct (call _ w1) as [[x|e] w2'] eqn:Ec;
    [| by destruct (is_InvalidTransition e)].
  injection H2 as [= -> ->].
  destruct (call_inv _ _ _ _ (proj1 G1) Ec) as (clk & s & G2 & Hb).
  destruct (begin_attempt_owned _ _ _ _ _ _ _ _ Hb) as (c & Hc2 & Hr2).
  assert (good s (repo w2)) as G3.
  { pose proof (begin_attempt_good clk (TaskEnvelope.run_id task) (TaskEnvelope.attempt_id task)
      (runner_id self) (lease_seconds self) s (proj1 G2)) as G. by rewrite Hb in G. }
  case_match eqn:E3; [done |]. eapply (owned_good _ (repo w2)); [| by exists c].
  assert (world_good (transition_attempt task AttemptState.PREPARING ;;;
    transition_attempt task AttemptState.RUNNING ;;; ret tt)) as G4.
  { unfold transition_attempt. world_steps. }
  specialize (G4 w2 (proj1 G3)). by rewrite Hc in G4.
Qed.

Lemma run_executor_valid self task w ie r w' :
  run_executor self task w = (Ok (ie, r), w') -> _validate_result task r = Ok tt.
Proof.
  unfold run_executor, _infra_result, try_except, bind, lift, ret, now, any_exn.
  destruct (run_behaviour _ _ w) as [[x|e] w1]; cbn [fst snd].
  - destruct (_validate_result task x) as [[]|e] eqn:Ev; intros Hr; simplify_eq; [done |].
    by apply validate_result_fields.
  - intros Hr; simplify_eq. by apply validate_result_fields.
Qed.

Lemma complete_attempt_recorded clk task st r s x s' :
  RunRepository.complete_attempt clk (TaskEnvelope.attempt_id task) st r s = (Ok x, s') ->
  ResultEnvelope.run_id r = TaskEnvelope.run_id task ->
  recorded task st (Some (ResultEnvelope.outcome r)) s'.
Proof.
  unfold RunRepository.complete_attempt. intros Hc Hr. run_inv Hc. simpl.
  match goal with Hw : AttemptRecord.with_result _ _ _ _ = Ok ?a |- _ =>
    destruct (attempt_with_result_Ok _ _ _ _ _ Hw) as (_ & Hs & (_ & Hrun & _) & _ & Hid & Ho);
    exists a end.
  simpl. split_and!; [apply dict_lookup_insert_eq | congruence | done | done].
Qed.
End settled.

Section outcome.
  Context `{PyFloat} (self : RunnerManager) (Hself : collaborators_good self)
    (task : TaskEnvelope.t).

Lemma good_of {A} (c : M World A) w r w' :
  world_good c -> wf (repo w) -> c w = (r, w') -> good (repo w) (repo w').
Proof. intros Hc W E. specialize (Hc w W). by rewrite E in Hc. Qed.

Lemma complete_result st r w b w' :
  wf (repo w) -> owned task (repo w) -> ResultEnvelope.run_id r = TaskEnvelope.run_id task ->
  complete task st r w = (Ok b, w') ->
  if b then recorded task st (Some (ResultEnvelope.outcome r)) (repo w')
  else recorded task AttemptState.LOST None (repo w').
Proof.
  intros W Ho Hr. unfold complete, try_except.
  match goal with |- context [match ?c w with _ => _ end] => set (body := c) end.
  assert (world_good body) as Gb by (unfold body, transition_attempt; world_steps).
  destruct (body w) as [[x|e] w1] eqn:Eb.
  - intros [= -> ->]. unfold body in Eb. apply bind_Ok in Eb as (y & w2 & Ht & Eb).
    assert (good (repo w) (repo w2)) as G2.
    { eapply good_of; [| done | exact Ht]. unfold transition_attempt. world_steps. }
    apply bind_Ok in Eb as (z & w3 & Hc & [= <- <-]).
    destruct (call_inv _ _ _ _ (proj1 G2) Hc) as (clk & s & _ & Hf).
    by eapply complete_attempt_recorded.
  - destruct (is_InvalidTransition e); [| done].
    pose proof (good_of _ _ _ _ Gb W Eb) as G1.
    intros (a & w2 & Ha & Hb)%bind_Ok.
    destruct (get_attempt_lost _ _ _ _ (proj1 G1) (owned_good _ _ _ G1 Ho) Ha) as [_ Hl].
    case_bool_decide; [| done]. injection Hb as [= <- <-]. auto.
Qed.

Lemma finish_result ie r st w x w' : finish self task ie r st w = (Ok x, w') -> x = r.
Proof.
  unfold finish, schedule_retry, settle. intros (l & w1 & _ & Hf)%bind_Ok.
  repeat case_match; repeat (apply bind_Ok in Hf as (? & ? & _ & Hf)); repeat case_match;
    repeat (apply bind_Ok in Hf as (? & ? & _ & Hf)); try discriminate Hf; by injection Hf.
Qed.

Lemma lost_result_settled w x w' :
  recorded task AttemptState.LOST None (repo w) -> _lost_result task w = (Ok x, w') ->
  settled task x (repo w').
Proof.
  intros Hr [= <- <-]. split; [by apply validate_result_fields |]. right. by split_and!.
Qed.

Lemma validate_result_inv r :
  _validate_result task r = Ok tt ->
  ResultEnvelope.run_id r = TaskEnvelope.run_id task
  /\ ResultEnvelope.attempt_id r = TaskEnvelope.attempt_id task
  /\ ResultEnvelope.engine r = TaskEnvelope.engine task.
Proof. unfold _validate_result. case_match eqn:E; [done |]. intros _. by bool_prop. Qed.

Lemma chosen_valid r w x w' :
  _validate_result task r = Ok tt -> chosen task r w = (Ok x, w') -> _validate_result task x = Ok tt.
Proof.
  intros Hv. unfold chosen. case_bool_decide; [| by intros [= <- <-]].
  intros (run & w1 & _ & [= <- <-])%bind_Ok. case_bool_decide; [| done].
  by apply validate_result_fields.
Qed.

Lemma record_result_settled ie r w x w' :
  wf (repo w) -> owned task (repo w) -> _validate_result task r = Ok tt ->
  record_result self task ie r w = (Ok x, w') -> settled task x (repo w').
Proof.
  intros W Ho Hv Hrec. unfold record_result in Hrec.
  apply bind_Ok in Hrec as (r1 & w1 & Hch & Hrec).
  assert (good (repo w) (repo w1)) as G1.
  { eapply good_of; [| done | exact Hch]. unfold chosen, get_run. world_steps. }
  pose proof (chosen_valid _ _ _ _ Hv Hch) as Hv1.
  apply bind_Ok in Hrec as (a & w2 & Ha & Hrec).
  destruct (get_attempt_lost _ _ _ _ (proj1 G1) (owned_good _ _ _ G1 Ho) Ha) as [G2 Hl].
  case_bool_decide; [by eapply lost_result_settled; [apply Hl |] |].
  destruct (_RESULT_STATES _) as [st rst] eqn:Est.
  apply bind_Ok in Hrec as (b & w3 & Hcomp & Hrec).
  pose proof (validate_result_inv _ Hv1) as (Hrid & _ & _).
  pose proof (owned_good _ _ _ G2 (owned_good _ _ _ G1 Ho)) as Ho2.
  pose proof (complete_result _ _ _ _ _ (proj1 G2) Ho2 Hrid Hcomp) as Hres.
  pose proof (good_of _ _ _ _ (complete_good task st r1) (proj1 G2) Hcomp) as G3.
  destruct b; [| by eapply lost_result_settled].
  pose proof (good_of _ _ _ _ (finish_good self Hself task ie r1 rst) (proj1 G3) Hrec) as G4.
  apply finish_result in Hrec as ->. eapply settled_good; [exact G4 |].
  split; [done |]. left. by rewrite Est.
Qed.

(** C1. What a runner reports is what is stored, under any interleaving: whatever the
    executor does (events, exceptions, a foreign result) and whatever other threads call
    on the repository between the manager's own calls, [execute] keeps the repository
    well-formed and its history append-only, and when it returns a result then that
    result carries the task's identity and either its attempt is stored in the final
    state of the result's outcome with that outcome recorded, or the attempt was declared
    lost meanwhile and the result is the [runner_lease_expired] infrastructure error. *)
Theorem execute_reports_stored_attempt w r w' :
  wf (repo w) -> execute self task w = (r, w') ->
  good (repo w) (repo w') /\ forall x, r = Ok x -> settled task x (repo w').
Proof.
  intros W E. split; [eapply good_of; [by apply execute_good | done | done] |].
  intros x ->. unfold execute in E. apply bind_Ok in E as (u & w1 & Hc & E).
  pose proof (good_of _ _ _ _ (claim_good self task) W Hc) as G1.
  pose proof (claim_owned _ _ _ _ _ W Hc) as Ho.
  apply bind_Ok in E as ([ie r] & w2 & Hx & E).
  pose proof (good_of _ _ _ _ (run_executor_good self Hself task) (proj1 G1) Hx) as G2.
  eapply record_result_settled; [apply G2 | by eapply owned_good | by eapply run_executor_valid | done].
Qed.
End outcome.

(** ** The manager without other threads *)

Section quiet.
  Context `{PyFloat} (self : RunnerManager) (Hself : collaborators_good self)
    (task : TaskEnvelope.t).
Notation rid := (TaskEnvelope.run_id task).
Notation aid := (TaskEnvelope.attempt_id task).

(** How many attempts the run has. *)
Definition attempts_of (s : RunRepository.t) : nat :=
  count (fun a => bool_decide (AttemptRecord.run_id a = rid)) (RunRepository._attempts s).

(** No foreign call is pending, and the run and the attempt are where they are. *)
Record quiet (rs : RunState.t) (ast : AttemptState.t) (n : nat) (w : World) : Prop := {
  q_schedule : schedule w = [];
  q_wf : wf (repo w);
  q_run : exists r, RunRepository._runs (repo w) !! rid = Some r /\ RunRecord.state r = rs;
  q_attempt : exists a, RunRepository._attempts (repo w) !! aid = Some a
                        /\ AttemptRecord.run_id a = rid /\ AttemptRecord.state a = ast
                        /\ AttemptRecord.id a = aid;
  q_count : attempts_of (repo w) = n }.

Lemma call_quiet {A} (f : clock -> M RunRepository.t A) w :
  schedule w = [] ->
  call f w = ((f (ticks w (step w)) (repo w)).1,
              mkWorld _ (f (ticks w (step w)) (repo w)).2 [] (ticks w) (S (step w))).
Proof. intros Hs. unfold call. rewrite Hs. simpl. by destruct (f _ _). Qed.

(** A call that touches neither runs nor attempts. *)
Lemma quiet_frame rs ast n w s k :
  quiet rs ast n w -> wf s -> RunRepository._runs s = RunRepository._runs (repo w) ->
  RunRepository._attempts s = RunRepository._attempts (repo w) ->
  quiet rs ast n (mkWorld _ s [] (ticks w) k).
Proof.
  intros [? ? ? ? ?] W Hr Ha. split; simpl; try done; rewrite ?Hr; rewrite ?Ha; try done.
  unfold attempts_of in *. by rewrite Ha.
Qed.

Lemma quiet_put_run rs ast n w r now target r' k :
  quiet rs ast n w -> RunRepository._runs (repo w) !! rid = Some r ->
  RunRecord.with_state now r target = Ok r' ->
  quiet target ast n (mkWorld _ (RunRepository.set_runs (fun d => <[rid:=r']> d) (repo w)).2
                        [] (ticks w) k).
Proof.
  intros [? W ? ? ?] Hr Hw.
  destruct (run_with_state_Ok _ _ _ _ Hw) as (_ & Hs & _).
  split; simpl; try done.
  - eapply (good_put_run _ _ r r' W Hr). by eapply run_evolves_step.
  - exists r'. by rewrite dict_lookup_insert_eq.
Qed.

Lemma quiet_put_attempt rs ast n w a a' k :
  quiet rs ast n w -> RunRepository._attempts (repo w) !! aid = Some a -> attempt_evolves a a' ->
  quiet rs (AttemptRecord.state a') n
    (mkWorld _ (RunRepository.set_attempts (fun d => <[aid:=a']> d) (repo w)).2 [] (ticks w) k).
Proof.
  intros [? W Hrun (b & Hb & Hbr & Hbs & Hbi) Hn] Ha Hev. assert (b = a) as -> by congruence.
  pose proof (good_step_attempt _ _ _ _ W Ha Hev) as [W' _].
  destruct Hev as [(Hi & Hr & _) _].
  split; simpl; try done.
  - exists a'. rewrite dict_lookup_insert_eq. split_and!; congruence.
  - rewrite <- Hn. eapply count_insert_old; [exact Ha |]. simpl. by rewrite Hr.
Qed.

Lemma quiet_transition rs ast n w target :
  quiet rs ast n w -> target ∈ RUN_TRANSITIONS rs ->
  exists r w', transition task target w = (Ok r, w') /\ quiet target ast n w'.
Proof.
  intros Q Ht. unfold transition. rewrite call_quiet by apply Q.
  destruct (q_run _ _ _ _ Q) as (r & Hr & Hs).
  destruct (run_with_state_defined (ticks w (step w) 0%nat) r target) as [r' Hr']; [by rewrite Hs |].
  unfold RunRepository.transition, RunRepository._get_locked, bind, lift, ret. rewrite Hr, Hr'. simpl.
  eexists _, _. split; [done |]. by eapply quiet_put_run.
Qed.

Lemma quiet_transition_attempt rs ast n w target :
  quiet rs ast n w -> target ∈ ATTEMPT_TRANSITIONS ast ->
  exists a w', transition_attempt task target w = (Ok a, w') /\ quiet rs target n w'.
Proof.
  intros Q Ht. unfold transition_attempt. rewrite call_quiet by apply Q.
  destruct (q_attempt _ _ _ _ Q) as (a & Ha & _ & Hs & _).
  destruct (AttemptRecord.with_state (ticks w (step w) 0%nat) a target) as [a'|e] eqn:Ew.
  - unfold RunRepository.transition_attempt, RunRepository._get_attempt_locked, bind, lift, ret.
    rewrite Ha, Ew. simpl. eexists _, _. split; [done |].
    destruct (attempt_with_state_Ok _ _ _ _ Ew) as (_ & <- & _).
    eapply quiet_put_attempt; [done | done | by eapply attempt_step_evolves].
  - exfalso. revert Ew. unfold AttemptRecord.with_state, Domain.transition_attempt, _transition.
    rewrite Hs. by rewrite bool_decide_true.
Qed.

Lemma quiet_complete rs n w st r :
  quiet rs AttemptState.RUNNING n w -> _validate_result task r = Ok tt -> st ∈ ATTEMPT_TERMINAL ->
  exists w', complete task st r w = (Ok true, w') /\ quiet rs st n w'
             /\ recorded task st (Some (ResultEnvelope.outcome r)) (repo w').
Proof.
  intros Q Hv Hst. destruct (validate_result_inv _ _ Hv) as (Hrr & Hra & _).
  destruct (quiet_transition_attempt _ _ _ _ AttemptState.COLLECTING Q) as (a & w1 & E1 & Q1);
    [simpl; set_solver |].
  unfold complete, try_except. unfold bind at 1. rewrite E1.
  unfold bind at 1. rewrite call_quiet by apply Q1.
  destruct (q_attempt _ _ _ _ Q1) as (b & Hb & Hbr & Hbs & Hbi).
  assert (exists b', AttemptRecord.with_result (ticks w1 (step w1) 0%nat) b st r = Ok b') as [b' Hb'].
  { unfold AttemptRecord.with_result, Domain.transition_attempt, _transition.
    rewrite Hbs, Hra, Hrr, Hbi, Hbr, !bool_decide_true by done. simpl. by eexists. }
  assert (RunRepository.complete_attempt (ticks w1 (step w1)) aid st r (repo w1)
          = (Ok b', (RunRepository.set_attempts (fun d => <[aid:=b']> d) (repo w1)).2)) as Ec.
  { unfold RunRepository.complete_attempt, RunRepository._get_attempt_locked, bind, lift, ret.
    rewrite Hb, Hb'. done. }
  rewrite Ec. simpl. eexists. split; [done |].
  destruct (attempt_with_result_Ok _ _ _ _ _ Hb') as (_ & Hs & _). split.
  - rewrite <- Hs. eapply quiet_put_attempt; [done | done | by eapply result_evolves].
  - by eapply complete_attempt_recorded; [exact Ec |].
Qed.

(** The artifact collector stores artifacts, and nothing else. *)
Definition collector_frame : Prop :=
  forall f t e w, artifact_collector self = Some f -> schedule w = [] -> wf (repo w) ->
    schedule (f t e w).2 = [] /\ wf (repo (f t e w).2)
    /\ RunRepository._runs (repo (f t e w).2) = RunRepository._runs (repo w)
    /\ RunRepository._attempts (repo (f t e w).2) = RunRepository._attempts (repo w).

(** The call keeps the run and the attempt where they are, whether it returns or raises. *)
Definition stays {A} (c : M World A) : Prop :=
  forall rs ast n w, quiet rs ast n w -> quiet rs ast n (c w).2.

Lemma stays_bind {A B} (c : M World A) (k : A -> M World B) :
  stays c -> (forall a, stays (k a)) -> stays (bind c k).
Proof.
  intros Hc Hk rs ast n w Q. specialize (Hc _ _ _ _ Q). unfold bind.
  destruct (c w) as [[a|e] w1]; simpl in *; [by apply Hk | done].
Qed.

Lemma stays_ret {A} (r : res A) : stays (lift r).
Proof. by intros rs ast n w Q. Qed.

Lemma stays_read {A} (f : clock -> M RunRepository.t A) :
  (forall clk s, wf s -> wf (f clk s).2
     /\ RunRepository._runs (f clk s).2 = RunRepository._runs s
     /\ RunRepository._attempts (f clk s).2 = RunRepository._attempts s) -> stays (call f).
Proof.
  intros Hf rs ast n w Q. rewrite call_quiet by apply Q.
  destruct (Hf (ticks w (step w)) (repo w)) as (? & ? & ?); [by apply Q |].
  by eapply quiet_frame.
Qed.

Lemma append_event_frame e s :
  RunRepository._runs (RunRepository.append_event e s).2 = RunRepository._runs s
  /\ RunRepository._attempts (RunRepository.append_event e s).2 = RunRepository._attempts s.
Proof.
  unfold RunRepository.append_event, RunRepository._get_attempt_locked, RunRepository._get_locked,
    RunRepository.store_event, bind, get, ret, raise, lift. py_case; by simplify_eq.
Qed.

Lemma stays_renew : stays (call (fun clk =>
  RunRepository.renew_attempt_lease clk aid (runner_id self) (lease_seconds self) None)).
Proof.
  intros rs ast n w Q. rewrite call_quiet by apply Q. destruct (q_attempt _ _ _ _ Q) as (a & Ha & _ & Hs & _).
  unfold RunRepository.renew_attempt_lease, RunRepository._get_attempt_locked, bind, lift, ret.
  rewrite Ha. simpl. destruct (AttemptRecord.with_heartbeat _ _ _ _) as [a'|e] eqn:Eh; simpl.
  - destruct (attempt_with_heartbeat_Ok _ _ _ _ _ Eh) as (_ & Hs' & _).
    rewrite <- Hs, <- Hs'. eapply quiet_put_attempt; [done | done | by eapply heartbeat_evolves].
  - eapply quiet_frame; try done. by apply Q.
Qed.

Lemma stays_persist_event event : collector_frame -> stays (persist_event self task event).
Proof.
  intros Hframe. apply stays_bind; [apply stays_ret |]. intros _.
  apply stays_bind.
  { destruct (is_artifact_event event); [| apply (stays_ret (Ok event))].
    destruct (artifact_collector self) as [f|] eqn:Ef; [| apply (stays_ret (Err RunnerIdentityError))].
    intros rs ast n w Q. destruct (Hframe f task event w Ef) as (Hs & W & Hr & Ha); [apply Q.. |].
    destruct (f task event w) as [r w']. simpl in *. destruct w'; simpl in *.
    destruct Q as [? ? Q1 Q2 Q3]. split; simpl; try done; rewrite ?Hr; rewrite ?Ha; try done.
    unfold attempts_of in *. by rewrite Ha. }
  intros e'. apply stays_bind.
  { case_bool_decide; [| apply (stays_ret (Ok tt))].
    apply stays_bind; [apply stays_renew | intros; apply (stays_ret (Ok tt))]. }
  intros _. apply stays_bind; [| intros; apply (stays_ret (Ok tt))].
  apply stays_read. intros _ s W. destruct (append_event_frame e' s). split_and!; [| done | done].
  by apply append_event_good.
Qed.

Lemma stays_behaviour sink b :
  (forall event, stays (sink event)) -> stays (run_behaviour sink b).
Proof.
  intros Hs. induction b as [r|e|event k IH]; simpl; [by intros ??? w Q | by intros ??? w Q |].
  intros rs ast n w Q. specialize (Hs event _ _ _ _ Q). destruct (sink event w) as [r w1].
  by apply IH.
Qed.

(** The executor ends in a result for the task, with nothing moved. *)
Lemma quiet_run_executor rs ast n w :
  collector_frame -> quiet rs ast n w ->
  exists ie r w', run_executor self task w = (Ok (ie, r), w') /\ quiet rs ast n w'
    /\ _validate_result task r = Ok tt /\ (ie = None \/ ie = Some RunnerIdentityError).
Proof.
  intros Hframe Q. unfold run_executor, try_except, bind, lift, ret, any_exn.
  pose proof (stays_behaviour _ (executor self task) (fun e => stays_persist_event e Hframe) _ _ _ _ Q) as Q1.
  assert (forall e w1, quiet rs ast n w1 -> exists ie r w',
    (let (r, s') := _infra_result task e w1 in
     match r with
     | Ok a => (Ok (if is_RunnerIdentityError e then Some e else None, a), s')
     | Err e0 => (Err e0, s')
     end) = (Ok (ie, r), w') /\ quiet rs ast n w' /\ _validate_result task r = Ok tt
    /\ (ie = None \/ ie = Some RunnerIdentityError)) as Herr.
  { intros e w1 Q'. unfold _infra_result, bind, now, ret. simpl. eexists _, _, _. split_and!; [done | | |].
    - destruct Q'. split; done.
    - by apply validate_result_fields.
    - unfold is_RunnerIdentityError. case_bool_decide; [right; by subst | by left]. }
  destruct (run_behaviour _ _ w) as [[r|e] w1]; simpl in Q1 |- *; [| by apply Herr].
  destruct (_validate_result task r) as [[]|e] eqn:Ev; [| by apply Herr].
  eexists _, _, _. split_and!; [done | done | done | by left].
Qed.

Lemma quiet_list_attempts rs ast n w :
  quiet rs ast n w ->
  exists l w', call (fun _ => RunRepository.list_attempts rid) w = (Ok l, w') /\ length l = n
               /\ quiet rs ast n w'.
Proof.
  intros Q. rewrite call_quiet by apply Q. destruct (q_run _ _ _ _ Q) as (r & Hr & _).
  unfold RunRepository.list_attempts, RunRepository._get_locked, bind, get, ret. rewrite Hr. simpl.
  eexists _, _. split; [done |]. split.
  - rewrite py_sorted_length. apply (q_count _ _ _ _ Q).
  - eapply quiet_frame; try done. apply Q.
Qed.

Lemma quiet_get_run rs ast n w :
  quiet rs ast n w ->
  exists r w', get_run task w = (Ok r, w') /\ RunRecord.state r = rs /\ quiet rs ast n w'.
Proof.
  intros Q. unfold get_run. rewrite call_quiet by apply Q. destruct (q_run _ _ _ _ Q) as (r & Hr & Hs).
  unfold RunRepository.get_run, RunRepository._get_locked. rewrite Hr. simpl.
  eexists _, _. split; [done |]. split; [done |]. eapply quiet_frame; try done. apply Q.
Qed.

Lemma quiet_get_attempt rs ast n w :
  quiet rs ast n w ->
  exists a w', get_attempt task w = (Ok a, w') /\ AttemptRecord.state a = ast /\ quiet rs ast n w'.
Proof.
  intros Q. unfold get_attempt. rewrite call_quiet by apply Q.
  destruct (q_attempt _ _ _ _ Q) as (a & Ha & _ & Hs & _).
  unfold RunRepository.get_attempt, RunRepository._get_attempt_locked. rewrite Ha. simpl.
  eexists _, _. split; [done |]. split; [done |]. eapply quiet_frame; try done. apply Q.
Qed.
End quiet.

Section ends.
  Context `{PyFloat} (self : RunnerManager) (Hself : collaborators_good self)
    (Hframe : collector_frame self) (task : TaskEnvelope.t).
Notation rid := (TaskEnvelope.run_id task).
Notation aid := (TaskEnvelope.attempt_id task).

(** A world in which [execute] can claim the run. *)
Record ready (w : World) : Prop := {
  rd_schedule : schedule w = [];
  rd_wf : wf (repo w);
  rd_run : exists r, RunRepository._runs (repo w) !! rid = Some r
                     /\ RunRecord.state r = RunState.DISPATCHING
                     /\ RunRecord.engine r = TaskEnvelope.engine task;
  rd_fresh : RunRepository._attempts (repo w) !! aid = None;
  rd_runner : empty_str (strip (runner_id self)) = false /\ (py_len (strip (runner_id self)) <= 255)%Z;
  rd_lease : (0 < lease_seconds self)%Z;
  rd_clock : forall k i, is_ok (add_seconds (ticks w k i) (lease_seconds self)) = true }.

Definition run_in (s : RunRepository.t) (st : RunState.t) : Prop :=
  exists r, RunRepository._runs s !! rid = Some r /\ RunRecord.state r = st.

(** Where a completed attempt with result [r], the [n]-th of its run, leaves the run. *)
Definition final_run_state (r : ResultEnvelope.t) (n : nat) : RunState.t :=
  let d := decide_retry task r (Z.of_nat n) in
  if RetryDecision.should_retry d then
    match retry_scheduler self with
    | Some schedule =>
        if is_ok (schedule rid (RetryDecision.delay_seconds d)) then RunState.RETRY_WAIT
        else RunState.INFRA_ERROR
    | None => RunState.INFRA_ERROR
    end
  else snd (_RESULT_STATES (ResultEnvelope.outcome r)).

Lemma run_in_good s s' st : st ∈ RUN_TERMINAL -> good s s' -> run_in s st -> run_in s' st.
Proof.
  intros Ht [_ E] (r & Hr & <-). apply (ev_runs _ _ E) in Hr as (r' & Hr' & _ & _ & _ & _ & HT & _).
  rewrite (HT Ht) in Hr'. by exists r.
Qed.

Lemma infra_terminal : RunState.INFRA_ERROR ∈ RUN_TERMINAL.
Proof. unfold RUN_TERMINAL. set_solver. Qed.

Lemma run_state_terminal o : snd (_RESULT_STATES o) ∈ RUN_TERMINAL.
Proof. unfold RUN_TERMINAL. destruct o; simpl; set_solver. Qed.

Lemma notify_returns w :
  wf (repo w) ->
  exists w', _notify_completion self rid w = (Ok tt, w') /\ good (repo w) (repo w').
Proof.
  intros W. pose proof (notify_good self Hself rid w W) as G. revert G.
  unfold _notify_completion, try_except, any_exn, ret.
  destruct (completion_callback self) as [f|]; [| intros G; by eexists].
  destruct (f rid w) as [[[]|e] w']; intros G; by eexists.
Qed.

(** Move to a terminal state and notify. *)
Lemma quiet_end rs ast n w target {A} (k : M World A) :
  quiet task rs ast n w -> target ∈ RUN_TRANSITIONS rs -> target ∈ RUN_TERMINAL ->
  exists w', (transition task target ;;; _notify_completion self rid ;;; k) w = k w'
             /\ good (repo w) (repo w') /\ run_in (repo w') target.
Proof.
  intros Q Ht Hterm. destruct (quiet_transition _ _ _ _ _ _ Q Ht) as (r & w1 & E1 & Q1).
  assert (good (repo w) (repo w1)) as G1.
  { eapply good_of; [| apply Q | exact E1]. unfold transition. world_steps. }
  destruct (notify_returns w1) as (w2 & E2 & G2); [apply Q1 |].
  exists w2. split; [| split].
  - unfold bind at 1. rewrite E1. unfold bind. by rewrite E2.
  - by eapply good_trans.
  - eapply run_in_good; [done | exact G2 |]. apply (q_run _ _ _ _ _ Q1).
Qed.

Lemma quiet_schedule_retry ast n w r delay :
  quiet task RunState.RUNNING ast n w ->
  exists w', schedule_retry self task r delay w = (Ok r, w') /\ good (repo w) (repo w')
    /\ run_in (repo w') (match retry_scheduler self with
                         | Some sch => if is_ok (sch rid delay) then RunState.RETRY_WAIT
                                       else RunState.INFRA_ERROR
                         | None => RunState.INFRA_ERROR
                         end).
Proof.
  intros Q. unfold schedule_retry. destruct (retry_scheduler self) as [sch|].
  - destruct (quiet_transition _ _ _ _ _ RunState.RETRY_WAIT Q) as (x & w2 & E2 & Q2);
      [simpl; set_solver |].
    assert (good (repo w) (repo w2)) as G2.
    { eapply good_of; [| apply Q | exact E2]. unfold transition. world_steps. }
    unfold bind at 1. rewrite E2. destruct (sch rid delay) as [u|e]; simpl.
    + exists w2. split_and!; [done | done |]. apply (q_run _ _ _ _ _ Q2).
    + destruct (quiet_end _ _ _ _ RunState.INFRA_ERROR (ret r) Q2) as (w3 & E3 & G3 & R3);
        [simpl; set_solver | apply infra_terminal |].
      exists w3. rewrite E3. split_and!; [done | by eapply good_trans | done].
  - destruct (quiet_end _ _ _ _ RunState.INFRA_ERROR (ret r) Q) as (w3 & E3 & G3 & R3);
      [simpl; set_solver | apply infra_terminal |].
    exists w3. by rewrite E3.
Qed.

(** What the settling branch hands to the caller. *)
Definition settle_result (ie : option exn) (r : ResultEnvelope.t) : res ResultEnvelope.t :=
  match ie with Some e => Err e | None => Ok r end.

Lemma quiet_settle ast n w ie r o :
  quiet task RunState.RUNNING ast n w ->
  exists w', settle self task ie r (snd (_RESULT_STATES o)) w = (settle_result ie r, w')
    /\ good (repo w) (repo w') /\ run_in (repo w') (snd (_RESULT_STATES o)).
Proof.
  intros Q. unfold settle.
  set (k := match ie with Some e => raise e | None => ret r end).
  assert (forall w', k w' = (settle_result ie r, w')) as Hk by (by destruct ie).
  case_bool_decide as Hc.
  - destruct (quiet_get_run _ _ _ _ _ Q) as (x & w2 & E2 & Hx & Q2).
    assert (good (repo w) (repo w2)) as G2.
    { eapply good_of; [| apply Q | exact E2]. unfold get_run. world_steps. }
    destruct (quiet_transition _ _ _ _ _ RunState.CANCELLING Q2) as (y & w3 & E3 & Q3);
      [simpl; set_solver |].
    assert (good (repo w2) (repo w3)) as G3.
    { eapply good_of; [| apply Q2 | exact E3]. unfold transition. world_steps. }
    destruct (quiet_end _ _ _ _ (snd (_RESULT_STATES o)) k Q3) as (w4 & E4 & G4 & R4);
      [rewrite Hc; simpl; set_solver | apply run_state_terminal |].
    exists w4. split_and!; [| by eapply good_trans, good_trans | done].
    rewrite Hk in E4. rewrite <- E4. unfold bind. rewrite E2, Hx. simpl. by rewrite E3.
  - destruct (quiet_end _ _ _ _ (snd (_RESULT_STATES o)) k Q) as (w4 & E4 & G4 & R4);
      [destruct o; simpl in *; try done; set_solver | apply run_state_terminal |].
    exists w4. rewrite Hk in E4. by split_and!.
Qed.

Lemma quiet_finish ast n w ie r :
  quiet task RunState.RUNNING ast n w ->
  exists w', finish self task ie r (snd (_RESULT_STATES (ResultEnvelope.outcome r))) w
             = (if RetryDecision.should_retry (decide_retry task r (Z.of_nat n)) then Ok r
                else settle_result ie r, w')
    /\ good (repo w) (repo w') /\ run_in (repo w') (final_run_state r n).
Proof.
  intros Q. destruct (quiet_list_attempts _ _ _ _ _ Q) as (l & w1 & E1 & Hl & Q1).
  assert (good (repo w) (repo w1)) as G1 by (eapply good_of; [| apply Q | exact E1]; world_steps).
  unfold finish, final_run_state. unfold bind. rewrite E1, Hl.
  destruct (RetryDecision.should_retry _) eqn:Er.
  - destruct (quiet_schedule_retry _ _ _ r (RetryDecision.delay_seconds (decide_retry task r (Z.of_nat n))) Q1)
      as (w2 & -> & G2 & R2). exists w2. split_and!; [done | by eapply good_trans | done].
  - destruct (quiet_settle _ _ _ ie r (ResultEnvelope.outcome r) Q1) as (w2 & -> & G2 & R2).
    exists w2. split_and!; [done | by eapply good_trans | done].
Qed.

Lemma ready_begin w :
  ready w ->
  exists x s, RunRepository.begin_attempt (ticks w (S (step w))) rid aid (runner_id self)
                (lease_seconds self) (repo w) = (Ok x, s)
    /\ AttemptRecord.id x.2 = aid /\ AttemptRecord.run_id x.2 = rid
    /\ forall k, quiet task RunState.RUNNING AttemptState.CLAIMED (S (attempts_of task (repo w)))
                   (mkWorld _ s [] (ticks w) k).
Proof.
  intros [Hs W (r & Hr & Hst & He) Hf [Hr1 Hr2] Hl Hc].
  pose proof (begin_attempt_good (ticks w (S (step w))) rid aid (runner_id self)
                (lease_seconds self) (repo w) W) as G. revert G.
  unfold RunRepository.begin_attempt, RunRepository._get_locked, bind, get, lift, raise.
  rewrite Hr. rewrite (proj2 (has_key_false _ _) Hf).
  destruct (run_with_state_defined (ticks w (S (step w)) 0%nat) r RunState.RUNNING) as [r' Hr'];
    [rewrite Hst; simpl; set_solver |]. rewrite Hr'.
  set (p := AttemptRecord.pending aid rid (ticks w (S (step w)) 1%nat)).
  assert (exists a, AttemptRecord.claimed (ticks w (S (step w)) 2%nat) p (runner_id self)
    (lease_seconds self) (ticks w (S (step w)) 1%nat) = Ok a) as [a Ha].
  { unfold AttemptRecord.claimed. rewrite Hr1. simpl.
    destruct (255 <? _)%Z eqn:E1; bool_prop; [lia |].
    destruct (lease_seconds self <=? 0)%Z eqn:E2; bool_prop; [lia |].
    specialize (Hc (S (step w)) 1%nat). destruct (add_seconds _ _); [| done]. simpl. by eexists. }
  rewrite Ha. cbn [fst snd]. intros [W' _].
  destruct (attempt_claimed_Ok _ _ _ _ _ _ Ha) as (_ & Hsa & (Hi & Hra & _) & _).
  eexists _, _. split; [done |]. split_and!; [done | done |]. intros k.
  destruct (run_with_state_Ok _ _ _ _ Hr') as (_ & Hs' & _).
  split; simpl; [done | exact W' | | |].
  - exists r'. by rewrite dict_lookup_insert_eq.
  - exists a. rewrite dict_lookup_insert_eq. by split_and!.
  - unfold attempts_of. simpl. rewrite count_insert_new by done.
    rewrite Hra. rewrite bool_decide_true by done. lia.
Qed.

Lemma ready_claim w :
  ready w ->
  exists w', claim self task w = (Ok tt, w')
    /\ quiet task RunState.RUNNING AttemptState.RUNNING (S (attempts_of task (repo w))) w'.
Proof.
  intros R. pose proof (ready_begin _ R) as (x & s & Hb & Hid & Hrid & Q).
  destruct R as [Hs W (r & Hr & Hst & He) Hf Hrn Hl Hc].
  unfold claim. unfold bind at 1. unfold get_run. rewrite call_quiet by done.
  unfold RunRepository.get_run at 1 2, RunRepository._get_locked. rewrite Hr. cbn [fst snd].
  rewrite He, Hst, !bool_decide_true by done. cbn [negb].
  unfold bind at 1, try_except. rewrite call_quiet by done. simpl in Hb |- *. rewrite Hb. cbn [fst snd].
  destruct x as [r1 a1]. cbn [snd] in *. rewrite Hid, Hrid, !bool_decide_true by done. cbn [negb orb].
  destruct (quiet_transition_attempt _ _ _ _ _ AttemptState.PREPARING (Q (S (S (step w)))))
    as (a2 & w2 & E2 & Q2); [simpl; set_solver |].
  destruct (quiet_transition_attempt _ _ _ _ _ AttemptState.RUNNING Q2)
    as (a3 & w3 & E3 & Q3); [simpl; set_solver |].
  exists w3. split; [| done]. unfold bind. by rewrite E2, E3.
Qed.

Lemma quiet_chosen rs ast n w r :
  quiet task rs ast n w -> rs <> RunState.CANCELLING ->
  exists w', chosen task r w = (Ok r, w') /\ quiet task rs ast n w'.
Proof.
  intros Q Hrs. unfold chosen. case_bool_decide; [| by eexists].
  destruct (quiet_get_run _ _ _ _ _ Q) as (x & w' & Ex & <- & Q').
  unfold bind. rewrite Ex, bool_decide_false by done. by eexists.
Qed.

Lemma quiet_record_result n w ie r :
  quiet task RunState.RUNNING AttemptState.RUNNING n w -> _validate_result task r = Ok tt ->
  exists w', record_result self task ie r w
             = (if RetryDecision.should_retry (decide_retry task r (Z.of_nat n)) then Ok r
                else settle_result ie r, w')
    /\ recorded task (fst (_RESULT_STATES (ResultEnvelope.outcome r)))
         (Some (ResultEnvelope.outcome r)) (repo w')
    /\ run_in (repo w') (final_run_state r n).
Proof.
  intros Q Hv. destruct (quiet_chosen _ _ _ _ r Q) as (w1 & E1 & Q1); [done |].
  destruct (quiet_get_attempt _ _ _ _ _ Q1) as (a & w2 & E2 & Ha & Q2).
  destruct (quiet_complete self Hself task RunState.RUNNING n w2
    (fst (_RESULT_STATES (ResultEnvelope.outcome r))) r Q2 Hv)
    as (w3 & E3 & Q3 & Hrec); [apply result_state_terminal |].
  destruct (quiet_finish _ _ _ ie r Q3) as (w4 & E4 & G4 & R4).
  exists w4. split_and!; [| by eapply recorded_good; [apply result_state_terminal | |] | done].
  unfold record_result. unfold bind at 1. rewrite E1. unfold bind at 1. rewrite E2, Ha.
  rewrite bool_decide_false by done.
  destruct (_RESULT_STATES _) as [st rst] eqn:Est. simpl in E3, E4. unfold bind at 1.
  rewrite E3. exact E4.
Qed.

(** C2. Every execution ends the run: when no other thread interferes and the run can be
    claimed, [execute] returns, for every behaviour of the executor (any events, any
    exception, any result), with a result valid for the task or with
    [RunnerIdentityError]; the attempt is then stored in the final state of that result's
    outcome, and the run is in the state that the retry decision for its attempt count
    prescribes: [RETRY_WAIT] only when a retry was decided and scheduled, and a terminal
    state otherwise. *)
Theorem execute_ends_run w :
  ready w ->
  let n := S (attempts_of task (repo w)) in
  exists r out w', execute self task w = (out, w')
    /\ (out = Ok r
        \/ (out = Err RunnerIdentityError
            /\ RetryDecision.should_retry (decide_retry task r (Z.of_nat n)) = false))
    /\ _validate_result task r = Ok tt
    /\ recorded task (fst (_RESULT_STATES (ResultEnvelope.outcome r)))
         (Some (ResultEnvelope.outcome r)) (repo w')
    /\ run_in (repo w') (final_run_state r n)
    /\ (final_run_state r n <> RunState.RETRY_WAIT -> final_run_state r n ∈ RUN_TERMINAL).
Proof.
  intros R n. destruct (ready_claim _ R) as (w1 & E1 & Q1). fold n in Q1.
  destruct (quiet_run_executor self task _ _ _ _ Hframe Q1) as (ie & r & w2 & E2 & Q2 & Hv & Hie).
  destruct (quiet_record_result _ _ ie r Q2 Hv) as (w3 & E3 & Hrec & Hrun).
  eexists r, _, w3. split_and!; [| | done | done | done |].
  - unfold execute. unfold bind at 1. rewrite E1. unfold bind at 1. rewrite E2. exact E3.
  - destruct (RetryDecision.should_retry _) eqn:Er; [by left |].
    destruct Hie as [->| ->]; [by left | by right].
  - intros Hne. unfold final_run_state in *. repeat case_match; try done;
      first [apply infra_terminal | apply run_state_terminal].
Qed.

Lemma quiet_settle_cancelling ast n w ie r o :
  quiet task RunState.CANCELLING ast n w -> o <> ResultOutcome.SUCCEEDED ->
  exists w', settle self task ie r (snd (_RESULT_STATES o)) w = (settle_result ie r, w')
    /\ good (repo w) (repo w') /\ run_in (repo w') (snd (_RESULT_STATES o)).
Proof.
  intros Q Ho. unfold settle.
  set (k := match ie with Some e => raise e | None => ret r end).
  assert (forall w', k w' = (settle_result ie r, w')) as Hk by (by destruct ie).
  assert (exists w1, (if bool_decide (snd (_RESULT_STATES o) = RunState.CANCELLED) then
      let* current := get_run task in
      if bool_decide (RunRecord.state current = RunState.CANCELLING) then ret tt
      else transition task RunState.CANCELLING ;;; ret tt
    else ret tt) w = (Ok tt, w1) /\ quiet task RunState.CANCELLING ast n w1
    /\ good (repo w) (repo w1)) as (w1 & E1 & Q1 & G1).
  { case_bool_decide; [| exists w; split_and!; [done | done | by apply good_refl, Q]].
    destruct (quiet_get_run _ _ _ _ _ Q) as (x & w2 & E2 & Hx & Q2).
    exists w2. split_and!; [| done |].
    - unfold bind. by rewrite E2, Hx.
    - eapply good_of; [| apply Q | exact E2]. unfold get_run. world_steps. }
  destruct (quiet_end _ _ _ _ (snd (_RESULT_STATES o)) k Q1) as (w4 & E4 & G4 & R4);
    [destruct o; simpl; try done; set_solver | apply run_state_terminal |].
  exists w4. split_and!; [| by eapply good_trans | done].
  rewrite Hk in E4. rewrite <- E4. unfold bind at 1. by rewrite E1.
Qed.

Lemma retry_wait_refused ast n w :
  quiet task RunState.CANCELLING ast n w ->
  exists w', transition task RunState.RETRY_WAIT w = (Err InvalidTransition, w')
             /\ quiet task RunState.CANCELLING ast n w'.
Proof.
  intros Q. unfold transition. rewrite call_quiet by apply Q.
  destruct (q_run _ _ _ _ _ Q) as (r & Hr & Hs).
  unfold RunRepository.transition, RunRepository._get_locked, bind, lift, RunRecord.with_state,
    transition_run, _transition.
  rewrite Hr, Hs, bool_decide_false by (simpl; set_solver). simpl.
  eexists. split; [done |]. eapply quiet_frame; try done. apply Q.
Qed.

(** How the run ends when its cancellation was requested during the execution. *)
Definition cancelled_end (ie : option exn) (r : ResultEnvelope.t) (n : nat)
    : res ResultEnvelope.t * RunState.t :=
  if RetryDecision.should_retry (decide_retry task r (Z.of_nat n)) then
    match retry_scheduler self with
    | Some _ => (Err InvalidTransition, RunState.CANCELLING)
    | None => (Ok r, RunState.INFRA_ERROR)
    end
  else (settle_result ie r, snd (_RESULT_STATES (ResultEnvelope.outcome r))).

Lemma quiet_finish_cancelling ast n w ie r :
  quiet task RunState.CANCELLING ast n w -> ResultEnvelope.outcome r <> ResultOutcome.SUCCEEDED ->
  exists w', finish self task ie r (snd (_RESULT_STATES (ResultEnvelope.outcome r))) w
             = (fst (cancelled_end ie r n), w')
    /\ good (repo w) (repo w') /\ run_in (repo w') (snd (cancelled_end ie r n)).
Proof.
  intros Q Ho. destruct (quiet_list_attempts _ _ _ _ _ Q) as (l & w1 & E1 & Hl & Q1).
  assert (good (repo w) (repo w1)) as G1 by (eapply good_of; [| apply Q | exact E1]; world_steps).
  unfold finish, cancelled_end. unfold bind at 1. rewrite E1, Hl.
  destruct (RetryDecision.should_retry _) eqn:Er.
  - unfold schedule_retry. destruct (retry_scheduler self) as [sch|]; simpl.
    + destruct (retry_wait_refused _ _ _ Q1) as (w2 & E2 & Q2). exists w2.
      unfold bind. rewrite E2. split_and!; [done | | apply (q_run _ _ _ _ _ Q2)].
      eapply good_trans; [exact G1 |]. eapply good_of; [| apply Q1 | exact E2].
      unfold transition. world_steps.
    + destruct (quiet_end _ _ _ _ RunState.INFRA_ERROR (ret r) Q1) as (w3 & E3 & G3 & R3);
        [simpl; set_solver | apply infra_terminal |].
      exists w3. rewrite E3. split_and!; [done | by eapply good_trans | done].
  - destruct (quiet_settle_cancelling _ _ _ ie r _ Q1 Ho) as (w2 & E2 & G2 & R2).
    exists w2. rewrite E2. split_and!; [done | by eapply good_trans | done].
Qed.

(** C7. Cancellation during the execution: when the run is [CANCELLING] by the time the
    executor is done, a success is turned into a cancellation and the run ends
    [CANCELLED]; any other result is recorded as it is and ends the run in its own state.
    The exception is a retry: without a scheduler the run ends [INFRA_ERROR], but with
    one the manager asks for [RETRY_WAIT], which [CANCELLING] does not allow, so
    [execute] raises [InvalidTransition] and leaves the run [CANCELLING] with no attempt
    in progress. *)
Theorem cancelled_execution_outcome n w ie r :
  quiet task RunState.CANCELLING AttemptState.RUNNING n w -> _validate_result task r = Ok tt ->
  let r' := if bool_decide (ResultEnvelope.outcome r = ResultOutcome.SUCCEEDED)
            then _cancelled_result task r else r in
  ResultEnvelope.outcome r' <> ResultOutcome.SUCCEEDED
  /\ exists w', record_result self task ie r w = (fst (cancelled_end ie r' n), w')
    /\ recorded task (fst (_RESULT_STATES (ResultEnvelope.outcome r')))
         (Some (ResultEnvelope.outcome r')) (repo w')
    /\ run_in (repo w') (snd (cancelled_end ie r' n)).
Proof.
  intros Q Hv r'.
  assert (ResultEnvelope.outcome r' <> ResultOutcome.SUCCEEDED) as Hr'
    by (unfold r'; by case_bool_decide).
  split; [done |].
  assert (_validate_result task r' = Ok tt) as Hv'.
  { unfold r'. case_bool_decide; [by apply validate_result_fields | done]. }
  assert (exists w1, chosen task r w = (Ok r', w1)
    /\ quiet task RunState.CANCELLING AttemptState.RUNNING n w1) as (w1 & E1 & Q1).
  { unfold chosen, r'. case_bool_decide; [| by eexists].
    destruct (quiet_get_run _ _ _ _ _ Q) as (x & w' & Ex & Hx & Q').
    unfold bind. rewrite Ex, Hx. by eexists. }
  destruct (quiet_get_attempt _ _ _ _ _ Q1) as (a & w2 & E2 & Ha & Q2).
  destruct (quiet_complete self Hself task _ n w2
    (fst (_RESULT_STATES (ResultEnvelope.outcome r'))) r' Q2 Hv')
    as (w3 & E3 & Q3 & Hrec); [apply result_state_terminal |].
  destruct (quiet_finish_cancelling _ _ _ ie r' Q3 Hr') as (w4 & E4 & G4 & R4).
  exists w4. split_and!; [| by eapply recorded_good; [apply result_state_terminal | |] | done].
  unfold record_result. unfold bind at 1. rewrite E1. unfold bind at 1. rewrite E2, Ha.
  rewrite bool_decide_false by done.
  destruct (_RESULT_STATES _) as [st rst] eqn:Est. simpl in E3, E4. unfold bind at 1.
  rewrite E3. exact E4.
Qed.
End ends.
