(* ===== verification/RunsExamples.v ===== *)
(** * Concrete runs of the repository, the retry policy and the manager

    Each example instantiates a theorem of [RunsTheorems], [Retry] or
    [ManagerTheorems] at a concrete repository and evaluates the definitions there. *)
From S2P Require Import Prelude PyDict PyText Protocol Domain Sha256 Runs RunsFacts RunsTheorems Retry Manager ManagerTheorems.
Open Scope list_scope.

(** A float text for the examples: no example holds a float. *)
Definition no_floats : PyFloat := fun _ _ => "0.5"%string.
#[local] Existing Instance no_floats.
Definition at_noon : clock := fun i => (1700000000000000 + Z.of_nat i)%Z.

(** A repository with run 7 dispatched and its attempt 9 running under [runner]. *)
Definition demo_ops : list repo_op :=
  [OpCreate at_noon 7%N Engine.HTTP [("a", PInt 1)] (Some " key "%string);
   OpTransition at_noon 7%N RunState.QUEUED;
   OpTransition at_noon 7%N RunState.DISPATCHING].
Definition demo_started : list repo_op :=
  demo_ops ++ [OpBeginAttempt at_noon 7%N 9%N "runner" 60].

Definition demo : RunRepository.t := run_ops demo_ops RunRepository.init.
Definition demo_running : RunRepository.t := run_ops demo_started RunRepository.init.

Lemma run_ops_reachable `{PyFloat} ops s : reachable s -> all_fresh ops s -> reachable (run_ops ops s).
Proof.
  revert s. induction ops as [|o ops IH]; intros s Hs; [done |].
  intros [Hf Hr]. simpl. apply IH; [by constructor | done].
Qed.

Lemma demo_reachable : reachable demo.
Proof. apply run_ops_reachable; [constructor |]. vm_compute. repeat split. Qed.

Lemma demo_running_reachable : reachable demo_running.
Proof. apply run_ops_reachable; [constructor |]. vm_compute. repeat split. Qed.

Lemma reachable_repository_wf_witness : wf demo_running.
Proof. apply (reachable_repository_wf demo_running), demo_running_reachable. Defined.

Lemma repository_history_append_only_witness :
  evolves demo (run_ops [OpCancel at_noon 7%N] demo).
Proof.
  apply (repository_history_append_only demo [OpCancel at_noon 7%N] demo_reachable).
  vm_compute. repeat split.
Defined.

(** Creating again under the same key and request returns the stored run. *)
Lemma create_or_get_idempotent_witness :
  exists r', RunRepository.create_or_get at_noon 8%N Engine.HTTP [("a", PInt 1)] (Some "key"%string)
    demo = (Ok (r', true), demo) /\ RunRecord.id r' = 7%N.
Proof.
  destruct (RunRepository.create_or_get at_noon 7%N Engine.HTTP [("a", PInt 1)]
    (Some " key "%string) RunRepository.init) as [[[r b]|e] s1] eqn:E;
    [| exfalso; revert E; vm_compute; discriminate].
  assert (RunRecord.id r = 7%N) as <- by (revert E; vm_compute; by intros [= <- _ _]).
  replace demo with (run_ops [OpTransition at_noon 7%N RunState.QUEUED;
    OpTransition at_noon 7%N RunState.DISPATCHING] s1) by (revert E; vm_compute; by intros [= _ _ <-]).
  eapply (create_or_get_idempotent at_noon 7%N Engine.HTTP [("a", PInt 1)] " key "%string
    RunRepository.init r b s1); [constructor | reflexivity | exact E | discriminate | | reflexivity | reflexivity].
  revert E. vm_compute. intros [= _ _ <-]. repeat split.
Defined.

Definition demo_event : EventEnvelope.t :=
  EventEnvelope.mk 7%N 9%N Engine.HTTP 20%N 1 5 EventType.LOG [("message", PStr "hi")].
Definition demo_event2 : EventEnvelope.t :=
  EventEnvelope.mk 7%N 9%N Engine.HTTP 21%N 2 6 EventType.LOG [("message", PStr "ho")].

(** Delivering an event again after another one stores nothing. *)
Lemma append_event_exactly_once_witness :
  exists x s1, RunRepository.append_event demo_event demo_running = (Ok x, s1)
    /\ RunRepository.append_event demo_event (run_ops [OpAppendEvent demo_event2] s1)
       = (Ok x, run_ops [OpAppendEvent demo_event2] s1).
Proof.
  destruct (RunRepository.append_event demo_event demo_running) as [[x|e] s1] eqn:E;
    [| exfalso; revert E; vm_compute; discriminate].
  exists x, s1. split; [reflexivity |].
  apply (append_event_exactly_once demo_event demo_running x s1 [OpAppendEvent demo_event2] demo_event2
           demo_running_reachable E); [reflexivity |].
  revert E. vm_compute. intros [= _ <-]. repeat split.
Defined.

Definition demo_events : RunRepository.t := run_ops [OpAppendEvent demo_event] demo_running.

Lemma demo_events_reachable : reachable demo_events.
Proof. apply run_ops_reachable; [apply demo_running_reachable |]. vm_compute. repeat split. Qed.

(** Listing after the last cursor seen gives the one new event. *)
Lemma list_events_resumable_witness :
  exists old new all,
    RunRepository.list_events 7%N 0 (run_ops [OpAppendEvent demo_event2] demo_events)
      = (Ok all, run_ops [OpAppendEvent demo_event2] demo_events)
    /\ all = old ++ new /\ length old = 1%nat /\ length new = 1%nat.
Proof.
  destruct (RunRepository.list_events 7%N 0 demo_events) as [[old|e] s1] eqn:E1;
    [| exfalso; revert E1; vm_compute; discriminate].
  assert (last_cursor 0 old = 1%Z /\ length old = 1%nat) as [Hc Hl]
    by (revert E1; vm_compute; by intros [= <- _]).
  set (s' := run_ops [OpAppendEvent demo_event2] demo_events).
  destruct (RunRepository.list_events 7%N 1 s') as [[new|e] s2] eqn:E2;
    [| exfalso; revert E2; vm_compute; discriminate].
  destruct (RunRepository.list_events 7%N 0 s') as [[all|e] s3] eqn:E3;
    [| exfalso; revert E3; vm_compute; discriminate].
  assert (s1 = demo_events) as -> by (revert E1; vm_compute; by intros [= _ <-]).
  assert (s2 = s') as -> by (revert E2; vm_compute; by intros [= _ <-]).
  assert (s3 = s') as -> by (revert E3; vm_compute; by intros [= _ <-]).
  exists old, new, all. split; [reflexivity |].
  assert (length new = 1%nat) as Hn by (revert E2; vm_compute; by intros [= <-]).
  assert (all_fresh [OpAppendEvent demo_event2] demo_events) as Hf by (vm_compute; repeat split).
  rewrite <- Hc in E2.
  split_and!; [| done | done].
  apply (list_events_resumable demo_events [OpAppendEvent demo_event2] 7%N 0 old new all
    demo_events_reachable Hf E1 E2 E3).
Defined.

(** A minute and a half later the lease of attempt 9 has expired and the run fails. *)
Lemma expire_attempt_leases_exact_witness :
  exists l s', RunRepository.expire_attempt_leases at_noon (Some 1700000090000000%Z) demo_running
    = (Ok l, s') /\ map AttemptRecord.id l = [9%N].
Proof.
  destruct (expire_attempt_leases_exact at_noon (Some 1700000090000000%Z) demo_running
    demo_running_reachable) as (l & s' & E & Hl & _).
  - intros i a Ha _ r. apply elem_of_items in Ha.
    destruct (items (RunRepository._attempts demo_running)) as [|[j b] [|p l]] eqn:Ei;
      [exfalso; revert Ei; vm_compute; discriminate | | exfalso; revert Ei; vm_compute; discriminate].
    apply list_elem_of_singleton in Ha as [= -> ->].
    assert (AttemptRecord.run_id b = 7%N) as -> by (revert Ei; vm_compute; by intros [= _ <-]).
    vm_compute. intros [= <-]. discriminate.
  - exists l, s'. split; [exact E |]. rewrite Hl. reflexivity.
Defined.

(** ** A task and its manager *)

Definition demo_policy : RetryPolicy.t :=
  RetryPolicy.mk 3 [ResultOutcome.INFRA_ERROR; ResultOutcome.TIMED_OUT] 2 60 false.
Definition demo_task : TaskEnvelope.t :=
  TaskEnvelope.mk 7%N 9%N Engine.HTTP 30%N 31%N 32%N "key" 0 100 "http"
    [("request", PDict [("method", PStr "GET")])] None None None [] None None []
    (ExecutionPolicy.mk [] [] [] [] demo_policy).
Definition demo_result (o : ResultOutcome.t) : ResultEnvelope.t :=
  ResultEnvelope.mk 7%N 9%N Engine.HTTP o 10 3 [("status", PInt 200)].

(** The third attempt of three is not retried; the second is, after four seconds. *)
Lemma decide_retry_correct_witness :
  RetryPolicy.validate demo_policy = Ok demo_policy
  /\ RetryDecision.should_retry (decide_retry demo_task (demo_result ResultOutcome.INFRA_ERROR) 2) = true
  /\ RetryDecision.delay_seconds (decide_retry demo_task (demo_result ResultOutcome.INFRA_ERROR) 2) = 4%Z
  /\ (0 <= RetryDecision.delay_seconds
             (decide_retry demo_task (demo_result ResultOutcome.INFRA_ERROR) 2) <= 600)%Z.
Proof.
  split; [reflexivity |]. split; [reflexivity |]. split; [reflexivity |].
  apply (decide_retry_correct demo_task (demo_result ResultOutcome.INFRA_ERROR) 2 3); [reflexivity | lia].
Defined.

(** An executor that delivers an event and then returns [o]. *)
Definition demo_manager (o : ResultOutcome.t) (retry : option (uuid -> Z -> res unit)) : RunnerManager :=
  mkManager (fun _ => Emit demo_event (fun _ => Return (demo_result o))) "runner" 60 None retry None.

Lemma demo_collaborators o retry : collaborators_good (demo_manager o retry).
Proof. split; intros; discriminate. Qed.

Lemma demo_frame o retry : collector_frame (demo_manager o retry).
Proof. intros f t e w Hf. discriminate Hf. Qed.

(** Another thread cancels the run while the executor works. *)
Definition demo_world : World :=
  mkWorld _ demo [[]; []; []; []; [OpCancel at_noon 7%N]] (fun _ => at_noon) 0.

Lemma execute_reports_stored_attempt_witness :
  exists x w', execute (demo_manager ResultOutcome.SUCCEEDED None) demo_task demo_world = (Ok x, w')
    /\ ResultEnvelope.outcome x = ResultOutcome.CANCELLED
    /\ settled demo_task x (repo w').
Proof.
  assert (match fst (execute (demo_manager ResultOutcome.SUCCEEDED None) demo_task demo_world) with
          | Ok x => ResultEnvelope.outcome x = ResultOutcome.CANCELLED
          | Err _ => False
          end) as Ho by (vm_compute; reflexivity).
  destruct (execute (demo_manager ResultOutcome.SUCCEEDED None) demo_task demo_world)
    as [r w'] eqn:E.
  destruct (execute_reports_stored_attempt _ (demo_collaborators ResultOutcome.SUCCEEDED None)
    demo_task demo_world r w' (reachable_wf _ demo_reachable) E) as [_ Hs].
  destruct r as [x|e]; [| contradiction Ho].
  exists x, w'. split; [reflexivity |]. split; [exact Ho | apply Hs; reflexivity].
Defined.

(** A clock that stands still. *)
Definition still : nat -> clock := fun _ _ => 1700000000000000%Z.

Lemma demo_ready o retry :
  ready (demo_manager o retry) demo_task (mkWorld _ demo [] still 0).
Proof.
  split; try reflexivity.
  - apply reachable_wf, demo_reachable.
  - vm_compute. eexists. split; [reflexivity |]. by split.
  - split; [reflexivity | vm_compute; discriminate].
Qed.

(** A timed-out first attempt is retried when there is a scheduler. *)
Lemma execute_ends_run_witness :
  let m := demo_manager ResultOutcome.TIMED_OUT (Some (fun _ _ => Ok tt)) in
  ready m demo_task (mkWorld _ demo [] still 0)
  /\ exists r out w', execute m demo_task (mkWorld _ demo [] still 0) = (out, w')
     /\ run_in demo_task (repo w') (final_run_state m demo_task r 1).
Proof.
  intros m. split; [apply demo_ready |].
  destruct (execute_ends_run m (demo_collaborators _ _) (demo_frame _ _) demo_task _ (demo_ready _ _))
    as (r & out & w' & E & _ & _ & _ & R & _).
  exists r, out, w'. split; [exact E | exact R].
Defined.

(** The demo attempt running and its run cancelled meanwhile. *)
Definition demo_cancelling : RunRepository.t :=
  run_ops (demo_started ++ [OpTransitionAttempt at_noon 9%N AttemptState.PREPARING;
    OpTransitionAttempt at_noon 9%N AttemptState.RUNNING; OpCancel at_noon 7%N]) RunRepository.init.

Lemma demo_quiet :
  quiet demo_task RunState.CANCELLING AttemptState.RUNNING 1 (mkWorld _ demo_cancelling [] still 0).
Proof.
  split; try reflexivity.
  - apply reachable_wf, run_ops_reachable; [constructor |]. vm_compute. repeat split.
  - vm_compute. eexists. by split.
  - vm_compute. eexists. by split.
Qed.

(** A timed-out attempt of the cancelled run: the manager asks for a retry, raises, and
    the run stays [CANCELLING]. *)
Lemma cancelled_execution_outcome_witness :
  let m := demo_manager ResultOutcome.TIMED_OUT (Some (fun _ _ => Ok tt)) in
  exists w', record_result m demo_task None (demo_result ResultOutcome.TIMED_OUT)
      (mkWorld _ demo_cancelling [] still 0) = (Err InvalidTransition, w')
    /\ run_in demo_task (repo w') RunState.CANCELLING.
Proof.
  intros m.
  destruct (cancelled_execution_outcome m (demo_collaborators _ _) (demo_frame _ _) demo_task 1 _ None
    (demo_result ResultOutcome.TIMED_OUT) demo_quiet eq_refl) as (_ & w' & E & _ & R).
  exists w'. split; [exact E | exact R].
Defined.
