(* ===== verification/Codecs.v ===== *)
(** * Reading identifiers, numbers and enumerations from text

    What the code calls on text that comes back from outside: [UUID(text)],
    [int(text, base)] and [SomeEnum(text)], each with its round trip. *)
From S2P Require Import Prelude PyText TextFacts Protocol.
From Stdlib Require Import Ascii.
Open Scope string_scope.
Open Scope list_scope.

(** ** [SomeEnum(text)] *)

Section enum.
  Context {A : Type} (all : list A) (value : A -> string).

Definition enum_of (s : string) : res A :=
  match List.find (fun a => bool_decide (value a = s)) all with
  | Some a => Ok a
  | None => Err (ValueError "not a valid member of the enumeration")
  end.

Lemma enum_of_value a : (forall b, value b = value a -> b = a) -> a ∈ all -> enum_of (value a) = Ok a.
Proof.
  intros Hinj Ha. unfold enum_of. destruct (List.find _ all) as [b|] eqn:E.
  - apply List.find_some in E as [_ E]. bool_prop. by rewrite (Hinj b).
  - exfalso. apply list_elem_of_In in Ha. pose proof (List.find_none _ _ E a Ha) as Hn. simpl in Hn. by bool_prop.
Qed.
End enum.

(** ** [int(text, base)] *)

Definition digit_value (c : ascii) : option Z :=
  let n := Z.of_N (code c) in
  (if (48 <=? n) && (n <=? 57) then Some (n - 48)
   else if (97 <=? n) && (n <=? 122) then Some (n - 87)
   else if (65 <=? n) && (n <=? 90) then Some (n - 55)
   else None)%Z.

(** Digits, with single underscores between them. *)
Fixpoint digits_of (base acc : Z) (after_digit : bool) (s : string) : option Z :=
  match s with
  | EmptyString => if after_digit then Some acc else None
  | String c r =>
      if is_underscore c then if after_digit then digits_of base acc false r else None
      else match digit_value c with
           | Some d => if (d <? base)%Z then digits_of base (acc * base + d) true r else None
           | None => None
           end
  end.

(** The optional [0x] of base 16, after which an underscore may stand. *)
Definition drop_base_prefix (base : Z) (s : string) : string :=
  match s with
  | String z (String x r) =>
      if (base =? 16)%Z && (code z =? 48)%N && ((code x =? 120)%N || (code x =? 88)%N)
      then match r with
           | String u r' => if is_underscore u then r' else r
           | EmptyString => r
           end
      else s
  | _ => s
  end.

Definition py_int (base : Z) (s : string) : res Z :=
  let '(sign, body) :=
    match strip s with
    | String c r => if (code c =? 45)%N then ((-1)%Z, r)
                    else if (code c =? 43)%N then (1%Z, r) else (1%Z, strip s)
    | EmptyString => (1%Z, EmptyString)
    end in
  match digits_of base 0 false (drop_base_prefix base body) with
  | Some n => Ok (sign * n)%Z
  | None => Err (ValueError "invalid literal for int()")
  end.

(** ** [UUID(text)] *)

(** [s.replace(old, "")]; [skip] characters of a match are still to be dropped. *)
Fixpoint remove_all (old : string) (skip : nat) (s : string) : string :=
  match s with
  | EmptyString => EmptyString
  | String c r =>
      match skip with
      | S k => remove_all old k r
      | O => if String.prefix old s then remove_all old (String.length old - 1) r
             else String c (remove_all old 0 r)
      end
  end.

Definition is_brace (c : ascii) : bool := (code c =? 123)%N || (code c =? 125)%N.
Fixpoint drop_braces (s : string) : string :=
  match s with
  | String c r => if is_brace c then drop_braces r else s
  | EmptyString => EmptyString
  end.
Fixpoint drop_last_braces (s : string) : string :=
  match s with
  | EmptyString => EmptyString
  | String c r =>
      match drop_last_braces r with
      | EmptyString => if is_brace c then EmptyString else String c EmptyString
      | r' => String c r'
      end
  end.

Definition badly_formed : exn := ValueError "badly formed hexadecimal UUID string".

Definition uuid_of_str (s : string) : res uuid :=
  let hex := remove_all "uuid:" 0 (remove_all "urn:" 0 s) in
  let hex := remove_all "-" 0 (drop_last_braces (drop_braces hex)) in
  if negb (String.length hex =? 32)%nat then Err badly_formed
  else
    let? n := py_int 16 hex in
    if ((0 <=? n) && (n <? 2 ^ 128))%Z then Ok (Z.to_N n)
    else Err (ValueError "int is out of range (need a 128-bit value)").

(** ** Reading back what was printed *)

Definition is_hex (c : ascii) : bool :=
  let n := code c in ((48 <=? n) && (n <=? 57) || (97 <=? n) && (n <=? 102))%N.

Lemma is_hex_digit n : (n < 16)%N -> all_chars is_hex (hex_digit n) = true.
Proof.
  intros Hn. unfold hex_digit, chr, is_hex, code. simpl. rewrite N_ascii_embedding.
  - destruct (N.ltb_spec n 10); rewrite andb_true_r; apply orb_true_iff;
      [left | right]; apply andb_true_iff; rewrite !N.leb_le; lia.
  - destruct (N.ltb_spec n 10); lia.
Qed.

Lemma is_hex_hex d n : all_chars is_hex (hex d n) = true.
Proof.
  revert n. induction d as [|d IH]; intros n; [done |].
  cbn [hex]. rewrite all_chars_app, IH, is_hex_digit; [done |]. by apply N.mod_lt.
Qed.

Lemma prefix_head old c s x r :
  old = String x r -> x <> c -> String.prefix old (String c s) = false.
Proof. intros -> Hx. simpl. destruct (ascii_dec x c); done. Qed.

(** Nothing to remove where the first character of the pattern does not occur. *)
Lemma remove_all_none x r s :
  all_chars (fun c => negb (bool_decide (c = x))) s = true -> remove_all (String x r) 0 s = s.
Proof.
  induction s as [|c s IH]; [done |]. cbn [all_chars]. rewrite andb_true_iff. intros [Hc Hs].
  bool_prop. cbn [remove_all]. erewrite prefix_head; [by rewrite IH | done | congruence].
Qed.

Lemma remove_all_char x s t :
  all_chars (fun c => negb (bool_decide (c = x))) s = true ->
  remove_all (String x EmptyString) 0 (s ++ t)%string
  = (s ++ remove_all (String x EmptyString) 0 t)%string.
Proof.
  induction s as [|c s IH]; [done |]. cbn [all_chars]. rewrite andb_true_iff. intros [Hc Hs].
  bool_prop. rewrite !append_cons. cbn [remove_all].
  erewrite prefix_head; [by rewrite IH | done | congruence].
Qed.

Lemma drop_braces_none s :
  all_chars (fun c => negb (is_brace c)) s = true -> drop_last_braces (drop_braces s) = s.
Proof.
  intros Hs. assert (drop_braces s = s) as ->.
  { destruct s as [|c s]; [done |]. simpl in *. bool_prop. by rewrite H. }
  induction s as [|c s IH]; [done |]. simpl in *. bool_prop. rewrite IH by done.
  destruct s; [by rewrite H | done].
Qed.

Lemma strip_none s : all_chars (fun c => negb (is_space c)) s = true -> strip s = s.
Proof.
  intros Hs. unfold strip. assert (lstrip s = s) as ->.
  { destruct s as [|c s]; [done |]. simpl in *. bool_prop. by rewrite H. }
  induction s as [|c s IH]; [done |]. simpl in *. bool_prop. rewrite IH by done.
  destruct s; [by rewrite H | done].
Qed.

Lemma digit_value_hex n :
  (n < 16)%N -> exists c, hex_digit n = String c EmptyString /\ is_underscore c = false
                          /\ digit_value c = Some (Z.of_N n).
Proof.
  intros Hn. eexists. split; [reflexivity |].
  destruct n as [|p]; [done |].
  do 4 (destruct p as [p|p|]; [| | by vm_compute]); exfalso; lia.
Qed.

Lemma digits_of_hex_app d n acc after s :
  digits_of 16 acc after (hex d n ++ s)%string
  = match d with
    | O => digits_of 16 acc after s
    | S _ => digits_of 16 (acc * 16 ^ Z.of_nat d + Z.of_N (n mod 16 ^ N.of_nat d))%Z true s
    end.
Proof.
  revert n acc after s. induction d as [|d IH]; intros n acc after s; [done |].
  cbn [hex]. rewrite str_app_assoc, IH.
  destruct (digit_value_hex (n mod 16)) as (c & -> & Hu & Hv); [by apply N.mod_lt |].
  rewrite append_cons, append_empty.
  assert (Z.of_N (n mod 16) < 16)%Z as Hlt by (pose proof (N.mod_lt n 16); lia).
  assert (forall a b, digits_of 16 a b (String c s) = digits_of 16 (a * 16 + Z.of_N (n mod 16)) true s)
    as Hstep.
  { intros a b. cbn [digits_of]. rewrite Hu, Hv. by rewrite (proj2 (Z.ltb_lt _ _) Hlt). }
  destruct d as [|d].
  - rewrite Hstep. do 2 f_equal.
  - rewrite Hstep. f_equal. rewrite !Nat2N.inj_succ, (N.pow_succ_r' 16 (N.succ _)).
    rewrite N.Div0.mod_mul_r, N2Z.inj_add, N2Z.inj_mul.
    rewrite !Nat2Z.inj_succ, (Z.pow_succ_r 16 (Z.succ _)) by lia. lia.
Qed.

Lemma py_int_hex d n :
  (0 < d)%nat -> py_int 16 (hex d n) = Ok (Z.of_N (n mod 16 ^ N.of_nat d)).
Proof.
  intros Hd. unfold py_int. rewrite strip_none.
  2: { apply (all_chars_impl is_hex); [| apply is_hex_hex].
       intros [[] [] [] [] [] [] [] []]; done. }
  pose proof (is_hex_hex d n) as Hh. pose proof (hex_length d n) as Hl.
  assert (forall c s, hex d n = String c s ->
    (code c =? 45)%N = false /\ (code c =? 43)%N = false) as Hsign.
  { intros c s E. rewrite E in Hh. simpl in Hh. apply andb_true_iff in Hh as [Hc _].
    by destruct c as [[] [] [] [] [] [] [] []]. }
  assert (drop_base_prefix 16 (hex d n) = hex d n) as Hp.
  { unfold drop_base_prefix. destruct (hex d n) as [|z [|x r]] eqn:E; [done | done |].
    simpl in Hh. apply andb_true_iff in Hh as [_ Hx]. apply andb_true_iff in Hx as [Hx _].
    assert (((code x =? 120)%N || (code x =? 88)%N) = false) as ->
      by by destruct x as [[] [] [] [] [] [] [] []].
    by rewrite andb_false_r. }
  destruct (hex d n) as [|c s] eqn:E; [simpl in Hl; lia |].
  destruct (Hsign c s eq_refl) as [-> ->]. rewrite <- E in Hp |- *. rewrite Hp.
  pose proof (digits_of_hex_app d n 0 false EmptyString) as Hdig. rewrite str_app_nil in Hdig.
  rewrite Hdig. destruct d; [lia |]. simpl digits_of. f_equal. lia.
Qed.

Lemma hex_app d1 d2 n : (hex d1 (n / 16 ^ N.of_nat d2) ++ hex d2 n)%string = hex (d1 + d2) n.
Proof.
  revert n. induction d2 as [|d2 IH]; intros n.
  { simpl. by rewrite N.div_1_r, str_app_nil, Nat.add_0_r. }
  rewrite Nat.add_succ_r. cbn [hex]. rewrite <- IH, !str_app_assoc.
  rewrite Nat2N.inj_succ, N.pow_succ_r', <- N.Div0.div_div. done.
Qed.

(** [UUID(str(u)) == u]. *)
Lemma uuid_of_str_str u : (u < 2 ^ 128)%N -> uuid_of_str (uuid_str u) = Ok u.
Proof.
  intros Hu. unfold uuid_of_str.
  assert (all_chars (fun c => is_hex c || (code c =? 45)%N) (uuid_str u) = true) as Hc.
  { assert (forall d n, all_chars (fun c => is_hex c || (code c =? 45)%N) (hex d n) = true) as Hd.
    { intros d n. apply (all_chars_impl is_hex); [by intros c -> | apply is_hex_hex]. }
    unfold uuid_str. cbn [PyText.join]. by rewrite !all_chars_app, !Hd. }
  assert (forall r, remove_all (String "u" r) 0 (uuid_str u) = uuid_str u) as Hurn.
  { intros r. apply remove_all_none. eapply all_chars_impl; [| exact Hc].
    by intros [[] [] [] [] [] [] [] []]. }
  rewrite !Hurn.
  rewrite drop_braces_none by (eapply all_chars_impl; [| exact Hc]; by intros [[] [] [] [] [] [] [] []]).
  assert (remove_all "-" 0 (uuid_str u) = hex 32 u) as ->.
  { assert (forall d n, all_chars (fun c => negb (bool_decide (c = "-"%char))) (hex d n) = true) as Hd.
    { intros d n. apply (all_chars_impl is_hex); [| apply is_hex_hex].
      by intros [[] [] [] [] [] [] [] []]. }
    assert (forall s, remove_all "-" 0 ("-" ++ s)%string = remove_all "-" 0 s) as Hdash.
    { intros s. rewrite append_cons, append_empty. cbn [remove_all]. simpl. by destruct s. }
    unfold uuid_str. cbn [PyText.join].
    rewrite !remove_all_char, !Hdash, !remove_all_char, !Hdash, !remove_all_char, !Hdash,
      !remove_all_char, !Hdash by apply Hd.
    rewrite remove_all_none by apply Hd.
    rewrite (hex_app 4 12 u : (hex 4 (u / 2 ^ 48) ++ hex 12 u = hex 16 u)%string).
    rewrite (hex_app 4 16 u : (hex 4 (u / 2 ^ 64) ++ hex 16 u = hex 20 u)%string).
    rewrite (hex_app 4 20 u : (hex 4 (u / 2 ^ 80) ++ hex 20 u = hex 24 u)%string).
    by rewrite (hex_app 8 24 u : (hex 8 (u / 2 ^ 96) ++ hex 24 u = hex 32 u)%string). }
  rewrite hex_length. simpl negb. rewrite py_int_hex by lia.
  change (16 ^ N.of_nat 32)%N with (2 ^ 128)%N. rewrite N.mod_small by done. cbn [rbind].
  assert (((0 <=? Z.of_N u) && (Z.of_N u <? 2 ^ 128))%Z = true) as ->.
  { apply andb_true_iff. rewrite Z.leb_le, Z.ltb_lt. lia. }
  by rewrite N2Z.id.
Qed.
