(* ===== verification/Tables.v ===== *)
(** * Database tables

    The SQL repositories talk to the database through SQLAlchemy, which is a parameter:
    [Table] lists the calls they make on a table, [TableLaws] what they rely on (the
    primary key and the unique constraints are checked when a row is flushed, other rows
    are left alone).  [Model] is what a model class declares.  [Driver] is what a
    [DateTime] column gives back. *)
From S2P Require Import Prelude PyDict.
Open Scope list_scope.

(** ** What a model class declares *)

Class Model (Row Key : Type) `{EqDecision Key} := {
  pk : Row -> Key;
  (** the unique constraints: two rows that may not both be stored *)
  uniques : Row -> Row -> bool;
  (** the value of an autoincrement column *)
  auto_value : Row -> Z;
  assign_auto : Z -> Row -> Row
}.

(** The new row [r] violates a constraint against the stored row [y]. *)
Definition clash `{Model Row Key} (y r : Row) : bool := bool_decide (pk y = pk r) || uniques y r.

(** ** The calls on a table *)

Class Table (Row : Type) := {
  table : Type;
  no_rows : table;
  (** [session.scalars(select(Model)).all()] *)
  select : table -> list Row;
  (** [session.add(model); session.flush()]: the row as stored *)
  insert_row : Row -> table -> res (Row * table);
  (** attributes of a loaded model assigned, then flushed *)
  update_row : Row -> table -> table
}.
Arguments table Row {_}.

Class TableLaws (Row : Type) {Key : Type} `{Model Row Key} `{!Table Row} : Prop := {
  select_no_rows : select (Row:=Row) no_rows = [];
  select_keys : forall t : table Row, NoDup (map pk (select t));
  insert_clash : forall (r : Row) t, (exists y, y ∈ select t /\ clash y r = true) ->
    insert_row r t = Err IntegrityError;
  insert_fresh : forall (r : Row) t, (forall y, y ∈ select t -> clash y r = false) ->
    exists n t', insert_row r t = Ok (assign_auto n r, t') /\ (0 < n)%Z
      /\ (forall y, y ∈ select t -> (auto_value y < n)%Z)
      /\ (forall x, x ∈ select t' <-> x = assign_auto n r \/ x ∈ select t);
  select_update : forall (r : Row) t x,
    x ∈ select (update_row r t) <->
    (x = r /\ exists y, y ∈ select t /\ pk y = pk r) \/ (x ∈ select t /\ pk x <> pk r)
}.

(** ** What the queries of the repositories compute *)

(** [session.scalar(select(Model).where(p))]; [session.get(Model, key)] is the case of
    the primary key. *)
Definition select_first {Row} `{!Table Row} (p : Row -> bool) (t : table Row) : option Row :=
  List.find p (select t).
Definition get_row `{Model Row Key} `{!Table Row} (k : Key) (t : table Row) : option Row :=
  select_first (fun r => bool_decide (pk r = k)) t.
(** [session.scalars(select(Model).where(p).order_by(...)).all()]. *)
Definition select_where {Row} `{!Table Row} (p : Row -> bool) (leb : Row -> Row -> bool)
    (t : table Row) : list Row :=
  py_sorted leb (List.filter p (select t)).

(** [with session.begin(): body]: committed, or rolled back by an exception. *)
Definition transaction {S A} (body : M S A) : M S A := fun s =>
  match body s with
  | (Err e, _) => (Err e, s)
  | r => r
  end.

(** What other transactions commit at this point, as far as this one sees it. *)
Definition committed {S} (others : S -> S) : M S unit := fun s => (Ok tt, others s).

(** ** Time stamps *)

(** A [DateTime(timezone=True)] column returns a naive or an aware value: the wall
    clock and the offset of its zone. *)
Class Driver := {
  returned : datetime -> Z * option Z;
  returned_instant : forall d,
    match (returned d).2 with None => (returned d).1 | Some o => (returned d).1 - o end%Z = d
}.

(** ** Consequences of the laws *)

Section laws.
  Context `{TableLaws Row}.
  Implicit Types (t : table Row) (r : Row).

Lemma select_first_Some {R} `{!Table R} (p : R -> bool) (t : table R) (r : R) :
  select_first p t = Some r -> r ∈ select t /\ p r = true.
Proof. intros [? ?]%List.find_some. by rewrite list_elem_of_In. Qed.

Lemma select_first_None {R} `{!Table R} (p : R -> bool) (t : table R) :
  select_first p t = None <-> forall r : R, r ∈ select t -> p r = false.
Proof.
  unfold select_first. setoid_rewrite list_elem_of_In. split; [apply List.find_none |].
  intros Hn. destruct (List.find p (select t)) as [r|] eqn:E; [| done].
  apply List.find_some in E as [Hr Hp]. by rewrite Hn in Hp.
Qed.

Lemma rows_by_key t r r' : r ∈ select t -> r' ∈ select t -> pk r = pk r' -> r = r'.
Proof.
  pose proof (select_keys t) as Hn. induction (select t) as [|x l IH]; [by intros ?%elem_of_nil |].
  cbn [map] in Hn. apply NoDup_cons in Hn as [Hx Hl].
  intros [->|Hr]%elem_of_cons [->|Hr']%elem_of_cons Hk; [done | | | by apply IH].
  - exfalso. apply Hx. apply elem_of_map. eauto.
  - exfalso. apply Hx. apply elem_of_map. eauto.
Qed.

Lemma get_row_Some t k r : get_row k t = Some r <-> r ∈ select t /\ pk r = k.
Proof.
  unfold get_row. split.
  - intros [? Hk]%select_first_Some. by apply bool_decide_eq_true in Hk.
  - intros [Hr Hk]. destruct (select_first _ t) as [r'|] eqn:E.
    + apply select_first_Some in E as [? E]. apply bool_decide_eq_true in E.
      f_equal. apply (rows_by_key t); congruence.
    + rewrite select_first_None in E. specialize (E r Hr). by apply bool_decide_eq_false in E.
Qed.

Lemma get_row_None t k : get_row k t = None <-> forall r, r ∈ select t -> pk r <> k.
Proof.
  unfold get_row. rewrite select_first_None. split; intros Hn r Hr; specialize (Hn r Hr).
  - by apply bool_decide_eq_false in Hn.
  - by apply bool_decide_eq_false.
Qed.
End laws.

(** ** A table kept in a dict by primary key *)

Section pydict_table.
  Context `{Model Row Key}.
  Hypothesis assign_fresh : forall n (r y : Row),
    pk y <> pk r -> (auto_value y < n)%Z -> pk y <> pk (assign_auto n r).

Record keyed_table := {
  rows : pydict Key Row;
  rows_keyed : forall k r, rows !! k = Some r -> pk r = k
}.

Definition next_auto (t : keyed_table) : Z :=
  (1 + foldr (fun r m => Z.max (auto_value r) m) 0 (values (rows t)))%Z.

Lemma next_auto_gt t y : y ∈ values (rows t) -> (auto_value y < next_auto t)%Z.
Proof.
  unfold next_auto. induction (values (rows t)) as [|x l IH]; [by intros ?%elem_of_nil |].
  intros [->|Hy]%elem_of_cons; simpl; [lia |]. specialize (IH Hy). simpl in IH. lia.
Qed.

Lemma insert_keyed (t : keyed_table) (r : Row) k x :
  <[pk r := r]> (rows t) !! k = Some x -> pk x = k.
Proof. rewrite dict_lookup_insert. case_decide; [by intros [= <-] | apply (rows_keyed t)]. Qed.

Definition put_row (r : Row) (t : keyed_table) : keyed_table :=
  {| rows := <[pk r := r]> (rows t); rows_keyed := insert_keyed t r |}.

Lemma empty_keyed k (r : Row) : (∅ : pydict Key Row) !! k = Some r -> pk r = k.
Proof. by rewrite dict_lookup_empty. Qed.

#[export] Instance dict_table : Table Row := {|
  table := keyed_table;
  no_rows := {| rows := ∅; rows_keyed := empty_keyed |};
  select t := values (rows t);
  insert_row r t :=
    if existsb (fun y => clash y r) (values (rows t)) then Err IntegrityError
    else let r' := assign_auto (next_auto t) r in Ok (r', put_row r' t);
  update_row r t := if has_key (pk r) (rows t) then put_row r t else t
|}.

Lemma elem_of_rows (t : keyed_table) x : x ∈ values (rows t) <-> rows t !! pk x = Some x.
Proof.
  rewrite elem_of_values. split; [| by eauto].
  intros [k Hk]. by rewrite (rows_keyed t _ _ Hk).
Qed.

Lemma elem_of_put_row (t : keyed_table) r x :
  x ∈ values (rows (put_row r t)) <-> x = r \/ (x ∈ values (rows t) /\ pk x <> pk r).
Proof.
  rewrite !elem_of_rows. simpl. rewrite dict_lookup_insert. case_decide as E.
  - split; [by intros [= ->]; left | intros [->|[_ ?]]; [done | congruence]].
  - split; [by right | by intros [->|[? _]]].
Qed.

Lemma dict_table_laws : TableLaws Row.
Proof.
  split.
  - done.
  - intros t. simpl.
    assert (map pk (values (rows t)) = keys (rows t)) as ->; [| apply keys_nodup].
    unfold values, keys. assert (forall kr, kr ∈ items (rows t) -> pk kr.2 = kr.1) as Hk.
    { intros [k r] Hr%elem_of_items. by apply (rows_keyed t). }
    induction (items (rows t)) as [|[k r] l IH]; [done |]. simpl.
    f_equal; [by apply (Hk (k, r)); left | apply IH; intros kr Hin; apply Hk; by right].
  - intros r t (y & Hy & Hc). simpl. replace (existsb _ _) with true; [done |].
    symmetry. apply existsb_exists. exists y. by rewrite <- list_elem_of_In.
  - intros r t Hc. simpl. replace (existsb _ _) with false.
    2: { symmetry. apply not_true_iff_false. rewrite existsb_exists.
         intros (y & Hy & E). rewrite <- list_elem_of_In in Hy. by rewrite Hc in E. }
    exists (next_auto t), (put_row (assign_auto (next_auto t) r) t).
    split; [done |]. split; [| split].
    + unfold next_auto. induction (values (rows t)); simpl; lia.
    + apply next_auto_gt.
    + intros x. rewrite elem_of_put_row. split; [intros [?|[? _]]; auto |].
      intros [?|Hx]; [by left |]. right. split; [done |].
      apply assign_fresh; [| by apply next_auto_gt].
      specialize (Hc x Hx). unfold clash in Hc. bool_prop. done.
  - intros r t x. simpl. destruct (has_key (pk r) (rows t)) eqn:E.
    + rewrite elem_of_put_row. apply has_key_true in E as [y Hy].
      split; [intros [->|?]; [left | by right] | intros [[-> _]|?]; auto].
      split; [done |]. exists y. pose proof (rows_keyed t _ _ Hy) as Hk. split; [| done].
      apply elem_of_rows. by rewrite Hk.
    + apply has_key_false in E. split.
      * intros Hx. right. split; [done |]. intros Hk. apply elem_of_rows in Hx. congruence.
      * intros [(-> & y & Hy & Hk)|[? _]]; [| done]. apply elem_of_rows in Hy. congruence.
Qed.
End pydict_table.

(** ** Ordered listings

    A table and a collection of records that stand for each other, listed in orders
    that agree, give lists that agree element by element. *)

Section listing.
  Context {Row Rec : Type} (P : Row -> Rec -> Prop) (leb : Row -> Row -> bool) (K : Rec -> Z).

Lemma insert_sorted_rel m r ms rs :
  Forall2 P ms rs -> P m r ->
  (forall m' r', m' ∈ ms -> r' ∈ rs -> P m' r' -> leb m m' = (K r <=? K r')%Z) ->
  Forall2 P (insert_sorted leb m ms) (insert_sorted (by_key K) r rs).
Proof.
  intros H Hp. induction H as [|m' r' ms rs Hp' H IH]; intros Hk; simpl; [by repeat constructor |].
  rewrite (Hk m' r') by (done || by left). unfold by_key at 1. case_match.
  - by repeat constructor.
  - constructor; [done |]. apply IH. intros. apply Hk; [by right | by right | done].
Qed.

Lemma py_sorted_rel ms rs :
  Forall2 P ms rs ->
  (forall m r m' r', m ∈ ms -> r ∈ rs -> m' ∈ ms -> r' ∈ rs -> P m r -> P m' r' ->
     leb m m' = (K r <=? K r')%Z) ->
  Forall2 P (py_sorted leb ms) (py_sorted (by_key K) rs).
Proof.
  intros H. induction H as [|m r ms rs Hp H IH]; intros Hk; simpl; [constructor |].
  apply insert_sorted_rel; [| done |].
  - apply IH. intros. apply Hk; try done; by right.
  - intros m' r' Hm Hr Hp'. apply elem_of_py_sorted in Hm, Hr.
    apply Hk; try done; (by left) || (by right).
Qed.

Lemma listing_rel ms recs :
  NoDup ms -> NoDup recs ->
  (forall m, m ∈ ms -> exists r, r ∈ recs /\ P m r) ->
  (forall r, r ∈ recs -> exists m, m ∈ ms /\ P m r) ->
  (forall m m' r, m ∈ ms -> m' ∈ ms -> r ∈ recs -> P m r -> P m' r -> m = m') ->
  (forall m r r', m ∈ ms -> r ∈ recs -> r' ∈ recs -> P m r -> P m r' -> r = r') ->
  (forall m r m' r', m ∈ ms -> r ∈ recs -> m' ∈ ms -> r' ∈ recs -> P m r -> P m' r' ->
     leb m m' = (K r <=? K r')%Z) ->
  (forall r r', r ∈ recs -> r' ∈ recs -> K r = K r' -> r = r') ->
  Forall2 P (py_sorted leb ms) (py_sorted (by_key K) recs).
Proof.
  intros Nm Nr Hto Hfrom Hinj Hfun Hleb HK.
  assert (exists rs, Forall2 (fun m r => r ∈ recs /\ P m r) ms rs) as [rs Hrs].
  { clear Nm Hfrom Hinj Hfun Hleb. induction ms as [|m ms IH]; [by exists [] |].
    destruct (Hto m) as (r & ? & ?); [by left |]. destruct IH as [rs ?]; [intros; apply Hto; by right |].
    exists (r :: rs). by constructor. }
  assert (forall r, r ∈ rs -> r ∈ recs /\ exists m, m ∈ ms /\ P m r) as Hin.
  { intros r Hr. apply list_elem_of_lookup in Hr as [i Hi].
    destruct (Forall2_lookup_r _ _ _ _ _ Hrs Hi) as (m & Hm & ? & ?). split; [done |].
    exists m. split; [by apply list_elem_of_lookup_2 in Hm | done]. }
  assert (rs ≡ₚ recs) as Hperm.
  { apply NoDup_Permutation; [| done |].
    - apply NoDup_alt. intros i j r Hi Hj.
      destruct (Forall2_lookup_r _ _ _ _ _ Hrs Hi) as (m & Hm & Hr & Hp).
      destruct (Forall2_lookup_r _ _ _ _ _ Hrs Hj) as (m' & Hm' & _ & Hp').
      assert (m = m') as <-.
      { apply (Hinj m m' r); try done; by eapply list_elem_of_lookup_2. }
      exact (NoDup_lookup _ _ _ _ Nm Hm Hm').
    - intros r. split; [by intros [? _]%Hin |]. intros Hr. destruct (Hfrom r Hr) as (m & Hm & Hp).
      apply list_elem_of_lookup in Hm as [i Hi].
      destruct (Forall2_lookup_l _ _ _ _ _ Hrs Hi) as (r' & Hr' & ? & ?).
      apply list_elem_of_lookup_2 in Hi. rewrite (Hfun m r r') by done.
      by apply list_elem_of_lookup_2 in Hr'. }
  assert (py_sorted (by_key K) rs = py_sorted (by_key K) recs) as <-.
  { apply (strict_sorted_unique K).
    - apply py_sorted_strict; [by rewrite Hperm |]. intros x y. rewrite Hperm. auto.
    - apply py_sorted_strict; [done |]. auto.
    - intros x. rewrite !elem_of_py_sorted. by rewrite Hperm. }
  apply py_sorted_rel.
  - eapply Forall2_impl; [exact Hrs |]. by intros ? ? [_ ?].
  - intros m r m' r' ? Hr ? Hr'. apply Hleb; try done; by apply Hin.
Qed.
End listing.
