(* ===== verification/SqlRuns.v ===== *)
(** * The SQL run repository ([src/services/api/sql_repository.py], [models.py])

    The rows of the four tables and the methods of [SqlRunRepository] over a database
    of type [Database.t], whose tables are those of the class [Table].  A method is a
    transaction on it; where the code reads without a lock before it inserts,
    [others] is what other transactions commit in between. *)
From S2P Require Import Prelude PyDict PyText Protocol Domain Sha256 Runs Codecs Tables.
Open Scope string_scope.
Open Scope list_scope.

(** ** The values of the enumerations *)

Definition run_state_value (s : RunState.t) : string :=
  match s with
  | RunState.CREATED => "CREATED" | RunState.QUEUED => "QUEUED"
  | RunState.DISPATCHING => "DISPATCHING" | RunState.RUNNING => "RUNNING"
  | RunState.RETRY_WAIT => "RETRY_WAIT" | RunState.CANCELLING => "CANCELLING"
  | RunState.SUCCEEDED => "SUCCEEDED" | RunState.FAILED => "FAILED"
  | RunState.CANCELLED => "CANCELLED" | RunState.TIMED_OUT => "TIMED_OUT"
  | RunState.INFRA_ERROR => "INFRA_ERROR"
  end.
Definition run_states : list RunState.t :=
  [RunState.CREATED; RunState.QUEUED; RunState.DISPATCHING; RunState.RUNNING;
   RunState.RETRY_WAIT; RunState.CANCELLING; RunState.SUCCEEDED; RunState.FAILED;
   RunState.CANCELLED; RunState.TIMED_OUT; RunState.INFRA_ERROR].
Definition attempt_state_value (s : AttemptState.t) : string :=
  match s with
  | AttemptState.PENDING => "PENDING" | AttemptState.CLAIMED => "CLAIMED"
  | AttemptState.PREPARING => "PREPARING" | AttemptState.RUNNING => "RUNNING"
  | AttemptState.COLLECTING => "COLLECTING" | AttemptState.SUCCEEDED => "SUCCEEDED"
  | AttemptState.FAILED => "FAILED" | AttemptState.CANCELLED => "CANCELLED"
  | AttemptState.TIMED_OUT => "TIMED_OUT" | AttemptState.INFRA_ERROR => "INFRA_ERROR"
  | AttemptState.LOST => "LOST"
  end.
Definition attempt_states : list AttemptState.t :=
  [AttemptState.PENDING; AttemptState.CLAIMED; AttemptState.PREPARING; AttemptState.RUNNING;
   AttemptState.COLLECTING; AttemptState.SUCCEEDED; AttemptState.FAILED;
   AttemptState.CANCELLED; AttemptState.TIMED_OUT; AttemptState.INFRA_ERROR;
   AttemptState.LOST].
Definition engines : list Engine.t := [Engine.HTTP; Engine.PYTEST; Engine.PLAYWRIGHT].
Definition outcomes : list ResultOutcome.t :=
  [ResultOutcome.SUCCEEDED; ResultOutcome.FAILED; ResultOutcome.CANCELLED;
   ResultOutcome.TIMED_OUT; ResultOutcome.INFRA_ERROR].
Definition event_types : list EventType.t :=
  [EventType.STARTED; EventType.PROGRESS; EventType.LOG; EventType.ASSERTION;
   EventType.EXTRACTION; EventType.SCREENSHOT; EventType.ERROR; EventType.HEARTBEAT;
   EventType.ARTIFACT; EventType.FINISHED].

(** ** The model classes *)

Module RunModel.
Record t := mk {
  id : string; engine : string; parameters : list (string * pyval);
  idempotency_key : option string; fingerprint : string; state : string;
  created_at : datetime; updated_at : datetime; state_version : Z }.
(** Primary key [id]; [UniqueConstraint("idempotency_key")], where NULLs differ. *)
#[global] Instance model : Model t string := {|
  pk := id;
  uniques y r := match idempotency_key y with
                 | Some k => bool_decide (idempotency_key r = Some k)
                 | None => false
                 end;
  auto_value _ := 0%Z;
  assign_auto _ r := r
|}.
End RunModel.

Module AttemptModel.
Record t := mk {
  id : string; run_id : string; state : string; created_at : datetime;
  updated_at : datetime; state_version : Z; outcome : option string;
  duration_ms : option Z; summary : option (list (string * pyval));
  completed_at : option datetime; runner_id : option string;
  heartbeat_at : option datetime; lease_expires_at : option datetime }.
#[global] Instance model : Model t string := {|
  pk := id; uniques _ _ := false; auto_value _ := 0%Z; assign_auto _ r := r
|}.
End AttemptModel.

Module EventModel.
Record t := mk {
  cursor : Z; event_id : string; run_id : string; attempt_id : string; engine : string;
  seq : Z; occurred_at : datetime; type : string; payload : list (string * pyval) }.
(** Primary key [cursor], autoincremented; [UniqueConstraint("event_id")] and
    [UniqueConstraint("attempt_id", "seq")]. *)
#[global] Instance model : Model t Z := {|
  pk := cursor;
  uniques y r := bool_decide (event_id y = event_id r)
                 || (bool_decide (attempt_id y = attempt_id r) && (seq y =? seq r)%Z);
  auto_value := cursor;
  assign_auto n r := mk n (event_id r) (run_id r) (attempt_id r) (engine r) (seq r)
                        (occurred_at r) (type r) (payload r)
|}.
End EventModel.

Module ArtifactModel.
Record t := mk {
  id : string; run_id : string; attempt_id : string; kind : string; name : string;
  content_type : string; size_bytes : Z; storage_key : string; created_at : datetime }.
#[global] Instance model : Model t string := {|
  pk := id; uniques _ _ := false; auto_value _ := 0%Z; assign_auto _ r := r
|}.
End ArtifactModel.

(** [_as_utc]: a naive value is taken as UTC, an aware one is converted. *)
Definition _as_utc (value : Z * option Z) : datetime :=
  match value.2 with None => value.1 | Some offset => (value.1 - offset)%Z end.

(** ** The repository *)

Module SqlRunRepository.
Section repository.
  Context `{PyFloat} `{Driver}.
  Context `{!Table RunModel.t} `{!Table AttemptModel.t} `{!Table EventModel.t} `{!Table ArtifactModel.t}.

Record database := Database {
  test_runs : table RunModel.t;
  run_attempts : table AttemptModel.t;
  run_events : table EventModel.t;
  run_artifacts : table ArtifactModel.t }.

Definition empty_database : database := Database no_rows no_rows no_rows no_rows.

(** A column of type [DateTime], read. *)
Definition read_time (column : datetime) : datetime := _as_utc (returned column).

Definition _to_record (model : RunModel.t) : res RunRecord.t :=
  let? id := uuid_of_str (RunModel.id model) in
  let? engine := enum_of engines Engine.value (RunModel.engine model) in
  let? state := enum_of run_states run_state_value (RunModel.state model) in
  Ok (RunRecord.mk id engine (RunModel.parameters model) state
        (read_time (RunModel.created_at model)) (read_time (RunModel.updated_at model))
        (RunModel.state_version model)).

(** [ResultOutcome(model.outcome) if model.outcome else None]. *)
Definition read_outcome (column : option string) : res (option ResultOutcome.t) :=
  match column with
  | Some v => if empty_str v then Ok None
              else let? o := enum_of outcomes ResultOutcome.value v in Ok (Some o)
  | None => Ok None
  end.

Definition _attempt_to_record (model : AttemptModel.t) : res AttemptRecord.t :=
  let? id := uuid_of_str (AttemptModel.id model) in
  let? run_id := uuid_of_str (AttemptModel.run_id model) in
  let? state := enum_of attempt_states attempt_state_value (AttemptModel.state model) in
  let? outcome := read_outcome (AttemptModel.outcome model) in
  Ok (AttemptRecord.mk id run_id state
        (read_time (AttemptModel.created_at model)) (read_time (AttemptModel.updated_at model))
        (AttemptModel.state_version model) outcome (AttemptModel.duration_ms model)
        (AttemptModel.summary model) (option_map read_time (AttemptModel.completed_at model))
        (AttemptModel.runner_id model) (option_map read_time (AttemptModel.heartbeat_at model))
        (option_map read_time (AttemptModel.lease_expires_at model))).

Definition _event_to_record (model : EventModel.t) : res EventRecord.t :=
  let? event_id := uuid_of_str (EventModel.event_id model) in
  let? run_id := uuid_of_str (EventModel.run_id model) in
  let? attempt_id := uuid_of_str (EventModel.attempt_id model) in
  let? engine := enum_of engines Engine.value (EventModel.engine model) in
  let? type := enum_of event_types EventType.value (EventModel.type model) in
  Ok (EventRecord.mk (EventModel.cursor model) event_id run_id attempt_id engine
        (EventModel.seq model) (read_time (EventModel.occurred_at model)) type
        (EventModel.payload model)).

Definition _artifact_to_record (model : ArtifactModel.t) : res ArtifactRecord.t :=
  let? id := uuid_of_str (ArtifactModel.id model) in
  let? run_id := uuid_of_str (ArtifactModel.run_id model) in
  let? attempt_id := uuid_of_str (ArtifactModel.attempt_id model) in
  Ok (ArtifactRecord.mk id run_id attempt_id (ArtifactModel.kind model) (ArtifactModel.name model)
        (ArtifactModel.content_type model) (ArtifactModel.size_bytes model)
        (ArtifactModel.storage_key model) (read_time (ArtifactModel.created_at model))).

Definition _apply_state (model : RunModel.t) (updated : RunRecord.t) : RunModel.t :=
  RunModel.mk (RunModel.id model) (RunModel.engine model) (RunModel.parameters model)
    (RunModel.idempotency_key model) (RunModel.fingerprint model)
    (run_state_value (RunRecord.state updated)) (RunModel.created_at model)
    (RunRecord.updated_at updated) (RunRecord.state_version updated).

Definition _apply_attempt (model : AttemptModel.t) (updated : AttemptRecord.t) : AttemptModel.t :=
  AttemptModel.mk (AttemptModel.id model) (AttemptModel.run_id model)
    (attempt_state_value (AttemptRecord.state updated)) (AttemptModel.created_at model)
    (AttemptRecord.updated_at updated) (AttemptRecord.state_version updated)
    (option_map ResultOutcome.value (AttemptRecord.outcome updated))
    (AttemptRecord.duration_ms updated) (AttemptRecord.summary updated)
    (AttemptRecord.completed_at updated) (AttemptRecord.runner_id updated)
    (AttemptRecord.heartbeat_at updated) (AttemptRecord.lease_expires_at updated).

(** *** The statements on one table *)

Definition query {A} (f : database -> A) : M database A := fun s => (Ok (f s), s).

Definition flush_run (m : RunModel.t) : M database unit := fun s =>
  (Ok tt, Database (update_row m (test_runs s)) (run_attempts s) (run_events s) (run_artifacts s)).
Definition flush_attempt (m : AttemptModel.t) : M database unit := fun s =>
  (Ok tt, Database (test_runs s) (update_row m (run_attempts s)) (run_events s) (run_artifacts s)).

(** [ForeignKey("test_runs.id")] and [ForeignKey("run_attempts.id")]. *)
Definition has_run (id : string) (s : database) : bool :=
  bool_decide (is_Some (get_row id (test_runs s))).
Definition has_attempt (id : string) (s : database) : bool :=
  bool_decide (is_Some (get_row id (run_attempts s))).

(** [session.add(model); session.flush()] on each table. *)
Definition add_run (m : RunModel.t) : M database RunModel.t := fun s =>
  match insert_row m (test_runs s) with
  | Ok (m', t) => (Ok m', Database t (run_attempts s) (run_events s) (run_artifacts s))
  | Err e => (Err e, s)
  end.
Definition add_attempt (m : AttemptModel.t) : M database AttemptModel.t := fun s =>
  if has_run (AttemptModel.run_id m) s then
    match insert_row m (run_attempts s) with
    | Ok (m', t) => (Ok m', Database (test_runs s) t (run_events s) (run_artifacts s))
    | Err e => (Err e, s)
    end
  else (Err IntegrityError, s).
Definition add_event (m : EventModel.t) : M database EventModel.t := fun s =>
  if has_run (EventModel.run_id m) s && has_attempt (EventModel.attempt_id m) s then
    match insert_row m (run_events s) with
    | Ok (m', t) => (Ok m', Database (test_runs s) (run_attempts s) t (run_artifacts s))
    | Err e => (Err e, s)
    end
  else (Err IntegrityError, s).
Definition add_artifact (m : ArtifactModel.t) : M database ArtifactModel.t := fun s =>
  if has_run (ArtifactModel.run_id m) s && has_attempt (ArtifactModel.attempt_id m) s then
    match insert_row m (run_artifacts s) with
    | Ok (m', t) => (Ok m', Database (test_runs s) (run_attempts s) (run_events s) t)
    | Err e => (Err e, s)
    end
  else (Err IntegrityError, s).

Definition is_IntegrityError (e : exn) : bool := bool_decide (e = IntegrityError).

Definition _get_by_key (key : string) : M database (option RunModel.t) :=
  query (fun s => select_first (fun m => bool_decide (RunModel.idempotency_key m = Some key))
                    (test_runs s)).

Definition _require_run (run_id : uuid) : M database RunModel.t :=
  let* model := query (fun s => get_row (uuid_str run_id) (test_runs s)) in
  match model with Some m => ret m | None => raise RunNotFound end.

Definition _get_event_by_id (event_id : uuid) : M database (option EventModel.t) :=
  query (fun s => select_first (fun m => bool_decide (EventModel.event_id m = uuid_str event_id))
                    (run_events s)).

Definition _get_for_update (run_id : uuid) : M database RunModel.t :=
  let* model := query (fun s =>
    select_first (fun m => bool_decide (RunModel.id m = uuid_str run_id)) (test_runs s)) in
  match model with Some m => ret m | None => raise RunNotFound end.

Definition _get_attempt_for_update (attempt_id : uuid) : M database AttemptModel.t :=
  let* model := query (fun s =>
    select_first (fun m => bool_decide (AttemptModel.id m = uuid_str attempt_id)) (run_attempts s)) in
  match model with Some m => ret m | None => raise AttemptNotFound end.

Definition _resolve_idempotency (model : RunModel.t) (fingerprint : string)
    : res (RunRecord.t * bool) :=
  if negb (bool_decide (RunModel.fingerprint model = fingerprint)) then Err IdempotencyConflict
  else let? run := _to_record model in Ok (run, true).

Definition _resolve_event (model : EventModel.t) (event : EventEnvelope.t) : res EventRecord.t :=
  let? record := _event_to_record model in
  if negb (RunRepository._event_matches record event) then Err EventConflict else Ok record.

(** Every field but the creation time. *)
Definition _resolve_artifact (model : ArtifactModel.t) (expected : ArtifactRecord.t)
    : res ArtifactRecord.t :=
  let? record := _artifact_to_record model in
  if negb (bool_decide (ArtifactRecord.id record = ArtifactRecord.id expected))
     || negb (bool_decide (ArtifactRecord.run_id record = ArtifactRecord.run_id expected))
     || negb (bool_decide (ArtifactRecord.attempt_id record = ArtifactRecord.attempt_id expected))
     || negb (bool_decide (ArtifactRecord.kind record = ArtifactRecord.kind expected))
     || negb (bool_decide (ArtifactRecord.name record = ArtifactRecord.name expected))
     || negb (bool_decide (ArtifactRecord.content_type record = ArtifactRecord.content_type expected))
     || negb (ArtifactRecord.size_bytes record =? ArtifactRecord.size_bytes expected)%Z
     || negb (bool_decide (ArtifactRecord.storage_key record = ArtifactRecord.storage_key expected))
  then Err ArtifactConflict
  else Ok record.

(** *** Runs *)

(** [idempotency_key.strip() if idempotency_key else None], and [if key]. *)
Definition sql_key (idempotency_key : option string) : option string :=
  match idempotency_key with
  | Some k => if empty_str k then None else Some (strip k)
  | None => None
  end.
Definition truthy (key : option string) : option string :=
  match key with Some k => if empty_str k then None else Some k | None => None end.

(** [others 0] commits between the lookup and the insert, [others 1] between the
    rollback of a failed insert and the second lookup.  The only write of the first
    transaction is its flush, which fails as a whole. *)
Definition create_or_get (others : nat -> database -> database) (clk : clock) (fresh : uuid)
    (engine : Engine.t) (parameters : list (string * pyval)) (idempotency_key : option string)
    : M database (RunRecord.t * bool) :=
  let key := sql_key idempotency_key in
  let* fingerprint := lift (RunRepository._fingerprint engine parameters) in
  let insert_new :=
    let now := clk 0%nat in
    let model := RunModel.mk (uuid_str fresh) (Engine.value engine) parameters key fingerprint
                   (run_state_value RunState.CREATED) now now 0 in
    committed (others 0%nat) ;;;
    let* stored := add_run model in
    let* run := lift (_to_record stored) in
    ret (run, false) in
  try_except
    (match truthy key with
     | Some k =>
         let* existing := _get_by_key k in
         match existing with
         | Some m => lift (_resolve_idempotency m fingerprint)
         | None => insert_new
         end
     | None => insert_new
     end)
    is_IntegrityError
    (fun conflict =>
       match truthy key with
       | None => raise conflict
       | Some k =>
           committed (others 1%nat) ;;;
           let* existing := _get_by_key k in
           match existing with
           | None => raise conflict
           | Some m => lift (_resolve_idempotency m fingerprint)
           end
       end).

Definition create (others : nat -> database -> database) (clk : clock) (fresh : uuid)
    (engine : Engine.t) (parameters : list (string * pyval)) (idempotency_key : option string)
    : M database RunRecord.t :=
  let* ' (run, _) := create_or_get others clk fresh engine parameters idempotency_key in ret run.

(** [order_by(created_at, id)], the identifiers compared as text. *)
Definition by_time_id {A} (time : A -> datetime) (id : A -> string) (x y : A) : bool :=
  (time x <? time y)%Z || ((time x =? time y)%Z && str_leb (id x) (id y)).

Definition list_runs : M database (list RunRecord.t) :=
  let* models := query (fun s =>
    select_where (fun _ => true) (by_time_id RunModel.created_at RunModel.id) (test_runs s)) in
  lift (rmap _to_record models).

Definition get_run (run_id : uuid) : M database RunRecord.t :=
  let* model := _require_run run_id in lift (_to_record model).

Definition transition (clk : clock) (run_id : uuid) (target : RunState.t)
    : M database RunRecord.t :=
  transaction (
    let* model := _get_for_update run_id in
    let* current := lift (_to_record model) in
    let* updated := lift (RunRecord.with_state (clk 0%nat) current target) in
    flush_run (_apply_state model updated) ;;;
    ret updated).

Definition cancel (clk : clock) (run_id : uuid) : M database RunRecord.t :=
  transaction (
    let* model := _get_for_update run_id in
    let* current := lift (_to_record model) in
    if bool_decide (RunRecord.state current ∈ RUN_TERMINAL) then raise TerminalRunConflict
    else if bool_decide (RunRecord.state current = RunState.CANCELLING) then ret current
    else
      let* updated := lift (RunRecord.with_state (clk 0%nat) current RunState.CANCELLING) in
      flush_run (_apply_state model updated) ;;;
      ret updated).

(** *** Attempts *)

Definition attempt_model (a : AttemptRecord.t) : AttemptModel.t :=
  AttemptModel.mk (uuid_str (AttemptRecord.id a)) (uuid_str (AttemptRecord.run_id a))
    (attempt_state_value (AttemptRecord.state a)) (AttemptRecord.created_at a)
    (AttemptRecord.updated_at a) (AttemptRecord.state_version a) None None None None
    (AttemptRecord.runner_id a) (AttemptRecord.heartbeat_at a) (AttemptRecord.lease_expires_at a).

Definition get_attempt_row (attempt_id : uuid) : M database (option AttemptModel.t) :=
  query (fun s => get_row (uuid_str attempt_id) (run_attempts s)).

(** The flush of a new attempt, with the [IntegrityError] translated. *)
Definition flush_new_attempt (model : AttemptModel.t) : M database AttemptModel.t :=
  try_except (add_attempt model) is_IntegrityError (fun _ => raise AttemptConflict).

Definition create_attempt (others : database -> database) (clk : clock) (fresh : uuid)
    (run_id : uuid) (attempt_id : option uuid) : M database AttemptRecord.t :=
  let resolved_id := match attempt_id with Some a => a | None => fresh end in
  _get_for_update run_id ;;;
  let* existing := get_attempt_row resolved_id in
  if TaskEnvelope.is_some existing then raise AttemptConflict
  else
    let model := attempt_model (AttemptRecord.pending resolved_id run_id (clk 0%nat)) in
    committed others ;;;
    let* stored := flush_new_attempt model in
    lift (_attempt_to_record stored).

(** The new attempt and the run's state go out in one flush: when it fails neither is
    written. *)
Definition begin_attempt (others : database -> database) (clk : clock) (run_id attempt_id : uuid)
    (runner_id : string) (lease_seconds : Z) : M database (RunRecord.t * AttemptRecord.t) :=
  let* run_model := _get_for_update run_id in
  let* run := lift (_to_record run_model) in
  let* running := lift (RunRecord.with_state (clk 0%nat) run RunState.RUNNING) in
  let* existing := get_attempt_row attempt_id in
  if TaskEnvelope.is_some existing then raise AttemptConflict
  else
    let now := clk 1%nat in
    let pending := AttemptRecord.pending attempt_id run_id now in
    let* claimed := lift (AttemptRecord.claimed (clk 2%nat) pending runner_id lease_seconds now) in
    committed others ;;;
    flush_new_attempt (attempt_model claimed) ;;;
    flush_run (_apply_state run_model running) ;;;
    ret (running, claimed).

Definition get_attempt (attempt_id : uuid) : M database AttemptRecord.t :=
  let* model := get_attempt_row attempt_id in
  match model with
  | None => raise AttemptNotFound
  | Some m => lift (_attempt_to_record m)
  end.

Definition list_attempts (run_id : uuid) : M database (list AttemptRecord.t) :=
  _require_run run_id ;;;
  let* models := query (fun s =>
    select_where (fun m => bool_decide (AttemptModel.run_id m = uuid_str run_id))
      (by_time_id AttemptModel.created_at AttemptModel.id) (run_attempts s)) in
  lift (rmap _attempt_to_record models).

(** The columns [transition_attempt] and [complete_attempt] assign. *)
Definition apply_attempt_state (model : AttemptModel.t) (updated : AttemptRecord.t) : AttemptModel.t :=
  AttemptModel.mk (AttemptModel.id model) (AttemptModel.run_id model)
    (attempt_state_value (AttemptRecord.state updated)) (AttemptModel.created_at model)
    (AttemptRecord.updated_at updated) (AttemptRecord.state_version updated)
    (AttemptModel.outcome model) (AttemptModel.duration_ms model) (AttemptModel.summary model)
    (AttemptModel.completed_at model) (AttemptModel.runner_id model)
    (AttemptModel.heartbeat_at model) (AttemptModel.lease_expires_at model).
Definition apply_attempt_result (model : AttemptModel.t) (updated : AttemptRecord.t) : AttemptModel.t :=
  AttemptModel.mk (AttemptModel.id model) (AttemptModel.run_id model)
    (attempt_state_value (AttemptRecord.state updated)) (AttemptModel.created_at model)
    (AttemptRecord.updated_at updated) (AttemptRecord.state_version updated)
    (option_map ResultOutcome.value (AttemptRecord.outcome updated))
    (AttemptRecord.duration_ms updated) (AttemptRecord.summary updated)
    (AttemptRecord.completed_at updated) (AttemptModel.runner_id model)
    (AttemptModel.heartbeat_at model) (AttemptModel.lease_expires_at model).

(** The body the four updates of an attempt share: lock, read, compute, write, flush. *)
Definition update_attempt (attempt_id : uuid) (compute : AttemptRecord.t -> res AttemptRecord.t)
    (apply : AttemptModel.t -> AttemptRecord.t -> AttemptModel.t) : M database AttemptRecord.t :=
  transaction (
    let* model := _get_attempt_for_update attempt_id in
    let* current := lift (_attempt_to_record model) in
    let* updated := lift (compute current) in
    flush_attempt (apply model updated) ;;;
    ret updated).

Definition transition_attempt (clk : clock) (attempt_id : uuid) (target : AttemptState.t)
    : M database AttemptRecord.t :=
  update_attempt attempt_id
    (fun current => AttemptRecord.with_state (clk 0%nat) current target) apply_attempt_state.

Definition claim_attempt (clk : clock) (attempt_id : uuid) (runner_id : string)
    (lease_seconds : Z) (now : option datetime) : M database AttemptRecord.t :=
  let heartbeat := RunRepository.default_now now (clk 0%nat) in
  update_attempt attempt_id
    (fun current => AttemptRecord.claimed (clk 1%nat) current runner_id lease_seconds heartbeat)
    _apply_attempt.

Definition renew_attempt_lease (clk : clock) (attempt_id : uuid) (runner_id : string)
    (lease_seconds : Z) (now : option datetime) : M database AttemptRecord.t :=
  let heartbeat := RunRepository.default_now now (clk 0%nat) in
  update_attempt attempt_id
    (fun current => AttemptRecord.with_heartbeat current runner_id lease_seconds heartbeat)
    _apply_attempt.

Definition complete_attempt (clk : clock) (attempt_id : uuid) (target : AttemptState.t)
    (result : ResultEnvelope.t) : M database AttemptRecord.t :=
  update_attempt attempt_id
    (fun current => AttemptRecord.with_result (clk 0%nat) current target result)
    apply_attempt_result.

(** The [where] clause of the reaper; [skip_locked] drops the rows others hold. *)
Definition lease_expired_row (cutoff : datetime) (locked : AttemptModel.t -> bool)
    (m : AttemptModel.t) : bool :=
  bool_decide (AttemptModel.state m ∈ map attempt_state_value ATTEMPT_LEASED)
  && match AttemptModel.lease_expires_at m with Some l => (l <=? cutoff)%Z | None => false end
  && negb (locked m).

Definition expire_row (clk : clock) (i : nat) (cutoff : datetime) (model : AttemptModel.t)
    : M database AttemptRecord.t :=
  let* current := lift (_attempt_to_record model) in
  let* updated := lift (AttemptRecord.lost (clk (2 * i)%nat) current cutoff) in
  flush_attempt (_apply_attempt model updated) ;;;
  let* run_model := _get_for_update (AttemptRecord.run_id updated) in
  let* run := lift (_to_record run_model) in
  (if bool_decide (RunRecord.state run ∈ RUN_TERMINAL) then ret tt
   else
     let* failed := lift (RunRecord.with_state (clk (2 * i + 1)%nat) run RunState.INFRA_ERROR) in
     flush_run (_apply_state run_model failed)) ;;;
  ret updated.

Fixpoint expire_rows (clk : clock) (i : nat) (cutoff : datetime) (models : list AttemptModel.t)
    : M database (list AttemptRecord.t) :=
  match models with
  | [] => ret []
  | model :: rest =>
      let* updated := expire_row clk i cutoff model in
      let* expired := expire_rows clk (S i) cutoff rest in
      ret (updated :: expired)
  end.

Definition expire_attempt_leases (locked : AttemptModel.t -> bool) (clk : clock)
    (now : option datetime) : M database (list AttemptRecord.t) :=
  let cutoff := RunRepository.default_now now (clk 0%nat) in
  transaction (
    let* models := query (fun s => List.filter (lease_expired_row cutoff locked)
                                     (select (run_attempts s))) in
    expire_rows (fun i => clk (S i)) 0 cutoff models).

(** *** Events *)

Definition append_event (others : nat -> database -> database) (event : EventEnvelope.t)
    : M database EventRecord.t :=
  try_except
    (let* existing := _get_event_by_id (EventEnvelope.event_id event) in
     match existing with
     | Some m => lift (_resolve_event m event)
     | None =>
         let* attempt := get_attempt_row (EventEnvelope.attempt_id event) in
         match attempt with
         | None => raise AttemptNotFound
         | Some attempt =>
             if negb (bool_decide (AttemptModel.run_id attempt = uuid_str (EventEnvelope.run_id event)))
             then raise EventConflict
             else
               let* run := _require_run (EventEnvelope.run_id event) in
               if negb (bool_decide (RunModel.engine run = Engine.value (EventEnvelope.engine event)))
               then raise EventConflict
               else
                 let model :=
                   EventModel.mk 0 (uuid_str (EventEnvelope.event_id event))
                     (uuid_str (EventEnvelope.run_id event)) (uuid_str (EventEnvelope.attempt_id event))
                     (Engine.value (EventEnvelope.engine event)) (EventEnvelope.seq event)
                     (EventEnvelope.occurred_at event) (EventType.value (EventEnvelope.type event))
                     (RunRepository.event_payload event) in
                 committed (others 0%nat) ;;;
                 let* stored := add_event model in
                 lift (_event_to_record stored)
         end
     end)
    is_IntegrityError
    (fun _ =>
       committed (others 1%nat) ;;;
       let* existing := _get_event_by_id (EventEnvelope.event_id event) in
       match existing with
       | Some m => lift (_resolve_event m event)
       | None => raise EventConflict
       end).

Definition list_events (run_id : uuid) (after : Z) : M database (list EventRecord.t) :=
  if (after <? 0)%Z then raise (ValueError "event cursor must not be negative")
  else
    _require_run run_id ;;;
    let* models := query (fun s =>
      select_where (fun m => bool_decide (EventModel.run_id m = uuid_str run_id)
                             && (after <? EventModel.cursor m)%Z)
        (by_key EventModel.cursor) (run_events s)) in
    lift (rmap _event_to_record models).

(** *** Artifacts *)

Definition get_artifact_row (artifact_id : uuid) : M database (option ArtifactModel.t) :=
  query (fun s => get_row (uuid_str artifact_id) (run_artifacts s)).

Definition create_artifact (others : nat -> database -> database) (expected : ArtifactRecord.t)
    : M database ArtifactRecord.t :=
  try_except
    (let* existing := get_artifact_row (ArtifactRecord.id expected) in
     match existing with
     | Some m => lift (_resolve_artifact m expected)
     | None =>
         let* attempt := _get_attempt_for_update (ArtifactRecord.attempt_id expected) in
         if negb (bool_decide (AttemptModel.run_id attempt = uuid_str (ArtifactRecord.run_id expected)))
         then raise ArtifactConflict
         else
           let model :=
             ArtifactModel.mk (uuid_str (ArtifactRecord.id expected))
               (uuid_str (ArtifactRecord.run_id expected)) (uuid_str (ArtifactRecord.attempt_id expected))
               (ArtifactRecord.kind expected) (ArtifactRecord.name expected)
               (ArtifactRecord.content_type expected) (ArtifactRecord.size_bytes expected)
               (ArtifactRecord.storage_key expected) (ArtifactRecord.created_at expected) in
           committed (others 0%nat) ;;;
           let* stored := add_artifact model in
           lift (_artifact_to_record stored)
     end)
    is_IntegrityError
    (fun conflict =>
       committed (others 1%nat) ;;;
       let* existing := get_artifact_row (ArtifactRecord.id expected) in
       match existing with
       | None => raise conflict
       | Some m => lift (_resolve_artifact m expected)
       end).

Definition get_artifact (artifact_id : uuid) : M database ArtifactRecord.t :=
  let* model := get_artifact_row artifact_id in
  match model with
  | None => raise ArtifactNotFound
  | Some m => lift (_artifact_to_record m)
  end.

Definition list_artifacts (run_id : uuid) : M database (list ArtifactRecord.t) :=
  _require_run run_id ;;;
  let* models := query (fun s =>
    select_where (fun m => bool_decide (ArtifactModel.run_id m = uuid_str run_id))
      (by_time_id ArtifactModel.created_at ArtifactModel.id) (run_artifacts s)) in
  lift (rmap _artifact_to_record models).
End repository.
End SqlRunRepository.
