(* ===== verification/SqlRunRelation.v ===== *)
(** * The relation between the SQL tables and the in-memory repository

    [refines db s]: the rows of [db] are the records of [s], written out.  Identifiers
    are printed, enumerations are their values, the idempotency index is a column, and
    events are numbered by another counter, which orders them alike. *)
From stdpp Require Import pretty.
From S2P Require Import Prelude PyDict PyText TextFacts Protocol Domain Sha256 Runs RunsFacts Codecs Tables SqlRuns.
From Stdlib Require Import Ascii.
Import SqlRunRepository.
Open Scope string_scope.
Open Scope list_scope.

(** ** The order of printed identifiers *)

Lemma str_leb_refl a : str_leb a a = true.
Proof. induction a as [|c a IH]; [done |]. simpl. by rewrite !N.ltb_irrefl. Qed.

Lemma str_leb_app a b r r' :
  String.length a = String.length b ->
  str_leb (a ++ r)%string (b ++ r')%string = if decide (a = b) then str_leb r r' else str_leb a b.
Proof.
  revert b. induction a as [|c a IH]; intros [|d b] Hl; try done.
  injection Hl as Hl. rewrite !append_cons. cbn [str_leb].
  destruct (N.ltb_spec (code c) (code d)) as [H|H].
  { rewrite decide_False; [done |]. intros [= -> _]. lia. }
  destruct (N.ltb_spec (code d) (code c)) as [H'|H'].
  { rewrite decide_False; [done |]. intros [= -> _]. lia. }
  assert (c = d) as ->.
  { rewrite <- (ascii_N_embedding c), <- (ascii_N_embedding d). f_equal. unfold code in *. lia. }
  rewrite IH by done. repeat case_decide; congruence.
Qed.

Lemma hex_digit_leb n m : (n < 16)%N -> (m < 16)%N ->
  str_leb (hex_digit n) (hex_digit m) = (n <=? m)%N.
Proof.
  intros Hn Hm. unfold hex_digit, chr. cbn [str_leb]. unfold code.
  destruct (N.ltb_spec n 10), (N.ltb_spec m 10); rewrite !N_ascii_embedding by lia;
    destruct (N.leb_spec n m);
    repeat match goal with |- context [(?x <? ?y)%N] => destruct (N.ltb_spec x y) end;
    try done; lia.
Qed.

Lemma hex_leb d n m :
  str_leb (hex d n) (hex d m) = (n mod 16 ^ N.of_nat d <=? m mod 16 ^ N.of_nat d)%N.
Proof.
  revert n m. induction d as [|d IH]; intros n m; [by rewrite !N.mod_1_r |].
  cbn [hex]. rewrite str_leb_app by by rewrite !hex_length.
  rewrite Nat2N.inj_succ, N.pow_succ_r', !N.Div0.mod_mul_r.
  pose proof (N.mod_lt n 16 ltac:(lia)) as Hn. pose proof (N.mod_lt m 16 ltac:(lia)) as Hm.
  pose proof (hex_digit_leb (n mod 16) (m mod 16)) as Hd.
  case_decide as E.
  - apply hex_inj in E. rewrite Hd by lia. rewrite E.
    destruct (N.leb_spec (n mod 16) (m mod 16)); symmetry; [apply N.leb_le | apply N.leb_gt]; lia.
  - rewrite IH. set (x := (n / 16) mod _) in *. set (y := (m / 16) mod _) in *.
    assert (x <> y).
    { intros Hxy. apply E. clear -Hxy. subst x y. revert Hxy.
      generalize (n / 16)%N, (m / 16)%N. clear. intros a b Hab.
      assert (forall d a, hex d a = hex d (a mod 16 ^ N.of_nat d)) as Hmod.
      { clear. induction d as [|d IH]; intros a; [done |]. cbn [hex].
        rewrite Nat2N.inj_succ, N.pow_succ_r'. f_equal.
        - rewrite N.Div0.mod_mul_r, N.add_comm, N.mul_comm, N.div_add_l by done.
          rewrite (N.div_small (a mod 16)) by (apply N.mod_lt; done). rewrite N.add_0_r. apply IH.
        - f_equal. rewrite N.Div0.mod_mul_r, N.add_comm, N.mul_comm, N.Div0.add_mod.
          rewrite N.Div0.mod_mul, N.add_0_l, !N.Div0.mod_mod. done. }
      by rewrite (Hmod d a), (Hmod d b), Hab. }
    clearbody x y. revert Hn Hm. generalize (n mod 16)%N, (m mod 16)%N. clear -H. intros a b Ha Hb.
    destruct (N.leb_spec x y); symmetry; [apply N.leb_le | apply N.leb_gt]; lia.
Qed.

Definition is_uuid (u : uuid) : Prop := (u < 2 ^ 128)%N.

Lemma str_leb_dash a b r r' q q' :
  String.length a = String.length b -> str_leb r r' = str_leb q q' ->
  str_leb (a ++ "-" ++ r)%string (b ++ "-" ++ r')%string = str_leb (a ++ q)%string (b ++ q')%string.
Proof. intros Hl Hr. rewrite !str_leb_app by done. case_decide; [done | done]. Qed.

(** Text order of identifiers is their numeric order. *)
Lemma uuid_str_leb u v : is_uuid u -> is_uuid v ->
  str_leb (uuid_str u) (uuid_str v) = (Z.of_N u <=? Z.of_N v)%Z.
Proof.
  unfold is_uuid. intros Hu Hv.
  assert (str_leb (uuid_str u) (uuid_str v) = str_leb (hex 32 u) (hex 32 v)) as ->.
  { assert (forall w, hex 32 w = (hex 8 (w / 2 ^ 96) ++ hex 4 (w / 2 ^ 80) ++ hex 4 (w / 2 ^ 64)
                                  ++ hex 4 (w / 2 ^ 48) ++ hex 12 w)%string) as Hw.
    { intros w. rewrite (hex_app 4 12 w : (hex 4 (w / 2 ^ 48) ++ hex 12 w)%string = hex 16 w).
      rewrite (hex_app 4 16 w : (hex 4 (w / 2 ^ 64) ++ hex 16 w)%string = hex 20 w).
      rewrite (hex_app 4 20 w : (hex 4 (w / 2 ^ 80) ++ hex 20 w)%string = hex 24 w).
      by rewrite (hex_app 8 24 w : (hex 8 (w / 2 ^ 96) ++ hex 24 w)%string = hex 32 w). }
    rewrite !Hw. unfold uuid_str. cbn [PyText.join].
    repeat (apply str_leb_dash; [by rewrite !hex_length |]). done. }
  rewrite hex_leb. change (16 ^ N.of_nat 32)%N with (2 ^ 128)%N. rewrite !N.mod_small by done.
  destruct (N.leb_spec u v); symmetry; [apply Z.leb_le | apply Z.leb_gt]; lia.
Qed.

(** ** Records written as rows *)

Section facts.
  Context `{PyFloat} `{Driver}.
  Context `{!Table RunModel.t} `{!Table AttemptModel.t} `{!Table EventModel.t} `{!Table ArtifactModel.t}.

Definition run_row (key : option string) (fp : string) (r : RunRecord.t) : RunModel.t :=
  RunModel.mk (uuid_str (RunRecord.id r)) (Engine.value (RunRecord.engine r))
    (RunRecord.parameters r) key fp (run_state_value (RunRecord.state r)) (RunRecord.created_at r)
    (RunRecord.updated_at r) (RunRecord.state_version r).
Definition attempt_row (a : AttemptRecord.t) : AttemptModel.t :=
  AttemptModel.mk (uuid_str (AttemptRecord.id a)) (uuid_str (AttemptRecord.run_id a))
    (attempt_state_value (AttemptRecord.state a)) (AttemptRecord.created_at a)
    (AttemptRecord.updated_at a) (AttemptRecord.state_version a)
    (option_map ResultOutcome.value (AttemptRecord.outcome a)) (AttemptRecord.duration_ms a)
    (AttemptRecord.summary a) (AttemptRecord.completed_at a) (AttemptRecord.runner_id a)
    (AttemptRecord.heartbeat_at a) (AttemptRecord.lease_expires_at a).
Definition event_row (cursor : Z) (e : EventRecord.t) : EventModel.t :=
  EventModel.mk cursor (uuid_str (EventRecord.event_id e)) (uuid_str (EventRecord.run_id e))
    (uuid_str (EventRecord.attempt_id e)) (Engine.value (EventRecord.engine e)) (EventRecord.seq e)
    (EventRecord.occurred_at e) (EventType.value (EventRecord.type e)) (EventRecord.payload e).
Definition artifact_row (x : ArtifactRecord.t) : ArtifactModel.t :=
  ArtifactModel.mk (uuid_str (ArtifactRecord.id x)) (uuid_str (ArtifactRecord.run_id x))
    (uuid_str (ArtifactRecord.attempt_id x)) (ArtifactRecord.kind x) (ArtifactRecord.name x)
    (ArtifactRecord.content_type x) (ArtifactRecord.size_bytes x) (ArtifactRecord.storage_key x)
    (ArtifactRecord.created_at x).
(** The record of an event under another cursor. *)
Definition renumbered (cursor : Z) (e : EventRecord.t) : EventRecord.t :=
  EventRecord.mk cursor (EventRecord.event_id e) (EventRecord.run_id e) (EventRecord.attempt_id e)
    (EventRecord.engine e) (EventRecord.seq e) (EventRecord.occurred_at e) (EventRecord.type e)
    (EventRecord.payload e).

Lemma read_time_eq d : read_time d = d.
Proof. unfold read_time, _as_utc. apply returned_instant. Qed.

Lemma option_read_time (o : option datetime) : option_map read_time o = o.
Proof. destruct o as [d|]; simpl; [by rewrite read_time_eq | done]. Qed.

Lemma read_engine e : enum_of engines Engine.value (Engine.value e) = Ok e.
Proof. destruct e; vm_compute; reflexivity. Qed.
Lemma read_run_state s : enum_of run_states run_state_value (run_state_value s) = Ok s.
Proof. destruct s; vm_compute; reflexivity. Qed.
Lemma read_attempt_state s :
  enum_of attempt_states attempt_state_value (attempt_state_value s) = Ok s.
Proof. destruct s; vm_compute; reflexivity. Qed.
Lemma read_event_type e : enum_of event_types EventType.value (EventType.value e) = Ok e.
Proof. destruct e; vm_compute; reflexivity. Qed.
Lemma read_outcome_value o : read_outcome (option_map ResultOutcome.value o) = Ok o.
Proof. destruct o as [[]|]; vm_compute; reflexivity. Qed.

(** [_to_record] reads back what was written. *)
Lemma to_record_row key fp r : is_uuid (RunRecord.id r) -> _to_record (run_row key fp r) = Ok r.
Proof.
  intros Hi. unfold _to_record, run_row.
  cbn [RunModel.id RunModel.engine RunModel.parameters RunModel.state RunModel.created_at
       RunModel.updated_at RunModel.state_version]. rewrite (uuid_of_str_str _ Hi). cbn [rbind].
  rewrite read_engine. cbn [rbind]. rewrite read_run_state. cbn [rbind].
  rewrite !read_time_eq. destruct r; reflexivity.
Qed.

Lemma attempt_to_record_row a :
  is_uuid (AttemptRecord.id a) -> is_uuid (AttemptRecord.run_id a) ->
  _attempt_to_record (attempt_row a) = Ok a.
Proof.
  intros Hi Hr. unfold _attempt_to_record, attempt_row.
  cbn [AttemptModel.id AttemptModel.run_id AttemptModel.state AttemptModel.created_at
       AttemptModel.updated_at AttemptModel.state_version AttemptModel.outcome AttemptModel.duration_ms
       AttemptModel.summary AttemptModel.completed_at AttemptModel.runner_id
       AttemptModel.heartbeat_at AttemptModel.lease_expires_at]. rewrite (uuid_of_str_str _ Hi), (uuid_of_str_str _ Hr). cbn [rbind].
  rewrite read_attempt_state. cbn [rbind]. rewrite read_outcome_value. cbn [rbind].
  rewrite !option_read_time, !read_time_eq. destruct a; reflexivity.
Qed.

Lemma event_to_record_row c e :
  is_uuid (EventRecord.event_id e) -> is_uuid (EventRecord.run_id e) ->
  is_uuid (EventRecord.attempt_id e) -> _event_to_record (event_row c e) = Ok (renumbered c e).
Proof.
  intros He Hr Ha. unfold _event_to_record, event_row.
  cbn [EventModel.cursor EventModel.event_id EventModel.run_id EventModel.attempt_id EventModel.engine
       EventModel.seq EventModel.occurred_at EventModel.type EventModel.payload].
  rewrite (uuid_of_str_str _ He), (uuid_of_str_str _ Hr), (uuid_of_str_str _ Ha). cbn [rbind].
  rewrite read_engine. cbn [rbind]. rewrite read_event_type. cbn [rbind]. by rewrite read_time_eq.
Qed.

Lemma artifact_to_record_row x :
  is_uuid (ArtifactRecord.id x) -> is_uuid (ArtifactRecord.run_id x) ->
  is_uuid (ArtifactRecord.attempt_id x) -> _artifact_to_record (artifact_row x) = Ok x.
Proof.
  intros Hi Hr Ha. unfold _artifact_to_record, artifact_row.
  cbn [ArtifactModel.id ArtifactModel.run_id ArtifactModel.attempt_id ArtifactModel.kind
       ArtifactModel.name ArtifactModel.content_type ArtifactModel.size_bytes
       ArtifactModel.storage_key ArtifactModel.created_at].
  rewrite (uuid_of_str_str _ Hi), (uuid_of_str_str _ Hr), (uuid_of_str_str _ Ha). cbn [rbind].
  rewrite read_time_eq. destruct x; reflexivity.
Qed.
End facts.

(** * The SQL tables as an image of the in-memory repository

    The relation [refines] and the lemmas that every read and every write of the SQL
    repository respects it. *)
Import SqlRunRepository.
Open Scope string_scope.
Open Scope list_scope.
#[local] Opaque uuid_str uuid_of_str enum_of run_state_value attempt_state_value Engine.value EventType.value ResultOutcome.value.

Section refinement.
  Context `{PyFloat} `{Driver}.
  Context `{!Table RunModel.t} `{!Table AttemptModel.t} `{!Table EventModel.t} `{!Table ArtifactModel.t}.
  Context `{!TableLaws RunModel.t} `{!TableLaws AttemptModel.t} `{!TableLaws EventModel.t} `{!TableLaws ArtifactModel.t}.

Notation store := RunRepository.t.
Notation runs := RunRepository._runs.
Notation attempts := RunRepository._attempts.
Notation events := RunRepository._events.
Notation artifacts := RunRepository._artifacts.
Notation keys_of := RunRepository._idempotency.

(** ** The relation *)

Record refines (db : database) (s : store) : Prop := {
  rf_run_id : forall i r, runs s !! i = Some r -> is_uuid i;
  rf_attempt_id : forall i a, attempts s !! i = Some a -> is_uuid i;
  rf_event_id : forall i e, events s !! i = Some e -> is_uuid i;
  rf_artifact_id : forall i x, artifacts s !! i = Some x -> is_uuid i;
  rf_run_rows : forall m, m ∈ select (test_runs db) -> exists r,
    runs s !! RunRecord.id r = Some r
    /\ m = run_row (RunModel.idempotency_key m) (RunModel.fingerprint m) r;
  rf_runs : forall i r, runs s !! i = Some r -> exists key fp,
    run_row key fp r ∈ select (test_runs db);
  rf_keys : forall k f i, keys_of s !! k = Some (f, i) <->
    exists r, runs s !! i = Some r /\ run_row (Some k) f r ∈ select (test_runs db);
  rf_blank : forall m, m ∈ select (test_runs db) -> RunModel.idempotency_key m <> Some EmptyString;
  rf_attempts : forall m, m ∈ select (run_attempts db) <-> exists a,
    attempts s !! AttemptRecord.id a = Some a /\ m = attempt_row a;
  rf_event_rows : forall m, m ∈ select (run_events db) -> exists e,
    events s !! EventRecord.event_id e = Some e /\ m = event_row (EventModel.cursor m) e
    /\ (0 < EventModel.cursor m)%Z;
  rf_events : forall i e, events s !! i = Some e -> exists c,
    event_row c e ∈ select (run_events db);
  rf_cursors : forall c e c' e', event_row c e ∈ select (run_events db) ->
    event_row c' e' ∈ select (run_events db) ->
    events s !! EventRecord.event_id e = Some e -> events s !! EventRecord.event_id e' = Some e' ->
    (EventRecord.cursor e < EventRecord.cursor e')%Z <-> (c < c')%Z;
  rf_artifacts : forall m, m ∈ select (run_artifacts db) <-> exists x,
    artifacts s !! ArtifactRecord.id x = Some x /\ m = artifact_row x
}.

(** ** Rows found by identifier *)

Lemma uuid_text_inj u v : is_uuid u -> is_uuid v -> uuid_str u = uuid_str v -> u = v.
Proof. apply uuid_str_inj. Qed.

(** What the statements on the row of run [i] return, by the record of [i]. *)
Variant run_view (db : database) (s : store) (i : uuid) : option RunRecord.t -> Prop :=
  | run_there r key fp : runs s !! i = Some r -> RunRecord.id r = i ->
      run_row key fp r ∈ select (test_runs db) ->
      _get_for_update i db = (Ok (run_row key fp r), db) ->
      _require_run i db = (Ok (run_row key fp r), db) ->
      _to_record (run_row key fp r) = Ok r ->
      run_view db s i (Some r)
  | run_absent : runs s !! i = None ->
      _get_for_update i db = (Err RunNotFound, db) ->
      _require_run i db = (Err RunNotFound, db) ->
      (forall m, m ∈ select (test_runs db) -> RunModel.id m <> uuid_str i) ->
      run_view db s i None.

Lemma run_viewP db s i :
  refines db s -> RunsFacts.wf s -> is_uuid i -> run_view db s i (runs s !! i).
Proof.
  intros Rf W Hi. destruct (runs s !! i) as [r|] eqn:E.
  - pose proof (RunsFacts.wf_runs _ W _ _ E) as Hid.
    destruct (rf_runs _ _ Rf _ _ E) as (key & fp & Hrow).
    assert (get_row (uuid_str i) (test_runs db) = Some (run_row key fp r)) as Hg.
    { apply get_row_Some. split; [done |]. simpl. by rewrite Hid. }
    apply (run_there _ _ _ _ key fp); try done.
    + unfold _get_for_update, bind, query. cbn beta iota.
      change (select_first _ (test_runs db)) with (get_row (uuid_str i) (test_runs db)). by rewrite Hg.
    + unfold _require_run, bind, query. cbn beta iota. by rewrite Hg.
    + apply to_record_row. by rewrite Hid.
  - assert (forall m, m ∈ select (test_runs db) -> RunModel.id m <> uuid_str i) as Hno.
    { intros m Hm Heq. destruct (rf_run_rows _ _ Rf _ Hm) as (r & Hr & Em).
      rewrite Em in Heq. simpl in Heq. apply uuid_text_inj in Heq; [| | done].
      - congruence.
      - by eapply rf_run_id. }
    assert (get_row (uuid_str i) (test_runs db) = None) as Hg by by apply get_row_None.
    apply run_absent; try done.
    + unfold _get_for_update, bind, query. cbn beta iota.
      change (select_first _ (test_runs db)) with (get_row (uuid_str i) (test_runs db)). by rewrite Hg.
    + unfold _require_run, bind, query. cbn beta iota. by rewrite Hg.
Qed.

Variant attempt_view (db : database) (s : store) (i : uuid) : option AttemptRecord.t -> Prop :=
  | attempt_there a : attempts s !! i = Some a -> AttemptRecord.id a = i ->
      is_uuid (AttemptRecord.run_id a) -> attempt_row a ∈ select (run_attempts db) ->
      _get_attempt_for_update i db = (Ok (attempt_row a), db) ->
      get_attempt_row i db = (Ok (Some (attempt_row a)), db) ->
      _attempt_to_record (attempt_row a) = Ok a ->
      attempt_view db s i (Some a)
  | attempt_absent : attempts s !! i = None ->
      _get_attempt_for_update i db = (Err AttemptNotFound, db) ->
      get_attempt_row i db = (Ok None, db) ->
      (forall m, m ∈ select (run_attempts db) -> AttemptModel.id m <> uuid_str i) ->
      attempt_view db s i None.

Lemma attempt_viewP db s i :
  refines db s -> RunsFacts.wf s -> is_uuid i -> attempt_view db s i (attempts s !! i).
Proof.
  intros Rf W Hi. destruct (attempts s !! i) as [a|] eqn:E.
  - destruct (RunsFacts.wf_attempts _ W _ _ E) as [Hid [r Hr]].
    assert (is_uuid (AttemptRecord.run_id a)) as Hrid by by eapply rf_run_id.
    assert (attempt_row a ∈ select (run_attempts db)) as Hrow.
    { apply (rf_attempts _ _ Rf). exists a. by rewrite Hid. }
    assert (get_row (uuid_str i) (run_attempts db) = Some (attempt_row a)) as Hg.
    { apply get_row_Some. split; [done |]. simpl. by rewrite Hid. }
    apply attempt_there; try done.
    + unfold _get_attempt_for_update, bind, query. cbn beta iota.
      change (select_first _ (run_attempts db)) with (get_row (uuid_str i) (run_attempts db)).
      by rewrite Hg.
    + unfold get_attempt_row, query. by rewrite Hg.
    + apply attempt_to_record_row; [by rewrite Hid | done].
  - assert (forall m, m ∈ select (run_attempts db) -> AttemptModel.id m <> uuid_str i) as Hno.
    { intros m Hm Heq. apply (rf_attempts _ _ Rf) in Hm as (a & Ha & ->).
      simpl in Heq. apply uuid_text_inj in Heq; [| by eapply rf_attempt_id | done]. congruence. }
    assert (get_row (uuid_str i) (run_attempts db) = None) as Hg by by apply get_row_None.
    apply attempt_absent; try done.
    + unfold _get_attempt_for_update, bind, query. cbn beta iota.
      change (select_first _ (run_attempts db)) with (get_row (uuid_str i) (run_attempts db)).
      by rewrite Hg.
    + unfold get_attempt_row, query. by rewrite Hg.
Qed.

(** ** Writes keep the relation *)

Lemma apply_state_row key fp r r' :
  RunRecord.id r' = RunRecord.id r -> RunRecord.engine r' = RunRecord.engine r ->
  RunRecord.parameters r' = RunRecord.parameters r -> RunRecord.created_at r' = RunRecord.created_at r ->
  _apply_state (run_row key fp r) r' = run_row key fp r'.
Proof. intros Hi He Hp Hc. unfold _apply_state, run_row. simpl. by rewrite Hi, He, Hp, Hc. Qed.

Lemma run_row_inj k f r k' f' r' :
  run_row k f r = run_row k' f' r' ->
  uuid_str (RunRecord.id r) = uuid_str (RunRecord.id r') /\ k = k' /\ f = f'.
Proof.
  intros E. split; [exact (f_equal RunModel.id E) |].
  split; [exact (f_equal RunModel.idempotency_key E) | exact (f_equal RunModel.fingerprint E)].
Qed.

Lemma elem_of_run_update db m0 m :
  m0 ∈ select (test_runs db) -> RunModel.id m0 = RunModel.id m ->
  forall x, x ∈ select (test_runs (flush_run m db).2) <->
    x = m \/ (x ∈ select (test_runs db) /\ RunModel.id x <> RunModel.id m).
Proof.
  intros Hm Hid x. simpl. rewrite select_update. simpl. split.
  - intros [[-> _]|[? ?]]; auto.
  - intros [->|?]; [left; split; eauto | by right].
Qed.

Lemma refines_put_run db s i key fp r r' :
  refines db s -> RunsFacts.wf s -> runs s !! i = Some r ->
  run_row key fp r ∈ select (test_runs db) -> RunsFacts.run_evolves r r' ->
  refines (flush_run (_apply_state (run_row key fp r) r') db).2
          (RunRepository.set_runs (fun d => <[i := r']> d) s).2.
Proof.
  intros Rf W Hr Hrow (Hi & He & Hp & Hc & _). rewrite apply_state_row by done.
  pose proof (RunsFacts.wf_runs _ W _ _ Hr) as Hid.
  pose proof (rf_run_id _ _ Rf _ _ Hr) as Hu.
  assert (forall x, x ∈ select (test_runs (flush_run (run_row key fp r') db).2) <->
    x = run_row key fp r' \/ (x ∈ select (test_runs db) /\ RunModel.id x <> uuid_str i)) as Hsel.
  { intros x. rewrite (elem_of_run_update db (run_row key fp r)); [| done | simpl; congruence].
    simpl. by rewrite Hi, Hid. }
  assert (forall k f x j, run_row k f x ∈ select (test_runs db) -> runs s !! j = Some x -> j <> i ->
    uuid_str (RunRecord.id x) <> uuid_str i) as Hne.
  { intros k f x j Hx Hj Hji Heq. apply Hji. rewrite (RunsFacts.wf_runs _ W _ _ Hj) in Heq.
    apply uuid_text_inj in Heq; [done | by eapply rf_run_id | done]. }
  assert (forall k f, run_row k f r ∈ select (test_runs db) -> k = key /\ f = fp) as Huniq.
  { intros k f Hk. assert (run_row k f r = run_row key fp r) as E; [| by apply run_row_inj in E as (_ & ? & ?)].
    by apply (rows_by_key (test_runs db)). }
  split; try apply Rf.
  - intros j x Hx. simpl in Hx. dict_case; by eapply rf_run_id.
  - intros m [->|[Hm Hmi]]%Hsel.
    + exists r'. simpl. by rewrite Hi, Hid, dict_lookup_insert_eq.
    + destruct (rf_run_rows _ _ Rf _ Hm) as (x & Hx & Em). exists x. split; [| done].
      simpl. rewrite dict_lookup_insert_ne; [done |]. intros Hj. rewrite Em in Hmi. clear Em.
      apply Hmi. simpl. congruence.
  - intros j x Hx. simpl in Hx. dict_case.
    + exists key, fp. apply Hsel. by left.
    + destruct (rf_runs _ _ Rf _ _ Hx) as (k & f & Hk). exists k, f. apply Hsel. right.
      split; [done |]. simpl. by eapply Hne.
  - intros k f j. simpl RunRepository._idempotency. rewrite (rf_keys _ _ Rf). split.
    + intros (x & Hx & Hk). destruct (decide (j = i)) as [->|Hn].
      * simplify_eq. destruct (Huniq _ _ Hk) as [<- <-]. exists r'. simpl.
        rewrite dict_lookup_insert_eq. split; [done |]. apply Hsel. by left.
      * exists x. simpl. rewrite dict_lookup_insert_ne by done. split; [done |].
        apply Hsel. right. split; [done |]. simpl. by eapply Hne.
    + intros (x & Hx & Hk). simpl in Hx. apply Hsel in Hk as [Hk|[Hk Hkn]].
      * destruct (run_row_inj _ _ _ _ _ _ Hk) as (E1 & [= <-] & <-).
        assert (j = i) as ->; [| eauto].
        destruct (decide (j = i)) as [|Hn]; [done |]. exfalso.
        rewrite dict_lookup_insert_ne in Hx by done. rewrite Hi, Hid in E1.
        rewrite (RunsFacts.wf_runs _ W _ _ Hx) in E1. apply Hn.
        apply uuid_text_inj in E1; [done | by eapply rf_run_id | done].
      * destruct (decide (j = i)) as [->|Hn]; [| rewrite dict_lookup_insert_ne in Hx by done; eauto].
        rewrite dict_lookup_insert_eq in Hx. injection Hx as <-. exfalso. apply Hkn. simpl. by rewrite Hi, Hid.
  - intros m [->|[Hm _]]%Hsel; [| by apply (rf_blank _ _ Rf)].
    simpl. by apply (rf_blank _ _ Rf _ Hrow).
Qed.

Lemma apply_attempt_row a a' :
  attempt_frame a a' -> _apply_attempt (attempt_row a) a' = attempt_row a'.
Proof. intros (Hi & Hr & Hc). unfold _apply_attempt, attempt_row. simpl. by rewrite Hi, Hr, Hc. Qed.

Lemma apply_attempt_state_row now a st a' :
  AttemptRecord.with_state now a st = Ok a' -> apply_attempt_state (attempt_row a) a' = attempt_row a'.
Proof. unfold AttemptRecord.with_state. by intros (x & _ & [= <-])%rbind_Ok. Qed.

Lemma apply_attempt_result_row now a st r a' :
  AttemptRecord.with_result now a st r = Ok a' -> apply_attempt_result (attempt_row a) a' = attempt_row a'.
Proof.
  unfold AttemptRecord.with_result. case_match; [done |]. by intros (x & _ & [= <-])%rbind_Ok.
Qed.

Lemma attempt_row_id a a' : attempt_row a = attempt_row a' ->
  uuid_str (AttemptRecord.id a) = uuid_str (AttemptRecord.id a').
Proof. intros E. exact (f_equal AttemptModel.id E). Qed.

Lemma refines_put_attempt db s i a a' :
  refines db s -> RunsFacts.wf s -> attempts s !! i = Some a -> AttemptRecord.id a' = AttemptRecord.id a ->
  refines (flush_attempt (attempt_row a') db).2
          (RunRepository.set_attempts (fun d => <[i := a']> d) s).2.
Proof.
  intros Rf W Ha Hid. destruct (RunsFacts.wf_attempts _ W _ _ Ha) as [Hai _].
  pose proof (rf_attempt_id _ _ Rf _ _ Ha) as Hu.
  split; try apply Rf.
  - intros j x Hx. simpl in Hx. dict_case; by eapply rf_attempt_id.
  - intros m. simpl. rewrite select_update. simpl. rewrite Hid, Hai. split.
    + intros [[-> _]|[Hm Hne]].
      * exists a'. rewrite Hid, Hai, dict_lookup_insert_eq. done.
      * apply (rf_attempts _ _ Rf) in Hm as (x & Hx & ->). exists x. split; [| done].
        rewrite dict_lookup_insert_ne; [done |]. intros Hj. apply Hne. simpl. congruence.
    + intros (x & Hx & ->). destruct (decide (AttemptRecord.id x = i)) as [Hxi|Hxi].
      * rewrite Hxi, dict_lookup_insert_eq in Hx. injection Hx as <-. left. split; [done |].
        exists (attempt_row a). split; [| by simpl; rewrite Hai].
        apply (rf_attempts _ _ Rf). exists a. by rewrite Hai.
      * rewrite dict_lookup_insert_ne in Hx by done. right. split; [apply (rf_attempts _ _ Rf); eauto |].
        simpl. intros Heq. apply Hxi. apply uuid_text_inj in Heq; [done | by eapply rf_attempt_id | done].
Qed.

(** ** Inserts *)

Lemma clash_run key fp r m :
  clash m (run_row key fp r) = true <->
  RunModel.id m = uuid_str (RunRecord.id r)
  \/ exists k, RunModel.idempotency_key m = Some k /\ key = Some k.
Proof.
  unfold clash. simpl. rewrite orb_true_iff, bool_decide_eq_true.
  destruct (RunModel.idempotency_key m) as [k|].
  - rewrite bool_decide_eq_true. naive_solver.
  - naive_solver.
Qed.

Lemma refines_add_run db s key fp r :
  refines db s -> RunsFacts.wf s -> is_uuid (RunRecord.id r) -> runs s !! RunRecord.id r = None ->
  (forall k, key = Some k -> keys_of s !! k = None /\ k <> EmptyString) ->
  exists db', add_run (run_row key fp r) db = (Ok (run_row key fp r), db')
    /\ refines db' (RunRepository.mk (<[RunRecord.id r := r]> (runs s))
         (match key with Some k => <[k := (fp, RunRecord.id r)]> (keys_of s) | None => keys_of s end)
         (attempts s) (events s) (RunRepository._event_sequences s) (artifacts s)
         (RunRepository._next_cursor s)).
Proof.
  intros Rf W Hu Hnew Hkey.
  destruct (insert_fresh (run_row key fp r) (test_runs db)) as (n & t' & Hins & _ & _ & Hsel).
  { intros m Hm. apply not_true_iff_false. rewrite clash_run. intros [Hid|(k & Hk & ->)].
    - destruct (rf_run_rows _ _ Rf _ Hm) as (x & Hx & Em). rewrite Em in Hid.
      apply uuid_text_inj in Hid; [| by eapply rf_run_id | done]. congruence.
    - destruct (Hkey k) as [Hk0 _]; [done |].
      destruct (rf_run_rows _ _ Rf _ Hm) as (x & Hx & Em). rewrite Hk in Em.
      assert (keys_of s !! k = Some (RunModel.fingerprint m, RunRecord.id x)) as Hk1; [| congruence].
      apply (rf_keys _ _ Rf). exists x. split; [done |]. by rewrite <- Em. }
  change (assign_auto n (run_row key fp r)) with (run_row key fp r) in Hins, Hsel.
  exists (Database t' (run_attempts db) (run_events db) (run_artifacts db)).
  unfold add_run. rewrite Hins. split; [done |].
  assert (forall i x, runs s !! i = Some x -> i <> RunRecord.id r) as Hold by (intros; congruence).
  split; try apply Rf.
  - intros i x Hx. simpl in Hx. dict_case; by eapply rf_run_id.
  - intros m [->|Hm]%Hsel.
    + exists r. simpl. by rewrite dict_lookup_insert_eq.
    + destruct (rf_run_rows _ _ Rf _ Hm) as (x & Hx & Em). exists x. split; [| done].
      simpl. by rewrite dict_lookup_insert_ne by (apply not_eq_sym; eauto).
  - intros i x Hx. simpl in Hx. dict_case.
    + exists key, fp. apply Hsel. by left.
    + destruct (rf_runs _ _ Rf _ _ Hx) as (k & f & ?). exists k, f. apply Hsel. by right.
  - intros k f i. simpl. split.
    + intros Hk. assert (keys_of s !! k = Some (f, i) \/ (key = Some k /\ f = fp /\ i = RunRecord.id r))
        as [Hk'|(-> & -> & ->)].
      { destruct key as [k0|]; [| by left]. rewrite dict_lookup_insert in Hk. case_decide; simplify_eq; auto. }
      * apply (rf_keys _ _ Rf) in Hk' as (x & Hx & Hrow). exists x.
        rewrite dict_lookup_insert_ne by (apply not_eq_sym; eauto). split; [done |]. apply Hsel. by right.
      * exists r. rewrite dict_lookup_insert_eq. split; [done |]. apply Hsel. by left.
    + intros (x & Hx & [Hrow|Hrow]%Hsel).
      * destruct (run_row_inj _ _ _ _ _ _ Hrow) as (E1 & <- & ->).
        rewrite dict_lookup_insert_eq. do 2 f_equal.
        destruct (decide (i = RunRecord.id r)) as [|Hn]; [done |].
        rewrite dict_lookup_insert_ne in Hx by done.
        apply uuid_text_inj in E1; [| | done]; rewrite (RunsFacts.wf_runs _ W _ _ Hx) in *; [done |].
        by eapply rf_run_id.
      * destruct (rf_run_rows _ _ Rf _ Hrow) as (y & Hy & Em). simpl in Em.
        assert (i = RunRecord.id y /\ runs s !! i = Some x) as [-> Hx'].
        { destruct (run_row_inj _ _ _ _ _ _ Em) as (E1 & _ & _).
          destruct (decide (i = RunRecord.id r)) as [->|Hn].
          - rewrite dict_lookup_insert_eq in Hx. injection Hx as <-. exfalso.
            apply uuid_text_inj in E1; [| done | by eapply rf_run_id]. congruence.
          - rewrite dict_lookup_insert_ne in Hx by done.
            rewrite (RunsFacts.wf_runs _ W _ _ Hx) in E1.
            apply uuid_text_inj in E1; [done | by eapply rf_run_id..]. }
        assert (keys_of s !! k = Some (f, RunRecord.id y)) as Hk.
        { apply (rf_keys _ _ Rf). exists x. split; [done |]. done. }
        destruct key as [k0|]; [| done]. rewrite dict_lookup_insert_ne; [done |].
        intros ->. destruct (Hkey k) as [? _]; congruence.
  - intros m [->|Hm]%Hsel; [| by apply (rf_blank _ _ Rf)].
    simpl. destruct key as [k|]; [| done]. intros [= ->]. by destruct (Hkey EmptyString) as [_ ?].
Qed.

Lemma has_run_iff db s i :
  refines db s -> RunsFacts.wf s -> is_uuid i -> is_Some (runs s !! i) -> has_run (uuid_str i) db = true.
Proof.
  intros Rf W Hi [r Hr]. unfold has_run. rewrite bool_decide_eq_true.
  destruct (rf_runs _ _ Rf _ _ Hr) as (key & fp & Hrow). exists (run_row key fp r).
  apply get_row_Some. split; [done |]. simpl. by rewrite (RunsFacts.wf_runs _ W _ _ Hr).
Qed.

Lemma has_attempt_iff db s i :
  refines db s -> RunsFacts.wf s -> is_uuid i -> is_Some (attempts s !! i) ->
  has_attempt (uuid_str i) db = true.
Proof.
  intros Rf W Hi [a Ha]. unfold has_attempt. rewrite bool_decide_eq_true.
  destruct (RunsFacts.wf_attempts _ W _ _ Ha) as [Hid _]. exists (attempt_row a).
  apply get_row_Some. split; [| simpl; by rewrite Hid].
  apply (rf_attempts _ _ Rf). exists a. by rewrite Hid.
Qed.

Lemma refines_add_attempt db s a :
  refines db s -> RunsFacts.wf s -> is_uuid (AttemptRecord.id a) -> is_uuid (AttemptRecord.run_id a) ->
  is_Some (runs s !! AttemptRecord.run_id a) -> attempts s !! AttemptRecord.id a = None ->
  exists db', add_attempt (attempt_row a) db = (Ok (attempt_row a), db')
    /\ refines db' (RunRepository.set_attempts (fun d => <[AttemptRecord.id a := a]> d) s).2
    /\ test_runs db' = test_runs db.
Proof.
  intros Rf W Hu Hru Hrun Hnew. unfold add_attempt.
  change (AttemptModel.run_id (attempt_row a)) with (uuid_str (AttemptRecord.run_id a)).
  rewrite (has_run_iff _ _ _ Rf W Hru Hrun).
  destruct (insert_fresh (attempt_row a) (run_attempts db)) as (n & t' & Hins & _ & _ & Hsel).
  { intros m Hm. apply (rf_attempts _ _ Rf) in Hm as (b & Hb & ->). unfold clash. simpl.
    rewrite orb_false_r. apply bool_decide_eq_false. intros Heq.
    apply uuid_text_inj in Heq; [congruence | by eapply rf_attempt_id | done]. }
  rewrite Hins. exists (Database (test_runs db) t' (run_events db) (run_artifacts db)).
  split; [done |]. split; [| done]. change (assign_auto n (attempt_row a)) with (attempt_row a) in Hsel.
  split; try apply Rf.
  - intros j x Hx. simpl in Hx. dict_case; by eapply rf_attempt_id.
  - intros m. simpl. rewrite Hsel, (rf_attempts _ _ Rf). split.
    + intros [->|(x & Hx & ->)]; [exists a; by rewrite dict_lookup_insert_eq |].
      exists x. rewrite dict_lookup_insert_ne by congruence. done.
    + intros (x & Hx & ->). rewrite dict_lookup_insert in Hx. case_decide; simplify_eq; [by left |].
      right. eauto.
Qed.

Lemma refines_add_artifact db s x :
  refines db s -> RunsFacts.wf s -> is_uuid (ArtifactRecord.id x) -> is_uuid (ArtifactRecord.run_id x) ->
  is_uuid (ArtifactRecord.attempt_id x) -> is_Some (runs s !! ArtifactRecord.run_id x) ->
  is_Some (attempts s !! ArtifactRecord.attempt_id x) -> artifacts s !! ArtifactRecord.id x = None ->
  exists db', add_artifact (artifact_row x) db = (Ok (artifact_row x), db')
    /\ refines db' (RunRepository.set_artifacts (fun d => <[ArtifactRecord.id x := x]> d) s).2.
Proof.
  intros Rf W Hu Hru Hau Hrun Hatt Hnew. unfold add_artifact.
  change (ArtifactModel.run_id (artifact_row x)) with (uuid_str (ArtifactRecord.run_id x)).
  change (ArtifactModel.attempt_id (artifact_row x)) with (uuid_str (ArtifactRecord.attempt_id x)).
  rewrite (has_run_iff _ _ _ Rf W Hru Hrun), (has_attempt_iff _ _ _ Rf W Hau Hatt).
  destruct (insert_fresh (artifact_row x) (run_artifacts db)) as (n & t' & Hins & _ & _ & Hsel).
  { intros m Hm. apply (rf_artifacts _ _ Rf) in Hm as (b & Hb & ->). unfold clash. simpl.
    rewrite orb_false_r. apply bool_decide_eq_false. intros Heq.
    apply uuid_text_inj in Heq; [congruence | by eapply rf_artifact_id | done]. }
  cbn [andb]. rewrite Hins. exists (Database (test_runs db) (run_attempts db) (run_events db) t').
  split; [done |]. change (assign_auto n (artifact_row x)) with (artifact_row x) in Hsel.
  split; try apply Rf.
  - intros j y Hy. simpl in Hy. dict_case; by eapply rf_artifact_id.
  - intros m. simpl. rewrite Hsel, (rf_artifacts _ _ Rf). split.
    + intros [->|(y & Hy & ->)]; [exists x; by rewrite dict_lookup_insert_eq |].
      exists y. rewrite dict_lookup_insert_ne by congruence. done.
    + intros (y & Hy & ->). rewrite dict_lookup_insert in Hy. case_decide; simplify_eq; [by left |].
      right. eauto.
Qed.

(** *** Events *)

Lemma event_row_inj c e c' e' : event_row c e = event_row c' e' ->
  c = c' /\ uuid_str (EventRecord.event_id e) = uuid_str (EventRecord.event_id e')
  /\ uuid_str (EventRecord.attempt_id e) = uuid_str (EventRecord.attempt_id e')
  /\ EventRecord.seq e = EventRecord.seq e'.
Proof.
  intros E. split; [exact (f_equal EventModel.cursor E) |].
  split; [exact (f_equal EventModel.event_id E) |].
  split; [exact (f_equal EventModel.attempt_id E) | exact (f_equal EventModel.seq E)].
Qed.

Lemma event_ids db s i e : refines db s -> RunsFacts.wf s -> events s !! i = Some e ->
  EventRecord.event_id e = i /\ is_uuid i /\ is_uuid (EventRecord.run_id e)
  /\ is_uuid (EventRecord.attempt_id e).
Proof.
  intros Rf W He. destruct (RunsFacts.wf_events _ W _ _ He) as (Hi & _ & _ & a & r & Ha & _ & Hr & _).
  split; [done |]. split; [by eapply rf_event_id |].
  split; [by eapply rf_run_id | by eapply rf_attempt_id].
Qed.

(** The row of a stored event is the one with its identifier. *)
Lemma event_row_of db s c e e' : refines db s -> RunsFacts.wf s ->
  event_row c e' ∈ select (run_events db) -> events s !! EventRecord.event_id e = Some e ->
  is_uuid (EventRecord.event_id e') ->
  EventRecord.event_id e' = EventRecord.event_id e -> event_row c e' = event_row c e.
Proof.
  intros Rf W Hrow He Hu Hid. destruct (rf_event_rows _ _ Rf _ Hrow) as (x & Hx & Em & _).
  simpl in Em. rewrite Em. f_equal. destruct (event_row_inj _ _ _ _ Em) as (_ & E & _).
  apply uuid_text_inj in E; [congruence | done | by eapply rf_event_id].
Qed.

Lemma clash_event c e m :
  clash m (event_row c e) = true <->
  EventModel.cursor m = c \/ EventModel.event_id m = uuid_str (EventRecord.event_id e)
  \/ (EventModel.attempt_id m = uuid_str (EventRecord.attempt_id e)
      /\ EventModel.seq m = EventRecord.seq e).
Proof.
  unfold clash. simpl. rewrite !orb_true_iff, andb_true_iff, !bool_decide_eq_true, Z.eqb_eq. done.
Qed.

Lemma refines_add_event db s e :
  refines db s -> RunsFacts.wf s -> is_uuid (EventRecord.event_id e) ->
  is_uuid (EventRecord.run_id e) -> is_uuid (EventRecord.attempt_id e) ->
  is_Some (runs s !! EventRecord.run_id e) -> is_Some (attempts s !! EventRecord.attempt_id e) ->
  events s !! EventRecord.event_id e = None ->
  RunRepository._event_sequences s !! (EventRecord.attempt_id e, EventRecord.seq e) = None ->
  EventRecord.cursor e = RunRepository._next_cursor s ->
  exists c db', add_event (event_row 0 e) db = (Ok (event_row c e), db')
    /\ refines db' (RunRepository.store_event e s).2.
Proof.
  intros Rf W Hu Hru Hau Hrun Hatt Hnew Hseq Hcur. unfold add_event.
  change (EventModel.run_id (event_row 0 e)) with (uuid_str (EventRecord.run_id e)).
  change (EventModel.attempt_id (event_row 0 e)) with (uuid_str (EventRecord.attempt_id e)).
  rewrite (has_run_iff _ _ _ Rf W Hru Hrun), (has_attempt_iff _ _ _ Rf W Hau Hatt). cbn [andb].
  destruct (insert_fresh (event_row 0 e) (run_events db)) as (n & t' & Hins & Hpos & Hlt & Hsel).
  { intros m Hm. destruct (rf_event_rows _ _ Rf _ Hm) as (x & Hx & Em & Hp).
    destruct (event_ids _ _ _ _ Rf W Hx) as (_ & Hxu & _ & Hxa).
    apply not_true_iff_false. rewrite clash_event, Em. simpl. intros [?|[Hid|[Hai Hq]]]; [lia | |].
    - apply uuid_text_inj in Hid; [congruence | done | done].
    - apply uuid_text_inj in Hai; [| done | done].
      destruct (RunsFacts.wf_events _ W _ _ Hx) as (_ & Hs & _). congruence. }
  rewrite Hins. exists n, (Database (test_runs db) (run_attempts db) t' (run_artifacts db)).
  change (assign_auto n (event_row 0 e)) with (event_row n e) in Hsel |- *. split; [done |].
  assert (forall i x, events s !! i = Some x -> i <> EventRecord.event_id e) as Hold by (intros; congruence).
  split; try apply Rf.
  - intros i x Hx. simpl in Hx. dict_case; by eapply rf_event_id.
  - intros m [->|Hm]%Hsel.
    + exists e. simpl. by rewrite dict_lookup_insert_eq.
    + destruct (rf_event_rows _ _ Rf _ Hm) as (x & Hx & Em & Hp). exists x.
      split; [| done]. simpl. by rewrite dict_lookup_insert_ne by (apply not_eq_sym; eauto).
  - intros i x Hx. simpl in Hx. dict_case.
    + exists n. apply Hsel. by left.
    + destruct (rf_events _ _ Rf _ _ Hx) as [c Hc]. exists c. apply Hsel. by right.
  - assert (forall c x, event_row c x ∈ select t' -> <[EventRecord.event_id e:=e]> (events s) !!
              EventRecord.event_id x = Some x ->
              (c = n /\ x = e) \/ (event_row c x ∈ select (run_events db)
                /\ events s !! EventRecord.event_id x = Some x
                /\ (c < n)%Z /\ (EventRecord.cursor x < EventRecord.cursor e)%Z)) as Hcase.
    { intros c x Hx Hs. apply Hsel in Hx as [Hx|Hx].
      - destruct (event_row_inj _ _ _ _ Hx) as (-> & Hi & _). left. split; [done |].
        rewrite dict_lookup_insert in Hs. case_decide as E; [congruence |].
        apply uuid_text_inj in Hi; [congruence | by eapply rf_event_id | done].
      - right. pose proof (Hlt _ Hx) as Hc. simpl in Hc.
        destruct (rf_event_rows _ _ Rf _ Hx) as (y & Hy & Em & _). simpl in Em.
        destruct (event_row_inj _ _ _ _ Em) as (_ & Hi & _).
        rewrite dict_lookup_insert in Hs. case_decide as E; [injection Hs as <- |].
        + exfalso. apply uuid_text_inj in Hi; [congruence | done | by eapply rf_event_id].
        + split; [done |]. split; [done |]. split; [done |].
          destruct (RunsFacts.wf_events _ W _ _ Hs) as (_ & _ & ? & _). lia. }
    intros c x c' x' Hx Hx' Hs Hs'. simpl in Hs, Hs'.
    destruct (Hcase _ _ Hx Hs) as [[-> ->]|(H1 & H2 & H3 & H4)];
      destruct (Hcase _ _ Hx' Hs') as [[-> ->]|(H1' & H2' & H3' & H4')]; [lia | lia | lia |].
    by apply (rf_cursors _ _ Rf).
Qed.

Lemma add_event_conflict db s e i :
  refines db s -> RunsFacts.wf s -> is_uuid (EventRecord.run_id e) -> is_uuid (EventRecord.attempt_id e) ->
  is_Some (runs s !! EventRecord.run_id e) -> is_Some (attempts s !! EventRecord.attempt_id e) ->
  RunRepository._event_sequences s !! (EventRecord.attempt_id e, EventRecord.seq e) = Some i ->
  add_event (event_row 0 e) db = (Err IntegrityError, db).
Proof.
  intros Rf W Hru Hau Hrun Hatt Hseq. unfold add_event.
  change (EventModel.run_id (event_row 0 e)) with (uuid_str (EventRecord.run_id e)).
  change (EventModel.attempt_id (event_row 0 e)) with (uuid_str (EventRecord.attempt_id e)).
  rewrite (has_run_iff _ _ _ Rf W Hru Hrun), (has_attempt_iff _ _ _ Rf W Hau Hatt). cbn [andb].
  destruct (RunsFacts.wf_sequences _ W _ _ _ Hseq) as (x & Hx & Hxa & Hxq).
  destruct (rf_events _ _ Rf _ _ Hx) as [c Hc].
  rewrite insert_clash; [done |]. exists (event_row c x). split; [done |].
  apply clash_event. right; right. simpl. by rewrite Hxa, Hxq.
Qed.

Lemma get_event_eq db s i : refines db s -> RunsFacts.wf s -> is_uuid i ->
  match events s !! i with
  | Some e => exists c, event_row c e ∈ select (run_events db)
                /\ _get_event_by_id i db = (Ok (Some (event_row c e)), db)
  | None => _get_event_by_id i db = (Ok None, db)
  end.
Proof.
  intros Rf W Hi. unfold _get_event_by_id, query.
  destruct (select_first _ (run_events db)) as [m|] eqn:E.
  - apply select_first_Some in E as [Hm E]. apply bool_decide_eq_true in E.
    destruct (rf_event_rows _ _ Rf _ Hm) as (x & Hx & Em & _).
    rewrite Em in E. simpl in E. apply uuid_text_inj in E; [| by eapply rf_event_id | done].
    rewrite <- E, Hx. exists (EventModel.cursor m). rewrite <- Em. done.
  - rewrite select_first_None in E. destruct (events s !! i) as [e|] eqn:Ee; [exfalso | done].
    destruct (rf_events _ _ Rf _ _ Ee) as [c Hc]. specialize (E _ Hc).
    apply bool_decide_eq_false in E. apply E. simpl.
    by destruct (event_ids _ _ _ _ Rf W Ee) as [-> _].
Qed.

Lemma get_artifact_eq db s i : refines db s -> RunsFacts.wf s -> is_uuid i ->
  get_artifact_row i db = (Ok (option_map artifact_row (artifacts s !! i)), db).
Proof.
  intros Rf W Hi. unfold get_artifact_row, query. do 2 f_equal.
  destruct (artifacts s !! i) as [x|] eqn:E; simpl.
  - destruct (RunsFacts.wf_artifacts _ W _ _ E) as [Hx _].
    apply get_row_Some. split; [| simpl; by rewrite Hx].
    apply (rf_artifacts _ _ Rf). exists x. by rewrite Hx.
  - apply get_row_None. intros m (x & Hx & ->)%(rf_artifacts _ _ Rf). simpl. intros Heq.
    apply uuid_text_inj in Heq; [congruence | by eapply rf_artifact_id | done].
Qed.
End refinement.
