(* ===== verification/SqlRunSim.v ===== *)
(** * Simulation of the SQL run repository: runs, attempts, listings

    The calls of both repositories are reified by [repo_op] (RunsFacts) and answered by
    a [reply]; [sim] says that two calls give related replies and related states. *)
From S2P Require Import Prelude PyDict PyText TextFacts Protocol Domain Sha256 Runs RunsFacts RunsTheorems Codecs Tables SqlRuns SqlRunRelation.
Import SqlRunRepository.
Open Scope string_scope.
Open Scope list_scope.
#[local] Opaque uuid_str uuid_of_str enum_of run_state_value attempt_state_value Engine.value EventType.value ResultOutcome.value run_row attempt_row event_row artifact_row.

Ltac sql_simpl :=
  unfold bind, lift, get, ret, raise, query, transaction, committed, try_except, rbind in *;
  cbn beta iota delta [fst snd] in *.

Section refinement.
  Context `{PyFloat} `{Driver}.
  Context `{!Table RunModel.t} `{!Table AttemptModel.t} `{!Table EventModel.t} `{!Table ArtifactModel.t}.
  Context `{!TableLaws RunModel.t} `{!TableLaws AttemptModel.t} `{!TableLaws EventModel.t} `{!TableLaws ArtifactModel.t}.

Notation store := RunRepository.t.
Notation runs := RunRepository._runs.
Notation attempts := RunRepository._attempts.
Notation events := RunRepository._events.
Notation artifacts := RunRepository._artifacts.
Notation keys_of := RunRepository._idempotency.

(** ** Replies *)

Inductive reply : Type :=
  | RunReply (r : RunRecord.t)
  | CreatedReply (r : RunRecord.t) (existing : bool)
  | RunsReply (l : list RunRecord.t)
  | AttemptReply (a : AttemptRecord.t)
  | AttemptsReply (l : list AttemptRecord.t)
  | ReapedReply (l : list AttemptRecord.t)
  | BegunReply (r : RunRecord.t) (a : AttemptRecord.t)
  | EventReply (e : EventRecord.t)
  | EventsReply (l : list EventRecord.t)
  | ArtifactReply (x : ArtifactRecord.t)
  | ArtifactsReply (l : list ArtifactRecord.t).

Definition fmapM {S A B} (f : A -> B) (c : M S A) : M S B := let* x := c in ret (f x).

Definition call_memory (o : repo_op) : M store reply :=
  match o with
  | OpCreate clk fresh e p k =>
      fmapM (fun rb => CreatedReply rb.1 rb.2) (RunRepository.create_or_get clk fresh e p k)
  | OpListRuns => fmapM RunsReply RunRepository.list_runs
  | OpGetRun r => fmapM RunReply (RunRepository.get_run r)
  | OpTransition clk r st => fmapM RunReply (RunRepository.transition clk r st)
  | OpCancel clk r => fmapM RunReply (RunRepository.cancel clk r)
  | OpCreateAttempt clk fresh r a => fmapM AttemptReply (RunRepository.create_attempt clk fresh r a)
  | OpBeginAttempt clk r a n l =>
      fmapM (fun ra => BegunReply ra.1 ra.2) (RunRepository.begin_attempt clk r a n l)
  | OpGetAttempt a => fmapM AttemptReply (RunRepository.get_attempt a)
  | OpListAttempts r => fmapM AttemptsReply (RunRepository.list_attempts r)
  | OpTransitionAttempt clk a st => fmapM AttemptReply (RunRepository.transition_attempt clk a st)
  | OpClaimAttempt clk a n l now => fmapM AttemptReply (RunRepository.claim_attempt clk a n l now)
  | OpRenewLease clk a n l now => fmapM AttemptReply (RunRepository.renew_attempt_lease clk a n l now)
  | OpExpireLeases clk now => fmapM ReapedReply (RunRepository.expire_attempt_leases clk now)
  | OpCompleteAttempt clk a st r => fmapM AttemptReply (RunRepository.complete_attempt clk a st r)
  | OpAppendEvent e => fmapM EventReply (RunRepository.append_event e)
  | OpListEvents r after => fmapM EventsReply (RunRepository.list_events r after)
  | OpCreateArtifact x => fmapM ArtifactReply (RunRepository.create_artifact x)
  | OpGetArtifact i => fmapM ArtifactReply (RunRepository.get_artifact i)
  | OpListArtifacts r => fmapM ArtifactsReply (RunRepository.list_artifacts r)
  end.

(** The same calls on the database, with no other transaction between their
    statements and no row locked. *)
Definition alone {A} : A -> database -> database := fun _ db => db.
Definition call_sql (o : repo_op) : M database reply :=
  match o with
  | OpCreate clk fresh e p k =>
      fmapM (fun rb => CreatedReply rb.1 rb.2) (create_or_get alone clk fresh e p k)
  | OpListRuns => fmapM RunsReply list_runs
  | OpGetRun r => fmapM RunReply (get_run r)
  | OpTransition clk r st => fmapM RunReply (transition clk r st)
  | OpCancel clk r => fmapM RunReply (cancel clk r)
  | OpCreateAttempt clk fresh r a => fmapM AttemptReply (create_attempt id clk fresh r a)
  | OpBeginAttempt clk r a n l => fmapM (fun ra => BegunReply ra.1 ra.2) (begin_attempt id clk r a n l)
  | OpGetAttempt a => fmapM AttemptReply (get_attempt a)
  | OpListAttempts r => fmapM AttemptsReply (list_attempts r)
  | OpTransitionAttempt clk a st => fmapM AttemptReply (transition_attempt clk a st)
  | OpClaimAttempt clk a n l now => fmapM AttemptReply (claim_attempt clk a n l now)
  | OpRenewLease clk a n l now => fmapM AttemptReply (renew_attempt_lease clk a n l now)
  | OpExpireLeases clk now => fmapM ReapedReply (expire_attempt_leases (fun _ => false) clk now)
  | OpCompleteAttempt clk a st r => fmapM AttemptReply (complete_attempt clk a st r)
  | OpAppendEvent e => fmapM EventReply (append_event alone e)
  | OpListEvents r after => fmapM EventsReply (list_events r after)
  | OpCreateArtifact x => fmapM ArtifactReply (create_artifact alone x)
  | OpGetArtifact i => fmapM ArtifactReply (get_artifact i)
  | OpListArtifacts r => fmapM ArtifactsReply (list_artifacts r)
  end.

(** Events up to their cursor; runs created at the same time in any order; the reaped
    attempts in any order; everything else equal. *)
Definition same_event (e e' : EventRecord.t) : Prop := e = renumbered (EventRecord.cursor e) e'.
Definition same_reply (x y : reply) : Prop :=
  match x, y with
  | RunsReply l, RunsReply l' => l ≡ₚ l' /\ map RunRecord.created_at l = map RunRecord.created_at l'
  | ReapedReply l, ReapedReply l' => l ≡ₚ l'
  | EventReply e, EventReply e' => same_event e e'
  | EventsReply l, EventsReply l' => Forall2 same_event l l'
  | _, _ => x = y
  end.

Definition sim {A B} (rel : A -> B -> Prop) (x : res A * database) (y : res B * store) : Prop :=
  match x.1, y.1 with Ok a, Ok b => rel a b | Err e, Err e' => e = e' | _, _ => False end
  /\ refines x.2 y.2.

Lemma sim_fmap {A B} (rel : A -> B -> Prop) (f : A -> reply) (g : B -> reply)
    (c : M database A) (d : M store B) db s :
  (forall a b, rel a b -> same_reply (f a) (g b)) ->
  sim rel (c db) (d s) -> sim same_reply (fmapM f c db) (fmapM g d s).
Proof.
  intros Hrel. unfold fmapM, bind, ret. destruct (c db) as [[a|e] db'], (d s) as [[b|e'] s'];
    unfold sim; simpl; intros [? ?]; auto; done.
Qed.

Lemma sim_ok {A B} (rel : A -> B -> Prop) a b db s :
  rel a b -> refines db s -> sim rel (Ok a, db) (Ok b, s).
Proof. by split. Qed.
Lemma sim_err {A B} (rel : A -> B -> Prop) e db s :
  refines db s -> sim rel (Err e, db) (Err e, s).
Proof. by split. Qed.

(** ** Runs *)

Lemma get_run_sim db s i : refines db s -> RunsFacts.wf s -> is_uuid i ->
  sim eq (get_run i db) (RunRepository.get_run i s).
Proof.
  intros Rf W Hi. unfold get_run, RunRepository.get_run, RunRepository._get_locked.
  destruct (run_viewP db s i Rf W Hi) as [r key fp Hr _ _ _ Hq Ht|Hr _ Hq _]; sql_simpl; rewrite Hq.
  - rewrite Ht. by apply sim_ok.
  - by apply sim_err.
Qed.

Lemma transition_sim db s clk i st : refines db s -> RunsFacts.wf s -> is_uuid i ->
  sim eq (transition clk i st db) (RunRepository.transition clk i st s).
Proof.
  intros Rf W Hi. unfold transition, RunRepository.transition, RunRepository._get_locked. sql_simpl.
  destruct (run_viewP db s i Rf W Hi) as [r key fp Hr _ Hrow Hq _ Ht|Hr Hq _ _]; rewrite Hq;
    [rewrite Ht | by apply sim_err].
  destruct (RunRecord.with_state (clk 0%nat) r st) as [r'|e] eqn:E; [| by apply sim_err].
  apply sim_ok; [done |]. apply refines_put_run; try done. by eapply RunsFacts.run_evolves_step.
Qed.

Lemma cancel_sim db s clk i : refines db s -> RunsFacts.wf s -> is_uuid i ->
  sim eq (cancel clk i db) (RunRepository.cancel clk i s).
Proof.
  intros Rf W Hi. unfold cancel, RunRepository.cancel, RunRepository._get_locked. sql_simpl.
  destruct (run_viewP db s i Rf W Hi) as [r key fp Hr _ Hrow Hq _ Ht|Hr Hq _ _]; rewrite Hq;
    [rewrite Ht | by apply sim_err].
  case_bool_decide; [by apply sim_err |]. case_bool_decide; [by apply sim_ok |].
  destruct (RunRecord.with_state (clk 0%nat) r RunState.CANCELLING) as [r'|e] eqn:E; [| by apply sim_err].
  apply sim_ok; [done |]. apply refines_put_run; try done. by eapply RunsFacts.run_evolves_step.
Qed.

(** A key that is blank once stripped. *)
Definition blank_key (key : option string) : Prop :=
  exists k, key = Some k /\ k <> EmptyString /\ strip k = EmptyString.

Lemma sql_key_effective key : ~ blank_key key ->
  sql_key key = RunRepository.effective_key key /\ truthy (sql_key key) = RunRepository.effective_key key.
Proof.
  unfold sql_key, RunRepository.effective_key, empty_str. intros Hb. destruct key as [k|]; [| done].
  destruct (decide (k = EmptyString)) as [->|Hk]; [done |].
  assert (strip k <> EmptyString) as Hs by (intros ?; apply Hb; by exists k).
  rewrite (bool_decide_false (k = EmptyString)), (bool_decide_false (strip k = EmptyString)) by done.
  cbn [truthy]. unfold empty_str. by rewrite bool_decide_false.
Qed.

Lemma effective_key_nonempty key k : RunRepository.effective_key key = Some k -> k <> EmptyString.
Proof.
  unfold RunRepository.effective_key, empty_str. destruct key as [k'|]; [| done].
  case_bool_decide; [done |]. by intros [= <-].
Qed.

(** The row that holds an idempotency key. *)
Lemma get_by_key_eq db s k : refines db s -> RunsFacts.wf s ->
  match keys_of s !! k with
  | Some (f, i) => exists r, runs s !! i = Some r /\ is_uuid (RunRecord.id r)
      /\ run_row (Some k) f r ∈ select (test_runs db)
      /\ _get_by_key k db = (Ok (Some (run_row (Some k) f r)), db)
  | None => _get_by_key k db = (Ok None, db)
  end.
Proof.
  intros Rf W. unfold _get_by_key, query.
  destruct (select_first _ (test_runs db)) as [m|] eqn:E.
  - apply select_first_Some in E as [Hm E]. apply bool_decide_eq_true in E.
    destruct (rf_run_rows _ _ Rf _ Hm) as (r & Hr & Em). rewrite E in Em.
    assert (keys_of s !! k = Some (RunModel.fingerprint m, RunRecord.id r)) as ->.
    { apply (rf_keys _ _ Rf). exists r. split; [done |]. by rewrite <- Em. }
    exists r. split; [done |]. split; [by eapply rf_run_id |]. by rewrite <- Em.
  - rewrite select_first_None in E. destruct (keys_of s !! k) as [[f i]|] eqn:Ek; [exfalso | done].
    apply (rf_keys _ _ Rf) in Ek as (r & _ & Hrow). specialize (E _ Hrow).
    by apply bool_decide_eq_false in E.
Qed.

Lemma create_row_sim db s clk fresh engine p key fp rel :
  refines db s -> RunsFacts.wf s -> is_uuid fresh -> runs s !! fresh = None ->
  (forall k, key = Some k -> keys_of s !! k = None /\ k <> EmptyString) ->
  let run := RunRecord.mk fresh engine p RunState.CREATED (clk 0%nat) (clk 0%nat) 0 in
  let s' := RunRepository.mk (<[fresh := run]> (runs s))
              (match key with Some k => <[k := (fp, fresh)]> (keys_of s) | None => keys_of s end)
              (attempts s) (events s) (RunRepository._event_sequences s) (artifacts s)
              (RunRepository._next_cursor s) in
  rel (run, false) (run, false) ->
  exists db', (let* stored := add_run (run_row key fp run) in
               let* r := lift (_to_record stored) in ret (r, false)) db = (Ok (run, false), db')
    /\ sim rel (Ok (run, false), db') (Ok (run, false), s').
Proof.
  intros Rf W Hu Hnew Hkey run s' Hrel.
  destruct (refines_add_run db s key fp run) as (db' & Hadd & Rf'); [done..|].
  exists db'. sql_simpl. rewrite Hadd, to_record_row by done. split; [done |]. by split.
Qed.

(** The in-memory call, as one decision. *)
Lemma memory_create_eq clk fresh engine p key s :
  RunRepository.create_or_get clk fresh engine p key s =
  match RunRepository._fingerprint engine p with
  | Err e => (Err e, s)
  | Ok fp =>
      let run := RunRecord.mk fresh engine p RunState.CREATED (clk 0%nat) (clk 0%nat) 0 in
      let k := RunRepository.effective_key key in
      let s' := RunRepository.mk (<[fresh := run]> (runs s))
                  (match k with Some k => <[k := (fp, fresh)]> (keys_of s) | None => keys_of s end)
                  (attempts s) (events s) (RunRepository._event_sequences s) (artifacts s)
                  (RunRepository._next_cursor s) in
      match k with
      | Some k =>
          match keys_of s !! k with
          | Some (f, i) =>
              if negb (bool_decide (f = fp)) then (Err IdempotencyConflict, s)
              else match runs s !! i with Some r => (Ok (r, true), s) | None => (Err KeyError, s) end
          | None => (Ok (run, false), s')
          end
      | None => (Ok (run, false), s')
      end
  end.
Proof.
  unfold RunRepository.create_or_get, RunRepository.index. sql_simpl.
  destruct (RunRepository._fingerprint engine p); [| done].
  destruct (RunRepository.effective_key key) as [k|]; [| done].
  destruct (keys_of s !! k) as [[f i]|]; [| done]. case_bool_decide; [| done]. cbn [negb].
  by destruct (runs s !! i).
Qed.

Lemma add_run_conflict db s k f fp i r :
  refines db s -> keys_of s !! k = Some (f, i) ->
  add_run (run_row (Some k) fp r) db = (Err IntegrityError, db).
Proof.
  intros Rf Hk. apply (rf_keys _ _ Rf) in Hk as (x & _ & Hrow). unfold add_run.
  rewrite insert_clash; [done |]. exists (run_row (Some k) f x). split; [done |].
  apply clash_run. right. by exists k.
Qed.

(** The row found under the key of a request, answered. *)
Lemma resolve_sim db s k f i r fp :
  refines db s -> is_uuid (RunRecord.id r) -> keys_of s !! k = Some (f, i) -> runs s !! i = Some r ->
  sim eq (_resolve_idempotency (run_row (Some k) f r) fp, db)
    (if negb (bool_decide (f = fp)) then (Err IdempotencyConflict, s)
     else match runs s !! i with Some r => (Ok (r, true), s) | None => (Err KeyError, s) end).
Proof.
  intros Rf Hu Hk Hr. unfold _resolve_idempotency.
  change (RunModel.fingerprint (run_row (Some k) f r)) with f.
  case_bool_decide; cbn [negb]; [| by apply sim_err].
  rewrite to_record_row by done. rewrite Hr. by apply sim_ok.
Qed.

(** With other transactions in between, [s] seen by the first lookup, [s1] by the
    insert and [s2] by the lookup after a failed insert, the call answers as the
    in-memory one does at one of the three. *)
Lemma create_or_get_linear others db clk fresh engine p key s s1 s2 :
  refines db s -> refines (others 0%nat db) s1 -> refines (others 1%nat (others 0%nat db)) s2 ->
  RunsFacts.wf s -> RunsFacts.good s s1 -> RunsFacts.good s1 s2 ->
  is_uuid fresh -> runs s2 !! fresh = None -> ~ blank_key key ->
  exists s0, (s0 = s \/ s0 = s1 \/ s0 = s2)
    /\ sim eq (create_or_get others clk fresh engine p key db)
              (RunRepository.create_or_get clk fresh engine p key s0).
Proof.
  intros Rf Rf1 Rf2 W [W1 Hev] [W2 Hev2] Hu Hnew2 Hb.
  assert (runs s1 !! fresh = None) as Hnew.
  { apply eq_None_not_Some. intros [r Hr]. destruct (RunsFacts.ev_runs _ _ Hev2 _ _ Hr) as (? & ? & _). congruence. }
  unfold create_or_get. destruct (sql_key_effective key Hb) as [-> ->].
  pose proof (effective_key_nonempty key) as Hne. unfold bind at 1, lift at 1.
  destruct (RunRepository._fingerprint engine p) as [fp|e] eqn:Ef.
  2: { exists s. split; [by left |]. rewrite memory_create_eq, Ef. by apply sim_err. }
  cbv zeta. set (run := RunRecord.mk fresh engine p RunState.CREATED (clk 0%nat) (clk 0%nat) 0).
  change (RunModel.mk (uuid_str fresh) _ p ?k fp _ _ _ 0) with (run_row k fp run).
  unfold try_except, committed.
  destruct (RunRepository.effective_key key) as [k|] eqn:Ekey.
  2: { exists s1. split; [auto |]. rewrite memory_create_eq, Ef, Ekey.
       destruct (create_row_sim (others 0%nat db) s1 clk fresh engine p None fp eq) as (db' & Hadd & Hs); try done.
       unfold bind at 1. cbn beta iota. fold run in Hadd. rewrite Hadd. exact Hs. }
  unfold bind at 1. pose proof (get_by_key_eq db s k Rf W) as Hq.
  destruct (keys_of s !! k) as [[f i]|] eqn:Ek.
  { destruct Hq as (r & Hr & Hru & _ & Hq). exists s. split; [by left |]. rewrite Hq.
    rewrite memory_create_eq, Ef, Ekey. cbv beta iota zeta. rewrite Ek. pose proof (resolve_sim db s k f i r fp Rf Hru Ek Hr) as Hs.
    unfold lift. unfold _resolve_idempotency in *. cbn beta iota zeta.
    case_bool_decide; cbn [negb] in *; [| exact Hs]. rewrite to_record_row in * by done. exact Hs. }
  rewrite Hq. cbn beta iota. destruct (keys_of s1 !! k) as [[f i]|] eqn:Ek1.
  - exists s2. split; [auto |]. apply (RunsFacts.ev_idempotency _ _ Hev2) in Ek1 as Ek2.
    pose proof (get_by_key_eq _ s2 k Rf2 W2) as Hq2. rewrite Ek2 in Hq2.
    destruct Hq2 as (r & Hr & Hru & _ & Hq2).
    unfold bind at 1 2. rewrite (add_run_conflict _ s1 k f fp i run Rf1 Ek1). cbn beta iota.
    unfold is_IntegrityError. rewrite bool_decide_true by done. unfold bind. rewrite Hq2.
    rewrite memory_create_eq, Ef, Ekey. cbv beta iota zeta. rewrite Ek2. exact (resolve_sim _ _ _ _ _ _ _ Rf2 Hru Ek2 Hr).
  - exists s1. split; [auto |]. rewrite memory_create_eq, Ef, Ekey. cbv beta iota zeta. rewrite Ek1.
    destruct (create_row_sim (others 0%nat db) s1 clk fresh engine p (Some k) fp eq) as (db' & Hadd & Hs); try done.
    { intros k' [= <-]. auto. }
    unfold bind at 1. cbn beta iota. fold run in Hadd. rewrite Hadd. exact Hs.
Qed.

Lemma create_or_get_sim db s clk fresh engine p key :
  refines db s -> RunsFacts.wf s -> is_uuid fresh -> runs s !! fresh = None -> ~ blank_key key ->
  sim eq (create_or_get alone clk fresh engine p key db)
         (RunRepository.create_or_get clk fresh engine p key s).
Proof.
  intros Rf W Hu Hnew Hb. pose proof (RunsFacts.good_refl s W) as Hg.
  destruct (create_or_get_linear alone db clk fresh engine p key s s s) as (s0 & [->|[->| ->]] & Hs); done.
Qed.

(** ** Attempts *)

Lemma create_attempt_sim db s clk fresh i a :
  refines db s -> RunsFacts.wf s -> is_uuid i ->
  is_uuid (match a with Some x => x | None => fresh end) ->
  sim eq (create_attempt id clk fresh i a db) (RunRepository.create_attempt clk fresh i a s).
Proof.
  intros Rf W Hi Ha. unfold create_attempt, RunRepository.create_attempt, RunRepository._get_locked.
  set (j := match a with Some x => x | None => fresh end) in *. sql_simpl.
  destruct (run_viewP db s i Rf W Hi) as [r key fp Hr _ Hrow Hq _ Ht|Hr Hq _ _]; rewrite Hq;
    [| by apply sim_err].
  unfold has_key.
  destruct (attempt_viewP db s j Rf W Ha) as [x Hx _ _ _ _ Hg _|Hx _ Hg _]; rewrite Hg.
  { rewrite bool_decide_true by by eexists. by apply sim_err. }
  rewrite bool_decide_false by by intros [? ?].
  set (p := AttemptRecord.pending j i (clk 0%nat)).
  destruct (refines_add_attempt db s p) as (db' & Hadd & Rf' & _); [done.. | by eexists | done |].
  cbn [TaskEnvelope.is_some]. unfold flush_new_attempt, id. sql_simpl.
  change (attempt_model p) with (attempt_row p). rewrite Hadd.
  rewrite attempt_to_record_row by done. by apply sim_ok.
Qed.

(** A read, a computation and a write: the shape of the updates of an attempt. *)
Lemma update_attempt_sim db s i compute apply :
  refines db s -> RunsFacts.wf s -> is_uuid i ->
  (forall a a', compute a = Ok a' -> AttemptRecord.id a' = AttemptRecord.id a
                                     /\ apply (attempt_row a) a' = attempt_row a') ->
  sim eq (update_attempt i compute apply db)
    ((let* current := RunRepository._get_attempt_locked i in
      let* updated := lift (compute current) in
      RunRepository.set_attempts (fun d => <[i := updated]> d) ;;;
      ret updated) s).
Proof.
  intros Rf W Hi Hap. unfold update_attempt, RunRepository._get_attempt_locked. sql_simpl.
  destruct (attempt_viewP db s i Rf W Hi) as [a Ha _ _ Hrow Hq _ Ht|Ha Hq _ _]; rewrite Hq;
    [rewrite Ht | by apply sim_err].
  destruct (compute a) as [a'|e] eqn:E; [| by apply sim_err].
  destruct (Hap a a' E) as [Hid ->]. apply sim_ok; [done |]. by eapply refines_put_attempt.
Qed.

Lemma transition_attempt_sim db s clk i st : refines db s -> RunsFacts.wf s -> is_uuid i ->
  sim eq (transition_attempt clk i st db) (RunRepository.transition_attempt clk i st s).
Proof.
  intros Rf W Hi. apply update_attempt_sim; try done. intros a a' E.
  split; [by apply attempt_with_state_Ok in E as (_ & _ & (? & _) & _) | by eapply apply_attempt_state_row].
Qed.

Lemma complete_attempt_sim db s clk i st r : refines db s -> RunsFacts.wf s -> is_uuid i ->
  sim eq (complete_attempt clk i st r db) (RunRepository.complete_attempt clk i st r s).
Proof.
  intros Rf W Hi. apply update_attempt_sim; try done. intros a a' E.
  split; [by apply attempt_with_result_Ok in E as (_ & _ & (? & _) & _)
         | by eapply apply_attempt_result_row].
Qed.

Lemma claim_attempt_sim db s clk i n l now : refines db s -> RunsFacts.wf s -> is_uuid i ->
  sim eq (claim_attempt clk i n l now db) (RunRepository.claim_attempt clk i n l now s).
Proof.
  intros Rf W Hi. apply (update_attempt_sim db s i); try done. intros a a' E.
  apply attempt_claimed_Ok in E as (_ & _ & Hf & _). split; [by destruct Hf | by apply apply_attempt_row].
Qed.

Lemma renew_lease_sim db s clk i n l now : refines db s -> RunsFacts.wf s -> is_uuid i ->
  sim eq (renew_attempt_lease clk i n l now db) (RunRepository.renew_attempt_lease clk i n l now s).
Proof.
  intros Rf W Hi. apply (update_attempt_sim db s i); try done. intros a a' E.
  apply attempt_with_heartbeat_Ok in E as (_ & _ & Hf & _). split; [by destruct Hf | by apply apply_attempt_row].
Qed.

Lemma claimed_pending_row clk i j n l now a :
  AttemptRecord.claimed clk (AttemptRecord.pending i j now) n l now = Ok a ->
  attempt_model a = attempt_row a /\ AttemptRecord.id a = i /\ AttemptRecord.run_id a = j.
Proof.
  unfold AttemptRecord.claimed. case_match; [done |]. case_match; [done |].
  intros (c & Hc & (x & _ & [= <-])%rbind_Ok)%rbind_Ok.
  unfold AttemptRecord.with_state in Hc. by apply rbind_Ok in Hc as (y & _ & [= <-]).
Qed.

Definition begins_late (s : store) (run attempt : uuid) : Prop :=
  is_Some (attempts s !! attempt)
  /\ exists r, runs s !! run = Some r /\ RunState.RUNNING ∉ RUN_TRANSITIONS (RunRecord.state r).

Lemma begin_attempt_sim db s clk i j n l :
  refines db s -> RunsFacts.wf s -> is_uuid i -> is_uuid j -> ~ begins_late s i j ->
  sim eq (begin_attempt id clk i j n l db) (RunRepository.begin_attempt clk i j n l s).
Proof.
  intros Rf W Hi Hj Hlate.
  unfold begin_attempt, RunRepository.begin_attempt, RunRepository._get_locked. sql_simpl.
  destruct (run_viewP db s i Rf W Hi) as [r key fp Hr Hid Hrow Hq _ Ht|Hr Hq _ _]; rewrite Hq;
    [rewrite Ht | by apply sim_err].
  unfold has_key. destruct (RunRecord.with_state (clk 0%nat) r RunState.RUNNING) as [r'|e] eqn:Er.
  2: { destruct (attempt_viewP db s j Rf W Hj) as [x Hx _ _ _ _ _ _|Hx _ _ _].
       - exfalso. apply Hlate. split; [by eexists |]. exists r. split; [done |].
         by apply run_with_state_Err in Er as [_ ?].
       - rewrite bool_decide_false by by intros [? ?]. by apply sim_err. }
  destruct (attempt_viewP db s j Rf W Hj) as [x Hx _ _ _ _ Hg _|Hx _ Hg _]; rewrite Hg.
  { rewrite bool_decide_true by by eexists. by apply sim_err. }
  rewrite bool_decide_false by by intros [? ?]. cbn [TaskEnvelope.is_some].
  destruct (AttemptRecord.claimed _ _ n l _) as [a|e] eqn:Ea; [| by apply sim_err].
  destruct (claimed_pending_row _ _ _ _ _ _ _ Ea) as (Hmodel & Hai & Har).
  destruct (refines_add_attempt db s a) as (db' & Hadd & Rf' & Hruns).
  1-6: rewrite ?Hai, ?Har; try done; by eexists.
  unfold flush_new_attempt, id. sql_simpl. rewrite Hmodel, Hadd. rewrite Hai in Rf'.
  set (s1 := (RunRepository.set_attempts (fun d => <[j:=a]> d) s).2) in *.
  assert (RunsFacts.wf s1) as W1.
  { apply (RunsFacts.good_put_attempt s j a W Hai); [rewrite Har; by eexists |]. intros b Hb. congruence. }
  apply sim_ok; [done |].
  apply (refines_put_run db' s1 i key fp r r'); try done; [by rewrite Hruns |].
  by eapply RunsFacts.run_evolves_step.
Qed.

Lemma get_attempt_sim db s i : refines db s -> RunsFacts.wf s -> is_uuid i ->
  sim eq (get_attempt i db) (RunRepository.get_attempt i s).
Proof.
  intros Rf W Hi. unfold get_attempt, RunRepository.get_attempt, RunRepository._get_attempt_locked.
  sql_simpl.
  destruct (attempt_viewP db s i Rf W Hi) as [a Ha _ _ _ _ Hq Ht|Ha _ Hq _]; rewrite Hq; cbn beta iota.
  - rewrite Ht. by apply sim_ok.
  - by apply sim_err.
Qed.

(** ** Listings *)

(** The composite key of [order_by(created_at, id)]. *)
Definition time_id_key {A} (time : A -> datetime) (id : A -> uuid) (x : A) : Z :=
  (time x * 2 ^ 128 + Z.of_N (id x))%Z.

Lemma time_id_key_leb (t t' : Z) (u u' : uuid) : is_uuid u -> is_uuid u' ->
  ((t <? t') || ((t =? t') && (Z.of_N u <=? Z.of_N u')))%Z
  = (t * 2 ^ 128 + Z.of_N u <=? t' * 2 ^ 128 + Z.of_N u')%Z.
Proof.
  unfold is_uuid. intros Hu Hu'. apply N2Z.inj_lt in Hu, Hu'.
  change (Z.of_N (2 ^ 128)) with (2 ^ 128)%Z in *. revert Hu Hu'. generalize (2 ^ 128)%Z. intros B Hu Hu'.
  destruct (Z.leb_spec (t * B + Z.of_N u) (t' * B + Z.of_N u')) as [Hle|Hgt].
  - apply orb_true_iff. rewrite andb_true_iff, Z.ltb_lt, Z.eqb_eq, Z.leb_le. nia.
  - apply orb_false_iff. rewrite andb_false_iff, Z.ltb_ge, Z.eqb_neq, Z.leb_gt. nia.
Qed.

Lemma by_key2_key {A} (time : A -> datetime) (id : A -> uuid) l :
  (forall x, x ∈ l -> is_uuid (id x)) ->
  py_sorted (by_key2 time id) l = py_sorted (by_key (time_id_key time id)) l.
Proof.
  intros Hid. unfold py_sorted. assert (forall l', (forall x, x ∈ l' -> x ∈ l) ->
    foldr (insert_sorted (by_key2 time id)) [] l' = foldr (insert_sorted (by_key (time_id_key time id))) [] l')
    as Hall; [| by apply Hall].
  induction l' as [|x l' IH]; intros Hsub; [done |]. simpl. rewrite IH by (intros; apply Hsub; by right).
  assert (forall y, y ∈ foldr (insert_sorted (by_key (time_id_key time id))) [] l' -> y ∈ l) as Hin.
  { intros y Hy. change (y ∈ py_sorted (by_key (time_id_key time id)) l') in Hy.
    apply elem_of_py_sorted in Hy. apply Hsub. by right. }
  assert (x ∈ l) as Hx by (apply Hsub; by left). revert Hin.
  generalize (foldr (insert_sorted (by_key (time_id_key time id))) [] l'). intros m Hm.
  induction m as [|y m IHm]; [done |]. simpl.
  assert (by_key2 time id x y = by_key (time_id_key time id) x y) as ->.
  { apply time_id_key_leb; [by apply Hid | apply Hid, Hm; by left]. }
  case_match; [done |]. f_equal. apply IHm. intros z Hz. apply Hm. by right.
Qed.

Lemma time_id_key_inj {A} (time : A -> datetime) (id : A -> uuid) x y :
  is_uuid (id x) -> is_uuid (id y) -> time_id_key time id x = time_id_key time id y -> id x = id y.
Proof.
  unfold time_id_key, is_uuid. intros Hx Hy. apply N2Z.inj_lt in Hx, Hy.
  change (Z.of_N (2 ^ 128)) with (2 ^ 128)%Z in *. revert Hx Hy. generalize (2 ^ 128)%Z. intros B Hx Hy E.
  pose proof (N2Z.is_nonneg (id x)). pose proof (N2Z.is_nonneg (id y)).
  assert (time x = time y) by nia. apply N2Z.inj. lia.
Qed.

Lemma rmap_Forall2 {A B} (f : A -> res B) l l' : Forall2 (fun x y => f x = Ok y) l l' -> rmap f l = Ok l'.
Proof. apply rmap_Ok. Qed.

Lemma listing_sim {Row Rec} (f : Row -> res Rec) (P : Row -> Rec -> Prop) leb
    (time : Rec -> datetime) (id : Rec -> uuid) ms recs :
  NoDup ms -> NoDup recs ->
  (forall m, m ∈ ms -> exists r, r ∈ recs /\ P m r) ->
  (forall r, r ∈ recs -> exists m, m ∈ ms /\ P m r) ->
  (forall m r, r ∈ recs -> P m r -> f m = Ok r) ->
  (forall m m' r, m ∈ ms -> m' ∈ ms -> r ∈ recs -> P m r -> P m' r -> m = m') ->
  (forall r, r ∈ recs -> is_uuid (id r)) ->
  (forall r r', r ∈ recs -> r' ∈ recs -> id r = id r' -> r = r') ->
  (forall m r m' r', P m r -> P m' r' ->
     leb m m' = (time r <? time r')%Z
                || ((time r =? time r')%Z && str_leb (uuid_str (id r)) (uuid_str (id r')))) ->
  rmap f (py_sorted leb ms) = Ok (py_sorted (by_key (time_id_key time id)) recs).
Proof.
  intros Nm Nr Hto Hfrom Hf Hinj Hid Huniq Hleb. apply rmap_Forall2.
  apply (Forall2_impl (fun m r => r ∈ recs /\ P m r)); [| intros m r [? ?]; by apply Hf].
  apply listing_rel; try done.
  - intros m Hm. destruct (Hto m Hm) as (r & ? & ?). eauto.
  - intros r Hr. destruct (Hfrom r Hr) as (m & ? & ?). eauto.
  - intros m m' r Hm Hm' Hr [_ ?] [_ ?]. eauto.
  - intros m r r' Hm _ _ [Hr Hp] [Hr' Hp']. apply Hf in Hp, Hp'; [congruence | done..].
  - intros m r m' r' _ Hr _ Hr' [_ Hp] [_ Hp']. rewrite (Hleb _ _ _ _ Hp Hp').
    rewrite uuid_str_leb by auto. apply time_id_key_leb; auto.
  - intros r r' Hr Hr' HK. apply Huniq; try done. by eapply time_id_key_inj; eauto.
Qed.

Lemma NoDup_rows `{TableLaws Row} (t : table Row) : NoDup (select t).
Proof. pose proof (select_keys t) as Hn. by apply NoDup_fmap_1 in Hn. Qed.

Lemma NoDup_Lfilter {A} (p : A -> bool) (l : list A) : NoDup l -> NoDup (List.filter p l).
Proof. intros Hn. pose proof (NoDup_map_filter id p l) as Hf. rewrite !map_id in Hf. auto. Qed.

Lemma elem_of_Lfilter {A} (p : A -> bool) x l : x ∈ List.filter p l <-> x ∈ l /\ p x = true.
Proof. rewrite !list_elem_of_In. apply filter_In. Qed.

Lemma list_attempts_sim db s i : refines db s -> RunsFacts.wf s -> is_uuid i ->
  sim eq (list_attempts i db) (RunRepository.list_attempts i s).
Proof.
  intros Rf W Hi. unfold list_attempts, RunRepository.list_attempts, RunRepository._get_locked. sql_simpl.
  destruct (run_viewP db s i Rf W Hi) as [r key fp Hr _ _ _ Hq _|Hr _ Hq _]; rewrite Hq; [| by apply sim_err].
  assert (forall a, a ∈ values (attempts s) <-> attempts s !! AttemptRecord.id a = Some a) as Hval.
  { intros a. rewrite elem_of_values. split; [| by eauto]. intros [j Hj].
    by destruct (RunsFacts.wf_attempts _ W _ _ Hj) as [-> _]. }
  assert (forall a, a ∈ values (attempts s) -> is_uuid (AttemptRecord.id a)) as Hids.
  { intros a Ha%Hval. by eapply rf_attempt_id. }
  unfold select_where. rewrite by_key2_key by (intros a [Ha _]%elem_of_Lfilter; auto).
  rewrite (listing_sim _ (fun m a => m = attempt_row a) _ AttemptRecord.created_at AttemptRecord.id
             _ (List.filter (fun a => bool_decide (AttemptRecord.run_id a = i)) (values (attempts s)))).
  - by apply sim_ok.
  - apply NoDup_Lfilter, NoDup_rows.
  - apply NoDup_Lfilter, (values_nodup _ AttemptRecord.id). intros j a Hj.
    by destruct (RunsFacts.wf_attempts _ W _ _ Hj).
  - intros m [Hm Hp]%elem_of_Lfilter. apply (rf_attempts _ _ Rf) in Hm as (a & Ha & ->). exists a.
    split; [| done]. apply elem_of_Lfilter. split; [by apply Hval |]. bool_prop.
    apply bool_decide_eq_true. apply uuid_text_inj in Hp; [done | | done].
    destruct (RunsFacts.wf_attempts _ W _ _ Ha) as [_ [x Hx]]. by eapply rf_run_id.
  - intros a [Ha Hp]%elem_of_Lfilter. exists (attempt_row a). split; [| done].
    apply elem_of_Lfilter. split; [apply (rf_attempts _ _ Rf); exists a; by split; [apply Hval |] |].
    bool_prop. by apply bool_decide_eq_true, (f_equal uuid_str).
  - intros m a [Ha _]%elem_of_Lfilter ->. apply attempt_to_record_row; [by apply Hids |].
    apply Hval in Ha. destruct (RunsFacts.wf_attempts _ W _ _ Ha) as [_ [x Hx]]. by eapply rf_run_id.
  - by intros m m' a _ _ _ -> ->.
  - intros a [Ha _]%elem_of_Lfilter. by apply Hids.
  - intros a b [Ha%Hval _]%elem_of_Lfilter [Hb%Hval _]%elem_of_Lfilter E. congruence.
  - by intros m a m' b -> ->.
Qed.

Lemma list_artifacts_sim db s i : refines db s -> RunsFacts.wf s -> is_uuid i ->
  sim eq (list_artifacts i db) (RunRepository.list_artifacts i s).
Proof.
  intros Rf W Hi. unfold list_artifacts, RunRepository.list_artifacts, RunRepository._get_locked. sql_simpl.
  destruct (run_viewP db s i Rf W Hi) as [r key fp Hr _ _ _ Hq _|Hr _ Hq _]; rewrite Hq; [| by apply sim_err].
  assert (forall x, x ∈ values (artifacts s) <-> artifacts s !! ArtifactRecord.id x = Some x) as Hval.
  { intros x. rewrite elem_of_values. split; [| by eauto]. intros [j Hj].
    by destruct (RunsFacts.wf_artifacts _ W _ _ Hj) as [-> _]. }
  assert (forall x, x ∈ values (artifacts s) -> is_uuid (ArtifactRecord.id x)
    /\ is_uuid (ArtifactRecord.run_id x) /\ is_uuid (ArtifactRecord.attempt_id x)) as Hids.
  { intros x Hx%Hval. split; [by eapply rf_artifact_id |].
    destruct (RunsFacts.wf_artifacts _ W _ _ Hx) as (_ & a & Ha & Hr').
    split; [| by eapply rf_attempt_id]. rewrite <- Hr'.
    destruct (RunsFacts.wf_attempts _ W _ _ Ha) as [_ [y Hy]]. by eapply rf_run_id. }
  unfold select_where. rewrite by_key2_key by (intros a [Ha _]%elem_of_Lfilter; by apply Hids).
  rewrite (listing_sim _ (fun m x => m = artifact_row x) _ ArtifactRecord.created_at ArtifactRecord.id
             _ (List.filter (fun x => bool_decide (ArtifactRecord.run_id x = i)) (values (artifacts s)))).
  - by apply sim_ok.
  - apply NoDup_Lfilter, NoDup_rows.
  - apply NoDup_Lfilter, (values_nodup _ ArtifactRecord.id). intros j x Hj.
    by destruct (RunsFacts.wf_artifacts _ W _ _ Hj).
  - intros m [Hm Hp]%elem_of_Lfilter. apply (rf_artifacts _ _ Rf) in Hm as (x & Hx & ->). exists x.
    split; [| done]. apply Hval in Hx. apply elem_of_Lfilter. split; [done |]. bool_prop.
    apply bool_decide_eq_true. apply uuid_text_inj in Hp; [done | by apply Hids | done].
  - intros x [Hx Hp]%elem_of_Lfilter. exists (artifact_row x). split; [| done].
    apply elem_of_Lfilter. split; [apply (rf_artifacts _ _ Rf); exists x; by split; [apply Hval |] |].
    bool_prop. by apply bool_decide_eq_true, (f_equal uuid_str).
  - intros m x [Hx _]%elem_of_Lfilter ->. by apply artifact_to_record_row; apply Hids.
  - by intros m m' a _ _ _ -> ->.
  - intros x [Hx _]%elem_of_Lfilter. by apply Hids.
  - intros x y [Hx%Hval _]%elem_of_Lfilter [Hy%Hval _]%elem_of_Lfilter E. congruence.
  - by intros m x m' y -> ->.
Qed.

Lemma sorted_keys_eq {A} (key : A -> Z) l l' :
  l ≡ₚ l' -> Sorted (fun a b => by_key key a b = true) l -> Sorted (fun a b => by_key key a b = true) l' ->
  map key l = map key l'.
Proof.
  intros Hp Hl Hl'. apply (Sorted_unique Z.le).
  - clear Hp Hl'. induction Hl as [|x m Hs IH Hh]; [constructor |]. constructor; [done |].
    destruct Hh; constructor. unfold by_key in *. by apply Z.leb_le.
  - clear Hp Hl. induction Hl' as [|x m Hs IH Hh]; [constructor |]. constructor; [done |].
    destruct Hh; constructor. unfold by_key in *. by apply Z.leb_le.
  - by apply (fmap_Permutation key).
Qed.

Lemma list_runs_sim db s : refines db s -> RunsFacts.wf s ->
  sim (fun l l' => same_reply (RunsReply l) (RunsReply l')) (list_runs db) (RunRepository.list_runs s).
Proof.
  intros Rf W. unfold list_runs, RunRepository.list_runs. sql_simpl.
  assert (forall r, r ∈ values (runs s) <-> runs s !! RunRecord.id r = Some r) as Hval.
  { intros r. rewrite elem_of_values. split; [| by eauto]. intros [j Hj].
    by rewrite (RunsFacts.wf_runs _ W _ _ Hj). }
  assert (forall r, r ∈ values (runs s) -> is_uuid (RunRecord.id r)) as Hids.
  { intros r Hr%Hval. by eapply rf_run_id. }
  unfold select_where.
  rewrite (listing_sim _ (fun m r => exists k f, m = run_row k f r) _ RunRecord.created_at RunRecord.id
             _ (values (runs s))).
  - apply sim_ok; [| done]. split; [by rewrite !py_sorted_perm |].
    apply sorted_keys_eq; [by rewrite !py_sorted_perm | |].
    + assert (Sorted (fun a b => by_key (time_id_key RunRecord.created_at RunRecord.id) a b = true)
                (py_sorted (by_key (time_id_key RunRecord.created_at RunRecord.id)) (values (runs s)))) as Hs
        by apply py_sorted_Sorted, by_key_total.
      assert (forall r, r ∈ py_sorted (by_key (time_id_key RunRecord.created_at RunRecord.id)) (values (runs s))
                -> is_uuid (RunRecord.id r)) as Hin by (intros r; rewrite elem_of_py_sorted; auto).
      revert Hs Hin. generalize (py_sorted (by_key (time_id_key RunRecord.created_at RunRecord.id)) (values (runs s))).
      intros l Hs. induction Hs as [|x l1 Hs IH Hh]; intros Hin; [constructor |].
      constructor; [apply IH; intros; apply Hin; by right |]. destruct Hh as [|y l2 Hxy]; constructor.
      unfold by_key in *. unfold time_id_key in Hxy.
      rewrite <- time_id_key_leb in Hxy by (apply Hin; rewrite !elem_of_cons; auto).
      apply orb_true_iff in Hxy as [Hxy|[Hxy _]%andb_true_iff]; bool_prop; apply Z.leb_le; lia.
    + apply py_sorted_Sorted, by_key_total.
  - apply NoDup_Lfilter, NoDup_rows.
  - apply (values_nodup _ RunRecord.id). intros j r Hj. by apply (RunsFacts.wf_runs _ W).
  - intros m [Hm _]%elem_of_Lfilter. destruct (rf_run_rows _ _ Rf _ Hm) as (r & Hr & Em).
    exists r. split; [by apply Hval |]. eauto.
  - intros r Hr%Hval. destruct (rf_runs _ _ Rf _ _ Hr) as (k & f & Hk). exists (run_row k f r).
    split; [by apply elem_of_Lfilter | by eauto].
  - intros m r Hr (k & f & ->). apply to_record_row. by apply Hids.
  - intros m m' r [Hm _]%elem_of_Lfilter [Hm' _]%elem_of_Lfilter _ (k & f & ->) (k' & f' & ->).
    by apply (rows_by_key (test_runs db)).
  - done.
  - intros r r' Hr%Hval Hr'%Hval E. congruence.
  - by intros m r m' r' (k & f & ->) (k' & f' & ->).
Qed.
End refinement.
