(* ===== verification/SqlRunEvents.v ===== *)
(** * Simulation of the SQL run repository: events and artifacts

    The database numbers events itself: cursors differ, their order does not. *)
From S2P Require Import Prelude PyDict PyText TextFacts Protocol Domain Sha256 Runs RunsFacts RunsTheorems Codecs Tables SqlRuns SqlRunRelation SqlRunSim.
Import SqlRunRepository.
Open Scope string_scope.
Open Scope list_scope.
#[local] Opaque uuid_str uuid_of_str enum_of run_state_value attempt_state_value Engine.value EventType.value ResultOutcome.value run_row attempt_row event_row artifact_row.

Section refinement.
  Context `{PyFloat} `{Driver}.
  Context `{!Table RunModel.t} `{!Table AttemptModel.t} `{!Table EventModel.t} `{!Table ArtifactModel.t}.
  Context `{!TableLaws RunModel.t} `{!TableLaws AttemptModel.t} `{!TableLaws EventModel.t} `{!TableLaws ArtifactModel.t}.

Notation store := RunRepository.t.
Notation runs := RunRepository._runs.
Notation attempts := RunRepository._attempts.
Notation events := RunRepository._events.
Notation artifacts := RunRepository._artifacts.
Notation keys_of := RunRepository._idempotency.

(** ** Events *)

Lemma same_event_renumbered c e : same_event (renumbered c e) e.
Proof. done. Qed.

Lemma event_matches_renumbered c e event :
  RunRepository._event_matches (renumbered c e) event = RunRepository._event_matches e event.
Proof. done. Qed.

Definition event_orphaned (s : store) (event : EventEnvelope.t) : Prop :=
  is_Some (events s !! EventEnvelope.event_id event)
  /\ attempts s !! EventEnvelope.attempt_id event = None.

Lemma event_matches_eq record event : RunRepository._event_matches record event = true ->
  EventRecord.attempt_id record = EventEnvelope.attempt_id event
  /\ EventRecord.run_id record = EventEnvelope.run_id event
  /\ EventRecord.engine record = EventEnvelope.engine event.
Proof. unfold RunRepository._event_matches. intros Hm. by bool_prop. Qed.

(** What the in-memory call answers about an event it has stored. *)
Lemma memory_append_stored s event e :
  RunsFacts.wf s -> events s !! EventEnvelope.event_id event = Some e ->
  is_Some (attempts s !! EventEnvelope.attempt_id event) ->
  RunRepository.append_event event s
  = (if RunRepository._event_matches e event then Ok e else Err EventConflict, s).
Proof.
  intros W He [a Ha]. destruct (RunsFacts.wf_events _ W _ _ He) as (_ & _ & _ & a' & r & Ha' & Har & Hr & Hre).
  destruct (RunsFacts.wf_attempts _ W _ _ Ha) as [_ [r0 Hr0]].
  unfold RunRepository.append_event, RunRepository._get_attempt_locked, RunRepository._get_locked.
  sql_simpl. rewrite Ha. cbn beta iota.
  destruct (RunRepository._event_matches e event) eqn:Em.
  - apply event_matches_eq in Em as Ef. destruct Ef as (E1 & E2 & E3).
    rewrite E1 in Ha'. rewrite Ha' in Ha. injection Ha as <-. rewrite E2 in Har, Hr.
    rewrite bool_decide_true by done. cbn [negb]. rewrite Hr. cbn beta iota.
    rewrite bool_decide_true by congruence. cbn [negb]. by rewrite He, Em.
  - case_bool_decide as E; cbn [negb]; [| done]. rewrite <- E, Hr0. cbn beta iota.
    case_bool_decide; cbn [negb]; [| done]. by rewrite He, Em.
Qed.

Lemma append_event_sim db s event :
  refines db s -> RunsFacts.wf s -> is_uuid (EventEnvelope.event_id event) ->
  is_uuid (EventEnvelope.run_id event) -> is_uuid (EventEnvelope.attempt_id event) ->
  ~ event_orphaned s event ->
  sim same_event (append_event alone event db) (RunRepository.append_event event s).
Proof.
  intros Rf W Hu Hru Hau Horph. unfold append_event. pose proof (get_event_eq db s _ Rf W Hu) as Hg.
  destruct (events s !! EventEnvelope.event_id event) as [e|] eqn:He.
  - destruct Hg as (c & Hrow & Hg).
    assert (is_Some (attempts s !! EventEnvelope.attempt_id event)) as Hatt.
    { apply not_eq_None_Some. intros Hn. apply Horph. split; [by rewrite He; eexists | done]. }
    rewrite (memory_append_stored s event e W He Hatt). sql_simpl. rewrite Hg. cbn beta iota.
    destruct (event_ids _ _ _ _ Rf W He) as (Hi & ? & ? & ?).
    unfold _resolve_event. rewrite event_to_record_row by (done || by rewrite Hi). sql_simpl.
    rewrite event_matches_renumbered. destruct (RunRepository._event_matches e event); cbn [negb].
    + apply sim_ok; [apply same_event_renumbered | done].
    + by apply sim_err.
  - unfold RunRepository.append_event, RunRepository._get_attempt_locked, RunRepository._get_locked.
    sql_simpl. rewrite Hg. cbn beta iota.
    destruct (attempt_viewP db s _ Rf W Hau) as [a Ha _ _ _ _ Hq _|Ha _ Hq _]; rewrite Hq; cbn beta iota;
      [| by apply sim_err].
    change (AttemptModel.run_id (attempt_row a)) with (uuid_str (AttemptRecord.run_id a)).
    destruct (RunsFacts.wf_attempts _ W _ _ Ha) as [_ [r0 Hr0]].
    case_bool_decide as E; cbn [negb].
    2: { rewrite bool_decide_false by congruence. by apply sim_err. }
    apply uuid_text_inj in E; [| by eapply rf_run_id | done].
    rewrite bool_decide_true by done. cbn [negb].
    destruct (run_viewP db s _ Rf W Hru) as [r key fp Hr _ _ _ Hqr _|Hr _ _ _]; [| congruence].
    rewrite Hqr. cbn beta iota.
    change (RunModel.engine (run_row key fp r)) with (Engine.value (RunRecord.engine r)).
    case_bool_decide as Ee; cbn [negb].
    2: { rewrite bool_decide_false by congruence. by apply sim_err. }
    assert (RunRecord.engine r = EventEnvelope.engine event) as Ee'.
    { pose proof (f_equal (enum_of engines Engine.value) Ee) as E2. rewrite !read_engine in E2. congruence. }
    rewrite bool_decide_true by done. cbn [negb]. rewrite He. cbn beta iota.
    set (e := EventRecord.mk (RunRepository._next_cursor s) (EventEnvelope.event_id event)
                (EventEnvelope.run_id event) (EventEnvelope.attempt_id event) (EventEnvelope.engine event)
                (EventEnvelope.seq event) (EventEnvelope.occurred_at event) (EventEnvelope.type event)
                (RunRepository.event_payload event)).
    change (EventModel.mk 0 _ _ _ _ _ _ _ _) with (event_row 0 e). change (alone 0%nat db) with db.
    change (alone 1%nat db) with db. unfold has_key.
    destruct (RunRepository._event_sequences s !! (EventEnvelope.attempt_id event, EventEnvelope.seq event))
      as [i|] eqn:Eq.
    + rewrite bool_decide_true by by eexists.
      rewrite (add_event_conflict db s e i); [| done.. | by eexists | by eexists | done].
      unfold is_IntegrityError. rewrite bool_decide_true by done. cbn beta iota.
      change (alone 1%nat db) with db. rewrite Hg. by apply sim_err.
    + rewrite bool_decide_false by by intros [? ?].
      destruct (refines_add_event db s e) as (c & db' & Hadd & Rf');
        [done | done | done | done | done | by eexists | by eexists | done | done | done |].
      rewrite Hadd, event_to_record_row by done. by apply sim_ok.
Qed.

Lemma list_events_sim db s i after after' :
  refines db s -> RunsFacts.wf s -> is_uuid i -> ((after <? 0) = (after' <? 0))%Z ->
  (forall c e, event_row c e ∈ select (run_events db) -> events s !! EventRecord.event_id e = Some e ->
     (after < c <-> after' < EventRecord.cursor e)%Z) ->
  sim (Forall2 same_event) (list_events i after db) (RunRepository.list_events i after' s).
Proof.
  intros Rf W Hi Hneg Hcut. unfold list_events, RunRepository.list_events, RunRepository._get_locked.
  rewrite Hneg. destruct (after' <? 0)%Z; [by apply sim_err |]. sql_simpl.
  destruct (run_viewP db s i Rf W Hi) as [r key fp Hr _ _ _ Hq _|Hr _ Hq _]; rewrite Hq; [| by apply sim_err].
  unfold select_where. set (ms := List.filter _ (select (run_events db))). set (es := List.filter _ (values (events s))).
  assert (forall e, e ∈ values (events s) <-> events s !! EventRecord.event_id e = Some e) as Hval.
  { intros e. rewrite elem_of_values. split; [| by eauto]. intros [j Hj].
    by destruct (RunsFacts.wf_events _ W _ _ Hj) as [-> _]. }
  assert (Forall2 (fun m e => m = event_row (EventModel.cursor m) e /\ events s !! EventRecord.event_id e = Some e)
            (py_sorted (by_key EventModel.cursor) ms) (py_sorted (by_key EventRecord.cursor) es)) as Hrel.
  { apply listing_rel.
    - apply NoDup_Lfilter, NoDup_rows.
    - apply NoDup_Lfilter, (values_nodup _ EventRecord.event_id). intros j e Hj.
      by destruct (RunsFacts.wf_events _ W _ _ Hj).
    - intros m [Hm Hp]%elem_of_Lfilter. destruct (rf_event_rows _ _ Rf _ Hm) as (e & He & Em & _).
      exists e. split; [| done]. apply elem_of_Lfilter. split; [by apply Hval |]. bool_prop.
      destruct (event_ids _ _ _ _ Rf W He) as (_ & _ & ? & _).
      apply andb_true_iff. split; [apply bool_decide_eq_true | apply Z.ltb_lt].
      + rewrite Em in H1. apply uuid_text_inj in H1; done.
      + apply (Hcut (EventModel.cursor m)); [by rewrite <- Em | done | done].
    - intros e [He Hp]%elem_of_Lfilter. apply Hval in He. destruct (rf_events _ _ Rf _ _ He) as [c Hc].
      exists (event_row c e). split; [| done]. apply elem_of_Lfilter. split; [done |]. bool_prop.
      apply andb_true_iff. split; [by apply bool_decide_eq_true, (f_equal uuid_str) |].
      apply Z.ltb_lt. by apply (Hcut c e).
    - intros m m' e [Hm _]%elem_of_Lfilter [Hm' _]%elem_of_Lfilter _ [Em He] [Em' _].
      rewrite Em, Em'. f_equal. rewrite Em in Hm. rewrite Em' in Hm'.
      pose proof (rf_cursors _ _ Rf _ _ _ _ Hm Hm' He He). pose proof (rf_cursors _ _ Rf _ _ _ _ Hm' Hm He He). lia.
    - intros m e e' _ _ _ [Em He] [Em' He']. rewrite Em in Em'. simpl in Em'.
      destruct (event_row_inj _ _ _ _ Em') as (_ & Eid & _).
      apply uuid_text_inj in Eid; [congruence | by eapply rf_event_id..].
    - intros m e m' e' [Hm _]%elem_of_Lfilter _ [Hm' _]%elem_of_Lfilter _ [Em He] [Em' He'].
      rewrite Em in Hm. rewrite Em' in Hm'. unfold by_key.
      pose proof (rf_cursors _ _ Rf _ _ _ _ Hm Hm' He He'). pose proof (rf_cursors _ _ Rf _ _ _ _ Hm' Hm He' He).
      destruct (Z.leb_spec (EventModel.cursor m) (EventModel.cursor m')); symmetry; [apply Z.leb_le | apply Z.leb_gt]; lia.
    - intros e e' [He%Hval _]%elem_of_Lfilter [He'%Hval _]%elem_of_Lfilter Ec.
      assert (EventRecord.event_id e = EventRecord.event_id e') as Eid by by eapply (RunsFacts.wf_cursors _ W).
      congruence. }
  assert (rmap _event_to_record (py_sorted (by_key EventModel.cursor) ms)
          = Ok (zip_with (fun m e => renumbered (EventModel.cursor m) e)
                  (py_sorted (by_key EventModel.cursor) ms) (py_sorted (by_key EventRecord.cursor) es))) as ->.
  { apply rmap_Forall2. induction Hrel as [|m e l l' [Em He] Hl IH]; simpl; constructor; [| done].
    destruct (event_ids _ _ _ _ Rf W He) as (? & ? & ? & ?). rewrite Em at 1.
    by rewrite event_to_record_row. }
  apply sim_ok; [| done]. induction Hrel as [|m e l l' [Em He] Hl IH]; simpl; constructor; done.
Qed.

(** ** Artifacts *)

(** The two repositories disagree on a stored artifact: its creation time is not
    compared by the SQL one, and an unknown attempt is noticed first by the other. *)
Definition artifact_differs (s : store) (x : ArtifactRecord.t) : Prop :=
  exists y, artifacts s !! ArtifactRecord.id x = Some y
  /\ (attempts s !! ArtifactRecord.attempt_id x = None
      \/ (ArtifactRecord.created_at y <> ArtifactRecord.created_at x
          /\ x = ArtifactRecord.mk (ArtifactRecord.id y) (ArtifactRecord.run_id y)
                   (ArtifactRecord.attempt_id y) (ArtifactRecord.kind y) (ArtifactRecord.name y)
                   (ArtifactRecord.content_type y) (ArtifactRecord.size_bytes y)
                   (ArtifactRecord.storage_key y) (ArtifactRecord.created_at x))).

Lemma resolve_artifact_row y x :
  is_uuid (ArtifactRecord.id y) -> is_uuid (ArtifactRecord.run_id y) ->
  is_uuid (ArtifactRecord.attempt_id y) ->
  (y <> x -> ArtifactRecord.created_at y <> ArtifactRecord.created_at x ->
   x <> ArtifactRecord.mk (ArtifactRecord.id y) (ArtifactRecord.run_id y)
          (ArtifactRecord.attempt_id y) (ArtifactRecord.kind y) (ArtifactRecord.name y)
          (ArtifactRecord.content_type y) (ArtifactRecord.size_bytes y)
          (ArtifactRecord.storage_key y) (ArtifactRecord.created_at x)) ->
  _resolve_artifact (artifact_row y) x = if bool_decide (y = x) then Ok y else Err ArtifactConflict.
Proof.
  intros Hi Hr Ha Hne. unfold _resolve_artifact. rewrite artifact_to_record_row by done. cbn [rbind].
  destruct (decide (y = x)) as [E|E]; [rewrite (bool_decide_true (y = x)) by done | rewrite (bool_decide_false (y = x)) by done].
  - subst x. rewrite !bool_decide_true, Z.eqb_refl by done. reflexivity.
  - match goal with |- (if ?b then _ else _) = _ => destruct b eqn:Eb end; [done | exfalso].
    repeat (apply orb_false_iff in Eb as [Eb ?]). bool_prop.
    destruct x as [xi xr xa xk xn xc xz xs xt], y as [yi yr ya yk yn yc yz ys yt].
    cbn [ArtifactRecord.id ArtifactRecord.run_id ArtifactRecord.attempt_id ArtifactRecord.kind
         ArtifactRecord.name ArtifactRecord.content_type ArtifactRecord.size_bytes
         ArtifactRecord.storage_key ArtifactRecord.created_at] in *. subst.
    destruct (decide (yt = xt)) as [->|Ht]; [done |]. by apply Hne.
Qed.

(** What the in-memory call answers about an artifact it has stored. *)
Lemma memory_artifact_stored s x y :
  RunsFacts.wf s -> artifacts s !! ArtifactRecord.id x = Some y ->
  is_Some (attempts s !! ArtifactRecord.attempt_id x) ->
  RunRepository.create_artifact x s
  = (if bool_decide (y = x) then Ok y else Err ArtifactConflict, s).
Proof.
  intros W Hy [a Ha]. destruct (RunsFacts.wf_artifacts _ W _ _ Hy) as (_ & a' & Ha' & Har).
  destruct (RunsFacts.wf_attempts _ W _ _ Ha) as [_ [r Hr]].
  unfold RunRepository.create_artifact, RunRepository._get_attempt_locked, RunRepository._get_locked.
  sql_simpl. rewrite Ha. cbn beta iota. case_bool_decide as E; cbn [negb].
  - rewrite <- E, Hr. cbn beta iota. rewrite Hy. by case_bool_decide.
  - rewrite bool_decide_false; [done |]. intros ->. congruence.
Qed.

Lemma create_artifact_sim db s x :
  refines db s -> RunsFacts.wf s -> is_uuid (ArtifactRecord.id x) ->
  is_uuid (ArtifactRecord.run_id x) -> is_uuid (ArtifactRecord.attempt_id x) ->
  ~ artifact_differs s x ->
  sim eq (create_artifact alone x db) (RunRepository.create_artifact x s).
Proof.
  intros Rf W Hi Hru Ha Hd. unfold create_artifact. pose proof (get_artifact_eq db s _ Rf W Hi) as Hg.
  destruct (artifacts s !! ArtifactRecord.id x) as [y|] eqn:Ey; cbn [option_map] in Hg.
  - destruct (RunsFacts.wf_artifacts _ W _ _ Ey) as (Eyi & a & Ea & Ear).
    destruct (RunsFacts.wf_attempts _ W _ _ Ea) as [_ [r Hr]].
    rewrite (memory_artifact_stored s x y W Ey).
    2: { apply not_eq_None_Some. intros Hn. apply Hd. exists y. auto. }
    sql_simpl. rewrite Hg. cbn beta iota. rewrite resolve_artifact_row.
    + case_bool_decide; [by apply sim_ok | by apply sim_err].
    + by rewrite Eyi.
    + rewrite <- Ear. by eapply rf_run_id.
    + by eapply rf_attempt_id.
    + intros _ Ht Ex. apply Hd. exists y. auto.
  - unfold RunRepository.create_artifact, RunRepository._get_attempt_locked, RunRepository._get_locked.
    sql_simpl. rewrite Hg. cbn beta iota.
    destruct (attempt_viewP db s _ Rf W Ha) as [a Hea _ Har _ Hq _ _|_ Hq _ _]; rewrite Hq; cbn beta iota;
      [| by apply sim_err].
    change (AttemptModel.run_id (attempt_row a)) with (uuid_str (AttemptRecord.run_id a)).
    destruct (RunsFacts.wf_attempts _ W _ _ Hea) as [_ [r Hr]].
    case_bool_decide as E; cbn [negb].
    2: { rewrite bool_decide_false by congruence. by apply sim_err. }
    apply uuid_text_inj in E; [| done..]. rewrite bool_decide_true by done. cbn [negb].
    rewrite <- E, Hr. cbn beta iota. rewrite Ey. cbn beta iota. rewrite E.
    change (ArtifactModel.mk _ _ _ _ _ _ _ _ _) with (artifact_row x).
    change (alone 0%nat db) with db. change (alone 1%nat db) with db.
    destruct (refines_add_artifact db s x) as (db' & Hadd & Rf'); try done.
    { rewrite <- E. by eexists. }
    rewrite Hadd, artifact_to_record_row by done. by apply sim_ok.
Qed.

Lemma get_artifact_sim db s i : refines db s -> RunsFacts.wf s -> is_uuid i ->
  sim eq (get_artifact i db) (RunRepository.get_artifact i s).
Proof.
  intros Rf W Hi. unfold get_artifact, RunRepository.get_artifact. sql_simpl.
  rewrite (get_artifact_eq db s i Rf W Hi). destruct (artifacts s !! i) as [x|] eqn:E; cbn [option_map];
    [| by apply sim_err].
  destruct (RunsFacts.wf_artifacts _ W _ _ E) as (Ei & a & Ea & Ear).
  destruct (RunsFacts.wf_attempts _ W _ _ Ea) as [_ [r Hr]].
  rewrite artifact_to_record_row; [by apply sim_ok | by rewrite Ei | | by eapply rf_attempt_id].
  rewrite <- Ear. by eapply rf_run_id.
Qed.
End refinement.

(** * Simulation of the SQL run repository: the lease reaper

    The rows come in any order, which does not matter for what the reaper leaves. *)
Import SqlRunRepository.
Open Scope string_scope.
Open Scope list_scope.
#[local] Opaque uuid_str uuid_of_str enum_of run_state_value attempt_state_value Engine.value EventType.value ResultOutcome.value run_row attempt_row event_row artifact_row.

Section refinement.
  Context `{PyFloat} `{Driver}.
  Context `{!Table RunModel.t} `{!Table AttemptModel.t} `{!Table EventModel.t} `{!Table ArtifactModel.t}.
  Context `{!TableLaws RunModel.t} `{!TableLaws AttemptModel.t} `{!TableLaws EventModel.t} `{!TableLaws ArtifactModel.t}.

Notation store := RunRepository.t.
Notation runs := RunRepository._runs.
Notation attempts := RunRepository._attempts.
Notation events := RunRepository._events.
Notation artifacts := RunRepository._artifacts.
Notation keys_of := RunRepository._idempotency.

(** ** The lease reaper *)

(** The database visits the expired attempts in any order.  One round is the round of
    the in-memory loop on the same attempt; and what all the rounds leave depends only
    on the set of attempts visited ([expired]). *)
Lemma expire_row_sim db s clk n cutoff i a :
  refines db s -> RunsFacts.wf s -> attempts s !! i = Some a ->
  sim eq (expire_row clk n cutoff (attempt_row a) db) (RunRepository.expire_one clk n cutoff i a s).
Proof.
  intros Rf W Ha. destruct (RunsFacts.wf_attempts _ W _ _ Ha) as [Hid [r0 Hr0]].
  assert (is_uuid i) as Hi by by eapply rf_attempt_id.
  assert (is_uuid (AttemptRecord.run_id a)) as Hri by by eapply rf_run_id.
  unfold expire_row, RunRepository.expire_one, RunRepository.index. sql_simpl.
  rewrite attempt_to_record_row by (done || by rewrite Hid).
  destruct (AttemptRecord.lost (clk (2 * n)%nat) a cutoff) as [a'|e] eqn:El; [| by apply sim_err].
  assert (AttemptRecord.id a' = AttemptRecord.id a /\ AttemptRecord.run_id a' = AttemptRecord.run_id a
          /\ _apply_attempt (attempt_row a) a' = attempt_row a') as (Hai & Har & ->).
  { apply attempt_lost_Ok in El as (_ & _ & Hf & _). pose proof Hf as (? & ? & _).
    split_and!; [done.. | by apply apply_attempt_row]. }
  assert (good s (RunRepository.set_attempts (fun d => <[i:=a']> d) s).2) as [W1 _].
  { eapply RunsFacts.good_step_attempt; try done. by eapply RunsFacts.lost_evolves. }
  pose proof (refines_put_attempt db s i a a' Rf W Ha Hai) as Rf1.
  cbn [flush_attempt RunRepository.set_attempts fst snd] in *. rewrite Har.
  destruct (run_viewP _ _ _ Rf1 W1 Hri) as [r key fp Hr Hrid Hrow Hq _ Ht|Hr _ _ _].
  2: { cbn [RunRepository._runs] in Hr. congruence. }
  rewrite Hq. cbn beta iota. rewrite Ht. cbn beta iota. cbn [RunRepository._runs] in Hr. rewrite ?Hr.
  case_bool_decide; [by apply sim_ok |].
  destruct (RunRecord.with_state _ r RunState.INFRA_ERROR) as [r'|e] eqn:Er; [| by apply sim_err].
  apply sim_ok; [done |]. rewrite Hrid.
  apply (refines_put_run _ _ (AttemptRecord.run_id a) key fp r r' Rf1 W1); try done.
  by eapply RunsFacts.run_evolves_step.
Qed.

Lemma expire_rows_sim db s clk n cutoff l :
  refines db s -> RunsFacts.wf s -> NoDup (map AttemptRecord.id l) ->
  (forall a, a ∈ l -> attempts s !! AttemptRecord.id a = Some a
                      /\ RunRepository.lease_is_expired cutoff a = true) ->
  sim eq (expire_rows clk n cutoff (map attempt_row l) db)
    (RunRepository.expire_loop clk n cutoff (map (fun a => (AttemptRecord.id a, a)) l) s).
Proof.
  revert n db s. induction l as [|a l IH]; intros n db s Rf W Hnd Hl; cbn [map]; [by apply sim_ok |].
  cbn [expire_rows RunRepository.expire_loop]. apply NoDup_cons in Hnd as [Hni Hnd].
  destruct (Hl a) as [Ha ->]; [by left |].
  pose proof (expire_row_sim db s clk n cutoff _ a Rf W Ha) as Hs.
  pose proof (RunsFacts.expire_one_good clk n cutoff _ a s W Ha) as [W1 _].
  unfold bind at 1 3.
  destruct (expire_row clk n cutoff (attempt_row a) db) as [[x|e] db1],
    (RunRepository.expire_one clk n cutoff (AttemptRecord.id a) a s) as [[y|e'] s1] eqn:E1;
    destruct Hs as [Hxy Rf1]; cbn [fst snd] in *; try done.
  subst y. specialize (IH (S n) db1 s1 Rf1 W1 Hnd).
  assert (forall b, b ∈ l -> attempts s1 !! AttemptRecord.id b = Some b
                      /\ RunRepository.lease_is_expired cutoff b = true) as Hl1.
  { intros b Hb. destruct (Hl b) as [Hb' ?]; [by right |]. split; [| done]. rewrite <- Hb'.
    replace s1 with (RunRepository.expire_one clk n cutoff (AttemptRecord.id a) a s).2 by by rewrite E1.
    apply RunsFacts.expire_one_frame. intros Heq. apply Hni. rewrite Heq. by apply (list_elem_of_fmap_2 AttemptRecord.id). }
  specialize (IH Hl1). unfold bind.
  destruct (expire_rows clk (S n) cutoff _ db1) as [[ys|e] db2],
    (RunRepository.expire_loop clk (S n) cutoff _ s1) as [[ys'|e'] s2];
    destruct IH as [Hy Rf2]; cbn [fst snd] in *; subst; try done.
Qed.

Definition lost_of (t cutoff : datetime) (a : AttemptRecord.t) : AttemptRecord.t :=
  match AttemptRecord.lost t a cutoff with Ok a' => a' | Err _ => a end.
Definition failed_of (t : datetime) (r : RunRecord.t) : RunRecord.t :=
  if bool_decide (RunRecord.state r ∈ RUN_TERMINAL) then r
  else match RunRecord.with_state t r RunState.INFRA_ERROR with Ok r' => r' | Err _ => r end.

Definition expired (t cutoff : datetime) (l : list AttemptRecord.t) (s s' : store) : Prop :=
  (forall j, attempts s' !! j = if decide (j ∈ map AttemptRecord.id l)
                                then lost_of t cutoff <$> attempts s !! j else attempts s !! j)
  /\ (forall j, runs s' !! j = if decide (j ∈ map AttemptRecord.run_id l)
                               then failed_of t <$> runs s !! j else runs s !! j)
  /\ keys_of s' = keys_of s /\ events s' = events s
  /\ RunRepository._event_sequences s' = RunRepository._event_sequences s
  /\ artifacts s' = artifacts s /\ RunRepository._next_cursor s' = RunRepository._next_cursor s.

Lemma failed_of_idempotent t r : failed_of t (failed_of t r) = failed_of t r.
Proof.
  unfold failed_of. destruct (decide (RunRecord.state r ∈ RUN_TERMINAL)) as [Ht|Ht].
  - rewrite (bool_decide_true (RunRecord.state r ∈ RUN_TERMINAL)) by done.
    by rewrite bool_decide_true.
  - rewrite (bool_decide_false (RunRecord.state r ∈ RUN_TERMINAL)) by done.
    destruct (RunRecord.with_state t r RunState.INFRA_ERROR) as [r'|e] eqn:E;
      [| by rewrite bool_decide_false, E].
    apply run_with_state_Ok in E as (_ & -> & _).
    rewrite bool_decide_true; [done |]. unfold RUN_TERMINAL. set_solver.
Qed.

Lemma expire_one_expired clk n t cutoff i a s :
  (forall n, clk n = t) -> RunsFacts.wf s -> attempts s !! i = Some a ->
  RunRepository.lease_is_expired cutoff a = true -> run_started s (AttemptRecord.run_id a) ->
  exists s1, RunRepository.expire_one clk n cutoff i a s = (Ok (lost_of t cutoff a), s1)
             /\ expired t cutoff [a] s s1.
Proof.
  intros Hclk W Ha He Hst. unfold RunRepository.lease_is_expired in He.
  apply andb_true_iff in He as [He _]. apply bool_decide_eq_true in He.
  destruct (attempt_lost_defined t a cutoff He) as [a' Hl].
  destruct (RunsFacts.wf_attempts _ W _ _ Ha) as [Hid [r Hr]].
  pose proof (RunsFacts.wf_runs _ W _ _ Hr) as Hrid.
  assert (lost_of t cutoff a = a') as Elo by (unfold lost_of; by rewrite Hl).
  unfold RunRepository.expire_one, RunRepository.index. rewrite !Hclk. sql_simpl. rewrite Hl, Elo.
  cbn [RunRepository.set_attempts fst snd RunRepository._runs]. rewrite Hr.
  assert (forall j, <[i:=a']> (attempts s) !! j = if decide (j ∈ map AttemptRecord.id [a])
             then lost_of t cutoff <$> attempts s !! j else attempts s !! j) as Hat.
  { intros j. rewrite dict_lookup_insert. cbn [map]. rewrite Hid.
    destruct (decide (j = i)) as [->|Hj]; [rewrite decide_True by by apply list_elem_of_singleton
      | rewrite decide_False by by rewrite list_elem_of_singleton]; [| done].
    by rewrite Ha; simpl; rewrite Elo. }
  assert (forall r', failed_of t r = r' -> forall j,
    <[AttemptRecord.run_id a:=r']> (runs s) !! j = if decide (j ∈ map AttemptRecord.run_id [a])
             then failed_of t <$> runs s !! j else runs s !! j) as Hru.
  { intros r' Hr' j. rewrite dict_lookup_insert. cbn [map].
    destruct (decide (j = AttemptRecord.run_id a)) as [->|Hj];
      [rewrite decide_True by by apply list_elem_of_singleton
      | rewrite decide_False by by rewrite list_elem_of_singleton]; [| done].
    rewrite Hr. simpl. by rewrite Hr'. }
  case_bool_decide as Ht.
  - eexists. split; [done |]. split; [exact Hat |]. split_and!; try done. intros j. cbn [RunRepository._runs].
    rewrite <- (Hru r) by (unfold failed_of; by rewrite bool_decide_true).
    rewrite dict_lookup_insert. by case_decide; subst.
  - destruct (run_with_state_defined t r RunState.INFRA_ERROR) as [r' Hr'].
    { apply infra_error_reachable; [done | by apply Hst]. }
    rewrite Hr'. eexists. split; [done |]. split; [exact Hat |]. split_and!; try done.
    intros j. cbn [RunRepository.set_runs fst snd RunRepository._runs]. rewrite Hrid. apply Hru.
    unfold failed_of. by rewrite bool_decide_false, Hr'.
Qed.

Lemma expired_cons t cutoff a l s s1 s2 :
  AttemptRecord.id a ∉ map AttemptRecord.id l ->
  expired t cutoff [a] s s1 -> expired t cutoff l s1 s2 -> expired t cutoff (a :: l) s s2.
Proof.
  intros Hni (Ha1 & Hr1 & ? & ? & ? & ? & ?) (Ha2 & Hr2 & ? & ? & ? & ? & ?).
  split_and!; try congruence.
  - intros j. rewrite Ha2, Ha1. cbn [map].
    destruct (decide (j ∈ map AttemptRecord.id l)) as [Hl|Hl].
    + rewrite (decide_False (P := j ∈ [_])), (decide_True (P := j ∈ _ :: _)); [done | by right |].
      intros ->%list_elem_of_singleton. done.
    + destruct (decide (j = AttemptRecord.id a)) as [->|Hj].
      * by rewrite !decide_True by by left.
      * rewrite !decide_False; [done | rewrite elem_of_cons; naive_solver | by rewrite list_elem_of_singleton].
  - intros j. rewrite Hr2, Hr1. cbn [map].
    destruct (decide (j ∈ map AttemptRecord.run_id l)) as [Hl|Hl];
      destruct (decide (j = AttemptRecord.run_id a)) as [->|Hj].
    + rewrite !decide_True by by left. destruct (runs s !! _); simpl; [| done].
      by rewrite failed_of_idempotent.
    + rewrite (decide_False (P := j ∈ [_])), (decide_True (P := j ∈ _ :: _));
        [done | by right | by rewrite list_elem_of_singleton].
    + by rewrite !decide_True by by left.
    + rewrite !decide_False; [done | rewrite elem_of_cons; naive_solver | by rewrite list_elem_of_singleton].
Qed.

Lemma expired_none t cutoff s : expired t cutoff [] s s.
Proof. split_and!; try done; intros j; by rewrite decide_False by apply not_elem_of_nil. Qed.

Lemma expired_same t cutoff l l' s s1 s2 :
  l ≡ₚ l' -> expired t cutoff l s s1 -> expired t cutoff l' s s2 ->
  (forall j, attempts s2 !! j = attempts s1 !! j) /\ (forall j, runs s2 !! j = runs s1 !! j)
  /\ keys_of s2 = keys_of s1 /\ events s2 = events s1 /\ artifacts s2 = artifacts s1.
Proof.
  intros Hp (Ha1 & Hr1 & ? & ? & ? & ? & ?) (Ha2 & Hr2 & ? & ? & ? & ? & ?). split_and!; try congruence.
  - intros j. rewrite Ha1, Ha2. rewrite (decide_ext (j ∈ map AttemptRecord.id l) (j ∈ map AttemptRecord.id l')); [done |]. by rewrite Hp.
  - intros j. rewrite Hr1, Hr2. rewrite (decide_ext (j ∈ map AttemptRecord.run_id l) (j ∈ map AttemptRecord.run_id l')); [done |]. by rewrite Hp.
Qed.

Definition due (cutoff : datetime) (snapshot : list (uuid * AttemptRecord.t)) : list AttemptRecord.t :=
  map snd (List.filter (fun ia => RunRepository.lease_is_expired cutoff ia.2) snapshot).

Lemma expire_loop_expired clk n t cutoff snapshot s :
  (forall n, clk n = t) -> RunsFacts.wf s -> NoDup snapshot.*1 ->
  (forall i a, (i, a) ∈ snapshot -> attempts s !! i = Some a) ->
  (forall i a, (i, a) ∈ snapshot -> RunRepository.lease_is_expired cutoff a = true ->
     run_started s (AttemptRecord.run_id a)) ->
  exists s', RunRepository.expire_loop clk n cutoff snapshot s
             = (Ok (map (lost_of t cutoff) (due cutoff snapshot)), s')
    /\ expired t cutoff (due cutoff snapshot) s s'.
Proof.
  intros Hclk. revert n s. induction snapshot as [|[i a] rest IH]; intros n s W Hnd Hin Hst.
  { exists s. split; [done | apply expired_none]. }
  apply NoDup_cons in Hnd as [Hni Hnd]. cbn [fst] in Hni.
  assert (forall j b, (j, b) ∈ rest -> j <> i) as Hne.
  { intros j b Hj ->. apply Hni. apply list_elem_of_fmap. by exists (i, b). }
  cbn [RunRepository.expire_loop]. unfold due. cbn [List.filter snd].
  destruct (RunRepository.lease_is_expired cutoff a) eqn:Ee; cbn [map].
  2: { apply IH; try done; intros j b Hj; [apply Hin | apply (Hst j b)]; by right. }
  assert (attempts s !! i = Some a) as Ha by (apply Hin; by left).
  destruct (expire_one_expired clk n t cutoff i a s Hclk W Ha Ee) as (s1 & E1 & X1).
  { eapply (Hst i a); [by left | done]. }
  pose proof (RunsFacts.expire_one_good clk n cutoff i a s W Ha) as Hg.
  assert (forall j, i <> j -> attempts s1 !! j = attempts s !! j) as Hat.
  { intros j Hj. pose proof (RunsFacts.expire_one_frame clk n cutoff i a s j Hj) as Hf. by rewrite E1 in Hf. }
  rewrite E1 in Hg. cbn [snd] in Hg.
  destruct (IH (S n) s1) as (s2 & E2 & X2); [apply Hg | done | | |].
  { intros j b Hj. rewrite Hat by (intros ->; by apply (Hne _ _ Hj)). apply Hin. by right. }
  { intros j b Hj Hb. eapply run_started_stays; [exact Hg | | eapply Hst; [by right | done]].
    eapply RunsFacts.wf_attempts; [exact W |]. apply Hin. by right. }
  exists s2. unfold bind at 1. rewrite E1. unfold bind. rewrite E2. split; [done |].
  eapply expired_cons; [| exact X1 | exact X2].
  intros (b & Eb & ([j b'] & -> & [Hb _]%elem_of_Lfilter)%list_elem_of_fmap)%list_elem_of_fmap.
  assert (j = AttemptRecord.id b') as Ej.
  { symmetry. apply (RunsFacts.wf_attempts _ W). apply Hin. by right. }
  apply (Hne _ _ Hb). cbn [snd] in Eb. rewrite Ej, <- Eb. by apply (RunsFacts.wf_attempts _ W).
Qed.

Lemma refines_same db s s' :
  (forall j, attempts s' !! j = attempts s !! j) -> (forall j, runs s' !! j = runs s !! j) ->
  keys_of s' = keys_of s -> events s' = events s -> artifacts s' = artifacts s ->
  refines db s -> refines db s'.
Proof.
  intros Ha Hr Hk He Hx []. split; try (setoid_rewrite Ha || setoid_rewrite Hr); rewrite ?Hk, ?He, ?Hx; auto.
Qed.

Lemma lease_expired_attempt_row cutoff a :
  lease_expired_row cutoff (fun _ => false) (attempt_row a) = RunRepository.lease_is_expired cutoff a.
Proof.
  unfold lease_expired_row, RunRepository.lease_is_expired.
  change (AttemptModel.state (attempt_row a)) with (attempt_state_value (AttemptRecord.state a)).
  change (AttemptModel.lease_expires_at (attempt_row a)) with (AttemptRecord.lease_expires_at a).
  cbn [negb]. rewrite andb_true_r. f_equal. by destruct (AttemptRecord.state a).
Qed.

(** The rows the reaper selects are those of the attempts whose lease is due. *)
Lemma reaped_rows db s cutoff : refines db s -> RunsFacts.wf s -> exists l,
  List.filter (lease_expired_row cutoff (fun _ => false)) (select (run_attempts db)) = map attempt_row l
  /\ NoDup (map AttemptRecord.id l)
  /\ (forall a, a ∈ l <-> attempts s !! AttemptRecord.id a = Some a
                          /\ RunRepository.lease_is_expired cutoff a = true).
Proof.
  intros Rf W. set (ms := List.filter _ _).
  assert (exists l, ms = map attempt_row l
          /\ Forall (fun a => attempts s !! AttemptRecord.id a = Some a) l) as (l & El & Hl).
  { assert (forall m, m ∈ ms -> exists a, attempts s !! AttemptRecord.id a = Some a /\ m = attempt_row a) as Hms.
    { intros m [Hm _]%elem_of_Lfilter. by apply (rf_attempts _ _ Rf). }
    clearbody ms. induction ms as [|m ms IH]; [by exists [] |].
    destruct IH as (l & -> & Hl); [intros; apply Hms; by right |].
    destruct (Hms m) as (a & Ha & ->); [by left |]. exists (a :: l). split; [done | by constructor]. }
  rewrite Forall_forall in Hl. exists l. split; [done |]. split.
  - assert (NoDup (map pk ms)) as Hnd by apply NoDup_map_filter, select_keys.
    rewrite El, map_map in Hnd. apply (NoDup_fmap_1 uuid_str).
    change (NoDup (map uuid_str (map AttemptRecord.id l))). by rewrite map_map.
  - intros a. split.
    + intros Ha. split; [by apply Hl |]. rewrite <- lease_expired_attempt_row.
      apply (elem_of_Lfilter (lease_expired_row cutoff (fun _ => false)) _ (select (run_attempts db))).
      change (attempt_row a ∈ ms). rewrite El. by apply list_elem_of_fmap_2.
    + intros [Ha He]. assert (attempt_row a ∈ ms) as Hm.
      { apply elem_of_Lfilter. rewrite lease_expired_attempt_row. split; [| done].
        apply (rf_attempts _ _ Rf). eauto. }
      rewrite El in Hm. apply list_elem_of_fmap in Hm as (b & Eb & Hb). specialize (Hl b Hb).
      apply attempt_row_id, uuid_text_inj in Eb; [congruence | by eapply rf_attempt_id..].
Qed.

Lemma due_items s cutoff : RunsFacts.wf s ->
  NoDup (map AttemptRecord.id (due cutoff (items (attempts s))))
  /\ (forall a, a ∈ due cutoff (items (attempts s)) <->
        attempts s !! AttemptRecord.id a = Some a /\ RunRepository.lease_is_expired cutoff a = true).
Proof.
  intros W.
  assert (forall i a, (i, a) ∈ items (attempts s) -> AttemptRecord.id a = i) as Hids.
  { intros i a Hi%elem_of_items. by apply (RunsFacts.wf_attempts _ W). }
  split.
  - unfold due. rewrite map_map.
    rewrite (map_ext_in _ fst); [apply NoDup_map_filter, items_nodup |].
    intros [i a] [Hi _]%filter_In. cbn [fst snd]. by apply Hids, list_elem_of_In.
  - intros a. unfold due. rewrite list_elem_of_fmap. split.
    + intros ([i b] & -> & [Hi Hb]%elem_of_Lfilter). split; [| done]. cbn [snd].
      rewrite (Hids _ _ Hi). by apply elem_of_items.
    + intros [Ha He]. exists (AttemptRecord.id a, a). split; [done |].
      apply elem_of_Lfilter. split; [by apply elem_of_items | done].
Qed.

Lemma due_self cutoff l :
  (forall a, a ∈ l -> RunRepository.lease_is_expired cutoff a = true) ->
  due cutoff (map (fun a => (AttemptRecord.id a, a)) l) = l.
Proof.
  unfold due. induction l as [|a l IH]; intros Hl; [done |]. cbn [map List.filter snd].
  rewrite Hl by by left. cbn [map snd]. f_equal. apply IH. intros b Hb. apply Hl. by right.
Qed.

Lemma expire_leases_sim db s clk now :
  refines db s -> RunsFacts.wf s -> (forall n, clk n = clk 0%nat) ->
  (forall i a, attempts s !! i = Some a -> lease_due (RunRepository.default_now now (clk 0%nat)) a ->
     run_started s (AttemptRecord.run_id a)) ->
  sim Permutation (expire_attempt_leases (fun _ => false) clk now db)
    (RunRepository.expire_attempt_leases clk now s).
Proof.
  intros Rf W Hclk. set (cutoff := RunRepository.default_now now (clk 0%nat)). intros Hst.
  assert (forall a, attempts s !! AttemptRecord.id a = Some a ->
            RunRepository.lease_is_expired cutoff a = true -> run_started s (AttemptRecord.run_id a)) as Hst'.
  { intros a Ha He. eapply Hst; [done | by apply lease_is_expired_due]. }
  destruct (reaped_rows db s cutoff Rf W) as (l & El & Hnd & Hl), (due_items s cutoff W) as [Hnd' Hdue].
  destruct (expire_loop_expired (fun i => clk (S i)) 0 (clk 0%nat) cutoff (items (attempts s)) s)
    as (s2 & E2 & X2); [done | done | apply items_nodup | by intros i a ?%elem_of_items | |].
  { intros i a Hi%elem_of_items He. eapply Hst; [done | by apply lease_is_expired_due]. }
  destruct (expire_loop_expired (fun i => clk (S i)) 0 (clk 0%nat) cutoff (map (fun a => (AttemptRecord.id a, a)) l) s)
    as (s1 & E1 & X1); [done | done | | | |].
  { change (NoDup (map fst (map (fun a => (AttemptRecord.id a, a)) l))). by rewrite map_map. }
  { intros i a (b & [= -> ->] & Hb)%list_elem_of_fmap. by apply Hl. }
  { intros i a (b & [= -> ->] & Hb)%list_elem_of_fmap He. by apply Hst'; [apply Hl |]. }
  pose proof (expire_rows_sim db s (fun i => clk (S i)) 0 cutoff l Rf W Hnd (fun a => proj1 (Hl a))) as Hsim.
  rewrite due_self in E1, X1 by (intros; by apply Hl). rewrite E1 in Hsim.
  assert (l ≡ₚ due cutoff (items (attempts s))) as Hp.
  { apply NoDup_Permutation; [by eapply NoDup_fmap_1..|]. intros a. by rewrite Hl, Hdue. }
  unfold expire_attempt_leases, RunRepository.expire_attempt_leases. sql_simpl. fold cutoff. rewrite El, E2.
  destruct (expire_rows _ _ _ _ db) as [[x|e] db']; destruct Hsim as [Hx Rf1]; [| done].
  cbn [fst snd] in Hx, Rf1. subst x. apply sim_ok.
  - by apply (fmap_Permutation (lost_of (clk 0%nat) cutoff)).
  - destruct (expired_same _ _ _ _ _ _ _ Hp X1 X2) as (? & ? & ? & ? & ?). by eapply refines_same.
Qed.
End refinement.
