(* ===== verification/SqlRunTheorems.v ===== *)
(** * The SQL run repository implements the in-memory one

    [portable] excludes the few calls on which the two differ; any session of the other
    calls gives the same answers on both, and a creation that races with other
    transactions answers as if it had run alone at some moment. *)
From S2P Require Import Prelude PyDict PyText TextFacts Protocol Domain Sha256 Runs RunsFacts RunsTheorems RunsExamples Codecs Tables SqlRuns SqlRunRelation SqlRunSim SqlRunEvents.
Import SqlRunRepository.
Open Scope string_scope.
Open Scope list_scope.
#[local] Opaque uuid_str uuid_of_str enum_of run_state_value attempt_state_value Engine.value EventType.value ResultOutcome.value run_row attempt_row event_row artifact_row.

Section refinement.
  Context `{PyFloat} `{Driver}.
  Context `{!Table RunModel.t} `{!Table AttemptModel.t} `{!Table EventModel.t} `{!Table ArtifactModel.t}.
  Context `{!TableLaws RunModel.t} `{!TableLaws AttemptModel.t} `{!TableLaws EventModel.t} `{!TableLaws ArtifactModel.t}.

Notation store := RunRepository.t.
Notation runs := RunRepository._runs.
Notation attempts := RunRepository._attempts.
Notation events := RunRepository._events.
Notation artifacts := RunRepository._artifacts.
Notation keys_of := RunRepository._idempotency.

(** ** The repositories agree *)

(** A client passes back 0 or the cursor of an event it was given, which is the
    database's own. *)
Definition same_cursor (db : database) (s : store) (after after' : Z) : Prop :=
  (after = after' /\ (after <= 0)%Z)
  \/ exists e, events s !! EventRecord.event_id e = Some e
               /\ event_row after e ∈ select (run_events db) /\ after' = EventRecord.cursor e.

Lemma same_cursor_spec db s after after' :
  refines db s -> RunsFacts.wf s -> same_cursor db s after after' ->
  ((after <? 0) = (after' <? 0))%Z
  /\ (forall c e, event_row c e ∈ select (run_events db) -> events s !! EventRecord.event_id e = Some e ->
     (after < c <-> after' < EventRecord.cursor e)%Z).
Proof.
  intros Rf W Hc.
  assert (forall c e, event_row c e ∈ select (run_events db) -> events s !! EventRecord.event_id e = Some e ->
            (0 < c)%Z /\ (0 < EventRecord.cursor e)%Z) as Hpos.
  { intros c e Hrow He. split; [by destruct (rf_event_rows _ _ Rf _ Hrow) as (_ & _ & _ & ?) |].
    destruct (RunsFacts.wf_events _ W _ _ He) as (_ & _ & ? & _). lia. }
  destruct Hc as [[<- Hle]|(x & Hx & Hrow & ->)].
  - split; [done |]. intros c e Hce He. destruct (Hpos c e Hce He). lia.
  - destruct (Hpos _ _ Hrow Hx). split; [by rewrite (proj2 (Z.ltb_ge after 0)), (proj2 (Z.ltb_ge _ 0)) by lia |].
    intros c e Hce He. symmetry. by apply (rf_cursors _ _ Rf).
Qed.

(** The calls on which the two agree: identifiers of 128 bits, a fresh one for a new
    run, and none of the cases told apart above. *)
Definition portable (s : store) (o : repo_op) : Prop :=
  match o with
  | OpCreate _ fresh _ _ key => is_uuid fresh /\ runs s !! fresh = None /\ ~ blank_key key
  | OpListRuns => True
  | OpGetRun i | OpTransition _ i _ | OpCancel _ i | OpListAttempts i | OpListArtifacts i
  | OpGetAttempt i | OpTransitionAttempt _ i _ | OpClaimAttempt _ i _ _ _ | OpRenewLease _ i _ _ _
  | OpCompleteAttempt _ i _ _ | OpGetArtifact i | OpListEvents i _ => is_uuid i
  | OpCreateAttempt _ fresh i a => is_uuid i /\ is_uuid (match a with Some x => x | None => fresh end)
  | OpBeginAttempt _ i j _ _ => is_uuid i /\ is_uuid j /\ ~ begins_late s i j
  | OpExpireLeases clk now =>
      (forall n, clk n = clk 0%nat)
      /\ (forall i a, attempts s !! i = Some a ->
            lease_due (RunRepository.default_now now (clk 0%nat)) a ->
            run_started s (AttemptRecord.run_id a))
  | OpAppendEvent e =>
      is_uuid (EventEnvelope.event_id e) /\ is_uuid (EventEnvelope.run_id e)
      /\ is_uuid (EventEnvelope.attempt_id e) /\ ~ event_orphaned s e
  | OpCreateArtifact x =>
      is_uuid (ArtifactRecord.id x) /\ is_uuid (ArtifactRecord.run_id x)
      /\ is_uuid (ArtifactRecord.attempt_id x) /\ ~ artifact_differs s x
  end.

(** [o] to the database and [o'] to the in-memory repository are the same request. *)
Definition agreed (db : database) (s : store) (o o' : repo_op) : Prop :=
  portable s o'
  /\ match o, o' with
     | OpListEvents i after, OpListEvents i' after' => i = i' /\ same_cursor db s after after'
     | OpListEvents _ _, _ | _, OpListEvents _ _ => False
     | _, _ => o = o'
     end.

Lemma call_memory_state o s : (call_memory o s).2 = run_op o s.
Proof.
  destruct o; cbn [call_memory run_op]; unfold fmapM, bind, ret;
    match goal with |- context [let (_, _) := ?c in _] => destruct c as [[]] eqn:E end; done.
Qed.

Lemma call_sim db s o o' : refines db s -> RunsFacts.wf s -> agreed db s o o' ->
  sim same_reply (call_sql o db) (call_memory o' s).
Proof.
  intros Rf W [Hp Ho]. destruct o, o'; try done; try (injection Ho; intros; subst);
    cbn [call_sql call_memory portable] in *; destruct_and? Hp;
    try (eapply sim_fmap; [| by eauto using get_run_sim, transition_sim, cancel_sim, get_attempt_sim,
      list_attempts_sim, list_artifacts_sim, transition_attempt_sim, claim_attempt_sim, renew_lease_sim,
      complete_attempt_sim, get_artifact_sim, create_or_get_sim, create_attempt_sim, begin_attempt_sim,
      create_artifact_sim, append_event_sim]; intros; simpl in *; by subst).
  - eapply sim_fmap; [| by apply list_runs_sim]. done.
  - eapply sim_fmap; [| by apply expire_leases_sim]. done.
  - destruct Ho as [-> Hc]. destruct (same_cursor_spec _ _ _ _ Rf W Hc).
    eapply sim_fmap; [| by apply (list_events_sim _ _ _ _ after0)]. done.
Qed.

(** A client's session, run on both. *)
Inductive co_reachable : database -> store -> Prop :=
  | co_init : co_reachable empty_database RunRepository.init
  | co_call db s o o' : co_reachable db s -> agreed db s o o' ->
      co_reachable (call_sql o db).2 (call_memory o' s).2.

Lemma refines_init : refines empty_database RunRepository.init.
Proof.
  split; cbn [test_runs run_attempts run_events run_artifacts empty_database]; rewrite ?select_no_rows;
    try (by intros ? ? [=]); try (by intros ? ?%elem_of_nil); try (by intros ? ? ? ? ?%elem_of_nil).
  - intros k f i. split; [by intros [=] |]. by intros (r & [=] & _).
  - intros m. split; [by intros ?%elem_of_nil |]. by intros (a & [=] & _).
  - intros m. split; [by intros ?%elem_of_nil |]. by intros (a & [=] & _).
Qed.

Lemma portable_fresh s o : portable s o -> fresh_for o s.
Proof. destruct o; simpl; try done. by intros (_ & ? & _). Qed.

Lemma co_reachable_refines db s : co_reachable db s -> reachable s /\ refines db s.
Proof.
  induction 1 as [|db s o o' _ [Hr Rf] Ho]; [split; [constructor | apply refines_init] |].
  split; [rewrite call_memory_state; constructor; [done | by apply portable_fresh; destruct Ho] |].
  apply (call_sim db s o o' Rf (RunsFacts.reachable_wf s Hr) Ho).
Qed.

(** C36. The SQL repository implements the in-memory one on [portable] calls: any session
    of them answers the same on both and keeps the two states related. The calls left
    out are those on which the answers can differ (for blank keys [blank_keys_collide]
    shows that they do). *)
Theorem sql_repository_refines_memory db s :
  co_reachable db s ->
  refines db s
  /\ forall o o', agreed db s o o' -> sim same_reply (call_sql o db) (call_memory o' s).
Proof.
  intros [Hr Rf]%co_reachable_refines. split; [done |]. intros o o' Ho.
  apply call_sim; [done | by apply RunsFacts.reachable_wf | done].
Qed.
(** ** Racing creations *)

(** What other transactions commit, as calls on both repositories. *)
Definition co_step (x y : database * store) : Prop :=
  exists o o', agreed x.1 x.2 o o' /\ y = ((call_sql o x.1).2, (call_memory o' x.2).2).

Lemma co_step_keeps x y : co_reachable x.1 x.2 -> rtc co_step x y ->
  co_reachable y.1 y.2 /\ RunsFacts.good x.2 y.2.
Proof.
  intros Hx. induction 1 as [x|x y z (o & o' & Ho & ->) _ IH].
  - split; [done |]. apply RunsFacts.good_refl, RunsFacts.reachable_wf. by eapply co_reachable_refines.
  - destruct IH as [Hz Hg]; [by econstructor |]. split; [done |].
    eapply RunsFacts.good_trans; [| exact Hg]. cbn [snd]. rewrite call_memory_state.
    apply RunsFacts.run_op_good; [| by apply portable_fresh; destruct Ho].
    apply RunsFacts.reachable_wf. by eapply co_reachable_refines.
Qed.

(** C37. Racing creations under a key that is not blank: other transactions commit
    [portable] calls between the lookup of the key and the insert, and between the insert
    that violates the unique constraint and the second lookup; the call still answers, and
    leaves the database, as the in-memory repository does when the creation runs alone at
    one of the three moments. So of two racing creations under one key one creates the run
    and the other replays it. Under a blank key the violated constraint surfaces as an
    error ([blank_keys_collide]). *)
Theorem concurrent_creation_linearizable others clk fresh engine p key db s s1 s2 :
  co_reachable db s ->
  rtc co_step (db, s) (others 0%nat db, s1) ->
  rtc co_step (others 0%nat db, s1) (others 1%nat (others 0%nat db), s2) ->
  is_uuid fresh -> runs s2 !! fresh = None -> ~ blank_key key ->
  exists s0, (s0 = s \/ s0 = s1 \/ s0 = s2)
    /\ sim eq (create_or_get others clk fresh engine p key db)
              (RunRepository.create_or_get clk fresh engine p key s0).
Proof.
  intros Hc H1 H2 Hu Hn Hb. destruct (co_step_keeps (db, s) _ Hc H1) as [Hc1 Hg1], (co_step_keeps (_, s1) _ Hc1 H2) as [Hc2 Hg2].
  cbn [fst snd] in *. destruct (co_reachable_refines _ _ Hc), (co_reachable_refines _ _ Hc1), (co_reachable_refines _ _ Hc2).
  eapply create_or_get_linear; try done. by apply RunsFacts.reachable_wf.
Qed.

End refinement.

(** * A concrete database for the SQL run repository

    Tables kept in dicts and a driver that returns naive time stamps; a session on both
    repositories, and a creation that loses a race. *)
Import SqlRunRepository.
Open Scope string_scope.
Open Scope list_scope.
#[local] Existing Instance no_floats.

#[local] Instance runs_table : Table RunModel.t := dict_table.
#[local] Instance attempts_table : Table AttemptModel.t := dict_table.
#[local] Instance events_table : Table EventModel.t := dict_table.
#[local] Instance artifacts_table : Table ArtifactModel.t := dict_table.
#[local] Instance runs_table_laws : TableLaws RunModel.t.
Proof. by apply dict_table_laws. Qed.
#[local] Instance attempts_table_laws : TableLaws AttemptModel.t.
Proof. by apply dict_table_laws. Qed.
#[local] Instance events_table_laws : TableLaws EventModel.t.
Proof. apply dict_table_laws. intros n r y _ Hn. cbn in *. lia. Qed.
#[local] Instance artifacts_table_laws : TableLaws ArtifactModel.t.
Proof. by apply dict_table_laws. Qed.
(** SQLite returns naive values. *)
#[local] Instance naive_driver : Driver := {| returned d := (d, None); returned_instant d := eq_refl |}.

(** The same calls on both. *)
Fixpoint co_run (ops : list repo_op) (db : database) (s : RunRepository.t) : database * RunRepository.t :=
  match ops with
  | [] => (db, s)
  | o :: rest => co_run rest (call_sql o db).2 (call_memory o s).2
  end.

Fixpoint all_agreed (ops : list repo_op) (db : database) (s : RunRepository.t) : Prop :=
  match ops with
  | [] => True
  | o :: rest => agreed db s o o /\ all_agreed rest (call_sql o db).2 (call_memory o s).2
  end.

Lemma co_run_reachable ops db s :
  co_reachable db s -> all_agreed ops db s -> co_reachable (co_run ops db s).1 (co_run ops db s).2.
Proof.
  revert db s. induction ops as [|o ops IH]; intros db s Hc; [done |].
  intros [Ho Ha]. apply IH; [by econstructor | done].
Qed.

Lemma visible_key k : strip k <> EmptyString -> ~ blank_key (Some k).
Proof. intros Hk (k' & [= <-] & _ & ?). done. Qed.

Definition session : list repo_op :=
  [OpCreate at_noon 7%N Engine.HTTP [("a", PInt 1)] (Some " key ");
   OpTransition at_noon 7%N RunState.QUEUED;
   OpTransition at_noon 7%N RunState.DISPATCHING;
   OpBeginAttempt at_noon 7%N 9%N "runner" 60].

Lemma session_agreed : all_agreed session empty_database RunRepository.init.
Proof.
  unfold session. cbn [all_agreed]. split; [| split; [| split; [| split; [| done]]]].
  - split; [| done]. cbn [portable]. split; [done |]. split; [done |]. by apply visible_key.
  - by split.
  - by split.
  - split; [| done]. cbn [portable]. split; [done |]. split; [done |].
    intros [[x Hx] _]. vm_compute in Hx. done.
Qed.

Definition session_db : database := (co_run session empty_database RunRepository.init).1.
Definition session_store : RunRepository.t := (co_run session empty_database RunRepository.init).2.

Lemma session_reachable : co_reachable session_db session_store.
Proof. apply co_run_reachable; [constructor | apply session_agreed]. Qed.

Definition reply_state (r : res reply) : option RunState.t :=
  match r with Ok (RunReply r) | Ok (CreatedReply r _) => Some (RunRecord.state r) | _ => None end.

Lemma sql_repository_refines_memory_witness :
  refines session_db session_store
  /\ sim same_reply (call_sql (OpCancel at_noon 7%N) session_db)
       (call_memory (OpCancel at_noon 7%N) session_store)
  /\ reply_state (call_sql (OpCancel at_noon 7%N) session_db).1 = Some RunState.CANCELLING.
Proof.
  destruct (sql_repository_refines_memory session_db session_store session_reachable) as [Rf Hs].
  split; [exact Rf |]. split; [apply Hs; by split | by vm_compute].
Defined.

(** Another transaction commits a run under the same key between the lookup and the
    insert: the call finds and replays it. *)
Definition rival : repo_op := OpCreate at_noon 8%N Engine.HTTP [("a", PInt 1)] (Some "key").
Definition race (n : nat) (db : database) : database :=
  match n with O => (call_sql rival db).2 | _ => db end.
Definition raced_store : RunRepository.t := (call_memory rival RunRepository.init).2.

Lemma rival_commits : co_step (empty_database, RunRepository.init) (race 0 empty_database, raced_store).
Proof.
  exists rival, rival. split; [| done]. split; [| done]. cbn [portable rival]. split; [done |].
  split; [done |]. by apply visible_key.
Qed.

Lemma concurrent_creation_linearizable_witness :
  (exists s0, (s0 = RunRepository.init \/ s0 = raced_store \/ s0 = raced_store)
    /\ sim eq (create_or_get race at_noon 7%N Engine.HTTP [("a", PInt 1)] (Some "key") empty_database)
              (RunRepository.create_or_get at_noon 7%N Engine.HTTP [("a", PInt 1)] (Some "key") s0))
  /\ match (create_or_get race at_noon 7%N Engine.HTTP [("a", PInt 1)] (Some "key") empty_database).1 with
     | Ok (r, replayed) => RunRecord.id r = 8%N /\ replayed = true
     | Err _ => False
     end.
Proof.
  split; [| by vm_compute].
  apply (concurrent_creation_linearizable race at_noon 7%N Engine.HTTP [("a", PInt 1)] (Some "key")
           empty_database RunRepository.init raced_store raced_store).
  - constructor.
  - apply rtc_once, rival_commits.
  - apply rtc_refl.
  - done.
  - by vm_compute.
  - by apply visible_key.
Defined.

(** ** Where the two differ *)

(** A key of white space is stored as the empty text, which the lookup skips: the second
    creation under such a key violates the unique constraint, which the in-memory
    repository takes for no key at all. *)
Lemma blank_keys_collide :
  let blank := OpCreate at_noon 7%N Engine.HTTP [] (Some " ") in
  let again := OpCreate at_noon 8%N Engine.HTTP [] (Some "  ") in
  (call_sql again (call_sql blank empty_database).2).1 = Err IntegrityError
  /\ reply_state (call_memory again (call_memory blank RunRepository.init).2).1 = Some RunState.CREATED.
Proof. by vm_compute. Qed.
