(* ===== verification/Graph.v ===== *)
(** * Workflow graphs ([src/services/api/data_factory_domain.py])

    The workflow records and [validate_workflow_graph], with its Kahn traversal as a
    loop with fuel.  The theorems show that the loop never runs out of the fuel it
    is given and that the function accepts exactly the well-formed acyclic graphs. *)
From stdpp Require Import relations.
From S2P Require Import Prelude PyDict PyText Protocol.
From Stdlib Require Import Ascii.
Open Scope list_scope.

Definition MAX_WORKFLOW_NODES : nat := 100.
Definition MAX_WORKFLOW_EDGES : nat := 500.

Module WorkflowNodeType.
Inductive t := HTTP | CONDITION | PARALLEL.
#[global] Instance eq_dec : EqDecision t.
Proof. solve_decision. Defined.
Definition value (x : t) : string :=
  match x with HTTP => "http" | CONDITION => "condition" | PARALLEL => "parallel" end.
End WorkflowNodeType.

Module WorkflowEdgeOutcome.
Inductive t := ALWAYS | SUCCESS | FAILURE | TRUE | FALSE.
#[global] Instance eq_dec : EqDecision t.
Proof. solve_decision. Defined.
End WorkflowEdgeOutcome.

Module WorkflowNode.
Record t := mk {
  id : string; name : string; type : WorkflowNodeType.t; x : pyval; y : pyval;
  config : list (string * pyval) }.
#[global] Instance eq_dec : EqDecision t.
Proof. solve_decision. Defined.
End WorkflowNode.

Module WorkflowEdge.
Record t := mk { id : string; source : string; target : string; outcome : WorkflowEdgeOutcome.t }.
#[global] Instance eq_dec : EqDecision t.
Proof. solve_decision. Defined.
End WorkflowEdge.

Module WorkflowDefinition.
Record t := mk {
  nodes : list WorkflowNode.t; edges : list WorkflowEdge.t;
  variables : list (string * pyval); id : string }.
#[global] Instance eq_dec : EqDecision t.
Proof. solve_decision. Defined.
End WorkflowDefinition.

(** [IDENTIFIER_PATTERN = ^[A-Za-z0-9][A-Za-z0-9._:-]{0,254}$]. *)
Definition is_identifier_char (c : ascii) : bool :=
  is_alpha c || is_digit c || is_underscore c
  || bool_decide (code c = 46)%N || bool_decide (code c = 58)%N || bool_decide (code c = 45)%N.
Definition IDENTIFIER_PATTERN : string -> bool :=
  matches_name (fun c => is_alpha c || is_digit c) is_identifier_char 254.

Definition _COMPATIBLE_OUTCOMES (x : WorkflowNodeType.t) : list WorkflowEdgeOutcome.t :=
  match x with
  | WorkflowNodeType.HTTP =>
      [WorkflowEdgeOutcome.ALWAYS; WorkflowEdgeOutcome.SUCCESS; WorkflowEdgeOutcome.FAILURE]
  | WorkflowNodeType.CONDITION =>
      [WorkflowEdgeOutcome.ALWAYS; WorkflowEdgeOutcome.TRUE; WorkflowEdgeOutcome.FALSE]
  | WorkflowNodeType.PARALLEL => [WorkflowEdgeOutcome.ALWAYS]
  end.

Definition invalid {A} (msg : string) : res A := Err (WorkflowValidationError msg).

Definition _validate_identifier (value label : string) : res unit :=
  if IDENTIFIER_PATTERN value then Ok tt else invalid (label ++ " is invalid")%string.

(** The loop over the nodes. *)
Definition add_node (nodes : pydict string WorkflowNode.t) (node : WorkflowNode.t)
    : res (pydict string WorkflowNode.t) :=
  let? _ := _validate_identifier (WorkflowNode.id node) "node id" in
  if has_key (WorkflowNode.id node) nodes then
    invalid ("duplicate node id: " ++ WorkflowNode.id node)%string
  else Ok (<[WorkflowNode.id node := node]> nodes).

(** [edge_ids], [incoming] and [outgoing]. *)
Record links := mkLinks {
  edge_ids : list string;
  incoming : pydict string Z;
  outgoing : pydict string (list string) }.

(** The loop over the edges. *)
Definition add_edge (nodes : pydict string WorkflowNode.t) (l : links) (edge : WorkflowEdge.t)
    : res links :=
  let id := WorkflowEdge.id edge in
  let? _ := _validate_identifier id "edge id" in
  if bool_decide (id ∈ edge_ids l) then invalid ("duplicate edge id: " ++ id)%string
  else if negb (has_key (WorkflowEdge.source edge) nodes)
          || negb (has_key (WorkflowEdge.target edge) nodes) then
    invalid ("edge " ++ id ++ " references an unknown node")%string
  else
    let? source := subscript (WorkflowEdge.source edge) nodes in
    if negb (bool_decide (WorkflowEdge.outcome edge ∈ _COMPATIBLE_OUTCOMES (WorkflowNode.type source)))
    then invalid ("edge " ++ id ++ " outcome is incompatible with its source node")%string
    else
      let? count := subscript (WorkflowEdge.target edge) (incoming l) in
      let? targets := subscript (WorkflowEdge.source edge) (outgoing l) in
      Ok (mkLinks (id :: edge_ids l)
            (<[WorkflowEdge.target edge := (count + 1)%Z]> (incoming l))
            (<[WorkflowEdge.source edge := targets ++ [WorkflowEdge.target edge]]> (outgoing l))).

(** The inner loop of the traversal: one target of the visited node.  [ready] is the
    stack, its top first. *)
Definition release (st : pydict string Z * list string) (target : string)
    : res (pydict string Z * list string) :=
  let '(remaining, ready) := st in
  let? count := subscript target remaining in
  let remaining := <[target := (count - 1)%Z]> remaining in
  Ok (remaining, if (count - 1 =? 0)%Z then target :: ready else ready).

(** [while ready]: the number of visited nodes, [None] when the fuel runs out. *)
Fixpoint traverse (fuel : nat) (outgoing : pydict string (list string))
    (remaining : pydict string Z) (ready : list string) (visited : nat) : option (res nat) :=
  match fuel with
  | O => None
  | S fuel =>
      match ready with
      | [] => Some (Ok visited)
      | current :: rest =>
          match (let? targets := subscript current outgoing in
                 rfold release (remaining, rest) targets) with
          | Ok (remaining, ready) => traverse fuel outgoing remaining ready (S visited)
          | Err e => Some (Err e)
          end
      end
  end.

Definition roots (incoming : pydict string Z) : list string :=
  (List.filter (fun kv => (kv.2 =? 0)%Z) (items incoming)).*1.

Definition no_links (nodes : pydict string WorkflowNode.t) : links :=
  mkLinks [] (of_pairs (map (fun n => (n, 0%Z)) (keys nodes)))
             (of_pairs (map (fun n => (n, [])) (keys nodes))).

Definition validate_workflow_graph (definition : WorkflowDefinition.t) : res unit :=
  let ns := WorkflowDefinition.nodes definition in
  let es := WorkflowDefinition.edges definition in
  if (MAX_WORKFLOW_NODES <? length ns)%nat then invalid "workflow has too many nodes"
  else if (MAX_WORKFLOW_EDGES <? length es)%nat then invalid "workflow has too many edges"
  else
    let? nodes := rfold add_node ∅ ns in
    let? l := rfold (add_edge nodes) (no_links nodes) es in
    match keys nodes with
    | [] => match es with
            | [] => Ok tt
            | _ => invalid "an empty workflow cannot contain edges"
            end
    | _ =>
        match roots (incoming l) with
        | [] => invalid "workflow must have at least one root node"
        | rs =>
            match traverse (S (size nodes)) (outgoing l) (incoming l) (rev rs) 0 with
            | None => Err (OtherException "out of fuel")
            | Some (Err e) => Err e
            | Some (Ok visited) =>
                if bool_decide (visited = size nodes) then Ok tt
                else invalid "workflow must be a DAG"
            end
        end
    end.

(** * Soundness and completeness of the workflow graph validation *)
Open Scope list_scope.

(** How often [n] occurs in [l]. *)
Fixpoint occ (n : string) (l : list string) : Z :=
  match l with [] => 0 | x :: r => (if decide (x = n) then 1 else 0) + occ n r end.

Lemma occ_nonneg n l : (0 <= occ n l)%Z.
Proof. induction l as [|x l IH]; simpl; [lia |]. case_decide; lia. Qed.

Lemma occ_zero n l : occ n l = 0%Z <-> n ∉ l.
Proof.
  induction l as [|x l IH]; simpl; [by split; [intros _ ?%elem_of_nil |] |].
  pose proof (occ_nonneg n l). case_decide; rewrite not_elem_of_cons; [split; [lia | naive_solver] |].
  rewrite <- IH. naive_solver lia.
Qed.

Lemma occ_app n l k : occ n (l ++ k) = (occ n l + occ n k)%Z.
Proof. induction l as [|x l IH]; simpl; lia. Qed.

(** ** The inner loop *)

Lemma release_all (N : list string) (f : string -> Z) ts rem ready :
  (forall n, n ∈ N -> rem !! n = Some (f n)) -> (forall n, n ∈ ts -> n ∈ N) ->
  (forall n, (occ n ts <= f n)%Z) ->
  exists rem' new, rfold release (rem, ready) ts = Ok (rem', new ++ ready)
    /\ (forall n, n ∈ N -> rem' !! n = Some (f n - occ n ts)%Z)
    /\ NoDup new /\ (forall n, n ∈ new <-> (0 < occ n ts /\ f n = occ n ts)%Z).
Proof.
  revert f rem ready. induction ts as [|t ts IH]; intros f rem ready Hrem Hin Hocc.
  { exists rem, []. simpl. split_and!; [done | | constructor |].
    - intros n Hn. rewrite Hrem by done. f_equal. lia.
    - intros n. split; [by intros ?%elem_of_nil | lia]. }
  assert (t ∈ N) as Ht by (apply Hin; by left).
  set (g := fun n => if decide (n = t) then (f t - 1)%Z else f n).
  pose proof (Hocc t) as Hot. simpl in Hot. rewrite decide_True in Hot by done.
  destruct (IH g (<[t := (f t - 1)%Z]> rem) (if (f t - 1 =? 0)%Z then t :: ready else ready))
    as (rem' & new & E & Hr & Hnd & Hnew).
  - intros n Hn. unfold g. case_decide; [subst; apply dict_lookup_insert_eq |].
    rewrite dict_lookup_insert_ne by done. auto.
  - intros n Hn. apply Hin. by right.
  - intros n. specialize (Hocc n). simpl in Hocc. unfold g. repeat case_decide; subst; try done; lia.
  - exists rem', (if (f t - 1 =? 0)%Z then new ++ [t] else new). split_and!.
    + cbn [rfold release]. unfold subscript at 1. rewrite (Hrem t Ht). cbn [rbind]. rewrite E.
      destruct (f t - 1 =? 0)%Z; [by rewrite <- app_assoc | done].
    + intros n Hn. rewrite Hr by done. unfold g. f_equal. cbn [occ].
      repeat case_decide; subst; try done; lia.
    + case_match eqn:Ez; [| done]. apply Z.eqb_eq in Ez. apply NoDup_app. split_and!; [done | | apply NoDup_singleton].
      intros n Hn Hnt. apply list_elem_of_singleton in Hnt as ->. apply Hnew in Hn as [? ?]. lia.
    + intros n. assert (n ∈ (if (f t - 1 =? 0)%Z then new ++ [t] else new) <->
        n ∈ new \/ (n = t /\ f t = 1%Z)) as ->.
      { case_match eqn:Ez; bool_prop; rewrite ?elem_of_app, ?list_elem_of_singleton;
          intuition (subst; auto; lia). }
      rewrite Hnew. unfold g. pose proof (occ_nonneg n ts). cbn [occ].
      destruct (decide (n = t)) as [->|Hnt].
      * rewrite decide_True by done. destruct (decide (occ t ts = 0%Z)); split; naive_solver lia.
      * rewrite decide_False by done. split; naive_solver lia.
Qed.

(** ** The traversal *)

Section traversal.
  Context (N : list string) (E : list WorkflowEdge.t) (out : pydict string (list string)).

(** The targets of the edges that leave [s]. *)
Definition targets_of (s : string) : list string :=
  map WorkflowEdge.target (filter (fun e => WorkflowEdge.source e = s) E).

(** There is an edge from [a] to [b]. *)
Definition linked (a b : string) : Prop :=
  exists e, e ∈ E /\ WorkflowEdge.source e = a /\ WorkflowEdge.target e = b.

(** The edges into [n] whose source has not been visited. *)
Definition indegree (V : list string) (n : string) : Z :=
  occ n (map WorkflowEdge.target (filter (fun e => WorkflowEdge.source e ∉ V) E)).

Lemma indegree_nonneg V n : (0 <= indegree V n)%Z.
Proof. apply occ_nonneg. Qed.

Lemma indegree_visit V c n :
  c ∉ V -> indegree V n = (indegree (c :: V) n + occ n (targets_of c))%Z.
Proof.
  intros Hc. unfold indegree, targets_of. induction E as [|e es IH]; [done |].
  rewrite !filter_cons.
  destruct (decide (WorkflowEdge.source e = c)) as [H3|H3],
    (decide (WorkflowEdge.source e ∉ c :: V)) as [H1|H1],
    (decide (WorkflowEdge.source e ∉ V)) as [H2|H2];
    rewrite not_elem_of_cons in H1; simpl; rewrite ?IH; try lia;
    exfalso; try rewrite H3 in H2; tauto.
Qed.

Lemma indegree_zero V n : indegree V n = 0%Z <-> forall a, linked a n -> a ∈ V.
Proof.
  unfold indegree. rewrite occ_zero. split.
  - intros Hn a (e & He & <- & <-). destruct (decide (WorkflowEdge.source e ∈ V)); [done |].
    destruct Hn. apply list_elem_of_fmap. exists e. split; [done |]. by apply list_elem_of_filter.
  - intros Ha (e & -> & [Hs He]%list_elem_of_filter)%list_elem_of_fmap. apply Hs, Ha. by exists e.
Qed.

(** Every visited node came after all its predecessors; [V] has the latest first. *)
Fixpoint ordered (V : list string) : Prop :=
  match V with [] => True | n :: r => (forall a, linked a n -> a ∈ r) /\ ordered r end.

Record progress (V R : list string) (rem : pydict string Z) : Prop := {
  pr_nodup : NoDup (V ++ R);
  pr_nodes : forall n, n ∈ V ++ R -> n ∈ N;
  pr_rem : forall n, n ∈ N -> rem !! n = Some (indegree V n);
  pr_ready : forall n, n ∈ N -> n ∈ V ++ R <-> indegree V n = 0%Z;
  pr_ordered : ordered V }.

Context (N_nodup : NoDup N)
  (out_ok : forall s, s ∈ N -> out !! s = Some (targets_of s))
  (closed : forall e, e ∈ E -> WorkflowEdge.source e ∈ N /\ WorkflowEdge.target e ∈ N).

Lemma progress_visit V c R rem :
  progress V (c :: R) rem ->
  exists rem' new, rfold release (rem, R) (targets_of c) = Ok (rem', new ++ R)
                   /\ progress (c :: V) (new ++ R) rem'.
Proof.
  intros [Hnd Hn Hrem Hr Ho].
  assert (c ∈ N) as HcN by (apply Hn; set_solver).
  assert (c ∉ V /\ NoDup (c :: V ++ R)) as [HcV Hnd'].
  { apply NoDup_app in Hnd as (H1 & H2 & [H3 H4]%NoDup_cons). split; [intros Hc; apply (H2 c Hc); by left |].
    apply NoDup_cons. split; [rewrite elem_of_app; intros [Hc|]; [apply (H2 c Hc); by left | done] |].
    apply NoDup_app. split_and!; [done | | done]. intros x Hx Hx'. apply (H2 x Hx). by right. }
  destruct (release_all N (indegree V) (targets_of c) rem R) as (rem' & new & E' & Hrem' & Hnew & Hin).
  - done.
  - intros n (e & -> & [_ He]%list_elem_of_filter)%list_elem_of_fmap. by apply closed.
  - intros n. rewrite (indegree_visit V c n HcV). pose proof (indegree_nonneg (c :: V) n). lia.
  - exists rem', new. split; [done |].
    assert (forall n, n ∈ new <-> (0 < occ n (targets_of c) /\ indegree (c :: V) n = 0)%Z) as Hnew'.
    { intros n. rewrite Hin, (indegree_visit V c n HcV). split; intros [? ?]; split; lia. }
    assert (forall n, n ∈ N -> n ∈ new -> n ∉ V ++ c :: R) as Hdisj.
    { intros n HnN [Hp _]%Hin Hold. apply Hr in Hold; [| done].
      pose proof (indegree_visit V c n HcV). pose proof (indegree_nonneg (c :: V) n). lia. }
    assert (forall n, n ∈ new -> n ∈ N) as HnewN.
    { intros n [Hp _]%Hin. destruct (decide (n ∈ targets_of c)) as [Ht|Ht%occ_zero]; [| lia].
      apply list_elem_of_fmap in Ht as (e & -> & [_ He]%list_elem_of_filter). by apply closed. }
    split.
    + assert ((c :: V) ++ new ++ R ≡ₚ new ++ (c :: V ++ R)) as -> by solve_Permutation.
      apply NoDup_app. split_and!; [done | | done]. intros n Hnn Hold.
      apply (Hdisj n); [by apply HnewN | done | set_solver].
    + intros n Hnn. destruct (decide (n ∈ new)); [by apply HnewN |]. apply Hn. set_solver.
    + intros n HnN. rewrite Hrem' by done. f_equal. rewrite (indegree_visit V c n HcV). lia.
    + intros n HnN. specialize (Hr n HnN). specialize (Hnew' n).
      pose proof (indegree_visit V c n HcV). pose proof (indegree_nonneg (c :: V) n).
      pose proof (occ_nonneg n (targets_of c)).
      assert (n ∈ (c :: V) ++ new ++ R <-> n ∈ new \/ n ∈ V ++ c :: R) as -> by set_solver.
      rewrite Hnew', Hr. split; [intros [[_ ?]|?]; lia |]. intros Hz.
      destruct (decide (occ n (targets_of c) = 0%Z)); [right; lia | left; lia].
    + split; [| done]. apply indegree_zero. apply Hr; [done | set_solver].
Qed.

(** The loop ends within the fuel it is given. *)
Lemma traverse_ends fuel V R rem :
  progress V R rem -> (length N < fuel + length V)%nat ->
  exists V' rem', traverse fuel out rem R (length V) = Some (Ok (length V')) /\ progress V' [] rem'.
Proof.
  revert V R rem. induction fuel as [|fuel IH]; intros V R rem P Hf.
  { exfalso. pose proof (pr_nodup _ _ _ P) as [Hnd _]%NoDup_app.
    assert (length V <= length N)%nat; [| lia].
    apply submseteq_length, NoDup_submseteq; [done |]. intros n Hn.
    apply (pr_nodes _ _ _ P). set_solver. }
  destruct R as [|c R]; [by exists V, rem |].
  destruct (progress_visit _ _ _ _ P) as (rem' & new & Er & P').
  cbn [traverse]. unfold subscript. rewrite out_ok by (apply (pr_nodes _ _ _ P); set_solver).
  cbn [rbind]. rewrite Er. apply (IH (c :: V)); [done | simpl; lia].
Qed.

(** The place of a node in the visiting order. *)
Fixpoint place (V : list string) (n : string) : nat :=
  match V with [] => 0 | x :: r => if decide (n = x) then S (length r) else place r n end.

Lemma place_bound V n : (place V n <= length V)%nat.
Proof. induction V as [|x V IH]; simpl; [lia |]. case_decide; lia. Qed.

Lemma ordered_place V a b : NoDup V -> ordered V -> b ∈ V -> linked a b -> (place V a < place V b)%nat.
Proof.
  induction V as [|x V IH]; simpl; [by intros _ _ ?%elem_of_nil |].
  intros [Hx Hnd]%NoDup_cons [Hl Ho] Hb Hab. pose proof (place_bound V a).
  destruct (decide (b = x)) as [->|Hbx].
  - apply Hl in Hab. rewrite decide_False by (by intros ->). lia.
  - apply elem_of_cons in Hb as [?|Hb]; [done |]. specialize (IH Hnd Ho Hb Hab).
    case_decide as Hax; [| done]. subst a. exfalso.
    assert (forall V', ordered V' -> b ∈ V' -> linked x b -> x ∈ V') as Hin; [| by apply Hx, (Hin V)].
    clear. induction V' as [|y V' IH]; simpl; [by intros _ ?%elem_of_nil |].
    intros [Hy Ho] [->|Hb]%elem_of_cons Hx; [right; auto | right; auto].
Qed.

Lemma tc_flip a b : tc (flip linked) a b -> tc linked b a.
Proof. induction 1 as [a b Hab|a b c Hab _ IH]; [by apply tc_once | by eapply tc_r]. Qed.

(** All nodes are visited exactly when no path leads from a node to itself. *)
Lemma all_visited_iff_acyclic V rem :
  progress V [] rem -> length V = length N <-> Irreflexive (tc linked).
Proof.
  intros [Hnd Hn Hrem Hr Ho]. rewrite app_nil_r in *. split.
  - intros Hlen.
    assert (forall n, n ∈ N -> n ∈ V) as Hall.
    { assert (V ≡ₚ N) as HP; [| intros n; by rewrite HP].
      apply submseteq_length_Permutation; [by apply NoDup_submseteq | lia]. }
    assert (forall a b, tc linked a b -> (place V a < place V b)%nat) as Hlt.
    { induction 1 as [a b Hab|a b c Hab _ IH].
      - apply ordered_place; try done. destruct Hab as (e & He & _ & <-). by apply Hall, closed.
      - etrans; [| exact IH]. apply ordered_place; try done.
        destruct Hab as (e & He & _ & <-). by apply Hall, closed. }
    intros n Hcyc. apply Hlt in Hcyc. lia.
  - intros Hirr.
    assert (forall n, n ∈ N -> n ∈ V) as Hall.
    { assert (Irreflexive (tc (flip linked))) as Hirr'.
      { intros n Hc. by apply (Hirr n), tc_flip. }
      intros n. pose proof (tc_finite_sn (R:=flip linked) n Hirr') as Hsn.
      destruct Hsn as [n' _ IH] using Acc_ind.
      { exists (map WorkflowEdge.source E). intros m Hm. apply list_elem_of_fmap.
        induction Hm as [a b (e & ? & ? & ?)|]; [by exists e | done]. }
      intros HnN. apply Hr; [done |]. apply indegree_zero. intros a Ha.
      apply IH; [exact Ha |]. destruct Ha as (e & He & <- & _). by apply closed. }
    apply Permutation_length, NoDup_Permutation; [done | done |]. intros n. split; auto.
Qed.
End traversal.

(** ** The loops over nodes and edges *)

Definition is_validation_error (e : exn) : Prop := exists msg, e = WorkflowValidationError msg.

Lemma invalid_error {A} msg e : invalid (A:=A) msg = Err e -> is_validation_error e.
Proof. intros [= <-]. by exists msg. Qed.

Definition node_ids (ns : list WorkflowNode.t) : list string := map WorkflowNode.id ns.

Lemma add_node_spec d n :
  (IDENTIFIER_PATTERN (WorkflowNode.id n) = true /\ d !! WorkflowNode.id n = None
   /\ add_node d n = Ok (<[WorkflowNode.id n := n]> d))
  \/ (~ (IDENTIFIER_PATTERN (WorkflowNode.id n) = true /\ d !! WorkflowNode.id n = None)
      /\ exists e, add_node d n = Err e /\ is_validation_error e).
Proof.
  unfold add_node, _validate_identifier. destruct (IDENTIFIER_PATTERN _); simpl.
  - destruct (has_key _ d) eqn:Hk.
    + right. apply has_key_true in Hk as [x Hx]. split; [rewrite Hx; by intros [_ ?] |].
      eexists. split; [done | by eexists].
    + left. apply has_key_false in Hk. by split_and!.
  - right. split; [by intros [? _] |]. eexists. split; [done | by eexists].
Qed.

(** The outcome of the loop over the nodes. *)
Lemma add_nodes_spec ns d :
  (exists d', rfold add_node d ns = Ok d'
     /\ items d' = items d ++ map (fun n => (WorkflowNode.id n, n)) ns
     /\ Forall (fun n => IDENTIFIER_PATTERN (WorkflowNode.id n) = true) ns
     /\ NoDup (node_ids ns) /\ (forall n, n ∈ ns -> d !! WorkflowNode.id n = None))
  \/ (exists e, rfold add_node d ns = Err e /\ is_validation_error e
     /\ ~ (Forall (fun n => IDENTIFIER_PATTERN (WorkflowNode.id n) = true) ns
           /\ NoDup (node_ids ns) /\ (forall n, n ∈ ns -> d !! WorkflowNode.id n = None))).
Proof.
  revert d. induction ns as [|n ns IH]; intros d; simpl.
  { left. exists d. rewrite app_nil_r. split_and!; try done; [constructor |]. by intros n ?%elem_of_nil. }
  destruct (add_node_spec d n) as [(Hi & Hd & ->)|(Hno & e & -> & He)]; simpl.
  2:{ right. exists e. split_and!; [done | done |]. intros (HF & _ & Hin). apply Hno. split.
      - by inversion HF.
      - apply Hin. by left. }
  assert (forall m, m ∈ ns -> WorkflowNode.id m <> WorkflowNode.id n ->
    <[WorkflowNode.id n := n]> d !! WorkflowNode.id m = d !! WorkflowNode.id m) as Hne.
  { intros m _ Hm. by apply dict_lookup_insert_ne. }
  destruct (IH (<[WorkflowNode.id n := n]> d)) as [(d' & E & Hitems & HF & Hnd & Hin)|(e & E & He & Hno)].
  - left. exists d'. rewrite Hitems, items_insert_new, <- app_assoc by done.
    assert (WorkflowNode.id n ∉ node_ids ns) as Hn.
    { intros (m & Hm & Hmin)%list_elem_of_fmap. specialize (Hin m Hmin).
      by rewrite <- Hm, dict_lookup_insert_eq in Hin. }
    split_and!; [done | done | by constructor | by apply NoDup_cons |].
    intros m [->|Hm]%elem_of_cons; [done |]. rewrite <- Hne; [by apply Hin | done |].
    intros Heq. apply Hn. rewrite <- Heq. by apply list_elem_of_fmap_2.
  - right. exists e. split_and!; [done | done |]. intros (HF & [Hn Hnd]%NoDup_cons & Hin). apply Hno.
    split_and!; [by inversion HF | done |]. intros m Hm.
    rewrite Hne; [apply Hin; by right | done |].
    intros Heq. apply Hn. rewrite <- Heq. by apply list_elem_of_fmap_2.
Qed.

(** An edge whose ends exist and whose outcome its source can have. *)
Definition edge_ok (nodes : pydict string WorkflowNode.t) (e : WorkflowEdge.t) : Prop :=
  IDENTIFIER_PATTERN (WorkflowEdge.id e) = true
  /\ (exists s, nodes !! WorkflowEdge.source e = Some s
                /\ WorkflowEdge.outcome e ∈ _COMPATIBLE_OUTCOMES (WorkflowNode.type s))
  /\ is_Some (nodes !! WorkflowEdge.target e).

(** The dictionaries describe the edges [es]. *)
Record links_ok (nodes : pydict string WorkflowNode.t) (es : list WorkflowEdge.t) (l : links) : Prop := {
  lk_ids : forall i, i ∈ edge_ids l <-> i ∈ map WorkflowEdge.id es;
  lk_keys : keys (incoming l) = keys nodes;
  lk_incoming : forall n, is_Some (nodes !! n) ->
    incoming l !! n = Some (occ n (map WorkflowEdge.target es));
  lk_outgoing : forall n, is_Some (nodes !! n) -> outgoing l !! n = Some (targets_of es n) }.

Lemma add_edge_spec nodes es l e :
  links_ok nodes es l ->
  (edge_ok nodes e /\ WorkflowEdge.id e ∉ map WorkflowEdge.id es
   /\ exists l', add_edge nodes l e = Ok l' /\ links_ok nodes (es ++ [e]) l')
  \/ (~ (edge_ok nodes e /\ WorkflowEdge.id e ∉ map WorkflowEdge.id es)
      /\ exists x, add_edge nodes l e = Err x /\ is_validation_error x).
Proof.
  intros [Hids Hkeys Hinc Hout]. unfold add_edge, _validate_identifier, edge_ok.
  destruct (IDENTIFIER_PATTERN _); simpl; [| right; split; [naive_solver |]; eexists; split; [done | by eexists]].
  case_bool_decide as Hid; [right; rewrite Hids in Hid; split; [naive_solver |]; eexists; split; [done | by eexists] |].
  destruct (has_key (WorkflowEdge.source e) nodes) eqn:Hs; simpl;
    [| right; apply has_key_false in Hs; rewrite Hs; split; [naive_solver |]; eexists; split; [done | by eexists]].
  destruct (has_key (WorkflowEdge.target e) nodes) eqn:Ht; simpl;
    [| right; apply has_key_false in Ht; rewrite Ht;
       split; [intros [(_ & _ & [? ?]) _]; done |]; eexists; split; [done | by eexists]].
  apply has_key_true in Hs as [s Hs]. apply has_key_true in Ht.
  unfold subscript. rewrite Hs. simpl.
  case_bool_decide as Hc; simpl;
    [| right; split; [intros [(_ & (s' & Hs' & ?) & _) _]; by simplify_eq |]; eexists; split; [done | by eexists]].
  rewrite (Hinc _ Ht). simpl. rewrite Hout by by rewrite Hs. simpl.
  left. split_and!; [done | by exists s | done | by rewrite <- Hids |].
  eexists. split; [done |]. split; simpl.
  - intros i. rewrite map_app, elem_of_app, <- Hids. simpl. set_solver.
  - rewrite keys_insert_old; [done |]. by rewrite Hinc.
  - intros n Hn. rewrite map_app, occ_app. simpl. rewrite dict_lookup_insert.
    destruct (decide (n = WorkflowEdge.target e)) as [->|Hne]; repeat case_decide; try done.
    rewrite Hinc by done. f_equal. lia.
  - intros n Hn. unfold targets_of. rewrite filter_app, map_app. rewrite dict_lookup_insert.
    rewrite filter_cons. destruct (decide (n = WorkflowEdge.source e)) as [->|Hne]; repeat case_decide; try done.
    rewrite Hout by done. simpl. by rewrite app_nil_r.
Qed.

(** The outcome of the loop over the edges. *)
Lemma add_edges_spec nodes rest es l :
  links_ok nodes es l ->
  (exists l', rfold (add_edge nodes) l rest = Ok l' /\ links_ok nodes (es ++ rest) l'
     /\ Forall (edge_ok nodes) rest /\ NoDup (map WorkflowEdge.id rest)
     /\ (forall e, e ∈ rest -> WorkflowEdge.id e ∉ map WorkflowEdge.id es))
  \/ (exists x, rfold (add_edge nodes) l rest = Err x /\ is_validation_error x
     /\ ~ (Forall (edge_ok nodes) rest /\ NoDup (map WorkflowEdge.id rest)
           /\ (forall e, e ∈ rest -> WorkflowEdge.id e ∉ map WorkflowEdge.id es))).
Proof.
  revert es l. induction rest as [|e rest IH]; intros es l Hl; simpl.
  { left. exists l. rewrite app_nil_r. split_and!; try done; [constructor |]. by intros ? ?%elem_of_nil. }
  destruct (add_edge_spec nodes es l e Hl) as [(He & Hid & l1 & -> & Hl1)|(Hno & x & -> & Hx)]; simpl.
  2:{ right. exists x. split_and!; [done | done |]. intros (HF & _ & Hin). apply Hno.
      inversion HF; subst. split; [done |]. apply Hin. by left. }
  assert (forall f, WorkflowEdge.id f ∉ map WorkflowEdge.id (es ++ [e]) <->
    WorkflowEdge.id f ∉ map WorkflowEdge.id es /\ WorkflowEdge.id f <> WorkflowEdge.id e) as Hsplit.
  { intros f. rewrite map_app, not_elem_of_app. simpl. by rewrite list_elem_of_singleton. }
  destruct (IH _ _ Hl1) as [(l2 & E2 & Hl2 & HF & Hnd & Hin)|(x & E2 & Hx & Hno)].
  - left. exists l2. rewrite <- app_assoc in Hl2. split_and!; [done | done | by constructor | |].
    + apply NoDup_cons. split; [| done]. intros (f & Hf & Hfr)%list_elem_of_fmap.
      apply Hin, Hsplit in Hfr as [_ ?]. congruence.
    + intros f [->|Hf]%elem_of_cons; [done |]. by apply Hin, Hsplit in Hf as [? _].
  - right. exists x. split_and!; [done | done |]. intros (HF & [Hn Hnd]%NoDup_cons & Hin).
    apply Hno. inversion HF; subst. split_and!; [done | done |]. intros f Hf. apply Hsplit.
    split; [apply Hin; by right |]. intros Heq. apply Hn. rewrite <- Heq. by apply list_elem_of_fmap_2.
Qed.

(** ** The specification *)

(** What a workflow must be, without an algorithm: at most 100 nodes and 500 edges, all
    identifiers well-formed and unique, every edge between nodes of the workflow with an
    outcome its source can have, and no path from a node to itself. *)
Record valid_workflow (d : WorkflowDefinition.t) : Prop := {
  vw_nodes : (length (WorkflowDefinition.nodes d) <= MAX_WORKFLOW_NODES)%nat;
  vw_edges : (length (WorkflowDefinition.edges d) <= MAX_WORKFLOW_EDGES)%nat;
  vw_node_ids : Forall (fun n => IDENTIFIER_PATTERN (WorkflowNode.id n) = true) (WorkflowDefinition.nodes d)
                /\ NoDup (node_ids (WorkflowDefinition.nodes d));
  vw_edge_ids : NoDup (map WorkflowEdge.id (WorkflowDefinition.edges d));
  vw_edge : forall e, e ∈ WorkflowDefinition.edges d ->
    IDENTIFIER_PATTERN (WorkflowEdge.id e) = true
    /\ (exists s, s ∈ WorkflowDefinition.nodes d /\ WorkflowNode.id s = WorkflowEdge.source e
                  /\ WorkflowEdge.outcome e ∈ _COMPATIBLE_OUTCOMES (WorkflowNode.type s))
    /\ WorkflowEdge.target e ∈ node_ids (WorkflowDefinition.nodes d);
  vw_acyclic : Irreflexive (tc (linked (WorkflowDefinition.edges d))) }.

Lemma no_links_ok nodes : links_ok nodes [] (no_links nodes).
Proof.
  assert (forall V (x : V) n, is_Some (nodes !! n) ->
    of_pairs (map (fun n => (n, x)) (keys nodes)) !! n = Some x) as Hget.
  { intros V x n Hn%elem_of_keys. apply lookup_of_pairs.
    - rewrite map_map. simpl. rewrite map_id. apply keys_nodup.
    - apply list_elem_of_fmap. by exists n. }
  assert (forall V (x : V) (d : pydict string V) ks, NoDup ks -> (forall k, k ∈ ks -> d !! k = None) ->
    keys (update (map (fun n => (n, x)) ks) d) = keys d ++ ks) as Hkeys.
  { intros V x d ks. revert d. induction ks as [|k ks IH]; intros d Hnd Hd; simpl; [by rewrite app_nil_r |].
    apply NoDup_cons in Hnd as [Hk Hnd]. change (keys (update (map (fun n => (n, x)) ks) (<[k:=x]> d)) = keys d ++ k :: ks).
    rewrite IH; [| done |].
    - unfold keys. rewrite items_insert_new, fmap_app, <- app_assoc by (apply Hd; by left). done.
    - intros j Hj. rewrite dict_lookup_insert_ne by (by intros ->). apply Hd. by right. }
  split; simpl.
  - set_solver.
  - unfold of_pairs. rewrite Hkeys; [done | apply keys_nodup |]. intros k _. apply (dict_lookup_empty k).
  - intros n Hn. by apply Hget.
  - intros n Hn. by apply Hget.
Qed.

Lemma indegree_nil es n : indegree es [] n = occ n (map WorkflowEdge.target es).
Proof.
  unfold indegree. f_equal. induction es as [|e es IH]; [done |]. rewrite filter_cons.
  rewrite decide_True by (by intros ?%elem_of_nil). cbn [map]. f_equal. exact IH.
Qed.

Section validation.
  Context (d : WorkflowDefinition.t) (nodes : pydict string WorkflowNode.t) (l : links)
    (nodes_ok : items nodes = map (fun n => (WorkflowNode.id n, n)) (WorkflowDefinition.nodes d))
    (l_ok : links_ok nodes (WorkflowDefinition.edges d) l)
    (edges_ok : Forall (edge_ok nodes) (WorkflowDefinition.edges d)).

Lemma nodes_keys : keys nodes = node_ids (WorkflowDefinition.nodes d).
Proof. unfold keys, node_ids. rewrite nodes_ok. rewrite <- list_fmap_compose. done. Qed.

Lemma roots_progress :
  progress (keys nodes) (WorkflowDefinition.edges d) [] (rev (roots (incoming l))) (incoming l).
Proof.
  assert (forall n, n ∈ rev (roots (incoming l)) <-> incoming l !! n = Some 0%Z) as Hr.
  { intros n. rewrite list_elem_of_In, <- in_rev, <- list_elem_of_In. unfold roots.
    rewrite list_elem_of_fmap. split.
    - intros ([k v] & -> & Hk). apply list_elem_of_In, filter_In in Hk as [Hk Hz].
      apply list_elem_of_In, elem_of_items in Hk. simpl in *. apply Z.eqb_eq in Hz. by subst.
    - intros Hn. exists (n, 0%Z). split; [done |]. apply list_elem_of_In, filter_In.
      split; [by apply list_elem_of_In, elem_of_items | done]. }
  assert (forall n, n ∈ keys nodes ->
    incoming l !! n = Some (indegree (WorkflowDefinition.edges d) [] n)) as Hi.
  { intros n Hn. rewrite (lk_incoming _ _ _ l_ok) by by apply elem_of_keys.
    by rewrite indegree_nil. }
  split; simpl; try done.
  - assert (forall l : list string, rev l ≡ₚ l) as -> by (symmetry; apply Permutation_rev). unfold roots.
    assert (forall kvs : list (string * Z), NoDup kvs.*1 ->
      NoDup (List.filter (fun kv => (kv.2 =? 0)%Z) kvs).*1) as Hf; [| apply Hf, items_nodup].
    induction kvs as [|[k v] kvs IH]; simpl; [done |]. intros [Hk Hnd]%NoDup_cons.
    case_match; [| by apply IH]. simpl. apply NoDup_cons. split; [| by apply IH].
    intros ([k' v'] & Heq & Hk')%list_elem_of_fmap. simpl in Heq. subst. apply Hk.
    apply list_elem_of_In, filter_In in Hk' as [Hk' _]. apply list_elem_of_fmap. exists (k', v').
    split; [done | by apply list_elem_of_In].
  - intros n Hn%Hr. rewrite <- (lk_keys _ _ _ l_ok). apply elem_of_keys. by rewrite Hn.
  - intros n Hn. rewrite Hr, Hi by done. split; [by intros [= ->] | by intros ->].
Qed.

Lemma traversal_verdict :
  exists visited, traverse (S (size nodes)) (outgoing l) (incoming l) (rev (roots (incoming l))) 0
                  = Some (Ok visited)
    /\ (visited = size nodes <-> Irreflexive (tc (linked (WorkflowDefinition.edges d)))).
Proof.
  assert (length (keys nodes) = size nodes) as Hsize by (unfold keys; by rewrite length_fmap).
  assert (forall e, e ∈ WorkflowDefinition.edges d ->
    WorkflowEdge.source e ∈ keys nodes /\ WorkflowEdge.target e ∈ keys nodes) as Hclosed.
  { intros e He. rewrite Forall_forall in edges_ok.
    destruct (edges_ok e He) as (_ & (s & Hs & _) & Ht). rewrite !elem_of_keys. split; [by rewrite Hs | done]. }
  assert (forall s, s ∈ keys nodes -> outgoing l !! s = Some (targets_of (WorkflowDefinition.edges d) s)) as Hout.
  { intros s Hs. by apply (lk_outgoing _ _ _ l_ok), elem_of_keys. }
  destruct (traverse_ends (keys nodes) (WorkflowDefinition.edges d) (outgoing l) (keys_nodup nodes) Hout Hclosed
    (S (size nodes)) [] _ _ roots_progress) as (V & rem & E & P); [simpl; lia |].
  exists (length V). split; [exact E |]. rewrite <- Hsize.
  apply (all_visited_iff_acyclic (keys nodes) (WorkflowDefinition.edges d) (keys_nodup nodes) Hclosed V rem P).
Qed.

Lemma no_roots_cyclic :
  keys nodes <> [] -> roots (incoming l) = [] ->
  ~ Irreflexive (tc (linked (WorkflowDefinition.edges d))).
Proof.
  intros Hne Hr Hirr. pose proof traversal_verdict as (v & E & Hv). rewrite Hr in E. simpl in E.
  injection E as [= <-]. apply Hv in Hirr. destruct (keys nodes) eqn:Ek; [done |].
  unfold keys in Ek. unfold size, pydict_size in Hirr. by destruct (items nodes).
Qed.

Lemma edge_ok_spec e :
  edge_ok nodes e <->
  IDENTIFIER_PATTERN (WorkflowEdge.id e) = true
  /\ (exists s, s ∈ WorkflowDefinition.nodes d /\ WorkflowNode.id s = WorkflowEdge.source e
                /\ WorkflowEdge.outcome e ∈ _COMPATIBLE_OUTCOMES (WorkflowNode.type s))
  /\ WorkflowEdge.target e ∈ node_ids (WorkflowDefinition.nodes d).
Proof.
  assert (forall i s, nodes !! i = Some s <-> s ∈ WorkflowDefinition.nodes d /\ WorkflowNode.id s = i) as Hl.
  { intros i s. rewrite <- elem_of_items, nodes_ok. rewrite list_elem_of_fmap. naive_solver. }
  unfold edge_ok. rewrite <- elem_of_keys, nodes_keys. setoid_rewrite Hl. naive_solver.
Qed.
End validation.

(** C10. Workflow validation is sound and complete: [validate_workflow_graph] accepts
    exactly the valid workflows (bounded size, well-formed unique identifiers, edges
    between existing nodes with outcomes their source can have, no cycle); its
    traversal always ends within the number of nodes, and whatever it refuses it
    refuses with a [WorkflowValidationError] (never a [KeyError] of its dictionaries). *)
Theorem validate_workflow_graph_correct d :
  (validate_workflow_graph d = Ok tt <-> valid_workflow d)
  /\ (forall e, validate_workflow_graph d = Err e -> is_validation_error e).
Proof.
  unfold validate_workflow_graph.
  destruct (MAX_WORKFLOW_NODES <? _)%nat eqn:En; bool_prop.
  { split; [split; [done | intros V; pose proof (vw_nodes _ V); lia] | apply invalid_error]. }
  destruct (MAX_WORKFLOW_EDGES <? _)%nat eqn:Ee; bool_prop.
  { split; [split; [done | intros V; pose proof (vw_edges _ V); lia] | apply invalid_error]. }
  destruct (add_nodes_spec (WorkflowDefinition.nodes d) ∅)
    as [(nodes & -> & Hitems & HF & Hnd & _)|(e & -> & He & Hno)]; cbn [rbind].
  2:{ split; [split; [done |] | by intros ? [= <-]]. intros V. destruct Hno.
      destruct (vw_node_ids _ V). split_and!; [done | done |]. intros n _. apply dict_lookup_empty. }
  pose proof (edge_ok_spec d nodes Hitems) as Hspec.
  destruct (add_edges_spec nodes (WorkflowDefinition.edges d) [] _ (no_links_ok nodes))
    as [(l & -> & Hl & HFe & Hnde & _)|(x & -> & Hx & Hno)]; cbn [rbind].
  2:{ split; [split; [done |] | by intros ? [= <-]]. intros V. destruct Hno.
      split_and!; [| apply (vw_edge_ids _ V) | by intros e _ ?%elem_of_nil].
      apply Forall_forall. intros e Hin. by apply Hspec, (vw_edge _ V). }
  simpl in Hl. pose proof (traversal_verdict d nodes l Hl HFe) as (visited & Ev & Hv).
  assert (Irreflexive (tc (linked (WorkflowDefinition.edges d))) <-> valid_workflow d) as Hacyc.
  { split; [intros Hirr | apply vw_acyclic]. split; try done.
    rewrite Forall_forall in HFe. intros e Hin. by apply Hspec, HFe. }
  destruct (keys nodes) as [|k ks] eqn:Ek.
  { destruct (WorkflowDefinition.edges d) as [|e es] eqn:Ees.
    - split; [| done]. split; [intros _; apply Hacyc | done].
      intros n Hc. destruct Hc as [? ? (? & []%elem_of_nil & _)|? ? ? (? & []%elem_of_nil & _)].
    - exfalso. rewrite Forall_forall in HFe. destruct (HFe e) as (_ & (s & Hs & _) & _); [by left |].
      apply elem_of_items in Hs. unfold keys in Ek. apply fmap_nil_inv in Ek. rewrite Ek in Hs.
      by apply elem_of_nil in Hs. }
  assert (keys nodes <> []) as Hne by by rewrite Ek.
  pose proof (no_roots_cyclic d nodes l Hitems Hl HFe Hne) as Hnr.
  destruct (roots (incoming l)) as [|r rs]; [split; [split; [done |] | apply invalid_error] |].
  { intros V. destruct (Hnr eq_refl). by apply Hacyc. }
  rewrite Ev. case_bool_decide as Hvis; (split; [| try done; apply invalid_error]).
  - rewrite <- Hacyc, <- Hv. by split.
  - rewrite <- Hacyc, <- Hv. by split.
Qed.
