(* ===== verification/Templates.v ===== *)
(** * Templates, JSON paths and comparisons of workflow nodes

    The pure part of [src/services/api/data_factory_executor.py]: rendering of
    [{{variable}}] tokens, the [$.field[index]] paths and the condition operators. *)
From S2P Require Import Prelude PyText TextFacts Protocol.
From Stdlib Require Import Ascii.
Open Scope string_scope.
Open Scope list_scope.

(** ** Text scanning *)

(** [s.startswith(prefix)], with the rest of [s]. *)
Fixpoint drop_prefix (prefix s : string) : option string :=
  match prefix, s with
  | EmptyString, _ => Some s
  | String c p, String d r => if ascii_dec c d then drop_prefix p r else None
  | String _ _, EmptyString => None
  end.

(** [prefix in s] on text. *)
Fixpoint has_substring (needle s : string) : bool :=
  match drop_prefix needle s with
  | Some _ => true
  | None => match s with EmptyString => false | String _ r => has_substring needle r end
  end.

(** The longest prefix of characters that satisfy [p], and the rest. *)
Fixpoint span (p : ascii -> bool) (s : string) : string * string :=
  match s with
  | EmptyString => (EmptyString, EmptyString)
  | String c r => if p c then let '(a, b) := span p r in (String c a, b) else (EmptyString, s)
  end.

(** [s.split(sep)] for a separator of one character. *)
Fixpoint split_on (sep : ascii) (s : string) : list string :=
  match s with
  | EmptyString => [EmptyString]
  | String c r =>
      if ascii_dec c sep then EmptyString :: split_on sep r
      else match split_on sep r with
           | w :: ws => String c w :: ws
           | [] => [String c EmptyString]
           end
  end.

(** [int(digits)] on ASCII decimal digits. *)
Fixpoint decimal (acc : N) (s : string) : N :=
  match s with
  | EmptyString => acc
  | String c r => decimal (10 * acc + (code c - 48)) r
  end.

(** ** Templates *)

Definition is_name_char (c : ascii) : bool := is_alpha c || is_digit c || is_underscore c.

(** A match of [_TEMPLATE] at the start of the text: the name and the rest.  Names are
    maximal because no name character is a brace. *)
Definition template_at (s : string) : option (string * string) :=
  match drop_prefix "{{" s with
  | None => None
  | Some body =>
      let '(name, rest) := span is_name_char body in
      if ENVIRONMENT_NAME_PATTERN name then
        match drop_prefix "}}" rest with
        | Some after => Some (name, after)
        | None => None
        end
      else None
  end.

(** [_WHOLE_TEMPLATE.fullmatch]. *)
Definition whole_template (s : string) : option string :=
  match template_at s with Some (name, EmptyString) => Some name | _ => None end.

Definition missing_variable {A} : res A :=
  Err (WorkflowExecutionError "a required template variable is missing").

Section templates.
  Context `{PyFloat}.

Definition _stringify_template_value (value : pyval) : res string :=
  match value with PStr s => Ok s | _ => dumps false false value end.

(** [_TEMPLATE.sub(replace, value)]: leftmost matches, not overlapping. *)
Fixpoint substitute (fuel : nat) (variables : list (string * pyval)) (s : string) : res string :=
  match fuel with
  | O => Ok s
  | S fuel =>
      match template_at s with
      | Some (name, after) =>
          match kv_get name variables with
          | None => missing_variable
          | Some v =>
              let? text := _stringify_template_value v in
              let? rest := substitute fuel variables after in
              Ok (text ++ rest)%string
          end
      | None =>
          match s with
          | EmptyString => Ok EmptyString
          | String c r => let? rest := substitute fuel variables r in Ok (String c rest)
          end
      end
  end.

Definition render_text (variables : list (string * pyval)) (s : string) : res pyval :=
  match whole_template s with
  | Some name =>
      match kv_get name variables with Some v => Ok v | None => missing_variable end
  | None => let? t := substitute (S (String.length s)) variables s in Ok (PStr t)
  end.

Fixpoint render_templates (variables : list (string * pyval)) (value : pyval) : res pyval :=
  match value with
  | PStr s => render_text variables s
  | PList l =>
      let? l' := (fix go (l : list pyval) : res (list pyval) :=
        match l with
        | [] => Ok []
        | x :: r => let? y := render_templates variables x in let? ys := go r in Ok (y :: ys)
        end) l in
      Ok (PList l')
  | PDict kvs | PFrozenMapping kvs =>
      let? kvs' := (fix go (kvs : list (string * pyval)) : res (list (string * pyval)) :=
        match kvs with
        | [] => Ok []
        | (k, x) :: r =>
            let? y := render_templates variables x in let? ys := go r in Ok ((k, y) :: ys)
        end) kvs in
      Ok (PDict kvs')
  | _ => Ok value
  end.
End templates.

(** ** JSON paths *)

Definition invalid_path {A} : res A := Err (ValueError "invalid JSON path").
Definition is_bracket (c : ascii) : bool := (code c =? 91)%N || (code c =? 93)%N.

(** [re.fullmatch(r"([^\[\]]+)(?:\[([0-9]+)\])?", token)]: the field and the digits. *)
Definition path_token (token : string) : option (string * option string) :=
  let '(field, rest) := span (fun c => negb (is_bracket c)) token in
  if empty_str field then None
  else match drop_prefix "[" rest with
       | None => match rest with EmptyString => Some (field, None) | _ => None end
       | Some body =>
           let '(digits, after) := span is_digit body in
           if empty_str digits || negb (bool_decide (after = "]")) then None
           else Some (field, Some digits)
       end.

(** [current[field]], then [[index]] of the list found there. *)
Definition select (current : pyval) (field : string) (index : option string) : res pyval :=
  match as_mapping current with
  | None => invalid_path
  | Some kvs =>
      match kv_get field kvs with
      | None => Err KeyError
      | Some v =>
          match index with
          | None => Ok v
          | Some digits =>
              match v with
              | PList l =>
                  match l !! N.to_nat (decimal 0 digits) with
                  | Some x => Ok x
                  | None => Err IndexError
                  end
              | _ => invalid_path
              end
          end
      end
  end.

(** One round of the loop of [extract_json_path]. *)
Definition path_step (current : pyval) (token : string) : res pyval :=
  match path_token token with
  | Some (field, index) => select current field index
  | None => invalid_path
  end.

Definition extract_json_path (value : pyval) (path : string) : res pyval :=
  if bool_decide (path = "$") then Ok value
  else match drop_prefix "$." path with
       | None => invalid_path
       | Some rest => rfold path_step value (split_on (ascii_of_N 46) rest)
       end.

(** ** Comparisons *)

(** The order of two code-point sequences. *)
Fixpoint str_compare (a b : string) : comparison :=
  match a, b with
  | EmptyString, EmptyString => Eq
  | EmptyString, String _ _ => Lt
  | String _ _, EmptyString => Gt
  | String c a', String d b' =>
      match (code c ?= code d)%N with Eq => str_compare a' b' | r => r end
  end.

(** Python's [<] and [>] on two values, [None] for a [TypeError].  Sequences compare at
    their first unequal elements. *)
Fixpoint py_compare (a b : pyval) : option comparison :=
  let seq := fix seq (l l' : list pyval) : option comparison :=
    match l, l' with
    | [], [] => Some Eq
    | [], _ => Some Lt
    | _, [] => Some Gt
    | x :: r, y :: r' => if py_eqb x y then seq r r' else py_compare x y
    end in
  match as_number a, as_number b with
  | Some x, Some y => Some (dyadic_compare x y)
  | _, _ =>
      match a, b with
      | PStr s, PStr s' => Some (str_compare s s')
      | PList l, PList l' => seq l l'
      | PTuple l, PTuple l' => seq l l'
      | _, _ => None
      end
  end.

(** Whether [hash(value)] raises. *)
Definition unhashable (v : pyval) : bool :=
  match v with PList _ | PDict _ | PSet _ | PBytearray _ => true | _ => false end.

(** [right in left], [None] for a [TypeError]. *)
Definition py_contains (left right : pyval) : option bool :=
  match left with
  | PStr s => match right with PStr needle => Some (has_substring needle s) | _ => None end
  | PList l | PTuple l => Some (existsb (fun x => py_eqb x right) l)
  | PDict kvs | PFrozenMapping kvs =>
      if unhashable right then None
      else match right with
           | PStr k => Some (match kv_get k kvs with Some _ => true | None => false end)
           | _ => Some false
           end
  | _ => None
  end.

(** [DataFactoryExecutor._compare]: a [TypeError] of the operator is [False].  The
    variables of a workflow are JSON values; sets and bytes do not reach it. *)
Definition _compare (left right : pyval) (operator : string) : res bool :=
  let ordered (test : comparison -> bool) : res bool :=
    Ok (match py_compare left right with Some c => test c | None => false end) in
  if bool_decide (operator = "equals") then Ok (py_eqb left right)
  else if bool_decide (operator = "not_equals") then Ok (negb (py_eqb left right))
  else if bool_decide (operator = "contains") then
    Ok (match py_contains left right with Some b => b | None => false end)
  else if bool_decide (operator = "gt") then
    ordered (fun c => match c with Gt => true | _ => false end)
  else if bool_decide (operator = "gte") then
    ordered (fun c => match c with Lt => false | _ => true end)
  else if bool_decide (operator = "lt") then
    ordered (fun c => match c with Lt => true | _ => false end)
  else if bool_decide (operator = "lte") then
    ordered (fun c => match c with Gt => false | _ => true end)
  else Err (WorkflowExecutionError "unsupported condition operator").

(** * Theorems about templates and JSON paths *)
Open Scope string_scope.
Open Scope list_scope.

(** ** Scanning *)

Lemma drop_prefix_app p s : drop_prefix p (p ++ s)%string = Some s.
Proof.
  induction p as [|c p IH]; [done |]. rewrite append_cons. simpl. by destruct (ascii_dec c c).
Qed.

(** The first character of [s] does not satisfy [p]. *)
Definition stops (p : ascii -> bool) (s : string) : Prop :=
  match s with EmptyString => True | String c _ => p c = false end.

Lemma span_app p a b : all_chars p a = true -> stops p b -> span p (a ++ b)%string = (a, b).
Proof.
  intros Ha Hb. induction a as [|c a IH].
  - rewrite append_empty. destruct b as [|c b]; simpl in *; [done | by rewrite Hb].
  - rewrite append_cons. simpl in *. apply andb_true_iff in Ha as [-> Ha]. by rewrite IH.
Qed.

Lemma variable_name_chars name : ENVIRONMENT_NAME_PATTERN name = true -> all_chars is_name_char name = true.
Proof.
  unfold ENVIRONMENT_NAME_PATTERN, matches_name. destruct name as [|c r]; [done |].
  rewrite !andb_true_iff. intros [[Hc Hr] _]. simpl. apply andb_true_iff. split; [| done].
  unfold is_name_char. destruct (is_alpha c); [done |]. simpl in *. rewrite Hc. apply orb_true_r.
Qed.

(** ** JSON paths *)

(** The text of a path: fields, each with the digits of an optional index. *)
Definition token_text (st : string * option string) : string :=
  match st with
  | (field, None) => field
  | (field, Some digits) => (field ++ "[" ++ digits ++ "]")%string
  end.
Definition path_text (steps : list (string * option string)) : string :=
  ("$." ++ join "." (map token_text steps))%string.

Definition is_dot (c : ascii) : bool := (code c =? 46)%N.
Definition plain_field (c : ascii) : bool := negb (is_bracket c) && negb (is_dot c).

(** A field without brackets and dots, an index of ASCII digits. *)
Definition valid_step (st : string * option string) : bool :=
  negb (empty_str st.1) && all_chars plain_field st.1
  && match st.2 with Some d => negb (empty_str d) && all_chars is_digit d | None => true end.

Lemma path_token_text st : valid_step st = true -> path_token (token_text st) = Some st.
Proof.
  destruct st as [field index]. unfold valid_step, path_token. simpl.
  intros [[Hne%negb_true_iff Hf]%andb_true_iff Hi]%andb_true_iff.
  assert (all_chars (fun c => negb (is_bracket c)) field = true) as Hf'.
  { eapply all_chars_impl; [| exact Hf]. intros c. unfold plain_field. by intros [? _]%andb_true_iff. }
  destruct index as [digits|]; simpl in *.
  - apply andb_true_iff in Hi as [Hd%negb_true_iff Hda].
    rewrite (span_app _ field) by done. rewrite Hne.
    change (match drop_prefix "[" ("[" ++ (digits ++ "]")) with
            | Some body => let '(ds, after) := span is_digit body in
                if empty_str ds || negb (bool_decide (after = "]")) then None else Some (field, Some ds)
            | None => match ("[" ++ (digits ++ "]"))%string with EmptyString => Some (field, None) | _ => None end
            end = Some (field, Some digits)).
    rewrite drop_prefix_app, span_app by done. by rewrite Hd.
  - replace field with (field ++ EmptyString)%string by apply str_app_nil.
    rewrite span_app by done. rewrite str_app_nil. by rewrite Hne.
Qed.

Lemma split_on_plain c w rest :
  all_chars (fun x => negb (is_dot x)) w = true -> code c = 46%N ->
  split_on c (w ++ String c rest)%string = w :: split_on c rest.
Proof.
  intros Hw Hc. induction w as [|x w IH].
  - rewrite append_empty. simpl. by destruct (ascii_dec c c).
  - rewrite append_cons. simpl in *. apply andb_true_iff in Hw as [Hx Hw]. destruct (ascii_dec x c) as [->|].
    + unfold is_dot in Hx. rewrite Hc in Hx. done.
    + by rewrite IH.
Qed.

Lemma split_on_last c w :
  all_chars (fun x => negb (is_dot x)) w = true -> code c = 46%N -> split_on c w = [w].
Proof.
  intros Hw Hc. induction w as [|x w IH]; simpl in *; [done |].
  apply andb_true_iff in Hw as [Hx Hw]. destruct (ascii_dec x c) as [->|].
  - unfold is_dot in Hx. rewrite Hc in Hx. done.
  - by rewrite IH.
Qed.

Lemma token_text_dotless st :
  valid_step st = true -> all_chars (fun x => negb (is_dot x)) (token_text st) = true.
Proof.
  destruct st as [field index]. unfold valid_step. simpl.
  intros [[_ Hf]%andb_true_iff Hi]%andb_true_iff.
  assert (all_chars (fun x => negb (is_dot x)) field = true) as Hf'.
  { eapply all_chars_impl; [| exact Hf]. intros c. unfold plain_field. by intros [_ ?]%andb_true_iff. }
  destruct index as [digits|]; simpl; [| done].
  rewrite !all_chars_app, Hf'. simpl. rewrite andb_true_r.
  apply andb_true_iff in Hi as [_ Hd]. eapply all_chars_impl; [| exact Hd].
  intros c. unfold is_digit, is_dot. intros [? ?]%andb_true_iff. apply negb_true_iff, N.eqb_neq.
  bool_prop. intros Hc. rewrite Hc in *. done.
Qed.

Lemma split_path_text steps :
  steps <> [] -> Forall (fun st => valid_step st = true) steps ->
  split_on (ascii_of_N 46) (join "." (map token_text steps)) = map token_text steps.
Proof.
  intros Hne HF. induction HF as [|st steps Hst HF IH]; [done |].
  destruct steps as [|st' steps].
  - simpl. by apply split_on_last; [apply token_text_dotless |].
  - change (join "." (map token_text (st :: st' :: steps)))
      with (token_text st ++ String (ascii_of_N 46) (join "." (map token_text (st' :: steps))))%string.
    rewrite split_on_plain by (by first [apply token_text_dotless | done]).
    rewrite IH by done. done.
Qed.

(** Paths mean what they print: for every sequence of steps whose fields have no
    dots or brackets and whose indices are decimal digits, [extract_json_path] on the
    printed path selects field after field (and list element after list element), with
    [KeyError], [IndexError] and [ValueError] exactly where a step cannot be taken. *)
Theorem extract_path_text v steps :
  steps <> [] -> Forall (fun st => valid_step st = true) steps ->
  extract_json_path v (path_text steps)
  = rfold (fun current st => select current st.1 st.2) v steps.
Proof.
  intros Hne HF. unfold extract_json_path, path_text.
  rewrite bool_decide_false by (simpl; intros [= ?]; by destruct (join "." _)).
  rewrite drop_prefix_app, split_path_text by done. clear Hne. revert v.
  induction HF as [|st steps Hst HF IH]; intros v; simpl; [done |].
  unfold path_step at 1. rewrite path_token_text by done. destruct st as [field index]. simpl.
  destruct (select v field index); simpl; [apply IH | done].
Qed.

(** ** Templates *)

(** A text as its author wrote it: literal pieces and variable tokens. *)
Inductive segment : Type :=
  | Literal (s : string)
  | Token (name : string).

Definition segment_text (g : segment) : string :=
  match g with Literal s => s | Token name => ("{{" ++ (name ++ "}}"))%string end.

Definition is_open_brace (c : ascii) : bool := (code c =? 123)%N.

(** Literals are not empty and hold no opening brace; tokens are variable names. *)
Definition segment_ok (g : segment) : bool :=
  match g with
  | Literal s => negb (empty_str s) && all_chars (fun c => negb (is_open_brace c)) s
  | Token name => ENVIRONMENT_NAME_PATTERN name
  end.

Fixpoint segments_text (gs : list segment) : string :=
  match gs with [] => EmptyString | g :: r => (segment_text g ++ segments_text r)%string end.

Section rendering.
  Context `{PyFloat} (variables : list (string * pyval)).

(** What a piece stands for. *)
Definition segment_value (g : segment) : res string :=
  match g with
  | Literal s => Ok s
  | Token name =>
      match kv_get name variables with
      | Some v => _stringify_template_value v
      | None => missing_variable
      end
  end.

Lemma template_at_other c r : is_open_brace c = false -> template_at (String c r) = None.
Proof.
  intros Hc. unfold template_at. cbn [drop_prefix].
  match goal with |- context [ascii_dec ?x c] => by destruct (ascii_dec x c) as [<-|] end.
Qed.

Lemma template_at_token name rest :
  ENVIRONMENT_NAME_PATTERN name = true ->
  template_at ("{{" ++ ((name ++ "}}") ++ rest))%string = Some (name, rest).
Proof.
  intros Hn. unfold template_at. rewrite drop_prefix_app, str_app_assoc.
  rewrite span_app by (by first [apply variable_name_chars | done]). rewrite Hn.
  by rewrite drop_prefix_app.
Qed.

Lemma substitute_literal fuel s rest :
  all_chars (fun c => negb (is_open_brace c)) s = true ->
  (String.length s <= fuel)%nat ->
  substitute fuel variables (s ++ rest)%string
  = let? t := substitute (fuel - String.length s) variables rest in Ok (s ++ t)%string.
Proof.
  revert fuel. induction s as [|c s IH]; intros fuel Hs Hf.
  - rewrite append_empty. simpl. rewrite Nat.sub_0_r.
    by destruct (substitute fuel variables rest).
  - simpl in Hs, Hf. apply andb_true_iff in Hs as [Hc%negb_true_iff Hs].
    destruct fuel as [|fuel]; [lia |]. rewrite append_cons. cbn [substitute].
    rewrite template_at_other by done. rewrite IH by (done || lia). simpl.
    by destruct (substitute _ variables rest).
Qed.

Lemma substitute_segments fuel gs :
  Forall (fun g => segment_ok g = true) gs -> (String.length (segments_text gs) < fuel)%nat ->
  substitute fuel variables (segments_text gs)
  = let? ts := rmap segment_value gs in Ok (foldr String.append EmptyString ts).
Proof.
  intros HF. revert fuel. induction HF as [|g gs Hg HF IH]; intros fuel Hf.
  { destruct fuel as [|fuel]; [simpl in Hf; lia | done]. }
  cbn [segments_text] in *. rewrite str_length_app in Hf. destruct g as [s|name]; simpl in Hg.
  - apply andb_true_iff in Hg as [_ Hs]. simpl in Hf. cbn [segment_text].
    rewrite substitute_literal by (done || lia). rewrite IH by lia. simpl.
    by destruct (rmap segment_value gs).
  - destruct fuel as [|fuel]; [lia |]. cbn [segment_text] in *. rewrite str_app_assoc.
    cbn [substitute]. rewrite template_at_token by done. cbn [rmap segment_value].
    destruct (kv_get name variables) as [v|]; [| done].
    destruct (_stringify_template_value v) as [t|]; [| done]. cbn [rbind].
    rewrite !str_length_app in Hf. simpl in Hf. rewrite IH by lia.
    by destruct (rmap segment_value gs).
Qed.

Lemma whole_template_segments gs :
  Forall (fun g => segment_ok g = true) gs ->
  whole_template (segments_text gs) = match gs with [Token name] => Some name | _ => None end.
Proof.
  intros HF. unfold whole_template. destruct HF as [|g gs Hg HF]; [done |].
  cbn [segments_text]. destruct g as [s|name]; simpl in Hg.
  - apply andb_true_iff in Hg as [Hne Hs]. destruct s as [|c s]; [done |].
    simpl in Hs. apply andb_true_iff in Hs as [Hc%negb_true_iff _].
    cbn [segment_text]. by rewrite append_cons, template_at_other.
  - cbn [segment_text]. rewrite str_app_assoc, template_at_token by done.
    destruct HF as [|g gs Hg' HF]; [done |].
    cbn [segments_text]. destruct g as [s|n]; simpl in Hg'; [| done].
    destruct s as [|c s]; [by apply andb_true_iff in Hg' as [? _] |].
    cbn [segment_text]. by rewrite append_cons.
Qed.

(** Rendering interpolates exactly the tokens: a text made of literal pieces and
    [{{name}}] tokens renders to the variable itself, with its JSON type, when it is a
    single token, and otherwise to the concatenation of the literals with the text of
    each variable; the first undefined variable, from the left, is the error. *)
Theorem render_text_segments gs :
  Forall (fun g => segment_ok g = true) gs ->
  render_templates variables (PStr (segments_text gs))
  = match gs with
    | [Token name] => match kv_get name variables with Some v => Ok v | None => missing_variable end
    | _ => let? ts := rmap segment_value gs in Ok (PStr (foldr String.append EmptyString ts))
    end.
Proof.
  intros HF. cbn [render_templates]. unfold render_text. rewrite whole_template_segments by done.
  assert ((let? t := substitute (S (String.length (segments_text gs))) variables (segments_text gs) in
           Ok (PStr t))
    = let? ts := rmap segment_value gs in Ok (PStr (foldr String.append EmptyString ts))) as Hs.
  { rewrite substitute_segments by (done || lia). by destruct (rmap segment_value gs). }
  destruct gs as [|[s|name] [|g gs]]; done || exact Hs.
Qed.
End rendering.
