(* ===== verification/Flow.v ===== *)
(** * The workflow executor ([src/services/api/data_factory_executor.py])

    [DataFactoryExecutor]: condition and parallel nodes, the scheduling of a workflow
    in waves, and the [execute] and [debug] entry points.  Sending the request of an
    HTTP node is the parameter [_execute_http]: the network decides its result.  The
    nodes of a wave run on a thread pool, each on a deep copy of the context, so their
    results do not depend on the interleaving; [times] gives the texts that [_now()]
    returns at the start and the end of each node. *)
From S2P Require Import Prelude PyDict PyText Protocol Graph Templates.
From Stdlib Require Import Ascii.
Open Scope string_scope.
Open Scope list_scope.

Definition MAX_RESPONSE_BYTES : Z := 1024 * 1024.

(** ** [int(value)] *)

(** Decimal digits with single underscores between them. *)
Fixpoint int_digits (acc : Z) (after_digit : bool) (s : string) : option Z :=
  match s with
  | EmptyString => if after_digit then Some acc else None
  | String c r =>
      if is_digit c then int_digits (10 * acc + Z.of_N (code c - 48)) true r
      else if is_underscore c && after_digit then int_digits acc false r
      else None
  end.

Fixpoint count_digits (s : string) : Z :=
  match s with
  | EmptyString => 0
  | String c r => (if is_digit c then 1 else 0) + count_digits r
  end.

(** [int(text)], with the interpreter's limit of 4300 digits. *)
Definition int_text (s : string) : res Z :=
  let body := strip s in
  if (4300 <? count_digits body)%Z then Err (ValueError "int")
  else
    let parsed :=
      match body with
      | String c r =>
          if (code c =? 45)%N then option_map Z.opp (int_digits 0 false r)
          else if (code c =? 43)%N then int_digits 0 false r
          else int_digits 0 false body
      | EmptyString => None
      end in
    match parsed with Some z => Ok z | None => Err (ValueError "int") end.

Definition py_int (v : pyval) : res Z :=
  match v with
  | PInt z => Ok z
  | PBool b => Ok (if b then 1 else 0)%Z
  | PFloat m e => Ok (if (0 <=? e)%Z then m * 2 ^ e else Z.quot m (2 ^ (- e)))%Z
  | PStr s => int_text s
  | PBytes l | PBytearray l => int_text (String.string_of_list_ascii (map ascii_of_N l))
  | _ => Err TypeError
  end.

(** ** Node executions *)

Module NodeExecution.
Record t := mk {
  status : string; details : list (string * pyval); extracted : list (string * pyval);
  branch : option bool }.
End NodeExecution.

Module WorkflowRunRecord.
Record t := mk {
  id : string; workflow_id : string; status : string;
  node_results : list (string * list (string * pyval)); variables : list (string * pyval);
  started_at : string; finished_at : option string }.
End WorkflowRunRecord.

Definition skipped : NodeExecution.t := NodeExecution.mk "SKIPPED" [] [] None.

Definition _edge_active (edge : WorkflowEdge.t) (source : NodeExecution.t) : bool :=
  if bool_decide (NodeExecution.status source = "SKIPPED") then false
  else match WorkflowEdge.outcome edge with
       | WorkflowEdgeOutcome.ALWAYS => true
       | WorkflowEdgeOutcome.SUCCESS => bool_decide (NodeExecution.status source = "SUCCEEDED")
       | WorkflowEdgeOutcome.FAILURE => bool_decide (NodeExecution.status source = "FAILED")
       | WorkflowEdgeOutcome.TRUE => bool_decide (NodeExecution.branch source = Some true)
       | WorkflowEdgeOutcome.FALSE => bool_decide (NodeExecution.branch source = Some false)
       end.

(** The loop of [_read_bounded_body] over the chunks of a response. *)
Fixpoint read_chunks (size : Z) (chunks : list (list N)) : res (list N) :=
  match chunks with
  | [] => Ok []
  | chunk :: rest =>
      let size := (size + Z.of_nat (length chunk))%Z in
      if (MAX_RESPONSE_BYTES <? size)%Z then Err (ValueError "HTTP response body is too large")
      else let? body := read_chunks size rest in Ok (chunk ++ body)
  end.

Definition _read_bounded_body (chunks : list (list N)) : res (list N) := read_chunks 0 chunks.

(** [int(node.config.get("max_concurrency", 2))]. *)
Definition node_concurrency (node : WorkflowNode.t) : res Z :=
  py_int (match kv_get "max_concurrency" (WorkflowNode.config node) with
          | Some v => v | None => PInt 2 end).

(** The exceptions [_execute_node] turns into a failed node. *)
Definition node_failure (e : exn) : bool :=
  is_ValueError e || match e with KeyError | TypeError => true | _ => false end.

Section executor.
  Context `{PyFloat}.
  Variable _execute_http :
    list (string * pyval) -> list (string * pyval) -> res NodeExecution.t.
  Variable times : string -> string * string.

(** The operator is compared as text; the text of a value that is not a string is none
    of the operators. *)
Definition _execute_condition (config variables : list (string * pyval)) : res NodeExecution.t :=
  match kv_get "operator" config with
  | None => Err KeyError
  | Some operator_value =>
      let operator := match operator_value with PStr s => s | _ => EmptyString end in
      let raw_left := match kv_get "left" config with Some v => v | None => PNone end in
      let? outcome :=
        (if bool_decide (operator = "exists") then
           Ok (match raw_left with
               | PStr s =>
                   let name := match whole_template s with Some n => n | None => s end in
                   match kv_get name variables with Some _ => true | None => false end
               | _ => false
               end)
         else
           let? left := render_templates variables raw_left in
           let? right := render_templates variables
             (match kv_get "right" config with Some v => v | None => PNone end) in
           _compare left right operator) in
      Ok (NodeExecution.mk "SUCCEEDED" [("outcome", PBool outcome)] [] (Some outcome))
  end.

Definition node_body (node : WorkflowNode.t) (variables : list (string * pyval))
    : res NodeExecution.t :=
  match WorkflowNode.type node with
  | WorkflowNodeType.HTTP => _execute_http (WorkflowNode.config node) variables
  | WorkflowNodeType.CONDITION => _execute_condition (WorkflowNode.config node) variables
  | WorkflowNodeType.PARALLEL =>
      let? n := node_concurrency node in
      Ok (NodeExecution.mk "SUCCEEDED" [("max_concurrency", PInt n)] [] None)
  end.

(** The result dictionary of a node. *)
Definition node_result (node : WorkflowNode.t) (status started finished : string)
    (details : list (string * pyval)) : list (string * pyval) :=
  kv_merge
    [("node_id", PStr (WorkflowNode.id node)); ("name", PStr (WorkflowNode.name node));
     ("type", PStr (WorkflowNodeType.value (WorkflowNode.type node)));
     ("status", PStr status); ("started_at", PStr started); ("finished_at", PStr finished)]
    details.

Definition _execute_node (node : WorkflowNode.t) (variables : list (string * pyval))
    : res (NodeExecution.t * list (string * pyval)) :=
  let finish (execution : NodeExecution.t) :=
    Ok (execution,
        node_result node (NodeExecution.status execution)
          (times (WorkflowNode.id node)).1 (times (WorkflowNode.id node)).2
          (NodeExecution.details execution)) in
  match node_body node variables with
  | Ok execution => finish execution
  | Err e =>
      if node_failure e then
        finish (NodeExecution.mk "FAILED" [("error", PStr "node execution failed")] [] None)
      else Err e
  end.

(** ** Scheduling *)

Record progress := mkProgress {
  pending : list string;
  executions : pydict string NodeExecution.t;
  raw_results : pydict string (list (string * pyval)) }.

Section graph.
  Variable workflow : WorkflowDefinition.t.
  Variable _max_concurrency : Z.

(** [incoming[node_id]]: the edges into a node, in declaration order. *)
Definition incoming_edges (node_id : string) : list WorkflowEdge.t :=
  List.filter (fun e => bool_decide (WorkflowEdge.target e = node_id))
    (WorkflowDefinition.edges workflow).

(** [nodes[node_id]]: the last node of that id. *)
Definition node_by_id (node_id : string) : res WorkflowNode.t :=
  subscript node_id
    (of_pairs (map (fun n => (WorkflowNode.id n, n)) (WorkflowDefinition.nodes workflow))).

(** [all(edge.source in executions for edge in edges)]. *)
Definition sources_done (edges : list WorkflowEdge.t) (p : progress) : bool :=
  forallb (fun e => has_key (WorkflowEdge.source e) (executions p)) edges.

(** [any(self._edge_active(edge, executions[edge.source]) for edge in edges)], which the
    code evaluates only when all the sources are done. *)
Definition any_active (edges : list WorkflowEdge.t) (p : progress) : bool :=
  existsb (fun e => match executions p !! WorkflowEdge.source e with
                    | Some x => _edge_active e x
                    | None => false
                    end) edges.

Definition must_skip (p : progress) (node : WorkflowNode.t) : bool :=
  let edges := incoming_edges (WorkflowNode.id node) in
  bool_decide (WorkflowNode.id node ∈ pending p)
  && negb (bool_decide (edges = []))
  && sources_done edges p && negb (any_active edges p).

Definition without (node_id : string) (ids : list string) : list string :=
  List.filter (fun i => negb (bool_decide (i = node_id))) ids.

(** [executions[id] = ...; raw_results[id] = ...; pending.remove(id)]. *)
Definition record_node (p : progress) (node : WorkflowNode.t) (execution : NodeExecution.t)
    (result : list (string * pyval)) : progress :=
  mkProgress (without (WorkflowNode.id node) (pending p))
    (<[WorkflowNode.id node := execution]> (executions p))
    (<[WorkflowNode.id node := result]> (raw_results p)).

Definition skip_node (p : progress) (node : WorkflowNode.t) : progress :=
  let timestamp := (times (WorkflowNode.id node)).1 in
  record_node p node skipped (node_result node "SKIPPED" timestamp timestamp []).

(** The [for] loop of the [while changed] loop: the state and [changed]. *)
Definition skip_pass (p : progress) : progress * bool :=
  fold_left (fun '(p, changed) node =>
    if must_skip p node then (skip_node p node, true) else (p, changed))
    (WorkflowDefinition.nodes workflow) (p, false).

(** [while changed]. *)
Fixpoint skip_all (fuel : nat) (p : progress) : option progress :=
  match fuel with
  | O => None
  | S fuel => let '(p', changed) := skip_pass p in if changed then skip_all fuel p' else Some p'
  end.

Definition is_ready (p : progress) (node : WorkflowNode.t) : bool :=
  let edges := incoming_edges (WorkflowNode.id node) in
  bool_decide (WorkflowNode.id node ∈ pending p)
  && (bool_decide (edges = []) || (sources_done edges p && any_active edges p)).

Definition ready_nodes (p : progress) : list WorkflowNode.t :=
  List.filter (is_ready p) (WorkflowDefinition.nodes workflow).

(** The limits an active edge from a parallel node adds. *)
Definition edge_limit (p : progress) (edge : WorkflowEdge.t) : res (list Z) :=
  let? source := node_by_id (WorkflowEdge.source edge) in
  if bool_decide (WorkflowNode.type source = WorkflowNodeType.PARALLEL) then
    let? execution := subscript (WorkflowNode.id source) (executions p) in
    if _edge_active edge execution then let? n := node_concurrency source in Ok [n] else Ok []
  else Ok [].

Definition _wave_limit (p : progress) (ready : list WorkflowNode.t) : res Z :=
  let? limits := rmap (edge_limit p)
    (concat (map (fun n => incoming_edges (WorkflowNode.id n)) ready)) in
  Ok (Z.max 1 (fold_left Z.min (_max_concurrency :: concat limits) (Z.of_nat (length ready)))).

(** One wave: the nodes run on a snapshot of the context, then their results are stored
    and their extracted variables are merged in declaration order. *)
Definition run_wave (p : progress) (context : list (string * pyval)) (ready : list WorkflowNode.t)
    : res (progress * list (string * pyval)) :=
  let? _ := _wave_limit p ready in
  let? completed := rmap (fun node => _execute_node node context) ready in
  let p' := fold_left (fun p nr => record_node p nr.1 nr.2.1 nr.2.2) (zip ready completed) p in
  let context' :=
    fold_left (fun ctx node =>
      if bool_decide (node ∈ ready) then
        match executions p' !! WorkflowNode.id node with
        | Some x => kv_merge ctx (NodeExecution.extracted x)
        | None => ctx
        end
      else ctx) (WorkflowDefinition.nodes workflow) context in
  Ok (p', context').

(** [while pending]. *)
Fixpoint run_waves (fuel : nat) (p : progress) (context : list (string * pyval))
    : option (res (progress * list (string * pyval))) :=
  match fuel with
  | O => None
  | S fuel =>
      match pending p with
      | [] => Some (Ok (p, context))
      | _ =>
          match skip_all (S (length (pending p))) p with
          | None => None
          | Some p =>
              match ready_nodes p with
              | [] => Some (Err (WorkflowExecutionError "workflow scheduling could not make progress"))
              | ready =>
                  match run_wave p context ready with
                  | Ok (p, context) => run_waves fuel p context
                  | Err e => Some (Err e)
                  end
              end
          end
      end
  end.

Definition start (workflow : WorkflowDefinition.t) : progress :=
  mkProgress (remove_dups (map WorkflowNode.id (WorkflowDefinition.nodes workflow))) ∅ ∅.

(** [_run_graph]: the results in declaration order, whether a node failed, and the
    context as the waves left it. *)
Definition _run_graph (context : list (string * pyval))
    : option (res (list (string * list (string * pyval)) * bool * list (string * pyval))) :=
  match run_waves (S (length (WorkflowDefinition.nodes workflow))) (start workflow) context with
  | None => None
  | Some (Err e) => Some (Err e)
  | Some (Ok (p, context)) =>
      let ordered_results :=
        omap (fun node => option_map (fun r => (WorkflowNode.id node, r))
                            (raw_results p !! WorkflowNode.id node))
          (WorkflowDefinition.nodes workflow) in
      let failed := existsb (fun x => bool_decide (NodeExecution.status x = "FAILED"))
                      (values (executions p)) in
      Some (Ok (ordered_results, failed, context))
  end.
End graph.

(** ** Entry points *)

(** [workflow_id or workflow.id]. *)
Definition run_workflow_id (workflow : WorkflowDefinition.t) (workflow_id : option string) : string :=
  match workflow_id with
  | Some w => if empty_str w then WorkflowDefinition.id workflow else w
  | None => WorkflowDefinition.id workflow
  end.

(** [execute]: [fresh] is the text of [uuid4()], [started_at] and [finished_at] the two
    texts of [_now()].  [None] would mean that the scheduling loop needs more fuel. *)
Definition execute (fresh started_at finished_at : string) (_max_concurrency : Z)
    (workflow : WorkflowDefinition.t) (variables : list (string * pyval))
    (workflow_id : option string) : option (res WorkflowRunRecord.t) :=
  match validate_workflow_graph workflow with
  | Err e => Some (Err e)
  | Ok _ =>
      match WorkflowDefinition.nodes workflow with
      | [] => Some (Err (WorkflowExecutionError "cannot execute an empty workflow"))
      | _ =>
          let context := kv_merge (WorkflowDefinition.variables workflow) variables in
          match _run_graph workflow _max_concurrency context with
          | None => None
          | Some (Err e) => Some (Err e)
          | Some (Ok (results, failed, context)) =>
              Some (Ok (WorkflowRunRecord.mk fresh (run_workflow_id workflow workflow_id)
                          (if failed then "FAILED" else "SUCCEEDED") results context
                          started_at (Some finished_at)))
          end
      end
  end.

Definition debug (fresh started_at finished_at : string) (workflow : WorkflowDefinition.t)
    (node_id : string) (variables : list (string * pyval)) (workflow_id : option string)
    : res WorkflowRunRecord.t :=
  let? _ := validate_workflow_graph workflow in
  match find (fun n => bool_decide (WorkflowNode.id n = node_id)) (WorkflowDefinition.nodes workflow) with
  | None => Err (WorkflowExecutionError "debug node does not exist")
  | Some node =>
      let context := kv_merge (WorkflowDefinition.variables workflow) variables in
      let? ' (execution, result) := _execute_node node context in
      Ok (WorkflowRunRecord.mk fresh (run_workflow_id workflow workflow_id)
            (if bool_decide (NodeExecution.status execution = "SUCCEEDED") then "SUCCEEDED" else "FAILED")
            [(WorkflowNode.id node, result)]
            (kv_merge context (NodeExecution.extracted execution)) started_at (Some finished_at))
  end.
End executor.
