(* ===== verification/FlowTheorems.v ===== *)
(** * The workflow executor schedules every node exactly once

    [verdict] is the specification of one node: skipped when it has incoming edges and
    none of them is active, and otherwise executed on a snapshot that defines every
    variable its predecessors extracted.  [coherent] says that every node the executor
    is done with has its verdict; skipping passes and waves keep it. *)
From stdpp Require Import relations.
From S2P Require Import Prelude PyDict PyText Protocol Graph Templates Flow.
Open Scope list_scope.

Section flow.
  Context `{PyFloat}
    (_execute_http : list (string * pyval) -> list (string * pyval) -> res NodeExecution.t)
    (times : string -> string * string) (workflow : WorkflowDefinition.t)
    (_max_concurrency : Z).
Notation nodes := (WorkflowDefinition.nodes workflow).
Notation ids := (node_ids (WorkflowDefinition.nodes workflow)).
Notation inc n := (incoming_edges workflow (WorkflowNode.id n)).
Notation exec_node := (_execute_node _execute_http times).

Definition defines (context : list (string * pyval)) (k : string) : Prop := is_Some (kv_get k context).

(** [n] was rightly skipped or executed: [x] and [r] are what was stored for it. *)
Definition verdict (p : progress) (n : WorkflowNode.t) (x : NodeExecution.t)
    (r : list (string * pyval)) : Prop :=
  sources_done (inc n) p = true
  /\ ((inc n <> [] /\ any_active (inc n) p = false /\ x = skipped
       /\ r = node_result n "SKIPPED" (times (WorkflowNode.id n)).1 (times (WorkflowNode.id n)).1 [])
      \/ ((inc n = [] \/ any_active (inc n) p = true)
          /\ exists snapshot, exec_node n snapshot = Ok (x, r)
             /\ forall e y k, e ∈ inc n -> executions p !! WorkflowEdge.source e = Some y ->
                  k ∈ (NodeExecution.extracted y).*1 -> defines snapshot k)).

Record coherent (p : progress) : Prop := {
  co_nodup : NoDup (pending p);
  co_pending : forall n, n ∈ nodes ->
    WorkflowNode.id n ∈ pending p <-> executions p !! WorkflowNode.id n = None;
  co_known : forall i, i ∈ pending p \/ is_Some (executions p !! i) -> i ∈ ids;
  co_verdict : forall n x, n ∈ nodes -> executions p !! WorkflowNode.id n = Some x ->
    exists r, raw_results p !! WorkflowNode.id n = Some r /\ verdict p n x r }.

(** What has been stored is never changed. *)
Definition extends (p p' : progress) : Prop :=
  (forall i x, executions p !! i = Some x -> executions p' !! i = Some x)
  /\ (forall i, i ∈ pending p' -> i ∈ pending p).

Lemma extends_refl p : extends p p.
Proof. by split. Qed.

Lemma extends_trans p q r : extends p q -> extends q r -> extends p r.
Proof. intros [? ?] [? ?]. split; auto. Qed.

(** The context defines what the done nodes extracted. *)
Definition covers (p : progress) (context : list (string * pyval)) : Prop :=
  forall i x k, executions p !! i = Some x -> k ∈ (NodeExecution.extracted x).*1 -> defines context k.

Lemma elem_of_without i j l : i ∈ without j l <-> i <> j /\ i ∈ l.
Proof.
  unfold without. rewrite !list_elem_of_In, filter_In, negb_true_iff, bool_decide_eq_false. tauto.
Qed.

Lemma without_nodup j l : NoDup l -> NoDup (without j l).
Proof. rewrite !NoDup_ListNoDup. apply List.NoDup_filter. Qed.

Lemma without_length j l : NoDup l -> j ∈ l -> S (length (without j l)) = length l.
Proof.
  intros Hnd Hj. assert (l ≡ₚ j :: without j l) as HP; [| by rewrite HP at 2].
  apply NoDup_Permutation; [done | |].
  - apply NoDup_cons. split; [rewrite elem_of_without; naive_solver | by apply without_nodup].
  - intros i. rewrite elem_of_cons, elem_of_without. destruct (decide (i = j)); naive_solver.
Qed.

Lemma sources_done_true es p :
  sources_done es p = true <-> forall e, e ∈ es -> is_Some (executions p !! WorkflowEdge.source e).
Proof.
  unfold sources_done. rewrite forallb_forall. setoid_rewrite <- list_elem_of_In.
  by setoid_rewrite has_key_true.
Qed.

Lemma extends_done es p p' : extends p p' -> sources_done es p = true -> sources_done es p' = true.
Proof.
  rewrite !sources_done_true. intros [Hx _] Hd e He. destruct (Hd e He) as [x Hex]. by rewrite (Hx _ x).
Qed.

Lemma extends_active es p p' :
  extends p p' -> sources_done es p = true -> any_active es p' = any_active es p.
Proof.
  rewrite sources_done_true. intros [Hx _] Hd. unfold any_active.
  induction es as [|e es IH]; simpl; [done |]. destruct (Hd e) as [x Hex]; [by left |].
  rewrite Hex, (Hx _ x Hex). f_equal. apply IH. intros f Hf. apply Hd. by right.
Qed.

Lemma verdict_extends p p' n x r : extends p p' -> verdict p n x r -> verdict p' n x r.
Proof.
  intros He [Hd Hv]. split; [by eapply extends_done |]. rewrite (extends_active _ _ _ He Hd).
  destruct Hv as [Hv|(Ha & snap & Hs & Hk)]; [by left | right]. split; [done |].
  exists snap. split; [done |]. intros e y k Hin Hy. apply (Hk e y k Hin).
  rewrite sources_done_true in Hd. destruct (Hd e Hin) as [z Hz]. destruct He as [He _].
  rewrite (He _ _ Hz) in Hy. by injection Hy as [= ->].
Qed.

Context (V : valid_workflow workflow).

Lemma node_ids_inj m n : m ∈ nodes -> n ∈ nodes -> WorkflowNode.id m = WorkflowNode.id n -> m = n.
Proof.
  intros Hm Hn Heq. pose proof (proj2 (vw_node_ids _ V)) as Hnd. unfold node_ids in Hnd.
  revert Hm Hn Hnd. induction nodes as [|a l IH]; [by intros ?%elem_of_nil |]. simpl.
  intros Hm Hn [Ha Hnd]%NoDup_cons.
  assert (forall z, z ∈ l -> WorkflowNode.id z <> WorkflowNode.id a) as Hne.
  { intros z Hz Hza. apply Ha. rewrite <- Hza. by apply list_elem_of_fmap_2. }
  apply elem_of_cons in Hm as [->|Hm]; apply elem_of_cons in Hn as [->|Hn]; auto;
    exfalso; [by apply (Hne n) | by apply (Hne m)].
Qed.

Lemma record_coherent p n x r :
  coherent p -> n ∈ nodes -> WorkflowNode.id n ∈ pending p -> verdict p n x r ->
  coherent (record_node p n x r) /\ extends p (record_node p n x r)
  /\ S (length (pending (record_node p n x r))) = length (pending p).
Proof.
  intros [Hnd Hp Hk Hv] Hn Hin Hver.
  assert (executions p !! WorkflowNode.id n = None) as Hnone by by apply Hp.
  assert (extends p (record_node p n x r)) as He.
  { split; simpl.
    - intros i y Hy. by dict_case.
    - intros i Hi. by apply elem_of_without in Hi as [_ ?]. }
  split_and!; [split; simpl | done | by apply without_length].
  - by apply without_nodup.
  - intros m Hm. rewrite elem_of_without. destruct (decide (WorkflowNode.id m = WorkflowNode.id n)) as [->|Hne].
    + rewrite dict_lookup_insert_eq. naive_solver.
    + rewrite dict_lookup_insert_ne by done. rewrite <- Hp by done. naive_solver.
  - intros i [Hi|Hi].
    + apply elem_of_without in Hi as [_ ?]. auto.
    + rewrite dict_lookup_insert in Hi. case_decide; subst; [by apply list_elem_of_fmap_2 | auto].
  - intros m y Hm Hy. destruct (decide (WorkflowNode.id m = WorkflowNode.id n)) as [Heq|Hne].
    + apply node_ids_inj in Heq as ->; [| done | done]. rewrite dict_lookup_insert_eq.
      rewrite dict_lookup_insert_eq in Hy. injection Hy as [= <-]. exists r. split; [done |]. by eapply verdict_extends.
    + rewrite dict_lookup_insert_ne by done. rewrite dict_lookup_insert_ne in Hy by done.
      destruct (Hv m y Hm Hy) as (r' & Hr' & Hver'). exists r'. split; [done |]. by eapply verdict_extends.
Qed.

(** ** Skipping *)

Lemma must_skip_verdict p n :
  n ∈ nodes -> must_skip workflow p n = true ->
  WorkflowNode.id n ∈ pending p
  /\ verdict p n skipped
       (node_result n "SKIPPED" (times (WorkflowNode.id n)).1 (times (WorkflowNode.id n)).1 []).
Proof.
  unfold must_skip. intros Hn Hs. bool_prop.
  split; [done |]. split; [done |]. left. by split_and!.
Qed.

(** A skipping pass stores nothing but skipped executions. *)
Definition only_skips (p q : progress) : Prop :=
  forall i x, executions q !! i = Some x -> executions p !! i = Some x \/ x = skipped.

Lemma only_skips_trans p q r : only_skips p q -> only_skips q r -> only_skips p r.
Proof. intros H1 H2 i x [Hx|?]%H2; [by apply H1 | by right]. Qed.

Lemma only_skips_covers p q context : only_skips p q -> covers p context -> covers q context.
Proof.
  intros Hs Hc i x k Hx Hk. destruct (Hs i x Hx) as [Hold| ->]; [by eapply Hc |].
  by apply elem_of_nil in Hk.
Qed.

Lemma skip_pass_spec p :
  coherent p -> coherent (skip_pass times workflow p).1 /\ extends p (skip_pass times workflow p).1
  /\ only_skips p (skip_pass times workflow p).1
  /\ (if (skip_pass times workflow p).2
      then (length (pending (skip_pass times workflow p).1) < length (pending p))%nat
      else (skip_pass times workflow p).1 = p /\ forall n, n ∈ nodes -> must_skip workflow p n = false).
Proof.
  intros Hc. unfold skip_pass.
  assert (forall l q (b : bool), (forall n, n ∈ l -> n ∈ nodes) -> coherent q -> extends p q ->
    only_skips p q ->
    (if b then (length (pending q) < length (pending p))%nat
     else q = p /\ forall n, n ∈ nodes -> n ∈ l \/ must_skip workflow p n = false) ->
    let qb := fold_left (fun '(p, changed) node =>
      if must_skip workflow p node then (skip_node times p node, true) else (p, changed)) l (q, b) in
    coherent qb.1 /\ extends p qb.1 /\ only_skips p qb.1
    /\ (if qb.2 then (length (pending qb.1) < length (pending p))%nat
        else qb.1 = p /\ forall n, n ∈ nodes -> must_skip workflow p n = false)) as Hfold.
  { induction l as [|n l IH]; intros q b Hl Hq He Hcov Hb; simpl.
    { split_and!; try done; try apply He. destruct b; [done |]. destruct Hb as [-> Hb].
      split; [done |]. intros n Hn. destruct (Hb n Hn) as [?%elem_of_nil|?]; done. }
    destruct (must_skip workflow q n) eqn:Em.
    - assert (n ∈ nodes) as Hn by (apply Hl; by left).
      destruct (must_skip_verdict q n Hn Em) as [Hin Hver].
      destruct (record_coherent q n _ _ Hq Hn Hin Hver) as (Hq' & He' & Hlen).
      apply IH; try done.
      + intros m Hm. apply Hl. by right.
      + by eapply extends_trans.
      + intros i x Hx. simpl in Hx. rewrite dict_lookup_insert in Hx.
        case_decide; [right; congruence | by apply Hcov].
      + fold (record_node q n skipped (node_result n "SKIPPED" (times (WorkflowNode.id n)).1
          (times (WorkflowNode.id n)).1 [])). unfold skip_node.
        assert (length (pending q) <= length (pending p))%nat; [| lia].
        destruct b; [lia |]. destruct Hb as [-> _]. lia.
    - apply IH; try done; [intros m Hm; apply Hl; by right |].
      destruct b; [done |]. destruct Hb as [-> Hb]. split; [done |]. intros m Hm.
      destruct (Hb m Hm) as [[->|?]%elem_of_cons|?]; auto. }
  apply (Hfold nodes p false); try done; try apply extends_refl; try (by left). split; [done |]. auto.
Qed.

(** The skipping loop ends, at a state in which no node has to be skipped. *)
Lemma skip_all_spec fuel p :
  coherent p -> (length (pending p) < fuel)%nat ->
  exists p', skip_all times workflow fuel p = Some p' /\ coherent p' /\ extends p p'
    /\ only_skips p p'
    /\ (length (pending p') <= length (pending p))%nat
    /\ forall n, n ∈ nodes -> must_skip workflow p' n = false.
Proof.
  revert p. induction fuel as [|fuel IH]; intros p Hc Hf; [lia |]. cbn [skip_all].
  destruct (skip_pass_spec p Hc) as (Hq & He & Hcov & Hb).
  destruct (skip_pass times workflow p) as [q changed]. simpl in *. destruct changed.
  - destruct (IH q Hq) as (p' & E & Hp' & He' & Hcov' & Hlen & Hs); [lia |].
    exists p'. split_and!; [done | done | by eapply extends_trans | by eapply only_skips_trans | lia | done].
  - destruct Hb as [-> Hb]. exists p. split_and!; try done; try apply extends_refl; try by left.
Qed.

(** ** Progress *)

Lemma elem_of_inc e i : e ∈ incoming_edges workflow i <-> e ∈ WorkflowDefinition.edges workflow /\ WorkflowEdge.target e = i.
Proof.
  unfold incoming_edges. by rewrite !list_elem_of_In, filter_In, bool_decide_eq_true.
Qed.

(** Some pending node has no pending predecessor. *)
Lemma pending_minimal p :
  coherent p -> pending p <> [] ->
  exists n, n ∈ nodes /\ WorkflowNode.id n ∈ pending p /\ sources_done (inc n) p = true.
Proof.
  intros Hc Hne.
  assert (exists i, i ∈ pending p) as [i Hi].
  { destruct (pending p) as [|i l]; [done |]. exists i. by left. }
  assert (sn (flip (linked (WorkflowDefinition.edges workflow))) i) as Hsn.
  { apply tc_finite_sn.
    - intros a Hcyc%tc_flip. by apply (vw_acyclic _ V a).
    - exists (map WorkflowEdge.source (WorkflowDefinition.edges workflow)). intros m Hm.
      apply list_elem_of_fmap. clear Hi. induction Hm as [a b (e & ? & ? & ?)|]; [by exists e | done]. }
  induction Hsn as [i _ IH].
  assert (i ∈ ids) as (n & -> & Hn)%list_elem_of_fmap by (apply (co_known _ Hc); by left).
  destruct (sources_done (inc n) p) eqn:Ed; [by exists n |].
  assert (exists e, e ∈ inc n /\ executions p !! WorkflowEdge.source e = None) as (e & He & Hnone).
  { destruct (decide (Exists (fun e => executions p !! WorkflowEdge.source e = None) (inc n))) as [Hex|Hno].
    - apply Exists_exists in Hex as (e & ? & ?). by exists e.
    - exfalso. assert (sources_done (inc n) p = true) as Ht; [| congruence].
      apply sources_done_true. intros e He. apply not_Exists_Forall in Hno; [| solve_decision].
      rewrite Forall_forall in Hno. by apply not_eq_None_Some, Hno. }
  apply elem_of_inc in He as [He Ht].
  destruct (vw_edge _ V e He) as (_ & (s & Hs & Hsid & _) & _).
  apply (IH (WorkflowEdge.source e)).
  - by exists e.
  - rewrite <- Hsid. apply (co_pending _ Hc); [done |]. by rewrite Hsid.
Qed.

Lemma ready_exists p :
  coherent p -> pending p <> [] -> (forall n, n ∈ nodes -> must_skip workflow p n = false) ->
  ready_nodes workflow p <> [].
Proof.
  intros Hc Hne Hs. destruct (pending_minimal p Hc Hne) as (n & Hn & Hin & Hd).
  specialize (Hs n Hn). intros Hr. assert (n ∈ ready_nodes workflow p) as Hready.
  { unfold ready_nodes. apply list_elem_of_In, filter_In. split; [by apply list_elem_of_In |].
    unfold is_ready, must_skip in *. rewrite bool_decide_true in Hs |- * by done. rewrite Hd in Hs |- *.
    destruct (bool_decide (inc n = [])); [done |]. simpl in *. by apply negb_false_iff in Hs. }
  rewrite Hr in Hready. by apply elem_of_nil in Hready.
Qed.

(** ** Waves *)

(** An exception that comes from a node: its execution or its parallel limit. *)
Definition node_raises (e : exn) : Prop :=
  exists n, n ∈ nodes
    /\ ((exists snapshot, exec_node n snapshot = Err e)
        \/ (WorkflowNode.type n = WorkflowNodeType.PARALLEL /\ node_concurrency n = Err e)).

Lemma node_by_id_found i : i ∈ ids -> exists n, node_by_id workflow i = Ok n /\ n ∈ nodes /\ WorkflowNode.id n = i.
Proof.
  intros (n & -> & Hn)%list_elem_of_fmap. exists n. split; [| done].
  unfold node_by_id, subscript. rewrite (lookup_of_pairs _ (WorkflowNode.id n) n); [done | |].
  - rewrite map_map. apply (vw_node_ids _ V).
  - apply list_elem_of_fmap. by exists n.
Qed.

Lemma ready_node p n :
  n ∈ ready_nodes workflow p ->
  n ∈ nodes /\ WorkflowNode.id n ∈ pending p /\ sources_done (inc n) p = true
  /\ (inc n = [] \/ any_active (inc n) p = true).
Proof.
  unfold ready_nodes. rewrite list_elem_of_In, filter_In, <- list_elem_of_In.
  intros [Hn Hr]. unfold is_ready in Hr. apply andb_true_iff in Hr as [Hp Hr].
  apply orb_true_iff in Hr as [Hr|Hr]; bool_prop.
  - split_and!; try done; [| by left]. by rewrite Hr.
  - split_and!; try done. by right.
Qed.

Lemma wave_limit_spec p e :
  _wave_limit workflow _max_concurrency p (ready_nodes workflow p) = Err e -> node_raises e.
Proof.
  unfold _wave_limit. destruct (rmap _ _) as [limits|e'] eqn:Er; [done |]. simpl. intros [= <-].
  apply rmap_Err in Er as (edge & Hin & He).
  apply list_elem_of_In, in_concat in Hin as (es & Hes & Hin).
  apply in_map_iff in Hes as (n & <- & Hn). apply list_elem_of_In, ready_node in Hn as (Hn & _ & Hd & _).
  apply list_elem_of_In in Hin. rewrite sources_done_true in Hd. destruct (Hd edge Hin) as [x Hx].
  apply elem_of_inc in Hin as [Hin _]. destruct (vw_edge _ V edge Hin) as (_ & (s & Hs & Hsid & _) & _).
  unfold edge_limit in He. destruct (node_by_id_found (WorkflowEdge.source edge)) as (s' & Es & Hs' & Hsid').
  { rewrite <- Hsid. by apply list_elem_of_fmap_2. }
  rewrite Es in He. simpl in He. case_bool_decide as Hp; [| done].
  unfold subscript in He. rewrite Hsid', Hx in He. simpl in He.
  destruct (_edge_active edge x); [| done].
  destruct (node_concurrency s') as [z|e''] eqn:Ec; [done |]. simpl in He. injection He as [= ->].
  exists s'. split; [done |]. by right.
Qed.

Lemma record_all l p :
  coherent p ->
  Forall (fun nr => nr.1 ∈ nodes /\ WorkflowNode.id nr.1 ∈ pending p /\ verdict p nr.1 nr.2.1 nr.2.2) l ->
  NoDup (map (fun nr => WorkflowNode.id nr.1) l) ->
  let p' := fold_left (fun p nr => record_node p nr.1 nr.2.1 nr.2.2) l p in
  coherent p' /\ extends p p' /\ (length (pending p') + length l = length (pending p))%nat
  /\ forall i x, executions p' !! i = Some x ->
       executions p !! i = Some x \/ exists nr, nr ∈ l /\ WorkflowNode.id nr.1 = i.
Proof.
  revert p. induction l as [|[n [x r]] l IH]; intros p Hc HF Hnd; simpl.
  { split_and!; try done; try apply extends_refl; try lia; auto. }
  inversion HF as [|? ? (Hn & Hin & Hv) HF']; subst. simpl in *.
  apply NoDup_cons in Hnd as [Hni Hnd].
  destruct (record_coherent p n x r Hc Hn Hin Hv) as (Hc' & He & Hlen).
  destruct (IH (record_node p n x r) Hc') as (Hc'' & He' & Hlen' & Hx); [| done |].
  - rewrite Forall_forall in HF' |- *. intros nr Hnr. destruct (HF' nr Hnr) as (? & ? & ?).
    split_and!; [done | | by eapply verdict_extends]. simpl. apply elem_of_without. split; [| done].
    intros Heq. apply Hni. apply list_elem_of_fmap. by exists nr.
  - split_and!; [done | by eapply extends_trans | lia |]. intros i y Hy.
    apply Hx in Hy as [Hy|(nr & ? & ?)]; [| right; exists nr; split; [by right | done]].
    simpl in Hy. rewrite dict_lookup_insert in Hy. case_decide; [| by left].
    right. exists (n, (x, r)). split; [by left | done].
Qed.

(** Merging the variables of a wave. *)
Lemma merge_extracted (ready l : list WorkflowNode.t) p context :
  let merged := fold_left (fun ctx node =>
      if bool_decide (node ∈ ready) then
        match executions p !! WorkflowNode.id node with
        | Some x => kv_merge ctx (NodeExecution.extracted x)
        | None => ctx
        end
      else ctx) l context in
  (forall k, defines context k -> defines merged k)
  /\ (forall n x k, n ∈ l -> n ∈ ready -> executions p !! WorkflowNode.id n = Some x ->
       k ∈ (NodeExecution.extracted x).*1 -> defines merged k).
Proof.
  revert context. induction l as [|n l IH]; intros context; simpl.
  { split; [done |]. by intros n x k ?%elem_of_nil. }
  set (context' := if bool_decide (n ∈ ready) then _ else context).
  destruct (IH context') as [Hkeep Hnew].
  assert (forall k, defines context k -> defines context' k) as Hmono.
  { intros k Hk. unfold context'. case_bool_decide; [| done]. case_match; [| done].
    apply kv_merge_is_Some. by left. }
  split; [by auto |]. intros m x k [->|Hm]%elem_of_cons Hr Hx Hk; [| by eapply Hnew].
  apply Hkeep. unfold context'. rewrite bool_decide_true, Hx by done. apply kv_merge_is_Some. by right.
Qed.

Lemma ready_ids_nodup p : NoDup (map WorkflowNode.id (ready_nodes workflow p)).
Proof.
  unfold ready_nodes. pose proof (proj2 (vw_node_ids _ V)) as Hnd. unfold node_ids in Hnd. revert Hnd.
  induction nodes as [|n l IH]; simpl; [done |]. intros [Hn Hnd]%NoDup_cons.
  case_match; [| by apply IH]. simpl. apply NoDup_cons. split; [| by apply IH].
  intros (m & Hm & Hin)%list_elem_of_fmap. apply Hn. rewrite Hm.
  apply list_elem_of_fmap_2. apply list_elem_of_In, filter_In in Hin as [Hin _].
  by apply list_elem_of_In.
Qed.

Lemma wave_entries p context completed :
  covers p context ->
  Forall2 (fun n xr => exec_node n context = Ok xr) (ready_nodes workflow p) completed ->
  Forall (fun nr => nr.1 ∈ nodes /\ WorkflowNode.id nr.1 ∈ pending p /\ verdict p nr.1 nr.2.1 nr.2.2)
    (zip (ready_nodes workflow p) completed).
Proof.
  intros Hcov HF. apply Forall_forall. intros [n [x r]] Hin. simpl.
  assert (n ∈ ready_nodes workflow p /\ exec_node n context = Ok (x, r)) as [Hr He].
  { clear Hcov. induction HF as [|m y ms ys Hmy HF IH]; simpl in Hin; [by apply elem_of_nil in Hin |].
    apply elem_of_cons in Hin as [[= -> ->]|Hin]; [split; [by left | done] |].
    destruct (IH Hin). split; [by right | done]. }
  apply ready_node in Hr as (Hn & Hp & Hd & Ha). split_and!; [done | done |].
  split; [done |]. right. split; [done |]. exists context. split; [done |].
  intros e y k _ Hy Hk. by eapply Hcov.
Qed.

Lemma run_wave_spec p context :
  coherent p -> covers p context -> ready_nodes workflow p <> [] ->
  (exists p' context', run_wave _execute_http times workflow _max_concurrency p context
                         (ready_nodes workflow p) = Ok (p', context')
     /\ coherent p' /\ extends p p' /\ covers p' context'
     /\ (length (pending p') < length (pending p))%nat)
  \/ (exists e, run_wave _execute_http times workflow _max_concurrency p context
                  (ready_nodes workflow p) = Err e /\ node_raises e).
Proof.
  intros Hc Hcov Hne. unfold run_wave.
  destruct (_wave_limit _ _ _ _) as [limit|e] eqn:El; simpl.
  2:{ right. exists e. split; [done |]. by eapply wave_limit_spec. }
  destruct (rmap _ _) as [completed|e] eqn:Er; simpl.
  2:{ right. exists e. split; [done |]. apply rmap_Err in Er as (n & Hn & He).
      exists n. split; [by apply ready_node in Hn as [? _] | left; by exists context]. }
  apply rmap_Ok in Er. pose proof (Forall2_length _ _ _ Er) as Hlen.
  left. eexists _, _. split; [done |].
  destruct (record_all (zip (ready_nodes workflow p) completed) p Hc)
    as (Hc' & He & Hsize & Hx); [by eapply wave_entries | |].
  { assert (map (fun nr => WorkflowNode.id nr.1) (zip (ready_nodes workflow p) completed)
      = map WorkflowNode.id (ready_nodes workflow p)) as ->; [| apply ready_ids_nodup].
    clear -Er. induction Er; simpl; congruence. }
  split_and!; [done | done | | ].
  - destruct (merge_extracted (ready_nodes workflow p) nodes
      (fold_left (fun p nr => record_node p nr.1 nr.2.1 nr.2.2) (zip (ready_nodes workflow p) completed) p)
      context) as [Hkeep Hnew].
    intros i x k Hi Hk. destruct (Hx i x Hi) as [Hold|([n xr] & Hin & <-)].
    + apply Hkeep. by eapply Hcov.
    + apply elem_of_zip_l in Hin. eapply Hnew; try done. by apply ready_node in Hin as [? _].
  - rewrite length_zip in Hsize.
    assert (length (ready_nodes workflow p) <> 0%nat) by (by destruct (ready_nodes workflow p)). lia.
Qed.

(** ** The whole run *)

Definition no_progress : exn :=
  WorkflowExecutionError "workflow scheduling could not make progress".

Lemma run_waves_spec fuel p context :
  coherent p -> covers p context -> (length (pending p) < fuel)%nat ->
  exists r, run_waves _execute_http times workflow _max_concurrency fuel p context = Some r
    /\ match r with
       | Ok (p', context') => coherent p' /\ pending p' = [] /\ covers p' context'
       | Err e => node_raises e
                  \/ (e = no_progress /\ exists p', coherent p' /\ pending p' = []
                      /\ exists n, n ∈ nodes /\ executions p' !! WorkflowNode.id n = Some skipped)
       end.
Proof.
  revert p context. induction fuel as [|fuel IH]; intros p context Hc Hcov Hf; [lia |].
  cbn [run_waves]. destruct (pending p) as [|i l] eqn:Ep; [by exists (Ok (p, context)) |].
  destruct (skip_all_spec (S (length (i :: l))) p Hc) as
    (p1 & -> & Hc1 & He1 & Hcov1 & Hlen1 & Hs1); [rewrite Ep; lia |].
  destruct (decide (pending p1 = [])) as [Hp1|Hp1].
  - assert (ready_nodes workflow p1 = []) as ->.
    { destruct (ready_nodes workflow p1) as [|n r] eqn:Er; [done |].
      assert (n ∈ ready_nodes workflow p1) as Hn by (rewrite Er; by left).
      apply ready_node in Hn as (_ & Hn & _). rewrite Hp1 in Hn. by apply elem_of_nil in Hn. }
    eexists. split; [done |]. right. split; [done |]. exists p1. split_and!; [done | done |].
    assert (i ∈ pending p) as Hi by (rewrite Ep; by left).
    assert (i ∈ ids) as (n & -> & Hn)%list_elem_of_fmap by (apply (co_known _ Hc); by left).
    exists n. split; [done |]. pose proof (proj1 (co_pending _ Hc n Hn) Hi) as Hnone.
    destruct (executions p1 !! WorkflowNode.id n) as [x|] eqn:Ex.
    + destruct (Hcov1 _ _ Ex) as [?| ->]; [congruence | done].
    + apply (co_pending _ Hc1 n Hn) in Ex. rewrite Hp1 in Ex. by apply elem_of_nil in Ex.
  - pose proof (ready_exists p1 Hc1 Hp1 Hs1) as Hr.
    destruct (run_wave_spec p1 context Hc1 (only_skips_covers _ _ _ Hcov1 Hcov) Hr)
      as [(p2 & context2 & E2 & Hc2 & _ & Hcov2 & Hlen2)|(e & E2 & He)];
      destruct (ready_nodes workflow p1) as [|n r] eqn:Er; try done; rewrite E2.
    + apply IH; [done | done |]. rewrite Ep in Hlen1. lia.
    + eexists. split; [done |]. by left.
Qed.

Lemma start_coherent : coherent (start workflow).
Proof.
  split; simpl.
  - apply NoDup_remove_dups.
  - intros n Hn. rewrite elem_of_remove_dups. split; intros _.
    + apply dict_lookup_empty.
    + apply list_elem_of_fmap. by exists n.
  - intros i [Hi|[x Hx]]; [exact (proj1 (elem_of_remove_dups _ _) Hi) |].
    by rewrite (dict_lookup_empty i) in Hx.
  - intros n x _ Hx. by rewrite (dict_lookup_empty (WorkflowNode.id n)) in Hx.
Qed.

Lemma remove_dups_length (l : list string) : (length (remove_dups l) <= length l)%nat.
Proof. induction l as [|x l IH]; simpl; [lia |]. case_decide; simpl; lia. Qed.

(** When an edge fires: never behind a node that was skipped, and otherwise by the
    outcome the edge waits for. *)
Definition fires (e : WorkflowEdge.t) (y : NodeExecution.t) : Prop :=
  NodeExecution.status y <> "SKIPPED"%string
  /\ match WorkflowEdge.outcome e with
     | WorkflowEdgeOutcome.ALWAYS => True
     | WorkflowEdgeOutcome.SUCCESS => NodeExecution.status y = "SUCCEEDED"%string
     | WorkflowEdgeOutcome.FAILURE => NodeExecution.status y = "FAILED"%string
     | WorkflowEdgeOutcome.TRUE => NodeExecution.branch y = Some true
     | WorkflowEdgeOutcome.FALSE => NodeExecution.branch y = Some false
     end.

Lemma edge_active_fires e y : _edge_active e y = true <-> fires e y.
Proof.
  unfold _edge_active, fires. case_bool_decide; [naive_solver |].
  destruct (WorkflowEdge.outcome e); rewrite ?bool_decide_eq_true; tauto.
Qed.

(** Some edge into [n] fires. *)
Definition reached (p : progress) (n : WorkflowNode.t) : Prop :=
  exists e y, e ∈ inc n /\ executions p !! WorkflowEdge.source e = Some y /\ fires e y.

Lemma any_active_reached p n : any_active (inc n) p = true <-> reached p n.
Proof.
  unfold any_active, reached. rewrite existsb_exists. split.
  - intros (e & He & Ha). apply list_elem_of_In in He.
    destruct (executions p !! WorkflowEdge.source e) as [y|] eqn:Ey; [| done].
    exists e, y. by rewrite <- edge_active_fires.
  - intros (e & y & He & Ey & Hf). exists e. rewrite <- list_elem_of_In, Ey.
    by rewrite edge_active_fires.
Qed.

(** What [n] deserves once all the nodes before it are done: it is skipped when it has
    incoming edges and none fires, and executed otherwise, on a snapshot that defines
    what its predecessors extracted. *)
Definition deserved (p : progress) (n : WorkflowNode.t) (x : NodeExecution.t)
    (r : list (string * pyval)) : Prop :=
  (inc n <> [] /\ ~ reached p n /\ x = skipped
   /\ r = node_result n "SKIPPED" (times (WorkflowNode.id n)).1 (times (WorkflowNode.id n)).1 [])
  \/ ((inc n = [] \/ reached p n)
      /\ exists snapshot, exec_node n snapshot = Ok (x, r)
         /\ forall e y k, e ∈ inc n -> executions p !! WorkflowEdge.source e = Some y ->
              k ∈ (NodeExecution.extracted y).*1 -> defines snapshot k).

Lemma verdict_deserved p n x r : verdict p n x r -> deserved p n x r.
Proof.
  intros [_ [(Hi & Ha & Hx)|(Ha & Hs)]]; [left | right].
  - split_and!; [done | | apply Hx | apply Hx]. rewrite <- any_active_reached. congruence.
  - by rewrite <- any_active_reached.
Qed.

(** Every node is done and has what it deserves. *)
Definition settled_run (p : progress) : Prop :=
  forall n, n ∈ nodes ->
    (forall e, e ∈ inc n -> is_Some (executions p !! WorkflowEdge.source e))
    /\ exists x r, executions p !! WorkflowNode.id n = Some x
         /\ raw_results p !! WorkflowNode.id n = Some r /\ deserved p n x r.

Lemma coherent_settled p : coherent p -> pending p = [] -> settled_run p.
Proof.
  intros Hc Hp n Hn. destruct (executions p !! WorkflowNode.id n) as [x|] eqn:Ex.
  - destruct (co_verdict _ Hc n x Hn Ex) as (r & ? & Hv). split.
    + apply sources_done_true. apply Hv.
    + exists x, r. by apply verdict_deserved in Hv.
  - apply (co_pending _ Hc n Hn) in Ex. rewrite Hp in Ex. by apply elem_of_nil in Ex.
Qed.

Lemma failed_flag p :
  coherent p ->
  existsb (fun x => bool_decide (NodeExecution.status x = "FAILED"%string)) (values (executions p)) = true
  <-> exists n x, n ∈ nodes /\ executions p !! WorkflowNode.id n = Some x
                  /\ NodeExecution.status x = "FAILED"%string.
Proof.
  intros Hc. rewrite existsb_exists. split.
  - intros (x & Hx & Hs). apply list_elem_of_In, elem_of_values in Hx as [i Hi].
    assert (i ∈ ids) as (n & -> & Hn)%list_elem_of_fmap by (apply (co_known _ Hc); right; by eexists).
    exists n, x. by apply bool_decide_eq_true in Hs.
  - intros (n & x & Hn & Hx & Hs). exists x. split; [| by apply bool_decide_eq_true].
    apply list_elem_of_In, elem_of_values. by eexists.
Qed.

Lemma ordered_results_spec p :
  settled_run p ->
  let results := omap (fun node => option_map (fun r => (WorkflowNode.id node, r))
                                     (raw_results p !! WorkflowNode.id node)) nodes in
  results.*1 = ids /\ forall n r, n ∈ nodes -> raw_results p !! WorkflowNode.id n = Some r ->
                       (WorkflowNode.id n, r) ∈ results.
Proof.
  intros Hs. unfold settled_run in Hs. induction nodes as [|n l IH]; simpl.
  { split; [done |]. by intros n r ?%elem_of_nil. }
  destruct (Hs n) as (_ & x & r & _ & Hr & _); [by left |]. rewrite Hr. simpl.
  destruct IH as [IH1 IH2]; [intros m Hm; apply Hs; by right |].
  split; [f_equal; exact IH1 |]. intros m r' [->|Hm]%elem_of_cons Hr'.
  - rewrite Hr in Hr'. injection Hr' as [= ->]. by left.
  - right. by apply IH2.
Qed.

(** C9. A valid workflow runs every node exactly once, in dependency order: for every
    behaviour of the nodes the scheduling loop ends.  When it returns, every node has
    one result, in declaration order, and what it deserves: skipped exactly when it has
    incoming edges and none fires ([fires]: edges out of skipped nodes never do), and
    otherwise executed on a snapshot that defines every variable its predecessors
    extracted; the run fails exactly when a node failed; and the returned variables
    define everything extracted.  The only errors are an exception of a node and "could
    not make progress", which is raised although nothing is left to do: all nodes have
    their verdict and the last pending ones have just been skipped. *)
Theorem run_graph_correct context :
  exists r, _run_graph _execute_http times workflow _max_concurrency context = Some r
  /\ match r with
     | Ok (results, failed, context') =>
         exists p, settled_run p /\ covers p context' /\ results.*1 = ids
           /\ (forall n x r, n ∈ nodes -> deserved p n x r ->
                 raw_results p !! WorkflowNode.id n = Some r -> (WorkflowNode.id n, r) ∈ results)
           /\ (failed = true <-> exists n x, n ∈ nodes /\ executions p !! WorkflowNode.id n = Some x
                                 /\ NodeExecution.status x = "FAILED"%string)
     | Err e =>
         node_raises e
         \/ (e = no_progress /\ exists p, settled_run p
             /\ exists n, n ∈ nodes /\ executions p !! WorkflowNode.id n = Some skipped)
     end.
Proof.
  unfold _run_graph.
  assert (length (pending (start workflow)) < S (length nodes))%nat as Hf.
  { simpl. pose proof (remove_dups_length ids). unfold node_ids in *. rewrite length_map in *. lia. }
  assert (covers (start workflow) context) as Hcov.
  { intros i x k Hx. simpl in Hx. by rewrite (dict_lookup_empty i) in Hx. }
  destruct (run_waves_spec _ _ _ start_coherent Hcov Hf) as (r & -> & Hr).
  destruct r as [[p context']|e].
  - destruct Hr as (Hc & Hp & Hcov'). pose proof (coherent_settled p Hc Hp) as Hs.
    destruct (ordered_results_spec p Hs) as [Hids Hin].
    eexists. split; [done |]. exists p. split_and!; [done | done | done | |].
    + intros n x r Hn _ Hr. by apply Hin.
    + by apply failed_flag.
  - eexists. split; [done |]. destruct Hr as [Hr|(-> & p & Hc & Hp & Hn)]; [by left | right].
    split; [done |]. exists p. split; [by apply coherent_settled | done].
Qed.
End flow.

(** * Concrete workflows

    The theorems on workflow graphs, templates and the executor at concrete inputs. *)
Open Scope string_scope.
Open Scope list_scope.

Definition no_float_text : PyFloat := fun _ _ => "0.5".
#[local] Existing Instance no_float_text.

Lemma render_text_segments_witness :
  let gs := [Literal "id="; Token "id"; Literal "&q="; Token "q"] in
  let vars := [("id", PInt 42); ("q", PStr "a")] in
  Forall (fun g => segment_ok g = true) gs
  /\ segments_text gs = "id={{id}}&q={{q}}"
  /\ render_templates vars (PStr (segments_text gs)) = Ok (PStr "id=42&q=a").
Proof.
  intros gs vars. assert (Forall (fun g => segment_ok g = true) gs) as HF by (repeat constructor).
  split; [exact HF |]. split; [reflexivity |].
  rewrite (render_text_segments vars gs HF). vm_compute. reflexivity.
Defined.

Lemma extract_path_text_witness :
  let steps := [("data", None); ("items", Some "1"); ("name", None)] in
  let v := PDict [("data", PDict [("items", PList [PNone; PDict [("name", PStr "x")]])])] in
  path_text steps = "$.data.items[1].name"
  /\ extract_json_path v (path_text steps) = Ok (PStr "x").
Proof.
  intros steps v. split; [reflexivity |].
  rewrite (extract_path_text v steps); [reflexivity | discriminate | repeat constructor].
Defined.

Definition demo_node (id : string) (type : WorkflowNodeType.t) (config : list (string * pyval))
    : WorkflowNode.t := WorkflowNode.mk id id type (PInt 0) (PInt 0) config.

(** A condition whose [TRUE] branch leads to a parallel node. *)
Definition demo_workflow : WorkflowDefinition.t :=
  WorkflowDefinition.mk
    [demo_node "check" WorkflowNodeType.CONDITION [("operator", PStr "exists"); ("left", PStr "{{x}}")];
     demo_node "fan" WorkflowNodeType.PARALLEL []]
    [WorkflowEdge.mk "e1" "check" "fan" WorkflowEdgeOutcome.TRUE] [] "demo".

Definition no_http (config variables : list (string * pyval)) : res NodeExecution.t :=
  Err (ValueError "no network").
Definition no_times (i : string) : string * string := ("t0", "t1").

Lemma demo_workflow_valid : valid_workflow demo_workflow.
Proof. apply validate_workflow_graph_correct. vm_compute. reflexivity. Qed.

(** With the variable the run succeeds; without it the last node is skipped and the run
    is refused although nothing is left to do. *)
Lemma run_graph_correct_witness :
  (exists results failed context,
     _run_graph no_http no_times demo_workflow 20 [("x", PInt 1)] = Some (Ok (results, failed, context))
     /\ results.*1 = ["check"; "fan"] /\ failed = false)
  /\ _run_graph no_http no_times demo_workflow 20 [] = Some (Err no_progress)
  /\ exists p, settled_run no_http no_times demo_workflow p.
Proof.
  split; [| split].
  - destruct (run_graph_correct no_http no_times demo_workflow 20 demo_workflow_valid [("x", PInt 1)])
      as (r & E & Hr).
    destruct r as [[[results failed] context]|e];
      [| exfalso; revert E; vm_compute; discriminate].
    exists results, failed, context. split; [exact E |].
    destruct Hr as (p & _ & _ & Hids & _). split; [exact Hids |].
    revert E. vm_compute. intros [= _ <- _]. reflexivity.
  - vm_compute. reflexivity.
  - destruct (run_graph_correct no_http no_times demo_workflow 20 demo_workflow_valid []) as (r & E & Hr).
    assert (r = Err no_progress) as -> by (revert E; vm_compute; intros [= <-]; reflexivity).
    destruct Hr as [(n & Hn & [[snapshot Hs]|[_ Hc]])|(_ & p & Hp & _)]; [| | exists p; exact Hp].
    + exfalso. revert Hs. unfold _execute_node. destruct (node_body _ n snapshot) as [x|e] eqn:Eb; [discriminate |].
      destruct (node_failure e) eqn:Ef; [discriminate |]. intros [= ->]. discriminate Ef.
    + exfalso. apply list_elem_of_In in Hn. destruct Hn as [<-|[<-|[]]]; discriminate Hc.
Defined.
