(* ===== verification/Versioned.v ===== *)
(** * Versioned records

    Several repositories keep the same shape: a dictionary with the current record of
    every id and a dictionary with the list of all its revisions.  [Revisioned] is the
    interface a record type offers them, [versioned] the invariant of the two
    dictionaries, [grows] what any sequence of calls may do to the histories. *)
From S2P Require Import Prelude PyDict.
Open Scope list_scope.

(** A record with an id, a revision number and a state version, and the relation
    between a record and the next revision of it. *)
Class Revisioned (R : Type) := {
  rv_id : R -> uuid;
  rv_revision : R -> Z;
  rv_version : R -> Z;
  rv_next : R -> R -> Prop;
  rv_next_spec : forall r r', rv_next r r' ->
    rv_id r' = rv_id r /\ rv_revision r' = (rv_revision r + 1)%Z
    /\ rv_version r' = (rv_version r + 1)%Z }.

(** A well-formed history of the record [i]: the revisions are numbered from 1, the
    versions from 0, and each revision is a next one of the one before. *)
Record history {R} `{Revisioned R} (i : uuid) (l : list R) : Prop := {
  hs_id : forall j r, l !! j = Some r -> rv_id r = i;
  hs_revision : forall j r, l !! j = Some r -> rv_revision r = (Z.of_nat j + 1)%Z;
  hs_version : forall j r, l !! j = Some r -> rv_version r = Z.of_nat j;
  hs_next : forall j r r', l !! j = Some r -> l !! S j = Some r' -> rv_next r r' }.

(** The current record is the last of its history. *)
Record versioned {R} `{Revisioned R} (d : pydict uuid R) (h : pydict uuid (list R)) : Prop := {
  vs_current : forall i r, d !! i = Some r -> exists l, h !! i = Some (l ++ [r]);
  vs_known : forall i l, h !! i = Some l -> is_Some (d !! i);
  vs_history : forall i l, h !! i = Some l -> history i l }.

(** Histories only grow at their end. *)
Definition grows {R} (h h' : pydict uuid (list R)) : Prop :=
  forall i l, h !! i = Some l -> exists more, h' !! i = Some (l ++ more).

#[export] Instance grows_preorder {R} : PreOrder (@grows R).
Proof.
  split.
  - intros h i l Hl. exists []. by rewrite app_nil_r.
  - intros h1 h2 h3 H1 H2 i l (m1 & Hm1)%H1. apply H2 in Hm1 as (m2 & Hm2).
    exists (m1 ++ m2). by rewrite app_assoc.
Qed.

Section versioned_store.
  Context {R : Type} `{Revisioned R}.
  Implicit Types (d : pydict uuid R) (h : pydict uuid (list R)).

Lemma versioned_empty : versioned (∅ : pydict uuid R) ∅.
Proof. by split. Qed.

Lemma history_single i r : rv_id r = i -> rv_revision r = 1%Z -> rv_version r = 0%Z -> history i [r].
Proof.
  intros Hi Hr Hv. split; intros [|j] x; simpl; try done; by intros [= <-].
Qed.

Lemma history_snoc i l r r' : history i (l ++ [r]) -> rv_next r r' -> history i ((l ++ [r]) ++ [r']).
Proof.
  intros [Hid Hrev Hver Hnext] Hn. destruct (rv_next_spec _ _ Hn) as (Hi & Hr & Hv).
  assert ((l ++ [r]) !! length l = Some r) as Hlast by by apply list_lookup_middle.
  split.
  - intros j x [Hx|[Hj Hx]]%lookup_snoc_Some; [naive_solver |]. subst.
    rewrite Hi. by eapply Hid.
  - intros j x [Hx|[Hj Hx]]%lookup_snoc_Some; [naive_solver |]. subst.
    rewrite Hr, (Hrev _ _ Hlast), length_app. simpl. lia.
  - intros j x [Hx|[Hj Hx]]%lookup_snoc_Some; [naive_solver |]. subst.
    rewrite Hv, (Hver _ _ Hlast), length_app. simpl. lia.
  - intros j x y Hx [[Hlt Hy]|[Hj Hy]]%lookup_snoc_Some.
    + apply lookup_snoc_Some in Hx as [[_ Hx]|[Hx _]]; [by eapply Hnext | lia].
    + subst. rewrite length_app in Hj. simpl in Hj.
      rewrite lookup_app_l in Hx by (rewrite length_app; simpl; lia).
      assert (j = length l) as -> by lia. rewrite Hlast in Hx. by injection Hx as [= <-].
Qed.

(** Storing a new record with its one-element history. *)
Lemma versioned_create d h i r :
  versioned d h -> d !! i = None -> rv_id r = i -> rv_revision r = 1%Z -> rv_version r = 0%Z ->
  versioned (<[i:=r]> d) (<[i:=[r]]> h) /\ grows h (<[i:=[r]]> h).
Proof.
  intros [Hc Hk Hh] Hnew Hi Hr Hv.
  assert (h !! i = None) as Hnone.
  { destruct (h !! i) eqn:E; [| done]. apply Hk in E as [? ?]. congruence. }
  split; [split |].
  - intros j x Hx. dict_case; [by exists [] | by apply Hc].
  - intros j l Hl. dict_case; [done | by eapply Hk].
  - intros j l Hl. dict_case; [by apply history_single | by apply Hh].
  - intros j l Hl. exists []. rewrite app_nil_r. by dict_case.
Qed.

(** Replacing a record by a next revision of it. *)
Lemma versioned_update d h i r r' l :
  versioned d h -> d !! i = Some r -> h !! i = Some l -> rv_next r r' ->
  versioned (<[i:=r']> d) (<[i:=l ++ [r']]> h) /\ grows h (<[i:=l ++ [r']]> h).
Proof.
  intros [Hc Hk Hh] Hd Hl Hn. destruct (Hc _ _ Hd) as (l0 & Hl0).
  assert (l = l0 ++ [r]) as -> by congruence.
  split; [split |].
  - intros j x Hx. dict_case; [by exists (l0 ++ [r]) | by apply Hc].
  - intros j k Hj. dict_case; [done | by eapply Hk].
  - intros j k Hj. dict_case; [apply history_snoc; auto | by apply Hh].
  - intros j k Hj. dict_case; [exists [r']; congruence | exists []; by rewrite app_nil_r].
Qed.

(** The histories of stored records exist. *)
Lemma versioned_subscript d h i r :
  versioned d h -> d !! i = Some r -> exists l, subscript i h = Ok (l ++ [r]).
Proof.
  intros V Hd. destruct (vs_current _ _ V _ _ Hd) as (l & Hl). exists l.
  unfold subscript. by rewrite Hl.
Qed.

(** The current record of a history of [n] revisions has version [n - 1]. *)
Lemma versioned_version d h i r l :
  versioned d h -> d !! i = Some r -> h !! i = Some l ->
  rv_id r = i /\ rv_revision r = Z.of_nat (length l) /\ rv_version r = (Z.of_nat (length l) - 1)%Z.
Proof.
  intros V Hd Hl. destruct (vs_current _ _ V _ _ Hd) as (l0 & Hl0).
  assert (l = l0 ++ [r]) as -> by congruence. pose proof (vs_history _ _ V _ _ Hl) as Hh.
  assert ((l0 ++ [r]) !! length l0 = Some r) as Hr by by apply list_lookup_middle.
  rewrite length_app. simpl. split_and!.
  - by eapply hs_id.
  - rewrite (hs_revision _ _ Hh _ _ Hr). lia.
  - rewrite (hs_version _ _ Hh _ _ Hr). lia.
Qed.

(** Versions of stored records never decrease. *)
Lemma grows_version d h d' h' i r :
  versioned d h -> versioned d' h' -> grows h h' -> d !! i = Some r ->
  exists r', d' !! i = Some r' /\ (rv_version r <= rv_version r')%Z
             /\ (rv_version r' = rv_version r -> r' = r).
Proof.
  intros V V' G Hd. destruct (vs_current _ _ V _ _ Hd) as (l & Hl).
  destruct (G _ _ Hl) as (more & Hm). destruct (vs_known _ _ V' _ _ Hm) as [r' Hr'].
  destruct (versioned_version _ _ _ _ _ V Hd Hl) as (_ & _ & Hv).
  destruct (versioned_version _ _ _ _ _ V' Hr' Hm) as (_ & _ & Hv').
  exists r'. rewrite !length_app in *. cbn [length] in *. split_and!; [done | lia |]. intros Heq.
  destruct more as [|x more]; [| cbn [length] in *; lia].
  rewrite app_nil_r in Hm. destruct (vs_current _ _ V' _ _ Hr') as (l' & Hl').
  rewrite Hm in Hl'. injection Hl' as Hl'. by apply app_inj_tail in Hl' as [_ ?].
Qed.

(** Later entries of a history are reached from earlier ones by [rv_next]. *)
Lemma history_rtc i l j n r r' :
  history i l -> l !! j = Some r -> l !! (j + n)%nat = Some r' -> rtc rv_next r r'.
Proof.
  intros Hh Hj. revert r'. induction n as [|n IH]; intros r' Hr'.
  - rewrite Nat.add_0_r in Hr'. assert (r' = r) as -> by congruence. constructor.
  - assert (is_Some (l !! (j + n)%nat)) as [x Hx].
    { apply lookup_lt_is_Some. apply lookup_lt_Some in Hr'. lia. }
    eapply rtc_r; [by apply IH |]. rewrite Nat.add_succ_r in Hr'. by eapply hs_next.
Qed.

(** A stored record stays stored, in a later revision. *)
Lemma grows_rtc d h d' h' i r :
  versioned d h -> versioned d' h' -> grows h h' -> d !! i = Some r ->
  exists r', d' !! i = Some r' /\ rtc rv_next r r'.
Proof.
  intros V V' G Hd. destruct (vs_current _ _ V _ _ Hd) as (l & Hl).
  destruct (G _ _ Hl) as (more & Hm). destruct (vs_known _ _ V' _ _ Hm) as [r' Hr'].
  exists r'. split; [done |]. destruct (vs_current _ _ V' _ _ Hr') as (l' & Hl').
  assert ((l ++ [r]) ++ more = l' ++ [r']) as Heq by congruence.
  apply (history_rtc i (l' ++ [r']) (length l) (length l' - length l)).
  - by apply (vs_history _ _ V').
  - rewrite <- Heq, <- app_assoc. by apply list_lookup_middle.
  - apply (f_equal length) in Heq. rewrite !length_app in Heq. simpl in Heq.
    replace (length l + (length l' - length l))%nat with (length l') by lia.
    by apply list_lookup_middle.
Qed.

(** [revisions[n - 1]] is revision [n]. *)
Lemma history_lookup d h i l n :
  versioned d h -> h !! i = Some l -> (1 <= n <= Z.of_nat (length l))%Z ->
  exists r, l !! Z.to_nat (n - 1) = Some r /\ rv_revision r = n /\ rv_id r = i.
Proof.
  intros V Hl Hn. pose proof (vs_history _ _ V _ _ Hl) as Hh.
  destruct (lookup_lt_is_Some_2 l (Z.to_nat (n - 1))) as [r Hr]; [lia |].
  exists r. split_and!; [done | | by eapply hs_id].
  rewrite (hs_revision _ _ Hh _ _ Hr). lia.
Qed.
End versioned_store.

(** ** Stores

    A store is an object with reified calls, an invariant that every call keeps and a
    relation that says how its content may evolve.  [st_fresh] holds of a call whose
    [uuid4()] id is not in use yet. *)
Class Store (S Op : Type) := {
  st_init : S;
  st_op : Op -> S -> S;
  st_fresh : Op -> S -> Prop;
  st_wf : S -> Prop;
  st_evolves : S -> S -> Prop;
  st_preorder :: PreOrder st_evolves;
  st_init_wf : st_wf st_init;
  st_op_good : forall o s, st_wf s -> st_fresh o s -> st_wf (st_op o s) /\ st_evolves s (st_op o s) }.

Section stores.
  Context {S Op : Type} `{Store S Op}.

(** The states some sequence of calls leads to. *)
Inductive st_reachable : S -> Prop :=
  | st_reachable_init : st_reachable st_init
  | st_reachable_op s o : st_reachable s -> st_fresh o s -> st_reachable (st_op o s).

Fixpoint st_ops (ops : list Op) (s : S) : S :=
  match ops with [] => s | o :: rest => st_ops rest (st_op o s) end.

Fixpoint st_all_fresh (ops : list Op) (s : S) : Prop :=
  match ops with [] => True | o :: rest => st_fresh o s /\ st_all_fresh rest (st_op o s) end.

Lemma st_reachable_wf s : st_reachable s -> st_wf s.
Proof. induction 1; [apply st_init_wf | by apply st_op_good]. Qed.

Lemma st_ops_good ops s : st_wf s -> st_all_fresh ops s -> st_wf (st_ops ops s) /\ st_evolves s (st_ops ops s).
Proof.
  revert s. induction ops as [|o ops IH]; intros s W; simpl; [by split |].
  intros [Hf Hr]. destruct (st_op_good o s W Hf) as [W1 E1]. destruct (IH _ W1 Hr) as [W2 E2].
  split; [done | by etrans].
Qed.

Lemma st_ops_reachable ops s : st_reachable s -> st_all_fresh ops s -> st_reachable (st_ops ops s).
Proof.
  revert s. induction ops as [|o ops IH]; intros s Hs; [done |].
  intros [Hf Hr]. simpl. apply IH; [by constructor | done].
Qed.
End stores.

(** What a predicate keeps over the steps of a relation, it keeps over its closure. *)
Lemma rtc_preserves {A B} (R : A -> A -> Prop) (f : A -> B) x y :
  (forall a b, R a b -> f b = f a) -> rtc R x y -> f y = f x.
Proof. intros HR. induction 1 as [|a b c Hab _ IH]; [done |]. rewrite IH. by apply HR. Qed.

(** [[d[i] for i in ids]] when every key is there. *)
Lemma rmap_subscript {K V} `{EqDecision K} (d : pydict K V) (ids : list K) :
  (forall i, i ∈ ids -> is_Some (d !! i)) ->
  exists l, rmap (fun i => subscript i d) ids = Ok l /\ Forall2 (fun i v => d !! i = Some v) ids l.
Proof.
  induction ids as [|i ids IH]; intros Hall; simpl; [by exists [] |].
  destruct (Hall i) as [v Hv]; [by left |].
  destruct IH as (l & Hl & HF); [intros j Hj; apply Hall; by right |].
  exists (v :: l). unfold subscript at 1. rewrite Hv. simpl. rewrite Hl. split; [done |].
  by constructor.
Qed.

(** [revisions[n - 1]] after the test that [n] is a revision number. *)
Lemma numbered_Ok {S R} (l : list R) (n : Z) e1 e2 r (s s' : S) :
  (if ((n <? 1) || (Z.of_nat (length l) <? n))%Z then raise e1
   else match l !! Z.to_nat (n - 1) with Some r => ret r | None => raise e2 end) s = (Ok r, s') <->
  s' = s /\ (1 <= n)%Z /\ l !! Z.to_nat (n - 1) = Some r.
Proof.
  destruct (orb _ _) eqn:Eb; unfold raise, ret; bool_prop.
  - split; [done |]. intros (_ & Hn & Hl). apply lookup_lt_Some in Hl. destruct Eb; bool_prop; lia.
  - destruct (l !! _) as [x|]; split; naive_solver.
Qed.

(** Run a repository method to its outcomes. *)
Ltac st_call :=
  unfold bind, get, put, ret, raise, lift in *; cbn [fst snd] in *; py_case; cbn [fst snd] in *.

(** * Unique names

    Several repositories keep a dictionary of records by id and an index from a key of
    the record (its name, or project and name) to the id.  [indexed] says that the
    index is exact; the lemmas cover creation, deletion and renaming. *)
Open Scope list_scope.

(** [del d[k]]: a [KeyError] when the key is not there. *)
Definition py_del {K V} `{EqDecision K} (k : K) (d : pydict K V) : res (pydict K V) :=
  if has_key k d then Ok (delete k d) else Err KeyError.

Section named.
  Context {R K : Type} `{EqDecision K} (key : R -> K).
  Implicit Types (recs : pydict uuid R) (names : pydict K uuid).

Definition indexed recs names : Prop :=
  forall k i, names !! k = Some i <-> exists r, recs !! i = Some r /\ key r = k.

Lemma indexed_empty : indexed ∅ ∅.
Proof. intros k i. by split; [| intros (? & ? & _)]. Qed.

Lemma indexed_owner recs names i r : indexed recs names -> recs !! i = Some r -> names !! key r = Some i.
Proof. intros H Hr. apply H. eauto. Qed.

(** No two records share a key. *)
Lemma indexed_unique recs names i j r r' :
  indexed recs names -> recs !! i = Some r -> recs !! j = Some r' -> key r = key r' -> i = j.
Proof.
  intros H Hi Hj Hk. apply (indexed_owner _ _ _ _ H) in Hi, Hj. congruence.
Qed.

Lemma indexed_free recs names k :
  indexed recs names -> names !! k = None <-> forall i r, recs !! i = Some r -> key r <> k.
Proof.
  intros H. split.
  - intros Hn i r Hr <-. apply (indexed_owner _ _ _ _ H) in Hr. congruence.
  - intros Hn. destruct (names !! k) as [i|] eqn:E; [| done].
    apply H in E as (r & Hr & Hk). by destruct (Hn i r).
Qed.

(** A key that no other record than [i] bears. *)
Lemma indexed_free_for recs names k i :
  indexed recs names -> (names !! k = None \/ names !! k = Some i) <->
  forall j r, recs !! j = Some r -> key r = k -> j = i.
Proof.
  intros H. split.
  - intros Ho j r Hr <-. apply (indexed_owner _ _ _ _ H) in Hr. destruct Ho; congruence.
  - intros Hu. destruct (names !! k) as [j|] eqn:E; [right | by left].
    apply H in E as (r & Hr & Hk). f_equal. eauto.
Qed.

Lemma indexed_create recs names i r :
  indexed recs names -> recs !! i = None -> names !! key r = None ->
  indexed (<[i:=r]> recs) (<[key r:=i]> names).
Proof.
  intros H Hi Hk k j. rewrite !dict_lookup_insert. pose proof (H k j) as Hkj.
  repeat case_decide; subst.
  - split; [eauto | done].
  - split; [by intros [= <-] |]. intros Hx%Hkj. congruence.
  - split; [intros (x & Hx & _)%Hkj; congruence |]. intros (x & [= <-] & Hx). congruence.
  - done.
Qed.

Lemma indexed_delete recs names i r :
  indexed recs names -> recs !! i = Some r -> indexed (delete i recs) (delete (key r) names).
Proof.
  intros H Hi k j. rewrite !dict_lookup_delete. pose proof (H k j) as Hkj.
  repeat case_decide; subst.
  - split; [done | by intros (? & ? & _)].
  - split; [done |]. intros (x & Hx & Hk).
    assert (i = j) by (eapply indexed_unique; eauto). congruence.
  - split; [| by intros (? & ? & _)]. intros (x & Hx & Hk)%Hkj. congruence.
  - done.
Qed.

(** Renaming keeps the index when the new key is free or the record's own. *)
Lemma indexed_update recs names i r r' :
  indexed recs names -> recs !! i = Some r -> names !! key r' = None \/ names !! key r' = Some i ->
  indexed (<[i:=r']> recs)
          (if bool_decide (key r' = key r) then names else <[key r':=i]> (delete (key r) names)).
Proof.
  intros H Hi Hfree k j. pose proof (H k j) as Hkj.
  pose proof (proj1 (indexed_free_for _ _ _ _ H) Hfree) as Hu.
  rewrite (dict_lookup_insert recs). case_bool_decide as Hs.
  - rewrite Hkj. case_decide; subst; [| done]. split.
    + intros (x & Hx & <-). exists r'. split; [done | congruence].
    + intros (x & [= <-] & <-). eauto.
  - rewrite dict_lookup_insert, dict_lookup_delete. repeat case_decide; subst.
    + split; [eauto | done].
    + split; [by intros [= ->] |]. intros (x & Hx & Hk). by destruct (Hu _ _ Hx Hk).
    + split; [done |]. intros (x & [= <-] & ?). congruence.
    + split; [done |]. intros (x & Hx & Hk).
      assert (i = j) by (eapply indexed_unique; eauto). congruence.
    + split; [intros (x & Hx & ?)%Hkj; congruence |]. intros (x & [= <-] & ?). congruence.
    + done.
Qed.
End named.

Lemma py_del_Ok {K V} `{EqDecision K} (k : K) (d : pydict K V) v : d !! k = Some v -> py_del k d = Ok (delete k d).
Proof. intros Hk. unfold py_del. assert (has_key k d = true) as -> by (apply has_key_true; eauto). done. Qed.
