(* ===== verification/Quality.v ===== *)
(** * Requirements and test cases
    ([src/services/api/quality_domain.py], [src/services/api/quality_repository.py])

    The records with their status tables, and the in-memory [QualityRepository]. *)
From S2P Require Import Prelude PyDict PyText Versioned.
Open Scope list_scope.

(** ** Records *)

Module RequirementStatus.
Inductive t := DRAFT | ACTIVE | ARCHIVED.
#[global] Instance eq_dec : EqDecision t.
Proof. solve_decision. Defined.
End RequirementStatus.

Module TestCaseStatus.
Inductive t := DRAFT | READY | ARCHIVED.
#[global] Instance eq_dec : EqDecision t.
Proof. solve_decision. Defined.
End TestCaseStatus.

Module TestCasePriority.
Inductive t := LOW | MEDIUM | HIGH | CRITICAL.
#[global] Instance eq_dec : EqDecision t.
Proof. solve_decision. Defined.
End TestCasePriority.

Module TestCaseSource.
Inductive t := MANUAL | AI.
#[global] Instance eq_dec : EqDecision t.
Proof. solve_decision. Defined.
End TestCaseSource.

(** A rule table: [None] where the status is not a key. *)
Definition REQUIREMENT_TRANSITIONS (s : RequirementStatus.t) : option (list RequirementStatus.t) :=
  match s with
  | RequirementStatus.DRAFT => Some [RequirementStatus.ACTIVE]
  | RequirementStatus.ACTIVE => Some [RequirementStatus.ARCHIVED]
  | RequirementStatus.ARCHIVED => None
  end.

Definition TEST_CASE_TRANSITIONS (s : TestCaseStatus.t) : option (list TestCaseStatus.t) :=
  match s with
  | TestCaseStatus.DRAFT => Some [TestCaseStatus.READY]
  | TestCaseStatus.READY => Some [TestCaseStatus.ARCHIVED]
  | TestCaseStatus.ARCHIVED => None
  end.

Definition _next_status {S} `{EqDecision S} (current target : S) (rules : S -> option (list S))
    : res S :=
  if bool_decide (current = target) then
    match rules current with
    | None => Err InvalidAssetTransition
    | Some _ => Ok current
    end
  else if bool_decide (target ∈ default [] (rules current)) then Ok target
  else Err InvalidAssetTransition.

Module CaseStepRecord.
Record t := mk { order : Z; action : string; expected_result : string }.
End CaseStepRecord.

Module RequirementRecord.
Record t := mk {
  id : uuid; project_id : uuid; title : string; description : string;
  status : RequirementStatus.t; revision : Z; state_version : Z;
  created_at : datetime; updated_at : datetime }.
Definition update (read : datetime) (r : t) (title description : string)
    (status' : RequirementStatus.t) : res t :=
  let? next_status := _next_status (status r) status' REQUIREMENT_TRANSITIONS in
  Ok (mk (id r) (project_id r) title description next_status (revision r + 1)%Z
         (state_version r + 1)%Z (created_at r) read).
End RequirementRecord.

Module TestCaseRecord.
Record t := mk {
  id : uuid; project_id : uuid; title : string; description : string; preconditions : string;
  priority : TestCasePriority.t; status : TestCaseStatus.t; source : TestCaseSource.t;
  steps : list CaseStepRecord.t; revision : Z; state_version : Z;
  created_at : datetime; updated_at : datetime }.
Definition update (read : datetime) (r : t) (title description preconditions : string)
    (priority : TestCasePriority.t) (status' : TestCaseStatus.t) (steps : list CaseStepRecord.t)
    : res t :=
  let? next_status := _next_status (status r) status' TEST_CASE_TRANSITIONS in
  Ok (mk (id r) (project_id r) title description preconditions priority next_status (source r)
         steps (revision r + 1)%Z (state_version r + 1)%Z (created_at r) read).
End TestCaseRecord.

Module TraceLinkRecord.
Record t := mk { requirement_id : uuid; test_case_id : uuid; created_at : datetime }.
End TraceLinkRecord.

(** The next revision of a record keeps its identity and follows the rules. *)
Definition allowed {S} `{EqDecision S} (rules : S -> option (list S)) (s s' : S) : Prop :=
  exists targets, rules s = Some targets /\ (s' = s \/ s' ∈ targets).

Lemma next_status_Ok {S} `{EqDecision S} (s s' u : S) rules :
  _next_status s s' rules = Ok u <-> u = s' /\ allowed rules s s'.
Proof.
  unfold _next_status, allowed. case_bool_decide as Hs; subst.
  - destruct (rules s') as [l|]; split; try done.
    + intros [= <-]. split; [done |]. exists l. auto.
    + by intros [-> _].
    + by intros (_ & ? & ? & _).
  - case_bool_decide as Ht; split; try done.
    + intros [= <-]. split; [done |]. destruct (rules s) as [l|]; [exists l; auto |].
      by apply elem_of_nil in Ht.
    + by intros [-> _].
    + intros (_ & l & Hl & [->|Hin]); [done |]. by rewrite Hl in Ht.
Qed.

Lemma next_status_error {S} `{EqDecision S} (s s' : S) rules e :
  _next_status s s' rules = Err e -> e = InvalidAssetTransition /\ ~ allowed rules s s'.
Proof.
  intros He. assert (~ allowed rules s s') as Hn.
  { intros Ha. assert (_next_status s s' rules = Ok s') by by apply next_status_Ok. congruence. }
  split; [| done]. unfold _next_status in He. repeat case_match; congruence.
Qed.

Definition requirement_next (r r' : RequirementRecord.t) : Prop :=
  RequirementRecord.id r' = RequirementRecord.id r
  /\ RequirementRecord.project_id r' = RequirementRecord.project_id r
  /\ RequirementRecord.created_at r' = RequirementRecord.created_at r
  /\ RequirementRecord.revision r' = (RequirementRecord.revision r + 1)%Z
  /\ RequirementRecord.state_version r' = (RequirementRecord.state_version r + 1)%Z
  /\ allowed REQUIREMENT_TRANSITIONS (RequirementRecord.status r) (RequirementRecord.status r').

Definition test_case_next (r r' : TestCaseRecord.t) : Prop :=
  TestCaseRecord.id r' = TestCaseRecord.id r
  /\ TestCaseRecord.project_id r' = TestCaseRecord.project_id r
  /\ TestCaseRecord.created_at r' = TestCaseRecord.created_at r
  /\ TestCaseRecord.source r' = TestCaseRecord.source r
  /\ TestCaseRecord.revision r' = (TestCaseRecord.revision r + 1)%Z
  /\ TestCaseRecord.state_version r' = (TestCaseRecord.state_version r + 1)%Z
  /\ allowed TEST_CASE_TRANSITIONS (TestCaseRecord.status r) (TestCaseRecord.status r').

#[export,refine] Instance requirement_revisioned : Revisioned RequirementRecord.t := {|
  rv_id := RequirementRecord.id; rv_revision := RequirementRecord.revision;
  rv_version := RequirementRecord.state_version; rv_next := requirement_next; rv_next_spec := _ |}.
Proof. unfold requirement_next. naive_solver. Defined.

#[export,refine] Instance test_case_revisioned : Revisioned TestCaseRecord.t := {|
  rv_id := TestCaseRecord.id; rv_revision := TestCaseRecord.revision;
  rv_version := TestCaseRecord.state_version; rv_next := test_case_next; rv_next_spec := _ |}.
Proof. unfold test_case_next. naive_solver. Defined.

Lemma requirement_update_next read r t d st r' :
  RequirementRecord.update read r t d st = Ok r' ->
  requirement_next r r' /\ RequirementRecord.title r' = t /\ RequirementRecord.description r' = d
  /\ RequirementRecord.status r' = st.
Proof.
  unfold RequirementRecord.update, requirement_next.
  intros (s & [-> Ha]%next_status_Ok & [= <-])%rbind_Ok. by split_and!.
Qed.

Lemma test_case_update_next read r t d p pr st steps r' :
  TestCaseRecord.update read r t d p pr st steps = Ok r' ->
  test_case_next r r' /\ TestCaseRecord.title r' = t /\ TestCaseRecord.status r' = st
  /\ TestCaseRecord.steps r' = steps.
Proof.
  unfold TestCaseRecord.update, test_case_next.
  intros (s & [-> Ha]%next_status_Ok & [= <-])%rbind_Ok. by split_and!.
Qed.

(** ** The repository *)

Module QualityRepository.
Record t := mk {
  _requirements : pydict uuid RequirementRecord.t;
  _requirement_revisions : pydict uuid (list RequirementRecord.t);
  _test_cases : pydict uuid TestCaseRecord.t;
  _test_case_revisions : pydict uuid (list TestCaseRecord.t);
  _links : pydict (uuid * uuid) TraceLinkRecord.t }.

Definition init : t := mk ∅ ∅ ∅ ∅ ∅.

Definition set_requirement (i : uuid) (r : RequirementRecord.t) (l : list RequirementRecord.t)
    : M t unit := fun s =>
  (Ok tt, mk (<[i:=r]> (_requirements s)) (<[i:=l]> (_requirement_revisions s)) (_test_cases s)
             (_test_case_revisions s) (_links s)).
Definition set_test_case (i : uuid) (r : TestCaseRecord.t) (l : list TestCaseRecord.t)
    : M t unit := fun s =>
  (Ok tt, mk (_requirements s) (_requirement_revisions s) (<[i:=r]> (_test_cases s))
             (<[i:=l]> (_test_case_revisions s)) (_links s)).
Definition set_link (k : uuid * uuid) (l : TraceLinkRecord.t) : M t unit := fun s =>
  (Ok tt, mk (_requirements s) (_requirement_revisions s) (_test_cases s) (_test_case_revisions s)
             (<[k:=l]> (_links s))).

Definition _check_version (current expected : Z) : res unit :=
  if negb (current =? expected)%Z then Err AssetVersionConflict else Ok tt.

Definition create_requirement (now : datetime) (fresh project_id : uuid) (title description : string)
    : M t RequirementRecord.t :=
  let record := RequirementRecord.mk fresh project_id title description RequirementStatus.DRAFT
                  1 0 now now in
  set_requirement fresh record [record] ;;;
  ret record.

Definition get_requirement (requirement_id : uuid) : M t RequirementRecord.t := fun s =>
  (match _requirements s !! requirement_id with Some r => Ok r | None => Err RequirementNotFound end, s).

(** [if project_id is not None: records = (... if item.project_id == project_id)]. *)
Definition in_project (project_id : option uuid) (p : uuid) : bool :=
  match project_id with Some q => bool_decide (p = q) | None => true end.

Definition list_requirements (project_id : option uuid) : M t (list RequirementRecord.t) :=
  let* s := get in
  ret (py_sorted (by_key RequirementRecord.created_at)
         (List.filter (fun r => in_project project_id (RequirementRecord.project_id r))
            (values (_requirements s)))).

Definition update_requirement (read : datetime) (requirement_id : uuid) (title description : string)
    (status : RequirementStatus.t) (expected_version : Z) : M t RequirementRecord.t :=
  let* current := get_requirement requirement_id in
  lift (_check_version (RequirementRecord.state_version current) expected_version) ;;;
  let* updated := lift (RequirementRecord.update read current title description status) in
  let* s := get in
  let* revisions := lift (subscript requirement_id (_requirement_revisions s)) in
  set_requirement requirement_id updated (revisions ++ [updated]) ;;;
  ret updated.

Definition list_requirement_revisions (requirement_id : uuid) : M t (list RequirementRecord.t) :=
  get_requirement requirement_id ;;;
  let* s := get in lift (subscript requirement_id (_requirement_revisions s)).

Definition create_test_case (now : datetime) (fresh project_id : uuid)
    (title description preconditions : string) (priority : TestCasePriority.t)
    (steps : list CaseStepRecord.t) (source : TestCaseSource.t) : M t TestCaseRecord.t :=
  let record := TestCaseRecord.mk fresh project_id title description preconditions priority
                  TestCaseStatus.DRAFT source steps 1 0 now now in
  set_test_case fresh record [record] ;;;
  ret record.

Definition get_test_case (test_case_id : uuid) : M t TestCaseRecord.t := fun s =>
  (match _test_cases s !! test_case_id with Some r => Ok r | None => Err TestCaseNotFound end, s).

Definition list_test_cases (project_id : option uuid) : M t (list TestCaseRecord.t) :=
  let* s := get in
  ret (py_sorted (by_key TestCaseRecord.created_at)
         (List.filter (fun r => in_project project_id (TestCaseRecord.project_id r))
            (values (_test_cases s)))).

Definition update_test_case (read : datetime) (test_case_id : uuid) (expected_version : Z)
    (title description preconditions : string) (priority : TestCasePriority.t)
    (status : TestCaseStatus.t) (steps : list CaseStepRecord.t) : M t TestCaseRecord.t :=
  let* current := get_test_case test_case_id in
  lift (_check_version (TestCaseRecord.state_version current) expected_version) ;;;
  let* updated := lift (TestCaseRecord.update read current title description preconditions
                          priority status steps) in
  let* s := get in
  let* revisions := lift (subscript test_case_id (_test_case_revisions s)) in
  set_test_case test_case_id updated (revisions ++ [updated]) ;;;
  ret updated.

Definition list_test_case_revisions (test_case_id : uuid) : M t (list TestCaseRecord.t) :=
  get_test_case test_case_id ;;;
  let* s := get in lift (subscript test_case_id (_test_case_revisions s)).

Definition link_requirement_test_case (read : datetime) (requirement_id test_case_id : uuid)
    : M t (TraceLinkRecord.t * bool) :=
  let* requirement := get_requirement requirement_id in
  let* test_case := get_test_case test_case_id in
  if negb (bool_decide (RequirementRecord.project_id requirement = TestCaseRecord.project_id test_case))
  then raise TraceLinkConflict
  else
    let* s := get in
    match _links s !! (requirement_id, test_case_id) with
    | Some link => ret (link, true)
    | None =>
        let link := TraceLinkRecord.mk requirement_id test_case_id read in
        set_link (requirement_id, test_case_id) link ;;;
        ret (link, false)
    end.

Definition list_requirement_test_cases (requirement_id : uuid) : M t (list TestCaseRecord.t) :=
  get_requirement requirement_id ;;;
  let* s := get in
  let ids := map snd (List.filter (fun k => bool_decide (k.1 = requirement_id)) (keys (_links s))) in
  let* records := lift (rmap (fun i => subscript i (_test_cases s)) ids) in
  ret (py_sorted (by_key TestCaseRecord.created_at) records).

End QualityRepository.

(** * Theorems about requirements and test cases *)
Import QualityRepository.
Open Scope list_scope.

(** Every method, reified. *)
Inductive quality_op : Type :=
  | OpCreateRequirement (now : datetime) (fresh project_id : uuid) (title description : string)
  | OpUpdateRequirement (read : datetime) (i : uuid) (title description : string)
      (status : RequirementStatus.t) (expected : Z)
  | OpCreateTestCase (now : datetime) (fresh project_id : uuid)
      (title description preconditions : string) (priority : TestCasePriority.t)
      (steps : list CaseStepRecord.t) (source : TestCaseSource.t)
  | OpUpdateTestCase (read : datetime) (i : uuid) (expected : Z)
      (title description preconditions : string) (priority : TestCasePriority.t)
      (status : TestCaseStatus.t) (steps : list CaseStepRecord.t)
  | OpLink (read : datetime) (requirement_id test_case_id : uuid).

Definition quality_step (o : quality_op) (s : t) : t :=
  match o with
  | OpCreateRequirement now f p ti d => (create_requirement now f p ti d s).2
  | OpUpdateRequirement rd i ti d st v => (update_requirement rd i ti d st v s).2
  | OpCreateTestCase now f p ti d pre pr steps src => (create_test_case now f p ti d pre pr steps src s).2
  | OpUpdateTestCase rd i v ti d pre pr st steps => (update_test_case rd i v ti d pre pr st steps s).2
  | OpLink rd r c => (link_requirement_test_case rd r c s).2
  end.

Definition quality_fresh (o : quality_op) (s : t) : Prop :=
  match o with
  | OpCreateRequirement _ f _ _ _ => _requirements s !! f = None
  | OpCreateTestCase _ f _ _ _ _ _ _ _ => _test_cases s !! f = None
  | _ => True
  end.

(** A link joins a requirement and a test case of the same project. *)
Definition link_ok (s : t) (k : uuid * uuid) (l : TraceLinkRecord.t) : Prop :=
  TraceLinkRecord.requirement_id l = k.1 /\ TraceLinkRecord.test_case_id l = k.2
  /\ exists r c, _requirements s !! k.1 = Some r /\ _test_cases s !! k.2 = Some c
                 /\ RequirementRecord.project_id r = TestCaseRecord.project_id c.

Record quality_wf (s : t) : Prop := {
  qw_requirements : versioned (_requirements s) (_requirement_revisions s);
  qw_test_cases : versioned (_test_cases s) (_test_case_revisions s);
  qw_links : forall k l, _links s !! k = Some l -> link_ok s k l }.

Record quality_evolves (s s' : t) : Prop := {
  qe_requirements : grows (_requirement_revisions s) (_requirement_revisions s');
  qe_test_cases : grows (_test_case_revisions s) (_test_case_revisions s');
  qe_links : forall k l, _links s !! k = Some l -> _links s' !! k = Some l }.

#[export] Instance quality_evolves_preorder : PreOrder quality_evolves.
Proof.
  split.
  - intros s. by split.
  - intros a b c [] []. split; [by etrans | by etrans | auto].
Qed.

Lemma put_requirement_good s i r l :
  quality_wf s -> versioned (<[i:=r]> (_requirements s)) (<[i:=l]> (_requirement_revisions s)) ->
  grows (_requirement_revisions s) (<[i:=l]> (_requirement_revisions s)) ->
  (forall r0, _requirements s !! i = Some r0 ->
     RequirementRecord.project_id r = RequirementRecord.project_id r0) ->
  quality_wf (set_requirement i r l s).2 /\ quality_evolves s (set_requirement i r l s).2.
Proof.
  intros [Hr Hc Hl] V G Hp. split; [| by split]. split; simpl; [done | done |].
  intros k x Hx. destruct (Hl k x Hx) as (? & ? & r0 & c & Hr0 & Hc0 & Hpc).
  split; [done |]. split; [done |]. simpl. rewrite dict_lookup_insert. case_decide; subst.
  - exists r, c. split_and!; [done | done |]. rewrite <- Hpc. by apply Hp.
  - by exists r0, c.
Qed.

Lemma put_test_case_good s i r l :
  quality_wf s -> versioned (<[i:=r]> (_test_cases s)) (<[i:=l]> (_test_case_revisions s)) ->
  grows (_test_case_revisions s) (<[i:=l]> (_test_case_revisions s)) ->
  (forall r0, _test_cases s !! i = Some r0 ->
     TestCaseRecord.project_id r = TestCaseRecord.project_id r0) ->
  quality_wf (set_test_case i r l s).2 /\ quality_evolves s (set_test_case i r l s).2.
Proof.
  intros [Hr Hc Hl] V G Hp. split; [| by split]. split; simpl; [done | done |].
  intros k x Hx. destruct (Hl k x Hx) as (? & ? & r0 & c & Hr0 & Hc0 & Hpc).
  split; [done |]. split; [done |]. simpl. rewrite (dict_lookup_insert (_test_cases s)). case_decide; subst.
  - exists r0, r. split_and!; [done | done |]. rewrite Hpc. symmetry. by apply Hp.
  - by exists r0, c.
Qed.

(** What [update_requirement] does, on every branch. *)
Lemma update_requirement_spec rd i ti d st v s :
  quality_wf s ->
  match _requirements s !! i with
  | None => update_requirement rd i ti d st v s = (Err RequirementNotFound, s)
  | Some r =>
      if negb (RequirementRecord.state_version r =? v)%Z then
        update_requirement rd i ti d st v s = (Err AssetVersionConflict, s)
      else match RequirementRecord.update rd r ti d st with
           | Err e => update_requirement rd i ti d st v s = (Err e, s)
           | Ok r' => exists l, _requirement_revisions s !! i = Some (l ++ [r])
               /\ update_requirement rd i ti d st v s
                  = (Ok r', (set_requirement i r' ((l ++ [r]) ++ [r']) s).2)
           end
  end.
Proof.
  intros W. unfold update_requirement, get_requirement, _check_version, bind, lift, get, ret.
  destruct (_requirements s !! i) as [r|] eqn:Er; [| done].
  destruct (_ =? v)%Z; simpl; [| done].
  destruct (RequirementRecord.update rd r ti d st) as [r'|e]; [| done].
  destruct (versioned_subscript _ _ _ _ (qw_requirements _ W) Er) as (l & Hl).
  exists l. unfold subscript in *. destruct (_requirement_revisions s !! i) as [l'|]; [| done].
  injection Hl as [= ->]. by split.
Qed.

Lemma update_test_case_spec rd i v ti d pre pr st steps s :
  quality_wf s ->
  match _test_cases s !! i with
  | None => update_test_case rd i v ti d pre pr st steps s = (Err TestCaseNotFound, s)
  | Some r =>
      if negb (TestCaseRecord.state_version r =? v)%Z then
        update_test_case rd i v ti d pre pr st steps s = (Err AssetVersionConflict, s)
      else match TestCaseRecord.update rd r ti d pre pr st steps with
           | Err e => update_test_case rd i v ti d pre pr st steps s = (Err e, s)
           | Ok r' => exists l, _test_case_revisions s !! i = Some (l ++ [r])
               /\ update_test_case rd i v ti d pre pr st steps s
                  = (Ok r', (set_test_case i r' ((l ++ [r]) ++ [r']) s).2)
           end
  end.
Proof.
  intros W. unfold update_test_case, get_test_case, _check_version, bind, lift, get, ret.
  destruct (_test_cases s !! i) as [r|] eqn:Er; [| done].
  destruct (_ =? v)%Z; simpl; [| done].
  destruct (TestCaseRecord.update rd r ti d pre pr st steps) as [r'|e]; [| done].
  destruct (versioned_subscript _ _ _ _ (qw_test_cases _ W) Er) as (l & Hl).
  exists l. unfold subscript in *. destruct (_test_case_revisions s !! i) as [l'|]; [| done].
  injection Hl as [= ->]. by split.
Qed.

Lemma quality_refl s : quality_wf s -> quality_wf s /\ quality_evolves s s.
Proof. by split. Qed.

Lemma quality_step_good o s :
  quality_wf s -> quality_fresh o s -> quality_wf (quality_step o s) /\ quality_evolves s (quality_step o s).
Proof.
  intros W Hf. destruct o; simpl in *.
  - destruct (versioned_create _ _ fresh (RequirementRecord.mk fresh project_id title description
      RequirementStatus.DRAFT 1 0 now now) (qw_requirements _ W) Hf) as [V G]; [done.. |].
    apply put_requirement_good; try done. intros r0 Hr0. congruence.
  - pose proof (update_requirement_spec read i title description status expected s W) as Hs.
    destruct (_requirements s !! i) as [r|] eqn:Er; [| rewrite Hs; by apply quality_refl].
    destruct (negb _); [rewrite Hs; by apply quality_refl |].
    destruct (RequirementRecord.update read r title description status) as [r'|e] eqn:Eu;
      [| rewrite Hs; by apply quality_refl].
    destruct Hs as (l & Hl & ->). apply requirement_update_next in Eu as (Hn & _).
    destruct (versioned_update _ _ _ _ _ _ (qw_requirements _ W) Er Hl Hn) as [V G].
    apply put_requirement_good; try done. intros r0 Hr0. rewrite Er in Hr0. injection Hr0 as [= <-]. apply Hn.
  - destruct (versioned_create _ _ fresh (TestCaseRecord.mk fresh project_id title description
      preconditions priority TestCaseStatus.DRAFT source steps 1 0 now now) (qw_test_cases _ W) Hf)
      as [V G]; [done.. |].
    apply put_test_case_good; try done. intros r0 Hr0. congruence.
  - pose proof (update_test_case_spec read i expected title description preconditions priority status
      steps s W) as Hs.
    destruct (_test_cases s !! i) as [r|] eqn:Er; [| rewrite Hs; by apply quality_refl].
    destruct (negb _); [rewrite Hs; by apply quality_refl |].
    destruct (TestCaseRecord.update _ _ _ _ _ _ _ _) as [r'|e] eqn:Eu;
      [| rewrite Hs; by apply quality_refl].
    destruct Hs as (l & Hl & ->). apply test_case_update_next in Eu as (Hn & _).
    destruct (versioned_update _ _ _ _ _ _ (qw_test_cases _ W) Er Hl Hn) as [V G].
    apply put_test_case_good; try done. intros r0 Hr0. rewrite Er in Hr0. injection Hr0 as [= <-]. apply Hn.
  - unfold link_requirement_test_case, get_requirement, get_test_case, set_link. st_call;
      simplify_eq; try (by apply quality_refl).
    bool_prop. split; split; simpl; try apply W; try done.
    + intros k l Hl. dict_case; [| by apply (qw_links _ W)].
      split_and!; [done | done |]. simpl. eauto.
    + intros k l Hl. by dict_case.
Qed.

#[export,refine] Instance quality_store : Store t quality_op := {|
  st_init := init; st_op := quality_step; st_fresh := quality_fresh; st_wf := quality_wf;
  st_evolves := quality_evolves; st_op_good := quality_step_good; st_init_wf := _ |}.
Proof. by split; [apply versioned_empty | apply versioned_empty |]. Defined.

Lemma list_requirement_revisions_Ok i s l :
  quality_wf s -> list_requirement_revisions i s = (Ok l, s) <-> _requirement_revisions s !! i = Some l.
Proof.
  intros W. unfold list_requirement_revisions, get_requirement, bind, get, lift, subscript.
  destruct (_requirements s !! i) as [r|] eqn:Er.
  - destruct (_requirement_revisions s !! i); naive_solver.
  - split; [done |]. intros Hl. apply (vs_known _ _ (qw_requirements _ W)) in Hl as [? ?]. congruence.
Qed.

Lemma list_test_case_revisions_Ok i s l :
  quality_wf s -> list_test_case_revisions i s = (Ok l, s) <-> _test_case_revisions s !! i = Some l.
Proof.
  intros W. unfold list_test_case_revisions, get_test_case, bind, get, lift, subscript.
  destruct (_test_cases s !! i) as [r|] eqn:Er.
  - destruct (_test_case_revisions s !! i); naive_solver.
  - split; [done |]. intros Hl. apply (vs_known _ _ (qw_test_cases _ W)) in Hl as [? ?]. congruence.
Qed.

(** The history of an asset is complete and append-only: after any calls, the
    revisions of a requirement (or test case) that were listed before are still listed
    first, unchanged; revision [n] has number [n] and version [n-1], every revision
    keeps the id, project and creation time and follows the status table from the one
    before; and every trace link joins an existing requirement and test case of one
    project, forever. *)
Theorem quality_histories s ops :
  st_reachable s -> st_all_fresh ops s ->
  let s' := st_ops ops s in
  (forall i l, list_requirement_revisions i s = (Ok l, s) ->
     exists more, list_requirement_revisions i s' = (Ok (l ++ more), s') /\ history i (l ++ more))
  /\ (forall i l, list_test_case_revisions i s = (Ok l, s) ->
     exists more, list_test_case_revisions i s' = (Ok (l ++ more), s') /\ history i (l ++ more))
  /\ (forall k x, _links s !! k = Some x -> _links s' !! k = Some x /\ link_ok s' k x).
Proof.
  intros Hs Hf s'. apply st_reachable_wf in Hs. destruct (st_ops_good ops s Hs Hf) as [W' E].
  fold s' in W', E. split_and!.
  - intros i l Hl. apply list_requirement_revisions_Ok in Hl; [| done].
    destruct (qe_requirements _ _ E _ _ Hl) as (more & Hm). exists more.
    split; [by apply list_requirement_revisions_Ok |]. by apply (vs_history _ _ (qw_requirements _ W')).
  - intros i l Hl. apply list_test_case_revisions_Ok in Hl; [| done].
    destruct (qe_test_cases _ _ E _ _ Hl) as (more & Hm). exists more.
    split; [by apply list_test_case_revisions_Ok |]. by apply (vs_history _ _ (qw_test_cases _ W')).
  - intros k x Hx. apply (qe_links _ _ E) in Hx. split; [done |]. by apply (qw_links _ W').
Qed.

(** No lost updates: when an update of a requirement with an expected version has
    succeeded, every later update that expects the same version is refused with
    [AssetVersionConflict] and changes nothing, whatever was called in between; the
    successful one stored exactly the fields it was given, in a status its table
    allows. *)
Theorem requirement_no_lost_update rd i ti d st v s r s1 ops rd' ti' d' st' :
  st_reachable s -> update_requirement rd i ti d st v s = (Ok r, s1) -> st_all_fresh ops s1 ->
  let s2 := st_ops ops s1 in
  update_requirement rd' i ti' d' st' v s2 = (Err AssetVersionConflict, s2)
  /\ _requirements s1 !! i = Some r
  /\ RequirementRecord.title r = ti /\ RequirementRecord.description r = d
  /\ RequirementRecord.status r = st /\ RequirementRecord.state_version r = (v + 1)%Z
  /\ exists r0, _requirements s !! i = Some r0 /\ RequirementRecord.state_version r0 = v
       /\ allowed REQUIREMENT_TRANSITIONS (RequirementRecord.status r0) st.
Proof.
  intros Hs Hu Hf s2. apply st_reachable_wf in Hs.
  pose proof (update_requirement_spec rd i ti d st v s Hs) as Hspec.
  destruct (_requirements s !! i) as [r0|] eqn:Er; [| congruence].
  destruct (RequirementRecord.state_version r0 =? v)%Z eqn:Ev; simpl in Hspec; [| congruence].
  destruct (RequirementRecord.update rd r0 ti d st) as [r'|e] eqn:Eu; [| congruence].
  destruct Hspec as (l & Hl & Hres). rewrite Hu in Hres. injection Hres as [= -> ->].
  apply Z.eqb_eq in Ev. apply requirement_update_next in Eu as (Hn & Ht & Hd & Hst).
  destruct Hn as (? & ? & ? & ? & Hver & Ha).
  pose proof (quality_step_good (OpUpdateRequirement rd i ti d st v) s Hs I) as [W1 _].
  simpl in W1. rewrite Hu in W1. simpl in W1.
  assert (_requirements (set_requirement i r' ((l ++ [r0]) ++ [r']) s).2 !! i = Some r') as Hr1
    by (simpl; apply dict_lookup_insert_eq).
  destruct (@st_ops_good _ _ quality_store ops _ W1 Hf) as [W2 E2].
  destruct (grows_version _ _ _ _ _ _ (qw_requirements _ W1) (qw_requirements _ W2)
    (qe_requirements _ _ E2) Hr1) as (r2 & Hr2 & Hle & _).
  split_and!; try done; try congruence.
  - pose proof (update_requirement_spec rd' i ti' d' st' v s2 W2) as Hspec2. unfold s2 in *.
    rewrite Hr2 in Hspec2. destruct (RequirementRecord.state_version r2 =? v)%Z eqn:Ev2; [| exact Hspec2].
    apply Z.eqb_eq in Ev2. simpl in Hle. lia.
  - exists r0. split_and!; [done | done | congruence].
Qed.
