(* ===== verification/Automation.v ===== *)
(** * Automation scripts
    ([src/services/api/automation_domain.py], [src/services/api/automation_repository.py])

    The script record with its status table, the interface [TestCaseReader] the
    repository asks of the component that stores test cases, and the in-memory
    [AutomationRepository]. *)
From S2P Require Import Prelude PyDict PyText Protocol Versioned Quality.
Open Scope list_scope.

(** ** Records *)

Module AutomationScriptStatus.
Inductive t := DRAFT | ACTIVE | ARCHIVED.
#[global] Instance eq_dec : EqDecision t.
Proof. solve_decision. Defined.
End AutomationScriptStatus.

Definition SCRIPT_TRANSITIONS (s : AutomationScriptStatus.t) : list AutomationScriptStatus.t :=
  match s with
  | AutomationScriptStatus.DRAFT => [AutomationScriptStatus.ACTIVE]
  | AutomationScriptStatus.ACTIVE => [AutomationScriptStatus.ARCHIVED]
  | AutomationScriptStatus.ARCHIVED => [AutomationScriptStatus.ACTIVE]
  end.

Definition _next_script_status (current target : AutomationScriptStatus.t)
    : res AutomationScriptStatus.t :=
  if bool_decide (current = target) then
    if bool_decide (current = AutomationScriptStatus.ARCHIVED) then Err InvalidAssetTransition
    else Ok current
  else if negb (bool_decide (target ∈ SCRIPT_TRANSITIONS current)) then Err InvalidAssetTransition
  else Ok target.

(** The keyword arguments of [AutomationScriptRecord.update]. *)
Module ScriptChanges.
Record t := mk {
  name : string; description : string; entrypoint : string; source_ref : string;
  content_digest : string; timeout_seconds : Z; status : AutomationScriptStatus.t }.
End ScriptChanges.

Module AutomationScriptRecord.
Record t := mk {
  id : uuid; project_id : uuid; name : string; description : string; engine : Engine.t;
  entrypoint : string; source_ref : string; content_digest : string; timeout_seconds : Z;
  status : AutomationScriptStatus.t; revision : Z; state_version : Z;
  created_at : datetime; updated_at : datetime }.
Definition update (read : datetime) (r : t) (c : ScriptChanges.t) : res t :=
  let? next := _next_script_status (status r) (ScriptChanges.status c) in
  Ok (mk (id r) (project_id r) (ScriptChanges.name c) (ScriptChanges.description c) (engine r)
         (ScriptChanges.entrypoint c) (ScriptChanges.source_ref c) (ScriptChanges.content_digest c)
         (ScriptChanges.timeout_seconds c) next (revision r + 1)%Z (state_version r + 1)%Z
         (created_at r) read).
End AutomationScriptRecord.

Module TestCaseScriptLinkRecord.
Record t := mk { test_case_id : uuid; script_id : uuid; created_at : datetime }.
End TestCaseScriptLinkRecord.

(** What a script may become: archived scripts only come back to life. *)
Definition script_allowed (s s' : AutomationScriptStatus.t) : Prop :=
  (s' = s /\ s <> AutomationScriptStatus.ARCHIVED) \/ s' ∈ SCRIPT_TRANSITIONS s.

Lemma next_script_status_Ok s s' u :
  _next_script_status s s' = Ok u <-> u = s' /\ script_allowed s s'.
Proof.
  unfold _next_script_status, script_allowed.
  case_bool_decide as Hs; [subst; case_bool_decide as Ha | case_bool_decide as Ht]; simpl; split;
    try done; try (intros [= <-]; naive_solver).
  - subst. intros (_ & [[_ ?]|Hin]); [done |]. by apply list_elem_of_singleton in Hin.
  - intros (-> & _). done.
  - by intros (-> & _).
  - naive_solver.
Qed.

Definition script_next (r r' : AutomationScriptRecord.t) : Prop :=
  AutomationScriptRecord.id r' = AutomationScriptRecord.id r
  /\ AutomationScriptRecord.project_id r' = AutomationScriptRecord.project_id r
  /\ AutomationScriptRecord.engine r' = AutomationScriptRecord.engine r
  /\ AutomationScriptRecord.created_at r' = AutomationScriptRecord.created_at r
  /\ AutomationScriptRecord.revision r' = (AutomationScriptRecord.revision r + 1)%Z
  /\ AutomationScriptRecord.state_version r' = (AutomationScriptRecord.state_version r + 1)%Z
  /\ script_allowed (AutomationScriptRecord.status r) (AutomationScriptRecord.status r').

#[export,refine] Instance script_revisioned : Revisioned AutomationScriptRecord.t := {|
  rv_id := AutomationScriptRecord.id; rv_revision := AutomationScriptRecord.revision;
  rv_version := AutomationScriptRecord.state_version; rv_next := script_next; rv_next_spec := _ |}.
Proof. unfold script_next. naive_solver. Defined.

Lemma script_update_next read r c r' :
  AutomationScriptRecord.update read r c = Ok r' ->
  script_next r r' /\ AutomationScriptRecord.status r' = ScriptChanges.status c
  /\ AutomationScriptRecord.content_digest r' = ScriptChanges.content_digest c
  /\ AutomationScriptRecord.source_ref r' = ScriptChanges.source_ref c.
Proof.
  unfold AutomationScriptRecord.update, script_next.
  intros (s & [-> Ha]%next_script_status_Ok & [= <-])%rbind_Ok. by split_and!.
Qed.

(** ** The interface of the test case store

    [tr_get_test_case i tc] is [get_test_case] of a reader in state [tc].  While the
    reader evolves, a test case that was read stays readable and moves on through its
    revisions. *)
Class TestCaseReader (TC Op : Type) := {
  tr_store :: Store TC Op;
  tr_get_test_case : uuid -> TC -> res TestCaseRecord.t;
  tr_get_id : forall i tc c, st_wf tc -> tr_get_test_case i tc = Ok c -> TestCaseRecord.id c = i;
  tr_get_stable : forall i tc tc' c, st_wf tc -> st_wf tc' -> st_evolves tc tc' ->
    tr_get_test_case i tc = Ok c ->
    exists c', tr_get_test_case i tc' = Ok c' /\ rtc test_case_next c c' }.

(** ** The repository

    The reader is held by reference: its state [tc] at the time of the call is an
    argument of the methods that consult it. *)
Module AutomationRepository.
Record t := mk {
  _scripts : pydict uuid AutomationScriptRecord.t;
  _revisions : pydict uuid (list AutomationScriptRecord.t);
  _links : pydict (uuid * uuid) TestCaseScriptLinkRecord.t }.

Definition init : t := mk ∅ ∅ ∅.

Definition set_script (i : uuid) (r : AutomationScriptRecord.t) (l : list AutomationScriptRecord.t)
    : M t unit := fun s =>
  (Ok tt, mk (<[i:=r]> (_scripts s)) (<[i:=l]> (_revisions s)) (_links s)).
Definition set_link (k : uuid * uuid) (l : TestCaseScriptLinkRecord.t) : M t unit := fun s =>
  (Ok tt, mk (_scripts s) (_revisions s) (<[k:=l]> (_links s))).

Definition create_script (now : datetime) (fresh project_id : uuid) (name description : string)
    (engine : Engine.t) (entrypoint source_ref content_digest : string) (timeout_seconds : Z)
    : M t AutomationScriptRecord.t :=
  let record := AutomationScriptRecord.mk fresh project_id name description engine entrypoint
                  source_ref content_digest timeout_seconds AutomationScriptStatus.DRAFT 1 0 now now in
  set_script fresh record [record] ;;;
  ret record.

Definition get_script (script_id : uuid) : M t AutomationScriptRecord.t := fun s =>
  (match _scripts s !! script_id with Some r => Ok r | None => Err ScriptNotFound end, s).

Definition list_scripts (project_id : uuid) : M t (list AutomationScriptRecord.t) :=
  let* s := get in
  ret (py_sorted (by_key AutomationScriptRecord.created_at)
         (List.filter (fun r => bool_decide (AutomationScriptRecord.project_id r = project_id))
            (values (_scripts s)))).

Definition update_script (read : datetime) (script_id : uuid) (expected_version : Z)
    (changes : ScriptChanges.t) : M t AutomationScriptRecord.t :=
  let* current := get_script script_id in
  if negb (AutomationScriptRecord.state_version current =? expected_version)%Z
  then raise AssetVersionConflict
  else
    let* updated := lift (AutomationScriptRecord.update read current changes) in
    let* s := get in
    let* revisions := lift (subscript script_id (_revisions s)) in
    set_script script_id updated (revisions ++ [updated]) ;;;
    ret updated.

Definition list_revisions (script_id : uuid) : M t (list AutomationScriptRecord.t) :=
  get_script script_id ;;;
  let* s := get in lift (subscript script_id (_revisions s)).

Definition get_revision (script_id : uuid) (revision : Z) : M t AutomationScriptRecord.t :=
  get_script script_id ;;;
  let* s := get in
  let* revisions := lift (subscript script_id (_revisions s)) in
  if ((revision <? 1) || (Z.of_nat (length revisions) <? revision))%Z then raise ScriptNotFound
  else match revisions !! Z.to_nat (revision - 1) with
       | Some r => ret r
       | None => raise IndexError
       end.

Definition _validate_project (test_case : TestCaseRecord.t) (script : AutomationScriptRecord.t)
    : res unit :=
  if negb (bool_decide (TestCaseRecord.project_id test_case = AutomationScriptRecord.project_id script))
  then Err ScriptLinkConflict else Ok tt.

Definition _validate_linkable (test_case : TestCaseRecord.t) (script : AutomationScriptRecord.t)
    : res unit :=
  if bool_decide (TestCaseRecord.status test_case = TestCaseStatus.ARCHIVED)
  then Err ScriptLinkConflict
  else if bool_decide (AutomationScriptRecord.status script = AutomationScriptStatus.ARCHIVED)
  then Err ScriptLinkConflict else Ok tt.

Definition link_test_case {TC Op} `{TestCaseReader TC Op} (tc : TC) (read : datetime)
    (test_case_id script_id : uuid) : M t (TestCaseScriptLinkRecord.t * bool) :=
  let* test_case := lift (tr_get_test_case test_case_id tc) in
  let* script := get_script script_id in
  lift (_validate_project test_case script) ;;;
  let* s := get in
  match _links s !! (test_case_id, script_id) with
  | Some link => ret (link, true)
  | None =>
      lift (_validate_linkable test_case script) ;;;
      let link := TestCaseScriptLinkRecord.mk test_case_id script_id read in
      set_link (test_case_id, script_id) link ;;;
      ret (link, false)
  end.

Definition list_test_case_scripts {TC Op} `{TestCaseReader TC Op} (tc : TC) (test_case_id : uuid)
    : M t (list AutomationScriptRecord.t) :=
  lift (tr_get_test_case test_case_id tc) ;;;
  let* s := get in
  let ids := map snd (List.filter (fun k => bool_decide (k.1 = test_case_id)) (keys (_links s))) in
  let* scripts := lift (rmap (fun i => subscript i (_scripts s)) ids) in
  ret (py_sorted (by_key AutomationScriptRecord.created_at) scripts).
End AutomationRepository.

(** * Theorems about automation scripts

    The repository is proved against the interface [TestCaseReader]: its state is
    considered together with the state of the reader, and calls of both interleave
    freely.  [quality_reader] shows that [QualityRepository] keeps the promise. *)
Import AutomationRepository.
Open Scope list_scope.

(** ** [QualityRepository] as a reader of test cases *)
#[export,refine] Instance quality_reader : TestCaseReader QualityRepository.t quality_op := {|
  tr_store := quality_store;
  tr_get_test_case i s := (QualityRepository.get_test_case i s).1 |}.
Proof.
  - intros i tc c W. unfold QualityRepository.get_test_case. simpl.
    destruct (QualityRepository._test_cases tc !! i) as [r|] eqn:E; [| done]. intros [= <-].
    destruct (vs_current _ _ (qw_test_cases _ W) _ _ E) as (l & Hl).
    by destruct (versioned_version _ _ _ _ _ (qw_test_cases _ W) E Hl) as (? & _).
  - intros i tc tc' c W W' E. unfold QualityRepository.get_test_case. simpl.
    destruct (QualityRepository._test_cases tc !! i) as [r|] eqn:Er; [| done]. intros [= <-].
    destruct (grows_rtc _ _ _ _ _ _ (qw_test_cases _ W) (qw_test_cases _ W') (qe_test_cases _ _ E) Er)
      as (r' & Hr' & Hrtc).
    exists r'. by rewrite Hr'.
Defined.

Section automation.
  Context {TC Op : Type} `{!TestCaseReader TC Op}.

(** ** The reader and the repository together *)
Inductive automation_op : Type :=
  | OpReader (o : Op)
  | OpCreateScript (now : datetime) (fresh project_id : uuid) (name description : string)
      (engine : Engine.t) (entrypoint source_ref content_digest : string) (timeout_seconds : Z)
  | OpUpdateScript (read : datetime) (i : uuid) (expected : Z) (changes : ScriptChanges.t)
  | OpLinkTestCase (read : datetime) (test_case_id script_id : uuid).

Definition automation_step (o : automation_op) (s : TC * t) : TC * t :=
  match o with
  | OpReader o => (st_op o s.1, s.2)
  | OpCreateScript now f p n d e ep sr cd ti => (s.1, (create_script now f p n d e ep sr cd ti s.2).2)
  | OpUpdateScript rd i v c => (s.1, (update_script rd i v c s.2).2)
  | OpLinkTestCase rd c i => (s.1, (link_test_case s.1 rd c i s.2).2)
  end.

Definition automation_fresh (o : automation_op) (s : TC * t) : Prop :=
  match o with
  | OpReader o => st_fresh o s.1
  | OpCreateScript _ f _ _ _ _ _ _ _ _ => _scripts s.2 !! f = None
  | _ => True
  end.

(** A link joins a readable test case and a stored script of the same project. *)
Definition script_link_ok (tc : TC) (s : t) (k : uuid * uuid) (l : TestCaseScriptLinkRecord.t) : Prop :=
  TestCaseScriptLinkRecord.test_case_id l = k.1 /\ TestCaseScriptLinkRecord.script_id l = k.2
  /\ exists c r, tr_get_test_case k.1 tc = Ok c /\ _scripts s !! k.2 = Some r
                 /\ TestCaseRecord.project_id c = AutomationScriptRecord.project_id r.

Record automation_wf (s : TC * t) : Prop := {
  aw_reader : st_wf s.1;
  aw_scripts : versioned (_scripts s.2) (_revisions s.2);
  aw_links : forall k l, _links s.2 !! k = Some l -> script_link_ok s.1 s.2 k l }.

Record automation_evolves (s s' : TC * t) : Prop := {
  ae_reader : st_evolves s.1 s'.1;
  ae_scripts : grows (_revisions s.2) (_revisions s'.2);
  ae_links : forall k l, _links s.2 !! k = Some l -> _links s'.2 !! k = Some l }.

#[export] Instance automation_evolves_preorder : PreOrder automation_evolves.
Proof.
  split.
  - intros s. by split.
  - intros a b c [] []. split; [by etrans | by etrans | auto].
Qed.

Lemma test_case_next_project c c' :
  rtc test_case_next c c' -> TestCaseRecord.project_id c' = TestCaseRecord.project_id c.
Proof. apply rtc_preserves. intros a b Hab. apply Hab. Qed.

Lemma script_next_project r r' :
  rtc script_next r r' -> AutomationScriptRecord.project_id r' = AutomationScriptRecord.project_id r.
Proof. apply rtc_preserves. intros a b Hab. apply Hab. Qed.

(** Links survive whatever the reader and the scripts become. *)
Lemma script_link_ok_mono tc tc' s s' k l :
  st_wf tc -> st_wf tc' -> st_evolves tc tc' ->
  versioned (_scripts s) (_revisions s) -> versioned (_scripts s') (_revisions s') ->
  grows (_revisions s) (_revisions s') ->
  script_link_ok tc s k l -> script_link_ok tc' s' k l.
Proof.
  intros W W' E V V' G (? & ? & c & r & Hc & Hr & Hp). split; [done |]. split; [done |].
  destruct (tr_get_stable _ _ _ _ W W' E Hc) as (c' & Hc' & Hcc).
  destruct (grows_rtc _ _ _ _ _ _ V V' G Hr) as (r' & Hr' & Hrr).
  exists c', r'. split_and!; [done | done |].
  by rewrite (test_case_next_project _ _ Hcc), (script_next_project _ _ Hrr).
Qed.

Lemma put_script_good tc s i r l :
  automation_wf (tc, s) -> versioned (<[i:=r]> (_scripts s)) (<[i:=l]> (_revisions s)) ->
  grows (_revisions s) (<[i:=l]> (_revisions s)) ->
  automation_wf (tc, (set_script i r l s).2) /\ automation_evolves (tc, s) (tc, (set_script i r l s).2).
Proof.
  intros [Wr Ws Wl] V G. simpl in *. split; [| split; simpl; done].
  split; simpl; [done | done |]. intros k x Hx. eapply script_link_ok_mono; eauto. done.
Qed.

(** What [update_script] does, on every branch. *)
Lemma update_script_spec rd i v c s :
  versioned (_scripts s) (_revisions s) ->
  match _scripts s !! i with
  | None => update_script rd i v c s = (Err ScriptNotFound, s)
  | Some r =>
      if negb (AutomationScriptRecord.state_version r =? v)%Z then
        update_script rd i v c s = (Err AssetVersionConflict, s)
      else match AutomationScriptRecord.update rd r c with
           | Err e => update_script rd i v c s = (Err e, s)
           | Ok r' => exists l, _revisions s !! i = Some (l ++ [r])
               /\ update_script rd i v c s = (Ok r', (set_script i r' ((l ++ [r]) ++ [r']) s).2)
           end
  end.
Proof.
  intros V. unfold update_script, get_script, bind, lift, get, ret, raise.
  destruct (_scripts s !! i) as [r|] eqn:Er; [| done].
  destruct (negb _); simpl; [done |].
  destruct (AutomationScriptRecord.update rd r c) as [r'|e]; [| done].
  destruct (versioned_subscript _ _ _ _ V Er) as (l & Hl). rewrite Hl.
  exists l. unfold subscript in Hl. destruct (_revisions s !! i) as [l'|]; [| done].
  injection Hl as [= ->]. by split.
Qed.

Lemma automation_refl s : automation_wf s -> automation_wf s /\ automation_evolves s s.
Proof. by split. Qed.

Lemma automation_step_good o s :
  automation_wf s -> automation_fresh o s ->
  automation_wf (automation_step o s) /\ automation_evolves s (automation_step o s).
Proof.
  destruct s as [tc s]. intros W Hf. destruct o; simpl in *.
  - destruct (st_op_good o tc (aw_reader _ W) Hf) as [Wr Er]. destruct W as [W V Wl]. simpl in *.
    split; split; simpl; try done; try reflexivity.
    intros k l Hl. by apply (script_link_ok_mono tc (st_op o tc) s s); auto.
  - destruct (versioned_create _ _ fresh (AutomationScriptRecord.mk fresh project_id name description
      engine entrypoint source_ref content_digest timeout_seconds AutomationScriptStatus.DRAFT 1 0 now now)
      (aw_scripts _ W) Hf) as [V G]; [done.. |].
    by apply put_script_good.
  - pose proof (update_script_spec read i expected changes s (aw_scripts _ W)) as Hs.
    destruct (_scripts s !! i) as [r|] eqn:Er; [| rewrite Hs; by apply automation_refl].
    destruct (negb _); [rewrite Hs; by apply automation_refl |].
    destruct (AutomationScriptRecord.update read r changes) as [r'|e] eqn:Eu;
      [| rewrite Hs; by apply automation_refl].
    destruct Hs as (l & Hl & ->). apply script_update_next in Eu as (Hn & _).
    destruct (versioned_update _ _ _ _ _ _ (aw_scripts _ W) Er Hl Hn) as [V G].
    by apply put_script_good.
  - unfold link_test_case, get_script, _validate_project, set_link. st_call;
      simplify_eq; try (by apply automation_refl).
    bool_prop. split; split; simpl; try apply W; try done.
    + intros k l Hl. dict_case; [| by apply (aw_links _ W)].
      split_and!; [done | done |]. simpl. eauto.
    + intros k l Hl. by dict_case.
Qed.

#[export,refine] Instance automation_store : Store (TC * t) automation_op := {|
  st_init := (st_init, init); st_op := automation_step; st_fresh := automation_fresh;
  st_wf := automation_wf; st_evolves := automation_evolves; st_op_good := automation_step_good;
  st_init_wf := _ |}.
Proof. split; [apply st_init_wf | apply versioned_empty | done]. Defined.

(** [get_revision] in closed form. *)
Lemma get_revision_Ok i n s r :
  versioned (_scripts s) (_revisions s) ->
  get_revision i n s = (Ok r, s) <->
  exists l, _revisions s !! i = Some l /\ (1 <= n)%Z /\ l !! Z.to_nat (n - 1) = Some r.
Proof.
  intros V. unfold get_revision, get_script, bind, get, lift, subscript.
  destruct (_scripts s !! i) as [r0|] eqn:Er; cbn [fst snd].
  - destruct (vs_current _ _ V _ _ Er) as (l & Hl). rewrite Hl. cbn [fst snd].
    rewrite numbered_Ok. naive_solver.
  - split; [done |]. intros (l & Hl & _). apply (vs_known _ _ V) in Hl as [? ?]. congruence.
Qed.

(** A script revision, once readable, is pinned: [get_revision(i, n)] returns the same
    record after any further calls of the repository and of the test case store, with
    id [i], number [n] and version [n - 1]; the readable numbers are exactly those from 1
    to the current revision; and two readable revisions are joined by updates that keep
    project, engine and creation time and follow the status table. *)
Theorem script_revision_pinned s ops i n r :
  st_reachable s -> st_all_fresh ops s -> get_revision i n s.2 = (Ok r, s.2) ->
  let s' := st_ops ops s in
  get_revision i n s'.2 = (Ok r, s'.2)
  /\ AutomationScriptRecord.id r = i /\ AutomationScriptRecord.revision r = n
  /\ AutomationScriptRecord.state_version r = (n - 1)%Z
  /\ exists current, get_script i s'.2 = (Ok current, s'.2) /\ rtc script_next r current
       /\ forall m, (exists x, get_revision i m s'.2 = (Ok x, s'.2)) <->
                    (1 <= m <= AutomationScriptRecord.revision current)%Z.
Proof.
  intros Hs Hf Hr s'. apply st_reachable_wf in Hs. destruct (st_ops_good ops s Hs Hf) as [W' E].
  fold s' in W', E. pose proof (aw_scripts _ Hs) as V. pose proof (aw_scripts _ W') as V'.
  apply get_revision_Ok in Hr as (l & Hl & Hn & Hlr); [| done].
  destruct (ae_scripts _ _ E _ _ Hl) as (more & Hm).
  pose proof (lookup_app_l_Some _ more _ _ Hlr) as Hlr'.
  pose proof (vs_history _ _ V' _ _ Hm) as Hh.
  destruct (vs_known _ _ V' _ _ Hm) as [cur Hcur].
  destruct (vs_current _ _ V' _ _ Hcur) as (l' & Hl'). rewrite Hm in Hl'. injection Hl' as Hl'.
  destruct (versioned_version _ _ _ _ _ V' Hcur Hm) as (_ & Hrev & _). rewrite Hl' in *.
  split_and!.
  - apply get_revision_Ok; eauto.
  - by apply (hs_id _ _ Hh _ _ Hlr').
  - pose proof (hs_revision _ _ Hh _ _ Hlr') as H1. simpl in H1. lia.
  - pose proof (hs_version _ _ Hh _ _ Hlr') as H1. simpl in H1. lia.
  - exists cur. split_and!.
    + unfold get_script. by rewrite Hcur.
    + apply lookup_lt_Some in Hlr' as Hlt. rewrite length_app in Hlt. simpl in Hlt.
      apply (history_rtc i _ (Z.to_nat (n - 1)) (length l' - Z.to_nat (n - 1)) _ _ Hh Hlr').
      replace (Z.to_nat (n - 1) + _)%nat with (length l') by lia. by apply list_lookup_middle.
    + intros m. simpl in Hrev. rewrite Hrev. split.
      * intros (x & Hx). apply get_revision_Ok in Hx as (l1 & Hl1 & Hm1 & Hx); [| done].
        rewrite Hm in Hl1. injection Hl1 as [= <-]. apply lookup_lt_Some in Hx. lia.
      * intros Hm1. destruct (lookup_lt_is_Some_2 (l' ++ [cur]) (Z.to_nat (m - 1))) as [x Hx]; [lia |].
        exists x. apply get_revision_Ok; [done |]. eexists. split_and!; [done | lia | done].
Qed.

(** Links never dangle: whatever was called before, [list_test_case_scripts] of a
    readable test case returns exactly the scripts linked to it, each stored and in the
    test case's project, by creation time; an unreadable test case gives the reader's
    error; no [KeyError] escapes, and archiving removes no link. *)
Theorem test_case_scripts_listed s i :
  st_reachable s ->
  match tr_get_test_case i s.1 with
  | Err e => list_test_case_scripts s.1 i s.2 = (Err e, s.2)
  | Ok c => exists l, list_test_case_scripts s.1 i s.2 = (Ok l, s.2)
      /\ Sorted (fun a b => by_key AutomationScriptRecord.created_at a b = true) l
      /\ NoDup (map AutomationScriptRecord.id l)
      /\ forall r, r ∈ l <-> exists j x, _links s.2 !! (i, j) = Some x /\ _scripts s.2 !! j = Some r
                                   /\ AutomationScriptRecord.project_id r = TestCaseRecord.project_id c
  end.
Proof.
  intros Hs. apply st_reachable_wf in Hs. destruct Hs as [Wr V Wl].
  unfold list_test_case_scripts, bind, lift, get, ret.
  destruct (tr_get_test_case i s.1) as [c|e] eqn:Ec; [| done].
  set (ids := map snd _).
  assert (forall j, j ∈ ids <-> is_Some (_links s.2 !! (i, j))) as Hids.
  { intros j. unfold ids. rewrite list_elem_of_In, in_map_iff. setoid_rewrite filter_In.
    split.
    - intros ([i' j'] & <- & Hin & Hb). apply bool_decide_eq_true in Hb. simpl in *. subst.
      apply elem_of_keys. by apply list_elem_of_In.
    - intros Hin. exists (i, j). split_and!; [done | by apply list_elem_of_In, elem_of_keys |].
      by apply bool_decide_eq_true. }
  destruct (rmap_subscript (_scripts s.2) ids) as (l & Hl & HF).
  { intros j [x Hx]%Hids. destruct (Wl _ _ Hx) as (_ & _ & ? & ? & _ & ? & _). eauto. }
  rewrite Hl. eexists. split_and!; [done | apply py_sorted_Sorted, by_key_total | |].
  - rewrite (py_sorted_perm _ l).
    assert (map AutomationScriptRecord.id l = ids) as ->.
    { clear -HF V. induction HF as [|j r ids l Hj HF IH]; simpl; [done |]. f_equal; [| done].
      destruct (vs_current _ _ V _ _ Hj) as (h & Hh).
      by destruct (versioned_version _ _ _ _ _ V Hj Hh) as (? & _). }
    unfold ids. generalize (keys_nodup (_links s.2)). clear.
    induction (keys (_links s.2)) as [|[a b] ks IH]; simpl; [constructor |].
    intros [Hn Hnd]%NoDup_cons. case_bool_decide as Ha; simpl; [| auto]. constructor; [| auto].
    intros Hb. apply list_elem_of_In, in_map_iff in Hb as ([a' b'] & Hb & [Hin Ha']%filter_In).
    apply bool_decide_eq_true in Ha'. simpl in *. subst. apply Hn. by apply list_elem_of_In.
  - intros r. rewrite elem_of_py_sorted. split.
    + intros Hr. apply list_elem_of_lookup in Hr as [k Hk].
      destruct (Forall2_lookup_r _ _ _ _ _ HF Hk) as (j & Hj & Hjr).
      assert (j ∈ ids) as [x Hx]%Hids by (by eapply list_elem_of_lookup_2). exists j, x.
      split_and!; [done | done |].
      destruct (Wl _ _ Hx) as (_ & _ & c' & r' & Hc' & Hr' & Hp). simpl in *. congruence.
    + intros (j & x & Hx & Hr & _). assert (j ∈ ids) as Hj by (apply Hids; eauto).
      apply list_elem_of_lookup in Hj as [k Hk].
      destruct (Forall2_lookup_l _ _ _ _ _ HF Hk) as (r' & Hr' & Hjr).
      assert (r' = r) as -> by congruence. by eapply list_elem_of_lookup_2.
Qed.
End automation.
Arguments automation_op : clear implicits.

(** * Concrete requirements, test cases and scripts

    Instances of the theorems of Quality and of this file at stores
    that a few calls build. *)
Open Scope list_scope.

(** Requirement 1 and test case 2 of project 5, linked. *)
Definition demo_quality_ops : list quality_op :=
  [OpCreateRequirement 100 1%N 5%N "Login" "users log in";
   OpCreateTestCase 110 2%N 5%N "Valid login" "" "" TestCasePriority.HIGH
     [CaseStepRecord.mk 1 "submit" "logged in"] TestCaseSource.MANUAL;
   OpLink 120 1%N 2%N].
Definition demo_quality : QualityRepository.t := st_ops demo_quality_ops QualityRepository.init.
Definition demo_quality_more : list quality_op :=
  [OpUpdateRequirement 130 1%N "Login" "all users" RequirementStatus.ACTIVE 0;
   OpUpdateTestCase 140 2%N 0 "Valid login" "" "" TestCasePriority.LOW TestCaseStatus.READY []].

Lemma demo_quality_reachable : st_reachable demo_quality.
Proof. apply (st_ops_reachable demo_quality_ops); [constructor | by vm_compute]. Qed.

Lemma quality_histories_witness :
  exists more, QualityRepository.list_requirement_revisions 1%N (st_ops demo_quality_more demo_quality)
    = (Ok ([RequirementRecord.mk 1%N 5%N "Login" "users log in" RequirementStatus.DRAFT 1 0 100 100] ++ more),
       st_ops demo_quality_more demo_quality).
Proof.
  assert (st_all_fresh demo_quality_more demo_quality) as Hf by by vm_compute.
  destruct (quality_histories demo_quality demo_quality_more demo_quality_reachable Hf) as (H1 & _).
  destruct (H1 1%N [RequirementRecord.mk 1%N 5%N "Login" "users log in" RequirementStatus.DRAFT 1 0 100 100])
    as (more & Hm & _); [vm_compute; reflexivity |].
  exists more. exact Hm.
Defined.

Lemma requirement_no_lost_update_witness :
  exists r s1,
    QualityRepository.update_requirement 130 1%N "Login" "all users" RequirementStatus.ACTIVE 0 demo_quality
      = (Ok r, s1)
    /\ QualityRepository.update_requirement 150 1%N "Sign in" "" RequirementStatus.ACTIVE 0 s1
       = (Err AssetVersionConflict, s1).
Proof.
  destruct (QualityRepository.update_requirement 130 1%N "Login" "all users" RequirementStatus.ACTIVE 0
    demo_quality) as [[r|e] s1] eqn:E; [| exfalso; revert E; vm_compute; discriminate].
  exists r, s1. split; [reflexivity |].
  apply (requirement_no_lost_update 130 1%N "Login" "all users" RequirementStatus.ACTIVE 0 demo_quality
    r s1 [] 150 "Sign in" "" RequirementStatus.ACTIVE demo_quality_reachable E I).
Defined.

(** Script 3 linked to test case 2, on top of the quality repository. *)
Definition demo_script_ops : list (automation_op quality_op) :=
  map OpReader demo_quality_ops ++
  [OpCreateScript 200 3%N 5%N "login.py" "" Engine.PLAYWRIGHT "login.py" "src-1" "aa" 60;
   OpLinkTestCase 210 2%N 3%N].
Definition demo_scripts : QualityRepository.t * AutomationRepository.t :=
  st_ops demo_script_ops (QualityRepository.init, AutomationRepository.init).
Definition demo_script_changes : ScriptChanges.t :=
  ScriptChanges.mk "login.py" "" "main.py" "src-2" "bb" 90 AutomationScriptStatus.ACTIVE.
Definition demo_script_more : list (automation_op quality_op) :=
  [OpUpdateScript 220 3%N 0 demo_script_changes; OpReader (OpCreateRequirement 230 9%N 5%N "x" "")].

Lemma demo_scripts_reachable : st_reachable demo_scripts.
Proof. apply (st_ops_reachable demo_script_ops); [exact (st_reachable_init (H:=automation_store)) | by vm_compute]. Qed.

Lemma script_revision_pinned_witness :
  exists r, AutomationRepository.get_revision 3%N 1 (st_ops demo_script_more demo_scripts).2
    = (Ok r, (st_ops demo_script_more demo_scripts).2) /\ AutomationScriptRecord.source_ref r = "src-1"%string.
Proof.
  assert (st_all_fresh demo_script_more demo_scripts) as Hf by by vm_compute.
  destruct (AutomationRepository.get_revision 3%N 1 demo_scripts.2) as [[r|e] s1] eqn:E;
    [| exfalso; revert E; vm_compute; discriminate].
  assert (s1 = demo_scripts.2) as -> by (revert E; vm_compute; congruence).
  exists r. split.
  - apply (script_revision_pinned demo_scripts demo_script_more 3%N 1 r demo_scripts_reachable Hf E).
  - revert E. vm_compute. by intros [= <-].
Defined.

Lemma test_case_scripts_listed_witness :
  exists l, AutomationRepository.list_test_case_scripts demo_scripts.1 2%N demo_scripts.2
    = (Ok l, demo_scripts.2) /\ Sorted (fun a b => by_key AutomationScriptRecord.created_at a b = true) l.
Proof.
  pose proof (test_case_scripts_listed demo_scripts 2%N demo_scripts_reachable) as H.
  destruct (tr_get_test_case 2%N demo_scripts.1) as [c|e] eqn:E;
    [| exfalso; revert E; vm_compute; discriminate].
  destruct H as (l & Hl & Hs & _). exists l. split; assumption.
Defined.
