(* ===== verification/Projects.v ===== *)
(** * Projects
    ([src/services/api/project_domain.py], [src/services/api/project_repository.py])

    The project record, the in-memory [ProjectRepository] with its index of names, and
    the theorems that the index is exact and names are unique. *)
From S2P Require Import Prelude PyDict PyText Versioned.
Open Scope list_scope.

(** ** Records *)

Module ProjectStatus.
Inductive t := ACTIVE | ARCHIVED.
#[global] Instance eq_dec : EqDecision t.
Proof. solve_decision. Defined.
End ProjectStatus.

Definition PROJECT_TRANSITIONS (s : ProjectStatus.t) : option (list ProjectStatus.t) :=
  match s with
  | ProjectStatus.ACTIVE => Some [ProjectStatus.ARCHIVED]
  | ProjectStatus.ARCHIVED => None
  end.

Definition next_project_status (current target : ProjectStatus.t) : res ProjectStatus.t :=
  if bool_decide (current = target) then
    match PROJECT_TRANSITIONS current with
    | None => Err InvalidProjectTransition
    | Some _ => Ok current
    end
  else if bool_decide (target ∈ default [] (PROJECT_TRANSITIONS current)) then Ok target
  else Err InvalidProjectTransition.

Definition validate_project_name (name : string) : res string :=
  bounded_text 255 "project name must contain 1 to 255 characters" name.

Module ProjectRecord.
Record t := mk {
  id : uuid; name : string; description : string; status : ProjectStatus.t;
  state_version : Z; created_at : datetime; updated_at : datetime }.
Definition update (read : datetime) (r : t) (name description : string) (status' : ProjectStatus.t)
    : res t :=
  let? next_status := next_project_status (status r) status' in
  Ok (mk (id r) name description next_status (state_version r + 1)%Z (created_at r) read).
End ProjectRecord.

(** ** The repository *)

Module ProjectRepository.
Record t := mk {
  _projects : pydict uuid ProjectRecord.t;
  _names : pydict string uuid }.

Definition init : t := mk ∅ ∅.

Definition create_project (now : datetime) (fresh : uuid) (name description : string)
    : M t ProjectRecord.t :=
  let* normalized := lift (validate_project_name name) in
  let* s := get in
  if has_key normalized (_names s) then raise ProjectNameConflict
  else
    let record := ProjectRecord.mk fresh normalized description ProjectStatus.ACTIVE 0 now now in
    put (mk (<[fresh:=record]> (_projects s)) (<[normalized:=fresh]> (_names s))) ;;;
    ret record.

Definition get_project (project_id : uuid) : M t ProjectRecord.t := fun s =>
  (match _projects s !! project_id with Some r => Ok r | None => Err ProjectNotFound end, s).

Definition list_projects (status : option ProjectStatus.t) : M t (list ProjectRecord.t) :=
  let* s := get in
  let records := match status with
                 | Some st => List.filter (fun r => bool_decide (ProjectRecord.status r = st))
                                (values (_projects s))
                 | None => values (_projects s)
                 end in
  ret (py_sorted (by_key ProjectRecord.created_at) records).

Definition delete_project (project_id : uuid) : M t unit :=
  let* current := get_project project_id in
  let* s := get in
  put (mk (delete project_id (_projects s)) (delete (ProjectRecord.name current) (_names s))).

Definition update_project (read : datetime) (project_id : uuid) (name description : string)
    (status : ProjectStatus.t) (expected_version : Z) : M t ProjectRecord.t :=
  let* normalized := lift (validate_project_name name) in
  let* current := get_project project_id in
  if negb (ProjectRecord.state_version current =? expected_version)%Z
  then raise ProjectVersionConflict
  else
    let* s := get in
    if match _names s !! normalized with
       | Some owner => negb (bool_decide (owner = project_id))
       | None => false
       end then raise ProjectNameConflict
    else
      let* updated := lift (ProjectRecord.update read current normalized description status) in
      put (mk (<[project_id:=updated]> (_projects s))
              (if negb (bool_decide (normalized = ProjectRecord.name current))
               then <[normalized:=project_id]> (delete (ProjectRecord.name current) (_names s))
               else _names s)) ;;;
      ret updated.
End ProjectRepository.
Import ProjectRepository.

(** ** Theorems *)

Inductive project_op : Type :=
  | OpCreateProject (now : datetime) (fresh : uuid) (name description : string)
  | OpDeleteProject (i : uuid)
  | OpUpdateProject (read : datetime) (i : uuid) (name description : string)
      (status : ProjectStatus.t) (expected : Z).

Definition project_step (o : project_op) (s : t) : t :=
  match o with
  | OpCreateProject now f n d => (create_project now f n d s).2
  | OpDeleteProject i => (delete_project i s).2
  | OpUpdateProject rd i n d st v => (update_project rd i n d st v s).2
  end.

Definition project_fresh (o : project_op) (s : t) : Prop :=
  match o with OpCreateProject _ f _ _ => _projects s !! f = None | _ => True end.

(** The index of names is exact and the stored names are normal forms. *)
Record project_wf (s : t) : Prop := {
  pw_id : forall i r, _projects s !! i = Some r -> ProjectRecord.id r = i;
  pw_name : forall i r, _projects s !! i = Some r ->
    validate_project_name (ProjectRecord.name r) = Ok (ProjectRecord.name r);
  pw_index : indexed ProjectRecord.name (_projects s) (_names s) }.

Lemma validated_name_idemp name n :
  validate_project_name name = Ok n -> validate_project_name n = Ok n.
Proof.
  unfold validate_project_name. intros Hb. apply bounded_text_Ok in Hb as (-> & Hi & He & Hl).
  unfold bounded_text, empty_str. rewrite Hi, bool_decide_false by done. simpl.
  by replace (255 <? py_len (strip name))%Z with false by (symmetry; apply Z.ltb_ge; lia).
Qed.

Lemma create_project_good now f n d s :
  project_wf s -> _projects s !! f = None -> project_wf (create_project now f n d s).2.
Proof.
  intros W Hf. unfold create_project, has_key. st_call; simplify_eq; try done. bool_prop.
  match goal with H : validate_project_name _ = Ok ?a |- _ =>
    rename a into nm; rename H into Hnm end.
  split; simpl.
  - intros i r Hr. dict_case; [done | by eapply pw_id].
  - intros i r Hr. dict_case; [by eapply validated_name_idemp | by eapply pw_name].
  - apply (indexed_create ProjectRecord.name _ _ f (ProjectRecord.mk f nm d ProjectStatus.ACTIVE 0 now now));
      [apply W | done |]. by apply eq_None_not_Some.
Qed.

Lemma delete_project_good i s : project_wf s -> project_wf (delete_project i s).2.
Proof.
  intros W. unfold delete_project, get_project. st_call; simplify_eq; try done.
  split; simpl.
  - intros j r Hr. dict_case; by eapply pw_id.
  - intros j r Hr. dict_case; by eapply pw_name.
  - apply indexed_delete; [apply W | done].
Qed.

(** What [update_project] does when it succeeds, and when it does. *)
Lemma update_project_Ok rd i n d st v s r' s' :
  update_project rd i n d st v s = (Ok r', s') <->
  exists nm r, validate_project_name n = Ok nm /\ _projects s !! i = Some r
    /\ ProjectRecord.state_version r = v
    /\ (_names s !! nm = None \/ _names s !! nm = Some i)
    /\ ProjectRecord.update rd r nm d st = Ok r'
    /\ s' = mk (<[i:=r']> (_projects s))
              (if negb (bool_decide (nm = ProjectRecord.name r))
               then <[nm:=i]> (delete (ProjectRecord.name r) (_names s)) else _names s).
Proof.
  unfold update_project, get_project, bind, get, put, ret, raise, lift. cbn [fst snd]. split.
  - intros Hu. py_inv Hu; bool_prop; subst;
      (do 2 eexists; split_and!; [done | done | done | first [by left | by right] | done |]);
      repeat case_bool_decide; done.
  - intros (nm & r & -> & -> & <- & Ho & Hu & ->). cbn [fst snd]. rewrite Z.eqb_refl. cbn [negb fst snd].
    destruct Ho as [-> | ->]; rewrite ?bool_decide_true by done; cbn [negb fst snd];
      by rewrite Hu.
Qed.

Lemma project_update_fields rd r n d st r' :
  ProjectRecord.update rd r n d st = Ok r' ->
  ProjectRecord.id r' = ProjectRecord.id r /\ ProjectRecord.name r' = n
  /\ ProjectRecord.description r' = d /\ ProjectRecord.status r' = st
  /\ ProjectRecord.state_version r' = (ProjectRecord.state_version r + 1)%Z
  /\ ProjectRecord.status r = ProjectStatus.ACTIVE.
Proof.
  unfold ProjectRecord.update, next_project_status.
  intros (st' & Hs & [= <-])%rbind_Ok. simpl. destruct (ProjectRecord.status r); simpl in Hs;
    repeat case_bool_decide; simplify_eq; try done.
Qed.

Lemma update_project_err rd i n d st v s :
  is_ok (update_project rd i n d st v s).1 = false -> (update_project rd i n d st v s).2 = s.
Proof. unfold update_project, get_project. st_call; simplify_eq; try done. Qed.

Lemma update_project_good rd i n d st v s :
  project_wf s -> project_wf (update_project rd i n d st v s).2.
Proof.
  intros W. destruct (update_project rd i n d st v s) as [[r'|e] s'] eqn:Eu.
  2: { pose proof (update_project_err rd i n d st v s) as He. rewrite Eu in He. simpl in *. by rewrite He. }
  apply update_project_Ok in Eu as (nm & r & Hn & Hr & Hv & Ho & Hu & ->).
  apply project_update_fields in Hu as (Hid & Hnm & _). simpl.
  split; simpl.
  - intros j x Hx. dict_case; [| by eapply pw_id]. rewrite Hid. by eapply pw_id.
  - intros j x Hx. dict_case; [| by eapply pw_name]. by eapply validated_name_idemp.
  - subst nm. pose proof (indexed_update _ _ _ _ _ r' (pw_index _ W) Hr Ho) as Hx.
    by case_bool_decide; simpl in *.
Qed.

#[export,refine] Instance project_store : Store t project_op := {|
  st_init := init; st_op := project_step; st_fresh := project_fresh; st_wf := project_wf;
  st_evolves _ _ := True |}.
Proof.
  - by split.
  - split; simpl; [done | done | apply indexed_empty].
  - intros [] s W Hf; split; try done; simpl in *.
    + by apply create_project_good.
    + by apply delete_project_good.
    + by apply update_project_good.
Defined.

(** Project names are unique and their index is exact, whatever was created, renamed,
    archived and deleted before: two projects never share a name; [create_project]
    succeeds exactly for a valid name no stored project bears, whatever the status of
    the projects, and stores the normalised name under the fresh id; a deleted project
    frees its name at once; and an update succeeds exactly on an active project at the
    expected version for a valid name that no other project bears. *)
Theorem project_names_exact s :
  st_reachable s ->
  (forall i j r r', get_project i s = (Ok r, s) -> get_project j s = (Ok r', s) ->
     ProjectRecord.name r = ProjectRecord.name r' -> i = j)
  /\ (forall now f n d, _projects s !! f = None ->
     is_ok (create_project now f n d s).1 = true <->
     exists nm, validate_project_name n = Ok nm
       /\ forall i r, get_project i s = (Ok r, s) -> ProjectRecord.name r <> nm)
  /\ (forall i r s', get_project i s = (Ok r, s) -> delete_project i s = (Ok tt, s') ->
     forall now f d, (create_project now f (ProjectRecord.name r) d s').1
       = Ok (ProjectRecord.mk f (ProjectRecord.name r) d ProjectStatus.ACTIVE 0 now now))
  /\ (forall rd i n d st v,
     is_ok (update_project rd i n d st v s).1 = true <->
     exists nm r, validate_project_name n = Ok nm /\ get_project i s = (Ok r, s)
       /\ ProjectRecord.state_version r = v /\ ProjectRecord.status r = ProjectStatus.ACTIVE
       /\ forall j r', get_project j s = (Ok r', s) -> ProjectRecord.name r' = nm -> j = i).
Proof.
  intros W%st_reachable_wf. simpl in W.
  assert (forall i r, get_project i s = (Ok r, s) <-> _projects s !! i = Some r) as Hget.
  { intros i r. unfold get_project. destruct (_projects s !! i); naive_solver. }
  split_and!.
  - intros i j r r' Hi%Hget Hj%Hget. apply (indexed_unique _ _ _ _ _ _ _ (pw_index _ W) Hi Hj).
  - intros now f n d Hf. unfold create_project, bind, lift, get.
    destruct (validate_project_name n) as [nm|e]; [| split; [done | by intros (? & ? & _)]].
    pose proof (indexed_free _ _ _ nm (pw_index _ W)) as Hfree. setoid_rewrite Hget.
    destruct (has_key nm (_names s)) eqn:Hk; unfold raise; cbn [fst is_ok].
    + split; [done |]. intros (nm' & [= <-] & Hno%Hfree). apply has_key_true in Hk as [i Hi]. congruence.
    + split; [intros _ | done]. apply has_key_false in Hk. exists nm. split; [done |]. by apply Hfree.
  - intros i r s' Hi%Hget Hd now f d.
    unfold delete_project, get_project, bind, get, put in Hd. rewrite Hi in Hd. injection Hd as [= <-].
    unfold create_project, bind, lift, get, put, ret. rewrite (pw_name _ W _ _ Hi).
    assert (has_key (ProjectRecord.name r) (delete (ProjectRecord.name r) (_names s)) = false) as Hno
      by by apply has_key_false, dict_lookup_delete_eq.
    cbn [_names]. by rewrite Hno.
  - intros rd i n d st v. setoid_rewrite Hget. split.
    + destruct (update_project rd i n d st v s) as [[r'|e] s'] eqn:Eu; [intros _ | done].
      apply update_project_Ok in Eu as (nm & r & Hn & Hr & Hv & Ho & Hu & ->).
      apply project_update_fields in Hu as (_ & _ & _ & _ & _ & Hst).
      exists nm, r. split_and!; try done. by apply (indexed_free_for _ _ _ _ _ (pw_index _ W)).
    + intros (nm & r & Hn & Hr & Hv & Hst & Huniq).
      destruct (ProjectRecord.update rd r nm d st) as [r'|e] eqn:Eu.
      * eassert (update_project rd i n d st v s = (Ok r', _)) as ->; [| done].
        apply update_project_Ok. exists nm, r. split_and!; try done.
        by apply (indexed_free_for _ _ _ _ _ (pw_index _ W)).
      * revert Eu. unfold ProjectRecord.update, next_project_status. rewrite Hst. by destruct st.
Qed.

(** Two projects, one renamed. *)
Lemma project_names_exact_witness :
  let s := st_ops [OpCreateProject 1 1%N " Shop " "a"; OpCreateProject 2 2%N "Bank" "b";
                   OpUpdateProject 3 2%N "Loans" "b" ProjectStatus.ARCHIVED 0] init in
  is_ok (create_project 4 3%N "Bank" "" s).1 = true
  /\ is_ok (create_project 4 3%N "Shop" "" s).1 = false.
Proof.
  intros s. assert (st_reachable s) as Hs.
  { apply st_ops_reachable; [exact (st_reachable_init (H:=project_store)) | by vm_compute]. }
  destruct (project_names_exact s Hs) as (_ & Hc & _).
  split; [| vm_compute; reflexivity].
  apply Hc; [vm_compute; reflexivity |]. exists "Bank"%string. split; [vm_compute; reflexivity |].
  intros i r Hi. unfold get_project in Hi. injection Hi as Hi.
  destruct (_projects s !! i) as [x|] eqn:E; [| discriminate]. injection Hi as ->.
  apply elem_of_items in E. revert E. vm_compute.
  intros E. repeat (apply elem_of_cons in E as [E|E]; [injection E as -> ->; discriminate |]).
  by apply elem_of_nil in E.
Defined.
