(* ===== verification/EnvironmentCrypto.v ===== *)
(** * Envelope encryption of secrets
    ([src/services/api/environment_crypto.py])

    The associated data of environment and connector secrets, and [SecretEncryptor].
    AES-GCM comes from the [cryptography] package: it is the parameter [Aead], with the
    laws the code relies on in [AeadLaws].  The random bytes of an encryption (data key
    and nonces) are an argument. *)
From stdpp Require Import pretty.
From S2P Require Import Prelude PyText TextFacts Protocol.
Open Scope list_scope.

(** ** Data *)

Module ConfigurationCategory.
Inductive t := ENVIRONMENT_VARIABLE | COMMON_PARAMETER.
#[global] Instance eq_dec : EqDecision t.
Proof. solve_decision. Defined.
Definition value (c : t) : string :=
  match c with
  | ENVIRONMENT_VARIABLE => "environment_variable"
  | COMMON_PARAMETER => "common_parameter"
  end.
End ConfigurationCategory.

Module EncryptedSecret.
Record t := mk {
  ciphertext : list N; tag : list N; nonce : list N; wrapped_dek : list N; wrap_nonce : list N;
  key_id : string; algorithm : string }.
End EncryptedSecret.

Definition AAD_VERSION : Z := 1.
Definition ALGORITHM : string := "AES-256-GCM".

(** [value.encode("utf-8")] of a dynamically typed value. *)
Definition encode (v : pyval) : res (list N) :=
  match v with PStr s => Ok (utf8 s) | _ => Err (OtherException "AttributeError") end.

Section aad.
  Context `{PyFloat}.

(** [json.dumps({...}, sort_keys=True, separators=(",", ":")).encode("utf-8")]. *)
Definition json_bytes (pairs : list (string * pyval)) : res (list N) :=
  let? text := dumps true true (PDict pairs) in Ok (utf8 text).

Definition canonical_aad (project_id environment_id : uuid) (revision : Z)
    (category : ConfigurationCategory.t) (name : string) : res (list N) :=
  json_bytes
    [("aad_version", PInt AAD_VERSION);
     ("category", PStr (ConfigurationCategory.value category));
     ("environment_id", PStr (uuid_str environment_id));
     ("name", PStr name);
     ("project_id", PStr (uuid_str project_id));
     ("revision", PInt revision)]%string.

Definition canonical_connector_aad (connector_id : uuid) (secret_revision : Z) : res (list N) :=
  json_bytes
    [("aad_version", PInt AAD_VERSION);
     ("connector_id", PStr (uuid_str connector_id));
     ("purpose", PStr "connector-credential");
     ("secret_revision", PInt secret_revision)]%string.
End aad.

(** ** AES-GCM

    [AESGCM(key).encrypt(nonce, data, aad)] and [decrypt]; [None] is [InvalidTag] (or
    the [ValueError] of malformed arguments).  The laws: what was encrypted decrypts
    under the same key, nonce and associated data, and a different associated data is
    always noticed. *)
Class Aead := {
  aead_encrypt : list N -> list N -> list N -> list N -> list N;
  aead_decrypt : list N -> list N -> list N -> list N -> option (list N) }.

Class AeadLaws (A : Aead) := {
  aead_roundtrip : forall key nonce data aad,
    aead_decrypt key nonce (aead_encrypt key nonce data aad) aad = Some data;
  aead_authentic : forall key nonce nonce' data aad aad',
    aad <> aad' -> aead_decrypt key nonce' (aead_encrypt key nonce data aad) aad' = None }.

(** What one call of [encrypt] draws: the data key and the two nonces. *)
Module Draw.
Record t := mk { dek : list N; nonce : list N; wrap_nonce : list N }.
End Draw.

(** [sealed[:-16]] and [sealed[-16:]]. *)
Definition without_tag (sealed : list N) : list N := take (length sealed - 16) sealed.
Definition tag_of (sealed : list N) : list N := drop (length sealed - 16) sealed.

Definition WRAP_SUFFIX : list N := utf8 "|dek-wrap".

Module SecretEncryptor.
Record t := mk { _key : option (list N); _key_id : option string }.

Definition is_none {A} (o : option A) : bool := match o with None => true | Some _ => false end.

Definition init (key : option (list N)) (key_id : option string) : res t :=
  if negb (Bool.eqb (is_none key) (is_none key_id)) then
    Err (ValueError "secret key and key ID must be configured together")
  else if match key with Some k => negb (length k =? 32)%nat | None => false end then
    Err (ValueError "secret key must contain exactly 32 bytes")
  else if match key_id with
          | Some i => empty_str (strip i) || (255 <? py_len i)%Z
          | None => false
          end then
    Err (ValueError "secret key ID must contain 1 to 255 characters")
  else Ok (mk key key_id).

Definition available (e : t) : bool := negb (is_none (_key e)) && negb (is_none (_key_id e)).

Definition _require_key (e : t) : res (list N * string) :=
  match _key e, _key_id e with
  | Some key, Some key_id => Ok (key, key_id)
  | _, _ => Err SecretEncryptionUnavailable
  end.

Section crypto.
  Context `{PyFloat} `{Aead}.

(** The common end of [encrypt] and [encrypt_connector], and of the two decryptions. *)
Definition seal (d : Draw.t) (key : list N) (key_id : string) (plain aad : list N) : EncryptedSecret.t :=
  let sealed := aead_encrypt (Draw.dek d) (Draw.nonce d) plain aad in
  let wrapped := aead_encrypt key (Draw.wrap_nonce d) (Draw.dek d) (aad ++ WRAP_SUFFIX) in
  EncryptedSecret.mk (without_tag sealed) (tag_of sealed) (Draw.nonce d) wrapped (Draw.wrap_nonce d)
    key_id ALGORITHM.

Definition unseal (key : list N) (encrypted : EncryptedSecret.t) (aad : list N) : res string :=
  match aead_decrypt key (EncryptedSecret.wrap_nonce encrypted) (EncryptedSecret.wrapped_dek encrypted)
          (aad ++ WRAP_SUFFIX) with
  | None => Err SecretDecryptionError
  | Some dek =>
      match aead_decrypt dek (EncryptedSecret.nonce encrypted)
              (EncryptedSecret.ciphertext encrypted ++ EncryptedSecret.tag encrypted) aad with
      | None => Err SecretDecryptionError
      | Some plaintext =>
          match utf8_decode plaintext with Some s => Ok s | None => Err SecretDecryptionError end
      end
  end.

Definition foreign (key_id : string) (encrypted : EncryptedSecret.t) : bool :=
  negb (bool_decide (EncryptedSecret.key_id encrypted = key_id))
  || negb (bool_decide (EncryptedSecret.algorithm encrypted = ALGORITHM)).

Definition encrypt (e : t) (d : Draw.t) (value : pyval) (project_id environment_id : uuid)
    (revision : Z) (category : ConfigurationCategory.t) (name : string) : res EncryptedSecret.t :=
  let? '(key, key_id) := _require_key e in
  let? aad := canonical_aad project_id environment_id revision category name in
  let? plain := encode value in
  Ok (seal d key key_id plain aad).

Definition decrypt (e : t) (encrypted : EncryptedSecret.t) (project_id environment_id : uuid)
    (revision : Z) (category : ConfigurationCategory.t) (name : string) : res string :=
  let? '(key, key_id) := _require_key e in
  if foreign key_id encrypted then Err SecretDecryptionError
  else
    let? aad := canonical_aad project_id environment_id revision category name in
    unseal key encrypted aad.

Definition encrypt_connector (e : t) (d : Draw.t) (value : string) (connector_id : uuid)
    (secret_revision : Z) : res EncryptedSecret.t :=
  let? '(key, key_id) := _require_key e in
  let? aad := canonical_connector_aad connector_id secret_revision in
  Ok (seal d key key_id (utf8 value) aad).

Definition decrypt_connector (e : t) (encrypted : EncryptedSecret.t) (connector_id : uuid)
    (secret_revision : Z) : res string :=
  let? '(key, key_id) := _require_key e in
  if foreign key_id encrypted then Err SecretDecryptionError
  else
    let? aad := canonical_connector_aad connector_id secret_revision in
    unseal key encrypted aad.
End crypto.
End SecretEncryptor.

(** ** Lemmas *)

Lemma tag_split sealed : without_tag sealed ++ tag_of sealed = sealed.
Proof. apply take_drop. Qed.

Section facts.
  Context `{PyFloat}.

(** The printed associated data. *)
Definition member (k v : string) : string := (json_string true k ++ ":" ++ v)%string.
Definition object (ms : list string) : string := ("{" ++ join "," ms ++ "}")%string.

Definition aad_text (p e : uuid) (r : Z) (c : ConfigurationCategory.t) (n : string) : string :=
  object [member "aad_version" (pretty AAD_VERSION);
          member "category" (json_string true (ConfigurationCategory.value c));
          member "environment_id" (json_string true (uuid_str e));
          member "name" (json_string true n);
          member "project_id" (json_string true (uuid_str p));
          member "revision" (pretty r)].

Definition connector_text (i : uuid) (r : Z) : string :=
  object [member "aad_version" (pretty AAD_VERSION);
          member "connector_id" (json_string true (uuid_str i));
          member "purpose" (json_string true "connector-credential");
          member "secret_revision" (pretty r)].

Lemma canonical_aad_Ok p e r c n : canonical_aad p e r c n = Ok (utf8 (aad_text p e r c n)).
Proof. reflexivity. Qed.

Lemma canonical_connector_aad_Ok i r : canonical_connector_aad i r = Ok (utf8 (connector_text i r)).
Proof. reflexivity. Qed.

Lemma category_value_inj c c' :
  ConfigurationCategory.value c = ConfigurationCategory.value c' -> c = c'.
Proof. by destruct c, c'. Qed.

Lemma aad_text_inj p e r c n p' e' r' c' n' :
  (p < 2 ^ 128)%N -> (p' < 2 ^ 128)%N -> (e < 2 ^ 128)%N -> (e' < 2 ^ 128)%N ->
  aad_text p e r c n = aad_text p' e' r' c' n' -> p = p' /\ e = e' /\ r = r' /\ c = c' /\ n = n'.
Proof.
  intros Hp Hp' He He' Ht. unfold aad_text, object, member in Ht. cbn [join] in Ht.
  rewrite !str_app_assoc in Ht.
  repeat match goal with
         | H : (json_string _ _ ++ _ = json_string _ _ ++ _)%string |- _ =>
             apply json_string_split in H as [? H]
         | H : (?a ++ _ = ?a ++ _)%string |- _ => apply str_app_cancel_l in H
         end.
  apply str_app_cancel_r in Ht. apply (inj pretty) in Ht.
  split_and!; auto using uuid_str_inj, category_value_inj.
Qed.
End facts.

Section binding.
  Context `{PyFloat}.

Lemma connector_text_inj i r i' r' :
  (i < 2 ^ 128)%N -> (i' < 2 ^ 128)%N -> connector_text i r = connector_text i' r' -> i = i' /\ r = r'.
Proof.
  intros Hi Hi' Ht. unfold connector_text, object, member in Ht. cbn [join] in Ht.
  rewrite !str_app_assoc in Ht.
  repeat match goal with
         | H : (json_string _ _ ++ _ = json_string _ _ ++ _)%string |- _ =>
             apply json_string_split in H as [? H]
         | H : (?a ++ _ = ?a ++ _)%string |- _ => apply str_app_cancel_l in H
         end.
  apply str_app_cancel_r in Ht. apply (inj pretty) in Ht. auto using uuid_str_inj.
Qed.

(** The second key tells the two kinds apart. *)
Lemma aad_text_not_connector p e r c n i r' : aad_text p e r c n <> connector_text i r'.
Proof.
  intros Ht. unfold aad_text, connector_text, object, member in Ht. cbn [join] in Ht.
  rewrite !str_app_assoc in Ht.
  repeat match goal with
         | H : (json_string _ _ ++ _ = json_string _ _ ++ _)%string |- _ =>
             apply json_string_split in H as [? H]
         | H : (?a ++ _ = ?a ++ _)%string |- _ => apply str_app_cancel_l in H
         end.
  discriminate.
Qed.

Lemma object_not_wrapped ms t : object ms <> (t ++ "|dek-wrap")%string.
Proof.
  unfold object. change "|dek-wrap"%string with ("|dek-wra" ++ "p")%string.
  rewrite <- !str_app_assoc. intros Ht. pose proof (f_equal String.length Ht) as Hl.
  rewrite !str_length_app in Hl. simpl in Hl.
  apply str_app_split in Ht as [_ ?]; [done |]. rewrite !str_length_app. simpl. lia.
Qed.

Lemma NoDup_four {A} (a b c d : A) :
  a <> b -> a <> c -> a <> d -> b <> c -> b <> d -> c <> d -> NoDup [a; b; c; d].
Proof.
  intros. rewrite !NoDup_cons, !elem_of_cons, !elem_of_nil. split_and!; try tauto. constructor.
Qed.

(** The associated data binds a secret to its place: two environment secrets have the
    same associated data only in the same project, environment, revision, category and
    name; two connector credentials only for the same connector and revision; no
    environment secret shares it with a connector credential; and no associated data is
    the one a data key is wrapped with. *)
Theorem canonical_aad_binding p e r c n p' e' r' c' n' i j :
  (p < 2 ^ 128)%N -> (p' < 2 ^ 128)%N -> (e < 2 ^ 128)%N -> (e' < 2 ^ 128)%N ->
  (i < 2 ^ 128)%N -> (j < 2 ^ 128)%N ->
  exists a a' k l,
    canonical_aad p e r c n = Ok a /\ canonical_aad p' e' r' c' n' = Ok a'
    /\ canonical_connector_aad i r = Ok k /\ canonical_connector_aad j r' = Ok l
    /\ (a = a' <-> (p, e, r, c, n) = (p', e', r', c', n'))
    /\ (k = l <-> (i, r) = (j, r'))
    /\ a <> k /\ NoDup [a; k; a ++ WRAP_SUFFIX; k ++ WRAP_SUFFIX]
    /\ a' <> a ++ WRAP_SUFFIX /\ l <> k ++ WRAP_SUFFIX.
Proof.
  intros Hp Hp' He He' Hi Hj.
  assert (forall ms t, utf8 (object ms) <> utf8 t ++ WRAP_SUFFIX) as Hw.
  { intros ms t Ht. unfold WRAP_SUFFIX in Ht. rewrite <- utf8_app in Ht. apply utf8_inj in Ht.
    by apply object_not_wrapped in Ht. }
  assert (forall p e r c n i r', utf8 (aad_text p e r c n) <> utf8 (connector_text i r')) as Hk.
  { intros * Ht. apply utf8_inj in Ht. by apply aad_text_not_connector in Ht. }
  do 4 eexists. split_and!; try reflexivity; try apply Hw; try apply Hk.
  - split; [| congruence]. intros Ha%utf8_inj. apply aad_text_inj in Ha; [| done..].
    destruct_and!. congruence.
  - split; [| congruence]. intros Ha%utf8_inj. apply connector_text_inj in Ha; [| done..].
    destruct_and!. congruence.
  - assert (utf8 (aad_text p e r c n) ++ WRAP_SUFFIX <> utf8 (connector_text i r) ++ WRAP_SUFFIX) as Hww.
    { intros Ha. apply app_inv_tail in Ha. by apply Hk in Ha. }
    apply NoDup_four; [apply Hk | apply Hw | apply Hw | apply Hw | apply Hw | exact Hww].
Qed.
End binding.

Section sealing.
  Context `{PyFloat} `{A : Aead} `{!AeadLaws A}.
  Import SecretEncryptor.

Lemma unseal_seal d key key_id v aad : unseal key (seal d key key_id (utf8 v) aad) aad = Ok v.
Proof.
  unfold unseal, seal. cbn. rewrite aead_roundtrip, tag_split, aead_roundtrip. by rewrite utf8_roundtrip.
Qed.

Lemma unseal_other d key key_id plain aad aad' :
  aad <> aad' -> unseal key (seal d key key_id plain aad) aad' = Err SecretDecryptionError.
Proof.
  intros Hne. unfold unseal, seal. cbn. rewrite aead_authentic; [done |].
  intros Ht. by apply app_inv_tail in Ht.
Qed.

Lemma seal_not_foreign d key key_id plain aad : foreign key_id (seal d key key_id plain aad) = false.
Proof. unfold foreign, seal. cbn. by rewrite !bool_decide_true. Qed.

Lemma seal_foreign d key key_id key_id' plain aad :
  key_id <> key_id' -> foreign key_id' (seal d key key_id plain aad) = true.
Proof. intros Hne. unfold foreign, seal. cbn. by rewrite bool_decide_false. Qed.

(** The operations of an encryptor that has a key, in closed form. *)
Lemma encrypt_with key kid d v p en r c n :
  encrypt (mk (Some key) (Some kid)) d (PStr v) p en r c n
  = Ok (seal d key kid (utf8 v) (utf8 (aad_text p en r c n))).
Proof. reflexivity. Qed.

Lemma decrypt_with key kid x p en r c n :
  decrypt (mk (Some key) (Some kid)) x p en r c n
  = if foreign kid x then Err SecretDecryptionError else unseal key x (utf8 (aad_text p en r c n)).
Proof. reflexivity. Qed.

Lemma encrypt_connector_with key kid d v i q :
  encrypt_connector (mk (Some key) (Some kid)) d v i q
  = Ok (seal d key kid (utf8 v) (utf8 (connector_text i q))).
Proof. reflexivity. Qed.

Lemma decrypt_connector_with key kid x i q :
  decrypt_connector (mk (Some key) (Some kid)) x i q
  = if foreign kid x then Err SecretDecryptionError else unseal key x (utf8 (connector_text i q)).
Proof. reflexivity. Qed.

(** [decrypt] undoes [encrypt] in the same place. *)
Lemma decrypt_encrypt e d v p en r c n x :
  encrypt e d (PStr v) p en r c n = Ok x -> decrypt e x p en r c n = Ok v.
Proof.
  unfold encrypt, decrypt. destruct (_require_key e) as [[key key_id]|]; cbn [rbind encode]; [| done].
  rewrite canonical_aad_Ok. cbn [rbind]. intros [= <-]. by rewrite seal_not_foreign, unseal_seal.
Qed.

(** Secrets come back, and only in their own place: what an available encryptor
    encrypts for a place of an environment decrypts there to the same text and is refused
    with [SecretDecryptionError] in every other place, as a connector credential, and
    under another key id; credentials of connectors likewise; without a key both
    directions raise [SecretEncryptionUnavailable]. *)
Theorem secrets_stay_in_place key key_id e d v p en r c n i q :
  init (Some key) (Some key_id) = Ok e ->
  (p < 2 ^ 128)%N -> (en < 2 ^ 128)%N -> (i < 2 ^ 128)%N ->
  exists x y,
    encrypt e d (PStr v) p en r c n = Ok x /\ encrypt_connector e d v i q = Ok y
    /\ decrypt e x p en r c n = Ok v /\ decrypt_connector e y i q = Ok v
    /\ (forall p' en' r' c' n', (p' < 2 ^ 128)%N -> (en' < 2 ^ 128)%N ->
          (p', en', r', c', n') <> (p, en, r, c, n) ->
          decrypt e x p' en' r' c' n' = Err SecretDecryptionError)
    /\ (forall i' q', (i' < 2 ^ 128)%N -> (i', q') <> (i, q) ->
          decrypt_connector e y i' q' = Err SecretDecryptionError)
    /\ (forall i' q', decrypt_connector e x i' q' = Err SecretDecryptionError)
    /\ (forall p' en' r' c' n', decrypt e y p' en' r' c' n' = Err SecretDecryptionError)
    /\ (forall key' id' e', init (Some key') (Some id') = Ok e' -> id' <> key_id ->
          decrypt e' x p en r c n = Err SecretDecryptionError
          /\ decrypt_connector e' y i q = Err SecretDecryptionError)
    /\ (forall e', init None None = Ok e' ->
          encrypt e' d (PStr v) p en r c n = Err SecretEncryptionUnavailable
          /\ decrypt e' x p en r c n = Err SecretEncryptionUnavailable).
Proof.
  intros Hinit Hp Hen Hi.
  assert (forall k kid e0, init k kid = Ok e0 -> e0 = mk k kid) as Hmk.
  { intros k kid e0. unfold init. repeat case_match; congruence. }
  apply Hmk in Hinit as ->. do 2 eexists. split; [apply encrypt_with |].
  split; [apply encrypt_connector_with |].
  rewrite decrypt_with, decrypt_connector_with, !seal_not_foreign.
  split_and!; try apply unseal_seal.
  - intros p' en' r' c' n' Hp' Hen' Hne. rewrite decrypt_with, seal_not_foreign.
    apply unseal_other. intros Ht%utf8_inj. apply aad_text_inj in Ht; [| done..].
    destruct_and!. congruence.
  - intros i' q' Hi' Hne. rewrite decrypt_connector_with, seal_not_foreign.
    apply unseal_other. intros Ht%utf8_inj. apply connector_text_inj in Ht; [| done..].
    destruct_and!. congruence.
  - intros i' q'. rewrite decrypt_connector_with, seal_not_foreign.
    apply unseal_other. intros Ht%utf8_inj. by apply aad_text_not_connector in Ht.
  - intros p' en' r' c' n'. rewrite decrypt_with, seal_not_foreign.
    apply unseal_other. intros Ht%utf8_inj. symmetry in Ht. by apply aad_text_not_connector in Ht.
  - intros key' id' e' He' Hne. apply Hmk in He' as ->.
    by rewrite decrypt_with, decrypt_connector_with, !seal_foreign.
  - intros e' He'. by apply Hmk in He' as ->.
Qed.
End sealing.
