(* ===== verification/Environments.v ===== *)
(** * Environments
    ([src/services/api/environment_domain.py], [src/services/api/environment_repository.py])

    Configuration values, their validation and encryption, the in-memory
    [EnvironmentRepository], and the [ConfigurationResolver] that reads a pinned
    revision through the interface [EnvironmentReader]. *)
From S2P Require Import Prelude PyDict PyText Protocol Versioned EnvironmentCrypto.
Open Scope list_scope.

(** ** Records *)

Module EnvironmentStatus.
Inductive t := DRAFT | ACTIVE | ARCHIVED.
#[global] Instance eq_dec : EqDecision t.
Proof. solve_decision. Defined.
End EnvironmentStatus.

Definition ENVIRONMENT_TRANSITIONS (s : EnvironmentStatus.t) : option (list EnvironmentStatus.t) :=
  match s with
  | EnvironmentStatus.DRAFT => Some [EnvironmentStatus.ACTIVE]
  | EnvironmentStatus.ACTIVE => Some [EnvironmentStatus.ARCHIVED]
  | EnvironmentStatus.ARCHIVED => None
  end.

Definition validate_environment_transition (current target : EnvironmentStatus.t) : res unit :=
  if bool_decide (current = EnvironmentStatus.ARCHIVED) then Err InvalidEnvironmentTransition
  else if bool_decide (target = current) then Ok tt
  else match ENVIRONMENT_TRANSITIONS current with
       | None => Err KeyError
       | Some targets =>
           if negb (bool_decide (target ∈ targets)) then Err InvalidEnvironmentTransition else Ok tt
       end.

Module ConfigurationValueInput.
Record t := mk { name : string; value : pyval; secret : bool; secret_ref : option uuid }.
End ConfigurationValueInput.

Module ConfigurationValue.
Record t := mk {
  category : ConfigurationCategory.t; name : string; secret : bool; value : pyval;
  secret_ref : option uuid; encrypted : option EncryptedSecret.t }.
Definition public (c : ConfigurationCategory.t) (n : string) (v : pyval) : t := mk c n false v None None.
Definition sealed (c : ConfigurationCategory.t) (n : string) (ref : uuid) (x : EncryptedSecret.t) : t :=
  mk c n true PNone (Some ref) (Some x).
End ConfigurationValue.

Module EnvironmentRecord.
Record t := mk {
  id : uuid; project_id : uuid; name : string; status : EnvironmentStatus.t; revision : Z;
  state_version : Z; values : list ConfigurationValue.t; created_at : datetime; updated_at : datetime }.
Definition update (read : datetime) (r : t) (name : string) (status' : EnvironmentStatus.t)
    (values : list ConfigurationValue.t) : res t :=
  let? _ := validate_environment_transition (status r) status' in
  Ok (mk (id r) (project_id r) name status' (revision r + 1)%Z (state_version r + 1)%Z values
         (created_at r) read).
End EnvironmentRecord.

Module ConfigurationSnapshot.
Record t := mk {
  environment_id : uuid; revision : Z;
  environment_variables : pydict string pyval; common_parameters : pydict string pyval }.
End ConfigurationSnapshot.

Module ResolvedSecretValue.
Record t := mk { category : ConfigurationCategory.t; name : string; secret_ref : uuid; value : string }.
End ResolvedSecretValue.

(** ** Validation *)

Definition MAX_VALUES_PER_CATEGORY : nat := 100.
Definition MAX_VALUE_BYTES : Z := 65536.

(** [KEY_PATTERN] allows dots and dashes after the first character. *)
Definition KEY_PATTERN : string -> bool :=
  matches_name (fun c => is_alpha c || is_underscore c)
    (fun c => is_alpha c || is_digit c || is_underscore c || (code c =? 46)%N || (code c =? 45)%N) 127.
Definition ENV_KEY_PATTERN : string -> bool := ENVIRONMENT_NAME_PATTERN.

Definition validate_environment_name (name : string) : res string :=
  bounded_text 255 "environment name must contain 1 to 255 characters" name.

Section environments.
  Context `{PyFloat} `{Aead}.

(** [json.dumps(value, ensure_ascii=False, allow_nan=False, ...).encode("utf-8")], with
    [TypeError] and [ValueError] turned into a [ValueError]. *)
Definition encoded_value (v : pyval) : res (list N) :=
  match dumps false false v with
  | Ok text => Ok (utf8 text)
  | Err e =>
      if bool_decide (e = TypeError) || is_ValueError e
      then Err (ValueError "configuration values must be JSON serializable") else Err e
  end.

(** The body of the loop of [validate_inputs] after the two tests on the name. *)
Definition validate_value (category : ConfigurationCategory.t) (item : ConfigurationValueInput.t)
    : res unit :=
  let value := ConfigurationValueInput.value item in
  let? _ :=
    match ConfigurationValueInput.secret item, ConfigurationValueInput.secret_ref item with
    | true, None =>
        if negb (TaskEnvelope.is_str value) then Err (ValueError "secret values must be strings") else Ok tt
    | true, Some _ =>
        if negb (bool_decide (value = PNone))
        then Err (ValueError "secret value and secret_ref are mutually exclusive") else Ok tt
    | false, Some _ => Err (ValueError "public values cannot use secret_ref")
    | false, None =>
        if bool_decide (category = ConfigurationCategory.ENVIRONMENT_VARIABLE) && negb (TaskEnvelope.is_str value)
        then Err (ValueError "environment variable values must be strings") else Ok tt
    end in
  let? encoded := encoded_value value in
  if (MAX_VALUE_BYTES <? Z.of_nat (length encoded))%Z
  then Err (ValueError "configuration values cannot exceed 65536 bytes") else Ok tt.

Fixpoint validate_items (category : ConfigurationCategory.t) (names : list string)
    (values : list ConfigurationValueInput.t) : res unit :=
  match values with
  | [] => Ok tt
  | item :: rest =>
      let name := ConfigurationValueInput.name item in
      let pattern := if bool_decide (category = ConfigurationCategory.ENVIRONMENT_VARIABLE)
                     then ENV_KEY_PATTERN else KEY_PATTERN in
      if negb (pattern name) then Err (ValueError "invalid configuration key")
      else if bool_decide (name ∈ names) then Err (ValueError "duplicate configuration key")
      else
        let? _ := validate_value category item in
        validate_items category (name :: names) rest
  end.

Definition validate_inputs (category : ConfigurationCategory.t)
    (values : list ConfigurationValueInput.t) : res unit :=
  if (MAX_VALUES_PER_CATEGORY <? length values)%nat
  then Err (ValueError "at most 100 values are allowed per category")
  else validate_items category [] values.

(** ** Building the values of a revision

    The [k]-th secret of a call encrypts with the draws [entropy k].1 and gets the
    [uuid4()] result [entropy k].2 as its reference. *)
Definition matches_source (category : ConfigurationCategory.t) (item : ConfigurationValueInput.t)
    (ref : uuid) (value : ConfigurationValue.t) : bool :=
  bool_decide (ConfigurationValue.category value = category)
  && bool_decide (ConfigurationValue.name value = ConfigurationValueInput.name item)
  && bool_decide (ConfigurationValue.secret_ref value = Some ref)
  && ConfigurationValue.secret value.

(** The plaintext of a secret input: given, or read back from the previous revision. *)
Definition plaintext_of (encryptor : SecretEncryptor.t) (previous : option EnvironmentRecord.t)
    (category : ConfigurationCategory.t) (item : ConfigurationValueInput.t) : res pyval :=
  match ConfigurationValueInput.secret_ref item with
  | None => Ok (ConfigurationValueInput.value item)
  | Some ref =>
      match previous with
      | None => Err EnvironmentConflict
      | Some p =>
          match List.find (matches_source category item ref) (EnvironmentRecord.values p) with
          | None => Err EnvironmentConflict
          | Some source =>
              match ConfigurationValue.encrypted source with
              | None => Err EnvironmentConflict
              | Some x =>
                  let? s := SecretEncryptor.decrypt encryptor x (EnvironmentRecord.project_id p)
                              (EnvironmentRecord.id p) (EnvironmentRecord.revision p)
                              (ConfigurationValue.category source) (ConfigurationValue.name source) in
                  Ok (PStr s)
              end
          end
      end
  end.

Fixpoint build_items (encryptor : SecretEncryptor.t) (entropy : nat -> Draw.t * uuid)
    (project_id environment_id : uuid) (revision : Z) (previous : option EnvironmentRecord.t)
    (category : ConfigurationCategory.t) (k : nat) (inputs : list ConfigurationValueInput.t)
    : res (nat * list ConfigurationValue.t) :=
  match inputs with
  | [] => Ok (k, [])
  | item :: rest =>
      let name := ConfigurationValueInput.name item in
      let? '(k', value) :=
        if negb (ConfigurationValueInput.secret item) then
          Ok (k, ConfigurationValue.public category name (ConfigurationValueInput.value item))
        else
          let? plaintext := plaintext_of encryptor previous category item in
          let? encrypted := SecretEncryptor.encrypt encryptor (entropy k).1 plaintext project_id
                              environment_id revision category name in
          Ok (S k, ConfigurationValue.sealed category name (entropy k).2 encrypted) in
      let? '(k'', values) := build_items encryptor entropy project_id environment_id revision previous
                               category k' rest in
      Ok (k'', value :: values)
  end.

Definition build_configuration_values (encryptor : SecretEncryptor.t) (entropy : nat -> Draw.t * uuid)
    (project_id environment_id : uuid) (revision : Z)
    (environment_variables common_parameters : list ConfigurationValueInput.t)
    (previous : option EnvironmentRecord.t) : res (list ConfigurationValue.t) :=
  let? _ := validate_inputs ConfigurationCategory.ENVIRONMENT_VARIABLE environment_variables in
  let? '(k, variables) := build_items encryptor entropy project_id environment_id revision previous
                            ConfigurationCategory.ENVIRONMENT_VARIABLE 0 environment_variables in
  let? _ := validate_inputs ConfigurationCategory.COMMON_PARAMETER common_parameters in
  let? '(_, parameters) := build_items encryptor entropy project_id environment_id revision previous
                             ConfigurationCategory.COMMON_PARAMETER k common_parameters in
  Ok (variables ++ parameters).
End environments.

(** ** The repository *)
Module EnvironmentRepository.
Record t := mk {
  _environments : pydict uuid EnvironmentRecord.t;
  _revisions : pydict uuid (list EnvironmentRecord.t);
  _names : pydict (uuid * string) uuid }.

Definition init : t := mk ∅ ∅ ∅.

Definition get_environment (environment_id : uuid) : M t EnvironmentRecord.t := fun s =>
  (match _environments s !! environment_id with Some r => Ok r | None => Err EnvironmentNotFound end, s).

Definition list_environments (project_id : uuid) : M t (list EnvironmentRecord.t) :=
  let* s := get in
  ret (py_sorted (by_key EnvironmentRecord.created_at)
         (List.filter (fun r => bool_decide (EnvironmentRecord.project_id r = project_id))
            (values (_environments s)))).

Definition list_revisions (environment_id : uuid) : M t (list EnvironmentRecord.t) :=
  get_environment environment_id ;;;
  let* s := get in lift (subscript environment_id (_revisions s)).

Definition get_revision (environment_id : uuid) (revision : Z) : M t EnvironmentRecord.t :=
  get_environment environment_id ;;;
  let* s := get in
  let* revisions := lift (subscript environment_id (_revisions s)) in
  if ((revision <? 1) || (Z.of_nat (length revisions) <? revision))%Z then raise EnvironmentNotFound
  else match revisions !! Z.to_nat (revision - 1) with
       | Some r => ret r
       | None => raise IndexError
       end.

Section operations.
  Context `{PyFloat} `{Aead} (_encryptor : SecretEncryptor.t).

Definition create_environment (now : datetime) (fresh : uuid) (entropy : nat -> Draw.t * uuid)
    (project_id : uuid) (name : string)
    (environment_variables common_parameters : list ConfigurationValueInput.t)
    : M t EnvironmentRecord.t :=
  let* normalized_name := lift (validate_environment_name name) in
  let* s := get in
  if has_key (project_id, normalized_name) (_names s) then raise EnvironmentConflict
  else
    let* values := lift (build_configuration_values _encryptor entropy project_id fresh 1
                           environment_variables common_parameters None) in
    let record := EnvironmentRecord.mk fresh project_id normalized_name EnvironmentStatus.DRAFT 1 0
                    values now now in
    put (mk (<[fresh:=record]> (_environments s)) (<[fresh:=[record]]> (_revisions s))
            (<[(project_id, normalized_name):=fresh]> (_names s))) ;;;
    ret record.

Definition update_environment (now : datetime) (entropy : nat -> Draw.t * uuid) (environment_id : uuid)
    (expected_version : Z) (name : string) (status : EnvironmentStatus.t)
    (environment_variables common_parameters : list ConfigurationValueInput.t)
    : M t EnvironmentRecord.t :=
  let* normalized_name := lift (validate_environment_name name) in
  let* current := get_environment environment_id in
  if negb (EnvironmentRecord.state_version current =? expected_version)%Z
  then raise EnvironmentVersionConflict
  else
    let project_id := EnvironmentRecord.project_id current in
    lift (validate_environment_transition (EnvironmentRecord.status current) status) ;;;
    let* s := get in
    if match _names s !! (project_id, normalized_name) with
       | Some owner => negb (bool_decide (owner = environment_id))
       | None => false
       end then raise EnvironmentConflict
    else
      let* values := lift (build_configuration_values _encryptor entropy project_id
                             (EnvironmentRecord.id current) (EnvironmentRecord.revision current + 1)
                             environment_variables common_parameters (Some current)) in
      let* updated := lift (EnvironmentRecord.update now current normalized_name status values) in
      let* names :=
        if negb (bool_decide (normalized_name = EnvironmentRecord.name current)) then
          let* _ := lift (subscript (project_id, EnvironmentRecord.name current) (_names s)) in
          ret (<[(project_id, normalized_name):=environment_id]>
                 (delete (project_id, EnvironmentRecord.name current) (_names s)))
        else ret (_names s) in
      put (mk (<[environment_id:=updated]> (_environments s)) (_revisions s) names) ;;;
      let* revisions := lift (subscript environment_id (_revisions s)) in
      put (mk (<[environment_id:=updated]> (_environments s))
              (<[environment_id:=revisions ++ [updated]]> (_revisions s)) names) ;;;
      ret updated.
End operations.
End EnvironmentRepository.

(** ** Reading pinned revisions *)

(** The shape of the values of a stored revision: secrets have a reference and a
    ciphertext, public values have neither, public environment variables are text,
    and no name occurs twice in a category. *)
Definition value_shape (v : ConfigurationValue.t) : Prop :=
  (exists ref x, v = ConfigurationValue.sealed (ConfigurationValue.category v)
                       (ConfigurationValue.name v) ref x)
  \/ v = ConfigurationValue.public (ConfigurationValue.category v) (ConfigurationValue.name v)
           (ConfigurationValue.value v)
     /\ (ConfigurationValue.category v = ConfigurationCategory.ENVIRONMENT_VARIABLE ->
         TaskEnvelope.is_str (ConfigurationValue.value v) = true).

Definition value_key (v : ConfigurationValue.t) : ConfigurationCategory.t * string :=
  (ConfigurationValue.category v, ConfigurationValue.name v).

Definition values_shape (r : EnvironmentRecord.t) : Prop :=
  Forall value_shape (EnvironmentRecord.values r) /\ NoDup (map value_key (EnvironmentRecord.values r)).

(** [er_get_revision i n er] is [get_revision] of a reader in state [er]: once read, a
    revision stays what it is. *)
Class EnvironmentReader (ER Op : Type) := {
  er_store :: Store ER Op;
  er_get_revision : uuid -> Z -> ER -> res EnvironmentRecord.t;
  er_get_id : forall i n er r, st_wf er -> er_get_revision i n er = Ok r ->
    EnvironmentRecord.id r = i /\ EnvironmentRecord.revision r = n /\ values_shape r;
  er_pinned : forall i n er er' r, st_wf er -> st_wf er' -> st_evolves er er' ->
    er_get_revision i n er = Ok r -> er_get_revision i n er' = Ok r }.

(** The secrets of a revision decrypt in their places. *)
Definition decrypts `{PyFloat} `{Aead} (e : SecretEncryptor.t) (r : EnvironmentRecord.t) : Prop :=
  forall v x, v ∈ EnvironmentRecord.values r -> ConfigurationValue.encrypted v = Some x ->
    exists text, SecretEncryptor.decrypt e x (EnvironmentRecord.project_id r) (EnvironmentRecord.id r)
      (EnvironmentRecord.revision r) (ConfigurationValue.category v) (ConfigurationValue.name v) = Ok text.

Class DecryptableReader `{PyFloat} `{Aead} (e : SecretEncryptor.t) (ER Op : Type)
    `{EnvironmentReader ER Op} : Prop :=
  er_decrypts : forall i n er r, st_wf er -> er_get_revision i n er = Ok r -> decrypts e r.

Definition category_of (c : SecretReference.Category) : ConfigurationCategory.t :=
  match c with
  | SecretReference.environment_variable => ConfigurationCategory.ENVIRONMENT_VARIABLE
  | SecretReference.common_parameter => ConfigurationCategory.COMMON_PARAMETER
  end.

(** A place of a secret: category, name and reference. *)
Definition identity : Type := ConfigurationCategory.t * string * uuid.
Definition identity_of (r : SecretReference.t) : identity :=
  (category_of (SecretReference.category r), SecretReference.name r, SecretReference.secret_ref r).

(** The order of the sort key [(category, name, str(secret_ref))]. *)
Definition str_ltb (a b : string) : bool := str_leb a b && negb (bool_decide (a = b)).
Definition reference_leb (a b : SecretReference.t) : bool :=
  let ca := ConfigurationCategory.value (category_of (SecretReference.category a)) in
  let cb := ConfigurationCategory.value (category_of (SecretReference.category b)) in
  str_ltb ca cb
  || bool_decide (ca = cb)
     && (str_ltb (SecretReference.name a) (SecretReference.name b)
         || bool_decide (SecretReference.name a = SecretReference.name b)
            && str_leb (uuid_str (SecretReference.secret_ref a)) (uuid_str (SecretReference.secret_ref b))).

Definition canonical_secret_references (references : list SecretReference.t)
    : res (list SecretReference.t) :=
  if negb (unique (map identity_of references)) then Err EnvironmentConflict
  else Ok (py_sorted reference_leb references).

(** [requested.issubset(available)]. *)
Definition subset {A} `{EqDecision A} (xs ys : list A) : bool :=
  forallb (fun x => bool_decide (x ∈ ys)) xs.

Module ConfigurationResolver.
Section resolver.
  Context `{PyFloat} `{Aead} {ER Op : Type} `{EnvironmentReader ER Op}.
  Context (_repository : ER) (_encryptor : SecretEncryptor.t).

Definition decrypt_value (record : EnvironmentRecord.t) (x : EncryptedSecret.t)
    (value : ConfigurationValue.t) : res string :=
  SecretEncryptor.decrypt _encryptor x (EnvironmentRecord.project_id record)
    (EnvironmentRecord.id record) (EnvironmentRecord.revision record)
    (ConfigurationValue.category value) (ConfigurationValue.name value).

Definition active_record (project_id environment_id : uuid) (revision : Z) : res EnvironmentRecord.t :=
  let? record := er_get_revision environment_id revision _repository in
  if negb (bool_decide (EnvironmentRecord.project_id record = project_id)) then Err EnvironmentNotFound
  else if negb (bool_decide (EnvironmentRecord.status record = EnvironmentStatus.ACTIVE))
  then Err EnvironmentConflict
  else Ok record.

(** [variables], [parameters] and [matched] while [snapshot] walks the values. *)
Definition bindings : Type := pydict string pyval * pydict string pyval * list identity.

Definition bind_value (c : ConfigurationCategory.t) (name : string) (v : pyval) (b : bindings) : bindings :=
  match c with
  | ConfigurationCategory.ENVIRONMENT_VARIABLE => (<[name:=v]> b.1.1, b.1.2, b.2)
  | ConfigurationCategory.COMMON_PARAMETER => (b.1.1, <[name:=v]> b.1.2, b.2)
  end.

(** The identity of a secret value, with [None] for a missing reference. *)
Definition value_identity (v : ConfigurationValue.t) : option identity :=
  match ConfigurationValue.secret_ref v with
  | Some ref => Some (ConfigurationValue.category v, ConfigurationValue.name v, ref)
  | None => None
  end.

Definition snapshot_value (record : EnvironmentRecord.t) (requested : list identity)
    (b : bindings) (value : ConfigurationValue.t) : res bindings :=
  let c := ConfigurationValue.category value in
  let name := ConfigurationValue.name value in
  if negb (ConfigurationValue.secret value) then Ok (bind_value c name (ConfigurationValue.value value) b)
  else
    match value_identity value with
    | None => Ok b
    | Some identity =>
        if negb (bool_decide (identity ∈ requested)) then Ok b
        else
          match ConfigurationValue.encrypted value with
          | None => Err EnvironmentConflict
          | Some x =>
              let? text := decrypt_value record x value in
              let b := bind_value c name (PStr text) b in
              Ok (b.1, identity :: b.2)
          end
    end.

Definition snapshot (project_id environment_id : uuid) (revision : Z)
    (secret_references : list SecretReference.t) : res ConfigurationSnapshot.t :=
  let? record := active_record project_id environment_id revision in
  let requested := map identity_of secret_references in
  let? b := rfold (snapshot_value record requested) (∅, ∅, []) (EnvironmentRecord.values record) in
  if negb (subset b.2 requested && subset requested b.2) then Err EnvironmentConflict
  else Ok (ConfigurationSnapshot.mk (EnvironmentRecord.id record) (EnvironmentRecord.revision record)
             b.1.1 b.1.2).

Definition _validated_record (project_id environment_id : uuid) (revision : Z)
    (secret_references : list SecretReference.t) : res (EnvironmentRecord.t * list SecretReference.t) :=
  let? record := active_record project_id environment_id revision in
  let? canonical := canonical_secret_references secret_references in
  Ok (record, canonical).

(** The comprehension over the secrets that have a reference and a ciphertext. *)
Definition available_secrets (record : EnvironmentRecord.t)
    : list (identity * (ConfigurationValue.t * EncryptedSecret.t)) :=
  omap (fun v =>
    match value_identity v, ConfigurationValue.encrypted v with
    | Some i, Some x => if ConfigurationValue.secret v then Some (i, (v, x)) else None
    | _, _ => None
    end) (EnvironmentRecord.values record).

Definition validate_secret_references (project_id environment_id : uuid) (revision : Z)
    (secret_references : list SecretReference.t) : res (list SecretReference.t) :=
  let? '(record, canonical) := _validated_record project_id environment_id revision secret_references in
  let available := map fst (available_secrets record) in
  let requested := map identity_of canonical in
  if negb (subset requested available)
     || negb (length (remove_dups requested) =? length canonical)%nat
  then Err EnvironmentConflict
  else Ok canonical.

Definition resolve_secret_values (project_id environment_id : uuid) (revision : Z)
    (secret_references : list SecretReference.t) : res (list ResolvedSecretValue.t) :=
  let? '(record, canonical) := _validated_record project_id environment_id revision secret_references in
  let values := of_pairs (available_secrets record) in
  if existsb (fun item => negb (has_key (identity_of item) values)) canonical
  then Err EnvironmentConflict
  else
    rmap (fun reference =>
      let? '(value, x) := subscript (identity_of reference) values in
      let? text := decrypt_value record x value in
      Ok (ResolvedSecretValue.mk (ConfigurationValue.category value) (ConfigurationValue.name value)
            (SecretReference.secret_ref reference) text)) canonical.
End resolver.
End ConfigurationResolver.
