(* ===== verification/EnvironmentTheorems.v ===== *)
(** * Theorems about environments *)
From S2P Require Import Prelude PyDict PyText Protocol Versioned EnvironmentCrypto Environments.
Import EnvironmentRepository.
Open Scope list_scope.

(** ** Validation *)

Section validation.
  Context `{PyFloat} `{Aead}.

(** What [validate_value] accepts. *)
Definition input_ok (c : ConfigurationCategory.t) (item : ConfigurationValueInput.t) : Prop :=
  match ConfigurationValueInput.secret item, ConfigurationValueInput.secret_ref item with
  | true, None => exists s, ConfigurationValueInput.value item = PStr s
  | true, Some _ => ConfigurationValueInput.value item = PNone
  | false, Some _ => False
  | false, None => c = ConfigurationCategory.ENVIRONMENT_VARIABLE ->
                   TaskEnvelope.is_str (ConfigurationValueInput.value item) = true
  end
  /\ exists l, encoded_value (ConfigurationValueInput.value item) = Ok l /\ (Z.of_nat (length l) <= MAX_VALUE_BYTES)%Z.

Lemma is_str_Some v : TaskEnvelope.is_str v = true <-> exists s, v = PStr s.
Proof. destruct v; simpl; naive_solver. Qed.

Lemma validate_value_Ok c item : validate_value c item = Ok tt <-> input_ok c item.
Proof.
  unfold validate_value, input_ok.
  assert (forall u, rbind (encoded_value (ConfigurationValueInput.value item)) (fun encoded =>
      if (MAX_VALUE_BYTES <? Z.of_nat (length encoded))%Z
      then Err (ValueError "configuration values cannot exceed 65536 bytes") else Ok tt) = Ok u <->
    exists l, encoded_value (ConfigurationValueInput.value item) = Ok l
              /\ (Z.of_nat (length l) <= MAX_VALUE_BYTES)%Z) as Hlen.
  { intros []. rewrite rbind_Ok. split; intros (l & Hl & Hn); exists l; (split; [done |]).
    - case_match eqn:E; [done |]. by apply Z.ltb_ge in E.
    - apply Z.ltb_ge in Hn. by rewrite Hn. }
  rewrite rbind_Ok. setoid_rewrite Hlen.
  destruct (ConfigurationValueInput.secret item), (ConfigurationValueInput.secret_ref item).
  - case_bool_decide; simpl; split; [intros (? & ? & ?); eauto | intros [? ?]; eauto | by intros (? & ? & _) |
      by intros [? _]].
  - rewrite <- is_str_Some. destruct (TaskEnvelope.is_str _); simpl; split; [intros (? & ? & ?); eauto | intros [? ?]; eauto |
      by intros (? & ? & _) | by intros [? _]].
  - split; [by intros (? & ? & _) | by intros [? _]].
  - case_bool_decide as Hc; destruct (TaskEnvelope.is_str _); simpl; split; try (by intros (? & ? & _));
      try (intros (? & ? & ?); eauto; fail); try (intros [? ?]; eauto; fail).
    intros [Hs _]. by specialize (Hs Hc).
Qed.

Lemma validate_items_Ok c names items :
  validate_items c names items = Ok tt <->
  Forall (fun i => (if bool_decide (c = ConfigurationCategory.ENVIRONMENT_VARIABLE)
                    then ENV_KEY_PATTERN else KEY_PATTERN) (ConfigurationValueInput.name i) = true
                   /\ input_ok c i) items
  /\ NoDup (map ConfigurationValueInput.name items)
  /\ forall i, i ∈ items -> ConfigurationValueInput.name i ∉ names.
Proof.
  revert names. induction items as [|i items IH]; intros names; simpl.
  { split; [intros _ | done]. split_and!; [constructor | constructor | by intros ? ?%elem_of_nil]. }
  set (pat := if bool_decide _ then _ else _) in *.
  rewrite Forall_cons, NoDup_cons. setoid_rewrite elem_of_cons.
  destruct (pat (ConfigurationValueInput.name i)) eqn:Ep; simpl.
  2: { split; [done |]. intros ([[? _] _] & _). congruence. }
  case_bool_decide as Hin.
  { split; [done |]. intros (_ & _ & Hn). destruct (Hn i); auto. }
  rewrite rbind_Ok. setoid_rewrite IH. setoid_rewrite elem_of_cons. split.
  - intros ([] & Hv%validate_value_Ok & Hall & Hnd & Hn). split_and!; try done.
    + intros Hx. apply list_elem_of_In, in_map_iff in Hx as (j & Hj & Hjin%list_elem_of_In).
      apply (Hn j Hjin). by left.
    + intros j [->|Hj]; [done |]. intros Hx. apply (Hn j Hj). by right.
  - intros ([[_ Hv] Hall] & [Hni Hnd] & Hn). exists tt. split; [by apply validate_value_Ok |].
    split_and!; try done. intros j Hj [Hx|Hx]; [| by apply (Hn j); auto].
    apply Hni. rewrite <- Hx. apply list_elem_of_In, in_map. by apply list_elem_of_In.
Qed.

Lemma validate_inputs_Ok c items :
  validate_inputs c items = Ok tt -> (length items <= MAX_VALUES_PER_CATEGORY)%nat
  /\ Forall (input_ok c) items /\ NoDup (map ConfigurationValueInput.name items).
Proof.
  unfold validate_inputs. destruct (_ <? _)%nat eqn:E; [done |]. apply Nat.ltb_ge in E.
  intros (Hall & Hnd & _)%validate_items_Ok. split_and!; try done.
  eapply Forall_impl; [exact Hall |]. by intros ? [_ ?].
Qed.
End validation.

(** ** Building values *)

Section building.
  Context `{PyFloat} `{Aead} `{!AeadLaws _}.
  Context (e : SecretEncryptor.t).

(** [v] is the value of [item] in the place [p], [i], [n]: public values are copied; a
    secret decrypts in its new place to the text that was given, or to the text that the
    referenced secret of the previous revision decrypts to in its old place. *)
Definition carried (previous : option EnvironmentRecord.t) (p i : uuid) (n : Z)
    (c : ConfigurationCategory.t) (item : ConfigurationValueInput.t) (v : ConfigurationValue.t) : Prop :=
  let name := ConfigurationValueInput.name item in
  if ConfigurationValueInput.secret item then
    exists ref x text, v = ConfigurationValue.sealed c name ref x
      /\ SecretEncryptor.decrypt e x p i n c name = Ok text
      /\ match ConfigurationValueInput.secret_ref item with
         | None => ConfigurationValueInput.value item = PStr text
         | Some old => exists r y, previous = Some r
             /\ ConfigurationValue.sealed c name old y ∈ EnvironmentRecord.values r
             /\ SecretEncryptor.decrypt e y (EnvironmentRecord.project_id r) (EnvironmentRecord.id r)
                  (EnvironmentRecord.revision r) c name = Ok text
         end
  else v = ConfigurationValue.public c name (ConfigurationValueInput.value item).

Lemma encrypt_text d v p i n c name x :
  SecretEncryptor.encrypt e d v p i n c name = Ok x -> exists text, v = PStr text.
Proof.
  unfold SecretEncryptor.encrypt. intros ([key kid] & _ & Hx)%rbind_Ok.
  apply rbind_Ok in Hx as (aad & _ & Hx). apply rbind_Ok in Hx as (pl & Hpl & _).
  destruct v; try done. eauto.
Qed.

Lemma build_items_Ok entropy p i n previous c k inputs k' vs :
  (forall r, previous = Some r -> Forall value_shape (EnvironmentRecord.values r)) ->
  build_items e entropy p i n previous c k inputs = Ok (k', vs) ->
  Forall2 (carried previous p i n c) inputs vs.
Proof.
  intros Hprev. revert k k' vs. induction inputs as [|item inputs IH]; intros k k' vs; simpl.
  { intros [= _ <-]. constructor. }
  intros ([k1 v] & Hv & Hrest)%rbind_Ok. apply rbind_Ok in Hrest as ([k2 vs'] & Hrest & Hx).
  injection Hx as <- <-. constructor; [| by eapply IH]. clear IH Hrest. unfold carried.
  destruct (ConfigurationValueInput.secret item); simpl in Hv; [| congruence].
  apply rbind_Ok in Hv as (pv & Hpv & Hv). apply rbind_Ok in Hv as (x & Hx & [= _ <-]).
  destruct (encrypt_text _ _ _ _ _ _ _ _ Hx) as (text & ->).
  exists (entropy k).2, x, text. split; [done |]. split; [by eapply decrypt_encrypt |].
  unfold plaintext_of in Hpv. destruct (ConfigurationValueInput.secret_ref item) as [old|]; [| congruence].
  destruct previous as [r|]; [| done]. specialize (Hprev r eq_refl).
  destruct (List.find _ _) as [src|] eqn:Ef; [| done]. apply find_some in Ef as [Hin Hm].
  apply list_elem_of_In in Hin. unfold matches_source in Hm. bool_prop.
  destruct (ConfigurationValue.encrypted src) as [y|] eqn:Ey; [| done].
  apply rbind_Ok in Hpv as (text' & Hd & [= ->]). exists r, y. rewrite Forall_forall in Hprev.
  destruct (Hprev _ Hin) as [(ref' & x' & Hs)|[Hs _]]; rewrite Hs in *; simpl in *; simplify_eq.
  split_and!; congruence.
Qed.
End building.

(** ** The repository as a store of its encryptor *)

Definition environment_next (r r' : EnvironmentRecord.t) : Prop :=
  EnvironmentRecord.id r' = EnvironmentRecord.id r
  /\ EnvironmentRecord.project_id r' = EnvironmentRecord.project_id r
  /\ EnvironmentRecord.created_at r' = EnvironmentRecord.created_at r
  /\ EnvironmentRecord.revision r' = (EnvironmentRecord.revision r + 1)%Z
  /\ EnvironmentRecord.state_version r' = (EnvironmentRecord.state_version r + 1)%Z
  /\ validate_environment_transition (EnvironmentRecord.status r) (EnvironmentRecord.status r') = Ok tt.

#[export,refine] Instance environment_revisioned : Revisioned EnvironmentRecord.t := {|
  rv_id := EnvironmentRecord.id; rv_revision := EnvironmentRecord.revision;
  rv_version := EnvironmentRecord.state_version; rv_next := environment_next; rv_next_spec := _ |}.
Proof. unfold environment_next. naive_solver. Defined.

Definition environment_key (r : EnvironmentRecord.t) : uuid * string :=
  (EnvironmentRecord.project_id r, EnvironmentRecord.name r).

(** The calls; the encryptor is a parameter so that it names the store. *)
Inductive environment_op (e : SecretEncryptor.t) : Type :=
  | OpCreateEnvironment (now : datetime) (fresh : uuid) (entropy : nat -> Draw.t * uuid)
      (project_id : uuid) (name : string)
      (environment_variables common_parameters : list ConfigurationValueInput.t)
  | OpUpdateEnvironment (now : datetime) (entropy : nat -> Draw.t * uuid) (i : uuid) (expected : Z)
      (name : string) (status : EnvironmentStatus.t)
      (environment_variables common_parameters : list ConfigurationValueInput.t).

Section store.
  Context `{PyFloat} `{A : Aead} `{!AeadLaws A} (e : SecretEncryptor.t).

Definition environment_step (o : environment_op e) (s : t) : t :=
  match o with
  | OpCreateEnvironment _ now f en p n ev cp => (create_environment e now f en p n ev cp s).2
  | OpUpdateEnvironment _ now en i v n st ev cp => (update_environment e now en i v n st ev cp s).2
  end.

Definition environment_fresh (o : environment_op e) (s : t) : Prop :=
  match o with
  | OpCreateEnvironment _ _ f _ _ _ _ _ => _environments s !! f = None
  | _ => True
  end.

Record environment_wf (s : t) : Prop := {
  ew_versioned : versioned (_environments s) (_revisions s);
  ew_index : indexed environment_key (_environments s) (_names s);
  ew_values : forall i l r, _revisions s !! i = Some l -> r ∈ l -> values_shape r /\ decrypts e r }.

Definition environment_evolves (s s' : t) : Prop := grows (_revisions s) (_revisions s').

#[export] Instance environment_evolves_preorder : PreOrder environment_evolves.
Proof. split; [intros s | intros a b c]; unfold environment_evolves; [done | by etrans]. Qed.

(** What the two halves of a build give together. *)
Lemma build_Ok en p i n ev cp previous vs :
  (forall r, previous = Some r -> Forall value_shape (EnvironmentRecord.values r)) ->
  build_configuration_values e en p i n ev cp previous = Ok vs ->
  exists vs1 vs2, vs = vs1 ++ vs2
    /\ Forall2 (carried e previous p i n ConfigurationCategory.ENVIRONMENT_VARIABLE) ev vs1
    /\ Forall2 (carried e previous p i n ConfigurationCategory.COMMON_PARAMETER) cp vs2
    /\ validate_inputs ConfigurationCategory.ENVIRONMENT_VARIABLE ev = Ok tt
    /\ validate_inputs ConfigurationCategory.COMMON_PARAMETER cp = Ok tt.
Proof.
  intros Hp. unfold build_configuration_values.
  intros ([] & Hv1 & Hb)%rbind_Ok. apply rbind_Ok in Hb as ([k vs1] & Hb1 & Hb).
  apply rbind_Ok in Hb as ([] & Hv2 & Hb). apply rbind_Ok in Hb as ([k' vs2] & Hb2 & [= <-]).
  exists vs1, vs2. split_and!; try done; by eapply build_items_Ok.
Qed.

Lemma carried_key previous p i n c item v :
  carried e previous p i n c item v -> value_key v = (c, ConfigurationValueInput.name item).
Proof.
  unfold carried, value_key. destruct (ConfigurationValueInput.secret item); [| by intros ->].
  by intros (ref & x & text & -> & _).
Qed.

Lemma carried_shape previous p i n c items vs :
  Forall2 (carried e previous p i n c) items vs -> validate_inputs c items = Ok tt ->
  Forall value_shape vs /\ NoDup (map value_key vs) /\ Forall (fun v => ConfigurationValue.category v = c) vs
  /\ forall v x, v ∈ vs -> ConfigurationValue.encrypted v = Some x ->
       exists text, SecretEncryptor.decrypt e x p i n (ConfigurationValue.category v)
                      (ConfigurationValue.name v) = Ok text.
Proof.
  intros HF (_ & Hok & Hnd)%validate_inputs_Ok.
  assert (map value_key vs = map (pair c) (map ConfigurationValueInput.name items)) as Hkeys.
  { clear Hok Hnd. induction HF as [|item v items vs Hv HF IH]; simpl; [done |].
    rewrite IH. f_equal. by eapply carried_key. }
  split_and!.
  - clear Hnd Hkeys. induction HF as [|item v items vs Hv HF IH]; [constructor |].
    apply Forall_cons in Hok as [[Hk _] Hok]. constructor; [| auto]. unfold carried in Hv.
    destruct (ConfigurationValueInput.secret item) eqn:Hs.
    + destruct Hv as (ref & x & text & -> & _). left. by exists ref, x.
    + right. subst v. simpl. split; [done |]. by destruct (ConfigurationValueInput.secret_ref item).
  - rewrite Hkeys. by apply (NoDup_fmap_2 (pair c)) in Hnd.
  - clear Hnd Hkeys Hok. induction HF as [|item v items vs Hv HF IH]; [constructor |].
    constructor; [| done]. apply carried_key in Hv. unfold value_key in Hv. congruence.
  - clear Hnd Hkeys Hok. intros v x Hin Hx. apply list_elem_of_lookup in Hin as [j Hj].
    destruct (Forall2_lookup_r _ _ _ _ _ HF Hj) as (item & _ & Hv). unfold carried in Hv.
    destruct (ConfigurationValueInput.secret item); [| by subst v].
    destruct Hv as (ref & y & text & -> & Hd & _). simpl in *. simplify_eq. eauto.
Qed.

Lemma built_good en p i n ev cp previous vs r :
  (forall r, previous = Some r -> Forall value_shape (EnvironmentRecord.values r)) ->
  build_configuration_values e en p i n ev cp previous = Ok vs ->
  EnvironmentRecord.project_id r = p -> EnvironmentRecord.id r = i -> EnvironmentRecord.revision r = n ->
  EnvironmentRecord.values r = vs -> values_shape r /\ decrypts e r.
Proof.
  intros Hprev Hb <- <- <- <-. apply build_Ok in Hb as (vs1 & vs2 & Hvs & H1 & H2 & Hv1 & Hv2); [| done].
  destruct (carried_shape _ _ _ _ _ _ _ H1 Hv1) as (S1 & N1 & C1 & D1).
  destruct (carried_shape _ _ _ _ _ _ _ H2 Hv2) as (S2 & N2 & C2 & D2).
  unfold values_shape, decrypts. rewrite Hvs. split; [split |].
  - by apply Forall_app.
  - rewrite map_app. apply NoDup_app. split_and!; [done | | done].
    intros k Hk1 Hk2. apply list_elem_of_In, in_map_iff in Hk1 as (v1 & <- & Hk1%list_elem_of_In).
    apply list_elem_of_In, in_map_iff in Hk2 as (v2 & Hk & Hk2%list_elem_of_In).
    rewrite Forall_forall in C1, C2. unfold value_key in Hk. apply C1 in Hk1. apply C2 in Hk2. congruence.
  - intros v x [Hin|Hin]%elem_of_app Hx; [by eapply D1 | by eapply D2].
Qed.
(** [update_environment] succeeds like this. *)
Lemma update_environment_Ok now en i v n st ev cp s r' s' :
  versioned (_environments s) (_revisions s) -> indexed environment_key (_environments s) (_names s) ->
  update_environment e now en i v n st ev cp s = (Ok r', s') ->
  exists nm r l vs, validate_environment_name n = Ok nm /\ _environments s !! i = Some r
    /\ _revisions s !! i = Some l /\ EnvironmentRecord.state_version r = v
    /\ (_names s !! environment_key r' = None \/ _names s !! environment_key r' = Some i)
    /\ build_configuration_values e en (EnvironmentRecord.project_id r) (EnvironmentRecord.id r)
         (EnvironmentRecord.revision r + 1) ev cp (Some r) = Ok vs
    /\ EnvironmentRecord.update now r nm st vs = Ok r'
    /\ s' = mk (<[i:=r']> (_environments s)) (<[i:=l ++ [r']]> (_revisions s))
              (if bool_decide (environment_key r' = environment_key r) then _names s
               else <[environment_key r':=i]> (delete (environment_key r) (_names s))).
Proof.
  intros V I. unfold update_environment, get_environment, bind, get, put, ret, raise, lift.
  destruct (validate_environment_name n) as [nm|]; cbn [fst snd]; [| done].
  destruct (_environments s !! i) as [r|] eqn:Er; cbn [fst snd]; [| done].
  destruct (EnvironmentRecord.state_version r =? v)%Z eqn:Ev; cbn [negb]; [| done]. apply Z.eqb_eq in Ev.
  destruct (validate_environment_transition _ st) as [[]|] eqn:Et; [| done].
  destruct (match _names s !! _ with Some _ => _ | None => _ end) eqn:Eo; [done |].
  destruct (build_configuration_values _ _ _ _ _ _ _ _) as [vs|] eqn:Eb; [| done].
  destruct (EnvironmentRecord.update now r nm st vs) as [u|] eqn:Eu; [| done].
  assert (environment_key u = (EnvironmentRecord.project_id r, nm)) as Hk.
  { apply rbind_Ok in Eu as ([] & _ & [= <-]). done. }
  destruct (vs_current _ _ V _ _ Er) as (h & Hh).
  pose proof (indexed_owner _ _ _ _ _ I Er) as Hown. unfold environment_key in Hown.
  unfold subscript. rewrite Hown. intros Hx.
  exists nm, r, (h ++ [r]), vs.
  case_bool_decide as Hn; cbn [negb _environments _revisions _names] in Hx; rewrite Hh in Hx; simplify_eq;
    (split_and!; [done | done | done | done | | done | done |]); rewrite Hk.
  - right. done.
  - unfold environment_key. by rewrite bool_decide_true.
  - destruct (_names s !! _) as [o|]; [right | by left]. bool_prop. by subst.
  - unfold environment_key. rewrite bool_decide_false by congruence. done.
Qed.

Lemma update_environment_err now en i v n st ev cp s er s' :
  versioned (_environments s) (_revisions s) -> indexed environment_key (_environments s) (_names s) ->
  update_environment e now en i v n st ev cp s = (Err er, s') -> s' = s.
Proof.
  intros V I. unfold update_environment, get_environment, bind, get, put, ret, raise, lift.
  destruct (validate_environment_name n) as [nm|]; cbn [fst snd]; [| congruence].
  destruct (_environments s !! i) as [r|] eqn:Er; cbn [fst snd]; [| congruence].
  destruct (negb _); [congruence |].
  destruct (validate_environment_transition _ st) as [[]|]; [| congruence].
  destruct (match _names s !! _ with Some _ => _ | None => _ end); [congruence |].
  destruct (build_configuration_values _ _ _ _ _ _ _ _) as [vs|]; [| congruence].
  destruct (EnvironmentRecord.update now r nm st vs) as [u|]; [| congruence].
  destruct (vs_current _ _ V _ _ Er) as (h & Hh).
  pose proof (indexed_owner _ _ _ _ _ I Er) as Hown. unfold environment_key in Hown.
  unfold subscript. rewrite Hown, Hh. by destruct (negb _).
Qed.

Lemma environment_update_fields now r nm st vs r' :
  EnvironmentRecord.update now r nm st vs = Ok r' ->
  environment_next r r' /\ EnvironmentRecord.values r' = vs /\ EnvironmentRecord.name r' = nm
  /\ EnvironmentRecord.status r' = st.
Proof. intros ([] & Ht & [= <-])%rbind_Ok. by split_and!. Qed.

Lemma store_good s i r l names :
  environment_wf s -> versioned (<[i:=r]> (_environments s)) (<[i:=l ++ [r]]> (_revisions s)) ->
  grows (_revisions s) (<[i:=l ++ [r]]> (_revisions s)) ->
  indexed environment_key (<[i:=r]> (_environments s)) names ->
  (l = [] \/ _revisions s !! i = Some l) -> values_shape r /\ decrypts e r ->
  environment_wf (mk (<[i:=r]> (_environments s)) (<[i:=l ++ [r]]> (_revisions s)) names).
Proof.
  intros W V G I Hl Hr. split; [done | done |]. simpl. intros j h x Hh Hx. dict_case.
  - apply elem_of_app in Hx as [Hx|Hx]; [| by apply list_elem_of_singleton in Hx as ->].
    destruct Hl as [->|Hl]; [by apply elem_of_nil in Hx |]. by apply (ew_values _ W _ _ _ Hl).
  - by apply (ew_values _ W _ _ _ Hh).
Qed.

Lemma environment_step_good o s :
  environment_wf s -> environment_fresh o s ->
  environment_wf (environment_step o s) /\ environment_evolves s (environment_step o s).
Proof.
  intros W Hf. destruct o as [now f en p n ev cp|now en i v n st ev cp]; simpl in *.
  - unfold create_environment, environment_evolves, has_key. st_call; simplify_eq; try done. bool_prop.
    match goal with Hb : build_configuration_values _ _ _ _ _ _ _ _ = Ok ?vs |- _ =>
      rename vs into vals; rename Hb into Hbuild end.
    set (r := EnvironmentRecord.mk _ _ _ _ _ _ _ _ _).
    destruct (versioned_create _ _ f r (ew_versioned _ W) Hf) as [V G]; [done.. |].
    split; [| done]. apply (store_good _ _ _ [] _ W V G); [| by left |].
    + apply (indexed_create environment_key _ _ f r); [apply W | done |]. by apply eq_None_not_Some.
    + by apply (built_good _ _ _ _ _ _ None _ r ltac:(done) Hbuild).
  - destruct (update_environment e now en i v n st ev cp s) as [[r'|er] s'] eqn:Eu; simpl.
    + apply update_environment_Ok in Eu as (nm & r & l & vs & Hn & Hr & Hl & Hv & Ho & Hb & Hu & ->);
        [| apply W..].
      destruct (environment_update_fields _ _ _ _ _ _ Hu) as (Hnext & Hvs & _).
      destruct (versioned_update _ _ _ _ _ _ (ew_versioned _ W) Hr Hl Hnext) as [V G].
      split; [| done]. apply (store_good _ _ _ _ _ W V G); [| by right |].
      * by apply indexed_update; [apply W | |].
      * destruct Hnext as (Hi & Hp & _ & Hrev & _).
        eapply built_good; [| exact Hb | done..]. intros r0 [= <-].
        destruct (vs_current _ _ (ew_versioned _ W) _ _ Hr) as (h & Hh).
        assert (r ∈ h ++ [r]) as Hin by (apply elem_of_app; right; by left).
        apply (ew_values _ W _ _ _ Hh Hin).
    + apply update_environment_err in Eu as ->; [by split | apply W..].
Qed.

#[export,refine] Instance environment_store : Store t (environment_op e) := {|
  st_init := init; st_op := environment_step; st_fresh := environment_fresh; st_wf := environment_wf;
  st_evolves := environment_evolves; st_op_good := environment_step_good; st_init_wf := _ |}.
Proof. split; [apply versioned_empty | apply indexed_empty | done]. Defined.

Lemma environment_revision_Ok i n s s' r :
  versioned (_environments s) (_revisions s) ->
  get_revision i n s = (Ok r, s') <->
  s' = s /\ exists l, _revisions s !! i = Some l /\ (1 <= n)%Z /\ l !! Z.to_nat (n - 1) = Some r.
Proof.
  intros V. unfold get_revision, get_environment, bind, get, lift, subscript.
  destruct (_environments s !! i) as [r0|] eqn:Er; cbn [fst snd].
  - destruct (vs_current _ _ V _ _ Er) as (l & Hl). rewrite Hl. cbn [fst snd].
    rewrite numbered_Ok. naive_solver.
  - split; [done |]. intros (_ & l & Hl & _). apply (vs_known _ _ V) in Hl as [? ?]. congruence.
Qed.

Lemma get_revision_pure i n s : versioned (_environments s) (_revisions s) -> (get_revision i n s).2 = s.
Proof.
  intros V. unfold get_revision, get_environment, bind, get, lift, raise, ret.
  destruct (_environments s !! i); cbn [fst snd]; [| done].
  destruct (subscript i (_revisions s)); cbn [fst snd]; [| done]. repeat case_match; done.
Qed.

#[export,refine] Instance environment_reader : EnvironmentReader t (environment_op e) := {|
  er_store := environment_store; er_get_revision i n s := (get_revision i n s).1 |}.
Proof.
  - intros i n s r W. destruct (get_revision i n s) as [x s'] eqn:E. simpl. intros ->.
    apply environment_revision_Ok in E as (_ & l & Hl & Hn & Hr); [| apply W].
    pose proof (vs_history _ _ (ew_versioned _ W) _ _ Hl) as Hh. split_and!.
    + by apply (hs_id _ _ Hh _ _ Hr).
    + pose proof (hs_revision _ _ Hh _ _ Hr) as Hx. simpl in Hx. lia.
    + apply (ew_values _ W _ _ _ Hl). by eapply list_elem_of_lookup_2.
  - intros i n s s' r W W' E. destruct (get_revision i n s) as [x s1] eqn:Ex. simpl. intros ->.
    apply environment_revision_Ok in Ex as (_ & l & Hl & Hn & Hr); [| apply W].
    destruct (E _ _ Hl) as (more & Hm).
    assert (get_revision i n s' = (Ok r, s')) as ->; [| done].
    apply environment_revision_Ok; [apply W' |]. split; [done |]. exists (l ++ more).
    split_and!; [done | done |]. by apply lookup_app_l_Some.
Defined.

#[export] Instance environment_decryptable : DecryptableReader e t (environment_op e).
Proof.
  intros i n s r W. simpl. destruct (get_revision i n s) as [x s'] eqn:E. simpl. intros ->.
  apply environment_revision_Ok in E as (_ & l & Hl & Hn & Hr); [| apply W].
  apply (ew_values _ W _ _ _ Hl). by eapply list_elem_of_lookup_2.
Qed.
End store.
