(* ===== verification/ResolverTheorems.v ===== *)
(** * Theorems about environments and the resolver of pinned revisions *)
From S2P Require Import Prelude PyDict PyText Protocol Versioned EnvironmentCrypto Environments EnvironmentTheorems.
Open Scope list_scope.

Section updates.
  Context `{PyFloat} `{A : Aead} `{!AeadLaws A} (e : SecretEncryptor.t).
  Import EnvironmentRepository.

(** An update carries the configuration over: it succeeds only at the expected
    version; every public value is stored as given, every secret decrypts in its new
    place (new revision number) to the text that was given or to the text the referenced
    secret of the current revision decrypts to; the new revision is readable under its
    number, no readable revision changes, and a refused update changes nothing. *)
Theorem environment_update_carries now en i v n st ev cp s :
  st_reachable (H:=environment_store e) s ->
  match update_environment e now en i v n st ev cp s with
  | (Err _, s') => s' = s
  | (Ok r', s') => exists r vs1 vs2,
      get_environment i s = (Ok r, s) /\ EnvironmentRecord.state_version r = v
      /\ environment_next r r' /\ EnvironmentRecord.values r' = vs1 ++ vs2
      /\ Forall2 (carried e (Some r) (EnvironmentRecord.project_id r') i (EnvironmentRecord.revision r')
           ConfigurationCategory.ENVIRONMENT_VARIABLE) ev vs1
      /\ Forall2 (carried e (Some r) (EnvironmentRecord.project_id r') i (EnvironmentRecord.revision r')
           ConfigurationCategory.COMMON_PARAMETER) cp vs2
      /\ get_revision i (EnvironmentRecord.revision r') s' = (Ok r', s')
      /\ forall m x, get_revision i m s = (Ok x, s) -> get_revision i m s' = (Ok x, s')
  end.
Proof.
  intros W%st_reachable_wf. simpl in W.
  destruct (update_environment e now en i v n st ev cp s) as [[r'|er] s'] eqn:Eu;
    [| eapply update_environment_err; [apply W | apply W | exact Eu]].
  destruct (environment_step_good e (OpUpdateEnvironment e now en i v n st ev cp) s W I) as [W' G].
  simpl in W', G. rewrite Eu in W', G. simpl in W', G.
  apply update_environment_Ok in Eu as (nm & r & l & vs & Hn & Hr & Hl & Hv & Ho & Hb & Hu & Hs');
    [| apply W..].
  destruct (environment_update_fields _ _ _ _ _ _ Hu) as (Hnext & Hvs & _).
  assert (EnvironmentRecord.id r = i /\ EnvironmentRecord.revision r = Z.of_nat (length l)) as [Hid Hrev].
  { by destruct (versioned_version _ _ _ _ _ (ew_versioned _ _ W) Hr Hl) as (? & ? & _). }
  apply build_Ok in Hb as (vs1 & vs2 & -> & H1 & H2 & _).
  2: { intros r0 [= <-]. destruct (vs_current _ _ (ew_versioned _ _ W) _ _ Hr) as (h & Hh).
       apply (ew_values _ _ W _ _ r Hh). apply elem_of_app. right. by left. }
  pose proof Hnext as (Hid' & Hp' & _ & Hrev' & _).
  rewrite Hid in H1, H2. exists r, vs1, vs2. rewrite Hp', Hrev'. split_and!; try done.
  - unfold get_environment. by rewrite Hr.
  - apply environment_revision_Ok; [apply W' |]. split; [done |]. subst s'. simpl.
    exists (l ++ [r']). rewrite dict_lookup_insert_eq. split_and!; [done | lia |].
    rewrite Hrev. replace (Z.to_nat (Z.of_nat (length l) + 1 - 1)) with (length l) by lia.
    by apply list_lookup_middle.
  - intros m x Hx. apply environment_revision_Ok in Hx as (_ & h & Hh & Hm & Hx); [| apply W].
    destruct (G _ _ Hh) as (more & Hmore).
    apply environment_revision_Ok; [apply W' |]. split; [done |]. exists (h ++ more).
    split_and!; [done | done |]. by apply lookup_app_l_Some.
Qed.
End updates.

(** ** The resolver *)

Import ConfigurationResolver.

Definition secret_of (r : EnvironmentRecord.t) (i : identity) (x : EncryptedSecret.t) : Prop :=
  ConfigurationValue.sealed i.1.1 i.1.2 i.2 x ∈ EnvironmentRecord.values r.

(** Every reference names a secret of the revision. *)
Definition references_match (r : EnvironmentRecord.t) (refs : list SecretReference.t) : Prop :=
  forall ref, ref ∈ refs -> exists x, secret_of r (identity_of ref) x.

Lemma elem_of_available r i v x :
  values_shape r -> (i, (v, x)) ∈ available_secrets r <->
  secret_of r i x /\ v = ConfigurationValue.sealed i.1.1 i.1.2 i.2 x.
Proof.
  intros [Hs _]. rewrite Forall_forall in Hs. unfold available_secrets, secret_of.
  rewrite list_elem_of_omap. split.
  - intros (w & Hw & Hf). unfold value_identity in Hf.
    destruct (Hs _ Hw) as [(ref & y & Hy)|[Hy _]]; rewrite Hy in Hf, Hw; simpl in Hf; [| done].
    injection Hf as <- <- <-. simpl. done.
  - intros [Hin ->]. eexists. split; [exact Hin |]. destruct i as [[c nm] ref]. done.
Qed.

Lemma available_keys r : values_shape r -> NoDup (map fst (available_secrets r)).
Proof.
  intros [Hs Hnd]. unfold available_secrets. revert Hs Hnd.
  induction (EnvironmentRecord.values r) as [|v vs IH]; simpl; [constructor |].
  intros [Hv Hs]%Forall_cons [Hn Hnd]%NoDup_cons. specialize (IH Hs Hnd).
  destruct Hv as [(ref & x & Hv)|[Hv _]]; rewrite Hv in Hn |- *; simpl; [| done].
  constructor; [| done]. intros Hin. apply Hn.
  apply list_elem_of_In, in_map_iff in Hin as ([k [w y]] & Hk & Hin%list_elem_of_In).
  simpl in Hk. subst k. apply list_elem_of_omap in Hin as (u & Hu & Hf).
  apply list_elem_of_In, in_map_iff. exists u. split; [| by apply list_elem_of_In].
  unfold value_identity in Hf. repeat case_match; simplify_eq. unfold value_key. congruence.
Qed.

Section resolving.
  Context `{PyFloat} `{Aead} {ER Op : Type} `{EnvironmentReader ER Op}.
  Context (e : SecretEncryptor.t) `{!DecryptableReader e ER Op} (er : ER) (Wer : st_wf er).

Lemma subset_true {T} `{EqDecision T} (xs ys : list T) : subset xs ys = true <-> forall x, x ∈ xs -> x ∈ ys.
Proof.
  unfold subset. rewrite forallb_forall. split.
  - intros Hx x Hin. apply list_elem_of_In, Hx in Hin. by apply bool_decide_eq_true in Hin.
  - intros Hx x Hin. apply bool_decide_eq_true, Hx. by apply list_elem_of_In.
Qed.

Lemma references_subset r refs :
  values_shape r -> subset (map identity_of refs) (map fst (available_secrets r)) = true <->
  references_match r refs.
Proof.
  intros Hs. rewrite subset_true. unfold references_match. split.
  - intros Hx ref Hin. assert (identity_of ref ∈ map fst (available_secrets r)) as Hi
      by (apply Hx, elem_of_map; eauto).
    apply elem_of_map in Hi as ([k [v x]] & Hk & Hi). simpl in Hk. subst k.
    apply elem_of_available in Hi as [? _]; eauto.
  - intros Hm k (ref & -> & Hin)%elem_of_map. destruct (Hm _ Hin) as [x Hx].
    apply elem_of_map. eexists (_, (_, x)). split; [reflexivity |]. by apply elem_of_available.
Qed.

Lemma references_match_dec r refs : values_shape r -> references_match r refs \/ ~ references_match r refs.
Proof.
  intros Hs. rewrite <- references_subset by done. destruct (subset _ _); [by left | by right].
Qed.

#[export] Instance references_match_proper r : Proper (Permutation ==> iff) (references_match r).
Proof. intros l l' Hp. unfold references_match. by setoid_rewrite Hp. Qed.

Lemma length_remove_dups {T} `{EqDecision T} (l : list T) : NoDup l -> length (remove_dups l) = length l.
Proof.
  induction 1 as [|x l Hx Hl IH]; simpl; [done |]. destruct (decide_rel _ _ _); [done |]. simpl. by rewrite IH.
Qed.

(** [active_record] in closed form. *)
Lemma active_record_cases p i n :
  match er_get_revision i n er with
  | Err x => active_record er p i n = Err x
  | Ok r =>
      if negb (bool_decide (EnvironmentRecord.project_id r = p))
      then active_record er p i n = Err EnvironmentNotFound
      else if negb (bool_decide (EnvironmentRecord.status r = EnvironmentStatus.ACTIVE))
      then active_record er p i n = Err EnvironmentConflict
      else active_record er p i n = Ok r
  end.
Proof. unfold active_record. destruct (er_get_revision i n er) as [r|x]; simpl; [| done]. repeat case_match; done. Qed.

(** What a reference resolves to. *)
Definition resolves (r : EnvironmentRecord.t) (ref : SecretReference.t) (out : ResolvedSecretValue.t) : Prop :=
  ResolvedSecretValue.category out = category_of (SecretReference.category ref)
  /\ ResolvedSecretValue.name out = SecretReference.name ref
  /\ ResolvedSecretValue.secret_ref out = SecretReference.secret_ref ref
  /\ exists x, secret_of r (identity_of ref) x
      /\ SecretEncryptor.decrypt e x (EnvironmentRecord.project_id r) (EnvironmentRecord.id r)
           (EnvironmentRecord.revision r) (ResolvedSecretValue.category out)
           (ResolvedSecretValue.name out) = Ok (ResolvedSecretValue.value out).

Lemma resolve_all r refs :
  values_shape r -> decrypts e r -> references_match r refs ->
  exists l, rmap (fun reference =>
      let? '(value, x) := subscript (identity_of reference) (of_pairs (available_secrets r)) in
      let? text := decrypt_value e r x value in
      Ok (ResolvedSecretValue.mk (ConfigurationValue.category value) (ConfigurationValue.name value)
            (SecretReference.secret_ref reference) text)) refs = Ok l
    /\ Forall2 (resolves r) refs l.
Proof.
  intros Hs Hd. induction refs as [|ref refs IH]; intros Hm; simpl; [by exists [] |].
  destruct IH as (l & Hl & HF); [intros ? ?; apply Hm; by right |].
  destruct (Hm ref) as [x Hx]; [by left |].
  assert ((identity_of ref, (ConfigurationValue.sealed (category_of (SecretReference.category ref))
    (SecretReference.name ref) (SecretReference.secret_ref ref) x, x)) ∈ available_secrets r) as Hin
    by by apply elem_of_available.
  unfold subscript at 1. rewrite (lookup_of_pairs _ _ _ (available_keys _ Hs) Hin). simpl.
  destruct (Hd _ x Hx eq_refl) as [text Ht]. unfold decrypt_value at 1. simpl in Ht |- *. rewrite Ht. simpl.
  rewrite Hl. eexists. split; [done |]. constructor; [| done]. unfold resolves. simpl.
  split_and!; [done | done | done |]. by exists x.
Qed.

(** A reference without its secret is found missing. *)
Lemma missing_reference r refs :
  values_shape r -> ~ references_match r refs ->
  existsb (fun ref => negb (has_key (identity_of ref) (of_pairs (available_secrets r)))) refs = true.
Proof.
  intros Hs Hm. apply not_false_iff_true. intros Hex. apply Hm.
  intros ref Hin. apply list_elem_of_In in Hin.
  assert (has_key (identity_of ref) (of_pairs (available_secrets r)) = true) as Hk.
  { apply not_false_iff_true. intros Hk. apply not_true_iff_false in Hex. apply Hex.
    apply existsb_exists. exists ref. by rewrite Hk. }
  apply has_key_true in Hk as [[v x] Hk]. apply lookup_of_pairs_Some in Hk; [| by apply available_keys].
  apply elem_of_available in Hk as [? _]; eauto.
Qed.

(** [resolve_secret_values] on a pinned revision: it refuses an unknown revision with
    the reader's error, a foreign project with [EnvironmentNotFound], and an inactive
    revision, repeated references or a reference that is no secret of the revision with
    [EnvironmentConflict]; otherwise it returns, in canonical order, for every reference
    the text its secret decrypts to, and [validate_secret_references] accepts exactly the
    same requests; both answers stay the same while the environments evolve. *)
Theorem resolve_secret_values_exact p i n refs :
  match er_get_revision i n er with
  | Err x => resolve_secret_values er e p i n refs = Err x
  | Ok r =>
      if negb (bool_decide (EnvironmentRecord.project_id r = p))
      then resolve_secret_values er e p i n refs = Err EnvironmentNotFound
      else
        (EnvironmentRecord.status r = EnvironmentStatus.ACTIVE -> NoDup (map identity_of refs) ->
         references_match r refs ->
         exists l, resolve_secret_values er e p i n refs = Ok l
           /\ validate_secret_references er p i n refs = Ok (py_sorted reference_leb refs)
           /\ Forall2 (resolves r) (py_sorted reference_leb refs) l
           /\ forall er', st_wf er' -> st_evolves er er' ->
                resolve_secret_values er' e p i n refs = Ok l)
        /\ (~ (EnvironmentRecord.status r = EnvironmentStatus.ACTIVE /\ NoDup (map identity_of refs)
               /\ references_match r refs) ->
           resolve_secret_values er e p i n refs = Err EnvironmentConflict
           /\ validate_secret_references er p i n refs = Err EnvironmentConflict)
  end.
Proof.
  pose proof (active_record_cases p i n) as Ha.
  destruct (er_get_revision i n er) as [r|x] eqn:Er.
  2: { unfold resolve_secret_values, _validated_record. by rewrite Ha. }
  destruct (er_get_id _ _ _ _ Wer Er) as (_ & _ & Hs). pose proof (er_decrypts _ _ _ _ Wer Er) as Hd.
  destruct (negb (bool_decide (EnvironmentRecord.project_id r = p))) eqn:Ep.
  { unfold resolve_secret_values, _validated_record. by rewrite Ha. }
  pose proof (py_sorted_perm reference_leb refs) as Hperm. split.
  - intros Hact Hnd Hm. rewrite bool_decide_true in Ha by done. simpl in Ha.
    assert (references_match r (py_sorted reference_leb refs)) as Hm' by by rewrite Hperm.
    destruct (resolve_all r (py_sorted reference_leb refs) Hs Hd Hm') as (l & Hl & HF).
    assert (forall er0, active_record er0 p i n = Ok r -> resolve_secret_values er0 e p i n refs = Ok l) as Hres.
    { intros er0 Hact0. unfold resolve_secret_values, _validated_record, canonical_secret_references, unique.
      rewrite Hact0, bool_decide_true by done. simpl.
      replace (existsb _ _) with false; [exact Hl |]. symmetry. apply not_true_iff_false.
      intros (ref & Hin & Hk)%existsb_exists. apply negb_true_iff, has_key_false in Hk.
      apply list_elem_of_In in Hin. destruct (Hm' _ Hin) as [x Hx].
      erewrite lookup_of_pairs in Hk; [done | by apply available_keys | by apply elem_of_available]. }
    exists l. split_and!; [by apply Hres | | done |].
    + unfold validate_secret_references, _validated_record, canonical_secret_references, unique.
      rewrite Ha, bool_decide_true by done. simpl.
      rewrite (proj2 (references_subset _ _ Hs)) by done. simpl.
      rewrite length_remove_dups by by rewrite Hperm. by rewrite length_map, Nat.eqb_refl.
    + intros er' W' E. apply Hres. pose proof (er_pinned _ _ _ _ _ Wer W' E Er) as Er'.
      unfold active_record. rewrite Er'. simpl. rewrite Ep. by rewrite bool_decide_true.
  - intros Hno. unfold resolve_secret_values, validate_secret_references, _validated_record,
      canonical_secret_references, unique.
    destruct (decide (EnvironmentRecord.status r = EnvironmentStatus.ACTIVE)) as [Hact|Hact];
      [rewrite (bool_decide_true (_ = EnvironmentStatus.ACTIVE)) in Ha by done
      |rewrite (bool_decide_false (_ = EnvironmentStatus.ACTIVE)) in Ha by done];
      simpl in Ha; rewrite Ha; [| done]. cbn [rbind].
    destruct (decide (NoDup (map identity_of refs))) as [Hnd|Hnd];
      [rewrite (bool_decide_true (NoDup _)) by done | rewrite (bool_decide_false (NoDup _)) by done];
      cbn [rbind negb]; [| done].
    assert (~ references_match r (py_sorted reference_leb refs)) as Hm by (rewrite Hperm; tauto).
    split.
    + by rewrite (missing_reference r _ Hs Hm).
    + destruct (subset _ _) eqn:Es; [| done]. by apply references_subset in Es.
Qed.
End resolving.

(** ** Snapshots *)

Definition vars_of (c : ConfigurationCategory.t) (b : bindings) : pydict string pyval :=
  match c with
  | ConfigurationCategory.ENVIRONMENT_VARIABLE => b.1.1
  | ConfigurationCategory.COMMON_PARAMETER => b.1.2
  end.

Lemma vars_of_bind c c' n m v b :
  vars_of c (bind_value c' n v b) !! m = if decide ((c, m) = (c', n)) then Some v else vars_of c b !! m.
Proof.
  destruct c, c'; unfold vars_of, bind_value; simpl; rewrite ?dict_lookup_insert;
    repeat case_decide; congruence.
Qed.

Lemma bind_value_matched c n v b : (bind_value c n v b).2 = b.2.
Proof. by destruct c. Qed.

Section snapshots.
  Context `{PyFloat} `{Aead} {ER Op : Type} `{EnvironmentReader ER Op}.
  Context (e : SecretEncryptor.t) `{!DecryptableReader e ER Op}.

(** The binding of a name among the values [vs] of the revision [r]: a public value, or the
    text of a requested secret. *)
Definition shows (r : EnvironmentRecord.t) (requested : list identity) (vs : list ConfigurationValue.t)
    (c : ConfigurationCategory.t) (n : string) (v : pyval) : Prop :=
  ConfigurationValue.public c n v ∈ vs
  \/ exists ref x text, ConfigurationValue.sealed c n ref x ∈ vs /\ (c, n, ref) ∈ requested
       /\ SecretEncryptor.decrypt e x (EnvironmentRecord.project_id r) (EnvironmentRecord.id r)
            (EnvironmentRecord.revision r) c n = Ok text
       /\ v = PStr text.

Definition found (requested : list identity) (vs : list ConfigurationValue.t) (i : identity) : Prop :=
  i ∈ requested /\ exists x, ConfigurationValue.sealed i.1.1 i.1.2 i.2 x ∈ vs.

Lemma public_not_sealed c n v c' n' ref x :
  ConfigurationValue.public c n v = ConfigurationValue.sealed c' n' ref x -> False.
Proof. done. Qed.

(** One value of the walk. *)
Lemma snapshot_value_spec r requested b w :
  value_shape w ->
  (forall x, ConfigurationValue.encrypted w = Some x -> exists text,
     SecretEncryptor.decrypt e x (EnvironmentRecord.project_id r) (EnvironmentRecord.id r)
       (EnvironmentRecord.revision r) (ConfigurationValue.category w) (ConfigurationValue.name w) = Ok text) ->
  exists b1, snapshot_value e r requested b w = Ok b1
    /\ (forall c n v, (c, n) <> value_key w -> vars_of c b1 !! n = Some v <-> vars_of c b !! n = Some v)
    /\ (forall v, vars_of (value_key w).1 b !! (value_key w).2 = None ->
          vars_of (value_key w).1 b1 !! (value_key w).2 = Some v <->
          shows r requested [w] (value_key w).1 (value_key w).2 v)
    /\ (forall i, i ∈ b1.2 <-> i ∈ b.2 \/ found requested [w] i).
Proof.
  intros Hw Hd. unfold shows, found, snapshot_value, value_identity, value_key.
  setoid_rewrite list_elem_of_singleton.
  destruct Hw as [(ref & x & Hw)|[Hw _]]; rewrite Hw in Hd |- *; simpl in Hd |- *.
  - case_bool_decide as Hreq; simpl.
    + destruct (Hd x eq_refl) as [text Ht]. unfold decrypt_value. simpl. rewrite Ht. simpl.
      eexists. split; [done |]. cbn [fst snd]. split_and!.
      * intros c n v Hne.
        destruct (ConfigurationValue.category w), c; simpl; rewrite ?dict_lookup_insert;
          repeat case_decide; subst; try done; by destruct Hne.
      * intros v _. destruct (ConfigurationValue.category w); simpl; rewrite dict_lookup_insert_eq;
          (split; [intros [= <-]; right; by exists ref, x, text |
                   intros [?|(ref' & x' & text' & [= -> ->] & _ & Ht' & ->)]; [done | congruence]]).
      * intros i. rewrite elem_of_cons, bind_value_matched. split.
        -- intros [->|?]; [right; split; [done |]; by exists x | by left].
        -- intros [?|(_ & y & Hy)]; [by right | left]. destruct i as [[c n] ref']. simpl in Hy.
           by injection Hy as -> -> -> _.
    + eexists. split; [done |]. split_and!; [done | |].
      * intros v Hb. rewrite Hb. split; [done |].
        intros [?|(ref' & x' & text' & [= -> ->] & ? & _)]; done.
      * intros i. split; [by left |]. intros [?|(Hi & y & Hy)]; [done |]. destruct i as [[c n] ref'].
        simpl in Hy. injection Hy as -> -> -> _. done.
  - eexists. split; [done |]. split_and!.
    + intros c n v Hne. rewrite vars_of_bind, decide_False by done. done.
    + intros v _. rewrite vars_of_bind, decide_True by done. split.
      * intros [= <-]. by left.
      * intros [Heq|(? & ? & ? & ? & _)]; [by injection Heq as -> | done].
    + intros i. rewrite bind_value_matched. split; [by left |]. intros [?|(_ & y & ?)]; done.
Qed.
Lemma shows_cons r requested w vs c n v :
  shows r requested (w :: vs) c n v <-> shows r requested [w] c n v \/ shows r requested vs c n v.
Proof. unfold shows. setoid_rewrite elem_of_cons. setoid_rewrite elem_of_nil. naive_solver. Qed.

Lemma found_cons requested w vs i : found requested (w :: vs) i <-> found requested [w] i \/ found requested vs i.
Proof. unfold found. setoid_rewrite elem_of_cons. setoid_rewrite elem_of_nil. naive_solver. Qed.

Lemma shows_key r requested vs c n v : shows r requested vs c n v -> (c, n) ∈ map value_key vs.
Proof.
  intros [Hin|(ref & x & text & Hin & _)]; apply elem_of_map; eexists; (split; [| exact Hin]); done.
Qed.

(** The whole walk, started where none of the names is bound. *)
Lemma snapshot_fold r requested vs b :
  Forall value_shape vs -> NoDup (map value_key vs) ->
  (forall v x, v ∈ vs -> ConfigurationValue.encrypted v = Some x -> exists text,
     SecretEncryptor.decrypt e x (EnvironmentRecord.project_id r) (EnvironmentRecord.id r)
       (EnvironmentRecord.revision r) (ConfigurationValue.category v) (ConfigurationValue.name v) = Ok text) ->
  (forall c n, (c, n) ∈ map value_key vs -> vars_of c b !! n = None) ->
  exists b', rfold (snapshot_value e r requested) b vs = Ok b'
    /\ (forall c n v, vars_of c b' !! n = Some v <->
          vars_of c b !! n = Some v \/ shows r requested vs c n v)
    /\ (forall i, i ∈ b'.2 <-> i ∈ b.2 \/ found requested vs i).
Proof.
  revert b. induction vs as [|w vs IH]; intros b Hs Hnd Hd Hb; simpl.
  { exists b. unfold shows, found. setoid_rewrite elem_of_nil. naive_solver. }
  apply Forall_cons in Hs as [Hw Hs]. apply NoDup_cons in Hnd as [Hn Hnd].
  destruct (snapshot_value_spec r requested b w Hw) as (b1 & Hb1 & Hother & Hown & Hm).
  { intros x. apply Hd. by left. }
  assert (vars_of (value_key w).1 b !! (value_key w).2 = None) as Hfree.
  { apply Hb. rewrite <- surjective_pairing. by left. }
  specialize (fun v => Hown v Hfree) as Hown'.
  destruct (IH b1 Hs Hnd) as (b' & Hb' & Hv & Hf).
  { intros v x Hin. apply Hd. by right. }
  { intros c n Hin. destruct (decide ((c, n) = value_key w)) as [Heq|Hne].
    - destruct Hn. simpl. rewrite <- Heq. exact Hin.
    - destruct (vars_of c b1 !! n) as [v|] eqn:E; [| done]. apply Hother in E; [| done].
      rewrite Hb in E; [done | by right]. }
  exists b'. rewrite Hb1. simpl. split; [done |]. split.
  - intros c n v. rewrite (shows_cons _ _ w vs), Hv. destruct (decide ((c, n) = value_key w)) as [Heq|Hne].
    + destruct (value_key w) as [c0 n0]. injection Heq as -> ->. simpl in *.
      rewrite Hown', Hfree. naive_solver.
    + rewrite Hother by done. split; [intros [?|?]; auto |]. intros [?|[Hx|?]]; [by left | | by right].
      apply shows_key in Hx. simpl in Hx. apply list_elem_of_singleton in Hx. done.
  - intros i. rewrite (found_cons _ w vs), Hf, Hm. split; [intros [[?|?]|?] | intros [?|[?|?]]]; auto.
Qed.

(** A snapshot of a pinned active revision holds exactly what was asked for: the public
    values and, of the secrets, only the requested ones, decrypted; every name is bound
    once per category.  A request for something that is no secret of the revision is
    refused with [EnvironmentConflict] and reveals nothing. *)
Theorem snapshot_exact er p i n refs r :
  st_wf er -> er_get_revision i n er = Ok r ->
  EnvironmentRecord.project_id r = p -> EnvironmentRecord.status r = EnvironmentStatus.ACTIVE ->
  (references_match r refs ->
   exists snap, snapshot er e p i n refs = Ok snap
     /\ ConfigurationSnapshot.environment_id snap = i /\ ConfigurationSnapshot.revision snap = n
     /\ (forall name v, ConfigurationSnapshot.environment_variables snap !! name = Some v <->
          shows r (map identity_of refs) (EnvironmentRecord.values r)
            ConfigurationCategory.ENVIRONMENT_VARIABLE name v)
     /\ (forall name v, ConfigurationSnapshot.common_parameters snap !! name = Some v <->
          shows r (map identity_of refs) (EnvironmentRecord.values r)
            ConfigurationCategory.COMMON_PARAMETER name v))
  /\ (~ references_match r refs -> snapshot er e p i n refs = Err EnvironmentConflict).
Proof.
  intros W Er Hp Hact. pose proof (active_record_cases er p i n) as Ha. rewrite Er in Ha.
  rewrite (bool_decide_true (_ = p)), (bool_decide_true (_ = EnvironmentStatus.ACTIVE)) in Ha by done.
  simpl in Ha. destruct (er_get_id _ _ _ _ W Er) as (Hid & Hrev & Hs & Hnd).
  pose proof (er_decrypts _ _ _ _ W Er) as Hd.
  unfold snapshot. rewrite Ha. cbn [rbind].
  destruct (snapshot_fold r (map identity_of refs) (EnvironmentRecord.values r) (∅, ∅, []) Hs Hnd Hd)
    as (b & Hb & Hv & Hf); [by intros [] ? ? |].
  rewrite Hb. cbn [rbind].
  assert (subset b.2 (map identity_of refs) = true) as ->.
  { apply subset_true. intros k Hk. apply Hf in Hk as [Hk|[Hk _]]; [by apply elem_of_nil in Hk | done]. }
  assert (subset (map identity_of refs) b.2 = true <-> references_match r refs) as Hsub.
  { rewrite subset_true. unfold references_match, secret_of. split.
    - intros Hx ref Hin. assert (identity_of ref ∈ b.2) as Hk by (apply Hx, elem_of_map; eauto).
      apply Hf in Hk as [Hk|[_ Hk]]; [by apply elem_of_nil in Hk | done].
    - intros Hx k Hk. apply Hf. right. split; [done |]. apply elem_of_map in Hk as (ref & -> & Hin). auto. }
  split.
  - intros Hm. rewrite (proj2 Hsub Hm). cbn [andb negb]. eexists. split; [done |]. cbn.
    split_and!; [done | done | |]; intros name v.
    + rewrite (Hv ConfigurationCategory.ENVIRONMENT_VARIABLE name v). simpl. naive_solver.
    + rewrite (Hv ConfigurationCategory.COMMON_PARAMETER name v). simpl. naive_solver.
  - intros Hm. destruct (subset (map identity_of refs) b.2); [| done]. destruct Hm. by apply Hsub.
Qed.
End snapshots.

(** * A concrete cipher and a concrete environment

    The interface [Aead] is inhabited by a cipher that stores the associated data in front
    of the plaintext: it keeps nothing secret, but it has the laws, so that the theorems
    of [EnvironmentCrypto] and [ResolverTheorems] can be instantiated and evaluated. *)
Open Scope list_scope.

Definition toy_encrypt (key nonce data aad : list N) : list N :=
  N.of_nat (length aad) :: aad ++ data.
Definition toy_decrypt (key nonce sealed aad : list N) : option (list N) :=
  match sealed with
  | n :: rest =>
      if decide (n = N.of_nat (length aad)) then
        if decide (take (length aad) rest = aad) then Some (drop (length aad) rest) else None
      else None
  | [] => None
  end.

Definition toy_aead : Aead := {| aead_encrypt := toy_encrypt; aead_decrypt := toy_decrypt |}.
#[local] Existing Instance toy_aead.

#[local,refine] Instance toy_laws : AeadLaws toy_aead := {| aead_roundtrip := _; aead_authentic := _ |}.
Proof.
  - intros key nonce data aad. simpl. unfold toy_decrypt, toy_encrypt.
    rewrite take_app_length, drop_app_length. by rewrite !decide_True.
  - intros key nonce nonce' data aad aad' Hne. simpl. unfold toy_decrypt, toy_encrypt.
    case_decide as Hl; [| done]. case_decide as Ht; [| done]. apply Nat2N.inj in Hl.
    rewrite <- Hl, take_app_length in Ht. done.
Defined.

Definition no_float_texts : PyFloat := fun _ _ => "0.5"%string.
#[local] Existing Instance no_float_texts.

Definition demo_key : list N := repeat 7%N 32.
Definition demo_encryptor : SecretEncryptor.t := SecretEncryptor.mk (Some demo_key) (Some "k1"%string).
Definition demo_draw (k : nat) : Draw.t * uuid :=
  (Draw.mk [1; 2; 3]%N [4]%N [5]%N, (500 + N.of_nat k)%N).

Lemma canonical_aad_binding_witness :
  exists a a', canonical_aad 1%N 2%N 3 ConfigurationCategory.COMMON_PARAMETER "x" = Ok a
    /\ canonical_aad 1%N 2%N 4 ConfigurationCategory.COMMON_PARAMETER "x" = Ok a' /\ a <> a'.
Proof.
  destruct (canonical_aad_binding 1%N 2%N 3 ConfigurationCategory.COMMON_PARAMETER "x" 1%N 2%N 4
    ConfigurationCategory.COMMON_PARAMETER "x" 8%N 9%N) as (a & a' & k & l & Ha & Ha' & _ & _ & Hi & _);
    [reflexivity.. |].
  exists a, a'. split; [exact Ha |]. split; [exact Ha' |]. intros He. apply Hi in He. discriminate.
Defined.

Lemma secrets_stay_in_place_witness :
  exists x, SecretEncryptor.encrypt demo_encryptor (demo_draw 0).1 (PStr "s3cret") 1%N 2%N 1
      ConfigurationCategory.COMMON_PARAMETER "token" = Ok x
    /\ SecretEncryptor.decrypt demo_encryptor x 1%N 2%N 2 ConfigurationCategory.COMMON_PARAMETER "token"
       = Err SecretDecryptionError.
Proof.
  destruct (secrets_stay_in_place demo_key "k1" demo_encryptor (demo_draw 0).1 "s3cret" 1%N 2%N 1
    ConfigurationCategory.COMMON_PARAMETER "token" 9%N 1) as (x & y & Hx & _ & _ & _ & Hother & _);
    [reflexivity.. |].
  exists x. split; [exact Hx |]. apply Hother; [reflexivity | reflexivity | discriminate].
Defined.

(** Environment 2 of project 1 with a public variable and a secret token, activated. *)
Definition demo_inputs (token : ConfigurationValueInput.t) : list ConfigurationValueInput.t :=
  [ConfigurationValueInput.mk "HOST" (PStr "example.org") false None; token].
Definition demo_new_token : ConfigurationValueInput.t :=
  ConfigurationValueInput.mk "TOKEN" (PStr "s3cret") true None.
Definition demo_kept_token : ConfigurationValueInput.t :=
  ConfigurationValueInput.mk "TOKEN" PNone true (Some 500%N).
Definition demo_environment_ops : list (environment_op demo_encryptor) :=
  [OpCreateEnvironment demo_encryptor 10 2%N demo_draw 1%N " Staging " (demo_inputs demo_new_token) []].
Definition demo_environments : EnvironmentRepository.t :=
  st_ops demo_environment_ops EnvironmentRepository.init.

Lemma demo_environments_reachable : st_reachable (H:=environment_store demo_encryptor) demo_environments.
Proof.
  apply (st_ops_reachable demo_environment_ops);
    [exact (st_reachable_init (H:=environment_store demo_encryptor)) | by vm_compute].
Qed.

Lemma environment_update_carries_witness :
  exists r' s', EnvironmentRepository.update_environment demo_encryptor 20 demo_draw 2%N 0 "Staging"
      EnvironmentStatus.ACTIVE (demo_inputs demo_kept_token) [] demo_environments = (Ok r', s')
    /\ EnvironmentRepository.get_revision 2%N (EnvironmentRecord.revision r') s' = (Ok r', s').
Proof.
  pose proof (environment_update_carries demo_encryptor 20 demo_draw 2%N 0 "Staging"
    EnvironmentStatus.ACTIVE (demo_inputs demo_kept_token) [] demo_environments
    demo_environments_reachable) as Hx.
  destruct (EnvironmentRepository.update_environment _ _ _ _ _ _ _ _ _ _) as [[r'|er] s'] eqn:E;
    [| exfalso; revert E; vm_compute; discriminate].
  destruct Hx as (r & vs1 & vs2 & _ & _ & _ & _ & _ & _ & Hg & _). exists r', s'.
  split; [reflexivity | exact Hg].
Defined.

(** Its second revision is active and pinned. *)
Definition demo_active : EnvironmentRepository.t :=
  st_ops (demo_environment_ops ++
    [OpUpdateEnvironment demo_encryptor 20 demo_draw 2%N 0 "Staging" EnvironmentStatus.ACTIVE
       (demo_inputs demo_kept_token) []]) EnvironmentRepository.init.

Lemma demo_active_wf : st_wf (Store:=environment_store demo_encryptor) demo_active.
Proof.
  apply st_reachable_wf. apply st_ops_reachable;
    [exact (st_reachable_init (H:=environment_store demo_encryptor)) | by vm_compute].
Qed.

Definition demo_reference : SecretReference.t :=
  SecretReference.mk SecretReference.environment_variable "TOKEN" 500%N.

Lemma resolve_secret_values_exact_witness :
  ConfigurationResolver.resolve_secret_values (Op:=environment_op demo_encryptor) demo_active
    demo_encryptor 77%N 2%N 2 [demo_reference] = Err EnvironmentNotFound.
Proof.
  pose proof (resolve_secret_values_exact (H1:=environment_reader demo_encryptor) demo_encryptor demo_active demo_active_wf 77%N 2%N 2
    [demo_reference]) as Hx.
  destruct (er_get_revision (Op:=environment_op demo_encryptor) 2%N 2 demo_active) as [r|x] eqn:E; [| exfalso; revert E; vm_compute; discriminate].
  assert (bool_decide (EnvironmentRecord.project_id r = 77%N) = false) as Hp
    by (revert E; vm_compute; intros [= <-]; reflexivity).
  rewrite Hp in Hx. exact Hx.
Defined.

(** The ciphertext of the token in revision 2. *)
Definition demo_cipher : EncryptedSecret.t :=
  match SecretEncryptor.encrypt demo_encryptor (demo_draw 0).1 (PStr "s3cret") 1%N 2%N 2
          ConfigurationCategory.ENVIRONMENT_VARIABLE "TOKEN" with
  | Ok x => x
  | Err _ => EncryptedSecret.mk [] [] [] [] [] "" ""
  end.

Lemma snapshot_exact_witness :
  exists snap, ConfigurationResolver.snapshot (Op:=environment_op demo_encryptor) demo_active
    demo_encryptor 1%N 2%N 2 [demo_reference] = Ok snap
    /\ ConfigurationSnapshot.environment_variables snap !! "TOKEN"%string = Some (PStr "s3cret").
Proof.
  destruct (er_get_revision (Op:=environment_op demo_encryptor) 2%N 2 demo_active) as [r|x] eqn:E; [| exfalso; revert E; vm_compute; discriminate].
  destruct (snapshot_exact (H1:=environment_reader demo_encryptor) demo_encryptor demo_active 1%N 2%N 2 [demo_reference] r demo_active_wf E)
    as [Hs _]; [revert E; vm_compute; intros [= <-]; reflexivity.. |].
  assert (ConfigurationValue.sealed ConfigurationCategory.ENVIRONMENT_VARIABLE "TOKEN" 500%N demo_cipher
    ∈ EnvironmentRecord.values r) as Hx
    by (revert E; vm_compute; intros [= <-]; right; left).
  assert (EnvironmentRecord.project_id r = 1%N /\ EnvironmentRecord.id r = 2%N
    /\ EnvironmentRecord.revision r = 2%Z) as (Hp & Hi & Hn)
    by (revert E; vm_compute; intros [= <-]; repeat split).
  destruct Hs as (snap & Hsnap & _ & _ & Hv & _).
  { intros ref Hin. apply list_elem_of_singleton in Hin as ->. exists demo_cipher. exact Hx. }
  exists snap. split; [exact Hsnap |]. apply Hv. right. exists 500%N, demo_cipher, "s3cret"%string.
  split; [exact Hx |]. split; [left | split; [| reflexivity]]. rewrite Hp, Hi, Hn. vm_compute. reflexivity.
Defined.
