(* ===== verification/TestPlans.v ===== *)
(** * Test plans
    ([src/services/api/test_plan_domain.py], [src/services/api/test_plan_repository.py])

    The plan, batch and run specification records, the normalisation of plans, the
    in-memory [TestPlanRepository] that expands a plan into runs of the shared
    [RunRepository], and the bounded claiming of the runs of a batch. *)
From S2P Require Import Prelude PyDict PyText Protocol Domain Sha256 Runs Versioned Automation EnvironmentCrypto Environments.
Open Scope list_scope.

(** ** Records *)

Module TestPlanStatus.
Inductive t := DRAFT | ACTIVE | ARCHIVED.
#[global] Instance eq_dec : EqDecision t.
Proof. solve_decision. Defined.
End TestPlanStatus.

Definition PLAN_TRANSITIONS (s : TestPlanStatus.t) : option (list TestPlanStatus.t) :=
  match s with
  | TestPlanStatus.DRAFT => Some [TestPlanStatus.ACTIVE]
  | TestPlanStatus.ACTIVE => Some [TestPlanStatus.ARCHIVED]
  | TestPlanStatus.ARCHIVED => None
  end.

Definition validate_plan_transition (current target : TestPlanStatus.t) : res unit :=
  if bool_decide (current = TestPlanStatus.ARCHIVED) then Err InvalidTestPlanTransition
  else if bool_decide (target = current) then Ok tt
  else match PLAN_TRANSITIONS current with
       | None => Err KeyError
       | Some targets =>
           if negb (bool_decide (target ∈ targets)) then Err InvalidTestPlanTransition else Ok tt
       end.

Module TestPlanDataRow.
Record t := mk { row_key : string; values : list (string * pyval) }.
End TestPlanDataRow.

Module TestPlanItem.
Record t := mk {
  item_id : uuid; script_id : uuid; script_revision : Z; environment_id : option uuid;
  environment_revision : option Z; default_parameters : list (string * pyval);
  data_rows : list TestPlanDataRow.t; execution_policy : ExecutionPolicy.t }.
End TestPlanItem.

Module TestPlanRecord.
Record t := mk {
  id : uuid; tenant_id : uuid; project_id : uuid; name : string; description : string;
  items : list TestPlanItem.t; max_parallel : Z; status : TestPlanStatus.t; revision : Z;
  state_version : Z; created_at : datetime; updated_at : datetime }.
Definition update (read : datetime) (r : t) (name description : string)
    (items : list TestPlanItem.t) (max_parallel : Z) (status' : TestPlanStatus.t) : res t :=
  let? _ := validate_plan_transition (status r) status' in
  Ok (mk (id r) (tenant_id r) (project_id r) name description items max_parallel status'
         (revision r + 1)%Z (state_version r + 1)%Z (created_at r) read).
End TestPlanRecord.

Module RunSpecRecord.
Record t := mk {
  id : uuid; run_id : uuid; batch_id : uuid; tenant_id : uuid; project_id : uuid; plan_id : uuid;
  plan_revision : Z; item_id : uuid; row_key : string; engine : Engine.t; script_id : uuid;
  script_revision : Z; source_ref : string; content_digest : string; entrypoint : string;
  timeout_seconds : Z; environment_id : option uuid; environment_revision : option Z;
  environment_variables : list (string * pyval); parameters : list (string * pyval);
  secret_references : list SecretReference.t; execution_policy : ExecutionPolicy.t;
  created_at : datetime }.
End RunSpecRecord.

Module ExecutionBatchRecord.
Record t := mk {
  id : uuid; tenant_id : uuid; project_id : uuid; plan_id : uuid; plan_revision : Z;
  idempotency_key : string; max_parallel : Z; run_ids : list uuid; created_at : datetime }.
End ExecutionBatchRecord.

(** ** Normalisation *)

Definition MAX_PLAN_ITEMS : nat := 100.
Definition MAX_PLAN_ROWS : Z := 1000.
Definition MAX_JSON_MAP_BYTES : Z := 65536.

(** The inner [validate] of [_json_object]: no exception. *)
Fixpoint json_value (item : pyval) : bool :=
  match item with
  | PNone | PStr _ | PBool _ | PInt _ | PFloat _ _ => true
  | PList l => forallb json_value l
  | PDict kvs => forallb (fun kv => json_value kv.2) kvs
  | _ => false
  end.

Section normalisation.
  Context `{PyFloat}.

Definition _json_object (value : list (string * pyval)) (label : string) : res (list (string * pyval)) :=
  let not_json := ValueError (label ++ " must contain only JSON values")%string in
  if negb (json_value (PDict value)) then Err not_json
  else match dumps false false (PDict value) with
       | Err e => if bool_decide (e = TypeError) || is_ValueError e then Err not_json else Err e
       | Ok text =>
           if (MAX_JSON_MAP_BYTES <? Z.of_nat (length (utf8 text)))%Z
           then Err (ValueError (label ++ " cannot exceed 65536 bytes")%string)
           else Ok value
       end.

Fixpoint normalize_rows (row_keys : list string) (rows : list TestPlanDataRow.t)
    : res (list TestPlanDataRow.t) :=
  match rows with
  | [] => Ok []
  | row :: rest =>
      let key := strip (TestPlanDataRow.row_key row) in
      if empty_str key || (255 <? py_len key)%Z
      then Err (ValueError "row_key must contain 1 to 255 characters")
      else if bool_decide (key ∈ row_keys) then Err (ValueError "duplicate row_key")
      else
        let? values := _json_object (TestPlanDataRow.values row) "row values" in
        let? normalized := normalize_rows (key :: row_keys) rest in
        Ok (TestPlanDataRow.mk key values :: normalized)
  end.

Definition normalize_item (item : TestPlanItem.t) : res TestPlanItem.t :=
  if (TestPlanItem.script_revision item <? 1)%Z then Err (ValueError "script_revision must be positive")
  else if xorb (TaskEnvelope.is_some (TestPlanItem.environment_id item))
               (TaskEnvelope.is_some (TestPlanItem.environment_revision item)) then
    Err (ValueError "environment_id and environment_revision must be provided together")
  else if match TestPlanItem.environment_revision item with Some r => (r <? 1)%Z | None => false end then
    Err (ValueError "environment_revision must be positive")
  else
    let rows := match TestPlanItem.data_rows item with
                | [] => [TestPlanDataRow.mk "default" []]
                | rows => rows
                end in
    let? normalized_rows := normalize_rows [] rows in
    let? default_parameters := _json_object (TestPlanItem.default_parameters item) "default_parameters" in
    Ok (TestPlanItem.mk (TestPlanItem.item_id item) (TestPlanItem.script_id item)
          (TestPlanItem.script_revision item) (TestPlanItem.environment_id item)
          (TestPlanItem.environment_revision item) default_parameters normalized_rows
          (TestPlanItem.execution_policy item)).

Fixpoint normalize_items (item_ids : list uuid) (items : list TestPlanItem.t)
    : res (list TestPlanItem.t) :=
  match items with
  | [] => Ok []
  | item :: rest =>
      if bool_decide (TestPlanItem.item_id item ∈ item_ids)
      then Err (ValueError "test plan item IDs must be unique")
      else
        let? normalized := normalize_item item in
        let? others := normalize_items (TestPlanItem.item_id item :: item_ids) rest in
        Ok (normalized :: others)
  end.

Definition total_rows (items : list TestPlanItem.t) : Z :=
  foldr (fun i n => Z.of_nat (length (TestPlanItem.data_rows i)) + n)%Z 0%Z items.

Definition normalize_plan_items (items : list TestPlanItem.t) : res (list TestPlanItem.t) :=
  if (length items =? 0)%nat then Err (ValueError "a test plan must contain at least one item")
  else if (MAX_PLAN_ITEMS <? length items)%nat
  then Err (ValueError "at most 100 test plan items are allowed")
  else
    let? normalized := normalize_items [] items in
    if (MAX_PLAN_ROWS <? total_rows normalized)%Z
    then Err (ValueError "at most 1000 data rows are allowed per test plan")
    else Ok normalized.
End normalisation.

Definition normalize_plan_text (name description : string) : res (string * string) :=
  let normalized := strip name in
  if empty_str normalized || (255 <? py_len normalized)%Z
  then Err (ValueError "test plan name must contain 1 to 255 characters")
  else if (100000 <? py_len description)%Z
  then Err (ValueError "test plan description cannot exceed 100000 characters")
  else Ok (normalized, description).

(** [_max_parallel]: a [bool] is refused although it is an [int]. *)
Definition _max_parallel (value : pyval) : res Z :=
  match value with
  | PInt z => if ((z <? 1) || (100 <? z))%Z
              then Err (ValueError "max_parallel must be an integer from 1 to 100") else Ok z
  | _ => Err (ValueError "max_parallel must be an integer from 1 to 100")
  end.

(** ** The interface of the script store *)
Class ScriptRevisionReader (SR Op : Type) := {
  sr_store :: Store SR Op;
  sr_get_revision : uuid -> Z -> SR -> res AutomationScriptRecord.t;
  sr_get_id : forall i n sr r, st_wf sr -> sr_get_revision i n sr = Ok r ->
    AutomationScriptRecord.id r = i /\ AutomationScriptRecord.revision r = n;
  sr_pinned : forall i n sr sr' r, st_wf sr -> st_wf sr' -> st_evolves sr sr' ->
    sr_get_revision i n sr = Ok r -> sr_get_revision i n sr' = Ok r }.

(** ** The repository *)
Module TestPlanRepository.
Record t := mk {
  _plans : pydict uuid TestPlanRecord.t;
  _revisions : pydict uuid (list TestPlanRecord.t);
  _batches : pydict uuid ExecutionBatchRecord.t;
  _specs_by_run : pydict uuid RunSpecRecord.t;
  _idempotency : pydict (uuid * uuid * string) (uuid * Z * uuid) }.

Definition init : t := mk ∅ ∅ ∅ ∅ ∅.

Definition set_plan (i : uuid) (r : TestPlanRecord.t) (l : list TestPlanRecord.t) (s : t) : t :=
  mk (<[i:=r]> (_plans s)) (<[i:=l]> (_revisions s)) (_batches s) (_specs_by_run s) (_idempotency s).

Definition get_plan (plan_id : uuid) : M t TestPlanRecord.t := fun s =>
  (match _plans s !! plan_id with Some r => Ok r | None => Err TestPlanNotFound end, s).

Definition list_plans (project_id : uuid) : M t (list TestPlanRecord.t) :=
  let* s := get in
  ret (py_sorted (by_key2 TestPlanRecord.created_at TestPlanRecord.id)
         (List.filter (fun r => bool_decide (TestPlanRecord.project_id r = project_id))
            (values (_plans s)))).

Definition list_revisions (plan_id : uuid) : M t (list TestPlanRecord.t) :=
  get_plan plan_id ;;;
  let* s := get in lift (subscript plan_id (_revisions s)).

Definition get_revision (plan_id : uuid) (revision : Z) : M t TestPlanRecord.t :=
  get_plan plan_id ;;;
  let* s := get in
  let* revisions := lift (subscript plan_id (_revisions s)) in
  if ((revision <? 1) || (Z.of_nat (length revisions) <? revision))%Z then raise TestPlanNotFound
  else match revisions !! Z.to_nat (revision - 1) with
       | Some r => ret r
       | None => raise IndexError
       end.

Definition get_execution_batch (batch_id : uuid) : M t ExecutionBatchRecord.t := fun s =>
  (match _batches s !! batch_id with Some b => Ok b | None => Err TestPlanNotFound end, s).

Definition get_run_spec (run_id : uuid) : M t RunSpecRecord.t := fun s =>
  (match _specs_by_run s !! run_id with Some r => Ok r | None => Err RunSpecNotFound end, s).

Section operations.
  Context `{PyFloat} {SR SOp ER EOp : Type} `{ScriptRevisionReader SR SOp} `{EnvironmentReader ER EOp}.
  Context (_scripts : SR) (_environments : ER).

Definition validate_reference (project_id : uuid) (item : TestPlanItem.t) : res unit :=
  let? script := sr_get_revision (TestPlanItem.script_id item) (TestPlanItem.script_revision item)
                   _scripts in
  if negb (bool_decide (AutomationScriptRecord.project_id script = project_id)) then Err TestPlanConflict
  else if negb (bool_decide (AutomationScriptRecord.status script = AutomationScriptStatus.ACTIVE))
  then Err TestPlanConflict
  else if negb (bool_decide (AutomationScriptRecord.engine script = Engine.HTTP))
          && ExecutionPolicy.uses_http (TestPlanItem.execution_policy item)
  then Err TestPlanConflict
  else
    match TestPlanItem.environment_id item, TestPlanItem.environment_revision item with
    | Some environment_id, Some environment_revision =>
        let? environment := er_get_revision environment_id environment_revision _environments in
        if negb (bool_decide (EnvironmentRecord.project_id environment = project_id))
        then Err TestPlanConflict
        else if negb (bool_decide (EnvironmentRecord.status environment = EnvironmentStatus.ACTIVE))
        then Err TestPlanConflict
        else Ok tt
    | _, _ => Ok tt
    end.

Definition _validate_references (project_id : uuid) (items : list TestPlanItem.t) : res unit :=
  rfold (fun _ item => validate_reference project_id item) tt items.

Definition create_plan (now : datetime) (fresh tenant_id project_id : uuid) (name description : string)
    (items : list TestPlanItem.t) (max_parallel : pyval) : M t TestPlanRecord.t :=
  let* '(name, description) := lift (normalize_plan_text name description) in
  let* normalized := lift (normalize_plan_items items) in
  let* max_parallel := lift (_max_parallel max_parallel) in
  lift (_validate_references project_id normalized) ;;;
  let record := TestPlanRecord.mk fresh tenant_id project_id name description normalized max_parallel
                  TestPlanStatus.DRAFT 1 0 now now in
  let* s := get in
  put (set_plan fresh record [record] s) ;;;
  ret record.

Definition update_plan (read : datetime) (plan_id : uuid) (expected_version : Z)
    (name description : string) (items : list TestPlanItem.t) (status : TestPlanStatus.t)
    (max_parallel : pyval) : M t TestPlanRecord.t :=
  let* '(name, description) := lift (normalize_plan_text name description) in
  let* normalized := lift (normalize_plan_items items) in
  let* max_parallel := lift (_max_parallel max_parallel) in
  let* current := get_plan plan_id in
  if negb (TestPlanRecord.state_version current =? expected_version)%Z
  then raise TestPlanVersionConflict
  else
    lift (_validate_references (TestPlanRecord.project_id current) normalized) ;;;
    let* updated := lift (TestPlanRecord.update read current name description normalized max_parallel
                            status) in
    let* s := get in
    let* revisions := lift (subscript plan_id (_revisions s)) in
    put (set_plan plan_id updated (revisions ++ [updated]) s) ;;;
    ret updated.

(** ** Expanding a plan *)

(** [variables], [common] and [secrets] of one item. *)
Definition configuration : Type :=
  list (string * pyval) * list (string * pyval) * list SecretReference.t.

Definition reference_category (c : ConfigurationCategory.t) : SecretReference.Category :=
  match c with
  | ConfigurationCategory.ENVIRONMENT_VARIABLE => SecretReference.environment_variable
  | ConfigurationCategory.COMMON_PARAMETER => SecretReference.common_parameter
  end.

Definition add_value (c : configuration) (value : ConfigurationValue.t) : res configuration :=
  let '(variables, common, secrets) := c in
  let name := ConfigurationValue.name value in
  if ConfigurationValue.secret value then
    match ConfigurationValue.secret_ref value with
    | None => Err TestPlanConflict
    | Some ref =>
        let? reference := SecretReference.validate
          (SecretReference.mk (reference_category (ConfigurationValue.category value)) name ref) in
        Ok (variables, common, secrets ++ [reference])
    end
  else match ConfigurationValue.category value with
       | ConfigurationCategory.ENVIRONMENT_VARIABLE =>
           Ok (kv_set name (ConfigurationValue.value value) variables, common, secrets)
       | ConfigurationCategory.COMMON_PARAMETER =>
           Ok (variables, kv_set name (ConfigurationValue.value value) common, secrets)
       end.

Definition item_configuration (item : TestPlanItem.t) : res configuration :=
  match TestPlanItem.environment_id item, TestPlanItem.environment_revision item with
  | Some environment_id, Some environment_revision =>
      let? environment := er_get_revision environment_id environment_revision _environments in
      rfold add_value ([], [], []) (EnvironmentRecord.values environment)
  | _, _ => Ok ([], [], [])
  end.

(** The run and the specification of one row. *)
Definition expand_row (plan : TestPlanRecord.t) (batch_id : uuid) (now : datetime)
    (source_override : option (string * string)) (item : TestPlanItem.t)
    (script : AutomationScriptRecord.t) (c : configuration) (ids : uuid * uuid)
    (row : TestPlanDataRow.t) : res (RunRecord.t * RunSpecRecord.t) :=
  let '(variables, common, secrets) := c in
  let? parameters := _json_object
    (kv_merge (kv_merge common (TestPlanItem.default_parameters item)) (TestPlanDataRow.values row))
    "final parameters" in
  let '(run_id, spec_id) := ids in
  let run := RunRecord.mk run_id (AutomationScriptRecord.engine script) parameters RunState.CREATED
               now now 0 in
  let '(source_ref, content_digest) :=
    match source_override with
    | Some o => o
    | None => (AutomationScriptRecord.source_ref script, AutomationScriptRecord.content_digest script)
    end in
  Ok (run,
      RunSpecRecord.mk spec_id run_id batch_id (TestPlanRecord.tenant_id plan)
        (TestPlanRecord.project_id plan) (TestPlanRecord.id plan) (TestPlanRecord.revision plan)
        (TestPlanItem.item_id item) (TestPlanDataRow.row_key row)
        (AutomationScriptRecord.engine script) (AutomationScriptRecord.id script)
        (AutomationScriptRecord.revision script) source_ref content_digest
        (AutomationScriptRecord.entrypoint script) (AutomationScriptRecord.timeout_seconds script)
        (TestPlanItem.environment_id item) (TestPlanItem.environment_revision item) variables
        parameters secrets (TestPlanItem.execution_policy item) now).

(** The [k]-th row of the plan gets the [uuid4()] results [ids k] (run, then spec). *)
Fixpoint expand_rows (plan : TestPlanRecord.t) (batch_id : uuid) (now : datetime)
    (source_override : option (string * string)) (item : TestPlanItem.t)
    (script : AutomationScriptRecord.t) (c : configuration) (ids : nat -> uuid * uuid) (k : nat)
    (rows : list TestPlanDataRow.t) : res (list (RunRecord.t * RunSpecRecord.t)) :=
  match rows with
  | [] => Ok []
  | row :: rest =>
      let? pair := expand_row plan batch_id now source_override item script c (ids k) row in
      let? others := expand_rows plan batch_id now source_override item script c ids (S k) rest in
      Ok (pair :: others)
  end.

Fixpoint expand_items (plan : TestPlanRecord.t) (batch_id : uuid) (now : datetime)
    (source_override : option (string * string)) (ids : nat -> uuid * uuid) (k : nat)
    (items : list TestPlanItem.t) : res (list (RunRecord.t * RunSpecRecord.t)) :=
  match items with
  | [] => Ok []
  | item :: rest =>
      let? script := sr_get_revision (TestPlanItem.script_id item) (TestPlanItem.script_revision item)
                       _scripts in
      let? c := item_configuration item in
      let? pairs := expand_rows plan batch_id now source_override item script c ids k
                      (TestPlanItem.data_rows item) in
      let? others := expand_items plan batch_id now source_override ids
                       (k + length (TestPlanItem.data_rows item)) rest in
      Ok (pairs ++ others)
  end.

Definition _expand (plan : TestPlanRecord.t) (batch_id : uuid) (now : datetime)
    (source_override : option (string * string)) (ids : nat -> uuid * uuid)
    : res (list RunRecord.t * list RunSpecRecord.t) :=
  let? pairs := expand_items plan batch_id now source_override ids 0 (TestPlanRecord.items plan) in
  Ok (map fst pairs, map snd pairs).

(** ** Executing a plan

    The state is the repository together with the run repository it shares; both locks
    are held, so the call is atomic. *)
Definition store_batch (batch : ExecutionBatchRecord.t) (runs : list RunRecord.t)
    (specs : list RunSpecRecord.t) (scope : uuid * uuid * string) (s : t * RunRepository.t)
    : t * RunRepository.t :=
  let '(p, r) := s in
  (mk (_plans p) (_revisions p) (<[ExecutionBatchRecord.id batch:=batch]> (_batches p))
      (update (map (fun spec => (RunSpecRecord.run_id spec, spec)) specs) (_specs_by_run p))
      (<[scope:=(ExecutionBatchRecord.plan_id batch, ExecutionBatchRecord.plan_revision batch,
                 ExecutionBatchRecord.id batch)]> (_idempotency p)),
   (RunRepository.set_runs (update (map (fun run => (RunRecord.id run, run)) runs)) r).2).

Definition execute (now : datetime) (fresh : uuid) (ids : nat -> uuid * uuid) (plan_id : uuid)
    (idempotency_key : string) (source_override : option (string * string))
    : M (t * RunRepository.t) (ExecutionBatchRecord.t * bool) :=
  let key := strip idempotency_key in
  if empty_str key || (255 <? py_len key)%Z
  then raise (ValueError "Idempotency-Key must contain 1 to 255 characters")
  else
    let* s := get in
    let* plan := lift (get_plan plan_id s.1).1 in
    let scope := (TestPlanRecord.tenant_id plan, TestPlanRecord.project_id plan, key) in
    match _idempotency s.1 !! scope with
    | Some (saved_plan, saved_revision, batch_id) =>
        if negb (bool_decide ((saved_plan, saved_revision)
                              = (TestPlanRecord.id plan, TestPlanRecord.revision plan)))
        then raise TestPlanConflict
        else
          let* batch := lift (subscript batch_id (_batches s.1)) in
          ret (batch, true)
    | None =>
        if negb (bool_decide (TestPlanRecord.status plan = TestPlanStatus.ACTIVE))
        then raise TestPlanConflict
        else
          let* '(runs, specs) := lift (_expand plan fresh now source_override ids) in
          let batch := ExecutionBatchRecord.mk fresh (TestPlanRecord.tenant_id plan)
                         (TestPlanRecord.project_id plan) (TestPlanRecord.id plan)
                         (TestPlanRecord.revision plan) key (TestPlanRecord.max_parallel plan)
                         (map RunRecord.id runs) now in
          put (store_batch batch runs specs scope s) ;;;
          ret (batch, false)
    end.

(** ** Claiming the runs of a batch *)

Definition occupied_states : list RunState.t :=
  [RunState.QUEUED; RunState.DISPATCHING; RunState.RUNNING; RunState.CANCELLING; RunState.RETRY_WAIT].
Definition is_occupied (r : RunRecord.t) : bool := bool_decide (RunRecord.state r ∈ occupied_states).
Definition is_created (r : RunRecord.t) : bool := bool_decide (RunRecord.state r = RunState.CREATED).

(** The loop over the records read before it; the [k]-th queued run reads [clk k]. *)
Fixpoint claim_loop (clk : clock) (k : nat) (available : Z) (records : list RunRecord.t)
    : M (t * RunRepository.t) (list uuid) :=
  match records with
  | [] => ret []
  | record :: rest =>
      if (available =? 0)%Z then ret []
      else if negb (is_created record) then claim_loop clk k available rest
      else
        let* queued := lift (RunRecord.with_state (clk k) record RunState.QUEUED) in
        let* s := get in
        put (s.1, (RunRepository.set_runs (fun d => <[RunRecord.id record:=queued]> d) s.2).2) ;;;
        let* claimed := claim_loop clk (S k) (available - 1) rest in
        ret (RunRecord.id record :: claimed)
  end.

Definition claim_available_runs (clk : clock) (batch_id : uuid) : M (t * RunRepository.t) (list uuid) :=
  let* s := get in
  match _batches s.1 !! batch_id with
  | None => raise TestPlanNotFound
  | Some batch =>
      let* records := lift (rmap (fun i => (RunRepository._get_locked i s.2).1)
                              (ExecutionBatchRecord.run_ids batch)) in
      let available := Z.max 0 (ExecutionBatchRecord.max_parallel batch
                                - Z.of_nat (length (List.filter is_occupied records))) in
      claim_loop clk 0 available records
  end.
End operations.
End TestPlanRepository.

(** ** The task of an attempt *)
Module RunSpecTaskMaterializer.
Section materializer.
  (** [RunSpecReader]: the repository's [get_run_spec]. *)
  Context (get_run_spec : uuid -> res RunSpecRecord.t).

Definition materialize (created_at : datetime) (run_id attempt_id : uuid) : res TaskEnvelope.t :=
  let? spec := get_run_spec run_id in
  let spec_id := uuid_str (RunSpecRecord.id spec) in
  let? deadline := add_seconds created_at (RunSpecRecord.timeout_seconds spec) in
  TaskEnvelope.validate
    (TaskEnvelope.mk run_id attempt_id (RunSpecRecord.engine spec)
       (uuid5 NAMESPACE_URL (spec_id ++ ":" ++ uuid_str attempt_id))
       (RunSpecRecord.tenant_id spec) (RunSpecRecord.project_id spec)
       ("run-spec:" ++ spec_id ++ ":attempt:" ++ uuid_str attempt_id)
       created_at deadline (RunSpecRecord.entrypoint spec) (RunSpecRecord.parameters spec)
       (Some (RunSpecRecord.id spec)) (Some (RunSpecRecord.source_ref spec))
       (Some (RunSpecRecord.content_digest spec)) (RunSpecRecord.environment_variables spec)
       (RunSpecRecord.environment_id spec) (RunSpecRecord.environment_revision spec)
       (RunSpecRecord.secret_references spec) (RunSpecRecord.execution_policy spec))%string.
End materializer.
End RunSpecTaskMaterializer.
