(* ===== verification/TestPlanTheorems.v ===== *)
(** * Theorems about test plans

    The plan repository is considered together with the run repository it shares and
    with the readers of scripts and environments; calls of all four interleave freely. *)
From S2P Require Import Prelude PyDict PyText Protocol Domain Runs RunsFacts Versioned Quality Automation EnvironmentCrypto Environments EnvironmentTheorems ResolverTheorems TestPlans.
Import TestPlanRepository.
Open Scope list_scope.

(** ** The run repository as a store *)
#[export,refine] Instance runs_store `{PyFloat} : Store RunRepository.t repo_op := {|
  st_init := RunRepository.init; st_op := run_op; st_fresh := fresh_for; st_wf := RunsFacts.wf;
  st_evolves := evolves; st_init_wf := wf_init |}.
Proof. intros o s W Hf. by apply run_op_good. Defined.

(** Adding a list of new runs. *)
Lemma good_add_runs `{PyFloat} (rs : list RunRecord.t) s :
  RunsFacts.wf s -> NoDup (map RunRecord.id rs) ->
  (forall r, r ∈ rs -> RunRepository._runs s !! RunRecord.id r = None) ->
  good s (RunRepository.set_runs (update (map (fun r => (RunRecord.id r, r)) rs)) s).2.
Proof.
  revert s. induction rs as [|r rs IH]; intros s W Hnd Hnew.
  { destruct s. by apply good_refl. }
  simpl in Hnd. apply NoDup_cons in Hnd as [Hr Hnd].
  pose proof (good_add_run s (RunRecord.id r) r W (Hnew _ (list_elem_of_here _ _)) eq_refl) as G1.
  eapply good_trans; [exact G1 |].
  apply (IH (RunRepository.set_runs (fun d => <[RunRecord.id r:=r]> d) s).2); [apply G1 | done |].
  intros x Hx. simpl. rewrite dict_lookup_insert_ne; [by apply Hnew; right |].
  intros He. apply Hr. rewrite He. apply elem_of_map. eauto.
Qed.

(** ** Plans as revisioned records *)
Definition plan_next (r r' : TestPlanRecord.t) : Prop :=
  TestPlanRecord.id r' = TestPlanRecord.id r
  /\ TestPlanRecord.tenant_id r' = TestPlanRecord.tenant_id r
  /\ TestPlanRecord.project_id r' = TestPlanRecord.project_id r
  /\ TestPlanRecord.created_at r' = TestPlanRecord.created_at r
  /\ TestPlanRecord.revision r' = (TestPlanRecord.revision r + 1)%Z
  /\ TestPlanRecord.state_version r' = (TestPlanRecord.state_version r + 1)%Z
  /\ validate_plan_transition (TestPlanRecord.status r) (TestPlanRecord.status r') = Ok tt.

#[export,refine] Instance plan_revisioned : Revisioned TestPlanRecord.t := {|
  rv_id := TestPlanRecord.id; rv_revision := TestPlanRecord.revision;
  rv_version := TestPlanRecord.state_version; rv_next := plan_next; rv_next_spec := _ |}.
Proof. unfold plan_next. naive_solver. Defined.

Lemma plan_update_next read r n d items m st r' :
  TestPlanRecord.update read r n d items m st = Ok r' ->
  plan_next r r' /\ TestPlanRecord.items r' = items /\ TestPlanRecord.max_parallel r' = m.
Proof. intros ([] & Ht & [= <-])%rbind_Ok. by split_and!. Qed.

Lemma max_parallel_Ok v z : _max_parallel v = Ok z <-> v = PInt z /\ (1 <= z <= 100)%Z.
Proof.
  unfold _max_parallel. destruct v; try (split; [done | by intros [? _]]).
  case_match eqn:E; bool_prop.
  - split; [done |]. intros [[= ->] ?]. destruct E; bool_prop; lia.
  - split; [intros [= <-]; split; [done | lia] | by intros [[= ->] _]].
Qed.

(** ** Expansion, row by row *)

(** The rows of a plan in the order of its runs. *)
Definition plan_rows (items : list TestPlanItem.t) : list (TestPlanItem.t * TestPlanDataRow.t) :=
  concat (map (fun i => map (pair i) (TestPlanItem.data_rows i)) items).

Section expansion.
  Context `{PyFloat} {SR SOp ER EOp : Type} `{ScriptRevisionReader SR SOp} `{EnvironmentReader ER EOp}.
  Context (sr : SR) (er : ER).

(** The run and the specification of a row come from one expansion step with its ids. *)
Definition expanded (plan : TestPlanRecord.t) (batch : uuid) (now : datetime)
    (override : option (string * string)) (ids : uuid * uuid)
    (row : TestPlanItem.t * TestPlanDataRow.t) (pair : RunRecord.t * RunSpecRecord.t) : Prop :=
  exists script c,
    sr_get_revision (TestPlanItem.script_id row.1) (TestPlanItem.script_revision row.1) sr = Ok script
    /\ item_configuration er row.1 = Ok c
    /\ expand_row plan batch now override row.1 script c ids row.2 = Ok pair.

Lemma expand_rows_Ok plan batch now override item script c ids k rows pairs :
  expand_rows plan batch now override item script c ids k rows = Ok pairs <->
  length pairs = length rows /\
  forall j row, rows !! j = Some row -> exists pair, pairs !! j = Some pair
    /\ expand_row plan batch now override item script c (ids (k + j)%nat) row = Ok pair.
Proof.
  revert k pairs. induction rows as [|row rows IH]; intros k pairs; simpl.
  { split; [intros [= <-]; split; [done |]; intros ? ?; by rewrite lookup_nil |].
    intros [Hl _]. by destruct pairs. }
  rewrite rbind_Ok. setoid_rewrite rbind_Ok. split.
  - intros (p & Hp & others & Hrest & [= <-]). apply IH in Hrest as [Hl Hrest].
    split; [simpl; lia |]. intros [|j] r Hr; simpl in *.
    + injection Hr as [= ->]. exists p. by rewrite Nat.add_0_r.
    + destruct (Hrest _ _ Hr) as (q & Hq & He). exists q. by rewrite Nat.add_succ_r.
  - intros [Hl Hall]. destruct pairs as [|p others]; [done |]. simpl in Hl.
    destruct (Hall 0%nat row eq_refl) as (p' & Hp' & He). injection Hp' as [= <-].
    rewrite Nat.add_0_r in He. exists p. split; [done |]. exists others. split; [| done].
    apply IH. split; [lia |]. intros j r Hr. destruct (Hall (S j) r Hr) as (q & Hq & Hx).
    exists q. by rewrite Nat.add_succ_r in Hx.
Qed.

Lemma expand_items_spec plan batch now override ids k items pairs :
  expand_items sr er plan batch now override ids k items = Ok pairs ->
  length pairs = length (plan_rows items)
  /\ forall j row, plan_rows items !! j = Some row -> exists pair, pairs !! j = Some pair
       /\ expanded plan batch now override (ids (k + j)%nat) row pair.
Proof.
  revert k pairs. induction items as [|item items IH]; intros k pairs; simpl.
  { intros [= <-]. split; [done |]. intros ? ?. by rewrite lookup_nil. }
  intros (script & Hs & Hx)%rbind_Ok. apply rbind_Ok in Hx as (c & Hc & Hx).
  apply rbind_Ok in Hx as (ps & Hps & Hx). apply rbind_Ok in Hx as (others & Ho & [= <-]).
  apply expand_rows_Ok in Hps as [Hl1 Hps]. apply IH in Ho as [Hl2 Ho].
  unfold plan_rows in *. simpl. rewrite !length_app, length_map. split; [lia |].
  intros j row Hj. apply lookup_app_Some in Hj as [Hj|[Hge Hj]].
  - rewrite list_lookup_fmap in Hj. destruct (TestPlanItem.data_rows item !! j) as [r|] eqn:Er; [| done].
    injection Hj as [= <-]. destruct (Hps _ _ Er) as (p & Hp & He). exists p.
    split; [by apply lookup_app_l_Some |]. by exists script, c.
  - rewrite length_map in Hge, Hj. destruct (Ho _ _ Hj) as (p & Hp & He). exists p. split.
    + rewrite lookup_app_r by lia. by rewrite Hl1.
    + by replace (k + j)%nat with (k + length (TestPlanItem.data_rows item)
        + (j - length (TestPlanItem.data_rows item)))%nat by lia.
Qed.

Lemma expand_row_ids plan batch now override item script c ids row p :
  expand_row plan batch now override item script c ids row = Ok p ->
  RunRecord.id p.1 = ids.1 /\ RunRecord.state p.1 = RunState.CREATED
  /\ RunRecord.engine p.1 = AutomationScriptRecord.engine script
  /\ RunSpecRecord.run_id p.2 = ids.1 /\ RunSpecRecord.id p.2 = ids.2
  /\ RunSpecRecord.batch_id p.2 = batch
  /\ RunSpecRecord.engine p.2 = RunRecord.engine p.1
  /\ RunSpecRecord.parameters p.2 = RunRecord.parameters p.1.
Proof.
  unfold expand_row. destruct c as [[variables common] secrets]. destruct ids as [rid sid].
  intros (ps & _ & Hp)%rbind_Ok. destruct override as [[]|]; injection Hp as [= <-]; by split_and!.
Qed.

(** The ids of the runs are the first results drawn. *)
Lemma expand_run_ids plan batch now override ids items pairs :
  expand_items sr er plan batch now override ids 0 items = Ok pairs ->
  map (fun p => RunRecord.id p.1) pairs = map (fun j => (ids j).1) (seq 0 (length pairs)).
Proof.
  intros [Hl Hall]%expand_items_spec. apply list_eq. intros j.
  rewrite !list_lookup_fmap. destruct (pairs !! j) as [p|] eqn:Ep; simpl.
  - apply lookup_lt_Some in Ep as Hlt. rewrite lookup_seq_lt by done. simpl.
    destruct (lookup_lt_is_Some_2 (plan_rows items) j) as [row Hrow]; [lia |].
    destruct (Hall _ _ Hrow) as (p' & Hp' & script & c & _ & _ & He).
    assert (p' = p) as -> by congruence. by apply expand_row_ids in He as (-> & _).
  - apply lookup_ge_None in Ep. by rewrite lookup_seq_ge.
Qed.
End expansion.

(** ** The plan repository and the run repository together

    A call of either repository; the calls that read scripts and environments take the
    stores as they are at that moment. *)
Section world.
  Context `{PyFloat} {SR SOp ER EOp : Type} `{ScriptRevisionReader SR SOp} `{EnvironmentReader ER EOp}.
  Notation world := (t * RunRepository.t)%type.

Inductive plan_op : Type :=
  | OpCreatePlan (sr : SR) (er : ER) (now : datetime) (fresh tenant project : uuid)
      (name description : string) (items : list TestPlanItem.t) (max_parallel : pyval)
  | OpUpdatePlan (sr : SR) (er : ER) (read : datetime) (i : uuid) (expected : Z)
      (name description : string) (items : list TestPlanItem.t) (status : TestPlanStatus.t)
      (max_parallel : pyval)
  | OpExecute (sr : SR) (er : ER) (now : datetime) (fresh : uuid) (ids : nat -> uuid * uuid) (i : uuid)
      (key : string) (override : option (string * string))
  | OpClaimRuns (clk : clock) (batch : uuid)
  | OpRuns (o : repo_op).

Definition plan_step (o : plan_op) (w : world) : world :=
  match o with
  | OpCreatePlan sr er now fresh tenant project name description items mp =>
      ((create_plan sr er now fresh tenant project name description items mp w.1).2, w.2)
  | OpUpdatePlan sr er read i v name description items st mp =>
      ((update_plan sr er read i v name description items st mp w.1).2, w.2)
  | OpExecute sr er now fresh ids i key ov => (execute sr er now fresh ids i key ov w).2
  | OpClaimRuns clk b => (claim_available_runs clk b w).2
  | OpRuns o => (w.1, run_op o w.2)
  end.

(** [uuid4()] returns no id in use and no id twice. *)
Definition plan_fresh (o : plan_op) (w : world) : Prop :=
  match o with
  | OpCreatePlan _ _ _ fresh _ _ _ _ _ _ => _plans w.1 !! fresh = None
  | OpExecute _ _ _ fresh ids _ _ _ =>
      _batches w.1 !! fresh = None
      /\ (forall j k, (ids j).1 = (ids k).1 -> j = k)
      /\ (forall j, RunRepository._runs w.2 !! (ids j).1 = None)
  | OpRuns o => fresh_for o w.2
  | _ => True
  end.

Definition in_bounds (n : Z) : Prop := (1 <= n <= 100)%Z.

(** The runs of a batch have their specifications and the batch a plan revision. *)
Record batch_ok (p : t) (i : uuid) (b : ExecutionBatchRecord.t) : Prop := {
  bo_id : ExecutionBatchRecord.id b = i;
  bo_bounds : in_bounds (ExecutionBatchRecord.max_parallel b);
  bo_runs : NoDup (ExecutionBatchRecord.run_ids b);
  bo_specs : forall j, j ∈ ExecutionBatchRecord.run_ids b ->
    exists x, _specs_by_run p !! j = Some x /\ RunSpecRecord.batch_id x = i;
  bo_plan : exists l x, _revisions p !! ExecutionBatchRecord.plan_id b = Some l /\ x ∈ l
    /\ TestPlanRecord.revision x = ExecutionBatchRecord.plan_revision b
    /\ TestPlanRecord.tenant_id x = ExecutionBatchRecord.tenant_id b
    /\ TestPlanRecord.project_id x = ExecutionBatchRecord.project_id b
    /\ TestPlanRecord.max_parallel x = ExecutionBatchRecord.max_parallel b }.

Definition batch_scope (b : ExecutionBatchRecord.t) : uuid * uuid * string :=
  (ExecutionBatchRecord.tenant_id b, ExecutionBatchRecord.project_id b, ExecutionBatchRecord.idempotency_key b).
Definition batch_entry (b : ExecutionBatchRecord.t) : uuid * Z * uuid :=
  (ExecutionBatchRecord.plan_id b, ExecutionBatchRecord.plan_revision b, ExecutionBatchRecord.id b).

Record spec_ok (w : world) (j : uuid) (x : RunSpecRecord.t) : Prop := {
  so_id : RunSpecRecord.run_id x = j;
  so_run : exists r, RunRepository._runs w.2 !! j = Some r /\ RunRecord.engine r = RunSpecRecord.engine x
    /\ RunRecord.parameters r = RunSpecRecord.parameters x;
  so_batch : exists b, _batches w.1 !! RunSpecRecord.batch_id x = Some b
    /\ j ∈ ExecutionBatchRecord.run_ids b }.

Record plan_wf (w : world) : Prop := {
  pw_runs : RunsFacts.wf w.2;
  pw_plans : versioned (_plans w.1) (_revisions w.1);
  pw_bounds : forall i l x, _revisions w.1 !! i = Some l -> x ∈ l -> in_bounds (TestPlanRecord.max_parallel x);
  pw_batches : forall i b, _batches w.1 !! i = Some b -> batch_ok w.1 i b;
  pw_specs : forall j x, _specs_by_run w.1 !! j = Some x -> spec_ok w j x;
  pw_index : forall k e, _idempotency w.1 !! k = Some e <->
    exists i b, _batches w.1 !! i = Some b /\ batch_scope b = k /\ batch_entry b = e }.

Record plan_evolves (w w' : world) : Prop := {
  pe_runs : evolves w.2 w'.2;
  pe_plans : grows (_revisions w.1) (_revisions w'.1);
  pe_batches : forall i b, _batches w.1 !! i = Some b -> _batches w'.1 !! i = Some b;
  pe_specs : forall j x, _specs_by_run w.1 !! j = Some x -> _specs_by_run w'.1 !! j = Some x;
  pe_index : forall k e, _idempotency w.1 !! k = Some e -> _idempotency w'.1 !! k = Some e }.

#[export] Instance plan_evolves_preorder : PreOrder plan_evolves.
Proof.
  split.
  - by intros w; split.
  - intros w1 w2 w3 [] []. split; [by etrans | by etrans | eauto..].
Qed.

Lemma plan_refl w : plan_wf w -> plan_wf w /\ plan_evolves w w.
Proof. by split. Qed.

(** Runs that evolve keep what the specifications say of them. *)
Lemma spec_ok_runs p r r' j x : evolves r r' -> spec_ok (p, r) j x -> spec_ok (p, r') j x.
Proof.
  intros E [Hi (y & Hy & He & Hp) Hb]. split; [done | | done].
  destruct (ev_runs _ _ E _ _ Hy) as (y' & Hy' & _ & He' & Hp' & _). exists y'. simpl in *.
  split_and!; [done | congruence | congruence].
Qed.

Lemma plan_runs_good p r r' :
  plan_wf (p, r) -> good r r' -> plan_wf (p, r') /\ plan_evolves (p, r) (p, r').
Proof.
  intros [] [W E]. split; split; simpl in *; try done.
  intros j x Hx. by eapply spec_ok_runs, pw_specs0.
Qed.

Lemma batch_ok_mono p p' i b :
  grows (_revisions p) (_revisions p') ->
  (forall j x, _specs_by_run p !! j = Some x -> _specs_by_run p' !! j = Some x) ->
  batch_ok p i b -> batch_ok p' i b.
Proof.
  intros G S [? ? ? Hs (l & x & Hl & Hx & ?)]. split; try done.
  - intros j Hj. destruct (Hs j Hj) as (y & ? & ?). eauto.
  - destruct (G _ _ Hl) as (more & Hm). exists (l ++ more), x. split_and!; try naive_solver.
    apply elem_of_app. by left.
Qed.

(** Storing a revision [x] of plan [i]. *)
Lemma set_plan_good p r i x l :
  plan_wf (p, r) -> in_bounds (TestPlanRecord.max_parallel x) ->
  versioned (<[i:=x]> (_plans p)) (<[i:=l ++ [x]]> (_revisions p)) ->
  grows (_revisions p) (<[i:=l ++ [x]]> (_revisions p)) ->
  (l = [] \/ _revisions p !! i = Some l) ->
  plan_wf (set_plan i x (l ++ [x]) p, r) /\ plan_evolves (p, r) (set_plan i x (l ++ [x]) p, r).
Proof.
  intros [Wr V Hb Hbat Hsp Hi] Hx V' G Hl. split; split; simpl in *; try done.
  - intros j k y Hk Hy. dict_case; [| by eapply Hb].
    apply elem_of_app in Hy as [Hy|Hy%list_elem_of_singleton]; [| by subst].
    destruct Hl as [->|Hl]; [by apply elem_of_nil in Hy | by eapply Hb].
  - intros j b Hj. eapply (batch_ok_mono p); [done | done | by apply Hbat].
  - intros j y Hy. by destruct (Hsp _ _ Hy).
Qed.

(** ** Executing a plan *)

(** What [execute] does when the key is new and the plan active. *)
Lemma execute_new sr er now fresh ids i key ov w plan :
  empty_str (strip key) || (255 <? py_len (strip key))%Z = false ->
  _plans w.1 !! i = Some plan ->
  _idempotency w.1 !! (TestPlanRecord.tenant_id plan, TestPlanRecord.project_id plan, strip key) = None ->
  TestPlanRecord.status plan = TestPlanStatus.ACTIVE ->
  execute sr er now fresh ids i key ov w =
  match expand_items sr er plan fresh now ov ids 0 (TestPlanRecord.items plan) with
  | Err e => (Err e, w)
  | Ok pairs =>
      let batch := ExecutionBatchRecord.mk fresh (TestPlanRecord.tenant_id plan)
        (TestPlanRecord.project_id plan) (TestPlanRecord.id plan) (TestPlanRecord.revision plan)
        (strip key) (TestPlanRecord.max_parallel plan) (map RunRecord.id (map fst pairs)) now in
      (Ok (batch, false),
       store_batch batch (map fst pairs) (map snd pairs) (batch_scope batch) w)
  end.
Proof.
  intros Hk Hp Hi Hs. unfold execute. rewrite Hk. unfold bind, get, lift, get_plan. cbn [fst snd].
  rewrite Hp. cbn [fst snd]. rewrite Hi. rewrite bool_decide_true by done. cbn [negb].
  unfold _expand, rbind. destruct (expand_items _ _ _ _ _ _ _ _ _); [| done]. reflexivity.
Qed.

(** What it does otherwise: nothing to the stores. *)
Lemma execute_reads sr er now fresh ids i key ov w res w' :
  execute sr er now fresh ids i key ov w = (res, w') ->
  w' = w \/ exists plan pairs batch,
    empty_str (strip key) || (255 <? py_len (strip key))%Z = false
    /\ _plans w.1 !! i = Some plan
    /\ _idempotency w.1 !! (TestPlanRecord.tenant_id plan, TestPlanRecord.project_id plan, strip key) = None
    /\ TestPlanRecord.status plan = TestPlanStatus.ACTIVE
    /\ expand_items sr er plan fresh now ov ids 0 (TestPlanRecord.items plan) = Ok pairs
    /\ batch = ExecutionBatchRecord.mk fresh (TestPlanRecord.tenant_id plan)
        (TestPlanRecord.project_id plan) (TestPlanRecord.id plan) (TestPlanRecord.revision plan)
        (strip key) (TestPlanRecord.max_parallel plan) (map RunRecord.id (map fst pairs)) now
    /\ res = Ok (batch, false)
    /\ w' = store_batch batch (map fst pairs) (map snd pairs) (batch_scope batch) w.
Proof.
  intros Hx. destruct (empty_str (strip key) || (255 <? py_len (strip key))%Z) eqn:Ek.
  { left. unfold execute in Hx. rewrite Ek in Hx. by injection Hx. }
  destruct (_plans w.1 !! i) as [plan|] eqn:Ep.
  2:{ left. unfold execute in Hx. rewrite Ek in Hx. unfold bind, get, lift, get_plan in Hx.
      cbn [fst snd] in Hx. rewrite Ep in Hx. by injection Hx. }
  destruct (_idempotency w.1 !! (TestPlanRecord.tenant_id plan, TestPlanRecord.project_id plan, strip key))
    as [[[pl rv] bid]|] eqn:Ei.
  { left. unfold execute in Hx. rewrite Ek in Hx. unfold bind, get, lift, get_plan, subscript, raise, ret in Hx.
    cbn [fst snd] in Hx. rewrite Ep in Hx. cbn [fst snd] in Hx. rewrite Ei in Hx.
    destruct (negb _); [by injection Hx |]. destruct (_batches w.1 !! bid); by injection Hx. }
  destruct (decide (TestPlanRecord.status plan = TestPlanStatus.ACTIVE)) as [Ha|Ha].
  2:{ left. unfold execute in Hx. rewrite Ek in Hx. unfold bind, get, lift, get_plan, raise in Hx.
      cbn [fst snd] in Hx. rewrite Ep in Hx. cbn [fst snd] in Hx. rewrite Ei in Hx.
      rewrite bool_decide_false in Hx by done. by injection Hx. }
  rewrite (execute_new sr er now fresh ids i key ov w plan Ek Ep Ei Ha) in Hx.
  destruct (expand_items _ _ _ _ _ _ _ _ _) as [pairs|e] eqn:Ex; [| left; by injection Hx].
  right. injection Hx as [= <- <-]. exists plan, pairs. eexists. split_and!; try done.
Qed.

(** The run and the specification of every pair of an expansion. *)
Lemma expand_pairs sr er plan b now ov ids items pairs :
  expand_items sr er plan b now ov ids 0 items = Ok pairs ->
  forall pair, pair ∈ pairs -> exists j,
    RunRecord.id pair.1 = (ids j).1 /\ RunSpecRecord.run_id pair.2 = (ids j).1
    /\ RunSpecRecord.batch_id pair.2 = b
    /\ RunRecord.engine pair.1 = RunSpecRecord.engine pair.2
    /\ RunRecord.parameters pair.1 = RunSpecRecord.parameters pair.2.
Proof.
  intros [Hl Hall]%expand_items_spec pair Hin. apply list_elem_of_lookup in Hin as [j Hj].
  apply lookup_lt_Some in Hj as Hlt.
  destruct (lookup_lt_is_Some_2 (plan_rows items) j) as [row Hrow]; [lia |].
  destruct (Hall _ _ Hrow) as (p' & Hp' & script & c & _ & _ & He).
  assert (p' = pair) as -> by congruence. exists (0 + j)%nat.
  apply expand_row_ids in He as (? & ? & ? & ? & ? & ? & ? & ?). split_and!; congruence.
Qed.

Lemma expand_ids_nodup sr er plan b now ov ids items pairs :
  (forall j k, (ids j).1 = (ids k).1 -> j = k) ->
  expand_items sr er plan b now ov ids 0 items = Ok pairs ->
  NoDup (map (fun p => RunRecord.id p.1) pairs).
Proof.
  intros Hinj Hx. rewrite (expand_run_ids _ _ _ _ _ _ _ _ _ Hx). apply NoDup_fmap_2; [| apply NoDup_seq].
  intros j k. apply Hinj.
Qed.

(** Lookups after [d.update({key(x): x for x in xs})] with new, distinct keys. *)
Lemma lookup_update_map {V} (key : V -> uuid) (xs : list V) (d : pydict uuid V) j v :
  NoDup (map key xs) -> (forall x, x ∈ xs -> d !! key x = None) ->
  update (map (fun x => (key x, x)) xs) d !! j = Some v <->
  d !! j = Some v \/ (v ∈ xs /\ key v = j).
Proof.
  intros Hnd Hnew.
  assert ((map (fun x => (key x, x)) xs).*1 = map key xs) as Hk.
  { clear. induction xs; simpl; [done |]. by f_equal. }
  destruct (decide (j ∈ map key xs)) as [Hin|Hni].
  - apply elem_of_map in Hin as (x & -> & Hx).
    assert (update (map (fun x => (key x, x)) xs) d !! key x = Some x) as ->.
    { apply lookup_update_in; [by rewrite Hk | apply elem_of_map; eauto]. }
    rewrite (Hnew _ Hx). split; [intros [= <-]; by right | intros [? | [Hv He]]; [done |]].
    f_equal. apply list_elem_of_lookup in Hx as [n Hn]. apply list_elem_of_lookup in Hv as [m Hm].
    assert (n = m) as ->; [| congruence].
    apply (NoDup_lookup (map key xs) n m (key x)); [done | |];
      rewrite list_lookup_fmap; [by rewrite Hn | by rewrite Hm, <- He].
  - rewrite lookup_update_ne by by rewrite Hk. split; [by left |]. intros [? | [Hv <-]]; [done |].
    destruct Hni. apply elem_of_map. eauto.
Qed.

Lemma store_batch_good p r batch pairs :
  plan_wf (p, r) -> _batches p !! ExecutionBatchRecord.id batch = None ->
  _idempotency p !! batch_scope batch = None ->
  NoDup (map (fun x => RunRecord.id x.1) pairs) ->
  (forall x, x ∈ pairs -> RunRepository._runs r !! RunRecord.id x.1 = None
     /\ RunSpecRecord.run_id x.2 = RunRecord.id x.1
     /\ RunSpecRecord.batch_id x.2 = ExecutionBatchRecord.id batch
     /\ RunRecord.engine x.1 = RunSpecRecord.engine x.2
     /\ RunRecord.parameters x.1 = RunSpecRecord.parameters x.2) ->
  ExecutionBatchRecord.run_ids batch = map RunRecord.id (map fst pairs) ->
  in_bounds (ExecutionBatchRecord.max_parallel batch) ->
  (exists l x, _revisions p !! ExecutionBatchRecord.plan_id batch = Some l /\ x ∈ l
    /\ TestPlanRecord.revision x = ExecutionBatchRecord.plan_revision batch
    /\ TestPlanRecord.tenant_id x = ExecutionBatchRecord.tenant_id batch
    /\ TestPlanRecord.project_id x = ExecutionBatchRecord.project_id batch
    /\ TestPlanRecord.max_parallel x = ExecutionBatchRecord.max_parallel batch) ->
  let w' := store_batch batch (map fst pairs) (map snd pairs) (batch_scope batch) (p, r) in
  plan_wf w' /\ plan_evolves (p, r) w'
  /\ (forall j x, _specs_by_run w'.1 !! j = Some x <->
        _specs_by_run p !! j = Some x \/ exists q, q ∈ pairs /\ q.2 = x /\ RunRecord.id q.1 = j)
  /\ (forall j x, RunRepository._runs w'.2 !! j = Some x <->
        RunRepository._runs r !! j = Some x \/ exists q, q ∈ pairs /\ q.1 = x /\ RunRecord.id x = j).
Proof.
  intros [Wr V Hb Hbat Hsp Hix] Hfresh Hscope Hnd Hall Hids Hbounds Hplan w'. simpl in *.
  assert (map RunSpecRecord.run_id (map snd pairs) = map (fun x => RunRecord.id x.1) pairs) as Hk2.
  { rewrite map_map. apply map_ext_in. intros x Hx%list_elem_of_In. by apply Hall in Hx as (_ & ? & _). }
  assert (map RunRecord.id (map fst pairs) = map (fun x => RunRecord.id x.1) pairs) as Hk1
    by by rewrite map_map.
  assert (forall j x, RunRepository._runs w'.2 !! j = Some x <->
        RunRepository._runs r !! j = Some x \/ exists q, q ∈ pairs /\ q.1 = x /\ RunRecord.id x = j) as HR.
  { intros j x. simpl. rewrite lookup_update_map.
    - rewrite elem_of_map. naive_solver.
    - by rewrite Hk1.
    - intros y (q & -> & Hq)%elem_of_map. by apply Hall in Hq as (? & _). }
  assert (forall j x, _specs_by_run w'.1 !! j = Some x <->
        _specs_by_run p !! j = Some x \/ exists q, q ∈ pairs /\ q.2 = x /\ RunRecord.id q.1 = j) as HS.
  { intros j x. simpl. rewrite lookup_update_map.
    - rewrite elem_of_map. apply or_iff_compat_l. split.
      + intros ((q & -> & Hq) & <-). exists q. split_and!; [done | done |]. by apply Hall in Hq as (_ & -> & _).
      + intros (q & Hq & <- & <-). apply Hall in Hq as Hq'. destruct Hq' as (_ & Hq' & _). eauto.
    - by rewrite Hk2.
    - intros y (q & -> & Hq)%elem_of_map. destruct (_specs_by_run p !! _) eqn:E; [| done].
      destruct (Hsp _ _ E) as [_ (y & Hy & _) _]. apply Hall in Hq as (Hq & Hq' & _). simpl in Hy. congruence. }
  assert (forall j x, _specs_by_run p !! j = Some x -> _specs_by_run w'.1 !! j = Some x) as Hkeep.
  { intros j x Hx. apply HS. by left. }
  assert (good r w'.2) as [Wr' Er'].
  { apply good_add_runs; [done | by rewrite Hk1 |]. intros y (q & -> & Hq)%elem_of_map. by apply Hall in Hq as (? & _). }
  assert (forall i b, _batches p !! i = Some b -> _batches w'.1 !! i = Some b) as Hbkeep.
  { intros i b Hi. simpl. by dict_case. }
  split_and!; [split | split | done | done]; try done.
  - intros i b Hi. simpl in Hi. dict_case; [| by eapply batch_ok_mono; [| exact Hkeep | apply Hbat]].
    split; try done.
    + by rewrite Hids, Hk1.
    + intros j. rewrite Hids, Hk1. intros (q & -> & Hq)%elem_of_map. exists q.2.
      split; [apply HS; eauto |]. by apply Hall in Hq as (_ & _ & ? & _).
  - intros j x [Hx|(q & Hq & <- & <-)]%HS.
    + destruct (spec_ok_runs p r w'.2 j x Er' (Hsp _ _ Hx)) as [Hi Hr (b & Hb1 & Hb2)].
      split; [done | done |]. exists b. eauto.
    + apply Hall in Hq as Hq'. destruct Hq' as (Hn & Hid & Hbid & He & Hp).
      split; [done | |].
      * exists q.1. split_and!; [apply HR; right; eauto | done | done].
      * exists batch. rewrite Hbid, Hids, Hk1. simpl. split; [by rewrite dict_lookup_insert_eq |].
        apply elem_of_map. eauto.
  - intros k e. simpl. destruct (decide (k = batch_scope batch)) as [->|Hne].
    + rewrite dict_lookup_insert_eq. split.
      * intros [= <-]. exists (ExecutionBatchRecord.id batch), batch. by rewrite dict_lookup_insert_eq.
      * intros (i & b & Hi & Hs & He). dict_case; [by subst |].
        exfalso. eassert (_idempotency p !! batch_scope b = Some _) as Hold by (apply Hix; exists i, b; by split_and!).
        unfold batch_scope in *. congruence.
    + rewrite dict_lookup_insert_ne by done. rewrite Hix. split; intros (i & b & Hi & Hs & He); exists i, b.
      * split; [by apply Hbkeep | done].
      * dict_case; by subst.
  - intros k e Hk. simpl in *. rewrite dict_lookup_insert_ne; [done |]. intros <-. congruence.
Qed.

(** The batch, runs and specifications a call stores. *)
Lemma execute_stores sr er now fresh ids i key ov w plan pairs batch :
  plan_wf w -> plan_fresh (OpExecute sr er now fresh ids i key ov) w ->
  _plans w.1 !! i = Some plan ->
  _idempotency w.1 !! (TestPlanRecord.tenant_id plan, TestPlanRecord.project_id plan, strip key) = None ->
  expand_items sr er plan fresh now ov ids 0 (TestPlanRecord.items plan) = Ok pairs ->
  batch = ExecutionBatchRecord.mk fresh (TestPlanRecord.tenant_id plan)
    (TestPlanRecord.project_id plan) (TestPlanRecord.id plan) (TestPlanRecord.revision plan)
    (strip key) (TestPlanRecord.max_parallel plan) (map RunRecord.id (map fst pairs)) now ->
  let w' := store_batch batch (map fst pairs) (map snd pairs) (batch_scope batch) w in
  plan_wf w' /\ plan_evolves w w'
  /\ (forall j x, _specs_by_run w'.1 !! j = Some x <->
        _specs_by_run w.1 !! j = Some x \/ exists q, q ∈ pairs /\ q.2 = x /\ RunRecord.id q.1 = j)
  /\ (forall j x, RunRepository._runs w'.2 !! j = Some x <->
        RunRepository._runs w.2 !! j = Some x \/ exists q, q ∈ pairs /\ q.1 = x /\ RunRecord.id x = j).
Proof.
  destruct w as [p r]. intros W (Hf & Hinj & Hnew) Hp Hi He Hbatch. cbn [fst snd] in *.
  destruct (vs_current _ _ (pw_plans _ W) _ _ Hp) as (l & Hl).
  destruct (versioned_version _ _ _ _ _ (pw_plans _ W) Hp Hl) as (Hid & _). cbn [rv_id plan_revisioned] in Hid.
  assert (plan ∈ l ++ [plan]) as Hin by (apply elem_of_app; right; by left).
  apply store_batch_good; [done | by rewrite Hbatch | by rewrite Hbatch | | | by rewrite Hbatch | |].
  - by apply (expand_ids_nodup sr er plan fresh now ov ids (TestPlanRecord.items plan)).
  - intros x Hxp. destruct (expand_pairs _ _ _ _ _ _ _ _ _ He x Hxp) as (j & Hj & Hs & Hb & ? & ?).
    rewrite Hj, Hbatch. split_and!; [apply Hnew | done | done | done | done].
  - rewrite Hbatch. by apply (pw_bounds _ W _ _ _ Hl).
  - exists (l ++ [plan]), plan. rewrite Hbatch. cbn. by rewrite Hid.
Qed.

Lemma plan_execute_good sr er now fresh ids i key ov w :
  plan_wf w -> plan_fresh (OpExecute sr er now fresh ids i key ov) w ->
  plan_wf (execute sr er now fresh ids i key ov w).2
  /\ plan_evolves w (execute sr er now fresh ids i key ov w).2.
Proof.
  intros W Hf. destruct (execute sr er now fresh ids i key ov w) as [res w'] eqn:Hx.
  destruct (execute_reads _ _ _ _ _ _ _ _ _ _ _ Hx) as
    [->|(plan & pairs & batch & _ & Hp & Hi & _ & He & Hb & _ & ->)]; [by apply plan_refl |].
  by destruct (execute_stores _ _ _ _ _ _ _ _ _ _ _ _ W Hf Hp Hi He Hb) as (? & ? & _).
Qed.

(** ** Claiming *)

Lemma with_state_queued now r :
  RunRecord.state r = RunState.CREATED ->
  RunRecord.with_state now r RunState.QUEUED =
  Ok (RunRecord.mk (RunRecord.id r) (RunRecord.engine r) (RunRecord.parameters r) RunState.QUEUED
        (RunRecord.created_at r) now (RunRecord.state_version r + 1)).
Proof. intros Hs. unfold RunRecord.with_state. by rewrite Hs. Qed.

(** The loop queues the first [available] created runs, in order, and nothing else. *)
Lemma claim_loop_spec clk k available records p r :
  RunsFacts.wf r -> NoDup (map RunRecord.id records) -> (0 <= available)%Z ->
  (forall x, x ∈ records -> RunRepository._runs r !! RunRecord.id x = Some x) ->
  let claimed := take (Z.to_nat available) (map RunRecord.id (List.filter is_created records)) in
  exists r', claim_loop clk k available records (p, r) = (Ok claimed, (p, r'))
    /\ good r r'
    /\ (forall j, j ∉ claimed -> RunRepository._runs r' !! j = RunRepository._runs r !! j)
    /\ (forall j, j ∈ claimed -> exists x, RunRepository._runs r' !! j = Some x
          /\ RunRecord.state x = RunState.QUEUED).
Proof.
  revert k available r. induction records as [|x records IH]; intros k available r W Hnd Ha Hin claimed;
    subst claimed; simpl.
  { exists r. rewrite take_nil. split_and!; [done | by apply good_refl | done | by intros ? ?%elem_of_nil]. }
  simpl in Hnd. apply NoDup_cons in Hnd as [Hx Hnd].
  assert (forall y, y ∈ records -> RunRepository._runs r !! RunRecord.id y = Some y) as Hin'
    by (intros; apply Hin; by right).
  destruct (Z.eqb_spec available 0) as [->|Hne].
  { exists r. rewrite take_0. split_and!; [done | by apply good_refl | done | by intros ? ?%elem_of_nil]. }
  destruct (is_created x) eqn:Hc; simpl; [| by apply IH]. apply bool_decide_eq_true in Hc.
  unfold bind, lift, get, put. rewrite with_state_queued by done. cbn [fst snd].
  set (q := RunRecord.mk _ _ _ _ _ _ _). set (r1 := (RunRepository.set_runs (fun d => <[RunRecord.id x:=q]> d) r).2).
  assert (RunRepository._runs r !! RunRecord.id x = Some x) as Hrx by (apply Hin; by left).
  assert (good r r1) as [W1 E1].
  { apply (good_put_run r _ x); [done | done |].
    apply (run_evolves_step (clk k) x RunState.QUEUED). by rewrite with_state_queued. }
  destruct (IH (S k) (available - 1)%Z r1 W1 Hnd) as (r' & Hr' & G & Hout & Hcl); [lia | |].
  { intros y Hy. simpl. rewrite dict_lookup_insert_ne; [by apply Hin' |].
    intros He. apply Hx. rewrite He. apply elem_of_map. eauto. }
  exists r'. change (RunRepository.mk _ _ _ _ _ _ _) with r1. rewrite Hr'. replace (Z.to_nat available) with (S (Z.to_nat (available - 1))) by lia.
  simpl. split_and!; [done | by eapply good_trans | |].
  - intros j Hj. apply not_elem_of_cons in Hj as [Hjx Hj]. rewrite Hout by done. simpl.
    by rewrite dict_lookup_insert_ne.
  - intros j [->|Hj]%elem_of_cons; [| by apply Hcl].
    destruct (decide (RunRecord.id x ∈ take (Z.to_nat (available - 1))
      (map RunRecord.id (List.filter is_created records)))) as [Hi|Hi]; [by apply Hcl |].
    exists q. split; [| done]. rewrite Hout by done. simpl. by rewrite dict_lookup_insert_eq.
Qed.

(** The runs of a batch as the store has them. *)
Definition batch_runs (b : ExecutionBatchRecord.t) (w : world) : list RunRecord.t :=
  omap (fun j => RunRepository._runs w.2 !! j) (ExecutionBatchRecord.run_ids b).
Definition occupied (b : ExecutionBatchRecord.t) (w : world) : nat :=
  length (List.filter is_occupied (batch_runs b w)).

(** Runs that go from CREATED to an occupied state count among the occupied ones. *)
Lemma occupied_claimed (d : pydict uuid RunRecord.t) l n :
  NoDup (map RunRecord.id l) ->
  let claimed := take n (map RunRecord.id (List.filter is_created l)) in
  (forall x, x ∈ l -> RunRecord.id x ∉ claimed -> d !! RunRecord.id x = Some x) ->
  (forall j, j ∈ claimed -> exists x, d !! j = Some x /\ is_occupied x = true) ->
  length (List.filter is_occupied (omap (fun j => d !! j) (map RunRecord.id l)))
  = (length (List.filter is_occupied l) + length claimed)%nat.
Proof.
  revert n. induction l as [|x l IH]; intros n Hnd claimed; subst claimed; simpl.
  { intros _ _. by rewrite take_nil. }
  simpl in Hnd. apply NoDup_cons in Hnd as [Hx Hnd].
  assert (forall m j, j ∈ take m (map RunRecord.id (List.filter is_created l)) -> j ∈ map RunRecord.id l) as Hsub.
  { intros m j Hj. apply elem_of_take in Hj as (k & Hk & _). apply list_elem_of_lookup_2 in Hk.
    apply elem_of_map in Hk as (y & -> & Hy). apply list_elem_of_In, filter_In in Hy as [Hy _].
    apply elem_of_map. exists y. by rewrite list_elem_of_In. }
  destruct (is_created x) eqn:Hc.
  - assert (is_occupied x = false) as ->.
    { unfold is_created, is_occupied in *. apply bool_decide_eq_true in Hc. by rewrite Hc. }
    destruct n as [|n]; simpl; intros Hout Hcl.
    + rewrite (Hout x) by (by left || by apply not_elem_of_nil). simpl.
      unfold is_occupied at 1. unfold is_created in Hc. apply bool_decide_eq_true in Hc. rewrite Hc. simpl.
      apply (IH 0%nat); [done | | by intros ? ?%elem_of_nil].
      intros y Hy. rewrite take_0. apply Hout. by right.
    + destruct (Hcl (RunRecord.id x)) as (q & Hq & Hs); [by left |]. rewrite Hq. simpl. rewrite Hs. simpl.
      rewrite Nat.add_succ_r. f_equal. apply IH; [done | | intros; apply Hcl; by right].
      intros y Hy Hn. apply Hout; [by right |]. apply not_elem_of_cons. split; [| done].
      intros He. apply Hx. rewrite <- He. apply elem_of_map. eauto.
  - intros Hout Hcl. rewrite (Hout x); [| by left | intros Hi; by apply Hx, (Hsub n)]. simpl.
    assert (length (List.filter is_occupied (omap (fun j => d !! j) (map RunRecord.id l)))
      = (length (List.filter is_occupied l) + length (take n (map RunRecord.id (List.filter is_created l))))%nat) as IH'.
    { apply IH; [done | | done]. intros y Hy. apply Hout. by right. }
    destruct (is_occupied x); simpl; [f_equal |]; exact IH'.
Qed.

(** All runs of a stored batch are stored. *)
Lemma batch_records p r i b :
  plan_wf (p, r) -> _batches p !! i = Some b ->
  rmap (fun j => (RunRepository._get_locked j r).1) (ExecutionBatchRecord.run_ids b) = Ok (batch_runs b (p, r))
  /\ map RunRecord.id (batch_runs b (p, r)) = ExecutionBatchRecord.run_ids b
  /\ forall x, x ∈ batch_runs b (p, r) -> RunRepository._runs r !! RunRecord.id x = Some x.
Proof.
  intros W Hb. destruct (pw_batches _ W _ _ Hb) as [_ _ _ Hs _]. unfold batch_runs. simpl.
  assert (forall j, j ∈ ExecutionBatchRecord.run_ids b ->
    exists x, RunRepository._runs r !! j = Some x /\ RunRecord.id x = j) as Hall.
  { intros j Hj. destruct (Hs j Hj) as (y & Hy & _). destruct (pw_specs _ W _ _ Hy) as [_ (x & Hx & _) _].
    exists x. split; [done |]. by apply (wf_runs _ (pw_runs _ W)). }
  clear Hs Hb. induction (ExecutionBatchRecord.run_ids b) as [|j l IH]; simpl.
  { split_and!; [done | done | by intros ? ?%elem_of_nil]. }
  destruct (Hall j) as (x & Hx & Hid); [by left |]. rewrite Hx. simpl.
  destruct IH as (-> & H2 & Hin); [intros; apply Hall; by right |].
  split_and!; [done | simpl; f_equal; [exact Hid | exact H2] |].
  intros y [->|Hy]%elem_of_cons; [by rewrite Hid | by apply Hin].
Qed.

Lemma claim_runs_spec clk i b w :
  plan_wf w -> _batches w.1 !! i = Some b ->
  let claimed := take (Z.to_nat (ExecutionBatchRecord.max_parallel b - Z.of_nat (occupied b w)))
                   (map RunRecord.id (List.filter is_created (batch_runs b w))) in
  exists r', claim_available_runs clk i w = (Ok claimed, (w.1, r'))
    /\ good w.2 r'
    /\ (forall j, j ∉ claimed -> RunRepository._runs r' !! j = RunRepository._runs w.2 !! j)
    /\ (forall j, j ∈ claimed -> exists x, RunRepository._runs r' !! j = Some x
          /\ RunRecord.state x = RunState.QUEUED).
Proof.
  destruct w as [p r]. intros W Hb claimed. subst claimed. cbn [fst snd] in *.
  destruct (batch_records p r i b W Hb) as (Hr & Hids & Hin).
  destruct (claim_loop_spec clk 0 (Z.max 0 (ExecutionBatchRecord.max_parallel b
    - Z.of_nat (occupied b (p, r)))) (batch_runs b (p, r)) p r) as (r' & Hc & G & Hout & Hcl);
    [apply W | rewrite Hids; apply (pw_batches _ W _ _ Hb) | lia | done |].
  exists r'. unfold claim_available_runs, bind, get, lift. cbn [fst snd]. rewrite Hb, Hr. cbn [fst snd].
  fold (occupied b (p, r)). rewrite Hc.
  assert (forall n, Z.to_nat (Z.max 0 n) = Z.to_nat n) as Hz by (intros; lia).
  rewrite Hz in *. by split_and!.
Qed.

Lemma plan_step_good o w : plan_wf w -> plan_fresh o w -> plan_wf (plan_step o w) /\ plan_evolves w (plan_step o w).
Proof.
  destruct w as [p r]. intros W Hf. destruct o; simpl in Hf |- *.
  - unfold create_plan. st_call; try (by apply plan_refl). simplify_eq.
    match goal with |- context [set_plan fresh ?x [?x]] =>
      destruct (versioned_create _ _ fresh x (pw_plans _ W) Hf) as [V G]; [done.. |] end.
    apply (set_plan_good _ _ _ _ []); [done | | done | done | by left].
    by match goal with Hm : _max_parallel _ = Ok _ |- _ => apply max_parallel_Ok in Hm as [_ ?] end.
  - unfold update_plan, get_plan, subscript. st_call; simplify_eq; try (by apply plan_refl).
    match goal with Hu : TestPlanRecord.update _ _ _ _ _ _ _ = Ok _ |- _ =>
      apply plan_update_next in Hu as (Hn & _ & Hm) end.
    match goal with Hp : _plans p !! i = Some _, Hl : _revisions p !! i = Some _ |- _ =>
      destruct (versioned_update _ _ _ _ _ _ (pw_plans _ W) Hp Hl Hn) as [V G];
      apply set_plan_good; [done | rewrite Hm | done | done | by right] end.
    by match goal with Hx : _max_parallel _ = Ok _ |- _ => apply max_parallel_Ok in Hx as [_ ?] end.
  - by apply plan_execute_good.
  - destruct (_batches p !! batch) as [b|] eqn:Eb.
    + destruct (claim_runs_spec clk batch b (p, r) W Eb) as (r' & -> & G & _). by apply plan_runs_good.
    + unfold claim_available_runs, bind, get, lift. cbn [fst snd]. rewrite Eb. by apply plan_refl.
  - apply plan_runs_good; [done |]. apply run_op_good; [apply W | done].
Qed.

#[export,refine] Instance plan_store : Store world plan_op := {|
  st_init := (init, RunRepository.init); st_op := plan_step; st_fresh := plan_fresh; st_wf := plan_wf;
  st_evolves := plan_evolves; st_op_good := plan_step_good; st_init_wf := _ |}.
Proof.
  split; simpl; try done.
  intros k e. split; [done | by intros (? & ? & ? & _)].
Defined.

(** ** Properties *)

(** The answer of [execute] is a stored batch of the plan and the key. *)
Lemma execute_batch sr er now fresh ids i key ov w batch replayed w' :
  plan_wf w -> plan_fresh (OpExecute sr er now fresh ids i key ov) w ->
  execute sr er now fresh ids i key ov w = (Ok (batch, replayed), w') ->
  plan_wf w' /\ plan_evolves w w' /\ _plans w'.1 = _plans w.1
  /\ empty_str (strip key) || (255 <? py_len (strip key))%Z = false
  /\ exists plan, _plans w.1 !! i = Some plan
       /\ batch_scope batch = (TestPlanRecord.tenant_id plan, TestPlanRecord.project_id plan, strip key)
       /\ ExecutionBatchRecord.plan_id batch = i
       /\ ExecutionBatchRecord.plan_revision batch = TestPlanRecord.revision plan
       /\ _batches w'.1 !! ExecutionBatchRecord.id batch = Some batch.
Proof.
  intros W Hf Hx. destruct (plan_execute_good sr er now fresh ids i key ov w W Hf) as [W' E].
  rewrite Hx in W', E. cbn [snd] in W', E.
  destruct (execute_reads _ _ _ _ _ _ _ _ _ _ _ Hx) as
    [->|(plan & pairs & b & Hk & Hp & Hi & Ha & He & -> & Hr & ->)].
  - unfold execute in Hx. destruct (empty_str _ || _) eqn:Ek; [done |].
    unfold bind, get, lift, get_plan, subscript, raise, ret in Hx. cbn [fst snd] in Hx.
    destruct (_plans w.1 !! i) as [plan|] eqn:Ep; [| done]. cbn [fst snd] in Hx.
    destruct (vs_current _ _ (pw_plans _ W) _ _ Ep) as (l & Hl).
    destruct (versioned_version _ _ _ _ _ (pw_plans _ W) Ep Hl) as (Hid & _). cbn in Hid.
    destruct (_idempotency w.1 !! _) as [[[pl rv] bid]|] eqn:Ei.
    + destruct (negb _) eqn:Eb; [done |]. bool_prop. injection Eb as -> ->.
      apply (pw_index _ W) in Ei as (j & b & Hj & Hs & He). injection He as He1 He2 He3.
      destruct (pw_batches _ W _ _ Hj) as [Hbid _ _ _ _]. subst bid.
      rewrite Hbid, Hj in Hx. injection Hx as [= <- <-]. split_and!; try done.
      exists plan. rewrite Hbid. split_and!; try done. congruence.
    + destruct (negb _); [done |]. unfold lift in Hx.
      destruct (_expand _ _ _ _ _ _ _) as [[rs ss]|]; [| done]. injection Hx as _ _ Hw.
      apply (f_equal (fun x => _idempotency x.1)) in Hw. unfold store_batch in Hw. destruct w as [p r].
      simpl in Hw, Ei. rewrite <- Hw in Ei. by rewrite dict_lookup_insert_eq in Ei.
  - injection Hr as [= -> ->]. destruct w as [p r].
    destruct (vs_current _ _ (pw_plans _ W) _ _ Hp) as (l & Hl).
    destruct (versioned_version _ _ _ _ _ (pw_plans _ W) Hp Hl) as (Hid & _). cbn in Hid.
    split_and!; try done. exists plan. split_and!; try done. simpl. by rewrite dict_lookup_insert_eq.
Qed.

(** Repeating a key on a stored batch of the plan. *)
Lemma execute_replay sr er now fresh ids i key ov w plan batch :
  plan_wf w -> empty_str (strip key) || (255 <? py_len (strip key))%Z = false ->
  _plans w.1 !! i = Some plan -> TestPlanRecord.id plan = i ->
  batch_scope batch = (TestPlanRecord.tenant_id plan, TestPlanRecord.project_id plan, strip key) ->
  ExecutionBatchRecord.plan_id batch = i ->
  _batches w.1 !! ExecutionBatchRecord.id batch = Some batch ->
  execute sr er now fresh ids i key ov w =
    (if bool_decide (ExecutionBatchRecord.plan_revision batch = TestPlanRecord.revision plan)
     then Ok (batch, true) else Err TestPlanConflict, w).
Proof.
  intros W Hk Hp Hid Hs Hpid Hb. unfold execute. rewrite Hk.
  unfold bind, get, lift, get_plan, subscript, raise, ret. cbn [fst snd]. rewrite Hp. cbn [fst snd].
  assert (_idempotency w.1 !! batch_scope batch = Some (batch_entry batch)) as Hi
    by (apply (pw_index _ W); eauto).
  rewrite <- Hs, Hi. unfold batch_entry. rewrite Hpid, Hid.
  destruct (decide (ExecutionBatchRecord.plan_revision batch = TestPlanRecord.revision plan)) as [He|He].
  - rewrite !bool_decide_true by congruence. cbn [negb]. by rewrite Hb.
  - rewrite !bool_decide_false by congruence. done.
Qed.

(** C11. Executing a plan is idempotent in the key: once [execute] has answered a batch, any
    later [execute] of that plan with the same key (up to surrounding blanks), whatever
    calls of the plan and run repositories happened in between and whatever the other
    arguments are, creates nothing: it answers the same batch as a replay while the plan is
    at the batch's revision, and [TestPlanConflict] once the plan was revised. *)
Theorem execute_idempotent sr er now fresh ids i key ov w batch replayed w1 ops
    sr' er' now' fresh' ids' key' ov' :
  st_reachable w -> plan_fresh (OpExecute sr er now fresh ids i key ov) w ->
  execute sr er now fresh ids i key ov w = (Ok (batch, replayed), w1) ->
  st_all_fresh ops w1 -> strip key' = strip key ->
  let w2 := st_ops ops w1 in
  exists plan, get_plan i w2.1 = (Ok plan, w2.1)
    /\ get_execution_batch (ExecutionBatchRecord.id batch) w2.1 = (Ok batch, w2.1)
    /\ execute sr' er' now' fresh' ids' i key' ov' w2 =
         (if bool_decide (ExecutionBatchRecord.plan_revision batch = TestPlanRecord.revision plan)
          then Ok (batch, true) else Err TestPlanConflict, w2).
Proof.
  intros Hw Hf Hx Hops Hkey w2. apply st_reachable_wf in Hw as W.
  destruct (execute_batch _ _ _ _ _ _ _ _ _ _ _ _ W Hf Hx) as
    (W1 & E1 & Hsame & Hk & plan & Hp & Hs & Hpid & _ & Hb).
  destruct (@st_ops_good _ _ plan_store ops w1 W1 Hops) as [W2 E2]. fold w2 in W2, E2.
  assert (_plans w1.1 !! i = Some plan) as Hp1 by by rewrite Hsame.
  destruct (grows_rtc _ _ _ _ _ _ (pw_plans _ W1) (pw_plans _ W2) (pe_plans _ _ E2) Hp1) as (plan' & Hp' & Hr).
  assert (TestPlanRecord.tenant_id plan' = TestPlanRecord.tenant_id plan) as Ht
    by (eapply (rtc_preserves rv_next); [| exact Hr]; intros a b Hab; by destruct Hab as (_ & ? & _)).
  assert (TestPlanRecord.project_id plan' = TestPlanRecord.project_id plan) as Hpr
    by (eapply (rtc_preserves rv_next); [| exact Hr]; intros a b Hab; by destruct Hab as (_ & _ & ? & _)).
  destruct (vs_current _ _ (pw_plans _ W2) _ _ Hp') as (l & Hl).
  destruct (versioned_version _ _ _ _ _ (pw_plans _ W2) Hp' Hl) as (Hid & _). cbn in Hid.
  pose proof (pe_batches _ _ E2 _ _ Hb) as Hb2.
  exists plan'. split_and!.
  - unfold get_plan. by rewrite Hp'.
  - unfold get_execution_batch. by rewrite Hb2.
  - apply execute_replay; try done; [by rewrite Hkey | by rewrite Ht, Hpr, Hkey].
Qed.

(** C12. Claiming respects the batch's bound: whatever happened before, claiming a known
    batch always answers; it queues the first CREATED runs of the batch, in batch order,
    as many as [max_parallel] leaves room for besides the occupied ones and no more, and
    touches nothing else; so claiming alone never exceeds the bound, and when it stops
    short no CREATED run of the batch is left. *)
Theorem claims_bounded clk i b w :
  st_reachable w -> get_execution_batch i w.1 = (Ok b, w.1) ->
  let room := Z.to_nat (ExecutionBatchRecord.max_parallel b - Z.of_nat (occupied b w)) in
  let created := map RunRecord.id (List.filter is_created (batch_runs b w)) in
  exists w', claim_available_runs clk i w = (Ok (take room created), w')
    /\ w'.1 = w.1
    /\ (forall j, j ∉ take room created ->
          RunRepository._runs w'.2 !! j = RunRepository._runs w.2 !! j)
    /\ (forall j, j ∈ take room created -> exists x, RunRepository._runs w'.2 !! j = Some x
          /\ RunRecord.state x = RunState.QUEUED)
    /\ occupied b w' = (occupied b w + length (take room created))%nat
    /\ (Z.of_nat (occupied b w') <= Z.max (Z.of_nat (occupied b w)) (ExecutionBatchRecord.max_parallel b))%Z
    /\ ((Z.of_nat (occupied b w') < ExecutionBatchRecord.max_parallel b)%Z -> take room created = created).
Proof.
  intros Hw Hb room created. apply st_reachable_wf in Hw as W.
  unfold get_execution_batch in Hb. destruct (_batches w.1 !! i) as [b'|] eqn:Eb; [| done].
  injection Hb as [= ->]. destruct (claim_runs_spec clk i b w W Eb) as (r' & Hc & G & Hout & Hcl).
  fold room created in Hc, Hout, Hcl. exists (w.1, r').
  destruct w as [p r]. cbn [fst snd] in *.
  destruct (batch_records p r i b W Eb) as (_ & Hids & Hin).
  assert (occupied b (p, r') = occupied b (p, r) + length (take room created))%nat as Hocc.
  { pose proof (occupied_claimed (RunRepository._runs r') (batch_runs b (p, r)) room) as Ho.
    rewrite Hids in Ho. apply Ho; [apply (pw_batches _ W _ _ Eb) | |].
    - intros x Hx Hn. rewrite Hout by done. by apply Hin.
    - intros j Hj. destruct (Hcl j Hj) as (x & Hx & Hs). exists x. split; [done |].
      unfold is_occupied. by rewrite Hs. }
  split_and!; try done.
  - rewrite Hocc, length_take. lia.
  - rewrite Hocc, length_take. intros Hlt. apply take_ge. lia.
Qed.

(** What a name is bound to in the parameters of a row: the row's value, else the item's
    default, else the environment's common parameter. *)
Definition row_parameter (common : list (string * pyval)) (item : TestPlanItem.t) (row : TestPlanDataRow.t)
    (k : string) : option pyval :=
  match kv_get k (rev (TestPlanDataRow.values row)) with
  | Some v => Some v
  | None => match kv_get k (rev (TestPlanItem.default_parameters item)) with
            | Some v => Some v
            | None => kv_get k common
            end
  end.

Lemma expand_row_spec plan b now ov item script variables common secrets ids row p :
  expand_row plan b now ov item script (variables, common, secrets) ids row = Ok p ->
  RunRecord.parameters p.1 = RunSpecRecord.parameters p.2
  /\ (forall k, kv_get k (RunSpecRecord.parameters p.2) = row_parameter common item row k)
  /\ RunSpecRecord.environment_variables p.2 = variables
  /\ RunSpecRecord.secret_references p.2 = secrets
  /\ RunSpecRecord.script_id p.2 = AutomationScriptRecord.id script
  /\ RunSpecRecord.script_revision p.2 = AutomationScriptRecord.revision script
  /\ RunSpecRecord.item_id p.2 = TestPlanItem.item_id item
  /\ RunSpecRecord.row_key p.2 = TestPlanDataRow.row_key row
  /\ (RunSpecRecord.source_ref p.2, RunSpecRecord.content_digest p.2) =
       match ov with
       | Some o => o
       | None => (AutomationScriptRecord.source_ref script, AutomationScriptRecord.content_digest script)
       end.
Proof.
  unfold expand_row. destruct ids as [rid sid]. intros (ps & Hps & Hp)%rbind_Ok.
  assert (forall k, kv_get k ps = row_parameter common item row k) as Hk.
  { intros k. unfold _json_object in Hps. py_inv Hps. by rewrite !kv_get_merge. }
  destruct ov as [[]|]; injection Hp as [= <-]; by split_and!.
Qed.

(** A new batch changes the state. *)
Lemma execute_changes sr er now fresh ids i key ov w batch :
  _batches w.1 !! fresh = None -> execute sr er now fresh ids i key ov w <> (Ok (batch, false), w).
Proof.
  intros Hf. unfold execute. destruct (empty_str _ || _); [done |].
  unfold bind, get, lift, get_plan, subscript, raise, ret. cbn [fst snd].
  destruct (_plans w.1 !! i) as [plan|]; [| done]. cbn [fst snd].
  destruct (_idempotency w.1 !! _) as [[[pl rv] bid]|]; [destruct (negb _); [done |]; by destruct (_batches w.1 !! bid) |].
  destruct (negb _); [done |]. destruct (_expand _ _ _ _ _ _ _) as [[rs ss]|]; [| done].
  intros [= Hbe Hwe]. apply (f_equal (fun x => _batches x.1 !! fresh)) in Hwe.
  destruct w as [p r]. simpl in Hwe, Hf. rewrite dict_lookup_insert_eq in Hwe. congruence.
Qed.

(** Executing a plan expands it row by row: a fresh key on a stored, ACTIVE plan
    creates one CREATED run and one specification for each data row, in the order of the
    items and their rows and with the ids drawn in that order; the specification pins the
    item's script revision and environment configuration; a parameter is the row's value,
    else the item's default, else the environment's common parameter; the run carries the
    same parameters and the script's engine; all other runs and specifications stay. *)
Theorem execute_expands sr er now fresh ids i key ov w batch w1 :
  st_reachable w -> plan_fresh (OpExecute sr er now fresh ids i key ov) w -> st_wf sr ->
  execute sr er now fresh ids i key ov w = (Ok (batch, false), w1) ->
  exists plan, get_plan i w.1 = (Ok plan, w.1) /\ TestPlanRecord.status plan = TestPlanStatus.ACTIVE
    /\ ExecutionBatchRecord.run_ids batch
       = map (fun j => (ids j).1) (seq 0 (length (plan_rows (TestPlanRecord.items plan))))
    /\ (forall j item row, plan_rows (TestPlanRecord.items plan) !! j = Some (item, row) ->
          exists run spec script variables common secrets,
            RunRepository._runs w1.2 !! (ids j).1 = Some run /\ RunRecord.state run = RunState.CREATED
            /\ get_run_spec (ids j).1 w1.1 = (Ok spec, w1.1)
            /\ RunSpecRecord.batch_id spec = ExecutionBatchRecord.id batch
            /\ sr_get_revision (TestPlanItem.script_id item) (TestPlanItem.script_revision item) sr = Ok script
            /\ RunSpecRecord.script_id spec = TestPlanItem.script_id item
            /\ RunSpecRecord.script_revision spec = TestPlanItem.script_revision item
            /\ item_configuration er item = Ok (variables, common, secrets)
            /\ RunSpecRecord.environment_variables spec = variables
            /\ RunSpecRecord.secret_references spec = secrets
            /\ RunRecord.engine run = AutomationScriptRecord.engine script
            /\ RunRecord.parameters run = RunSpecRecord.parameters spec
            /\ forall k, kv_get k (RunSpecRecord.parameters spec) = row_parameter common item row k)
    /\ (forall j, j ∉ ExecutionBatchRecord.run_ids batch ->
          RunRepository._runs w1.2 !! j = RunRepository._runs w.2 !! j
          /\ _specs_by_run w1.1 !! j = _specs_by_run w.1 !! j).
Proof.
  intros Hw Hf Wsr Hx. apply st_reachable_wf in Hw as W.
  destruct (execute_reads _ _ _ _ _ _ _ _ _ _ _ Hx) as
    [->|(plan & pairs & b & Hk & Hp & Hi & Ha & He & Hb & Hr & Hw1)].
  { by destruct (execute_changes sr er now fresh ids i key ov w batch (proj1 Hf)). }
  injection Hr as [= ->].
  destruct (execute_stores _ _ _ _ _ _ _ _ _ _ _ _ W Hf Hp Hi He Hb) as (W1 & _ & HS & HR).
  rewrite <- Hw1 in HS, HR, W1.
  assert (ExecutionBatchRecord.run_ids b = map (fun x => RunRecord.id x.1) pairs) as Hids
    by by rewrite Hb; simpl; rewrite map_map.
  assert (forall j, j ∉ ExecutionBatchRecord.run_ids b -> forall q, q ∈ pairs -> RunRecord.id q.1 <> j) as Hother.
  { intros j Hj q Hq He'. apply Hj. rewrite Hids. apply elem_of_map. eauto. }
  exists plan. split_and!.
  - unfold get_plan. by rewrite Hp.
  - done.
  - rewrite Hids, (expand_run_ids _ _ _ _ _ _ _ _ _ He). by apply expand_items_spec in He as [-> _].
  - intros j item row Hj. apply expand_items_spec in He as [_ Hall].
    destruct (Hall _ _ Hj) as ([run spec] & Hpair & script & [[variables common] secrets] & Hs & Hc & Hrow).
    cbn [fst snd] in *. apply expand_row_ids in Hrow as Hids'. apply expand_row_spec in Hrow.
    cbn [fst snd] in *. destruct Hids' as (Hrid & Hst & Hen & Hsid & _ & Hbid & _ & _).
    destruct Hrow as (Hpar & Hget & Hv & Hse & Hsi & Hsr & _).
    destruct (sr_get_id _ _ _ _ Wsr Hs) as [Hid1 Hid2].
    apply list_elem_of_lookup_2 in Hpair. simpl in Hrid, Hsid.
    exists run, spec, script, variables, common, secrets.
    assert (_specs_by_run w1.1 !! (ids j).1 = Some spec) as Hspec.
    { apply HS. right. by exists (run, spec). }
    split_and!; try done; try congruence.
    + apply HR. right. by exists (run, spec).
    + unfold get_run_spec. by rewrite Hspec.
    + by rewrite Hbid, Hb.
  - intros j Hj. split; apply option_eq; intros x.
    + rewrite HR. split; [| by left]. intros [?|(q & Hq & <- & Hqj)]; [done |]. by destruct (Hother j Hj q Hq).
    + rewrite HS. split; [| by left]. intros [?|(q & Hq & <- & Hqj)]; [done |]. by destruct (Hother j Hj q Hq).
Qed.

(** ** Materialising a task *)

(** The same task for another time. *)
Definition retimed (created deadline : datetime) (e : TaskEnvelope.t) : TaskEnvelope.t :=
  TaskEnvelope.mk (TaskEnvelope.run_id e) (TaskEnvelope.attempt_id e) (TaskEnvelope.engine e)
    (TaskEnvelope.task_id e) (TaskEnvelope.tenant_id e) (TaskEnvelope.project_id e)
    (TaskEnvelope.idempotency_key e) created deadline (TaskEnvelope.entrypoint e)
    (TaskEnvelope.parameters e) (TaskEnvelope.run_spec_id e) (TaskEnvelope.source_ref e)
    (TaskEnvelope.content_digest e) (TaskEnvelope.environment_variables e)
    (TaskEnvelope.environment_id e) (TaskEnvelope.environment_revision e)
    (TaskEnvelope.secret_references e) (TaskEnvelope.execution_policy e).

Lemma deadline_follows_Ok e e' :
  TaskEnvelope.deadline_follows_creation e = Ok e' ->
  e' = e /\ (TaskEnvelope.created_at e < TaskEnvelope.deadline e)%Z
  /\ forall c d, (c < d)%Z -> TaskEnvelope.deadline_follows_creation (retimed c d e) = Ok (retimed c d e).
Proof.
  unfold TaskEnvelope.deadline_follows_creation. destruct (_ <=? _)%Z eqn:Ed; [done |].
  apply Z.leb_gt in Ed. intros Hx. split_and!; [| done |].
  - revert Hx. by repeat (case_match; [done |]); intros [= <-].
  - intros c d Hcd. simpl. assert ((d <=? c)%Z = false) as -> by by apply Z.leb_gt.
    revert Hx. repeat (case_match; [done |]). done.
Qed.

Lemma envelope_validate_Ok e e' :
  TaskEnvelope.validate e = Ok e' ->
  TaskEnvelope.run_id e' = TaskEnvelope.run_id e
  /\ TaskEnvelope.attempt_id e' = TaskEnvelope.attempt_id e
  /\ TaskEnvelope.task_id e' = TaskEnvelope.task_id e
  /\ TaskEnvelope.engine e' = TaskEnvelope.engine e
  /\ TaskEnvelope.parameters e' = frozen_pairs (TaskEnvelope.parameters e)
  /\ TaskEnvelope.created_at e' = TaskEnvelope.created_at e
  /\ TaskEnvelope.deadline e' = TaskEnvelope.deadline e
  /\ (TaskEnvelope.created_at e < TaskEnvelope.deadline e)%Z
  /\ forall c d, (c < d)%Z -> TaskEnvelope.validate (retimed c d e) = Ok (retimed c d e').
Proof.
  unfold TaskEnvelope.validate. intros (key & Hk & Hx)%rbind_Ok.
  unfold retimed at 1 2 3 4 5 6 7 8 9. cbn [TaskEnvelope.idempotency_key TaskEnvelope.entrypoint TaskEnvelope.source_ref
    TaskEnvelope.content_digest TaskEnvelope.environment_revision].
  rewrite Hk. cbn [rbind].
  destruct (empty_str _ || _); [done |].
  destruct (match TaskEnvelope.source_ref e with Some s => _ | None => _ end); [done |].
  destruct (match TaskEnvelope.content_digest e with Some s => _ | None => _ end); [done |].
  destruct (match TaskEnvelope.environment_revision e with Some r => _ | None => _ end); [done |].
  apply deadline_follows_Ok in Hx as (-> & Hlt & Hr). split_and!; done.
Qed.

(** The task of an attempt is the stored run's and never changes: a materialised task
    names the run and the attempt, carries the run's engine and its parameters, frozen,
    and a deadline [timeout_seconds] after its creation; materialising the same attempt
    again, after any further calls, gives the same task (same task id, same idempotency
    key) up to the two times, or [OverflowError] at the end of the calendar. *)
Theorem task_pinned now run attempt w task ops :
  st_reachable w ->
  RunSpecTaskMaterializer.materialize (fun j => (get_run_spec j w.1).1) now run attempt = Ok task ->
  st_all_fresh ops w ->
  TaskEnvelope.run_id task = run /\ TaskEnvelope.attempt_id task = attempt
  /\ (exists r, RunRepository._runs w.2 !! run = Some r /\ TaskEnvelope.engine task = RunRecord.engine r
        /\ TaskEnvelope.parameters task = frozen_pairs (RunRecord.parameters r))
  /\ exists seconds, (0 < seconds)%Z /\ TaskEnvelope.created_at task = now
       /\ TaskEnvelope.deadline task = (now + seconds * 1000000)%Z
       /\ forall now',
            RunSpecTaskMaterializer.materialize (fun j => (get_run_spec j (st_ops ops w).1).1) now' run attempt
            = let? deadline := add_seconds now' seconds in Ok (retimed now' deadline task).
Proof.
  intros Hw Hx Hops. apply st_reachable_wf in Hw as W.
  destruct (@st_ops_good _ _ plan_store ops w W Hops) as [_ E].
  unfold RunSpecTaskMaterializer.materialize in *. apply rbind_Ok in Hx as (spec & Hs & Hx).
  apply rbind_Ok in Hx as (d & Hd & Hx).
  unfold get_run_spec in Hs. destruct (_specs_by_run w.1 !! run) as [x|] eqn:Es; [| done].
  injection Hs as [= ->]. destruct (pw_specs _ W _ _ Es) as [_ (r & Hr & He & Hp) _].
  pose proof (pe_specs _ _ E _ _ Es) as Es'.
  apply envelope_validate_Ok in Hx as (H2 & H3 & H4 & H5 & H6 & H7 & H8 & Hlt & Hre).
  cbn in H2, H3, H4, H5, H6, H7, H8, Hlt.
  assert (forall t n y, add_seconds t n = Ok y -> y = (t + n * 1000000)%Z) as Hadd.
  { intros t n y. unfold add_seconds. destruct (_ && _); [by intros [= <-] | done]. }
  pose proof (Hadd _ _ _ Hd) as Hd'. subst d.
  split_and!; [done | done | exists r; split_and!; [done | congruence | by rewrite H6, Hp] |].
  exists (RunSpecRecord.timeout_seconds spec). split_and!; [lia | done | done |].
  intros now'. unfold get_run_spec. rewrite Es'. cbn [fst rbind].
  destruct (add_seconds now' _) as [d'|] eqn:Ed'; [| done]. cbn [rbind].
  pose proof (Hadd _ _ _ Ed') as Hd2. apply (Hre now' d'). lia.
Qed.
End world.
Arguments plan_op : clear implicits.

(** ** The repository of scripts as a reader *)
Lemma script_revision_reads i n s x s' : AutomationRepository.get_revision i n s = (x, s') -> s' = s.
Proof.
  unfold AutomationRepository.get_revision, AutomationRepository.get_script, bind, get, lift, raise, ret.
  destruct (AutomationRepository._scripts s !! i); cbn [fst snd]; [| by intros [= _ <-]].
  destruct (subscript _ _); cbn [fst snd]; [| by intros [= _ <-]]. repeat case_match; by intros [= _ <-].
Qed.

Section scripts.
  Context {TC Op : Type} `{TestCaseReader TC Op}.

#[export,refine] Instance automation_reader : ScriptRevisionReader (TC * AutomationRepository.t) (automation_op Op) := {|
  sr_store := automation_store; sr_get_revision i n s := (AutomationRepository.get_revision i n s.2).1 |}.
Proof.
  - intros i n s r W Hx. destruct (AutomationRepository.get_revision i n s.2) as [x s'] eqn:E. simpl in Hx. subst x.
    assert (s' = s.2) as -> by (by apply script_revision_reads in E).
    apply get_revision_Ok in E as (l & Hl & Hn & Hr); [| apply W].
    pose proof (vs_history _ _ (aw_scripts _ W) _ _ Hl) as Hh. split.
    + by apply (hs_id _ _ Hh _ _ Hr).
    + pose proof (hs_revision _ _ Hh _ _ Hr) as Hx. simpl in Hx. lia.
  - intros i n s s' r W W' E Hx. destruct (AutomationRepository.get_revision i n s.2) as [x s1] eqn:Ex.
    simpl in Hx. subst x. assert (s1 = s.2) as -> by (by apply script_revision_reads in Ex).
    apply get_revision_Ok in Ex as (l & Hl & Hn & Hr); [| apply W].
    destruct (ae_scripts _ _ E _ _ Hl) as (more & Hm).
    assert (AutomationRepository.get_revision i n s'.2 = (Ok r, s'.2)) as ->; [| done].
    apply get_revision_Ok; [apply W' |]. exists (l ++ more).
    split_and!; [done | done |]. by apply lookup_app_l_Some.
Defined.
End scripts.

(** * A concrete test plan

    Project 5 has an active script (of [AssetsExamples]), an active environment with a
    common parameter, and a plan of one item with two data rows; the theorems of
    [TestPlanTheorems] applied to its execution. *)
Import TestPlanRepository.
Open Scope list_scope.

#[local] Existing Instances toy_aead toy_laws no_float_texts.
Notation scripts_op := (automation_op quality_op).
Notation environments_op := (environment_op demo_encryptor).
Notation plans_op := (plan_op (QualityRepository.t * AutomationRepository.t) EnvironmentRepository.t).

Definition plan_scripts : QualityRepository.t * AutomationRepository.t :=
  st_ops demo_script_more demo_scripts.
Definition plan_inputs : list ConfigurationValueInput.t :=
  [ConfigurationValueInput.mk "base" (PStr "https://staging") false None;
   ConfigurationValueInput.mk "user" (PStr "nobody") false None].
Definition plan_environments : EnvironmentRepository.t :=
  st_ops [OpCreateEnvironment demo_encryptor 10 8%N demo_draw 5%N "Staging" [] plan_inputs;
          OpUpdateEnvironment demo_encryptor 20 demo_draw 8%N 0 "Staging" EnvironmentStatus.ACTIVE [] plan_inputs]
    EnvironmentRepository.init.

Lemma plan_scripts_wf : st_wf (Store:=automation_store) plan_scripts.
Proof.
  apply st_reachable_wf. apply st_ops_reachable; [exact demo_scripts_reachable | by vm_compute].
Qed.

Definition demo_item : TestPlanItem.t :=
  TestPlanItem.mk 40%N 3%N 2 (Some 8%N) (Some 2%Z) [("user", PStr "alice")]
    [TestPlanDataRow.mk "one" []; TestPlanDataRow.mk "two" [("user", PStr "bob")]]
    ExecutionPolicy.default.
Definition demo_plan_ops : list plans_op :=
  [OpCreatePlan plan_scripts plan_environments 300 30%N 1%N 5%N "Nightly" "" [demo_item] (PInt 1);
   OpUpdatePlan plan_scripts plan_environments 310 30%N 0 "Nightly" "" [demo_item] TestPlanStatus.ACTIVE (PInt 1)].

(** The plans start empty. *)
Definition demo_plans : t * RunRepository.t :=
  st_ops (H:=plan_store (SOp:=scripts_op) (EOp:=environments_op)) demo_plan_ops (init, RunRepository.init).
Definition demo_ids (k : nat) : uuid * uuid := ((1000 + N.of_nat k)%N, (2000 + N.of_nat k)%N).

Lemma demo_plans_reachable : st_reachable (H:=plan_store (SOp:=scripts_op) (EOp:=environments_op)) demo_plans.
Proof.
  apply (st_ops_reachable (H:=plan_store (SOp:=scripts_op) (EOp:=environments_op)) demo_plan_ops);
    [exact (st_reachable_init (H:=plan_store)) | by vm_compute].
Qed.

(** The sources as archived when the plan is executed. *)
Definition demo_override : option (string * string) :=
  Some ("src-9", "e3b0c44298fc1c149afbf4c8996fb92427ae41e4649b934ca495991b7852b855")%string.
Definition demo_execute : M (t * RunRepository.t) (ExecutionBatchRecord.t * bool) :=
  execute (SOp:=scripts_op) (EOp:=environments_op) plan_scripts plan_environments 400 31%N demo_ids 30%N " run-1 " demo_override.
Definition demo_executed : t * RunRepository.t := (demo_execute demo_plans).2.
Definition demo_batch : ExecutionBatchRecord.t :=
  ExecutionBatchRecord.mk 31%N 1%N 5%N 30%N 2 "run-1" 1 [1000%N; 1001%N] 400.

Lemma demo_execute_eq : demo_execute demo_plans = (Ok (demo_batch, false), demo_executed).
Proof. vm_compute. reflexivity. Qed.

Lemma demo_execute_fresh :
  plan_fresh (OpExecute plan_scripts plan_environments 400 31%N demo_ids 30%N " run-1 " demo_override) demo_plans.
Proof.
  split; [by vm_compute |]. split; [intros j k; simpl; lia |].
  intros j. assert (RunRepository._runs demo_plans.2 = ∅) as -> by (vm_compute; reflexivity). done.
Qed.

(** The same key after a revision of the plan conflicts. *)
Definition demo_revise : list plans_op :=
  [OpClaimRuns (fun _ => 500%Z) 31%N;
   OpUpdatePlan plan_scripts plan_environments 510 30%N 1 "Nightly" "" [demo_item] TestPlanStatus.ACTIVE (PInt 2)].

Lemma execute_idempotent_witness :
  exists w2, w2 = st_ops (H:=plan_store (SOp:=scripts_op) (EOp:=environments_op)) demo_revise demo_executed
    /\ execute (SOp:=scripts_op) (EOp:=environments_op) plan_scripts plan_environments 600 32%N demo_ids 30%N "run-1" None w2 = (Err TestPlanConflict, w2).
Proof.
  exists (st_ops (H:=plan_store (SOp:=scripts_op) (EOp:=environments_op)) demo_revise demo_executed).
  split; [reflexivity |].
  destruct (execute_idempotent (SOp:=scripts_op) (EOp:=environments_op) plan_scripts plan_environments 400 31%N demo_ids 30%N " run-1 " demo_override
    demo_plans demo_batch false demo_executed demo_revise plan_scripts plan_environments 600 32%N demo_ids "run-1" None
    demo_plans_reachable demo_execute_fresh demo_execute_eq) as (plan & Hp & _ & He);
    [split; [| split]; exact I | reflexivity |].
  assert (TestPlanRecord.revision plan = 3%Z) as Hr.
  { revert Hp. vm_compute. intros [= <-]. reflexivity. }
  rewrite bool_decide_false in He by (rewrite Hr; discriminate). exact He.
Defined.

(** The batch runs one at a time: the first claim takes one run, the second none. *)
Definition demo_claimed : t * RunRepository.t :=
  (claim_available_runs (fun _ => 500%Z) 31%N demo_executed).2.

Lemma demo_executed_reachable : st_reachable (H:=plan_store (SOp:=scripts_op) (EOp:=environments_op)) demo_executed.
Proof.
  apply (st_reachable_op (H:=plan_store (SOp:=scripts_op) (EOp:=environments_op)) demo_plans
    (OpExecute plan_scripts plan_environments 400 31%N demo_ids 30%N " run-1 " demo_override));
    [exact demo_plans_reachable | exact demo_execute_fresh].
Qed.

Lemma claims_bounded_witness :
  exists w, claim_available_runs (fun _ => 500%Z) 31%N demo_executed = (Ok [1000%N], w)
    /\ occupied demo_batch w = 1%nat /\ claim_available_runs (fun _ => 510%Z) 31%N w = (Ok [], w).
Proof.
  destruct (claims_bounded (SOp:=scripts_op) (EOp:=environments_op) (fun _ => 500%Z) 31%N demo_batch demo_executed demo_executed_reachable)
    as (w & Hc & _ & _ & _ & Ho & _); [reflexivity |].
  assert (w = demo_claimed) as -> by (apply (f_equal snd) in Hc; symmetry; exact Hc).
  exists demo_claimed. split; [exact Hc |]. split; [exact Ho |]. vm_compute. reflexivity.
Defined.

Lemma execute_expands_witness :
  exists run spec, RunRepository._runs demo_executed.2 !! 1001%N = Some run
    /\ get_run_spec 1001%N demo_executed.1 = (Ok spec, demo_executed.1)
    /\ RunRecord.parameters run = RunSpecRecord.parameters spec
    /\ kv_get "user" (RunSpecRecord.parameters spec) = Some (PStr "bob")
    /\ kv_get "base" (RunSpecRecord.parameters spec) = Some (PStr "https://staging").
Proof.
  destruct (execute_expands (SOp:=scripts_op) (EOp:=environments_op) plan_scripts plan_environments 400 31%N demo_ids 30%N " run-1 " demo_override
    demo_plans demo_batch demo_executed demo_plans_reachable demo_execute_fresh plan_scripts_wf demo_execute_eq)
    as (plan & Hp & _ & _ & Hrows & _).
  assert (exists row, plan_rows (TestPlanRecord.items plan) !! 1%nat = Some (demo_item, row)
    /\ TestPlanDataRow.values row = [("user"%string, PStr "bob")]) as (row & Hrow & Hv).
  { revert Hp. vm_compute. intros [= <-]. eexists. split; reflexivity. }
  destruct (Hrows 1%nat demo_item row Hrow) as
    (run & spec & script & vs & cs & ss & Hr & _ & Hs & _ & _ & _ & _ & Hc & _ & _ & _ & Hpar & Hget).
  exists run, spec. split; [exact Hr |]. split; [exact Hs |]. split; [exact Hpar |].
  rewrite !Hget. unfold row_parameter. rewrite Hv. split; [reflexivity |].
  assert (cs = [("base"%string, PStr "https://staging"); ("user"%string, PStr "nobody")]) as ->.
  { revert Hc. vm_compute. intros [= _ <- _]. reflexivity. }
  reflexivity.
Defined.

Lemma task_pinned_witness :
  exists task, RunSpecTaskMaterializer.materialize (fun j => (get_run_spec j demo_executed.1).1) 700 1000%N 50%N = Ok task
    /\ RunSpecTaskMaterializer.materialize
         (fun j => (get_run_spec j (st_ops (H:=plan_store (SOp:=scripts_op) (EOp:=environments_op)) demo_revise demo_executed).1).1) 800 1000%N 50%N
       = Ok (retimed 800 90000800 task).
Proof.
  destruct (RunSpecTaskMaterializer.materialize (fun j => (get_run_spec j demo_executed.1).1) 700 1000%N 50%N)
    as [task|e] eqn:E; [| exfalso; revert E; vm_compute; discriminate].
  exists task. split; [reflexivity |].
  destruct (task_pinned (SOp:=scripts_op) (EOp:=environments_op) 700 1000%N 50%N demo_executed task demo_revise demo_executed_reachable E)
    as (_ & _ & _ & seconds & _ & Hc & Hd & Hm); [split; [| split]; exact I |].
  assert (TaskEnvelope.deadline task = 90000700%Z) as Hd' by (revert E; vm_compute; intros [= <-]; reflexivity).
  rewrite Hd' in Hd. assert (seconds = 90%Z) as -> by lia. rewrite Hm. reflexivity.
Defined.
