(* ===== verification/SecretBroker.v ===== *)
(** * Secret capabilities ([src/services/secret_broker.py])

    A runner gets the secrets of its attempt through a one-shot capability: the broker
    issues a token bound to the task, the attempt and the runner, keeps only its SHA-256
    digest, and exchanges it once for the secret values.  A method that reads the attempt
    takes the reader as it is at that moment; the clock readings, the token and the id
    that the code draws are arguments. *)
From S2P Require Import Prelude PyDict PyText Protocol Domain Sha256 EnvironmentCrypto Environments.
Open Scope list_scope.

Definition ACTIVE_SECRET_STATES : list AttemptState.t := [AttemptState.PREPARING; AttemptState.RUNNING].

Module SecretGrantBinding.
Record t := mk {
  task_id : uuid; tenant_id : uuid; project_id : uuid; run_id : uuid; attempt_id : uuid;
  runner_id : string; environment_id : uuid; environment_revision : Z;
  secret_references : list SecretReference.t }.
#[global] Instance eq_dec : EqDecision t.
Proof. solve_decision. Defined.
End SecretGrantBinding.

Module SecretGrantRecord.
Record t := mk {
  id : uuid; token_digest : string; binding : SecretGrantBinding.t; issued_at : datetime;
  expires_at : datetime; consumed_at : option datetime; revoked_at : option datetime }.
Definition with_expires (e : datetime) (r : t) : t :=
  mk (id r) (token_digest r) (binding r) (issued_at r) e (consumed_at r) (revoked_at r).
Definition consumed (now : datetime) (r : t) : t :=
  mk (id r) (token_digest r) (binding r) (issued_at r) (expires_at r) (Some now) (revoked_at r).
Definition revoked (now : datetime) (r : t) : t :=
  mk (id r) (token_digest r) (binding r) (issued_at r) (expires_at r) (consumed_at r) (Some now).
(** Neither consumed nor revoked. *)
Definition open (r : t) : bool :=
  match consumed_at r, revoked_at r with None, None => true | _, _ => false end.
End SecretGrantRecord.

(** A capability in the runner's hands. *)
Module SecretCapability.
Record t := mk { token : string }.
End SecretCapability.

(** [AttemptReader.get_attempt]. *)
Definition AttemptReader : Type := uuid -> res AttemptRecord.t.

(** ** The store *)
Module InMemorySecretGrantStore.
Record t := mk { _records : pydict string SecretGrantRecord.t }.
Definition init : t := mk ∅.
Definition set_record (d : string) (r : SecretGrantRecord.t) (s : t) : t := mk (<[d:=r]> (_records s)).

Definition _valid_attempt (_attempts : AttemptReader) (b : SecretGrantBinding.t) (now : datetime)
    : res AttemptRecord.t :=
  match _attempts (SecretGrantBinding.attempt_id b) with
  | Err _ => Err CapabilityRejected
  | Ok attempt =>
      if negb (bool_decide (AttemptRecord.run_id attempt = SecretGrantBinding.run_id b))
         || negb (bool_decide (AttemptRecord.runner_id attempt = Some (SecretGrantBinding.runner_id b)))
         || negb (bool_decide (AttemptRecord.state attempt ∈ ACTIVE_SECRET_STATES))
         || match AttemptRecord.lease_expires_at attempt with
            | None => true
            | Some l => (l <=? now)%Z
            end
      then Err CapabilityRejected
      else Ok attempt
  end.

Definition issue (_attempts : AttemptReader) (record : SecretGrantRecord.t) (now : datetime)
    : M t SecretGrantRecord.t :=
  let* attempt := lift (_valid_attempt _attempts (SecretGrantRecord.binding record) now) in
  match AttemptRecord.lease_expires_at attempt with
  | None => raise CapabilityRejected
  | Some lease_expires_at =>
      let expires_at := Z.min (SecretGrantRecord.expires_at record) lease_expires_at in
      let* s := get in
      if (expires_at <=? now)%Z || has_key (SecretGrantRecord.token_digest record) (_records s)
      then raise CapabilityRejected
      else
        let stored := SecretGrantRecord.with_expires expires_at record in
        put (set_record (SecretGrantRecord.token_digest record) stored s) ;;;
        ret stored
  end.

Definition consume (_attempts : AttemptReader) (token_digest : string) (b : SecretGrantBinding.t)
    (now : datetime) : M t SecretGrantRecord.t :=
  let* _ := lift (_valid_attempt _attempts b now) in
  let* s := get in
  match _records s !! token_digest with
  | None => raise CapabilityRejected
  | Some record =>
      if negb (bool_decide (SecretGrantRecord.binding record = b))
         || (SecretGrantRecord.expires_at record <=? now)%Z
         || negb (SecretGrantRecord.open record)
      then raise CapabilityRejected
      else
        let consumed := SecretGrantRecord.consumed now record in
        put (set_record token_digest consumed s) ;;;
        ret consumed
  end.

Definition revoke (token_digest : string) (now : datetime) : M t unit :=
  let* s := get in
  match _records s !! token_digest with
  | Some record =>
      if SecretGrantRecord.open record
      then put (set_record token_digest (SecretGrantRecord.revoked now record) s)
      else ret tt
  | None => ret tt
  end.

(** The loop of [revoke_attempt] over the snapshot of the records. *)
Fixpoint revoke_loop (attempt_id : uuid) (now : datetime)
    (snapshot : list (string * SecretGrantRecord.t)) (count : Z) : M t Z :=
  match snapshot with
  | [] => ret count
  | (digest, record) :: rest =>
      if bool_decide (SecretGrantBinding.attempt_id (SecretGrantRecord.binding record) = attempt_id)
         && SecretGrantRecord.open record
      then
        let* s := get in
        put (set_record digest (SecretGrantRecord.revoked now record) s) ;;;
        revoke_loop attempt_id now rest (count + 1)
      else revoke_loop attempt_id now rest count
  end.

Definition revoke_attempt (attempt_id : uuid) (now : datetime) : M t Z :=
  let* s := get in revoke_loop attempt_id now (items (_records s)) 0.
End InMemorySecretGrantStore.

(** ** The broker *)

(** The [SecretResolver] protocol. *)
Module SecretResolver.
Record t := mk {
  validate_secret_references : uuid -> uuid -> Z -> list SecretReference.t -> res (list SecretReference.t);
  resolve_secret_values : uuid -> uuid -> Z -> list SecretReference.t -> res (list ResolvedSecretValue.t) }.
End SecretResolver.

Module SecretBroker.
Notation store := InMemorySecretGrantStore.t.

Definition digest (token : string) : string := sha256_hex (utf8 token).

Definition _binding (task : TaskEnvelope.t) (runner_id : string) (references : list SecretReference.t)
    : res SecretGrantBinding.t :=
  match TaskEnvelope.environment_id task, TaskEnvelope.environment_revision task with
  | Some environment_id, Some environment_revision =>
      Ok (SecretGrantBinding.mk (TaskEnvelope.task_id task) (TaskEnvelope.tenant_id task)
            (TaskEnvelope.project_id task) (TaskEnvelope.run_id task) (TaskEnvelope.attempt_id task)
            runner_id environment_id environment_revision references)
  | _, _ => Err CapabilityRejected
  end.

(** [SecretBroker.__init__]: the lifetime in seconds. *)
Definition init (ttl_seconds : Z) : res Z :=
  if (ttl_seconds <=? 0)%Z then Err (ValueError "capability TTL must be positive") else Ok ttl_seconds.

(** [except Exception: raise CapabilityRejected() from None]. *)
Definition rejecting {S A} (c : M S A) : M S A :=
  try_except c any_exn (fun _ => raise CapabilityRejected).

Section broker.
  Context (_attempts : AttemptReader) (_resolver : SecretResolver.t) (_ttl : Z).

Definition issue (now : datetime) (token : string) (fresh : uuid) (task : TaskEnvelope.t)
    (runner_id : string) : M store SecretCapability.t :=
  match TaskEnvelope.environment_id task, TaskEnvelope.environment_revision task with
  | Some environment_id, Some environment_revision =>
      if bool_decide (TaskEnvelope.secret_references task = []) || empty_str runner_id
      then raise CapabilityRejected
      else
        let* references := rejecting (lift (SecretResolver.validate_secret_references _resolver
          (TaskEnvelope.project_id task) environment_id environment_revision
          (TaskEnvelope.secret_references task))) in
        let* binding := lift (_binding task runner_id references) in
        let* limit := lift (add_seconds now _ttl) in
        let record := SecretGrantRecord.mk fresh (digest token) binding now
                        (Z.min limit (TaskEnvelope.deadline task)) None None in
        rejecting (InMemorySecretGrantStore.issue _attempts record now) ;;;
        ret (SecretCapability.mk token)
  | _, _ => raise CapabilityRejected
  end.

Definition redeem (now : datetime) (capability : SecretCapability.t) (task : TaskEnvelope.t) (runner_id : string)
    : M store (list ResolvedSecretValue.t) :=
  let* binding := rejecting (
    let* references := lift (canonical_secret_references (TaskEnvelope.secret_references task)) in
    let* binding := lift (_binding task runner_id references) in
    InMemorySecretGrantStore.consume _attempts (digest (SecretCapability.token capability)) binding now ;;;
    ret binding) in
  rejecting (lift (SecretResolver.resolve_secret_values _resolver
    (SecretGrantBinding.project_id binding) (SecretGrantBinding.environment_id binding)
    (SecretGrantBinding.environment_revision binding) (SecretGrantBinding.secret_references binding))).

Definition revoke (now : datetime) (capability : SecretCapability.t) : M store unit :=
  rejecting (InMemorySecretGrantStore.revoke (digest (SecretCapability.token capability)) now).

Definition revoke_attempt (now : datetime) (attempt_id : uuid) : M store Z :=
  rejecting (InMemorySecretGrantStore.revoke_attempt attempt_id now).
End broker.
End SecretBroker.
