(* ===== verification/BrokerTheorems.v ===== *)
(** * Theorems about secret capabilities

    The grant store refines an abstract register of live one-shot capabilities, and the
    broker's tokens are worth one redemption of what they were issued for. *)
From stdpp Require Import gmap fin_map_dom.
From S2P Require Import Prelude PyDict PyText Protocol Domain Sha256 Versioned EnvironmentCrypto Environments EnvironmentTheorems ResolverTheorems SecretBroker.
Import InMemorySecretGrantStore.
Open Scope list_scope.

(** ** The abstract register

    The digests ever issued, and the live capabilities: to what each is bound and when it
    expires.  Redeeming and revoking remove a capability for good. *)
Module Register.
Record t := mk { live : gmap string (SecretGrantBinding.t * datetime); used : gset string }.
Definition empty : t := mk ∅ ∅.

(** The lease end of the attempt a binding names, when it may have secrets. *)
Definition lease (attempts : AttemptReader) (b : SecretGrantBinding.t) (now : datetime) : option datetime :=
  match attempts (SecretGrantBinding.attempt_id b) with
  | Ok a =>
      if bool_decide (AttemptRecord.run_id a = SecretGrantBinding.run_id b
                      /\ AttemptRecord.runner_id a = Some (SecretGrantBinding.runner_id b)
                      /\ (AttemptRecord.state a = AttemptState.PREPARING
                          \/ AttemptRecord.state a = AttemptState.RUNNING))
      then match AttemptRecord.lease_expires_at a with
           | Some l => if (now <? l)%Z then Some l else None
           | None => None
           end
      else None
  | Err _ => None
  end.

Definition issue (attempts : AttemptReader) (d : string) (b : SecretGrantBinding.t) (until now : datetime)
    (r : t) : bool * t :=
  match lease attempts b now with
  | Some l =>
      if bool_decide (now < Z.min until l)%Z && negb (bool_decide (d ∈ used r))
      then (true, mk (<[d := (b, Z.min until l)]> (live r)) ({[d]} ∪ used r)) else (false, r)
  | None => (false, r)
  end.

Definition consume (attempts : AttemptReader) (d : string) (b : SecretGrantBinding.t) (now : datetime)
    (r : t) : bool * t :=
  match lease attempts b now, live r !! d with
  | Some _, Some (b', until) =>
      if bool_decide (b' = b /\ (now < until)%Z) then (true, mk (delete d (live r)) (used r)) else (false, r)
  | _, _ => (false, r)
  end.

Definition revoke (d : string) (r : t) : t := mk (delete d (live r)) (used r).

Definition revoke_attempt (a : uuid) (r : t) : Z * t :=
  let live' := filter (fun kv => SecretGrantBinding.attempt_id kv.2.1 <> a) (live r) in
  (Z.of_nat (size (live r)) - Z.of_nat (size live'), mk live' (used r))%Z.
End Register.

(** What a record is to the register. *)
Definition as_live (r : SecretGrantRecord.t) : option (SecretGrantBinding.t * datetime) :=
  if SecretGrantRecord.open r then Some (SecretGrantRecord.binding r, SecretGrantRecord.expires_at r) else None.
Definition register (s : t) : Register.t :=
  Register.mk (omap as_live (to_gmap (_records s))) (dom (to_gmap (_records s))).

Lemma register_ext r r' : Register.live r = Register.live r' -> Register.used r = Register.used r' -> r = r'.
Proof. destruct r, r'. simpl. by intros -> ->. Qed.

Lemma live_lookup s d : Register.live (register s) !! d = _records s !! d ≫= as_live.
Proof. unfold register. simpl. by rewrite lookup_omap, lookup_to_gmap. Qed.

Lemma used_lookup s d : d ∈ Register.used (register s) <-> is_Some (_records s !! d).
Proof. unfold register. simpl. by rewrite elem_of_dom, lookup_to_gmap. Qed.

(** Storing a closed record under a known digest removes the capability. *)
Lemma register_close s d r r' :
  _records s !! d = Some r -> SecretGrantRecord.open r' = false ->
  register (set_record d r' s) = Register.revoke d (register s).
Proof.
  intros Hr Ho. apply register_ext; unfold register; simpl; rewrite to_gmap_insert.
  - rewrite omap_insert_None; [by rewrite <- omap_delete, delete_insert_eq || done |].
    unfold as_live. by rewrite Ho.
  - rewrite dom_insert_lookup_L; [done |]. rewrite lookup_to_gmap. eauto.
Qed.

Lemma valid_attempt_lease att b now :
  match _valid_attempt att b now with
  | Ok a => exists l, AttemptRecord.lease_expires_at a = Some l /\ Register.lease att b now = Some l
  | Err e => e = CapabilityRejected /\ Register.lease att b now = None
  end.
Proof.
  unfold _valid_attempt, Register.lease. destruct (att _) as [a|e]; [| done].
  match goal with |- context [bool_decide (?A /\ ?B)] => set (P := A /\ B) end.
  destruct (decide (AttemptRecord.run_id a = SecretGrantBinding.run_id b)) as [H1|H1];
    [rewrite (bool_decide_true _ H1) | rewrite (bool_decide_false _ H1), (bool_decide_false P) by (unfold P; tauto); done].
  destruct (decide (AttemptRecord.runner_id a = Some (SecretGrantBinding.runner_id b))) as [H2|H2];
    [rewrite (bool_decide_true _ H2) | rewrite (bool_decide_false _ H2), (bool_decide_false P) by (unfold P; tauto); done].
  assert (AttemptRecord.state a ∈ ACTIVE_SECRET_STATES <->
    AttemptRecord.state a = AttemptState.PREPARING \/ AttemptRecord.state a = AttemptState.RUNNING) as Hs.
  { unfold ACTIVE_SECRET_STATES. rewrite !elem_of_cons, elem_of_nil. naive_solver. }
  destruct (decide (AttemptRecord.state a ∈ ACTIVE_SECRET_STATES)) as [H3|H3].
  - rewrite (bool_decide_true _ H3), (bool_decide_true P) by (unfold P; split_and!; [done | done | by apply Hs]).
    cbn [negb orb]. destruct (AttemptRecord.lease_expires_at a) as [l|] eqn:El; [| done].
    destruct (l <=? now)%Z eqn:E.
    + assert ((now <? l)%Z = false) as -> by (apply Z.leb_le in E; apply Z.ltb_ge; lia). done.
    + assert ((now <? l)%Z = true) as -> by (apply Z.leb_gt in E; apply Z.ltb_lt; lia). eauto.
  - rewrite (bool_decide_false _ H3), (bool_decide_false P) by (intros (_ & _ & ?); by apply H3, Hs). done.
Qed.

(** What a method answers: the register's verdict, or [CapabilityRejected]. *)
Definition verdict {A} (r : res A) (ok : bool) : Prop :=
  match r with Ok _ => ok = true | Err e => ok = false /\ e = CapabilityRejected end.

Lemma issue_refines att record now s :
  SecretGrantRecord.open record = true ->
  let '(answer, s') := issue att record now s in
  let '(ok, r') := Register.issue att (SecretGrantRecord.token_digest record)
                     (SecretGrantRecord.binding record) (SecretGrantRecord.expires_at record) now (register s) in
  verdict answer ok /\ register s' = r'.
Proof.
  intros Ho. unfold issue, Register.issue, bind, lift.
  pose proof (valid_attempt_lease att (SecretGrantRecord.binding record) now) as Hv.
  destruct (_valid_attempt att _ now) as [a|e]; [| by destruct Hv as [-> ->]].
  destruct Hv as (l & -> & ->). unfold get. cbn [fst snd].
  set (until := Z.min _ l). set (d := SecretGrantRecord.token_digest record).
  destruct (has_key d (_records s)) eqn:Ek.
  { rewrite orb_true_r. apply has_key_true in Ek.
    rewrite (bool_decide_true (d ∈ _)) by by apply used_lookup. by rewrite andb_false_r. }
  apply has_key_false in Ek.
  rewrite (bool_decide_false (d ∈ _)) by (rewrite used_lookup, Ek; by intros [? ?]).
  rewrite orb_false_r, andb_true_r. destruct (until <=? now)%Z eqn:Eu.
  - rewrite bool_decide_false by (apply Z.leb_le in Eu; lia). done.
  - rewrite bool_decide_true by (apply Z.leb_gt in Eu; lia). unfold put, ret. cbn [fst snd].
    split; [done |]. apply register_ext; unfold register; simpl; rewrite to_gmap_insert.
    + rewrite (omap_insert_Some _ _ _ _ (SecretGrantRecord.binding record, until)); [done |].
      unfold as_live. change (SecretGrantRecord.open (SecretGrantRecord.with_expires until record)) with (SecretGrantRecord.open record).
      by rewrite Ho.
    + by rewrite dom_insert_L.
Qed.

Lemma consume_refines att d b now s :
  let '(answer, s') := consume att d b now s in
  let '(ok, r') := Register.consume att d b now (register s) in
  verdict answer ok /\ register s' = r'.
Proof.
  unfold consume, Register.consume, bind, lift. rewrite live_lookup.
  pose proof (valid_attempt_lease att b now) as Hv.
  destruct (_valid_attempt att b now) as [a|e]; [| by destruct Hv as [-> ->]].
  destruct Hv as (l & _ & ->). unfold get. cbn [fst snd].
  destruct (_records s !! d) as [r|] eqn:Er; simpl; [| done]. unfold as_live.
  destruct (SecretGrantRecord.open r) eqn:Eo; [| by rewrite orb_true_r].
  cbn [negb]. rewrite orb_false_r.
  destruct (decide (SecretGrantRecord.binding r = b)) as [Hb|Hb].
  - rewrite (bool_decide_true _ Hb). cbn [negb orb].
    destruct (SecretGrantRecord.expires_at r <=? now)%Z eqn:Ee.
    + rewrite bool_decide_false by (apply Z.leb_le in Ee; intros [_ ?]; lia). done.
    + rewrite bool_decide_true by (apply Z.leb_gt in Ee; split; [done | lia]). unfold put, ret. cbn [fst snd].
      split; [done |]. rewrite (register_close _ _ r); done.
  - rewrite (bool_decide_false _ Hb). rewrite bool_decide_false by tauto. done.
Qed.

Lemma revoke_refines d now s :
  let '(answer, s') := revoke d now s in
  answer = Ok tt /\ register s' = Register.revoke d (register s).
Proof.
  unfold revoke, bind, get, put, ret. cbn [fst snd].
  assert (Register.live (register s) !! d = None -> register s = Register.revoke d (register s)) as Hsame.
  { intros Hn. apply register_ext; simpl; [| done]. by rewrite delete_id. }
  destruct (_records s !! d) as [r|] eqn:Er.
  - destruct (SecretGrantRecord.open r) eqn:Eo.
    + split; [done |]. apply (register_close _ _ r); [done |]. unfold SecretGrantRecord.open. simpl.
      by destruct (SecretGrantRecord.consumed_at r).
    + split; [done |]. apply Hsame. rewrite live_lookup, Er. simpl. unfold as_live. by rewrite Eo.
  - split; [done |]. apply Hsame. by rewrite live_lookup, Er.
Qed.

(** The loop of [revoke_attempt] on a snapshot of stored records. *)
Lemma revoke_loop_spec a now l n s :
  NoDup l.*1 -> (forall d r, (d, r) ∈ l -> _records s !! d = Some r) ->
  exists n' s', revoke_loop a now l n s = (Ok n', s')
    /\ Register.used (register s') = Register.used (register s)
    /\ (n' + Z.of_nat (size (Register.live (register s'))) = n + Z.of_nat (size (Register.live (register s))))%Z
    /\ forall d, Register.live (register s') !! d =
         if bool_decide (d ∈ l.*1) then
           match Register.live (register s) !! d with
           | Some x => if bool_decide (SecretGrantBinding.attempt_id x.1 = a) then None else Some x
           | None => None
           end
         else Register.live (register s) !! d.
Proof.
  revert n s. induction l as [|[d0 r0] l IH]; intros n s Hnd Hin; cbn [revoke_loop].
  { exists n, s. split_and!; [done | done | done |]. intros d. by rewrite bool_decide_false by apply not_elem_of_nil. }
  rewrite fmap_cons; cbn [fst].
  simpl in Hnd. apply NoDup_cons in Hnd as [Hd Hnd].
  assert (_records s !! d0 = Some r0) as Hr0 by (apply Hin; by left).
  destruct (bool_decide (SecretGrantBinding.attempt_id (SecretGrantRecord.binding r0) = a)
            && SecretGrantRecord.open r0) eqn:Eb.
  - apply andb_true_iff in Eb as [Ea Eo]. unfold bind at 1, get. unfold bind, put. cbn [fst snd].
    set (s1 := set_record d0 (SecretGrantRecord.revoked now r0) s).
    assert (register s1 = Register.revoke d0 (register s)) as Hs1.
    { apply (register_close _ _ r0); [done |]. unfold SecretGrantRecord.open. simpl.
      by destruct (SecretGrantRecord.consumed_at r0). }
    assert (Register.live (register s) !! d0
            = Some (SecretGrantRecord.binding r0, SecretGrantRecord.expires_at r0)) as Hl0.
    { rewrite live_lookup, Hr0. simpl. unfold as_live. by rewrite Eo. }
    destruct (IH (n + 1)%Z s1 Hnd) as (n' & s' & Hl & Hu & Hn & Hlk).
    { intros d r Hdr. unfold s1, set_record. simpl.
      rewrite dict_lookup_insert_ne; [apply Hin; by right |].
      intros <-. apply Hd. apply list_elem_of_fmap. by exists (d0, r). }
    exists n', s'. rewrite Hl. split_and!; [done | by rewrite Hu, Hs1 | |].
    + rewrite Hn, Hs1. unfold Register.revoke at 1. cbn [Register.live]. rewrite map_size_delete_Some by eauto.
      assert (size (Register.live (register s)) <> 0)%nat by by (intros Hz%map_size_empty_inv; by rewrite Hz in Hl0). lia.
    + intros d. rewrite Hlk, Hs1. unfold Register.revoke. cbn [Register.live]. destruct (decide (d = d0)) as [->|Hne].
      * rewrite (bool_decide_false _ Hd), lookup_delete_eq.
        rewrite bool_decide_true by (by left). rewrite Hl0. cbn [fst]. by rewrite Ea.
      * rewrite lookup_delete_ne by done. destruct (decide (d ∈ l.*1)) as [H1|H1].
        -- by rewrite !bool_decide_true by (done || by right).
        -- rewrite !bool_decide_false by (done || by intros [?|?]%elem_of_cons). done.
  - destruct (IH n s Hnd) as (n' & s' & Hl & Hu & Hn & Hlk); [intros; apply Hin; by right |].
    exists n', s'. rewrite Hl. split_and!; [done | done | done |]. intros d. rewrite Hlk.
    destruct (decide (d = d0)) as [->|Hne].
    + rewrite (bool_decide_false _ Hd). rewrite bool_decide_true by (by left).
      rewrite live_lookup, Hr0. simpl. unfold as_live. apply andb_false_iff in Eb as [Eb|Eb]; [| by rewrite Eb].
      destruct (SecretGrantRecord.open r0); [| done]. cbn [fst]. by rewrite Eb.
    + destruct (decide (d ∈ l.*1)) as [H1|H1].
      * by rewrite !bool_decide_true by (done || by right).
      * rewrite !bool_decide_false by (done || by intros [?|?]%elem_of_cons). done.
Qed.

Lemma revoke_attempt_refines a now s :
  let '(answer, s') := revoke_attempt a now s in
  let '(n, r') := Register.revoke_attempt a (register s) in
  answer = Ok n /\ register s' = r'.
Proof.
  unfold revoke_attempt, bind, get, Register.revoke_attempt. cbn [fst snd].
  destruct (revoke_loop_spec a now (items (_records s)) 0 s) as (n' & s' & -> & Hu & Hn & Hlk).
  { apply keys_nodup. }
  { intros d r. by rewrite elem_of_items. }
  assert (Register.live (register s') =
    filter (fun kv => SecretGrantBinding.attempt_id kv.2.1 <> a) (Register.live (register s))) as Hlive.
  { apply map_eq. intros d. rewrite Hlk, map_lookup_filter.
    destruct (decide (d ∈ (items (_records s)).*1)) as [Hi|Hi].
    - rewrite bool_decide_true by done. destruct (Register.live (register s) !! d) as [x|]; [| done]. simpl.
      destruct (decide (SecretGrantBinding.attempt_id x.1 = a)) as [He|He].
      + rewrite bool_decide_true by done. by rewrite option_guard_False by (intros Hx; by apply Hx).
      + rewrite bool_decide_false by done. by rewrite option_guard_True.
    - rewrite bool_decide_false by done. assert (Register.live (register s) !! d = None) as ->; [| done].
      rewrite live_lookup. destruct (_records s !! d) as [r|] eqn:Er; [| done].
      exfalso. apply Hi. apply elem_of_items in Er. apply list_elem_of_fmap. by exists (d, r). }
  split.
  - f_equal. rewrite <- Hlive. lia.
  - by apply register_ext.
Qed.

(** ** Calls of the store *)
Inductive grant_op : Type :=
  | GIssue (attempts : AttemptReader) (fresh : uuid) (d : string) (b : SecretGrantBinding.t) (until now : datetime)
  | GConsume (attempts : AttemptReader) (d : string) (b : SecretGrantBinding.t) (now : datetime)
  | GRevoke (d : string) (now : datetime)
  | GRevokeAttempt (a : uuid) (now : datetime).

(** The state after a call, and its answer: a verdict, or a count. *)
Definition answer_of {A} (r : res A) : res (option Z) :=
  match r with Ok _ => Ok None | Err e => Err e end.
Definition grant_step (o : grant_op) (s : t) : res (option Z) * t :=
  match o with
  | GIssue att fresh d b until now =>
      let '(x, s') := issue att (SecretGrantRecord.mk fresh d b now until None None) now s in (answer_of x, s')
  | GConsume att d b now => let '(x, s') := consume att d b now s in (answer_of x, s')
  | GRevoke d now => let '(x, s') := revoke d now s in (answer_of x, s')
  | GRevokeAttempt a now =>
      let '(x, s') := revoke_attempt a now s in
      (match x with Ok n => Ok (Some n) | Err e => Err e end, s')
  end.

Definition verdict_answer (ok : bool) : res (option Z) := if ok then Ok None else Err CapabilityRejected.
Definition register_step (o : grant_op) (r : Register.t) : res (option Z) * Register.t :=
  match o with
  | GIssue att _ d b until now => let '(ok, r') := Register.issue att d b until now r in (verdict_answer ok, r')
  | GConsume att d b now => let '(ok, r') := Register.consume att d b now r in (verdict_answer ok, r')
  | GRevoke d _ => (Ok None, Register.revoke d r)
  | GRevokeAttempt a _ => let '(n, r') := Register.revoke_attempt a r in (Ok (Some n), r')
  end.

Fixpoint run_calls {S O A} (step : O -> S -> A * S) (ops : list O) (s : S) : list A * S :=
  match ops with
  | [] => ([], s)
  | o :: rest =>
      let '(a, s1) := step o s in
      let '(answers, s2) := run_calls step rest s1 in (a :: answers, s2)
  end.

Lemma verdict_answer_of {A} (x : res A) ok : verdict x ok -> answer_of x = verdict_answer ok.
Proof. destruct x; simpl; [by intros -> | by intros [-> ->]]. Qed.

Lemma grant_step_refines o s a s' :
  grant_step o s = (a, s') -> register_step o (register s) = (a, register s').
Proof.
  destruct o; cbn [grant_step register_step].
  - pose proof (issue_refines attempts (SecretGrantRecord.mk fresh d b now until None None) now s eq_refl) as Hx.
    simpl in Hx. destruct (issue _ _ _ _) as [x s1]. destruct (Register.issue _ _ _ _ _ _) as [ok r'].
    destruct Hx as [Hv <-]. intros [= <- <-]. by rewrite (verdict_answer_of _ _ Hv).
  - pose proof (consume_refines attempts d b now s) as Hx.
    destruct (consume _ _ _ _ _) as [x s1]. destruct (Register.consume _ _ _ _ _) as [ok r'].
    destruct Hx as [Hv <-]. intros [= <- <-]. by rewrite (verdict_answer_of _ _ Hv).
  - pose proof (revoke_refines d now s) as Hx. destruct (revoke d now s) as [x s1].
    destruct Hx as [-> Hx]. intros [= <- <-]. by rewrite Hx.
  - pose proof (revoke_attempt_refines a0 now s) as Hx. destruct (revoke_attempt _ _ _) as [x s1].
    destruct (Register.revoke_attempt _ _) as [n r']. destruct Hx as [-> <-]. by intros [= <- <-].
Qed.

(** C13. The grant store refines the register of one-shot capabilities: on any sequence of
    calls, with attempts read, clocks and ids as they come, it gives the answers the
    register gives and ends in a state that the register's state abstracts. *)
Theorem grant_store_refines ops :
  run_calls register_step ops Register.empty
  = ((run_calls grant_step ops init).1, register (run_calls grant_step ops init).2).
Proof.
  assert (Register.empty = register init) as ->.
  { apply register_ext; unfold register; simpl.
    - apply map_eq. intros d. by rewrite lookup_omap, lookup_to_gmap, lookup_empty.
    - apply set_eq. intros d. rewrite elem_of_dom, lookup_to_gmap. split; [set_solver | by intros [? ?]]. }
  generalize init. induction ops as [|o ops IH]; intros s; simpl; [done |].
  destruct (grant_step o s) as [a s1] eqn:Es. rewrite (grant_step_refines _ _ _ _ Es), IH.
  by destruct (run_calls grant_step ops s1).
Qed.

(** ** Calls of the broker *)
Inductive broker_op : Type :=
  | BIssue (attempts : AttemptReader) (resolver : SecretResolver.t) (ttl now : Z) (token : string) (fresh : uuid)
      (task : TaskEnvelope.t) (runner : string)
  | BRedeem (attempts : AttemptReader) (resolver : SecretResolver.t) (now : datetime) (c : SecretCapability.t)
      (task : TaskEnvelope.t) (runner : string)
  | BRevoke (now : datetime) (c : SecretCapability.t)
  | BRevokeAttempt (now : datetime) (a : uuid).

Definition broker_step (o : broker_op) (s : t) : t :=
  match o with
  | BIssue att res ttl now token fresh task runner => (SecretBroker.issue att res ttl now token fresh task runner s).2
  | BRedeem att res now c task runner => (SecretBroker.redeem att res now c task runner s).2
  | BRevoke now c => (SecretBroker.revoke now c s).2
  | BRevokeAttempt now a => (SecretBroker.revoke_attempt now a s).2
  end.
Definition broker_ops (ops : list broker_op) (s : t) : t := fold_left (fun s o => broker_step o s) ops s.
Definition capability_digest (c : SecretCapability.t) : string := SecretBroker.digest (SecretCapability.token c).

(** [issue] of the broker in closed form: refused without effect, or one [issue] of the store. *)
Lemma broker_issue_cases att res ttl now token fresh task runner s :
  SecretBroker.issue att res ttl now token fresh task runner s = (Err CapabilityRejected, s)
  \/ SecretBroker.issue att res ttl now token fresh task runner s = (Err OverflowError, s)
  \/ exists e n refs limit,
       let b := SecretGrantBinding.mk (TaskEnvelope.task_id task) (TaskEnvelope.tenant_id task)
         (TaskEnvelope.project_id task) (TaskEnvelope.run_id task) (TaskEnvelope.attempt_id task) runner e n refs in
       let record := SecretGrantRecord.mk fresh (SecretBroker.digest token) b now
         (Z.min limit (TaskEnvelope.deadline task)) None None in
       SecretResolver.validate_secret_references res (TaskEnvelope.project_id task) e n
         (TaskEnvelope.secret_references task) = Ok refs
       /\ TaskEnvelope.environment_id task = Some e /\ TaskEnvelope.environment_revision task = Some n
       /\ add_seconds now ttl = Ok limit
       /\ SecretBroker.issue att res ttl now token fresh task runner s =
            (match (issue att record now s).1 with
             | Ok _ => Ok (SecretCapability.mk token)
             | Err _ => Err CapabilityRejected
             end, (issue att record now s).2).
Proof.
  unfold SecretBroker.issue, SecretBroker._binding.
  destruct (TaskEnvelope.environment_id task) as [e|]; [| by left].
  destruct (TaskEnvelope.environment_revision task) as [n|]; [| by left].
  destruct (_ || _); [by left |].
  unfold bind, SecretBroker.rejecting, try_except, any_exn, lift, raise, ret.
  destruct (SecretResolver.validate_secret_references _ _ _ _ _) as [refs|] eqn:Ev; [| by left]. cbn [fst snd].
  assert (add_seconds now ttl = Err OverflowError \/ exists l, add_seconds now ttl = Ok l) as [-> |[l Hl]].
  { unfold add_seconds. destruct (_ && _); eauto. }
  { right. by left. }
  right. right. exists e, n, refs, l. rewrite Hl. split_and!; try done.
  destruct (issue _ _ _ _) as [[x|x] s'] eqn:Ei; done.
Qed.

(** [redeem] of the broker in closed form. *)
Definition request (task : TaskEnvelope.t) (runner : string) : res SecretGrantBinding.t :=
  let? refs := canonical_secret_references (TaskEnvelope.secret_references task) in
  SecretBroker._binding task runner refs.
Definition resolved (resolver : SecretResolver.t) (b : SecretGrantBinding.t) : res (list ResolvedSecretValue.t) :=
  match SecretResolver.resolve_secret_values resolver (SecretGrantBinding.project_id b)
    (SecretGrantBinding.environment_id b) (SecretGrantBinding.environment_revision b)
    (SecretGrantBinding.secret_references b) with
  | Ok values => Ok values
  | Err _ => Err CapabilityRejected
  end.

Lemma broker_redeem_eq att res now c task runner s :
  SecretBroker.redeem att res now c task runner s =
  match request task runner with
  | Err _ => (Err CapabilityRejected, s)
  | Ok b => match consume att (capability_digest c) b now s with
            | (Ok _, s') => (resolved res b, s')
            | (Err _, s') => (Err CapabilityRejected, s')
            end
  end.
Proof.
  unfold SecretBroker.redeem, request, resolved, bind, rbind, SecretBroker.rejecting, try_except, any_exn,
    lift, raise, ret.
  destruct (canonical_secret_references _) as [refs|]; [| done].
  destruct (SecretBroker._binding task runner refs) as [b|]; [| done]. fold (capability_digest c).
  destruct (consume _ _ _ _ _) as [[x|x] s']; [| done]. by destruct (SecretResolver.resolve_secret_values _ _ _ _ _).
Qed.

Lemma broker_revoke_eq now c s :
  SecretBroker.revoke now c s = revoke (capability_digest c) now s.
Proof.
  unfold SecretBroker.revoke, SecretBroker.rejecting, try_except. fold (capability_digest c).
  pose proof (revoke_refines (capability_digest c) now s) as Hx. destruct (revoke _ _ _) as [x s'].
  by destruct Hx as [-> _].
Qed.

Lemma broker_revoke_attempt_eq now a s :
  SecretBroker.revoke_attempt now a s = revoke_attempt a now s.
Proof.
  unfold SecretBroker.revoke_attempt, SecretBroker.rejecting, try_except.
  pose proof (revoke_attempt_refines a now s) as Hx. destruct (revoke_attempt _ _ _) as [x s'].
  destruct (Register.revoke_attempt _ _) as [n r']. by destruct Hx as [-> _].
Qed.

(** What the broker's calls do to the register. *)
Lemma broker_step_register o s :
  match o with
  | BIssue att _ _ now token _ _ _ =>
      register (broker_step o s) = register s
      \/ exists b until, register (broker_step o s)
           = (Register.issue att (SecretBroker.digest token) b until now (register s)).2
  | BRedeem att _ now c task runner =>
      register (broker_step o s) =
        match request task runner with
        | Ok b => (Register.consume att (capability_digest c) b now (register s)).2
        | Err _ => register s
        end
  | BRevoke _ c => register (broker_step o s) = Register.revoke (capability_digest c) (register s)
  | BRevokeAttempt _ a => register (broker_step o s) = (Register.revoke_attempt a (register s)).2
  end.
Proof.
  destruct o as [att res ttl now token fresh task runner|att res now c task runner|now c|now a]; cbn [broker_step].
  - destruct (broker_issue_cases att res ttl now token fresh task runner s) as
      [-> | [-> | (e & n & refs & l & _ & _ & _ & _ & ->)]]; [by left.. | right].
    set (record := SecretGrantRecord.mk _ _ _ _ _ _ _).
    pose proof (issue_refines att record now s eq_refl) as Hx. destruct (issue att record now s) as [x s'].
    destruct (Register.issue _ _ _ _ _ _) as [ok r'] eqn:Er. destruct Hx as [_ Hx].
    exists (SecretGrantRecord.binding record), (SecretGrantRecord.expires_at record).
    change (SecretBroker.digest token) with (SecretGrantRecord.token_digest record). by rewrite Er.
  - rewrite broker_redeem_eq. destruct (request task runner) as [b|]; [| done].
    pose proof (consume_refines att (capability_digest c) b now s) as Hx.
    destruct (consume _ _ _ _ _) as [x s']. destruct (Register.consume _ _ _ _ _) as [ok r'].
    destruct Hx as [_ <-]. by destruct x.
  - rewrite broker_revoke_eq. pose proof (revoke_refines (capability_digest c) now s) as Hx.
    destruct (revoke _ _ _) as [x s']. by destruct Hx.
  - rewrite broker_revoke_attempt_eq. pose proof (revoke_attempt_refines a now s) as Hx.
    destruct (revoke_attempt _ _ _) as [x s']. destruct (Register.revoke_attempt _ _) as [n r']. by destruct Hx.
Qed.

(** ** Spent capabilities stay spent *)
Definition spent (d : string) (r : Register.t) : Prop := d ∈ Register.used r /\ Register.live r !! d = None.

Lemma lookup_delete_None_or {V} (m : gmap string V) d d' : m !! d = None -> delete d' m !! d = None.
Proof. intros Hn. destruct (decide (d = d')) as [->|]; [apply lookup_delete_eq | by rewrite lookup_delete_ne]. Qed.

Lemma spent_issue att d d' b until now r : spent d r -> spent d (Register.issue att d' b until now r).2.
Proof.
  intros [Hu Hl]. unfold Register.issue. destruct (Register.lease _ _ _) as [l|]; [| done].
  destruct (_ && _) eqn:Eb; [| done]. apply andb_true_iff in Eb as [_ Eb].
  apply negb_true_iff, bool_decide_eq_false in Eb. split; simpl; [set_solver |].
  rewrite lookup_insert_ne; [done |]. intros ->. done.
Qed.

Lemma spent_consume att d d' b now r : spent d r -> spent d (Register.consume att d' b now r).2.
Proof.
  intros [Hu Hl]. unfold Register.consume. destruct (Register.lease _ _ _) as [l|]; [| done].
  destruct (Register.live r !! d') as [[b' u]|]; [| done]. destruct (bool_decide _); [| done].
  split; [done |]. by apply lookup_delete_None_or.
Qed.

Lemma spent_revoke d d' r : spent d r -> spent d (Register.revoke d' r).
Proof. intros [Hu Hl]. split; [done |]. by apply lookup_delete_None_or. Qed.

Lemma spent_revoke_attempt d a r : spent d r -> spent d (Register.revoke_attempt a r).2.
Proof. intros [Hu Hl]. split; [done |]. simpl. rewrite map_lookup_filter. by rewrite Hl. Qed.

Lemma spent_step o d s : spent d (register s) -> spent d (register (broker_step o s)).
Proof.
  intros Hs. pose proof (broker_step_register o s) as Hx.
  destruct o as [att res ttl now token fresh task runner|att res now c task runner|now c|now a].
  - destruct Hx as [-> | (b & u & ->)]; [done | by apply spent_issue].
  - rewrite Hx. destruct (request task runner); [by apply spent_consume | done].
  - rewrite Hx. by apply spent_revoke.
  - rewrite Hx. by apply spent_revoke_attempt.
Qed.

Lemma spent_ops ops d s : spent d (register s) -> spent d (register (broker_ops ops s)).
Proof. revert s. induction ops as [|o ops IH]; intros s Hs; [done |]. apply IH. by apply spent_step. Qed.

Lemma spent_rejected d att b now s :
  spent d (register s) -> consume att d b now s = (Err CapabilityRejected, s).
Proof.
  intros [_ Hl]. rewrite live_lookup in Hl. unfold consume, bind, lift, get, raise.
  pose proof (valid_attempt_lease att b now) as Hv. destruct (_valid_attempt att b now) as [a|e]; cbn [fst snd].
  - destruct (_records s !! d) as [r|]; [| done]. simpl in Hl. unfold as_live in Hl.
    destruct (SecretGrantRecord.open r); [done |]. cbn [negb]. by rewrite orb_true_r.
  - by destruct Hv as [-> _].
Qed.

(** How a capability ends: redeemed, revoked after it was issued, or with its attempt. *)
Inductive ended (c : SecretCapability.t) (s s1 : t) : Prop :=
  | ended_redeemed att res now task runner values :
      SecretBroker.redeem att res now c task runner s = (Ok values, s1) -> ended c s s1
  | ended_revoked now :
      capability_digest c ∈ Register.used (register s) -> SecretBroker.revoke now c s = (Ok tt, s1) -> ended c s s1
  | ended_attempt now a n r :
      _records s !! capability_digest c = Some r ->
      SecretGrantBinding.attempt_id (SecretGrantRecord.binding r) = a ->
      SecretBroker.revoke_attempt now a s = (Ok n, s1) -> ended c s s1.

Lemma ended_spent c s s1 : ended c s s1 -> spent (capability_digest c) (register s1).
Proof.
  intros [att res now task runner values Hx | now Hu Hx | now a n r Hr Ha Hx].
  - rewrite broker_redeem_eq in Hx. destruct (request task runner) as [b|]; [| done].
    pose proof (consume_refines att (capability_digest c) b now s) as Hc.
    destruct (consume _ _ _ _ _) as [[x|x] s'] eqn:Ec; [| done]. injection Hx as _ ->.
    destruct (Register.consume _ _ _ _ _) as [ok r'] eqn:Er. destruct Hc as [Hok ->]. simpl in Hok. subst ok.
    unfold Register.consume in Er. destruct (Register.lease _ _ _); [| done].
    destruct (Register.live (register s) !! _) as [[b' u]|] eqn:El; [| done]. destruct (bool_decide _); [| done].
    injection Er as <-. split; simpl; [| apply lookup_delete_eq].
    apply used_lookup. rewrite live_lookup in El. destruct (_records s !! _); [eauto | done].
  - pose proof (broker_step_register (BRevoke now c) s) as Hs. cbn [broker_step] in Hs. rewrite Hx in Hs. cbn [snd] in Hs.
    rewrite Hs. split; simpl; [done | apply lookup_delete_eq].
  - pose proof (broker_step_register (BRevokeAttempt now a) s) as Hs. cbn [broker_step] in Hs. rewrite Hx in Hs. cbn [snd] in Hs.
    rewrite Hs. split; simpl.
    + apply (used_lookup s). eauto.
    + rewrite map_lookup_filter. destruct (omap as_live _ !! _) as [x|] eqn:El; [| done]. simpl.
      rewrite option_guard_False; [done |]. intros Hn. apply Hn.
      change (Register.live (register s) !! capability_digest c = Some x) in El. rewrite live_lookup, Hr in El.
      simpl in El. unfold as_live in El. destruct (SecretGrantRecord.open r); [| done]. by injection El as <-.
Qed.

(** C14. A capability is worth one redemption: once a token was redeemed, revoked, or its
    attempt's capabilities revoked, then whatever calls of the broker follow and whoever
    presents it, for any task and with any attempts and environments, redeeming it is
    rejected and changes nothing. *)
Theorem capability_spent c s s1 ops att res now task runner :
  ended c s s1 ->
  let s2 := broker_ops ops s1 in
  SecretBroker.redeem att res now c task runner s2 = (Err CapabilityRejected, s2).
Proof.
  intros He%ended_spent s2. rewrite broker_redeem_eq. destruct (request task runner) as [b|]; [| done].
  rewrite spent_rejected; [done |]. by apply spent_ops.
Qed.

(** ** What a capability is worth *)

(** A call that spares the capability [d] of attempt [a]. *)
Definition spares (d : string) (a : uuid) (o : broker_op) : Prop :=
  match o with
  | BIssue _ _ _ _ _ _ _ _ => True
  | BRedeem _ _ _ c _ _ | BRevoke _ c => capability_digest c <> d
  | BRevokeAttempt _ a' => a' <> a
  end.

Lemma spares_live d o s x :
  spares d (SecretGrantBinding.attempt_id x.1) o -> Register.live (register s) !! d = Some x ->
  Register.live (register (broker_step o s)) !! d = Some x.
Proof.
  intros Hsp Hl. pose proof (broker_step_register o s) as Hx.
  destruct o as [att res ttl now token fresh task runner|att res now c task runner|now c|now a]; simpl in Hsp.
  - destruct Hx as [-> | (b & u & ->)]; [done |]. unfold Register.issue.
    destruct (Register.lease _ _ _) as [l|]; [| done]. destruct (_ && _) eqn:Eb; [| done].
    apply andb_true_iff in Eb as [_ Eb]. apply negb_true_iff, bool_decide_eq_false in Eb. cbn [Register.live snd].
    rewrite lookup_insert_ne; [done |]. intros Hd. apply Eb. rewrite Hd. apply used_lookup.
    rewrite live_lookup in Hl. destruct (_records s !! d); [eauto | done].
  - rewrite Hx. destruct (request task runner) as [b|]; [| done]. unfold Register.consume.
    destruct (Register.lease _ _ _); [| done]. destruct (Register.live _ !! capability_digest c) as [[b' u]|]; [| done].
    destruct (bool_decide _); [| done]. cbn [Register.live snd]. by rewrite lookup_delete_ne.
  - rewrite Hx. unfold Register.revoke. cbn [Register.live]. by rewrite lookup_delete_ne.
  - rewrite Hx. unfold Register.revoke_attempt. cbn [Register.live snd].
    rewrite map_lookup_filter, Hl. cbn [fst snd mbind option_bind]. rewrite option_guard_True; [done | by simpl].
Qed.

Lemma spares_ops d ops s x :
  Forall (spares d (SecretGrantBinding.attempt_id x.1)) ops -> Register.live (register s) !! d = Some x ->
  Register.live (register (broker_ops ops s)) !! d = Some x.
Proof.
  intros Hf. revert s. induction Hf as [|o ops Ho Hf IH]; intros s Hl; [done |]. apply IH. by apply spares_live.
Qed.

(** A live capability is refused, without effect, to another request, without a lease and
    after its time. *)
Lemma consume_refused att d b b' now until s :
  Register.live (register s) !! d = Some (b, until) ->
  ~ (b' = b /\ is_Some (Register.lease att b now) /\ (now < until)%Z) ->
  consume att d b' now s = (Err CapabilityRejected, s).
Proof.
  intros Hlive Hno. rewrite live_lookup in Hlive. pose proof (valid_attempt_lease att b' now) as Hv.
  unfold consume, bind, lift, get, raise.
  destruct (_valid_attempt att b' now) as [a|er]; cbn [fst snd]; [| by destruct Hv as [-> _]].
  destruct Hv as (ls & _ & Hls). destruct (_records s !! _) as [r|]; [| done].
  simpl in Hlive. unfold as_live in Hlive. destruct (SecretGrantRecord.open r); [| done].
  injection Hlive as Hb Hu. rewrite Hb, Hu.
  destruct (decide (b = b')) as [<-|Hne]; [| by rewrite bool_decide_false].
  destruct (Z.leb_spec until now); [by rewrite orb_true_r |].
  destruct Hno. split_and!; [done | by eexists | done].
Qed.

(** A capability is worth exactly what it was issued for: after [issue], and any calls
    that spare it, redeeming it answers the secret values its binding resolves to when
    the task presented has the issued identifiers and references, the runner is the one it
    was issued to, its attempt is still PREPARING or RUNNING on that runner with a live
    lease, and the time is before the earliest of the issue time plus the lifetime, the
    task's deadline and the lease end at issue; otherwise it is rejected without effect. *)
Theorem capability_worth att res ttl now token fresh task runner s c s1 ops :
  SecretBroker.issue att res ttl now token fresh task runner s = (Ok c, s1) ->
  Forall (spares (SecretBroker.digest token) (TaskEnvelope.attempt_id task)) ops ->
  exists refs b lease,
    c = SecretCapability.mk token
    /\ SecretResolver.validate_secret_references res (TaskEnvelope.project_id task)
         (SecretGrantBinding.environment_id b) (SecretGrantBinding.environment_revision b)
         (TaskEnvelope.secret_references task) = Ok refs
    /\ SecretBroker._binding task runner refs = Ok b
    /\ Register.lease att b now = Some lease
    /\ let until := Z.min (Z.min (now + ttl * 1000000) (TaskEnvelope.deadline task)) lease in
       (now < until)%Z
       /\ forall att' res' now' task' runner',
            let s2 := broker_ops ops s1 in
            let answer := SecretBroker.redeem att' res' now' c task' runner' s2 in
            (request task' runner' = Ok b /\ is_Some (Register.lease att' b now') /\ (now' < until)%Z ->
             answer.1 = resolved res' b)
            /\ (~ (request task' runner' = Ok b /\ is_Some (Register.lease att' b now') /\ (now' < until)%Z) ->
                answer = (Err CapabilityRejected, s2)).
Proof.
  intros Hi Hops.
  destruct (broker_issue_cases att res ttl now token fresh task runner s) as
    [Hx | [Hx | (e & n & refs & l & Hv & He & Hn & Hl & Hx)]]; rewrite Hx in Hi; [done | done |]. clear Hx.
  set (b := SecretGrantBinding.mk _ _ _ _ _ _ _ _ _) in *. set (record := SecretGrantRecord.mk _ _ _ _ _ _ _) in *.
  pose proof (issue_refines att record now s eq_refl) as Hr.
  destruct (issue att record now s) as [[x|x] s']; [| done]. injection Hi as <- <-. cbn [snd] in *.
  destruct (Register.issue _ _ _ _ _ _) as [ok r'] eqn:Er. destruct Hr as [Hok Hr]. simpl in Hok. subst ok.
  unfold Register.issue in Er. cbn [SecretGrantRecord.binding record SecretGrantRecord.expires_at] in Er.
  change (SecretGrantRecord.binding record) with b in Er.
  destruct (Register.lease att b now) as [lease|] eqn:Elease; [| done].
  destruct (_ && _) eqn:Eb; [| done]. injection Er as <-. apply andb_true_iff in Eb as [Eb _].
  apply bool_decide_eq_true in Eb.
  assert (l = (now + ttl * 1000000)%Z) as Hl'.
  { unfold add_seconds in Hl. destruct (_ && _); [by injection Hl | done]. }
  exists refs, b, lease. cbn zeta. rewrite <- Hl'.
  set (until := Z.min (Z.min l (TaskEnvelope.deadline task)) lease).
  assert (Register.live (register s') !! SecretBroker.digest token = Some (b, until)) as Hlive.
  { rewrite Hr. cbn [Register.live]. apply lookup_insert_eq. }
  split_and!; try done.
  { unfold SecretBroker._binding. by rewrite He, Hn. }
  intros att' res' now' task' runner'.
  pose proof (spares_ops _ ops s' (b, until) Hops Hlive) as Hlive2.
  rewrite broker_redeem_eq. unfold capability_digest. cbn [SecretCapability.token].
  set (s2 := broker_ops ops s') in *.
  destruct (request task' runner') as [b'|er] eqn:Eq; [| split; [by intros [? _] | done]].
  pose proof (consume_refines att' (SecretBroker.digest token) b' now' s2) as Hc.
  unfold Register.consume in Hc. rewrite Hlive2 in Hc.
  split.
  - intros ([= ->] & [ls Hls] & Hlt). rewrite Hls, bool_decide_true in Hc by done.
    destruct (consume _ _ _ _ _) as [[x'|x'] s3]; [done | by destruct Hc as [[? _] _]].
  - intros Hno. rewrite (consume_refused att' _ b b' now' until s2 Hlive2); [done |]. naive_solver.
Qed.

(** * A concrete secret capability

    The environment of ResolverTheorems, an attempt that runs on [runner-1], and a
    task that asks for the token: issue, redeem once, and never again. *)
Open Scope list_scope.
#[local] Existing Instances toy_aead toy_laws no_float_texts.

Definition broker_resolver : SecretResolver.t :=
  SecretResolver.mk
    (ConfigurationResolver.validate_secret_references (Op:=environment_op demo_encryptor) demo_active)
    (ConfigurationResolver.resolve_secret_values (Op:=environment_op demo_encryptor) demo_active demo_encryptor).
Definition broker_attempt : AttemptRecord.t :=
  AttemptRecord.mk 21%N 20%N AttemptState.RUNNING 0 0 3 None None None None (Some "runner-1"%string) (Some 0%Z)
    (Some 90000000%Z).
Definition broker_attempts : AttemptReader := fun i =>
  if bool_decide (i = 21%N) then Ok broker_attempt else Err AttemptNotFound.
Definition broker_task : TaskEnvelope.t :=
  TaskEnvelope.mk 20%N 21%N Engine.PYTEST 22%N 3%N 1%N "key" 0 600000000 "test.py" [] None None None [] (Some 2%N)
    (Some 2%Z) [demo_reference] ExecutionPolicy.default.

Definition broker_issued : res SecretCapability.t * InMemorySecretGrantStore.t :=
  SecretBroker.issue broker_attempts broker_resolver 60 1000 "t0k" 5%N broker_task "runner-1"
    InMemorySecretGrantStore.init.
Definition broker_redeem (now : datetime) (runner : string) (s : InMemorySecretGrantStore.t) :=
  SecretBroker.redeem broker_attempts broker_resolver now (SecretCapability.mk "t0k") broker_task runner s.

Lemma capability_worth_witness :
  (broker_redeem 2000 "runner-1" broker_issued.2).1
  = Ok [ResolvedSecretValue.mk ConfigurationCategory.ENVIRONMENT_VARIABLE "TOKEN" 500%N "s3cret"]
  /\ broker_redeem 60001000 "runner-1" broker_issued.2 = (Err CapabilityRejected, broker_issued.2).
Proof.
  assert (broker_issued = (Ok (SecretCapability.mk "t0k"), broker_issued.2)) as Hi
    by (vm_compute; reflexivity).
  destruct (capability_worth broker_attempts broker_resolver 60 1000 "t0k" 5%N broker_task "runner-1"
    InMemorySecretGrantStore.init (SecretCapability.mk "t0k") broker_issued.2 [] Hi ltac:(constructor))
    as (refs & b & lease & _ & Hv & Hb & Hl & _ & Hall).
  assert (lease = 90000000%Z) as -> by (revert Hl; unfold SecretBroker._binding in Hb; cbn in Hb;
    injection Hb as <-; vm_compute; congruence).
  assert (refs = [demo_reference]) as ->.
  { unfold SecretBroker._binding in Hb. cbn in Hb. injection Hb as <-. revert Hv. vm_compute. congruence. }
  vm_compute in Hb. injection Hb as <-.
  split.
  - destruct (Hall broker_attempts broker_resolver 2000%Z broker_task "runner-1"%string) as [Hok _].
    assert ((broker_redeem 2000 "runner-1" broker_issued.2).1 = _) as -> by (apply Hok; split; [vm_compute; reflexivity |];
      split; [vm_compute; eexists; reflexivity | reflexivity]).
    vm_compute. reflexivity.
  - destruct (Hall broker_attempts broker_resolver 60001000%Z broker_task "runner-1"%string) as [_ Hno].
    apply Hno. intros (_ & _ & Hlt). revert Hlt. vm_compute. discriminate.
Defined.

Lemma capability_spent_witness :
  exists values s1,
    broker_redeem 2000 "runner-1" broker_issued.2 = (Ok values, s1)
    /\ broker_redeem 2500 "runner-1" s1 = (Err CapabilityRejected, s1).
Proof.
  destruct (broker_redeem 2000 "runner-1" broker_issued.2) as [[values|e] s1] eqn:E;
    [| exfalso; revert E; vm_compute; discriminate].
  exists values, s1. split; [reflexivity |].
  apply (capability_spent (SecretCapability.mk "t0k") broker_issued.2 s1 []).
  exact (ended_redeemed _ _ _ _ _ _ _ _ _ E).
Defined.
