(* ===== verification/Dispatch.v ===== *)
(** * Dispatching
    ([src/services/api/dispatcher.py], [src/services/api/execution_coordinator.py],
    [src/workers/tasks.py])

    The dispatchers that hand a queued run over, the worker's steps on a run, and the
    coordinator that fills a batch up to its bound.  A method takes a function from the
    number of a clock reading to the reading, or from the number of a call it makes to the
    clock of that call. *)
From S2P Require Import Prelude PyDict PyText Protocol Domain Runs RunsFacts TestPlans.
Open Scope list_scope.

Notation runs_repo := RunRepository.t.

(** ** Dispatchers

    The [RunDispatcher] protocol: [dispatch k run_id] is the [k]-th dispatch of a caller.
    Whatever a dispatch does to its run, it does through the repository; it does not touch
    other runs, and a dispatch that fails has not moved the run. *)
Class RunDispatcher `{PyFloat} (D : Type) := {
  dispatch : D -> nat -> uuid -> M runs_repo unit;
  dispatch_good : forall d k i s, RunsFacts.wf s -> good s (dispatch d k i s).2;
  dispatch_failed : forall d k i s e s', dispatch d k i s = (Err e, s') ->
    RunRepository._runs s' !! i = RunRepository._runs s !! i;
  dispatch_others : forall d k i s j, j <> i ->
    RunRepository._runs (dispatch d k i s).2 !! j = RunRepository._runs s !! j }.

(** [except InvalidTransition]. *)
Definition is_invalid_transition (e : exn) : bool := bool_decide (e = InvalidTransition).

Module DatabaseRunDispatcher.
(** The clocks of its calls. *)
Record t := mk { clocks : nat -> clock }.

Definition dispatch (self : t) (k : nat) (run_id : uuid) : M runs_repo unit :=
  let* current := RunRepository.get_run run_id in
  if bool_decide (RunRecord.state current = RunState.CREATED) then raise InvalidTransition
  else if negb (bool_decide (RunRecord.state current = RunState.QUEUED)) then ret tt
  else
    try_except
      (RunRepository.transition (clocks self k) run_id RunState.DISPATCHING ;;; ret tt)
      is_invalid_transition
      (fun e => let* current := RunRepository.get_run run_id in
                if negb (bool_decide (RunRecord.state current = RunState.QUEUED)) then ret tt
                else raise e).
End DatabaseRunDispatcher.

(** The Celery client is not part of the program: [send_task] is what a call of it
    answers for a task name and its arguments; the task itself runs in a worker later. *)
Module CeleryRunDispatcher.
Record t := mk { send_task : string -> list string -> res unit }.
Definition dispatch (self : t) (k : nat) (run_id : uuid) : M runs_repo unit :=
  lift (send_task self "smarttest.prepare_run" [uuid_str run_id]).
End CeleryRunDispatcher.

Module CeleryRetryScheduler.
Record t := mk { send_task : string -> list string -> Z -> res unit }.
Definition schedule (self : t) (run_id : uuid) (delay_seconds : Z) : res unit :=
  send_task self "smarttest.retry_run" [uuid_str run_id] delay_seconds.
End CeleryRetryScheduler.

(** ** The worker *)
Module Worker.
Definition prepare_run (clk : clock) (run_id : uuid) : M runs_repo RunRecord.t :=
  let* current := RunRepository.get_run run_id in
  if bool_decide (RunRecord.state current = RunState.CREATED) then raise InvalidTransition
  else if negb (bool_decide (RunRecord.state current = RunState.QUEUED)) then ret current
  else
    try_except (RunRepository.transition clk run_id RunState.DISPATCHING)
      is_invalid_transition
      (fun e => let* current := RunRepository.get_run run_id in
                if negb (bool_decide (RunRecord.state current = RunState.QUEUED)) then ret current
                else raise e).

(** Two clocks: of the transition to QUEUED and of [prepare_run]. *)
Definition retry_run (clk clk' : clock) (run_id : uuid) : M runs_repo RunRecord.t :=
  let* current := RunRepository.get_run run_id in
  if negb (bool_decide (RunRecord.state current = RunState.RETRY_WAIT)) then ret current
  else
    RunRepository.transition clk run_id RunState.QUEUED ;;;
    prepare_run clk' run_id.

Definition recover_lost_attempts (clk : clock) (now : option datetime) : M runs_repo Z :=
  let* lost := RunRepository.expire_attempt_leases clk now in ret (Z.of_nat (length lost)).
End Worker.

(** ** The coordinator *)
Module DispatchResult.
Record t := mk { dispatched : list uuid; failed : list uuid }.
End DispatchResult.

Module ExecutionBatchCoordinator.
Notation plans_repo := TestPlanRepository.t.
Notation world := (plans_repo * runs_repo)%type.

(** A call of the run repository, the plan repository standing by. *)
Definition on_runs {A} (c : M runs_repo A) : M world A := fun w =>
  let '(x, r) := c w.2 in (x, (w.1, r)).

Section coordinator.
  Context `{PyFloat} {D : Type} `{!RunDispatcher D} (_dispatcher : D).
  (** The clocks of the claims and of the transitions to INFRA_ERROR; the calls of the
      dispatcher are numbered by the runs dispatched so far. *)
  Context (claim_clk fail_clk : nat -> clock).

(** [for run_id in claimed]: [n] runs were handled before; the third component of the
    answer is [refill]. *)
Fixpoint dispatch_claimed (n : nat) (claimed : list uuid) : M world (list uuid * list uuid * bool) :=
  match claimed with
  | [] => ret ([], [], false)
  | run_id :: rest =>
      let* refill := try_except
        (on_runs (dispatch _dispatcher n run_id) ;;; ret false) any_exn
        (fun _ => on_runs (RunRepository.transition (fail_clk n) run_id RunState.INFRA_ERROR) ;;; ret true) in
      let* '(dispatched, failed, refills) := dispatch_claimed (S n) rest in
      ret (if refill : bool then (dispatched, run_id :: failed, true)
           else (run_id :: dispatched, failed, refills))
  end.

(** [while True]: [fuel] rounds, the [round]-th with [n] runs handled before; no answer
    when the rounds are used up. *)
Fixpoint dispatch_loop (fuel round n : nat) (batch_id : uuid) : M world (option DispatchResult.t) :=
  match fuel with
  | O => ret None
  | S fuel =>
      let* claimed := TestPlanRepository.claim_available_runs (claim_clk round) batch_id in
      match claimed with
      | [] => ret (Some (DispatchResult.mk [] []))
      | _ =>
          let* '(dispatched, failed, refill) := dispatch_claimed n claimed in
          if negb refill then ret (Some (DispatchResult.mk dispatched failed))
          else
            let* rest := dispatch_loop fuel (S round) (n + length claimed) batch_id in
            ret (match rest with
                 | Some r => Some (DispatchResult.mk (dispatched ++ DispatchResult.dispatched r)
                                     (failed ++ DispatchResult.failed r))
                 | None => None
                 end)
      end
  end.

Definition dispatch_available (fuel : nat) (batch_id : uuid) : M world (option DispatchResult.t) :=
  dispatch_loop fuel 0 0 batch_id.

Definition on_run_finished (fuel : nat) (run_id : uuid) : M world (option DispatchResult.t) :=
  let* w := get in
  let* spec := lift (TestPlanRepository.get_run_spec run_id w.1).1 in
  dispatch_available fuel (RunSpecRecord.batch_id spec).
End coordinator.
End ExecutionBatchCoordinator.
