(* ===== verification/DispatchTheorems.v ===== *)
(** * Theorems about dispatching

    The coordinator terminates and accounts for every run it claims, with any dispatcher
    that meets the interface; with the database dispatcher it fills the batch exactly. *)
From S2P Require Import Prelude PyDict PyText Protocol Domain Runs RunsFacts Versioned Quality Automation EnvironmentCrypto Environments EnvironmentTheorems ResolverTheorems TestPlans TestPlanTheorems Dispatch.
Import TestPlanRepository ExecutionBatchCoordinator.
Open Scope list_scope.

(** ** The dispatchers meet the interface *)

Lemma get_run_reads i s : (RunRepository.get_run i s).2 = s.
Proof. unfold RunRepository.get_run, RunRepository._get_locked. by destruct (RunRepository._runs s !! i). Qed.

Lemma transition_Err clk i st s e s' : RunRepository.transition clk i st s = (Err e, s') -> s' = s.
Proof.
  unfold RunRepository.transition, RunRepository._get_locked, bind, lift, ret.
  destruct (RunRepository._runs s !! i) as [r|]; cbn [fst snd]; [| by intros [= _ <-]].
  destruct (RunRecord.with_state _ _ _) as [r'|]; cbn [fst snd]; [| by intros [= _ <-]]. done.
Qed.

(** A stored run in the state [a] goes to a state the table allows. *)
Lemma transition_Ok clk i st s r :
  RunRepository._runs s !! i = Some r -> st ∈ RUN_TRANSITIONS (RunRecord.state r) ->
  exists r', RunRepository.transition clk i st s =
    (Ok r', (RunRepository.set_runs (fun d => <[i:=r']> d) s).2) /\ RunRecord.state r' = st.
Proof.
  intros Hr Hst. unfold RunRepository.transition, RunRepository._get_locked, bind, lift, ret. rewrite Hr.
  cbn [fst snd]. unfold RunRecord.with_state, transition_run, _transition.
  rewrite bool_decide_true by done. simpl. eexists. split; [reflexivity | done].
Qed.

Section database.
  Context `{PyFloat}.

#[export,refine] Instance database_dispatcher : RunDispatcher DatabaseRunDispatcher.t := {|
  dispatch := DatabaseRunDispatcher.dispatch |}.
Proof.
  - intros d k i s W. unfold DatabaseRunDispatcher.dispatch, bind, try_except, ret, raise.
    pose proof (get_run_reads i s) as Hg. destruct (RunRepository.get_run i s) as [[r|e] s1]; simpl in Hg; subst s1;
      [| by apply good_refl].
    destruct (bool_decide _); [by apply good_refl |]. destruct (negb _); [by apply good_refl |].
    pose proof (transition_good (DatabaseRunDispatcher.clocks d k) i RunState.DISPATCHING s W) as G.
    destruct (RunRepository.transition _ _ _ _) as [[x|e] s1]; [done |].
    destruct (is_invalid_transition e); [| done]. pose proof (get_run_reads i s1) as Hg.
    destruct (RunRepository.get_run i s1) as [[r'|e'] s2]; simpl in Hg; subst s2; [| done]. by destruct (negb _).
  - intros d k i s e s'. unfold DatabaseRunDispatcher.dispatch, bind, try_except, ret, raise.
    pose proof (get_run_reads i s) as Hg. destruct (RunRepository.get_run i s) as [[r|e1] s1]; simpl in Hg; subst s1;
      [| by intros [= _ <-]].
    destruct (bool_decide _); [by intros [= _ <-] |]. destruct (negb _); [done |].
    destruct (RunRepository.transition _ _ _ _) as [[x|e1] s1] eqn:Et; [done |]. apply transition_Err in Et as ->.
    destruct (is_invalid_transition e1); [| by intros [= _ <-]]. pose proof (get_run_reads i s) as Hg.
    destruct (RunRepository.get_run i s) as [[r'|e'] s2]; simpl in Hg; subst s2; [| by intros [= _ <-]].
    destruct (negb _); [done | by intros [= _ <-]].
  - intros d k i s j Hj. unfold DatabaseRunDispatcher.dispatch, bind, try_except, ret, raise.
    pose proof (get_run_reads i s) as Hg. destruct (RunRepository.get_run i s) as [[r|e] s1]; simpl in Hg; subst s1;
      [| done].
    destruct (bool_decide _); [done |]. destruct (negb _); [done |].
    destruct (RunRepository.transition _ _ _ _) as [[x|e] s1] eqn:Et; cbn [fst snd].
    + unfold RunRepository.transition, RunRepository._get_locked, bind, lift, ret in Et.
      destruct (RunRepository._runs s !! i); [| done]. cbn [fst snd] in Et.
      destruct (RunRecord.with_state _ _ _); [| done]. injection Et as <- <-. simpl.
      by rewrite dict_lookup_insert_ne.
    + apply transition_Err in Et as ->. destruct (is_invalid_transition e); [| done].
      pose proof (get_run_reads i s) as Hg.
      destruct (RunRepository.get_run i s) as [[r'|e'] s2]; simpl in Hg; subst s2; [| done]. by destruct (negb _).
Defined.

#[export,refine] Instance celery_dispatcher : RunDispatcher CeleryRunDispatcher.t := {|
  dispatch := CeleryRunDispatcher.dispatch |}.
Proof.
  - intros d k i s W. by apply good_refl.
  - intros d k i s e s'. unfold CeleryRunDispatcher.dispatch, lift. by intros [= _ <-].
  - done.
Defined.
End database.

(** ** One round *)

(** A run that was not CREATED is never CREATED again. *)
Lemma evolves_created r r' : run_evolves r r' -> is_created r' = true -> is_created r = true.
Proof.
  intros (_ & _ & _ & _ & _ & n & Hn & _) Hc. unfold is_created in *. apply bool_decide_eq_true in Hc.
  apply bool_decide_eq_true. rewrite Hc in Hn. destruct n as [|n]; [by inversion Hn |].
  apply nsteps_inv_r in Hn as (st & _ & Hst). unfold run_next in Hst.
  destruct st; unfold RUN_TRANSITIONS in Hst; rewrite ?elem_of_cons, ?elem_of_nil in Hst; naive_solver.
Qed.

Section loop.
  Context `{PyFloat} {D : Type} `{!RunDispatcher D} (d : D) (claim_clk fail_clk : nat -> clock).
  Notation world := (TestPlanRepository.t * RunRepository.t)%type.

Definition queued (j : uuid) (r : RunRepository.t) : Prop :=
  exists x, RunRepository._runs r !! j = Some x /\ RunRecord.state x = RunState.QUEUED.

(** Dispatching claimed runs answers, accounts for each and touches no other run. *)
Lemma dispatch_claimed_spec n claimed p r :
  RunsFacts.wf r -> NoDup claimed -> (forall j, j ∈ claimed -> queued j r) ->
  exists ds fs refill r', dispatch_claimed d fail_clk n claimed (p, r) = (Ok (ds, fs, refill), (p, r'))
    /\ good r r' /\ ds ++ fs ≡ₚ claimed /\ (refill = false -> fs = [])
    /\ (forall j, j ∉ claimed -> RunRepository._runs r' !! j = RunRepository._runs r !! j)
    /\ (forall j, j ∈ fs -> exists x, RunRepository._runs r' !! j = Some x /\ RunRecord.state x = RunState.INFRA_ERROR).
Proof.
  revert n r. induction claimed as [|i claimed IH]; intros n r W Hnd Hq.
  { exists [], [], false, r. split_and!; try done; by intros ? ?%elem_of_nil. }
  apply NoDup_cons in Hnd as [Hi Hnd]. cbn [dispatch_claimed].
  destruct (Hq i) as (x & Hx & Hs); [by left |].
  assert (exists refill r1, try_except (on_runs (dispatch d n i) ;;; ret false) any_exn
      (fun _ => on_runs (RunRepository.transition (fail_clk n) i RunState.INFRA_ERROR) ;;; ret true) (p, r)
      = (Ok refill, (p, r1)) /\ good r r1
      /\ (forall j, j <> i -> RunRepository._runs r1 !! j = RunRepository._runs r !! j)
      /\ (refill = true -> exists x, RunRepository._runs r1 !! i = Some x /\ RunRecord.state x = RunState.INFRA_ERROR))
    as (refill & r1 & Hd & G1 & Hother & Hf).
  { unfold try_except, on_runs, bind, ret, any_exn. cbn [fst snd].
    pose proof (dispatch_good d n i r W) as G. pose proof (dispatch_others d n i r) as Ho.
    destruct (dispatch d n i r) as [[[]|e] r1] eqn:Ed; cbn [fst snd] in *.
    - exists false, r1. by split_and!.
    - apply dispatch_failed in Ed. rewrite Hx in Ed.
      destruct (transition_Ok (fail_clk n) i RunState.INFRA_ERROR r1 x Ed) as (x' & Ht & Hst).
      { rewrite Hs. unfold RUN_TRANSITIONS. rewrite !elem_of_cons. naive_solver. }
      pose proof (transition_good (fail_clk n) i RunState.INFRA_ERROR r1 (proj1 G)) as G2. rewrite Ht in G2.
      rewrite Ht. cbn [fst snd] in *. eexists true, _. split_and!; [done | by eapply good_trans | |].
      + intros j Hj. simpl. rewrite dict_lookup_insert_ne by done. by apply Ho.
      + intros _. exists x'. simpl. by rewrite dict_lookup_insert_eq. }
  unfold bind at 1. rewrite Hd.
  destruct (IH (S n) r1 (proj1 G1) Hnd) as (ds & fs & rf & r' & Hr & G2 & Hp & Hrf & Hout & Hfs).
  { intros j Hj. destruct (Hq j) as (y & Hy & Hys); [by right |]. exists y. split; [| done].
    rewrite Hother; [done |]. by intros ->. }
  unfold bind. rewrite Hr. unfold ret.
  assert (RunRepository._runs r' !! i = RunRepository._runs r1 !! i) as Hii by by apply Hout.
  assert (forall j, j ∉ i :: claimed -> RunRepository._runs r' !! j = RunRepository._runs r !! j) as Hout'.
  { intros j [Hj1 Hj2]%not_elem_of_cons. by rewrite Hout, Hother. }
  destruct refill.
  - exists ds, (i :: fs), true, r'. split_and!; [done | by eapply good_trans | | done | done |].
    + by rewrite <- Hp, Permutation_middle.
    + intros j [->|Hj]%elem_of_cons; [rewrite Hii; by apply Hf | by apply Hfs].
  - exists (i :: ds), fs, rf, r'. split_and!; [done | by eapply good_trans | by simpl; rewrite Hp | done | done | done].
Qed.

(** ** The loop *)

(** The CREATED ones among the runs [l]. *)
Definition created_among (l : list uuid) (r : RunRepository.t) : list RunRecord.t :=
  List.filter is_created (omap (fun j => RunRepository._runs r !! j) l).

Lemma created_cons j l r x : RunRepository._runs r !! j = Some x ->
  length (created_among (j :: l) r) = ((if is_created x then 1 else 0) + length (created_among l r))%nat.
Proof. intros Hx. unfold created_among. simpl. rewrite Hx. simpl. by destruct (is_created x). Qed.

Lemma created_step j l r r' :
  evolves r r' -> is_Some (RunRepository._runs r !! j) ->
  (length (created_among l r') <= length (created_among l r))%nat ->
  (length (created_among (j :: l) r') <= length (created_among (j :: l) r))%nat.
Proof.
  intros E [x Hx] IH. destruct (ev_runs _ _ E _ _ Hx) as (x' & Hx' & Hev).
  rewrite (created_cons _ _ _ _ Hx), (created_cons _ _ _ _ Hx').
  destruct (is_created x') eqn:Ec; [rewrite (evolves_created _ _ Hev Ec); lia |]. destruct (is_created x); lia.
Qed.

Lemma created_le l r r' :
  evolves r r' -> (forall j, j ∈ l -> is_Some (RunRepository._runs r !! j)) ->
  (length (created_among l r') <= length (created_among l r))%nat.
Proof.
  intros E. induction l as [|j l IH]; intros Hall; [done |].
  apply created_step; [done | apply Hall; by left | apply IH; intros; apply Hall; by right].
Qed.

(** A run of the list that stops being CREATED makes the count smaller. *)
Lemma created_lt l r r' c :
  evolves r r' -> (forall j, j ∈ l -> is_Some (RunRepository._runs r !! j)) -> c ∈ l ->
  (exists x, RunRepository._runs r !! c = Some x /\ RunRecord.state x = RunState.CREATED) -> queued c r' ->
  (length (created_among l r') < length (created_among l r))%nat.
Proof.
  intros E Hall Hc (x & Hx & Hxs) (y & Hy & Hys). induction l as [|j l IH]; [by apply elem_of_nil in Hc |].
  assert (forall k, k ∈ l -> is_Some (RunRepository._runs r !! k)) as Hall' by (intros; apply Hall; by right).
  destruct (decide (j = c)) as [->|Hne].
  - rewrite (created_cons _ _ _ _ Hx), (created_cons _ _ _ _ Hy).
    assert (is_created x = true) as -> by by apply bool_decide_eq_true.
    assert (is_created y = false) as -> by (apply bool_decide_eq_false; by rewrite Hys).
    pose proof (created_le l r r' E Hall'). lia.
  - apply elem_of_cons in Hc as [?|Hc]; [done |]. specialize (IH Hall' Hc).
    destruct (Hall j) as [z Hz]; [by left |]. destruct (ev_runs _ _ E _ _ Hz) as (z' & Hz' & Hev).
    rewrite (created_cons _ _ _ _ Hz), (created_cons _ _ _ _ Hz').
    destruct (is_created z') eqn:Ec; [rewrite (evolves_created _ _ Hev Ec); lia |]. destruct (is_created z); lia.
Qed.

(** The ids of the CREATED runs of a batch, and any first of them, are distinct. *)
Lemma claimed_nodup n i b p r :
  plan_wf (p, r) -> TestPlanRepository._batches p !! i = Some b ->
  NoDup (take n (map RunRecord.id (List.filter is_created (batch_runs b (p, r))))).
Proof.
  intros W Hb. destruct (batch_records p r i b W Hb) as (_ & Hids & _).
  assert (NoDup (map RunRecord.id (batch_runs b (p, r)))) as Hn
    by (rewrite Hids; apply (pw_batches _ W _ _ Hb)).
  assert (NoDup (map RunRecord.id (List.filter is_created (batch_runs b (p, r))))) as Hf.
  { clear -Hn. induction (batch_runs b (p, r)) as [|x l IH]; simpl in *; [constructor |].
    apply NoDup_cons in Hn as [Hx Hn]. destruct (is_created x); simpl; [| auto]. constructor; [| auto].
    intros (y & He & Hy)%elem_of_map. apply Hx. apply elem_of_map. exists y. split; [done |].
    apply list_elem_of_In, filter_In in Hy as [Hy _]. by apply list_elem_of_In. }
  rewrite <- (take_drop n) in Hf. by apply NoDup_app in Hf as [? _].
Qed.

(** The number of rounds that are enough: one more than the CREATED runs of the batch. *)
Lemma dispatch_loop_spec fuel round n i b p r :
  plan_wf (p, r) -> TestPlanRepository._batches p !! i = Some b ->
  (length (created_among (ExecutionBatchRecord.run_ids b) r) < fuel)%nat ->
  exists res r', dispatch_loop d claim_clk fail_clk fuel round n i (p, r) = (Ok (Some res), (p, r'))
    /\ good r r'
    /\ NoDup (DispatchResult.dispatched res ++ DispatchResult.failed res)
    /\ (forall j, j ∈ DispatchResult.dispatched res ++ DispatchResult.failed res ->
          j ∈ ExecutionBatchRecord.run_ids b
          /\ exists x, RunRepository._runs r !! j = Some x /\ RunRecord.state x = RunState.CREATED)
    /\ (forall j, j ∉ DispatchResult.dispatched res ++ DispatchResult.failed res ->
          RunRepository._runs r' !! j = RunRepository._runs r !! j)
    /\ (forall j, j ∈ DispatchResult.failed res ->
          exists x, RunRepository._runs r' !! j = Some x /\ RunRecord.state x = RunState.INFRA_ERROR).
Proof.
  revert round n r. induction fuel as [|fuel IH]; intros round n r W Hb Hfuel; [lia |]. cbn [dispatch_loop].
  destruct (claim_runs_spec (claim_clk round) i b (p, r) W Hb) as (r1 & Hc & G1 & Hout1 & Hcl).
  set (claimed := take _ _) in *. cbn [fst snd] in *.
  assert (batch_records := batch_records p r i b W Hb). destruct batch_records as (_ & Hids & Hin).
  assert (forall j, j ∈ claimed -> j ∈ ExecutionBatchRecord.run_ids b
    /\ exists x, RunRepository._runs r !! j = Some x /\ RunRecord.state x = RunState.CREATED) as Hcr.
  { intros j Hj. apply elem_of_take in Hj as (k & Hk & _). apply list_elem_of_lookup_2 in Hk.
    apply elem_of_map in Hk as (y & -> & Hy). apply list_elem_of_In, filter_In in Hy as [Hy Hyc].
    apply list_elem_of_In in Hy. apply bool_decide_eq_true in Hyc. split.
    - rewrite <- Hids. apply elem_of_map. eauto.
    - exists y. split; [by apply Hin | done]. }
  assert (NoDup claimed) as Hnd by (apply (claimed_nodup _ i b p r W Hb)).
  unfold bind at 1. rewrite Hc.
  destruct claimed as [|c cs] eqn:Ecl.
  { exists (DispatchResult.mk [] []), r1. cbn. split_and!; try done; try constructor; by intros ? ?%elem_of_nil. }
  rewrite <- Ecl in *.
  destruct (dispatch_claimed_spec n claimed p r1 (proj1 G1) Hnd Hcl) as
    (ds & fs & refill & r2 & Hd & G2 & Hperm & Hrf & Hout2 & Hfs).
  assert (forall j, j ∈ ds ++ fs <-> j ∈ claimed) as Hmem by (intros j; by rewrite Hperm).
  assert (forall j, j ∉ ds ++ fs -> RunRepository._runs r2 !! j = RunRepository._runs r !! j) as Hout.
  { intros j Hj. rewrite Hmem in Hj. by rewrite Hout2, Hout1. }
  unfold bind at 1. rewrite Hd. destruct refill; cbn [negb].
  2:{ exists (DispatchResult.mk ds fs), r2. cbn [DispatchResult.dispatched DispatchResult.failed].
      split_and!; try done; [by eapply good_trans | by rewrite Hperm | intros j Hj; by apply Hcr, Hmem]. }
  assert (good r r2) as G by by eapply good_trans.
  destruct (plan_runs_good p r r2 W G) as [W2 _].
  assert (forall j, j ∈ ExecutionBatchRecord.run_ids b -> is_Some (RunRepository._runs r !! j)) as Hst.
  { intros j Hj. rewrite <- Hids in Hj. apply elem_of_map in Hj as (z & -> & Hz). apply Hin in Hz. eauto. }
  assert (length (created_among (ExecutionBatchRecord.run_ids b) r2) < fuel)%nat as Hfuel2.
  { assert (c ∈ claimed) as Hc1 by (rewrite Ecl; by left). destruct (Hcr c Hc1) as (Hcb & Hx).
    pose proof (created_lt _ r r1 c (proj2 G1) Hst Hcb Hx (Hcl c Hc1)).
    assert (forall j, j ∈ ExecutionBatchRecord.run_ids b -> is_Some (RunRepository._runs r1 !! j)) as Hst1.
    { intros j [z Hz]%Hst. destruct (ev_runs _ _ (proj2 G1) _ _ Hz) as (? & ? & _). eauto. }
    pose proof (created_le _ r1 r2 (proj2 G2) Hst1). lia. }
  destruct (IH (S round) (n + length claimed)%nat r2 W2 Hb Hfuel2) as
    (res & r3 & Hl & G3 & Hnd3 & Hcr3 & Hout3 & Hfs3).
  unfold bind. rewrite Hl. unfold ret. exists (DispatchResult.mk (ds ++ DispatchResult.dispatched res)
    (fs ++ DispatchResult.failed res)), r3. cbn [DispatchResult.dispatched DispatchResult.failed].
  set (ds3 := DispatchResult.dispatched res) in *. set (fs3 := DispatchResult.failed res) in *.
  assert ((ds ++ ds3) ++ fs ++ fs3 ≡ₚ (ds ++ fs) ++ ds3 ++ fs3) as Hp3 by solve_Permutation.
  assert (forall j, j ∈ ds3 ++ fs3 -> j ∉ ds ++ fs) as Hdis.
  { intros j Hj Hj'. apply Hcr3 in Hj as (_ & x & Hx & Hxs). rewrite Hmem in Hj'.
    destruct (Hcl j Hj') as (y & Hy & Hys). destruct (ev_runs _ _ (proj2 G2) _ _ Hy) as (z & Hz & Hev).
    assert (z = x) as -> by congruence.
    assert (is_created y = true) as Hyc by (eapply evolves_created; [done | by apply bool_decide_eq_true]).
    apply bool_decide_eq_true in Hyc. congruence. }
  split_and!.
  - done.
  - by eapply good_trans.
  - rewrite Hp3. apply NoDup_app. split_and!; [by rewrite Hperm | | done]. intros j Hj Hj3. by apply (Hdis j).
  - intros j. rewrite Hp3, elem_of_app. intros [Hj|Hj]; [by apply Hcr, Hmem |].
    destruct (Hcr3 j Hj) as (Hjb & x & Hx & Hxs). split; [done |]. exists x. split; [| done].
    rewrite <- Hout; [done | by apply Hdis].
  - intros j. rewrite Hp3, not_elem_of_app. intros [Hj1 Hj2]. by rewrite Hout3, Hout.
  - intros j [Hj|Hj]%elem_of_app; [| by apply Hfs3].
    destruct (Hfs j Hj) as (x & Hx & Hxs). exists x. split; [| done]. rewrite Hout3; [done |].
    intros Hj3. apply (Hdis j Hj3). apply elem_of_app. by right.
Qed.
End loop.

(** ** Properties *)
Section properties.
  Context `{PyFloat} {SR SOp ER EOp : Type} `{!ScriptRevisionReader SR SOp} `{!EnvironmentReader ER EOp}.
  Notation world := (TestPlanRepository.t * RunRepository.t)%type.
  Implicit Type w : world.

(** More rounds do not change an answer. *)
Lemma dispatch_loop_more {D} `{!RunDispatcher D} (d : D) cc fc fuel fuel' round n i w res w' :
  (fuel <= fuel')%nat -> dispatch_loop d cc fc fuel round n i w = (Ok (Some res), w') ->
  dispatch_loop d cc fc fuel' round n i w = (Ok (Some res), w').
Proof.
  revert fuel' round n w res w'. induction fuel as [|fuel IH]; intros fuel' round n w res w' Hle; [done |].
  destruct fuel' as [|fuel']; [lia |]. cbn [dispatch_loop]. unfold bind.
  destruct (claim_available_runs _ _ _) as [[claimed|e] w1]; [| done]. destruct claimed as [|c cs]; [done |].
  destruct (dispatch_claimed _ _ _ _ _) as [[[[ds fs] refill]|e] w2]; [| done].
  destruct (negb refill); [done |]. unfold bind.
  destruct (dispatch_loop d cc fc fuel _ _ _ _) as [[[r|]|e] w3] eqn:E; [| done | done].
  erewrite IH; [done | lia | done].
Qed.

(** C15. [dispatch_available] terminates and accounts for what it does: on a known batch,
    with any dispatcher that meets the interface (however often it fails), one round more
    than the batch has CREATED runs is enough and more change nothing; it never raises;
    the dispatched and failed runs are distinct CREATED runs of the batch, every failed
    one ends INFRA_ERROR, all other runs and the plans stay as they were. *)
Theorem dispatch_terminates {D} `{!RunDispatcher D} (d : D) cc fc fuel i b w :
  st_reachable (H:=plan_store) w -> get_execution_batch i w.1 = (Ok b, w.1) ->
  (length (created_among (ExecutionBatchRecord.run_ids b) w.2) < fuel)%nat ->
  exists res w', (forall fuel', (fuel <= fuel')%nat ->
                    dispatch_available d cc fc fuel' i w = (Ok (Some res), w'))
    /\ w'.1 = w.1 /\ evolves w.2 w'.2
    /\ let handled := DispatchResult.dispatched res ++ DispatchResult.failed res in
       NoDup handled
       /\ (forall j, j ∈ handled -> j ∈ ExecutionBatchRecord.run_ids b
             /\ exists x, RunRepository._runs w.2 !! j = Some x /\ RunRecord.state x = RunState.CREATED)
       /\ (forall j, j ∉ handled -> RunRepository._runs w'.2 !! j = RunRepository._runs w.2 !! j)
       /\ (forall j, j ∈ DispatchResult.failed res -> exists x,
             RunRepository._runs w'.2 !! j = Some x /\ RunRecord.state x = RunState.INFRA_ERROR).
Proof.
  intros Hw Hb Hfuel. apply st_reachable_wf in Hw as W. destruct w as [p r]. cbn [fst snd] in *.
  unfold get_execution_batch in Hb. destruct (_batches p !! i) as [b'|] eqn:Eb; [| done]. injection Hb as [= ->].
  destruct (dispatch_loop_spec d cc fc fuel 0 0 i b p r W Eb Hfuel) as (res & r' & Hl & G & Hrest).
  exists res, (p, r'). split; [| split; [done | split; [apply G | done]]].
  intros fuel' Hle. by eapply dispatch_loop_more.
Qed.

(** The database dispatcher moves a queued run to DISPATCHING. *)
Lemma database_dispatch (dd : DatabaseRunDispatcher.t) k i r :
  queued i r -> exists x', DatabaseRunDispatcher.dispatch dd k i r =
    (Ok tt, (RunRepository.set_runs (fun d => <[i:=x']> d) r).2) /\ RunRecord.state x' = RunState.DISPATCHING.
Proof.
  intros (x & Hx & Hs). destruct (transition_Ok (DatabaseRunDispatcher.clocks dd k) i RunState.DISPATCHING r x Hx)
    as (x' & Ht & Hst); [rewrite Hs; apply elem_of_cons; by left |].
  exists x'. split; [| done]. unfold DatabaseRunDispatcher.dispatch, RunRepository.get_run,
    RunRepository._get_locked, bind, try_except, ret. rewrite Hx, Hs. rewrite bool_decide_false by done.
  rewrite bool_decide_true by done. cbn [negb]. by rewrite Ht.
Qed.

Lemma database_claimed (dd : DatabaseRunDispatcher.t) fc n claimed p r :
  RunsFacts.wf r -> NoDup claimed -> (forall j, j ∈ claimed -> queued j r) ->
  exists r', dispatch_claimed dd fc n claimed (p, r) = (Ok (claimed, [], false), (p, r'))
    /\ (forall j, j ∉ claimed -> RunRepository._runs r' !! j = RunRepository._runs r !! j)
    /\ (forall j, j ∈ claimed -> exists x, RunRepository._runs r' !! j = Some x
          /\ RunRecord.state x = RunState.DISPATCHING).
Proof.
  revert n r. induction claimed as [|i claimed IH]; intros n r W Hnd Hq.
  { exists r. split_and!; try done. by intros ? ?%elem_of_nil. }
  apply NoDup_cons in Hnd as [Hi Hnd]. cbn [dispatch_claimed].
  destruct (database_dispatch dd n i r) as (x' & Hd & Hs); [apply Hq; by left |].
  pose proof (dispatch_good dd n i r W) as G. change (dispatch dd n i r) with (DatabaseRunDispatcher.dispatch dd n i r) in G.
  rewrite Hd in G. cbn [snd] in G. unfold try_except at 1, on_runs, bind at 1 2, ret at 1. cbn [fst snd].
  change (dispatch dd n i r) with (DatabaseRunDispatcher.dispatch dd n i r). rewrite Hd. cbn [fst snd].
  set (r1 := (RunRepository.set_runs _ r).2) in *.
  destruct (IH (S n) r1 (proj1 G) Hnd) as (r' & Hr & Hout & Hcl).
  { intros j Hj. destruct (Hq j) as (y & Hy & Hys); [by right |]. exists y. split; [| done]. simpl.
    rewrite dict_lookup_insert_ne; [done |]. by intros ->. }
  unfold on_runs in Hr. unfold bind. rewrite Hr. unfold ret. exists r'. split_and!; [done | |].
  - intros j [Hj1 Hj2]%not_elem_of_cons. rewrite Hout by done. simpl. by rewrite dict_lookup_insert_ne.
  - intros j [->|Hj]%elem_of_cons; [| by apply Hcl]. exists x'. split; [| done]. rewrite Hout by done. simpl.
    by rewrite dict_lookup_insert_eq.
Qed.

(** With the database dispatcher one call fills a batch exactly: it dispatches the
    first CREATED runs of the batch, in order, as many as [max_parallel] leaves room for,
    each is DISPATCHING afterwards, none fails, no other run is touched; the bound is
    exceeded only if it was before, and if it is not reached no CREATED run is left. *)
Theorem database_fills_batch (dd : DatabaseRunDispatcher.t) cc fc fuel i b w :
  st_reachable (H:=plan_store) w -> get_execution_batch i w.1 = (Ok b, w.1) ->
  let room := Z.to_nat (ExecutionBatchRecord.max_parallel b - Z.of_nat (occupied b w)) in
  let chosen := take room (map RunRecord.id (List.filter is_created (batch_runs b w))) in
  exists w', dispatch_available dd cc fc (S fuel) i w = (Ok (Some (DispatchResult.mk chosen [])), w')
    /\ w'.1 = w.1
    /\ (forall j, j ∉ chosen -> RunRepository._runs w'.2 !! j = RunRepository._runs w.2 !! j)
    /\ (forall j, j ∈ chosen -> exists x, RunRepository._runs w'.2 !! j = Some x
          /\ RunRecord.state x = RunState.DISPATCHING)
    /\ (Z.of_nat (occupied b w') <= Z.max (Z.of_nat (occupied b w)) (ExecutionBatchRecord.max_parallel b))%Z
    /\ ((Z.of_nat (occupied b w') < ExecutionBatchRecord.max_parallel b)%Z ->
        chosen = map RunRecord.id (List.filter is_created (batch_runs b w))).
Proof.
  intros Hw Hb room chosen. apply st_reachable_wf in Hw as W. destruct w as [p r]. cbn [fst snd] in *.
  unfold get_execution_batch in Hb. destruct (_batches p !! i) as [b'|] eqn:Eb; [| done]. injection Hb as [= ->].
  destruct (claim_runs_spec (cc 0%nat) i b (p, r) W Eb) as (r1 & Hc & G1 & Hout1 & Hcl).
  fold room in Hc, Hout1, Hcl. fold chosen in Hc, Hout1, Hcl. cbn [fst snd] in *.
  destruct (database_claimed dd fc 0 chosen p r1 (proj1 G1)) as (r2 & Hd & Hout2 & Hdis);
    [by apply (claimed_nodup _ i b p r W Eb) | done |].
  exists (p, r2). cbn [fst snd].
  assert (forall j, j ∉ chosen -> RunRepository._runs r2 !! j = RunRepository._runs r !! j) as Hout
    by (intros j Hj; by rewrite Hout2, Hout1).
  assert (occupied b (p, r2) = occupied b (p, r) + length chosen)%nat as Hocc.
  { destruct (batch_records p r i b W Eb) as (_ & Hids & Hin).
    pose proof (occupied_claimed (RunRepository._runs r2) (batch_runs b (p, r)) room) as Ho.
    rewrite Hids in Ho. apply Ho; [apply (pw_batches _ W _ _ Eb) | |].
    - intros x Hx Hn. rewrite Hout by done. by apply Hin.
    - intros j Hj. destruct (Hdis j Hj) as (x & Hx & Hs). exists x. split; [done |].
      unfold is_occupied. by rewrite Hs. }
  split_and!; try done.
  - unfold dispatch_available. cbn [dispatch_loop]. unfold bind at 1. rewrite Hc. destruct chosen as [|c cs] eqn:Ech.
    + simpl in Hd. unfold ret in *. by injection Hd as ->.
    + rewrite <- Ech in *. unfold bind. by rewrite Hd.
  - rewrite Hocc. unfold chosen. rewrite length_take. lia.
  - rewrite Hocc. unfold chosen. rewrite length_take. intros Hlt. apply take_ge. lia.
Qed.
End properties.

(** * Dispatching the batch of [TestPlanExamples] *)
Import TestPlanRepository ExecutionBatchCoordinator.
Open Scope list_scope.
#[local] Existing Instances toy_aead toy_laws no_float_texts.

(** A broker that is down: both runs of the batch end as infrastructure errors, one after
    the other because the batch runs one at a time, and the third round finds nothing. *)
Definition broker_down : CeleryRunDispatcher.t :=
  CeleryRunDispatcher.mk (fun _ _ => Err (OtherException "OperationalError")).
Definition clocks_at (now : datetime) : nat -> clock := fun _ _ => now.

Lemma dispatch_terminates_witness :
  exists w', dispatch_available broker_down (clocks_at 500) (clocks_at 501) 3 31%N demo_executed
    = (Ok (Some (DispatchResult.mk [] [1000%N; 1001%N])), w')
    /\ exists x, RunRepository._runs w'.2 !! 1001%N = Some x /\ RunRecord.state x = RunState.INFRA_ERROR.
Proof.
  destruct (dispatch_terminates (SOp:=automation_op quality_op) (EOp:=environment_op demo_encryptor) broker_down
    (clocks_at 500) (clocks_at 501) 3 31%N demo_batch demo_executed demo_executed_reachable)
    as (res & w' & Hl & _ & _ & _ & _ & _ & Hf); [reflexivity | vm_compute; lia |].
  assert (res = DispatchResult.mk [] [1000%N; 1001%N]) as ->.
  { specialize (Hl 3%nat (le_n _)). revert Hl. vm_compute. congruence. }
  exists w'. split; [apply Hl; lia |]. apply Hf. right. left.
Defined.

Lemma database_fills_batch_witness :
  exists w', dispatch_available (DatabaseRunDispatcher.mk (clocks_at 510)) (clocks_at 500) (clocks_at 501) 1 31%N
      demo_executed = (Ok (Some (DispatchResult.mk [1000%N] [])), w')
    /\ exists x, RunRepository._runs w'.2 !! 1000%N = Some x /\ RunRecord.state x = RunState.DISPATCHING.
Proof.
  destruct (database_fills_batch (SOp:=automation_op quality_op) (EOp:=environment_op demo_encryptor)
    (DatabaseRunDispatcher.mk (clocks_at 510)) (clocks_at 500) (clocks_at 501) 0 31%N demo_batch demo_executed
    demo_executed_reachable) as (w' & Hl & _ & _ & Hd & _); [reflexivity |].
  exists w'. split; [exact Hl |]. apply Hd. vm_compute. left.
Defined.
