(* ===== verification/Parameters.v ===== *)
(** * Script parameters
    ([src/services/api/parameter_domain.py], [src/services/api/parameter_repository.py])

    Sets of enumeration options per project and the parameter definitions of automation
    scripts that refer to them; the in-memory [ParameterRepository] reads the scripts
    through the interface [ScriptReader]. *)
From S2P Require Import Prelude PyDict PyText Protocol Versioned Quality Automation.
Open Scope list_scope.

(** ** Records *)

Module ParameterInputType.
Inductive t := TEXT | NUMBER | INTEGER | BOOLEAN | ENUM.
#[global] Instance eq_dec : EqDecision t.
Proof. solve_decision. Defined.
End ParameterInputType.

Module ParameterEnumOption.
Record t := mk { label : string; value : pyval }.
End ParameterEnumOption.

Module ParameterEnumSetRecord.
Record t := mk {
  id : uuid; project_id : uuid; name : string; description : string;
  options : list ParameterEnumOption.t; state_version : Z; created_at : datetime; updated_at : datetime }.
Definition update (read : datetime) (r : t) (name description : string)
    (options : list ParameterEnumOption.t) : t :=
  mk (id r) (project_id r) name description options (state_version r + 1)%Z (created_at r) read.
End ParameterEnumSetRecord.

Module ScriptParameterDefinition.
Record t := mk {
  name : string; label : string; input_type : ParameterInputType.t; required : bool;
  enum_set_id : option uuid; default_value : pyval; position : Z }.
End ScriptParameterDefinition.

(** ** Validation *)

(** [^[A-Za-z_][A-Za-z0-9_]{0,127}$], the pattern of environment names. *)
Definition PARAMETER_NAME_PATTERN (s : string) : bool := ENVIRONMENT_NAME_PATTERN s.

Section validation.
  Context `{PyFloat}.

(** Floats of the model are finite, so [allow_nan=False] refuses none of them. *)
Definition json_identity (value : pyval) : res string :=
  match value with
  | PNone | PStr _ | PInt _ | PFloat _ _ | PBool _ =>
      match dumps false false value with
      | Ok text => Ok text
      | Err e => if bool_decide (e = TypeError) || is_ValueError e
                 then Err (ValueError "values must be finite JSON scalars") else Err e
      end
  | _ => Err (ValueError "values must be JSON scalars")
  end.

(** The loop over the options. *)
Fixpoint validate_options (identities : list string) (options : list ParameterEnumOption.t)
    : res (list ParameterEnumOption.t) :=
  match options with
  | [] => Ok []
  | option :: rest =>
      let label := strip (ParameterEnumOption.label option) in
      if empty_str label || (255 <? py_len label)%Z
      then Err (ValueError "option labels must contain 1 to 255 characters")
      else
        let? identity := json_identity (ParameterEnumOption.value option) in
        if bool_decide (identity ∈ identities) then Err (ValueError "enum option values must be unique")
        else
          let? validated := validate_options (identity :: identities) rest in
          Ok (ParameterEnumOption.mk label (ParameterEnumOption.value option) :: validated)
  end.

Definition validate_enum_values (name : string) (options : list ParameterEnumOption.t)
    : res (string * list ParameterEnumOption.t) :=
  let normalized := strip name in
  if empty_str normalized || (255 <? py_len normalized)%Z
  then Err (ValueError "enum name must contain 1 to 255 characters")
  else
    let? validated := validate_options [] options in
    Ok (normalized, validated).

(** The loop over the definitions, with the names and positions met before. *)
Fixpoint validate_definitions (names : list string) (positions : list Z)
    (definitions : list ScriptParameterDefinition.t) : res (list ScriptParameterDefinition.t) :=
  match definitions with
  | [] => Ok []
  | item :: rest =>
      let name := ScriptParameterDefinition.name item in
      let position := ScriptParameterDefinition.position item in
      let is_enum := bool_decide (ScriptParameterDefinition.input_type item = ParameterInputType.ENUM) in
      let has_set := TaskEnvelope.is_some (ScriptParameterDefinition.enum_set_id item) in
      if negb (PARAMETER_NAME_PATTERN name) || bool_decide (name ∈ names) then Err ScriptParameterConflict
      else
        let label := strip (ScriptParameterDefinition.label item) in
        if empty_str label || (255 <? py_len label)%Z then Err ScriptParameterConflict
        else if (position <? 0)%Z || bool_decide (position ∈ positions) then Err ScriptParameterConflict
        else
          let? _ := json_identity (ScriptParameterDefinition.default_value item) in
          if is_enum && negb has_set then Err ScriptParameterConflict
          else if negb is_enum && has_set then Err ScriptParameterConflict
          else
            let? validated := validate_definitions (name :: names) (position :: positions) rest in
            Ok (ScriptParameterDefinition.mk name label (ScriptParameterDefinition.input_type item)
                  (ScriptParameterDefinition.required item) (ScriptParameterDefinition.enum_set_id item)
                  (ScriptParameterDefinition.default_value item) position :: validated)
  end.

Definition validate_parameter_definitions (definitions : list ScriptParameterDefinition.t)
    : res (list ScriptParameterDefinition.t) :=
  let? validated := validate_definitions [] [] definitions in
  Ok (py_sorted (by_key ScriptParameterDefinition.position) validated).
End validation.

(** ** The interface of the script store *)
Class ScriptReader (SC Op : Type) := {
  sc_store :: Store SC Op;
  sc_get_script : uuid -> SC -> res AutomationScriptRecord.t;
  sc_project : forall i sc sc' r, st_wf sc -> st_wf sc' -> st_evolves sc sc' ->
    sc_get_script i sc = Ok r ->
    exists r', sc_get_script i sc' = Ok r'
               /\ AutomationScriptRecord.project_id r' = AutomationScriptRecord.project_id r }.

(** ** The repository *)
Module ParameterRepository.
Record t := mk {
  _enums : pydict uuid ParameterEnumSetRecord.t;
  _names : pydict (uuid * string) uuid;
  _parameters : pydict uuid (list ScriptParameterDefinition.t) }.
Definition init : t := mk ∅ ∅ ∅.

(** The parameters of all scripts, in one list. *)
Definition all_parameters (s : t) : list ScriptParameterDefinition.t := concat (values (_parameters s)).

Definition refers_to (enum_set_id : uuid) (item : ScriptParameterDefinition.t) : bool :=
  bool_decide (ScriptParameterDefinition.enum_set_id item = Some enum_set_id).

Definition get_enum_set (enum_set_id : uuid) : M t ParameterEnumSetRecord.t := fun s =>
  (match _enums s !! enum_set_id with Some r => Ok r | None => Err ParameterEnumNotFound end, s).

Definition list_enum_sets (project_id : uuid) : M t (list ParameterEnumSetRecord.t) :=
  let* s := get in
  ret (py_sorted (by_key ParameterEnumSetRecord.created_at)
         (List.filter (fun r => bool_decide (ParameterEnumSetRecord.project_id r = project_id))
            (values (_enums s)))).

Section operations.
  Context `{PyFloat} {SC SOp : Type} `{ScriptReader SC SOp} (_scripts : SC).

Definition create_enum_set (now : datetime) (fresh project_id : uuid) (name description : string)
    (options : list ParameterEnumOption.t) : M t ParameterEnumSetRecord.t :=
  let* '(normalized, validated) := lift (validate_enum_values name options) in
  let* s := get in
  if has_key (project_id, normalized) (_names s) then raise ParameterEnumConflict
  else
    let record := ParameterEnumSetRecord.mk fresh project_id normalized description validated 0 now now in
    put (mk (<[fresh:=record]> (_enums s)) (<[(project_id, normalized):=fresh]> (_names s)) (_parameters s)) ;;;
    ret record.

Definition _validate_existing_defaults (enum_set_id : uuid) (options : list ParameterEnumOption.t)
    (s : t) : res unit :=
  let? identities := rmap (fun o => json_identity (ParameterEnumOption.value o)) options in
  rfold (fun _ item =>
    if refers_to enum_set_id item then
      let? identity := json_identity (ScriptParameterDefinition.default_value item) in
      if negb (bool_decide (identity ∈ identities)) then Err ParameterEnumConflict else Ok tt
    else Ok tt) tt (all_parameters s).

Definition update_enum_set (read : datetime) (enum_set_id : uuid) (expected_version : Z)
    (name description : string) (options : list ParameterEnumOption.t) : M t ParameterEnumSetRecord.t :=
  let* '(normalized, validated) := lift (validate_enum_values name options) in
  let* current := get_enum_set enum_set_id in
  if negb (ParameterEnumSetRecord.state_version current =? expected_version)%Z
  then raise ParameterEnumVersionConflict
  else
    let project_id := ParameterEnumSetRecord.project_id current in
    let* s := get in
    if match _names s !! (project_id, normalized) with
       | Some owner => negb (bool_decide (owner = enum_set_id))
       | None => false
       end then raise ParameterEnumConflict
    else
      lift (_validate_existing_defaults enum_set_id validated s) ;;;
      let updated := ParameterEnumSetRecord.update read current normalized description validated in
      let* names :=
        if negb (bool_decide (ParameterEnumSetRecord.name current = normalized)) then
          let* removed := lift (py_del (project_id, ParameterEnumSetRecord.name current) (_names s)) in
          ret (<[(project_id, normalized):=enum_set_id]> removed)
        else ret (_names s) in
      put (mk (<[enum_set_id:=updated]> (_enums s)) names (_parameters s)) ;;;
      ret updated.

(** [del self._enums[...]] comes before [del self._names[...]]. *)
Definition delete_enum_set (enum_set_id : uuid) : M t unit :=
  let* current := get_enum_set enum_set_id in
  let* s := get in
  if existsb (refers_to enum_set_id) (all_parameters s) then raise ParameterEnumConflict
  else
    put (mk (delete enum_set_id (_enums s)) (_names s) (_parameters s)) ;;;
    let* names := lift (py_del (ParameterEnumSetRecord.project_id current, ParameterEnumSetRecord.name current)
                          (_names s)) in
    put (mk (delete enum_set_id (_enums s)) names (_parameters s)).

Definition list_script_parameters (script_id : uuid) : M t (list ScriptParameterDefinition.t) :=
  let* _ := lift (sc_get_script script_id _scripts) in
  let* s := get in ret (default [] (_parameters s !! script_id)).

Definition validate_parameter_enum (project_id : uuid) (item : ScriptParameterDefinition.t) (s : t) : res unit :=
  match ScriptParameterDefinition.enum_set_id item with
  | None => Ok tt
  | Some enum_set_id =>
      match (get_enum_set enum_set_id s).1 with
      | Err e => if bool_decide (e = ParameterEnumNotFound) then Err ScriptParameterConflict else Err e
      | Ok enum_set =>
          if negb (bool_decide (ParameterEnumSetRecord.project_id enum_set = project_id))
          then Err ScriptParameterConflict
          else
            let? identity := json_identity (ScriptParameterDefinition.default_value item) in
            let? identities := rmap (fun o => json_identity (ParameterEnumOption.value o))
                                 (ParameterEnumSetRecord.options enum_set) in
            if negb (bool_decide (identity ∈ identities)) then Err ScriptParameterConflict else Ok tt
      end
  end.

Definition _validate_parameter_enums (project_id : uuid) (definitions : list ScriptParameterDefinition.t)
    (s : t) : res unit :=
  rfold (fun _ item => validate_parameter_enum project_id item s) tt definitions.

Definition replace_script_parameters (script_id : uuid) (definitions : list ScriptParameterDefinition.t)
    : M t (list ScriptParameterDefinition.t) :=
  let* validated := lift (validate_parameter_definitions definitions) in
  let* script := lift (sc_get_script script_id _scripts) in
  let* s := get in
  lift (_validate_parameter_enums (AutomationScriptRecord.project_id script) validated s) ;;;
  put (mk (_enums s) (_names s) (<[script_id:=validated]> (_parameters s))) ;;;
  ret validated.
End operations.
End ParameterRepository.

(** * Theorems about script parameters *)
Import ParameterRepository.
Open Scope list_scope.

(** ** Validation *)
Section validation.
  Context `{PyFloat}.

(** The identities of the options of a set. *)
Definition identities (options : list ParameterEnumOption.t) : res (list string) :=
  rmap (fun o => json_identity (ParameterEnumOption.value o)) options.

Lemma validate_options_Ok ids options validated :
  validate_options ids options = Ok validated ->
  exists l, identities validated = Ok l /\ NoDup l /\ forall x, x ∈ l -> x ∉ ids.
Proof.
  revert ids validated. induction options as [|o options IH]; intros ids validated; simpl.
  { intros [= <-]. exists []. split_and!; [done | constructor | by intros ? ?%elem_of_nil]. }
  destruct (_ || _); [done |]. intros (i & Hi & Hx)%rbind_Ok. case_bool_decide as Hn; [done |].
  apply rbind_Ok in Hx as (vs & Hvs & [= <-]). apply IH in Hvs as (l & Hl & Hnd & Hout).
  exists (i :: l). unfold identities in *. simpl. rewrite Hi. simpl. rewrite Hl. simpl. split_and!; [done | |].
  - constructor; [| done]. intros Hil. apply (Hout i Hil). by left.
  - intros x [->|Hx]%elem_of_cons; [done |]. intros Hx'. apply (Hout x Hx). by right.
Qed.

(** One definition as the repository keeps it. *)
Record definition_ok (d : ScriptParameterDefinition.t) : Prop := {
  do_name : PARAMETER_NAME_PATTERN (ScriptParameterDefinition.name d) = true;
  do_label : (1 <= py_len (ScriptParameterDefinition.label d) <= 255)%Z
             /\ strip (ScriptParameterDefinition.label d) = ScriptParameterDefinition.label d;
  do_position : (0 <= ScriptParameterDefinition.position d)%Z;
  do_scalar : is_ok (json_identity (ScriptParameterDefinition.default_value d)) = true;
  do_enum : ScriptParameterDefinition.input_type d = ParameterInputType.ENUM
            <-> is_Some (ScriptParameterDefinition.enum_set_id d) }.

Lemma label_Ok s : empty_str (strip s) || (255 <? py_len (strip s))%Z = false ->
  (1 <= py_len (strip s) <= 255)%Z /\ strip (strip s) = strip s.
Proof.
  intros [He Hl]%orb_false_iff. apply Z.ltb_ge in Hl. split; [| apply strip_idemp]. split; [| lia].
  unfold empty_str in He. apply bool_decide_eq_false in He. unfold py_len.
  destruct (strip s); [done | simpl; lia].
Qed.

Lemma is_some_iff {A} (o : option A) : TaskEnvelope.is_some o = true <-> is_Some o.
Proof. destruct o; simpl; split; [by eauto | done | done | by intros [? ?]]. Qed.

Lemma validate_definitions_Ok names positions l validated :
  validate_definitions names positions l = Ok validated ->
  Forall definition_ok validated
  /\ NoDup (map ScriptParameterDefinition.name validated)
  /\ NoDup (map ScriptParameterDefinition.position validated)
  /\ forall d, d ∈ validated -> ScriptParameterDefinition.name d ∉ names
                              /\ ScriptParameterDefinition.position d ∉ positions.
Proof.
  revert names positions validated. induction l as [|d l IH]; intros names positions validated; simpl.
  { intros [= <-]. split_and!; [constructor.. | by intros ? ?%elem_of_nil]. }
  destruct (negb _ || _) eqn:E1; [done |]. destruct (empty_str _ || _) eqn:E2; [done |].
  destruct ((_ <? 0)%Z || _) eqn:E3; [done |]. intros (i & Hi & Hx)%rbind_Ok.
  destruct (bool_decide _ && _) eqn:E4; [done |]. destruct (negb _ && _) eqn:E5; [done |].
  apply rbind_Ok in Hx as (vs & Hvs & [= <-]). apply IH in Hvs as (HF & Hn & Hp & Hout).
  apply orb_false_iff in E1 as [Hpat Hname]. apply negb_false_iff in Hpat. apply bool_decide_eq_false in Hname.
  apply orb_false_iff in E3 as [Hpos Hposs]. apply Z.ltb_ge in Hpos. apply bool_decide_eq_false in Hposs.
  apply label_Ok in E2. simpl.
  split_and!; constructor; try done.
  - split; simpl; try done; [by rewrite Hi |]. rewrite <- is_some_iff.
    destruct (decide (ScriptParameterDefinition.input_type d = ParameterInputType.ENUM)) as [He|He].
    + rewrite bool_decide_true in E4 by done. simpl in E4. apply negb_false_iff in E4. done.
    + rewrite bool_decide_false in E5 by done. simpl in E5. split; [done |]. by rewrite E5.
  - intros (x & Hxe & Hxv)%elem_of_map. destruct (Hout x Hxv) as [Hx _]. apply Hx. rewrite <- Hxe. by left.
  - intros (x & Hxe & Hxv)%elem_of_map. destruct (Hout x Hxv) as [_ Hx]. apply Hx. rewrite <- Hxe. by left.
  - apply elem_of_cons in H0 as [->|Hx]; [done |]. intros Hin. destruct (Hout _ Hx) as [Hx' _]. apply Hx'. by right.
  - apply elem_of_cons in H0 as [->|Hx]; [done |]. intros Hin. destruct (Hout _ Hx) as [_ Hx']. apply Hx'. by right.
Qed.

(** A list of parameters as the repository keeps it: by position. *)
Record parameters_ok (l : list ScriptParameterDefinition.t) : Prop := {
  po_each : Forall definition_ok l;
  po_names : NoDup (map ScriptParameterDefinition.name l);
  po_sorted : StronglySorted (key_lt ScriptParameterDefinition.position) l }.

Lemma validate_parameters_Ok l validated : validate_parameter_definitions l = Ok validated -> parameters_ok validated.
Proof.
  intros (vs & Hvs & [= <-])%rbind_Ok. apply validate_definitions_Ok in Hvs as (HF & Hn & Hp & _).
  split.
  - by rewrite py_sorted_perm.
  - by rewrite py_sorted_perm.
  - assert (forall x y, x ∈ vs -> y ∈ vs ->
      ScriptParameterDefinition.position x = ScriptParameterDefinition.position y -> x = y) as Hinj.
    { intros x y [i Hi]%list_elem_of_lookup [j Hj]%list_elem_of_lookup He.
      assert (i = j) as ->; [| congruence].
      eapply (NoDup_lookup _ i j (ScriptParameterDefinition.position x) Hp); rewrite list_lookup_fmap;
        [by rewrite Hi | by rewrite Hj, He]. }
    apply py_sorted_strict; [| done]. by eapply NoDup_fmap_1.
Qed.
End validation.

(** ** The repository and the scripts it reads *)
Section repository.
  Context `{PyFloat} {SC SOp : Type} `{!ScriptReader SC SOp}.

(** A parameter of a script of project [p] refers to a set of [p] that has its default. *)
Definition reference_ok (enums : pydict uuid ParameterEnumSetRecord.t) (p : uuid)
    (d : ScriptParameterDefinition.t) : Prop :=
  forall i, ScriptParameterDefinition.enum_set_id d = Some i ->
    exists r o x, enums !! i = Some r /\ ParameterEnumSetRecord.project_id r = p
      /\ o ∈ ParameterEnumSetRecord.options r
      /\ json_identity (ScriptParameterDefinition.default_value d) = Ok x
      /\ json_identity (ParameterEnumOption.value o) = Ok x.

Definition enum_key (r : ParameterEnumSetRecord.t) : uuid * string :=
  (ParameterEnumSetRecord.project_id r, ParameterEnumSetRecord.name r).

Record parameter_wf (w : SC * t) : Prop := {
  paw_scripts : st_wf w.1;
  paw_id : forall i r, _enums w.2 !! i = Some r -> ParameterEnumSetRecord.id r = i;
  paw_options : forall i r, _enums w.2 !! i = Some r ->
    exists l, identities (ParameterEnumSetRecord.options r) = Ok l /\ NoDup l;
  paw_index : indexed enum_key (_enums w.2) (_names w.2);
  paw_parameters : forall i l, _parameters w.2 !! i = Some l ->
    parameters_ok l /\ exists script, sc_get_script i w.1 = Ok script
      /\ Forall (reference_ok (_enums w.2) (AutomationScriptRecord.project_id script)) l }.

Inductive parameter_op : Type :=
  | OpScripts (o : SOp)
  | OpCreateEnum (now : datetime) (fresh project : uuid) (name description : string)
      (options : list ParameterEnumOption.t)
  | OpUpdateEnum (read : datetime) (i : uuid) (expected : Z) (name description : string)
      (options : list ParameterEnumOption.t)
  | OpDeleteEnum (i : uuid)
  | OpReplaceParameters (script : uuid) (definitions : list ScriptParameterDefinition.t).

Definition parameter_step (o : parameter_op) (w : SC * t) : SC * t :=
  match o with
  | OpScripts o => (st_op o w.1, w.2)
  | OpCreateEnum now f p n d os => (w.1, (create_enum_set now f p n d os w.2).2)
  | OpUpdateEnum rd i v n d os => (w.1, (update_enum_set rd i v n d os w.2).2)
  | OpDeleteEnum i => (w.1, (delete_enum_set i w.2).2)
  | OpReplaceParameters i ds => (w.1, (replace_script_parameters w.1 i ds w.2).2)
  end.

Definition parameter_fresh (o : parameter_op) (w : SC * t) : Prop :=
  match o with
  | OpScripts o => st_fresh o w.1
  | OpCreateEnum _ f _ _ _ _ => _enums w.2 !! f = None
  | _ => True
  end.

Lemma scripts_good o w : parameter_wf w -> st_fresh o w.1 -> parameter_wf (st_op o w.1, w.2).
Proof.
  intros [Ws Hid Ho Hx Hp] Hf. destruct (st_op_good o w.1 Ws Hf) as [W' E].
  split; simpl; try done. intros i l Hl. destruct (Hp i l Hl) as (Hok & script & Hs & HF).
  destruct (sc_project _ _ _ _ Ws W' E Hs) as (script' & Hs' & He). split; [done |].
  exists script'. split; [done |]. by rewrite He.
Qed.

(** References survive when every set keeps its project and the defaults in use. *)
Lemma references_kept enums enums' p l :
  (forall i r o, enums !! i = Some r -> o ∈ ParameterEnumSetRecord.options r ->
     (exists d x, d ∈ l /\ ScriptParameterDefinition.enum_set_id d = Some i
        /\ json_identity (ScriptParameterDefinition.default_value d) = Ok x
        /\ json_identity (ParameterEnumOption.value o) = Ok x) ->
     exists r' o' , enums' !! i = Some r' /\ ParameterEnumSetRecord.project_id r' = ParameterEnumSetRecord.project_id r
       /\ o' ∈ ParameterEnumSetRecord.options r'
       /\ json_identity (ParameterEnumOption.value o') = json_identity (ParameterEnumOption.value o)) ->
  Forall (reference_ok enums p) l -> Forall (reference_ok enums' p) l.
Proof.
  rewrite !Forall_forall. intros Hk HF d Hd i Hi. destruct (HF d Hd i Hi) as (r & o & x & Hr & Hp & Ho & Hx & Hox).
  destruct (Hk i r o Hr Ho) as (r' & o' & Hr' & Hp' & Ho' & He); [by exists d, x |].
  exists r', o', x. split_and!; try done; congruence.
Qed.

Lemma create_enum_good now f p n d os w :
  parameter_wf w -> _enums w.2 !! f = None -> parameter_wf (w.1, (create_enum_set now f p n d os w.2).2).
Proof.
  destruct w as [sc s]. intros W Hf. simpl in *. unfold create_enum_set, bind, lift, get, put, ret, raise.
  destruct (validate_enum_values n os) as [[nm vs]|e] eqn:Ev; cbn [fst snd]; [| done].
  destruct (has_key _ _) eqn:Ek; cbn [fst snd]; [done |]. apply has_key_false in Ek.
  unfold validate_enum_values in Ev. destruct (_ || _); [done |]. apply rbind_Ok in Ev as (vs' & Hvs & [= <- <-]).
  apply validate_options_Ok in Hvs as (l & Hl & Hnd & _).
  set (record := ParameterEnumSetRecord.mk f p (strip n) d vs' 0 now now).
  destruct W as [Ws Hid Ho Hx Hp]. split; simpl in *; [done | | | |].
  - intros i r Hr. dict_case; [done | by apply Hid].
  - intros i r Hr. dict_case; [by exists l | by eapply Ho].
  - by apply (indexed_create enum_key _ _ f record).
  - intros i ps Hps. destruct (Hp i ps Hps) as (Hok & script & Hs & HF). split; [done |]. exists script.
    split; [done |]. eapply references_kept; [| exact HF].
    intros j r o Hr Hor _. exists r, o. split_and!; try done. by dict_case.
Qed.

Lemma elem_of_all_parameters s d : d ∈ all_parameters s <-> exists i l, _parameters s !! i = Some l /\ d ∈ l.
Proof.
  unfold all_parameters. rewrite list_elem_of_In, in_concat. setoid_rewrite <- list_elem_of_In.
  setoid_rewrite elem_of_values. naive_solver.
Qed.

(** Every default in use is among the new options. *)
Lemma existing_defaults_Ok i options s :
  _validate_existing_defaults i options s = Ok tt ->
  forall d, d ∈ all_parameters s -> ScriptParameterDefinition.enum_set_id d = Some i ->
    exists o x, o ∈ options /\ json_identity (ScriptParameterDefinition.default_value d) = Ok x
      /\ json_identity (ParameterEnumOption.value o) = Ok x.
Proof.
  intros (ids & Hids & Hx)%rbind_Ok. revert Hx. induction (all_parameters s) as [|e l IH]; simpl;
    [by intros _ d ?%elem_of_nil |].
  intros ([] & He & Hx)%rbind_Ok d [->|Hd]%elem_of_cons Hi; [| by apply IH].
  unfold refers_to in He. rewrite bool_decide_true in He by done.
  apply rbind_Ok in He as (x & Hxd & He). case_bool_decide as Hin; [| done].
  apply rmap_Ok in Hids. apply list_elem_of_lookup in Hin as [k Hk].
  destruct (Forall2_lookup_r _ _ _ _ _ Hids Hk) as (o & Ho & Hox). exists o, x.
  split_and!; [by eapply list_elem_of_lookup_2 | done | done].
Qed.

(** What [update_enum_set] does when it succeeds; otherwise it does nothing. *)
Lemma update_enum_cases rd i v n d os s :
  indexed enum_key (_enums s) (_names s) ->
  (exists e, update_enum_set rd i v n d os s = (Err e, s))
  \/ exists nm vs r, validate_enum_values n os = Ok (nm, vs) /\ _enums s !! i = Some r
       /\ ParameterEnumSetRecord.state_version r = v
       /\ _validate_existing_defaults i vs s = Ok tt
       /\ let r' := ParameterEnumSetRecord.update rd r nm d vs in
          (_names s !! enum_key r' = None \/ _names s !! enum_key r' = Some i)
          /\ update_enum_set rd i v n d os s = (Ok r', mk (<[i:=r']> (_enums s))
               (if bool_decide (enum_key r' = enum_key r) then _names s
                else <[enum_key r':=i]> (delete (enum_key r) (_names s))) (_parameters s)).
Proof.
  intros Hidx. unfold update_enum_set, get_enum_set, bind, lift, get, put, ret, raise.
  destruct (validate_enum_values n os) as [[nm vs]|e]; cbn [fst snd]; [| left; eauto].
  destruct (_enums s !! i) as [r|] eqn:Er; cbn [fst snd]; [| left; eauto].
  destruct (Z.eqb_spec (ParameterEnumSetRecord.state_version r) v) as [Hv|Hv]; cbn [negb]; [| left; eauto].
  destruct (match _names s !! (ParameterEnumSetRecord.project_id r, nm) with Some o => _ | None => _ end) eqn:Eo;
    [left; eauto |].
  destruct (_validate_existing_defaults i vs s) as [[]|e] eqn:Ed; cbn [fst snd]; [| left; eauto].
  right. exists nm, vs, r. split_and!; try done.
  - unfold enum_key. simpl. destruct (_names s !! (ParameterEnumSetRecord.project_id r, nm)) as [o|]; [| by left].
    apply negb_false_iff, bool_decide_eq_true in Eo. right. by rewrite Eo.
  - pose proof (indexed_owner enum_key _ _ _ _ Hidx Er) as Hown.
    destruct (decide (ParameterEnumSetRecord.name r = nm)) as [Hn|Hn].
    + rewrite (bool_decide_true (ParameterEnumSetRecord.name r = nm)) by done. cbn [negb fst snd].
      rewrite bool_decide_true by (unfold enum_key; simpl; by rewrite Hn). done.
    + rewrite (bool_decide_false (ParameterEnumSetRecord.name r = nm)) by done. cbn [negb].
      unfold enum_key in Hown. rewrite (py_del_Ok _ _ _ Hown). cbn [fst snd].
      rewrite bool_decide_false by (unfold enum_key; simpl; congruence). done.
Qed.

Lemma update_enum_good rd i v n d os w :
  parameter_wf w -> parameter_wf (w.1, (update_enum_set rd i v n d os w.2).2).
Proof.
  destruct w as [sc s]. intros W. cbn [fst snd]. destruct (update_enum_cases rd i v n d os s (paw_index _ W)) as
    [(e & ->) | (nm & vs & r & Hv & Hr & _ & Hd & Hfree & ->)]; [done |].
  set (r' := ParameterEnumSetRecord.update rd r nm d vs) in *.
  unfold validate_enum_values in Hv. destruct (_ || _); [done |]. apply rbind_Ok in Hv as (vs' & Hvs & [= _ ->]).
  apply validate_options_Ok in Hvs as (l & Hl & Hnd & _).
  pose proof (indexed_update enum_key _ _ _ _ r' (paw_index _ W) Hr Hfree) as Hidx.
  destruct W as [Ws Hid Ho Hx Hp]. split; simpl in *; [done | | | done |].
  - intros j x Hx'. dict_case; [simpl; by apply Hid | by apply Hid].
  - intros j x Hx'. dict_case; [by exists l | by eapply Ho].
  - intros j ps Hps. destruct (Hp j ps Hps) as (Hok & script & Hs & HF). split; [done |]. exists script.
    split; [done |]. eapply references_kept; [| exact HF].
    intros k x o Hk Hko (e & y & He & Hei & Hey & Hoy). destruct (decide (k = i)) as [->|Hne].
    + assert (x = r) as -> by congruence.
      destruct (existing_defaults_Ok _ _ _ Hd e) as (o' & y' & Ho' & Hey' & Hoy');
        [apply elem_of_all_parameters; eauto | done |].
      exists r', o'. rewrite dict_lookup_insert_eq. split_and!; try done. congruence.
    + exists x, o. rewrite dict_lookup_insert_ne by done. done.
Qed.

(** [delete_enum_set] in closed form. *)
Lemma delete_enum_eq i s :
  indexed enum_key (_enums s) (_names s) ->
  delete_enum_set i s =
  match _enums s !! i with
  | None => (Err ParameterEnumNotFound, s)
  | Some r => if existsb (refers_to i) (all_parameters s) then (Err ParameterEnumConflict, s)
              else (Ok tt, mk (delete i (_enums s)) (delete (enum_key r) (_names s)) (_parameters s))
  end.
Proof.
  intros Hidx. unfold delete_enum_set, get_enum_set, bind, lift, get, put, raise.
  destruct (_enums s !! i) as [r|] eqn:Er; cbn [fst snd]; [| done].
  destruct (existsb _ _); [done |]. cbn [fst snd].
  pose proof (indexed_owner enum_key _ _ _ _ Hidx Er) as Hown. unfold enum_key in Hown.
  by rewrite (py_del_Ok _ _ _ Hown).
Qed.

Lemma unreferenced i s : existsb (refers_to i) (all_parameters s) = false ->
  forall d, d ∈ all_parameters s -> ScriptParameterDefinition.enum_set_id d <> Some i.
Proof.
  intros Hx d Hd Hi. assert (existsb (refers_to i) (all_parameters s) = true); [| congruence].
  apply existsb_exists. exists d. split; [by apply list_elem_of_In | by apply bool_decide_eq_true].
Qed.

Lemma delete_enum_good i w : parameter_wf w -> parameter_wf (w.1, (delete_enum_set i w.2).2).
Proof.
  destruct w as [sc s]. intros W. cbn [fst snd]. rewrite delete_enum_eq by apply W.
  destruct (_enums s !! i) as [r|] eqn:Er; [| done]. destruct (existsb _ _) eqn:Eu; [done |].
  pose proof (unreferenced _ _ Eu) as Hun. destruct W as [Ws Hid Ho Hx Hp]. split; simpl in *; [done | | | |].
  - intros j x Hj. dict_case; by apply Hid.
  - intros j x Hj. dict_case; by eapply Ho.
  - by apply indexed_delete.
  - intros j ps Hps. destruct (Hp j ps Hps) as (Hok & script & Hs & HF). split; [done |]. exists script.
    split; [done |]. eapply references_kept; [| exact HF].
    intros k x o Hk Hko (e & y & He & Hei & _). exists x, o.
    rewrite dict_lookup_delete_ne; [done |]. intros ->. apply (Hun e); [| done].
    apply elem_of_all_parameters. eauto.
Qed.

Lemma parameter_enums_Ok p l s :
  _validate_parameter_enums p l s = Ok tt -> Forall (reference_ok (_enums s) p) l.
Proof.
  unfold _validate_parameter_enums. induction l as [|d l IH]; simpl; [constructor |].
  intros ([] & Hd & Hl)%rbind_Ok. constructor; [| by apply IH].
  intros i Hi. unfold validate_parameter_enum, get_enum_set in Hd. rewrite Hi in Hd. simpl in Hd.
  destruct (_enums s !! i) as [r|] eqn:Er; [| by case_bool_decide].
  case_bool_decide as Hp; [| done]. simpl in Hd. apply rbind_Ok in Hd as (x & Hx & Hd).
  apply rbind_Ok in Hd as (ids & Hids & Hd). case_bool_decide as Hin; [| done].
  apply rmap_Ok in Hids. apply list_elem_of_lookup in Hin as [k Hk].
  destruct (Forall2_lookup_r _ _ _ _ _ Hids Hk) as (o & Ho & Hox). exists r, o, x.
  split_and!; try done. by eapply list_elem_of_lookup_2.
Qed.

Lemma replace_good i ds w :
  parameter_wf w -> parameter_wf (w.1, (replace_script_parameters w.1 i ds w.2).2).
Proof.
  destruct w as [sc s]. intros W. unfold replace_script_parameters, bind, lift, get, put, ret. cbn [fst snd].
  destruct (validate_parameter_definitions ds) as [vs|e] eqn:Ev; cbn [fst snd]; [| done].
  destruct (sc_get_script i sc) as [script|e] eqn:Es; cbn [fst snd]; [| done].
  destruct (_validate_parameter_enums _ _ _) as [[]|e] eqn:Ee; cbn [fst snd]; [| done].
  apply validate_parameters_Ok in Ev. apply parameter_enums_Ok in Ee.
  destruct W as [Ws Hid Ho Hx Hp]. split; simpl in *; try done.
  intros j l Hl. dict_case; [| by apply Hp]. split; [done |]. by exists script.
Qed.

#[export,refine] Instance parameter_store : Store (SC * t) parameter_op := {|
  st_init := (st_init, init); st_op := parameter_step; st_fresh := parameter_fresh; st_wf := parameter_wf;
  st_evolves _ _ := True |}.
Proof.
  - by split.
  - split; simpl; try done; [apply st_init_wf | apply indexed_empty].
  - intros [] w W Hf; split; try done; cbn [parameter_step parameter_fresh] in *.
    + by apply scripts_good.
    + by apply create_enum_good.
    + by apply update_enum_good.
    + by apply delete_enum_good.
    + by apply replace_good.
Defined.

(** C16. Stored script parameters are well typed: whatever was called before on the scripts
    and the parameters, the parameters of a readable script are listed by position,
    positions and names distinct, every name an identifier; a parameter has a set exactly
    when its type is ENUM, and then the set is stored, of the script's project, and the
    default is one of its options. *)
Theorem parameters_well_typed i w script :
  st_reachable w -> sc_get_script i w.1 = Ok script ->
  exists l, list_script_parameters w.1 i w.2 = (Ok l, w.2) /\ parameters_ok l
    /\ forall d, d ∈ l ->
         (ScriptParameterDefinition.input_type d = ParameterInputType.ENUM
          <-> is_Some (ScriptParameterDefinition.enum_set_id d))
         /\ forall j, ScriptParameterDefinition.enum_set_id d = Some j ->
              exists r o x, get_enum_set j w.2 = (Ok r, w.2)
                /\ ParameterEnumSetRecord.project_id r = AutomationScriptRecord.project_id script
                /\ o ∈ ParameterEnumSetRecord.options r
                /\ json_identity (ScriptParameterDefinition.default_value d) = Ok x
                /\ json_identity (ParameterEnumOption.value o) = Ok x.
Proof.
  intros W%st_reachable_wf Hs. simpl in W. destruct w as [sc s]. cbn [fst snd] in *.
  unfold list_script_parameters, bind, lift, get, ret. rewrite Hs. cbn [fst snd].
  exists (default [] (_parameters s !! i)). split; [done |].
  destruct (_parameters s !! i) as [l|] eqn:El; cbn [default from_option id].
  - destruct (paw_parameters _ W _ _ El) as (Hok & script' & Hs' & HF). cbn [fst snd] in *.
    assert (script' = script) as -> by congruence. split; [done |]. intros d Hd. split.
    + apply do_enum. destruct Hok as [HE _ _]. rewrite Forall_forall in HE. by apply HE.
    + rewrite Forall_forall in HF. intros j Hj. destruct (HF d Hd j Hj) as (r & o & x & Hr & Hrest).
      exists r, o, x. split; [| done]. unfold get_enum_set. by rewrite Hr.
  - split; [split; constructor |]. by intros d ?%elem_of_nil.
Qed.

(** A set of options that is in use cannot be lost: [delete_enum_set] removes a stored
    set exactly when no parameter of any script refers to it, [update_enum_set] refuses
    options without a default in use, and both leave everything as it was when they
    refuse. *)
Theorem enum_sets_in_use i w :
  st_reachable w ->
  (forall r, get_enum_set i w.2 = (Ok r, w.2) ->
     (delete_enum_set i w.2).1 = Ok tt <->
     forall k l d, _parameters w.2 !! k = Some l -> d ∈ l -> ScriptParameterDefinition.enum_set_id d <> Some i)
  /\ (forall e s', delete_enum_set i w.2 = (Err e, s') -> s' = w.2)
  /\ (forall rd v n d os r' s', update_enum_set rd i v n d os w.2 = (Ok r', s') ->
        forall k l p, _parameters w.2 !! k = Some l -> p ∈ l -> ScriptParameterDefinition.enum_set_id p = Some i ->
          exists o x, o ∈ ParameterEnumSetRecord.options r'
            /\ json_identity (ScriptParameterDefinition.default_value p) = Ok x
            /\ json_identity (ParameterEnumOption.value o) = Ok x)
  /\ (forall rd v n d os e s', update_enum_set rd i v n d os w.2 = (Err e, s') -> s' = w.2).
Proof.
  intros W%st_reachable_wf. simpl in W. destruct w as [sc s]. cbn [fst snd] in *.
  pose proof (paw_index _ W) as Hidx. cbn [snd] in Hidx. split_and!.
  - intros r Hr. rewrite delete_enum_eq by done. unfold get_enum_set in Hr.
    destruct (_enums s !! i) as [r0|]; [| done].
    destruct (existsb (refers_to i) (all_parameters s)) eqn:Eu; cbn [fst].
    + split; [done |]. intros Hno. apply existsb_exists in Eu as (d & Hd & Hi). apply list_elem_of_In in Hd.
      apply elem_of_all_parameters in Hd as (k & l & Hk & Hd). apply bool_decide_eq_true in Hi.
      by destruct (Hno k l d Hk Hd).
    + split; [| done]. intros _ k l d Hk Hd. apply (unreferenced _ _ Eu), elem_of_all_parameters. eauto.
  - intros e s'. rewrite delete_enum_eq by done. destruct (_enums s !! i); [| by intros [= _ <-]].
    destruct (existsb _ _); [by intros [= _ <-] | done].
  - intros rd v n d os r' s' Hu k l p Hk Hp Hi.
    destruct (update_enum_cases rd i v n d os s Hidx) as [(e & He) | (nm & vs & r & _ & _ & _ & Hd & _ & He)];
      rewrite He in Hu; [done |]. injection Hu as <- _. simpl.
    apply (existing_defaults_Ok _ _ _ Hd p); [| done]. apply elem_of_all_parameters. eauto.
  - intros rd v n d os e s' Hu.
    destruct (update_enum_cases rd i v n d os s Hidx) as [(e' & He) | (nm & vs & r & _ & _ & _ & _ & _ & He)];
      rewrite He in Hu; [by injection Hu | done].
Qed.
End repository.
Arguments parameter_op : clear implicits.

(** ** The repository of scripts as a reader *)
Section scripts.
  Context {TC Op : Type} `{!TestCaseReader TC Op}.

#[export,refine] Instance automation_scripts : ScriptReader (TC * AutomationRepository.t) (automation_op Op) := {|
  sc_store := automation_store; sc_get_script i s := (AutomationRepository.get_script i s.2).1 |}.
Proof.
  intros i s s' r W W' E. unfold AutomationRepository.get_script. simpl.
  destruct (AutomationRepository._scripts s.2 !! i) as [x|] eqn:Ex; [| done]. intros [= ->].
  destruct (grows_rtc _ _ _ _ _ _ (aw_scripts _ W) (aw_scripts _ W') (ae_scripts _ _ E) Ex) as (r' & Hr' & Hn).
  exists r'. rewrite Hr'. split; [done |].
  eapply (rtc_preserves rv_next); [| exact Hn]. intros a b Hab. by destruct Hab as (_ & ? & _).
Defined.
End scripts.

(** * Concrete script parameters

    On the scripts of [AssetsExamples]: a set of browsers and a parameter of script 3 that
    refers to it. *)
Import ParameterRepository.
Open Scope list_scope.

Definition parameter_floats : PyFloat := fun _ _ => "0.5"%string.
#[local] Existing Instance parameter_floats.

Definition browsers : list ParameterEnumOption.t :=
  [ParameterEnumOption.mk " Chromium " (PStr "chromium"); ParameterEnumOption.mk "Firefox" (PStr "firefox")].
Definition browser_parameter : ScriptParameterDefinition.t :=
  ScriptParameterDefinition.mk "browser" "Browser" ParameterInputType.ENUM true (Some 70%N) (PStr "firefox") 1.
Definition retries_parameter : ScriptParameterDefinition.t :=
  ScriptParameterDefinition.mk "retries" "Retries" ParameterInputType.INTEGER false None (PInt 0) 0.

Definition demo_parameter_ops : list (parameter_op (automation_op quality_op)) :=
  map (OpScripts (SOp:=automation_op quality_op)) demo_script_ops ++
  [OpCreateEnum 300 70%N 5%N " Browsers " "" browsers;
   OpReplaceParameters 3%N [browser_parameter; retries_parameter]].
Definition demo_parameters : (QualityRepository.t * AutomationRepository.t) * t :=
  st_ops demo_parameter_ops ((QualityRepository.init, AutomationRepository.init), init).

Lemma demo_parameters_reachable : st_reachable (H:=parameter_store) demo_parameters.
Proof. apply (st_ops_reachable demo_parameter_ops); [exact (st_reachable_init (H:=parameter_store)) | by vm_compute]. Qed.

Lemma parameters_well_typed_witness :
  exists l, list_script_parameters (SOp:=automation_op quality_op) demo_parameters.1 3%N demo_parameters.2 = (Ok l, demo_parameters.2)
    /\ parameters_ok l /\ map ScriptParameterDefinition.name l = ["retries"; "browser"]%string.
Proof.
  destruct (sc_get_script (Op:=automation_op quality_op) 3%N demo_parameters.1) as [script|e] eqn:E;
    [| exfalso; revert E; vm_compute; discriminate].
  destruct (parameters_well_typed (SOp:=automation_op quality_op) 3%N demo_parameters script
    demo_parameters_reachable E) as (l & Hl & Hok & _).
  exists l. split; [exact Hl |]. split; [exact Hok |]. revert Hl. vm_compute. by intros [= <-].
Defined.

Lemma enum_sets_in_use_witness :
  exists e, delete_enum_set 70%N demo_parameters.2 = (Err e, demo_parameters.2).
Proof.
  destruct (delete_enum_set 70%N demo_parameters.2) as [[[]|e] s'] eqn:E; [exfalso; revert E; vm_compute; discriminate |].
  destruct (enum_sets_in_use (SOp:=automation_op quality_op) 70%N demo_parameters demo_parameters_reachable)
    as (_ & Hd & _).
  exists e. by rewrite (Hd _ _ E).
Defined.
