(* ===== verification/Connectors.v ===== *)
(** * Connectors
    ([src/services/api/connector_domain.py], [src/services/api/connector_repository.py])

    External systems with an encrypted credential.  The in-memory [ConnectorRepository]
    indexes them by the case-folded name; the encryptor is that of [EnvironmentCrypto], and
    the random bytes it draws are an argument. *)
From S2P Require Import Prelude PyDict PyText TextFacts Versioned EnvironmentCrypto ResolverTheorems.
Open Scope list_scope.

(** ** Records *)

Module ConnectorKind.
Inductive t := MCP | HTTP.
#[global] Instance eq_dec : EqDecision t.
Proof. solve_decision. Defined.
End ConnectorKind.

Module ConnectorAuthType.
Inductive t := NONE | BEARER | API_KEY.
#[global] Instance eq_dec : EqDecision t.
Proof. solve_decision. Defined.
End ConnectorAuthType.

Module ConnectorTool.
Record t := mk { name : string; description : string; input_schema : list (string * pyval) }.
End ConnectorTool.

Module ConnectorRecord.
Record t := mk {
  id : uuid; name : string; description : string; kind : ConnectorKind.t; base_url : string;
  auth_type : ConnectorAuthType.t; auth_header : string; enabled : bool; timeout_seconds : Z;
  state_version : Z; secret_revision : Z; credential : option EncryptedSecret.t;
  tools : list ConnectorTool.t; last_tested_at : option datetime; last_test_success : option bool;
  last_error : option string; created_at : datetime; updated_at : datetime }.

Definition credential_configured (r : t) : bool :=
  match credential r with Some _ => true | None => false end.

(** [update] with the changes the three callers make, each the fields it names. *)
Definition update_settings (read : datetime) (r : t) (name description : string) (kind : ConnectorKind.t)
    (base_url : string) (auth_type : ConnectorAuthType.t) (auth_header : string)
    (credential : option EncryptedSecret.t) (secret_revision : Z) (enabled : bool) (timeout_seconds : Z) : t :=
  mk (id r) name description kind base_url auth_type auth_header enabled timeout_seconds
     (state_version r + 1)%Z secret_revision credential (tools r) (last_tested_at r)
     (last_test_success r) (last_error r) (created_at r) read.
Definition update_enabled (read : datetime) (r : t) (enabled : bool) : t :=
  mk (id r) (name r) (description r) (kind r) (base_url r) (auth_type r) (auth_header r) enabled
     (timeout_seconds r) (state_version r + 1)%Z (secret_revision r) (credential r) (tools r)
     (last_tested_at r) (last_test_success r) (last_error r) (created_at r) read.
Definition update_test (read : datetime) (r : t) (tools : list ConnectorTool.t) (tested_at : datetime)
    (success : bool) (error : option string) : t :=
  mk (id r) (name r) (description r) (kind r) (base_url r) (auth_type r) (auth_header r) (enabled r)
     (timeout_seconds r) (state_version r + 1)%Z (secret_revision r) (credential r) tools
     (Some tested_at) (Some success) error (created_at r) read.
End ConnectorRecord.

(** ** Names and credentials *)

Definition validate_connector_name (name : string) : res string :=
  bounded_text 255 "connector name must contain 1 to 255 characters" name.

Definition validate_credential (auth_type : ConnectorAuthType.t) (credential : option string) : res unit :=
  if bool_decide (auth_type = ConnectorAuthType.NONE) then Ok tt
  else match credential with
       | None => Err ConnectorCredentialRequired
       | Some c => if empty_str c || (65536 <? py_len c)%Z then Err ConnectorCredentialRequired else Ok tt
       end.

(** ** The repository *)
Module ConnectorRepository.
Record t := mk {
  _records : pydict uuid ConnectorRecord.t;
  _names : pydict (list N) uuid }.
Definition init : t := mk ∅ ∅.

Definition get_connector (connector_id : uuid) : M t ConnectorRecord.t := fun s =>
  (match _records s !! connector_id with Some r => Ok r | None => Err ConnectorNotFound end, s).

Definition list_connectors : M t (list ConnectorRecord.t) :=
  let* s := get in ret (py_sorted (by_key ConnectorRecord.created_at) (values (_records s))).

Definition _check_version (record : ConnectorRecord.t) (expected : Z) : res unit :=
  if negb (ConnectorRecord.state_version record =? expected)%Z then Err ConnectorVersionConflict else Ok tt.

Section operations.
  Context `{PyFloat} `{Aead} (_encryptor : SecretEncryptor.t).

Definition create_connector (now : datetime) (fresh : uuid) (draw : Draw.t) (name description : string)
    (kind : ConnectorKind.t) (base_url : string) (auth_type : ConnectorAuthType.t) (auth_header : string)
    (credential : option string) (enabled : bool) (timeout_seconds : Z) : M t ConnectorRecord.t :=
  let* normalized := lift (validate_connector_name name) in
  lift (validate_credential auth_type credential) ;;;
  let* encrypted :=
    if negb (bool_decide (auth_type = ConnectorAuthType.NONE)) then
      let* x := lift (SecretEncryptor.encrypt_connector _encryptor draw (default EmptyString credential) fresh 1) in
      ret (Some x)
    else ret None in
  let record := ConnectorRecord.mk fresh normalized description kind base_url auth_type auth_header enabled
                  timeout_seconds 0 (match encrypted with Some _ => 1 | None => 0 end) encrypted [] None None None
                  now now in
  let* s := get in
  if has_key (casefold normalized) (_names s) then raise ConnectorNameConflict
  else
    put (mk (<[fresh:=record]> (_records s)) (<[casefold normalized:=fresh]> (_names s))) ;;;
    ret record.

(** The credential and secret revision an update leaves. *)
Definition next_credential (draw : Draw.t) (connector_id : uuid) (current : ConnectorRecord.t)
    (auth_type : ConnectorAuthType.t) (credential : option string) (credential_provided : bool)
    : res (option EncryptedSecret.t * Z) :=
  let encrypted := ConnectorRecord.credential current in
  let revision := ConnectorRecord.secret_revision current in
  if bool_decide (auth_type = ConnectorAuthType.NONE) then
    Ok (None, revision + (if ConnectorRecord.credential_configured current then 1 else 0))%Z
  else if credential_provided then
    let? _ := validate_credential auth_type credential in
    let? x := SecretEncryptor.encrypt_connector _encryptor draw (default EmptyString credential) connector_id
                (revision + 1) in
    Ok (Some x, revision + 1)%Z
  else match encrypted with
       | None => Err ConnectorCredentialRequired
       | Some _ => Ok (encrypted, revision)
       end.

Definition update_connector (read : datetime) (draw : Draw.t) (connector_id : uuid) (expected_version : Z)
    (name description : string) (kind : ConnectorKind.t) (base_url : string) (auth_type : ConnectorAuthType.t)
    (auth_header : string) (credential : option string) (credential_provided : bool) (enabled : option bool)
    (timeout_seconds : Z) : M t ConnectorRecord.t :=
  let* normalized := lift (validate_connector_name name) in
  let* current := get_connector connector_id in
  lift (_check_version current expected_version) ;;;
  let* s := get in
  if match _names s !! casefold normalized with
     | Some owner => negb (bool_decide (owner = connector_id))
     | None => false
     end then raise ConnectorNameConflict
  else
    let* '(encrypted, revision) :=
      lift (next_credential draw connector_id current auth_type credential credential_provided) in
    let updated := ConnectorRecord.update_settings read current normalized description kind base_url auth_type
                     auth_header encrypted revision (default (ConnectorRecord.enabled current) enabled)
                     timeout_seconds in
    let* names :=
      if negb (bool_decide (casefold normalized = casefold (ConnectorRecord.name current))) then
        let* removed := lift (py_del (casefold (ConnectorRecord.name current)) (_names s)) in
        ret (<[casefold normalized:=connector_id]> removed)
      else ret (_names s) in
    put (mk (<[connector_id:=updated]> (_records s)) names) ;;;
    ret updated.

Definition set_enabled (read : datetime) (connector_id : uuid) (enabled : bool) (expected_version : Z)
    : M t ConnectorRecord.t :=
  let* current := get_connector connector_id in
  lift (_check_version current expected_version) ;;;
  let updated := ConnectorRecord.update_enabled read current enabled in
  let* s := get in
  put (mk (<[connector_id:=updated]> (_records s)) (_names s)) ;;;
  ret updated.

(** Two clock readings: of the test and of the update. *)
Definition record_test (tested_at read : datetime) (connector_id : uuid) (expected_version : Z) (success : bool)
    (tools : list ConnectorTool.t) (error : option string) : M t ConnectorRecord.t :=
  let* current := get_connector connector_id in
  lift (_check_version current expected_version) ;;;
  let updated := ConnectorRecord.update_test read current tools tested_at success error in
  let* s := get in
  put (mk (<[connector_id:=updated]> (_records s)) (_names s)) ;;;
  ret updated.

Definition delete_connector (connector_id : uuid) : M t unit :=
  let* current := get_connector connector_id in
  let* s := get in
  put (mk (delete connector_id (_records s)) (_names s)) ;;;
  let* names := lift (py_del (casefold (ConnectorRecord.name current)) (_names s)) in
  put (mk (delete connector_id (_records s)) names).

Definition credential_for (record : ConnectorRecord.t) : res (option string) :=
  match ConnectorRecord.credential record with
  | None => Ok None
  | Some x =>
      let? text := SecretEncryptor.decrypt_connector _encryptor x (ConnectorRecord.id record)
                     (ConnectorRecord.secret_revision record) in
      Ok (Some text)
  end.
End operations.
End ConnectorRepository.

(** * Theorems about connectors *)
Import ConnectorRepository.
Open Scope list_scope.

Section connectors.
  Context `{PyFloat} `{HA : Aead} `{!AeadLaws HA} (e : SecretEncryptor.t).

(** A credential decrypts in the place it was encrypted for. *)
Lemma connector_roundtrip d v i q x :
  SecretEncryptor.encrypt_connector e d v i q = Ok x -> SecretEncryptor.decrypt_connector e x i q = Ok v.
Proof.
  unfold SecretEncryptor.encrypt_connector, SecretEncryptor.decrypt_connector.
  destruct (SecretEncryptor._require_key e) as [[key kid]|]; cbn [rbind]; [| done].
  destruct (canonical_connector_aad i q) as [aad|]; cbn [rbind]; [| done]. intros [= <-].
  by rewrite seal_not_foreign, unseal_seal.
Qed.

Lemma credential_Ok a c : a <> ConnectorAuthType.NONE ->
  validate_credential a c = Ok tt <-> exists v, c = Some v /\ (1 <= py_len v <= 65536)%Z.
Proof.
  intros Ha. unfold validate_credential. rewrite bool_decide_false by done. destruct c as [v|].
  - assert (empty_str v = false <-> (1 <= py_len v)%Z) as He.
    { unfold empty_str, py_len. rewrite bool_decide_eq_false. destruct v; simpl; split; try done; intros; lia. }
    destruct (empty_str v) eqn:Ee; cbn [orb].
    + split; [done |]. intros (w & [= <-] & Hl & _). apply He in Hl. congruence.
    + destruct (Z.ltb_spec 65536 (py_len v)).
      * split; [done |]. intros (w & [= <-] & _ & ?). lia.
      * split; [intros _ | done]. exists v. split; [done |]. split; [by apply He | lia].
  - split; [done | by intros (? & ? & _)].
Qed.

(** A stored credential matches the kind of authentication. *)
Definition credential_ok (r : ConnectorRecord.t) : Prop :=
  if bool_decide (ConnectorRecord.auth_type r = ConnectorAuthType.NONE)
  then ConnectorRecord.credential r = None
  else exists v, credential_for e r = Ok (Some v) /\ (1 <= py_len v <= 65536)%Z.

Definition name_key (r : ConnectorRecord.t) : list N := casefold (ConnectorRecord.name r).

Record connector_wf (s : t) : Prop := {
  cw_id : forall i r, _records s !! i = Some r -> ConnectorRecord.id r = i;
  cw_name : forall i r, _records s !! i = Some r ->
    validate_connector_name (ConnectorRecord.name r) = Ok (ConnectorRecord.name r);
  cw_index : indexed name_key (_records s) (_names s);
  cw_credential : forall i r, _records s !! i = Some r -> credential_ok r }.

Inductive connector_op : Type :=
  | OpCreateConnector (now : datetime) (fresh : uuid) (draw : Draw.t) (name description : string)
      (kind : ConnectorKind.t) (url : string) (auth : ConnectorAuthType.t) (header : string)
      (credential : option string) (enabled : bool) (timeout : Z)
  | OpUpdateConnector (read : datetime) (draw : Draw.t) (i : uuid) (expected : Z) (name description : string)
      (kind : ConnectorKind.t) (url : string) (auth : ConnectorAuthType.t) (header : string)
      (credential : option string) (provided : bool) (enabled : option bool) (timeout : Z)
  | OpSetEnabled (read : datetime) (i : uuid) (enabled : bool) (expected : Z)
  | OpRecordTest (tested read : datetime) (i : uuid) (expected : Z) (success : bool)
      (tools : list ConnectorTool.t) (error : option string)
  | OpDeleteConnector (i : uuid).

Definition connector_step (o : connector_op) (s : t) : t :=
  match o with
  | OpCreateConnector now f d n ds k u a h c en tm => (create_connector e now f d n ds k u a h c en tm s).2
  | OpUpdateConnector rd d i v n ds k u a h c p en tm => (update_connector e rd d i v n ds k u a h c p en tm s).2
  | OpSetEnabled rd i en v => (set_enabled rd i en v s).2
  | OpRecordTest ta rd i v ok ts er => (record_test ta rd i v ok ts er s).2
  | OpDeleteConnector i => (delete_connector i s).2
  end.

Definition connector_fresh (o : connector_op) (s : t) : Prop :=
  match o with OpCreateConnector _ f _ _ _ _ _ _ _ _ _ _ => _records s !! f = None | _ => True end.

Lemma connector_name_idemp name n : validate_connector_name name = Ok n -> validate_connector_name n = Ok n.
Proof.
  unfold validate_connector_name. intros Hb. apply bounded_text_Ok in Hb as (-> & Hi & He & Hl).
  unfold bounded_text, empty_str. rewrite Hi, bool_decide_false by done. simpl.
  by replace (255 <? py_len (strip name))%Z with false by (symmetry; apply Z.ltb_ge; lia).
Qed.

(** ** Creation *)

Lemma create_connector_cases now f d n ds k u a h c en tm s :
  (exists x, create_connector e now f d n ds k u a h c en tm s = (Err x, s))
  \/ exists nm r, validate_connector_name n = Ok nm /\ _names s !! casefold nm = None
       /\ ConnectorRecord.id r = f /\ ConnectorRecord.name r = nm /\ ConnectorRecord.state_version r = 0%Z
       /\ credential_for e r = Ok (if bool_decide (a = ConnectorAuthType.NONE) then None else c) /\ credential_ok r
       /\ create_connector e now f d n ds k u a h c en tm s =
            (Ok r, mk (<[f:=r]> (_records s)) (<[casefold nm:=f]> (_names s))).
Proof.
  unfold create_connector, bind, lift, get, put, ret, raise.
  destruct (validate_connector_name n) as [nm|]; cbn [fst snd]; [| left; eauto].
  destruct (validate_credential a c) as [[]|] eqn:Ec; cbn [fst snd]; [| left; eauto].
  destruct (decide (a = ConnectorAuthType.NONE)) as [->|Ha].
  - rewrite bool_decide_true by done. cbn [negb fst snd].
    destruct (has_key _ _) eqn:Ek; [left; eauto |]. apply has_key_false in Ek. cbn [fst snd]. right.
    match goal with |- context [<[f:=?y]> (_records s)] => exists nm, y end. by split_and!.
  - rewrite bool_decide_false by done. cbn [negb]. apply credential_Ok in Ec as (v & -> & Hv); [| done].
    cbn [default from_option id].
    destruct (SecretEncryptor.encrypt_connector e d v f 1) as [x|] eqn:Ex; cbn [fst snd]; [| left; eauto].
    destruct (has_key _ _) eqn:Ek; [left; eauto |]. apply has_key_false in Ek. cbn [fst snd]. right.
    match goal with |- context [<[f:=?y]> (_records s)] => exists nm, y end.
    assert (forall r, ConnectorRecord.id r = f -> ConnectorRecord.secret_revision r = 1%Z ->
      ConnectorRecord.credential r = Some x -> credential_for e r = Ok (Some v)) as Hcr.
    { intros r Hi Hr Hc. unfold credential_for. rewrite Hc, Hi, Hr. by rewrite (connector_roundtrip _ _ _ _ _ Ex). }
    split_and!; try done; [by apply Hcr |]. unfold credential_ok. simpl. rewrite bool_decide_false by done.
    exists v. split; [by apply Hcr | done].
Qed.

(** ** Updates *)

(** The credential an update leaves, as [credential_for] reads it. *)
Lemma next_credential_spec d i r a c p x q :
  ConnectorRecord.id r = i -> credential_ok r -> next_credential e d i r a c p = Ok (x, q) ->
  forall r', ConnectorRecord.id r' = i -> ConnectorRecord.auth_type r' = a -> ConnectorRecord.credential r' = x ->
    ConnectorRecord.secret_revision r' = q ->
    credential_for e r' = (if bool_decide (a = ConnectorAuthType.NONE) then Ok None
                           else if p then Ok c else credential_for e r)
    /\ credential_ok r'.
Proof.
  intros Hi Hok Hn r' Hi' Ha Hx Hq. unfold next_credential in Hn. unfold credential_ok. rewrite Ha.
  destruct (decide (a = ConnectorAuthType.NONE)) as [->|Hne].
  { rewrite bool_decide_true in * by done. injection Hn as <- <-. unfold credential_for. by rewrite Hx. }
  rewrite bool_decide_false in * by done. destruct p.
  - apply rbind_Ok in Hn as ([] & Hc & Hn). apply rbind_Ok in Hn as (y & Hy & [= <- <-]).
    apply credential_Ok in Hc as (v & -> & Hv); [| done]. cbn [default from_option id] in Hy.
    assert (credential_for e r' = Ok (Some v)) as Hcr.
    { unfold credential_for. rewrite Hx, Hi', Hq. by rewrite (connector_roundtrip _ _ _ _ _ Hy). }
    split; [done |]. by exists v.
  - destruct (ConnectorRecord.credential r) as [y|] eqn:Ey; [| done]. injection Hn as <- <-.
    assert (credential_for e r' = credential_for e r) as Hcr.
    { unfold credential_for. by rewrite Hx, Ey, Hi', Hi, Hq. }
    split; [done |]. unfold credential_ok in Hok. case_bool_decide; [congruence |].
    destruct Hok as (v & Hv & Hl). exists v. by rewrite Hcr.
Qed.

Lemma update_connector_cases rd d i v n ds k u a h c p en tm s :
  connector_wf s ->
  (exists x, update_connector e rd d i v n ds k u a h c p en tm s = (Err x, s))
  \/ exists nm r r', validate_connector_name n = Ok nm /\ _records s !! i = Some r
       /\ ConnectorRecord.state_version r = v
       /\ (_names s !! casefold nm = None \/ _names s !! casefold nm = Some i)
       /\ ConnectorRecord.id r' = i /\ ConnectorRecord.name r' = nm
       /\ ConnectorRecord.state_version r' = (v + 1)%Z
       /\ credential_for e r' = (if bool_decide (a = ConnectorAuthType.NONE) then Ok None
                                 else if p then Ok c else credential_for e r)
       /\ credential_ok r'
       /\ update_connector e rd d i v n ds k u a h c p en tm s =
            (Ok r', mk (<[i:=r']> (_records s))
              (if bool_decide (name_key r' = name_key r) then _names s
               else <[name_key r':=i]> (delete (name_key r) (_names s)))).
Proof.
  intros W. unfold update_connector, get_connector, _check_version, bind, lift, get, put, ret, raise.
  destruct (validate_connector_name n) as [nm|]; cbn [fst snd]; [| left; eauto].
  destruct (_records s !! i) as [r|] eqn:Er; cbn [fst snd]; [| left; eauto].
  destruct (Z.eqb_spec (ConnectorRecord.state_version r) v) as [Hv|Hv]; cbn [negb fst snd]; [| left; eauto].
  destruct (match _names s !! casefold nm with Some o => _ | None => _ end) eqn:Eo; [left; eauto |].
  destruct (next_credential e d i r a c p) as [[x q]|] eqn:En; cbn [fst snd]; [| left; eauto].
  right. match goal with |- context [<[i:=?y]> (_records s)] => set (r' := y) end.
  exists nm, r, r'. split; [done |]. split; [done |]. split; [done |].
  split. { destruct (_names s !! casefold nm) as [o|]; [| by left].
    apply negb_false_iff, bool_decide_eq_true in Eo. right. by rewrite Eo. }
  pose proof (indexed_owner name_key _ _ _ _ (cw_index _ W) Er) as Hown. unfold name_key in Hown.
  assert (ConnectorRecord.id r' = i) as Hi by by apply (cw_id _ W _ _ Er).
  destruct (next_credential_spec d i r a c p x q (cw_id _ W _ _ Er) (cw_credential _ W _ _ Er) En r') as [Hcr Hok];
    try done.
  assert (name_key r' = casefold nm) as Hkey by done.
  destruct (decide (casefold nm = name_key r)) as [Hs|Hs].
  - rewrite (bool_decide_true (casefold nm = casefold (ConnectorRecord.name r))) by done. cbn [negb fst snd].
    split_and!; [exact Hi | done | by rewrite <- Hv | exact Hcr | exact Hok |].
    by rewrite Hkey, (bool_decide_true (casefold nm = name_key r)).
  - rewrite (bool_decide_false (casefold nm = casefold (ConnectorRecord.name r))) by done. cbn [negb].
    rewrite (py_del_Ok _ _ _ Hown). cbn [fst snd].
    split_and!; [exact Hi | done | by rewrite <- Hv | exact Hcr | exact Hok |].
    by rewrite Hkey, (bool_decide_false (casefold nm = name_key r)).
Qed.

(** ** The other calls *)

(** A change of a record that keeps its name and its credential. *)
Definition keeps (r r' : ConnectorRecord.t) : Prop :=
  ConnectorRecord.id r' = ConnectorRecord.id r /\ ConnectorRecord.name r' = ConnectorRecord.name r
  /\ ConnectorRecord.auth_type r' = ConnectorRecord.auth_type r
  /\ ConnectorRecord.state_version r' = (ConnectorRecord.state_version r + 1)%Z
  /\ credential_for e r' = credential_for e r
  /\ ConnectorRecord.credential r' = ConnectorRecord.credential r.

Lemma keep_good s i r r' :
  connector_wf s -> _records s !! i = Some r -> keeps r r' -> connector_wf (mk (<[i:=r']> (_records s)) (_names s)).
Proof.
  intros W Hr (Hid & Hn & Ha & _ & Hc & Hcr).
  assert (name_key r' = name_key r) as Hk by (unfold name_key; by rewrite Hn).
  pose proof (indexed_update name_key _ _ _ _ r' (cw_index _ W) Hr) as Hidx.
  rewrite Hk, bool_decide_true in Hidx by done.
  split; simpl.
  - intros j x Hx. dict_case; [| by apply (cw_id _ W)]. rewrite Hid. by apply (cw_id _ W).
  - intros j x Hx. dict_case; [| by apply (cw_name _ W j)]. rewrite Hn. by eapply (cw_name _ W).
  - apply Hidx. right. by apply (indexed_owner name_key _ _ _ _ (cw_index _ W)).
  - intros j x Hx. dict_case; [| by apply (cw_credential _ W j)].
    pose proof (cw_credential _ W _ _ Hr) as Hok. unfold credential_ok in *. rewrite Ha.
    case_bool_decide; [by rewrite Hcr |]. by rewrite Hc.
Qed.

Lemma set_enabled_cases rd i en v s :
  (exists x, set_enabled rd i en v s = (Err x, s))
  \/ exists r r', _records s !! i = Some r /\ ConnectorRecord.state_version r = v /\ keeps r r'
       /\ set_enabled rd i en v s = (Ok r', mk (<[i:=r']> (_records s)) (_names s)).
Proof.
  unfold set_enabled, get_connector, _check_version, bind, lift, get, put, ret.
  destruct (_records s !! i) as [r|] eqn:Er; cbn [fst snd]; [| left; eauto].
  destruct (Z.eqb_spec (ConnectorRecord.state_version r) v) as [Hv|Hv]; cbn [negb fst snd]; [| left; eauto].
  right. exists r. eexists. split; [done |]. split; [done |]. split; [| reflexivity]. by split_and!.
Qed.

Lemma record_test_cases ta rd i v ok ts er s :
  (exists x, record_test ta rd i v ok ts er s = (Err x, s))
  \/ exists r r', _records s !! i = Some r /\ ConnectorRecord.state_version r = v /\ keeps r r'
       /\ record_test ta rd i v ok ts er s = (Ok r', mk (<[i:=r']> (_records s)) (_names s)).
Proof.
  unfold record_test, get_connector, _check_version, bind, lift, get, put, ret.
  destruct (_records s !! i) as [r|] eqn:Er; cbn [fst snd]; [| left; eauto].
  destruct (Z.eqb_spec (ConnectorRecord.state_version r) v) as [Hv|Hv]; cbn [negb fst snd]; [| left; eauto].
  right. exists r. eexists. split; [done |]. split; [done |]. split; [| reflexivity]. by split_and!.
Qed.

Lemma delete_connector_eq i s :
  connector_wf s ->
  delete_connector i s =
  match _records s !! i with
  | None => (Err ConnectorNotFound, s)
  | Some r => (Ok tt, mk (delete i (_records s)) (delete (name_key r) (_names s)))
  end.
Proof.
  intros W. unfold delete_connector, get_connector, bind, lift, get, put.
  destruct (_records s !! i) as [r|] eqn:Er; cbn [fst snd]; [| done].
  pose proof (indexed_owner name_key _ _ _ _ (cw_index _ W) Er) as Hown. unfold name_key in *.
  by rewrite (py_del_Ok _ _ _ Hown).
Qed.

Lemma connector_step_good o s : connector_wf s -> connector_fresh o s -> connector_wf (connector_step o s).
Proof.
  intros W Hf. destruct o; cbn [connector_step connector_fresh] in *.
  - destruct (create_connector_cases now fresh draw name description kind url auth header credential enabled timeout s)
      as [(x & ->) | (nm & r & Hn & Hno & Hi & Hnm & _ & _ & Hok & ->)]; [done |]. split; simpl.
    + intros j x Hx. dict_case; first [done | by apply (cw_id _ W)].
    + intros j x Hx. dict_case; first [by eapply connector_name_idemp | by eapply (cw_name _ W)].
    + rewrite <- Hnm in *. by apply (indexed_create name_key _ _ fresh r (cw_index _ W)).
    + intros j x Hx. dict_case; first [done | by eapply (cw_credential _ W)].
  - destruct (update_connector_cases read draw i expected name description kind url auth header credential provided
      enabled timeout s W) as [(x & ->) | (nm & r & r' & Hn & Hr & _ & Hfree & Hi & Hnm & _ & _ & Hok & ->)]; [done |].
    split; simpl.
    + intros j x Hx. dict_case; first [done | by apply (cw_id _ W)].
    + intros j x Hx. dict_case; first [by eapply connector_name_idemp | by eapply (cw_name _ W)].
    + apply (indexed_update name_key); [apply W | done |]. unfold name_key. by rewrite Hnm.
    + intros j x Hx. dict_case; first [done | by eapply (cw_credential _ W)].
  - destruct (set_enabled_cases read i enabled expected s) as [(x & ->) | (r & r' & Hr & _ & Hk & ->)]; [done |].
    by eapply keep_good.
  - destruct (record_test_cases tested read i expected success tools error s) as [(x & ->) | (r & r' & Hr & _ & Hk & ->)];
      [done |]. by eapply keep_good.
  - rewrite delete_connector_eq by done. destruct (_records s !! i) as [r|] eqn:Er; [| done]. split; simpl.
    + intros j x Hx. dict_case. by apply (cw_id _ W).
    + intros j x Hx. dict_case. by eapply (cw_name _ W).
    + by apply indexed_delete; [apply W |].
    + intros j x Hx. dict_case. by eapply (cw_credential _ W).
Qed.

#[export,refine] Instance connector_store : Store t connector_op := {|
  st_init := init; st_op := connector_step; st_fresh := connector_fresh; st_wf := connector_wf;
  st_evolves _ _ := True |}.
Proof.
  - by split.
  - split; simpl; try done. apply indexed_empty.
  - intros o s W Hf. split; [by apply connector_step_good | done].
Defined.

(** The credential of a connector is always the last one supplied: whatever was called
    before, a stored connector without authentication has none, and any other decrypts to a
    text of 1 to 65536 characters; a successful update leaves no credential for [NONE], the
    text supplied if one was, and else the text there was; switching the connector on or
    off and recording a test do not touch it. *)
Theorem connector_credentials i r s :
  st_reachable s -> get_connector i s = (Ok r, s) ->
  (ConnectorRecord.auth_type r = ConnectorAuthType.NONE -> credential_for e r = Ok None)
  /\ (ConnectorRecord.auth_type r <> ConnectorAuthType.NONE ->
      exists v, credential_for e r = Ok (Some v) /\ (1 <= py_len v <= 65536)%Z)
  /\ (forall rd d v n ds k u a h c p en tm r' s',
      update_connector e rd d i v n ds k u a h c p en tm s = (Ok r', s') ->
      get_connector i s' = (Ok r', s') /\ ConnectorRecord.state_version r = v
      /\ ConnectorRecord.state_version r' = (v + 1)%Z
      /\ credential_for e r' = (if bool_decide (a = ConnectorAuthType.NONE) then Ok None
                                else if p then Ok c else credential_for e r))
  /\ (forall rd en v r' s', set_enabled rd i en v s = (Ok r', s') ->
      get_connector i s' = (Ok r', s') /\ credential_for e r' = credential_for e r)
  /\ (forall ta rd v ok ts er r' s', record_test ta rd i v ok ts er s = (Ok r', s') ->
      get_connector i s' = (Ok r', s') /\ credential_for e r' = credential_for e r).
Proof.
  intros W%st_reachable_wf Hr. simpl in W. unfold get_connector in Hr.
  destruct (_records s !! i) as [r0|] eqn:Er; [| done]. injection Hr as [= ->].
  pose proof (cw_credential _ W _ _ Er) as Hok. unfold credential_ok in Hok.
  assert (forall x names, get_connector i (mk (<[i:=x]> (_records s)) names)
    = (Ok x, mk (<[i:=x]> (_records s)) names)) as Hget.
  { intros x names. unfold get_connector. simpl. by rewrite dict_lookup_insert_eq. }
  split_and!.
  - intros Ha. rewrite bool_decide_true in Hok by done. unfold credential_for. by rewrite Hok.
  - intros Ha. by rewrite bool_decide_false in Hok.
  - intros rd d v n ds k u a h c p en tm r' s' Hu.
    destruct (update_connector_cases rd d i v n ds k u a h c p en tm s W) as
      [(x & Hx) | (nm & r0 & r1 & _ & Hr0 & Hv & _ & _ & _ & Hv' & Hc & _ & Hx)]; rewrite Hx in Hu; [done |].
    injection Hu as -> <-. assert (r0 = r) as -> by congruence. split_and!; [apply Hget | done | done | done].
  - intros rd en v r' s' Hu. destruct (set_enabled_cases rd i en v s) as [(x & Hx) | (r0 & r1 & Hr0 & _ & Hk & Hx)];
      rewrite Hx in Hu; [done |]. injection Hu as -> <-. assert (r0 = r) as -> by congruence.
    split; [apply Hget | apply Hk].
  - intros ta rd v ok ts er r' s' Hu.
    destruct (record_test_cases ta rd i v ok ts er s) as [(x & Hx) | (r0 & r1 & Hr0 & _ & Hk & Hx)];
      rewrite Hx in Hu; [done |]. injection Hu as -> <-. assert (r0 = r) as -> by congruence.
    split; [apply Hget | apply Hk].
Qed.

(** Connector names are unique up to case: no two stored connectors have names that fold
    to the same text, so creating one whose name folds to a stored one is refused whatever
    the case, and deleting a connector frees its name at once. *)
Theorem connector_names_unique s :
  st_reachable s ->
  (forall i j r r', get_connector i s = (Ok r, s) -> get_connector j s = (Ok r', s) ->
     casefold (ConnectorRecord.name r) = casefold (ConnectorRecord.name r') -> i = j)
  /\ (forall i r now f d n ds k u a h c en tm, get_connector i s = (Ok r, s) ->
     casefold (strip n) = casefold (ConnectorRecord.name r) ->
     is_ok (create_connector e now f d n ds k u a h c en tm s).1 = false)
  /\ (forall i r s', get_connector i s = (Ok r, s) -> delete_connector i s = (Ok tt, s') ->
     forall now f d ds k u h en tm,
       is_ok (create_connector e now f d (ConnectorRecord.name r) ds k u ConnectorAuthType.NONE h None en tm s').1 = true).
Proof.
  intros W%st_reachable_wf. simpl in W.
  assert (forall i r, get_connector i s = (Ok r, s) <-> _records s !! i = Some r) as Hget.
  { intros i r. unfold get_connector. destruct (_records s !! i); naive_solver. }
  split_and!.
  - intros i j r r' Hi%Hget Hj%Hget. apply (indexed_unique name_key _ _ _ _ _ _ (cw_index _ W) Hi Hj).
  - intros i r now f d n ds k u a h c en tm Hi%Hget Hn.
    destruct (create_connector_cases now f d n ds k u a h c en tm s) as [(x & ->) | (nm & r' & Hnm & Hno & _)]; [done |].
    unfold validate_connector_name in Hnm. apply bounded_text_Ok in Hnm as (-> & _).
    pose proof (indexed_owner name_key _ _ _ _ (cw_index _ W) Hi) as Hown. unfold name_key in Hown.
    rewrite Hn, Hown in Hno. done.
  - intros i r s' Hi%Hget Hd now f d ds k u h en tm. rewrite delete_connector_eq, Hi in Hd by done.
    injection Hd as <-. unfold create_connector, bind, lift, get, put, ret.
    rewrite (cw_name _ W _ _ Hi). cbn [fst snd].
    assert (has_key (casefold (ConnectorRecord.name r)) (delete (name_key r) (_names s)) = false) as Hno
      by by apply has_key_false, dict_lookup_delete_eq.
    cbn [_names]. unfold validate_credential. rewrite bool_decide_true by done. cbn [negb fst snd].
    cbn [_names]. by rewrite Hno.
Qed.
End connectors.

(** * A concrete connector, with the cipher of ResolverTheorems *)
Import ConnectorRepository.
Open Scope list_scope.
#[local] Existing Instances toy_aead toy_laws no_float_texts.

Definition demo_connector_ops : list connector_op :=
  [OpCreateConnector 10 1%N (Draw.mk [1; 2]%N [3]%N [4]%N) " GitHub " "" ConnectorKind.HTTP "https://api" 
     ConnectorAuthType.BEARER "Authorization" (Some "t0k"%string) true 30].
Definition demo_connectors : t := st_ops (H:=connector_store demo_encryptor) demo_connector_ops init.

Lemma demo_connectors_reachable : st_reachable (H:=connector_store demo_encryptor) demo_connectors.
Proof.
  apply (st_ops_reachable (H:=connector_store demo_encryptor) demo_connector_ops);
    [exact (st_reachable_init (H:=connector_store demo_encryptor)) | by vm_compute].
Qed.

(** Renamed without a new credential, it keeps the old one. *)
Lemma connector_credentials_witness :
  exists r s', update_connector demo_encryptor 20 (Draw.mk [5]%N [6]%N [7]%N) 1%N 0 "Forge" "" ConnectorKind.HTTP
      "https://api" ConnectorAuthType.API_KEY "X-Key" None false None 30 demo_connectors = (Ok r, s')
    /\ credential_for demo_encryptor r = Ok (Some "t0k"%string).
Proof.
  destruct (get_connector 1%N demo_connectors) as [[r0|e] s0] eqn:E; [| exfalso; revert E; vm_compute; discriminate].
  assert (s0 = demo_connectors) as -> by (unfold get_connector in E; by injection E).
  destruct (connector_credentials demo_encryptor 1%N r0 demo_connectors demo_connectors_reachable E) as (_ & _ & Hu & _).
  destruct (update_connector demo_encryptor 20 _ 1%N 0 "Forge" "" _ _ _ _ None false None 30 demo_connectors)
    as [[r|e] s'] eqn:Eu; [| exfalso; revert Eu; vm_compute; discriminate].
  exists r, s'. split; [reflexivity |]. destruct (Hu _ _ _ _ _ _ _ _ _ _ _ _ _ _ _ Eu) as (_ & _ & _ & ->).
  assert (match (get_connector 1%N demo_connectors).1 with Ok r => credential_for demo_encryptor r | Err e => Err e end
    = Ok (Some "t0k"%string)) as Hc by (vm_compute; reflexivity).
  rewrite E in Hc. exact Hc.
Defined.

Lemma connector_names_unique_witness :
  is_ok (create_connector demo_encryptor 20 2%N (Draw.mk [] [] []) "gitHUB" "" ConnectorKind.MCP "" ConnectorAuthType.NONE
    "" None true 30 demo_connectors).1 = false.
Proof.
  destruct (connector_names_unique demo_encryptor demo_connectors demo_connectors_reachable) as (_ & Hc & _).
  destruct (get_connector 1%N demo_connectors) as [[r0|e] s0] eqn:E; [| exfalso; revert E; vm_compute; discriminate].
  assert (s0 = demo_connectors) as -> by (unfold get_connector in E; by injection E).
  apply (Hc 1%N r0 _ _ _ _ _ _ _ _ _ _ _ _ E). revert E. vm_compute. by intros [= <-].
Defined.
