(* ===== verification/Auth.v ===== *)
(** * Authentication
    ([src/services/api/auth_domain.py], [auth_repository.py], [auth_throttle.py],
    [auth_schemas.py] and the handlers of [auth_routes.py])

    Users with PBKDF2 password digests, sessions known by the digest of their token, and
    a throttle on failed logins.  Usernames are normalised by NFKC and case folding,
    which leave the code points of [string]: a normalised name is a list of code
    points, and again a [string] once it is validated, since the pattern is ASCII. *)
From S2P Require Import Prelude PyDict PyText TextFacts Sha256 Runs.
Open Scope list_scope.

(** ** PBKDF2, as [hashlib.pbkdf2_hmac("sha256", ...)] computes it for 32 bytes *)

Definition sha256_bytes (m : list N) : list N := concat (map (be_bytes 4) (sha256 m)).

Definition hmac_sha256 (key message : list N) : list N :=
  let short := if (64 <? length key)%nat then sha256_bytes key else key in
  let block := short ++ replicate (64 - length short) 0%N in
  sha256_bytes (map (N.lxor 92) block ++ sha256_bytes (map (N.lxor 54) block ++ message)).

Definition xor_bytes (a b : list N) : list N := zip_with N.lxor a b.

Definition pbkdf2_step (password : list N) (ut : list N * list N) : list N * list N :=
  let u := hmac_sha256 password ut.1 in (u, xor_bytes ut.2 u).

Definition pbkdf2_sha256 (password salt : list N) (iterations : Z) : list N :=
  let u := hmac_sha256 password (salt ++ be_bytes 4 1) in
  (Z.iter (iterations - 1) (pbkdf2_step password) (u, u)).2.

(** ** The domain *)

Definition PASSWORD_ITERATIONS : Z := 600000%Z.

Module UserRole.
Inductive t := ADMIN.
#[global] Instance eq_dec : EqDecision t.
Proof. solve_decision. Defined.
End UserRole.

Module PasswordDigest.
Record t := mk { salt : list N; digest : list N; iterations : Z }.
#[global] Instance eq_dec : EqDecision t.
Proof. solve_decision. Defined.

(** The constructor with its [__post_init__]. *)
Definition make (salt digest : list N) (iterations : Z) : res t :=
  if (iterations <? PASSWORD_ITERATIONS)%Z
  then Err (ValueError "password iterations must be at least 600000")
  else if (length salt <? 16)%nat || negb (length digest =? 32)%nat
  then Err (ValueError "password digest has invalid dimensions")
  else Ok (mk salt digest iterations).
End PasswordDigest.

Module UserRecord.
Record t := mk {
  id : uuid; username : string; display_name : string; role : UserRole.t; is_active : bool;
  created_at : datetime; updated_at : datetime; password : PasswordDigest.t }.
End UserRecord.

(** [unicodedata.normalize("NFKC", c)] of a code point up to 255: the compatibility
    decompositions of the Latin-1 block (the other decompositions are composed again). *)
Definition nfkc_point (n : N) : list N :=
  match n with
  | 160 => [32] | 168 => [32; 776] | 170 => [97] | 175 => [32; 772] | 178 => [50]
  | 179 => [51] | 180 => [32; 769] | 181 => [956] | 184 => [32; 807] | 185 => [49]
  | 186 => [111] | 188 => [49; 8260; 52] | 189 => [49; 8260; 50] | 190 => [51; 8260; 52]
  | n => [n]
  end%N.

(** [str.casefold()] of a code point NFKC yields. *)
Definition casefold_point (n : N) : list N :=
  if ((65 <=? n) && (n <=? 90) || (192 <=? n) && (n <=? 222) && negb (n =? 215))%N
  then [(n + 32)%N] else if (n =? 223)%N then [115; 115]%N else [n].

Definition points (s : string) : list N := map code (String.list_ascii_of_string s).
Definition of_points (l : list N) : string := String.string_of_list_ascii (map Ascii.ascii_of_N l).

Definition normalize_username (username : string) : list N :=
  concat (map casefold_point (concat (map nfkc_point (points (strip username))))).

(** The class [A-Za-z0-9._-] of [USERNAME_PATTERN]. *)
Definition username_point (n : N) : bool :=
  ((65 <=? n) && (n <=? 90) || (97 <=? n) && (n <=? 122) || (48 <=? n) && (n <=? 57)
   || (n =? 46) || (n =? 95) || (n =? 45))%N.

Definition USERNAME_PATTERN (l : list N) : bool :=
  (3 <=? length l)%nat && (length l <=? 64)%nat && forallb username_point l.

Definition validate_username (username : string) : res string :=
  let normalized := normalize_username username in
  if negb (USERNAME_PATTERN normalized) then Err (ValueError "username contains unsafe characters")
  else Ok (of_points normalized).

(** [drawn] is what [secrets.token_bytes] would return. *)
Definition hash_password (drawn : list N) (password : string) (salt : option (list N))
    : res PasswordDigest.t :=
  let resolved_salt := match salt with
                       | Some s => if bool_decide (s = []) then drawn else s
                       | None => drawn
                       end in
  PasswordDigest.make resolved_salt (pbkdf2_sha256 (utf8 password) resolved_salt PASSWORD_ITERATIONS)
    PASSWORD_ITERATIONS.

Definition verify_password (password : string) (expected : PasswordDigest.t) : bool :=
  bool_decide (pbkdf2_sha256 (utf8 password) (PasswordDigest.salt expected)
                 (PasswordDigest.iterations expected) = PasswordDigest.digest expected).

Definition session_token_digest (token : string) : list N := sha256_bytes (utf8 token).

(** ** The repository *)
Module AuthRepository.
Module Session.
Record t := mk {
  user_id : uuid; token_digest : list N; expires_at : datetime; revoked_at : option datetime }.
Definition revoke (r : t) (at_ : datetime) : t :=
  mk (user_id r) (token_digest r) (expires_at r)
     (Some match revoked_at r with Some old => old | None => at_ end).
End Session.

Record t := mk {
  _initialized : bool;
  _users : pydict uuid UserRecord.t;
  _usernames : pydict (list N) uuid;
  _sessions : list Session.t }.

Definition init : t := mk false ∅ ∅ [].

Definition is_initialized : M t bool := let* s := get in ret (_initialized s).

Definition initialize_admin (now : datetime) (fresh : uuid) (username display_name : string)
    (password : PasswordDigest.t) : M t UserRecord.t :=
  let* normalized := lift (validate_username username) in
  let* s := get in
  if _initialized s then raise AuthAlreadyInitialized
  else if has_key (points normalized) (_usernames s) then raise UsernameConflict
  else
    let user := UserRecord.mk fresh normalized display_name UserRole.ADMIN true now now password in
    put (mk true (<[fresh:=user]> (_users s)) (<[points normalized:=fresh]> (_usernames s))
            (_sessions s)) ;;;
    ret user.

Definition find_user (username : string) : M t (option UserRecord.t) :=
  let* s := get in
  ret (match _usernames s !! normalize_username username with
       | Some user_id => _users s !! user_id
       | None => None
       end).

Definition session_kept (now : datetime) (item : Session.t) : bool :=
  match Session.revoked_at item with None => true | Some _ => false end
  && (now <? Session.expires_at item)%Z.

Definition create_session (now : datetime) (user_id : uuid) (token_digest : list N)
    (expires_at : datetime) : M t unit :=
  let* s := get in
  put (mk (_initialized s) (_users s) (_usernames s)
          (List.filter (session_kept now) (_sessions s)
           ++ [Session.mk user_id token_digest expires_at None])).

(** The first session of that digest decides. *)
Fixpoint first_session (token_digest : list N) (l : list Session.t) : option Session.t :=
  match l with
  | [] => None
  | session :: rest =>
      if bool_decide (Session.token_digest session = token_digest) then Some session
      else first_session token_digest rest
  end.

Definition resolve_session (read : datetime) (token_digest : list N) (now : option datetime)
    : M t (option UserRecord.t) :=
  let current := RunRepository.default_now now read in
  let* s := get in
  ret (match first_session token_digest (_sessions s) with
       | None => None
       | Some session =>
           match _users s !! Session.user_id session with
           | None => None
           | Some user =>
               if match Session.revoked_at session with None => true | Some _ => false end
                  && (current <? Session.expires_at session)%Z && UserRecord.is_active user
               then Some user else None
           end
       end).

Fixpoint revoke_first (token_digest : list N) (at_ : datetime) (l : list Session.t) : list Session.t :=
  match l with
  | [] => []
  | session :: rest =>
      if bool_decide (Session.token_digest session = token_digest)
      then Session.revoke session at_ :: rest
      else session :: revoke_first token_digest at_ rest
  end.

Definition revoke_session (read : datetime) (token_digest : list N) (now : option datetime) : M t unit :=
  let current := RunRepository.default_now now read in
  let* s := get in
  put (mk (_initialized s) (_users s) (_usernames s)
          (revoke_first token_digest current (_sessions s))).
End AuthRepository.
Import AuthRepository.

(** ** The throttle

    [monotonic()] readings and the window are counted in ticks of the clock. *)
Module LoginThrottle.
Record t := mk {
  _max_failures : Z; _window_seconds : Z;
  _attempts : pydict string (list Z);
  max_concurrent : Z; _slots : Z }.

Definition init (max_failures window_seconds max_concurrent : Z) : t :=
  mk max_failures window_seconds ∅ max_concurrent max_concurrent.

Definition set_attempts (s : t) (key : string) (l : list Z) : t :=
  mk (_max_failures s) (_window_seconds s) (<[key:=l]> (_attempts s)) (max_concurrent s) (_slots s).
Definition set_slots (s : t) (n : Z) : t :=
  mk (_max_failures s) (_window_seconds s) (_attempts s) (max_concurrent s) n.

(** [self._attempts[key]] of the [defaultdict]. *)
Definition attempts_of (s : t) (key : string) : list Z := default [] (_attempts s !! key).

(** [self._slots.acquire(blocking=False)], which must succeed. *)
Definition acquire : M t unit :=
  let* s := get in
  if (_slots s =? 0)%Z then raise LoginRateLimited else put (set_slots s (_slots s - 1)).

(** A [BoundedSemaphore] refuses to grow over its initial value. *)
Definition release : M t unit :=
  let* s := get in
  if (max_concurrent s <=? _slots s)%Z then raise (ValueError "Semaphore released too many times")
  else put (set_slots s (_slots s + 1)).

(** [while attempts and attempts[0] <= cutoff: attempts.popleft()]. *)
Fixpoint drop_old (cutoff : Z) (l : list Z) : list Z :=
  match l with
  | x :: rest => if (x <=? cutoff)%Z then drop_old cutoff rest else l
  | [] => []
  end.

(** The critical section of [attempt]. *)
Definition check_window (now : Z) (key : string) : M t unit :=
  let* s := get in
  let attempts := drop_old (now - _window_seconds s) (attempts_of s key) in
  put (set_attempts s key attempts) ;;;
  if (_max_failures s <=? Z.of_nat (length attempts))%Z then raise LoginRateLimited else ret tt.

Definition record_failure (now : Z) (key : string) : M t unit :=
  let* s := get in put (set_attempts s key (attempts_of s key ++ [now])).

Definition record_success (key : string) : M t unit :=
  let* s := get in
  put (mk (_max_failures s) (_window_seconds s) (delete key (_attempts s)) (max_concurrent s) (_slots s)).
End LoginThrottle.

(** ** Requests and handlers *)

Module LoginRequest.
Record t := mk { username : string; password : string }.
(** [_Credentials] and its validator. *)
Definition validate (username password : string) : res t :=
  if (py_len username <? 3)%Z || (64 <? py_len username)%Z
     || (py_len password <? 6)%Z || (128 <? py_len password)%Z
  then Err (OtherException "ValidationError")
  else match validate_username username with
       | Ok normalized => Ok (mk normalized password)
       | Err _ => Err (OtherException "ValidationError")
       end.
End LoginRequest.

Module SetupRequest.
Record t := mk { username : string; password : string; display_name : string }.
Definition validate (username password display_name : string) : res t :=
  let? credentials := LoginRequest.validate username password in
  if (py_len display_name <? 1)%Z || (128 <? py_len display_name)%Z || empty_str (strip display_name)
  then Err (OtherException "ValidationError")
  else Ok (mk (LoginRequest.username credentials) password (strip display_name)).
End SetupRequest.

Module UserResponse.
Record t := mk {
  id : uuid; username : string; display_name : string; role : UserRole.t; is_active : bool;
  created_at : datetime; updated_at : datetime }.
Definition from_record (user : UserRecord.t) : t :=
  mk (UserRecord.id user) (UserRecord.username user) (UserRecord.display_name user)
     (UserRecord.role user) (UserRecord.is_active user) (UserRecord.created_at user)
     (UserRecord.updated_at user).
End UserResponse.

Module AuthStatusResponse.
Record t := mk {
  setup_required : bool; auth_required : bool; authenticated : bool; user : option UserResponse.t }.
End AuthStatusResponse.

(** The state of the application the handlers work on. *)
Module AppState.
Record t := mk { login_throttle : LoginThrottle.t; auth_repository : AuthRepository.t }.
End AppState.
Notation App := AppState.t.

Definition on_repository {A} (c : M AuthRepository.t A) : M App A := fun w =>
  let '(x, r) := c (AppState.auth_repository w) in (x, AppState.mk (AppState.login_throttle w) r).
Definition on_throttle {A} (c : M LoginThrottle.t A) : M App A := fun w =>
  let '(x, t) := c (AppState.login_throttle w) in (x, AppState.mk t (AppState.auth_repository w)).

(** [with throttle.attempt(key): body]. *)
Definition attempt {A} (now : Z) (key : string) (body : M App A) : M App A :=
  on_throttle LoginThrottle.acquire ;;;
  try_finally (on_throttle (LoginThrottle.check_window now key) ;;; body) (on_throttle LoginThrottle.release).

(** [request.cookies.get(SESSION_COOKIE_NAME)], when it is not empty. *)
Definition cookie_token (cookie : option string) : option string :=
  match cookie with
  | Some token => if empty_str token then None else Some token
  | None => None
  end.

Definition _resolve_user (read : datetime) (cookie : option string) : M App UserRecord.t :=
  match cookie_token cookie with
  | None => raise InvalidCredentials
  | Some token =>
      let* user := on_repository (resolve_session read (session_token_digest token) None) in
      match user with
      | Some u => ret u
      | None => raise InvalidCredentials
      end
  end.

(** The cookie the response sets is the token drawn; [clk] has the two readings. *)
Definition _set_session (clk : clock) (token : string) (user : UserRecord.t)
    (session_ttl_seconds : Z) : M App string :=
  let* expires_at := lift (add_seconds (clk 0%nat) session_ttl_seconds) in
  on_repository (create_session (clk 1%nat) (UserRecord.id user) (session_token_digest token) expires_at) ;;;
  ret token.

Definition auth_status (read : datetime) (cookie : option string) (auth_required : bool)
    : M App AuthStatusResponse.t :=
  let* user := match cookie_token cookie with
               | Some token => on_repository (resolve_session read (session_token_digest token) None)
               | None => ret None
               end in
  let* initialized := on_repository is_initialized in
  ret (AuthStatusResponse.mk (negb initialized) auth_required
         match user with Some _ => true | None => false end
         (option_map UserResponse.from_record user)).

(** The response and the cookie it sets. *)
Definition setup (clk : clock) (fresh : uuid) (salt : list N) (token : string)
    (body : SetupRequest.t) (session_ttl_seconds : Z) : M App (UserResponse.t * string) :=
  let* password := lift (hash_password salt (SetupRequest.password body) None) in
  let* user := on_repository (initialize_admin (clk 0%nat) fresh (SetupRequest.username body)
                                (SetupRequest.display_name body) password) in
  let* cookie := _set_session (fun i => clk (S i)) token user session_ttl_seconds in
  ret (UserResponse.from_record user, cookie).

Definition check_credentials (mono : nat -> Z) (salt : list N) (key : string) (body : LoginRequest.t)
    : M App UserRecord.t :=
  let* user := on_repository (find_user (LoginRequest.username body)) in
  match user with
  | None =>
      lift (hash_password salt (LoginRequest.password body) None) ;;;
      on_throttle (LoginThrottle.record_failure (mono 1%nat) key) ;;;
      raise InvalidCredentials
  | Some user =>
      let password_valid := verify_password (LoginRequest.password body) (UserRecord.password user) in
      if negb (UserRecord.is_active user) || negb password_valid then
        on_throttle (LoginThrottle.record_failure (mono 1%nat) key) ;;;
        raise InvalidCredentials
      else
        on_throttle (LoginThrottle.record_success key) ;;;
        ret user
  end.

Definition throttle_key (client : option string) (body : LoginRequest.t) : string :=
  (default "unknown"%string client ++ ":" ++ LoginRequest.username body)%string.

Definition login (mono : nat -> Z) (clk : clock) (salt : list N) (token : string)
    (client : option string) (body : LoginRequest.t) (session_ttl_seconds : Z)
    : M App (UserResponse.t * string) :=
  let key := throttle_key client body in
  let* user := attempt (mono 0%nat) key (check_credentials mono salt key body) in
  let* cookie := _set_session clk token user session_ttl_seconds in
  ret (UserResponse.from_record user, cookie).

Definition me (read : datetime) (cookie : option string) : M App UserResponse.t :=
  let* user := _resolve_user read cookie in ret (UserResponse.from_record user).

Definition logout (read : datetime) (cookie : option string) : M App unit :=
  match cookie_token cookie with
  | Some token => on_repository (revoke_session read (session_token_digest token) None)
  | None => ret tt
  end.

(** The RFC test vectors of PBKDF2 with one and two iterations. *)
Example pbkdf2_one :
  join EmptyString (map (hex 2) (pbkdf2_sha256 (utf8 "password") (utf8 "salt") 1))
  = "120fb6cffcf8b32c43e7225256c4f837a86548c92ccc35480805987cb70be17b"%string.
Proof. vm_compute. reflexivity. Qed.

Example pbkdf2_two :
  join EmptyString (map (hex 2) (pbkdf2_sha256 (utf8 "password") (utf8 "salt") 2))
  = "ae4d0c95af6b46d32d0adff928f06dd02a303f8ef3c251dfd6e2d85a95474c43"%string.
Proof. vm_compute. reflexivity. Qed.
