(* ===== verification/AuthTheorems.v ===== *)
(** * Authentication: the throttle, the login and the sessions

    The throttle is proved under interleaving: [login_step] lets any number of logins
    run between the steps of one another.  The sessions are proved to behave as a
    register of the digests that were given out and not taken back. *)
From S2P Require Import Prelude PyDict PyText TextFacts Sha256 Runs Versioned Auth.
From Stdlib Require Import Sorted.
Open Scope list_scope.

(** ** The throttle under concurrent logins *)
Import LoginThrottle.

(** Where a login is: it has a slot, it was admitted, it only has to leave. *)
Inductive phase : Type :=
  | Entered (key : string)
  | Accepted (key : string)
  | Leaving.

#[export] Instance phase_eq_dec : EqDecision phase.
Proof. solve_decision. Defined.

Record logins := mkLogins { throttle : LoginThrottle.t; threads : list phase; now : Z }.

(** The atomic steps of the logins ([attempt] and the handler's body), and time. *)
Inductive login_step : logins -> logins -> Prop :=
  | StepTick s l n n' : (n <= n')%Z -> login_step (mkLogins s l n) (mkLogins s l n')
  | StepAcquire s s' l n key :
      acquire s = (Ok tt, s') -> login_step (mkLogins s l n) (mkLogins s' (Entered key :: l) n)
  | StepRefused s s' l n e :
      acquire s = (Err e, s') -> login_step (mkLogins s l n) (mkLogins s' l n)
  | StepAccept s s' l1 l2 n key :
      check_window n key s = (Ok tt, s') ->
      login_step (mkLogins s (l1 ++ Entered key :: l2) n) (mkLogins s' (l1 ++ Accepted key :: l2) n)
  | StepReject s s' l1 l2 n key e :
      check_window n key s = (Err e, s') ->
      login_step (mkLogins s (l1 ++ Entered key :: l2) n) (mkLogins s' (l1 ++ Leaving :: l2) n)
  | StepFailure s s' l1 l2 n key :
      record_failure n key s = (Ok tt, s') ->
      login_step (mkLogins s (l1 ++ Accepted key :: l2) n) (mkLogins s' (l1 ++ Leaving :: l2) n)
  | StepSuccess s s' l1 l2 n key :
      record_success key s = (Ok tt, s') ->
      login_step (mkLogins s (l1 ++ Accepted key :: l2) n) (mkLogins s' (l1 ++ Leaving :: l2) n)
  | StepAbandon s l1 l2 n key :
      login_step (mkLogins s (l1 ++ Accepted key :: l2) n) (mkLogins s (l1 ++ Leaving :: l2) n)
  | StepRelease s s' l1 l2 n r :
      release s = (r, s') ->
      login_step (mkLogins s (l1 ++ Leaving :: l2) n) (mkLogins s' (l1 ++ l2) n).

(** The failures of [key] within the window. *)
Definition in_window (s : LoginThrottle.t) (t x : Z) : bool := (t - _window_seconds s <? x)%Z.
Definition recent (s : LoginThrottle.t) (t : Z) (key : string) : nat :=
  length (List.filter (in_window s t) (attempts_of s key)).

(** The logins of [key] that may still fail. *)
Definition pending (l : list phase) (key : string) : nat :=
  length (List.filter (fun p => bool_decide (p = Accepted key)) l).

Lemma filter_le {A} (f g : A -> bool) l :
  (forall x, f x = true -> g x = true) ->
  (length (List.filter f l) <= length (List.filter g l))%nat.
Proof.
  intros H. induction l as [|x l IH]; simpl; [lia |].
  destruct (f x) eqn:E; [rewrite (H x E); simpl; lia | destruct (g x); simpl; lia].
Qed.

Lemma List_filter_Forall {A} (P : A -> Prop) f l : Forall P l -> Forall P (List.filter f l).
Proof. induction 1; simpl; [constructor |]. destruct (f x); [by constructor | done]. Qed.

Lemma pending_app l1 l2 key : pending (l1 ++ l2) key = (pending l1 key + pending l2 key)%nat.
Proof. unfold pending. by rewrite List.filter_app, length_app. Qed.

Lemma pending_le l key : (pending l key <= length l)%nat.
Proof. apply List.filter_length_le. Qed.

Lemma pending_cons p l key :
  pending (p :: l) key = ((if bool_decide (p = Accepted key) then 1 else 0) + pending l key)%nat.
Proof. unfold pending. simpl. by case_bool_decide. Qed.

Lemma drop_old_filter c l :
  StronglySorted Z.le l -> drop_old c l = List.filter (fun x => (c <? x)%Z) l.
Proof.
  induction 1 as [|x l Hl IH Hx]; simpl; [done |]. rewrite Forall_forall in Hx.
  destruct (x <=? c)%Z eqn:E; bool_prop.
  - by replace (c <? x)%Z with false by (symmetry; apply Z.ltb_ge; lia).
  - replace (c <? x)%Z with true by (symmetry; apply Z.ltb_lt; lia). f_equal. symmetry.
    clear IH Hl. induction l as [|y l IH]; [done |]. simpl.
    assert (x <= y)%Z by (apply Hx; by left).
    replace (c <? y)%Z with true by (symmetry; apply Z.ltb_lt; lia).
    f_equal. apply IH. intros z Hz. apply Hx. by right.
Qed.

Section throttle.
  Context (max_failures window_seconds max_concurrent : Z).
  Hypothesis (one_failure : (1 <= max_failures)%Z) (some_slots : (0 <= max_concurrent)%Z).

Record throttle_wf (g : logins) : Prop := {
  tw_max : _max_failures (throttle g) = max_failures;
  tw_window : _window_seconds (throttle g) = window_seconds;
  tw_bound : LoginThrottle.max_concurrent (throttle g) = max_concurrent;
  tw_slots : (_slots (throttle g) + Z.of_nat (length (threads g)) = max_concurrent)%Z;
  tw_free : (0 <= _slots (throttle g))%Z;
  tw_sorted : forall key, StronglySorted Z.le (attempts_of (throttle g) key)
                /\ Forall (fun x => x <= now g)%Z (attempts_of (throttle g) key);
  tw_recent : forall key,
    (Z.of_nat (recent (throttle g) (now g) key + pending (threads g) key)
     <= max_failures - 1 + max_concurrent)%Z }.

Definition throttle_init (n : Z) : logins :=
  mkLogins (LoginThrottle.init max_failures window_seconds max_concurrent) [] n.

Lemma attempts_set s key l key' :
  attempts_of (set_attempts s key l) key' = if decide (key' = key) then l else attempts_of s key'.
Proof.
  unfold attempts_of, set_attempts. simpl.
  case_decide; [subst; by rewrite dict_lookup_insert_eq | by rewrite dict_lookup_insert_ne by done].
Qed.

Lemma recent_set s t key l key' :
  recent (set_attempts s key l) t key'
  = if decide (key' = key) then length (List.filter (in_window s t) l) else recent s t key'.
Proof. unfold recent. rewrite attempts_set. by case_decide. Qed.

Lemma recent_later s t t' key : (t <= t')%Z -> (recent s t' key <= recent s t key)%nat.
Proof. intros Ht. apply filter_le. intros x. unfold in_window. rewrite !Z.ltb_lt. lia. Qed.

Lemma filter_sorted (f : Z -> bool) l : StronglySorted Z.le l -> StronglySorted Z.le (List.filter f l).
Proof.
  induction 1 as [|x l Hl IH Hx]; simpl; [constructor |]. destruct (f x); [| done].
  constructor; [done |]. rewrite Forall_forall in Hx |- *. intros y Hy. apply Hx.
  apply list_elem_of_In, filter_In in Hy as [Hy _]. by apply list_elem_of_In.
Qed.

(** What [check_window] does when the failures are in order. *)
Lemma check_window_spec s n key :
  StronglySorted Z.le (attempts_of s key) ->
  check_window n key s
  = (if (_max_failures s <=? Z.of_nat (recent s n key))%Z then Err LoginRateLimited else Ok tt,
     set_attempts s key (List.filter (in_window s n) (attempts_of s key))).
Proof.
  intros Hs. unfold check_window, bind, get, put. cbn [fst snd]. rewrite drop_old_filter by done.
  fold (in_window s n). unfold recent. by destruct (_ <=? _)%Z.
Qed.

Lemma throttle_init_wf n : throttle_wf (throttle_init n).
Proof.
  assert (forall key, attempts_of (throttle (throttle_init n)) key = []) as Hno.
  { intros key. unfold attempts_of. simpl. by rewrite (dict_lookup_empty key). }
  split; simpl; try done; try lia.
  - intros key. rewrite Hno. by split; constructor.
  - intros key. unfold recent. rewrite Hno. unfold pending. simpl. lia.
Qed.

Ltac wf_fields W := destruct W as [Hm Hw Hb Hs Hf Ho Hr]; cbn [throttle threads now] in *.

(** The lists of failures change for one key only. *)
Lemma set_attempts_wf s l l' n key fs :
  throttle_wf (mkLogins s l n) -> length l' = length l ->
  StronglySorted Z.le fs -> Forall (fun x => x <= n)%Z fs ->
  (Z.of_nat (length (List.filter (in_window s n) fs) + pending l' key)
   <= max_failures - 1 + max_concurrent)%Z ->
  (forall key', key' <> key -> (pending l' key' <= pending l key')%nat) ->
  throttle_wf (mkLogins (set_attempts s key fs) l' n).
Proof.
  intros W Hl Hfs Hn Hk Hp. wf_fields W. split; cbn [throttle threads now]; try done.
  - simpl. lia.
  - intros key'. rewrite attempts_set. by case_decide.
  - intros key'. rewrite recent_set. case_decide as Hne; [by subst |].
    specialize (Hr key'). specialize (Hp key' Hne). lia.
Qed.

(** A success forgets the failures of its key. *)
Lemma success_wf s l l' n key :
  throttle_wf (mkLogins s l n) -> length l' = length l ->
  (forall key', (pending l' key' <= pending l key')%nat) ->
  throttle_wf (mkLogins (record_success key s).2 l' n).
Proof.
  intros W Hl Hp. wf_fields W.
  assert (forall key', attempts_of (record_success key s).2 key'
            = if decide (key' = key) then [] else attempts_of s key') as Ha.
  { intros key'. unfold attempts_of. simpl. rewrite dict_lookup_delete.
    by destruct (decide (key' = key)) as [->|]; repeat case_decide. }
  split; cbn [throttle threads now]; try done.
  - simpl. lia.
  - intros key'. rewrite Ha. case_decide; [by repeat constructor | done].
  - intros key'. specialize (Hr key'). specialize (Hp key'). revert Hr. unfold recent. rewrite Ha.
    change (in_window (record_success key s).2 n) with (in_window s n).
    case_decide; simpl; lia.
Qed.

(** A thread moves on without touching the failures. *)
Lemma move_wf s l l' n :
  throttle_wf (mkLogins s l n) -> length l' = length l ->
  (forall key, (pending l' key <= pending l key)%nat) -> throttle_wf (mkLogins s l' n).
Proof.
  intros W Hl Hp. wf_fields W. split; cbn [throttle threads now]; try done; [lia |].
  intros key. specialize (Hr key). specialize (Hp key). lia.
Qed.

Lemma slots_wf s l l' n k :
  throttle_wf (mkLogins s l n) -> (0 <= k)%Z -> (k + Z.of_nat (length l') = max_concurrent)%Z ->
  (forall key, (pending l' key <= pending l key)%nat) -> throttle_wf (mkLogins (set_slots s k) l' n).
Proof.
  intros W Hk Hl Hp. wf_fields W. split; cbn [throttle threads now]; try done.
  intros key. specialize (Hr key). specialize (Hp key).
  change (recent (set_slots s k) n key) with (recent s n key). lia.
Qed.

Ltac pend := intros; rewrite ?pending_app, ?pending_cons; repeat case_bool_decide; simplify_eq; lia.
Ltac lens := rewrite ?length_app; simpl; lia.

Lemma snoc_sorted n l :
  StronglySorted Z.le l -> Forall (fun x => x <= n)%Z l ->
  StronglySorted Z.le (l ++ [n]) /\ Forall (fun x => x <= n)%Z (l ++ [n]).
Proof.
  intros Hs Hn. split.
  - induction Hs as [|x l Hl IH Hx]; simpl; [by repeat constructor |].
    inversion Hn; subst. constructor; [by apply IH |]. apply Forall_app. split; [done |].
    by repeat constructor.
  - apply Forall_app. split; [done |]. repeat constructor. lia.
Qed.

Lemma login_step_wf g g' : login_step g g' -> throttle_wf g -> throttle_wf g'.
Proof.
  intros Hst W. destruct Hst as [s l n n' Hn|s s' l n key E|s s' l n e E|s s' l1 l2 n key E
    |s s' l1 l2 n key e E|s s' l1 l2 n key E|s s' l1 l2 n key E|s l1 l2 n key|s s' l1 l2 n r E].
  - wf_fields W. split; cbn [throttle threads now]; try done.
    + intros key. destruct (Ho key) as [? Hn']. split; [done |]. eapply Forall_impl; [exact Hn' |].
      simpl. intros. lia.
    + intros key. pose proof (recent_later s n n' key Hn). specialize (Hr key). lia.
  - unfold acquire, bind, get, put, raise in E. cbn [fst snd] in E.
    destruct (_ =? _)%Z eqn:Ez; [done |]. injection E as [= <-]. bool_prop.
    eapply slots_wf; [exact W | | | pend]; wf_fields W; [lia | simpl; lia].
  - unfold acquire, bind, get, put, raise in E. cbn [fst snd] in E.
    destruct (_ =? _)%Z; [by injection E as [= _ <-] | done].
  - pose proof (tw_sorted _ W key) as [Hso Hle]. rewrite check_window_spec in E by done.
    destruct (_ <=? _)%Z eqn:El; [done |]. injection E as [= <-]. bool_prop.
    pose proof (pending_le (l1 ++ Accepted key :: l2) key) as Hpl.
    eapply set_attempts_wf; [exact W | lens | by apply filter_sorted | | | pend].
    + by apply List_filter_Forall.
    + wf_fields W. unfold recent in El. pose proof (List.filter_length_le (in_window s n)
        (List.filter (in_window s n) (attempts_of s key))). rewrite length_app in *. simpl in *. lia.
  - pose proof (tw_sorted _ W key) as [Hso Hle]. rewrite check_window_spec in E by done.
    destruct (_ <=? _)%Z eqn:El; [| done]. injection E as [= _ <-].
    eapply set_attempts_wf; [exact W | lens | by apply filter_sorted | by apply List_filter_Forall | | pend].
    pose proof (tw_recent _ W key) as Hr. cbn [throttle threads now] in Hr. unfold recent in Hr.
    pose proof (List.filter_length_le (in_window s n) (List.filter (in_window s n) (attempts_of s key))).
    revert Hr. rewrite !pending_app, !pending_cons. repeat case_bool_decide; simplify_eq; lia.
  - unfold record_failure, bind, get, put in E. cbn [fst snd] in E. injection E as [= <-].
    pose proof (tw_sorted _ W key) as [Hso Hle]. cbn [throttle threads now] in *.
    destruct (snoc_sorted n _ Hso Hle) as [Hso' Hle'].
    eapply set_attempts_wf; [exact W | lens | done | done | | pend].
    pose proof (tw_recent _ W key) as Hr. cbn [throttle threads now] in Hr. unfold recent in Hr.
    revert Hr. rewrite List.filter_app, length_app, !pending_app, !pending_cons.
    assert (length (List.filter (in_window s n) [n]) <= 1)%nat by apply (List.filter_length_le _ [n]).
    repeat case_bool_decide; simplify_eq; lia.
  - unfold record_success, bind, get, put in E. cbn [fst snd] in E. injection E as [= <-].
    eapply success_wf; [exact W | lens | pend].
  - eapply move_wf; [exact W | lens | pend].
  - unfold release, bind, get, put, raise in E. cbn [fst snd] in E.
    assert (_slots s < max_concurrent)%Z as Hlt.
    { wf_fields W. rewrite length_app in Hs. simpl in Hs. lia. }
    destruct (_ <=? _)%Z eqn:Ez; bool_prop; [wf_fields W; lia |]. injection E as [= _ <-].
    eapply slots_wf; [exact W | | | pend]; wf_fields W; [lia | rewrite length_app in *; simpl in *; lia].
Qed.
(** The login throttle holds under any interleaving of logins.  In every reachable
    state of the throttle: the failures of a key within the window never exceed
    [max_failures - 1 + max_concurrent] (the logins admitted at the same time may all
    fail); no slot is lost or gained, so a login that leaves never finds the semaphore
    full, and a new one is refused exactly when [max_concurrent] logins are under way;
    and a login that has a slot is admitted exactly when fewer than [max_failures] of
    its key's failures are within the window, which is all that stays stored. *)
Theorem failures_bounded n g :
  rtc login_step (throttle_init n) g ->
  let s := throttle g in
  (forall key, Z.of_nat (recent s (now g) key) <= max_failures - 1 + max_concurrent)%Z
  /\ (_slots s + Z.of_nat (length (threads g)) = max_concurrent)%Z
  /\ (threads g <> [] -> (release s).1 = Ok tt)
  /\ (acquire s).1 = (if (max_concurrent <=? Z.of_nat (length (threads g)))%Z
                      then Err LoginRateLimited else Ok tt)
  /\ forall t key,
       check_window t key s
       = (if (max_failures <=? Z.of_nat (recent s t key))%Z then Err LoginRateLimited else Ok tt,
          set_attempts s key (List.filter (fun x => (t - window_seconds <? x)%Z) (attempts_of s key))).
Proof.
  intros Hrtc s. assert (throttle_wf g) as W.
  { remember (throttle_init n) as g0 eqn:E0. assert (throttle_wf g0) as W0
      by (subst; apply throttle_init_wf). clear E0.
    induction Hrtc; [done |]. apply IHHrtc. by eapply login_step_wf. }
  pose proof W as W'. destruct W as [Hm Hw Hb Hs Hf Ho Hr]. fold s in Hm, Hw, Hb, Hs, Hf, Ho, Hr.
  split_and!.
  - intros key. specialize (Hr key). lia.
  - done.
  - intros Hne. unfold release, bind, get, put, raise. cbn [fst snd].
    destruct (_ <=? _)%Z eqn:E; [| done]. bool_prop.
    destruct (threads g); [done | simpl in *; lia].
  - unfold acquire, bind, get, put, raise. cbn [fst snd].
    destruct (_ =? _)%Z eqn:E, (_ <=? _)%Z eqn:E'; bool_prop; try done; lia.
  - intros t key. rewrite check_window_spec by apply Ho. rewrite Hm. unfold in_window. by rewrite Hw.
Qed.
End throttle.

(** ** Passwords *)

Lemma sha256_bytes_length m : length (sha256_bytes m) = 32%nat.
Proof.
  unfold sha256_bytes, sha256. pose proof (blocks_length (length (words (padding m))) initial_hash
    (words (padding m)) initial_length) as Hl. revert Hl. generalize (blocks (length (words (padding m)))
    initial_hash (words (padding m))). intros l Hl.
  do 9 (destruct l as [|? l]; [done |]). done.
Qed.

Lemma pbkdf2_length password salt n : length (pbkdf2_sha256 password salt n) = 32%nat.
Proof.
  unfold pbkdf2_sha256. set (ok := fun ut : list N * list N => length ut.1 = 32%nat /\ length ut.2 = 32%nat).
  assert (forall ut, ok ut -> ok (pbkdf2_step password ut)) as Hstep.
  { intros [u t] [Hu Ht]. unfold ok, pbkdf2_step, hmac_sha256, xor_bytes. cbn [fst snd] in *.
    by rewrite length_zip_with, sha256_bytes_length, Ht. }
  assert (ok (hmac_sha256 password (salt ++ be_bytes 4 1), hmac_sha256 password (salt ++ be_bytes 4 1))) as H0
    by (unfold ok, hmac_sha256; cbn [fst snd]; by rewrite !sha256_bytes_length).
  destruct (n - 1)%Z as [|k|k]; [apply H0 | | apply H0].
  cbn [Z.iter]. by apply (Pos.iter_invariant k _ (pbkdf2_step password) ok).
Qed.

#[global] Opaque pbkdf2_sha256.

Lemma hash_password_Ok drawn password :
  (16 <= length drawn)%nat ->
  hash_password drawn password None
  = Ok (PasswordDigest.mk drawn (pbkdf2_sha256 (utf8 password) drawn PASSWORD_ITERATIONS) PASSWORD_ITERATIONS).
Proof.
  intros Hl. unfold hash_password, PasswordDigest.make. rewrite pbkdf2_length, Z.ltb_irrefl, Nat.eqb_refl.
  by replace (length drawn <? 16)%nat with false by (symmetry; apply Nat.ltb_ge; lia).
Qed.

Lemma make_inv salt digest n d : PasswordDigest.make salt digest n = Ok d -> d = PasswordDigest.mk salt digest n.
Proof.
  unfold PasswordDigest.make. destruct (n <? _)%Z; [done |].
  destruct ((length salt <? 16)%nat || negb (length digest =? 32)%nat); [done |]. by intros [= <-].
Qed.

(** A stored password verifies, and only what has its PBKDF2 image does. *)
Lemma verify_hash drawn password other d :
  hash_password drawn password None = Ok d ->
  verify_password other d = true <->
  pbkdf2_sha256 (utf8 other) drawn PASSWORD_ITERATIONS
  = pbkdf2_sha256 (utf8 password) drawn PASSWORD_ITERATIONS.
Proof.
  intros ->%make_inv. apply bool_decide_eq_true.
Qed.

Lemma hash_verifies drawn password d :
  hash_password drawn password None = Ok d -> verify_password password d = true.
Proof. intros H. exact (proj2 (verify_hash drawn password password d H) eq_refl). Qed.

(** ** What the handlers do to the repository *)

Import AuthRepository.
Notation repo := AppState.auth_repository.

(** A call that leaves the repository alone. *)
Definition keeps_repo {A} (c : M App A) : Prop := forall w, repo (c w).2 = repo w.

Lemma keeps_bind {A B} (c : M App A) (k : A -> M App B) :
  keeps_repo c -> (forall a, keeps_repo (k a)) -> keeps_repo (bind c k).
Proof.
  intros Hc Hk w. specialize (Hc w). unfold bind. destruct (c w) as [[a|e] w']; cbn [fst snd] in *; [| done].
  by rewrite Hk.
Qed.

Lemma keeps_throttle {A} (c : M LoginThrottle.t A) : keeps_repo (on_throttle c).
Proof. intros w. unfold on_throttle. by destruct (c _). Qed.

Lemma keeps_finally {A} (c : M App A) last :
  keeps_repo c -> keeps_repo last -> keeps_repo (try_finally c last).
Proof.
  intros Hc Hl w. specialize (Hc w). unfold try_finally. destruct (c w) as [r w']. cbn [snd] in Hc.
  specialize (Hl w'). destruct (last w') as [[x|e] w'']; cbn [fst snd] in *; congruence.
Qed.

Lemma keeps_find username : keeps_repo (on_repository (find_user username)).
Proof. by intros w. Qed.

Lemma keeps_lift {A} (r : res A) : keeps_repo (lift r).
Proof. by intros w. Qed.

Lemma keeps_credentials mono salt key body : keeps_repo (check_credentials mono salt key body).
Proof.
  apply keeps_bind; [apply keeps_find |]. intros [u|].
  - cbv zeta. destruct (negb _ || negb _).
    + apply keeps_bind; [apply keeps_throttle | by intros _ w].
    + apply keeps_bind; [apply keeps_throttle | by intros _ w].
  - apply keeps_bind; [apply keeps_lift |]. intros _. apply keeps_bind; [apply keeps_throttle | by intros _ w].
Qed.

Lemma keeps_attempt {A} n key (c : M App A) : keeps_repo c -> keeps_repo (attempt n key c).
Proof.
  intros Hc. apply keeps_bind; [apply keeps_throttle |]. intros _.
  apply keeps_finally; [| apply keeps_throttle]. apply keeps_bind; [apply keeps_throttle | by intros _].
Qed.

Lemma attempt_Ok {A} n key (c : M App A) w a :
  (attempt n key c w).1 = Ok a -> exists w1, repo w1 = repo w /\ (c w1).1 = Ok a.
Proof.
  unfold attempt, bind, try_finally.
  pose proof (keeps_throttle acquire w) as K1. destruct (on_throttle acquire w) as [[[]|e] w1]; [| done].
  pose proof (keeps_throttle (check_window n key) w1) as K2. cbn [fst snd] in *.
  destruct (on_throttle (check_window n key) w1) as [[[]|e] w2]; cbn [fst snd] in *.
  - intros Hx. exists w2. split; [congruence |]. destruct (c w2) as [r w3].
    by destruct (on_throttle release w3) as [[[]|e] w4].
  - by destruct (on_throttle release w2) as [[[]|e'] w4].
Qed.

Lemma credentials_Ok mono salt key body w u :
  (check_credentials mono salt key body w).1 = Ok u ->
  (find_user (LoginRequest.username body) (repo w)).1 = Ok (Some u)
  /\ UserRecord.is_active u = true
  /\ verify_password (LoginRequest.password body) (UserRecord.password u) = true.
Proof.
  unfold check_credentials, on_repository, bind. destruct (find_user _ (repo w)) as [[[v|]|e] r]; cbn [fst snd].
  - destruct (UserRecord.is_active v) eqn:Ea, (verify_password _ _) eqn:Ev; cbn [negb orb];
      destruct (on_throttle _ _) as [[[]|e] w']; cbn [fst snd]; try done. by intros [= <-].
  - unfold lift. destruct (hash_password _ _ _); [| done]. by destruct (on_throttle _ _) as [[[]|e] w'].
  - done.
Qed.

(** A login either fails and changes no user and no session, or the password was that of
    the user and the session is stored. *)
Lemma login_cases mono clk salt token client body ttl w :
  (exists e w', login mono clk salt token client body ttl w = (Err e, w') /\ repo w' = repo w)
  \/ exists u x w',
      login mono clk salt token client body ttl w = (Ok (UserResponse.from_record u, token), w')
      /\ repo w' = (create_session (clk 1%nat) (UserRecord.id u) (session_token_digest token) x (repo w)).2
      /\ add_seconds (clk 0%nat) ttl = Ok x
      /\ (find_user (LoginRequest.username body) (repo w)).1 = Ok (Some u)
      /\ UserRecord.is_active u = true
      /\ verify_password (LoginRequest.password body) (UserRecord.password u) = true.
Proof.
  unfold login. set (key := throttle_key client body). set (c := check_credentials mono salt key body).
  pose proof (keeps_attempt (mono 0%nat) key c (keeps_credentials _ _ _ _) w) as Hk.
  pose proof (attempt_Ok (mono 0%nat) key c w) as Ho. unfold bind.
  destruct (attempt (mono 0%nat) key c w) as [[u|e] w1]; cbn [fst snd] in *; [| left; eauto].
  destruct (Ho u eq_refl) as (w0 & E0 & Hc). apply credentials_Ok in Hc as (Hf & Ha & Hv). rewrite E0 in Hf.
  unfold _set_session, bind, lift. cbn [fst snd].
  destruct (add_seconds (clk 0%nat) ttl) as [x|e]; cbn [fst snd]; [| left; eauto].
  right. exists u, x. eexists. split; [reflexivity |]. cbn [AppState.auth_repository]. by rewrite Hk.
Qed.

(** ** Usernames *)

Lemma points_of_points l : Forall (fun n => n < 256)%N l -> points (of_points l) = l.
Proof.
  intros Hl. unfold points, of_points. rewrite String.list_ascii_of_string_of_list_ascii, map_map.
  induction Hl as [|n l Hn Hl IH]; simpl; [done |]. f_equal; [| exact IH].
  by apply Ascii.N_ascii_embedding.
Qed.

Lemma validate_username_Ok name nm : validate_username name = Ok nm -> points nm = normalize_username name.
Proof.
  unfold validate_username. destruct (USERNAME_PATTERN _) eqn:E; simpl; [| done]. intros [= <-].
  apply points_of_points. apply andb_true_iff in E as [_ E]. rewrite forallb_forall in E.
  apply Forall_forall. intros n Hn. apply list_elem_of_In, E in Hn. unfold username_point in Hn.
  rewrite !orb_true_iff, !andb_true_iff, !N.leb_le, !N.eqb_eq in Hn. lia.
Qed.

Lemma initialize_cases n f name display pw r :
  (exists e, initialize_admin n f name display pw r = (Err e, r))
  \/ exists nm, let u := UserRecord.mk f nm display UserRole.ADMIN true n n pw in
       points nm = normalize_username name /\ _initialized r = false
       /\ _usernames r !! points nm = None
       /\ initialize_admin n f name display pw r
          = (Ok u, mk true (<[f:=u]> (_users r)) (<[points nm:=f]> (_usernames r)) (_sessions r)).
Proof.
  unfold initialize_admin, bind, lift, get, put, raise, ret.
  destruct (validate_username name) as [nm|e] eqn:Ev; cbn [fst snd]; [| left; eauto].
  destruct (_initialized r); [left; eauto |].
  destruct (has_key (points nm) (_usernames r)) eqn:Eh; [left; eauto | right].
  exists nm. cbv zeta. split_and!; [by apply validate_username_Ok | done | by apply has_key_false | done].
Qed.

Lemma setup_cases clk fresh salt token body ttl w :
  (exists e w', setup clk fresh salt token body ttl w = (Err e, w') /\ repo w' = repo w)
  \/ exists u pw r,
      initialize_admin (clk 0%nat) fresh (SetupRequest.username body) (SetupRequest.display_name body) pw (repo w)
        = (Ok u, r)
      /\ hash_password salt (SetupRequest.password body) None = Ok pw
      /\ ((exists e w', setup clk fresh salt token body ttl w = (Err e, w') /\ repo w' = r)
          \/ exists x w', setup clk fresh salt token body ttl w = (Ok (UserResponse.from_record u, token), w')
               /\ add_seconds (clk 1%nat) ttl = Ok x
               /\ repo w' = (create_session (clk 2%nat) (UserRecord.id u) (session_token_digest token) x r).2).
Proof.
  unfold setup, bind, lift. destruct (hash_password _ _ _) as [pw|e]; [| left; eauto].
  unfold on_repository.
  destruct (initialize_cases (clk 0%nat) fresh (SetupRequest.username body)
    (SetupRequest.display_name body) pw (repo w)) as [[e E]|(nm & _ & _ & _ & E)]; rewrite E; [left; eauto | right].
  eexists _, pw, _. split; [exact E |]. split; [done |].
  unfold _set_session, bind, lift. destruct (add_seconds (clk 1%nat) ttl) as [x|e]; [right | left; eauto].
  exists x. eexists. split; [reflexivity |]. split; [done |]. reflexivity.
Qed.

(** ** Sessions *)

Definition standing_session (s : Session.t) : bool :=
  match Session.revoked_at s with None => true | Some _ => false end.

(** Who the digest stands for at [t]. *)
Definition live (t : datetime) (d : list N) (l : list Session.t) : option (uuid * datetime) :=
  match first_session d l with
  | Some s => if standing_session s && (t <? Session.expires_at s)%Z
              then Some (Session.user_id s, Session.expires_at s) else None
  | None => None
  end.

Lemma first_session_None d l : first_session d l = None <-> d ∉ map Session.token_digest l.
Proof.
  induction l as [|s l IH]; simpl; [by split; [intros _ ?%elem_of_nil | done] |].
  rewrite not_elem_of_cons. case_bool_decide; [naive_solver |]. rewrite IH. naive_solver.
Qed.

Lemma first_session_app d l s :
  first_session d (l ++ [s])
  = match first_session d l with
    | Some x => Some x
    | None => if bool_decide (Session.token_digest s = d) then Some s else None
    end.
Proof. induction l as [|x l IH]; simpl; [done |]. rewrite IH. by destruct (bool_decide (Session.token_digest x = d)). Qed.

Lemma first_session_filter d f l :
  NoDup (map Session.token_digest l) ->
  first_session d (List.filter f l)
  = match first_session d l with Some s => if f s then Some s else None | None => None end.
Proof.
  induction l as [|s l IH]; simpl; [done |]. intros [Hs Hl]%NoDup_cons.
  case_bool_decide as E.
  - destruct (f s); simpl; [by rewrite bool_decide_true |]. rewrite IH by done. subst.
    apply first_session_None in Hs. by rewrite Hs.
  - destruct (f s); simpl; [rewrite bool_decide_false by done |]; by apply IH.
Qed.

Lemma first_session_revoke d d' at_ l :
  first_session d (revoke_first d' at_ l)
  = if bool_decide (d = d') then option_map (fun s => Session.revoke s at_) (first_session d l)
    else first_session d l.
Proof.
  induction l as [|s l IH]; simpl; [by case_bool_decide |].
  destruct (decide (Session.token_digest s = d')) as [E|E].
  - rewrite (bool_decide_true (_ s = d')) by done. simpl.
    repeat case_bool_decide; subst; done.
  - rewrite (bool_decide_false (_ s = d')) by done. simpl. rewrite IH.
    repeat case_bool_decide; subst; done.
Qed.

Lemma digests_revoke d at_ l : map Session.token_digest (revoke_first d at_ l) = map Session.token_digest l.
Proof. induction l as [|s l IH]; simpl; [done |]. case_bool_decide; simpl; by f_equal. Qed.

(** Creating a session drops only what is dead already. *)
Lemma live_create t n d l i d' x :
  NoDup (map Session.token_digest l) -> d' ∉ map Session.token_digest l -> (n <= t)%Z ->
  live t d (List.filter (session_kept n) l ++ [Session.mk i d' x None])
  = if bool_decide (d = d') then (if (t <? x)%Z then Some (i, x) else None) else live t d l.
Proof.
  intros Hd Hf%first_session_None Ht. unfold live. rewrite first_session_app, first_session_filter by done. simpl.
  destruct (decide (d = d')) as [->|E]; [by rewrite Hf, !(bool_decide_true (d' = d')) by done |].
  rewrite (bool_decide_false (d' = d)), (bool_decide_false (d = d')) by done. destruct (first_session d l) as [s|]; [| done].
  unfold session_kept, standing_session. destruct (Session.revoked_at s) as [ra|] eqn:Er; simpl; [done |].
  destruct (n <? Session.expires_at s)%Z eqn:En.
  - by rewrite Er.
  - bool_prop. by replace (t <? Session.expires_at s)%Z with false by (symmetry; apply Z.ltb_ge; lia).
Qed.

Lemma live_revoke t d d' at_ l :
  live t d (revoke_first d' at_ l) = if bool_decide (d = d') then None else live t d l.
Proof.
  unfold live. rewrite first_session_revoke. case_bool_decide; [| done].
  by destruct (first_session d l).
Qed.

(** ** The history of the service *)

(** What a request granted or took back: the digest of a token, with the user it stands
    for, until when, and the credentials that were presented. *)
Inductive event : Type :=
  | Granted (token_digest : list N) (user : uuid) (expires : datetime) (username password : string)
  | Revoked (token_digest : list N).

Inductive auth_op : Type :=
  | OpSetup (clk : clock) (fresh : uuid) (salt : list N) (token : string) (body : SetupRequest.t) (ttl : Z)
  | OpLogin (mono : nat -> Z) (clk : clock) (salt : list N) (token : string) (client : option string)
      (body : LoginRequest.t) (ttl : Z)
  | OpLogout (read : datetime) (cookie : option string).

Definition expiry (start : datetime) (ttl : Z) : datetime := (start + ttl * 1000000)%Z.

Definition granted (answer : res (UserResponse.t * string)) (expires : datetime)
    (username password : string) : list event :=
  match answer with
  | Ok (user, cookie) =>
      [Granted (session_token_digest cookie) (UserResponse.id user) expires username password]
  | Err _ => []
  end.

(** A request: the state it leaves, its event, and when it ended. *)
Definition auth_run (o : auth_op) (w : App) : App * list event * datetime :=
  match o with
  | OpSetup clk fresh salt token body ttl =>
      let '(a, w') := setup clk fresh salt token body ttl w in
      (w', granted a (expiry (clk 1%nat) ttl) (SetupRequest.username body) (SetupRequest.password body),
       clk 2%nat)
  | OpLogin mono clk salt token client body ttl =>
      let '(a, w') := login mono clk salt token client body ttl w in
      (w', granted a (expiry (clk 0%nat) ttl) (LoginRequest.username body) (LoginRequest.password body),
       clk 1%nat)
  | OpLogout read cookie =>
      ((logout read cookie w).2,
       match cookie_token cookie with Some k => [Revoked (session_token_digest k)] | None => [] end, read)
  end.

(** The ids and tokens drawn are new. *)
Definition auth_fresh (o : auth_op) (w : App) : Prop :=
  let new token := session_token_digest token ∉ map Session.token_digest (_sessions (repo w)) in
  match o with
  | OpSetup _ fresh _ token _ _ => _users (repo w) !! fresh = None /\ new token
  | OpLogin _ _ _ token _ _ _ => new token
  | OpLogout _ _ => True
  end.

Inductive auth_reachable (th : LoginThrottle.t) : App -> list event -> datetime -> Prop :=
  | AuthStart n : auth_reachable th (AppState.mk th AuthRepository.init) [] n
  | AuthStep w evs n o w' es n' :
      auth_reachable th w evs n -> auth_fresh o w -> auth_run o w = (w', es, n') -> (n <= n')%Z ->
      auth_reachable th w' (evs ++ es) n'.

(** Granted and not revoked since. *)
Definition standing (evs : list event) (d : list N) (i : uuid) (x : datetime) (name password : string) : Prop :=
  exists pre post, evs = pre ++ Granted d i x name password :: post /\ Revoked d ∉ post.

Lemma standing_nil d i x a b : ~ standing [] d i x a b.
Proof. by intros ([|? ?] & post & [=] & _). Qed.

Lemma standing_snoc evs ev d i x a b :
  standing (evs ++ [ev]) d i x a b
  <-> ev = Granted d i x a b \/ (standing evs d i x a b /\ ev <> Revoked d).
Proof.
  split.
  - intros (pre & post & E & Hn). destruct post as [|y post _] using rev_ind.
    + apply app_inj_2 in E as [_ E]; [| done]. left. by injection E.
    + rewrite app_comm_cons, app_assoc in E. apply app_inj_2 in E as [-> E]; [| done].
      injection E as [= ->]. right. rewrite elem_of_app in Hn. split.
      * exists pre, post. naive_solver.
      * intros ->. apply Hn. right. by left.
  - intros [->|[(pre & post & -> & Hn) Hr]].
    + exists evs, []. split; [done |]. by intros ?%elem_of_nil.
    + exists pre, (post ++ [ev]). split; [by rewrite <- app_assoc |].
      rewrite elem_of_app, list_elem_of_singleton. naive_solver.
Qed.

Lemma standing_elem evs d i x a b : standing evs d i x a b -> Granted d i x a b ∈ evs.
Proof. intros (pre & post & -> & _). apply elem_of_app. right. by left. Qed.

Definition user_key (u : UserRecord.t) : list N := points (UserRecord.username u).

Record auth_wf (r : AuthRepository.t) (evs : list event) (n : datetime) : Prop := {
  aw_digests : NoDup (map Session.token_digest (_sessions r));
  aw_index : indexed user_key (_users r) (_usernames r);
  aw_id : forall i u, _users r !! i = Some u -> UserRecord.id u = i;
  aw_init : _initialized r = false -> forall i, _users r !! i = None;
  aw_one : forall i j u v, _users r !! i = Some u -> _users r !! j = Some v -> i = j;
  aw_proof : forall d i x name password, Granted d i x name password ∈ evs ->
    exists u, _users r !! i = Some u /\ user_key u = normalize_username name
              /\ verify_password password (UserRecord.password u) = true;
  aw_live : forall t d i x, (n <= t)%Z ->
    live t d (_sessions r) = Some (i, x) <-> (t < x)%Z /\ exists a b, standing evs d i x a b }.

Lemma auth_wf_init n : auth_wf AuthRepository.init [] n.
Proof.
  split; simpl; try done.
  - constructor.
  - apply indexed_empty.
  - intros d i x a b ?%elem_of_nil. done.
  - intros t d i x _. split; [done |]. by intros [_ (a & b & ?%standing_nil)].
Qed.

Lemma auth_wf_later r evs n n' : (n <= n')%Z -> auth_wf r evs n -> auth_wf r evs n'.
Proof. intros Hn W. destruct W. split; try done. intros t d i x Ht. apply aw_live0. lia. Qed.

(** The first administrator. *)
Lemma initialize_wf r evs n at_ fresh name display pw u r' :
  auth_wf r evs n -> _users r !! fresh = None ->
  initialize_admin at_ fresh name display pw r = (Ok u, r') ->
  auth_wf r' evs n /\ _sessions r' = _sessions r /\ _users r' !! fresh = Some u
  /\ UserRecord.id u = fresh /\ user_key u = normalize_username name /\ UserRecord.password u = pw.
Proof.
  intros W Hf E. destruct (initialize_cases at_ fresh name display pw r)
    as [[e E']|(nm & Hnm & Hi & Hfree & E')]; rewrite E' in E; [done |]. injection E as [= <- <-].
  set (u := UserRecord.mk fresh nm display UserRole.ADMIN true at_ at_ pw).
  pose proof (aw_init _ _ _ W Hi) as Hno. split_and!; try done.
  - destruct W. split; simpl; try done.
    + apply (indexed_create user_key _ _ fresh u); done.
    + intros i v Hv. dict_case; first [done | by rewrite Hno in Hv].
    + intros i j v v' Hv Hv'. rewrite dict_lookup_insert in Hv, Hv'. repeat case_decide; congruence.
    + intros d i x a b Hin. destruct (aw_proof0 d i x a b Hin) as (v & Hv & _). by rewrite Hno in Hv.
  - simpl. by rewrite dict_lookup_insert_eq.
Qed.

(** A session is granted to a user whose credentials were presented. *)
Lemma grant_wf r evs n n' d i x name password u :
  auth_wf r evs n -> (n <= n')%Z -> d ∉ map Session.token_digest (_sessions r) ->
  _users r !! i = Some u -> user_key u = normalize_username name ->
  verify_password password (UserRecord.password u) = true ->
  auth_wf (create_session n' i d x r).2 (evs ++ [Granted d i x name password]) n'.
Proof.
  intros W Hn Hd Hu Hk Hv. pose proof W as W'. destruct W. split; simpl; try done.
  - rewrite map_app. simpl. apply NoDup_app. split; [by apply NoDup_map_filter |]. split.
    + intros y Hy ->%list_elem_of_singleton. apply Hd. apply elem_of_map in Hy as (s & -> & Hs).
      apply elem_of_map. exists s. split; [done |].
      apply list_elem_of_In, filter_In in Hs as [Hs _]. by apply list_elem_of_In.
    + apply NoDup_singleton.
  - intros d' i' x' a b [Hin|Hin]%elem_of_app; [by eapply aw_proof0 |].
    apply list_elem_of_singleton in Hin. injection Hin as [= -> -> -> -> ->]. eauto.
  - intros t d' i' x' Ht. rewrite live_create by done. setoid_rewrite standing_snoc.
    assert (n <= t)%Z as Ht0 by lia. case_bool_decide as Ed.
    + subst d'. split.
      * destruct (t <? x)%Z eqn:E; [| done]. intros [= <- <-]. bool_prop. eauto 8.
      * intros [Hx (a & b & [[= -> ->]|[Hst _]])].
        -- by replace (t <? x')%Z with true by (symmetry; by apply Z.ltb_lt).
        -- exfalso. assert (live t d (_sessions r) = Some (i', x')) as Hl
             by (apply aw_live0; eauto). unfold live in Hl. apply first_session_None in Hd. by rewrite Hd in Hl.
    + rewrite (aw_live0 t d' i' x' Ht0). naive_solver.
Qed.

Lemma revoke_wf r evs n n' read d :
  auth_wf r evs n -> (n <= n')%Z ->
  auth_wf (revoke_session read d None r).2 (evs ++ [Revoked d]) n'.
Proof.
  intros W Hn. destruct W. split; simpl; try done.
  - by rewrite digests_revoke.
  - intros d' i x a b [Hin|Hin]%elem_of_app; [by eapply aw_proof0 |].
    by apply list_elem_of_singleton in Hin.
  - intros t d' i x Ht. rewrite live_revoke. setoid_rewrite standing_snoc.
    case_bool_decide as Ed; [subst; naive_solver |].
    rewrite (aw_live0 t d' i x) by lia. naive_solver.
Qed.

Lemma add_seconds_Ok n k x : add_seconds n k = Ok x -> x = expiry n k.
Proof. unfold add_seconds, expiry. destruct (_ && _); [| done]. by intros [= <-]. Qed.

Lemma auth_run_wf o w evs n w' es n' :
  auth_wf (repo w) evs n -> auth_fresh o w -> auth_run o w = (w', es, n') -> (n <= n')%Z ->
  auth_wf (repo w') (evs ++ es) n'.
Proof.
  intros W Hf E Hn. destruct o as [clk fresh salt token body ttl|mono clk salt token client body ttl|read cookie];
    simpl in E, Hf.
  - destruct Hf as [Hf Hd]. destruct (setup_cases clk fresh salt token body ttl w)
      as [(e & w1 & E1 & Hw)|(u & pw & r & Ei & Hp & Hs)].
    + rewrite E1 in E. injection E as [= <- <- <-]. simpl. rewrite app_nil_r, Hw. by eapply auth_wf_later.
    + destruct (initialize_wf _ _ _ _ _ _ _ _ _ _ W Hf Ei) as (W1 & Hss & Hu & Hid & Hk & Hpw).
      destruct Hs as [(e & w1 & E1 & Hw)|(x & w1 & E1 & Hx & Hw)]; rewrite E1 in E; injection E as [= <- <- <-].
      * simpl. rewrite app_nil_r, Hw. by eapply auth_wf_later.
      * simpl. rewrite Hw, <- (add_seconds_Ok _ _ _ Hx).
        eapply grant_wf; [exact W1 | done | by rewrite Hss | by rewrite Hid | done |].
        rewrite Hpw. exact (hash_verifies _ _ _ Hp).
  - destruct (login_cases mono clk salt token client body ttl w)
      as [(e & w1 & E1 & Hw)|(u & x & w1 & E1 & Hw & Hx & Hu & Ha & Hv)]; rewrite E1 in E; injection E as [= <- <- <-].
    + simpl. rewrite app_nil_r, Hw. by eapply auth_wf_later.
    + simpl. rewrite Hw, <- (add_seconds_Ok _ _ _ Hx).
      unfold find_user, bind, get, ret in Hu. cbn [fst] in Hu. injection Hu as Hu.
      destruct (_usernames (repo w) !! _) as [i|] eqn:Ei; [| done].
      pose proof (aw_id _ _ _ W _ _ Hu) as Hid. apply (aw_index _ _ _ W) in Ei as (v & Hv' & Hk).
      assert (v = u) as -> by congruence.
      eapply grant_wf; [exact W | done | done | by rewrite Hid | done | done].
  - injection E as [= <- <- <-]. unfold logout. destruct (cookie_token cookie) as [k|].
    + by eapply revoke_wf.
    + rewrite app_nil_r. by eapply auth_wf_later.
Qed.

Lemma auth_reachable_wf th w evs n : auth_reachable th w evs n -> auth_wf (repo w) evs n.
Proof. induction 1; [apply auth_wf_init | by eapply auth_run_wf]. Qed.

(** The user a cookie is resolved to. *)
Lemma resolve_user_eq t cookie w :
  _resolve_user t cookie w
  = (match cookie_token cookie with
     | Some k => match live t (session_token_digest k) (_sessions (repo w)) with
                 | Some (i, _) => match _users (repo w) !! i with
                                  | Some u => if UserRecord.is_active u then Ok u
                                              else Err InvalidCredentials
                                  | None => Err InvalidCredentials
                                  end
                 | None => Err InvalidCredentials
                 end
     | None => Err InvalidCredentials
     end, w).
Proof.
  unfold _resolve_user. destruct (cookie_token cookie) as [k|]; [| done].
  destruct w as [th' r]. unfold on_repository, resolve_session, bind, get, ret, live, standing_session.
  cbn [fst snd AppState.auth_repository AppState.login_throttle RunRepository.default_now].
  destruct (first_session _ _) as [s|]; [| done].
  destruct (_users r !! _) as [u|] eqn:Eu; [| by destruct (_ && _); rewrite ?Eu].
  destruct (match Session.revoked_at s with None => true | Some _ => false end && (t <? _)%Z); [| done].
  simpl. rewrite Eu. by destruct (UserRecord.is_active u).
Qed.

(** C38. A session is worth exactly what was granted for it.  After any sequence of
    setups, logins and logouts (whose random tokens are new), a cookie is resolved to a
    user at a later time exactly when it carries a token that a setup or a login set,
    for that user, whose time has not run out and that no logout has taken back since;
    and then the name and the password presented with that request were the user's.
    Nothing else is accepted: every other request is refused as unauthenticated. *)
Theorem sessions_exact th w evs n t cookie :
  auth_reachable th w evs n -> (n <= t)%Z ->
  (_resolve_user t cookie w).2 = w
  /\ ((_resolve_user t cookie w).1 = Err InvalidCredentials \/ exists u, (_resolve_user t cookie w).1 = Ok u)
  /\ (forall u, (_resolve_user t cookie w).1 = Ok u <->
       exists token x name password,
         cookie = Some token /\ token <> EmptyString
         /\ standing evs (session_token_digest token) (UserRecord.id u) x name password
         /\ (t < x)%Z /\ UserRecord.is_active u = true
         /\ _users (repo w) !! UserRecord.id u = Some u)
  /\ forall u name password d x,
       _users (repo w) !! UserRecord.id u = Some u ->
       standing evs d (UserRecord.id u) x name password ->
       points (UserRecord.username u) = normalize_username name
       /\ verify_password password (UserRecord.password u) = true.
Proof.
  intros Hr Ht. pose proof (auth_reachable_wf _ _ _ _ Hr) as W.
  rewrite resolve_user_eq.
  cbn [fst snd]. split; [done |]. split; [| split].
  - repeat case_match; eauto.
  - intros u. split.
    + unfold cookie_token. destruct cookie as [k|]; [| done].
      destruct (empty_str k) eqn:Ek; [done |]. unfold empty_str in Ek. bool_prop.
      destruct (live _ _ _) as [[i x]|] eqn:El; [| done].
      destruct (_users (repo w) !! i) as [v|] eqn:Ev; [| done].
      destruct (UserRecord.is_active v) eqn:Ea; [| done]. intros [= <-].
      apply (aw_live _ _ _ W) in El as [Hx (a & b & Hst)]; [| done].
      rewrite (aw_id _ _ _ W _ _ Ev). by exists k, x, a, b.
    + intros (k & x & a & b & -> & Hk & Hst & Hx & Ha & Hu). unfold cookie_token, empty_str.
      rewrite bool_decide_false by done.
      assert (live t (session_token_digest k) (_sessions (repo w)) = Some (UserRecord.id u, x)) as ->
        by (apply (aw_live _ _ _ W); eauto).
      by rewrite Hu, Ha.
  - intros u a b d x Hu Hst. apply standing_elem in Hst.
    destruct (aw_proof _ _ _ W _ _ _ _ _ Hst) as (v & Hv & Hk & Hp). assert (v = u) as -> by congruence. done.
Qed.

(** * Authentication: concrete histories

    Witnesses for the theorems of AuthTheorems: two logins that interleave, and an
    administrator who sets the service up and logs out. *)
Open Scope list_scope.

(** Two logins of one key are admitted together and both fail. *)
Definition demo_logins : logins :=
  let start := (LoginThrottle.acquire (LoginThrottle.acquire (LoginThrottle.init 2 300 2)).2).2 in
  let admitted := (LoginThrottle.check_window 10 "host:root" (LoginThrottle.check_window 10 "host:root" start).2).2 in
  let failed := (LoginThrottle.record_failure 11 "host:root"
                   (LoginThrottle.record_failure 10 "host:root" admitted).2).2 in
  mkLogins failed [Leaving; Leaving] 11.

Lemma succeeds {S} (c : M S unit) s : (c s).1 = Ok tt -> c s = (Ok tt, (c s).2).
Proof. destruct (c s) as [[[]|e] s']; [done | discriminate]. Qed.

Tactic Notation "login_run" uconstr(step) := eapply rtc_l; [eapply step; apply succeeds; vm_compute; reflexivity |].

Lemma demo_logins_reachable : rtc login_step (throttle_init 2 300 2 10) demo_logins.
Proof.
  login_run (StepAcquire _ _ [] 10 "host:root"%string).
  login_run (StepAcquire _ _ [Entered "host:root"%string] 10 "host:root"%string).
  login_run (StepAccept _ _ [] [Entered "host:root"%string] 10 "host:root"%string).
  login_run (StepAccept _ _ [Accepted "host:root"%string] [] 10 "host:root"%string).
  login_run (StepFailure _ _ [] [Accepted "host:root"%string] 10 "host:root"%string).
  eapply rtc_l; [apply (StepTick _ _ 10 11); lia |].
  login_run (StepFailure _ _ [Leaving] [] 11 "host:root"%string).
  apply rtc_refl.
Qed.

(** The third login of the key is refused until the window has passed. *)
Lemma failures_bounded_witness :
  (LoginThrottle.check_window 20 "host:root" (throttle demo_logins)).1 = Err LoginRateLimited
  /\ (LoginThrottle.check_window 310 "host:root" (throttle demo_logins)).1 = Ok tt.
Proof.
  destruct (failures_bounded 2 300 2 ltac:(lia) ltac:(lia) 10 demo_logins demo_logins_reachable)
    as (_ & _ & _ & _ & Hcheck).
  split; rewrite Hcheck; reflexivity.
Defined.

(** ** Sessions *)

Definition demo_clock : clock := fun i => Z.of_nat i.
Definition demo_salt : list N := replicate 32 7%N.
Definition demo_body : SetupRequest.t := SetupRequest.mk "root" "secret word" "Root".
Definition demo_app : AppState.t := AppState.mk (LoginThrottle.init 5 300 4) AuthRepository.init.

Definition demo_user (pw : PasswordDigest.t) : UserRecord.t :=
  UserRecord.mk 1 "root" "Root" UserRole.ADMIN true 0 0 pw.

(** The setup, whatever the password hash is. *)
Lemma demo_setup : exists pw,
  setup demo_clock 1 demo_salt "token" demo_body 3600 demo_app
  = (Ok (UserResponse.from_record (demo_user pw), "token"%string),
     AppState.mk (LoginThrottle.init 5 300 4)
       (AuthRepository.mk true (<[1%N:=demo_user pw]> ∅) (<[points "root":=1%N]> ∅)
          [AuthRepository.Session.mk 1 (session_token_digest "token") (expiry 1 3600) None])).
Proof.
  unfold setup. rewrite hash_password_Ok by (simpl; lia).
  generalize (pbkdf2_sha256 (utf8 (SetupRequest.password demo_body)) demo_salt PASSWORD_ITERATIONS).
  intros d. eexists. vm_compute. reflexivity.
Qed.

(** After the setup the token stands for the administrator; after the logout it does not. *)
Lemma sessions_exact_witness : exists w evs,
  auth_reachable (LoginThrottle.init 5 300 4) w evs 2
  /\ (exists u, (_resolve_user 5 (Some "token"%string) w).1 = Ok u)
  /\ (forall u, (_resolve_user 5 (Some "token"%string) (logout 4 (Some "token"%string) w).2).1 <> Ok u).
Proof.
  destruct demo_setup as [pw E].
  destruct (setup demo_clock 1 demo_salt "token" demo_body 3600 demo_app) as [a w] eqn:Es.
  injection E as [= -> Hw].
  set (ev := Granted (session_token_digest "token") 1 (expiry 1 3600) "root" "secret word").
  assert (auth_reachable (LoginThrottle.init 5 300 4) w [ev] 2) as Hr.
  { apply (AuthStep _ demo_app [] 0 (OpSetup demo_clock 1 demo_salt "token" demo_body 3600)).
    - apply AuthStart.
    - split; [reflexivity | apply not_elem_of_nil].
    - unfold auth_run. by rewrite Es.
    - done. }
  exists w, [ev]. split; [exact Hr |]. split.
  - destruct (sessions_exact _ _ _ _ 5 (Some "token"%string) Hr) as (_ & _ & H & _); [lia |].
    exists (demo_user pw). apply H. exists "token"%string, (expiry 1 3600), "root"%string, "secret word"%string.
    split_and!; [done | done | | done | done | by subst w].
    exists [], []. split; [reflexivity | apply not_elem_of_nil].
  - assert (auth_reachable (LoginThrottle.init 5 300 4) (logout 4 (Some "token"%string) w).2
              ([ev] ++ [Revoked (session_token_digest "token")]) 4) as Hr'.
    { apply (AuthStep _ w [ev] 2 (OpLogout 4 (Some "token"%string))); [exact Hr | done | reflexivity | lia]. }
    destruct (sessions_exact _ _ _ _ 5 (Some "token"%string) Hr') as (_ & _ & H & _); [lia |].
    intros u Hu. apply H in Hu as (k & x & a & b & [= <-] & _ & Hst & _).
    apply standing_snoc in Hst as [[=]|[_ Hst]]. by apply Hst.
Defined.
