(* ===== verification/WorkflowSchemas.v ===== *)
(** * Workflow schemas ([src/services/api/data_factory_schemas.py])

    The bounds on JSON values and the validators of a workflow's nodes, edges and
    variables.  pydantic turns the raw body into fields of the declared types: the
    records here start with typed fields, and [validate] applies the bounds of the
    [Field]s and the validators in the order of the fields.  Every failure is pydantic's
    [ValidationError]. *)
From S2P Require Import Prelude PyDict PyText Protocol Retry Graph Templates.
From Stdlib Require Import Ascii.
Open Scope list_scope.

Definition MAX_JSON_BYTES : Z := (1024 * 1024)%Z.
Definition MAX_JSON_DEPTH : Z := 32%Z.
Definition MAX_OBJECT_ITEMS : nat := 1000.

Definition _validate_json : Z -> pyval -> res pyval :=
  fix go (depth : Z) (value : pyval) {struct value} : res pyval :=
  if (MAX_JSON_DEPTH <? depth)%Z then Err (ValueError "JSON value is too deeply nested")
  else match value with
       | PNone | PStr _ | PBool _ | PInt _ | PFloat _ _ => Ok value
       | PList l =>
           if (MAX_OBJECT_ITEMS <? length l)%nat then Err (ValueError "JSON array has too many items")
           else
             let? l' := (fix many (l : list pyval) : res (list pyval) :=
               match l with
               | [] => Ok []
               | x :: r => let? y := go (depth + 1)%Z x in let? ys := many r in Ok (y :: ys)
               end) l in
             Ok (PList l')
       | PDict kvs =>
           if (MAX_OBJECT_ITEMS <? length kvs)%nat then Err (ValueError "JSON object is invalid or too large")
           else
             let? kvs' := (fix pairs (l : list (string * pyval)) : res (list (string * pyval)) :=
               match l with
               | [] => Ok []
               | (k, x) :: r => let? y := go (depth + 1)%Z x in let? ys := pairs r in Ok ((k, y) :: ys)
               end) kvs in
             Ok (PDict kvs')
       | _ => Err (ValueError "value must be valid JSON")
       end.

Definition ValidationError {A} : res A := Err (OtherException "ValidationError").

(** What pydantic makes of a validator that raises. *)
Definition validator {A} (r : res A) : res A := match r with Ok a => Ok a | Err _ => ValidationError end.
Definition require (b : bool) : res unit := if b then Ok tt else ValidationError.

Definition len_between (low high : Z) (s : string) : bool := (low <=? py_len s)%Z && (py_len s <=? high)%Z.

(** [JSON_PATH_PATTERN]: a dollar, then fields with an optional index. *)
Definition path_field (token : string) : bool :=
  match path_token token with
  | None => false
  | Some (field, _) =>
      match field with
      | EmptyString => false
      | String c r =>
          (is_alpha c || is_underscore c)
          && all_chars (fun c => is_alpha c || is_digit c || is_underscore c || (code c =? 45)%N) r
      end
  end.
Definition JSON_PATH_PATTERN (path : string) : bool :=
  bool_decide (path = "$"%string)
  || match drop_prefix "$." path with
     | Some rest => forallb path_field (split_on (ascii_of_N 46) rest)
     | None => false
     end.

Definition VARIABLE_PATTERN : string -> bool := ENVIRONMENT_NAME_PATTERN.

Definition HTTP_METHODS : list string := ["GET"; "POST"; "PUT"; "PATCH"; "DELETE"; "HEAD"]%string.

Definition status_codes_ok (value : list Z) : bool :=
  negb (existsb (fun code => (code <? 100)%Z || (599 <? code)%Z) value) && unique value.

(** [low <= value <= high] of a finite number. *)
Definition number_le (a b : pyval) : bool :=
  match as_number a, as_number b with
  | Some x, Some y => match dyadic_compare x y with Gt => false | _ => true end
  | _, _ => false
  end.
Definition number_lt (a b : pyval) : bool :=
  match as_number a, as_number b with
  | Some x, Some y => match dyadic_compare x y with Lt => true | _ => false end
  | _, _ => false
  end.

Section schemas.
  Context `{PyFloat}.

Definition _bounded_json (value : pyval) : res pyval :=
  let? validated := _validate_json 0 value in
  let? encoded := dumps false false validated in
  if (MAX_JSON_BYTES <? Z.of_nat (length (utf8 encoded)))%Z
  then Err (ValueError "JSON value cannot exceed 1 MiB") else Ok validated.

(** The validator of a field that is an object. *)
Definition bounded_object (kvs : list (string * pyval)) : res (list (string * pyval)) :=
  let? v := validator (_bounded_json (PDict kvs)) in
  match v with PDict kvs' => Ok kvs' | _ => ValidationError end.
End schemas.

Module HttpNodeConfig.
Record t := mk {
  method : string; url : string; headers : list (string * pyval); query : list (string * pyval);
  body : pyval; extractions : list (string * string); timeout_seconds : pyval;
  expected_statuses : list Z }.
#[global] Instance eq_dec : EqDecision t.
Proof. solve_decision. Defined.
Definition validate `{PyFloat} (r : t) : res t :=
  let? _ := require (bool_decide (upper (method r) ∈ HTTP_METHODS)) in
  let? _ := require (len_between 1 8192 (url r)) in
  let? _ := require (length (headers r) <=? 100)%nat in
  let? headers := bounded_object (headers r) in
  let? _ := require (length (query r) <=? 100)%nat in
  let? query := bounded_object (query r) in
  let? body := validator (_bounded_json (body r)) in
  let? _ := require (length (extractions r) <=? 100)%nat in
  let? _ := require (forallb (fun np => VARIABLE_PATTERN np.1 && (py_len np.2 <=? 1024)%Z
                                        && JSON_PATH_PATTERN np.2) (extractions r)) in
  let? _ := require (number_lt (PInt 0) (timeout_seconds r) && number_le (timeout_seconds r) (PInt 120)) in
  let? _ := require ((1 <=? length (expected_statuses r))%nat && (length (expected_statuses r) <=? 500)%nat
                     && status_codes_ok (expected_statuses r)) in
  Ok (mk (upper (method r)) (url r) headers query body (extractions r) (timeout_seconds r)
         (expected_statuses r)).
Definition dump (r : t) : list (string * pyval) :=
  [("method", PStr (method r)); ("url", PStr (url r)); ("headers", PDict (headers r));
   ("query", PDict (query r)); ("body", body r);
   ("extractions", PDict (map (fun np => (np.1, PStr np.2)) (extractions r)));
   ("timeout_seconds", timeout_seconds r);
   ("expected_statuses", PList (map PInt (expected_statuses r)))]%string.
End HttpNodeConfig.

Module ConditionNodeConfig.
Record t := mk { left : string; operator : string; right : pyval }.
#[global] Instance eq_dec : EqDecision t.
Proof. solve_decision. Defined.
Definition CONDITION_OPERATORS : list string :=
  ["equals"; "not_equals"; "contains"; "exists"; "gt"; "gte"; "lt"; "lte"]%string.
Definition validate `{PyFloat} (r : t) : res t :=
  let? _ := require (py_len (left r) <=? 8192)%Z in
  let? _ := validator (_bounded_json (PStr (left r))) in
  let? _ := require (bool_decide (operator r ∈ CONDITION_OPERATORS)) in
  let? right := validator (_bounded_json (right r)) in
  Ok (mk (left r) (operator r) right).
Definition dump (r : t) : list (string * pyval) :=
  [("left", PStr (left r)); ("operator", PStr (operator r)); ("right", right r)]%string.
End ConditionNodeConfig.

Module ParallelNodeConfig.
Record t := mk { max_concurrency : Z }.
#[global] Instance eq_dec : EqDecision t.
Proof. solve_decision. Defined.
Definition validate (r : t) : res t :=
  let? _ := require ((1 <=? max_concurrency r)%Z && (max_concurrency r <=? 100)%Z) in Ok r.
Definition dump (r : t) : list (string * pyval) := [("max_concurrency", PInt (max_concurrency r))]%string.
End ParallelNodeConfig.

(** The configuration of a node, parsed by the model that its type selects. *)
Module NodeConfig.
Inductive t :=
  | Http (c : HttpNodeConfig.t)
  | Condition (c : ConditionNodeConfig.t)
  | Parallel (c : ParallelNodeConfig.t).
#[global] Instance eq_dec : EqDecision t.
Proof. solve_decision. Defined.
Definition type (c : t) : WorkflowNodeType.t :=
  match c with
  | Http _ => WorkflowNodeType.HTTP
  | Condition _ => WorkflowNodeType.CONDITION
  | Parallel _ => WorkflowNodeType.PARALLEL
  end.
Definition validate `{PyFloat} (c : t) : res t :=
  match c with
  | Http c => let? c' := HttpNodeConfig.validate c in Ok (Http c')
  | Condition c => let? c' := ConditionNodeConfig.validate c in Ok (Condition c')
  | Parallel c => let? c' := ParallelNodeConfig.validate c in Ok (Parallel c')
  end.
Definition dump (c : t) : list (string * pyval) :=
  match c with
  | Http c => HttpNodeConfig.dump c
  | Condition c => ConditionNodeConfig.dump c
  | Parallel c => ParallelNodeConfig.dump c
  end.
End NodeConfig.

Module WorkflowNodeSchema.
Record t := mk { id : string; name : string; x : pyval; y : pyval; config : NodeConfig.t }.
#[global] Instance eq_dec : EqDecision t.
Proof. solve_decision. Defined.
Definition coordinate_ok (v : pyval) : bool :=
  number_le (PInt (-1000000)) v && number_le v (PInt 1000000).
Definition validate `{PyFloat} (r : t) : res t :=
  let? _ := require (len_between 1 255 (id r) && IDENTIFIER_PATTERN (id r)) in
  let? _ := require (len_between 1 255 (name r)) in
  let? _ := require (coordinate_ok (x r)) in
  let? _ := require (coordinate_ok (y r)) in
  let? config := NodeConfig.validate (config r) in
  Ok (mk (id r) (name r) (x r) (y r) config).
Definition to_domain (r : t) : WorkflowNode.t :=
  WorkflowNode.mk (id r) (name r) (NodeConfig.type (config r)) (x r) (y r) (NodeConfig.dump (config r)).
End WorkflowNodeSchema.

Module WorkflowEdgeSchema.
Record t := mk { id : string; source : string; target : string; outcome : WorkflowEdgeOutcome.t }.
#[global] Instance eq_dec : EqDecision t.
Proof. solve_decision. Defined.
Definition id_ok (s : string) : bool := len_between 1 255 s && IDENTIFIER_PATTERN s.
Definition validate (r : t) : res t :=
  let? _ := require (id_ok (id r)) in
  let? _ := require (id_ok (source r)) in
  let? _ := require (id_ok (target r)) in
  Ok r.
Definition to_domain (r : t) : WorkflowEdge.t :=
  WorkflowEdge.mk (id r) (source r) (target r) (outcome r).
End WorkflowEdgeSchema.

Module WorkflowDefinitionSchema.
Record t := mk {
  nodes : list WorkflowNodeSchema.t; edges : list WorkflowEdgeSchema.t;
  variables : list (string * pyval) }.
#[global] Instance eq_dec : EqDecision t.
Proof. solve_decision. Defined.
Definition to_domain (r : t) (workflow_id : string) : WorkflowDefinition.t :=
  WorkflowDefinition.mk (map WorkflowNodeSchema.to_domain (nodes r))
    (map WorkflowEdgeSchema.to_domain (edges r)) (variables r) workflow_id.
Definition validate_variables `{PyFloat} (value : list (string * pyval)) : res (list (string * pyval)) :=
  let? _ := require (length value <=? MAX_OBJECT_ITEMS)%nat in
  let? _ := require (forallb (fun nv => VARIABLE_PATTERN nv.1) value) in
  bounded_object value.
Definition validate `{PyFloat} (r : t) : res t :=
  let? _ := require (length (nodes r) <=? MAX_WORKFLOW_NODES)%nat in
  let? nodes := rmap WorkflowNodeSchema.validate (nodes r) in
  let? _ := require (length (edges r) <=? MAX_WORKFLOW_EDGES)%nat in
  let? edges := rmap WorkflowEdgeSchema.validate (edges r) in
  let? variables := validate_variables (variables r) in
  let result := mk nodes edges variables in
  let? _ := validator (validate_workflow_graph (to_domain result "debug")) in
  Ok result.
End WorkflowDefinitionSchema.
