(* ===== verification/Workflows.v ===== *)
(** * The workflow repository ([src/services/api/data_factory_repository.py])

    Stored workflows, their unique names and their runs.  A record keeps the dumps of the
    validated nodes and edges; the dump of a schema and the schema itself determine each
    other, and the record here keeps the schema. *)
From stdpp Require Import pretty.
From S2P Require Import Prelude PyDict PyText Protocol Retry Graph Templates Flow Versioned WorkflowSchemas.
From Stdlib Require Import Ascii.
Open Scope list_scope.

Module WorkflowRecord.
Record t := mk {
  id : uuid; project_id : uuid; name : string; description : string;
  nodes : list WorkflowNodeSchema.t; edges : list WorkflowEdgeSchema.t;
  variables : list (string * pyval); state_version : Z;
  created_at : datetime; updated_at : datetime }.

Definition definition `{PyFloat} (r : t) : res WorkflowDefinition.t :=
  let? schema := WorkflowDefinitionSchema.validate
                   (WorkflowDefinitionSchema.mk (nodes r) (edges r) (variables r)) in
  Ok (WorkflowDefinitionSchema.to_domain schema (uuid_str (id r))).
End WorkflowRecord.

Definition normalize_workflow_name (name : string) : res string :=
  bounded_text 255 "workflow name must contain between 1 and 255 characters" name.

Definition normalize_definition `{PyFloat} (nodes : list WorkflowNodeSchema.t)
    (edges : list WorkflowEdgeSchema.t) (variables : list (string * pyval))
    : res (list WorkflowNodeSchema.t * list WorkflowEdgeSchema.t * list (string * pyval)) :=
  let? definition := WorkflowDefinitionSchema.validate (WorkflowDefinitionSchema.mk nodes edges variables) in
  Ok (WorkflowDefinitionSchema.nodes definition, WorkflowDefinitionSchema.edges definition,
      WorkflowDefinitionSchema.variables definition).

Module DataFactoryRepository.
Record t := mk {
  _workflows : pydict uuid WorkflowRecord.t;
  _names : pydict (uuid * string) uuid;
  _runs : pydict uuid (list WorkflowRunRecord.t) }.

Definition init : t := mk ∅ ∅ ∅.

Section repository.
  Context `{PyFloat}.

Definition create_workflow (now : datetime) (fresh : uuid) (project_id : uuid)
    (name description : string) (nodes : list WorkflowNodeSchema.t)
    (edges : list WorkflowEdgeSchema.t) (variables : list (string * pyval))
    : M t WorkflowRecord.t :=
  let* normalized_name := lift (normalize_workflow_name name) in
  let* '(nodes, edges, variables) := lift (normalize_definition nodes edges variables) in
  let* s := get in
  let key := (project_id, normalized_name) in
  if has_key key (_names s) then raise WorkflowNameConflict
  else
    let record := WorkflowRecord.mk fresh project_id normalized_name description nodes edges
                    variables 0 now now in
    put (mk (<[fresh:=record]> (_workflows s)) (<[key:=fresh]> (_names s))
            (<[fresh:=[]]> (_runs s))) ;;;
    ret record.

Definition get_workflow (workflow_id : uuid) : M t WorkflowRecord.t := fun s =>
  (match _workflows s !! workflow_id with Some r => Ok r | None => Err WorkflowNotFound end, s).

Definition list_workflows (project_id : uuid) : M t (list WorkflowRecord.t) :=
  let* s := get in
  let records := List.filter (fun item => bool_decide (WorkflowRecord.project_id item = project_id))
                   (values (_workflows s)) in
  ret (py_sorted (by_key WorkflowRecord.created_at) records).

Definition update_workflow (now : datetime) (workflow_id : uuid) (project_id : uuid)
    (name description : string) (nodes : list WorkflowNodeSchema.t)
    (edges : list WorkflowEdgeSchema.t) (variables : list (string * pyval))
    (expected_version : Z) : M t WorkflowRecord.t :=
  let* normalized_name := lift (normalize_workflow_name name) in
  let* '(nodes, edges, variables) := lift (normalize_definition nodes edges variables) in
  let* current := get_workflow workflow_id in
  if negb (bool_decide (WorkflowRecord.project_id current = project_id)) then raise WorkflowConflict
  else if negb (WorkflowRecord.state_version current =? expected_version)%Z
  then raise WorkflowVersionConflict
  else
    let* s := get in
    let key := (project_id, normalized_name) in
    if match _names s !! key with
       | Some owner => negb (bool_decide (owner = workflow_id))
       | None => false
       end then raise WorkflowNameConflict
    else
      let updated := WorkflowRecord.mk (WorkflowRecord.id current) project_id normalized_name
                       description nodes edges variables
                       (WorkflowRecord.state_version current + 1)
                       (WorkflowRecord.created_at current) now in
      put (mk (<[workflow_id:=updated]> (_workflows s))
              (if negb (bool_decide (normalized_name = WorkflowRecord.name current))
               then <[key:=workflow_id]> (delete (project_id, WorkflowRecord.name current) (_names s))
               else _names s)
              (_runs s)) ;;;
      ret updated.

Definition delete_workflow (workflow_id : uuid) : M t unit :=
  let* current := get_workflow workflow_id in
  let* s := get in
  put (mk (delete workflow_id (_workflows s))
          (delete (WorkflowRecord.project_id current, WorkflowRecord.name current) (_names s))
          (delete workflow_id (_runs s))).

Definition save_run (workflow_id : uuid) (run : WorkflowRunRecord.t) : M t WorkflowRunRecord.t :=
  get_workflow workflow_id ;;;
  if negb (bool_decide (WorkflowRunRecord.workflow_id run = uuid_str workflow_id))
  then raise WorkflowConflict
  else
    let* s := get in
    let* runs := lift (subscript workflow_id (_runs s)) in
    put (mk (_workflows s) (_names s) (<[workflow_id:=runs ++ [run]]> (_runs s))) ;;;
    ret run.

(** [sorted(runs, key=..., reverse=True)] keeps the order of equal keys; [started_at] is
    an ISO text, compared by code points. *)
Definition list_runs (workflow_id : uuid) : M t (list WorkflowRunRecord.t) :=
  get_workflow workflow_id ;;;
  let* s := get in
  let* runs := lift (subscript workflow_id (_runs s)) in
  ret (rev (py_sorted (fun a b => str_leb (WorkflowRunRecord.started_at a) (WorkflowRunRecord.started_at b))
              (rev runs))).
End repository.
End DataFactoryRepository.

(** * Stored workflows stay executable

    Validation is idempotent: what the schemas accept they accept again, unchanged but
    for the case of HTTP methods.  With the exact index of names this gives the
    invariant of the repository. *)
Open Scope list_scope.

(** ** Validation is idempotent *)

Lemma validate_json_list (f : pyval -> res pyval) l l' :
  Forall (fun v => forall v', f v = Ok v' -> v' = v) l ->
  (fix many (l : list pyval) : res (list pyval) :=
     match l with
     | [] => Ok []
     | x :: r => let? y := f x in let? ys := many r in Ok (y :: ys)
     end) l = Ok l' -> l' = l.
Proof.
  intros Hf. revert l'. induction Hf as [|x l Hx Hl IH]; intros l'; simpl; [by intros [= <-] |].
  destruct (f x) as [y|e] eqn:Ex; simpl; [| done]. rewrite (Hx y eq_refl).
  match goal with |- rbind ?r _ = _ -> _ => destruct r as [ys|e] eqn:El end; simpl; [| done].
  intros [= <-]. f_equal. by apply IH.
Qed.

Lemma validate_json_pairs (f : pyval -> res pyval) (l l' : list (string * pyval)) :
  Forall (fun kv => forall v', f kv.2 = Ok v' -> v' = kv.2) l ->
  (fix pairs (l : list (string * pyval)) : res (list (string * pyval)) :=
     match l with
     | [] => Ok []
     | (k, x) :: r => let? y := f x in let? ys := pairs r in Ok ((k, y) :: ys)
     end) l = Ok l' -> l' = l.
Proof.
  intros Hf. revert l'. induction Hf as [|[k x] l Hx Hl IH]; intros l'; simpl; [by intros [= <-] |].
  simpl in Hx. destruct (f x) as [y|e] eqn:Ex; simpl; [| done]. rewrite (Hx y eq_refl).
  match goal with |- rbind ?r _ = _ -> _ => destruct r as [ys|e] eqn:El end; simpl; [| done].
  intros [= <-]. f_equal. by apply IH.
Qed.

Lemma validate_json_same v : forall d v', _validate_json d v = Ok v' -> v' = v.
Proof.
  induction v as [| | | | | | |l IH| | | |kvs IH|] using pyval_ind; intros d v'; simpl;
    destruct (MAX_JSON_DEPTH <? d)%Z; try done; try (by intros [= <-]).
  - destruct (MAX_OBJECT_ITEMS <? length l)%nat; [done |].
    match goal with |- rbind ?r _ = _ -> _ => destruct r as [l'|e] eqn:El end; simpl; [| done].
    intros [= <-]. f_equal. eapply (validate_json_list (_validate_json (d + 1))); [| exact El].
    eapply Forall_impl; [exact IH |]. naive_solver.
  - destruct (MAX_OBJECT_ITEMS <? length kvs)%nat; [done |].
    match goal with |- rbind ?r _ = _ -> _ => destruct r as [l'|e] eqn:El end; simpl; [| done].
    intros [= <-]. f_equal. eapply (validate_json_pairs (_validate_json (d + 1))); [| exact El].
    eapply Forall_impl; [exact IH |]. naive_solver.
Qed.

Lemma require_Ok b (a : unit) : require b = Ok a -> b = true.
Proof. by destruct b. Qed.

Lemma validator_Ok {A} (r : res A) a : validator r = Ok a -> r = Ok a.
Proof. by destruct r. Qed.

Lemma upper_idemp s : upper (upper s) = upper s.
Proof.
  induction s as [|c s IH]; simpl; [done |]. f_equal; [| done].
  destruct c as [[] [] [] [] [] [] [] []]; reflexivity.
Qed.

Section schemas.
  Context `{PyFloat}.

Lemma bounded_json_same v v' : _bounded_json v = Ok v' -> v' = v.
Proof.
  unfold _bounded_json. destruct (_validate_json 0 v) as [w|e] eqn:E; simpl; [| done].
  destruct (dumps false false w) as [t|e]; simpl; [| done].
  destruct (_ <? _)%Z; [done |]. intros [= <-]. by eapply validate_json_same.
Qed.

Lemma bounded_object_same kvs kvs' : bounded_object kvs = Ok kvs' -> kvs' = kvs.
Proof.
  unfold bounded_object. destruct (validator _) as [v|e] eqn:E; simpl; [| done].
  apply validator_Ok, bounded_json_same in E as ->. by intros [= <-].
Qed.
End schemas.

(** One step of a validator: a bound that holds, or a value that comes back. *)
Ltac validated :=
  repeat match goal with
         | H : rbind ?r _ = Ok _ |- _ => destruct r eqn:?; cbn [rbind] in H; [| discriminate H]
         | H : require _ = Ok _ |- _ => apply require_Ok in H
         | H : bounded_object _ = Ok _ |- _ => pose proof (bounded_object_same _ _ H); subst; revert H
         | H : validator (_bounded_json _) = Ok _ |- _ =>
             pose proof (bounded_json_same _ _ (validator_Ok _ _ H)); subst; revert H
         end; intros; simplify_eq.

Ltac revalidate :=
  repeat match goal with
         | H : ?b = true |- context [require ?b] => rewrite H; cbn [require rbind]
         | H : ?r = Ok ?a |- context [rbind ?r _] => rewrite H; cbn [rbind]
         end.

Section schemas.
  Context `{PyFloat}.

Lemma http_config_idemp c c' :
  HttpNodeConfig.validate c = Ok c' -> HttpNodeConfig.validate c' = Ok c'.
Proof.
  destruct c as [m u h q b e t s]. unfold HttpNodeConfig.validate.
  cbn [HttpNodeConfig.method HttpNodeConfig.url HttpNodeConfig.headers HttpNodeConfig.query
    HttpNodeConfig.body HttpNodeConfig.extractions HttpNodeConfig.timeout_seconds
    HttpNodeConfig.expected_statuses].
  intros Hv. validated.
  cbn [HttpNodeConfig.method HttpNodeConfig.url HttpNodeConfig.headers HttpNodeConfig.query
    HttpNodeConfig.body HttpNodeConfig.extractions HttpNodeConfig.timeout_seconds
    HttpNodeConfig.expected_statuses]. rewrite upper_idemp. revalidate. done.
Qed.

Lemma condition_config_idemp c c' :
  ConditionNodeConfig.validate c = Ok c' -> ConditionNodeConfig.validate c' = Ok c'.
Proof.
  destruct c as [l o r]. unfold ConditionNodeConfig.validate.
  cbn [ConditionNodeConfig.left ConditionNodeConfig.operator ConditionNodeConfig.right].
  intros Hv. validated. cbn [ConditionNodeConfig.left ConditionNodeConfig.operator ConditionNodeConfig.right].
  revalidate. done.
Qed.

Lemma node_config_idemp c c' :
  NodeConfig.validate c = Ok c' -> NodeConfig.validate c' = Ok c' /\ NodeConfig.type c' = NodeConfig.type c.
Proof.
  destruct c as [c|c|c]; cbn [NodeConfig.validate]; intros Hv; validated; cbn [NodeConfig.validate NodeConfig.type].
  - split; [| done].
    match goal with Hc : HttpNodeConfig.validate _ = Ok _ |- _ => by rewrite (http_config_idemp _ _ Hc) end.
  - split; [| done].
    match goal with Hc : ConditionNodeConfig.validate _ = Ok _ |- _ => by rewrite (condition_config_idemp _ _ Hc) end.
  - match goal with Hc : ParallelNodeConfig.validate ?p = Ok _ |- _ =>
      assert (Hp := Hc); unfold ParallelNodeConfig.validate in Hp; validated end.
    split; [| done]. by rewrite Heqr.
Qed.

Lemma node_schema_idemp n n' :
  WorkflowNodeSchema.validate n = Ok n' -> WorkflowNodeSchema.validate n' = Ok n'.
Proof.
  destruct n as [i m x y c]. unfold WorkflowNodeSchema.validate.
  cbn [WorkflowNodeSchema.id WorkflowNodeSchema.name WorkflowNodeSchema.x WorkflowNodeSchema.y
    WorkflowNodeSchema.config]. intros Hv. validated.
  match goal with Hc : NodeConfig.validate _ = Ok _ |- _ => apply node_config_idemp in Hc as [Hc _] end.
  cbn [WorkflowNodeSchema.id WorkflowNodeSchema.name WorkflowNodeSchema.x WorkflowNodeSchema.y
    WorkflowNodeSchema.config]. revalidate. done.
Qed.

Lemma edge_schema_same e e' : WorkflowEdgeSchema.validate e = Ok e' -> e' = e.
Proof. unfold WorkflowEdgeSchema.validate. intros Hv. by validated. Qed.

Lemma rmap_idemp {A} (f : A -> res A) l l' :
  (forall x y, f x = Ok y -> f y = Ok y) -> rmap f l = Ok l' -> rmap f l' = Ok l' /\ length l' = length l.
Proof.
  intros Hf Hl%rmap_Ok. split; [| by eapply symmetry, Forall2_length].
  apply rmap_Ok. induction Hl; constructor; eauto.
Qed.

(** What a workflow schema accepts it accepts again, unchanged. *)
Lemma definition_idemp d d' :
  WorkflowDefinitionSchema.validate d = Ok d' ->
  WorkflowDefinitionSchema.validate d' = Ok d'
  /\ validate_workflow_graph (WorkflowDefinitionSchema.to_domain d' "debug") = Ok tt
  /\ WorkflowDefinitionSchema.edges d' = WorkflowDefinitionSchema.edges d
  /\ WorkflowDefinitionSchema.variables d' = WorkflowDefinitionSchema.variables d.
Proof.
  destruct d as [ns es vs]. unfold WorkflowDefinitionSchema.validate, WorkflowDefinitionSchema.validate_variables.
  cbn [WorkflowDefinitionSchema.nodes WorkflowDefinitionSchema.edges WorkflowDefinitionSchema.variables].
  intros Hv. validated.
  match goal with Hn : rmap WorkflowNodeSchema.validate ns = Ok ?l |- _ =>
    destruct (rmap_idemp _ _ _ node_schema_idemp Hn) as [Hn' Hln]; clear Hn end.
  match goal with He : rmap WorkflowEdgeSchema.validate es = Ok ?l |- _ =>
    assert (l = es) as -> by (apply rmap_Ok in He; clear -He; induction He as [|x y ? ? Hxy];
      [done | apply edge_schema_same in Hxy; by subst]) end.
  match goal with Hg : validator _ = Ok ?u |- _ => destruct u; pose proof (validator_Ok _ _ Hg) as Hgr end.
  cbn [WorkflowDefinitionSchema.nodes WorkflowDefinitionSchema.edges WorkflowDefinitionSchema.variables].
  split_and!; [| done | done | done]. rewrite Hln. revalidate. done.
Qed.
End schemas.

(** ** The repository *)
Import DataFactoryRepository.

Section repository.
  Context `{PyFloat}.

Inductive workflow_op : Type :=
  | OpCreateWorkflow (now : datetime) (fresh : uuid) (project : uuid) (name description : string)
      (nodes : list WorkflowNodeSchema.t) (edges : list WorkflowEdgeSchema.t)
      (variables : list (string * pyval))
  | OpUpdateWorkflow (now : datetime) (i : uuid) (project : uuid) (name description : string)
      (nodes : list WorkflowNodeSchema.t) (edges : list WorkflowEdgeSchema.t)
      (variables : list (string * pyval)) (expected : Z)
  | OpDeleteWorkflow (i : uuid)
  | OpSaveRun (i : uuid) (run : WorkflowRunRecord.t).

Definition workflow_step (o : workflow_op) (s : t) : t :=
  match o with
  | OpCreateWorkflow now f p n d ns es vs => (create_workflow now f p n d ns es vs s).2
  | OpUpdateWorkflow now i p n d ns es vs v => (update_workflow now i p n d ns es vs v s).2
  | OpDeleteWorkflow i => (delete_workflow i s).2
  | OpSaveRun i run => (save_run i run s).2
  end.

Definition workflow_fresh (o : workflow_op) (s : t) : Prop :=
  match o with OpCreateWorkflow _ f _ _ _ _ _ _ => _workflows s !! f = None | _ => True end.

Definition workflow_key (r : WorkflowRecord.t) : uuid * string :=
  (WorkflowRecord.project_id r, WorkflowRecord.name r).
Definition schema_of (r : WorkflowRecord.t) : WorkflowDefinitionSchema.t :=
  WorkflowDefinitionSchema.mk (WorkflowRecord.nodes r) (WorkflowRecord.edges r) (WorkflowRecord.variables r).

Record workflows_wf (s : t) : Prop := {
  ww_id : forall i r, _workflows s !! i = Some r -> WorkflowRecord.id r = i;
  ww_valid : forall i r, _workflows s !! i = Some r ->
    WorkflowDefinitionSchema.validate (schema_of r) = Ok (schema_of r);
  ww_index : indexed workflow_key (_workflows s) (_names s);
  ww_runs : forall i, is_Some (_runs s !! i) <-> is_Some (_workflows s !! i);
  ww_run : forall i l run, _runs s !! i = Some l -> run ∈ l -> WorkflowRunRecord.workflow_id run = uuid_str i }.

Lemma normalize_definition_Ok ns es vs ns' es' vs' :
  normalize_definition ns es vs = Ok (ns', es', vs') ->
  WorkflowDefinitionSchema.validate (WorkflowDefinitionSchema.mk ns es vs)
  = Ok (WorkflowDefinitionSchema.mk ns' es' vs').
Proof.
  unfold normalize_definition. intros ([n e v] & Hv & [= <- <- <-])%rbind_Ok. exact Hv.
Qed.

Lemma create_workflow_cases now f p n d ns es vs s :
  (exists e, create_workflow now f p n d ns es vs s = (Err e, s)
     /\ forall nm def, normalize_workflow_name n = Ok nm -> normalize_definition ns es vs = Ok def ->
          is_Some (_names s !! (p, nm)))
  \/ exists nm ns' es' vs' , normalize_workflow_name n = Ok nm
       /\ normalize_definition ns es vs = Ok (ns', es', vs')
       /\ _names s !! (p, nm) = None
       /\ let r := WorkflowRecord.mk f p nm d ns' es' vs' 0 now now in
          create_workflow now f p n d ns es vs s
          = (Ok r, mk (<[f:=r]> (_workflows s)) (<[(p, nm):=f]> (_names s)) (<[f:=[]]> (_runs s))).
Proof.
  unfold create_workflow, bind, lift, get, put, raise, ret.
  destruct (normalize_workflow_name n) as [nm|e]; cbn [fst snd]; [| left; naive_solver].
  destruct (normalize_definition ns es vs) as [[[ns' es'] vs']|e]; cbn [fst snd]; [| left; naive_solver].
  destruct (has_key (p, nm) (_names s)) eqn:Ek.
  - left. eexists. split; [done |]. apply has_key_true in Ek. naive_solver.
  - right. apply has_key_false in Ek. exists nm, ns', es', vs'. done.
Qed.

(** What an update does when it succeeds, and when it does. *)
Lemma update_workflow_Ok now i p n d ns es vs v s r' s' :
  update_workflow now i p n d ns es vs v s = (Ok r', s') <->
  exists nm ns' es' vs' r, normalize_workflow_name n = Ok nm
    /\ normalize_definition ns es vs = Ok (ns', es', vs') /\ _workflows s !! i = Some r
    /\ WorkflowRecord.project_id r = p /\ WorkflowRecord.state_version r = v
    /\ (_names s !! (p, nm) = None \/ _names s !! (p, nm) = Some i)
    /\ r' = WorkflowRecord.mk (WorkflowRecord.id r) p nm d ns' es' vs' (v + 1)
              (WorkflowRecord.created_at r) now
    /\ s' = mk (<[i:=r']> (_workflows s))
              (if negb (bool_decide (nm = WorkflowRecord.name r))
               then <[(p, nm):=i]> (delete (p, WorkflowRecord.name r) (_names s)) else _names s)
              (_runs s).
Proof.
  unfold update_workflow, get_workflow, bind, get, put, ret, raise, lift. cbn [fst snd]. split.
  - intros Hu. py_inv Hu; bool_prop; subst;
      (do 5 eexists; split_and!; [done | done | done | done | done | first [by left | by right] | done |]);
      repeat case_bool_decide; done.
  - intros (nm & ns' & es' & vs' & r & -> & -> & -> & <- & <- & Ho & -> & ->). cbn [fst snd].
    rewrite (bool_decide_true (WorkflowRecord.project_id r = _)) by done. rewrite Z.eqb_refl. cbn [negb fst snd].
    destruct Ho as [-> | ->]; rewrite ?(bool_decide_true (i = i)) by done; done.
Qed.

Lemma update_workflow_err now i p n d ns es vs v s :
  is_ok (update_workflow now i p n d ns es vs v s).1 = false ->
  (update_workflow now i p n d ns es vs v s).2 = s.
Proof. unfold update_workflow, get_workflow. st_call; simplify_eq; try done. Qed.

Lemma create_workflow_good now f p n d ns es vs s :
  workflows_wf s -> _workflows s !! f = None -> workflows_wf (create_workflow now f p n d ns es vs s).2.
Proof.
  intros W Hf. destruct (create_workflow_cases now f p n d ns es vs s)
    as [(e & -> & _)|(nm & ns' & es' & vs' & Hn & Hd & Hk & E)]; [done |]. cbv zeta in E. rewrite E.
  set (r := WorkflowRecord.mk f p nm d ns' es' vs' 0 now now).
  apply normalize_definition_Ok, definition_idemp in Hd as [Hd _]. split; simpl.
  - intros i x Hx. dict_case; [done | by eapply ww_id].
  - intros i x Hx. dict_case; [done | by eapply ww_valid].
  - apply (indexed_create workflow_key _ _ f r); [apply W | done | done].
  - intros i. rewrite !dict_lookup_insert. case_decide; [by split; eauto | apply W].
  - intros i l run Hl Hrun. dict_case; [by apply elem_of_nil in Hrun | by eapply ww_run].
Qed.

Lemma update_workflow_good now i p n d ns es vs v s :
  workflows_wf s -> workflows_wf (update_workflow now i p n d ns es vs v s).2.
Proof.
  intros W. destruct (update_workflow now i p n d ns es vs v s) as [[r'|e] s'] eqn:Eu.
  2: { pose proof (update_workflow_err now i p n d ns es vs v s) as He. rewrite Eu in He.
       simpl in *. by rewrite He. }
  apply update_workflow_Ok in Eu as (nm & ns' & es' & vs' & r & Hn & Hd & Hr & <- & <- & Ho & -> & ->).
  apply normalize_definition_Ok, definition_idemp in Hd as [Hd _]. split; simpl.
  - intros j x Hx. dict_case; [by eapply ww_id in Hr | by eapply ww_id].
  - intros j x Hx. dict_case; [done | by eapply ww_valid].
  - pose proof (indexed_update workflow_key _ _ i r (WorkflowRecord.mk (WorkflowRecord.id r)
      (WorkflowRecord.project_id r) nm d ns' es' vs' (WorkflowRecord.state_version r + 1)
      (WorkflowRecord.created_at r) now) (ww_index _ W) Hr Ho) as Hx.
    unfold workflow_key in Hx. simpl in Hx. destruct (decide (nm = WorkflowRecord.name r)) as [->|Hne].
    + rewrite (bool_decide_true (_ = _)) in Hx by done.
      by rewrite (bool_decide_true (WorkflowRecord.name r = _)) by done.
    + rewrite (bool_decide_false (_ = _)) in Hx by congruence.
      by rewrite (bool_decide_false (nm = _)) by done.
  - intros j. rewrite dict_lookup_insert, (ww_runs _ W). case_decide; subst; [by rewrite Hr; split; eauto | done].
  - intros j l run. by eapply ww_run.
Qed.

Lemma delete_workflow_good i s : workflows_wf s -> workflows_wf (delete_workflow i s).2.
Proof.
  intros W. unfold delete_workflow, get_workflow. st_call; simplify_eq; try done. split; simpl.
  - intros j r Hr. dict_case; by eapply ww_id.
  - intros j r Hr. dict_case; by eapply ww_valid.
  - apply (indexed_delete workflow_key); [apply W | done].
  - intros j. rewrite !dict_lookup_delete. case_decide; [by split; intros [x Hx] | apply W].
  - intros j l run Hl Hrun. dict_case; by eapply ww_run.
Qed.

Lemma save_run_good i run s : workflows_wf s -> workflows_wf (save_run i run s).2.
Proof.
  intros W. unfold save_run, get_workflow, subscript. st_call; simplify_eq; try done. bool_prop.
  split; simpl; try apply W.
  - intros j. rewrite dict_lookup_insert. case_decide; subst; [| apply W].
    rewrite <- (ww_runs _ W). by split; eauto.
  - intros j l' run' Hl Hrun. dict_case; [| by eapply ww_run].
    apply elem_of_app in Hrun as [Hrun| ->%list_elem_of_singleton]; [by eapply ww_run | done].
Qed.

#[export,refine] Instance workflow_store : Store t workflow_op := {|
  st_init := init; st_op := workflow_step; st_fresh := workflow_fresh; st_wf := workflows_wf;
  st_evolves _ _ := True |}.
Proof.
  - by split.
  - split; simpl; try done.
    + apply indexed_empty.
    + intros i. by split; intros [x Hx].
  - intros [] s W Hf; split; try done; simpl in *.
    + by apply create_workflow_good.
    + by apply update_workflow_good.
    + by apply delete_workflow_good.
    + by apply save_run_good.
Defined.

(** C39. Stored workflows stay executable.  After any creations, updates, deletions and
    saved runs, the definition of every stored workflow can be rebuilt: its schemas
    accept the stored nodes, edges and variables again, unchanged, and its graph is
    valid, which is what the executor relies on; its runs can be listed and are its
    own; no two workflows of a project share a name; a creation succeeds exactly for a
    valid name that is free in the project and a valid definition; and an update
    exactly for these, on the expected version within the same project. *)
Theorem workflows_executable s :
  st_reachable s ->
  (forall i r, get_workflow i s = (Ok r, s) ->
     (exists def, WorkflowRecord.definition r = Ok def /\ validate_workflow_graph def = Ok tt
        /\ def = WorkflowDefinition.mk (map WorkflowNodeSchema.to_domain (WorkflowRecord.nodes r))
                   (map WorkflowEdgeSchema.to_domain (WorkflowRecord.edges r))
                   (WorkflowRecord.variables r) (uuid_str i))
     /\ exists runs, list_runs i s = (Ok runs, s)
          /\ forall run, run ∈ runs -> WorkflowRunRecord.workflow_id run = uuid_str i)
  /\ (forall i j r r', get_workflow i s = (Ok r, s) -> get_workflow j s = (Ok r', s) ->
        WorkflowRecord.project_id r = WorkflowRecord.project_id r' ->
        WorkflowRecord.name r = WorkflowRecord.name r' -> i = j)
  /\ (forall now f p n d ns es vs,
        is_ok (create_workflow now f p n d ns es vs s).1 = true <->
        exists nm, normalize_workflow_name n = Ok nm
          /\ is_ok (WorkflowDefinitionSchema.validate (WorkflowDefinitionSchema.mk ns es vs)) = true
          /\ forall i r, get_workflow i s = (Ok r, s) -> workflow_key r <> (p, nm))
  /\ (forall now i p n d ns es vs v,
        is_ok (update_workflow now i p n d ns es vs v s).1 = true <->
        exists nm r, normalize_workflow_name n = Ok nm
          /\ is_ok (WorkflowDefinitionSchema.validate (WorkflowDefinitionSchema.mk ns es vs)) = true
          /\ get_workflow i s = (Ok r, s) /\ WorkflowRecord.project_id r = p
          /\ WorkflowRecord.state_version r = v
          /\ forall j r', get_workflow j s = (Ok r', s) -> workflow_key r' = (p, nm) -> j = i).
Proof.
  intros W%st_reachable_wf. simpl in W.
  assert (forall i r, get_workflow i s = (Ok r, s) <-> _workflows s !! i = Some r) as Hget.
  { intros i r. unfold get_workflow. destruct (_workflows s !! i); naive_solver. }
  assert (forall ns es vs, is_ok (WorkflowDefinitionSchema.validate (WorkflowDefinitionSchema.mk ns es vs)) = true
            <-> exists def, normalize_definition ns es vs = Ok def) as Hdef.
  { intros ns es vs. unfold normalize_definition.
    destruct (WorkflowDefinitionSchema.validate _); simpl; naive_solver. }
  split_and!.
  - intros i r Hi%Hget. split.
    + pose proof (ww_valid _ W _ _ Hi) as Hv. pose proof (definition_idemp _ _ Hv) as (_ & Hg & _).
      unfold WorkflowRecord.definition. unfold schema_of in Hv. rewrite Hv. cbn [rbind].
      rewrite (ww_id _ W _ _ Hi). eexists. split; [done |]. split; [exact Hg | done].
    + destruct (proj2 (ww_runs _ W i)) as [l Hl]; [eauto |]. unfold list_runs, get_workflow, bind, lift, get, ret.
      rewrite Hi. unfold subscript. rewrite Hl. eexists. split; [done |]. intros run Hrun.
      rewrite list_elem_of_In, <- in_rev in Hrun.
      apply list_elem_of_In, elem_of_py_sorted, list_elem_of_In in Hrun. rewrite <- in_rev in Hrun.
      eapply ww_run; [exact W | exact Hl | by apply list_elem_of_In].
  - intros i j r r' Hi%Hget Hj%Hget Hp Hn.
    eapply (indexed_unique workflow_key); [apply W | done | done |]. unfold workflow_key. congruence.
  - intros now f p n d ns es vs. setoid_rewrite Hdef. setoid_rewrite Hget.
    pose proof (fun nm => indexed_free _ _ _ (p, nm) (ww_index _ W)) as Hfree.
    destruct (create_workflow_cases now f p n d ns es vs s)
      as [(e & -> & He)|(nm & ns' & es' & vs' & Hn & Hd & Hk & ->)]; simpl.
    + split; [done |]. intros (nm & Hn & [def Hd] & Hno%Hfree). destruct (He _ _ Hn Hd). congruence.
    + split; [intros _ | done]. exists nm. split; [done |]. split; [eauto |]. by apply Hfree.
  - intros now i p n d ns es vs v. setoid_rewrite Hdef. setoid_rewrite Hget. split.
    + destruct (update_workflow now i p n d ns es vs v s) as [[r'|e] s'] eqn:Eu; [intros _ | done].
      apply update_workflow_Ok in Eu as (nm & ns' & es' & vs' & r & Hn & Hd & Hr & Hp & Hv & Ho & _).
      exists nm, r. split_and!; try done; [eauto |].
      apply (indexed_free_for workflow_key _ _ _ _ (ww_index _ W)). done.
    + intros (nm & r & Hn & [[[ns' es'] vs'] Hd] & Hr & Hp & Hv & Hu).
      eassert (update_workflow now i p n d ns es vs v s = (Ok _, _)) as ->; [| done].
      apply update_workflow_Ok. exists nm, ns', es', vs', r. split_and!; try done.
      by apply (indexed_free_for workflow_key _ _ _ _ (ww_index _ W)).
Qed.
End repository.

(** * Workflows: a concrete repository

    The witness for the theorem on stored workflows: a workflow of an HTTP request and a
    condition behind it, whose method is stored in upper case. *)
Import DataFactoryRepository.
Open Scope list_scope.

#[local] Instance no_fractions : PyFloat := fun m e => EmptyString.

Definition demo_request : WorkflowNodeSchema.t :=
  WorkflowNodeSchema.mk "login" "Login" (PInt 0) (PInt 0)
    (NodeConfig.Http (HttpNodeConfig.mk "post" "https://example.org/login" [] [] PNone
       [("token", "$.data.token")]%string (PInt 30) [200; 201]%Z)).
Definition demo_check : WorkflowNodeSchema.t :=
  WorkflowNodeSchema.mk "check" "Check" (PInt 10) (PInt 0)
    (NodeConfig.Condition (ConditionNodeConfig.mk "{{token}}" "exists" PNone)).
Definition demo_link : WorkflowEdgeSchema.t :=
  WorkflowEdgeSchema.mk "e1" "login" "check" WorkflowEdgeOutcome.SUCCESS.

Definition demo_run (i : uuid) : WorkflowRunRecord.t :=
  WorkflowRunRecord.mk "run" (uuid_str i) "SUCCEEDED" [] [] "2024-01-01" None.

Definition demo_workflows : t :=
  st_ops [OpCreateWorkflow 1 7 3 " Sign in " "" [demo_request; demo_check] [demo_link] [];
          OpSaveRun 7 (demo_run 7)] init.

Lemma demo_workflows_reachable : st_reachable demo_workflows.
Proof. apply st_ops_reachable; [exact (st_reachable_init (H:=workflow_store)) | by vm_compute]. Qed.

Lemma workflows_executable_witness :
  (exists r def runs, get_workflow 7 demo_workflows = (Ok r, demo_workflows)
     /\ WorkflowRecord.definition r = Ok def /\ validate_workflow_graph def = Ok tt
     /\ list_runs 7 demo_workflows = (Ok runs, demo_workflows))
  /\ is_ok (create_workflow 2 8 3 "Sign in" "" [] [] [] demo_workflows).1 = false
  /\ is_ok (create_workflow 2 8 4 "Sign in" "" [] [] [] demo_workflows).1 = true.
Proof.
  destruct (workflows_executable demo_workflows demo_workflows_reachable) as (Hd & _ & Hc & _).
  split; [| split; [vm_compute; reflexivity |]].
  - destruct (get_workflow 7 demo_workflows) as [[r|e] s] eqn:E; [| exfalso; revert E; vm_compute; discriminate].
    assert (s = demo_workflows) as -> by (by injection E).
    destruct (Hd 7%N r E) as [(def & H1 & H2 & _) (runs & H3 & _)]. exists r, def, runs. done.
  - apply Hc. exists "Sign in"%string. split; [reflexivity |]. split; [vm_compute; reflexivity |].
    intros i r Hi. unfold get_workflow in Hi. injection Hi as Hi.
    destruct (_workflows demo_workflows !! i) as [x|] eqn:E; [| discriminate]. injection Hi as ->.
    apply elem_of_items in E. revert E. vm_compute. intros E.
    apply elem_of_cons in E as [E|E]; [injection E as -> ->; discriminate | by apply elem_of_nil in E].
Defined.
