(* ===== verification/LoadTests.v ===== *)
(** * Load tests
    ([src/services/api/load_test_domain.py], [load_test_repository.py], the target of
    [load_test_schemas.py], and [load_test_service.py])

    Definitions of load tests with their unique names, their runs with the responses
    recorded, and the service that starts, cancels and executes a run.  Generating the
    load is a parameter of [_execute]: what the executor reports through its callbacks
    and how it ends; so are the moments at which other threads cancel the run or shut the
    service down. *)
From S2P Require Import Prelude PyDict PyText Protocol Retry Templates WorkflowSchemas.
From Stdlib Require Import Ascii.
Open Scope list_scope.

(** ** The domain *)

Module LoadTestMode.
Inductive t := COUNT | DURATION.
#[global] Instance eq_dec : EqDecision t.
Proof. solve_decision. Defined.
End LoadTestMode.

Module LoadTestTrafficMode.
Inductive t := REQUESTS | SCENARIO.
#[global] Instance eq_dec : EqDecision t.
Proof. solve_decision. Defined.
End LoadTestTrafficMode.

Module LoadTestRunStatus.
Inductive t := RUNNING | SUCCEEDED | FAILED.
#[global] Instance eq_dec : EqDecision t.
Proof. solve_decision. Defined.
End LoadTestRunStatus.

Definition zero_float : pyval := PFloat 0 0.

Definition empty_metrics (target_names : list string) : list (string * pyval) :=
  let base :=
    [("total_requests", PInt 0); ("successful_requests", PInt 0); ("failed_requests", PInt 0);
     ("requests_per_second", zero_float); ("average_ms", zero_float); ("min_ms", zero_float);
     ("max_ms", zero_float); ("p50_ms", zero_float); ("p95_ms", zero_float); ("p99_ms", zero_float);
     ("status_counts", PDict []); ("error_counts", PDict [])]%string in
  let targets := fold_left (fun acc name => kv_set name (PDict (base ++ [("target_metrics"%string, PDict [])])) acc)
                   target_names [] in
  base ++
    [("target_metrics", PDict targets);
     ("scenario_metrics", PDict
        [("total_scenarios", PInt 0); ("successful_scenarios", PInt 0); ("failed_scenarios", PInt 0);
         ("scenarios_per_second", zero_float); ("average_ms", zero_float); ("p50_ms", zero_float);
         ("p95_ms", zero_float); ("p99_ms", zero_float); ("min_ms", zero_float); ("max_ms", zero_float)]);
     ("response_samples", PDict [("successful", PList []); ("failed", PList [])])]%string.

Module LoadTestRecord.
Record t := mk {
  id : uuid; project_id : uuid; name : string; description : string;
  targets : list (list (string * pyval)); mode : LoadTestMode.t; request_count : Z;
  duration_seconds : Z; concurrency : Z; interval_ms : Z; timeout_seconds : pyval;
  state_version : Z; created_at : datetime; updated_at : datetime; environment_id : option uuid;
  traffic_mode : LoadTestTrafficMode.t; initial_variables : list (string * pyval);
  stop_on_failure : bool; category : string }.

(** The fields both methods of the repository normalise and pass by name. *)
Record changes := mkChanges {
  new_name : string; new_description : string; new_targets : list (list (string * pyval));
  new_mode : LoadTestMode.t; new_request_count : Z; new_duration_seconds : Z; new_concurrency : Z;
  new_interval_ms : Z; new_timeout_seconds : pyval; new_environment_id : option uuid;
  new_traffic_mode : LoadTestTrafficMode.t; new_initial_variables : list (string * pyval);
  new_stop_on_failure : bool; new_category : string }.

Definition make (id project_id : uuid) (c : changes) (state_version : Z)
    (created_at updated_at : datetime) : t :=
  mk id project_id (new_name c) (new_description c) (new_targets c) (new_mode c)
     (new_request_count c) (new_duration_seconds c) (new_concurrency c) (new_interval_ms c)
     (new_timeout_seconds c) state_version created_at updated_at (new_environment_id c)
     (new_traffic_mode c) (new_initial_variables c) (new_stop_on_failure c) (new_category c).

Definition updated (read : datetime) (r : t) (c : changes) : t :=
  make (id r) (project_id r) c (state_version r + 1) (created_at r) read.
End LoadTestRecord.

Module LoadTestRunRecord.
Record t := mk {
  id : uuid; load_test_id : uuid; status : LoadTestRunStatus.t; mode : LoadTestMode.t;
  started_at : datetime; finished_at : option datetime; metrics : list (string * pyval);
  error_message : option string }.
End LoadTestRunRecord.

Module LoadTestResponseRecord.
Record t := mk {
  id : uuid; run_id : uuid; sequence : Z; target : string; successful : bool; status : option Z;
  latency_ms : pyval; error : option string; body : option string; body_kind : string;
  truncated : bool; body_bytes : Z; created_at : datetime }.
End LoadTestResponseRecord.

(** One item of [responses], the dictionary the executor builds. *)
Module ResponseItem.
Record t := mk {
  sequence : Z; target : string; successful : bool; status : option Z; latency_ms : pyval;
  error : option string; body : option string; body_kind : string; truncated : bool; body_bytes : Z }.
End ResponseItem.

(** ** The target schema *)
Module LoadTestTarget.
Record t := mk {
  name : string; method : string; url : string; headers : list (string * pyval);
  query : list (string * pyval); body : pyval; expected_statuses : list Z;
  extractors : list (string * string); think_time_ms : Z }.

Definition HTTP_METHODS : list string :=
  ["GET"; "POST"; "PUT"; "PATCH"; "DELETE"; "HEAD"; "OPTIONS"]%string.

Definition extractor_ok (np : string * string) : bool :=
  VARIABLE_PATTERN np.1
  && negb ((1024 <? py_len np.2)%Z || empty_str np.2
           || existsb empty_str (split_on (ascii_of_N 46) np.2)).

Definition model_validate `{PyFloat} (r : t) : res t :=
  let? _ := require (len_between 1 255 (name r) && negb (empty_str (strip (name r)))) in
  let? _ := require (bool_decide (upper (method r) ∈ HTTP_METHODS)) in
  let? _ := require (len_between 1 8192 (url r)) in
  let? _ := require (length (headers r) <=? 100)%nat in
  let? headers := bounded_object (headers r) in
  let? _ := require (length (query r) <=? 100)%nat in
  let? query := bounded_object (query r) in
  let? body := validator (_bounded_json (body r)) in
  let? _ := require ((1 <=? length (expected_statuses r))%nat && (length (expected_statuses r) <=? 500)%nat
                     && status_codes_ok (expected_statuses r)) in
  let? _ := require (length (extractors r) <=? 100)%nat in
  let? _ := require (forallb extractor_ok (extractors r)) in
  let? _ := require ((0 <=? think_time_ms r)%Z && (think_time_ms r <=? 60000)%Z) in
  Ok (mk (strip (name r)) (upper (method r)) (url r) headers query body (expected_statuses r)
         (extractors r) (think_time_ms r)).

Definition model_dump (r : t) : list (string * pyval) :=
  [("name", PStr (name r)); ("method", PStr (method r)); ("url", PStr (url r));
   ("headers", PDict (headers r)); ("query", PDict (query r)); ("body", body r);
   ("expected_statuses", PList (map PInt (expected_statuses r)));
   ("extractors", PDict (map (fun np => (np.1, PStr np.2)) (extractors r)));
   ("think_time_ms", PInt (think_time_ms r))]%string.
End LoadTestTarget.

(** ** Normalisation *)

Definition normalize_name (name : string) : res string :=
  bounded_text 255 "load test name must contain between 1 and 255 characters" name.

Definition normalize_category (category : string) : res string :=
  let normalized := strip category in
  if (100 <? py_len normalized)%Z
  then Err (ValueError "load test category must contain at most 100 characters") else Ok normalized.

Definition normalize_targets `{PyFloat} (targets : list LoadTestTarget.t)
    (traffic_mode : LoadTestTrafficMode.t) : res (list (list (string * pyval))) :=
  if negb ((1 <=? length targets)%nat && (length targets <=? 20)%nat)
  then Err (ValueError "load test must contain between 1 and 20 targets")
  else
    let? validated := rmap LoadTestTarget.model_validate targets in
    let normalized := map LoadTestTarget.model_dump validated in
    if negb (unique (map LoadTestTarget.name validated)) then Err (ValueError "target names must be unique")
    else if negb (bool_decide (traffic_mode = LoadTestTrafficMode.SCENARIO))
            && existsb (fun r => negb (bool_decide (LoadTestTarget.extractors r = []))) validated
    then Err (ValueError "extractors are only supported in SCENARIO traffic mode")
    else
      let? _ := _bounded_json (PList (map PDict normalized)) in
      Ok normalized.

(** The three settings; [initial_variables] is [None] or a value. *)
Definition normalize_scenario_settings `{PyFloat} (traffic_mode : LoadTestTrafficMode.t)
    (initial_variables : option pyval) (stop_on_failure : pyval)
    : res (LoadTestTrafficMode.t * list (string * pyval) * bool) :=
  match default (PDict []) initial_variables with
  | PDict variables =>
      match stop_on_failure with
      | PBool stop =>
          let? checked := _bounded_json (PDict variables) in
          Ok (traffic_mode, match checked with PDict kvs => kvs | _ => [] end, stop)
      | _ => Err (ValueError "stop_on_failure must be a boolean")
      end
  | _ => Err (ValueError "initial_variables must be a JSON object")
  end.

(** [isinstance(value, int)] without the booleans. *)
Definition as_plain_int (v : pyval) : option Z := match v with PInt z => Some z | _ => None end.

Definition is_plain_number (v : pyval) : bool :=
  match v with PInt _ | PFloat _ _ => true | _ => false end.

(** The four integers and the timeout, when they are in range. *)
Definition validate_settings (request_count duration_seconds concurrency interval_ms timeout_seconds : pyval)
    : res (Z * Z * Z * Z * pyval) :=
  match as_plain_int request_count, as_plain_int duration_seconds, as_plain_int concurrency,
        as_plain_int interval_ms with
  | Some rc, Some ds, Some cc, Some im =>
      if negb ((1 <=? rc)%Z && (rc <=? 10000)%Z)
      then Err (ValueError "request_count must be between 1 and 10000")
      else if negb ((1 <=? ds)%Z && (ds <=? 1800)%Z)
      then Err (ValueError "duration_seconds must be between 1 and 1800")
      else if negb ((1 <=? cc)%Z && (cc <=? 100)%Z)
      then Err (ValueError "concurrency must be between 1 and 100")
      else if negb ((0 <=? im)%Z && (im <=? 60000)%Z)
      then Err (ValueError "interval_ms must be between 0 and 60000")
      else if negb (is_plain_number timeout_seconds)
              || negb (number_lt (PInt 0) timeout_seconds && number_le timeout_seconds (PInt 120))
      then Err (ValueError "timeout_seconds must be greater than 0 and at most 120")
      else Ok (rc, ds, cc, im, timeout_seconds)
  | _, _, _, _ => Err (ValueError "load test numeric settings must be integers")
  end.

(** The keyword arguments [create_load_test] and [update_load_test] share. *)
Module LoadTestBody.
Record t := mk {
  name : string; description : string; targets : list LoadTestTarget.t; mode : LoadTestMode.t;
  request_count : pyval; duration_seconds : pyval; concurrency : pyval; interval_ms : pyval;
  timeout_seconds : pyval; environment_id : option uuid; traffic_mode : LoadTestTrafficMode.t;
  initial_variables : option pyval; stop_on_failure : pyval; category : string }.

(** The normalisations both methods start with. *)
Definition normalize `{PyFloat} (b : t) : res LoadTestRecord.changes :=
  let? '(traffic_mode, initial_variables, stop_on_failure) :=
    normalize_scenario_settings (traffic_mode b) (initial_variables b) (stop_on_failure b) in
  let? normalized_name := normalize_name (name b) in
  let? normalized_category := normalize_category (category b) in
  let? normalized_targets := normalize_targets (targets b) traffic_mode in
  let? '(rc, ds, cc, im, ts) :=
    validate_settings (request_count b) (duration_seconds b) (concurrency b) (interval_ms b)
      (timeout_seconds b) in
  Ok (LoadTestRecord.mkChanges normalized_name (description b) normalized_targets (mode b)
        rc ds cc im ts (environment_id b) traffic_mode initial_variables stop_on_failure
        normalized_category).
End LoadTestBody.

(** [item[offset:offset + limit]]. *)
Definition py_index (len i : Z) : nat := Z.to_nat (Z.min len (if (i <? 0)%Z then Z.max 0 (len + i) else i)).
Definition py_slice {A} (first last : Z) (l : list A) : list A :=
  let len := Z.of_nat (length l) in
  take (py_index len last - py_index len first) (drop (py_index len first) l).

(** ** The repository *)
Module LoadTestRepository.
Record t := mk {
  _definitions : pydict uuid LoadTestRecord.t;
  _names : pydict (uuid * string) uuid;
  _runs : pydict uuid LoadTestRunRecord.t;
  _responses : pydict uuid (list LoadTestResponseRecord.t) }.

Definition init : t := mk ∅ ∅ ∅ ∅.

Definition running (r : LoadTestRunRecord.t) : bool :=
  bool_decide (LoadTestRunRecord.status r = LoadTestRunStatus.RUNNING).
Definition of_test (load_test_id : uuid) (r : LoadTestRunRecord.t) : bool :=
  bool_decide (LoadTestRunRecord.load_test_id r = load_test_id).

Definition _active_run (load_test_id : uuid) (s : t) : option LoadTestRunRecord.t :=
  List.find (fun run => of_test load_test_id run && running run) (values (_runs s)).

Definition get_load_test (load_test_id : uuid) : M t LoadTestRecord.t := fun s =>
  (match _definitions s !! load_test_id with Some r => Ok r | None => Err LoadTestNotFound end, s).

Definition get_run (run_id : uuid) : M t LoadTestRunRecord.t := fun s =>
  (match _runs s !! run_id with Some r => Ok r | None => Err LoadTestRunNotFound end, s).

Definition set_run (run_id : uuid) (run : LoadTestRunRecord.t) (s : t) : t :=
  mk (_definitions s) (_names s) (<[run_id:=run]> (_runs s)) (_responses s).

Section repository.
  Context `{PyFloat}.

Definition create_load_test (now : datetime) (fresh : uuid) (project_id : uuid) (body : LoadTestBody.t)
    : M t LoadTestRecord.t :=
  let* fields := lift (LoadTestBody.normalize body) in
  let* s := get in
  let key := (project_id, LoadTestRecord.new_name fields) in
  if has_key key (_names s) then raise LoadTestNameConflict
  else
    let record := LoadTestRecord.make fresh project_id fields 0 now now in
    put (mk (<[fresh:=record]> (_definitions s)) (<[key:=fresh]> (_names s)) (_runs s) (_responses s)) ;;;
    ret record.

Definition list_load_tests (project_id : uuid) : M t (list LoadTestRecord.t) :=
  let* s := get in
  let items := List.filter (fun item => bool_decide (LoadTestRecord.project_id item = project_id))
                 (values (_definitions s)) in
  ret (py_sorted (by_key LoadTestRecord.created_at) items).

Definition update_load_test (now : datetime) (load_test_id : uuid) (body : LoadTestBody.t)
    (expected_version : Z) : M t LoadTestRecord.t :=
  let* fields := lift (LoadTestBody.normalize body) in
  let* current := get_load_test load_test_id in
  if negb (LoadTestRecord.state_version current =? expected_version)%Z
  then raise LoadTestVersionConflict
  else
    let* s := get in
    let key := (LoadTestRecord.project_id current, LoadTestRecord.new_name fields) in
    if match _names s !! key with
       | Some owner => negb (bool_decide (owner = load_test_id))
       | None => false
       end then raise LoadTestNameConflict
    else
      let updated := LoadTestRecord.updated now current fields in
      let names := delete (LoadTestRecord.project_id current, LoadTestRecord.name current) (_names s) in
      put (mk (<[load_test_id:=updated]> (_definitions s)) (<[key:=load_test_id]> names)
              (_runs s) (_responses s)) ;;;
      ret updated.

Definition delete_load_test (load_test_id : uuid) : M t unit :=
  let* current := get_load_test load_test_id in
  let* s := get in
  match _active_run load_test_id s with
  | Some _ => raise LoadTestActiveRunConflict
  | None =>
      let removed_run_ids := map fst (List.filter (fun kr => of_test load_test_id kr.2) (items (_runs s))) in
      put (mk (delete load_test_id (_definitions s))
              (delete (LoadTestRecord.project_id current, LoadTestRecord.name current) (_names s))
              (dict_filter (fun kr => negb (of_test load_test_id kr.2)) (_runs s))
              (fold_left (fun d run_id => delete run_id d) removed_run_ids (_responses s)))
  end.

(** [[target["name"] for target in definition.targets]]. *)
Definition target_name (target : list (string * pyval)) : res string :=
  match kv_get "name" target with
  | Some (PStr name) => Ok name
  | Some _ => Err TypeError
  | None => Err KeyError
  end.

Definition create_run (now : datetime) (fresh : uuid) (load_test_id : uuid) : M t LoadTestRunRecord.t :=
  let* definition := get_load_test load_test_id in
  let* s := get in
  match _active_run load_test_id s with
  | Some _ => raise LoadTestActiveRunConflict
  | None =>
      let* target_names := lift (rmap target_name (LoadTestRecord.targets definition)) in
      let record := LoadTestRunRecord.mk fresh load_test_id LoadTestRunStatus.RUNNING
                      (LoadTestRecord.mode definition) now None (empty_metrics target_names) None in
      put (mk (_definitions s) (_names s) (<[fresh:=record]> (_runs s)) (<[fresh:=[]]> (_responses s))) ;;;
      ret record
  end.

Definition response_record (now : datetime) (run_id : uuid) (fresh : uuid) (item : ResponseItem.t)
    : LoadTestResponseRecord.t :=
  LoadTestResponseRecord.mk fresh run_id (ResponseItem.sequence item) (ResponseItem.target item)
    (ResponseItem.successful item) (ResponseItem.status item) (ResponseItem.latency_ms item)
    (ResponseItem.error item) (ResponseItem.body item) (ResponseItem.body_kind item)
    (ResponseItem.truncated item) (ResponseItem.body_bytes item) now.

Definition add_run_responses (now : datetime) (fresh : nat -> uuid) (run_id : uuid)
    (responses : list ResponseItem.t) : M t (list LoadTestResponseRecord.t) :=
  get_run run_id ;;;
  let* s := get in
  let records := imap (fun i item => response_record now run_id (fresh i) item) responses in
  let stored := default [] (_responses s !! run_id) ++ records in
  put (mk (_definitions s) (_names s) (_runs s)
          (<[run_id:=py_sorted (by_key LoadTestResponseRecord.sequence) stored]> (_responses s))) ;;;
  ret records.

Definition list_run_responses (run_id : uuid) (offset limit : Z) (successful : option bool)
    : M t (list LoadTestResponseRecord.t * Z) :=
  get_run run_id ;;;
  let* s := get in
  let items := default [] (_responses s !! run_id) in
  let items := match successful with
               | Some b => List.filter (fun item => Bool.eqb (LoadTestResponseRecord.successful item) b) items
               | None => items
               end in
  ret (py_slice offset (offset + limit) items, Z.of_nat (length items)).

Definition update_run (run_id : uuid) (status : LoadTestRunStatus.t) (metrics : list (string * pyval))
    (error_message : option string) (finished_at : option datetime) : M t LoadTestRunRecord.t :=
  let* current := get_run run_id in
  if negb (running current) then ret current
  else
    let updated := LoadTestRunRecord.mk (LoadTestRunRecord.id current)
                     (LoadTestRunRecord.load_test_id current) status (LoadTestRunRecord.mode current)
                     (LoadTestRunRecord.started_at current) finished_at metrics error_message in
    let* s := get in
    put (set_run run_id updated s) ;;;
    ret updated.

Definition interrupted (now : datetime) (message : string) (run : LoadTestRunRecord.t) : LoadTestRunRecord.t :=
  LoadTestRunRecord.mk (LoadTestRunRecord.id run) (LoadTestRunRecord.load_test_id run)
    LoadTestRunStatus.FAILED (LoadTestRunRecord.mode run) (LoadTestRunRecord.started_at run)
    (Some now) (LoadTestRunRecord.metrics run) (Some message).

Definition recover_running_runs (now : datetime) (message : string) : M t Z :=
  let* s := get in
  let running_ids := map fst (List.filter (fun kr => running kr.2) (items (_runs s))) in
  for_each running_ids (fun run_id =>
    let* s := get in
    let* run := lift (subscript run_id (_runs s)) in
    put (set_run run_id (interrupted now message run) s)) ;;;
  ret (Z.of_nat (length running_ids)).

Definition list_runs (load_test_id : uuid) : M t (list LoadTestRunRecord.t) :=
  get_load_test load_test_id ;;;
  let* s := get in
  let items := List.filter (of_test load_test_id) (values (_runs s)) in
  ret (rev (py_sorted (by_key LoadTestRunRecord.started_at) (rev items))).
End repository.
End LoadTestRepository.
Import LoadTestRepository.

(** ** The service *)
Module LoadTestService.

(** [_cancellations] has the state of each event. *)
Record t := mk { _repository : LoadTestRepository.t; _cancellations : pydict uuid bool; _stopped : bool }.

Definition on_repository {A} (c : M LoadTestRepository.t A) : M t A := fun w =>
  let '(x, r) := c (_repository w) in (x, mk r (_cancellations w) (_stopped w)).

Definition set_cancellations (d : pydict uuid bool) : M t unit := fun w =>
  (Ok tt, mk (_repository w) d (_stopped w)).

Section service.
  Context `{PyFloat}.

Definition recover_interrupted_runs (now : datetime) : M t Z :=
  on_repository (recover_running_runs now "Load test execution interrupted by service restart").

Definition _fail (now : datetime) (run_id : uuid) (message : string) : M t unit :=
  let* run := on_repository (get_run run_id) in
  on_repository (update_run run_id LoadTestRunStatus.FAILED (LoadTestRunRecord.metrics run)
                   (Some message) (Some now)) ;;;
  ret tt.

(** [accepted]: the pool takes the job; the run is then executed by [_execute]. *)
Definition start_run (now failed_at : datetime) (fresh : uuid) (accepted : bool) (load_test_id : uuid)
    : M t LoadTestRunRecord.t :=
  on_repository (get_load_test load_test_id) ;;;
  let* w := get in
  if _stopped w then raise (RuntimeError "Load test execution unavailable")
  else
    let* run := on_repository (create_run now fresh load_test_id) in
    let id := LoadTestRunRecord.id run in
    let* w := get in
    set_cancellations (<[id:=false]> (_cancellations w)) ;;;
    if accepted then ret run
    else
      let* w := get in
      set_cancellations (delete id (_cancellations w)) ;;;
      _fail failed_at id "Load test execution unavailable" ;;;
      on_repository (get_run id).

Definition set_event (run_id : uuid) : M t unit :=
  let* w := get in
  match _cancellations w !! run_id with
  | Some _ => set_cancellations (<[run_id:=true]> (_cancellations w))
  | None => ret tt
  end.

Definition cancel_run (run_id : uuid) : M t LoadTestRunRecord.t :=
  let* run := on_repository (get_run run_id) in
  if negb (running run) then ret run
  else
    set_event run_id ;;;
    on_repository (get_run run_id).

(** [shutdown], up to waiting for the pool. *)
Definition shutdown : M t unit := fun w =>
  (Ok tt, mk (_repository w)
            (fold_left (fun d k => <[k:=true]> d) (keys (_cancellations w)) (_cancellations w)) true).

(** What another thread does to the event of the run, at any time: [cancel_run] sets it once
    it found the run RUNNING, [shutdown] stops the service and sets every event. *)
Inductive signal : Type := CancelRun | ShutDown.

(** What happens while the executor runs: it reports metrics or a response, or a signal
    comes. *)
Inductive report : Type :=
  | Snapshot (metrics : list (string * pyval))
  | Response (item : ResponseItem.t)
  | Signal (x : signal).

(** How it ends: with metrics, with a [LoadTestExecutionError], with another exception. *)
Inductive ending : Type :=
  | Finished (metrics : list (string * pyval))
  | ExecutionError (message : string)
  | Crashed (e : exn).

(** The variables of [_execute] that its callbacks share; [event] is the [Event] it was
    given, which stays known to it when the service forgets it. *)
Record locals := mkLocals {
  latest_metrics : list (string * pyval); pending_responses : list ResponseItem.t;
  event : bool; batches : nat }.

(** [metrics["total_requests"]]. *)
Definition total_requests (metrics : list (string * pyval)) : res Z :=
  match kv_get "total_requests" metrics with
  | Some (PInt z) => Ok z
  | Some _ => Err TypeError
  | None => Err KeyError
  end.

(** The clock and the ids of a batch of responses. *)
Context (now : nat -> datetime) (ids : nat -> nat -> uuid).

Definition store_batch (run_id : uuid) (l : locals) : M (t * locals) unit := fun w =>
  let '(r, t') := on_repository (add_run_responses (now (batches l)) (ids (batches l)) run_id
                                   (pending_responses l)) w.1 in
  (match r with Ok _ => Ok tt | Err e => Err e end,
   (t', mkLocals (latest_metrics l) [] (event l) (S (batches l)))).

Definition snapshot (run_id : uuid) (metrics : list (string * pyval)) : M (t * locals) unit :=
  let* w := get in
  if event w.2 then ret tt
  else
    let* n := lift (total_requests metrics) in
    let* m := lift (total_requests (latest_metrics w.2)) in
    if (n <=? m)%Z then ret tt
    else fun w =>
      let '(r, t') := on_repository (update_run run_id LoadTestRunStatus.RUNNING metrics None None) w.1 in
      match r with
      | Ok _ => (Ok tt, (t', mkLocals metrics (pending_responses w.2) (event w.2) (batches w.2)))
      | Err e => (Err e, (t', w.2))
      end.

Definition responses (run_id : uuid) (item : ResponseItem.t) : M (t * locals) unit :=
  let* w := get in
  let l := mkLocals (latest_metrics w.2) (pending_responses w.2 ++ [item]) (event w.2) (batches w.2) in
  put (w.1, l) ;;;
  if (50 <=? length (pending_responses l))%nat then store_batch run_id l else ret tt.

Definition flush_responses (run_id : uuid) : M (t * locals) unit :=
  let* w := get in
  match pending_responses w.2 with
  | [] => ret tt
  | _ => store_batch run_id w.2
  end.

Definition receive (run_id : uuid) (x : signal) : M (t * locals) unit := fun w =>
  (Ok tt, ((match x with CancelRun => set_event run_id w.1 | ShutDown => shutdown w.1 end).2,
           mkLocals (latest_metrics w.2) (pending_responses w.2) true (batches w.2))).
Definition receive_all (run_id : uuid) (l : list signal) : M (t * locals) unit := for_each l (receive run_id).

Definition deliver (run_id : uuid) (r : report) : M (t * locals) unit :=
  match r with
  | Snapshot metrics => snapshot run_id metrics
  | Response item => responses run_id item
  | Signal x => receive run_id x
  end.

(** A callback that raises ends the executor with that exception. *)
Definition run_executor (run_id : uuid) (auth : option exn) (reports : list report) (end_ : ending)
    : M (t * locals) ending := fun w =>
  match auth with
  | Some e => (Ok (Crashed e), w)
  | None =>
      match for_each reports (deliver run_id) w with
      | (Ok _, w') => (Ok end_, w')
      | (Err e, w') => (Ok (Crashed e), w')
      end
  end.

Definition finish_run (run_id : uuid) (finished_at : datetime) (status : LoadTestRunStatus.t)
    (metrics : list (string * pyval)) (error_message : option string) : M (t * locals) unit := fun w =>
  let '(r, t') := on_repository (update_run run_id status metrics error_message (Some finished_at)) w.1 in
  (match r with Ok _ => Ok tt | Err e => Err e end, (t', w.2)).

(** The signals that come before the last responses are stored (0), before the event is
    read for the status (1), before it is read again for the message (2), before the run is
    updated (3) and before the event is forgotten (4). After a failure the event is not
    read. *)
Context (signals : nat -> list signal).

(** The [except Exception] clause. *)
Definition crashed (run_id : uuid) (finished_at : datetime) : M (t * locals) unit :=
  receive_all run_id (signals 0) ;;; flush_responses run_id ;;; receive_all run_id (signals 1 ++ signals 2 ++ signals 3) ;;;
  let* w := get in
  finish_run run_id finished_at LoadTestRunStatus.FAILED (latest_metrics w.2)
    (Some "Load test execution failed"%string).

Definition execute_body (run_id : uuid) (finished_at : datetime) (auth : option exn)
    (reports : list report) (end_ : ending) : M (t * locals) unit :=
  let* outcome := run_executor run_id auth reports end_ in
  match outcome with
  | Finished metrics =>
      try_except
        (receive_all run_id (signals 0) ;;; flush_responses run_id ;;; receive_all run_id (signals 1) ;;;
         let* w := get in
         let status := if event w.2 then LoadTestRunStatus.FAILED else LoadTestRunStatus.SUCCEEDED in
         receive_all run_id (signals 2) ;;;
         let* w := get in
         let error_message := if event w.2 then Some "Load test execution cancelled"%string else None in
         receive_all run_id (signals 3) ;;;
         finish_run run_id finished_at status metrics error_message)
        any_exn (fun _ => crashed run_id finished_at)
  | ExecutionError message =>
      receive_all run_id (signals 0) ;;; flush_responses run_id ;;; receive_all run_id (signals 1 ++ signals 2 ++ signals 3) ;;;
      let* w := get in
      finish_run run_id finished_at LoadTestRunStatus.FAILED (latest_metrics w.2) (Some message)
  | Crashed _ => crashed run_id finished_at
  end.

(** The job of the pool, with its [finally]. *)
Definition _execute (run_id : uuid) (finished_at : datetime) (auth : option exn)
    (reports : list report) (end_ : ending) : M t unit :=
  let* run := on_repository (get_run run_id) in
  fun w =>
    let start := mkLocals (LoadTestRunRecord.metrics run) []
                   (default false (_cancellations w !! run_id)) 0 in
    let '(r, (w1, l)) := execute_body run_id finished_at auth reports end_ (w, start) in
    let w' := (receive_all run_id (signals 4) (w1, l)).2.1 in
    (r, mk (_repository w') (delete run_id (_cancellations w')) (_stopped w')).
End service.
End LoadTestService.
