(* ===== verification/LoadTestTheorems.v ===== *)
(** * Load tests: the repository and the execution of a run

    The invariant of the repository: exact index of names, settings in range, one active
    run per load test at most, and the responses of every run in order.  Then what the
    service leaves behind when it has executed a run, whatever the executor reports and
    whenever other threads cancel the run or shut the service down. *)
From S2P Require Import Prelude PyDict PyText Protocol Retry Templates Versioned WorkflowSchemas LoadTests.
From Stdlib Require Import Sorted.
Import LoadTestRepository.
Open Scope list_scope.

(** ** Normalised settings *)

Definition in_range (low high z : Z) : Prop := (low <= z <= high)%Z.

Record settings_ok (r : LoadTestRecord.t) : Prop := {
  so_name : strip (LoadTestRecord.name r) = LoadTestRecord.name r
            /\ LoadTestRecord.name r <> EmptyString /\ (py_len (LoadTestRecord.name r) <= 255)%Z;
  so_targets : (1 <= length (LoadTestRecord.targets r) <= 20)%nat
               /\ exists names, rmap target_name (LoadTestRecord.targets r) = Ok names /\ NoDup names;
  so_requests : in_range 1 10000 (LoadTestRecord.request_count r);
  so_duration : in_range 1 1800 (LoadTestRecord.duration_seconds r);
  so_concurrency : in_range 1 100 (LoadTestRecord.concurrency r);
  so_interval : in_range 0 60000 (LoadTestRecord.interval_ms r) }.

Section repository.
  Context `{PyFloat}.

Lemma target_names l : rmap target_name (map LoadTestTarget.model_dump l) = Ok (map LoadTestTarget.name l).
Proof. induction l as [|x l IH]; [done |]. cbn [map rmap]. by rewrite IH. Qed.

Lemma normalize_targets_Ok ts mode l :
  normalize_targets ts mode = Ok l ->
  (1 <= length l <= 20)%nat /\ exists names, rmap target_name l = Ok names /\ NoDup names.
Proof.
  unfold normalize_targets. destruct (negb _) eqn:E; [done |].
  intros (vs & Hv & Hn)%rbind_Ok. destruct (negb (unique _)) eqn:Eu; [done |].
  destruct (negb _ && _); [done |]. apply rbind_Ok in Hn as (j & _ & [= <-]).
  apply negb_false_iff in E, Eu. apply andb_true_iff in E as [E1 E2]. bool_prop.
  pose proof (Forall2_length _ _ _ (proj1 (rmap_Ok _ _ _) Hv)) as Hl. split; [rewrite length_map; lia |].
  exists (map LoadTestTarget.name vs). split; [apply target_names |].
  unfold unique in Eu. by apply bool_decide_eq_true in Eu.
Qed.

Lemma validate_settings_Ok a b c d e rc ds cc im ts :
  validate_settings a b c d e = Ok (rc, ds, cc, im, ts) ->
  in_range 1 10000 rc /\ in_range 1 1800 ds /\ in_range 1 100 cc /\ in_range 0 60000 im.
Proof.
  unfold validate_settings, in_range. intros Hv. repeat case_match; simplify_eq;
    repeat match goal with Hx : negb _ = false |- _ => apply negb_false_iff in Hx
                         | Hx : _ && _ = true |- _ => apply andb_true_iff in Hx as [??] end; bool_prop; lia.
Qed.

Lemma normalize_Ok body c :
  LoadTestBody.normalize body = Ok c ->
  normalize_name (LoadTestBody.name body) = Ok (LoadTestRecord.new_name c)
  /\ forall i p v ca ua, settings_ok (LoadTestRecord.make i p c v ca ua).
Proof.
  unfold LoadTestBody.normalize. intros Hn.
  apply rbind_Ok in Hn as ([[tm iv] sf] & _ & Hn). apply rbind_Ok in Hn as (nm & Hnm & Hn).
  apply rbind_Ok in Hn as (ct & _ & Hn). apply rbind_Ok in Hn as (ts & Ht & Hn).
  apply rbind_Ok in Hn as ([[[[rc ds] cc] im] to] & Hs & [= <-]).
  split; [done |]. intros i p v ca ua. apply validate_settings_Ok in Hs as (H1 & H2 & H3 & H4).
  apply bounded_text_Ok in Hnm as (-> & Hi & He & Hl). apply normalize_targets_Ok in Ht.
  split; simpl; try done. split_and!; first [done | lia].
Qed.

(** ** The invariant *)

Definition load_key (r : LoadTestRecord.t) : uuid * string :=
  (LoadTestRecord.project_id r, LoadTestRecord.name r).

Definition in_sequence (l : list LoadTestResponseRecord.t) : Prop :=
  Sorted (fun a b => by_key LoadTestResponseRecord.sequence a b = true) l.

Record load_wf (s : t) : Prop := {
  lw_id : forall i r, _definitions s !! i = Some r -> LoadTestRecord.id r = i;
  lw_settings : forall i r, _definitions s !! i = Some r -> settings_ok r;
  lw_index : indexed load_key (_definitions s) (_names s);
  lw_run_id : forall i r, _runs s !! i = Some r -> LoadTestRunRecord.id r = i;
  lw_run_test : forall i r, _runs s !! i = Some r ->
    is_Some (_definitions s !! LoadTestRunRecord.load_test_id r);
  lw_active : forall i j r r', _runs s !! i = Some r -> _runs s !! j = Some r' ->
    running r = true -> running r' = true ->
    LoadTestRunRecord.load_test_id r = LoadTestRunRecord.load_test_id r' -> i = j;
  lw_responses : forall i, is_Some (_responses s !! i) <-> is_Some (_runs s !! i);
  lw_ordered : forall i l, _responses s !! i = Some l ->
    in_sequence l /\ Forall (fun x => LoadTestResponseRecord.run_id x = i) l }.

Lemma active_run_None i s :
  _active_run i s = None <->
  forall j r, _runs s !! j = Some r -> LoadTestRunRecord.load_test_id r = i -> running r = false.
Proof.
  unfold _active_run. split.
  - intros Hn j r Hr Ht. eapply find_none in Hn; [| apply list_elem_of_In, elem_of_values; by exists j].
    unfold of_test in Hn. rewrite bool_decide_true in Hn by done. simpl in Hn. exact Hn.
  - intros Hn. destruct (List.find _ _) as [r|] eqn:E; [| done].
    apply find_some in E as [Hin Hb]. apply list_elem_of_In, elem_of_values in Hin as [j Hj].
    unfold of_test in Hb. apply andb_true_iff in Hb as [Hb Hr]. bool_prop.
    rewrite (Hn j r Hj Hb) in Hr. done.
Qed.

Lemma create_load_cases now f p body s :
  (exists e, create_load_test now f p body s = (Err e, s))
  \/ exists c, LoadTestBody.normalize body = Ok c
       /\ _names s !! (p, LoadTestRecord.new_name c) = None
       /\ let r := LoadTestRecord.make f p c 0 now now in
          create_load_test now f p body s
          = (Ok r, mk (<[f:=r]> (_definitions s)) (<[load_key r:=f]> (_names s)) (_runs s) (_responses s)).
Proof.
  unfold create_load_test, bind, lift, get, put, raise, ret.
  destruct (LoadTestBody.normalize body) as [c|e]; cbn [fst snd]; [| left; eauto].
  destruct (has_key _ (_names s)) eqn:Ek; [left; eauto |].
  right. apply has_key_false in Ek. by exists c.
Qed.

Lemma create_load_good now f p body s :
  load_wf s -> _definitions s !! f = None -> load_wf (create_load_test now f p body s).2.
Proof.
  intros W Hf. destruct (create_load_cases now f p body s) as [(e & ->)|(c & Hc & Hk & E)]; [done |].
  cbv zeta in E. rewrite E. set (r := LoadTestRecord.make f p c 0 now now).
  apply normalize_Ok in Hc as [_ Hset]. destruct W. split; simpl; try done.
  - intros i x Hx. dict_case; [done | eauto].
  - intros i x Hx. dict_case; [apply Hset | eauto].
  - by apply (indexed_create load_key _ _ f r).
  - intros i x Hx. rewrite dict_lookup_insert. case_decide; eauto.
Qed.

Lemma update_load_Ok now i body v s r' s' :
  update_load_test now i body v s = (Ok r', s') <->
  exists c r, LoadTestBody.normalize body = Ok c /\ _definitions s !! i = Some r
    /\ LoadTestRecord.state_version r = v
    /\ (_names s !! (LoadTestRecord.project_id r, LoadTestRecord.new_name c) = None
        \/ _names s !! (LoadTestRecord.project_id r, LoadTestRecord.new_name c) = Some i)
    /\ r' = LoadTestRecord.updated now r c
    /\ s' = mk (<[i:=r']> (_definitions s)) (<[load_key r':=i]> (delete (load_key r) (_names s)))
              (_runs s) (_responses s).
Proof.
  unfold update_load_test, get_load_test, bind, get, put, ret, raise, lift. cbn [fst snd]. split.
  - intros Hu. py_inv Hu; bool_prop; subst;
      (do 2 eexists; split_and!; [done | done | done | first [by left | by right] | done | done]).
  - intros (c & r & -> & -> & <- & Ho & -> & ->). cbn [fst snd]. rewrite Z.eqb_refl. cbn [negb fst snd].
    destruct Ho as [-> | ->]; rewrite ?(bool_decide_true (i = i)) by done; done.
Qed.

Lemma update_load_err now i body v s :
  is_ok (update_load_test now i body v s).1 = false -> (update_load_test now i body v s).2 = s.
Proof. unfold update_load_test, get_load_test. st_call; simplify_eq; try done. Qed.

(** Inserting the key after deleting the old one is a rename, whether it changed or not. *)
Lemma indexed_replace (recs : pydict uuid LoadTestRecord.t) (names : pydict (uuid * string) uuid) i r r' :
  indexed load_key recs names -> recs !! i = Some r ->
  names !! load_key r' = None \/ names !! load_key r' = Some i ->
  indexed load_key (<[i:=r']> recs) (<[load_key r':=i]> (delete (load_key r) names)).
Proof.
  intros Hi Hr Ho. pose proof (indexed_update load_key _ _ _ _ r' Hi Hr Ho) as Hx.
  intros k j. rewrite <- (Hx k j). case_bool_decide as He; [| done].
  rewrite He, dict_lookup_insert, dict_lookup_delete.
  repeat case_decide; subst; try done. by rewrite (indexed_owner load_key _ _ _ _ Hi Hr).
Qed.

Lemma update_load_good now i body v s : load_wf s -> load_wf (update_load_test now i body v s).2.
Proof.
  intros W. destruct (update_load_test now i body v s) as [[r'|e] s'] eqn:Eu.
  2: { pose proof (update_load_err now i body v s) as He. rewrite Eu in He. simpl in *. by rewrite He. }
  apply update_load_Ok in Eu as (c & r & Hc & Hr & <- & Ho & -> & ->).
  apply normalize_Ok in Hc as [_ Hset]. destruct W. split; simpl; try done.
  - intros j x Hx. dict_case; [by apply lw_id0 in Hr | eauto].
  - intros j x Hx. dict_case; [apply Hset | eauto].
  - by apply indexed_replace.
  - intros j x Hx. rewrite dict_lookup_insert. case_decide; eauto.
Qed.

Lemma lookup_delete_all {V} (ids : list uuid) (d : pydict uuid V) k :
  fold_left (fun d i => delete i d) ids d !! k = if decide (k ∈ ids) then None else d !! k.
Proof.
  revert d. induction ids as [|i ids IH]; intros d; simpl; [done |].
  rewrite IH, dict_lookup_delete. repeat case_decide; set_solver.
Qed.

Lemma removed_ids i s k :
  load_wf s -> k ∈ map fst (List.filter (fun kr => of_test i kr.2) (items (_runs s))) <->
  exists r, _runs s !! k = Some r /\ LoadTestRunRecord.load_test_id r = i.
Proof.
  intros W. rewrite elem_of_map. unfold of_test. split.
  - intros ([j r] & -> & Hin). apply list_elem_of_In, filter_In in Hin as [Hin Hb].
    apply list_elem_of_In, elem_of_items in Hin. simpl in *. bool_prop. eauto.
  - intros (r & Hr & Ht). exists (k, r). split; [done |]. apply list_elem_of_In, filter_In.
    split; [by apply list_elem_of_In, elem_of_items | by apply bool_decide_eq_true].
Qed.

(** Deleting a load test takes its runs and their responses along. *)
Lemma delete_load_spec i s :
  load_wf s ->
  (exists e, delete_load_test i s = (Err e, s)
     /\ (_definitions s !! i = None \/ exists j r, _runs s !! j = Some r
          /\ LoadTestRunRecord.load_test_id r = i /\ running r = true))
  \/ exists r s', delete_load_test i s = (Ok tt, s') /\ _definitions s !! i = Some r
       /\ (forall j x, _runs s !! j = Some x -> LoadTestRunRecord.load_test_id x = i -> running x = false)
       /\ _definitions s' = delete i (_definitions s) /\ _names s' = delete (load_key r) (_names s)
       /\ (forall j, _runs s' !! j = match _runs s !! j with
                                    | Some x => if of_test i x then None else Some x
                                    | None => None
                                    end)
       /\ (forall j, _responses s' !! j = if decide (is_Some (_runs s' !! j)) then _responses s !! j else None).
Proof.
  intros W. unfold delete_load_test, get_load_test, bind, get, put, raise. cbn [fst snd].
  destruct (_definitions s !! i) as [r|] eqn:Er; cbn [fst snd]; [| left; eauto].
  destruct (_active_run i s) as [a|] eqn:Ea.
  - left. eexists. split; [done |]. right. unfold _active_run in Ea.
    apply find_some in Ea as [Hin Hb]. apply list_elem_of_In, elem_of_values in Hin as [j Hj].
    unfold of_test in Hb. apply andb_true_iff in Hb as [Hb Hrun]. bool_prop. eauto.
  - right. assert (Hrs : forall j, dict_filter (fun kr => negb (of_test i kr.2)) (_runs s) !! j
      = match _runs s !! j with Some x => if of_test i x then None else Some x | None => None end).
    { intros j. rewrite lookup_dict_filter. destruct (_runs s !! j) as [x|]; [| done]. simpl.
      by destruct (of_test i x). }
    eexists r, _. split; [reflexivity |]. cbn [_definitions _names _runs _responses].
    split_and!; try done.
    + intros j x. by apply active_run_None.
    + intros j. rewrite lookup_delete_all, Hrs.
      pose proof (removed_ids i s j W) as Hm. pose proof (lw_responses _ W j) as Hresp.
      destruct (_runs s !! j) as [x|] eqn:Ex.
      * unfold of_test. case_bool_decide as Ht.
        -- rewrite (decide_False (P := is_Some None)) by (by intros [? ?]).
           rewrite decide_True; [done |]. apply Hm. eauto.
        -- rewrite (decide_True (P := is_Some (Some x))) by eauto.
           rewrite decide_False; [done |]. intros (y & [= <-] & Hy)%Hm. done.
      * rewrite (decide_False (P := is_Some None)) by (by intros [? ?]).
        case_decide; [done |]. destruct (_responses s !! j); [| done].
        destruct (proj1 Hresp); eauto. congruence.
Qed.

Lemma delete_load_good i s : load_wf s -> load_wf (delete_load_test i s).2.
Proof.
  intros W. destruct (delete_load_spec i s W)
    as [(e & -> & _)|(r & s' & -> & Hr & Hact & Hd & Hn & Hrs & Hresp)]; [done |]. simpl.
  assert (Hsub : forall j x, _runs s' !! j = Some x -> _runs s !! j = Some x
                   /\ LoadTestRunRecord.load_test_id x <> i).
  { intros j x. rewrite Hrs. destruct (_runs s !! j) as [y|]; [| done]. unfold of_test.
    case_bool_decide; [done |]. by intros [= <-]. }
  destruct W. split; rewrite ?Hd, ?Hn.
  - intros j x Hx. dict_case; eauto.
  - intros j x Hx. dict_case; eauto.
  - by apply indexed_delete.
  - intros j x [Hx _]%Hsub. eauto.
  - intros j x [Hx Ht]%Hsub. rewrite dict_lookup_delete_ne by done. eauto.
  - intros j k x y [Hx _]%Hsub [Hy _]%Hsub. eauto.
  - intros j. rewrite Hresp. case_decide as Hi; [| by split; [intros [? ?] |]].
    split; [done |]. intros _. apply lw_responses0. destruct Hi as [x Hx]. apply Hsub in Hx as [Hx _]. eauto.
  - intros j l. rewrite Hresp. case_decide; [| done]. apply lw_ordered0.
Qed.

(** ** Runs *)

Definition started (now : datetime) (f i : uuid) (mode : LoadTestMode.t) (names : list string)
    : LoadTestRunRecord.t :=
  LoadTestRunRecord.mk f i LoadTestRunStatus.RUNNING mode now None (empty_metrics names) None.

Lemma create_run_spec now f i s :
  load_wf s ->
  (exists e, create_run now f i s = (Err e, s)
     /\ (_definitions s !! i = None \/ exists j r, _runs s !! j = Some r
          /\ LoadTestRunRecord.load_test_id r = i /\ running r = true))
  \/ exists r names, _definitions s !! i = Some r /\ rmap target_name (LoadTestRecord.targets r) = Ok names
       /\ (forall j x, _runs s !! j = Some x -> LoadTestRunRecord.load_test_id x = i -> running x = false)
       /\ create_run now f i s
          = (Ok (started now f i (LoadTestRecord.mode r) names),
             mk (_definitions s) (_names s) (<[f:=started now f i (LoadTestRecord.mode r) names]> (_runs s))
                (<[f:=[]]> (_responses s))).
Proof.
  intros W. unfold create_run, get_load_test, bind, get, put, raise, lift, ret. cbn [fst snd].
  destruct (_definitions s !! i) as [r|] eqn:Er; cbn [fst snd]; [| left; eauto].
  destruct (_active_run i s) as [a|] eqn:Ea.
  - left. eexists. split; [done |]. right. unfold _active_run in Ea.
    apply find_some in Ea as [Hin Hb]. apply list_elem_of_In, elem_of_values in Hin as [j Hj].
    unfold of_test in Hb. apply andb_true_iff in Hb as [Hb Hrun]. bool_prop. eauto.
  - right. destruct (so_targets _ (lw_settings _ W _ _ Er)) as (_ & names & Hn & _). rewrite Hn.
    exists r, names. split_and!; try done. intros j x. by apply active_run_None.
Qed.

Lemma create_run_good now f i s : load_wf s -> _runs s !! f = None -> load_wf (create_run now f i s).2.
Proof.
  intros W Hf. destruct (create_run_spec now f i s W)
    as [(e & -> & _)|(r & names & Hr & Hn & Hact & ->)]; [done |].
  destruct W. split; simpl; try done.
  - intros j x Hx. dict_case; eauto.
  - intros j x Hx. dict_case; simpl; eauto.
  - intros j k x y Hx Hy Hrx Hry Ht. dict_case; try done; simpl in *; try (by eapply lw_active0);
      exfalso; match goal with Hz : _runs s !! _ = Some ?z, Hw : running ?z = true |- _ =>
                 rewrite (Hact _ _ Hz) in Hw by congruence; done end.
  - intros j. rewrite !dict_lookup_insert. case_decide; [by split; eauto | done].
  - intros j l Hl. dict_case; [| eauto]. by repeat constructor.
Qed.

(** A run changes but not its test, and is not woken up. *)
Lemma set_run_good i r r' s :
  load_wf s -> _runs s !! i = Some r -> LoadTestRunRecord.id r' = LoadTestRunRecord.id r ->
  LoadTestRunRecord.load_test_id r' = LoadTestRunRecord.load_test_id r ->
  (running r' = true -> running r = true) -> load_wf (set_run i r' s).
Proof.
  intros W Hr Hid Ht Hrun. destruct W. split; simpl; try done.
  - intros j x Hx. dict_case; [| eauto]. rewrite Hid. eauto.
  - intros j x Hx. dict_case; [| eauto]. rewrite Ht. eauto.
  - intros j k x y Hx Hy Hrx Hry Hxy. dict_case; try done;
      first [ eapply (lw_active0 _ _ r y); eauto; congruence | eapply (lw_active0 _ _ x r); eauto; congruence
            | by eapply lw_active0 ].
  - intros j. rewrite dict_lookup_insert, lw_responses0. case_decide; subst; [| done].
    rewrite Hr. by split; eauto.
Qed.

Lemma update_run_good i st m e fa s : load_wf s -> load_wf (update_run i st m e fa s).2.
Proof.
  intros W. unfold update_run, get_run. st_call; simplify_eq; try done.
  apply negb_false_iff in Heqb. eapply set_run_good; eauto.
Qed.

Lemma store_responses_good now fresh i items s :
  load_wf s -> load_wf (add_run_responses now fresh i items s).2.
Proof.
  intros W. unfold add_run_responses, get_run, bind, get, put, ret. cbn [fst snd].
  destruct (_runs s !! i) as [r|] eqn:Er; cbn [fst snd]; [| done].
  destruct (proj2 (lw_responses _ W i)) as [l Hl]; [eauto |]. rewrite Hl. simpl.
  pose proof (lw_ordered _ W _ _ Hl) as [_ Hrid]. destruct W. split; simpl; try done.
  - intros j. rewrite dict_lookup_insert. case_decide; subst; [| done]. split; eauto.
  - intros j l' Hl'. dict_case; [| eauto]. split.
    + apply py_sorted_Sorted, by_key_total.
    + rewrite py_sorted_perm. apply Forall_app. split; [done |]. apply Forall_forall.
      intros x (k & y & -> & _)%elem_of_lookup_imap. done.
Qed.

(** The loop of the recovery, over runs that are there. *)
Lemma recover_loop now m ids s :
  NoDup ids -> (forall k, k ∈ ids -> is_Some (_runs s !! k)) -> load_wf s ->
  exists s', for_each ids (fun run_id =>
      let* s := get in
      let* run := lift (subscript run_id (_runs s)) in
      put (set_run run_id (interrupted now m run) s)) s = (Ok tt, s')
    /\ load_wf s' /\ _definitions s' = _definitions s /\ _names s' = _names s
    /\ _responses s' = _responses s
    /\ forall k, _runs s' !! k = if decide (k ∈ ids) then option_map (interrupted now m) (_runs s !! k)
                                 else _runs s !! k.
Proof.
  revert s. induction ids as [|i ids IH]; intros s Hnd Hids W; simpl.
  { exists s. split_and!; try done. }
  apply NoDup_cons in Hnd as [Hi Hnd]. destruct (Hids i) as [r Hr]; [by left |].
  unfold bind at 1. unfold bind, get, lift, subscript, put. rewrite Hr. cbn [fst snd].
  set (s1 := set_run i (interrupted now m r) s).
  assert (load_wf s1) as W1 by (eapply set_run_good; eauto; done).
  destruct (IH s1 Hnd) as (s' & E & W' & Hd & Hn & Hresp & Hrs); [| done |].
  { intros k Hk. simpl. rewrite dict_lookup_insert. case_decide; [eauto |]. apply Hids. by right. }
  exists s'. split_and!; try done. intros k. rewrite Hrs. simpl. rewrite dict_lookup_insert.
  repeat case_decide; subst; rewrite ?Hr; try done; set_solver.
Qed.

Lemma recover_spec now m s :
  load_wf s -> exists n s', recover_running_runs now m s = (Ok n, s') /\ load_wf s'
    /\ _definitions s' = _definitions s /\ _names s' = _names s /\ _responses s' = _responses s
    /\ forall k, _runs s' !! k = option_map (fun r => if running r then interrupted now m r else r) (_runs s !! k).
Proof.
  intros W. unfold recover_running_runs, bind at 1, get at 1. cbn [fst snd].
  set (ids := map fst _). assert (forall k, k ∈ ids <-> exists r, _runs s !! k = Some r /\ running r = true) as Hids.
  { intros k. unfold ids. rewrite elem_of_map. split.
    - intros ([j r] & -> & Hin). apply list_elem_of_In, filter_In in Hin as [Hin Hb].
      apply list_elem_of_In, elem_of_items in Hin. simpl in *. eauto.
    - intros (r & Hr & Hb). exists (k, r). split; [done |]. apply list_elem_of_In, filter_In.
      split; [by apply list_elem_of_In, elem_of_items | done]. }
  destruct (recover_loop now m ids s) as (s' & E & W' & Hd & Hn & Hresp & Hrs); [| | done |].
  - apply NoDup_map_filter, keys_nodup.
  - intros k (r & Hr & _)%Hids. eauto.
  - unfold bind at 1. rewrite E. eexists _, s'. split; [reflexivity |]. split_and!; try done.
    intros k. rewrite Hrs. pose proof (Hids k) as Hk. destruct (_runs s !! k) as [r|]; simpl; [| by case_decide].
    destruct (running r) eqn:Er.
    + rewrite decide_True; [done |]. apply Hk. eauto.
    + rewrite decide_False; [done |]. intros (y & [= <-] & Hy)%Hk. congruence.
Qed.

Inductive load_op : Type :=
  | OpCreateLoadTest (now : datetime) (fresh : uuid) (project : uuid) (body : LoadTestBody.t)
  | OpUpdateLoadTest (now : datetime) (i : uuid) (body : LoadTestBody.t) (expected : Z)
  | OpDeleteLoadTest (i : uuid)
  | OpCreateRun (now : datetime) (fresh : uuid) (i : uuid)
  | OpAddResponses (now : datetime) (ids : nat -> uuid) (run : uuid) (items : list ResponseItem.t)
  | OpUpdateRun (run : uuid) (status : LoadTestRunStatus.t) (metrics : list (string * pyval))
      (error : option string) (finished : option datetime)
  | OpRecoverRuns (now : datetime) (message : string).

Definition load_step (o : load_op) (s : t) : t :=
  match o with
  | OpCreateLoadTest now f p b => (create_load_test now f p b s).2
  | OpUpdateLoadTest now i b v => (update_load_test now i b v s).2
  | OpDeleteLoadTest i => (delete_load_test i s).2
  | OpCreateRun now f i => (create_run now f i s).2
  | OpAddResponses now ids i l => (add_run_responses now ids i l s).2
  | OpUpdateRun i st m e fa => (update_run i st m e fa s).2
  | OpRecoverRuns now m => (recover_running_runs now m s).2
  end.

Definition load_fresh (o : load_op) (s : t) : Prop :=
  match o with
  | OpCreateLoadTest _ f _ _ => _definitions s !! f = None
  | OpCreateRun _ f _ => _runs s !! f = None
  | _ => True
  end.

#[export,refine] Instance load_store : Store t load_op := {|
  st_init := init; st_op := load_step; st_fresh := load_fresh; st_wf := load_wf;
  st_evolves _ _ := True |}.
Proof.
  - by split.
  - split; simpl; try done; [apply indexed_empty | intros i; by split; intros [x Hx]].
  - intros [] s W Hf; split; try done; simpl in *.
    + by apply create_load_good.
    + by apply update_load_good.
    + by apply delete_load_good.
    + by apply create_run_good.
    + by apply store_responses_good.
    + by apply update_run_good.
    + destruct (recover_spec now message s W) as (n & s' & -> & W' & _). done.
Defined.

(** A run that is over stays as it is, until its load test is deleted. *)
Lemma finished_run_kept o s i r :
  load_wf s -> load_fresh o s -> _runs s !! i = Some r -> running r = false ->
  _runs (load_step o s) !! i = Some r
  \/ (o = OpDeleteLoadTest (LoadTestRunRecord.load_test_id r) /\ _runs (load_step o s) !! i = None).
Proof.
  intros W Hf Hr Hrun. destruct o; simpl in *.
  - left. destruct (create_load_cases now fresh project body s) as [(e & ->)|(c & _ & _ & ->)]; done.
  - left. destruct (update_load_test now i0 body expected s) as [[r'|e] s'] eqn:Eu.
    + by apply update_load_Ok in Eu as (c & x & _ & _ & _ & _ & _ & ->).
    + pose proof (update_load_err now i0 body expected s) as He. rewrite Eu in He. simpl in *. by rewrite He.
  - destruct (delete_load_spec i0 s W) as [(e & -> & _)|(x & s' & -> & _ & _ & _ & _ & Hrs & _)]; [by left |].
    simpl. rewrite Hrs, Hr. unfold of_test. case_bool_decide; subst; [by right | by left].
  - left. destruct (create_run_spec now fresh i0 s W) as [(e & -> & _)|(x & l & _ & _ & _ & ->)]; [done |].
    simpl. rewrite dict_lookup_insert_ne; [done |]. congruence.
  - left. unfold add_run_responses, get_run, bind, get, put, ret. cbn [fst snd].
    by destruct (_runs s !! run).
  - left. unfold update_run, get_run. st_call; simplify_eq; try done.
    apply negb_false_iff in Heqb. simpl. rewrite dict_lookup_insert_ne; [done |]. congruence.
  - left. destruct (recover_spec now message s W) as (n & s' & -> & _ & _ & _ & _ & Hrs). simpl.
    rewrite Hrs, Hr. simpl. by rewrite Hrun.
Qed.

(** What a deletion leaves: the test is gone with its runs and their responses. *)
Lemma delete_load_effect i s s' :
  load_wf s -> delete_load_test i s = (Ok tt, s') ->
  _definitions s' !! i = None
  /\ forall j x, _runs s !! j = Some x ->
       if decide (LoadTestRunRecord.load_test_id x = i)
       then _runs s' !! j = None /\ _responses s' !! j = None
       else _runs s' !! j = Some x /\ _responses s' !! j = _responses s !! j.
Proof.
  intros W Ed. destruct (delete_load_spec i s W) as [(e & E & _)|(r & s1 & E & Hr & _ & Hd & _ & Hrs & Hresp)];
    rewrite E in Ed; [done |]. injection Ed as [= <-].
  split; [by rewrite Hd, dict_lookup_delete_eq |]. intros j x Hx.
  pose proof (Hrs j) as Hj. rewrite Hx in Hj. unfold of_test in Hj. rewrite Hresp. case_decide as Ht.
  - rewrite bool_decide_true in Hj by done. rewrite Hj. split; [done |].
    by rewrite decide_False by (by intros [? ?]).
  - rewrite bool_decide_false in Hj by done. rewrite Hj. split; [done |]. by rewrite decide_True by eauto.
Qed.

(** A load test has one active run at most, and what is over stays.  In every
    reachable repository two RUNNING runs belong to different load tests; a run is
    started exactly for a stored load test without a RUNNING run, and a load test is
    deleted exactly when it has none, together with its runs and their responses and
    nothing else; no call changes a finished run, and only the deletion of its load test
    removes it; a restart fails the RUNNING runs and no other; the responses of a run
    are its own, in the order of their sequence numbers; and every stored load test has
    settings within the limits, under a name of its own in its project. *)
Theorem load_runs_exclusive s :
  st_reachable s ->
  (forall i j r r', get_run i s = (Ok r, s) -> get_run j s = (Ok r', s) ->
     running r = true -> running r' = true ->
     LoadTestRunRecord.load_test_id r = LoadTestRunRecord.load_test_id r' -> i = j)
  /\ (forall i, let idle := exists r, get_load_test i s = (Ok r, s)
          /\ forall j x, get_run j s = (Ok x, s) -> LoadTestRunRecord.load_test_id x = i ->
               LoadTestRunRecord.status x <> LoadTestRunStatus.RUNNING in
      (forall now f, is_ok (create_run now f i s).1 = true <-> idle)
      /\ (is_ok (delete_load_test i s).1 = true <-> idle)
      /\ forall s', delete_load_test i s = (Ok tt, s') ->
           (get_load_test i s').1 = Err LoadTestNotFound
           /\ forall j x, get_run j s = (Ok x, s) ->
                if decide (LoadTestRunRecord.load_test_id x = i)
                then (get_run j s').1 = Err LoadTestRunNotFound /\ _responses s' !! j = None
                else get_run j s' = (Ok x, s') /\ _responses s' !! j = _responses s !! j)
  /\ (forall o i r, load_fresh o s -> get_run i s = (Ok r, s) ->
       LoadTestRunRecord.status r <> LoadTestRunStatus.RUNNING ->
       (get_run i (load_step o s)).1 = Ok r
       \/ (o = OpDeleteLoadTest (LoadTestRunRecord.load_test_id r)
           /\ (get_run i (load_step o s)).1 = Err LoadTestRunNotFound))
  /\ (forall now m i r, get_run i s = (Ok r, s) ->
       LoadTestRunRecord.status r = LoadTestRunStatus.RUNNING ->
       (get_run i (recover_running_runs now m s).2).1 = Ok (interrupted now m r))
  /\ (forall i r, get_run i s = (Ok r, s) -> exists l,
       _responses s !! i = Some l /\ in_sequence l /\ Forall (fun x => LoadTestResponseRecord.run_id x = i) l)
  /\ (forall i r, get_load_test i s = (Ok r, s) -> settings_ok r)
  /\ (forall i j r r', get_load_test i s = (Ok r, s) -> get_load_test j s = (Ok r', s) ->
       load_key r = load_key r' -> i = j).
Proof.
  intros W%st_reachable_wf. simpl in W.
  assert (forall s i r, get_run i s = (Ok r, s) <-> _runs s !! i = Some r) as Hrun.
  { intros s0 i r. unfold get_run. destruct (_runs s0 !! i); naive_solver. }
  assert (forall i r, get_load_test i s = (Ok r, s) <-> _definitions s !! i = Some r) as Hget.
  { intros i r. unfold get_load_test. destruct (_definitions s !! i); naive_solver. }
  assert (forall r, LoadTestRunRecord.status r <> LoadTestRunStatus.RUNNING <-> running r = false) as Hst.
  { intros r. unfold running. by rewrite bool_decide_eq_false. }
  assert (forall s0 i, (get_run i s0).1 = match _runs s0 !! i with Some r => Ok r | None => Err LoadTestRunNotFound end)
    as Hrun1 by done.
  split_and!.
  - intros i j r r' Hi%Hrun Hj%Hrun. by apply (lw_active _ W).
  - intros i. cbv zeta. setoid_rewrite Hrun. setoid_rewrite Hget. setoid_rewrite Hst. split_and!.
    + intros now f. destruct (create_run_spec now f i s W)
        as [(e & -> & He)|(r & l & Hr & _ & Ha & ->)]; simpl; [| naive_solver].
      split; [done |]. intros (r & Hr & Hno). destruct He as [?|(j & x & Hx & Ht & Hb)]; [congruence |].
      by rewrite (Hno _ _ Hx Ht) in Hb.
    + destruct (delete_load_spec i s W) as [(e & -> & He)|(r & s' & -> & Hr & Ha & _)]; simpl; [| naive_solver].
      split; [done |]. intros (r & Hr & Hno). destruct He as [?|(j & x & Hx & Ht & Hb)]; [congruence |].
      by rewrite (Hno _ _ Hx Ht) in Hb.
    + intros s' Ed. destruct (delete_load_effect i s s' W Ed) as [Hd Hj].
      split; [unfold get_load_test; by rewrite Hd |]. intros j x Hx. specialize (Hj j x Hx).
      rewrite Hrun1. case_decide; [destruct Hj as [-> ->] | destruct Hj as [Hj ->]; apply Hrun in Hj]; done.
  - intros o i r Hf Hr%Hrun Hs%Hst. rewrite Hrun1.
    destruct (finished_run_kept o s i r W Hf Hr Hs) as [->|[-> ->]]; [by left | by right].
  - intros now m i r Hr%Hrun Hs. destruct (recover_spec now m s W) as (n & s' & -> & _ & _ & _ & _ & Hrs).
    rewrite Hrun1. simpl. rewrite Hrs, Hr. simpl. unfold running. by rewrite bool_decide_true.
  - intros i r Hr%Hrun. destruct (proj2 (lw_responses _ W i)) as [l Hl]; [eauto |].
    exists l. split; [done |]. by apply (lw_ordered _ W).
  - intros i r Hr%Hget. by eapply lw_settings.
  - intros i j r r' Hi%Hget Hj%Hget. by apply (indexed_unique load_key _ _ _ _ _ _ (lw_index _ W)).
Qed.
End repository.

(** ** The execution of a run *)
Import LoadTestService.

(** What was recorded, without its place. *)
Definition item_of (x : LoadTestResponseRecord.t) : ResponseItem.t :=
  ResponseItem.mk (LoadTestResponseRecord.sequence x) (LoadTestResponseRecord.target x)
    (LoadTestResponseRecord.successful x) (LoadTestResponseRecord.status x)
    (LoadTestResponseRecord.latency_ms x) (LoadTestResponseRecord.error x)
    (LoadTestResponseRecord.body x) (LoadTestResponseRecord.body_kind x)
    (LoadTestResponseRecord.truncated x) (LoadTestResponseRecord.body_bytes x).

(** The responses reported, and whether the run was cancelled by then. *)
Definition reported (r : report) : list ResponseItem.t := match r with Response item => [item] | _ => [] end.
Definition delivered (l : list report) : list ResponseItem.t := concat (map reported l).
Definition cancels (r : report) : bool := match r with Signal _ => true | _ => false end.
(** Whether there are signals, and whether they shut the service down. *)
Definition came (l : list signal) : bool := match l with [] => false | _ => true end.
Definition shuts (x : signal) : bool := match x with ShutDown => true | CancelRun => false end.
Definition stops (l : list signal) : bool := existsb shuts l.
Definition signalled (l : list report) : list signal := concat (map (fun r => match r with Signal x => [x] | _ => [] end) l).
Definition cancelled (event : bool) (l : list report) : bool := event || existsb cancels l.

(** The metrics reported before the cancellation. *)
Fixpoint seen (event : bool) (l : list report) : list (list (string * pyval)) :=
  match l with
  | [] => []
  | Snapshot m :: r => if event then seen event r else m :: seen event r
  | Response _ :: r => seen event r
  | Signal _ :: r => seen true r
  end.

(** Metrics always carry a count. *)
Definition counted (m : list (string * pyval)) : Prop := is_ok (total_requests m) = true.
Definition total (m : list (string * pyval)) : Z := match total_requests m with Ok z => z | Err _ => 0%Z end.
Definition report_counted (r : report) : Prop := match r with Snapshot m => counted m | _ => True end.

(** [m] is the largest of the metrics [l]. *)
Definition largest (m : list (string * pyval)) (l : list (list (string * pyval))) : Prop :=
  m ∈ l /\ forall x, x ∈ l -> (total x <= total m)%Z.

Section execution.
  Context `{PyFloat} (now : nat -> datetime) (ids : nat -> nat -> uuid) (run_id : uuid).
  (** The service, the run and its responses when the job starts. *)
  Context (w0 : LoadTestService.t) (r0 : LoadTestRunRecord.t) (old : list LoadTestResponseRecord.t).

(** Nothing but the run [run_id] is touched, except that a shutdown stops the service and
    sets every event. *)
Record frame (down : bool) (w : LoadTestService.t) : Prop := {
  fr_wf : load_wf (_repository w);
  fr_definitions : _definitions (_repository w) = _definitions (_repository w0);
  fr_names : _names (_repository w) = _names (_repository w0);
  fr_runs : forall k, k <> run_id -> _runs (_repository w) !! k = _runs (_repository w0) !! k;
  fr_responses : forall k, k <> run_id -> _responses (_repository w) !! k = _responses (_repository w0) !! k;
  fr_cancellations : forall k, k <> run_id ->
    _cancellations w !! k = if down then (fun _ => true) <$> _cancellations w0 !! k else _cancellations w0 !! k;
  fr_stopped : _stopped w = _stopped w0 || down }.

Definition same_run (r : LoadTestRunRecord.t) : Prop :=
  LoadTestRunRecord.id r = LoadTestRunRecord.id r0
  /\ LoadTestRunRecord.load_test_id r = LoadTestRunRecord.load_test_id r0
  /\ LoadTestRunRecord.mode r = LoadTestRunRecord.mode r0
  /\ LoadTestRunRecord.started_at r = LoadTestRunRecord.started_at r0.

(** The stored responses are [old] and [items]. *)
Definition stores (w : LoadTestService.t) (items : list ResponseItem.t) : Prop :=
  exists l, _responses (_repository w) !! run_id = Some l /\ map item_of l ≡ₚ map item_of old ++ items.

(** The state between two reports. *)
Record executing (sofar : list ResponseItem.t) (shown : list (list (string * pyval))) (event_set down : bool)
    (x : LoadTestService.t * locals) : Prop := {
  ex_frame : frame down x.1;
  ex_run : exists r, _runs (_repository x.1) !! run_id = Some r /\ same_run r /\ running r = true
             /\ LoadTestRunRecord.metrics r = latest_metrics x.2;
  ex_stored : exists kept, stores x.1 kept /\ kept ++ pending_responses x.2 = sofar;
  ex_event : event x.2 = event_set;
  ex_largest : largest (latest_metrics x.2) shown;
  ex_counted : counted (latest_metrics x.2) }.

Lemma item_of_record n i k x : item_of (response_record n i k x) = x.
Proof. by destruct x. Qed.

Lemma items_of_records n i (ks : nat -> uuid) items :
  map item_of (imap (fun j x => response_record n i (ks j) x) items) = items.
Proof.
  revert ks. induction items as [|x items IH]; intros ks; simpl; [done |].
  rewrite item_of_record. f_equal. apply (IH (fun j => ks (S j))).
Qed.

(** A batch goes to the repository. *)
Lemma store_batch_spec sofar shown ev dn l w :
  executing sofar shown ev dn (w, l) ->
  exists w', store_batch now ids run_id l (w, l)
             = (Ok tt, (w', mkLocals (latest_metrics l) [] (event l) (S (batches l))))
    /\ executing sofar shown ev dn (w', mkLocals (latest_metrics l) [] (event l) (S (batches l))).
Proof.
  intros [[W Hd Hn Hr Hrs Hc Hs] (r & Er & Hsr & Hrun & Hm) (kept & (stored & Est & Hp) & Hk) He Hl Hco].
  cbn [fst snd] in *. unfold store_batch, on_repository. cbn [fst snd].
  pose proof (store_responses_good (now (batches l)) (ids (batches l)) run_id (pending_responses l) _ W) as W'.
  unfold add_run_responses, get_run, bind, get, put, ret in *. cbn [fst snd] in *. rewrite Er, Est in W' |- *.
  cbn [fst snd default] in *. eexists. split; [reflexivity |]. split; cbn [fst snd]; try done.
  - split; cbn [_repository _cancellations _stopped _definitions _names _runs _responses]; try done.
    intros k Hne. rewrite dict_lookup_insert_ne by done. auto.
  - exists r. done.
  - exists sofar. split; [| by rewrite app_nil_r]. eexists.
    cbn [_repository _responses]. split; [by rewrite dict_lookup_insert_eq |].
    rewrite py_sorted_perm, map_app, items_of_records, Hp, <- Hk. by rewrite app_assoc.
Qed.

Lemma counted_total m : counted m -> total_requests m = Ok (total m).
Proof. unfold counted, total. by destruct (total_requests m). Qed.

Lemma largest_snoc m shown x :
  largest m shown -> largest (if (total x <=? total m)%Z then m else x) (shown ++ [x]).
Proof.
  intros [Hm Hle]. destruct (total x <=? total m)%Z eqn:E; bool_prop; split.
  - apply elem_of_app. by left.
  - intros y [Hy|Hy]%elem_of_app; [by apply Hle |]. apply list_elem_of_singleton in Hy as ->. lia.
  - apply elem_of_app. right. by apply list_elem_of_singleton.
  - intros y [Hy%Hle|Hy]%elem_of_app; [lia |]. apply list_elem_of_singleton in Hy as ->. lia.
Qed.

(** Metrics reach the run only while it is not cancelled and only with more requests. *)
Lemma snapshot_spec sofar shown ev dn m w :
  executing sofar shown ev dn w -> counted m ->
  exists w', snapshot run_id m w = (Ok tt, w')
    /\ executing sofar (if ev then shown else shown ++ [m]) ev dn w'.
Proof.
  intros X Hcm. pose proof X as [[W Hd Hn Hr Hrs Hc Hs] (r & Er & Hsr & Hrun & Hm) Hst He Hl Hco].
  destruct w as [w l]. cbn [fst snd] in *. unfold snapshot, bind, get, ret, lift. cbn [fst snd]. rewrite He.
  destruct ev; [by exists (w, l) |].
  rewrite !counted_total by done. pose proof (largest_snoc _ _ m Hl) as Hl'.
  destruct (total m <=? total (latest_metrics l))%Z eqn:E; [exists (w, l); split; [done | by split; destruct X] |].
  unfold on_repository, update_run, get_run, bind, get, put, ret. cbn [fst snd]. rewrite Er. cbn [fst snd].
  rewrite Hrun. cbn [negb fst snd]. eexists. split; [reflexivity |].
  split; cbn [fst snd]; try done.
  - split; cbn [_repository _cancellations _stopped _definitions _names _runs _responses set_run]; try done.
    + eapply set_run_good; eauto.
    + intros k Hne. rewrite dict_lookup_insert_ne by done. auto.
  - eexists. cbn [_repository set_run _runs]. split; [by rewrite dict_lookup_insert_eq |]. done.
Qed.

Lemma responses_spec sofar shown ev dn item w :
  executing sofar shown ev dn w ->
  exists w', responses now ids run_id item w = (Ok tt, w') /\ executing (sofar ++ [item]) shown ev dn w'.
Proof.
  intros X. destruct w as [w l]. unfold responses, bind, get, put. cbn [fst snd].
  set (l' := mkLocals (latest_metrics l) (pending_responses l ++ [item]) (event l) (batches l)).
  assert (executing (sofar ++ [item]) shown ev dn (w, l')) as X'.
  { destruct X as [? ? (kept & Hst & Hk) ? ? ?]. split; try done. exists kept. split; [done |].
    simpl in *. by rewrite app_assoc, Hk. }
  destruct (50 <=? _)%nat; [| by exists (w, l')].
  destruct (store_batch_spec _ _ _ _ _ _ X') as (w' & E & X2). eauto.
Qed.

Lemma flush_spec sofar shown ev dn w :
  executing sofar shown ev dn w ->
  exists w', flush_responses now ids run_id w = (Ok tt, w') /\ executing sofar shown ev dn w'
    /\ pending_responses w'.2 = [] /\ latest_metrics w'.2 = latest_metrics w.2.
Proof.
  intros X. destruct w as [w l]. unfold flush_responses, bind, get. cbn [fst snd].
  destruct (pending_responses l) as [|p ps] eqn:E; [exists (w, l); done |].
  destruct (store_batch_spec _ _ _ _ _ _ X) as (w' & E' & X2). by eexists.
Qed.

(** A signal reaches nothing but the events and the flag of the service. *)
Lemma set_all_lookup (d : pydict uuid bool) (ks : list uuid) k :
  (forall x, x ∈ ks -> is_Some (d !! x)) ->
  fold_left (fun d k => <[k:=true]> d) ks d !! k = if decide (k ∈ ks) then Some true else d !! k.
Proof.
  revert d. induction ks as [|x ks IH]; intros d Hks; cbn [fold_left]; [by rewrite decide_False by by intros ?%elem_of_nil |].
  rewrite IH.
  - destruct (decide (k ∈ ks)) as [Hin|Hin]; [by rewrite decide_True by by right |].
    destruct (decide (k = x)) as [->|Hne]; [rewrite decide_True by (by left); by rewrite dict_lookup_insert_eq |].
    rewrite decide_False by (by intros [|]%elem_of_cons). by rewrite dict_lookup_insert_ne by done.
  - intros y Hy. destruct (decide (y = x)) as [->|Hne]; [rewrite dict_lookup_insert_eq; by eexists |].
    rewrite dict_lookup_insert_ne by done. apply Hks. by right.
Qed.

Lemma receive_frame x dn w : frame dn w.1 -> exists w', receive run_id x w
    = (Ok tt, (w', mkLocals (latest_metrics w.2) (pending_responses w.2) true (batches w.2)))
  /\ _repository w' = _repository w.1 /\ frame (dn || shuts x) w'.
Proof.
  intros [W Hd Hn Hr Hrs Hca Hs]. unfold receive. eexists. split; [reflexivity |]. destruct x; cbn [shuts].
  - rewrite orb_false_r. unfold set_event, set_cancellations, bind, get, ret. cbn [fst snd].
    destruct (_cancellations w.1 !! run_id); cbn [fst snd]; (split; [done |]); [| by split].
    split; try done. intros k Hne. cbn [_cancellations]. rewrite dict_lookup_insert_ne by done. auto.
  - rewrite orb_true_r. unfold shutdown. cbn [snd]. split; [done |].
    split; try done; cbn [_cancellations _stopped]; [| by rewrite orb_true_r].
    intros k Hne. rewrite set_all_lookup by (intros y; by rewrite elem_of_keys).
    rewrite Hca by done. destruct (decide (k ∈ keys (_cancellations w.1))) as [Hin|Hin]; rewrite elem_of_keys, Hca in Hin by done;
      destruct dn, (_cancellations w0 !! k); cbn in *; try done; by destruct Hin.
Qed.

Lemma receive_all_frame l : forall dn w, frame dn w.1 -> exists w' ev, receive_all run_id l w
    = (Ok tt, (w', mkLocals (latest_metrics w.2) (pending_responses w.2) ev (batches w.2)))
  /\ _repository w' = _repository w.1 /\ frame (dn || stops l) w' /\ ev = event w.2 || came l.
Proof.
  unfold receive_all, stops. induction l as [|x l IH]; intros dn w Hf; cbn [for_each existsb].
  - exists w.1, (event w.2). rewrite !orb_false_r. by destruct w as [w []].
  - destruct (receive_frame x dn w Hf) as (w1 & E1 & R1 & F1). unfold bind. rewrite E1.
    destruct (IH _ (w1, mkLocals (latest_metrics w.2) (pending_responses w.2) true (batches w.2)) F1) as (w2 & ev & -> & R2 & F2 & ->). cbn [fst snd] in *. eexists _, _. split; [reflexivity |].
    rewrite R2, R1. split_and!; [done | by rewrite orb_assoc | by rewrite orb_true_r].
Qed.

Lemma receive_all_spec l sofar shown ev dn w : executing sofar shown ev dn w -> exists w', receive_all run_id l w = (Ok tt, w')
  /\ executing sofar shown (ev || came l) (dn || stops l) w'
  /\ pending_responses w'.2 = pending_responses w.2 /\ latest_metrics w'.2 = latest_metrics w.2.
Proof.
  intros X. destruct (receive_all_frame l dn w (ex_frame _ _ _ _ _ X)) as (w' & ev' & -> & R & F & ->).
  eexists. split; [reflexivity |]. cbn [fst snd]. split; [| done]. destruct X as [Hf Hrun Hst He Hl Hco].
  split; cbn [fst snd]; unfold stores; rewrite ?R; try done. cbn [event]. by rewrite He.
Qed.

Lemma deliver_spec sofar shown ev dn r w :
  executing sofar shown ev dn w -> report_counted r ->
  exists w', deliver now ids run_id r w = (Ok tt, w')
    /\ executing (sofar ++ reported r)
         (match r with Snapshot m => if ev then shown else shown ++ [m] | _ => shown end) (ev || cancels r)
         (dn || stops (signalled [r])) w'.
Proof.
  intros X Hc. destruct r as [m|item|x]; cbn [reported cancels deliver]; unfold signalled; cbn [map concat stops existsb app];
    rewrite ?app_nil_r, ?orb_false_r.
  - by apply snapshot_spec.
  - by apply responses_spec.
  - destruct (receive_all_spec [x] _ _ _ _ _ X) as (w' & E & X' & _). exists w'. unfold receive_all in E. cbn [for_each] in E.
    apply bind_Ok in E as ([] & w1 & E & [= <-]). split; [exact E |]. unfold stops in X'. cbn [existsb came] in X'.
    by rewrite orb_false_r in X'.
Qed.

Lemma deliver_all sofar shown ev dn l w :
  executing sofar shown ev dn w -> Forall report_counted l ->
  exists w', for_each l (deliver now ids run_id) w = (Ok tt, w')
    /\ executing (sofar ++ delivered l) (shown ++ seen ev l) (cancelled ev l) (dn || stops (signalled l)) w'.
Proof.
  intros X Hl. revert sofar shown ev dn w X. induction Hl as [|r l Hr Hl IH]; intros sofar shown ev dn w X.
  - exists w. split; [done |]. unfold delivered, cancelled, stops, signalled. simpl.
    by rewrite !app_nil_r, !orb_false_r.
  - destruct (deliver_spec _ _ _ _ _ _ X Hr) as (w1 & E1 & X1).
    destruct (IH _ _ _ _ _ X1) as (w2 & E2 & X2). exists w2. split.
    + cbn [for_each]. unfold bind. by rewrite E1.
    + assert (dn || stops (signalled (r :: l)) = dn || stops (signalled [r]) || stops (signalled l)) as ->.
      { unfold stops, signalled. cbn [map concat]. by rewrite app_nil_r, existsb_app, orb_assoc. }
      unfold delivered, cancelled in *. cbn [map concat existsb] in *. rewrite <- app_assoc, <- (orb_assoc ev) in X2.
      destruct r as [m|item|x]; simpl in *; rewrite ?orb_false_r, ?orb_true_r;
        rewrite ?orb_false_r, ?orb_true_r in X2; try done.
      destruct ev; [done |]. by rewrite <- app_assoc in X2.
Qed.

(** The last update of the run. *)
Lemma finish_spec sofar shown ev dn fin st m err w :
  executing sofar shown ev dn w -> pending_responses w.2 = [] -> st <> LoadTestRunStatus.RUNNING ->
  exists w', finish_run run_id fin st m err w = (Ok tt, w') /\ frame dn w'.1 /\ stores w'.1 sofar
    /\ exists r, _runs (_repository w'.1) !! run_id = Some r /\ same_run r
         /\ LoadTestRunRecord.status r = st /\ LoadTestRunRecord.metrics r = m
         /\ LoadTestRunRecord.error_message r = err /\ LoadTestRunRecord.finished_at r = Some fin.
Proof.
  intros [[W Hd Hn Hr Hrs Hc Hs] (r & Er & Hsr & Hrun & Hm) (kept & Hst & Hk) He Hl Hco] Hp Hne.
  destruct w as [w l]. cbn [fst snd] in *. rewrite Hp, app_nil_r in Hk. subst kept.
  unfold finish_run, on_repository, update_run, get_run, bind, get, put, ret. cbn [fst snd]. rewrite Er.
  cbn [fst snd]. rewrite Hrun. cbn [negb fst snd]. eexists. split; [reflexivity |]. cbn [fst snd].
  split; [| split; [exact Hst |]].
  - split; cbn [_repository _cancellations _stopped _definitions _names _runs _responses set_run]; try done.
    + eapply set_run_good; eauto.
    + intros k Hk. rewrite dict_lookup_insert_ne by done. auto.
  - eexists. cbn [_repository set_run _runs]. split; [by rewrite dict_lookup_insert_eq |]. done.
Qed.

Context (signals : nat -> list signal).
(** The signals until the run is updated, after the reports. *)
Definition late_signals : list signal := signals 0 ++ signals 1 ++ signals 2 ++ signals 3.

(** The end of a run whose executor failed. *)
Lemma failed_spec sofar shown ev dn fin message w :
  executing sofar shown ev dn w ->
  exists w', (receive_all run_id (signals 0) ;;; flush_responses now ids run_id ;;;
              receive_all run_id (signals 1 ++ signals 2 ++ signals 3) ;;;
              let* w := get in
              finish_run run_id fin LoadTestRunStatus.FAILED (latest_metrics w.2) (Some message)) w = (Ok tt, w')
    /\ frame (dn || stops late_signals) w'.1 /\ stores w'.1 sofar
    /\ exists r, _runs (_repository w'.1) !! run_id = Some r /\ same_run r
         /\ LoadTestRunRecord.status r = LoadTestRunStatus.FAILED
         /\ LoadTestRunRecord.metrics r = latest_metrics w.2
         /\ LoadTestRunRecord.error_message r = Some message
         /\ LoadTestRunRecord.finished_at r = Some fin.
Proof.
  intros X. destruct (receive_all_spec (signals 0) _ _ _ _ _ X) as (w1 & E1 & X1 & _ & Hl1).
  destruct (flush_spec _ _ _ _ _ X1) as (w2 & E2 & X2 & Hp2 & Hl2).
  destruct (receive_all_spec (signals 1 ++ signals 2 ++ signals 3) _ _ _ _ _ X2) as (w3 & E3 & X3 & Hp3 & Hl3).
  unfold bind, get. rewrite E1, E2, E3, Hl3, Hl2, Hl1. rewrite Hp2 in Hp3. unfold late_signals, stops. rewrite existsb_app, orb_assoc.
  by apply (finish_spec _ _ _ _ _ _ _ _ _ X3 Hp3).
Qed.

(** The end of a run whose executor returned metrics: the event is read twice. *)
Lemma finished_spec sofar shown ev dn fin m w :
  executing sofar shown ev dn w ->
  let read_first := ev || came (signals 0 ++ signals 1) in
  let read_again := read_first || came (signals 2) in
  exists w', (receive_all run_id (signals 0) ;;; flush_responses now ids run_id ;;; receive_all run_id (signals 1) ;;;
     let* w := get in
     let status := if event w.2 then LoadTestRunStatus.FAILED else LoadTestRunStatus.SUCCEEDED in
     receive_all run_id (signals 2) ;;;
     let* w := get in
     let error_message := if event w.2 then Some "Load test execution cancelled"%string else None in
     receive_all run_id (signals 3) ;;;
     finish_run run_id fin status m error_message) w = (Ok tt, w')
    /\ frame (dn || stops late_signals) w'.1 /\ stores w'.1 sofar
    /\ exists r, _runs (_repository w'.1) !! run_id = Some r /\ same_run r
         /\ LoadTestRunRecord.status r = (if read_first then LoadTestRunStatus.FAILED else LoadTestRunStatus.SUCCEEDED)
         /\ LoadTestRunRecord.metrics r = m
         /\ LoadTestRunRecord.error_message r = (if read_again then Some "Load test execution cancelled"%string else None)
         /\ LoadTestRunRecord.finished_at r = Some fin.
Proof.
  intros X. cbv zeta. destruct (receive_all_spec (signals 0) _ _ _ _ _ X) as (w1 & E1 & X1 & _).
  destruct (flush_spec _ _ _ _ _ X1) as (w2 & E2 & X2 & Hp2 & _).
  destruct (receive_all_spec (signals 1) _ _ _ _ _ X2) as (w3 & E3 & X3 & Hp3 & _).
  destruct (receive_all_spec (signals 2) _ _ _ _ _ X3) as (w4 & E4 & X4 & Hp4 & _).
  destruct (receive_all_spec (signals 3) _ _ _ _ _ X4) as (w5 & E5 & X5 & Hp5 & _).
  rewrite Hp2 in Hp3. rewrite Hp3 in Hp4. rewrite Hp4 in Hp5.
  assert (ev || came (signals 0 ++ signals 1) = event w3.2) as ->
    by (rewrite (ex_event _ _ _ _ _ X3); destruct ev, (signals 0), (signals 1); reflexivity).
  assert (event w3.2 || came (signals 2) = event w4.2) as ->
    by by rewrite (ex_event _ _ _ _ _ X3), (ex_event _ _ _ _ _ X4).
  unfold bind, get. rewrite E1, E2, E3, E4, E5. unfold late_signals, stops. rewrite !existsb_app, !orb_assoc.
  apply (finish_spec _ _ _ _ _ _ _ _ _ X5 Hp5). by destruct (event w3.2).
Qed.

(** What the run says when it is over. *)
Definition verdict (auth : option exn) (reports : list report) (end_ : ending) (event_set : bool)
    (r : LoadTestRunRecord.t) : Prop :=
  let best := largest (LoadTestRunRecord.metrics r)
                (LoadTestRunRecord.metrics r0 :: match auth with None => seen event_set reports | Some _ => [] end) in
  match auth, end_ with
  | None, Finished m =>
      let read_first := cancelled event_set reports || came (signals 0 ++ signals 1) in
      let read_again := read_first || came (signals 2) in
      LoadTestRunRecord.metrics r = m
      /\ LoadTestRunRecord.status r = (if read_first then LoadTestRunStatus.FAILED else LoadTestRunStatus.SUCCEEDED)
      /\ LoadTestRunRecord.error_message r = (if read_again then Some "Load test execution cancelled"%string else None)
  | None, ExecutionError message =>
      LoadTestRunRecord.status r = LoadTestRunStatus.FAILED
      /\ LoadTestRunRecord.error_message r = Some message /\ best
  | _, _ =>
      LoadTestRunRecord.status r = LoadTestRunStatus.FAILED
      /\ LoadTestRunRecord.error_message r = Some "Load test execution failed"%string /\ best
  end.
Definition given (auth : option exn) (reports : list report) : list report := match auth with None => reports | Some _ => [] end.

Lemma body_spec shown ev fin auth reports end_ w :
  executing [] [LoadTestRunRecord.metrics r0] ev false w -> Forall report_counted reports ->
  shown = (LoadTestRunRecord.metrics r0 :: match auth with None => seen ev reports | Some _ => [] end) ->
  exists w', execute_body now ids signals run_id fin auth reports end_ w = (Ok tt, w')
    /\ frame (stops (signalled (given auth reports) ++ late_signals)) w'.1
    /\ stores w'.1 (delivered (given auth reports))
    /\ exists r, _runs (_repository w'.1) !! run_id = Some r /\ same_run r
         /\ LoadTestRunRecord.finished_at r = Some fin /\ verdict auth reports end_ ev r.
Proof.
  intros X Hrep ->. unfold execute_body, run_executor, bind at 1. unfold stops. rewrite existsb_app. destruct auth as [e|]; cbn [given].
  - destruct (failed_spec _ _ _ _ fin "Load test execution failed" _ X) as (w' & E & Hf & Hs & r & Er & Hsr & Hst & Hm & Herr & Hfin).
    exists w'. split; [exact E |]. split; [done |]. split; [done |]. exists r. split_and!; try done.
    unfold verdict. split_and!; try done. rewrite Hm. apply X.
  - destruct (deliver_all _ _ _ _ _ _ X Hrep) as (w1 & E1 & X1). rewrite E1. rewrite app_nil_l in X1.
    destruct end_ as [m|message|e].
    + destruct (finished_spec _ _ _ _ fin m _ X1) as (w2 & E2 & Hf & Hs & r & Er & Hsr & Hst & Hm & Herr & Hfin).
      exists w2. unfold try_except. cbv zeta in E2 |- *. rewrite E2. split_and!; try done. exists r. by split_and!.
    + destruct (failed_spec _ _ _ _ fin message _ X1) as (w2 & E2 & Hf & Hs & r & Er & Hsr & Hst & Hm & Herr & Hfin).
      exists w2. split; [exact E2 |]. split_and!; try done. exists r. split_and!; try done. unfold verdict. split_and!; try done.
      rewrite Hm. apply X1.
    + destruct (failed_spec _ _ _ _ fin "Load test execution failed" _ X1) as (w2 & E2 & Hf & Hs & r & Er & Hsr & Hst & Hm & Herr & Hfin).
      exists w2. split; [exact E2 |]. split_and!; try done. exists r. split_and!; try done. unfold verdict. split_and!; try done.
      rewrite Hm. apply X1.
Qed.

(** C40. Executing a run always ends it.  When the job of a RUNNING run is executed,
    whatever the executor reports, however it ends and whenever other threads cancel the run
    or shut the service down, the job returns and the run is over. After metrics it is
    SUCCEEDED exactly when nobody had cancelled it before its event was read for the status,
    and its message says that it was cancelled exactly when somebody had before the event was
    read again for the message: a cancellation between the two readings leaves a run that
    SUCCEEDED with the message of a cancelled one. Otherwise it is FAILED with the message of
    its cause; a failed run keeps the metrics with the most requests seen before the
    cancellation; every response reported is stored once, beside those stored before, in the
    order of the sequence numbers, however the reports fell into batches of fifty; the
    service forgets the run's event; and no other run, response, definition or event is
    touched, except that a shutdown stops the service and sets every event. *)
Theorem load_execution_settles fin auth reports end_ :
  load_wf (_repository w0) -> _runs (_repository w0) !! run_id = Some r0 ->
  LoadTestRunRecord.status r0 = LoadTestRunStatus.RUNNING ->
  _responses (_repository w0) !! run_id = Some old ->
  counted (LoadTestRunRecord.metrics r0) -> Forall report_counted reports ->
  exists w', _execute now ids signals run_id fin auth reports end_ w0 = (Ok tt, w')
    /\ frame (stops (signalled (given auth reports) ++ late_signals ++ signals 4)) w'
    /\ _cancellations w' !! run_id = None
    /\ (exists r, _runs (_repository w') !! run_id = Some r /\ same_run r
          /\ LoadTestRunRecord.status r <> LoadTestRunStatus.RUNNING
          /\ LoadTestRunRecord.finished_at r = Some fin
          /\ verdict auth reports end_ (default false (_cancellations w0 !! run_id)) r)
    /\ exists l, _responses (_repository w') !! run_id = Some l /\ in_sequence l
         /\ map item_of l
             ≡ₚ map item_of old ++ match auth with None => delivered reports | Some _ => [] end.
Proof.
  intros W Hr Hst Hold Hco Hrep. unfold _execute, on_repository, get_run, bind. cbn [fst snd]. rewrite Hr.
  cbn [fst snd]. set (ev := default false (_cancellations w0 !! run_id)).
  replace (LoadTestService.mk (_repository w0) (_cancellations w0) (_stopped w0)) with w0 by by destruct w0.
  set (start := mkLocals (LoadTestRunRecord.metrics r0) [] ev 0).
  assert (executing [] [LoadTestRunRecord.metrics r0] ev false (w0, start)) as X.
  { split; cbn [fst snd]; try done.
    - split; try done. by rewrite orb_false_r.
    - exists r0. split; [done |]. split; [done |]. split; [| done]. unfold running. by rewrite Hst, bool_decide_true.
    - exists []. split; [| done]. exists old. by rewrite app_nil_r.
    - split; [by left |]. intros x ->%list_elem_of_singleton. apply Z.le_refl. }
  destruct (body_spec _ ev fin auth reports end_ _ X Hrep eq_refl)
    as ([w1 l1] & E & Hf & (l & Hl & Hperm) & r & Er & Hsr & Hfin & Hv).
  change (default false (_cancellations w0 !! run_id)) with ev. fold start. rewrite E. cbn [fst snd] in *.
  destruct (receive_all_frame (signals 4) _ (w1, l1) Hf) as (w' & ev' & -> & R & Hf' & _). cbn [fst snd] in *.
  eexists. split; [reflexivity |]. unfold stops in *. rewrite <- existsb_app, <- app_assoc in Hf'. destruct Hf'.
  cbn [_repository]. split_and!.
  - split; cbn [_repository _cancellations _stopped]; try done.
    intros k Hk. rewrite dict_lookup_delete_ne by done. auto.
  - cbn [_cancellations]. apply dict_lookup_delete_eq.
  - exists r. rewrite R. split_and!; try done. unfold verdict in Hv. destruct auth, end_; try (destruct Hv as [-> _]; done).
    cbv zeta in Hv. destruct Hv as (_ & -> & _). by destruct (cancelled _ _ || _).
  - exists l. rewrite <- R in Hl. split; [done |]. split; [| by destruct auth]. by eapply lw_ordered in Hl as [? _].
Qed.
End execution.

(** * Load tests: concrete histories

    Witnesses for the theorems of LoadTestTheorems: a load test with one target, and a
    run that is executed with metrics, responses and a cancellation. *)
Import LoadTestRepository LoadTestService.
Open Scope list_scope.

#[local] Instance no_fractions : PyFloat := fun m e => EmptyString.

Definition demo_target : LoadTestTarget.t :=
  LoadTestTarget.mk " home " "get" "https://example.org/" [] [] PNone [200]%Z [] 0.
Definition demo_load : LoadTestBody.t :=
  LoadTestBody.mk "Smoke " "" [demo_target] LoadTestMode.COUNT (PInt 10) (PInt 1) (PInt 2) (PInt 0) (PInt 30)
    None LoadTestTrafficMode.REQUESTS None (PBool true) "web".

Definition demo_loads : LoadTestRepository.t :=
  st_ops [OpCreateLoadTest 1 1 9 demo_load; OpCreateRun 2 5 1] LoadTestRepository.init.

Lemma demo_loads_reachable : st_reachable demo_loads.
Proof. apply st_ops_reachable; [exact (st_reachable_init (H:=load_store)) | by vm_compute]. Qed.

(** The running run keeps a second one and the deletion away. *)
Lemma load_runs_exclusive_witness :
  is_ok (create_run 3 6 1 demo_loads).1 = false
  /\ is_ok (delete_load_test 1 demo_loads).1 = false
  /\ exists r, (get_run 5 (recover_running_runs 9 "restart" demo_loads).2).1 = Ok (interrupted 9 "restart" r).
Proof.
  destruct (load_runs_exclusive demo_loads demo_loads_reachable) as (_ & Hi & _ & Hrec & _).
  destruct (get_run 5 demo_loads) as [[r|e] s] eqn:E; [| exfalso; revert E; vm_compute; discriminate].
  assert (s = demo_loads) as -> by (by injection E).
  assert (LoadTestRunRecord.load_test_id r = 1%N /\ LoadTestRunRecord.status r = LoadTestRunStatus.RUNNING) as [Ht Hs].
  { unfold get_run in E. injection E as E. revert E. vm_compute. intros [= <-]. done. }
  destruct (Hi 1%N) as (Hc & Hd & _). split_and!.
  - apply not_true_iff_false. rewrite Hc. intros (x & _ & Hn). by apply (Hn 5%N r).
  - apply not_true_iff_false. rewrite Hd. intros (x & _ & Hn). by apply (Hn 5%N r).
  - exists r. by apply Hrec.
Defined.

(** ** An execution *)

Definition demo_service : LoadTestService.t := LoadTestService.mk demo_loads (<[5%N:=false]> ∅) false.
Definition demo_item (n : Z) : ResponseItem.t :=
  ResponseItem.mk n "home" true (Some 200%Z) (PInt 1) None None "empty" false 0.
Definition demo_metrics (n : Z) : list (string * pyval) := [("total_requests"%string, PInt n)].
Definition demo_reports : list report :=
  [Response (demo_item 2); Snapshot (demo_metrics 2); Response (demo_item 1)].
(** A cancellation between the two readings of the event, and a shutdown when all is over. *)
Definition demo_signals (n : nat) : list signal :=
  match n with 2%nat => [CancelRun] | 4%nat => [ShutDown] | _ => [] end.

(** The run succeeds with the metrics of the executor and the message of a cancelled one;
    both responses are stored; the service is stopped. *)
Lemma load_execution_settles_witness : exists w' r l,
  _execute (fun n => Z.of_nat n) (fun a b => N.of_nat (100 * a + b)) demo_signals 5 20 None demo_reports
    (Finished (demo_metrics 3)) demo_service = (Ok tt, w')
  /\ _runs (_repository w') !! 5%N = Some r
  /\ LoadTestRunRecord.status r = LoadTestRunStatus.SUCCEEDED
  /\ LoadTestRunRecord.error_message r = Some "Load test execution cancelled"%string
  /\ LoadTestRunRecord.metrics r = demo_metrics 3 /\ _stopped w' = true
  /\ _responses (_repository w') !! 5%N = Some l /\ map item_of l ≡ₚ [demo_item 2; demo_item 1].
Proof.
  pose proof (st_reachable_wf _ demo_loads_reachable) as W.
  destruct (_runs demo_loads !! 5%N) as [r0|] eqn:Er; [| exfalso; revert Er; vm_compute; discriminate].
  destruct (_responses demo_loads !! 5%N) as [old|] eqn:Eo; [| exfalso; revert Eo; vm_compute; discriminate].
  assert (old = []) as -> by (revert Eo; vm_compute; by intros [= <-]).
  assert (LoadTestRunRecord.status r0 = LoadTestRunStatus.RUNNING /\ counted (LoadTestRunRecord.metrics r0)) as [Hs Hc].
  { revert Er. vm_compute. intros [= <-]. done. }
  destruct (load_execution_settles (fun n => Z.of_nat n) (fun a b => N.of_nat (100 * a + b)) 5 demo_service r0 []
    demo_signals 20 None demo_reports (Finished (demo_metrics 3)) W Er Hs Eo Hc)
    as (w' & E & Hf & _ & (r & Hr & _ & _ & _ & Hm & Hst & He) & l & Hl & _ & Hp).
  { repeat constructor. }
  exists w', r, l. split_and!; try done. exact (fr_stopped _ _ _ _ Hf).
Defined.
