(* ===== verification/Urls.v ===== *)
(** * [urllib.parse.urlsplit]

    The five parts of a URL and the user, host and port in its network location, as the
    standard library computes them.  Whether a bracketed host is an IPv6 literal is
    asked of [ipaddress] (the class [Ipaddress]). *)
From S2P Require Import Prelude PyText Protocol Codecs Templates.
From Stdlib Require Import Ascii.
Open Scope string_scope.
Open Scope list_scope.

(** [ipaddress.ip_address]: the version of a literal, and its [is_global]. *)
Class Ipaddress := { ip_version : string -> option Z; ip_is_global : string -> bool }.

(** ** Cutting texts *)

(** [s.partition(c)]: what is before and after the first [c]. *)
Fixpoint cut (c : ascii) (s : string) : option (string * string) :=
  match s with
  | EmptyString => None
  | String x r =>
      if Ascii.eqb x c then Some (EmptyString, r)
      else match cut c r with Some (a, b) => Some (String x a, b) | None => None end
  end.
(** [s.rpartition(c)], by the last [c]. *)
Fixpoint rcut (c : ascii) (s : string) : option (string * string) :=
  match s with
  | EmptyString => None
  | String x r =>
      match rcut c r with
      | Some (a, b) => Some (String x a, b)
      | None => if Ascii.eqb x c then Some (EmptyString, r) else None
      end
  end.
(** [s.find(c) >= 0]. *)
Definition has_char (c : ascii) (s : string) : bool := negb (all_chars (fun x => negb (Ascii.eqb x c)) s).
Definition lower_char (c : ascii) : ascii :=
  if ((65 <=? code c) && (code c <=? 90) || (192 <=? code c) && (code c <=? 222) && negb (code c =? 215))%N
  then ascii_of_N (code c + 32) else c.
(** [s.lower()]. *)
Fixpoint lower (s : string) : string :=
  match s with EmptyString => EmptyString | String c r => String (lower_char c) (lower r) end.
Fixpoint remove_chars (p : ascii -> bool) (s : string) : string :=
  match s with
  | EmptyString => EmptyString
  | String c r => if p c then remove_chars p r else String c (remove_chars p r)
  end.
(** [s.startswith(prefix)] is [String.prefix]; [s.endswith(suffix)]. *)
Definition ends_with (suffix s : string) : bool :=
  bool_decide (String.substring (String.length s - String.length suffix) (String.length suffix) s = suffix)
  && (String.length suffix <=? String.length s)%nat.

Definition colon : ascii := ascii_of_N 58.
Definition at_sign : ascii := ascii_of_N 64.
Definition percent : ascii := ascii_of_N 37.
Definition hash_mark : ascii := ascii_of_N 35.
Definition question : ascii := ascii_of_N 63.
Definition open_bracket : ascii := ascii_of_N 91.
Definition close_bracket : ascii := ascii_of_N 93.

(** ** The split *)

Module SplitResult.
Record t := mk { scheme : string; netloc : string; path : string; query : string; fragment : string }.
End SplitResult.

(** [scheme_chars]. *)
Definition scheme_char (c : ascii) : bool :=
  is_alpha c || is_digit c || (code c =? 43)%N || (code c =? 45)%N || (code c =? 46)%N.
Fixpoint lstrip_c0 (s : string) : string :=
  match s with String c r => if (code c <=? 32)%N then lstrip_c0 r else s | EmptyString => s end.
Definition unsafe_byte (c : ascii) : bool := (code c =? 9)%N || (code c =? 10)%N || (code c =? 13)%N.
Definition ends_netloc (c : ascii) : bool := (code c =? 47)%N || (code c =? 63)%N || (code c =? 35)%N.

Definition invalid_ipv6 : exn := ValueError "Invalid IPv6 URL".

Section split.
  Context `{Ipaddress}.

(** [_check_bracketed_host]. *)
Definition check_bracketed_host (host : string) : res unit :=
  if String.prefix "v" host then
    match cut "." (String.substring 1 (String.length host) host) with
    | Some (digits, rest) =>
        if all_chars (fun c => is_hex (lower_char c)) digits && negb (empty_str digits)
           && negb (empty_str rest) && negb (has_char (ascii_of_N 10) rest)
        then Ok tt else Err (ValueError "IPvFuture address is invalid")
    | None => Err (ValueError "IPvFuture address is invalid")
    end
  else match ip_version host with
       | Some 6%Z => Ok tt
       | Some _ => Err (ValueError "An IPv4 address cannot be in brackets")
       | None => Err (ValueError "does not appear to be an IPv4 or IPv6 address")
       end.

(** What follows the last ["@"]. *)
Definition host_part (netloc : string) : string :=
  match rcut at_sign netloc with Some (_, r) => r | None => netloc end.

(** [_check_bracketed_netloc]. *)
Definition check_bracketed_netloc (netloc : string) : res unit :=
  match cut open_bracket (host_part netloc) with
  | Some (before, bracketed) =>
      if negb (empty_str before) then Err invalid_ipv6
      else let '(host, port) := match cut close_bracket bracketed with
                                | Some hp => hp | None => (bracketed, EmptyString) end in
           if negb (empty_str port) && negb (String.prefix ":" port) then Err invalid_ipv6
           else check_bracketed_host host
  | None => check_bracketed_host (match cut colon (host_part netloc) with
                                  | Some (h, _) => h | None => host_part netloc end)
  end.

Definition check_netloc (netloc : string) : res unit :=
  let o := has_char open_bracket netloc in let c := has_char close_bracket netloc in
  if xorb o c then Err invalid_ipv6
  else if o && c then check_bracketed_netloc netloc else Ok tt.

(** The scheme, in lower case, and what follows its colon. *)
Definition split_scheme (url : string) : string * string :=
  match cut colon url with
  | Some (s, r) =>
      if negb (empty_str s) && is_alpha (hd zero (String.list_ascii_of_string s)) && all_chars scheme_char s
      then (lower s, r) else (EmptyString, url)
  | None => (EmptyString, url)
  end.

Definition urlsplit (url : string) : res SplitResult.t :=
  let url := remove_chars unsafe_byte (lstrip_c0 url) in
  let '(scheme, url) := split_scheme url in
  let '(netloc, url) :=
    if String.prefix "//" url
    then span (fun c => negb (ends_netloc c)) (String.substring 2 (String.length url) url)
    else (EmptyString, url) in
  let? _ := check_netloc netloc in
  let '(url, fragment) := match cut hash_mark url with Some uf => uf | None => (url, EmptyString) end in
  let '(path, query) := match cut question url with Some pq => pq | None => (url, EmptyString) end in
  Ok (SplitResult.mk scheme netloc path query fragment).
End split.

(** ** The properties of the result *)

Module Split.
Import SplitResult.
Definition userinfo (r : t) : option string * option string :=
  match rcut at_sign (netloc r) with
  | Some (info, _) => match cut colon info with
                      | Some (u, p) => (Some u, Some p)
                      | None => (Some info, None)
                      end
  | None => (None, None)
  end.
Definition username (r : t) : option string := (userinfo r).1.
Definition password (r : t) : option string := (userinfo r).2.
Definition hostinfo (r : t) : string * option string :=
  let info := host_part (netloc r) in
  let '(host, port) :=
    match cut open_bracket info with
    | Some (_, bracketed) =>
        match cut close_bracket bracketed with
        | Some (h, p) => (h, match cut colon p with Some (_, q) => q | None => EmptyString end)
        | None => (bracketed, EmptyString)
        end
    | None => match cut colon info with Some hp => hp | None => (info, EmptyString) end
    end in
  (host, if empty_str port then None else Some port).
(** Lower case but for the zone of an IPv6 address. *)
Definition hostname (r : t) : option string :=
  let h := (hostinfo r).1 in
  if empty_str h then None
  else Some match cut percent h with
            | Some (a, zone) => (lower a ++ "%" ++ zone)%string
            | None => lower h
            end.
Definition port (r : t) : res (option Z) :=
  match (hostinfo r).2 with
  | None => Ok None
  | Some p =>
      if all_chars is_digit p then
        let n := Z.of_N (decimal 0 p) in
        if (n <=? 65535)%Z then Ok (Some n) else Err (ValueError "Port out of range 0-65535")
      else Err (ValueError "Port could not be cast to integer value")
  end.
End Split.
