(* ===== verification/Files.v ===== *)
(** * The file system and [pathlib]

    A tree of files, directories and symbolic links, with the calls of [os], [pathlib]
    and [shutil] the code makes on it, as POSIX defines them.  A [Path] is the list of
    the parts of an absolute path; a call resolves the links on the way to its last
    part.  Only errors the tree itself causes are modelled: a call that the process may
    not make, a full disk and the like are not.  Nobody else changes the tree during a
    call. *)
From stdpp Require Import gmap strings.
From S2P Require Import Prelude PyText Protocol Templates.
Open Scope string_scope.
Open Scope list_scope.

Notation bytes := (list N).
Notation path := (list string).

(** Permission bits and owner. *)
Record access := Access { mode : Z; owner : Z * Z }.

Inductive node : Type :=
  | File (content : bytes) (a : access)
  | Directory (a : access)
  | Symlink (target : string).

(** Every node but the root, which is a directory. *)
Notation tree := (gmap (list string) node).

(** The process: its identity and its [umask]. *)
Class Process := { process_owner : Z * Z; umask : Z }.

Definition root_node : node := Directory (Access 493 (0, 0)%Z).
Definition node_at (fs : tree) (p : path) : option node :=
  match p with [] => Some root_node | _ => fs !! p end.

(** ** Pure paths *)

Definition slash : Ascii.ascii := Ascii.ascii_of_N 47.
(** What [PurePosixPath] keeps of a text: no empty part and no ["."]. *)
Definition parts_of (s : string) : path :=
  List.filter (fun c => negb (bool_decide (c = EmptyString)) && negb (bool_decide (c = "."))) (split_on slash s).
Definition is_absolute (s : string) : bool := String.prefix "/" s.
(** [str(PurePosixPath(s))]; exactly two leading slashes are kept. *)
Definition anchor_of (s : string) : string :=
  if String.prefix "//" s && negb (String.prefix "///" s) then "//"
  else if is_absolute s then "/" else EmptyString.
Definition path_text (s : string) : string :=
  match anchor_of s, parts_of s with
  | EmptyString, [] => "."
  | a, ps => (a ++ join "/" ps)%string
  end.
(** [str(path)] of a relative path given by its parts. *)
Definition text_of (parts : path) : string := match parts with [] => "." | _ => join "/" parts end.
(** [path.name], [path.parent]. *)
Definition name_of (p : path) : string := List.last p EmptyString.
Definition parent_of (p : path) : path := removelast p.
(** [path.with_name(n)]. *)
Definition with_name (p : path) (n : string) : path := parent_of p ++ [n].
(** [p.is_relative_to(root)]. *)
Fixpoint is_relative_to (p root : path) {struct root} : bool :=
  match root, p with
  | [], _ => true
  | r :: root, c :: p => bool_decide (c = r) && is_relative_to p root
  | _ :: _, [] => false
  end.

(** [p.relative_to(root).parts]. *)
Definition relative_parts (p root : path) : res path :=
  if is_relative_to p root then Ok (drop (length root) p) else Err (ValueError "is not in the subpath").

(** ** Resolution *)

Definition ENOENT : exn := OSError "FileNotFoundError".
Definition EEXIST : exn := OSError "FileExistsError".
Definition ENOTDIR : exn := OSError "NotADirectoryError".
Definition EISDIR : exn := OSError "IsADirectoryError".
Definition ELOOP : exn := OSError "OSError".
(** More links than that on one path count as a loop. *)
Definition MAX_LINKS : nat := 40.

Definition nilb {A} (l : list A) : bool := match l with [] => true | _ => false end.

(** The place [cur/todo] denotes, links on the way followed; [strict] demands that it
    exists, [follow] tells whether a link in its last part is followed. *)
Fixpoint walk (links : nat) (fs : tree) (strict follow : bool) : path -> path -> res path :=
  fix go (cur todo : path) {struct todo} : res path :=
    match todo with
    | [] => Ok cur
    | c :: rest =>
        if bool_decide (c = "..") then go (parent_of cur) rest
        else
          let next := cur ++ [c] in
          match node_at fs next with
          | None => if strict then Err ENOENT else go next rest
          | Some (Directory _) => go next rest
          | Some (File _ _) =>
              match rest with
              | [] => Ok next
              | _ => if strict then Err ENOTDIR else go next rest
              end
          | Some (Symlink target) =>
              if negb follow && nilb rest then Ok next
              else match links with
                   | O => Err ELOOP
                   | S n => walk n fs strict follow (if is_absolute target then [] else cur)
                              (parts_of target ++ rest)
                   end
          end
    end.

(** [os.path.realpath]. *)
Definition resolve (strict : bool) (fs : tree) (p : path) : res path :=
  walk MAX_LINKS fs strict true [] p.

(** [Path.resolve(strict)] of Python 3.12, which has its own exception for a loop. *)
Definition Path_resolve (strict : bool) (fs : tree) (p : path) : res path :=
  match resolve strict fs p with
  | Err e => if bool_decide (e = ELOOP) then Err (RuntimeError "Symlink loop") else Err e
  | r => r
  end.

(** Where the last part of [p] is or would be: its directory must exist. *)
Definition locate (fs : tree) (p : path) : res path :=
  if nilb p || bool_decide (name_of p = "..") then resolve true fs p
  else
    let? d := resolve true fs (parent_of p) in
    match node_at fs d with
    | Some (Directory _) => Ok (d ++ [name_of p])
    | _ => Err ENOTDIR
    end.

Definition lstat (fs : tree) (p : path) : res node :=
  let? q := locate fs p in
  match node_at fs q with Some n => Ok n | None => Err ENOENT end.
Definition stat (fs : tree) (p : path) : res node :=
  let? q := resolve true fs p in
  match node_at fs q with Some n => Ok n | None => Err ENOENT end.

Definition is_symlink (fs : tree) (p : path) : bool :=
  match lstat fs p with Ok (Symlink _) => true | _ => false end.
Definition exists_at (fs : tree) (p : path) : bool :=
  match stat fs p with Ok _ => true | Err _ => false end.
Definition is_dir (fs : tree) (p : path) : bool :=
  match stat fs p with Ok (Directory _) => true | _ => false end.
Definition is_file (fs : tree) (p : path) : bool :=
  match stat fs p with Ok (File _ _) => true | _ => false end.

(** [path.open("rb").read()]. *)
Definition read_file (fs : tree) (p : path) : res bytes :=
  let? n := stat fs p in
  match n with File c _ => Ok c | _ => Err EISDIR end.

(** [path.stat().st_size]: of a directory what the file system says, 4096 as on ext4. *)
Definition file_size (fs : tree) (p : path) : res Z :=
  let? n := stat fs p in
  Ok match n with File c _ => Z.of_nat (length c) | _ => 4096%Z end.

(** ** Calls that change the tree *)

Section calls.
  Context `{Process}.

Definition created (mode : Z) : access := Access (Z.land mode (Z.lnot umask)) process_owner.

(** [os.mkdir]. *)
Definition os_mkdir (mode : Z) (p : path) : M tree unit := fun fs =>
  match locate fs p with
  | Err e => (Err e, fs)
  | Ok q => match node_at fs q with
            | Some _ => (Err EEXIST, fs)
            | None => (Ok tt, <[q := Directory (created mode)]> fs)
            end
  end.

Definition is_FileNotFoundError (e : exn) : bool := bool_decide (e = ENOENT).

(** [path.mkdir(mode, exist_ok)]. *)
Definition mkdir (mode : Z) (exist_ok : bool) (p : path) : M tree unit :=
  try_except (os_mkdir mode p) is_OSError
    (fun e => let* fs := get in
              if negb exist_ok || negb (is_dir fs p) then raise e else ret tt).

(** [path.mkdir(parents=True, exist_ok=True)]: the missing parents first.  The rounds
    are as many as the path has parts. *)
Fixpoint mkdir_parents (rounds : nat) (p : path) : M tree unit :=
  try_except (os_mkdir 511 p) is_OSError
    (fun e => if is_FileNotFoundError e then
                match rounds with
                | O => raise e
                | S n => if nilb p then raise e
                         else mkdir_parents n (parent_of p) ;;; mkdir 511 true p
                end
              else let* fs := get in if is_dir fs p then ret tt else raise e).
Definition makedirs (p : path) : M tree unit := mkdir_parents (length p) p.

(** [os.open(path, O_WRONLY | O_CREAT | O_EXCL, mode)] and the bytes written. *)
Definition write_new (mode : Z) (p : path) (content : bytes) : M tree unit := fun fs =>
  match locate fs p with
  | Err e => (Err e, fs)
  | Ok q => match node_at fs q with
            | Some _ => (Err EEXIST, fs)
            | None => (Ok tt, <[q := File content (created mode)]> fs)
            end
  end.

(** [open(path, "wb")] and the bytes written: the file is made, or emptied; a link is
    followed. *)
Definition write_over (mode : Z) (p : path) (content : bytes) : M tree unit := fun fs =>
  match (if is_symlink fs p then let? q := resolve false fs p in locate fs q else locate fs p) with
  | Err e => (Err e, fs)
  | Ok q => match node_at fs q with
            | None => (Ok tt, <[q := File content (created mode)]> fs)
            | Some (File _ a) => (Ok tt, <[q := File content a]> fs)
            | Some (Directory _) => (Err EISDIR, fs)
            | Some (Symlink _) => (Err ELOOP, fs)
            end
  end.

(** [os.replace] on files. *)
Definition replace (source target : path) : M tree unit := fun fs =>
  match locate fs source, locate fs target with
  | Ok s, Ok t =>
      match node_at fs s, node_at fs t with
      | None, _ => (Err ENOENT, fs)
      | Some _, Some (Directory _) => (Err EISDIR, fs)
      | Some n, _ => (Ok tt, <[t := n]> (delete s fs))
      end
  | Err e, _ | _, Err e => (Err e, fs)
  end.

(** [path.unlink(missing_ok=True)]. *)
Definition unlink (p : path) : M tree unit := fun fs =>
  match locate fs p with
  | Err e => if is_FileNotFoundError e then (Ok tt, fs) else (Err e, fs)
  | Ok q => match node_at fs q with
            | None => (Ok tt, fs)
            | Some (Directory _) => (Err EISDIR, fs)
            | Some _ => (Ok tt, delete q fs)
            end
  end.

(** [shutil.rmtree]: the directory and everything below it. *)
Definition rmtree (p : path) : M tree unit := fun fs =>
  match locate fs p with
  | Err e => (Err e, fs)
  | Ok q => match node_at fs q with
            | Some (Directory _) =>
                (Ok tt, filter (fun kv => is_relative_to kv.1 q = false) fs)
            | Some _ => (Err ENOTDIR, fs)
            | None => (Err ENOENT, fs)
            end
  end.

(** [os.chmod] and [os.chown] without following a link. *)
Definition change_access (f : access -> access) (p : path) : M tree unit := fun fs =>
  match locate fs p with
  | Err e => (Err e, fs)
  | Ok q => match node_at fs q with
            | None => (Err ENOENT, fs)
            | Some (File c a) => (Ok tt, <[q := File c (f a)]> fs)
            | Some (Directory a) => (Ok tt, <[q := Directory (f a)]> fs)
            | Some (Symlink _) => (Ok tt, fs)
            end
  end.
Definition chmod (m : Z) : path -> M tree unit := change_access (fun a => Access m (owner a)).
Definition chown (uid gid : Z) : path -> M tree unit := change_access (fun a => Access (mode a) (uid, gid)).
End calls.
