(* ===== verification/FileFacts.v ===== *)
(** * Facts about the file system

    [tree_ok] is the shape of a tree: every node lies in a directory.  A path without
    links denotes itself ([resolve_self], [locate_self]); what [resolve] returns is such
    a path; creating directories does not change what it returns. *)
From stdpp Require Import gmap strings.
From S2P Require Import Prelude PyText Protocol Templates Files.
Open Scope string_scope.
Open Scope list_scope.

Record tree_ok (fs : tree) : Prop := {
  tk_root : fs !! [] = None;
  tk_parent : forall p n, fs !! p = Some n -> exists a, node_at fs (parent_of p) = Some (Directory a);
  tk_plain : forall p n, fs !! p = Some n -> ".." ∉ p
}.

Definition dir_at (fs : tree) (p : path) : Prop := exists a, node_at fs p = Some (Directory a).

(** ** Lists of parts *)

Lemma parent_of_snoc p c : parent_of (p ++ [c]) = p.
Proof. apply List.removelast_last. Qed.
Lemma name_of_snoc p c : name_of (p ++ [c]) = c.
Proof. apply List.last_last. Qed.
Lemma snoc_cases (p : path) : p = [] \/ exists q c, p = q ++ [c].
Proof. induction p as [|c q _] using rev_ind; eauto. Qed.
Lemma snoc_not_nil (p : path) c : p ++ [c] <> [].
Proof. by destruct p. Qed.

Lemma is_relative_to_spec p root : is_relative_to p root = true <-> exists q, p = root ++ q.
Proof.
  revert p. induction root as [|r root IH]; intros p; simpl; [split; [by intros _; exists p | done] |].
  destruct p as [|c p]; [split; [done | by intros [q [=]]] |].
  rewrite andb_true_iff, bool_decide_eq_true, IH. naive_solver.
Qed.

Lemma app_prefix_cases {A} (a b c d : list A) :
  a ++ b = c ++ d -> (exists e, c = a ++ e) \/ (exists e, a = c ++ e).
Proof.
  revert c. induction a as [|x a IH]; intros c; simpl; [eauto |].
  destruct c as [|y c]; simpl; [eauto |]. intros [= -> E].
  destruct (IH c E) as [[e ->]|[e ->]]; eauto.
Qed.

(** ** Directories *)

Lemma node_at_ne fs p : p <> [] -> node_at fs p = fs !! p.
Proof. by destruct p. Qed.

Lemma node_at_snoc fs p c : node_at fs (p ++ [c]) = fs !! (p ++ [c]).
Proof. apply node_at_ne, snoc_not_nil. Qed.

Lemma dir_root fs : dir_at fs [].
Proof. by eexists. Qed.

Lemma dir_parent fs p c : tree_ok fs -> dir_at fs (p ++ [c]) -> dir_at fs p.
Proof.
  intros T [a Ha]. rewrite node_at_snoc in Ha. apply (tk_parent _ T) in Ha.
  by rewrite parent_of_snoc in Ha.
Qed.

Lemma node_ancestor fs p q : tree_ok fs -> is_Some (node_at fs (p ++ q)) -> q <> [] -> dir_at fs p.
Proof.
  intros T. induction q as [|c q IH] using rev_ind; [done |]. intros [n Hn] _.
  rewrite app_assoc, node_at_snoc in Hn. destruct (tk_parent _ T _ _ Hn) as [a Ha].
  rewrite parent_of_snoc in Ha. destruct (decide (q = [])) as [->|Hq].
  - rewrite app_nil_r in Ha. by exists a.
  - apply IH; [by eexists | done].
Qed.

Lemma dir_prefix fs p q : tree_ok fs -> dir_at fs (p ++ q) -> dir_at fs p.
Proof.
  intros T [a Ha]. destruct (decide (q = [])) as [->|Hq]; [rewrite app_nil_r in Ha; by exists a |].
  eapply node_ancestor; [done | by eexists | done].
Qed.

Lemma dir_plain fs p : tree_ok fs -> dir_at fs p -> ".." ∉ p.
Proof.
  intros T [a Ha]. destruct (snoc_cases p) as [->|(q & c & ->)]; [apply not_elem_of_nil |].
  rewrite node_at_snoc in Ha. by eapply (tk_plain _ T).
Qed.

(** ** Resolution *)

Lemma walk_nil n fs s f cur : walk n fs s f cur [] = Ok cur.
Proof. by destruct n. Qed.

Lemma walk_up n fs s f cur rest : walk n fs s f cur (".." :: rest) = walk n fs s f (parent_of cur) rest.
Proof. by destruct n. Qed.

Lemma walk_cons n fs s f cur c rest : c <> ".." ->
  walk n fs s f cur (c :: rest) =
  match node_at fs (cur ++ [c]) with
  | None => if s then Err ENOENT else walk n fs s f (cur ++ [c]) rest
  | Some (Directory _) => walk n fs s f (cur ++ [c]) rest
  | Some (File _ _) =>
      match rest with
      | [] => Ok (cur ++ [c])
      | _ => if s then Err ENOTDIR else walk n fs s f (cur ++ [c]) rest
      end
  | Some (Symlink target) =>
      if negb f && nilb rest then Ok (cur ++ [c])
      else match n with
           | O => Err ELOOP
           | S m => walk m fs s f (if is_absolute target then [] else cur) (parts_of target ++ rest)
           end
  end.
Proof. intros Hc. destruct n; cbn [walk]; rewrite bool_decide_false by done; reflexivity. Qed.

(** Induction along the steps of a walk. *)
Lemma walk_ind (fs : tree) (Q : nat -> path -> path -> Prop) :
  (forall n cur, Q n cur []) ->
  (forall n cur rest, Q n (parent_of cur) rest -> Q n cur (".." :: rest)) ->
  (forall n cur c rest, c <> ".." -> Q n (cur ++ [c]) rest ->
     (forall m target, n = S m -> node_at fs (cur ++ [c]) = Some (Symlink target) ->
        Q m (if is_absolute target then [] else cur) (parts_of target ++ rest)) ->
     Q n cur (c :: rest)) ->
  forall n cur todo, Q n cur todo.
Proof.
  intros H0 Hup Hc. induction n as [|n IHn]; intros cur todo; revert cur;
    induction todo as [|c rest IH]; intros cur; try apply H0;
    (destruct (decide (c = "..")) as [->|Hne]; [by apply Hup |]); apply Hc; try done.
  intros m target [= <-] _. apply IHn.
Qed.

(** Directories are walked through. *)
Lemma walk_dirs n fs s f cur todo rest : tree_ok fs -> dir_at fs (cur ++ todo) ->
  walk n fs s f cur (todo ++ rest) = walk n fs s f (cur ++ todo) rest.
Proof.
  intros T Hd. assert (".." ∉ todo) as Hp.
  { intros Hi. by apply (dir_plain _ _ T Hd), elem_of_app; right. }
  revert cur Hd. induction todo as [|c todo IH]; intros cur Hd; [by rewrite app_nil_r |].
  apply not_elem_of_cons in Hp as [Hc Hp]. cbn [app]. rewrite walk_cons by done.
  assert (dir_at fs (cur ++ [c])) as [a ->].
  { apply (dir_prefix fs _ todo T). by rewrite <- app_assoc. }
  rewrite IH; [by rewrite <- app_assoc | done | by rewrite <- app_assoc].
Qed.

Lemma resolve_self strict fs p : tree_ok fs -> dir_at fs p -> resolve strict fs p = Ok p.
Proof.
  intros T Hd. unfold resolve. rewrite <- (app_nil_r p) at 1. rewrite walk_dirs by done. apply walk_nil.
Qed.

Lemma locate_self fs p c : tree_ok fs -> dir_at fs p -> c <> ".." -> locate fs (p ++ [c]) = Ok (p ++ [c]).
Proof.
  intros T Hd Hc. unfold locate. rewrite name_of_snoc, parent_of_snoc, bool_decide_false by done.
  assert (nilb (p ++ [c]) = false) as -> by by destruct p. cbn [orb]. rewrite resolve_self by done. cbn [rbind].
  by destruct Hd as [a ->].
Qed.

Lemma lstat_self fs p c : tree_ok fs -> dir_at fs p -> c <> ".." ->
  lstat fs (p ++ [c]) = match fs !! (p ++ [c]) with Some n => Ok n | None => Err ENOENT end.
Proof. intros. unfold lstat. rewrite locate_self by done. cbn [rbind]. by rewrite node_at_snoc. Qed.

(** What a strict walk finds a lax one finds. *)
Lemma walk_strict_lax n fs f cur todo q :
  walk n fs true f cur todo = Ok q -> walk n fs false f cur todo = Ok q.
Proof.
  revert q. revert n cur todo. apply (walk_ind fs (fun n cur todo => forall q,
    walk n fs true f cur todo = Ok q -> walk n fs false f cur todo = Ok q)).
  - intros n cur q. by rewrite !walk_nil.
  - intros n cur rest IH q. rewrite !walk_up. apply IH.
  - intros n cur c rest Hc IH IHl q. rewrite !walk_cons by done.
    destruct (node_at fs (cur ++ [c])) as [[| |target]|] eqn:E; [by destruct rest | apply IH | | done].
    destruct (negb f && nilb rest); [done |]. destruct n as [|n]; [done |]. by apply (IHl n target).
Qed.

(** What a strict walk found it finds in a tree with more nodes. *)
Definition keeps_nodes (fs fs' : tree) : Prop := forall q n, fs !! q = Some n -> fs' !! q = Some n.

Lemma node_at_keeps fs fs' p n : keeps_nodes fs fs' -> node_at fs p = Some n -> node_at fs' p = Some n.
Proof. intros K. destruct p as [|c p]; [done | apply K]. Qed.

Lemma walk_keeps fs' n fs f cur todo q : keeps_nodes fs fs' ->
  walk n fs true f cur todo = Ok q -> walk n fs' true f cur todo = Ok q.
Proof.
  intros K. revert q. revert n cur todo. apply (walk_ind fs (fun n cur todo => forall q,
    walk n fs true f cur todo = Ok q -> walk n fs' true f cur todo = Ok q)).
  - intros n cur q. by rewrite !walk_nil.
  - intros n cur rest IH q. rewrite !walk_up. apply IH.
  - intros n cur c rest Hc IH IHl q. rewrite !walk_cons by done.
    destruct (node_at fs (cur ++ [c])) as [x|] eqn:E; [| done]. rewrite (node_at_keeps _ _ _ _ K E).
    destruct x as [| |target]; [done | apply IH |].
    destruct (negb f && nilb rest); [done |]. destruct n as [|n]; [done |]. by apply (IHl n target).
Qed.

Lemma stat_keeps fs fs' p n : keeps_nodes fs fs' -> stat fs p = Ok n -> stat fs' p = Ok n.
Proof.
  intros K. unfold stat, resolve. intros (q & Hq & E)%rbind_Ok. rewrite (walk_keeps _ _ _ _ _ _ _ K Hq). cbn [rbind].
  destruct (node_at fs q) as [x|] eqn:En; [| done]. by rewrite (node_at_keeps _ _ _ _ K En).
Qed.

(** More links allowed, same answer. *)
Lemma walk_more n m fs s f cur todo q : n <= m ->
  walk n fs s f cur todo = Ok q -> walk m fs s f cur todo = Ok q.
Proof.
  revert m q. revert n cur todo. apply (walk_ind fs (fun n cur todo => forall m q, n <= m ->
    walk n fs s f cur todo = Ok q -> walk m fs s f cur todo = Ok q)).
  - intros n cur m q _. by rewrite !walk_nil.
  - intros n cur rest IH m q Hm. rewrite !walk_up. by apply IH.
  - intros n cur c rest Hc IH IHl m q Hm. rewrite !walk_cons by done.
    destruct (node_at fs (cur ++ [c])) as [[| |target]|] eqn:E.
    + destruct rest; [done |]. destruct s; [done |]. by apply IH.
    + by apply IH.
    + destruct (negb f && nilb rest); [done |]. destruct n as [|n]; [done |].
      destruct m as [|m]; [lia |]. apply (IHl n target); [done | done | lia].
    + destruct s; [done |]. by apply IH.
Qed.

(** A lax walk passes through the end of every prefix. *)
Lemma walk_app n fs cur pre suf q :
  walk n fs false true cur (pre ++ suf) = Ok q ->
  exists r, walk n fs false true cur pre = Ok r /\ walk n fs false true r suf = Ok q.
Proof.
  revert q. revert n cur pre. apply (walk_ind fs (fun n cur pre => forall q,
    walk n fs false true cur (pre ++ suf) = Ok q ->
    exists r, walk n fs false true cur pre = Ok r /\ walk n fs false true r suf = Ok q)).
  - intros n cur q. rewrite walk_nil. eauto.
  - intros n cur rest IH q. cbn [app]. rewrite !walk_up. apply IH.
  - intros n cur c rest Hc IH IHl q. cbn [app]. rewrite !walk_cons by done. cbn [negb andb].
    destruct (node_at fs (cur ++ [c])) as [[| |target]|] eqn:E; [| apply IH | | apply IH].
    + intros Hw. assert (walk n fs false true (cur ++ [c]) (rest ++ suf) = Ok q) as Hw'.
      { destruct rest, suf; try done. all: by rewrite walk_nil in *. }
      destruct (IH q Hw') as (r & Hr & Hs). exists r. split; [| done]. destruct rest; [| done].
      by rewrite walk_nil in Hr.
    + destruct n as [|n]; [done |]. rewrite app_assoc. intros Hw.
      destruct (IHl n target eq_refl eq_refl q Hw) as (r & Hr & Hs). exists r. split; [done |].
      eapply walk_more; [| exact Hs]. lia.
Qed.

(** Below a missing node nothing is a link. *)
Lemma walk_missing n fs cur todo : tree_ok fs -> node_at fs cur = None -> ".." ∉ todo ->
  walk n fs false true cur todo = Ok (cur ++ todo).
Proof.
  intros T. revert cur. induction todo as [|c todo IH]; intros cur Hn Hp; [by rewrite walk_nil, app_nil_r |].
  apply not_elem_of_cons in Hp as [Hc Hp]. rewrite walk_cons by done.
  assert (node_at fs (cur ++ [c]) = None) as E.
  { rewrite node_at_snoc. apply eq_None_not_Some. intros [x Hx]. apply (tk_parent _ T) in Hx as [a Ha].
    rewrite parent_of_snoc in Ha. congruence. }
  rewrite E, IH by done. by rewrite <- app_assoc.
Qed.

(** ** Paths without links *)

Definition settled (fs : tree) (p : path) : Prop :=
  ".." ∉ p /\ forall q r t, p = q ++ r -> node_at fs q <> Some (Symlink t).

Lemma settled_root fs : settled fs [].
Proof.
  split; [apply not_elem_of_nil |]. intros q r t E. symmetry in E. apply app_eq_nil in E as [-> _]. done.
Qed.

Lemma settled_prefix fs p q : settled fs (p ++ q) -> settled fs p.
Proof.
  intros [Hp Hs]. split; [intros Hi; apply Hp, elem_of_app; by left |].
  intros p1 r t ->. apply (Hs _ (r ++ q)). by rewrite app_assoc.
Qed.

Lemma settled_snoc fs p c : settled fs p -> c <> ".." ->
  (forall t, node_at fs (p ++ [c]) <> Some (Symlink t)) -> settled fs (p ++ [c]).
Proof.
  intros [Hp Hs] Hc Hn. split; [rewrite elem_of_app, list_elem_of_singleton; naive_solver |].
  intros q r t E. destruct (snoc_cases r) as [->|(r' & x & ->)]; [rewrite app_nil_r in E; subst; apply Hn |].
  rewrite app_assoc in E. apply app_inj_tail in E as [-> _]. by eapply Hs.
Qed.

Lemma settled_parent fs p : settled fs p -> settled fs (parent_of p).
Proof.
  destruct (snoc_cases p) as [->|(q & c & ->)]; [done |]. rewrite parent_of_snoc. apply settled_prefix.
Qed.

Lemma settled_dir fs p : tree_ok fs -> dir_at fs p -> settled fs p.
Proof.
  intros T Hd. split; [by apply dir_plain with fs |]. intros q r t ->.
  destruct (dir_prefix fs q r T Hd) as [a ->]. done.
Qed.

(** [resolve] returns such a path, and leaves it alone. *)
Lemma walk_settled_result n fs cur todo q :
  settled fs cur -> walk n fs false true cur todo = Ok q -> settled fs q.
Proof.
  revert q. revert n cur todo. apply (walk_ind fs (fun n cur todo => forall q,
    settled fs cur -> walk n fs false true cur todo = Ok q -> settled fs q)).
  - intros n cur q Hs. rewrite walk_nil. by intros [= <-].
  - intros n cur rest IH q Hs. rewrite walk_up. apply IH. by apply settled_parent.
  - intros n cur c rest Hc IH IHl q Hs. rewrite walk_cons by done. cbn [negb andb].
    destruct (node_at fs (cur ++ [c])) as [[| |target]|] eqn:E.
    + assert (settled fs (cur ++ [c])) as Hs' by (apply settled_snoc; [done | done | by rewrite E]).
      destruct rest; [by intros [= <-] | by apply IH].
    + apply IH, settled_snoc; [done | done | by rewrite E].
    + destruct n as [|n]; [done |]. apply (IHl n target); [done | done |].
      destruct (is_absolute target); [apply settled_root | done].
    + apply IH, settled_snoc; [done | done | by rewrite E].
Qed.

Lemma resolve_settled_result fs p q : resolve false fs p = Ok q -> settled fs q.
Proof. apply walk_settled_result, settled_root. Qed.

Lemma resolve_settled fs p : settled fs p -> resolve false fs p = Ok p.
Proof.
  unfold resolve. intros Hs. cut (forall n cur todo, settled fs (cur ++ todo) ->
    walk n fs false true cur todo = Ok (cur ++ todo)); [intros Hw; apply (Hw MAX_LINKS [] p Hs) |].
  clear p Hs. intros n cur todo. revert cur. induction todo as [|c todo IH]; intros cur Hs;
    [by rewrite walk_nil, app_nil_r |].
  destruct Hs as [Hp Hs]. rewrite walk_cons.
  2: { intros ->. apply Hp. rewrite elem_of_app, elem_of_cons. auto. }
  assert (walk n fs false true (cur ++ [c]) todo = Ok (cur ++ c :: todo)) as IH'.
  { rewrite IH; [by rewrite <- app_assoc |]. rewrite <- app_assoc. by split. }
  destruct (node_at fs (cur ++ [c])) as [[| |target]|] eqn:E; [| done | | done].
  - destruct todo; done.
  - exfalso. apply (Hs (cur ++ [c]) todo target); [by rewrite <- app_assoc | done].
Qed.

Lemma resolve_strict_lax fs p q : resolve true fs p = Ok q -> resolve false fs p = Ok q.
Proof. apply walk_strict_lax. Qed.

Lemma Path_resolve_Ok strict fs p q : Path_resolve strict fs p = Ok q -> resolve strict fs p = Ok q.
Proof. unfold Path_resolve. destruct (resolve strict fs p); [done |]. by case_bool_decide. Qed.

Lemma Path_resolve_settled fs p q : Path_resolve false fs p = Ok q -> settled fs q.
Proof. intros Hq%Path_resolve_Ok. by eapply resolve_settled_result. Qed.

(** A directory without links in it. *)
Definition linkless (root : path) (fs : tree) : Prop :=
  settled fs root /\ forall q t, fs !! (root ++ q) <> Some (Symlink t).

Lemma linkless_settled root fs q : linkless root fs -> ".." ∉ q -> settled fs (root ++ q).
Proof.
  intros [Hr Hn] Hq. induction q as [|c q IH] using rev_ind; [by rewrite app_nil_r |].
  rewrite elem_of_app, list_elem_of_singleton in Hq. rewrite app_assoc. apply settled_snoc; [apply IH; tauto | naive_solver |].
  intros t. rewrite node_at_snoc, <- app_assoc. apply Hn.
Qed.

(** Both computed for a concrete tree. *)
Definition linkless_b (root : path) (fs : tree) : bool :=
  bool_decide (resolve false fs root = Ok root)
  && forallb (fun kv => match kv.2 with Symlink _ => negb (is_relative_to kv.1 root) | _ => true end) (map_to_list fs).
Lemma linkless_b_ok root fs : linkless_b root fs = true -> linkless root fs.
Proof.
  unfold linkless_b. rewrite andb_true_iff, bool_decide_eq_true, forallb_forall. intros [Hr Hall].
  split; [by eapply resolve_settled_result |]. intros q t Hq.
  apply elem_of_map_to_list, list_elem_of_In, Hall in Hq. cbn in Hq. apply negb_true_iff, not_true_iff_false in Hq.
  apply Hq, is_relative_to_spec. by exists q.
Qed.

Definition vacant_b (root : path) (fs : tree) : bool :=
  forallb (fun kv => negb (is_relative_to kv.1 root)) (map_to_list fs).
Lemma vacant_b_ok root fs q : vacant_b root fs = true -> fs !! (root ++ q) = None.
Proof.
  unfold vacant_b. rewrite forallb_forall. intros Hall. apply eq_None_not_Some. intros [n Hq].
  apply elem_of_map_to_list, list_elem_of_In, Hall in Hq. cbn in Hq. apply negb_true_iff, not_true_iff_false in Hq.
  apply Hq, is_relative_to_spec. by exists q.
Qed.

(** [is_dir] speaks of the place the path resolves to. *)
Lemma is_dir_resolved fs p q : resolve false fs p = Ok q -> is_dir fs p = true -> dir_at fs q.
Proof.
  unfold is_dir, stat. destruct (resolve true fs p) as [q'|e] eqn:E; [| done].
  apply resolve_strict_lax in E. rewrite E. intros [= ->]. cbn [rbind].
  destruct (node_at fs q) as [[| |]|] eqn:En; [done | | done..]. intros _. by eexists.
Qed.

Lemma is_dir_self fs p : tree_ok fs -> dir_at fs p -> is_dir fs p = true.
Proof. intros T Hd. unfold is_dir, stat. rewrite resolve_self by done. cbn [rbind]. by destruct Hd as [a ->]. Qed.

(** Well-formedness of a concrete tree can be computed. *)
Definition well_formed (fs : tree) : bool :=
  forallb (fun kv => negb (nilb kv.1)
                     && match node_at fs (parent_of kv.1) with Some (Directory _) => true | _ => false end
                     && negb (existsb (fun c => bool_decide (c = "..")) kv.1)) (map_to_list fs).

Lemma well_formed_ok fs : well_formed fs = true -> tree_ok fs.
Proof.
  unfold well_formed. rewrite forallb_forall. intros Hall.
  assert (forall p n, fs !! p = Some n -> p <> [] /\ dir_at fs (parent_of p) /\ ".." ∉ p) as Hf.
  { intros p n Hp. apply elem_of_map_to_list, list_elem_of_In, Hall in Hp. cbn [fst] in Hp.
    apply andb_true_iff in Hp as [Hp Hd]. apply andb_true_iff in Hp as [Hn Hdir]. split_and!.
    - by intros ->.
    - destruct (node_at fs (parent_of p)) as [[|a|]|] eqn:E; try done. by exists a.
    - intros Hin. apply negb_true_iff, not_true_iff_false in Hd. apply Hd, existsb_exists. exists "..".
      split; [by apply list_elem_of_In | done]. }
  split; [| intros p n Hp; by destruct (Hf p n Hp) as (_ & ? & _) | intros p n Hp; by destruct (Hf p n Hp) as (_ & _ & ?)].
  apply eq_None_not_Some. intros [n Hn]. by destruct (Hf [] n Hn).
Qed.

(** ** Well-formed trees stay so *)

Lemma tree_ok_empty : tree_ok ∅.
Proof. by split. Qed.

Lemma node_at_insert fs p n q : p <> [] -> node_at (<[p:=n]> fs) q = if decide (p = q) then Some n else node_at fs q.
Proof.
  intros Hp. destruct q as [|c q]; [by rewrite decide_False |]. cbn [node_at].
  rewrite lookup_insert. repeat case_decide; naive_solver.
Qed.

Lemma tree_ok_insert fs d c n : tree_ok fs -> dir_at fs d -> c <> ".." ->
  (dir_at fs (d ++ [c]) -> exists a, n = Directory a) -> tree_ok (<[d ++ [c] := n]> fs).
Proof.
  intros T Hd Hc Hn. pose proof (snoc_not_nil d c) as Hne. split.
  - rewrite lookup_insert_ne by done. apply T.
  - intros p m Hm. rewrite node_at_insert by done. case_decide as Hp.
    + apply lookup_insert_Some in Hm as [[<- ->]|[_ Hm]].
      * rewrite parent_of_snoc in Hp. by apply (f_equal length) in Hp; rewrite length_app in Hp; simpl in Hp; lia.
      * apply (tk_parent _ T) in Hm as [a Ha]. rewrite <- Hp in Ha. destruct Hn as [a' ->]; [by exists a | by exists a'].
    + apply lookup_insert_Some in Hm as [[<- ->]|[_ Hm]]; [by rewrite parent_of_snoc | by eapply tk_parent].
  - intros p m [[<- ->]|[_ Hm]]%lookup_insert_Some; [| by eapply tk_plain].
    pose proof (dir_plain _ _ T Hd). rewrite elem_of_app, list_elem_of_singleton. naive_solver.
Qed.

Lemma tree_ok_delete fs p : tree_ok fs -> ~ dir_at fs p -> tree_ok (delete p fs).
Proof.
  intros T Hd. split.
  - rewrite lookup_delete_None. right. apply T.
  - intros q n [Hq Hn]%lookup_delete_Some. destruct (tk_parent _ T _ _ Hn) as [a Ha]. exists a.
    destruct (parent_of q) as [|c r] eqn:E; [done |]. cbn [node_at] in *. apply lookup_delete_Some. split; [| done].
    intros ->. apply Hd. by exists a.
  - intros q n [_ Hn]%lookup_delete_Some. by eapply tk_plain.
Qed.

(** ** Creating directories

    What is created lies on the way to the place [P] the path resolves to, where
    nothing was; and every path still resolves as before. *)

Record dirs_added (fs fs' : tree) (P : path) : Prop := {
  da_ok : tree_ok fs';
  da_nodes : forall q, fs' !! q = fs !! q
    \/ (fs !! q = None /\ dir_at fs' q /\ exists s, P = q ++ s);
  da_walk : forall n f cur todo, walk n fs' false f cur todo = walk n fs false f cur todo
}.

Lemma dirs_added_refl fs P : tree_ok fs -> dirs_added fs fs P.
Proof. intros T. split; auto. Qed.

Lemma dirs_added_dir fs fs' P q : dirs_added fs fs' P -> dir_at fs q -> dir_at fs' q.
Proof.
  intros D [a Ha]. destruct q as [|c q]; [by eexists |]. cbn [node_at] in Ha.
  destruct (da_nodes _ _ _ D (c :: q)) as [E|[E _]]; [exists a; cbn [node_at]; congruence | congruence].
Qed.

Lemma dirs_added_trans fs fs1 fs2 P :
  dirs_added fs fs1 P -> dirs_added fs1 fs2 P -> dirs_added fs fs2 P.
Proof.
  intros D1 D2. split; [apply D2 | | intros; by rewrite (da_walk _ _ _ D2), (da_walk _ _ _ D1)].
  intros q. destruct (da_nodes _ _ _ D2 q) as [E2|(E2 & Hd2 & Hp2)], (da_nodes _ _ _ D1 q) as [E1|(E1 & Hd1 & Hp1)].
  - left. congruence.
  - right. split; [done |]. split; [by eapply dirs_added_dir | done].
  - right. split; [congruence | done].
  - by right.
Qed.

Lemma walk_mkdir n fs s q a f cur todo : s = false -> q <> [] -> fs !! q = None ->
  walk n (<[q := Directory a]> fs) s f cur todo = walk n fs s f cur todo.
Proof.
  intros -> Hq Hn. revert n cur todo. apply (walk_ind fs (fun n cur todo =>
    walk n (<[q := Directory a]> fs) false f cur todo = walk n fs false f cur todo)).
  - intros n cur. by rewrite !walk_nil.
  - intros n cur rest IH. by rewrite !walk_up.
  - intros n cur c rest Hc IH IHl. rewrite !walk_cons by done. rewrite node_at_insert by done.
    case_decide as E; [subst q; rewrite node_at_snoc, Hn; apply IH |].
    destruct (node_at fs (cur ++ [c])) as [[| |target]|]; [by destruct rest | done | | done].
    destruct (negb f && nilb rest); [done |]. destruct n as [|n]; [done |]. by apply (IHl n target).
Qed.

Lemma dirs_added_insert fs d c a P : tree_ok fs -> dir_at fs d -> c <> ".." ->
  fs !! (d ++ [c]) = None -> (exists s, P = (d ++ [c]) ++ s) ->
  dirs_added fs (<[d ++ [c] := Directory a]> fs) P.
Proof.
  intros T Hd Hc Hn Hp. split.
  - apply tree_ok_insert; [done..|]. intros _. by exists a.
  - intros q. destruct (decide (q = d ++ [c])) as [->|Hq]; [right | left; by rewrite lookup_insert_ne].
    split; [done |]. split; [| done]. exists a. rewrite node_at_insert by apply snoc_not_nil. by rewrite decide_True.
  - intros n f cur todo. apply walk_mkdir; [done | apply snoc_not_nil | done].
Qed.

(** Nothing is below a missing node. *)
Lemma missing_below fs q s : tree_ok fs -> q <> [] -> fs !! q = None -> node_at fs (q ++ s) = None.
Proof.
  intros T Hq Hn. apply eq_None_not_Some. intros Hs. destruct (decide (s = [])) as [->|Hne].
  - rewrite app_nil_r, node_at_ne, Hn in Hs by done. by destruct Hs.
  - destruct (node_ancestor _ _ _ T Hs Hne) as [a Ha]. rewrite node_at_ne in Ha by done. congruence.
Qed.

Section makedirs.
  Context `{Process}.

(** [os.mkdir p], [P] being where [p] leads. *)
Lemma os_mkdir_spec m fs p P r fs' :
  tree_ok fs -> ".." ∉ p -> resolve false fs p = Ok P -> os_mkdir m p fs = (r, fs') ->
  dirs_added fs fs' P /\ match r with Ok _ => dir_at fs' P | Err _ => fs' = fs end.
Proof.
  intros T Hp HP. unfold os_mkdir. destruct (locate fs p) as [q|e] eqn:El.
  2: { intros [= <- <-]. split; [by apply dirs_added_refl | done]. }
  destruct (node_at fs q) as [n|] eqn:En.
  { intros [= <- <-]. split; [by apply dirs_added_refl | done]. }
  intros [= <- <-]. unfold locate in El.
  destruct (snoc_cases p) as [->|(pp & c & ->)].
  { cbn [nilb orb] in El. rewrite resolve_self in El by (done || apply dir_root). injection El as <-. done. }
  assert (c <> "..") as Hc by (intros ->; apply Hp; rewrite elem_of_app, list_elem_of_singleton; auto).
  rewrite name_of_snoc, parent_of_snoc, bool_decide_false in El by done.
  assert (nilb (pp ++ [c]) = false) as Hnil by by destruct pp. rewrite Hnil in El. cbn [orb] in El.
  destruct (resolve true fs pp) as [d|e] eqn:Ed; [| done]. cbn [rbind] in El.
  destruct (node_at fs d) as [[| a |]|] eqn:Edn; try done. injection El as <-.
  apply resolve_strict_lax in Ed. unfold resolve in HP. apply walk_app in HP as (r & Hr & HP).
  unfold resolve in Ed. rewrite Ed in Hr. injection Hr as <-.
  rewrite walk_cons, En in HP by done. rewrite walk_nil in HP. injection HP as <-.
  rewrite node_at_snoc in En. split.
  - apply dirs_added_insert; [done | by exists a | done | done | exists []; by rewrite app_nil_r].
  - exists (created m). rewrite node_at_insert by apply snoc_not_nil. by rewrite decide_True.
Qed.

Lemma mkdir_spec m fs p P r fs' :
  tree_ok fs -> ".." ∉ p -> resolve false fs p = Ok P -> mkdir m true p fs = (r, fs') ->
  dirs_added fs fs' P /\ match r with Ok _ => dir_at fs' P | Err _ => fs' = fs end.
Proof.
  intros T Hp HP. unfold mkdir, try_except. destruct (os_mkdir m p fs) as [[[]|e] fs1] eqn:E;
    apply (os_mkdir_spec m fs p P) in E as [D Hr]; try done; [intros [= <- <-]; done |]. subst fs1.
  destruct (is_OSError e); [| intros [= <- <-]; done]. unfold bind, get, ret, raise. cbn [negb orb].
  destruct (is_dir fs p) eqn:Ei; intros [= <- <-]; [| done].
  split; [done |]. by eapply is_dir_resolved.
Qed.

Lemma mkdir_parents_spec n fs p P r fs' :
  tree_ok fs -> ".." ∉ p -> resolve false fs p = Ok P -> mkdir_parents n p fs = (r, fs') ->
  dirs_added fs fs' P /\ match r with Ok _ => dir_at fs' P | Err _ => True end.
Proof.
  intros T. revert p P r fs'. induction n as [|n IH]; intros p P r fs' Hp HP; cbn [mkdir_parents];
    unfold try_except; destruct (os_mkdir 511 p fs) as [[[]|e] fs1] eqn:E;
    apply (os_mkdir_spec 511 fs p P) in E as [D Hr]; try done;
    try (intros [= <- <-]; done); subst fs1;
    (destruct (is_OSError e); [| intros [= <- <-]; done]);
    (destruct (is_FileNotFoundError e);
     [| unfold bind, get; cbn beta iota; destruct (is_dir fs p) eqn:Ei; unfold ret, raise; intros [= <- <-];
        [split; [done | by eapply is_dir_resolved] | done]]).
  { unfold raise. by intros [= <- <-]. }
  destruct (snoc_cases p) as [->|(pp & c & ->)]; [cbn [nilb]; unfold raise; by intros [= <- <-] |].
  assert (nilb (pp ++ [c]) = false) as -> by by destruct pp. rewrite parent_of_snoc.
  apply walk_app in HP as Hw. destruct Hw as (R & HR & Hc).
  assert (".." ∉ pp) as Hpp by (intros ?; apply Hp, elem_of_app; by left).
  assert (c <> "..") as Hcc by (intros ->; apply Hp; rewrite elem_of_app, list_elem_of_singleton; auto).
  unfold bind. destruct (mkdir_parents n pp fs) as [r1 fs1] eqn:E1.
  destruct (IH pp R r1 fs1 Hpp HR E1) as [D1 Hr1].
  assert (dirs_added fs fs1 P) as D1'.
  { split; [apply D1 | | apply D1]. intros q. destruct (da_nodes _ _ _ D1 q) as [?|(Hq & Hd & s & Es)]; [by left |].
    right. split; [done |]. split; [done |].
    destruct q as [|x q]; [by eexists |]. pose proof (missing_below fs (x :: q) s T) as Hm.
    rewrite <- Es in Hm. rewrite walk_missing in Hc; [| done | by apply Hm | by rewrite list_elem_of_singleton].
    injection Hc as <-. exists (s ++ [c]). rewrite Es. by rewrite app_assoc. }
  destruct r1 as [[]|e1]; [| intros [= <- <-]; done]. intros E2.
  destruct (mkdir_spec 511 fs1 (pp ++ [c]) P r fs') as [D2 Hr2];
    [apply D1' | done | by rewrite <- HP; apply D1' | done |].
  split; [by eapply dirs_added_trans | by destruct r].
Qed.

Lemma makedirs_spec fs p P r fs' :
  tree_ok fs -> ".." ∉ p -> resolve false fs p = Ok P -> makedirs p fs = (r, fs') ->
  dirs_added fs fs' P /\ match r with Ok _ => dir_at fs' P | Err _ => True end.
Proof. apply mkdir_parents_spec. Qed.

(** On an existing directory nothing happens. *)
Lemma makedirs_existing fs p : tree_ok fs -> dir_at fs p -> makedirs p fs = (Ok tt, fs).
Proof.
  intros T Hd. assert (os_mkdir 511 p fs = (Err EEXIST, fs)) as E.
  { unfold os_mkdir. assert (locate fs p = Ok p) as ->.
    { destruct (snoc_cases p) as [->|(q & c & ->)]; [unfold locate; cbn [nilb orb]; by apply resolve_self |].
      apply locate_self; [done | by apply (dir_parent fs q c) |].
      pose proof (dir_plain _ _ T Hd) as Hp. intros ->. apply Hp. rewrite elem_of_app, list_elem_of_singleton. auto. }
    by destruct Hd as [a ->]. }
  unfold makedirs. destruct (length p); cbn [mkdir_parents]; unfold try_except; rewrite E;
    cbn [is_OSError]; unfold is_FileNotFoundError; rewrite bool_decide_false by done;
    unfold bind, get; cbn beta iota; by rewrite is_dir_self.
Qed.
End makedirs.

(** ** Changes below a directory *)

(** Nothing outside [root] changed. *)
Definition outside_same (root : path) (fs fs' : tree) : Prop :=
  forall q, is_relative_to q root = false -> fs' !! q = fs !! q.

Lemma outside_snoc root d c q : is_relative_to q root = false -> (exists s, d = root ++ s) -> q <> d ++ [c].
Proof.
  intros Hq [s ->] ->. rewrite <- app_assoc in Hq. apply not_true_iff_false in Hq. apply Hq, is_relative_to_spec. eauto.
Qed.

Lemma outside_same_refl root fs : outside_same root fs fs.
Proof. done. Qed.

Lemma outside_same_trans root fs fs1 fs2 : outside_same root fs fs1 -> outside_same root fs1 fs2 -> outside_same root fs fs2.
Proof. intros H1 H2 q Hq. by rewrite H2, H1. Qed.

Lemma outside_insert root d c n fs : (exists s, d = root ++ s) -> outside_same root fs (<[d ++ [c] := n]> fs).
Proof. intros Hd q Hq. rewrite lookup_insert_ne; [done |]. intros <-. by eapply outside_snoc. Qed.

(** A fresh node keeps the tree well formed and every directory in place. *)
Lemma fresh_insert fs d c n : tree_ok fs -> dir_at fs d -> c <> ".." -> fs !! (d ++ [c]) = None ->
  tree_ok (<[d ++ [c] := n]> fs) /\ (forall q, dir_at fs q -> dir_at (<[d ++ [c] := n]> fs) q)
  /\ forall q x, fs !! q = Some x -> <[d ++ [c] := n]> fs !! q = Some x.
Proof.
  intros T Hd Hc Hn. assert (forall q x, fs !! q = Some x -> <[d ++ [c] := n]> fs !! q = Some x) as Hk.
  { intros q x Hx. rewrite lookup_insert_ne; [done |]. intros <-. congruence. }
  split_and!; [| | done].
  - apply tree_ok_insert; [done..|]. intros [a Ha]. rewrite node_at_snoc in Ha. congruence.
  - intros q [a Ha]. exists a. destruct q as [|x q]; [done |]. by apply Hk.
Qed.

(** [change_access] on a known node. *)
Lemma change_access_self f fs d c : tree_ok fs -> dir_at fs d -> c <> ".." ->
  change_access f (d ++ [c]) fs
  = match fs !! (d ++ [c]) with
    | None => (Err ENOENT, fs)
    | Some (File x a) => (Ok tt, <[d ++ [c] := File x (f a)]> fs)
    | Some (Directory a) => (Ok tt, <[d ++ [c] := Directory (f a)]> fs)
    | Some (Symlink _) => (Ok tt, fs)
    end.
Proof. intros T Hd Hc. unfold change_access. by rewrite locate_self, node_at_snoc. Qed.

(** What is left of a tree without [p] and what is below it. *)
Definition without (p : path) (fs : tree) : tree := filter (fun kv => is_relative_to kv.1 p = false) fs.

Lemma without_lookup p fs q : without p fs !! q = if is_relative_to q p then None else fs !! q.
Proof.
  unfold without. destruct (is_relative_to q p) eqn:E.
  - apply map_lookup_filter_None_2. right. intros x _. cbn. congruence.
  - destruct (fs !! q) as [x|] eqn:Ex; [by apply map_lookup_filter_Some |]. apply map_lookup_filter_None. by left.
Qed.

Lemma is_relative_snoc q c p : is_relative_to q p = true -> is_relative_to (q ++ [c]) p = true.
Proof. rewrite !is_relative_to_spec. intros [x ->]. exists (x ++ [c]). by rewrite app_assoc. Qed.

Lemma without_dir p fs q : is_relative_to q p = false -> dir_at fs q -> dir_at (without p fs) q.
Proof. intros Hq [a Ha]. exists a. destruct q as [|c q]; [done |]. cbn [node_at] in *. by rewrite without_lookup, Hq. Qed.

Lemma without_ok p fs : tree_ok fs -> tree_ok (without p fs).
Proof.
  intros T. split.
  - rewrite without_lookup. destruct (is_relative_to [] p); [done | apply T].
  - intros q n. rewrite without_lookup. destruct (is_relative_to q p) eqn:E; [done |]. intros Hn.
    apply (without_dir p fs (parent_of q)); [| by apply (tk_parent _ T _ _ Hn)].
    destruct (snoc_cases q) as [->|(r & c & ->)]; [done |]. rewrite parent_of_snoc.
    destruct (is_relative_to r p) eqn:Er; [| done]. by rewrite is_relative_snoc in E.
  - intros q n. rewrite without_lookup. destruct (is_relative_to q p); [done |]. apply T.
Qed.

(** [rmtree] of a directory, and of one made since. *)
Lemma rmtree_self fs d c : tree_ok fs -> dir_at fs (d ++ [c]) ->
  rmtree (d ++ [c]) fs = (Ok tt, without (d ++ [c]) fs).
Proof.
  intros T Hd. assert (c <> "..") as Hc.
  { intros ->. apply (dir_plain _ _ T Hd). rewrite elem_of_app, list_elem_of_singleton. auto. }
  unfold rmtree. rewrite locate_self by (done || by eapply dir_parent). by destruct Hd as [a ->].
Qed.

Lemma rmtree_restores fs fs1 d c : tree_ok fs -> fs !! (d ++ [c]) = None -> tree_ok fs1 ->
  outside_same (d ++ [c]) fs fs1 -> dir_at fs1 (d ++ [c]) -> rmtree (d ++ [c]) fs1 = (Ok tt, fs).
Proof.
  intros T Hn T1 O Hd. rewrite rmtree_self by done. f_equal. apply map_eq. intros q. rewrite without_lookup.
  destruct (is_relative_to q (d ++ [c])) eqn:E; [| by apply O].
  apply is_relative_to_spec in E as [s ->]. pose proof (missing_below fs (d ++ [c]) s T (snoc_not_nil _ _) Hn) as Hm.
  rewrite node_at_ne in Hm; [done |]. by destruct d.
Qed.

(** ** Texts of paths *)

Lemma split_on_app (c : Ascii.ascii) w rest :
  all_chars (fun x => negb (Ascii.eqb x c)) w = true ->
  split_on c (w ++ String c rest)%string = w :: split_on c rest.
Proof.
  intros Hw. induction w as [|x w IH].
  - change (EmptyString ++ ?t)%string with t. cbn [split_on]. by destruct (Ascii.ascii_dec c c).
  - change (String x w ++ ?t)%string with (String x (w ++ t)). cbn [split_on all_chars] in *.
    apply andb_true_iff in Hw as [Hx Hw]. rewrite IH by done.
    destruct (Ascii.ascii_dec x c) as [->|]; [by rewrite Ascii.eqb_refl in Hx | done].
Qed.

Lemma split_on_none (c : Ascii.ascii) w :
  all_chars (fun x => negb (Ascii.eqb x c)) w = true -> split_on c w = [w].
Proof.
  intros Hw. induction w as [|x w IH]; [done |]. cbn [split_on all_chars] in *.
  apply andb_true_iff in Hw as [Hx Hw]. rewrite IH by done.
  destruct (Ascii.ascii_dec x c) as [->|]; [by rewrite Ascii.eqb_refl in Hx | done].
Qed.

(** [parts_of] inverts [str] on the paths [str] gives back unchanged. *)
Lemma prefix_slashes s : String.prefix "/" s = false -> String.prefix "//" s = false.
Proof.
  destruct s as [|c s]; [done |]. cbn [String.prefix].
  destruct (Ascii.ascii_dec _ c); [by destruct s | done].
Qed.

Lemma anchor_relative s : is_absolute s = false -> anchor_of s = EmptyString.
Proof. intros Hs. unfold anchor_of. by rewrite (prefix_slashes _ Hs), Hs. Qed.

Lemma text_of_parts s : is_absolute s = false -> path_text s = s -> text_of (parts_of s) = s.
Proof.
  intros Ha Hs. unfold path_text in Hs. rewrite anchor_relative in Hs by done.
  unfold text_of. by destruct (parts_of s).
Qed.
