(* ===== verification/Json.v ===== *)
(** * [json.loads]

    The parser of the standard library on texts of the model.  It reads what [dumps]
    (PyText) prints back to the same value (JsonFacts).  Not representable, and an
    error [unmodelled] here: characters beyond Latin-1, NaN and infinite floats. *)
From stdpp Require Import strings pretty.
From S2P Require Import Prelude PyText Protocol Codecs Templates.
From Stdlib Require Import Ascii.
Open Scope string_scope.
Open Scope list_scope.

Definition unmodelled {A} : res A := Err (OtherException "not representable").
Definition decode_error {A} : res A := Err JSONDecodeError.

(** ** Strings *)

Definition hex_value (c : ascii) : option N :=
  let n := code c in
  if ((48 <=? n) && (n <=? 57))%N then Some (n - 48)%N
  else if ((97 <=? n) && (n <=? 102))%N then Some (n - 87)%N
  else if ((65 <=? n) && (n <=? 70))%N then Some (n - 55)%N
  else None.

Definition hex4 (a b c d : ascii) : option N :=
  match hex_value a, hex_value b, hex_value c, hex_value d with
  | Some a, Some b, Some c, Some d => Some (((a * 16 + b) * 16 + c) * 16 + d)%N
  | _, _, _, _ => None
  end.

(** The character after a backslash. *)
Definition unescape (c : ascii) : option ascii :=
  let n := code c in
  if (n =? 34)%N || (n =? 92)%N || (n =? 47)%N then Some c
  else if (n =? 98)%N then Some (ascii_of_N 8)
  else if (n =? 102)%N then Some (ascii_of_N 12)
  else if (n =? 110)%N then Some (ascii_of_N 10)
  else if (n =? 114)%N then Some (ascii_of_N 13)
  else if (n =? 116)%N then Some (ascii_of_N 9)
  else None.

Definition push (c : ascii) (r : res (string * string)) : res (string * string) :=
  match r with Ok (t, rest) => Ok (String c t, rest) | Err e => Err e end.

(** [scanstring], past the opening quote: the text and what follows the closing one. *)
Fixpoint scan_string (s : string) : res (string * string) :=
  match s with
  | EmptyString => decode_error
  | String c r =>
      if (code c =? 34)%N then Ok (EmptyString, r)
      else if (code c <? 32)%N then decode_error
      else if (code c =? 92)%N then
        match r with
        | String d r' =>
            if (code d =? 117)%N then
              match r' with
              | String w (String x (String y (String z r''))) =>
                  match hex4 w x y z with
                  | None => decode_error
                  | Some n => if (n <=? 255)%N then push (ascii_of_N n) (scan_string r'') else unmodelled
                  end
              | _ => decode_error
              end
            else match unescape d with
                 | Some e => push e (scan_string r')
                 | None => decode_error
                 end
        | EmptyString => decode_error
        end
      else push c (scan_string r)
  end.

(** ** Numbers *)

(** [m * 2^e] with [m] odd, or zero. *)
Fixpoint reduce_pos (p : positive) (e : Z) : Z * Z :=
  match p with xO q => reduce_pos q (e + 1) | _ => (Z.pos p, e) end.
Definition reduce (m e : Z) : Z * Z :=
  match m with
  | Z0 => (0, 0)
  | Zpos p => reduce_pos p e
  | Zneg p => let '(m, e) := reduce_pos p e in (- m, e)
  end%Z.

Definition round_half_even (num den : Z) : Z :=
  let q := (num / den)%Z in
  match (2 * (num - q * den) ?= den)%Z with
  | Lt => q
  | Gt => q + 1
  | Eq => if Z.even q then q else q + 1
  end%Z.

(** The double nearest to [num / den], both positive: 53 bits, exponent at least -1074;
    [None] where it overflows. *)
Definition nearest (num den : Z) : option (Z * Z) :=
  let scaled k := if (k <? 0)%Z then (num * 2 ^ (- k), den)%Z else (num, den * 2 ^ k)%Z in
  let k := (Z.log2 num - Z.log2 den - 53)%Z in
  let '(n, d) := scaled k in
  let k := Z.max (-1074) (if (2 ^ 53 * d <=? n)%Z then k + 1 else k)%Z in
  let '(n, d) := scaled k in
  let m := round_half_even n d in
  if (2 ^ 1024 <=? m * 2 ^ Z.max 0 k)%Z then None else Some (reduce m k).

(** [float(text)] of [digits * 10^exponent]. *)
Definition decimal_float (negative : bool) (digits exponent : Z) : option (Z * Z) :=
  if (digits =? 0)%Z then Some (0, 0)%Z
  else
    match (if (exponent <? 0)%Z then nearest digits (10 ^ (- exponent)) else nearest (digits * 10 ^ exponent) 1) with
    | Some (m, e) => Some (if negative then (- m)%Z else m, e)
    | None => None
    end.

Definition is_char (n : N) (c : ascii) : bool := (code c =? n)%N.

(** The integer part of [NUMBER_RE]: a zero, or digits that do not start with one. *)
Definition scan_digits (s : string) : option (string * string) :=
  match s with
  | String c r =>
      if is_char 48 c then Some ("0", r)
      else if is_digit c then Some (span is_digit s) else None
  | EmptyString => None
  end.
(** The optional fraction and exponent. *)
Definition scan_fraction (s : string) : option (string * string) :=
  match s with
  | String c r =>
      if is_char 46 c then
        let '(digits, rest) := span is_digit r in
        if empty_str digits then None else Some (digits, rest)
      else None
  | EmptyString => None
  end.
Definition scan_exponent (s : string) : option (Z * string) :=
  match s with
  | String c r =>
      if is_char 101 c || is_char 69 c then
        let '(negative, r) :=
          match r with
          | String d r' => if is_char 45 d then (true, r') else if is_char 43 d then (false, r') else (false, r)
          | EmptyString => (false, r)
          end in
        let '(digits, rest) := span is_digit r in
        if empty_str digits then None
        else let n := Z.of_N (decimal 0 digits) in Some (if negative then (- n)%Z else n, rest)
      else None
  | EmptyString => None
  end.

(** [sys.int_info.default_max_str_digits]. *)
Definition MAX_INT_DIGITS : Z := 4300.

(** A number past its sign; [None] when there is none. *)
Definition scan_unsigned (negative : bool) (s : string) : option (res (pyval * string)) :=
  match scan_digits s with
  | None => None
  | Some (digits, rest) =>
      let '(fraction, rest) := match scan_fraction rest with Some (f, r) => (Some f, r) | None => (None, rest) end in
      let '(exponent, rest) := match scan_exponent rest with Some (e, r) => (Some e, r) | None => (None, rest) end in
      Some (match fraction, exponent with
            | None, None =>
                if (MAX_INT_DIGITS <? py_len digits)%Z then
                  Err (ValueError "Exceeds the limit (4300 digits) for integer string conversion")
                else let n := Z.of_N (decimal 0 digits) in
                     Ok (PInt (if negative then (- n)%Z else n), rest)
            | _, _ =>
                let f := default EmptyString fraction in
                match decimal_float negative (Z.of_N (decimal 0 (digits ++ f)%string))
                        (default 0%Z exponent - Z.of_nat (String.length f)) with
                | Some (m, e) => Ok (PFloat m e, rest)
                | None => unmodelled
                end
            end)
  end.

(** [_match_number]. *)
Definition scan_number (s : string) : option (res (pyval * string)) :=
  match s with
  | String c r => if is_char 45 c then scan_unsigned true r else scan_unsigned false s
  | EmptyString => None
  end.

(** ** Values *)

Definition json_space (c : ascii) : bool := is_char 32 c || is_char 9 c || is_char 10 c || is_char 13 c.
Fixpoint skip_space (s : string) : string :=
  match s with String c r => if json_space c then skip_space r else s | EmptyString => s end.

(** [null], [true], [false]; the other words are floats outside the model. *)
Definition scan_word (s : string) : res (pyval * string) :=
  match drop_prefix "null" s with
  | Some r => Ok (PNone, r)
  | None =>
  match drop_prefix "true" s with
  | Some r => Ok (PBool true, r)
  | None =>
  match drop_prefix "false" s with
  | Some r => Ok (PBool false, r)
  | None =>
  match drop_prefix "NaN" s, drop_prefix "Infinity" s, drop_prefix "-Infinity" s with
  | None, None, None => decode_error
  | _, _, _ => unmodelled
  end end end end.

(** A property name and its colon, up to the value. *)
Definition scan_key (s : string) : res (string * string) :=
  match s with
  | String c r =>
      if is_char 34 c then
        let? ' (key, rest) := scan_string r in
        match skip_space rest with
        | String d rest => if is_char 58 d then Ok (key, skip_space rest) else decode_error
        | EmptyString => decode_error
        end
      else decode_error
  | EmptyString => decode_error
  end.

Definition out_of_fuel {A} : res A := Err (OtherException "RecursionError").

(** Objects keep the place of the first occurrence of a key and the last value. *)
Fixpoint scan_once (fuel : nat) (s : string) {struct fuel} : res (pyval * string) :=
  match fuel with
  | O => out_of_fuel
  | S n =>
      match s with
      | EmptyString => decode_error
      | String c r =>
          if is_char 34 c then let? ' (t, rest) := scan_string r in Ok (PStr t, rest)
          else if is_char 123 c then
            match skip_space r with
            | String d r' =>
                if is_char 125 d then Ok (PDict [], r')
                else let? ' (kvs, rest) := scan_members n [] (String d r') in Ok (PDict kvs, rest)
            | EmptyString => decode_error
            end
          else if is_char 91 c then
            match skip_space r with
            | String d r' =>
                if is_char 93 d then Ok (PList [], r')
                else let? ' (l, rest) := scan_elements n (String d r') in Ok (PList l, rest)
            | EmptyString => decode_error
            end
          else match scan_number s with
               | Some number => number
               | None => scan_word s
               end
      end
  end
with scan_members (fuel : nat) (acc : list (string * pyval)) (s : string) {struct fuel}
    : res (list (string * pyval) * string) :=
  match fuel with
  | O => out_of_fuel
  | S n =>
      let? ' (key, rest) := scan_key s in
      let? ' (value, rest) := scan_once n rest in
      let acc := kv_set key value acc in
      match skip_space rest with
      | String e rest =>
          if is_char 125 e then Ok (acc, rest)
          else if is_char 44 e then scan_members n acc (skip_space rest)
          else decode_error
      | EmptyString => decode_error
      end
  end
with scan_elements (fuel : nat) (s : string) {struct fuel} : res (list pyval * string) :=
  match fuel with
  | O => out_of_fuel
  | S n =>
      let? ' (value, rest) := scan_once n s in
      match skip_space rest with
      | String e rest =>
          if is_char 93 e then Ok ([value], rest)
          else if is_char 44 e then
            let? ' (l, rest) := scan_elements n (skip_space rest) in Ok (value :: l, rest)
          else decode_error
      | EmptyString => decode_error
      end
  end.

(** [json.loads]. *)
Definition loads (s : string) : res pyval :=
  let s := skip_space s in
  let? ' (value, rest) := scan_once (2 * S (String.length s)) s in
  if empty_str (skip_space rest) then Ok value else decode_error.

(** ** [json.loads] of bytes *)

(** [bytes.decode("utf-8", "surrogatepass")] succeeds. *)
Fixpoint utf8_valid (l : list N) : bool :=
  let tail (b : N) := ((128 <=? b) && (b <? 192))%N in
  match l with
  | [] => true
  | b :: r =>
      if (b <? 128)%N then utf8_valid r
      else if ((194 <=? b) && (b <? 224))%N then
        match r with c :: r' => tail c && utf8_valid r' | [] => false end
      else if ((224 <=? b) && (b <? 240))%N then
        match r with
        | c :: d :: r' => tail c && tail d && negb ((b =? 224) && (c <? 160))%N && utf8_valid r'
        | _ => false
        end
      else if ((240 <=? b) && (b <? 245))%N then
        match r with
        | c :: d :: e :: r' =>
            tail c && tail d && tail e && negb ((b =? 240) && (c <? 144))%N
            && negb ((b =? 244) && (144 <=? c))%N && utf8_valid r'
        | _ => false
        end
      else false
  end.

(** [json.detect_encoding] finds UTF-8: no byte order mark, no zero among the first
    bytes. *)
Definition detects_utf8 (b : list N) : bool :=
  let zero i := bool_decide (b !! i = Some 0%N) in
  let starts p := bool_decide (take (length p) b = p) in
  negb (starts [0; 0; 254; 255]%N || starts [255; 254]%N || starts [254; 255]%N || starts [239; 187; 191]%N)
  && negb (((4 <=? length b)%nat || (length b =? 2)%nat) && (zero 0%nat || zero 1%nat)).

(** Texts in another encoding or beyond Latin-1 are [unmodelled]. *)
Definition loads_bytes (b : list N) : res pyval :=
  if negb (detects_utf8 b) then unmodelled
  else match utf8_decode b with
       | Some s => loads s
       | None => if utf8_valid b then unmodelled else Err UnicodeDecodeError
       end.
