(* ===== verification/JsonFacts.v ===== *)
(** * [loads] reads what [dumps] prints

    For values of JSON types whose dictionaries have unique keys; the text of a float is
    an argument of the model, assumed to read back ([FloatText], as [repr] promises). *)
From stdpp Require Import strings pretty.
From S2P Require Import Prelude PyText TextFacts Protocol Codecs Templates Json.
From Stdlib Require Import Ascii.
Open Scope string_scope.
Open Scope list_scope.

(** ** Texts *)

Definition head_ok (p : ascii -> bool) (s : string) : bool :=
  match s with String c _ => p c | EmptyString => true end.

(** What may follow a number: nothing that would continue it. *)
Definition number_char (c : ascii) : bool := is_digit c || is_char 46 c || is_char 101 c || is_char 69 c.
Definition delimited (rest : string) : bool := head_ok (fun c => negb (number_char c)) rest.

Lemma scan_string_escape ea c t : scan_string (json_escape ea c ++ t) = push c (scan_string t).
Proof. destruct ea, c as [[] [] [] [] [] [] [] []]; reflexivity. Qed.

Lemma scan_string_chars ea s rest : scan_string (json_chars ea s ++ quote ++ rest) = Ok (s, rest).
Proof.
  induction s as [|c s IH]; [done |]. cbn [json_chars].
  by rewrite str_app_assoc, scan_string_escape, IH.
Qed.

(** ** Numbers *)

Lemma digit_char x : (x < 10)%N ->
  is_digit (pretty_N_char x) = true /\ (code (pretty_N_char x) - 48 = x)%N
  /\ (is_char 48 (pretty_N_char x) = true -> x = 0%N).
Proof.
  intros Hx. destruct x as [|p]; [done |].
  do 4 (destruct p as [p|p|]; [| | by vm_compute]); exfalso; lia.
Qed.

Lemma decimal_app a b acc : decimal acc (a ++ b)%string = decimal (decimal acc a) b.
Proof. revert acc. induction a as [|c a IH]; intros acc; [done |]. cbn [String.append decimal]. apply IH. Qed.

(** [pretty_N_go x] puts the digits of [x] in front. *)
Lemma pretty_go_digits x s : exists d,
  pretty_N_go x s = (d ++ s)%string /\ all_chars is_digit d = true /\ decimal 0 d = x
  /\ (x = 0%N -> d = EmptyString) /\ (x <> 0%N -> exists c r, d = String c r /\ is_char 48 c = false).
Proof.
  revert s. induction (N.lt_wf_0 x) as [x _ IH]. intros s.
  destruct (decide (x = 0)%N) as [->|Hx]; [exists EmptyString; by rewrite pretty_N_go_0 |].
  rewrite pretty_N_go_step by lia. pose proof (N.div_lt x 10) as Hd.
  destruct (IH (x / 10)%N ltac:(lia) (String (pretty_N_char (x mod 10)) s)) as (d & -> & Had & Hv & H0 & Hh).
  pose proof (N.mod_lt x 10 ltac:(done)) as Hm. destruct (digit_char _ Hm) as (Hc & Hval & Hz).
  pose proof (N.div_mod x 10 ltac:(done)) as Hdm.
  exists (d ++ String (pretty_N_char (x mod 10)) EmptyString)%string. split_and!.
  - by rewrite str_app_assoc.
  - by rewrite all_chars_app, Had; cbn [all_chars]; rewrite Hc.
  - rewrite decimal_app, Hv. cbn [decimal]. rewrite Hval. lia.
  - done.
  - intros _. destruct (decide (x / 10 = 0)%N) as [E|E].
    + assert (d = EmptyString) as ->.
      { by apply H0. }
      eexists _, EmptyString. split; [done |]. apply not_true_iff_false. intros Hc0.
      apply Hz in Hc0. lia.
    + destruct (Hh E) as (c & r & -> & Hc0). eexists _, _. split; [done | done].
Qed.

Lemma span_all p d rest : all_chars p d = true -> head_ok (fun c => negb (p c)) rest = true ->
  span p (d ++ rest)%string = (d, rest).
Proof.
  intros Hd Hr. induction d as [|c d IH].
  - rewrite append_empty. destruct rest as [|c r]; [done |]. simpl in *. by apply negb_true_iff in Hr as ->.
  - rewrite append_cons. cbn [all_chars span] in *. apply andb_true_iff in Hd as [-> Hd]. by rewrite IH.
Qed.

Lemma head_ok_impl (p q : ascii -> bool) s :
  (forall c, p c = true -> q c = true) -> head_ok p s = true -> head_ok q s = true.
Proof. destruct s; simpl; auto. Qed.

Lemma delimited_digit rest : delimited rest = true -> head_ok (fun c => negb (is_digit c)) rest = true.
Proof. apply head_ok_impl. intros c. unfold number_char. by destruct (is_digit c). Qed.

Lemma scan_fraction_none rest : delimited rest = true -> scan_fraction rest = None.
Proof.
  destruct rest as [|c r]; [done |]. unfold delimited, number_char. cbn [head_ok scan_fraction].
  destruct (is_char 46 c); [by rewrite orb_true_r | done].
Qed.
Lemma scan_exponent_none rest : delimited rest = true -> scan_exponent rest = None.
Proof.
  destruct rest as [|c r]; [done |]. unfold delimited, number_char. cbn [head_ok scan_exponent].
  destruct (is_char 101 c), (is_char 69 c); rewrite ?orb_true_r; done.
Qed.

(** The text of an integer is its sign and its digits. *)
Definition digits_text (x : N) : string := if decide (x = 0)%N then "0" else pretty_N_go x EmptyString.

Lemma pretty_Z_text z :
  pretty z = (if (z <? 0)%Z then "-" ++ digits_text (Z.abs_N z) else digits_text (Z.abs_N z))%string.
Proof. by destruct z. Qed.

Lemma digits_text_scan x rest : delimited rest = true ->
  scan_digits (digits_text x ++ rest) = Some (digits_text x, rest)
  /\ decimal 0 (digits_text x) = x /\ all_chars is_digit (digits_text x) = true.
Proof.
  intros Hr. unfold digits_text. case_decide as Hx; [by subst |].
  destruct (pretty_go_digits x EmptyString) as (d & -> & Hd & Hv & _ & Hh). rewrite str_app_nil.
  split; [| done]. destruct (Hh Hx) as (c & r & -> & Hc). rewrite append_cons.
  pose proof Hd as Hd'. cbn [all_chars] in Hd'. apply andb_true_iff in Hd' as [Hcd _].
  unfold scan_digits. rewrite Hc, Hcd, <- append_cons, span_all; [done | done | by apply delimited_digit].
Qed.

Definition short_int (z : Z) : bool := (py_len (digits_text (Z.abs_N z)) <=? MAX_INT_DIGITS)%Z.

Lemma scan_unsigned_int negative x rest :
  (py_len (digits_text x) <= MAX_INT_DIGITS)%Z -> delimited rest = true ->
  scan_unsigned negative (digits_text x ++ rest)
  = Some (Ok (PInt (if negative then - Z.of_N x else Z.of_N x)%Z, rest)).
Proof.
  intros Hx Hr. destruct (digits_text_scan x rest Hr) as (Hs & Hv & _).
  unfold scan_unsigned. rewrite Hs, scan_fraction_none, scan_exponent_none by done.
  by rewrite (proj2 (Z.ltb_ge _ _) Hx), Hv.
Qed.

Lemma digits_text_cons x : exists c r, digits_text x = String c r /\ is_digit c = true.
Proof.
  destruct (digits_text_scan x EmptyString eq_refl) as (Hs & _ & Hd). destruct (digits_text x) as [|c r]; [done |].
  cbn [all_chars] in Hd. apply andb_true_iff in Hd as [? _]. eauto.
Qed.

Lemma scan_number_int z rest : short_int z = true -> delimited rest = true ->
  scan_number (pretty z ++ rest) = Some (Ok (PInt z, rest)).
Proof.
  unfold short_int. intros Hz%Z.leb_le Hr. rewrite pretty_Z_text.
  pose proof (fun n => scan_unsigned_int n _ rest Hz Hr) as Hs. rewrite N2Z.inj_abs_N in Hs.
  destruct (Z.ltb_spec z 0) as [Hneg|Hpos].
  - rewrite str_app_assoc. change ("-" ++ ?t)%string with (String "-" t). cbn [scan_number].
    change (is_char 45 "-") with true. rewrite Hs. do 4 f_equal. lia.
  - destruct (digits_text_cons (Z.abs_N z)) as (c & r & E & Hc). specialize (Hs false). rewrite E in *.
    rewrite append_cons in *. cbn [scan_number].
    assert (is_char 45 c = false) as ->; [| rewrite Hs; do 4 f_equal; lia].
    apply not_true_iff_false. unfold is_char. intros Hd%N.eqb_eq. unfold is_digit in Hc.
    rewrite Hd in Hc. done.
Qed.

(** ** Values *)

Section values.
  Context `{PyFloat} (ensure_ascii : bool).

(** The values that JSON can carry; the text of a float must read back. *)
Fixpoint json_value (v : pyval) : Prop :=
  match v with
  | PNone | PBool _ | PStr _ => True
  | PInt z => short_int z = true
  | PFloat m e => forall rest, delimited rest = true ->
      scan_number (float_repr m e ++ rest) = Some (Ok (PFloat m e, rest))
  | PList l => (fix all (l : list pyval) : Prop :=
                  match l with [] => True | x :: r => json_value x /\ all r end) l
  | PDict kvs => NoDup kvs.*1
                 /\ (fix all (l : list (string * pyval)) : Prop :=
                       match l with [] => True | (_, x) :: r => json_value x /\ all r end) kvs
  | _ => False
  end.

Lemma json_value_list l : json_value (PList l) <-> Forall json_value l.
Proof.
  simpl. induction l as [|x l IH]; [by split; [constructor |] |]. rewrite Forall_cons, IH. done.
Qed.
Lemma json_value_dict kvs : json_value (PDict kvs) <-> NoDup kvs.*1 /\ Forall (fun kv => json_value kv.2) kvs.
Proof.
  simpl. assert ((fix all (l : list (string * pyval)) : Prop :=
    match l with [] => True | (_, x) :: r => json_value x /\ all r end) kvs
    <-> Forall (fun kv => json_value kv.2) kvs) as ->; [| done].
  induction kvs as [|[k x] l IH]; [by split; [constructor |] |]. rewrite Forall_cons, IH. done.
Qed.

Definition dump : pyval -> res string := dumps false ensure_ascii.

Lemma dump_list l t : dump (PList l) = Ok t -> exists ts,
  Forall2 (fun v t => dump v = Ok t) l ts /\ t = ("[" ++ join "," ts ++ "]")%string.
Proof.
  unfold dump. cbn [dumps]. intros (ts & Hts & [= <-])%rbind_Ok. exists ts. split; [| done].
  revert ts Hts. induction l as [|x l IH]; intros ts Hts; [injection Hts as <-; constructor |].
  apply rbind_Ok in Hts as (t & Ht & (r & Hr & [= <-])%rbind_Ok). constructor; [done | by apply IH].
Qed.

Definition member_text (kt : string * string) : string :=
  (json_string ensure_ascii kt.1 ++ ":" ++ kt.2)%string.

Lemma dump_dict kvs t : dump (PDict kvs) = Ok t -> exists ts,
  Forall2 (fun kv kt => kt.1 = kv.1 /\ dump kv.2 = Ok kt.2) kvs ts
  /\ t = ("{" ++ join "," (map member_text ts) ++ "}")%string.
Proof.
  unfold dump. cbn [dumps]. intros (ts & Hts & [= <-])%rbind_Ok. exists ts. split; [| done].
  revert ts Hts. induction kvs as [|[k x] l IH]; intros ts Hts; [injection Hts as <-; constructor |].
  apply rbind_Ok in Hts as (t & Ht & (r & Hr & [= <-])%rbind_Ok). constructor; [done | by apply IH].
Qed.

(** A text starts neither with white space nor with a closing bracket. *)
Definition starts_value (c : ascii) : bool :=
  negb (json_space c) && negb (is_char 93 c) && negb (is_char 125 c).

Lemma scan_number_starts c s r : scan_number (String c s) = Some r -> starts_value c = true.
Proof.
  cbn [scan_number]. destruct (is_char 45 c) eqn:E.
  - intros _. unfold is_char in E. apply N.eqb_eq in E. unfold starts_value, json_space, is_char. by rewrite E.
  - unfold scan_unsigned, scan_digits. destruct (is_char 48 c) eqn:E0.
    + intros _. unfold is_char in E0. apply N.eqb_eq in E0. unfold starts_value, json_space, is_char. by rewrite E0.
    + destruct (is_digit c) eqn:Ed; [intros _ | done]. clear E E0. revert Ed.
      by destruct c as [[] [] [] [] [] [] [] []].
Qed.

Lemma dump_starts v t : json_value v -> dump v = Ok t -> exists c r, t = String c r /\ starts_value c = true.
Proof.
  intros Hv. unfold dump. destruct v; cbn [dumps]; try done.
  - intros [= <-]. by eexists _, _.
  - intros [= <-]. destruct b; by eexists _, _.
  - intros [= <-]. pose proof (scan_number_int z EmptyString Hv eq_refl) as Hs. rewrite str_app_nil in Hs.
    destruct (pretty z) as [|c r]; [done |]. eexists _, _. split; [done |]. by eapply scan_number_starts.
  - intros [= <-]. pose proof (Hv EmptyString eq_refl) as Hs. rewrite str_app_nil in Hs.
    destruct (float_repr m e) as [|c r]; [done |]. eexists _, _. split; [done |]. by eapply scan_number_starts.
  - intros [= <-]. by eexists _, _.
  - intros (ts & _ & [= <-])%rbind_Ok. by eexists _, _.
  - intros (ts & _ & [= <-])%rbind_Ok. by eexists _, _.
Qed.

Lemma skip_space_starts c s : starts_value c = true -> skip_space (String c s) = String c s.
Proof. unfold starts_value. cbn [skip_space]. by destruct (json_space c). Qed.

(** What the induction proves of a value: its text is read and the rest left, with fuel
    for every character. *)
Definition reads_back (v : pyval) : Prop := forall t rest n,
  json_value v -> dump v = Ok t -> delimited rest = true ->
  (String.length t < n)%nat -> scan_once n (t ++ rest) = Ok (v, rest).

Lemma scan_elements_back l ts rest n :
  Forall reads_back l -> Forall json_value l -> Forall2 (fun v t => dump v = Ok t) l ts -> l <> [] ->
  (String.length (join "," ts) + 1 < n)%nat ->
  scan_elements n (join "," ts ++ "]" ++ rest) = Ok (l, rest).
Proof.
  intros Hl Hv Hts. revert n. induction Hts as [|v t l ts Ht Hts IH]; intros n Hne Hn; [done |].
  apply Forall_cons in Hl as [Hv1 Hl], Hv as [Hj Hv]. destruct n as [|n]; [lia |]. cbn [scan_elements].
  destruct Hts as [|v2 t2 l ts Ht2 Hts].
  - cbn [join] in *. rewrite (Hv1 t ("]" ++ rest)%string n Hj Ht) by (done || lia). done.
  - change (join "," (t :: t2 :: ts)) with (t ++ "," ++ join "," (t2 :: ts))%string in *.
    rewrite !str_app_assoc. rewrite !str_length_app in Hn. cbn [String.length] in Hn.
    rewrite (Hv1 t _ n Hj Ht) by (done || lia). cbn [rbind].
    change ("," ++ ?x)%string with (String "," x). cbn [skip_space].
    change (json_space ",") with false. change (is_char 93 ",") with false. change (is_char 44 ",") with true. cbn iota.
    assert (exists c r, join "," (t2 :: ts) = String c r /\ starts_value c = true) as (c & r & E & Hc).
    { apply Forall_cons in Hv as [Hj2 _]. destruct (dump_starts v2 t2 Hj2 Ht2) as (c & r & -> & Hc).
      destruct ts; [by eexists _, _ |]. eexists _, _. split; [reflexivity | done]. }
    rewrite E, append_cons, skip_space_starts, <- append_cons, <- E by done.
    rewrite IH by (done || lia). done.
Qed.

Lemma kv_set_app k v (acc : list (string * pyval)) : k ∉ acc.*1 -> kv_set k v acc = acc ++ [(k, v)].
Proof.
  induction acc as [|[k' v'] acc IH]; intros Hk; [done |]. cbn [kv_set app].
  apply not_elem_of_cons in Hk as [Hk Hk']. rewrite decide_False by done. by rewrite IH.
Qed.

Lemma scan_key_back k t tail : (exists c r, t = String c r /\ starts_value c = true) ->
  scan_key (member_text (k, t) ++ tail) = Ok (k, (t ++ tail)%string).
Proof.
  intros (c & r & -> & Hc). unfold member_text, json_string. cbn [fst snd]. rewrite !str_app_assoc.
  unfold quote at 1, chr. rewrite append_cons, append_empty. cbn [scan_key].
  change (is_char 34 (ascii_of_N 34)) with true. rewrite scan_string_chars. cbn [rbind].
  change (":" ++ ?x)%string with (String ":" x). cbn [skip_space].
  change (json_space ":") with false. change (is_char 58 ":") with true. cbn iota.
  by rewrite append_cons, skip_space_starts.
Qed.

Lemma scan_members_back kvs ts acc rest n :
  Forall (fun kv => reads_back kv.2) kvs -> Forall (fun kv => json_value kv.2) kvs ->
  Forall2 (fun kv kt => kt.1 = kv.1 /\ dump kv.2 = Ok kt.2) kvs ts -> kvs <> [] ->
  NoDup (acc ++ kvs).*1 -> (String.length (join "," (map member_text ts)) + 1 < n)%nat ->
  scan_members n acc (join "," (map member_text ts) ++ "}" ++ rest) = Ok (acc ++ kvs, rest).
Proof.
  intros Hl Hv Hts. revert n acc. induction Hts as [|[k v] [k' t] kvs ts [Hk Ht] Hts IH]; intros n acc Hne Hnd Hn; [done |].
  cbn [fst snd] in Hk, Ht. subst k'. apply Forall_cons in Hl as [Hv1 Hl], Hv as [Hj Hv]. cbn [snd] in Hv1, Hj.
  destruct n as [|n]; [lia |]. cbn [scan_members map].
  assert (k ∉ acc.*1) as Hkn.
  { rewrite fmap_app, fmap_cons in Hnd. apply NoDup_app in Hnd as (_ & Hd & _). intros Hi. apply (Hd k Hi). by left. }
  assert (acc ++ (k, v) :: kvs = (acc ++ [(k, v)]) ++ kvs) as Hacc by by rewrite <- app_assoc.
  pose proof (dump_starts v t Hj Ht) as Hst. assert (String.length t < String.length (member_text (k, t)))%nat as Hlen.
  { unfold member_text. rewrite !str_length_app. cbn [snd String.length]. lia. }
  destruct Hts as [|[k2 v2] kt2 kvs ts Ht2 Hts].
  - cbn [map join] in *. rewrite scan_key_back by done. cbn [rbind].
    rewrite (Hv1 t _ n Hj Ht) by (done || lia). cbn [rbind]. by rewrite kv_set_app.
  - assert (join "," (map member_text ((k, t) :: kt2 :: ts))
            = (member_text (k, t) ++ "," ++ join "," (map member_text (kt2 :: ts)))%string) as Ej by done.
    change (member_text (k, t) :: map member_text (kt2 :: ts)) with (map member_text ((k, t) :: kt2 :: ts)).
    rewrite Ej in *.
    rewrite !str_app_assoc, scan_key_back by done. rewrite !str_length_app in Hn. cbn [rbind String.length] in *.
    rewrite (Hv1 t _ n Hj Ht) by (done || lia). cbn [rbind].
    change ("," ++ ?x)%string with (String "," x). cbn [skip_space].
    change (json_space ",") with false. change (is_char 125 ",") with false. change (is_char 44 ",") with true. cbn iota.
    rewrite kv_set_app, Hacc by done. rewrite Hacc in Hnd.
    assert (skip_space (join "," (map member_text (kt2 :: ts)) ++ "}" ++ rest)%string
            = (join "," (map member_text (kt2 :: ts)) ++ "}" ++ rest)%string) as ->.
    { destruct ts; reflexivity. }
    by rewrite IH by (done || lia).
Qed.

(** Where a number starts nothing else does. *)
Lemma scan_once_number n s r : scan_number s = Some r -> scan_once (S n) s = r.
Proof.
  destruct s as [|c s]; [done |]. intros Hs. cbn [scan_once]. rewrite Hs.
  cbn [scan_number] in Hs. unfold scan_unsigned, scan_digits in Hs.
  destruct (is_char 45 c) eqn:E; [apply N.eqb_eq in E; unfold is_char; by rewrite E |].
  destruct (is_char 48 c) eqn:E0; [apply N.eqb_eq in E0; unfold is_char; by rewrite E0 |].
  destruct (is_digit c) eqn:Ed; [| done]. clear Hs E E0. revert Ed.
  by destruct c as [[] [] [] [] [] [] [] []].
Qed.

(** Past an opening bracket. *)
Lemma bracket_text (c : ascii) t : starts_value c = true -> exists d r,
  skip_space (String c t) = String d r /\ String d r = String c t
  /\ is_char 93 d = false /\ is_char 125 d = false.
Proof.
  intros Hc. exists c, t. rewrite skip_space_starts by done. split; [done |]. split; [done |].
  unfold starts_value in Hc. destruct (is_char 93 c), (is_char 125 c); rewrite ?andb_false_r in Hc; done.
Qed.

Lemma dump_reads_back v : reads_back v.
Proof.
  induction v as [| | |m e|s| | |l IH|l IH|l IH|l IH|kvs IH|kvs IH] using pyval_ind; intros t rest n Hv Ht Hr Hn;
    (destruct n as [|n]; [lia |]); try done.
  - injection Ht as <-. done.
  - injection Ht as <-. by destruct b.
  - injection Ht as <-. by apply scan_once_number, scan_number_int.
  - injection Ht as <-. by apply scan_once_number, Hv.
  - injection Ht as <-. unfold json_string. rewrite !str_app_assoc. unfold quote at 1, chr.
    rewrite append_cons, append_empty. cbn [scan_once]. change (is_char 34 (ascii_of_N 34)) with true.
    by rewrite scan_string_chars.
  - apply dump_list in Ht as (ts & Hts & ->). apply json_value_list in Hv.
    rewrite !str_app_assoc in *. rewrite !str_length_app in Hn. cbn [String.length] in Hn.
    change ("[" ++ ?x)%string with (String "[" x). cbn [scan_once].
    change (is_char 34 "[") with false. change (is_char 123 "[") with false. change (is_char 91 "[") with true. cbn iota.
    destruct Hts as [|v t l ts Ht Hts]; [done |].
    assert (exists c r, (join "," (t :: ts) ++ "]" ++ rest)%string = String c r /\ starts_value c = true) as (c & r & E & Hc).
    { apply Forall_cons in Hv as [Hj _]. destruct (dump_starts v t Hj Ht) as (c & r & -> & Hc).
      destruct ts; by eexists _, _. }
    rewrite E. destruct (bracket_text c r Hc) as (d & q & -> & Eq & -> & _). rewrite Eq, <- E.
    by rewrite (scan_elements_back (v :: l)) by (done || lia || by constructor).
  - apply dump_dict in Ht as (ts & Hts & ->). apply json_value_dict in Hv as [Hnd Hv].
    rewrite !str_app_assoc in *. rewrite !str_length_app in Hn. cbn [String.length] in Hn.
    change ("{" ++ ?x)%string with (String "{" x). cbn [scan_once].
    change (is_char 34 "{") with false. change (is_char 123 "{") with true. cbn iota.
    destruct Hts as [|[k v] kt kvs ts Ht Hts]; [done |].
    assert (exists c r, (join "," (map member_text (kt :: ts)) ++ "}" ++ rest)%string = String c r
              /\ starts_value c = true) as (c & r & E & Hc) by (destruct ts; by eexists _, _).
    rewrite E. destruct (bracket_text c r Hc) as (d & q & -> & Eq & _ & ->). rewrite Eq, <- E.
    by rewrite (scan_members_back ((k, v) :: kvs) (kt :: ts) []) by (done || lia || by constructor).
Qed.

(** [json.loads(json.dumps(v, separators=(",", ":")))] is [v]. *)
Lemma loads_dump v t : json_value v -> dump v = Ok t -> loads t = Ok v.
Proof.
  intros Hv Ht. unfold loads. destruct (dump_starts v t Hv Ht) as (c & r & E & Hc).
  rewrite E, skip_space_starts, <- E by done.
  pose proof (dump_reads_back v t EmptyString (2 * S (String.length t)) Hv Ht eq_refl ltac:(lia)) as Hs.
  rewrite str_app_nil in Hs. by rewrite Hs.
Qed.
End values.

(** The fuel of [loads] is enough: no text needs more rounds than it has characters. *)
Lemma skip_space_length s : (String.length (skip_space s) <= String.length s)%nat.
Proof. induction s as [|c s IH]; [done |]. cbn [skip_space String.length]. destruct (json_space c); simpl; lia. Qed.

(** A scan that ends with less text, or with an error of the text. *)
Definition scanned {A} (s : string) (r : res (A * string)) : Prop :=
  match r with
  | Ok (_, rest) => (String.length rest < String.length s)%nat
  | Err e => e <> OtherException "RecursionError"
  end.

Lemma scanned_longer {A} s s' (r : res (A * string)) :
  (String.length s <= String.length s')%nat -> scanned s r -> scanned s' r.
Proof. intros Hs. destruct r as [[a rest]|e]; simpl; [lia | done]. Qed.

Lemma scanned_bind {A B} s (r : res (A * string)) (k : A * string -> res (B * string)) :
  scanned s r -> (forall a rest, (String.length rest < String.length s)%nat -> scanned s (k (a, rest))) ->
  scanned s (rbind r k).
Proof. destruct r as [[a rest]|e]; simpl; auto. Qed.

Lemma scan_string_scanned s : scanned s (scan_string s).
Proof.
  induction s as [s IH] using (induction_ltof1 _ String.length). unfold ltof in IH.
  destruct s as [|c s]; [done |]. cbn [scan_string].
  assert (forall d t, (String.length t <= String.length s)%nat -> scanned (String c s) (push d (scan_string t))) as Hp.
  { intros d t Ht. specialize (IH t). cbn [String.length] in IH. specialize (IH ltac:(lia)).
    destruct (scan_string t) as [[a rest]|e]; simpl in *; [lia | done]. }
  destruct (code c =? 34)%N; [simpl; lia |]. destruct (code c <? 32)%N; [done |].
  destruct (code c =? 92)%N; [| by apply Hp].
  destruct s as [|d r]; [done |]. destruct (code d =? 117)%N.
  - do 4 (destruct r as [|? r]; [done |]). destruct (hex4 _ _ _ _); [| done].
    case_match; [apply Hp; simpl; lia | done].
  - destruct (unescape d); [apply Hp; simpl; lia | done].
Qed.

Lemma span_length p s : (String.length (span p s).2 <= String.length s)%nat.
Proof.
  induction s as [|c s IH]; [done |]. cbn [span]. destruct (p c); [| simpl; lia].
  destruct (span p s) as [a b]. simpl in *. lia.
Qed.

Lemma scan_digits_length s d rest : scan_digits s = Some (d, rest) -> (String.length rest < String.length s)%nat.
Proof.
  destruct s as [|c s]; [done |]. cbn [scan_digits]. destruct (is_char 48 c); [intros [= <- <-]; simpl; lia |].
  destruct (is_digit c) eqn:E; [| done]. cbn [span]. rewrite E. pose proof (span_length is_digit s) as Hl.
  destruct (span is_digit s) as [a b]. intros [= <- <-]. simpl in *. lia.
Qed.
Lemma scan_fraction_length s d rest : scan_fraction s = Some (d, rest) -> (String.length rest < String.length s)%nat.
Proof.
  destruct s as [|c s]; [done |]. cbn [scan_fraction]. destruct (is_char 46 c); [| done].
  pose proof (span_length is_digit s) as Hl. destruct (span is_digit s) as [a b]. case_match; [done |].
  intros [= <- <-]. simpl in *. lia.
Qed.
Lemma scan_exponent_length s d rest : scan_exponent s = Some (d, rest) -> (String.length rest < String.length s)%nat.
Proof.
  destruct s as [|c s]; [done |]. cbn [scan_exponent]. destruct (is_char 101 c || is_char 69 c); [| done].
  set (sr := match s with String _ _ => _ | EmptyString => _ end).
  assert (String.length sr.2 <= String.length s)%nat as Hsr.
  { subst sr. destruct s as [|x s]; [done |]. destruct (is_char 45 x), (is_char 43 x); simpl; lia. }
  destruct sr as [neg r]. pose proof (span_length is_digit r) as Hl. destruct (span is_digit r) as [a b].
  case_match; [done |]. intros [= <- <-]. simpl in *. lia.
Qed.

Lemma scan_unsigned_scanned neg s r : scan_unsigned neg s = Some r -> scanned s r.
Proof.
  unfold scan_unsigned. destruct (scan_digits s) as [[d rest]|] eqn:Ed; [| done].
  apply scan_digits_length in Ed.
  destruct (scan_fraction rest) as [[f r1]|] eqn:Ef; [apply scan_fraction_length in Ef | clear Ef].
  - destruct (scan_exponent r1) as [[x r2]|] eqn:Ex; [apply scan_exponent_length in Ex |];
      intros [= <-]; destruct (decimal_float _ _ _) as [[]|]; simpl; (lia || done).
  - destruct (scan_exponent rest) as [[x r2]|] eqn:Ex; [apply scan_exponent_length in Ex |]; intros [= <-].
    + destruct (decimal_float _ _ _) as [[]|]; simpl; (lia || done).
    + case_match; simpl; (lia || done).
Qed.

Lemma scan_number_scanned s r : scan_number s = Some r -> scanned s r.
Proof.
  destruct s as [|c s]; [done |]. cbn [scan_number]. destruct (is_char 45 c); intros Hs%scan_unsigned_scanned; [| done].
  eapply scanned_longer; [| exact Hs]. simpl. lia.
Qed.

Lemma drop_prefix_length p s r : p <> EmptyString -> drop_prefix p s = Some r -> (String.length r < String.length s)%nat.
Proof.
  assert (forall q t u, drop_prefix q t = Some u -> String.length t = String.length q + String.length u)%nat as Hd.
  { induction q as [|c q IH]; intros t u; [by intros [= ->] |]. destruct t as [|d t]; [done |]. cbn [drop_prefix].
    case_match; [| done]. intros Hu%IH. simpl. lia. }
  intros Hp Hr%Hd. destruct p; [done | simpl in *; lia].
Qed.

Lemma scan_word_scanned s : scanned s (scan_word s).
Proof.
  unfold scan_word. repeat (case_match; try done);
    match goal with E : drop_prefix _ _ = Some _ |- _ => by apply drop_prefix_length in E end.
Qed.

Lemma scan_key_scanned s : scanned s (scan_key s).
Proof.
  destruct s as [|c s]; [done |]. cbn [scan_key]. destruct (is_char 34 c); [| done].
  apply scanned_bind; [eapply scanned_longer; [| apply scan_string_scanned]; simpl; lia |].
  intros k rest Hr. pose proof (skip_space_length rest) as Hk. destruct (skip_space rest) as [|d r]; [done |].
  destruct (is_char 58 d); [| done]. pose proof (skip_space_length r). simpl in *. lia.
Qed.

Lemma scan_scanned n :
  (forall s, (2 * String.length s < n)%nat -> scanned s (scan_once n s))
  /\ (forall acc s, (2 * String.length s + 1 < n)%nat -> scanned s (scan_members n acc s))
  /\ (forall s, (2 * String.length s + 1 < n)%nat -> scanned s (scan_elements n s)).
Proof.
  induction n as [|n (IHv & IHm & IHe)]; [split_and!; intros; lia |]. split_and!.
  - intros [|c s] Hs; [done |]. cbn [scan_once String.length] in *.
    destruct (is_char 34 c).
    { apply scanned_bind; [eapply scanned_longer; [| apply scan_string_scanned]; simpl; lia | done]. }
    pose proof (skip_space_length s) as Hk.
    destruct (is_char 123 c).
    { destruct (skip_space s) as [|d r]; [done |]. destruct (is_char 125 d); [simpl in *; lia |].
      apply scanned_bind; [| done]. eapply scanned_longer; [| apply IHm]; simpl in *; lia. }
    destruct (is_char 91 c).
    { destruct (skip_space s) as [|d r]; [done |]. destruct (is_char 93 d); [simpl in *; lia |].
      apply scanned_bind; [| done]. eapply scanned_longer; [| apply IHe]; simpl in *; lia. }
    destruct (scan_number (String c s)) as [r|] eqn:E; [by apply scan_number_scanned | apply scan_word_scanned].
  - intros acc s Hs. cbn [scan_members]. apply scanned_bind; [apply scan_key_scanned |]. intros k r Hr.
    apply scanned_bind; [eapply scanned_longer; [| apply IHv]; lia |]. intros v r2 Hr2.
    pose proof (skip_space_length r2) as Hk. destruct (skip_space r2) as [|e r3]; [done |].
    destruct (is_char 125 e); [simpl in *; lia |]. destruct (is_char 44 e); [| done].
    pose proof (skip_space_length r3). eapply scanned_longer; [| apply IHm]; simpl in *; lia.
  - intros s Hs. cbn [scan_elements]. apply scanned_bind; [apply IHv; lia |]. intros v r Hr.
    pose proof (skip_space_length r) as Hk. destruct (skip_space r) as [|e r3]; [done |].
    destruct (is_char 93 e); [simpl in *; lia |]. destruct (is_char 44 e); [| done].
    pose proof (skip_space_length r3). apply scanned_bind; [| done].
    eapply scanned_longer; [| apply IHe]; simpl in *; lia.
Qed.

(** [loads] never runs out of fuel. *)
Lemma loads_total s : loads s <> out_of_fuel.
Proof.
  unfold loads. set (t := skip_space s).
  pose proof (proj1 (scan_scanned (2 * S (String.length t))) t ltac:(lia)) as Hs.
  destruct (scan_once _ t) as [[v rest]|e]; cbn [rbind scanned] in *; [by case_match |].
  unfold out_of_fuel. congruence.
Qed.
