(* ===== verification/SourceStore.v ===== *)
(** * The source store ([src/services/source_store.py])

    Content-addressed files of a project: a source file (v1) or a ZIP archive (v2) is
    stored under the digest of its bytes, referred to by a text that names project and
    digest, and materialised into the workspace of a run.  The state is the file system
    (Files).  Reading a ZIP ([zipfile]) is an argument ([Zip]), and so are the [git]
    processes and name resolution of an import. *)
From stdpp Require Import gmap strings.
From S2P Require Import Prelude PyDict PyText Protocol Sha256 Codecs Templates Urls Files.
Open Scope string_scope.
Open Scope list_scope.

Definition MAX_SOURCE_BYTES : Z := 1048576.
Definition MAX_ARCHIVE_BYTES : Z := 10485760.
Definition MAX_ARCHIVE_EXPANDED_BYTES : Z := 52428800.
Definition MAX_ARCHIVE_FILES : Z := 2000.
Definition ALLOWED_GIT_HOSTS : list string := ["github.com"; "gitlab.com"; "bitbucket.org"; "gitee.com"].

Module StoredSource.
Record t := mk { source_ref : string; content_digest : string; size_bytes : Z }.
End StoredSource.

Module HostSource.
Record t := mk { project_directory : path; python_executable : path }.
End HostSource.

(** An entry of an archive, and what opening and reading it gives: the chunks of at most
    64 KiB its stream yields, and the exception that ends it early, if any. *)
Module ZipInfo.
Record t := mk { filename : string; external_attr : Z; flag_bits : Z; file_size : Z }.
Definition is_dir (i : t) : bool := ends_with "/" (filename i).
End ZipInfo.

Class Zip := {
  infolist : bytes -> res (list ZipInfo.t);
  entry_stream : bytes -> ZipInfo.t -> res (list bytes * option exn)
}.
(** [OSError], [RuntimeError], [BadZipFile], [LargeZipFile]. *)
Definition is_zip_error (e : exn) : bool :=
  match e with
  | OSError _ | RuntimeError _ => true
  | OtherException n => bool_decide (n = "BadZipFile") || bool_decide (n = "LargeZipFile")
  | _ => false
  end.

(** ** Paths and references *)

Definition is_control (c : Ascii.ascii) : bool := (code c <? 32)%N.
Definition backslash : Ascii.ascii := Ascii.ascii_of_N 92.
Definition dash : Ascii.ascii := Ascii.ascii_of_N 45.
Definition unsafe_entrypoint {A} : res A := Err (SourceStoreError "entrypoint must be a safe relative POSIX path").

(** The parts of the path. *)
Definition _entrypoint (value : string) : res path :=
  if empty_str value || negb (bool_decide (value = strip value))
     || has_char backslash value || negb (all_chars (fun c => negb (is_control c)) value)
  then unsafe_entrypoint
  else
    let parts := parts_of value in
    if is_absolute value || bool_decide (".." ∈ parts) || bool_decide ("." ∈ parts)
       || empty_str (name_of parts) || negb (bool_decide (path_text value = value))
       || ends_with "/" value || existsb (has_char colon) parts
    then unsafe_entrypoint
    else Ok parts.

Definition unsafe_zip_path {A} : res A := Err (SourceStoreError "ZIP contains an unsafe path").

Definition _archive_path (value : string) : res path :=
  if empty_str value || (512 <? py_len value)%Z || has_char backslash value
     || has_char Ascii.zero value || is_absolute value
     || negb (all_chars (fun c => negb (is_control c)) value)
  then unsafe_zip_path
  else
    let normalized := if ends_with "/" value
                      then String.substring 0 (String.length value - 1) value else value in
    let parts := parts_of normalized in
    if empty_str normalized || is_absolute normalized || negb (bool_decide (path_text normalized = normalized))
       || existsb (fun part => bool_decide (part ∈ [EmptyString; "."; ".."]) || has_char colon part) parts
    then unsafe_zip_path
    else Ok parts.

Definition _reference (project_id : uuid) (digest version : string) : string :=
  ("local-source:" ++ version ++ ":" ++ uuid_str project_id ++ ":sha256:" ++ digest)%string.
Definition _host_reference (project_id : uuid) (digest : string) : string :=
  ("host-source:v1:" ++ uuid_str project_id ++ ":sha256:" ++ digest)%string.

(** [[0-9a-f]{n}]. *)
Definition hex_text (n : nat) (s : string) : bool := (String.length s =? n)%nat && all_chars is_hex s.
(** The groups of the identifier in the patterns. *)
Definition uuid_pattern (s : string) : bool :=
  match split_on dash s with
  | [a; b; c; d; e] => hex_text 8 a && hex_text 4 b && hex_text 4 c && hex_text 4 d && hex_text 12 e
  | _ => false
  end.
(** [_SOURCE_REF_PATTERN] and [_HOST_SOURCE_REF_PATTERN]: no group can hold a colon. *)
Definition match_reference (scheme : string) (versions : list string) (value : string)
    : option (string * string * string) :=
  match split_on colon value with
  | [s; v; u; h; d] =>
      if bool_decide (s = scheme) && bool_decide (v ∈ versions) && uuid_pattern u
         && bool_decide (h = "sha256") && hex_text 64 d
      then Some (v, u, d) else None
  | _ => None
  end.

Definition parse_with (scheme : string) (versions : list string) (e : exn) (value : string)
    : res (string * uuid * string) :=
  match match_reference scheme versions value with
  | None => Err e
  | Some (version, u, digest) =>
      let? project := uuid_of_str u in
      if bool_decide (uuid_str project = u) then Ok (version, project, digest) else Err e
  end.
Definition _parse_reference (value : string) : res (string * uuid * string) :=
  parse_with "local-source" ["v1"; "v2"] (SourceStoreError "source reference is invalid") value.
Definition _parse_host_reference (value : string) : res (uuid * string) :=
  let? ' (_, project, digest) :=
    parse_with "host-source" ["v1"] (SourceStoreError "host source reference is invalid") value in
  Ok (project, digest).

(** ** Archives *)

Definition S_IFMT (mode : Z) : Z := Z.land mode 61440.
Definition S_IFLNK : Z := 40960.
Definition S_IFREG : Z := 32768.
Definition S_IFDIR : Z := 16384.
Definition zip_error {A} (msg : string) : res A := Err (SourceStoreError msg).
Definition expanded_too_large {A} : res A := zip_error "expanded ZIP exceeds the 50 MiB limit".

(** [entries] and [names] of the loop: the files by path, and every path by its folded
    text with whether it is a directory. *)
Definition entry_table : Type := pydict string ZipInfo.t.
Definition name_table : Type := pydict (list N) (string * bool).

Fixpoint scan_entries (infos : list ZipInfo.t) (entries : entry_table) (names : name_table) (total : Z)
    : res (entry_table * name_table) :=
  match infos with
  | [] => Ok (entries, names)
  | info :: rest =>
      let? parts := _archive_path (ZipInfo.filename info) in
      let text := text_of parts in
      let mode := Z.shiftr (ZipInfo.external_attr info) 16 in
      let kind := S_IFMT mode in
      if negb (Z.land (ZipInfo.flag_bits info) 1 =? 0)%Z then zip_error "encrypted ZIP entries are not allowed"
      else if (kind =? S_IFLNK)%Z || negb (bool_decide (kind ∈ [0; S_IFREG; S_IFDIR]%Z)) then
        zip_error "ZIP links and special files are not allowed"
      else
        let is_directory := ZipInfo.is_dir info in
        let key := casefold text in
        if has_key key names then zip_error "ZIP contains duplicate or case-conflicting paths"
        else
          let names := <[key := (text, is_directory)]> names in
          if is_directory then scan_entries rest entries names total
          else if (MAX_ARCHIVE_FILES <=? Z.of_nat (length (items entries)))%Z then
            zip_error "ZIP contains too many files"
          else
            let total := (total + ZipInfo.file_size info)%Z in
            if (MAX_ARCHIVE_EXPANDED_BYTES <? total)%Z then expanded_too_large
            else scan_entries rest (<[text := info]> entries) names total
  end.

(** The [while] loop over the parents of a file, the longest first. *)
Fixpoint check_parents (rounds : nat) (names : name_table) (parts : path) : res unit :=
  match rounds with
  | O => Ok tt
  | S n =>
      let parent := parent_of parts in
      if nilb parent then Ok tt
      else match names !! casefold (text_of parent) with
           | Some (_, false) => zip_error "ZIP file path conflicts with a parent file"
           | _ => check_parents n names parent
           end
  end.

Fixpoint each (f : string -> res unit) (l : list string) : res unit :=
  match l with [] => Ok tt | x :: rest => let? _ := f x in each f rest end.

(** Reading to the end or to the first empty chunk, adding up the sizes. *)
Fixpoint count_chunks (limit actual : Z) (chunks : list bytes) (stop : option exn) : res Z :=
  match chunks with
  | [] => match stop with Some e => Err e | None => Ok actual end
  | chunk :: rest =>
      if nilb chunk then Ok actual
      else let actual := (actual + Z.of_nat (length chunk))%Z in
           if (limit <? actual)%Z then expanded_too_large else count_chunks limit actual rest stop
  end.

Section archive.
  Context `{Zip}.

Fixpoint verify_entries (content : bytes) (actual : Z) (infos : list ZipInfo.t) : res unit :=
  match infos with
  | [] => Ok tt
  | info :: rest =>
      let? ' (chunks, stop) := entry_stream content info in
      let? actual := count_chunks MAX_ARCHIVE_EXPANDED_BYTES actual chunks stop in
      verify_entries content actual rest
  end.

Definition read_entries (content : bytes) (verify_payload : bool) : res entry_table :=
  let? infos := infolist content in
  let? ' (entries, names) := scan_entries infos ∅ ∅ 0 in
  let? _ := each (fun name => let parts := parts_of name in check_parents (length parts) names parts)
              (keys entries) in
  if nilb (items entries) then zip_error "project ZIP does not contain any files"
  else
    let? _ := if verify_payload then verify_entries content 0 (values entries) else Ok tt in
    Ok entries.

Definition _archive_entries (content : bytes) (verify_payload : bool) : res entry_table :=
  match read_entries content verify_payload with
  | Err e => if is_zip_error e then zip_error "project source must be a valid, unencrypted ZIP" else Err e
  | r => r
  end.

(** ** Writing *)

Section writing.
  Context `{Process}.

(** [_atomic_write], the temporary file named by [fresh]. *)
Definition _atomic_write (fresh : uuid) (target : path) (content : bytes) : M tree unit :=
  makedirs (parent_of target) ;;;
  let temporary := parent_of target ++ [("." ++ hex 32 fresh ++ ".tmp")%string] in
  try_finally
    (write_new 384 temporary content ;;;
     replace temporary target)
    (unlink temporary).

(** The copy loop: the bytes written, and the count or the exception that ended it. *)
Fixpoint copy_stream (remaining copied : Z) (written : bytes) (chunks : list bytes) (stop : option exn)
    : bytes * res Z :=
  match chunks with
  | [] => (written, match stop with Some e => Err e | None => Ok copied end)
  | chunk :: rest =>
      if nilb chunk then (written, Ok copied)
      else let copied := (copied + Z.of_nat (length chunk))%Z in
           if (remaining <? copied)%Z then (written, expanded_too_large)
           else copy_stream remaining copied (written ++ chunk) rest stop
  end.

Definition _atomic_write_stream (fresh : uuid) (target : path) (source : list bytes * option exn)
    (remaining : Z) : M tree Z :=
  let temporary := with_name target ("." ++ name_of target ++ "." ++ hex 32 fresh ++ ".tmp")%string in
  try_finally
    (let '(written, outcome) := copy_stream remaining 0 [] source.1 source.2 in
     write_new 384 temporary written ;;;
     let* copied := lift outcome in
     replace temporary target ;;;
     ret copied)
    (unlink temporary).

Definition zip_conflict {A} : M tree A := raise (SourceStoreError "ZIP path conflicts with the workspace").

Fixpoint make_parts (current : path) (parts : path) : M tree unit :=
  match parts with
  | [] => ret tt
  | part :: rest =>
      let current := current ++ [part] in
      let* fs := get in
      if is_symlink fs current || (exists_at fs current && negb (is_dir fs current)) then zip_conflict
      else mkdir 511 true current ;;; make_parts current rest
  end.
Definition _safe_archive_parent (root parent : path) : M tree unit :=
  let* parts := lift (relative_parts parent root) in
  make_parts root parts.

(** The body of the loop: the bytes written. *)
Definition extract_entry (content : bytes) (root : path) (fresh : uuid) (remaining : Z)
    (name : string) (info : ZipInfo.t) : M tree Z :=
  let relative := parts_of name in
  let destination := root ++ relative in
  _safe_archive_parent root (parent_of destination) ;;;
  let* fs := get in
  if exists_at fs destination || is_symlink fs destination then
    raise (SourceStoreError "project archive would overwrite a workspace file")
  else
    let* source := lift (entry_stream content info) in
    _atomic_write_stream fresh destination source remaining.

Fixpoint extract_entries (content : bytes) (root : path) (fresh : nat -> uuid) (i : nat) (expanded : Z)
    (entries : list (string * ZipInfo.t)) : M tree unit :=
  match entries with
  | [] => ret tt
  | (name, info) :: rest =>
      let* copied := extract_entry content root (fresh i) (MAX_ARCHIVE_EXPANDED_BYTES - expanded)%Z name info in
      extract_entries content root fresh (S i) (expanded + copied)%Z rest
  end.

(** Returns the set of the names. *)
Definition _extract_archive (content : bytes) (root : path) (fresh : nat -> uuid) : M tree (list string) :=
  let* entries := lift (_archive_entries content false) in
  extract_entries content root fresh 0 0 (items entries) ;;;
  ret (keys entries).
End writing.
End archive.

(** ** The store *)

Module LocalSourceStore.
Record t := mk {
  root : path; maximum_bytes : Z; host_execution_enabled : bool; host_project_roots : list path }.

Definition bad_roots : exn := ValueError "host project roots must be existing directories".

(** [__init__]. *)
Definition init (fs : tree) (root : path) (maximum_bytes : Z) (host_execution_enabled : bool)
    (host_project_roots : list path) : res t :=
  if (maximum_bytes <=? 0)%Z || (MAX_SOURCE_BYTES <? maximum_bytes)%Z then
    Err (ValueError "maximum_bytes must be between 1 and 1048576")
  else
    let? root := Path_resolve false fs root in
    if host_execution_enabled && nilb host_project_roots then
      Err (ValueError "host project roots are required when host execution is enabled")
    else
      let? roots := if host_execution_enabled
                    then match rmap (Path_resolve true fs) host_project_roots with
                         | Ok roots => Ok roots
                         | Err _ => Err bad_roots
                         end
                    else Ok [] in
      if existsb (fun r => negb (is_dir fs r) || is_symlink fs r) roots then Err bad_roots
      else Ok (mk root maximum_bytes host_execution_enabled roots).

Definition _source_path (s : t) (project_id : uuid) (digest : string) : path :=
  root s ++ [uuid_str project_id; String.substring 0 2 digest; digest].
Definition _host_source_path (s : t) (project_id : uuid) (digest : string) : path :=
  root s ++ [uuid_str project_id; "host"; String.substring 0 2 digest; (digest ++ ".json")%string].

(** [except OSError: raise other]. *)
Definition os_error_as {A} (other : exn) (r : res A) : res A :=
  match r with Err e => if is_OSError e then Err other else Err e | _ => r end.
(** [except (OSError, RuntimeError): raise other]. *)
Definition path_error_as {A} (other : exn) (r : res A) : res A :=
  match r with
  | Err e => if is_OSError e || match e with RuntimeError _ => true | _ => false end then Err other else Err e
  | _ => r
  end.

Definition _verified_content (s : t) (fs : tree) (project : uuid) (digest : string) (limit : Z) : res bytes :=
  let source := _source_path s project digest in
  if is_symlink fs source then Err (SourceStoreError "stored source symlinks are not allowed")
  else
    let? resolved := os_error_as (SourceStoreError "stored source does not exist") (Path_resolve true fs source) in
    if negb (is_relative_to resolved (root s)) || negb (is_file fs resolved) then
      Err (SourceStoreError "stored source path is invalid")
    else
      let? content := os_error_as (SourceStoreError "stored source could not be read") (read_file fs resolved) in
      let content := take (Z.to_nat (limit + 1)) content in
      if (limit <? Z.of_nat (length content))%Z then Err (SourceStoreError "stored source exceeds the size limit")
      else if negb (bool_decide (sha256_hex content = digest)) then
        Err (SourceStoreError "stored source digest does not match")
      else Ok content.

Section store.
  Context `{Zip} `{Process}.

Definition _put_bytes (s : t) (fresh project : uuid) (content : bytes) (version : string) : M tree StoredSource.t :=
  let digest := sha256_hex content in
  _atomic_write fresh (_source_path s project digest) content ;;;
  ret (StoredSource.mk (_reference project digest version) digest (Z.of_nat (length content))).

Definition put (s : t) (fresh project : uuid) (content : string) : M tree StoredSource.t :=
  let encoded := utf8 content in
  if (maximum_bytes s <? Z.of_nat (length encoded))%Z then
    raise (SourceStoreError "source content exceeds the 1 MiB limit")
  else _put_bytes s fresh project encoded "v1".

Definition put_archive (s : t) (fresh project : uuid) (content : bytes) : M tree StoredSource.t :=
  if nilb content || (MAX_ARCHIVE_BYTES <? Z.of_nat (length content))%Z then
    raise (SourceStoreError "project ZIP must be between 1 byte and 10 MiB")
  else
    let* _ := lift (_archive_entries content true) in
    _put_bytes s fresh project content "v2".

Definition mismatch : exn := SourceStoreError "source reference does not match the project or digest".
Definition limit_of (s : t) (version : string) : Z :=
  if bool_decide (version = "v1") then maximum_bytes s else MAX_ARCHIVE_BYTES.
Definition no_entrypoint : exn := SourceStoreError "entrypoint does not exist in the project archive".

Definition validate_local (s : t) (fs : tree) (project : uuid) (source_ref digest entrypoint : string) : res unit :=
  let? ' (version, referenced_project, referenced_digest) := _parse_reference source_ref in
  if negb (bool_decide (referenced_project = project)) || negb (bool_decide (referenced_digest = digest))
  then Err mismatch
  else
    let? relative := _entrypoint entrypoint in
    let? content := _verified_content s fs project digest (limit_of s version) in
    if bool_decide (version = "v2") then
      let? entries := _archive_entries content false in
      if has_key (text_of relative) entries then Ok tt else Err no_entrypoint
    else Ok tt.

(** The end of [materialize] for a single file. *)
Definition place_file (fresh : uuid) (root relative : path) (content : bytes) : M tree path :=
  let destination := root ++ relative in
  let* fs := get in
  let* parent := lift (Path_resolve false fs (parent_of destination)) in
  if negb (is_relative_to parent root) then raise (SourceStoreError "entrypoint escapes the workspace")
  else
    makedirs (parent_of destination) ;;;
    let* fs := get in
    if is_symlink fs destination then raise (SourceStoreError "entrypoint symlinks are not allowed")
    else
      let target := parent ++ [name_of destination] in
      _atomic_write fresh target content ;;;
      ret target.

Definition materialize (s : t) (fresh : nat -> uuid) (project : uuid) (source_ref digest entrypoint : string)
    (workspace : path) : M tree path :=
  let* ' (version, referenced_project, referenced_digest) := lift (_parse_reference source_ref) in
  if negb (bool_decide (referenced_project = project)) then
    raise (SourceStoreError "source reference belongs to a different project")
  else if negb (hex_text 64 digest) then raise (SourceStoreError "content digest is invalid")
  else if negb (bool_decide (digest = referenced_digest)) then
    raise (SourceStoreError "source reference and digest do not match")
  else
    let* relative := lift (_entrypoint entrypoint) in
    let* fs := get in
    let* content := lift (_verified_content s fs project digest (limit_of s version)) in
    let* root := lift (Path_resolve false fs workspace) in
    makedirs root ;;;
    if bool_decide (version = "v2") then
      let* files := _extract_archive content root fresh in
      if bool_decide (text_of relative ∈ files) then ret (root ++ relative) else raise no_entrypoint
    else place_file (fresh 0%nat) root relative content.
End store.
End LocalSourceStore.
