(* ===== verification/SourceStoreTheorems.v ===== *)
(** * Facts about the source store

    Every write goes through a temporary file in the directory of its target; links in
    the workspace are met before anything is written through them. *)
From stdpp Require Import gmap strings.
From S2P Require Import Prelude PyDict PyText TextFacts Protocol Sha256 Codecs Templates Urls Files FileFacts SourceStore.
Open Scope string_scope.
Open Scope list_scope.

Section facts.
  Context `{Zip} `{Process}.

(** ** A file put in place through a temporary one *)

Definition staged {A} (m : Z) (temporary target : path) (content : bytes) (outcome : res A) : M tree A :=
  try_finally
    (write_new m temporary content ;;;
     let* x := lift outcome in
     replace temporary target ;;;
     ret x)
    (unlink temporary).

Lemma unlink_self fs d c : tree_ok fs -> dir_at fs d -> c <> ".." ->
  unlink (d ++ [c]) fs = match fs !! (d ++ [c]) with
                         | None => (Ok tt, fs)
                         | Some (Directory _) => (Err EISDIR, fs)
                         | Some _ => (Ok tt, delete (d ++ [c]) fs)
                         end.
Proof. intros T Hd Hc. unfold unlink. rewrite locate_self by done. by rewrite node_at_snoc. Qed.

Lemma dir_insert_file fs d c content a : dir_at fs d -> d <> d ++ [c] ->
  dir_at (<[d ++ [c] := File content a]> fs) d.
Proof.
  intros [x Hx] Hne. exists x. rewrite node_at_insert by apply snoc_not_nil.
  by rewrite decide_False by done.
Qed.

Lemma snoc_ne (d : path) c : d <> d ++ [c].
Proof. intros E. apply (f_equal length) in E. rewrite length_app in E. simpl in E. lia. Qed.

Lemma snoc_inj (d : path) c c' : d ++ [c] = d ++ [c'] -> c = c'.
Proof. by intros [_ ?]%app_inj_tail. Qed.

Lemma staged_spec {A} m fs d name tmp content (outcome : res A) r fs' :
  tree_ok fs -> dir_at fs d -> name <> ".." -> tmp <> ".." -> tmp <> name ->
  staged m (d ++ [tmp]) (d ++ [name]) content outcome fs = (r, fs') ->
  tree_ok fs' /\ (forall q, q <> d ++ [name] -> q <> d ++ [tmp] -> fs' !! q = fs !! q)
  /\ match r with
     | Ok x => outcome = Ok x /\ fs !! (d ++ [tmp]) = None /\ ~ dir_at fs (d ++ [name])
               /\ fs' = <[d ++ [name] := File content (created m)]> fs
     | Err _ => fs' !! (d ++ [name]) = fs !! (d ++ [name]) /\ (fs !! (d ++ [tmp]) = None -> fs' = fs)
     end.
Proof.
  intros T Hd Hname Htmp Hne. set (f := File content (created m)).
  assert (d ++ [tmp] <> d ++ [name]) as Hpne by by intros ?%snoc_inj.
  unfold staged, try_finally, bind, write_new. rewrite locate_self, node_at_snoc by done.
  destruct (fs !! (d ++ [tmp])) as [n|] eqn:Et.
  { (* the temporary name is taken *)
    rewrite unlink_self, Et by done.
    assert (forall m, m = Some n -> ~ (exists a, n = Directory a) ->
      tree_ok (delete (d ++ [tmp]) fs) /\ (forall q, q <> d ++ [name] -> q <> d ++ [tmp] ->
        delete (d ++ [tmp]) fs !! q = fs !! q)
      /\ delete (d ++ [tmp]) fs !! (d ++ [name]) = fs !! (d ++ [name])
      /\ (Some n = None -> delete (d ++ [tmp]) fs = fs)) as Hdel.
    { intros _ _ Hn. split; [| split_and!; [intros; by rewrite lookup_delete_ne.. | done]].
      apply tree_ok_delete; [done |]. intros [a Ha]. rewrite node_at_snoc, Et in Ha. apply Hn. exists a. congruence. }
    destruct n; intros [= <- <-]; try (by split_and!);
      apply (Hdel _ eq_refl); by intros [? [=]]. }
  set (fs1 := <[d ++ [tmp] := f]> fs).
  assert (tree_ok fs1) as T1.
  { apply tree_ok_insert; [done..|]. intros [a Ha]. rewrite node_at_snoc in Ha. congruence. }
  assert (dir_at fs1 d) as Hd1 by (apply dir_insert_file; [done | apply snoc_ne]).
  assert (delete (d ++ [tmp]) fs1 = fs) as Hback by by apply delete_insert_id.
  assert (unlink (d ++ [tmp]) fs1 = (Ok tt, fs)) as Hu.
  { rewrite unlink_self by done. unfold fs1 at 1. rewrite lookup_insert_eq. by rewrite Hback. }
  unfold lift. destruct outcome as [x|e].
  2: { cbn beta iota. fold f. fold fs1. rewrite Hu. intros [= <- <-]. done. }
  cbn beta iota. fold f. fold fs1. unfold replace. rewrite !locate_self by done. rewrite !node_at_snoc.
  unfold fs1 at 1 2. rewrite lookup_insert_eq, lookup_insert_ne by done.
  assert ((exists a, fs !! (d ++ [name]) = Some (Directory a)) \/ ~ dir_at fs (d ++ [name])) as [[a Ha]|Hn].
  { destruct (fs !! (d ++ [name])) as [[| a |]|] eqn:En; [right | left; by exists a | right..];
      intros [a' Ha']; rewrite node_at_snoc in Ha'; congruence. }
  { rewrite Ha. unfold f at 1. cbn beta iota. rewrite Hu. intros [= <- <-]. done. }
  assert (match fs !! (d ++ [name]) with Some (Directory _) => False | _ => True end) as Hnd.
  { destruct (fs !! (d ++ [name])) as [[| a |]|] eqn:En; [done | | done..]. apply Hn. exists a. by rewrite node_at_snoc. }
  assert (tree_ok (<[d ++ [name] := f]> fs)) as T2 by by apply tree_ok_insert.
  assert (unlink (d ++ [tmp]) (<[d ++ [name] := f]> fs) = (Ok tt, <[d ++ [name] := f]> fs)) as Hu2.
  { rewrite unlink_self; [| done | apply dir_insert_file; [done | apply snoc_ne] | done].
    by rewrite lookup_insert_ne, Et. }
  destruct (fs !! (d ++ [name])) as [[| |]|] eqn:En; try done; unfold ret; cbn beta iota; rewrite Hback; fold f; rewrite Hu2;
    intros [= <- <-]; (split; [done |]); (split; [intros; by rewrite lookup_insert_ne |]); done.
Qed.

(** *** [_atomic_write] and [_atomic_write_stream] *)

Lemma hex_plain n u : all_chars is_hex (hex n u) = true.
Proof. apply is_hex_hex. Qed.

Definition temporary_name (fresh : uuid) : string := ("." ++ hex 32 fresh ++ ".tmp")%string.
Lemma temporary_name_plain fresh : temporary_name fresh <> "..".
Proof.
  intros E. apply (f_equal String.length) in E. unfold temporary_name in E.
  rewrite !str_length_app in E. simpl in E. lia.
Qed.

Lemma atomic_write_staged fresh d name content fs : tree_ok fs -> dir_at fs d ->
  _atomic_write fresh (d ++ [name]) content fs
  = staged 384 (d ++ [temporary_name fresh]) (d ++ [name]) content (Ok tt) fs.
Proof.
  intros T Hd. unfold _atomic_write. rewrite parent_of_snoc. unfold bind at 1.
  rewrite makedirs_existing by done. unfold staged, try_finally, bind, lift, ret.
  destruct (write_new _ _ _ fs) as [[[]|e] fs1]; [| done]. cbn beta iota.
  by destruct (replace _ _ fs1) as [[[]|e] fs2].
Qed.

(** The bytes of a stream: up to the first empty chunk. *)
Fixpoint payload (chunks : list bytes) : bytes :=
  match chunks with [] => [] | c :: rest => if nilb c then [] else c ++ payload rest end.

Definition entry_payload (content : bytes) (info : ZipInfo.t) : bytes :=
  match entry_stream content info with Ok (chunks, _) => payload chunks | Err _ => [] end.

Lemma copy_stream_Ok remaining copied written chunks stop w n :
  (copied <= remaining)%Z -> copied = Z.of_nat (length written) ->
  copy_stream remaining copied written chunks stop = (w, Ok n) ->
  w = written ++ payload chunks /\ n = Z.of_nat (length w) /\ (n <= remaining)%Z.
Proof.
  revert copied written. induction chunks as [|c rest IH]; intros copied written Hle Hc; cbn [copy_stream payload].
  - destruct stop; intros [= <- <-]. by rewrite app_nil_r.
  - destruct (nilb c); [intros [= <- <-]; by rewrite app_nil_r |].
    destruct (Z.ltb_spec remaining (copied + Z.of_nat (length c))); [done |].
    intros Hr. apply IH in Hr; [| lia | rewrite length_app; lia]. by rewrite app_assoc.
Qed.

Definition stream_name (name : string) (fresh : uuid) : string := ("." ++ name ++ "." ++ hex 32 fresh ++ ".tmp")%string.
Lemma stream_name_ne name fresh : stream_name name fresh <> name /\ stream_name name fresh <> "..".
Proof.
  unfold stream_name. split; intros E; apply (f_equal String.length) in E; rewrite !str_length_app in E; simpl in E; lia.
Qed.

Lemma stream_write_staged fresh d name source remaining :
  _atomic_write_stream fresh (d ++ [name]) source remaining
  = let '(written, outcome) := copy_stream remaining 0 [] source.1 source.2 in
    staged 384 (d ++ [stream_name name fresh]) (d ++ [name]) written outcome.
Proof.
  unfold _atomic_write_stream, with_name. rewrite parent_of_snoc, name_of_snoc.
  by destruct (copy_stream _ _ _ _ _).
Qed.

(** ** The directories of an archive *)

Lemma resolve_step fs d c : tree_ok fs -> dir_at fs d -> c <> ".." -> is_symlink fs (d ++ [c]) = false ->
  resolve false fs (d ++ [c]) = Ok (d ++ [c]).
Proof.
  intros T Hd Hc Hs. unfold resolve. rewrite <- (app_nil_l d) in Hd |- * at 1.
  rewrite walk_dirs by done. cbn [app] in *. rewrite walk_cons by done. rewrite node_at_snoc.
  unfold is_symlink in Hs. rewrite lstat_self in Hs by done.
  by destruct (fs !! (d ++ [c])) as [[| |]|]; rewrite ?walk_nil.
Qed.

Lemma dirs_added_longer fs fs' P q : dirs_added fs fs' P -> dirs_added fs fs' (P ++ q).
Proof.
  intros D. split; [apply D | | apply D]. intros p. destruct (da_nodes _ _ _ D p) as [?|(? & ? & s & ->)]; [by left |].
  right. split; [done |]. split; [done |]. exists (s ++ q). by rewrite app_assoc.
Qed.

Lemma make_parts_spec current parts fs r fs' :
  tree_ok fs -> dir_at fs current -> ".." ∉ parts ->
  make_parts current parts fs = (r, fs') ->
  dirs_added fs fs' (current ++ parts) /\ match r with Ok _ => dir_at fs' (current ++ parts) | Err _ => True end.
Proof.
  revert current fs r fs'. induction parts as [|c parts IH]; intros current fs r fs' T Hd Hp.
  { cbn [make_parts]. intros [= <- <-]. rewrite app_nil_r. split; [by apply dirs_added_refl | done]. }
  apply not_elem_of_cons in Hp as [Hc Hp]. cbn [make_parts]. unfold bind, get. cbn beta iota.
  destruct (is_symlink fs (current ++ [c])) eqn:Es; cbn [orb].
  { unfold zip_conflict, raise. intros [= <- <-]. split; [by apply dirs_added_refl | done]. }
  destruct (exists_at fs (current ++ [c]) && negb (is_dir fs (current ++ [c]))).
  { unfold zip_conflict, raise. intros [= <- <-]. split; [by apply dirs_added_refl | done]. }
  destruct (mkdir 511 true (current ++ [c]) fs) as [r1 fs1] eqn:E1.
  destruct (mkdir_spec 511 fs (current ++ [c]) (current ++ [c]) r1 fs1) as [D1 H1]; [done | | by apply resolve_step | done |].
  { pose proof (dir_plain _ _ T Hd). rewrite elem_of_app, list_elem_of_singleton. naive_solver. }
  assert (current ++ c :: parts = (current ++ [c]) ++ parts) as Ep by by rewrite <- app_assoc.
  rewrite Ep. destruct r1 as [[]|e].
  - intros E2. apply IH in E2 as [D2 H2]; [| apply D1 | done | done]. split; [| done].
    eapply dirs_added_trans; [apply dirs_added_longer, D1 | done].
  - intros [= <- <-]. split; [apply dirs_added_longer, D1 | done].
Qed.

Lemma relative_parts_app root s : relative_parts (root ++ s) root = Ok s.
Proof.
  unfold relative_parts. rewrite (proj2 (is_relative_to_spec _ _)) by by exists s. by rewrite drop_app_length.
Qed.

(** The entry that denotes the root itself is refused. *)
Lemma safe_parent_self root fs : root <> [] ->
  _safe_archive_parent root (parent_of root) fs = (Err (ValueError "is not in the subpath"), fs).
Proof.
  intros Hr. unfold _safe_archive_parent, relative_parts, bind, lift.
  destruct (is_relative_to (parent_of root) root) eqn:E; [exfalso | done].
  destruct (snoc_cases root) as [->|(q & c & ->)]; [done |]. rewrite parent_of_snoc in E.
  apply is_relative_to_spec in E as [s E]. apply (f_equal length) in E. rewrite !length_app in E. simpl in E. lia.
Qed.

(** A place that neither exists nor is a link is free. *)
Lemma free_place fs d c : tree_ok fs -> dir_at fs d -> c <> ".." ->
  exists_at fs (d ++ [c]) || is_symlink fs (d ++ [c]) = false -> fs !! (d ++ [c]) = None.
Proof.
  intros T Hd Hc [He Hs]%orb_false_iff. unfold is_symlink in Hs. rewrite lstat_self in Hs by done.
  unfold exists_at, stat, resolve in He. rewrite <- (app_nil_l d) in He at 1. rewrite walk_dirs in He by done.
  cbn [app] in He. rewrite walk_cons, node_at_snoc in He by done.
  destruct (fs !! (d ++ [c])) as [[| |]|] eqn:E; try done; rewrite ?walk_nil in He; cbn [rbind] in He;
    by rewrite node_at_snoc, E in He.
Qed.

(** ** Extraction *)

(** Directories made below an existing [root] lie in it. *)
Lemma dirs_added_inside fs fs' root s : tree_ok fs -> dir_at fs root -> dirs_added fs fs' (root ++ s) ->
  outside_same root fs fs'.
Proof.
  intros T Hd D q Hq. destruct q as [|x0 q]; [by rewrite (tk_root _ T), (tk_root _ (da_ok _ _ _ D)) |].
  destruct (da_nodes _ _ _ D (x0 :: q)) as [?|(Hn & _ & x & Ex)]; [done | exfalso].
  apply not_true_iff_false in Hq. apply Hq, is_relative_to_spec.
  destruct (app_prefix_cases _ _ _ _ Ex) as [[e ->]|[e ->]]; [by exists e |].
  destruct e as [|c e]; [exists []; by rewrite !app_nil_r |].
  destruct (node_ancestor fs (x0 :: q) (c :: e) T) as [a Ha];
    [destruct Hd as [a Ha]; exists (Directory a); exact Ha | done |].
  cbn [node_at] in Ha. congruence.
Qed.

Definition extracted (content : bytes) (root : path) (fs' : tree) (entry : string * ZipInfo.t) : Prop :=
  fs' !! (root ++ parts_of entry.1)
  = Some (File (entry_payload content entry.2) (created 384)).

Lemma dirs_added_keeps fs fs' P q n : dirs_added fs fs' P -> fs !! q = Some n -> fs' !! q = Some n.
Proof. intros D Hn. destruct (da_nodes _ _ _ D q) as [E|[E _]]; congruence. Qed.

Lemma extract_entry_spec content root fresh remaining name info fs r fs' :
  tree_ok fs -> dir_at fs root -> (0 <= remaining)%Z -> ".." ∉ parts_of name -> root <> [] ->
  extract_entry content root fresh remaining name info fs = (r, fs') ->
  tree_ok fs' /\ outside_same root fs fs'
  /\ match r with
     | Ok n => dir_at fs' root /\ (forall q x, fs !! q = Some x -> fs' !! q = Some x)
               /\ extracted content root fs' (name, info)
               /\ n = Z.of_nat (length (entry_payload content info)) /\ (n <= remaining)%Z
     | Err _ => True
     end.
Proof.
  intros T Hd He Hdots Hroot. unfold extract_entry. cbv zeta. unfold bind at 1.
  destruct (snoc_cases (parts_of name)) as [E|(pp & c & E)]; rewrite E in *.
  { rewrite app_nil_r, safe_parent_self by done. intros [= <- <-]. by split_and!. }
  rewrite app_assoc, parent_of_snoc. unfold _safe_archive_parent. rewrite relative_parts_app.
  unfold bind at 1, lift. cbn beta iota. destruct (make_parts root pp fs) as [r1 fs1] eqn:E1.
  rewrite elem_of_app, list_elem_of_singleton in Hdots.
  destruct (make_parts_spec root pp fs r1 fs1 T Hd) as [D1 H1]; [tauto | done |].
  pose proof (dirs_added_inside fs fs1 root pp T Hd D1) as O1.
  destruct r1 as [[]|e]; [| intros [= <- <-]; split_and!; [apply D1 | done | done]].
  unfold bind at 1, get. cbn beta iota.
  destruct (exists_at fs1 _ || is_symlink fs1 _) eqn:Efree.
  { unfold raise. intros [= <- <-]. split_and!; [apply D1 | done | done]. }
  unfold bind. destruct (entry_stream content info) as [[chunks stop]|e] eqn:Es.
  2: { intros [= <- <-]. split_and!; [apply D1 | done | done]. }
  cbn beta iota. rewrite stream_write_staged. cbn [fst snd].
  destruct (copy_stream _ 0 [] _ _) as [w o] eqn:Ec. intros E2.
  destruct (stream_name_ne c fresh) as [Hn1 Hn2].
  destruct (staged_spec 384 fs1 (root ++ pp) c (stream_name c fresh) w o r fs') as (T2 & Hs2 & H2);
    [apply D1 | done | naive_solver | done | done | done |].
  split; [done |]. split.
  { intros q Hq. rewrite Hs2; [by apply O1 | |]; (eapply outside_snoc; [done |]; by eexists). }
  destruct r as [n|e]; [| done]. destruct H2 as (-> & Htmp & Hnd & ->).
  apply copy_stream_Ok in Ec as (-> & -> & Hle); [| lia | done]. cbn [app] in *.
  assert (entry_payload content info = payload chunks) as -> by (unfold entry_payload; by rewrite Es).
  split_and!; [| | | done | done].
  - eapply dirs_added_dir in Hd; [| exact D1]. destruct Hd as [a Ha]. exists a.
    rewrite node_at_insert by apply snoc_not_nil. rewrite decide_False; [done |].
    intros Eq. apply (f_equal length) in Eq. rewrite !length_app in Eq. simpl in Eq. lia.
  - intros q x Hx. apply (dirs_added_keeps _ _ _ _ _ D1) in Hx as Hx1.
    rewrite lookup_insert_ne; [done |]. intros <-.
    rewrite free_place in Hx1; [done | apply D1 | done | naive_solver | done].
  - unfold extracted, entry_payload. cbn [fst snd]. rewrite E, Es, app_assoc. by rewrite lookup_insert_eq.
Qed.

Lemma extract_entries_spec content root fresh i expanded entries fs r fs' :
  tree_ok fs -> dir_at fs root -> (0 <= expanded <= MAX_ARCHIVE_EXPANDED_BYTES)%Z ->
  (forall e, e ∈ entries -> ".." ∉ parts_of e.1) -> root <> [] ->
  extract_entries content root fresh i expanded entries fs = (r, fs') ->
  tree_ok fs' /\ outside_same root fs fs'
  /\ match r with
     | Ok _ => (forall q n, fs !! q = Some n -> fs' !! q = Some n)
               /\ (forall e, e ∈ entries -> extracted content root fs' e)
               /\ (expanded + Z.of_nat (length (concat (map (fun e => entry_payload content e.2) entries)))
                   <= MAX_ARCHIVE_EXPANDED_BYTES)%Z
     | Err _ => True
     end.
Proof.
  revert i expanded fs. induction entries as [|[name info] rest IH]; intros i expanded fs T Hd He Hsafe Hroot.
  { cbn [extract_entries]. intros [= <- <-]. split_and!; try done; [| by cbn; lia].
    intros e Hin. by apply elem_of_nil in Hin. }
  cbn [extract_entries]. unfold bind at 1. destruct (extract_entry _ _ _ _ _ _ fs) as [r1 fs1] eqn:E1.
  apply extract_entry_spec in E1 as (T1 & O1 & H1);
    [| done | done | lia | by apply (Hsafe (name, info)); left | done].
  destruct r1 as [n|e]; [| by intros [= <- <-]]. destruct H1 as (Hd1 & Hkeep1 & Hex & -> & Hle).
  intros Hrest. apply IH in Hrest as (T3 & O3 & H3); [| done | done | lia | intros e Hin; apply Hsafe; by right | done].
  split; [done |]. split; [intros q Hq; rewrite O3 by done; by apply O1 |].
  destruct r as [[]|e]; [| done]. destruct H3 as (Hkeep & Hall & Hsum). split_and!.
  - intros q x Hx. by apply Hkeep, Hkeep1.
  - intros e [->|Hin]%elem_of_cons; [| by apply Hall]. by apply Hkeep.
  - cbn [map concat snd]. rewrite length_app. lia.
Qed.
End facts.

(** * Properties of the source store

    Whatever the workspace and the archive hold, materialising writes below the
    workspace only, and what it writes is what was stored under the digest. *)
Import LocalSourceStore.
Open Scope string_scope.
Open Scope list_scope.

(** ** Paths *)

Lemma archive_path_Ok v parts : _archive_path v = Ok parts ->
  parts_of (text_of parts) = parts /\ ".." ∉ parts.
Proof.
  unfold _archive_path. case_match; [done |]. set (n := if ends_with "/" v then _ else _).
  destruct (_ || existsb _ (parts_of n)) eqn:E; [done |]. intros [= <-].
  apply orb_false_iff in E as [E Hparts]. apply orb_false_iff in E as [E Htext].
  apply orb_false_iff in E as [_ Habs]. apply negb_false_iff, bool_decide_eq_true in Htext.
  rewrite text_of_parts by done. split; [done |]. intros Hin.
  assert (existsb (fun part => bool_decide (part ∈ [EmptyString; "."; ".."]) || has_char colon part) (parts_of n) = true);
    [| congruence].
  apply existsb_exists. exists "..". split; [by apply list_elem_of_In |].
  rewrite bool_decide_true; [done |]. rewrite !elem_of_cons. auto.
Qed.

Lemma entrypoint_Ok v parts : _entrypoint v = Ok parts ->
  parts_of (text_of parts) = parts /\ ".." ∉ parts /\ parts <> [] /\ text_of parts = v.
Proof.
  unfold _entrypoint. case_match; [done |].
  destruct (_ || existsb (has_char colon) (parts_of v)) eqn:E; [done |]. intros [= <-].
  repeat (apply orb_false_iff in E as [E ?]). bool_prop.
  assert (text_of (parts_of v) = v) as Ht by by apply text_of_parts.
  rewrite Ht. split_and!; try done.
  match goal with Hn : empty_str (name_of (parts_of v)) = false |- _ => intros En; by rewrite En in Hn end.
Qed.

(** The entries of an archive have safe paths. *)
Lemma scan_entries_safe infos entries names total entries' names' :
  (forall name info, entries !! name = Some info -> ".." ∉ parts_of name) ->
  scan_entries infos entries names total = Ok (entries', names') ->
  forall name info, entries' !! name = Some info -> ".." ∉ parts_of name.
Proof.
  revert entries names total. induction infos as [|info rest IH]; intros entries names total He; cbn [scan_entries].
  { by intros [= <- <-]. }
  intros (parts & Hp & Hrest)%rbind_Ok. apply archive_path_Ok in Hp as [Hp Hdots].
  destruct (negb _) in Hrest; [done |]. destruct (_ || _) in Hrest; [done |].
  destruct (has_key _ _) in Hrest; [done |]. destruct (ZipInfo.is_dir info); [by eapply IH |].
  destruct (_ <=? _)%Z in Hrest; [done |]. destruct (_ <? _)%Z in Hrest; [done |].
  eapply IH; [| exact Hrest]. intros name x Hx. dict_case. by eapply He.
Qed.

Section theorems.
  Context `{Zip} `{Process}.

Lemma archive_entries_safe content verify entries name info :
  _archive_entries content verify = Ok entries -> (name, info) ∈ items entries -> ".." ∉ parts_of name.
Proof.
  unfold _archive_entries. destruct (read_entries content verify) as [es|e] eqn:E; [| by case_match].
  intros [= ->] Hin%elem_of_items. unfold read_entries in E.
  apply rbind_Ok in E as (infos & _ & E). apply rbind_Ok in E as ([es names] & Es & E).
  apply rbind_Ok in E as (_ & _ & E). destruct (nilb (items es)); [done |].
  apply rbind_Ok in E as (_ & _ & [= ->]). eapply scan_entries_safe; [| exact Es | exact Hin].
  intros n x Hx. by rewrite dict_lookup_empty in Hx || discriminate Hx.
Qed.

(** ** What materialising may change, and what it leaves *)

Definition confined (root : path) (fs fs' : tree) : Prop :=
  forall q, is_relative_to q root = false ->
    fs' !! q = fs !! q \/ (fs !! q = None /\ dir_at fs' q /\ is_relative_to root q = true).

Lemma confined_refl root fs : confined root fs fs.
Proof. by left. Qed.

Lemma confined_outside root fs fs1 fs' : confined root fs fs1 -> outside_same root fs1 fs' -> confined root fs fs'.
Proof.
  intros C O q Hq. rewrite (O q Hq). destruct (C q Hq) as [?|(? & [a Ha] & ?)]; [by left | right].
  split; [done |]. split; [| done]. exists a. destruct q as [|c q]; [done |]. cbn [node_at] in *. by rewrite (O _ Hq).
Qed.

Lemma dirs_added_confined root fs fs' : dirs_added fs fs' root -> confined root fs fs'.
Proof.
  intros D q _. destruct (da_nodes _ _ _ D q) as [?|(? & ? & s & ->)]; [by left | right].
  split; [done |]. split; [done |]. apply is_relative_to_spec. by exists s.
Qed.

(** The outcome of [materialize]: [content] was stored under [digest]. *)
Definition source_written (version digest : string) (parts root target : path) (fs fs' : tree) : Prop :=
  exists content, sha256_hex content = digest /\
  (if decide (version = "v2") then
     exists entries, _archive_entries content false = Ok entries
     /\ target = root ++ parts /\ parts_of (text_of parts) = parts /\ is_Some (entries !! text_of parts)
     /\ (forall e, e ∈ items entries -> extracted content root fs' e)
     /\ (forall q n, fs !! q = Some n -> fs' !! q = Some n)
     /\ (Z.of_nat (length (concat (map (fun e => entry_payload content e.2) (items entries))))
         <= MAX_ARCHIVE_EXPANDED_BYTES)%Z
   else fs' !! target = Some (File content (created 384)) /\ is_relative_to target root = true).

Lemma extract_archive_spec content root fresh fs r fs' :
  tree_ok fs -> dir_at fs root -> root <> [] -> _extract_archive content root fresh fs = (r, fs') ->
  tree_ok fs' /\ outside_same root fs fs'
  /\ match r with
     | Ok files => exists entries, _archive_entries content false = Ok entries /\ files = keys entries
         /\ (forall q n, fs !! q = Some n -> fs' !! q = Some n)
         /\ (forall e, e ∈ items entries -> extracted content root fs' e)
         /\ (Z.of_nat (length (concat (map (fun e => entry_payload content e.2) (items entries))))
             <= MAX_ARCHIVE_EXPANDED_BYTES)%Z
     | Err _ => True
     end.
Proof.
  intros T Hd Hr. unfold _extract_archive, bind, lift, ret.
  destruct (_archive_entries content false) as [entries|e] eqn:Ee; [| by intros [= <- <-]].
  destruct (extract_entries _ _ _ _ _ _ fs) as [r1 fs1] eqn:E1.
  apply extract_entries_spec in E1 as (T1 & O1 & H1); [| done | done | done | | done].
  2: { intros [name info] Hin. by eapply archive_entries_safe. }
  destruct r1 as [[]|e]; intros [= <- <-]; [| done]. split; [done |]. split; [done |].
  destruct H1 as (? & ? & ?). by exists entries.
Qed.

(** The last step of a single file: the directory of the target, then the file. *)
Lemma place_file_spec fresh root relative content fs r fs' :
  tree_ok fs -> dir_at fs root -> ".." ∉ relative -> relative <> [] ->
  name_of relative <> temporary_name fresh ->
  place_file fresh root relative content fs = (r, fs') ->
  tree_ok fs' /\ outside_same root fs fs'
  /\ match r with
     | Ok target => fs' !! target = Some (File content (created 384)) /\ is_relative_to target root = true
     | Err _ => True
     end.
Proof.
  intros T Hd Hdots Hne Htmp. destruct (snoc_cases relative) as [->|(pp & c & ->)]; [done |].
  unfold place_file. cbv zeta. rewrite app_assoc, parent_of_snoc, name_of_snoc in *.
  rewrite elem_of_app, list_elem_of_singleton in Hdots.
  unfold bind at 1 2, get, lift at 1. cbn beta iota.
  destruct (Path_resolve false fs (root ++ pp)) as [parent|e] eqn:Hp; [| by intros [= <- <-]].
  apply Path_resolve_Ok in Hp. destruct (is_relative_to parent root) eqn:Hin; cbn [negb]; [| by intros [= <- <-]].
  apply is_relative_to_spec in Hin as [s ->].
  assert (".." ∉ root ++ pp) as Hplain.
  { pose proof (dir_plain _ _ T Hd). rewrite elem_of_app. tauto. }
  unfold bind at 1. destruct (makedirs (root ++ pp) fs) as [r1 fs1] eqn:E1.
  destruct (makedirs_spec fs (root ++ pp) (root ++ s) r1 fs1) as [D1 H1]; [done..|].
  pose proof (dirs_added_inside fs fs1 root s T Hd D1) as O1.
  destruct r1 as [[]|e]; [| by intros [= <- <-]; split; [apply D1 |]].
  unfold bind at 1. cbn beta iota. destruct (is_symlink fs1 _).
  { unfold raise. intros [= <- <-]. by split; [apply D1 |]. }
  unfold bind, ret. rewrite atomic_write_staged by (done || apply D1).
  destruct (staged _ _ _ _ _ fs1) as [r2 fs2] eqn:E2.
  destruct (staged_spec 384 fs1 (root ++ s) c (temporary_name fresh) content (Ok tt) r2 fs2) as (T2 & Hs2 & H2);
    [apply D1 | done | naive_solver | apply temporary_name_plain | done | done |].
  assert (outside_same root fs fs2) as O2.
  { intros q Hq. rewrite Hs2; [by apply O1 | |]; (eapply outside_snoc; [done |]; by eexists). }
  destruct r2 as [[]|e]; intros [= <- <-]; (split; [done |]; split; [done |]); [| done].
  destruct H2 as (_ & _ & _ & ->). rewrite lookup_insert_eq. split; [done |].
  apply is_relative_to_spec. exists (s ++ [c]). by rewrite app_assoc.
Qed.

Lemma verified_content_Ok s fs project digest limit content :
  _verified_content s fs project digest limit = Ok content ->
  sha256_hex content = digest /\ (Z.of_nat (length content) <= limit)%Z.
Proof.
  unfold _verified_content. case_match; [done |]. intros (resolved & _ & E)%rbind_Ok. case_match; [done |].
  apply rbind_Ok in E as (c & _ & E). case_match; [done |]. revert E. case_bool_decide; [| done].
  intros [= <-]. split; [done | lia].
Qed.

(** What [materialize] did, in the terms of both properties. *)
Definition materialized (source_ref digest entrypoint : string) (project : uuid) (root : path)
    (fs : tree) (r : res path) (fs' : tree) : Prop :=
  tree_ok fs' /\ confined root fs fs'
  /\ match r with
     | Ok target => exists version, _parse_reference source_ref = Ok (version, project, digest)
                    /\ source_written version digest (parts_of entrypoint) root target fs fs'
     | Err _ => True
     end.

Lemma dirs_added_all_kept fs fs' P : dirs_added fs fs' P -> forall q n, fs !! q = Some n -> fs' !! q = Some n.
Proof. intros D q n. by apply dirs_added_keeps with P. Qed.

Lemma materialize_archive source_ref digest entrypoint project root relative content fresh fs fs1 r fs' :
  _parse_reference source_ref = Ok ("v2", project, digest) -> sha256_hex content = digest ->
  parts_of entrypoint = relative -> parts_of (text_of relative) = relative -> root <> [] ->
  dirs_added fs fs1 root -> dir_at fs1 root ->
  (let* files := _extract_archive content root fresh in
   if bool_decide (text_of relative ∈ files) then ret (root ++ relative) else raise no_entrypoint) fs1 = (r, fs') ->
  materialized source_ref digest entrypoint project root fs r fs'.
Proof.
  intros Href Hsum Hrel Hback Hne D Hd. unfold bind at 1. destruct (_extract_archive content root fresh fs1) as [r1 fs2] eqn:E1.
  apply extract_archive_spec in E1 as (T2 & O2 & H2); [| apply D | done | done].
  pose proof (confined_outside _ _ _ _ (dirs_added_confined _ _ _ D) O2) as C.
  destruct r1 as [files|e]; [| by intros [= <- <-]].
  case_bool_decide as Hin; unfold ret, raise; intros [= <- <-]; [| done]. split; [done |]. split; [done |].
  exists "v2". split; [done |]. exists content. split; [done |]. rewrite decide_True by done.
  destruct H2 as (entries & He & -> & Hkeep & Hall & Hmax). exists entries. rewrite Hrel. split_and!; try done.
  - by apply elem_of_keys.
  - intros q n Hq. by apply Hkeep, (dirs_added_all_kept _ _ _ D).
Qed.

Lemma materialize_file source_ref digest entrypoint project root relative content fresh version fs fs1 r fs' :
  _parse_reference source_ref = Ok (version, project, digest) -> version <> "v2" -> sha256_hex content = digest ->
  parts_of entrypoint = relative -> ".." ∉ relative -> relative <> [] -> name_of relative <> temporary_name fresh ->
  dirs_added fs fs1 root -> dir_at fs1 root ->
  place_file fresh root relative content fs1 = (r, fs') ->
  materialized source_ref digest entrypoint project root fs r fs'.
Proof.
  intros Href Hv Hsum Hrel Hdots Hnil Htmp D Hd E1.
  apply place_file_spec in E1 as (T2 & O2 & H2); [| apply D | done..].
  pose proof (confined_outside _ _ _ _ (dirs_added_confined _ _ _ D) O2) as C.
  split; [done |]. split; [done |]. destruct r as [target|e]; [| done].
  exists version. split; [done |]. exists content. split; [done |]. by rewrite decide_False.
Qed.

Lemma materialize_spec s fresh project source_ref digest entrypoint workspace root fs r fs' :
  tree_ok fs -> Path_resolve false fs workspace = Ok root -> root <> [] ->
  name_of (parts_of entrypoint) <> temporary_name (fresh 0%nat) ->
  materialize s fresh project source_ref digest entrypoint workspace fs = (r, fs') ->
  materialized source_ref digest entrypoint project root fs r fs'.
Proof.
  intros T Hroot Hne Htmp. unfold materialize, bind at 1, lift.
  assert (forall e, (@Err path e, fs) = (r, fs') -> materialized source_ref digest entrypoint project root fs r fs')
    as Hstop by (intros e [= <- <-]; split_and!; [done | apply confined_refl | done]).
  destruct (_parse_reference source_ref) as [[[version p] d]|e] eqn:Eref; [| apply Hstop].
  cbn beta iota. unfold raise at 1 2 3. case_bool_decide; [subst p | apply Hstop]. cbn [negb].
  destruct (hex_text 64 digest); [| apply Hstop]. cbn [negb].
  case_bool_decide; [subst d | apply Hstop]. cbn [negb].
  unfold bind at 1. destruct (_entrypoint entrypoint) as [relative|e] eqn:Eentry; [| apply Hstop].
  apply entrypoint_Ok in Eentry as (Hback & Hdots & Hrel & Htext).
  assert (parts_of entrypoint = relative) as Eparts by by rewrite <- Htext.
  unfold bind at 1 2, get. cbn beta iota.
  destruct (_verified_content _ _ _ _ _) as [content|e] eqn:Ec; [| apply Hstop].
  apply verified_content_Ok in Ec as [Hsum _]. unfold bind at 1. rewrite Hroot.
  unfold bind at 1. destruct (makedirs root fs) as [r1 fs1] eqn:E1. apply Path_resolve_Ok in Hroot.
  pose proof (resolve_settled_result _ _ _ Hroot) as Hset.
  destruct (makedirs_spec fs root root r1 fs1) as [D1 H1]; [done | apply Hset | by apply resolve_settled | done |].
  destruct r1 as [[]|e].
  2: { intros [= <- <-]. split_and!; [apply D1 | by apply dirs_added_confined | done]. }
  case_bool_decide as Hv; [subst version; by eapply materialize_archive |].
  rewrite Eparts in Htmp. by eapply materialize_file.
Qed.
End theorems.
