(* ===== verification/SourceReferences.v ===== *)
(** * References and stored files

    A reference names its project and digest unambiguously, and what a write of the
    store puts in place is read back as it was. *)
From stdpp Require Import gmap strings.
From S2P Require Import Prelude PyDict PyText TextFacts Protocol Sha256 Codecs Templates Urls Files FileFacts SourceStore SourceStoreTheorems.
Import LocalSourceStore.
Open Scope string_scope.
Open Scope list_scope.

(** ** References *)

Lemma hex_text_hex d n : hex_text d (hex d n) = true.
Proof. unfold hex_text. by rewrite hex_length, Nat.eqb_refl, is_hex_hex. Qed.

Lemma hex_text_app a b s t : hex_text a s = true -> hex_text b t = true -> hex_text (a + b) (s ++ t)%string = true.
Proof.
  unfold hex_text. rewrite !andb_true_iff, !Nat.eqb_eq, all_chars_app, str_length_app. intros [-> ->] [-> ->]. done.
Qed.

Lemma hex_words_text l : hex_text (8 * length l) (join EmptyString (map (hex 8) l)) = true.
Proof.
  induction l as [|x l IH]; [done |]. destruct l as [|y l].
  - cbn [map join length]. apply hex_text_hex.
  - cbn [map join] in *. rewrite append_empty.
    replace (8 * length (x :: y :: l))%nat with (8 + 8 * length (y :: l))%nat by (simpl; lia).
    apply hex_text_app; [apply hex_text_hex | exact IH].
Qed.

Lemma sha256_hex_text m : hex_text 64 (sha256_hex m) = true.
Proof. unfold sha256_hex. pose proof (hex_words_text (sha256 m)) as Hx. by rewrite sha256_length in Hx. Qed.

(** Texts without a given character. *)
Definition lacks (c : Ascii.ascii) (s : string) : bool := all_chars (fun x => negb (Ascii.eqb x c)) s.

Lemma hex_text_lacks c n s : is_hex c = false -> hex_text n s = true -> lacks c s = true.
Proof.
  intros Hc [_ Hs]%andb_true_iff. eapply all_chars_impl; [| exact Hs]. intros x Hx.
  destruct (Ascii.eqb_spec x c) as [->|]; [congruence | done].
Qed.

Lemma join_lacks c l : lacks c "-" = true -> Forall (fun s => lacks c s = true) l -> lacks c (join "-" l) = true.
Proof.
  intros Hd. induction 1 as [|x l Hx Hl IH]; [done |]. destruct l as [|y l]; [exact Hx |].
  cbn [join] in *. unfold lacks in *. by rewrite !all_chars_app, Hx, Hd, IH.
Qed.

Lemma uuid_lacks_colon u : lacks colon (uuid_str u) = true.
Proof.
  unfold uuid_str. apply join_lacks; [done |].
  repeat constructor; (eapply hex_text_lacks; [done | apply hex_text_hex]).
Qed.

(** Cutting at a separator. *)
Lemma split_on_sep c w rest : lacks c w = true ->
  split_on c (w ++ String c EmptyString ++ rest)%string = w :: split_on c rest.
Proof. apply split_on_app. Qed.

Lemma uuid_pattern_str u : uuid_pattern (uuid_str u) = true.
Proof.
  assert (forall d n, lacks dash (hex d n) = true) as Hh
    by (intros d n; eapply hex_text_lacks; [done | apply hex_text_hex]).
  unfold uuid_pattern, uuid_str. cbn [join].
  rewrite !(split_on_sep dash) by apply Hh. rewrite split_on_none by apply Hh. by rewrite !hex_text_hex.
Qed.

Lemma match_reference_printed scheme versions version u digest :
  lacks colon scheme = true -> lacks colon version = true -> version ∈ versions ->
  hex_text 64 digest = true ->
  match_reference scheme versions (scheme ++ ":" ++ version ++ ":" ++ uuid_str u ++ ":sha256:" ++ digest)%string
  = Some (version, uuid_str u, digest).
Proof.
  intros Hs Hv Hin Hd. unfold match_reference.
  change (":sha256:" ++ ?t)%string with (":" ++ "sha256" ++ ":" ++ t)%string.
  rewrite !(split_on_sep colon) by (done || apply uuid_lacks_colon).
  rewrite split_on_none by (by eapply hex_text_lacks).
  rewrite !bool_decide_true by done. by rewrite uuid_pattern_str, Hd.
Qed.

Lemma parse_reference_printed project digest version :
  (project < 2 ^ 128)%N -> hex_text 64 digest = true -> version ∈ ["v1"; "v2"] ->
  _parse_reference (_reference project digest version) = Ok (version, project, digest).
Proof.
  intros Hp Hd Hv. unfold _parse_reference, parse_with, _reference.
  change ("local-source:" ++ ?t)%string with ("local-source" ++ ":" ++ t)%string.
  rewrite match_reference_printed; [| done | | done | done].
  - cbn [rbind]. rewrite uuid_of_str_str by done. cbn [rbind]. by rewrite bool_decide_true.
  - rewrite !elem_of_cons, elem_of_nil in Hv. by destruct Hv as [->|[->|[]]].
Qed.

Lemma parse_host_reference_printed project digest :
  (project < 2 ^ 128)%N -> hex_text 64 digest = true ->
  _parse_host_reference (_host_reference project digest) = Ok (project, digest).
Proof.
  intros Hp Hd. unfold _parse_host_reference, parse_with, _host_reference.
  change ("host-source:v1:" ++ ?t)%string with ("host-source" ++ ":" ++ "v1" ++ ":" ++ t)%string.
  rewrite match_reference_printed; [| done | done | by apply list_elem_of_singleton | done].
  cbn [rbind]. rewrite uuid_of_str_str by done. cbn [rbind]. by rewrite bool_decide_true.
Qed.

Lemma hex_text_head n d : hex_text n d = true -> String.substring 0 2 d <> "..".
Proof.
  intros [_ Hd]%andb_true_iff E. destruct d as [|c d]; [done |]. cbn [String.substring] in E.
  injection E as -> _. by cbn in Hd.
Qed.

Lemma digest_plain m : sha256_hex m <> "..".
Proof. pose proof (sha256_hex_text m) as [Hl%Nat.eqb_eq _]%andb_true_iff. intros E. by rewrite E in Hl. Qed.

Lemma uuid_plain u : uuid_str u <> "..".
Proof. intros E. pose proof (uuid_str_length u) as L. by rewrite E in L. Qed.

(** ** Files of the store *)

Section files.
  Context `{Zip} `{Process}.

Lemma atomic_write_back fresh d name content fs fs' :
  tree_ok fs -> ".." ∉ d -> name <> ".." -> name <> temporary_name fresh -> resolve false fs d = Ok d ->
  _atomic_write fresh (d ++ [name]) content fs = (Ok tt, fs') ->
  tree_ok fs' /\ dir_at fs' d /\ fs' !! (d ++ [name]) = Some (File content (created 384))
  /\ ~ dir_at fs (d ++ [name]) /\ (forall q n, fs !! q = Some n -> q <> d ++ [name] -> fs' !! q = Some n).
Proof.
  intros T Hp Hn Hne Hd. unfold _atomic_write. rewrite parent_of_snoc. unfold bind at 1.
  destruct (makedirs d fs) as [r1 fs1] eqn:E1.
  destruct (makedirs_spec fs d d r1 fs1) as [D1 H1]; [done..|]. destruct r1 as [[]|e]; [| done]. intros E2.
  assert (_atomic_write fresh (d ++ [name]) content fs1 = (Ok tt, fs')) as E3.
  { unfold _atomic_write. rewrite parent_of_snoc. unfold bind at 1. by rewrite makedirs_existing by (done || apply D1). }
  rewrite atomic_write_staged in E3 by (done || apply D1).
  apply staged_spec in E3 as (T2 & _ & _ & _ & Hnd & ->); [| apply D1 | done | done | apply temporary_name_plain | done].
  split_and!; [done | | apply lookup_insert_eq | |].
  - apply dir_insert_file; [done | apply snoc_ne].
  - intros Hd0. apply Hnd. by eapply dirs_added_dir.
  - intros q n Hq Hne'. rewrite lookup_insert_ne by done. by eapply dirs_added_keeps.
Qed.

Lemma file_reads_back fs d name content a :
  tree_ok fs -> dir_at fs d -> fs !! (d ++ [name]) = Some (File content a) ->
  is_symlink fs (d ++ [name]) = false /\ Path_resolve true fs (d ++ [name]) = Ok (d ++ [name])
  /\ is_file fs (d ++ [name]) = true /\ read_file fs (d ++ [name]) = Ok content.
Proof.
  intros T Hd Hf. assert (name <> "..") as Hn.
  { intros ->. apply (tk_plain _ T _ _ Hf). rewrite elem_of_app, list_elem_of_singleton. auto. }
  assert (resolve true fs (d ++ [name]) = Ok (d ++ [name])) as Hr.
  { unfold resolve. rewrite <- (app_nil_l d) at 1. rewrite walk_dirs by done. cbn [app].
    rewrite walk_cons by done. by rewrite node_at_snoc, Hf. }
  unfold is_symlink, Path_resolve, is_file, read_file, stat. rewrite Hr, lstat_self, Hf by done.
  cbn [rbind]. by rewrite node_at_snoc, Hf.
Qed.

(** What [_put_bytes] stored, [_verified_content] gives back. *)
Lemma put_bytes_verified s fresh project content version limit fs stored fs' :
  tree_ok fs -> (Z.of_nat (length content) <= limit)%Z ->
  settled fs (parent_of (_source_path s project (sha256_hex content))) ->
  _put_bytes s fresh project content version fs = (Ok stored, fs') ->
  stored = StoredSource.mk (_reference project (sha256_hex content) version) (sha256_hex content)
             (Z.of_nat (length content))
  /\ _verified_content s fs' project (sha256_hex content) limit = Ok content.
Proof.
  intros T Hlen. set (digest := sha256_hex content). pose proof (sha256_hex_text content) as Hd. fold digest in Hd.
  assert (_source_path s project digest
          = (root s ++ [uuid_str project; String.substring 0 2 digest]) ++ [digest]) as Ep
    by (unfold _source_path; by rewrite <- app_assoc).
  set (d := root s ++ _) in Ep. intros Hs. rewrite Ep, parent_of_snoc in Hs.
  assert (String.length digest = 64%nat) as Hl by (apply andb_true_iff in Hd as [Hd _]; by apply Nat.eqb_eq).
  unfold _put_bytes. cbv zeta. fold digest. unfold bind, ret. rewrite Ep.
  destruct (_atomic_write fresh (d ++ [digest]) content fs) as [[[]|e] fs1] eqn:E1; [| done]. intros [= <- <-].
  split; [done |]. apply atomic_write_back in E1 as (T1 & Hd1 & Hf & _);
    [| done | apply Hs | by intros E; rewrite E in Hl | | by apply resolve_settled].
  2: { intros E. apply (f_equal String.length) in E. unfold temporary_name in E.
       rewrite !str_length_app, hex_length in E. simpl in E. lia. }
  destruct (file_reads_back _ _ _ _ _ T1 Hd1 Hf) as (H1 & H2 & H3 & H4).
  unfold _verified_content. rewrite Ep. rewrite H1, H2. cbn [os_error_as rbind]. rewrite H3, H4.
  assert (is_relative_to (d ++ [digest]) (root s) = true) as ->.
  { apply is_relative_to_spec. unfold d. rewrite <- app_assoc. by eexists. }
  cbn [negb orb os_error_as rbind]. rewrite take_ge by lia.
  destruct (Z.ltb_spec limit (Z.of_nat (length content))); [lia |]. by rewrite bool_decide_true.
Qed.
End files.
