(* ===== verification/HostSources.v ===== *)
(** * Host projects and the dispatch on references ([src/services/source_store.py])

    The part of [LocalSourceStore] for projects that stay on the host: their metadata
    is stored under its digest like a source, and both paths in it are checked again
    whenever the reference is resolved. *)
From stdpp Require Import gmap strings.
From S2P Require Import Prelude PyDict PyText TextFacts Protocol Sha256 Codecs Templates Urls Files FileFacts Json JsonFacts SourceStore SourceStoreTheorems SourceReferences.
Import LocalSourceStore.
Open Scope string_scope.
Open Scope list_scope.

Definition disabled : exn := SourceStoreError "host execution is disabled".
Definition invalid_directory : exn := SourceStoreError "host project directory is invalid".
Definition invalid_interpreter : exn := SourceStoreError "host Python executable is invalid".
Definition invalid_metadata : exn := SourceStoreError "host source metadata is invalid".

(** Empty, padded or with a control character. *)
Definition bad_path_text (value : string) : bool :=
  empty_str value || negb (bool_decide (value = strip value))
  || negb (all_chars (fun c => negb (is_control c)) value).

(** [str(path)] of an absolute path. *)
Definition absolute_text (p : path) : string := ("/" ++ join "/" p)%string.

(** [Path(value)], if it is absolute and no link, resolved. *)
Definition settled_path (e : exn) (fs : tree) (value : string) : res path :=
  let candidate := parts_of value in
  if negb (is_absolute value) || is_symlink fs candidate then Err e
  else path_error_as e (Path_resolve true fs candidate).

Definition _host_directory (s : t) (fs : tree) (value : string) : res path :=
  if negb (host_execution_enabled s) then Err disabled
  else if bad_path_text value then Err invalid_directory
  else
    let? resolved := settled_path invalid_directory fs value in
    if negb (is_dir fs resolved) || negb (existsb (is_relative_to resolved) (host_project_roots s))
    then Err (SourceStoreError "host project directory is outside the allowed roots")
    else Ok resolved.

Definition _host_interpreter (fs : tree) (value : string) (project_directory : path) : res path :=
  if bad_path_text value then Err invalid_interpreter
  else
    let? resolved := settled_path invalid_interpreter fs value in
    if negb (is_file fs resolved) || negb (is_relative_to resolved project_directory)
    then Err (SourceStoreError "host Python executable must be inside the project directory")
    else Ok resolved.

(** The two texts of the metadata. *)
Definition metadata_of (v : pyval) : option (string * string) :=
  match v with
  | PDict kvs =>
      if bool_decide (Forall (fun k => k ∈ ["project_directory"; "python_executable"]) (map fst kvs)) then
        match kv_get "project_directory" kvs, kv_get "python_executable" kvs with
        | Some (PStr d), Some (PStr p) => Some (d, p)
        | _, _ => None
        end
      else None
  | _ => None
  end.

(** The bytes read to the limit: [resolve(strict=True)], [open] and [read(4097)]. *)
Definition read_metadata (fs : tree) (source : path) : res bytes :=
  let? resolved := Path_resolve true fs source in
  let? content := read_file fs resolved in
  Ok (take 4097 content).

Definition _verified_host_metadata (s : t) (fs : tree) (project_id : uuid) (digest : string)
    : res (string * string) :=
  if negb (host_execution_enabled s) then Err disabled
  else
    let source := _host_source_path s project_id digest in
    if is_symlink fs source then Err invalid_metadata
    else
      let? content := os_error_as (SourceStoreError "host source metadata does not exist")
                        (read_metadata fs source) in
      if (4096 <? Z.of_nat (length content))%Z || negb (bool_decide (sha256_hex content = digest))
      then Err invalid_metadata
      else
        let? metadata := match loads_bytes content with
                         | Err JSONDecodeError | Err UnicodeDecodeError => Err invalid_metadata
                         | r => r
                         end in
        match metadata_of metadata with Some m => Ok m | None => Err invalid_metadata end.

Section host.
  Context `{PyFloat} `{Process}.

Definition metadata_value (directory interpreter : path) : pyval :=
  PDict [("project_directory", PStr (absolute_text directory));
         ("python_executable", PStr (absolute_text interpreter))].

Definition register_host (s : t) (fresh project : uuid) (project_directory python_executable : string)
    : M tree StoredSource.t :=
  let* fs := get in
  let* directory := lift (_host_directory s fs project_directory) in
  let* interpreter := lift (_host_interpreter fs python_executable directory) in
  let* text := lift (dumps true false (metadata_value directory interpreter)) in
  let content := utf8 text in
  let digest := sha256_hex content in
  _atomic_write fresh (_host_source_path s project digest) content ;;;
  ret (StoredSource.mk (_host_reference project digest) digest (Z.of_nat (length content))).

Definition resolve_host_reference (s : t) (fs : tree) (project : uuid) (source_ref digest entrypoint : string)
    : res HostSource.t :=
  let? ' (referenced_project, referenced_digest) := _parse_host_reference source_ref in
  if negb (bool_decide (referenced_project = project)) || negb (bool_decide (referenced_digest = digest))
  then Err (SourceStoreError "host source reference does not match the project or digest")
  else
    let? metadata := _verified_host_metadata s fs project digest in
    let? directory := _host_directory s fs metadata.1 in
    let? interpreter := _host_interpreter fs metadata.2 directory in
    let? relative := _entrypoint entrypoint in
    let candidate := directory ++ relative in
    let? resolved_entrypoint :=
      path_error_as (SourceStoreError "entrypoint does not exist in the host project")
        (Path_resolve true fs candidate) in
    if is_symlink fs candidate || negb (is_file fs resolved_entrypoint)
       || negb (is_relative_to resolved_entrypoint directory)
    then Err (SourceStoreError "entrypoint is invalid for the host project")
    else Ok (HostSource.mk directory interpreter).
End host.

Definition validate_reference `{Zip} (s : t) (fs : tree) (project : uuid)
    (source_ref digest entrypoint : string) : res unit :=
  if String.prefix "host-source:" source_ref then
    let? _ := resolve_host_reference s fs project source_ref digest entrypoint in Ok tt
  else validate_local s fs project source_ref digest entrypoint.

(** * Facts about host projects

    The metadata of a host project survives its text, and paths that resolved before a
    write of the store resolve to themselves after it. *)
Import LocalSourceStore.
Open Scope string_scope.
Open Scope list_scope.

Lemma path_error_as_Ok {A} e (r : res A) x : path_error_as e r = Ok x -> r = Ok x.
Proof. unfold path_error_as. destruct r as [y|e']; [done |]. by case_match. Qed.

Lemma settled_path_Ok e fs value p : settled_path e fs value = Ok p -> resolve true fs (parts_of value) = Ok p.
Proof.
  unfold settled_path. cbv zeta. case_match; [done |]. intros Hp%path_error_as_Ok. by apply Path_resolve_Ok in Hp.
Qed.

(** A resolved path stays resolved. *)
Lemma resolved_again fs p q : resolve true fs p = Ok q -> settled fs q.
Proof. intros Hq%resolve_strict_lax. by eapply resolve_settled_result. Qed.

Lemma is_file_settled fs q : settled fs q -> is_file fs q = true -> exists c a, node_at fs q = Some (File c a).
Proof.
  intros Hs. unfold is_file, stat. destruct (resolve true fs q) as [q'|e] eqn:E; [| done]. cbn [rbind].
  apply resolve_strict_lax in E. rewrite resolve_settled in E by done. injection E as <-.
  destruct (node_at fs q) as [[c a| |]|]; try done. eauto.
Qed.

Lemma is_dir_settled fs q : settled fs q -> is_dir fs q = true -> dir_at fs q.
Proof. intros Hs. apply is_dir_resolved. by apply resolve_settled. Qed.

Lemma host_directory_Ok s fs value d : _host_directory s fs value = Ok d ->
  host_execution_enabled s = true /\ dir_at fs d /\ existsb (is_relative_to d) (host_project_roots s) = true.
Proof.
  unfold _host_directory. destruct (host_execution_enabled s); [| done]. cbn [negb]. case_match; [done |].
  intros (p & Hp & E)%rbind_Ok. destruct (negb (is_dir fs p) || _) eqn:Ed; [done |]. injection E as <-.
  apply orb_false_iff in Ed as [Hd%negb_false_iff Hr%negb_false_iff].
  apply settled_path_Ok, resolved_again in Hp. split_and!; [done | by apply is_dir_settled | done].
Qed.

Lemma host_interpreter_Ok fs value d p : _host_interpreter fs value d = Ok p ->
  (exists c a, node_at fs p = Some (File c a)) /\ is_relative_to p d = true.
Proof.
  unfold _host_interpreter. case_match; [done |].
  intros (q & Hq & E)%rbind_Ok. destruct (negb (is_file fs q) || _) eqn:Ed; [done |]. injection E as <-.
  apply orb_false_iff in Ed as [Hf%negb_false_iff Hr%negb_false_iff].
  apply settled_path_Ok, resolved_again in Hq. split; [by apply is_file_settled | done].
Qed.

(** The texts that name a path without loss. *)
Definition plain_path (p : path) : Prop :=
  parts_of (absolute_text p) = p /\ bad_path_text (absolute_text p) = false.

Lemma absolute_text_absolute p : is_absolute (absolute_text p) = true.
Proof. unfold is_absolute, absolute_text. cbn. by destruct (join "/" p). Qed.

Lemma dir_reads_back fs p : tree_ok fs -> dir_at fs p ->
  is_symlink fs p = false /\ Path_resolve true fs p = Ok p /\ is_dir fs p = true.
Proof.
  intros T Hd. split_and!; [| unfold Path_resolve; by rewrite resolve_self | by apply is_dir_self].
  unfold is_symlink. destruct (snoc_cases p) as [->|(q & c & ->)]; [done |].
  rewrite lstat_self; [| done | by eapply dir_parent |].
  - destruct Hd as [a Ha]. by rewrite node_at_snoc in Ha; rewrite Ha.
  - intros ->. apply (dir_plain _ _ T Hd). rewrite elem_of_app, list_elem_of_singleton. auto.
Qed.

Lemma host_directory_again s fs p : tree_ok fs -> dir_at fs p -> plain_path p ->
  host_execution_enabled s = true -> existsb (is_relative_to p) (host_project_roots s) = true ->
  _host_directory s fs (absolute_text p) = Ok p.
Proof.
  intros T Hd [Hp Hb] He Hr. destruct (dir_reads_back _ _ T Hd) as (H1 & H2 & H3).
  unfold _host_directory, settled_path. rewrite He, Hb, Hp, H1. cbn [negb]. cbv zeta.
  rewrite absolute_text_absolute. cbn [negb orb]. rewrite H2. cbn [path_error_as rbind].
  by rewrite H3, Hr.
Qed.

Lemma host_interpreter_again fs p d : tree_ok fs -> (exists c a, fs !! p = Some (File c a)) -> plain_path p ->
  is_relative_to p d = true -> _host_interpreter fs (absolute_text p) d = Ok p.
Proof.
  intros T (c & a & Hf) [Hp Hb] Hr. destruct (snoc_cases p) as [->|(q & n & ->)]; [by rewrite (tk_root _ T) in Hf |].
  destruct (tk_parent _ T _ _ Hf) as [a' Ha]. rewrite parent_of_snoc in Ha.
  destruct (file_reads_back fs q n c a T ltac:(by eexists) Hf) as (H1 & H2 & H3 & _).
  unfold _host_interpreter, settled_path. rewrite Hb, Hp, H1. cbv zeta.
  rewrite absolute_text_absolute. cbn [negb orb]. rewrite H2. cbn [path_error_as rbind].
  by rewrite H3, Hr.
Qed.

(** ** The metadata *)

Section metadata.
  Context `{PyFloat}.

Lemma metadata_unsorted d p : dumps true false (metadata_value d p) = dumps false false (metadata_value d p).
Proof. reflexivity. Qed.

Lemma metadata_loads d p t : dumps true false (metadata_value d p) = Ok t ->
  loads_bytes (utf8 t) = Ok (metadata_value d p).
Proof.
  intros Ht. unfold loads_bytes.
  assert (detects_utf8 (utf8 t) = true) as ->.
  { rewrite metadata_unsorted in Ht. cbn [metadata_value dumps rbind] in Ht. injection Ht as <-. reflexivity. }
  cbn [negb]. rewrite utf8_roundtrip. rewrite metadata_unsorted in Ht.
  eapply (loads_dump false); [| exact Ht]. cbn. split; [| done].
  apply NoDup_cons; split; [by rewrite list_elem_of_singleton | apply NoDup_singleton].
Qed.

Lemma metadata_of_value d p : metadata_of (metadata_value d p) = Some (absolute_text d, absolute_text p).
Proof.
  unfold metadata_of, metadata_value. rewrite bool_decide_true; [reflexivity |].
  cbn [map fst]. repeat constructor; rewrite !elem_of_cons; auto.
Qed.
End metadata.
