(* ===== verification/SourceImport.v ===== *)
(** * Import from a Git repository ([src/services/source_store.py])

    The URL and the reference of an import are checked before any process starts; the
    [git] processes, name resolution and the random name of the temporary directory are
    arguments of the model ([Git], [Network]).  At most two imports run at a time. *)
From stdpp Require Import gmap strings pretty.
From S2P Require Import Prelude PyDict PyText Protocol Sha256 Codecs Templates Urls Files SourceStore.
Open Scope string_scope.
Open Scope list_scope.

Definition git_url_invalid : exn := SourceStoreError "Git repository URL is invalid".
Definition git_url_refused : exn :=
  SourceStoreError "Git URL must be a public HTTPS repository on GitHub, GitLab, Bitbucket, or Gitee".

(** [socket.getaddrinfo(host, port, type=SOCK_STREAM)]: the addresses. *)
Class Network := getaddrinfo : string -> Z -> res (list string).

Section url.
  Context `{Ipaddress} `{Network}.

Definition is_slash (c : Ascii.ascii) : bool := Ascii.eqb c slash.

Definition _git_url (value : string) : res string :=
  if negb (bool_decide (value = strip value)) || (2048 <? py_len value)%Z
     || negb (all_chars (fun c => negb (is_control c)) value)
  then Err git_url_invalid
  else
    let? parsed := urlsplit value in
    let host := lower (default EmptyString (Split.hostname parsed)) in
    let? port := match Split.port parsed with Err (ValueError _) => Err git_url_invalid | r => r end in
    if negb (bool_decide (SplitResult.scheme parsed = "https")) || negb (bool_decide (host ∈ ALLOWED_GIT_HOSTS))
       || negb (bool_decide (Split.username parsed = None)) || negb (bool_decide (Split.password parsed = None))
       || negb (bool_decide (port ∈ [None; Some 443%Z]))
       || all_chars is_slash (SplitResult.path parsed)
       || negb (empty_str (SplitResult.query parsed)) || negb (empty_str (SplitResult.fragment parsed))
    then Err git_url_refused
    else
      let? addresses := LocalSourceStore.os_error_as (SourceStoreError "Git repository host could not be resolved")
                          (getaddrinfo host 443) in
      if nilb addresses || existsb (fun a => negb (ip_is_global a)) addresses
      then Err (SourceStoreError "Git repository host must resolve only to public addresses")
      else Ok value.
End url.

(** [needle in s]. *)
Fixpoint contains (needle s : string) : bool :=
  String.prefix needle s || match s with EmptyString => false | String _ r => contains needle r end.

(** The characters of the set that no reference may hold. *)
Definition ref_char_refused (c : Ascii.ascii) : bool :=
  is_space c || bool_decide (code c ∈ [126; 94; 58; 63; 42; 91; 92]%N).

Definition _git_ref (value : string) : res string :=
  if empty_str value then Ok "HEAD"
  else if negb (bool_decide (value = strip value)) || (255 <? py_len value)%Z
     || String.prefix "-" value || String.prefix "." value
     || ends_with "/" value || ends_with "." value || ends_with ".lock" value
     || contains ".." value || contains "@{" value || contains "//" value
     || negb (all_chars (fun c => negb (ref_char_refused c)) value)
     || existsb (fun part => bool_decide (part ∈ [EmptyString; "."; ".."]) || ends_with ".lock" part)
          (split_on slash value)
  then Err (SourceStoreError "Git branch, tag, or commit reference is invalid")
  else Ok value.

(** ** Processes *)

Definition environ : Type := list (string * string).

(** [name.upper()] as far as it can yield an ASCII name. *)
Definition upper_char (c : Ascii.ascii) : Ascii.ascii :=
  if ((97 <=? code c) && (code c <=? 122))%N then Ascii.ascii_of_N (code c - 32) else c.
Fixpoint upper (s : string) : string :=
  match s with EmptyString => EmptyString | String c r => String (upper_char c) (upper r) end.

Definition KEPT_VARIABLES : list string :=
  ["PATH"; "SYSTEMROOT"; "TEMP"; "TMP"; "HTTP_PROXY"; "HTTPS_PROXY"; "ALL_PROXY"; "NO_PROXY";
   "SSL_CERT_FILE"; "SSL_CERT_DIR"].
Definition devnull : string := "/dev/null".

(** [dict.update] of one name. *)
Definition env_set (k v : string) (env : environ) : environ :=
  if existsb (fun kv => bool_decide (kv.1 = k)) env
  then map (fun kv => if bool_decide (kv.1 = k) then (k, v) else kv) env
  else env ++ [(k, v)].

Definition _git_invocation (os_environ : environ) (arguments : list string) : list string * environ :=
  let environment := List.filter (fun kv => bool_decide (upper kv.1 ∈ KEPT_VARIABLES)) os_environ in
  let environment :=
    env_set "GIT_CONFIG_GLOBAL" devnull
      (env_set "GIT_CONFIG_NOSYSTEM" "1" (env_set "GIT_TERMINAL_PROMPT" "0" environment)) in
  (["git"; "-c"; "credential.helper="; "-c"; ("core.hooksPath=" ++ devnull)%string;
    "-c"; "http.followRedirects=false"] ++ arguments, environment).

(** A [git archive] process: what its output yields, whether that ended before the time
    was up, or within the five seconds after the kill, and its return code, [None] when
    it could not be waited for. *)
Module Piped.
Record t := mk {
  chunks : list bytes; in_time : bool; after_kill : bool; return_code : option Z }.
End Piped.

(** [subprocess.run] and [subprocess.Popen]: the processes may change files. *)
Class Git := {
  git_run : list string -> environ -> M tree Z;
  git_popen : list string -> environ -> M tree Piped.t
}.

Definition is_run_error (e : exn) : bool :=
  is_OSError e || match e with OtherException n => bool_decide (n = "TimeoutExpired") | _ => false end.

(** The reader thread: the chunks kept, and whether it stopped for their size.  An
    [OSError] ends it like the end of the output. *)
Fixpoint consume (total : Z) (kept chunks : list bytes) : list bytes * bool :=
  match chunks with
  | [] => (kept, false)
  | chunk :: rest =>
      if nilb chunk then (kept, false)
      else let total := (total + Z.of_nat (length chunk))%Z in
           if (MAX_ARCHIVE_BYTES <? total)%Z then (kept, true)
           else consume total (kept ++ [chunk]) rest
  end.

Section git.
  Context `{Git} (os_environ : environ).

Definition _run_git (arguments : list string) : M tree unit :=
  let '(command, environment) := _git_invocation os_environ arguments in
  let* returncode :=
    try_except (git_run command environment) is_run_error
      (fun _ => raise (SourceStoreError "Git repository import failed or timed out")) in
  if negb (returncode =? 0)%Z
  then raise (SourceStoreError "Git repository import failed; check its URL and reference")
  else ret tt.

Definition _run_git_archive (arguments : list string) : M tree bytes :=
  let '(command, environment) := _git_invocation os_environ arguments in
  let* process :=
    try_except (git_popen command environment) is_OSError
      (fun _ => raise (SourceStoreError "Git repository import failed")) in
  let '(chunks, overflow) := consume 0 [] (Piped.chunks process) in
  let alive := negb overflow && negb (Piped.in_time process) && negb (Piped.after_kill process) in
  match Piped.return_code process with
  | None => raise (SourceStoreError "Git repository import timed out")
  | Some code =>
      if alive then raise (SourceStoreError "Git repository import timed out")
      else if overflow then raise (SourceStoreError "Git repository archive exceeds the 10 MiB limit")
      else if negb (code =? 0)%Z then raise (SourceStoreError "Git repository could not be archived")
      else ret (concat chunks)
  end.
End git.

(** ** The import *)

(** The free slots of the semaphore, and the files. *)
Module Importer.
Record t := mk { _git_slots : Z; files : tree }.
End Importer.

Section import.
  Context `{Ipaddress} `{Network} `{Git} `{Zip} `{Process} (os_environ : environ).

Definition on_files {A} (m : M tree A) : M Importer.t A := fun s =>
  let '(r, fs) := m (Importer.files s) in (r, Importer.mk (Importer._git_slots s) fs).

(** [TemporaryDirectory]: made with its own name, removed at the end. *)
Definition with_temporary_directory {A} (place : path) (body : M tree A) : M tree A :=
  os_mkdir 448 place ;;;
  try_finally body (try_except (rmtree place) is_FileNotFoundError (fun _ => ret tt)).

Definition fetch_archive (temporary : path) (url reference : string) : M tree bytes :=
  let repository := ("/" ++ join "/" (temporary ++ ["repository.git"]))%string in
  _run_git os_environ ["init"; "--quiet"; "--bare"; repository] ;;;
  let command := ["--git-dir"; repository] in
  _run_git os_environ (command ++ ["remote"; "add"; "origin"; url]) ;;;
  _run_git os_environ
    (command ++ ["fetch"; "--quiet"; "--depth=1";
                 ("--filter=blob:limit=" ++ pretty MAX_ARCHIVE_BYTES)%string; "origin"; reference]) ;;;
  _run_git_archive os_environ (command ++ ["archive"; "--format=zip"; "FETCH_HEAD"]).

Definition import_git (s : LocalSourceStore.t) (fresh project : uuid) (temporary : path)
    (repository_url git_ref : string) : M Importer.t StoredSource.t :=
  let* state := get in
  if (Importer._git_slots state <=? 0)%Z then
    raise (SourceStoreError "Git importer is busy; try again shortly")
  else
    put (Importer.mk (Importer._git_slots state - 1) (Importer.files state)) ;;;
    try_finally
      (let* url := lift (_git_url repository_url) in
       let* reference := lift (_git_ref git_ref) in
       let* content := on_files (with_temporary_directory temporary (fetch_archive temporary url reference)) in
       on_files (LocalSourceStore.put_archive s fresh project content))
      (let* state := get in
       put (Importer.mk (Importer._git_slots state + 1) (Importer.files state))).
End import.
