(* ===== verification/SourceProperties.v ===== *)
(** * Properties of the source store

    Materialising writes below the workspace only, writes what was stored under the
    digest, and accepts what the store itself put in place; an import runs [git] only
    on checked input. *)
From stdpp Require Import gmap strings.
From stdpp Require Import gmap strings pretty.
From S2P Require Import Prelude PyDict PyText TextFacts Protocol Sha256 Codecs Templates Urls Files FileFacts Json JsonFacts SourceStore SourceStoreTheorems SourceReferences HostSources SourceImport.
Import LocalSourceStore.
Open Scope string_scope.
Open Scope list_scope.

Section properties.
  Context `{Zip} `{Process} `{PyFloat}.

(** C34. Whatever the stored archive, the reference, the entrypoint and the links in the
    workspace are, and whether materialising succeeds or fails: no file or link outside
    the resolved workspace is created, changed or removed; at most the missing
    directories on the way to the workspace are added, and the tree stays well formed. *)
Theorem materialize_confined s fresh project source_ref digest entrypoint workspace root fs r fs' :
  tree_ok fs -> Path_resolve false fs workspace = Ok root -> root <> [] ->
  name_of (parts_of entrypoint) <> temporary_name (fresh 0%nat) ->
  materialize s fresh project source_ref digest entrypoint workspace fs = (r, fs') ->
  tree_ok fs' /\ forall q, is_relative_to q root = false ->
    fs' !! q = fs !! q
    \/ (fs !! q = None /\ (exists a, fs' !! q = Some (Directory a)) /\ is_relative_to root q = true).
Proof.
  intros T Hr Hne Htmp Hm. destruct (materialize_spec _ _ _ _ _ _ _ _ _ _ _ T Hr Hne Htmp Hm) as (T' & C & _).
  split; [done |]. intros q Hq. destruct (C q Hq) as [?|(Hn & [a Ha] & ?)]; [by left |].
  destruct q as [|c q]; [left; by rewrite (tk_root _ T), (tk_root _ T') | right].
  split; [done |]. split; [by exists a | done].
Qed.

(** C35. When materialising succeeds the reference named this project and digest, and the
    bytes written are those with that digest: a single file has them as they are, of an
    archive every file entry is there with the bytes it expands to, at most 50 MiB in
    all, the entrypoint among them, and nothing that existed was overwritten. *)
Theorem materialize_content s fresh project source_ref digest entrypoint workspace root fs target fs' :
  tree_ok fs -> Path_resolve false fs workspace = Ok root -> root <> [] ->
  name_of (parts_of entrypoint) <> temporary_name (fresh 0%nat) ->
  materialize s fresh project source_ref digest entrypoint workspace fs = (Ok target, fs') ->
  exists version content,
    _parse_reference source_ref = Ok (version, project, digest) /\ sha256_hex content = digest
    /\ is_relative_to target root = true
    /\ (version <> "v2" -> fs' !! target = Some (File content (created 384)))
    /\ (version = "v2" -> exists entries,
          _archive_entries content false = Ok entries
          /\ (exists info, entries !! text_of (parts_of entrypoint) = Some info
                           /\ fs' !! target = Some (File (entry_payload content info) (created 384)))
          /\ (forall name info, (name, info) ∈ items entries ->
                fs' !! (root ++ parts_of name) = Some (File (entry_payload content info) (created 384)))
          /\ (Z.of_nat (length (concat (map (fun e => entry_payload content e.2) (items entries)))) <= 52428800)%Z
          /\ (forall q n, fs !! q = Some n -> fs' !! q = Some n)).
Proof.
  intros T Hr Hne Htmp Hm.
  destruct (materialize_spec _ _ _ _ _ _ _ _ _ _ _ T Hr Hne Htmp Hm) as (_ & _ & version & Href & content & Hsum & Hw).
  exists version, content. destruct (decide (version = "v2")) as [->|Hv]; [| by destruct Hw].
  destruct Hw as (entries & He & Ht & Hback & [info Hin] & Hall & Hkeep & Hsize). split_and!; try done.
  { rewrite Ht. apply is_relative_to_spec. by eexists. }
  intros _. exists entries. split_and!; try done.
  - exists info. split; [done |]. apply elem_of_items in Hin.
    specialize (Hall _ Hin). unfold extracted in Hall. cbn [fst snd] in Hall. by rewrite Ht, Hback in *.
  - intros name i Hi. apply (Hall _ Hi).
Qed.
(** ** Round trips *)

(** The store's own directories hold no link. *)
Definition no_links (s : LocalSourceStore.t) (fs : tree) : Prop := linkless (root s) fs.

Lemma source_parent_settled s fs project content : no_links s fs ->
  settled fs (parent_of (_source_path s project (sha256_hex content))).
Proof.
  intros Hn. unfold _source_path. pose proof (hex_text_head _ _ (sha256_hex_text content)) as Hd.
  set (dd := String.substring _ _ _) in *.
  replace (root s ++ [uuid_str project; dd; sha256_hex content])
    with ((root s ++ [uuid_str project; dd]) ++ [sha256_hex content]) by by rewrite <- app_assoc.
  rewrite parent_of_snoc. apply linkless_settled; [done |].
  rewrite !elem_of_cons, elem_of_nil. pose proof (uuid_plain project). naive_solver.
Qed.

Lemma archive_entries_unverified content entries :
  _archive_entries content true = Ok entries -> _archive_entries content false = Ok entries.
Proof.
  unfold _archive_entries. destruct (read_entries content true) as [es|e] eqn:E; [| by case_match].
  intros [= ->]. unfold read_entries in *. apply rbind_Ok in E as (infos & -> & E). cbn [rbind].
  apply rbind_Ok in E as ([es names] & -> & E). cbn [rbind].
  apply rbind_Ok in E as ([] & -> & E). cbn [rbind]. destruct (nilb _); [done |].
  by apply rbind_Ok in E as (_ & _ & [= ->]).
Qed.

Lemma validate_printed s fs project project' digest version entrypoint :
  (project < 2 ^ 128)%N -> hex_text 64 digest = true -> version ∈ ["v1"; "v2"] ->
  validate_reference s fs project' (_reference project digest version) digest entrypoint
  = if bool_decide (project = project') then
      let? relative := _entrypoint entrypoint in
      let? content := _verified_content s fs project digest (limit_of s version) in
      if bool_decide (version = "v2") then
        let? entries := _archive_entries content false in
        if has_key (text_of relative) entries then Ok tt else Err no_entrypoint
      else Ok tt
    else Err mismatch.
Proof.
  intros Hp Hd Hv. unfold validate_reference. change (String.prefix _ _) with false. cbv iota.
  unfold validate_local. rewrite parse_reference_printed by done. cbn [rbind].
  case_bool_decide; [subst project'; by rewrite bool_decide_true |]. done.
Qed.

(** What [put] or [put_archive] stored, [validate_reference] accepts in the tree they
    leave: for the same project with every valid entrypoint of a single file, and with
    exactly the file entries of an archive; for another project it refuses the
    reference. *)
Theorem stored_source_validates s fresh project fs stored fs' entrypoint relative :
  tree_ok fs -> no_links s fs -> (project < 2 ^ 128)%N -> _entrypoint entrypoint = Ok relative ->
  (forall text, put s fresh project text fs = (Ok stored, fs') ->
     validate_reference s fs' project (StoredSource.source_ref stored) (StoredSource.content_digest stored)
       entrypoint = Ok tt)
  /\ (forall content, put_archive s fresh project content fs = (Ok stored, fs') ->
        exists entries, _archive_entries content true = Ok entries
        /\ validate_reference s fs' project (StoredSource.source_ref stored)
             (StoredSource.content_digest stored) entrypoint
           = if decide (is_Some (entries !! text_of relative)) then Ok tt else Err no_entrypoint)
  /\ (forall version content project', _put_bytes s fresh project content version fs = (Ok stored, fs') ->
        version ∈ ["v1"; "v2"] -> project' <> project ->
        validate_reference s fs' project' (StoredSource.source_ref stored) (StoredSource.content_digest stored)
          entrypoint = Err mismatch).
Proof.
  intros T Hn Hp He. split_and!.
  - intros text. unfold put. cbv zeta. destruct (Z.ltb_spec (maximum_bytes s) (Z.of_nat (length (utf8 text)))); [done |].
    intros Hput. pose proof (source_parent_settled s fs project (utf8 text) Hn) as Hset.
    apply (put_bytes_verified _ _ _ _ _ (maximum_bytes s)) in Hput as [-> Hc]; [| done..].
    cbn [StoredSource.source_ref StoredSource.content_digest].
    rewrite validate_printed by (done || apply sha256_hex_text || by left).
    rewrite bool_decide_true, He by done. cbn [rbind]. unfold limit_of. rewrite bool_decide_true by done. by rewrite Hc.
  - intros content. unfold put_archive. destruct (nilb content); [done |]. cbn [orb].
    destruct (Z.ltb_spec MAX_ARCHIVE_BYTES (Z.of_nat (length content))); [done |].
    unfold bind at 1, lift. destruct (_archive_entries content true) as [entries|e] eqn:Ee; [| done].
    intros Hput. pose proof (source_parent_settled s fs project content Hn) as Hset.
    apply (put_bytes_verified _ _ _ _ _ MAX_ARCHIVE_BYTES) in Hput as [-> Hc]; [| done..].
    exists entries. split; [done |]. cbn [StoredSource.source_ref StoredSource.content_digest].
    rewrite validate_printed by (done || apply sha256_hex_text || by right; left).
    rewrite bool_decide_true, He by done. cbn [rbind]. unfold limit_of. rewrite bool_decide_false by done.
    rewrite Hc. cbn [rbind]. rewrite bool_decide_true, (archive_entries_unverified _ _ Ee) by done. cbn [rbind].
    unfold has_key. case_bool_decide as Hk; [by rewrite decide_True | by rewrite decide_False].
  - intros version content project' Hput Hv Hne. pose proof (source_parent_settled s fs project content Hn) as Hset.
    apply (put_bytes_verified _ _ _ _ _ (Z.of_nat (length content))) in Hput as [-> _]; [| done | lia | done].
    cbn [StoredSource.source_ref StoredSource.content_digest].
    rewrite validate_printed by (done || apply sha256_hex_text). by rewrite bool_decide_false.
Qed.
(** ** Host projects *)

(** Whatever the stored metadata say: a host reference resolves only when host
    execution is enabled, to a directory below an allowed root, an interpreter that is a
    file in that directory, and an entrypoint that resolves to a file in it. *)
Theorem host_reference_confined s fs project source_ref digest entrypoint host :
  tree_ok fs ->
  resolve_host_reference s fs project source_ref digest entrypoint = Ok host ->
  _parse_host_reference source_ref = Ok (project, digest) /\ host_execution_enabled s = true
  /\ (exists root, root ∈ host_project_roots s /\ is_relative_to (HostSource.project_directory host) root = true)
  /\ (exists a, node_at fs (HostSource.project_directory host) = Some (Directory a))
  /\ (exists c a, node_at fs (HostSource.python_executable host) = Some (File c a)
                  /\ is_relative_to (HostSource.python_executable host) (HostSource.project_directory host) = true)
  /\ exists relative target c a, _entrypoint entrypoint = Ok relative
       /\ resolve true fs (HostSource.project_directory host ++ relative) = Ok target
       /\ node_at fs target = Some (File c a)
       /\ is_relative_to target (HostSource.project_directory host) = true.
Proof.
  intros T. unfold resolve_host_reference. intros ([p d] & Href & E)%rbind_Ok.
  destruct (bool_decide (p = project)) eqn:Ep, (bool_decide (d = digest)) eqn:Ed; try done. bool_prop. subst p d.
  cbn [negb orb] in E. apply rbind_Ok in E as (metadata & _ & E).
  apply rbind_Ok in E as (directory & Hd & E). apply rbind_Ok in E as (interpreter & Hi & E).
  apply rbind_Ok in E as (relative & He & E). cbv zeta in E.
  apply rbind_Ok in E as (target & Ht%path_error_as_Ok%Path_resolve_Ok & E).
  destruct (_ || negb (is_relative_to target directory)) eqn:Ec; [done |]. injection E as <-.
  apply orb_false_iff in Ec as [[_ Hf%negb_false_iff]%orb_false_iff Hr%negb_false_iff].
  apply host_directory_Ok in Hd as (Hen & Hd & (root & Hin & Hroot)%existsb_exists).
  apply host_interpreter_Ok in Hi as [(c & a & Hi) Hir].
  destruct (is_file_settled fs target) as (c' & a' & Hn); [by eapply resolved_again | done |].
  cbn [HostSource.project_directory HostSource.python_executable]. split_and!; [done | done | | done | |].
  - exists root. split; [by apply list_elem_of_In | done].
  - by exists c, a.
  - by exists relative, target, c', a'.
Qed.

Lemma host_parent_settled s fs project digest : no_links s fs -> hex_text 64 digest = true ->
  _host_source_path s project digest
  = (root s ++ [uuid_str project; "host"; String.substring 0 2 digest]) ++ [(digest ++ ".json")%string]
  /\ settled fs (root s ++ [uuid_str project; "host"; String.substring 0 2 digest]).
Proof.
  intros Hn Hd. unfold _host_source_path. split; [by rewrite <- app_assoc |]. apply linkless_settled; [done |].
  pose proof (hex_text_head _ _ Hd). pose proof (uuid_plain project).
  rewrite !elem_of_cons, elem_of_nil. naive_solver.
Qed.

(** The metadata file after a registration, and what existed before it. *)
Lemma register_host_written s fresh project directory_text executable_text fs stored fs' directory interpreter :
  tree_ok fs -> no_links s fs ->
  _host_directory s fs directory_text = Ok directory ->
  _host_interpreter fs executable_text directory = Ok interpreter ->
  register_host s fresh project directory_text executable_text fs = (Ok stored, fs') ->
  exists t d name, dumps true false (metadata_value directory interpreter) = Ok t
  /\ stored = StoredSource.mk (_host_reference project (sha256_hex (utf8 t))) (sha256_hex (utf8 t))
                (Z.of_nat (length (utf8 t)))
  /\ _host_source_path s project (sha256_hex (utf8 t)) = d ++ [name] /\ tree_ok fs' /\ dir_at fs' d
  /\ fs' !! (d ++ [name]) = Some (File (utf8 t) (created 384))
  /\ ~ dir_at fs (d ++ [name]) /\ (forall q n, fs !! q = Some n -> q <> d ++ [name] -> fs' !! q = Some n).
Proof.
  intros T Hn Hd Hi. unfold register_host. unfold bind at 1 2 3, get, lift at 1 2. cbn beta iota. rewrite Hd.
  unfold bind at 1. rewrite Hi. destruct (dumps true false _) as [t|e] eqn:Et; [| done].
  unfold bind, ret, lift. cbv beta iota zeta. set (digest := sha256_hex (utf8 t)).
  pose proof (sha256_hex_text (utf8 t)) as Hx. fold digest in Hx.
  destruct (host_parent_settled s fs project digest Hn Hx) as [Ep Hset]. rewrite Ep.
  destruct (_atomic_write _ _ _ fs) as [[[]|e] fs1] eqn:E1; [| done]. intros [= <- <-].
  set (d := root s ++ _) in *. exists t, d, (digest ++ ".json")%string.
  assert (String.length digest = 64%nat) as Hl by (apply andb_true_iff in Hx as [Hx _]; by apply Nat.eqb_eq).
  apply atomic_write_back in E1 as (T1 & Hd1 & Hf & Hnd & Hkeep);
    [done | done | apply Hset | | | by apply resolve_settled].
  - intros E. apply (f_equal String.length) in E. rewrite str_length_app, Hl in E. done.
  - intros E. apply (f_equal String.length) in E. unfold temporary_name in E.
    rewrite !str_length_app, hex_length, Hl in E. done.
Qed.

(** Registering a host project and resolving the reference it returned gives back
    the same directory and interpreter, for every entrypoint that is a file of the
    project.  The metadata must be at most 4096 bytes, which registration does not
    check. *)
Theorem host_registration_roundtrip s fresh project directory_text executable_text fs stored fs'
    directory interpreter entrypoint relative :
  tree_ok fs -> no_links s fs -> (project < 2 ^ 128)%N ->
  _host_directory s fs directory_text = Ok directory ->
  _host_interpreter fs executable_text directory = Ok interpreter ->
  plain_path directory -> plain_path interpreter ->
  register_host s fresh project directory_text executable_text fs = (Ok stored, fs') ->
  (StoredSource.size_bytes stored <= 4096)%Z ->
  _entrypoint entrypoint = Ok relative -> (exists c a, fs' !! (directory ++ relative) = Some (File c a)) ->
  resolve_host_reference s fs' project (StoredSource.source_ref stored) (StoredSource.content_digest stored) entrypoint
  = Ok (HostSource.mk directory interpreter).
Proof.
  intros T Hn Hp Hd Hi Pd Pi Hreg Hsize He (c & a & Hent).
  destruct (register_host_written _ _ _ _ _ _ _ _ _ _ T Hn Hd Hi Hreg)
    as (t & d & name & Et & -> & Ep & T' & Hd' & Hf & Hnd & Hkeep).
  cbn [StoredSource.source_ref StoredSource.content_digest StoredSource.size_bytes] in *.
  unfold resolve_host_reference. rewrite parse_host_reference_printed by (done || apply sha256_hex_text).
  cbn [rbind]. rewrite !bool_decide_true by done. cbn [negb orb].
  apply host_directory_Ok in Hd as (Hen & Hdir & Hroots). apply host_interpreter_Ok in Hi as ((c0 & a0 & Hint) & Hin).
  destruct (file_reads_back _ _ _ _ _ T' Hd' Hf) as (K1 & K2 & _ & K4).
  assert (_verified_host_metadata s fs' project (sha256_hex (utf8 t)) = Ok (absolute_text directory, absolute_text interpreter)) as ->.
  { unfold _verified_host_metadata, read_metadata. rewrite Hen, Ep, K1, K2. cbn [negb rbind]. rewrite K4.
    cbn [rbind os_error_as]. rewrite take_ge by lia. destruct (Z.ltb_spec 4096 (Z.of_nat (length (utf8 t)))); [lia |].
    rewrite bool_decide_true by done. cbn [negb orb]. rewrite (metadata_loads _ _ _ Et).
    cbn [rbind]. by rewrite metadata_of_value. }
  assert (dir_at fs' directory) as Hdir'.
  { destruct directory as [|x l]; [by eexists |]. destruct Hdir as [b Hb]. exists b. apply Hkeep; [done |].
    intros E. rewrite <- E in Hnd. apply Hnd. by exists b. }
  assert (exists c a, fs' !! interpreter = Some (File c a)) as Hint'.
  { destruct interpreter as [|x l]; [done |]. destruct (decide (x :: l = d ++ [name])) as [->|Hne]; [eauto |].
    exists c0, a0. by apply Hkeep. }
  cbn [rbind fst snd]. rewrite host_directory_again by done. cbn [rbind].
  rewrite host_interpreter_again by done. cbn [rbind]. rewrite He. cbn [rbind]. cbv zeta.
  destruct (snoc_cases (directory ++ relative)) as [E|(q & x & E)]; [by rewrite E, (tk_root _ T') in Hent |].
  rewrite E in *. destruct (tk_parent _ T' _ _ Hent) as [b Hb]. rewrite parent_of_snoc in Hb.
  destruct (file_reads_back fs' q x c a T' ltac:(by eexists) Hent) as (J1 & J2 & J3 & _).
  rewrite J2. cbn [path_error_as rbind]. rewrite J1, J3. cbn [negb orb].
  assert (is_relative_to (q ++ [x]) directory = true) as ->; [| done].
  apply is_relative_to_spec. by exists relative.
Qed.
End properties.

(** * Properties of the Git import

    No process starts before the input is checked, no checked input reads as an option,
    and the slot taken is given back however the import ends. *)
Open Scope string_scope.
Open Scope list_scope.

Section theorems.
  Context `{Ipaddress} `{Network} `{Git} `{Zip} `{Process} (os_environ : environ).

(** A text that starts with a dash has no scheme. *)
Lemma dash_split_scheme t : split_scheme (String dash t) = (EmptyString, String dash t).
Proof.
  unfold split_scheme. cbn [cut]. change (Ascii.eqb dash colon) with false. cbv iota.
  by destruct (cut colon t) as [[s r]|].
Qed.

Lemma urlsplit_scheme url parsed : urlsplit url = Ok parsed ->
  SplitResult.scheme parsed = (split_scheme (remove_chars unsafe_byte (lstrip_c0 url))).1.
Proof.
  unfold urlsplit. destruct (split_scheme _) as [scheme rest]. cbv zeta. cbn [fst].
  destruct (if String.prefix "//" rest then _ else _) as [netloc url']. intros ([] & _ & E)%rbind_Ok.
  destruct (match cut hash_mark url' with Some uf => uf | None => _ end) as [u f].
  destruct (match cut question u with Some pq => pq | None => _ end) as [p q]. by injection E as <-.
Qed.

Lemma dash_no_scheme rest parsed : urlsplit (String dash rest) = Ok parsed -> SplitResult.scheme parsed = EmptyString.
Proof.
  intros E%urlsplit_scheme. cbn [lstrip_c0] in E. change (code dash <=? 32)%N with false in E. cbv iota in E.
  cbn [remove_chars] in E. change (unsafe_byte dash) with false in E. cbv iota in E. by rewrite dash_split_scheme in E.
Qed.

(** Any text is a dash and a rest, or not an option. *)
Lemma option_cases s : String.prefix "-" s = false \/ exists r, s = String dash r.
Proof.
  destruct s as [|c r]; [by left |]. cbn [String.prefix]. destruct (Ascii.ascii_dec _ c) as [<-|]; [right | by left].
  by exists r.
Qed.

Definition public_https (url : string) : Prop :=
  exists parsed host addresses, urlsplit url = Ok parsed
  /\ SplitResult.scheme parsed = "https" /\ host = lower (default EmptyString (Split.hostname parsed))
  /\ host ∈ ["github.com"; "gitlab.com"; "bitbucket.org"; "gitee.com"]
  /\ Split.username parsed = None /\ Split.password parsed = None
  /\ (Split.port parsed = Ok None \/ Split.port parsed = Ok (Some 443%Z))
  /\ SplitResult.query parsed = EmptyString /\ SplitResult.fragment parsed = EmptyString
  /\ getaddrinfo host 443 = Ok addresses /\ addresses <> []
  /\ forall a, a ∈ addresses -> ip_is_global a = true.

Lemma git_url_Ok value url : _git_url value = Ok url -> url = value /\ public_https value.
Proof.
  unfold _git_url. case_match; [done |]. intros (parsed & Hs & E)%rbind_Ok. cbv zeta in E.
  apply rbind_Ok in E as (port & Hp & E). assert (Split.port parsed = Ok port) as Hport.
  { destruct (Split.port parsed) as [x|[]]; congruence. }
  destruct (_ || negb (empty_str (SplitResult.fragment parsed))) eqn:Ec; [done |].
  apply rbind_Ok in E as (addresses & Ha & E). destruct (_ || existsb _ addresses) eqn:Ed; [done |]. injection E as <-.
  split; [done |]. exists parsed, (lower (default EmptyString (Split.hostname parsed))), addresses.
  repeat (apply orb_false_iff in Ec as [Ec ?]). apply orb_false_iff in Ed as [Hne Hall].
  unfold empty_str in *. bool_prop. split_and!; try done.
  - rewrite elem_of_cons, list_elem_of_singleton in *. naive_solver.
  - unfold LocalSourceStore.os_error_as in Ha. destruct (getaddrinfo _ _) as [x|e]; [congruence | by case_match].
  - by intros ->.
  - intros a Hin. apply not_false_iff_true. intros Hg. apply not_true_iff_false in Hall. apply Hall.
    apply existsb_exists. exists a. split; [by apply list_elem_of_In | by rewrite Hg].
Qed.

Lemma git_ref_Ok value reference : _git_ref value = Ok reference ->
  (reference = value \/ (value = EmptyString /\ reference = "HEAD"))
  /\ String.prefix "-" reference = false /\ contains ".." reference = false
  /\ all_chars (fun c => negb (ref_char_refused c)) reference = true.
Proof.
  unfold _git_ref, empty_str. case_bool_decide as Hv; [intros [= <-]; split_and!; try done; by right |].
  destruct (_ || existsb _ (split_on slash value)) eqn:Ec; [done |]. intros [= <-].
  repeat (apply orb_false_iff in Ec as [Ec ?]). split_and!; try done; [by left |]. by apply negb_false_iff.
Qed.

Lemma https_not_option url : public_https url -> String.prefix "-" url = false.
Proof.
  intros (parsed & host & addresses & Hs & Hscheme & _). destruct (option_cases url) as [?|[r ->]]; [done |].
  apply dash_no_scheme in Hs. congruence.
Qed.

(** The input of an import that passes the checks: the URL is an HTTPS URL without
    credentials, query and fragment, of an allowed host all of whose addresses are
    public; and neither the URL nor the reference, empty or not, reads as an option of
    [git]. *)
Theorem git_input_checked repository_url git_ref url reference :
  _git_url repository_url = Ok url -> _git_ref git_ref = Ok reference ->
  url = repository_url /\ String.prefix "-" url = false /\ String.prefix "-" reference = false
  /\ (reference = git_ref \/ (git_ref = EmptyString /\ reference = "HEAD"))
  /\ contains ".." reference = false
  /\ all_chars (fun c => negb (bool_decide (code c ∈ [126; 94; 58; 63; 42; 91; 92]%N))) reference = true
  /\ public_https url.
Proof.
  intros Hu Hr. apply git_url_Ok in Hu as [-> Hpub]. apply git_ref_Ok in Hr as (Hr & Hdash & Hdots & Hchars).
  split_and!; try done; [by apply https_not_option |]. eapply all_chars_impl; [| exact Hchars].
  intros c Hc. unfold ref_char_refused in Hc. by apply negb_true_iff, orb_false_iff in Hc as [_ ->].
Qed.

Lemma on_files_run {A} (m : M tree A) slots fs r state' : on_files m (Importer.mk slots fs) = (r, state') ->
  exists fs', m fs = (r, fs') /\ state' = Importer.mk slots fs'.
Proof. unfold on_files. cbn. destruct (m fs) as [x fs']. intros [= <- <-]. eauto. Qed.

Definition archive_stored (project : uuid) (stored : StoredSource.t) : Prop :=
  exists content entries, _archive_entries content true = Ok entries
  /\ (0 < Z.of_nat (length content) <= 10485760)%Z
  /\ stored = StoredSource.mk (_reference project (sha256_hex content) "v2") (sha256_hex content)
                (Z.of_nat (length content)).

Lemma put_archive_Ok s fresh project content fs stored fs' :
  LocalSourceStore.put_archive s fresh project content fs = (Ok stored, fs') -> archive_stored project stored.
Proof.
  unfold LocalSourceStore.put_archive. destruct (nilb content) eqn:En; [done |]. cbn [orb].
  destruct (Z.ltb_spec MAX_ARCHIVE_BYTES (Z.of_nat (length content))) as [|Hle]; [done |].
  unfold bind, lift. destruct (_archive_entries content true) as [entries|e] eqn:Ee; [| done].
  unfold LocalSourceStore._put_bytes, bind, ret. destruct (_atomic_write _ _ _ fs) as [[[]|e] fs1]; [| done].
  intros [= <- <-]. exists content, entries. split_and!; try done. destruct content; [done | simpl; lia].
Qed.

(** The [try] block of the import, with the slot taken. *)
Lemma import_body s fresh project temporary repository_url git_ref slots fs r state' :
  (let* url := lift (_git_url repository_url) in
   let* reference := lift (_git_ref git_ref) in
   let* content := on_files (with_temporary_directory temporary (fetch_archive os_environ temporary url reference)) in
   on_files (LocalSourceStore.put_archive s fresh project content)) (Importer.mk slots fs) = (r, state') ->
  Importer._git_slots state' = slots
  /\ (Importer.files state' <> fs ->
       (exists url, _git_url repository_url = Ok url) /\ exists reference, _git_ref git_ref = Ok reference)
  /\ match r with Ok stored => archive_stored project stored | Err _ => True end.
Proof.
  unfold bind at 1, lift at 1. destruct (_git_url repository_url) as [url|e]; [| by intros [= <- <-]].
  unfold bind at 1, lift. destruct (_git_ref git_ref) as [reference|e]; [| by intros [= <- <-]].
  unfold bind. destruct (on_files _ _) as [r1 s1] eqn:E1. apply on_files_run in E1 as (fs1 & _ & ->).
  destruct r1 as [content|e]; [| intros [= <- <-]; split_and!; eauto].
  intros (fs2 & E2 & ->)%on_files_run. split_and!; [done | by eauto |].
  destruct r; [by eapply put_archive_Ok | done].
Qed.

(** An import gives its slot back however it ends, takes one only when there is one,
    changes no file unless URL and reference passed the checks, and succeeds only by
    storing an archive whose entries were verified. *)
Theorem import_git_guarded s fresh project temporary repository_url git_ref state r state' :
  import_git os_environ s fresh project temporary repository_url git_ref state = (r, state') ->
  Importer._git_slots state' = Importer._git_slots state
  /\ ((Importer._git_slots state <= 0)%Z -> state' = state /\ exists msg, r = Err (SourceStoreError msg))
  /\ (Importer.files state' <> Importer.files state ->
       (exists url, _git_url repository_url = Ok url) /\ exists reference, _git_ref git_ref = Ok reference)
  /\ match r with
     | Ok stored => archive_stored project stored
     | Err _ => True
     end.
Proof.
  destruct state as [slots fs]. unfold import_git, bind at 1, get. cbn [Importer._git_slots Importer.files].
  destruct (Z.leb_spec slots 0) as [Hs|Hs].
  { unfold raise. intros [= <- <-]. split_and!; try done. intros _. split; [done | by eexists]. }
  unfold bind at 1, Prelude.put, try_finally. cbv beta iota.
  match goal with |- context [(let '(_, _) := ?body in _) = _] => destruct body as [r1 s1] eqn:E1 end.
  apply import_body in E1 as (K1 & K2 & K3). unfold bind at 1. cbv beta iota.
  destruct s1 as [k fs1]. cbn [Importer._git_slots Importer.files] in *. subst k.
  intros E. assert (r = r1 /\ state' = Importer.mk (slots - 1 + 1) fs1) as [-> ->] by (destruct r1; by injection E as <- <-).
  cbn [Importer._git_slots Importer.files]. split_and!; [lia | lia | done | done].
Qed.
End theorems.
