(* ===== verification/SourceStoreExamples.v ===== *)
(** * The source store on concrete inputs

    A store with a source file, an archive and a host project, and workspaces that try
    to lead a write elsewhere. *)
From stdpp Require Import gmap strings pretty.
From S2P Require Import Prelude PyDict PyText TextFacts Protocol Sha256 RunsExamples Codecs Templates Urls Files FileFacts Json JsonFacts SourceStore SourceStoreTheorems SourceReferences HostSources SourceImport SourceProperties.
Import LocalSourceStore.
Open Scope string_scope.
Open Scope list_scope.

#[local] Instance worker : Process := {| process_owner := (1000, 1000)%Z; umask := 18 |}.

(** Archives by their first byte: 1 has two files and a directory, 2 a link, 3 an entry
    that expands to too much, 4 the entry ["."]; anything else is no ZIP. *)
Definition run_py : ZipInfo.t := ZipInfo.mk "src/run.py" 0 0 9.
#[local] Instance archives : Zip := {|
  infolist content :=
    match content with
    | 1%N :: _ => Ok [ZipInfo.mk "src/" 0 0 0; run_py; ZipInfo.mk "readme.txt" 0 0 2]
    | 2%N :: _ => Ok [ZipInfo.mk "link" (Z.shiftl 40960 16) 0 4]
    | 3%N :: _ => Ok [ZipInfo.mk "big" 0 0 52428801]
    | 4%N :: _ => Ok [ZipInfo.mk "." 0 0 1]
    | _ => Err (OtherException "BadZipFile")
    end;
  entry_stream _ info := Ok ([utf8 (ZipInfo.filename info)], None) |}.

Definition store : LocalSourceStore.t := LocalSourceStore.mk ["store"] 1048576 true [["home"]].
Definition project : uuid := 5.
Definition names (i : nat) : uuid := N.of_nat i + 100.

Definition run {S A} (m : M S A) (s : S) : res A := (m s).1.
Definition after {S A} (m : M S A) (s : S) : S := (m s).2.
Lemma run_after {S A} (m : M S A) s r : run m s = r -> m s = (r, after m s).
Proof. unfold run, after. by destruct (m s) as [x t]; cbn; intros ->. Defined.

(** A workspace, one with a link out of it, and a host project. *)
Definition folder : node := Directory (Access 493 (0, 0)%Z).
Definition script : node := File [112%N] (Access 420 (0, 0)%Z).
Definition disk : tree :=
  <[["home"; "app"; "main.py"] := script]> (<[["home"; "app"; "python"] := script]> (<[["home"; "app"] := folder]>
  (<[["home"] := folder]> (<[["trap"; "src"] := Symlink "/etc"]> (<[["trap"] := folder]> (<[["etc"] := folder]> ∅)))))).

Definition text : string := "print(1)".
Definition stored_file : tree := after (LocalSourceStore.put store 7 project text) disk.
Definition stored_zip : tree := after (put_archive store 7 project [1%N; 2%N]) disk.
Definition file_digest : string := Eval vm_compute in sha256_hex (utf8 text).
Definition zip_digest : string := Eval vm_compute in sha256_hex [1%N; 2%N].

Example put_file : run (LocalSourceStore.put store 7 project text) disk
  = Ok (StoredSource.mk (_reference project file_digest "v1") file_digest 8).
Proof. vm_compute. reflexivity. Qed.

Definition unpack (workspace : path) : M tree path :=
  materialize store names project (_reference project zip_digest "v2") zip_digest "src/run.py" workspace.
Definition place (workspace : path) (entrypoint : string) : M tree path :=
  materialize store names project (_reference project file_digest "v1") file_digest entrypoint workspace.

Example unpack_fresh : run (unpack ["work"; "1"]) stored_zip = Ok ["work"; "1"; "src"; "run.py"].
Proof. vm_compute. reflexivity. Qed.

(** A link on the way is met before anything is written through it. *)
Example unpack_trap : run (unpack ["trap"]) stored_zip = Err (SourceStoreError "ZIP path conflicts with the workspace").
Proof. vm_compute. reflexivity. Qed.

Example place_trap : run (place ["trap"] "src/run.py") stored_file = Err (SourceStoreError "entrypoint escapes the workspace").
Proof. vm_compute. reflexivity. Qed.

Example put_link : run (put_archive store 7 project [2%N]) disk = Err (SourceStoreError "ZIP links and special files are not allowed").
Proof. vm_compute. reflexivity. Qed.
Example put_big : run (put_archive store 7 project [3%N]) disk = Err (SourceStoreError "expanded ZIP exceeds the 50 MiB limit").
Proof. vm_compute. reflexivity. Qed.

(** The entry ["."] is stored, and fails when it is extracted. *)
Definition dot_digest : string := Eval vm_compute in sha256_hex [4%N].
Definition stored_dot : tree := after (put_archive store 7 project [4%N]) disk.
Example put_dot : run (put_archive store 7 project [4%N]) disk = Ok (StoredSource.mk (_reference project dot_digest "v2") dot_digest 1).
Proof. vm_compute. reflexivity. Qed.
Example unpack_dot :
  run (materialize store names project (_reference project dot_digest "v2") dot_digest "a.py" ["work"]) stored_dot
  = Err (ValueError "is not in the subpath").
Proof. vm_compute. reflexivity. Qed.

(** ** Witnesses *)

Lemma materialize_confined_witness :
  run (unpack ["trap"]) stored_zip = Err (SourceStoreError "ZIP path conflicts with the workspace")
  /\ forall q, is_relative_to q ["trap"] = false ->
     after (unpack ["trap"]) stored_zip !! q = stored_zip !! q
     \/ (stored_zip !! q = None /\ (exists a, after (unpack ["trap"]) stored_zip !! q = Some (Directory a))
         /\ is_relative_to ["trap"] q = true).
Proof.
  split; [exact unpack_trap |].
  refine (proj2 (materialize_confined store names project (_reference project zip_digest "v2") zip_digest "src/run.py"
    ["trap"] ["trap"] stored_zip (Err (SourceStoreError "ZIP path conflicts with the workspace")) _ _ _ _ _ _)).
  - apply well_formed_ok. vm_compute. reflexivity.
  - vm_compute. reflexivity.
  - discriminate.
  - vm_compute. discriminate.
  - apply run_after. exact unpack_trap.
Defined.

Lemma materialize_content_witness :
  after (unpack ["work"; "1"]) stored_zip !! ["work"; "1"; "readme.txt"]
  = Some (File (utf8 "readme.txt") (Access 384 (1000, 1000)%Z))
  /\ exists version content, _parse_reference (_reference project zip_digest "v2") = Ok (version, project, zip_digest)
     /\ sha256_hex content = zip_digest.
Proof.
  split; [vm_compute; reflexivity |].
  destruct (materialize_content store names project (_reference project zip_digest "v2") zip_digest "src/run.py"
    ["work"; "1"] ["work"; "1"] stored_zip ["work"; "1"; "src"; "run.py"] (after (unpack ["work"; "1"]) stored_zip))
    as (version & content & Href & Hsum & _).
  - apply well_formed_ok. vm_compute. reflexivity.
  - vm_compute. reflexivity.
  - discriminate.
  - vm_compute. discriminate.
  - apply run_after. exact unpack_fresh.
  - exists version, content. split; [exact Href | exact Hsum].
Defined.

Lemma no_links_store : no_links store disk.
Proof. apply linkless_b_ok. vm_compute. reflexivity. Qed.

Lemma disk_ok : tree_ok disk.
Proof. apply well_formed_ok. vm_compute. reflexivity. Qed.

Lemma stored_source_validates_witness :
  (forall text', LocalSourceStore.put store 7 project text' disk
     = (Ok (StoredSource.mk (_reference project file_digest "v1") file_digest 8), stored_file) ->
     validate_reference store stored_file project (_reference project file_digest "v1") file_digest "src/run.py" = Ok tt)
  /\ LocalSourceStore.put store 7 project text disk
     = (Ok (StoredSource.mk (_reference project file_digest "v1") file_digest 8), stored_file).
Proof.
  split; [| apply run_after; exact put_file].
  refine (proj1 (stored_source_validates store 7 project disk
    (StoredSource.mk (_reference project file_digest "v1") file_digest 8) stored_file "src/run.py" ["src"; "run.py"] _ _ _ _)).
  - exact disk_ok.
  - exact no_links_store.
  - reflexivity.
  - vm_compute. reflexivity.
Defined.

#[local] Existing Instance no_floats.
Definition registered : res StoredSource.t := run (register_host store 7 project "/home/app" "/home/app/python") disk.
Definition host_disk : tree := after (register_host store 7 project "/home/app" "/home/app/python") disk.
Definition host_digest : string := Eval vm_compute in match registered with Ok r => StoredSource.content_digest r | Err _ => EmptyString end.
Definition host_stored : StoredSource.t := StoredSource.mk (_host_reference project host_digest) host_digest 72.

Example register_app : registered = Ok host_stored.
Proof. vm_compute. reflexivity. Qed.
Example resolve_app : resolve_host_reference store host_disk project (_host_reference project host_digest) host_digest "main.py"
  = Ok (HostSource.mk ["home"; "app"] ["home"; "app"; "python"]).
Proof. vm_compute. reflexivity. Qed.

Lemma host_reference_confined_witness :
  exists root, root ∈ host_project_roots store /\ is_relative_to ["home"; "app"] root = true.
Proof.
  destruct (host_reference_confined store host_disk project (_host_reference project host_digest) host_digest "main.py"
    (HostSource.mk ["home"; "app"] ["home"; "app"; "python"])) as (_ & _ & Hroot & _).
  - apply well_formed_ok. vm_compute. reflexivity.
  - exact resolve_app.
  - exact Hroot.
Defined.

Lemma host_registration_roundtrip_witness :
  resolve_host_reference store host_disk project (StoredSource.source_ref host_stored)
    (StoredSource.content_digest host_stored) "main.py" = Ok (HostSource.mk ["home"; "app"] ["home"; "app"; "python"]).
Proof.
  apply (host_registration_roundtrip store 7 project "/home/app" "/home/app/python" disk host_stored host_disk
    ["home"; "app"] ["home"; "app"; "python"] "main.py" ["main.py"]).
  - exact disk_ok.
  - exact no_links_store.
  - reflexivity.
  - vm_compute. reflexivity.
  - vm_compute. reflexivity.
  - split; vm_compute; reflexivity.
  - split; vm_compute; reflexivity.
  - apply run_after. exact register_app.
  - vm_compute. discriminate.
  - vm_compute. reflexivity.
  - exists [112%N], (Access 420 (0, 0)%Z). vm_compute. reflexivity.
Defined.

(** ** Imports *)

#[local] Instance resolver : Network := fun _ _ => Ok ["140.82.112.3"].
#[local] Instance addresses : Ipaddress := {| ip_version _ := None; ip_is_global a := bool_decide (a = "140.82.112.3") |}.
#[local] Instance git : Git := {|
  git_run _ _ := ret 0%Z;
  git_popen _ _ := ret (Piped.mk [[1%N]; [2%N]] true true (Some 0%Z)) |}.

Example git_urls :
  map (fun u => match _git_url u with Ok _ => true | Err _ => false end)
    ["https://github.com/a/b"; "https://GitHub.com:443/a/b.git"; "http://github.com/a/b"; "https://user@github.com/a/b";
     "https://github.com.evil.org/a"; "https://github.com/"; "-https://github.com/a"]
  = [true; true; false; false; false; false; false].
Proof. vm_compute. reflexivity. Qed.
Example git_refs :
  map (fun u => match _git_ref u with Ok _ => true | Err _ => false end)
    [EmptyString; "main"; "v1.2"; "feature/x"; "--upload-pack=x"; "a..b"; "a.lock"; "x/.y"; "a//b"; "HEAD~1"]
  = [true; true; true; true; false; false; false; true; false; false].
Proof. vm_compute. reflexivity. Qed.

Lemma git_input_checked_witness :
  String.prefix "-" "https://github.com/a/b" = false /\ public_https "https://github.com/a/b".
Proof.
  destruct (git_input_checked "https://github.com/a/b" EmptyString "https://github.com/a/b" "HEAD") as (_ & Hd & _ & _ & _ & _ & Hp).
  - vm_compute. reflexivity.
  - reflexivity.
  - split; [exact Hd | exact Hp].
Defined.

Definition import_app : M Importer.t StoredSource.t :=
  import_git [("PATH", "/usr/bin"); ("GIT_DIR", "/evil")] store 7 project ["tmp"] "https://github.com/a/b" EmptyString.
Example import_runs : run import_app (Importer.mk 2 disk)
  = Ok (StoredSource.mk (_reference project zip_digest "v2") zip_digest 2).
Proof. vm_compute. reflexivity. Qed.

Lemma import_git_guarded_witness :
  Importer._git_slots (after import_app (Importer.mk 2 disk)) = 2%Z
  /\ archive_stored project (StoredSource.mk (_reference project zip_digest "v2") zip_digest 2).
Proof.
  destruct (import_git_guarded [("PATH", "/usr/bin"); ("GIT_DIR", "/evil")] store 7 project ["tmp"] "https://github.com/a/b"
    EmptyString (Importer.mk 2 disk) _ _ (run_after import_app (Importer.mk 2 disk) _ import_runs)) as (Hs & _ & _ & Hok).
  split; [exact Hs | exact Hok].
Defined.
