(* ===== verification/SecretFiles.v ===== *)
(** * Secret files ([src/services/secret_files.py], [src/runner/secrets.py])

    The values resolved for an attempt are staged as files of a new directory on a
    tmpfs mount, mounted into the container of the attempt, found there by their
    references, and removed afterwards.  The state is the file system (Files); the
    operation that changes owners is an argument, as in the constructor, and the random
    names are. *)
From stdpp Require Import gmap strings.
From S2P Require Import Prelude PyDict PyText Protocol Templates EnvironmentCrypto Environments Urls Files.
Open Scope string_scope.
Open Scope list_scope.

(** [_CATEGORIES]: both categories have a pattern. *)
Definition category_pattern (c : ConfigurationCategory.t) : string -> bool :=
  match c with
  | ConfigurationCategory.ENVIRONMENT_VARIABLE => ENVIRONMENT_NAME_PATTERN
  | ConfigurationCategory.COMMON_PARAMETER => KEY_PATTERN
  end.

(** ** The mount of a directory *)

Definition newline : Ascii.ascii := Ascii.ascii_of_N 10.
Definition carriage_return : Ascii.ascii := Ascii.ascii_of_N 13.

(** Text mode: ["\r\n"] and ["\r"] end a line like ["\n"]. *)
Fixpoint universal_newlines (s : string) : string :=
  match s with
  | EmptyString => EmptyString
  | String c r =>
      if Ascii.eqb c carriage_return then
        match r with
        | String d r' => if Ascii.eqb d newline then String newline (universal_newlines r')
                         else String newline (universal_newlines r)
        | EmptyString => String newline EmptyString
        end
      else String c (universal_newlines r)
  end.
(** The lines of a text file. *)
Definition text_lines (s : string) : list string :=
  let parts := split_on newline (universal_newlines s) in
  if empty_str (List.last parts EmptyString) then removelast parts else parts.

(** [line.split()]. *)
Fixpoint split_space (word : string) (s : string) : list string :=
  match s with
  | EmptyString => if empty_str word then [] else [word]
  | String c r =>
      if is_space c then if empty_str word then split_space EmptyString r else word :: split_space EmptyString r
      else split_space (word ++ String c EmptyString)%string r
  end.
Definition split_fields (s : string) : list string := split_space EmptyString s.

Definition octal_digit (c : Ascii.ascii) : option N :=
  if ((48 <=? code c) && (code c <=? 55))%N then Some (code c - 48)%N else None.
(** [_MOUNT_ESCAPE.sub]: a backslash and three octal digits stand for a character; one
    beyond Latin-1 is not representable. *)
Fixpoint unescape_mount (s : string) : option string :=
  match s with
  | EmptyString => Some EmptyString
  | String b r =>
      match r with
      | String x (String y (String z rest)) =>
          match (if (code b =? 92)%N then octal_digit x else None), octal_digit y, octal_digit z with
          | Some i, Some j, Some k =>
              let n := (i * 64 + j * 8 + k)%N in
              if (n <? 256)%N then String (Ascii.ascii_of_N n) <$> unescape_mount rest else None
          | _, _, _ => String b <$> unescape_mount r
          end
      | _ => String b <$> unescape_mount r
      end
  end.

(** [list.index]. *)
Fixpoint index_of (x : string) (l : list string) : option nat :=
  match l with
  | [] => None
  | y :: r => if bool_decide (y = x) then Some O else S <$> index_of x r
  end.

Definition mount_of_line (line : string) : res (string * string) :=
  let fields := split_fields line in
  match index_of "-" fields with
  | None => Err SecretStagingError
  | Some separator =>
      match fields !! 4%nat, fields !! S separator with
      | Some field, Some fstype =>
          match unescape_mount field with
          | Some mount => Ok (mount, fstype)
          | None => Err SecretStagingError
          end
      | _, _ => Err SecretStagingError
      end
  end.

Module LinuxTmpfsVerifier.
(** The mounts of the file, their points as texts. *)
Definition _mounts (fs : tree) (mountinfo_path : path) : res (list (string * string)) :=
  let? content := read_file fs mountinfo_path in
  match utf8_decode content with
  | Some text => rmap mount_of_line (text_lines text)
  | None => Err UnicodeDecodeError
  end.

(** The mount point contains the absolute path. *)
Definition contains_path (resolved : path) (mount : string) : bool :=
  bool_decide (anchor_of mount = "/") && is_relative_to resolved (parts_of mount).

(** [max(containing, key=...)]: the first of the longest. *)
Fixpoint deepest (best : string * string) (l : list (string * string)) : string * string :=
  match l with
  | [] => best
  | m :: r => if (length (parts_of best.1) <? length (parts_of m.1))%nat then deepest m r else deepest best r
  end.

Definition check (mountinfo_path : path) (fs : tree) (root : path) : res unit :=
  if is_symlink fs root || negb (exists_at fs root) || negb (is_dir fs root) then Err SecretStagingError
  else
    let? resolved := Path_resolve true fs root in
    let? mounts := _mounts fs mountinfo_path in
    match List.filter (fun m => contains_path resolved m.1) mounts with
    | [] => Err SecretStagingError
    | m :: rest => if bool_decide ((deepest m rest).2 = "tmpfs") then Ok tt else Err SecretStagingError
    end.

Definition verify (mountinfo_path : path) (fs : tree) (root : path) : res unit :=
  match check mountinfo_path fs root with Ok _ => Ok tt | Err _ => Err SecretStagingError end.
End LinuxTmpfsVerifier.

(** ** Staging *)

(** [ownership_operation]; the default is [chown]. *)
Class Ownership := change_owner : path -> Z -> Z -> M tree unit.
Definition _change_owner : path -> Z -> Z -> M tree unit := fun p uid gid => chown uid gid p.
Definition _restrict_mode (p : path) (mode : Z) : M tree unit := chmod mode p.

Definition staging_failed {A} : M tree A := raise SecretStagingError.

Module SecretFileStager.
Record t := mk {
  _root : path; _verifier : tree -> path -> res unit;
  _runner_uid : Z; _runner_gid : Z; _maximum_secret_bytes : Z }.

Definition init (root : path) (verifier : tree -> path -> res unit) (runner_uid runner_gid maximum_secret_bytes : Z) : res t :=
  if (runner_uid <? 0)%Z || (runner_gid <? 0)%Z || (maximum_secret_bytes <=? 0)%Z
  then Err (ValueError "secret stager configuration is invalid")
  else Ok (mk root verifier runner_uid runner_gid maximum_secret_bytes).

(** Category, name and bytes of a file. *)
Definition entry : Type := ConfigurationCategory.t * string * bytes.

Fixpoint validate_loop (maximum : Z) (identities : list (ConfigurationCategory.t * string))
    (secrets : list ResolvedSecretValue.t) : res (list entry) :=
  match secrets with
  | [] => Ok []
  | secret :: rest =>
      let category := ResolvedSecretValue.category secret in
      let name := ResolvedSecretValue.name secret in
      if negb (category_pattern category name) then Err SecretStagingError
      else if bool_decide ((category, name) ∈ identities) then Err SecretStagingError
      else
        let encoded := utf8 (ResolvedSecretValue.value secret) in
        if (maximum <? Z.of_nat (length encoded))%Z then Err SecretStagingError
        else
          let? validated := validate_loop maximum ((category, name) :: identities) rest in
          Ok ((category, name, encoded) :: validated)
  end.
Definition _validate (s : t) (secrets : list ResolvedSecretValue.t) : res (list entry) :=
  validate_loop (_maximum_secret_bytes s) [] secrets.

Definition _cleanup `{Process} (child : path) : M tree unit :=
  try_except (rmtree child) any_exn (fun _ => staging_failed).

Section staging.
  Context `{Process} `{Ownership}.

(** Mode and owner of a new directory. *)
Definition restrict_directory (s : t) (directory : path) : M tree unit :=
  _restrict_mode directory 448 ;;;
  change_owner directory (_runner_uid s) (_runner_gid s).

(** The loop of [_create_child], [token] numbering the random names. *)
Fixpoint create_rounds (s : t) (tokens : nat -> N) (rounds token : nat) : M tree path :=
  match rounds with
  | O => staging_failed
  | S n =>
      let child := _root s ++ [hex 32 (tokens token)] in
      let* made := try_except (mkdir 448 false child ;;; ret true) (fun e => bool_decide (e = EEXIST))
                     (fun _ => ret false) in
      if made : bool then
        try_except
          (restrict_directory s child ;;;
           ret child)
          any_exn
          (fun e => _cleanup child ;;; raise e)
      else create_rounds s tokens n (S token)
  end.
Definition _create_child (s : t) (tokens : nat -> N) : M tree path := create_rounds s tokens 128 0.

(** The directory of the category, made for its first file. *)
Definition category_directory (s : t) (child : path) (categories : list ConfigurationCategory.t)
    (category : ConfigurationCategory.t) : M tree unit :=
  if bool_decide (category ∈ categories) then ret tt
  else
    let directory := child ++ [ConfigurationCategory.value category] in
    mkdir 448 false directory ;;;
    restrict_directory s directory.

(** The file of a value. *)
Definition write_file (s : t) (file : path) (value : bytes) : M tree unit :=
  write_new 384 file value ;;;
  _restrict_mode file 384 ;;;
  change_owner file (_runner_uid s) (_runner_gid s).

Fixpoint write_loop (s : t) (child : path) (categories : list ConfigurationCategory.t) (values : list entry)
    : M tree unit :=
  match values with
  | [] => ret tt
  | (category, name, value) :: rest =>
      category_directory s child categories category ;;;
      write_file s ((child ++ [ConfigurationCategory.value category]) ++ [name]) value ;;;
      write_loop s child (category :: categories) rest
  end.
Definition _write_values (s : t) (child : path) (values : list entry) : M tree unit :=
  write_loop s child [] values.

(** The first part of [stage]: the directory with its files, or nothing. *)
Definition prepare (s : t) (tokens : nat -> N) (secrets : list ResolvedSecretValue.t) : M tree path :=
  try_except
    (let* validated := lift (_validate s secrets) in
     let* fs := get in
     let* _ := lift (_verifier s fs (_root s)) in
     let* child := _create_child s tokens in
     try_except (_write_values s child validated) any_exn
       (fun _ => _cleanup child ;;; staging_failed) ;;;
     ret child)
    any_exn (fun _ => staging_failed).

(** [with stager.stage(secrets) as child: body(child)]. *)
Definition stage {A} (s : t) (tokens : nat -> N) (secrets : list ResolvedSecretValue.t) (body : path -> M tree A)
    : M tree A :=
  let* child := prepare s tokens secrets in
  try_finally (body child) (_cleanup child).
End staging.
End SecretFileStager.

(** ** Reading in the container *)

Definition reference_pattern (c : SecretReference.Category) : string -> bool := category_pattern (category_of c).
Definition reference_invalid : exn := ValueError "secret reference is invalid".

(** [runner.secrets.secret_path]. *)
Definition secret_path (fs : tree) (reference : SecretReference.t) (root : path) : res path :=
  let category := ConfigurationCategory.value (category_of (SecretReference.category reference)) in
  let name := SecretReference.name reference in
  if negb (reference_pattern (SecretReference.category reference) name) then Err reference_invalid
  else
    let resolve_invalid (p : path) :=
      match Path_resolve false fs p with
      | Err e => if is_OSError e || match e with RuntimeError _ => true | _ => false end
                 then Err reference_invalid else Err e
      | r => r
      end in
    let? resolved_root := resolve_invalid root in
    let? resolved := resolve_invalid (resolved_root ++ [category; name]) in
    if is_relative_to resolved resolved_root then Ok resolved else Err reference_invalid.
