(* ===== verification/SecretFileTheorems.v ===== *)
(** * Facts about staged secret files

    Each step of the stager adds one node below the directory of the attempt or fails
    without a change, so that the directory can always be removed. *)
From stdpp Require Import gmap strings.
From S2P Require Import Prelude PyDict PyText TextFacts Protocol Codecs Templates EnvironmentCrypto Environments Urls Files FileFacts SourceReferences SourceStoreExamples SecretFiles.
Import SecretFileStager.
Open Scope string_scope.
Open Scope list_scope.

(** The operation that changes owners does what [chown] does, or fails and changes
    nothing. *)
Class OwnershipLaw `{Ownership} : Prop :=
  change_owner_law : forall p uid gid fs,
    change_owner p uid gid fs = chown uid gid p fs \/ exists e, change_owner p uid gid fs = (Err e, fs).

Section facts.
  Context `{Process} `{OwnershipLaw}.
  Variable s : SecretFileStager.t.

Definition owned (m : Z) : access := Access m (_runner_uid s, _runner_gid s).

Lemma mkdir_fresh m fs d c : tree_ok fs -> dir_at fs d -> c <> ".." ->
  mkdir m false (d ++ [c]) fs
  = match fs !! (d ++ [c]) with
    | Some _ => (Err EEXIST, fs)
    | None => (Ok tt, <[d ++ [c] := Directory (created m)]> fs)
    end.
Proof.
  intros T Hd Hc. unfold mkdir, try_except, os_mkdir. rewrite locate_self, node_at_snoc by done.
  by destruct (fs !! (d ++ [c])).
Qed.

Lemma owner_self fs d c a r fs' : tree_ok fs -> dir_at fs d -> c <> ".." ->
  fs !! (d ++ [c]) = Some (Directory a) ->
  change_owner (d ++ [c]) (_runner_uid s) (_runner_gid s) fs = (r, fs') ->
  (r = Ok tt /\ fs' = <[d ++ [c] := Directory (owned (mode a))]> fs) \/ ((exists e, r = Err e) /\ fs' = fs).
Proof.
  intros T Hd Hc Hn. destruct (change_owner_law (d ++ [c]) (_runner_uid s) (_runner_gid s) fs) as [->|[e ->]].
  - unfold chown. rewrite change_access_self, Hn by done. intros [= <- <-]. by left.
  - intros [= <- <-]. right. by split; [eexists |].
Qed.

Lemma owner_file fs d c x a r fs' : tree_ok fs -> dir_at fs d -> c <> ".." ->
  fs !! (d ++ [c]) = Some (File x a) ->
  change_owner (d ++ [c]) (_runner_uid s) (_runner_gid s) fs = (r, fs') ->
  (r = Ok tt /\ fs' = <[d ++ [c] := File x (owned (mode a))]> fs) \/ ((exists e, r = Err e) /\ fs' = fs).
Proof.
  intros T Hd Hc Hn. destruct (change_owner_law (d ++ [c]) (_runner_uid s) (_runner_gid s) fs) as [->|[e ->]].
  - unfold chown. rewrite change_access_self, Hn by done. intros [= <- <-]. by left.
  - intros [= <- <-]. right. by split; [eexists |].
Qed.

(** What a step that makes one node at [p] may do. *)
Definition one_node (fs : tree) (p : path) (n : node) (r : res unit) (fs' : tree) : Prop :=
  match r with
  | Ok _ => fs !! p = None /\ fs' = <[p := n]> fs
  | Err _ => fs' = fs \/ (fs !! p = None /\ exists n', fs' = <[p := n']> fs)
  end.

Lemma restrict_owned fs d c r fs' : tree_ok fs -> dir_at fs d -> c <> ".." -> fs !! (d ++ [c]) = None ->
  restrict_directory s (d ++ [c]) (<[d ++ [c] := Directory (created 448)]> fs) = (r, fs') ->
  exists a, fs' = <[d ++ [c] := Directory a]> fs /\ match r with Ok _ => a = owned 448 | Err _ => True end.
Proof.
  intros T Hd Hc Hn. destruct (fresh_insert fs d c (Directory (created 448)) T Hd Hc Hn) as (T1 & Hd1 & _).
  unfold restrict_directory, bind, _restrict_mode, chmod. rewrite change_access_self by auto. rewrite lookup_insert_eq. cbv beta iota.
  rewrite insert_insert_eq. intros E. destruct (fresh_insert fs d c (Directory (Access 448 (owner (created 448)))) T Hd Hc Hn) as (T2 & Hd2 & _).
  apply owner_self with (a := Access 448 (owner (created 448))) in E as [[-> ->]|[[e ->] ->]];
    [| | done | by apply Hd2 | done | apply lookup_insert_eq].
  - exists (owned 448). by rewrite insert_insert_eq.
  - by eexists.
Qed.

(** A new directory for a category. *)
Lemma new_directory fs d c r fs' : tree_ok fs -> dir_at fs d -> c <> ".." ->
  (mkdir 448 false (d ++ [c]) ;;; restrict_directory s (d ++ [c])) fs = (r, fs') ->
  one_node fs (d ++ [c]) (Directory (owned 448)) r fs'.
Proof.
  intros T Hd Hc. unfold bind at 1. rewrite mkdir_fresh by done. destruct (fs !! (d ++ [c])) as [x|] eqn:En.
  - intros [= <- <-]. by left.
  - intros (a & -> & Hr)%restrict_owned; [| done..]. unfold one_node.
    destruct r; [by subst a | right; split; [done | by eexists]].
Qed.

(** A new file. *)
Lemma new_file fs d c value r fs' : tree_ok fs -> dir_at fs d -> c <> ".." ->
  write_file s (d ++ [c]) value fs = (r, fs') ->
  one_node fs (d ++ [c]) (File value (owned 384)) r fs'.
Proof.
  intros T Hd Hc. unfold write_file, bind, write_new. rewrite locate_self, node_at_snoc by done.
  destruct (fs !! (d ++ [c])) as [x|] eqn:En; [intros [= <- <-]; by left |]. cbv beta iota.
  destruct (fresh_insert fs d c (File value (created 384)) T Hd Hc En) as (T1 & Hd1 & _).
  unfold _restrict_mode, chmod. rewrite change_access_self by auto. rewrite lookup_insert_eq. cbv beta iota.
  rewrite insert_insert_eq. intros E.
  destruct (fresh_insert fs d c (File value (Access 384 (owner (created 384)))) T Hd Hc En) as (T2 & Hd2 & _).
  apply owner_file with (x := value) (a := Access 384 (owner (created 384))) in E as [[-> ->]|[[e ->] ->]];
    [| | done | by apply Hd2 | done | apply lookup_insert_eq].
  - by rewrite insert_insert_eq.
  - right. split; [done |]. by eexists.
Qed.

(** ** The files of an attempt *)

Lemma category_plain c : ConfigurationCategory.value c <> "..".
Proof. by destruct c. Qed.

Definition directory_of (child : path) (c : ConfigurationCategory.t) : path := child ++ [ConfigurationCategory.value c].
Definition file_of (child : path) (e : entry) : path := directory_of child e.1.1 ++ [e.1.2].

(** The nodes staged for [values]. *)
Definition staged_node (child : path) (values : list entry) (q : path) (n : node) : Prop :=
  (exists c, q = directory_of child c /\ n = Directory (owned 448))
  \/ exists e, e ∈ values /\ q = file_of child e /\ n = File e.2 (owned 384).

(** What a part of the writing may do: it adds nodes below [child]. *)
Record grows (child : path) (fs fs' : tree) : Prop := {
  gr_ok : tree_ok fs';
  gr_outside : outside_same child fs fs';
  gr_dirs : forall q, dir_at fs q -> dir_at fs' q;
  gr_keeps : forall q n, fs !! q = Some n -> fs' !! q = Some n
}.

Lemma grows_refl child fs : tree_ok fs -> grows child fs fs.
Proof. by split. Qed.

Lemma grows_trans child fs fs1 fs2 : grows child fs fs1 -> grows child fs1 fs2 -> grows child fs fs2.
Proof.
  intros G1 G2. split; [apply G2 | eapply outside_same_trans; [apply G1 | apply G2] | |].
  - intros q Hq. by apply G2, G1.
  - intros q n Hq. by apply (gr_keeps _ _ _ G2), (gr_keeps _ _ _ G1).
Qed.

Lemma one_node_grows child fs d c n r fs' : tree_ok fs -> dir_at fs d -> c <> ".." -> (exists x, d = child ++ x) ->
  one_node fs (d ++ [c]) n r fs' -> grows child fs fs'.
Proof.
  intros T Hd Hc Hx. assert (forall m, fs !! (d ++ [c]) = None -> grows child fs (<[d ++ [c] := m]> fs)) as Hg.
  { intros m Hn. destruct (fresh_insert fs d c m T Hd Hc Hn) as (? & ? & ?). split; try done. by apply outside_insert. }
  unfold one_node. destruct r as [[]|e]; [intros [Hn ->]; by apply Hg |].
  intros [->|[Hn [m ->]]]; [by apply grows_refl | by apply Hg].
Qed.

Lemma category_directory_spec fs child categories c r fs' :
  tree_ok fs -> dir_at fs child -> (c ∈ categories -> dir_at fs (directory_of child c)) ->
  category_directory s child categories c fs = (r, fs') ->
  grows child fs fs'
  /\ match r with
     | Ok _ => dir_at fs' (directory_of child c)
               /\ forall q n, fs' !! q = Some n ->
                    fs !! q = Some n \/ (q = directory_of child c /\ n = Directory (owned 448))
     | Err _ => True
     end.
Proof.
  intros T Hd Hc. unfold category_directory. cbv zeta. case_bool_decide as Hin.
  { intros [= <- <-]. split; [by apply grows_refl |]. split; [by apply Hc |]. by left. }
  intros E. apply new_directory in E as K1; [| done | done | apply category_plain].
  split; [eapply one_node_grows; [done | done | apply category_plain | by exists []; rewrite app_nil_r | done] |].
  destruct r as [[]|e]; [| done]. destruct K1 as [Hn ->]. split.
  - exists (owned 448). unfold directory_of. rewrite node_at_snoc. by rewrite lookup_insert_eq.
  - intros q n. rewrite lookup_insert. case_decide as Hq; [| by left]. intros [= <-]. by right.
Qed.

Lemma write_loop_spec child values categories fs r fs' :
  tree_ok fs -> dir_at fs child -> (forall c, c ∈ categories -> dir_at fs (directory_of child c)) ->
  (forall e, e ∈ values -> e.1.2 <> "..") ->
  write_loop s child categories values fs = (r, fs') ->
  grows child fs fs'
  /\ match r with
     | Ok _ => (forall e, e ∈ values -> fs' !! file_of child e = Some (File e.2 (owned 384)))
               /\ forall q n, fs' !! q = Some n -> fs !! q = Some n \/ staged_node child values q n
     | Err _ => True
     end.
Proof.
  revert categories fs. induction values as [|[[c name] value] rest IH]; intros categories fs T Hd Hcat Hplain; cbn [write_loop].
  { intros [= <- <-]. split; [by apply grows_refl |]. split; [intros e He; by apply elem_of_nil in He | by left]. }
  unfold bind at 1. destruct (category_directory s child categories c fs) as [r1 fs1] eqn:E1.
  apply category_directory_spec in E1 as [G1 K1]; [| done | done | apply Hcat].
  destruct r1 as [[]|e]; [| by intros [= <- <-]]. destruct K1 as [Hdir Hnew1].
  unfold bind at 1. destruct (write_file s _ value fs1) as [r2 fs2] eqn:E2.
  assert (name <> "..") as Hname by (apply (Hplain (c, name, value)); by left).
  pose proof (gr_ok _ _ _ G1) as T1.
  apply new_file in E2; [| done | done | done].
  assert (grows child fs1 fs2) as G2.
  { eapply one_node_grows; [done | done | done | by eexists | done]. }
  destruct r2 as [[]|e]; [| intros [= <- <-]; by split; [eapply grows_trans |]]. destruct E2 as [Hn ->].
  intros Hrest. apply IH in Hrest as [G3 K3]; [| apply G2 | | | intros e He; apply Hplain; by right].
  2: { by apply G2, G1. }
  2: { intros c' [->|Hc']%elem_of_cons; apply G2; [done | by apply G1, Hcat]. }
  split; [by eapply grows_trans; [| eapply grows_trans] |]. destruct r as [[]|e]; [| done]. destruct K3 as [Hall Hnew]. split.
  - intros e [->|He]%elem_of_cons; [| by apply Hall]. apply (gr_keeps _ _ _ G3). by rewrite lookup_insert_eq.
  - intros q n Hq. destruct (Hnew q n Hq) as [Hq2|[Hs|(e & He & Hf)]].
    + rewrite lookup_insert in Hq2. case_decide as Hqe.
      * injection Hq2 as <-. right. right. exists (c, name, value). split; [by left | done].
      * destruct (Hnew1 q n Hq2) as [?|[-> ->]]; [by left | right; left; by eexists].
    + right. by left.
    + right. right. exists e. split; [by right | done].
Qed.

(** ** The directory of an attempt *)

Lemma token_plain n : hex 32 n <> "..".
Proof. intros E. pose proof (hex_length 32 n) as L. by rewrite E in L. Qed.

Lemma cleanup_restores fs fs1 d c : tree_ok fs -> fs !! (d ++ [c]) = None -> tree_ok fs1 ->
  outside_same (d ++ [c]) fs fs1 -> dir_at fs1 (d ++ [c]) -> _cleanup (d ++ [c]) fs1 = (Ok tt, fs).
Proof. intros. unfold _cleanup, try_except. by rewrite (rmtree_restores fs). Qed.

Lemma outside_insert_self d c n fs : outside_same (d ++ [c]) fs (<[d ++ [c] := n]> fs).
Proof.
  intros q Hq. rewrite lookup_insert_ne; [done |]. intros <-. apply not_true_iff_false in Hq.
  apply Hq, is_relative_to_spec. exists []. by rewrite app_nil_r.
Qed.

Lemma create_rounds_spec tokens rounds token fs r fs' : tree_ok fs -> dir_at fs (_root s) ->
  create_rounds s tokens rounds token fs = (r, fs') ->
  match r with
  | Ok child => exists n, child = _root s ++ [hex 32 (tokens n)] /\ fs !! child = None
                /\ fs' = <[child := Directory (owned 448)]> fs
  | Err _ => fs' = fs
  end.
Proof.
  intros T Hd. revert token. induction rounds as [|rounds IH]; intros token; cbn [create_rounds]; [by intros [= <- <-] |].
  set (child := _root s ++ _). unfold bind at 1, try_except at 1, bind at 1.
  unfold child at 1. rewrite mkdir_fresh by (done || apply token_plain). fold child.
  destruct (fs !! child) as [x|] eqn:En.
  { rewrite bool_decide_true by done. unfold ret at 1. apply IH. }
  unfold ret at 1. cbv beta iota. unfold try_except, bind at 1.
  destruct (restrict_directory s child _) as [r1 fs1] eqn:E1.
  apply restrict_owned in E1; [| done | done | apply token_plain | done]. fold child in E1.
  destruct E1 as (a & -> & Hr). destruct r1 as [[]|e]; unfold ret, any_exn.
  { subst a. intros [= <- <-]. by exists token. }
  unfold bind at 1. destruct (fresh_insert fs _ _ (Directory a) T Hd (token_plain (tokens token)) En) as (T1 & _ & _).
  unfold child at 1. rewrite (cleanup_restores fs); [by intros [= <- <-] | done | done | done | |].
  - apply outside_insert_self.
  - exists a. by rewrite node_at_snoc, lookup_insert_eq.
Qed.

Lemma validate_plain maximum identities secrets values :
  validate_loop maximum identities secrets = Ok values ->
  Forall2 (fun x e => e = (ResolvedSecretValue.category x, ResolvedSecretValue.name x, utf8 (ResolvedSecretValue.value x))
                      /\ category_pattern e.1.1 e.1.2 = true
                      /\ (Z.of_nat (length e.2) <= maximum)%Z) secrets values
  /\ NoDup (map fst values) /\ (forall e, e ∈ values -> e.1 ∉ identities).
Proof.
  revert identities values. induction secrets as [|x rest IH]; intros identities values; cbn [validate_loop].
  { intros [= <-]. split_and!; [constructor | constructor | intros e He; by apply elem_of_nil in He]. }
  destruct (category_pattern _ _) eqn:Ep; cbn [negb]; [| done]. case_bool_decide as Hin; [done |]. cbv zeta.
  destruct (Z.ltb_spec maximum (Z.of_nat (length (utf8 (ResolvedSecretValue.value x))))); [done |].
  intros (vs & Hvs & [= <-])%rbind_Ok. apply IH in Hvs as (Hf & Hnd & Hno). split_and!.
  - constructor; [done | exact Hf].
  - cbn [map fst]. constructor; [| done]. intros Hm. apply elem_of_map in Hm as (e & Heq & He).
    apply (Hno e He). rewrite <- Heq. by left.
  - intros e [->|He]%elem_of_cons; [done |]. intros Hi. apply (Hno e He). by right.
Qed.

Lemma pattern_plain c name : category_pattern c name = true -> name <> "..".
Proof. intros Hp ->. by destruct c. Qed.

(** Filling the new directory, or removing it. *)
Lemma fill_spec values d t fs r fs' : tree_ok fs -> dir_at fs d -> t <> ".." -> fs !! (d ++ [t]) = None ->
  (forall e, e ∈ values -> e.1.2 <> "..") ->
  (try_except (_write_values s (d ++ [t]) values) any_exn (fun _ => _cleanup (d ++ [t]) ;;; staging_failed) ;;;
   ret (d ++ [t])) (<[d ++ [t] := Directory (owned 448)]> fs) = (r, fs') ->
  match r with
  | Ok child => child = d ++ [t] /\ grows child fs fs' /\ fs' !! child = Some (Directory (owned 448))
      /\ (forall e, e ∈ values -> fs' !! file_of child e = Some (File e.2 (owned 384)))
      /\ forall q x, fs' !! q = Some x ->
           fs !! q = Some x \/ (q = child /\ x = Directory (owned 448)) \/ staged_node child values q x
  | Err _ => fs' = fs
  end.
Proof.
  intros T Hd Ht Hn Hp. destruct (fresh_insert fs d t (Directory (owned 448)) T Hd Ht Hn) as (T1 & Hd1 & Hk1).
  set (fs1 := <[d ++ [t] := Directory (owned 448)]> fs) in *.
  assert (fs1 !! (d ++ [t]) = Some (Directory (owned 448))) as Hc by apply lookup_insert_eq.
  assert (dir_at fs1 (d ++ [t])) as Hcd by (eexists; rewrite node_at_snoc; exact Hc).
  unfold bind at 1, try_except. destruct (_write_values s (d ++ [t]) values fs1) as [r1 fs2] eqn:E1.
  apply write_loop_spec in E1 as [G K]; [| done | done | by intros c Hc'%elem_of_nil | done].
  destruct r1 as [[]|e].
  - unfold ret. intros [= <- <-]. destruct K as [Hall Hnew]. split_and!; try done.
    + split; [apply G | | intros q Hq; by apply G, Hd1 | intros q x Hq; by apply (gr_keeps _ _ _ G), Hk1].
      eapply outside_same_trans; [apply outside_insert_self | apply G].
    + by apply (gr_keeps _ _ _ G).
    + intros q x Hq. destruct (Hnew q x Hq) as [Hq1|]; [| by right; right]. unfold fs1 in Hq1.
      rewrite lookup_insert in Hq1. case_decide; [injection Hq1 as <-; by right; left | by left].
  - unfold any_exn, bind. rewrite (cleanup_restores fs); [by intros [= <- <-] | done | done | apply G | | by apply G].
    eapply outside_same_trans; [apply outside_insert_self | apply G].
Qed.

(** The first part of [stage]: everything staged in a new directory, or no change. *)
Lemma prepare_spec tokens secrets fs r fs' : tree_ok fs -> dir_at fs (_root s) ->
  prepare s tokens secrets fs = (r, fs') ->
  match r with
  | Ok child => exists n values, child = _root s ++ [hex 32 (tokens n)] /\ fs !! child = None
      /\ _validate s secrets = Ok values /\ _verifier s fs (_root s) = Ok tt
      /\ grows child fs fs' /\ fs' !! child = Some (Directory (owned 448))
      /\ (forall e, e ∈ values -> fs' !! file_of child e = Some (File e.2 (owned 384)))
      /\ forall q x, fs' !! q = Some x ->
           fs !! q = Some x \/ (q = child /\ x = Directory (owned 448)) \/ staged_node child values q x
  | Err e => e = SecretStagingError /\ fs' = fs
  end.
Proof.
  intros T Hd. unfold prepare, try_except at 1, any_exn at 1, staging_failed at 2, raise.
  unfold bind at 1, lift at 1. destruct (_validate s secrets) as [values|e] eqn:Ev; [| by intros [= <- <-]].
  unfold bind at 1 2, get, lift. cbv beta iota.
  destruct (_verifier s fs (_root s)) as [[]|e] eqn:Ef; [| by intros [= <- <-]]. unfold bind at 1.
  destruct (_create_child s tokens fs) as [r1 fs1] eqn:E1. apply create_rounds_spec in E1; [| done | done].
  destruct r1 as [child|e]; [| subst fs1; by intros [= <- <-]]. destruct E1 as (n & -> & Hn & ->).
  match goal with |- context [match ?run with _ => _ end = _] => destruct run as [r2 fs2] eqn:E2 end.
  apply fill_spec in E2; [| done | done | apply token_plain | done |].
  2: { intros e He. apply validate_plain in Ev as (Hf & _ & _).
       apply list_elem_of_lookup in He as [i Hi]. destruct (Forall2_lookup_r _ _ _ _ _ Hf Hi) as (x & _ & _ & Hpat & _).
       by eapply pattern_plain. }
  destruct r2 as [child|e]; intros [= <- <-]; [| done]. destruct E2 as (-> & G & Hc & Hall & Hnew).
  by exists n, values.
Qed.
End facts.

(** * Properties of staged secret files

    The runner finds exactly the secrets of its attempt, readable by it alone, and
    nothing of them is left behind. *)
Import SecretFileStager.
Open Scope string_scope.
Open Scope list_scope.

Section theorems.
  Context `{Process} `{OwnershipLaw}.

(** The path of a reference whose directory and file are there. *)
Lemma secret_path_found fs child ref x a :
  tree_ok fs -> dir_at fs child ->
  category_pattern (category_of (SecretReference.category ref)) (SecretReference.name ref) = true ->
  fs !! (directory_of child (category_of (SecretReference.category ref)) ++ [SecretReference.name ref])
  = Some (File x a) ->
  secret_path fs ref child
  = Ok (directory_of child (category_of (SecretReference.category ref)) ++ [SecretReference.name ref]).
Proof.
  intros T Hd Hp Hf. destruct (tk_parent _ T _ _ Hf) as [b Hb]. rewrite parent_of_snoc in Hb.
  set (c := category_of _) in *. set (d := directory_of child c) in *.
  assert (settled fs (d ++ [SecretReference.name ref])) as Hs.
  { apply settled_snoc; [apply settled_dir; [done | by exists b] | by eapply pattern_plain |].
    intros t. rewrite node_at_snoc, Hf. done. }
  unfold secret_path. cbv zeta. unfold reference_pattern. fold c. rewrite Hp. cbn [negb].
  unfold Path_resolve at 1. rewrite resolve_self by done. cbn [rbind].
  change (child ++ [ConfigurationCategory.value c; SecretReference.name ref])
    with (child ++ ([ConfigurationCategory.value c] ++ [SecretReference.name ref])).
  rewrite app_assoc. fold (directory_of child c). fold d. unfold Path_resolve.
  rewrite resolve_settled by done. cbn [rbind].
  assert (is_relative_to (d ++ [SecretReference.name ref]) child = true) as ->; [| done].
  apply is_relative_to_spec. unfold d, directory_of. rewrite <- app_assoc. by eexists.
Qed.

(** When staging succeeds, the directory of the attempt belongs to the runner with
    mode 0700, every secret is found through its reference with exactly its bytes in a
    file of the runner with mode 0600, and nothing else is in the directory. *)
Theorem staged_secrets_found s tokens secrets fs child fs' :
  tree_ok fs -> dir_at fs (_root s) -> prepare s tokens secrets fs = (Ok child, fs') ->
  (forall secret ref, secret ∈ secrets ->
     category_of (SecretReference.category ref) = ResolvedSecretValue.category secret ->
     SecretReference.name ref = ResolvedSecretValue.name secret ->
     exists p, secret_path fs' ref child = Ok p
       /\ fs' !! p = Some (File (utf8 (ResolvedSecretValue.value secret)) (Access 384 (_runner_uid s, _runner_gid s))))
  /\ fs' !! child = Some (Directory (Access 448 (_runner_uid s, _runner_gid s)))
  /\ (forall q n, fs' !! q = Some n -> is_relative_to q child = true -> q <> child ->
       (exists c, q = child ++ [ConfigurationCategory.value c]
                  /\ n = Directory (Access 448 (_runner_uid s, _runner_gid s)))
       \/ exists secret, secret ∈ secrets
           /\ q = child ++ [ConfigurationCategory.value (ResolvedSecretValue.category secret); ResolvedSecretValue.name secret]
           /\ n = File (utf8 (ResolvedSecretValue.value secret)) (Access 384 (_runner_uid s, _runner_gid s)))
  /\ (forall q, is_relative_to q child = false -> fs' !! q = fs !! q).
Proof.
  intros T Hd Hprep. apply prepare_spec in Hprep as (n & values & -> & Hn & Hv & _ & G & Hc & Hall & Hnew); [| done | done].
  set (child := _root s ++ _) in *. pose proof (validate_plain _ _ _ _ Hv) as (Hf & _ & _).
  assert (dir_at fs' child) as Hdir by (eexists; unfold child; rewrite node_at_snoc; exact Hc).
  split_and!; [| exact Hc | | apply G].
  - intros secret ref Hin Hcat Hname. apply list_elem_of_lookup in Hin as [i Hi].
    destruct (Forall2_lookup_l _ _ _ _ _ Hf Hi) as (e & He & -> & Hpat & _).
    apply list_elem_of_lookup_2 in He. apply Hall in He. unfold file_of in He. cbn [fst snd] in He, Hpat.
    rewrite <- Hcat, <- Hname in *. eexists. split; [| exact He].
    by eapply secret_path_found; [apply G | done | done | exact He].
  - intros q x Hq Hrel Hne. destruct (Hnew q x Hq) as [Hold|[[-> _]|[(c & -> & ->)|(e & He & -> & ->)]]]; [| done | by left; eexists |].
    + exfalso. apply is_relative_to_spec in Hrel as [t ->].
      pose proof (missing_below fs child t T (snoc_not_nil _ _) Hn) as Hm.
      rewrite node_at_ne in Hm; [congruence |]. intros E. apply app_eq_nil in E as [E _]. by apply snoc_not_nil in E.
    + right. apply list_elem_of_lookup in He as [i Hi].
      destruct (Forall2_lookup_r _ _ _ _ _ Hf Hi) as (secret & Hs & -> & _ & _).
      exists secret. split; [by eapply list_elem_of_lookup_2 |]. split; [| done].
      unfold file_of, directory_of. cbn [fst snd]. by rewrite <- app_assoc.
Qed.

(** The stager leaves no trace: when staging fails, or when what runs with the
    directory changes nothing outside it and leaves it in place, the file system is
    afterwards what it was before, and the outcome is that of the body or
    [SecretStagingError]. *)
Theorem stage_leaves_no_trace {A} (s : SecretFileStager.t) (tokens : nat -> N) (secrets : list ResolvedSecretValue.t)
    (body : path -> M tree A) (fs : tree) (r : res A) (fs' : tree) :
  tree_ok fs -> dir_at fs (_root s) ->
  (forall child fs1, child <> [] -> tree_ok fs1 -> dir_at fs1 child ->
     tree_ok (body child fs1).2 /\ dir_at (body child fs1).2 child
     /\ forall q, is_relative_to q child = false -> (body child fs1).2 !! q = fs1 !! q) ->
  stage s tokens secrets body fs = (r, fs') ->
  fs' = fs
  /\ (r = Err SecretStagingError
      \/ exists child fs1, prepare s tokens secrets fs = (Ok child, fs1) /\ r = (body child fs1).1).
Proof.
  intros T Hd Hbody. unfold stage, bind. destruct (prepare s tokens secrets fs) as [[child|e] fs1] eqn:Eprep.
  2: { apply prepare_spec in Eprep as [-> ->]; [| done | done]. intros [= <- <-]. split; [done | by left]. }
  apply prepare_spec in Eprep as (n & values & -> & Hn & _ & _ & G & Hc & _ & _); [| done | done].
  set (child := _root s ++ _) in *.
  assert (dir_at fs1 child) as Hdir by (eexists; unfold child; rewrite node_at_snoc; exact Hc).
  destruct (Hbody child fs1) as (T2 & Hd2 & O2); [apply snoc_not_nil | apply G | done |].
  unfold try_finally. destruct (body child fs1) as [rb fs2] eqn:Eb. cbn [fst snd] in *.
  unfold child. rewrite (cleanup_restores fs); [| done | done | done | | done].
  - intros [= <- <-]. split; [done |]. right. exists child, fs1. by rewrite Eb.
  - intros q Hq. rewrite O2 by done. by apply G.
Qed.
End theorems.

(** * Secret files on concrete inputs *)
Import SecretFileStager.
Open Scope string_scope.
Open Scope list_scope.

#[local] Existing Instance worker.
#[local] Instance by_chown : Ownership := _change_owner.
#[local] Instance by_chown_law : OwnershipLaw.
Proof. intros p uid gid fs. left. reflexivity. Qed.

Definition mountinfo : string :=
  ("36 35 98:0 / / rw - ext4 /dev/root rw" ++ chr 10
   ++ "40 36 0:30 / /run/secret" ++ chr 92 ++ "040files rw - tmpfs tmpfs rw" ++ chr 10)%string.
Definition tmpfs_disk : tree :=
  <[["run"; "secret files"; "root"] := folder]> (<[["run"; "secret files"] := folder]> (<[["run"] := folder]>
  (<[["mountinfo"] := File (utf8 mountinfo) (Access 292 (0, 0)%Z)]> ∅))).
Definition stager : SecretFileStager.t :=
  SecretFileStager.mk ["run"; "secret files"; "root"] (LinuxTmpfsVerifier.verify ["mountinfo"]) 65532 65532 65536.

Example mount_parsed : LinuxTmpfsVerifier._mounts tmpfs_disk ["mountinfo"]
  = Ok [("/", "ext4"); ("/run/secret files", "tmpfs")].
Proof. vm_compute. reflexivity. Qed.
Example on_disk_refused : LinuxTmpfsVerifier.verify ["mountinfo"] tmpfs_disk ["run"] = Err SecretStagingError.
Proof. vm_compute. reflexivity. Qed.

Definition token : ResolvedSecretValue.t :=
  ResolvedSecretValue.mk ConfigurationCategory.ENVIRONMENT_VARIABLE "TOKEN" 1 "s3cret".
Definition api_key : ResolvedSecretValue.t :=
  ResolvedSecretValue.mk ConfigurationCategory.COMMON_PARAMETER "api.key" 2 "k".
Definition random (n : nat) : N := 7.
Definition staged_disk : tree := after (prepare stager random [token; api_key]) tmpfs_disk.
Definition attempt_directory : path := ["run"; "secret files"; "root"; hex 32 7].

Example stage_both : run (prepare stager random [token; api_key]) tmpfs_disk = Ok attempt_directory.
Proof. vm_compute. reflexivity. Qed.
Example stage_twice : run (prepare stager random [token; token]) tmpfs_disk = Err SecretStagingError.
Proof. vm_compute. reflexivity. Qed.

Lemma tmpfs_ok : tree_ok tmpfs_disk.
Proof. apply well_formed_ok. vm_compute. reflexivity. Qed.
Lemma tmpfs_root : dir_at tmpfs_disk (_root stager).
Proof. exists (Access 493 (0, 0)%Z). vm_compute. reflexivity. Qed.

Lemma staged_secrets_found_witness :
  exists p, secret_path staged_disk (SecretReference.mk SecretReference.environment_variable "TOKEN" 1) attempt_directory = Ok p
    /\ staged_disk !! p = Some (File (utf8 "s3cret") (Access 384 (65532, 65532)%Z)).
Proof.
  refine (proj1 (staged_secrets_found stager random [token; api_key] tmpfs_disk attempt_directory staged_disk
    tmpfs_ok tmpfs_root (run_after _ _ _ stage_both))
    token (SecretReference.mk SecretReference.environment_variable "TOKEN" 1) _ eq_refl eq_refl).
  left.
Defined.

(** A body that reads a secret. *)
Definition read_token (child : path) : M tree bytes :=
  let* fs := get in
  let* p := lift (secret_path fs (SecretReference.mk SecretReference.environment_variable "TOKEN" 1) child) in
  lift (read_file fs p).
Example read_back : run (stage stager random [token; api_key] read_token) tmpfs_disk = Ok (utf8 "s3cret").
Proof. vm_compute. reflexivity. Qed.

Lemma read_token_quiet child fs : (read_token child fs).2 = fs.
Proof. unfold read_token, bind, get, lift. by destruct (secret_path _ _ _) as [p|e]; [destruct (read_file fs p) |]. Qed.

Lemma stage_leaves_no_trace_witness :
  after (stage stager random [token; api_key] read_token) tmpfs_disk = tmpfs_disk.
Proof.
  refine (proj1 (stage_leaves_no_trace stager random [token; api_key] read_token tmpfs_disk
    (run (stage stager random [token; api_key] read_token) tmpfs_disk) _ tmpfs_ok tmpfs_root _ _)).
  - intros child fs1 _ T Hd. rewrite read_token_quiet. split; [exact T | split; [exact Hd | reflexivity]].
  - apply run_after. reflexivity.
Defined.
