(* ===== verification/Artifacts.v ===== *)
(** * Artifacts ([src/services/artifacts.py])

    [ArtifactStore] is the interface of both stores; the collector is written against
    it.  The HTTP session of the presigned store, the functions that sign its URLs and
    [mimetypes] are arguments.  The state is the file system and, for the collector,
    the run repository. *)
From stdpp Require Import gmap strings pretty.
From S2P Require Import Prelude PyDict PyText Protocol Domain Sha256 Runs Codecs Templates Urls Files.
Open Scope string_scope.
Open Scope list_scope.

Definition upload_error {A} (msg : string) : res A := Err (ArtifactUploadError msg).
Definition MAXIMUM_BYTES : Z := 104857600.

(** The protocol [ArtifactStore]; [fresh] is the random part of a temporary name. *)
Class ArtifactStore := {
  store_put : uuid -> path -> string -> string -> M tree Z;
  store_local_path : tree -> string -> res (option path);
  store_download_url : string -> res (option string)
}.

(** [parsed.is_absolute() or ".." in parsed.parts or not parsed.name]. *)
Definition unsafe_relative (s : string) : bool :=
  is_absolute s || bool_decide (".." ∈ parts_of s) || empty_str (name_of (parts_of s)).

Module LocalArtifactStore.
Record t := mk { root : path; maximum_bytes : Z }.

Definition init (fs : tree) (root : path) (maximum_bytes : Z) : res t :=
  let? root := Path_resolve false fs root in Ok (mk root maximum_bytes).

Definition _target (s : t) (key : string) : res path :=
  if unsafe_relative key then upload_error "artifact storage key is invalid"
  else
    let digest := sha256_hex (utf8 key) in
    Ok (root s ++ [String.substring 0 2 digest; digest]).

Definition temporary_of (target : path) (fresh : uuid) : path :=
  with_name target ("." ++ name_of target ++ "." ++ hex 32 fresh ++ ".tmp")%string.

Section put.
  Context `{Process}.

(** [shutil.copyfile(source, destination)]. *)
Definition copyfile (source destination : path) : M tree unit :=
  let* fs := get in
  let* content := lift (read_file fs source) in
  write_over 438 destination content.

Definition put (s : t) (fresh : uuid) (source : path) (key content_type : string) : M tree Z :=
  let* fs := get in
  let* size := lift (file_size fs source) in
  if (maximum_bytes s <? size)%Z then lift (upload_error "artifact exceeds the configured size limit")
  else
    let* target := lift (_target s key) in
    makedirs (parent_of target) ;;;
    let temporary := temporary_of target fresh in
    try_finally
      (copyfile source temporary ;;;
       let* fs := get in
       let* written := lift (file_size fs temporary) in
       if negb (written =? size)%Z then lift (upload_error "artifact changed while it was uploaded")
       else replace temporary target)
      (unlink temporary) ;;;
    ret size.
End put.

Definition local_path (s : t) (fs : tree) (key : string) : res (option path) :=
  let? target := _target s key in
  if is_file fs target then Ok (Some target) else Ok None.

Definition download_url (s : t) (key : string) : res (option string) := Ok None.
End LocalArtifactStore.

Definition local_store `{Process} (s : LocalArtifactStore.t) : ArtifactStore := {|
  store_put := LocalArtifactStore.put s;
  store_local_path := LocalArtifactStore.local_path s;
  store_download_url := LocalArtifactStore.download_url s |}.

(** [requests.Session.put] without redirects: URL, body and headers; a status, an
    [OSError] or a [RequestException]. *)
Class HttpPut := http_put : string -> bytes -> list (string * string) -> res Z.
Definition is_request_error (e : exn) : bool :=
  is_OSError e || match e with OtherException n => bool_decide (n = "RequestException") | _ => false end.

Module PresignedArtifactStore.
Record t := mk {
  put_url : string -> string -> res string; get_url : string -> res string;
  allowed_hosts : list string; maximum_bytes : Z }.

Definition init (put_url : string -> string -> res string) (get_url : string -> res string)
    (allowed_hosts : list string) (maximum_bytes : Z) : t :=
  mk put_url get_url (map lower allowed_hosts) maximum_bytes.

Section presigned.
  Context `{Ipaddress} `{HttpPut}.

Definition _validate_url (s : t) (url : string) : res unit :=
  let? parsed := urlsplit url in
  let hostname := default EmptyString (Split.hostname parsed) in
  if negb (bool_decide (SplitResult.scheme parsed = "https")) || empty_str hostname
     || negb (bool_decide (lower hostname ∈ allowed_hosts s))
     || negb (bool_decide (Split.username parsed = None)) || negb (bool_decide (Split.password parsed = None))
  then upload_error "object storage URL is not allowed" else Ok tt.

Definition send (url : string) (fs : tree) (source : path) (content_type : string) (size : Z) : res unit :=
  let? content := read_file fs source in
  let? status_code := http_put url content [("Content-Type", content_type); ("Content-Length", pretty size)] in
  if negb ((200 <=? status_code) && (status_code <? 300))%Z
  then upload_error "object storage rejected the artifact" else Ok tt.

Definition put (s : t) (fresh : uuid) (source : path) (key content_type : string) : M tree Z :=
  let* url := lift (put_url s key content_type) in
  lift (_validate_url s url) ;;;
  let* fs := get in
  let* size := lift (file_size fs source) in
  if (maximum_bytes s <? size)%Z then lift (upload_error "artifact exceeds the configured size limit")
  else
    lift (match send url fs source content_type size with
          | Err e => if is_request_error e then upload_error "artifact upload failed" else Err e
          | r => r
          end) ;;;
    ret size.

Definition local_path (s : t) (fs : tree) (key : string) : res (option path) := Ok None.

Definition download_url (s : t) (key : string) : res (option string) :=
  let? url := get_url s key in
  let? _ := _validate_url s url in
  Ok (Some url).

Definition store (s : t) : ArtifactStore := {|
  store_put := put s; store_local_path := local_path s; store_download_url := download_url s |}.
End presigned.
End PresignedArtifactStore.

(** ** The collector *)

(** [mimetypes.guess_type(name)[0]]. *)
Class MimeTypes := guess_type : string -> option string.

Module ArtifactCollector.
(** What the collector works on: the files and the repository. *)
Record state := mkState { files : tree; repository : RunRepository.t }.
Record t := mk { spool_root : path }.

Definition on_files {A} (m : M tree A) : M state A := fun s =>
  let '(r, fs) := m (files s) in (r, mkState fs (repository s)).
Definition on_repository {A} (m : M RunRepository.t A) : M state A := fun s =>
  let '(r, repo) := m (repository s) in (r, mkState (files s) repo).

(** The file the event names, resolved inside the spool of the attempt. *)
Definition source_of (c : t) (fs : tree) (attempt_id : uuid) (payload : list (string * pyval)) : res path :=
  match kv_get "relative_path" payload with
  | Some (PStr relative_value) =>
      if (512 <? py_len relative_value)%Z then upload_error "artifact relative_path is invalid"
      else if unsafe_relative relative_value then upload_error "artifact relative_path is invalid"
      else
        let? attempt_root := Path_resolve false fs (spool_root c ++ [uuid_str attempt_id]) in
        let source := attempt_root ++ parts_of relative_value in
        if is_symlink fs source then upload_error "artifact symlinks are not allowed"
        else
          let? resolved := match Path_resolve true fs source with
                           | Err e => if is_OSError e then upload_error "artifact file does not exist" else Err e
                           | r => r
                           end in
          if negb (is_relative_to resolved attempt_root) || negb (is_file fs resolved)
          then upload_error "artifact path escapes its attempt spool"
          else if (255 <? py_len (name_of resolved))%Z then upload_error "artifact file name is too long"
          else Ok resolved
  | _ => upload_error "artifact relative_path is invalid"
  end.

Definition is_kind_char (c : Ascii.ascii) : bool :=
  is_alpha c || is_digit c || is_underscore c || (code c =? 45)%N.

Definition kind_of (event : EventEnvelope.t) : res string :=
  match default (PStr (EventType.value (EventEnvelope.type event)))
          (kv_get "artifact_type" (EventEnvelope.payload event)) with
  | PStr kind_value =>
      if negb (all_chars (fun c => code c <? 128)%N kind_value) then upload_error "artifact type is invalid"
      else
        let kind := lower (strip kind_value) in
        if empty_str kind || (64 <? py_len kind)%Z || negb (all_chars is_kind_char kind)
        then upload_error "artifact type is invalid" else Ok kind
  | _ => upload_error "artifact type is invalid"
  end.

(** ["/".join(str(value) for value in (...))]. *)
Definition key_of (task : TaskEnvelope.t) (event : EventEnvelope.t) (file_name : string) : string :=
  join "/" [uuid_str (TaskEnvelope.tenant_id task); uuid_str (TaskEnvelope.project_id task);
            uuid_str (TaskEnvelope.run_id task); uuid_str (TaskEnvelope.attempt_id task);
            uuid_str (EventEnvelope.event_id event); file_name].

Definition payload_of (task : TaskEnvelope.t) (artifact : ArtifactRecord.t) : list (string * pyval) :=
  [("artifact_id", PStr (uuid_str (ArtifactRecord.id artifact)));
   ("artifact_type", PStr (ArtifactRecord.kind artifact));
   ("file_name", PStr (ArtifactRecord.name artifact));
   ("content_type", PStr (ArtifactRecord.content_type artifact));
   ("size_bytes", PInt (ArtifactRecord.size_bytes artifact));
   ("url", PStr ("/api/v1/runs/" ++ uuid_str (TaskEnvelope.run_id task) ++ "/artifacts/"
                 ++ uuid_str (ArtifactRecord.id artifact) ++ "/content")%string)].

(** [model_validate] of the dumped event with another payload. *)
Definition with_payload (event : EventEnvelope.t) (payload : list (string * pyval)) : res EventEnvelope.t :=
  EventEnvelope.validate
    (EventEnvelope.mk (EventEnvelope.run_id event) (EventEnvelope.attempt_id event) (EventEnvelope.engine event)
       (EventEnvelope.event_id event) (EventEnvelope.seq event) (EventEnvelope.occurred_at event)
       (EventEnvelope.type event) (frozen_pairs payload)).

Section collect.
  Context `{ArtifactStore} `{MimeTypes}.

Definition collect (c : t) (fresh : uuid) (task : TaskEnvelope.t) (event : EventEnvelope.t) : M state EventEnvelope.t :=
  if negb (bool_decide (EventEnvelope.type event ∈ [EventType.ARTIFACT; EventType.SCREENSHOT])) then ret event
  else
    let* s := get in
    let* resolved := lift (source_of c (files s) (TaskEnvelope.attempt_id task) (EventEnvelope.payload event)) in
    let* kind := lift (kind_of event) in
    let file_name := name_of resolved in
    let content_type := default "application/octet-stream" (guess_type file_name) in
    let key := key_of task event file_name in
    let* size := on_files (store_put fresh resolved key content_type) in
    let* artifact := on_repository (RunRepository.create_artifact
      (ArtifactRecord.mk (EventEnvelope.event_id event) (TaskEnvelope.run_id task) (TaskEnvelope.attempt_id task)
         kind file_name content_type size key (EventEnvelope.occurred_at event))) in
    lift (with_payload event (payload_of task artifact)).
End collect.
End ArtifactCollector.
