(* ===== verification/ArtifactTheorems.v ===== *)
(** * Properties of artifacts

    Whatever key and file a runner names, the store writes below its root only and
    keeps the bytes of the file; the collector records what was stored, and a
    redelivered event changes nothing. *)
From stdpp Require Import gmap strings pretty.
From S2P Require Import Prelude PyDict PyText TextFacts Protocol Domain Sha256 Runs RunsFacts RunsExamples Codecs Templates Urls Files FileFacts SourceStore SourceStoreTheorems SourceReferences SourceStoreExamples Artifacts.
Open Scope string_scope.
Open Scope list_scope.

Section store.
  Context `{Process}.
  Variable s : LocalArtifactStore.t.
  Notation root := (LocalArtifactStore.root s).

(** The directory and the file of a key. *)
Definition key_directory (key : string) : path := root ++ [String.substring 0 2 (sha256_hex (utf8 key))].

Lemma target_Ok key target : LocalArtifactStore._target s key = Ok target ->
  unsafe_relative key = false /\ target = key_directory key ++ [sha256_hex (utf8 key)].
Proof.
  unfold LocalArtifactStore._target. destruct (unsafe_relative key); [done |]. intros [= <-].
  unfold key_directory. by rewrite <- app_assoc.
Qed.

(** Copying to a free place. *)
Lemma copyfile_free source fs d c : tree_ok fs -> dir_at fs d -> c <> ".." -> fs !! (d ++ [c]) = None ->
  LocalArtifactStore.copyfile source (d ++ [c]) fs
  = match read_file fs source with
    | Ok content => (Ok tt, <[d ++ [c] := File content (created 438)]> fs)
    | Err e => (Err e, fs)
    end.
Proof.
  intros T Hd Hc Hn. unfold LocalArtifactStore.copyfile, bind, get, lift. destruct (read_file fs source) as [content|e]; [| done].
  unfold write_over, is_symlink. rewrite lstat_self, Hn by done. rewrite locate_self, node_at_snoc, Hn by done. done.
Qed.

Lemma file_size_read fs source size content :
  file_size fs source = Ok size -> read_file fs source = Ok content -> size = Z.of_nat (length content).
Proof. unfold file_size, read_file. destruct (stat fs source) as [[| |]|]; cbn [rbind]; congruence. Qed.

Lemma file_size_new fs d c content a : tree_ok fs -> dir_at fs d -> fs !! (d ++ [c]) = Some (File content a) ->
  file_size fs (d ++ [c]) = Ok (Z.of_nat (length content)).
Proof.
  intros T Hd Hf. destruct (file_reads_back _ _ _ _ _ T Hd Hf) as (_ & _ & _ & Hr).
  unfold file_size. unfold read_file in Hr. destruct (stat fs (d ++ [c])) as [[x b| |]|]; cbn [rbind] in *; congruence.
Qed.
Lemma read_file_keeps fs fs' p content : keeps_nodes fs fs' -> read_file fs p = Ok content -> read_file fs' p = Ok content.
Proof.
  intros K. unfold read_file. intros (n & Hn & E)%rbind_Ok. by rewrite (stat_keeps _ _ _ _ K Hn).
Qed.

Lemma dirs_added_keeps_nodes fs fs' P : dirs_added fs fs' P -> keeps_nodes fs fs'.
Proof. intros D q n. by apply dirs_added_keeps with P. Qed.

Definition temporary_of_key (key : string) (fresh : uuid) : string :=
  ("." ++ sha256_hex (utf8 key) ++ "." ++ hex 32 fresh ++ ".tmp")%string.
Lemma temporary_of_key_plain key fresh :
  temporary_of_key key fresh <> ".." /\ temporary_of_key key fresh <> sha256_hex (utf8 key).
Proof. destruct (stream_name_ne (sha256_hex (utf8 key)) fresh). done. Qed.

(** The block that copies and renames. *)
Lemma copy_and_rename_spec source fs d name tmp size r fs' : tree_ok fs -> dir_at fs d ->
  name <> ".." -> tmp <> ".." -> tmp <> name -> fs !! (d ++ [tmp]) = None ->
  try_finally
    (LocalArtifactStore.copyfile source (d ++ [tmp]) ;;;
     let* fs := get in
     let* written := lift (file_size fs (d ++ [tmp])) in
     if negb (written =? size)%Z then lift (upload_error "artifact changed while it was uploaded")
     else replace (d ++ [tmp]) (d ++ [name]))
    (unlink (d ++ [tmp])) fs = (r, fs') ->
  tree_ok fs' /\ (forall q, q <> d ++ [name] -> fs' !! q = fs !! q)
  /\ match r with
     | Ok _ => exists content, read_file fs source = Ok content
               /\ fs' = <[d ++ [name] := File content (created 438)]> fs /\ ~ dir_at fs (d ++ [name])
     | Err _ => fs' = fs
     end.
Proof.
  intros T Hd Hname Htmp Hne Hfree. unfold try_finally, bind. rewrite copyfile_free by done.
  destruct (read_file fs source) as [content|e].
  2: { cbv beta iota. rewrite unlink_self, Hfree by done. by intros [= <- <-]. }
  destruct (fresh_insert fs d tmp (File content (created 438)) T Hd Htmp Hfree) as (T1 & Hd1 & _).
  set (fs1 := <[d ++ [tmp] := _]> fs) in *. unfold get, lift. cbv beta iota.
  assert (fs1 !! (d ++ [tmp]) = Some (File content (created 438))) as Hf1 by apply lookup_insert_eq.
  rewrite (file_size_new fs1 d tmp content (created 438)) by auto.
  destruct (negb _).
  { rewrite unlink_self, Hf1 by auto. unfold fs1. rewrite delete_insert_id by done. by intros [= <- <-]. }
  destruct (staged 438 (d ++ [tmp]) (d ++ [name]) content (Ok tt) fs) as [r2 fs2] eqn:E2.
  assert (staged 438 (d ++ [tmp]) (d ++ [name]) content (Ok tt) fs
          = (let '(x, s1) := replace (d ++ [tmp]) (d ++ [name]) fs1 in
             match unlink (d ++ [tmp]) s1 with (Ok _, s2) => (x, s2) | (Err e, s2) => (Err e, s2) end)) as Es.
  { unfold staged, try_finally, bind, write_new, lift, ret. rewrite locate_self, node_at_snoc, Hfree by done.
    cbv beta iota. fold fs1. by destruct (replace _ _ fs1) as [[[]|e] s1]. }
  rewrite <- Es, E2. intros [= <- <-].
  destruct (staged_spec 438 fs d name tmp content (Ok tt) r2 fs2 T Hd Hname Htmp Hne E2) as (T2 & Hs & H2).
  split; [done |]. split.
  - intros q Hq. destruct (decide (q = d ++ [tmp])) as [->|Hq2]; [| by apply Hs].
    destruct r2 as [[]|e]; [| by destruct H2 as [_ ->]]. destruct H2 as (_ & _ & _ & ->).
    by rewrite lookup_insert_ne by done.
  - destruct r2 as [[]|e]; [| by apply H2]. destruct H2 as (_ & _ & Hnd & ->). by exists content.
Qed.

(** What [put] does: below the root only, and the bytes of the file on success. *)
Lemma put_spec fresh source key content_type fs r fs' :
  tree_ok fs -> linkless root fs -> fs !! (key_directory key ++ [temporary_of_key key fresh]) = None ->
  LocalArtifactStore.put s fresh source key content_type fs = (r, fs') ->
  tree_ok fs' /\ confined root fs fs'
  /\ match r with
     | Ok size => exists content, unsafe_relative key = false /\ read_file fs source = Ok content
         /\ size = Z.of_nat (length content) /\ (size <= LocalArtifactStore.maximum_bytes s)%Z
         /\ dir_at fs' (key_directory key)
         /\ fs' !! (key_directory key ++ [sha256_hex (utf8 key)]) = Some (File content (created 438))
     | Err _ => True
     end.
Proof.
  intros T Hl Hfree. unfold LocalArtifactStore.put, bind at 1 2, get, lift. cbv beta iota.
  destruct (file_size fs source) as [size|e] eqn:Esize; [| by intros [= <- <-]; split_and!; [| apply confined_refl |]].
  destruct (Z.ltb_spec (LocalArtifactStore.maximum_bytes s) size) as [|Hle];
    [by intros [= <- <-]; split_and!; [| apply confined_refl |] |].
  unfold bind at 1. destruct (LocalArtifactStore._target s key) as [target|e] eqn:Et;
    [| by intros [= <- <-]; split_and!; [| apply confined_refl |]].
  apply target_Ok in Et as [Hkey ->]. rewrite parent_of_snoc. set (d := key_directory key) in *.
  assert (settled fs d) as Hset.
  { apply linkless_settled; [done |]. rewrite list_elem_of_singleton. intros E. by apply (hex_text_head 64 (sha256_hex (utf8 key))); [apply sha256_hex_text |]. }
  unfold bind at 1. destruct (makedirs d fs) as [r1 fs1] eqn:E1.
  destruct (makedirs_spec fs d d r1 fs1) as [D1 H1]; [done | apply Hset | by apply resolve_settled | done |].
  assert (confined root fs fs1) as C1.
  { intros q Hq. destruct (da_nodes _ _ _ D1 q) as [?|(? & ? & x & Ex)]; [by left | right]. split; [done |]. split; [done |].
    unfold d, key_directory in Ex. apply is_relative_to_spec.
    destruct (app_prefix_cases _ _ _ _ Ex) as [[e ->]|[e E]]; [| by exists e].
    exfalso. apply not_true_iff_false in Hq. apply Hq, is_relative_to_spec. by exists e. }
  destruct r1 as [[]|e]; [| intros [= <- <-]; split_and!; [apply D1 | done | done]].
  unfold LocalArtifactStore.temporary_of, with_name. rewrite parent_of_snoc, name_of_snoc.
  destruct (temporary_of_key_plain key fresh) as [Hp1 Hp2]. fold (temporary_of_key key fresh).
  assert (fs1 !! (d ++ [temporary_of_key key fresh]) = None) as Hfree1.
  { destruct (da_nodes _ _ _ D1 (d ++ [temporary_of_key key fresh])) as [?|(_ & _ & x & Ex)]; [congruence | exfalso].
    apply (f_equal length) in Ex. rewrite !length_app in Ex. simpl in Ex. lia. }
  unfold bind at 1. match goal with |- context [match ?run with _ => _ end = _] => destruct run as [r2 fs2] eqn:E2 end.
  apply copy_and_rename_spec in E2 as (T2 & Hs2 & H2); [| apply D1 | done | apply digest_plain | done | done | done].
  assert (confined root fs fs2) as C2.
  { eapply confined_outside; [exact C1 |]. intros q Hq. apply Hs2. intros ->. apply not_true_iff_false in Hq.
    apply Hq, is_relative_to_spec. unfold d, key_directory. rewrite <- app_assoc. by eexists. }
  destruct r2 as [[]|e]; intros [= <- <-]; [| done]. split; [done |]. split; [done |].
  destruct H2 as (content & Hread & -> & Hnd). exists content.
  assert (read_file fs source = Ok content) as Hr0.
  { unfold file_size in Esize. apply rbind_Ok in Esize as (n & Hn & _). unfold read_file in *.
    rewrite (stat_keeps _ _ _ _ (dirs_added_keeps_nodes _ _ _ D1) Hn) in Hread. by rewrite Hn. }
  split_and!; [done | done | by eapply file_size_read | done | | apply lookup_insert_eq].
  apply dir_insert_file; [done | apply snoc_ne].
Qed.
End store.

(** ** The collector *)

Lemma validate_Ok e e' : EventEnvelope.validate e = Ok e' -> e' = e.
Proof. unfold EventEnvelope.validate. case_match; [done | congruence]. Qed.

Lemma create_artifact_spec record repo r repo' : RunRepository.create_artifact record repo = (r, repo') ->
  RunRepository._runs repo' = RunRepository._runs repo
  /\ RunRepository._attempts repo' = RunRepository._attempts repo
  /\ RunRepository._events repo' = RunRepository._events repo
  /\ match r with
     | Ok a => a = record /\ RunRepository._artifacts repo' !! ArtifactRecord.id record = Some record
               /\ (RunRepository._artifacts repo !! ArtifactRecord.id record = Some record -> repo' = repo)
               /\ (forall other, RunRepository._artifacts repo !! ArtifactRecord.id record = Some other -> other = record)
     | Err _ => repo' = repo
     end.
Proof.
  unfold RunRepository.create_artifact, bind, RunRepository._get_attempt_locked, RunRepository._get_locked, get, raise, ret.
  destruct (RunRepository._attempts repo !! _) as [attempt|]; [| by intros [= <- <-]].
  destruct (negb _); [by intros [= <- <-] |]. destruct (RunRepository._runs repo !! _) as [run|]; [| by intros [= <- <-]].
  destruct (RunRepository._artifacts repo !! ArtifactRecord.id record) as [existing|] eqn:E.
  - case_bool_decide as Heq; intros [= <- <-]; [subst existing | done]. split_and!; try done. intros other. congruence.
  - unfold RunRepository.set_artifacts. intros [= <- <-]. cbn. split_and!; try done. by rewrite dict_lookup_insert_eq.
Qed.

Section collector.
  Context `{ArtifactStore} `{MimeTypes}.
  Variable c : ArtifactCollector.t.
  Import ArtifactCollector.

(** What a successful collection of an artifact went through. *)
Lemma collect_inv fresh task event s r s' :
  EventEnvelope.type event ∈ [EventType.ARTIFACT; EventType.SCREENSHOT] ->
  collect c fresh task event s = (r, s') ->
  RunRepository._runs (repository s') = RunRepository._runs (repository s)
  /\ RunRepository._attempts (repository s') = RunRepository._attempts (repository s)
  /\ RunRepository._events (repository s') = RunRepository._events (repository s)
  /\ (files s' = files s \/ exists source key content_type, files s' = (store_put fresh source key content_type (files s)).2)
  /\ match r with
     | Err _ => True
     | Ok ev => exists source record,
         source_of c (files s) (TaskEnvelope.attempt_id task) (EventEnvelope.payload event) = Ok source
         /\ ArtifactRecord.id record = EventEnvelope.event_id event
         /\ ArtifactRecord.storage_key record = key_of task event (name_of source)
         /\ store_put fresh source (ArtifactRecord.storage_key record) (ArtifactRecord.content_type record) (files s)
            = (Ok (ArtifactRecord.size_bytes record), files s')
         /\ RunRepository.create_artifact record (repository s) = (Ok record, repository s')
         /\ with_payload event (payload_of task record) = Ok ev
         /\ ArtifactRecord.run_id record = TaskEnvelope.run_id task
         /\ ArtifactRecord.attempt_id record = TaskEnvelope.attempt_id task
         /\ ArtifactRecord.created_at record = EventEnvelope.occurred_at event
         /\ ArtifactRecord.name record = name_of source
     end.
Proof.
  destruct s as [fs repo]. intros Ht. unfold collect. rewrite bool_decide_true by done. cbn [negb].
  unfold bind at 1 2, get, lift. cbn [files repository]. cbv beta iota.
  destruct (source_of _ _ _ _) as [source|e]; [| intros [= <- <-]; split_and!; try done; by left].
  unfold bind at 1. destruct (kind_of event) as [kind|e]; [| intros [= <- <-]; split_and!; try done; by left].
  unfold bind at 1, on_files. cbn [files repository].
  destruct (store_put fresh source _ _ fs) as [[size|e] fs1] eqn:E1.
  2: { intros [= <- <-]. split_and!; try done. right. eexists _, _, _. cbn [files]. by rewrite E1. }
  unfold bind at 1, on_repository. cbn [files repository]. set (record := ArtifactRecord.mk _ _ _ _ _ _ _ _ _).
  destruct (RunRepository.create_artifact record repo) as [ra repo1] eqn:E2.
  pose proof (create_artifact_spec _ _ _ _ E2) as (K1 & K2 & K3 & K4).
  assert (files (mkState fs1 repo1) = fs \/ exists source key content_type,
    files (mkState fs1 repo1) = (store_put fresh source key content_type fs).2) as Hfiles
    by (right; eexists _, _, _; cbn [files]; by rewrite E1).
  destruct ra as [artifact|e]; intros [= <- <-]; split_and!; try done; [].
  destruct (with_payload _ _) as [ev|e] eqn:Ep; [| done]. destruct K4 as (-> & _).
  by exists source, record.
Qed.

(** The event is replaced in its payload only. *)
Lemma with_payload_Ok event payload ev : with_payload event payload = Ok ev ->
  ev = EventEnvelope.mk (EventEnvelope.run_id event) (EventEnvelope.attempt_id event) (EventEnvelope.engine event)
         (EventEnvelope.event_id event) (EventEnvelope.seq event) (EventEnvelope.occurred_at event)
         (EventEnvelope.type event) (frozen_pairs payload).
Proof. apply validate_Ok. Qed.

(** Collecting an artifact event, with any store: the event keeps its identity and
    gets the payload of the stored record; only the artifacts of the repository change;
    and whenever the same event is delivered again to a repository that still has the
    record, a success returns the same event and changes nothing in the repository.
    Other events pass unchanged. *)
Theorem artifact_collected_once fresh task event s ev s' : collect c fresh task event s = (Ok ev, s') ->
  (EventEnvelope.type event ∉ [EventType.ARTIFACT; EventType.SCREENSHOT] -> ev = event /\ s' = s)
  /\ (EventEnvelope.type event ∈ [EventType.ARTIFACT; EventType.SCREENSHOT] ->
      RunRepository._runs (repository s') = RunRepository._runs (repository s)
      /\ RunRepository._attempts (repository s') = RunRepository._attempts (repository s)
      /\ RunRepository._events (repository s') = RunRepository._events (repository s)
      /\ exists record, RunRepository._artifacts (repository s') !! EventEnvelope.event_id event = Some record
         /\ ArtifactRecord.run_id record = TaskEnvelope.run_id task
         /\ ArtifactRecord.attempt_id record = TaskEnvelope.attempt_id task
         /\ ev = EventEnvelope.mk (EventEnvelope.run_id event) (EventEnvelope.attempt_id event)
                   (EventEnvelope.engine event) (EventEnvelope.event_id event) (EventEnvelope.seq event)
                   (EventEnvelope.occurred_at event) (EventEnvelope.type event)
                   (frozen_pairs (payload_of task record))
         /\ forall fresh2 s2 ev2 s2',
              RunRepository._artifacts (repository s2) !! EventEnvelope.event_id event = Some record ->
              collect c fresh2 task event s2 = (Ok ev2, s2') -> ev2 = ev /\ repository s2' = repository s2).
Proof.
  intros Hc. split.
  { intros Ht. unfold collect in Hc. rewrite bool_decide_false in Hc by done. by injection Hc as <- <-. }
  intros Ht. apply collect_inv in Hc as (K1 & K2 & K3 & _ & source & record & _ & Hid & _ & _ & Hcreate & Hev & Hrun & Hatt & _); [| done].
  split_and!; try done. apply create_artifact_spec in Hcreate as (_ & _ & _ & _ & Hstored & _). rewrite Hid in Hstored.
  exists record. split_and!; try done; [by apply with_payload_Ok |]. intros fresh2 s2 ev2 s2' Hhas Hc2.
  apply collect_inv in Hc2 as (_ & _ & _ & _ & source2 & record2 & _ & Hid2 & _ & _ & Hcreate2 & Hev2 & _); [| done].
  apply create_artifact_spec in Hcreate2 as (_ & _ & _ & _ & _ & Hsame & Hother). rewrite Hid2 in *.
  pose proof (Hother _ Hhas) as <-. rewrite Hev in Hev2. injection Hev2 as <-. split; [done | by apply Hsame].
Qed.
End collector.

Section local.
  Context `{Process} `{MimeTypes}.
  Variables (ls : LocalArtifactStore.t) (c : ArtifactCollector.t).
  Import ArtifactCollector.

Lemma source_of_Ok fs attempt_id payload source : source_of c fs attempt_id payload = Ok source ->
  exists attempt_root content, Path_resolve false fs (spool_root c ++ [uuid_str attempt_id]) = Ok attempt_root
  /\ is_relative_to source attempt_root = true /\ read_file fs source = Ok content.
Proof.
  unfold source_of. destruct (kv_get _ payload) as [[]|]; try done. case_match; [done |]. case_match; [done |].
  intros (attempt_root & Hr & E)%rbind_Ok. cbv zeta in E. destruct (is_symlink fs _); [done |].
  apply rbind_Ok in E as (resolved & _ & E). destruct (_ || negb (is_file fs resolved)) eqn:Ec; [done |].
  revert E. case_match; [done |]. intros [= <-].
  apply orb_false_iff in Ec as [Hin%negb_false_iff Hf%negb_false_iff]. exists attempt_root.
  unfold is_file in Hf. unfold read_file. destruct (stat fs resolved) as [[x a| |]|]; try done. by exists x.
Qed.

(** Collecting into the local store: whatever file the event names, what is stored
    is a file inside the spool of the attempt, its bytes are found under the key of the
    record, which has their number, and nothing outside the store changes but for
    missing directories on the way to it. *)
Theorem collected_artifact_kept fresh task event s r s' :
  EventEnvelope.type event ∈ [EventType.ARTIFACT; EventType.SCREENSHOT] ->
  tree_ok (files s) -> linkless (LocalArtifactStore.root ls) (files s) ->
  (forall key, files s !! (key_directory ls key ++ [temporary_of_key key fresh]) = None) ->
  collect (H := local_store ls) c fresh task event s = (r, s') ->
  (forall q, is_relative_to q (LocalArtifactStore.root ls) = false ->
     files s' !! q = files s !! q
     \/ (files s !! q = None /\ dir_at (files s') q /\ is_relative_to (LocalArtifactStore.root ls) q = true))
  /\ match r with
     | Err _ => True
     | Ok ev => exists record source attempt_root content target,
         RunRepository._artifacts (repository s') !! EventEnvelope.event_id event = Some record
         /\ Path_resolve false (files s) (spool_root c ++ [uuid_str (TaskEnvelope.attempt_id task)]) = Ok attempt_root
         /\ is_relative_to source attempt_root = true /\ read_file (files s) source = Ok content
         /\ ArtifactRecord.size_bytes record = Z.of_nat (length content)
         /\ (ArtifactRecord.size_bytes record <= LocalArtifactStore.maximum_bytes ls)%Z
         /\ LocalArtifactStore.local_path ls (files s') (ArtifactRecord.storage_key record) = Ok (Some target)
         /\ is_relative_to target (LocalArtifactStore.root ls) = true /\ read_file (files s') target = Ok content
     end.
Proof.
  intros Ht T Hl Hfree Hc.
  destruct (collect_inv (H := local_store ls) c fresh task event s r s' Ht Hc) as (_ & _ & _ & Hfiles & K).
  split.
  { destruct Hfiles as [->|(source & key & content_type & ->)]; [by left |].
    destruct (store_put fresh source key content_type (files s)) as [r1 fs1] eqn:E1. cbn [snd].
    by destruct (put_spec ls _ _ _ content_type _ _ _ T Hl (Hfree key) E1) as (_ & C & _). }
  destruct r as [ev|e]; [| done].
  destruct K as (source & record & Hsrc & Hid & _ & Hput & Hcreate & _).
  destruct (put_spec ls _ _ _ (ArtifactRecord.content_type record) _ _ _ T Hl (Hfree _) Hput) as (T' & _ & content & Hkey & Hread & Hsize & Hmax & Hd & Hf).
  apply source_of_Ok in Hsrc as (attempt_root & x & Hroot & Hin & Hx). assert (x = content) as -> by congruence.
  apply create_artifact_spec in Hcreate as (_ & _ & _ & _ & Hstored & _). rewrite Hid in Hstored.
  destruct (file_reads_back _ _ _ _ _ T' Hd Hf) as (_ & _ & Hisf & Hrd).
  set (key := ArtifactRecord.storage_key record) in *.
  exists record, source, attempt_root, content, (key_directory ls key ++ [sha256_hex (utf8 key)]). split_and!; try done.
  - fold key. unfold LocalArtifactStore.local_path, LocalArtifactStore._target. rewrite Hkey. cbn [rbind].
    unfold key_directory in *. rewrite <- app_assoc in *. cbn [app] in *. by rewrite Hisf.
  - apply is_relative_to_spec. unfold key_directory. rewrite <- app_assoc. by eexists.
Qed.
End local.

(** * Artifacts on concrete inputs *)
Import ArtifactCollector.
Open Scope string_scope.
Open Scope list_scope.

#[local] Existing Instance worker.
#[local] Instance by_extension : MimeTypes := fun name => if ends_with ".png" name then Some "image/png" else None.

Definition image : bytes := [137; 80; 78; 71]%N.
Definition spool : path := ["spool"].
Definition spool_disk : tree :=
  <[["spool"; uuid_str 9; "shots"; "a.png"] := File image (Access 420 (65532, 65532)%Z)]>
  (<[["spool"; uuid_str 9; "leak"] := Symlink "/etc/passwd"]>
  (<[["spool"; uuid_str 9; "shots"] := folder]> (<[["spool"; uuid_str 9] := folder]> (<[["spool"] := folder]>
  (<[["etc"; "passwd"] := script]> (<[["etc"] := folder]> ∅)))))).
Definition artifact_store : LocalArtifactStore.t := LocalArtifactStore.mk ["artifacts"] MAXIMUM_BYTES.
#[local] Instance the_store : ArtifactStore := local_store artifact_store.
Definition collector : ArtifactCollector.t := ArtifactCollector.mk spool.

Definition shot (relative_path : string) : EventEnvelope.t :=
  EventEnvelope.mk 7 9 Engine.HTTP 30 3 5 EventType.SCREENSHOT [("relative_path", PStr relative_path)].
Definition collecting (relative_path : string) : M state EventEnvelope.t :=
  collect collector 77 demo_task (shot relative_path).
Definition before : state := mkState spool_disk demo_running.

Definition stored_event : EventEnvelope.t :=
  Eval vm_compute in match run (collecting "shots/a.png") before with Ok e => e | Err _ => shot EmptyString end.
Example collect_shot : run (collecting "shots/a.png") before = Ok stored_event.
Proof. vm_compute. reflexivity. Qed.
Example shot_size : kv_get "size_bytes" (EventEnvelope.payload stored_event) = Some (PInt 4).
Proof. reflexivity. Qed.
Example collect_link : run (collecting "leak") before = Err (ArtifactUploadError "artifact symlinks are not allowed").
Proof. vm_compute. reflexivity. Qed.
Example collect_parent : run (collecting "../x") before = Err (ArtifactUploadError "artifact relative_path is invalid").
Proof. vm_compute. reflexivity. Qed.

Lemma artifact_collected_once_witness :
  exists record, RunRepository._artifacts (repository (after (collecting "shots/a.png") before)) !! 30%N = Some record
    /\ ArtifactRecord.run_id record = TaskEnvelope.run_id demo_task.
Proof.
  destruct (proj2 (artifact_collected_once collector 77 demo_task (shot "shots/a.png") before stored_event
    (after (collecting "shots/a.png") before) (run_after _ _ _ collect_shot))) as (_ & _ & _ & record & Hr & Hrun & _).
  - right. left.
  - exists record. split; [exact Hr | exact Hrun].
Defined.

Lemma spool_ok : tree_ok spool_disk.
Proof. apply well_formed_ok. vm_compute. reflexivity. Qed.

Lemma collected_artifact_kept_witness :
  exists record source content target, read_file spool_disk source = Ok content
    /\ ArtifactRecord.size_bytes record = Z.of_nat (length content)
    /\ LocalArtifactStore.local_path artifact_store (files (after (collecting "shots/a.png") before))
         (ArtifactRecord.storage_key record) = Ok (Some target)
    /\ read_file (files (after (collecting "shots/a.png") before)) target = Ok content.
Proof.
  destruct (collected_artifact_kept artifact_store collector 77 demo_task (shot "shots/a.png") before (Ok stored_event)
    (after (collecting "shots/a.png") before)) as [_ (record & source & attempt_root & content & target & Hrec & Hroot & Hin & Hread & Hsize & _ & Hpath & _ & Hkept)].
  - right. left.
  - exact spool_ok.
  - apply linkless_b_ok. vm_compute. reflexivity.
  - intros key. unfold key_directory. rewrite <- app_assoc. apply (vacant_b_ok ["artifacts"]). vm_compute. reflexivity.
  - apply run_after. exact collect_shot.
  - exists record, source, content, target. split; [exact Hread | split; [exact Hsize | split; [exact Hpath | exact Hkept]]].
Defined.
