(* ===== verification/DockerExecutor.v ===== *)
(** * Running a task in a container ([src/services/docker_executor.py],
    [src/runner/container_entrypoint.py])

    [DockerExecutor] is written against the interface [DockerClient];
    [SubprocessDockerClient] implements it over the process it starts, an argument of
    the model ([Docker]).  The conversions of pydantic between envelopes and JSON are
    the argument [Wire].  The state is the file system, the grants of the secret broker,
    whatever the event sink works on, the result of the current call, and the list of
    the commands given to Docker. *)
From stdpp Require Import gmap strings pretty.
From S2P Require Import Prelude PyDict PyText Protocol Domain Sha256 Templates EnvironmentCrypto Environments SecretBroker Urls Files Json SourceStore HostSources SecretFiles.
Open Scope string_scope.
Open Scope list_scope.

Module DockerContainerSpec.
Record t := mk {
  image : string; name : string; workspace : path; artifact_spool : option path;
  labels : list (string * string); network : string; cpus : string; memory : string;
  pids_limit : Z; secret_directory : option path }.
End DockerContainerSpec.

Module DockerRunResult.
Record t := mk { exit_code : Z; timed_out : bool; stderr : string }.
End DockerRunResult.

(** Dumping and validating envelopes; a task is validated from its JSON text. *)
Class Wire := {
  task_dump : TaskEnvelope.t -> pyval; task_parse : bytes -> res TaskEnvelope.t;
  event_dump : EventEnvelope.t -> pyval; event_load : pyval -> res EventEnvelope.t;
  result_dump : ResultEnvelope.t -> pyval; result_load : pyval -> res ResultEnvelope.t
}.

(** ** State *)

Module Execution.
Record t (S : Type) := mk {
  files : tree; grants : InMemorySecretGrantStore.t; sink : S;
  result : option ResultEnvelope.t; commands : list (list string) }.
End Execution.
Arguments Execution.mk {S}.
Arguments Execution.files {S}.
Arguments Execution.grants {S}.
Arguments Execution.sink {S}.
Arguments Execution.result {S}.
Arguments Execution.commands {S}.

Section lifts.
  Context {S : Type}.
  Notation state := (Execution.t S).

Definition on_files {A} (m : M tree A) : M state A := fun s =>
  let '(r, fs) := m (Execution.files s) in
  (r, Execution.mk fs (Execution.grants s) (Execution.sink s) (Execution.result s) (Execution.commands s)).
Definition on_grants {A} (m : M InMemorySecretGrantStore.t A) : M state A := fun s =>
  let '(r, g) := m (Execution.grants s) in
  (r, Execution.mk (Execution.files s) g (Execution.sink s) (Execution.result s) (Execution.commands s)).
(** The sink may work on the files as well. *)
Definition on_sink {A} (m : M (tree * S) A) : M state A := fun s =>
  let '(r, (fs, k)) := m (Execution.files s, Execution.sink s) in
  (r, Execution.mk fs (Execution.grants s) k (Execution.result s) (Execution.commands s)).
Definition set_result (r : option ResultEnvelope.t) : M state unit := fun s =>
  (Ok tt, Execution.mk (Execution.files s) (Execution.grants s) (Execution.sink s) r (Execution.commands s)).
Definition issue_command (c : list string) : M state unit := fun s =>
  (Ok tt, Execution.mk (Execution.files s) (Execution.grants s) (Execution.sink s) (Execution.result s)
            (Execution.commands s ++ [c])).
End lifts.

(** ** The client *)

(** The protocol [DockerClient]; timeouts are in microseconds. *)
Class DockerClient (S : Type) :=
  client_run : DockerContainerSpec.t -> string -> (string -> M (Execution.t S) unit) -> Z ->
    M (Execution.t S) DockerRunResult.t.

(** What became of the process: whether it started and took its input, the lines of its
    output, how the first wait ended ([None]: not in time) and the second, its error
    output, and whether the readers ended. *)
Module Proc.
Record t := mk {
  started : res unit; stdin_taken : res unit; lines : list string;
  exit_code : option Z; exit_after_kill : option Z; stderr : string; closed : bool }.
End Proc.
(** The process may write to the files mounted writable. *)
Class Docker := docker_process : DockerContainerSpec.t -> list string -> string -> Z -> M tree Proc.t.

Module SubprocessDockerClient.
Record t := mk { executable : string; stderr_limit : Z }.

Definition is_alnum (c : Ascii.ascii) : bool := is_alpha c || is_digit c.
Definition one_of (codes : list N) (c : Ascii.ascii) : bool := bool_decide (code c ∈ codes).
(** ['.'], ['_'], ['-'] and, in an image, ['/'], [':'], ['@']. *)
Definition _SAFE_IMAGE : string -> bool :=
  matches_name is_alnum (fun c => is_alnum c || one_of [46; 95; 47; 58; 64; 45]%N c) 254.
Definition _SAFE_NETWORK : string -> bool := matches_name is_alnum (fun c => is_alnum c || one_of [95; 46; 45]%N c) 62.
Definition _SAFE_NAME : string -> bool := matches_name is_alnum (fun c => is_alnum c || one_of [95; 46; 45]%N c) 127.
Definition dot : Ascii.ascii := Ascii.ascii_of_N 46.
(** [[0-9]+(?:\.[0-9]{1,3})?]. *)
Definition _SAFE_CPUS (s : string) : bool :=
  let digits x := negb (empty_str x) && all_chars is_digit x in
  match split_on dot s with
  | [whole] => digits whole
  | [whole; part] => digits whole && digits part && (py_len part <=? 3)%Z
  | _ => false
  end.
(** [float(text) > 0] of such a text: some digit is not zero. *)
Definition positive_decimal (s : string) : bool :=
  negb (all_chars (fun c => negb (is_digit c) || (code c =? 48)%N) s).
(** [[1-9][0-9]*(?:[bkmgBKMG])?]. *)
Definition _SAFE_MEMORY (s : string) : bool :=
  match s with
  | EmptyString => false
  | String c r =>
      is_digit c && negb (code c =? 48)%N
      && match snd (span is_digit r) with
         | EmptyString => true
         | String u EmptyString => one_of [98; 107; 109; 103; 66; 75; 77; 71]%N u
         | _ => false
         end
  end.
Definition is_lower (c : Ascii.ascii) : bool := is_alpha c && (97 <=? code c)%N.
Definition label_key : string -> bool :=
  matches_name is_lower (fun c => is_lower c || is_digit c || one_of [95; 46; 45]%N c) 62.
Definition label_value (s : string) : bool :=
  negb (empty_str s) && all_chars (fun c => is_alnum c || one_of [95; 46; 45]%N c) s && (py_len s <=? 255)%Z.

(** A comma, a line end or a NUL would end the value of the option. *)
Definition mount_char (c : Ascii.ascii) : bool := one_of [44; 13; 10; 0]%N c.

Definition _directory (fs : tree) (p : path) (description : string) : res path :=
  let failed := ValueError (description ++ " must be a directory")%string in
  let? resolved := LocalSourceStore.path_error_as failed (Path_resolve true fs p) in
  if negb (is_dir fs resolved) || negb (all_chars (fun c => negb (mount_char c)) (absolute_text resolved))
  then Err failed else Ok resolved.

Definition _overlaps (left right : path) : bool :=
  bool_decide (left = right) || is_relative_to left right || is_relative_to right left.

Definition secret_directory_invalid : exn := ValueError "runner secret directory is invalid".

Fixpoint check_labels (labels : list (string * string)) : res unit :=
  match labels with
  | [] => Ok tt
  | (key, value) :: rest =>
      if negb (label_key key) then Err (ValueError "runner label has an invalid key")
      else if negb (label_value value) then Err (ValueError "runner label has an invalid value")
      else check_labels rest
  end.

Section spec.
  Import DockerContainerSpec.

(** An optional directory. *)
Definition optional_directory (fs : tree) (p : option path) (description : string) : res (option path) :=
  match p with
  | None => Ok None
  | Some p => let? d := _directory fs p description in Ok (Some d)
  end.

Definition validate_spec (fs : tree) (spec : t) : res (path * option path * option path) :=
  if negb (_SAFE_IMAGE (image spec)) then Err (ValueError "runner image has an invalid reference")
  else if negb (_SAFE_NETWORK (network spec)) then Err (ValueError "runner network has an invalid name")
  else if negb (_SAFE_NAME (name spec)) then Err (ValueError "runner container has an invalid name")
  else if negb (_SAFE_CPUS (cpus spec)) || negb (positive_decimal (cpus spec))
          || negb (_SAFE_MEMORY (memory spec)) || (pids_limit spec <=? 0)%Z
  then Err (ValueError "runner resource limits are invalid")
  else
    let? _ := check_labels (labels spec) in
    let? workspace := _directory fs (workspace spec) "runner workspace" in
    let? spool := optional_directory fs (artifact_spool spec) "artifact spool" in
    match secret_directory spec with
    | None => Ok (workspace, spool, None)
    | Some secret_source =>
        if is_symlink fs secret_source then Err secret_directory_invalid
        else
          let? secrets := _directory fs secret_source "runner secret directory" in
          if _overlaps secrets workspace
             || match spool with Some spool => _overlaps secrets spool | None => false end
          then Err secret_directory_invalid
          else Ok (workspace, spool, Some secrets)
    end.

Definition _command (c : SubprocessDockerClient.t) (fs : tree) (spec : t) : res (list string) :=
  let? ' (workspace, spool, secrets) := validate_spec fs spec in
  Ok ([executable c; "run"; "--rm"; "--interactive"; "--name"; name spec;
       "--read-only"; "--user"; "65532:65532"; "--cap-drop"; "ALL";
       "--security-opt"; "no-new-privileges"; "--pids-limit"; pretty (pids_limit spec);
       "--cpus"; cpus spec; "--memory"; memory spec; "--memory-swap"; memory spec;
       "--network"; network spec; "--tmpfs"; "/tmp:rw,noexec,nosuid,size=128m";
       "--mount"; ("type=bind,src=" ++ absolute_text workspace ++ ",dst=/workspace,readonly")%string]
      ++ concat (map (fun kv => ["--label"; (kv.1 ++ "=" ++ kv.2)%string]) (labels spec))
      ++ match spool with
         | Some spool => ["--mount"; ("type=bind,src=" ++ absolute_text spool ++ ",dst=/artifacts")%string]
         | None => []
         end
      ++ match secrets with
         | Some secrets => ["--mount"; ("type=bind,src=" ++ absolute_text secrets ++ ",dst=/run/secrets,readonly")%string]
         | None => []
         end
      ++ [image spec; "python"; "-m"; "runner.container_entrypoint"]).
End spec.

Section run.
  Context {S : Type} `{Docker}.
  Notation state := (Execution.t S).

Definition _control (c : t) (arguments : list string) : M state unit := issue_command (executable c :: arguments).
Definition _stop (c : t) (name : string) : M state unit := _control c ["stop"; "--time"; "2"; name].
Definition _remove (c : t) (name : string) : M state unit := _control c ["rm"; "--force"; name].

(** [line.rstrip("\r\n")]. *)
Fixpoint strip_line (s : string) : string :=
  match s with
  | EmptyString => EmptyString
  | String c r => match strip_line r with
                  | EmptyString => if Ascii.eqb c newline || Ascii.eqb c carriage_return then EmptyString
                                   else String c EmptyString
                  | r' => String c r'
                  end
  end.

(** The thread [read_stdout]: the first error ends it. *)
Fixpoint read_stdout (on_stdout_line : string -> M state unit) (lines : list string) : M state (option exn) :=
  match lines with
  | [] => ret None
  | line :: rest =>
      let* failed := try_except (on_stdout_line (strip_line line) ;;; ret None) any_exn (fun e => ret (Some e)) in
      match failed with
      | Some e => ret (Some e)
      | None => read_stdout on_stdout_line rest
      end
  end.

(** Starting, feeding and awaiting the process: exit code and whether it was stopped. *)
Definition await (c : t) (spec : DockerContainerSpec.t) (process : Proc.t) : M state (Z * bool) :=
  match Proc.stdin_taken process with
  | Err _ => raise (DockerExecutionError "Runner rejected its task envelope")
  | Ok _ =>
      match Proc.exit_code process with
      | Some exit_code => ret (exit_code, false)
      | None =>
          _stop c (DockerContainerSpec.name spec) ;;;
          ret (default (-1)%Z (Proc.exit_after_kill process), true)
      end
  end.

Definition run (c : t) (spec : DockerContainerSpec.t) (stdin_payload : string)
    (on_stdout_line : string -> M state unit) (timeout : Z) : M state DockerRunResult.t :=
  let* s := get in
  let* command := lift (_command c (Execution.files s) spec) in
  issue_command command ;;;
  let* process := on_files (docker_process spec command stdin_payload (Z.max 10000 timeout)) in
  match Proc.started process with
  | Err e => raise (if is_OSError e then DockerExecutionError "Docker CLI could not be started" else e)
  | Ok _ =>
      let* stdout_errors := read_stdout on_stdout_line (Proc.lines process) in
      let* ' (exit_code, timed_out) :=
        try_finally (await c spec process) (_remove c (DockerContainerSpec.name spec)) in
      if negb (Proc.closed process) then raise (DockerExecutionError "Docker output streams did not close")
      else match stdout_errors with
           | Some _ => raise (DockerExecutionError "Runner emitted an invalid transport message")
           | None => ret (DockerRunResult.mk exit_code timed_out
                            (String.substring 0 (Z.to_nat (stderr_limit c)) (Proc.stderr process)))
           end
  end.
End run.

Definition client {S} `{Docker} (c : t) : DockerClient S := run c.
End SubprocessDockerClient.

(** ** The executor *)

(** What [json.dumps] needs for compact JSON text. *)
Definition model_dump_json `{PyFloat} (v : pyval) : string :=
  match dumps false false v with Ok t => t | Err _ => EmptyString end.

Definition transport_invalid {A} : res A := Err (DockerExecutionError "Runner transport is not valid JSON-lines").
(** [message[key]]. *)
Definition member_of (key : string) (message : pyval) : res pyval :=
  match message with
  | PDict kvs => match kv_get key kvs with Some v => Ok v | None => transport_invalid end
  | _ => transport_invalid
  end.
Definition MAX_LINE : Z := 1048576.

Module DockerExecutor.
Record t := mk {
  image : string; workspace : path; network : string; maximum_timeout : Z;
  artifact_spool_root : option path; secret_ttl : option Z;
  secret_file_stager : option SecretFileStager.t; runner_id : option string }.

Definition _terminal (completed_at : datetime) (task : TaskEnvelope.t) (outcome : ResultOutcome.t) (reason : string)
    : ResultEnvelope.t :=
  ResultEnvelope.mk (TaskEnvelope.run_id task) (TaskEnvelope.attempt_id task) (TaskEnvelope.engine task) outcome
    completed_at 0 (frozen_pairs [("reason", PStr reason)]).

Section executor.
  Context {S : Type} `{PyFloat} `{Wire} `{DockerClient S} `{Process} `{Ownership}.
  Notation state := (Execution.t S).
  (** The attempts and secrets the broker reads, and what the call draws: clock
      readings, a capability token, its id and the names of the stager. *)
  Context (self : t) (attempts : AttemptReader) (resolver : SecretResolver.t)
          (clk : clock) (token : string) (grant_id : uuid) (tokens : nat -> N).
  Context (event_sink : EventEnvelope.t -> M (tree * S) unit).

(** The nested function [consume]. *)
Definition consume (line : string) : M state unit :=
  if empty_str line || (MAX_LINE <? py_len line)%Z then
    raise (DockerExecutionError "Runner transport line is empty or too large")
  else
    let* message := lift (match loads line with Err JSONDecodeError => transport_invalid | r => r end) in
    let* kind := lift (member_of "kind" message) in
    let* data := lift (member_of "data" message) in
    let* s := get in
    if py_eqb kind (PStr "event") then
      let* event := lift (event_load data) in
      on_sink (event_sink event)
    else if py_eqb kind (PStr "result") && bool_decide (Execution.result s = None) then
      let* result := lift (result_load data) in
      set_result (Some result)
    else raise (DockerExecutionError "Runner transport message kind is invalid or duplicated").

Definition spec_of (task : TaskEnvelope.t) (artifact_spool secret_directory : option path) : DockerContainerSpec.t :=
  DockerContainerSpec.mk (image self) ("smarttest-" ++ uuid_str (TaskEnvelope.attempt_id task))%string
    (workspace self) artifact_spool
    [("smarttest.tenant_id", uuid_str (TaskEnvelope.tenant_id task));
     ("smarttest.project_id", uuid_str (TaskEnvelope.project_id task));
     ("smarttest.run_id", uuid_str (TaskEnvelope.run_id task));
     ("smarttest.attempt_id", uuid_str (TaskEnvelope.attempt_id task))]
    (network self) "1.0" "512m" 128 secret_directory.

Definition _run_container (task : TaskEnvelope.t) (artifact_spool secret_directory : option path) (remaining : Z)
    : M state DockerRunResult.t :=
  let spec := spec_of task artifact_spool secret_directory in
  let* s := get in
  match secret_directory, SubprocessDockerClient.validate_spec (Execution.files s) spec with
  | Some _, Err e =>
      raise (if is_ValueError e then DockerExecutionError "Docker container configuration is invalid" else e)
  | _, _ => client_run spec (model_dump_json (task_dump task) ++ chr 10)%string consume
              (Z.min remaining (maximum_timeout self))
  end.

Definition preparation_failed {A} : M state A := raise (DockerExecutionError "Runner secret preparation failed").

Definition _run_with_secrets (ttl : Z) (stager : SecretFileStager.t) (runner : string) (task : TaskEnvelope.t)
    (artifact_spool : option path) (remaining : Z) : M state DockerRunResult.t :=
  let* capability :=
    try_except (on_grants (SecretBroker.issue attempts resolver ttl (clk 1%nat) token grant_id task runner)) any_exn
      (fun _ => preparation_failed) in
  try_finally
    (let* values :=
       try_except (on_grants (SecretBroker.redeem attempts resolver (clk 2%nat) capability task runner)) any_exn
         (fun _ => preparation_failed) in
     let* secret_directory :=
       try_except (on_files (SecretFileStager.prepare stager tokens values)) any_exn (fun _ => preparation_failed) in
     try_finally
       (_run_container task artifact_spool (Some secret_directory) remaining)
       (try_except (on_files (SecretFileStager._cleanup secret_directory)) any_exn
          (fun _ => raise (DockerExecutionError "Runner secret cleanup failed"))))
    (try_except (on_grants (SecretBroker.revoke (clk 3%nat) capability)) any_exn (fun _ => ret tt)).

(** The spool of the attempt, if artifacts are collected. *)
Definition make_spool (task : TaskEnvelope.t) : M tree (option path) :=
  match artifact_spool_root self with
  | None => ret None
  | Some spool_root =>
      let* fs := get in
      let* spool_root := lift (Path_resolve false fs spool_root) in
      makedirs spool_root ;;;
      let artifact_spool := spool_root ++ [uuid_str (TaskEnvelope.attempt_id task)] in
      mkdir 511 false artifact_spool ;;;
      ret (Some artifact_spool)
  end.
(** [shutil.rmtree(artifact_spool, ignore_errors=True)]. *)
Definition drop_spool (artifact_spool : option path) : M tree unit :=
  match artifact_spool with
  | None => ret tt
  | Some p => try_except (rmtree p) any_exn (fun _ => ret tt)
  end.

Definition run_task (task : TaskEnvelope.t) (artifact_spool : option path) (remaining : Z) : M state DockerRunResult.t :=
  match TaskEnvelope.secret_references task, secret_ttl self, secret_file_stager self, runner_id self with
  | [], _, _, _ => _run_container task artifact_spool None remaining
  | _, Some ttl, Some stager, Some runner => _run_with_secrets ttl stager runner task artifact_spool remaining
  | _, _, _, _ => raise (OtherException "AssertionError")
  end.

Definition secrets_unconfigured (task : TaskEnvelope.t) : bool :=
  negb (nilb (TaskEnvelope.secret_references task))
  && (match secret_ttl self with None => true | _ => false end
      || match secret_file_stager self with None => true | _ => false end
      || empty_str (default EmptyString (runner_id self))).

Definition execute (task : TaskEnvelope.t) : M state ResultEnvelope.t :=
  if secrets_unconfigured task then raise (DockerExecutionError "Runner secret handling is not configured")
  else
    let remaining := (TaskEnvelope.deadline task - clk 0%nat)%Z in
    if (remaining <=? 0)%Z then ret (_terminal (clk 4%nat) task ResultOutcome.TIMED_OUT "deadline_expired")
    else
      set_result None ;;;
      let* artifact_spool := on_files (make_spool task) in
      let* runtime := try_finally (run_task task artifact_spool remaining) (on_files (drop_spool artifact_spool)) in
      let* s := get in
      if DockerRunResult.timed_out runtime then
        ret (_terminal (clk 4%nat) task ResultOutcome.TIMED_OUT "container_timeout")
      else match Execution.result s with
           | Some result =>
               if negb (DockerRunResult.exit_code runtime =? 0)%Z
               then ret (_terminal (clk 4%nat) task ResultOutcome.INFRA_ERROR "container_failed")
               else ret result
           | None => ret (_terminal (clk 4%nat) task ResultOutcome.INFRA_ERROR "container_failed")
           end.
End executor.
End DockerExecutor.

(** ** Inside the container *)

Module container_entrypoint.
Definition MAX_TASK_BYTES : Z := 1048576.

(** One line of the transport. *)
Definition line_of `{PyFloat} (kind data : string) : string :=
  ("{" ++ quote ++ "kind" ++ quote ++ ":" ++ json_string true kind ++ "," ++ quote ++ "data" ++ quote ++ ":"
   ++ data ++ "}" ++ chr 10)%string.

(** Standard output and standard error, as the lines written. *)
Record streams := mkStreams { stdout : list string; stderr : string }.

Section main.
  Context `{PyFloat} `{Wire}.

Definition _write (kind data : string) : M streams unit := fun s =>
  (Ok tt, mkStreams (stdout s ++ [line_of kind data]) (stderr s)).
Definition complain (message : string) : M streams unit := fun s =>
  (Ok tt, mkStreams (stdout s) (stderr s ++ message)%string).

(** [run_agent] is [RunnerAgent(task, ..., emit, ...).run()]. *)
Definition main (run_agent : TaskEnvelope.t -> (EventEnvelope.t -> M streams unit) -> M streams ResultEnvelope.t)
    (stdin : bytes) : M streams Z :=
  let raw := take (Z.to_nat (MAX_TASK_BYTES + 1)) stdin in
  if nilb raw || (MAX_TASK_BYTES <? Z.of_nat (length raw))%Z then
    complain ("task envelope is empty or too large" ++ chr 10)%string ;;; ret 2%Z
  else
    match task_parse raw with
    | Err _ => complain ("task envelope is invalid" ++ chr 10)%string ;;; ret 2%Z
    | Ok task =>
        let emit (event : EventEnvelope.t) := _write "event" (model_dump_json (event_dump event)) in
        let* result := run_agent task emit in
        _write "result" (model_dump_json (result_dump result)) ;;;
        ret 0%Z
    end.
End main.
End container_entrypoint.
