(* ===== verification/DockerTheorems.v ===== *)
(** * Facts about the container executor

    What a call may leave behind: nothing where the secrets are staged, nothing in the
    spool of the attempt, no open capability. *)
From stdpp Require Import gmap strings pretty.
From S2P Require Import Prelude PyDict PyText TextFacts Protocol Domain Sha256 Templates EnvironmentCrypto Environments SecretBroker Urls Files FileFacts Json SourceStore SourceStoreTheorems SourceReferences HostSources SecretFiles SecretFileTheorems DockerExecutor.
Open Scope string_scope.
Open Scope list_scope.

Lemma bind_assoc {S A B C} (m : M S A) (k : A -> M S B) (f : B -> M S C) s :
  bind m (fun x => bind (k x) f) s = bind (bind m k) f s.
Proof. unfold bind. by destruct (m s) as [[x|e] s']. Qed.

(** ** Unrelated places *)

Definition apart (a b : path) : Prop := is_relative_to a b = false /\ is_relative_to b a = false.

Lemma comparable q a b : is_relative_to q a = true -> is_relative_to q b = true ->
  is_relative_to a b = true \/ is_relative_to b a = true.
Proof.
  intros [x ->]%is_relative_to_spec [y E]%is_relative_to_spec.
  destruct (app_prefix_cases _ _ _ _ E) as [[e ->]|[e ->]]; [right | left]; apply is_relative_to_spec; by exists e.
Qed.

Lemma apart_below q a b : apart a b -> is_relative_to q a = true -> is_relative_to q b = false.
Proof.
  intros [H1 H2] Ha. destruct (is_relative_to q b) eqn:Hb; [| done].
  destruct (comparable q a b Ha Hb); congruence.
Qed.

Lemma apart_sym a b : apart a b -> apart b a.
Proof. by intros [? ?]. Qed.

Lemma apart_snoc a b c : apart a b -> apart (a ++ [c]) b.
Proof.
  intros [H1 H2]. split.
  - apply not_true_iff_false. intros [x Ex]%is_relative_to_spec.
    destruct (app_prefix_cases _ _ _ _ Ex) as [[e ->]|[e ->]].
    + apply not_true_iff_false in H2. apply H2, is_relative_to_spec. by exists e.
    + apply not_true_iff_false in H1. apply H1, is_relative_to_spec. by exists e.
  - apply not_true_iff_false. intros [x ->]%is_relative_to_spec. apply not_true_iff_false in H2.
    apply H2, is_relative_to_spec. exists ([c] ++ x). by rewrite app_assoc.
Qed.

Section quiet.
  Context {S : Type}.
  Notation state := (Execution.t S).
  Variables (P : path) (spool : option path).

(** A step that leaves [P] alone and the spool in place, and touches no grant. *)
Record calm (fs fs' : tree) : Prop := {
  c_ok : tree_ok fs';
  c_same : forall q, is_relative_to q P = true -> fs' !! q = fs !! q;
  c_spool : forall d, spool = Some d -> dir_at fs d -> dir_at fs' d }.

Definition quiet (s s' : state) : Prop :=
  Execution.grants s' = Execution.grants s
  /\ (tree_ok (Execution.files s) -> calm (Execution.files s) (Execution.files s')).

Lemma calm_refl fs : tree_ok fs -> calm fs fs.
Proof. by split. Qed.

Lemma calm_trans fs fs1 fs2 : calm fs fs1 -> calm fs1 fs2 -> calm fs fs2.
Proof.
  intros C1 C2. split; [apply C2 | |].
  - intros q Hq. by rewrite (c_same _ _ C2), (c_same _ _ C1).
  - intros d Hs Hd. by apply (c_spool _ _ C2), (c_spool _ _ C1).
Qed.

#[export] Instance quiet_preorder : PreOrder quiet.
Proof.
  split.
  - intros s. split; [done | by apply calm_refl].
  - intros s1 s2 s3 [G1 C1] [G2 C2]. split; [congruence |]. intros T.
    eapply calm_trans; [by apply C1 | apply C2, C1, T].
Qed.

End quiet.



(** ** The interface of the client *)

(** What a process may do to the files: write below its spool. *)
Definition spool_writes (spec : DockerContainerSpec.t) (fs fs' : tree) : Prop :=
  match DockerContainerSpec.artifact_spool spec with
  | None => fs' = fs
  | Some d => (tree_ok fs -> tree_ok fs') /\ forall q, is_relative_to q d = false \/ q = d -> fs' !! q = fs !! q
  end.

Definition with_files {S : Type} (fs : tree) (s : Execution.t S) : Execution.t S :=
  Execution.mk fs (Execution.grants s) (Execution.sink s) (Execution.result s) (Execution.commands s).
Definition with_commands {S : Type} (l : list (list string)) (s : Execution.t S) : Execution.t S :=
  Execution.mk (Execution.files s) (Execution.grants s) (Execution.sink s) (Execution.result s) l.

(** A client does nothing but run the process, hand over its lines and issue commands. *)
Class DockerClientLaw (S : Type) `{DockerClient S} : Prop :=
  client_law : forall (R : Execution.t S -> Execution.t S -> Prop) `{!PreOrder R} spec payload on_line timeout,
    (forall line, steps R (on_line line)) ->
    (forall s fs, spool_writes spec (Execution.files s) fs -> R s (with_files fs s)) ->
    (forall s l, R s (with_commands l s)) ->
    steps R (client_run spec payload on_line timeout).

Class DockerLaw `{Docker} : Prop :=
  docker_law : forall spec command payload timeout fs,
    spool_writes spec fs (docker_process spec command payload timeout fs).2.

Lemma subprocess_client_law {S : Type} `{DockerLaw} (c : SubprocessDockerClient.t) :
  @DockerClientLaw S (SubprocessDockerClient.client c).
Proof.
  intros R Hpre spec payload on_line timeout Hline Hfiles Hcommands.
  unfold client_run, SubprocessDockerClient.client, SubprocessDockerClient.run.
  assert (forall l, steps R (issue_command (S:=S) l)) as Hissue by (intros l s; apply Hcommands).
  assert (forall lines, steps R (SubprocessDockerClient.read_stdout on_line lines)) as Hread.
  { induction lines as [|line lines IH]; cbn [SubprocessDockerClient.read_stdout]; by_steps. }
  assert (forall command payload t, steps R (on_files (S:=S) (docker_process spec command payload t))) as Hdocker.
  { intros command pl t s. unfold on_files. pose proof (docker_law spec command pl t (Execution.files s)) as Hw.
    destruct (docker_process _ _ _ _ _) as [r fs]. cbn [snd] in *. by apply Hfiles in Hw. }
  unfold SubprocessDockerClient.await, SubprocessDockerClient._remove, SubprocessDockerClient._stop, SubprocessDockerClient._control.
  by_steps.
Qed.

(** ** The executor *)

Section executor.
  Context {S : Type} `{PyFloat} `{Wire} `{DockerClientLaw S} `{Process} `{OwnershipLaw}.
  Notation state := (Execution.t S).
  Context (self : DockerExecutor.t) (attempts : AttemptReader) (resolver : SecretResolver.t)
          (clk : clock) (token : string) (grant_id : uuid) (tokens : nat -> N).
  Context (event_sink : EventEnvelope.t -> M (tree * S) unit).
  Context (stager : SecretFileStager.t) (spool : option path).
  Notation P := (SecretFileStager._root stager).

(** The sink leaves the staging directory and the spool in place. *)
Definition sink_calm : Prop :=
  forall event fs k, tree_ok fs -> calm P spool fs (event_sink event (fs, k)).2.1.

Hypothesis Hsink : sink_calm.
Hypothesis Hspool : forall d, spool = Some d -> apart d P.

Lemma consume_quiet line : steps (quiet P spool) (DockerExecutor.consume event_sink line).
Proof.
  assert (forall e, steps (quiet P spool) (on_sink (event_sink e))) as Hs.
  { intros e s. unfold on_sink. pose proof (Hsink e (Execution.files s) (Execution.sink s)) as Hc.
    destruct (event_sink e _) as [r [fs k]]. split; [done |]. exact Hc. }
  assert (forall r, steps (quiet P spool) (set_result (S:=S) r)) as Hr.
  { intros r s. split; [done |]. by apply calm_refl. }
  unfold DockerExecutor.consume. by_steps.
Qed.

Lemma writes_quiet spec (s : state) fs : DockerContainerSpec.artifact_spool spec = spool ->
  spool_writes spec (Execution.files s) fs -> quiet P spool s (with_files fs s).
Proof.
  intros Hs Hw. split; [done |]. intros T. unfold spool_writes in Hw. cbn [with_files Execution.files].
  destruct (DockerContainerSpec.artifact_spool spec) as [d|]; [| subst fs; by apply calm_refl].
  destruct Hw as [Hok Hsame]. split; [by apply Hok | |].
  - intros q Hq. apply Hsame. left. eapply apart_below; [apply apart_sym, Hspool; by rewrite <- Hs | done].
  - intros d' Hd' [a Ha]. assert (d' = d) as -> by congruence. exists a. destruct d as [|c d]; [done |].
    cbn [node_at] in *. rewrite Hsame; [done | by right].
Qed.

Lemma run_container_quiet task secrets remaining :
  steps (quiet P spool) (DockerExecutor._run_container self event_sink task spool secrets remaining).
Proof.
  unfold DockerExecutor._run_container.
  assert (forall spec payload timeout, DockerContainerSpec.artifact_spool spec = spool ->
    steps (quiet P spool) (client_run spec payload (DockerExecutor.consume event_sink) timeout)) as Hrun.
  { intros spec payload timeout Hsp. apply client_law; [apply _ | apply consume_quiet | |].
    - intros s fs Hw. by eapply writes_quiet.
    - intros s l. split; [done |]. by apply calm_refl. }
  by_steps; by apply Hrun.
Qed.

(** *** Capabilities *)

Definition closed (g : InMemorySecretGrantStore.t) : Prop :=
  forall r, InMemorySecretGrantStore._records g !! SecretBroker.digest token = Some r -> SecretGrantRecord.open r = false.

Lemma issue_state ttl now task runner g r g' :
  SecretBroker.issue attempts resolver ttl now token grant_id task runner g = (r, g') ->
  match r with Ok c => c = SecretCapability.mk token | Err _ => g' = g end.
Proof.
  unfold SecretBroker.issue, SecretBroker.rejecting, try_except, any_exn, bind, lift, raise, ret.
  destruct (TaskEnvelope.environment_id task); [| by intros [= <- <-]].
  destruct (TaskEnvelope.environment_revision task); [| by intros [= <- <-]].
  destruct (_ || _); [by intros [= <- <-] |].
  destruct (SecretResolver.validate_secret_references _ _ _ _ _); [| by intros [= <- <-]]. cbn beta iota.
  destruct (SecretBroker._binding _ _ _); [| by intros [= <- <-]].
  destruct (add_seconds now ttl) as [until|]; [| by intros [= <- <-]].
  unfold InMemorySecretGrantStore.issue, bind, lift, get, raise, ret, put.
  destruct (InMemorySecretGrantStore._valid_attempt _ _ _) as [attempt|]; [| by intros [= <- <-]].
  destruct (AttemptRecord.lease_expires_at attempt); [| by intros [= <- <-]]. cbv zeta.
  destruct (_ || _); by intros [= <- <-].
Qed.

Lemma revoke_closes now g : exists g', SecretBroker.revoke now (SecretCapability.mk token) g = (Ok tt, g') /\ closed g'.
Proof.
  unfold SecretBroker.revoke, SecretBroker.rejecting, try_except, InMemorySecretGrantStore.revoke, bind, get, put, ret.
  cbn [SecretCapability.token]. set (d := SecretBroker.digest token).
  destruct (InMemorySecretGrantStore._records g !! d) as [r|] eqn:E.
  - destruct (SecretGrantRecord.open r) eqn:Eo; eexists; (split; [reflexivity |]); intros r'; fold d.
    + cbn. rewrite dict_lookup_insert_eq. intros [= <-]. unfold SecretGrantRecord.open, SecretGrantRecord.revoked. cbn.
      by destruct (SecretGrantRecord.consumed_at r).
    + rewrite E. by intros [= <-].
  - eexists. split; [reflexivity |]. intros r'. fold d. by rewrite E.
Qed.

(** *** Removing a directory *)

Lemma without_calm p fs : tree_ok fs -> apart p P -> (forall d, spool = Some d -> is_relative_to d p = false) ->
  calm P spool fs (without p fs).
Proof.
  intros T Ha Hs. split; [by apply without_ok | |].
  - intros q Hq. rewrite without_lookup. by rewrite (apart_below q P p) by (done || by apply apart_sym).
  - intros d Hd Hdir. apply without_dir; [by apply Hs | done].
Qed.

(** The staged directory is removed after the run. *)
Lemma staged_run_calm child n fs fs1 fs2 : tree_ok fs -> child = P ++ [n] -> fs !! child = None ->
  grows child fs fs1 -> dir_at fs1 child -> calm P spool fs1 fs2 ->
  exists fs3, SecretFileStager._cleanup child fs2 = (Ok tt, fs3) /\ calm P spool fs fs3.
Proof.
  intros T -> Hn G Hd C. assert (dir_at fs2 (P ++ [n])) as Hd2.
  { destruct Hd as [a Ha]. exists a. rewrite node_at_snoc in *. rewrite (c_same _ _ _ _ C); [done |].
    apply is_relative_to_spec. by exists [n]. }
  exists (without (P ++ [n]) fs2). split.
  { unfold SecretFileStager._cleanup, try_except. by rewrite rmtree_self by (done || apply C). }
  split; [apply without_ok, C | |].
  - intros q Hq. rewrite without_lookup. destruct (is_relative_to q (P ++ [n])) eqn:E.
    + apply is_relative_to_spec in E as [x ->]. pose proof (missing_below fs (P ++ [n]) x T (snoc_not_nil _ _) Hn) as Hm.
      rewrite node_at_ne in Hm; [done |]. intros E0. by destruct P.
    + rewrite (c_same _ _ _ _ C) by done. by apply G.
  - intros d Hsp Hdir. apply without_dir.
    + destruct (is_relative_to d (P ++ [n])) eqn:E; [| done]. apply is_relative_to_spec in E as [x ->].
      destruct (Hspool _ Hsp) as [H1' _]. rewrite <- app_assoc in H1'.
      assert (is_relative_to (P ++ [n] ++ x) P = true) by (apply is_relative_to_spec; by eexists). congruence.
    + by apply (c_spool _ _ _ _ C d Hsp), G.
Qed.
End executor.

(** * Properties of the container executor

    A task leaves no secret, no spool and no usable capability behind, starts its
    container with exactly its secrets, and reports what the container wrote. *)
Open Scope string_scope.
Open Scope list_scope.

Section executor.
  Context {S : Type} `{PyFloat} `{Wire} `{DockerClientLaw S} `{Process} `{OwnershipLaw}.
  Notation state := (Execution.t S).
  Context (self : DockerExecutor.t) (attempts : AttemptReader) (resolver : SecretResolver.t)
          (clk : clock) (token : string) (grant_id : uuid) (tokens : nat -> N).
  Context (event_sink : EventEnvelope.t -> M (tree * S) unit).
  Context (stager : SecretFileStager.t).
  Notation P := (SecretFileStager._root stager).

(** The secrets are redeemed, staged, used and removed. *)
Lemma redeemed_run_calm task spool runner remaining capability s r s' :
  sink_calm event_sink stager spool -> (forall d, spool = Some d -> apart d P) ->
  tree_ok (Execution.files s) -> dir_at (Execution.files s) P ->
  (let* values :=
     try_except (on_grants (SecretBroker.redeem attempts resolver (clk 2%nat) capability task runner)) any_exn
       (fun _ => DockerExecutor.preparation_failed) in
   let* secret_directory :=
     try_except (on_files (SecretFileStager.prepare stager tokens values)) any_exn
       (fun _ => DockerExecutor.preparation_failed) in
   try_finally
     (DockerExecutor._run_container self event_sink task spool (Some secret_directory) remaining)
     (try_except (on_files (SecretFileStager._cleanup secret_directory)) any_exn
        (fun _ => raise (DockerExecutionError "Runner secret cleanup failed")))) s = (r, s') ->
  calm P spool (Execution.files s) (Execution.files s').
Proof.
  intros Hsink Hspool T Hd. unfold bind at 1, try_except at 1, on_grants.
  destruct (SecretBroker.redeem _ _ _ _ _ _ (Execution.grants s)) as [[values|e] g1].
  2: { unfold any_exn, DockerExecutor.preparation_failed, raise. intros [= <- <-]. by apply calm_refl. }
  unfold bind at 1, try_except at 1, on_files at 1. cbn [Execution.files].
  destruct (SecretFileStager.prepare stager tokens values (Execution.files s)) as [[child|e] fs1] eqn:Eprep;
    (apply prepare_spec in Eprep; [| done..]).
  2: { destruct Eprep as [-> ->]. unfold any_exn, DockerExecutor.preparation_failed, raise. intros [= <- <-].
       by apply calm_refl. }
  destruct Eprep as (n & vs & Hchild & Hn & _ & _ & G & Hc & _ & _).
  match goal with |- context [try_finally _ _ ?st] => set (s1 := st) end.
  pose proof (run_container_quiet self event_sink stager spool Hsink Hspool task (Some child) remaining s1) as [_ Hq].
  unfold try_finally. destruct (DockerExecutor._run_container _ _ _ _ _ _ s1) as [r2 s2]. cbn [snd] in Hq.
  specialize (Hq (gr_ok _ _ _ G)). cbn [s1 Execution.files] in Hq.
  assert (dir_at fs1 child) as Hcd by (rewrite Hchild in *; eexists; rewrite node_at_snoc; exact Hc).
  destruct (staged_run_calm stager spool Hspool child _ _ _ _ T Hchild Hn G Hcd Hq) as (fs3 & Eclean & C3).
  unfold try_except, on_files. rewrite Eclean. intros [= <- <-]. exact C3.
Qed.

Lemma run_with_secrets_calm ttl runner task spool remaining s r s' :
  sink_calm event_sink stager spool -> (forall d, spool = Some d -> apart d P) ->
  tree_ok (Execution.files s) -> dir_at (Execution.files s) P -> closed token (Execution.grants s) ->
  DockerExecutor._run_with_secrets self attempts resolver clk token grant_id tokens event_sink ttl stager runner
    task spool remaining s = (r, s') ->
  calm P spool (Execution.files s) (Execution.files s') /\ closed token (Execution.grants s').
Proof.
  intros Hsink Hspool T Hd Hcl. unfold DockerExecutor._run_with_secrets, bind at 1, try_except at 1, on_grants at 1.
  destruct (SecretBroker.issue _ _ _ _ _ _ _ _ (Execution.grants s)) as [[capability|e] g1] eqn:Ei;
    apply issue_state in Ei.
  2: { subst g1. unfold any_exn, DockerExecutor.preparation_failed, raise. intros [= <- <-].
       split; [by apply calm_refl | done]. }
  subst capability. match goal with |- context [try_finally _ _ ?st] => set (s1 := st) end.
  unfold try_finally. destruct (bind _ _ s1) as [r1 s2] eqn:E1.
  apply redeemed_run_calm in E1; [| done | done | done | done].
  unfold try_except, on_grants. destruct (revoke_closes token (clk 3%nat) (Execution.grants s2)) as (g' & -> & Hg).
  intros [= <- <-]. done.
Qed.

Lemma run_task_calm task spool remaining s r s' :
  DockerExecutor.secret_file_stager self = Some stager ->
  sink_calm event_sink stager spool -> (forall d, spool = Some d -> apart d P) ->
  tree_ok (Execution.files s) -> dir_at (Execution.files s) P -> closed token (Execution.grants s) ->
  DockerExecutor.run_task self attempts resolver clk token grant_id tokens event_sink task spool remaining s = (r, s') ->
  calm P spool (Execution.files s) (Execution.files s') /\ closed token (Execution.grants s').
Proof.
  intros Hst Hsink Hspool T Hd Hcl. unfold DockerExecutor.run_task. rewrite Hst.
  destruct (TaskEnvelope.secret_references task).
  { intros E. pose proof (run_container_quiet self event_sink stager spool Hsink Hspool task None remaining s) as [Hg Hq].
    rewrite E in Hg, Hq. cbn [snd] in *. split; [by apply Hq | by rewrite Hg]. }
  destruct (DockerExecutor.secret_ttl self); [| intros [= <- <-]; split; [by apply calm_refl | done]].
  destruct (DockerExecutor.runner_id self); [| intros [= <- <-]; split; [by apply calm_refl | done]].
  by apply run_with_secrets_calm.
Qed.

(** *** The spool *)

(** The place of the spool of an attempt. *)
Definition spool_place (fs : tree) (task : TaskEnvelope.t) (d : path) : Prop :=
  exists root spool_root, DockerExecutor.artifact_spool_root self = Some root
  /\ Path_resolve false fs root = Ok spool_root /\ d = spool_root ++ [uuid_str (TaskEnvelope.attempt_id task)].

Lemma make_spool_spec task fs r fs' : tree_ok fs ->
  (forall root spool_root, DockerExecutor.artifact_spool_root self = Some root ->
     Path_resolve false fs root = Ok spool_root -> apart spool_root P) ->
  DockerExecutor.make_spool self task fs = (r, fs') ->
  tree_ok fs' /\ (forall q, is_relative_to q P = true -> fs' !! q = fs !! q)
  /\ match r with
     | Ok None => fs' = fs /\ forall d, ~ spool_place fs task d
     | Ok (Some d) => spool_place fs task d /\ dir_at fs' d /\ fs !! d = None
     | Err _ => forall d q, spool_place fs task d -> is_relative_to q d = true -> fs' !! q = fs !! q
     end.
Proof.
  intros T Hap. unfold DockerExecutor.make_spool.
  destruct (DockerExecutor.artifact_spool_root self) as [root|] eqn:Eroot.
  2: { intros [= <- <-]. split_and!; try done. intros d (? & ? & Hroot & _). congruence. }
  unfold bind at 1 2, get, lift. cbv beta iota.
  destruct (Path_resolve false fs root) as [sr|e] eqn:Er.
  2: { intros [= <- <-]. split_and!; try done. }
  specialize (Hap _ _ eq_refl Er). pose proof (Path_resolve_settled _ _ _ Er) as Hset.
  unfold bind at 1. destruct (makedirs sr fs) as [r1 fs1] eqn:E1.
  destruct (makedirs_spec fs sr sr r1 fs1) as [D1 H1']; [done | apply Hset | by apply resolve_settled | done |].
  set (d := sr ++ [uuid_str (TaskEnvelope.attempt_id task)]).
  assert (forall q, is_relative_to q P = true -> fs1 !! q = fs !! q) as HP1.
  { intros q Hq. destruct (da_nodes _ _ _ D1 q) as [?|(_ & _ & x & Ex)]; [done | exfalso].
    destruct Hap as [Ha _]. apply is_relative_to_spec in Hq as [y ->]. apply not_true_iff_false in Ha.
    apply Ha, is_relative_to_spec. exists (y ++ x). by rewrite Ex, app_assoc. }
  assert (forall q, is_relative_to q d = true -> fs1 !! q = fs !! q) as Hd1.
  { intros q [y ->]%is_relative_to_spec. destruct (da_nodes _ _ _ D1 (d ++ y)) as [?|(_ & _ & x & Ex)]; [done | exfalso].
    apply (f_equal length) in Ex. unfold d in Ex. rewrite !length_app in Ex. simpl in Ex. lia. }
  assert (forall d' q, spool_place fs task d' -> is_relative_to q d' = true -> fs1 !! q = fs !! q) as Hplace.
  { intros d' q (root' & sr' & Hr1 & Hr2 & ->). rewrite Eroot in Hr1. injection Hr1 as <-. rewrite Er in Hr2.
    injection Hr2 as <-. apply Hd1. }
  destruct r1 as [[]|e]; [| intros [= <- <-]; split_and!; [apply D1 | done..]].
  unfold bind at 1. fold d. unfold d at 1. rewrite mkdir_fresh by (apply D1 || done || apply uuid_plain). fold d.
  destruct (fs1 !! d) as [x|] eqn:Ed; [intros [= <- <-]; split_and!; [apply D1 | done..] |].
  unfold ret. intros [= <- <-].
  destruct (fresh_insert fs1 sr _ (Directory (created 511)) (da_ok _ _ _ D1) H1' (uuid_plain _) Ed) as (T2 & _ & _).
  fold d in T2. split_and!; [done | | | |].
  - intros q Hq. rewrite lookup_insert_ne; [by apply HP1 |]. intros <-.
    destruct (apart_snoc _ _ (uuid_str (TaskEnvelope.attempt_id task)) Hap) as [Hy _]. fold d in Hy. congruence.
  - by exists root, sr.
  - exists (created 511). unfold d. by rewrite node_at_snoc, lookup_insert_eq.
  - rewrite <- Hd1; [done |]. apply is_relative_to_spec. exists []. by rewrite app_nil_r.
Qed.

(** The spool is dropped, whatever was written below it. *)
Lemma drop_spool_spec task d fs fs1 : tree_ok fs1 -> spool_place fs task d -> dir_at fs1 d ->
  DockerExecutor.drop_spool (Some d) fs1 = (Ok tt, without d fs1).
Proof.
  intros T (root & sr & _ & _ & ->) Hd. unfold DockerExecutor.drop_spool, try_except.
  by rewrite rmtree_self.
Qed.

Lemma spool_place_unique fs task a b : spool_place fs task a -> spool_place fs task b -> a = b.
Proof. intros (r & p & E1 & E2 & ->) (r' & p' & E3 & E4 & ->). congruence. Qed.

Lemma spool_place_apart fs task d :
  (forall root spool_root, DockerExecutor.artifact_spool_root self = Some root ->
     Path_resolve false fs root = Ok spool_root -> apart spool_root P) ->
  spool_place fs task d -> apart d P.
Proof. intros Hap (r & p & Hr & Hp & ->). by eapply apart_snoc, Hap. Qed.

Lemma nothing_below fs d q : tree_ok fs -> d <> [] -> fs !! d = None -> is_relative_to q d = true -> fs !! q = None.
Proof.
  intros T Hd Hn [x ->]%is_relative_to_spec. pose proof (missing_below fs d x T Hd Hn) as Hm.
  rewrite node_at_ne in Hm; [done |]. by destruct d.
Qed.

(** What is left of a call. *)
Record leaves_nothing (task : TaskEnvelope.t) (s s' : state) : Prop := {
  ln_ok : tree_ok (Execution.files s');
  ln_secrets : forall q, is_relative_to q P = true -> Execution.files s' !! q = Execution.files s !! q;
  ln_spool : forall d q, spool_place (Execution.files s) task d -> is_relative_to q d = true ->
    Execution.files s' !! q = Execution.files s !! q;
  ln_closed : closed token (Execution.grants s') }.

(** Running between making the spool and dropping it. *)
Lemma spooled_run_calm task remaining s r s' :
  DockerExecutor.secret_file_stager self = Some stager ->
  (forall spool, (forall d, spool = Some d -> spool_place (Execution.files s) task d) ->
     sink_calm event_sink stager spool) ->
  (forall root spool_root, DockerExecutor.artifact_spool_root self = Some root ->
     Path_resolve false (Execution.files s) root = Ok spool_root -> apart spool_root P) ->
  tree_ok (Execution.files s) -> dir_at (Execution.files s) P -> closed token (Execution.grants s) ->
  (let* artifact_spool := on_files (DockerExecutor.make_spool self task) in
   try_finally
     (DockerExecutor.run_task self attempts resolver clk token grant_id tokens event_sink task artifact_spool remaining)
     (on_files (DockerExecutor.drop_spool artifact_spool))) s = (r, s') ->
  leaves_nothing task s s'.
Proof.
  intros Hst Hsink Hap T [a Ha] Hcl. unfold bind, on_files at 1.
  destruct (DockerExecutor.make_spool self task (Execution.files s)) as [r1 fs1] eqn:E1.
  apply make_spool_spec in E1 as (T1 & HP1 & K1); [| done | done].
  destruct r1 as [spool|e]; [| intros [= <- <-]; split; try done; by apply K1].
  match goal with |- context [try_finally _ _ ?st] => set (s1 := st) end.
  assert (dir_at fs1 P) as Hd1.
  { exists a. destruct (SecretFileStager._root stager) as [|c p]; [done |]. cbn [node_at] in *. rewrite HP1; [done |].
    apply is_relative_to_spec. exists []. by rewrite app_nil_r. }
  assert (forall d, spool = Some d -> spool_place (Execution.files s) task d) as Hplace by (intros d ->; apply K1).
  unfold try_finally. destruct (DockerExecutor.run_task _ _ _ _ _ _ _ _ _ _ _ s1) as [r2 s2] eqn:E2.
  apply run_task_calm in E2 as [C2 G2]; [| done | by apply Hsink | by intros d Hs; eapply spool_place_apart, Hplace | done..].
  cbn [s1 Execution.files] in C2. unfold on_files. destruct spool as [d|].
  - destruct K1 as (Hp & Hd & Hn). assert (d <> []) as Hne by (destruct Hp as (? & ? & _ & _ & ->); apply snoc_not_nil).
    rewrite (drop_spool_spec task d (Execution.files s)); [| apply C2 | done | by apply (c_spool _ _ _ _ C2)].
    intros [= <- <-]. split; cbn [Execution.files Execution.grants].
    + by apply without_ok, C2.
    + intros q Hq. rewrite without_lookup. rewrite (apart_below q P d) by (done || by eapply apart_sym, spool_place_apart).
      by rewrite (c_same _ _ _ _ C2), HP1.
    + intros d' q Hd' Hq. rewrite (spool_place_unique _ _ _ _ Hd' Hp) in Hq. rewrite without_lookup, Hq.
      symmetry. by apply (nothing_below _ d).
    + done.
  - destruct K1 as [-> Hno]. unfold DockerExecutor.drop_spool, ret. intros [= <- <-]. split; cbn [Execution.files Execution.grants]; try done.
    + apply C2.
    + apply C2.
    + intros d q Hd _. by destruct (Hno d).
Qed.

Lemma execute_leaves_nothing task s r s' :
  DockerExecutor.secret_file_stager self = Some stager ->
  (forall spool, (forall d, spool = Some d -> spool_place (Execution.files s) task d) ->
     sink_calm event_sink stager spool) ->
  (forall root spool_root, DockerExecutor.artifact_spool_root self = Some root ->
     Path_resolve false (Execution.files s) root = Ok spool_root -> apart spool_root P) ->
  tree_ok (Execution.files s) -> dir_at (Execution.files s) P -> closed token (Execution.grants s) ->
  DockerExecutor.execute self attempts resolver clk token grant_id tokens event_sink task s = (r, s') ->
  leaves_nothing task s s'.
Proof.
  intros Hst Hsink Hap T Hd Hcl. unfold DockerExecutor.execute.
  assert (leaves_nothing task s s) as Hself by by split.
  destruct (DockerExecutor.secrets_unconfigured self task); [by intros [= _ <-] |].
  destruct (_ <=? 0)%Z; [by intros [= _ <-] |].
  unfold bind at 1, set_result.
  match goal with |- bind (on_files _) _ ?st = _ -> _ => set (s0 := st) end.
  rewrite (bind_assoc (on_files _) (fun artifact_spool => try_finally _ _)).
  unfold bind at 1. match goal with |- context [match ?run with _ => _ end] => destruct run as [r1 s1] eqn:E1 end.
  apply spooled_run_calm in E1 as [L1 L2 L3 L4]; [| done..].
  assert (leaves_nothing task s s1) as L by by split.
  destruct r1 as [runtime|e]; [| by intros [= _ <-]].
  unfold bind, get. repeat case_match; intros [= _ <-]; done.
Qed.

End executor.
