(* ===== verification/DockerTransport.v ===== *)
(** * The transport between the container and the executor

    What [container_entrypoint.main] writes to its standard output, [DockerExecutor]
    reads back: the events of the agent reach the sink in order and the result is
    returned.  At the end, both ends on concrete inputs. *)
From stdpp Require Import gmap strings pretty.
From S2P Require Import Prelude PyDict PyText TextFacts Protocol Domain Sha256 Templates EnvironmentCrypto Environments SecretBroker Urls Files FileFacts Json JsonFacts SourceStore SourceStoreTheorems HostSources SecretFiles SecretFileTheorems DockerExecutor DockerTheorems.
Open Scope string_scope.
Open Scope list_scope.

Section transport.
  Context `{PyFloat}.

(** An envelope whose dump can be sent on one line and validates back. *)
Record sendable {A} (kind : string) (dump : A -> pyval) (load : pyval -> res A) (x : A) : Prop := {
  sd_value : json_value (dump x);
  sd_dump : exists text, dumps false false (dump x) = Ok text;
  sd_size : (py_len (container_entrypoint.line_of kind (model_dump_json (dump x))) <= MAX_LINE)%Z;
  sd_back : load (dump x) = Ok x }.

Definition message (kind : string) (data : pyval) : pyval := PDict [("kind", PStr kind); ("data", data)].

Lemma strip_line_newline x : SubprocessDockerClient.strip_line (x ++ "}" ++ chr 10) = (x ++ "}")%string.
Proof.
  induction x as [|c x IH]; [done |].
  change (SubprocessDockerClient.strip_line (String c x ++ "}" ++ chr 10)) with
    (match SubprocessDockerClient.strip_line (x ++ "}" ++ chr 10) with
     | EmptyString => if Ascii.eqb c newline || Ascii.eqb c carriage_return then EmptyString else String c EmptyString
     | r => String c r
     end).
  rewrite IH. by destruct x.
Qed.

(** A line of the transport is the text of the message. *)
Lemma line_text kind v text : json_string true kind = json_string false kind -> dumps false false v = Ok text ->
  exists line, dumps false false (message kind v) = Ok line
    /\ SubprocessDockerClient.strip_line (container_entrypoint.line_of kind text) = line
    /\ container_entrypoint.line_of kind text = (line ++ chr 10)%string /\ line <> EmptyString.
Proof.
  intros Hk Hv. unfold message. cbn [dumps]. rewrite Hv. cbn [rbind].
  assert (container_entrypoint.line_of kind text
    = (("{" ++ json_string false "kind" ++ ":" ++ json_string false kind ++ "," ++ json_string false "data" ++ ":" ++ text)
       ++ "}" ++ chr 10)%string) as E.
  { unfold container_entrypoint.line_of. rewrite Hk. rewrite !str_app_assoc. reflexivity. }
  eexists. split; [reflexivity |]. rewrite E, strip_line_newline. cbn [map join fst snd].
  rewrite !str_app_assoc. split_and!; reflexivity || done.
Qed.

Lemma sendable_line {A} kind dump (load : pyval -> res A) x :
  json_string true kind = json_string false kind -> sendable kind dump load x ->
  let line := SubprocessDockerClient.strip_line (container_entrypoint.line_of kind (model_dump_json (dump x))) in
  loads line = Ok (message kind (dump x)) /\ empty_str line || (MAX_LINE <? py_len line)%Z = false.
Proof.
  intros Hk [Hv [text Ht] Hs Hb]. assert (model_dump_json (dump x) = text) as -> by (unfold model_dump_json; by rewrite Ht).
  destruct (line_text kind (dump x) text Hk Ht) as (line & Hl & -> & E & Hne). split.
  - eapply loads_dump; [| exact Hl]. apply json_value_dict. split.
    + apply (bool_decide_unpack _). reflexivity.
    + by repeat constructor.
  - unfold model_dump_json in Hs. rewrite Ht, E in Hs. unfold py_len in *. rewrite str_length_app in Hs.
    change (String.length (chr 10)) with 1%nat in Hs.
    destruct line as [|c line]; [done |]. cbn [empty_str orb]. apply Z.ltb_ge. lia.
Qed.
End transport.

Section executor.
  Context {S : Type} `{PyFloat} `{Wire}.
  Context (event_sink : EventEnvelope.t -> M (tree * S) unit).
  Notation state := (Execution.t S).

Lemma message_kind kind data : member_of "kind" (message kind data) = Ok (PStr kind).
Proof. reflexivity. Qed.
Lemma message_data kind data : member_of "data" (message kind data) = Ok data.
Proof. reflexivity. Qed.

Lemma consume_event event (s : state) : sendable "event" event_dump event_load event ->
  DockerExecutor.consume event_sink
    (SubprocessDockerClient.strip_line (container_entrypoint.line_of "event" (model_dump_json (event_dump event)))) s
  = on_sink (event_sink event) s.
Proof.
  intros Hs. pose proof (sendable_line "event" _ _ _ eq_refl Hs) as [Hl Hsize].
  unfold DockerExecutor.consume. rewrite Hsize. unfold bind, lift, get. rewrite Hl. cbv beta iota. rewrite message_kind, message_data.
  change (py_eqb (PStr "event") (PStr "event")) with true. cbn iota. by rewrite (sd_back _ _ _ _ Hs).
Qed.

Lemma consume_result r (s : state) : sendable "result" result_dump result_load r -> Execution.result s = None ->
  DockerExecutor.consume event_sink
    (SubprocessDockerClient.strip_line (container_entrypoint.line_of "result" (model_dump_json (result_dump r)))) s
  = set_result (Some r) s.
Proof.
  intros Hs Hr. pose proof (sendable_line "result" _ _ _ eq_refl Hs) as [Hl Hsize].
  unfold DockerExecutor.consume. rewrite Hsize. unfold bind, lift, get. rewrite Hl. cbv beta iota. rewrite message_kind, message_data.
  cbv beta iota. rewrite Hr, bool_decide_true by done.
  change (py_eqb (PStr "result") (PStr "event")) with false. change (py_eqb (PStr "result") (PStr "result")) with true.
  cbn [andb]. by rewrite (sd_back _ _ _ _ Hs).
Qed.

(** *** The lines of the container *)

(** The lines an agent with these events and this result has written. *)
Definition transport_lines (events : list EventEnvelope.t) (r : ResultEnvelope.t) : list string :=
  map (fun e => container_entrypoint.line_of "event" (model_dump_json (event_dump e))) events
  ++ [container_entrypoint.line_of "result" (model_dump_json (result_dump r))].

Lemma entrypoint_lines task events r stdin
    (run_agent : TaskEnvelope.t -> (EventEnvelope.t -> M container_entrypoint.streams unit) ->
                 M container_entrypoint.streams ResultEnvelope.t) :
  (forall emit, run_agent task emit = (for_each events emit ;;; ret r)) ->
  stdin <> [] -> (Z.of_nat (length stdin) <= container_entrypoint.MAX_TASK_BYTES)%Z -> task_parse stdin = Ok task ->
  container_entrypoint.main run_agent stdin (container_entrypoint.mkStreams [] EmptyString)
  = (Ok 0%Z, container_entrypoint.mkStreams (transport_lines events r) EmptyString).
Proof.
  intros Ha Hne Hlen Hp. unfold container_entrypoint.main.
  rewrite firstn_all2 by (unfold container_entrypoint.MAX_TASK_BYTES in *; lia).
  assert (nilb stdin || (container_entrypoint.MAX_TASK_BYTES <? Z.of_nat (length stdin))%Z = false) as ->.
  { destruct stdin; [done |]. cbn [nilb orb]. lia. }
  rewrite Hp, Ha. unfold transport_lines.
  set (emit := fun e : EventEnvelope.t => container_entrypoint._write "event" (model_dump_json (event_dump e))).
  assert (forall l out, for_each l emit (container_entrypoint.mkStreams out EmptyString)
    = (Ok tt, container_entrypoint.mkStreams
                (out ++ map (fun e => container_entrypoint.line_of "event" (model_dump_json (event_dump e))) l)
                EmptyString)) as Hloop.
  { induction l as [|e l IH]; intros out; cbn [for_each map]; [by rewrite app_nil_r |].
    unfold bind. unfold emit at 1, container_entrypoint._write. cbn [container_entrypoint.stdout container_entrypoint.stderr].
    rewrite IH. by rewrite <- app_assoc. }
  unfold bind. rewrite Hloop. reflexivity.
Qed.

Lemma read_transport events r (s : state) :
  Forall (sendable "event" event_dump event_load) events -> sendable "result" result_dump result_load r ->
  Execution.result s = None ->
  SubprocessDockerClient.read_stdout (DockerExecutor.consume event_sink) (transport_lines events r) s
  = match for_each events event_sink (Execution.files s, Execution.sink s) with
    | (Ok _, (fs, k)) => (Ok None, Execution.mk fs (Execution.grants s) k (Some r) (Execution.commands s))
    | (Err e, (fs, k)) => (Ok (Some e), Execution.mk fs (Execution.grants s) k None (Execution.commands s))
    end.
Proof.
  intros He Hr. revert s. induction He as [|e events Hs He IH]; intros s Hn;
    unfold transport_lines; cbn [map app SubprocessDockerClient.read_stdout for_each].
  - unfold bind, try_except. rewrite consume_result by done. by destruct s.
  - unfold bind at 1, try_except, bind at 1. rewrite consume_event by done. unfold on_sink at 1, bind at 1.
    destruct (event_sink e _) as [[[]|err] [fs k]]; unfold ret, any_exn; cbn beta iota.
    + fold (transport_lines events r). rewrite IH by done. reflexivity.
    + by rewrite Hn.
Qed.
End executor.

(** ** A whole call *)

Section call.
  Context {S : Type} `{PyFloat} `{Wire} `{Docker} `{Process} `{Ownership}.
  Context (client : SubprocessDockerClient.t).
#[local] Instance the_client : DockerClient S := SubprocessDockerClient.client client.
  Context (self : DockerExecutor.t) (attempts : AttemptReader) (resolver : SecretResolver.t)
          (clk : clock) (token : string) (grant_id : uuid) (tokens : nat -> N).
  Context (event_sink : EventEnvelope.t -> M (tree * S) unit).
  Notation state := (Execution.t S).

(** What is sent to the container. *)
Definition payload (task : TaskEnvelope.t) : string := (model_dump_json (task_dump task) ++ chr 10)%string.

Lemma client_transport spec command text timeout events r errors fs2 (s : state) :
  SubprocessDockerClient._command client (Execution.files s) spec = Ok command ->
  docker_process spec command text (Z.max 10000 timeout) (Execution.files s)
  = (Ok (Proc.mk (Ok tt) (Ok tt) (transport_lines events r) (Some 0%Z) None errors true), fs2) ->
  Forall (sendable "event" event_dump event_load) events -> sendable "result" result_dump result_load r ->
  Execution.result s = None ->
  SubprocessDockerClient.run client spec text (DockerExecutor.consume event_sink) timeout s
  = let commands := Execution.commands s ++ [command]
      ++ [[SubprocessDockerClient.executable client; "rm"; "--force"; DockerContainerSpec.name spec]] in
    match for_each events event_sink (fs2, Execution.sink s) with
    | (Ok _, (fs, k)) =>
        (Ok (DockerRunResult.mk 0 false (String.substring 0 (Z.to_nat (SubprocessDockerClient.stderr_limit client)) errors)),
         Execution.mk fs (Execution.grants s) k (Some r) commands)
    | (Err e, (fs, k)) =>
        (Err (DockerExecutionError "Runner emitted an invalid transport message"),
         Execution.mk fs (Execution.grants s) k None commands)
    end.
Proof.
  intros Hc Hp He Hr Hn. unfold SubprocessDockerClient.run, bind at 1, get, bind at 1, lift. rewrite Hc.
  unfold bind at 1, issue_command at 1, bind at 1, on_files at 1. cbn [Execution.files]. rewrite Hp.
  cbn [Proc.started Proc.lines]. unfold bind at 1. rewrite read_transport by done.
  cbn [Execution.files Execution.sink Execution.grants Execution.commands].
  destruct (for_each _ _ _) as [[[]|e] [fs k]];
    unfold bind, try_finally, SubprocessDockerClient.await, SubprocessDockerClient._remove, SubprocessDockerClient._control;
    cbn; by rewrite <- app_assoc.
Qed.

(** The spool is dropped whatever became of the run. *)
Lemma drop_spool_Ok spool fs : DockerExecutor.drop_spool spool fs = (Ok tt, (DockerExecutor.drop_spool spool fs).2).
Proof.
  unfold DockerExecutor.drop_spool. destruct spool as [p|]; [| done]. unfold try_except, any_exn, ret.
  by destruct (rmtree p fs) as [[[]|e] fs'].
Qed.

Lemma execute_transport task events r errors command spool fs1 fs2 (s : state) :
  (clk 0%nat < TaskEnvelope.deadline task)%Z -> TaskEnvelope.secret_references task = [] ->
  DockerExecutor.make_spool self task (Execution.files s) = (Ok spool, fs1) ->
  Forall (sendable "event" event_dump event_load) events -> sendable "result" result_dump result_load r ->
  SubprocessDockerClient._command client fs1 (DockerExecutor.spec_of self task spool None) = Ok command ->
  (forall timeout, docker_process (DockerExecutor.spec_of self task spool None) command (payload task) timeout fs1
     = (Ok (Proc.mk (Ok tt) (Ok tt) (transport_lines events r) (Some 0%Z) None errors true), fs2)) ->
  DockerExecutor.execute self attempts resolver clk token grant_id tokens event_sink task s
  = let commands := Execution.commands s ++ [command; [SubprocessDockerClient.executable client; "rm"; "--force";
                                          ("smarttest-" ++ uuid_str (TaskEnvelope.attempt_id task))%string]] in
    match for_each events event_sink (fs2, Execution.sink s) with
    | (Ok _, (fs, k)) => (Ok r, Execution.mk (DockerExecutor.drop_spool spool fs).2 (Execution.grants s) k (Some r) commands)
    | (Err _, (fs, k)) => (Err (DockerExecutionError "Runner emitted an invalid transport message"),
                           Execution.mk (DockerExecutor.drop_spool spool fs).2 (Execution.grants s) k None commands)
    end.
Proof.
  intros Hd Hsec Hspool He Hr Hcmd Hproc. unfold DockerExecutor.execute, DockerExecutor.secrets_unconfigured.
  rewrite Hsec. cbn [nilb negb andb].
  assert ((TaskEnvelope.deadline task - clk 0%nat <=? 0)%Z = false) as -> by lia.
  unfold bind at 1, set_result, bind at 1, on_files at 1. cbn [Execution.files]. rewrite Hspool. cbv beta iota.
  cbn [Execution.files Execution.grants Execution.sink Execution.result Execution.commands].
  unfold bind at 1, try_finally, DockerExecutor.run_task. rewrite Hsec.
  unfold DockerExecutor._run_container, bind at 1, get at 1. unfold client_run, the_client, SubprocessDockerClient.client.
  fold (payload task). erewrite client_transport; [| exact Hcmd | apply Hproc | exact He | exact Hr | reflexivity].
  cbn [Execution.files Execution.grants Execution.sink Execution.commands DockerExecutor.spec_of DockerContainerSpec.name].
  cbv zeta. unfold on_files.
  destruct (for_each _ _ _) as [[[]|e] [fs k]]; cbn [Execution.files Execution.grants Execution.sink Execution.commands Execution.result];
    by rewrite drop_spool_Ok.
Qed.

End call.

(** ** The container executor on concrete inputs *)
From S2P Require Import Prelude PyDict PyText Protocol Domain Sha256 Runs Manager ManagerTheorems RunsExamples EnvironmentCrypto Environments ResolverTheorems SecretBroker BrokerTheorems Templates Files FileFacts Urls Json JsonFacts SourceStore HostSources SourceStoreExamples SecretFiles SecretFileTheorems DockerExecutor DockerTheorems.

#[local] Existing Instances no_floats worker by_chown by_chown_law.

(** Envelopes by their number: [seq] of an event, [duration_ms] of a result. *)
Definition numbered_event (n : Z) : EventEnvelope.t :=
  EventEnvelope.mk 20 21 Engine.PYTEST 40 n 5 EventType.LOG [("message", PInt n)].
Definition numbered_result (n : Z) : ResultEnvelope.t :=
  ResultEnvelope.mk 20 21 Engine.PYTEST ResultOutcome.SUCCEEDED 10 n [("status", PInt 200)].
Definition number_of {A} (make : Z -> A) (v : pyval) : res A :=
  let? n := member_of "n" v in match n with PInt z => Ok (make z) | _ => Err (ValueError "n") end.
Definition plain_task : TaskEnvelope.t :=
  TaskEnvelope.mk 20 21 Engine.PYTEST 22 3 1 "key" 0 600000000 "test.py" [] None None None [] (Some 2%N)
    (Some 2%Z) [] ExecutionPolicy.default.
#[local] Instance by_number : Wire := {|
  task_dump task := PDict [("attempt_id", PStr (uuid_str (TaskEnvelope.attempt_id task)))];
  task_parse raw := Ok plain_task;
  event_dump e := PDict [("n", PInt (EventEnvelope.seq e))]; event_load := number_of numbered_event;
  result_dump r := PDict [("n", PInt (ResultEnvelope.duration_ms r))]; result_load := number_of numbered_result |}.

(** An agent with two events; the container runs the entrypoint with it. *)
Definition two_events : list EventEnvelope.t := [numbered_event 0; numbered_event 1].
Definition two_event_agent (task : TaskEnvelope.t) (emit : EventEnvelope.t -> M container_entrypoint.streams unit)
    : M container_entrypoint.streams ResultEnvelope.t :=
  for_each two_events emit ;;; ret (numbered_result 7).
Definition written (payload : string) : container_entrypoint.streams :=
  after (container_entrypoint.main two_event_agent (utf8 payload)) (container_entrypoint.mkStreams [] EmptyString).
#[local] Instance one_container : Docker := fun _ _ payload _ fs =>
  (Ok (Proc.mk (Ok tt) (Ok tt) (container_entrypoint.stdout (written payload)) (Some 0%Z) None EmptyString true), fs).
#[local] Instance one_container_law : DockerLaw.
Proof. intros spec command payload timeout fs. unfold spool_writes. by destruct (DockerContainerSpec.artifact_spool spec). Qed.

Definition docker : SubprocessDockerClient.t := SubprocessDockerClient.mk "docker" 65536.
(** The events taken; the second sink refuses the second event. *)
Notation log := (list EventEnvelope.t).
Definition keep (e : EventEnvelope.t) : M (tree * log) unit := fun s => (Ok tt, (s.1, s.2 ++ [e])).
Definition keep_first (e : EventEnvelope.t) : M (tree * log) unit := fun s =>
  if (EventEnvelope.seq e =? 0)%Z then keep e s else (Err (OtherException "SinkError"), s).

Definition docker_disk : tree := <[["home"] := folder]> tmpfs_disk.
Definition at_start : Execution.t log := Execution.mk docker_disk InMemorySecretGrantStore.init [] None [].
Definition ticking : clock := fun i => (1000 * Z.of_nat (S i))%Z.
Definition plain_executor : DockerExecutor.t :=
  DockerExecutor.mk "registry/runner:1" ["home"] "none" 330000000 (Some ["spool"]) None None None.

#[local] Instance docker_client : DockerClient log := SubprocessDockerClient.client docker.
#[local] Instance docker_client_law : DockerClientLaw log := subprocess_client_law docker.

Definition plain_call (sink : EventEnvelope.t -> M (tree * log) unit) : M (Execution.t log) ResultEnvelope.t :=
  DockerExecutor.execute plain_executor broker_attempts broker_resolver ticking "t0k" 5%N random sink plain_task.

Example plain_result : run (plain_call keep) at_start = Ok (numbered_result 7).
Proof. vm_compute. reflexivity. Qed.
Example refused_event : run (plain_call keep_first) at_start
  = Err (DockerExecutionError "Runner emitted an invalid transport message").
Proof. vm_compute. reflexivity. Qed.

Definition plain_spool : option path := Some ["spool"; uuid_str (TaskEnvelope.attempt_id plain_task)].
Definition with_spool : tree := (DockerExecutor.make_spool plain_executor plain_task docker_disk).2.
Definition docker_command : list string :=
  Eval vm_compute in match SubprocessDockerClient._command docker with_spool
                             (DockerExecutor.spec_of plain_executor plain_task plain_spool None) with Ok c => c | Err _ => [] end.

Lemma event_sendable n : short_int n = true ->
  (py_len (container_entrypoint.line_of "event" (model_dump_json (event_dump (numbered_event n)))) <= MAX_LINE)%Z ->
  sendable "event" event_dump event_load (numbered_event n).
Proof.
  intros Hn Hl. split; [| by eexists | exact Hl | reflexivity].
  apply json_value_dict. split; [by apply NoDup_singleton | by repeat constructor].
Qed.

Lemma two_sendable : Forall (sendable "event" event_dump event_load) two_events.
Proof.
  apply Forall_cons_2; [| apply Forall_singleton];
    (apply event_sendable; [reflexivity | apply (bool_decide_unpack _); vm_compute; reflexivity]).
Qed.
Lemma result_sendable : sendable "result" result_dump result_load (numbered_result 7).
Proof.
  split; [apply json_value_dict; split; [by apply NoDup_singleton | by repeat constructor] | by eexists | | reflexivity].
  apply (bool_decide_unpack _). vm_compute. reflexivity.
Qed.


(** With a secret and a spool: nothing stays. *)
Definition secret_executor : DockerExecutor.t :=
  DockerExecutor.mk "registry/runner:1" ["home"] "none" 330000000 (Some ["spool"]) (Some 60%Z) (Some stager) (Some "runner-1").
Definition secret_call : M (Execution.t log) ResultEnvelope.t :=
  DockerExecutor.execute secret_executor broker_attempts broker_resolver ticking "t0k" 5%N random keep broker_task.

Example secret_result : run secret_call at_start = Ok (numbered_result 7).
Proof. vm_compute. reflexivity. Qed.
Example secret_commands : length (Execution.commands (after secret_call at_start)) = 2%nat.
Proof. vm_compute. reflexivity. Qed.

