(* ===== verification/Agent.v ===== *)
(** * The runner agent ([src/runner/agent.py], [src/runner/adapters/base.py])

    [RunnerAgent.run] selects an adapter, numbers and delivers the events of the attempt
    and returns the final envelope; [Adapter] is the interface of the adapters.  The
    thread that sends heartbeats takes the lock for each event, so that heartbeats fall
    between the events of [run]: [beats k] of them before the [k]-th event of [run]. *)
From stdpp Require Import gmap strings pretty.
From S2P Require Import Prelude PyDict PyText Protocol Domain Templates Files Artifacts.
Open Scope string_scope.
Open Scope list_scope.

(** ** Adapters *)

Module AdapterResult.
Record t := mk {
  outcome : ResultOutcome.t; message : string; details : list (string * pyval);
  stdout : string; stderr : string; exit_code : option Z; timed_out : bool }.
(** Without output and exit code. *)
Definition plain (outcome : ResultOutcome.t) (message : string) (details : list (string * pyval)) (timed_out : bool) : t :=
  mk outcome message details EmptyString EmptyString None timed_out.
End AdapterResult.

Definition resolve_entrypoint (fs : tree) (workspace : path) (entrypoint : string) : res path :=
  let? root := Path_resolve false fs workspace in
  let? resolved := Path_resolve false fs (if is_absolute entrypoint then parts_of entrypoint else root ++ parts_of entrypoint) in
  if negb (is_relative_to resolved root) then Err (ValueError "entrypoint escapes workspace")
  else if negb (is_file fs resolved) then Err (ValueError "entrypoint must be an existing file")
  else Ok resolved.

(** In microseconds. *)
Definition deadline_remaining (now : datetime) (task : TaskEnvelope.t) : res Z :=
  let remaining := (TaskEnvelope.deadline task - now)%Z in
  if (remaining <=? 0)%Z then Err TimeoutError else Ok remaining.

(** [float(text)], in microseconds, rounded up. *)
Class FloatText := float_of_text : string -> res Z.
(** [float(value)] in microseconds, rounded up. *)
Definition seconds `{FloatText} (v : pyval) : res Z :=
  match v with
  | PInt z => Ok (z * 1000000)%Z
  | PBool b => Ok (if b then 1000000 else 0)%Z
  | PFloat m e => Ok (if (0 <=? e)%Z then m * 2 ^ e * 1000000 else - (- (m * 1000000) / 2 ^ (- e)))%Z
  | PStr s => float_of_text s
  | _ => Err TypeError
  end.
Definition execution_timeout `{FloatText} (now : datetime) (task : TaskEnvelope.t) : res Z :=
  let? remaining := deadline_remaining now task in
  let? requested := match kv_get "timeout" (TaskEnvelope.parameters task) with
                    | Some v => seconds v
                    | None => Ok 300000000%Z
                    end in
  if (requested <=? 0)%Z then Err (ValueError "timeout must be positive") else Ok (Z.min requested remaining).

(** [value.decode(errors="replace")] is not needed: the adapters pass texts. *)
Definition truncate (value : string) (limit : nat) : string :=
  if (String.length value <=? limit)%nat then value
  else
    let marker := "...[truncated]" in
    if (limit <=? String.length marker)%nat then String.substring 0 limit marker
    else (String.substring 0 (limit - String.length marker) value ++ marker)%string.

(** ** The agent *)

Module Agent.
(** [files] and [sink] are what the event sink and the adapters work on; [calls] counts
    the envelopes made, [emissions] the calls of [_emit] by [run] itself, [accepted] lists
    the events the sink took. *)
Record t (S : Type) := mk {
  files : tree; sink : S; _seq : Z; _heartbeat_stop : bool; _heartbeat_error : option exn;
  calls : nat; emissions : nat; accepted : list EventEnvelope.t }.
End Agent.
Arguments Agent.mk {S}.
Arguments Agent.files {S}.
Arguments Agent.sink {S}.
Arguments Agent._seq {S}.
Arguments Agent._heartbeat_stop {S}.
Arguments Agent._heartbeat_error {S}.
Arguments Agent.calls {S}.
Arguments Agent.emissions {S}.
Arguments Agent.accepted {S}.

(** The protocol [Adapter], with the optional method [run_streaming]. *)
Record Adapter (S : Type) := mkAdapter {
  adapter_run : TaskEnvelope.t -> path -> M (Agent.t S) AdapterResult.t;
  adapter_run_streaming :
    option (TaskEnvelope.t -> path -> (string -> string -> M (Agent.t S) unit) -> M (Agent.t S) AdapterResult.t) }.
Arguments mkAdapter {S}.
Arguments adapter_run {S}.
Arguments adapter_run_streaming {S}.

Module RunnerAgent.
Record t (S : Type) := mk {
  task : TaskEnvelope.t; workspace : path; event_sink : EventEnvelope.t -> M (tree * S) unit;
  adapters : Engine.t -> Adapter S; artifact_root : option path }.
End RunnerAgent.
Arguments RunnerAgent.mk {S}.
Arguments RunnerAgent.task {S}.
Arguments RunnerAgent.workspace {S}.
Arguments RunnerAgent.event_sink {S}.
Arguments RunnerAgent.adapters {S}.
Arguments RunnerAgent.artifact_root {S}.

Section agent.
  Context {S : Type} `{MimeTypes}.
  Notation state := (Agent.t S).
  (** The agent, the ids and times of its envelopes, the heartbeats and two readings of
      the monotonic clock in microseconds. *)
  Context (self : RunnerAgent.t S) (ids : nat -> uuid) (clk : clock) (beats : nat -> nat) (mono : nat -> Z).
  Notation task := (RunnerAgent.task self).

Definition initial (fs : tree) (k : S) : state := Agent.mk fs k 0 false None 0 0 [].

Definition event_of (n : nat) (seq : Z) (event_type : EventType.t) (payload : list (string * pyval)) : EventEnvelope.t :=
  EventEnvelope.mk (TaskEnvelope.run_id task) (TaskEnvelope.attempt_id task) (TaskEnvelope.engine task)
    (ids n) seq (clk n) event_type (frozen_pairs payload).

Definition _emit (event_type : EventType.t) (payload : list (string * pyval)) : M state unit := fun s =>
  match EventEnvelope.validate (event_of (Agent.calls s) (Agent._seq s) event_type payload) with
  | Err e => (Err e, s)
  | Ok event =>
      match RunnerAgent.event_sink self event (Agent.files s, Agent.sink s) with
      | (Err e, (fs, k)) =>
          (Err e, Agent.mk fs k (Agent._seq s) (Agent._heartbeat_stop s) (Agent._heartbeat_error s)
                    (Datatypes.S (Agent.calls s)) (Agent.emissions s) (Agent.accepted s))
      | (Ok _, (fs, k)) =>
          (Ok tt, Agent.mk fs k (Agent._seq s + 1) (Agent._heartbeat_stop s) (Agent._heartbeat_error s)
                    (Datatypes.S (Agent.calls s)) (Agent.emissions s) (Agent.accepted s ++ [event]))
      end
  end.

Definition heartbeat_failed (e : exn) : M state unit := fun s =>
  (Ok tt, Agent.mk (Agent.files s) (Agent.sink s) (Agent._seq s) true (Some e)
            (Agent.calls s) (Agent.emissions s) (Agent.accepted s)).

(** One round of [_heartbeat_loop]. *)
Definition heartbeat : M state unit :=
  let* s := get in
  if Agent._heartbeat_stop s then ret tt
  else try_except (_emit EventType.HEARTBEAT []) any_exn heartbeat_failed.
Fixpoint heartbeats (n : nat) : M state unit :=
  match n with O => ret tt | Datatypes.S n => heartbeat ;;; heartbeats n end.

(** The next call of [run]: the heartbeats up to it. *)
Definition count_emission : M state nat := fun s =>
  (Ok (Agent.emissions s), Agent.mk (Agent.files s) (Agent.sink s) (Agent._seq s) (Agent._heartbeat_stop s)
     (Agent._heartbeat_error s) (Agent.calls s) (Datatypes.S (Agent.emissions s)) (Agent.accepted s)).
Definition let_beat : M state unit := let* n := count_emission in heartbeats (beats n).

(** [_emit] while the thread of the heartbeats runs. *)
Definition emit (event_type : EventType.t) (payload : list (string * pyval)) : M state unit :=
  let_beat ;;; _emit event_type payload.

Definition _emit_output (stream message : string) : M state unit :=
  if empty_str message then ret tt
  else emit EventType.LOG [("stream", PStr stream); ("message", PStr message)].

(** *** Artifacts *)

(** The order of paths: part by part. *)
Fixpoint path_leb (a b : path) : bool :=
  match a, b with
  | [], _ => true
  | _, [] => false
  | x :: a, y :: b => if bool_decide (x = y) then path_leb a b else str_leb x y
  end.
(** [root.rglob("*")]: the regular files below [root]; directories that are links are not
    entered. *)
Definition files_below (fs : tree) (root : path) : list path :=
  omap (fun '(p, n) => match n with
                       | File _ _ => if is_relative_to p root && negb (bool_decide (p = root)) then Some p else None
                       | _ => None
                       end) (map_to_list fs).
Definition MAXIMUM_ARTIFACTS : nat := 100.

(** The body of the loop, [total] before it. *)
Definition announce (root p : path) (total : Z) : M state Z :=
  let* s := get in
  let* size := lift (file_size (Agent.files s) p) in
  if (MAXIMUM_BYTES <? total + size)%Z then raise (RuntimeError "artifact bytes exceed the configured limit")
  else
    let* resolved := lift (Path_resolve false (Agent.files s) p) in
    let* relative := lift (relative_parts resolved root) in
    let content_type := default "application/octet-stream" (guess_type (name_of p)) in
    let event_type := if String.prefix "image/" content_type then EventType.SCREENSHOT else EventType.ARTIFACT in
    emit event_type
      [("relative_path", PStr (text_of relative)); ("file_name", PStr (name_of p));
       ("artifact_type", PStr (if bool_decide (event_type = EventType.SCREENSHOT) then "screenshot" else "file"));
       ("size_bytes", PInt size)] ;;;
    ret (total + size)%Z.
Fixpoint announce_all (root : path) (paths : list path) (total : Z) : M state unit :=
  match paths with
  | [] => ret tt
  | p :: rest => let* total := announce root p total in announce_all root rest total
  end.

Definition _emit_artifacts : M state unit :=
  match RunnerAgent.artifact_root self with
  | None => ret tt
  | Some artifact_root =>
      let* s := get in
      if negb (is_dir (Agent.files s) artifact_root) then ret tt
      else
        let* root := lift (Path_resolve false (Agent.files s) artifact_root) in
        let paths := files_below (Agent.files s) root in
        if (MAXIMUM_ARTIFACTS <? length paths)%nat
        then raise (RuntimeError "artifact count exceeds the configured limit")
        else announce_all root (py_sorted path_leb paths) 0
  end.

(** *** Running *)

(** The result of the adapter and whether its output was streamed. *)
Definition run_adapter : M state (AdapterResult.t * bool) :=
  let adapter := RunnerAgent.adapters self (TaskEnvelope.engine task) in
  try_except
    (match adapter_run_streaming adapter with
     | Some run_streaming =>
         let* result := run_streaming task (RunnerAgent.workspace self) _emit_output in ret (result, true)
     | None => let* result := adapter_run adapter task (RunnerAgent.workspace self) in ret (result, false)
     end)
    any_exn
    (fun e => ret (AdapterResult.plain ResultOutcome.INFRA_ERROR "Adapter raised an unexpected error"
                     [("error_type", PStr (exn_name e))] false, false)).

(** The text of one output, if it was not streamed. *)
Definition emit_rest (stream : string) (text : string) (streamed_output : bool) : M state unit :=
  if negb (empty_str text) && negb streamed_output
  then emit EventType.LOG [("stream", PStr stream); ("message", PStr text)] else ret tt.

(** Whether [details.get(name)] is there; [bool()] of it. *)
Definition present (v : option pyval) : option pyval := match v with Some PNone => None | v => v end.
Definition truthy (v : pyval) : bool :=
  match v with
  | PNone => false
  | PBool b => b
  | PInt z => negb (z =? 0)%Z
  | PFloat m _ => negb (m =? 0)%Z
  | PStr s => negb (empty_str s)
  | PBytes l | PBytearray l => negb (nilb l)
  | PList l | PTuple l | PSet l | PFrozenset l => negb (nilb l)
  | PDict kvs | PFrozenMapping kvs => negb (nilb kvs)
  end.

Definition report (result : AdapterResult.t) (streamed_output : bool) : M state unit :=
  emit_rest "stdout" (AdapterResult.stdout result) streamed_output ;;;
  emit_rest "stderr" (AdapterResult.stderr result) streamed_output ;;;
  _emit_artifacts ;;;
  let succeeded := bool_decide (AdapterResult.outcome result = ResultOutcome.SUCCEEDED) in
  emit EventType.ASSERTION
    ([("passed", PBool succeeded); ("message", PStr (AdapterResult.message result))]
     ++ match present (kv_get "assertions" (AdapterResult.details result)) with
        | Some results => [("results", results)]
        | None => []
        end) ;;;
  match kv_get "extractions" (AdapterResult.details result) with
  | Some names => if truthy names then emit EventType.EXTRACTION [("names", names)] else ret tt
  | None => ret tt
  end ;;;
  (if succeeded then ret tt
   else emit EventType.ERROR
          (kv_merge [("message", PStr (AdapterResult.message result))] (AdapterResult.details result))) ;;;
  emit EventType.FINISHED [("outcome", PStr (ResultOutcome.value (AdapterResult.outcome result)))].

(** Setting [_heartbeat_stop] and joining the thread. *)
Definition stop_heartbeat : M state unit :=
  let_beat ;;;
  fun s => (Ok tt, Agent.mk (Agent.files s) (Agent.sink s) (Agent._seq s) true (Agent._heartbeat_error s)
                     (Agent.calls s) (Agent.emissions s) (Agent.accepted s)).

Definition summary_of (result : AdapterResult.t) : list (string * pyval) :=
  let summary := kv_merge [("message", PStr (AdapterResult.message result))] (AdapterResult.details result) in
  let summary := match AdapterResult.exit_code result with
                 | Some exit_code => kv_set "exit_code" (PInt exit_code) summary
                 | None => summary
                 end in
  kv_set "timed_out" (PBool (AdapterResult.timed_out result)) summary.

Definition run (completed_at : datetime) : M state ResultEnvelope.t :=
  _emit EventType.STARTED [("engine", PStr (Engine.value (TaskEnvelope.engine task)))] ;;;
  let* ' (result, streamed_output) := run_adapter in
  try_finally (report result streamed_output) stop_heartbeat ;;;
  let* s := get in
  match Agent._heartbeat_error s with
  | Some _ => raise (RuntimeError "heartbeat delivery failed")
  | None =>
      let duration_ms := Z.max 0 (Z.quot (mono 1%nat - mono 0%nat) 1000) in
      lift (ResultEnvelope.validate
        (ResultEnvelope.mk (TaskEnvelope.run_id task) (TaskEnvelope.attempt_id task) (TaskEnvelope.engine task)
           (AdapterResult.outcome result) completed_at duration_ms (frozen_pairs (summary_of result))))
  end.
End agent.
