(* ===== verification/AgentTheorems.v ===== *)
(** * Properties of the runner agent

    Whatever the heartbeats, the adapter and the sink do, the events of an attempt are
    numbered from 0 without a gap; a run that returns has told its whole story, and it
    returns unless the sink fails or the artifacts exceed their limits. *)
From stdpp Require Import gmap strings list_numbers.
From S2P Require Import Prelude PyDict PyText Protocol Domain Templates Urls Files FileFacts TextFacts SourceReferences Artifacts Agent.
Open Scope string_scope.
Open Scope list_scope.

(** The state with other files and another sink. *)
Definition with_world {S : Type} (fs : tree) (k : S) (s : Agent.t S) : Agent.t S :=
  Agent.mk fs k (Agent._seq s) (Agent._heartbeat_stop s) (Agent._heartbeat_error s)
    (Agent.calls s) (Agent.emissions s) (Agent.accepted s).

(** What the agent relies on: an adapter touches nothing of the agent itself and emits
    through the function it is given. *)
Class AdapterLaw {S : Type} (a : Adapter S) : Prop := {
  adapter_run_law : forall (R : Agent.t S -> Agent.t S -> Prop) `{!PreOrder R} task workspace,
    (forall s fs k, R s (with_world fs k s)) -> steps R (adapter_run a task workspace);
  adapter_run_streaming_law : forall run_streaming, adapter_run_streaming a = Some run_streaming ->
    forall (R : Agent.t S -> Agent.t S -> Prop) `{!PreOrder R} task workspace sink,
      (forall s fs k, R s (with_world fs k s)) -> (forall stream message, steps R (sink stream message)) ->
      steps R (run_streaming task workspace sink) }.

Section agent.
  Context {S : Type} `{MimeTypes}.
  Notation state := (Agent.t S).
  Context (self : RunnerAgent.t S) (ids : nat -> uuid) (clk : clock) (beats : nat -> nat) (mono : nat -> Z).
  Notation task := (RunnerAgent.task self).
  Notation emit := (emit self ids clk beats).
  Notation _emit := (_emit self ids clk).

(** Events [l] of the task, of types in [P], numbered from [n]. *)
Definition numbered (P : EventType.t -> Prop) (n : Z) (l : list EventEnvelope.t) : Prop :=
  map EventEnvelope.seq l = seqZ n (Z.of_nat (length l))
  /\ Forall (fun e => P (EventEnvelope.type e) /\ EventEnvelope.run_id e = TaskEnvelope.run_id task
                      /\ EventEnvelope.attempt_id e = TaskEnvelope.attempt_id task
                      /\ EventEnvelope.engine e = TaskEnvelope.engine task) l.

(** A step that has the sink accept such events. *)
Definition adds (P : EventType.t -> Prop) (s s' : state) : Prop :=
  exists l, Agent.accepted s' = Agent.accepted s ++ l /\ Agent._seq s' = (Agent._seq s + Z.of_nat (length l))%Z
            /\ numbered P (Agent._seq s) l.

Lemma numbered_app P n l1 l2 : numbered P n l1 -> numbered P (n + Z.of_nat (length l1)) l2 -> numbered P n (l1 ++ l2).
Proof.
  intros [E1 F1] [E2 F2]. split; [| by apply Forall_app].
  rewrite map_app, E1, E2, length_app, Nat2Z.inj_add, seqZ_app by lia. done.
Qed.

#[export] Instance adds_preorder P : PreOrder (adds P).
Proof.
  split.
  - intros s. exists []. rewrite app_nil_r. split_and!; [done | cbn; lia | by split; [| constructor]].
  - intros s1 s2 s3 (l1 & A1 & Q1 & N1) (l2 & A2 & Q2 & N2). exists (l1 ++ l2).
    rewrite A2, A1, <- app_assoc, Q2, Q1, length_app. split_and!; [done | lia |].
    rewrite Q1 in N2. by apply numbered_app.
Qed.

Lemma adds_weaken (P Q : EventType.t -> Prop) s s' : (forall ty, P ty -> Q ty) -> adds P s s' -> adds Q s s'.
Proof.
  intros HPQ (l & A & Q1 & E & F). exists l. split_and!; [done.. |]. split; [done |].
  eapply Forall_impl; [exact F |]. intros e (? & ?). auto.
Qed.

Lemma steps_weaken (P Q : EventType.t -> Prop) {A} (m : M state A) :
  (forall ty, P ty -> Q ty) -> steps (adds P) m -> steps (adds Q) m.
Proof. intros HPQ Hm s. eapply adds_weaken; [done | apply Hm]. Qed.

(** A state with the same events. *)
Lemma adds_same P (s s' : state) : Agent.accepted s' = Agent.accepted s -> Agent._seq s' = Agent._seq s -> adds P s s'.
Proof.
  intros EA EQ. exists []. rewrite app_nil_r. split_and!; [done | cbn; lia | by split; [| constructor]].
Qed.

Lemma steps_of {A} (R : state -> state -> Prop) (m : M state A) s r s' : steps R m -> m s = (r, s') -> R s s'.
Proof. intros Hm E. specialize (Hm s). by rewrite E in Hm. Qed.

(** *** The steps of the agent *)

Lemma emit_once ty payload s r s' : _emit ty payload s = (r, s') ->
  (r = Ok tt /\ Agent.accepted s' = Agent.accepted s ++ [event_of self ids clk (Agent.calls s) (Agent._seq s) ty payload]
   /\ Agent._seq s' = (Agent._seq s + 1)%Z)
  \/ ((exists e, r = Err e) /\ Agent.accepted s' = Agent.accepted s /\ Agent._seq s' = Agent._seq s).
Proof.
  unfold Agent._emit, EventEnvelope.validate. destruct (_ <? 0)%Z; [intros [= <- <-]; right; by split; [eexists |] |].
  destruct (RunnerAgent.event_sink self _ _) as [[[]|e] [fs k]]; intros [= <- <-]; [by left | right].
  by split; [eexists |].
Qed.

Lemma event_numbered (P : EventType.t -> Prop) n seq ty payload : P ty -> numbered P seq [event_of self ids clk n seq ty payload].
Proof. intros HP. split; [done |]. by repeat constructor. Qed.

Lemma steps_emit_once (P : EventType.t -> Prop) ty payload : P ty -> steps (adds P) (_emit ty payload).
Proof.
  intros HP s. destruct (_emit ty payload s) as [r s'] eqn:E. cbn [snd].
  apply emit_once in E as [(_ & A & Q)|(_ & A & Q)]; [| by apply adds_same].
  eexists. split_and!; [exact A | exact Q |]. by apply event_numbered.
Qed.

Definition beat (ty : EventType.t) : Prop := ty = EventType.HEARTBEAT.

Lemma steps_let_beat (P : EventType.t -> Prop) : P EventType.HEARTBEAT -> steps (adds P) (let_beat self ids clk beats).
Proof.
  intros HP. assert (steps (adds P) (heartbeat self ids clk)) as Hb.
  { unfold heartbeat. apply steps_bind; [typeclasses eauto | by apply steps_get; typeclasses eauto |]. intros s.
    destruct (Agent._heartbeat_stop s); [by apply steps_ret; typeclasses eauto |].
    apply steps_try; [typeclasses eauto | by apply steps_emit_once |]. intros e s1. by apply adds_same. }
  unfold let_beat. apply steps_bind; [typeclasses eauto | intros s; by apply adds_same |]. intros n.
  induction (beats n) as [|m IH]; cbn [heartbeats]; [by apply steps_ret; typeclasses eauto |].
  by apply steps_bind; [typeclasses eauto | |].
Qed.

Lemma steps_emit (P : EventType.t -> Prop) ty payload : P EventType.HEARTBEAT -> P ty -> steps (adds P) (emit ty payload).
Proof.
  intros HB HP. unfold Agent.emit. apply steps_bind; [typeclasses eauto | by apply steps_let_beat |]. intros _.
  by apply steps_emit_once.
Qed.

(** An event delivered after some heartbeats. *)
Lemma emit_ok ty payload s s' : emit ty payload s = (Ok tt, s') ->
  exists l e, Agent.accepted s' = Agent.accepted s ++ l ++ [e] /\ EventEnvelope.type e = ty
    /\ EventEnvelope.payload e = frozen_pairs payload /\ Forall (fun e => EventEnvelope.type e = EventType.HEARTBEAT) l.
Proof.
  unfold Agent.emit, bind. pose proof (steps_let_beat beat eq_refl s) as Hb.
  destruct (let_beat self ids clk beats s) as [[[]|err] s1]; [| done]. cbn [snd] in Hb.
  intros E. apply emit_once in E as [(_ & A & _)|([e [=]] & _)]. destruct Hb as (l & Al & _ & _ & Fl).
  eexists l, _. rewrite A, Al, <- app_assoc. split_and!; [done.. |].
  eapply Forall_impl; [exact Fl |]. by intros e [? _].
Qed.

(** *** What [run] tells *)

(** Neither the first nor the last event of an attempt, nor an error. *)
Definition inner (ty : EventType.t) : Prop :=
  ty <> EventType.STARTED /\ ty <> EventType.FINISHED /\ ty <> EventType.ERROR.
Lemma inner_cases ty : ty <> EventType.STARTED -> ty <> EventType.FINISHED -> ty <> EventType.ERROR -> inner ty.
Proof. intros ???. by split_and!. Qed.

Hint Resolve steps_emit inner_cases : steps.
Hint Extern 1 (_ <> _) => discriminate : steps.

Hypothesis Hadapters : forall engine, AdapterLaw (RunnerAgent.adapters self engine).

Lemma steps_run_adapter : steps (adds inner) (run_adapter self ids clk beats).
Proof.
  pose proof (Hadapters (TaskEnvelope.engine task)) as Ha.
  assert (forall s fs k, adds inner s (with_world fs k s)) as Hworld by (intros; by apply adds_same).
  unfold run_adapter. apply steps_try; [typeclasses eauto | | intros e; apply steps_ret; typeclasses eauto].
  destruct (adapter_run_streaming _) as [f|] eqn:Ef; (apply steps_bind; [typeclasses eauto | | intros x; apply steps_ret; typeclasses eauto]).
  - eapply adapter_run_streaming_law; [exact Ef | typeclasses eauto | exact Hworld |].
    intros stream message. unfold _emit_output. by_steps.
  - by eapply adapter_run_law; [typeclasses eauto |].
Qed.

Lemma steps_emit_artifacts : steps (adds inner) (_emit_artifacts self ids clk beats).
Proof.
  assert (forall root p total, steps (adds inner) (announce self ids clk beats root p total)) as Hone.
  { intros root p total. unfold announce. cbv zeta. by_steps. }
  assert (forall root paths total, steps (adds inner) (announce_all self ids clk beats root paths total)) as Hall.
  { intros root paths. induction paths as [|p paths IH]; intros total; cbn [announce_all]; by_steps. }
  unfold _emit_artifacts. by_steps.
Qed.

Lemma steps_stop : steps (adds beat) (stop_heartbeat self ids clk beats).
Proof.
  unfold stop_heartbeat. apply steps_bind; [typeclasses eauto | by apply steps_let_beat |].
  intros _ s. by apply adds_same.
Qed.

(** The list of what a step added. *)
Lemma adds_list P s s' : adds P s s' -> exists l, Agent.accepted s' = Agent.accepted s ++ l
  /\ Forall (fun e => P (EventEnvelope.type e)) l.
Proof.
  intros (l & A & _ & _ & F). exists l. split; [done |]. eapply Forall_impl; [exact F |]. by intros e [? _].
Qed.

(** A complete report: errors are told exactly for a result that is not a success. *)
Lemma report_ok result streamed s s' : report self ids clk beats result streamed s = (Ok tt, s') ->
  exists l finished, Agent.accepted s' = Agent.accepted s ++ l ++ [finished]
    /\ EventEnvelope.type finished = EventType.FINISHED
    /\ EventEnvelope.payload finished = frozen_pairs [("outcome", PStr (ResultOutcome.value (AdapterResult.outcome result)))]
    /\ Forall (fun e => EventEnvelope.type e <> EventType.STARTED /\ EventEnvelope.type e <> EventType.FINISHED) l
    /\ ((exists e, e ∈ l /\ EventEnvelope.type e = EventType.ERROR) <-> AdapterResult.outcome result <> ResultOutcome.SUCCEEDED).
Proof.
  assert (forall stream text, steps (adds inner) (emit_rest self ids clk beats stream text streamed)) as Hrest
    by (intros; unfold emit_rest; by_steps).
  unfold report. intros ([] & s1 & E1 & ([] & s2 & E2 & ([] & s3 & E3 & E)%bind_Ok)%bind_Ok)%bind_Ok.
  cbv zeta in E. apply bind_Ok in E as ([] & s4 & E4 & ([] & s5 & E5 & ([] & s6 & E6 & E7)%bind_Ok)%bind_Ok).
  assert (adds inner s s5) as C.
  { etrans; [exact (steps_of _ _ _ _ _ (Hrest _ _) E1) |]. etrans; [exact (steps_of _ _ _ _ _ (Hrest _ _) E2) |].
    etrans; [exact (steps_of _ _ _ _ _ steps_emit_artifacts E3) |].
    etrans; [eapply steps_of; [| exact E4]; by_steps |]. eapply steps_of; [| exact E5]. by_steps. }
  apply adds_list in C as (l & A & F). apply emit_ok in E7 as (l7 & finished & A7 & T7 & P7 & F7).
  assert (forall l, Forall (fun e => EventEnvelope.type e = EventType.HEARTBEAT) l ->
    Forall (fun e => inner (EventEnvelope.type e)) l) as Hb.
  { intros l0 H0. eapply Forall_impl; [exact H0 |]. intros e ->. by apply inner_cases. }
  assert (forall l, Forall (fun e => inner (EventEnvelope.type e)) l ->
    Forall (fun e => EventEnvelope.type e <> EventType.STARTED /\ EventEnvelope.type e <> EventType.FINISHED) l) as Hw.
  { intros l0 H0. eapply Forall_impl; [exact H0 |]. by intros e (? & ? & _). }
  assert (forall l e, Forall (fun e => inner (EventEnvelope.type e)) l -> e ∈ l -> EventEnvelope.type e <> EventType.ERROR) as Hn.
  { intros l0 e H0 He. rewrite Forall_forall in H0. by apply H0. }
  case_bool_decide as Ho.
  - injection E6 as <-. exists (l ++ l7), finished. rewrite A7, A, <- !app_assoc. split_and!; [done.. | |].
    + apply Forall_app. auto.
    + split; [| done]. intros (e & [He|He]%elem_of_app & Te) _; [exact (Hn _ _ F He Te) | exact (Hn _ _ (Hb _ F7) He Te)].
  - apply emit_ok in E6 as (l6 & error & A6 & T6 & _ & F6). exists (l ++ l6 ++ [error] ++ l7), finished.
    rewrite A7, A6, A, <- !app_assoc. split_and!; [done.. | |].
    + apply Forall_app. split; [auto |]. apply Forall_app. split; [auto |]. apply Forall_cons. split; [by rewrite T6 | auto].
    + split; [done |]. intros _. exists error. split; [| done]. rewrite !elem_of_app. right. right. left. by left.
Qed.

Definition of_task (e : EventEnvelope.t) : Prop :=
  EventEnvelope.run_id e = TaskEnvelope.run_id task /\ EventEnvelope.attempt_id e = TaskEnvelope.attempt_id task
  /\ EventEnvelope.engine e = TaskEnvelope.engine task.

(** C19. Whatever the heartbeats, the adapters and the sink do, the events the sink took
    are those of the attempt, numbered 0, 1, 2, ... in the order of delivery.  When the run
    returns, the first is STARTED, exactly one is FINISHED and has the outcome of the
    result, only heartbeats follow it, and there is an ERROR exactly if the outcome is
    not a success. *)
Theorem agent_events_numbered completed_at fs k r s' :
  run self ids clk beats mono completed_at (initial fs k) = (r, s') ->
  map EventEnvelope.seq (Agent.accepted s') = seqZ 0 (Z.of_nat (length (Agent.accepted s')))
  /\ Forall of_task (Agent.accepted s')
  /\ match r with
     | Err _ => True
     | Ok result => ResultEnvelope.run_id result = TaskEnvelope.run_id task
         /\ ResultEnvelope.attempt_id result = TaskEnvelope.attempt_id task
         /\ exists started middle finished last,
           Agent.accepted s' = started :: middle ++ finished :: last
           /\ EventEnvelope.type started = EventType.STARTED
           /\ EventEnvelope.type finished = EventType.FINISHED
           /\ EventEnvelope.payload finished = [("outcome", PStr (ResultOutcome.value (ResultEnvelope.outcome result)))]
           /\ Forall (fun e => EventEnvelope.type e <> EventType.STARTED /\ EventEnvelope.type e <> EventType.FINISHED) middle
           /\ Forall (fun e => EventEnvelope.type e = EventType.HEARTBEAT) last
           /\ ((exists e, e ∈ middle /\ EventEnvelope.type e = EventType.ERROR)
               <-> ResultEnvelope.outcome result <> ResultOutcome.SUCCEEDED)
     end.
Proof.
  set (any := fun _ : EventType.t => True).
  assert (forall result streamed, steps (adds any) (report self ids clk beats result streamed)) as Hreport.
  { intros result streamed. unfold report, emit_rest. pose proof (steps_weaken _ any _ (fun _ _ => I) steps_emit_artifacts).
    assert (forall ty payload, steps (adds any) (emit ty payload)) by (intros; by apply steps_emit). by_steps. }
  assert (steps (adds any) (stop_heartbeat self ids clk beats)) as Hstop by (by eapply steps_weaken; [| exact steps_stop]).
  assert (steps (adds any) (run_adapter self ids clk beats)) as Hrun by (by eapply steps_weaken; [| exact steps_run_adapter]).
  assert (steps (adds any) (run self ids clk beats mono completed_at)) as Hall.
  { unfold run. assert (forall ty payload, steps (adds any) (_emit ty payload)) by (intros; by apply steps_emit_once).
    by_steps. }
  intros E. pose proof (steps_of _ _ _ _ _ Hall E) as (l & A & Q & En & Fn). cbn in A, En. subst l.
  split; [exact En |]. split; [eapply Forall_impl; [exact Fn |]; by intros e [_ ?] |].
  destruct r as [result|]; [| done]. unfold run in E.
  apply bind_Ok in E as ([] & s1 & E1 & ([outcome streamed] & s2 & E2 & ([] & s3 & E3 & E)%bind_Ok)%bind_Ok).
  apply emit_once in E1 as [(_ & A1 & _)|([e [=]] & _)]. cbn [Agent.accepted initial app] in A1.
  pose proof (steps_of _ _ _ _ _ steps_run_adapter E2) as (l2 & A2 & F2)%adds_list.
  unfold try_finally in E3. destruct (report _ _ _ _ outcome streamed s2) as [r3 s2'] eqn:Er.
  destruct (stop_heartbeat self ids clk beats s2') as [[[]|e] s3'] eqn:Es; [| done]. injection E3 as -> <-.
  apply report_ok in Er as (l3 & finished & A3 & T3 & P3 & F3 & Herr).
  pose proof (steps_of _ _ _ _ _ steps_stop Es) as (l4 & A4 & F4)%adds_list.
  unfold bind, get in E. destruct (Agent._heartbeat_error s3'); [done |]. unfold lift, ResultEnvelope.validate in E.
  destruct (_ <? 0)%Z; [done |]. injection E as <- <-. split; [done |]. split; [done |].
  eexists _, (l2 ++ l3), finished, l4. rewrite A4, A3, A2, A1. cbn [app]. rewrite <- !app_assoc. cbn [app]. split_and!.
  - done.
  - done.
  - done.
  - by rewrite P3.
  - apply Forall_app. split; [| done]. eapply Forall_impl; [exact F2 |]. by intros e (? & ? & _).
  - done.
  - cbn [ResultEnvelope.outcome]. rewrite <- Herr. split; [| intros (e & He & Te); exists e; rewrite elem_of_app; auto].
    intros (e & [He|He]%elem_of_app & Te); [| by exists e]. rewrite Forall_forall in F2. by apply F2 in He as (_ & _ & ?).
Qed.
End agent.

(** ** Announced artifacts *)

Definition plain_part (c : string) : Prop :=
  c <> EmptyString /\ c <> "." /\ c <> ".." /\ has_char slash c = false.

Lemma has_char_none c s : has_char c s = false -> all_chars (fun x => negb (Ascii.eqb x c)) s = true.
Proof. unfold has_char. by rewrite negb_false_iff. Qed.

Lemma split_join parts : Forall plain_part parts -> parts <> [] -> split_on slash (join "/" parts) = parts.
Proof.
  induction 1 as [|c parts (_ & _ & _ & Hc) Hp IH]; [done |]. intros _. destruct parts as [|d parts].
  - cbn [join]. by apply split_on_none, has_char_none.
  - change (join "/" (c :: d :: parts)) with (c ++ String slash (join "/" (d :: parts)))%string.
    rewrite split_on_app by by apply has_char_none. by rewrite IH.
Qed.

Lemma parts_of_text parts : Forall plain_part parts -> parts <> [] -> parts_of (text_of parts) = parts.
Proof.
  intros Hp Hne. unfold parts_of, text_of. assert (match parts with [] => "." | _ => join "/" parts end = join "/" parts) as ->
    by by destruct parts.
  rewrite split_join by done. clear Hne. induction Hp as [|c parts (H1 & H2 & _) Hp IH]; [done |]. cbn [List.filter].
  rewrite !bool_decide_false by done. cbn [negb andb]. by rewrite IH.
Qed.

Lemma text_relative parts : Forall plain_part parts -> parts <> [] -> unsafe_relative (text_of parts) = false.
Proof.
  intros Hp Hne. unfold unsafe_relative. rewrite parts_of_text by done.
  assert (is_absolute (text_of parts) = false) as ->.
  { destruct parts as [|c parts]; [done |]. apply Forall_cons in Hp as [(H1 & _ & _ & Hs) _].
    assert (exists t, text_of (c :: parts) = (c ++ t)%string) as [t ->].
    { unfold text_of. destruct parts as [|d parts]; [exists EmptyString; symmetry; apply str_app_nil | by eexists]. }
    destruct c as [|x c]; [done |]. apply has_char_none in Hs. cbn [all_chars] in Hs. apply andb_true_iff in Hs as [Hx _].
    change (is_absolute (String x c ++ t)) with (if Ascii.ascii_dec slash x then String.prefix EmptyString (c ++ t) else false).
    destruct (Ascii.ascii_dec slash x) as [<-|]; [by rewrite Ascii.eqb_refl in Hx | done]. }
  rewrite bool_decide_false.
  2: { intros Hin. rewrite Forall_forall in Hp. by destruct (Hp _ Hin) as (_ & _ & ? & _). }
  cbn [orb]. destruct (snoc_cases parts) as [->|(q & c & ->)]; [done |]. rewrite name_of_snoc.
  apply Forall_app in Hp as [_ Hp]. apply Forall_singleton in Hp as (? & _). unfold empty_str. by rewrite bool_decide_false.
Qed.

Section artifacts.
  Context {S : Type} `{MimeTypes}.
  Context (self : RunnerAgent.t S) (ids : nat -> uuid) (clk : clock) (beats : nat -> nat).
  Notation task := (RunnerAgent.task self).

Lemma files_below_spec fs root p : p ∈ files_below fs root <->
  (exists content a, fs !! p = Some (File content a)) /\ is_relative_to p root = true /\ p <> root.
Proof.
  unfold files_below. rewrite list_elem_of_omap. split.
  - intros ([q n] & Hq%elem_of_map_to_list & Hp). destruct n as [content a| |]; [| done..].
    destruct (is_relative_to q root) eqn:Hr; [| done]. cbn [andb] in Hp. case_bool_decide; [done |].
    injection Hp as <-. split; [by eexists _, _ | done].
  - intros ((content & a & Hf) & Hr & Hne). exists (p, File content a). split; [by apply elem_of_map_to_list |].
    by rewrite Hr, bool_decide_false.
Qed.

(** The collector sees the directory [root] of the agent's files at [mount] of its own, as
    through a bind mount. *)
Definition mounted (files : tree) (root : path) (shared : tree) (mount : path) : Prop :=
  forall rel, rel <> [] -> shared !! (mount ++ rel) = files !! (root ++ rel).

(** One round of the loop over the files: the size, the limit, the event. *)
Lemma announce_file root d name content a total (s : Agent.t S) :
  tree_ok (Agent.files s) -> Agent.files s !! (root ++ d ++ [name]) = Some (File content a) ->
  announce self ids clk beats root (root ++ d ++ [name]) total s =
    if (MAXIMUM_BYTES <? total + Z.of_nat (length content))%Z
    then (Err (RuntimeError "artifact bytes exceed the configured limit"), s)
    else
      let type := if String.prefix "image/" (default "application/octet-stream" (guess_type name))
                  then EventType.SCREENSHOT else EventType.ARTIFACT in
      (emit self ids clk beats type
        [("relative_path", PStr (text_of (d ++ [name]))); ("file_name", PStr name);
         ("artifact_type", PStr (if bool_decide (type = EventType.SCREENSHOT) then "screenshot" else "file"));
         ("size_bytes", PInt (Z.of_nat (length content)))] ;;;
       ret (total + Z.of_nat (length content))%Z) s.
Proof.
  intros T. rewrite app_assoc. intros Hf. destruct (tk_parent _ T _ _ Hf) as [b Hb]. rewrite parent_of_snoc in Hb.
  destruct (file_reads_back _ _ _ _ _ T (ex_intro _ b Hb) Hf) as (_ & K2 & _ & K4).
  assert (file_size (Agent.files s) ((root ++ d) ++ [name]) = Ok (Z.of_nat (length content))) as Hsize.
  { revert K4. unfold read_file, file_size. destruct (stat _ _) as [[]|]; cbn [rbind]; try done. by intros [= ->]. }
  assert (Path_resolve false (Agent.files s) ((root ++ d) ++ [name]) = Ok ((root ++ d) ++ [name])) as K5.
  { apply Path_resolve_Ok, resolve_strict_lax in K2. unfold Path_resolve. by rewrite K2. }
  unfold announce, bind at 1, get, bind at 1, lift at 1. rewrite Hsize. destruct (MAXIMUM_BYTES <? _)%Z; [done |].
  unfold bind at 1, lift at 1. rewrite K5. unfold bind at 1, lift at 1, relative_parts.
  assert (is_relative_to ((root ++ d) ++ [name]) root = true) as ->
    by (apply is_relative_to_spec; exists (d ++ [name]); by rewrite app_assoc).
  assert (drop (length root) ((root ++ d) ++ [name]) = d ++ [name]) as -> by (rewrite <- app_assoc; apply drop_app_length).
  by rewrite name_of_snoc.
Qed.

Lemma announce_inv root d name content a total total' (s s' : Agent.t S) :
  tree_ok (Agent.files s) -> Agent.files s !! (root ++ d ++ [name]) = Some (File content a) ->
  announce self ids clk beats root (root ++ d ++ [name]) total s = (Ok total', s') ->
  exists before event type, Agent.accepted s' = before ++ [event] /\ EventEnvelope.type event = type
    /\ type ∈ [EventType.ARTIFACT; EventType.SCREENSHOT]
    /\ EventEnvelope.payload event = frozen_pairs
      [("relative_path", PStr (text_of (d ++ [name]))); ("file_name", PStr name);
       ("artifact_type", PStr (if bool_decide (type = EventType.SCREENSHOT) then "screenshot" else "file"));
       ("size_bytes", PInt (Z.of_nat (length content)))]
    /\ total' = (total + Z.of_nat (length content))%Z /\ (total' <= MAXIMUM_BYTES)%Z.
Proof.
  intros T Hf. rewrite (announce_file _ _ _ _ a) by done.
  destruct (Z.ltb_spec MAXIMUM_BYTES (total + Z.of_nat (length content))); [done |]. cbv zeta.
  intros ([] & s1 & He & [= <- <-])%bind_Ok. apply emit_ok in He as (l & e & A & Te & Pe & _).
  exists (Agent.accepted s ++ l), e, (EventEnvelope.type e). rewrite A, Te, app_assoc. split_and!; try done.
  destruct (String.prefix _ _); apply (bool_decide_unpack _); reflexivity.
Qed.

(** What the collector makes of a file of its tree that an event names. *)
Lemma source_of_file (c : ArtifactCollector.t) shared mount attempt d name content a payload :
  tree_ok shared -> Path_resolve false shared (ArtifactCollector.spool_root c ++ [uuid_str attempt]) = Ok mount ->
  shared !! (mount ++ d ++ [name]) = Some (File content a) -> Forall plain_part (d ++ [name]) ->
  kv_get "relative_path" payload = Some (PStr (text_of (d ++ [name]))) ->
  ArtifactCollector.source_of c shared attempt payload =
    if (512 <? py_len (text_of (d ++ [name])))%Z then Err (ArtifactUploadError "artifact relative_path is invalid")
    else if (255 <? py_len name)%Z then Err (ArtifactUploadError "artifact file name is too long")
    else Ok (mount ++ d ++ [name]).
Proof.
  intros T Hroot Hf Hplain Hp. rewrite app_assoc in Hf. destruct (tk_parent _ T _ _ Hf) as [b Hb]. rewrite parent_of_snoc in Hb.
  destruct (file_reads_back _ _ _ _ _ T (ex_intro _ b Hb) Hf) as (K1 & K2 & K3 & _).
  assert (d ++ [name] <> []) as Hne by by destruct d.
  unfold ArtifactCollector.source_of. rewrite Hp. destruct (512 <? _)%Z; [done |].
  rewrite text_relative, Hroot by done. cbn [rbind]. rewrite parts_of_text, (app_assoc mount), K1, K2 by done. cbn [rbind].
  rewrite K3, name_of_snoc. assert (is_relative_to ((mount ++ d) ++ [name]) mount = true) as ->
    by (apply is_relative_to_spec; exists (d ++ [name]); by rewrite app_assoc).
  done.
Qed.

(** C21. What the agent announces the collector finds: the event of a file below the
    artifact directory names that file with its size, the sizes announced so far stay within
    the limit, and the collector, which sees the directory as the spool of the attempt in
    files of its own, takes the same file. The agent does not check the limits of the
    collector: of a file with a relative path of more than 512 characters, or with a name of
    more than 255, it announces what the collector refuses. *)
Theorem announced_artifact_collectable (c : ArtifactCollector.t) root p total total' shared mount (s s' : Agent.t S) :
  tree_ok (Agent.files s) -> p ∈ files_below (Agent.files s) root -> Forall plain_part p ->
  tree_ok shared -> mounted (Agent.files s) root shared mount ->
  Path_resolve false shared (ArtifactCollector.spool_root c ++ [uuid_str (TaskEnvelope.attempt_id task)]) = Ok mount ->
  announce self ids clk beats root p total s = (Ok total', s') ->
  exists before event rel content a, Agent.accepted s' = before ++ [event]
    /\ p = root ++ rel /\ Agent.files s !! p = Some (File content a)
    /\ total' = (total + Z.of_nat (length content))%Z /\ (total' <= MAXIMUM_BYTES)%Z
    /\ EventEnvelope.type event ∈ [EventType.ARTIFACT; EventType.SCREENSHOT]
    /\ kv_get "size_bytes" (EventEnvelope.payload event) = Some (PInt (Z.of_nat (length content)))
    /\ shared !! (mount ++ rel) = Some (File content a)
    /\ ArtifactCollector.source_of c shared (TaskEnvelope.attempt_id task) (EventEnvelope.payload event) =
         if (512 <? py_len (text_of rel))%Z then Err (ArtifactUploadError "artifact relative_path is invalid")
         else if (255 <? py_len (name_of p))%Z then Err (ArtifactUploadError "artifact file name is too long")
         else Ok (mount ++ rel).
Proof.
  intros T Hin Hplain Tc Hm Hroot Hann. apply files_below_spec in Hin as ((content & a & Hf) & Hrel & Hne).
  apply is_relative_to_spec in Hrel as [rel ->]. assert (rel <> []) as Hrn by (intros ->; by rewrite app_nil_r in Hne).
  apply Forall_app in Hplain as [_ Hplain]. destruct (snoc_cases rel) as [->|(d & name & ->)]; [done |].
  apply announce_inv with (content := content) (a := a) in Hann as (before & event & type & A & Te & Ht & Pe & Htotal & Hmax); [| done..].
  assert (shared !! (mount ++ d ++ [name]) = Some (File content a)) as Hs by by rewrite Hm.
  exists before, event, (d ++ [name]), content, a. rewrite Te, Pe. split_and!; try done.
  rewrite (app_assoc root), name_of_snoc. by eapply source_of_file.
Qed.
End artifacts.

(** ** A sink that takes everything *)

(** The directory of artifacts is the same in [fs'] as in [fs], and so is all below it. *)
Definition keeps_artifacts (artifact_root : option path) (fs fs' : tree) : Prop :=
  forall dir, artifact_root = Some dir ->
    (tree_ok fs -> tree_ok fs') /\ is_dir fs' dir = is_dir fs dir
    /\ Path_resolve false fs' dir = Path_resolve false fs dir
    /\ forall root p, Path_resolve false fs dir = Ok root -> is_relative_to p root = true -> fs' !! p = fs !! p.
#[local] Instance keeps_artifacts_preorder artifact_root : PreOrder (keeps_artifacts artifact_root).
Proof.
  split; [by intros fs dir _ |]. intros f1 f2 f3 H12 H23 dir E.
  destruct (H12 dir E) as (T1 & D1 & R1 & L1), (H23 dir E) as (T2 & D2 & R2 & L2). split_and!; [auto | congruence.. |].
  intros root p Hroot Hp. rewrite (L2 root), (L1 root); congruence.
Qed.

(** The number of bytes of the files [paths]. *)
Definition bytes_of (fs : tree) (paths : list path) : Z :=
  foldr (fun p n => match fs !! p with Some (File content _) => Z.of_nat (length content) + n | _ => n end)%Z 0%Z paths.
(** What is wrong with the artifacts an adapter left in [fs]. *)
Definition artifacts_error (artifact_root : option path) (fs : tree) : option exn :=
  match artifact_root with
  | None => None
  | Some dir =>
      match is_dir fs dir, Path_resolve false fs dir with
      | true, Ok root =>
          if decide (100 < length (files_below fs root))%nat
          then Some (RuntimeError "artifact count exceeds the configured limit")
          else if decide (104857600 < bytes_of fs (files_below fs root))%Z
          then Some (RuntimeError "artifact bytes exceed the configured limit")
          else None
      | _, _ => None
      end
  end.

Lemma bytes_of_perm fs paths paths' : paths ≡ₚ paths' -> bytes_of fs paths = bytes_of fs paths'.
Proof.
  unfold bytes_of. induction 1 as [| |p q paths|]; cbn [foldr]; [done | by rewrite IHPermutation | | congruence].
  repeat case_match; lia.
Qed.
Lemma bytes_of_nonneg fs paths : (0 <= bytes_of fs paths)%Z.
Proof. induction paths as [|p paths IH]; cbn; [done |]. fold (bytes_of fs paths). repeat case_match; lia. Qed.
Lemma bytes_of_agree fs fs' paths : (forall p, p ∈ paths -> fs' !! p = fs !! p) -> bytes_of fs' paths = bytes_of fs paths.
Proof.
  induction paths as [|p paths IH]; [done |]. intros Hp. cbn. rewrite (Hp p) by by left.
  fold (bytes_of fs' paths) (bytes_of fs paths). rewrite IH; [done |]. intros q Hq. apply Hp. by right.
Qed.

Lemma files_below_NoDup fs root : NoDup (files_below fs root).
Proof.
  unfold files_below. pose proof (NoDup_fst_map_to_list fs) as Hd.
  eapply sublist_NoDup; [exact Hd |]. clear Hd. induction (map_to_list fs) as [|[p n] l IH]; [done |]. cbn [omap list_omap fmap list_fmap fst].
  destruct n as [content a|m|t]; [case_match eqn:E | by constructor..].
  - case_match; [| done]. injection E as ->. by constructor.
  - by constructor.
Qed.

Lemma keeps_artifacts_files fs fs' dir root : keeps_artifacts (Some dir) fs fs' -> Path_resolve false fs dir = Ok root ->
  files_below fs' root ≡ₚ files_below fs root.
Proof.
  intros K Hr. destruct (K dir eq_refl) as (_ & _ & _ & L). apply NoDup_Permutation; [apply files_below_NoDup.. |].
  intros p. rewrite !files_below_spec. split; intros ((content & a & Hf) & Hp & Hne); (split; [exists content, a | done]).
  - by rewrite <- (L root p).
  - by rewrite (L root p).
Qed.

Lemma keeps_artifacts_error artifact_root fs fs' : keeps_artifacts artifact_root fs fs' ->
  artifacts_error artifact_root fs' = artifacts_error artifact_root fs.
Proof.
  destruct artifact_root as [dir|]; [| done]. intros K. pose proof K as K'. destruct (K' dir eq_refl) as (_ & D & R & L).
  unfold artifacts_error. rewrite D, R. destruct (is_dir fs dir); [| done].
  destruct (Path_resolve false fs dir) as [root|] eqn:Er; [| done].
  pose proof (keeps_artifacts_files _ _ _ _ K Er) as Hperm.
  rewrite (Permutation_length Hperm), (bytes_of_perm _ _ _ Hperm), (bytes_of_agree fs); [done |].
  intros p (_ & Hp & _)%files_below_spec. by apply (L root).
Qed.

Section reporting.
  Context {S : Type} `{MimeTypes}.
  Notation state := (Agent.t S).
  Context (self : RunnerAgent.t S) (ids : nat -> uuid) (clk : clock) (beats : nat -> nat) (mono : nat -> Z).
  Notation task := (RunnerAgent.task self).
  Notation emit := (emit self ids clk beats).
  Notation _emit := (_emit self ids clk).
  Notation root_of := (RunnerAgent.artifact_root self).
  Notation adapter := (RunnerAgent.adapters self (TaskEnvelope.engine task)).

Hypothesis Hadapters : forall engine, AdapterLaw (RunnerAgent.adapters self engine).
(** The sink takes every event and leaves the artifacts alone. *)
Hypothesis Hsink : forall event fs k, exists fs' k',
  RunnerAgent.event_sink self event (fs, k) = (Ok tt, (fs', k')) /\ keeps_artifacts root_of fs fs'.

Definition healthy (s : state) : Prop := (0 <= Agent._seq s)%Z /\ Agent._heartbeat_error s = None.
Definition stays_healthy (s s' : state) : Prop := healthy s -> healthy s'.
#[local] Instance healthy_preorder : PreOrder stays_healthy.
Proof. split; [by intros s Hs | intros s1 s2 s3 H1 H2 Hs; auto]. Qed.

Definition kept (s s' : state) : Prop := keeps_artifacts root_of (Agent.files s) (Agent.files s').

Lemma kept_refl s : kept s s.
Proof. unfold kept. reflexivity. Qed.
Lemma kept_trans s1 s2 s3 : kept s1 s2 -> kept s2 s3 -> kept s1 s3.
Proof. unfold kept. intros H12 H23. exact (transitivity H12 H23). Qed.

(** A call that cannot fail on a healthy agent and leaves the artifacts alone. *)
Definition told (m : M state unit) : Prop := forall s, healthy s -> exists s', m s = (Ok tt, s') /\ healthy s' /\ kept s s'.

Lemma told_ret : told (ret tt).
Proof. intros s Hs. eexists. split_and!; [done.. | apply kept_refl]. Qed.
Lemma told_then m k : told m -> told k -> told (m ;;; k).
Proof.
  intros Hm Hk s Hs. unfold bind. destruct (Hm s Hs) as (s1 & -> & H1 & K1).
  destruct (Hk s1 H1) as (s2 & -> & H2 & K2). eexists. split_and!; [done.. | exact (kept_trans _ _ _ K1 K2)].
Qed.

Lemma told_emit_once ty payload : told (_emit ty payload).
Proof.
  intros s [Hq Hn]. unfold Agent._emit, EventEnvelope.validate. cbn [EventEnvelope.seq event_of].
  destruct (Z.ltb_spec (Agent._seq s) 0); [lia |].
  destruct (Hsink (event_of self ids clk (Agent.calls s) (Agent._seq s) ty payload) (Agent.files s) (Agent.sink s))
    as (fs & k & -> & K). eexists. split; [reflexivity |]. split; [split; [cbn; lia | done] | exact K].
Qed.

Lemma told_let_beat : told (let_beat self ids clk beats).
Proof.
  intros s Hs. unfold let_beat, bind at 1, count_emission. set (s0 := Agent.mk _ _ _ _ _ _ _ _).
  assert (healthy s0) as H0 by exact Hs. change (kept s) with (kept s0).
  revert H0. generalize s0, (beats (Agent.emissions s)). clear s Hs s0. intros s n Hs.
  revert s Hs. change (told (heartbeats self ids clk n)). induction n as [|n IH]; [apply told_ret |].
  apply told_then; [| done]. intros s Hs. unfold heartbeat, bind, get. destruct (Agent._heartbeat_stop s); [by apply told_ret |].
  unfold try_except. by destruct (told_emit_once EventType.HEARTBEAT [] s Hs) as (s1 & -> & H1); eexists.
Qed.

Lemma told_emit ty payload : told (emit ty payload).
Proof. apply told_then; [apply told_let_beat | apply told_emit_once]. Qed.

Lemma told_stop : told (stop_heartbeat self ids clk beats).
Proof. apply told_then; [apply told_let_beat |]. intros s [Hq Hn]. eexists. split_and!; [done.. | exact (kept_refl s)]. Qed.

Hint Resolve told_ret told_then told_emit told_emit_once told_let_beat : told.

Lemma told_emit_rest stream text streamed : told (emit_rest self ids clk beats stream text streamed).
Proof. unfold emit_rest. case_match; auto with told. Qed.

(** *** Artifacts *)

Lemma announce_all_ends dir root paths : forall total s,
  healthy s -> root_of = Some dir -> tree_ok (Agent.files s) -> Path_resolve false (Agent.files s) dir = Ok root ->
  (forall p, p ∈ paths -> p ∈ files_below (Agent.files s) root) -> (0 <= total)%Z -> exists s',
    announce_all self ids clk beats root paths total s
      = (if (match paths with [] => true | _ => total + bytes_of (Agent.files s) paths <=? 104857600 end)%Z then Ok tt
         else Err (RuntimeError "artifact bytes exceed the configured limit"), s')
    /\ healthy s' /\ kept s s'.
Proof.
  induction paths as [|p paths IH]; intros total s Hs Hdir T Hroot Hin Hnn; cbn [announce_all]; [by apply told_ret |].
  assert (p ∈ files_below (Agent.files s) root) as Hp by (apply Hin; by left).
  apply files_below_spec in Hp as ((content & a & Hf) & [rel ->]%is_relative_to_spec & Hne).
  destruct (snoc_cases rel) as [->|(d & name & ->)]; [by rewrite app_nil_r in Hne |].
  unfold bind at 1. rewrite (announce_file _ _ _ _ _ _ _ content a) by done. cbn [bytes_of foldr]. rewrite Hf.
  fold (bytes_of (Agent.files s) paths). pose proof (bytes_of_nonneg (Agent.files s) paths). unfold MAXIMUM_BYTES in *.
  destruct (Z.ltb_spec 104857600 (total + Z.of_nat (length content))).
  { exists s. rewrite (proj2 (Z.leb_gt _ _)) by lia. split_and!; [done.. | apply kept_refl]. }
  cbv zeta. match goal with |- context [emit ?ty ?payload] => destruct (told_emit ty payload s Hs) as (s1 & E1 & Hs1 & K1) end.
  unfold bind at 1. rewrite E1. cbn [ret]. destruct (K1 dir Hdir) as (T1 & _ & R1 & L1).
  assert (forall q, q ∈ paths -> Agent.files s1 !! q = Agent.files s !! q) as Hsame.
  { intros q Hq. apply (L1 root); [done |]. assert (q ∈ files_below (Agent.files s) root) as Hq' by (apply Hin; by right).
    by apply files_below_spec in Hq' as (_ & ? & _). }
  destruct (IH (total + Z.of_nat (length content))%Z s1) as (s2 & E2 & Hs2 & K2); [done | done | auto | congruence | | lia |].
  { intros q Hq. rewrite (keeps_artifacts_files (Agent.files s)) by (unfold kept in K1; rewrite Hdir in K1; done). apply Hin. by right. }
  exists s2. rewrite E2, (bytes_of_agree _ _ _ Hsame), Z.add_assoc. split_and!; [| done | exact (kept_trans _ _ _ K1 K2)].
  destruct paths; [| done]. cbn [bytes_of foldr]. by rewrite (proj2 (Z.leb_le _ _)) by lia.
Qed.

Lemma emit_artifacts_ends s : healthy s -> root_of = None \/ tree_ok (Agent.files s) -> exists s',
  _emit_artifacts self ids clk beats s
    = (match artifacts_error root_of (Agent.files s) with None => Ok tt | Some e => Err e end, s') /\ healthy s' /\ kept s s'.
Proof.
  intros Hs T. unfold _emit_artifacts, artifacts_error.
  assert (root_of = None \/ exists dir, root_of = Some dir) as [Ed|[dir Ed]] by (destruct root_of; eauto);
    rewrite Ed; [by apply told_ret |]. destruct T as [|T]; [congruence |]. unfold bind at 1, get. destruct (is_dir (Agent.files s) dir) eqn:Edir; [| by apply told_ret]. cbn [negb].
  assert (exists root, Path_resolve false (Agent.files s) dir = Ok root) as [root Hroot].
  { revert Edir. unfold is_dir, stat, Path_resolve. destruct (resolve true (Agent.files s) dir) as [q|] eqn:Eq; [| done].
    apply resolve_strict_lax in Eq. rewrite Eq. by eexists. }
  unfold bind at 1, lift. rewrite Hroot. unfold MAXIMUM_ARTIFACTS. destruct (Nat.ltb_spec 100 (length (files_below (Agent.files s) root))).
  { rewrite decide_True by done. exists s. split_and!; [done.. | apply kept_refl]. }
  rewrite decide_False by lia. set (paths := files_below (Agent.files s) root) in *.
  destruct (announce_all_ends dir root (py_sorted path_leb paths) 0 s) as (s' & E & H' & K'); [done.. | | done |].
  { intros p. by rewrite py_sorted_perm. }
  exists s'. split; [| done]. rewrite E, (bytes_of_perm _ _ paths (py_sorted_perm _ _)), Z.add_0_l. f_equal.
  destruct (decide (104857600 < bytes_of (Agent.files s) paths)%Z).
  - rewrite (proj2 (Z.leb_gt _ _)) by done. destruct (py_sorted path_leb paths) eqn:El; [| done].
    apply (f_equal length) in El. rewrite py_sorted_length in El. destruct paths; [cbn in *; lia | done].
  - rewrite (proj2 (Z.leb_le _ _)) by lia. by destruct (py_sorted path_leb paths).
Qed.

Lemma report_ends result streamed s : healthy s -> root_of = None \/ tree_ok (Agent.files s) -> exists s',
  report self ids clk beats result streamed s
    = (match artifacts_error root_of (Agent.files s) with None => Ok tt | Some e => Err e end, s') /\ healthy s'.
Proof.
  intros Hs T. unfold report.
  destruct (told_emit_rest "stdout" (AdapterResult.stdout result) streamed s Hs) as (s1 & E1 & Hs1 & K1).
  destruct (told_emit_rest "stderr" (AdapterResult.stderr result) streamed s1 Hs1) as (s2 & E2 & Hs2 & K2).
  pose proof (kept_trans _ _ _ K1 K2) as K. unfold bind at 1. rewrite E1. unfold bind at 1. rewrite E2.
  destruct (emit_artifacts_ends s2 Hs2) as (s3 & E3 & Hs3 & _).
  { destruct T as [T|T]; [by left |]. assert (root_of = None \/ exists dir, root_of = Some dir) as [Ed|[dir Ed]]
      by (destruct root_of; eauto); [by left | right]. by apply (K dir). }
  unfold bind at 1. rewrite E3, (keeps_artifacts_error _ _ _ K). destruct (artifacts_error root_of (Agent.files s)); [by eexists |].
  match goal with |- exists _, ?m s3 = _ /\ _ => assert (told m) as Hm end; [| destruct (Hm s3 Hs3) as (s4 & -> & Hs4 & _); by eexists].
  cbv zeta. repeat first [apply told_then | case_match | by auto with told].
Qed.

(** What the adapter is asked for. *)
Definition adapter_call : M state AdapterResult.t :=
  match adapter_run_streaming adapter with
  | Some run_streaming => run_streaming task (RunnerAgent.workspace self) (_emit_output self ids clk beats)
  | None => adapter_run adapter task (RunnerAgent.workspace self)
  end.

Lemma run_adapter_call s : run_adapter self ids clk beats s =
  match adapter_call s with
  | (Ok result, s') => (Ok (result, bool_decide (is_Some (adapter_run_streaming adapter))), s')
  | (Err e, s') => (Ok (AdapterResult.plain ResultOutcome.INFRA_ERROR "Adapter raised an unexpected error"
                          [("error_type", PStr (exn_name e))] false, false), s')
  end.
Proof.
  unfold run_adapter, adapter_call, try_except, bind.
  destruct (adapter_run_streaming adapter) as [f|]; [by destruct (f _ _ _ s) as [[]] | by destruct (adapter_run _ _ _ s) as [[]]].
Qed.

Lemma adapter_call_healthy s : healthy s -> healthy (adapter_call s).2.
Proof.
  pose proof (Hadapters (TaskEnvelope.engine task)) as Ha.
  assert (forall s fs k, stays_healthy s (with_world fs k s)) as Hworld by (by intros s0 fs k [? ?]).
  assert (forall m, told m -> steps stays_healthy m) as Htold.
  { intros m Hm s0 Hs0. by destruct (Hm s0 Hs0) as (s1 & -> & ? & _). }
  assert (steps stays_healthy adapter_call) as Hst; [| apply Hst].
  unfold adapter_call. destruct (adapter_run_streaming adapter) as [f|] eqn:Ef.
  - eapply adapter_run_streaming_law; [exact Ef | typeclasses eauto | exact Hworld |].
    intros stream message. unfold _emit_output. destruct (empty_str message); apply Htold; auto with told.
  - by eapply adapter_run_law; [typeclasses eauto |].
Qed.

(** C20. An agent whose sink takes every event tells how its adapter ended, whatever the
    adapter does. It returns a result exactly if the artifacts the adapter left, in a
    well-formed tree of files, keep to their limits: with the outcome of the adapter, or, when the adapter raised, an
    infrastructure error that names the exception. With more than 100 artifacts, or more than
    100 MiB of them, it raises instead of returning. *)
Theorem agent_always_reports completed_at fs k : exists s1 s3,
  _emit EventType.STARTED [("engine", PStr (Engine.value (TaskEnvelope.engine task)))] (initial fs k) = (Ok tt, s1)
  /\ let '(ended, s2) := adapter_call s1 in
     (root_of = None \/ tree_ok (Agent.files s2)) ->
     match artifacts_error root_of (Agent.files s2) with
     | Some e => run self ids clk beats mono completed_at (initial fs k) = (Err e, s3)
     | None => exists envelope, run self ids clk beats mono completed_at (initial fs k) = (Ok envelope, s3)
         /\ match ended with
            | Ok result => ResultEnvelope.outcome envelope = AdapterResult.outcome result
            | Err e => ResultEnvelope.outcome envelope = ResultOutcome.INFRA_ERROR
                /\ kv_get "error_type" (ResultEnvelope.summary envelope) = Some (PStr (exn_name e))
            end
     end.
Proof.
  destruct (told_emit_once EventType.STARTED [("engine", PStr (Engine.value (TaskEnvelope.engine task)))] (initial fs k))
    as (s1 & E1 & Hs1 & _); [by split |].
  exists s1, (run self ids clk beats mono completed_at (initial fs k)).2. split; [exact E1 |].
  pose proof (adapter_call_healthy s1 Hs1) as Hs2. pose proof (run_adapter_call s1) as E2.
  destruct (adapter_call s1) as [ended s2]. intros T.
  assert (exists result streamed, run_adapter self ids clk beats s1 = (Ok (result, streamed), s2)
    /\ match ended with Ok r => result = r | Err e => result = AdapterResult.plain ResultOutcome.INFRA_ERROR
         "Adapter raised an unexpected error" [("error_type", PStr (exn_name e))] false end) as (result & streamed & E3 & Hresult)
    by (destruct ended; eauto).
  destruct (report_ends result streamed s2 Hs2 T) as (s3 & E4 & Hs3). destruct (told_stop s3 Hs3) as (s4 & E5 & [_ Hn] & _).
  assert (run self ids clk beats mono completed_at (initial fs k) =
    (match artifacts_error root_of (Agent.files s2) with
     | Some e => Err e
     | None => Ok (ResultEnvelope.mk (TaskEnvelope.run_id task) (TaskEnvelope.attempt_id task) (TaskEnvelope.engine task)
         (AdapterResult.outcome result) completed_at (Z.max 0 (Z.quot (mono 1%nat - mono 0%nat) 1000))
         (frozen_pairs (summary_of result)))
     end, s4)) as ->.
  { unfold run, bind at 1. rewrite E1. unfold bind at 1. rewrite E3. unfold bind at 1, try_finally. rewrite E4, E5.
    destruct (artifacts_error root_of (Agent.files s2)); [done |]. unfold bind, get. rewrite Hn. unfold lift, ResultEnvelope.validate.
    cbn [ResultEnvelope.duration_ms]. destruct (Z.ltb_spec (Z.max 0 (Z.quot (mono 1%nat - mono 0%nat) 1000)) 0); [lia | done]. }
  destruct (artifacts_error root_of (Agent.files s2)); [done |]. eexists. split; [reflexivity |].
  destruct ended; subst result; done.
Qed.
End reporting.
