(* ===== verification/SubprocessAdapter.v ===== *)
(** * Script adapters ([src/runner/adapters/subprocess.py])

    [SubprocessAdapter] runs a pytest or Playwright script as a process: its environment,
    its parameter file, its output, bounded and streamed line by line, and the result.
    The process and the environment of the runner are arguments; POSIX only. *)
From stdpp Require Import gmap strings pretty.
From S2P Require Import Prelude PyDict PyText Protocol Domain Templates Urls Files Json SecretFiles SourceStore HostSources SourceImport DockerExecutor Artifacts Agent.
Open Scope string_scope.
Open Scope list_scope.

(** [str.upper()] on the code points of the model. *)
Definition upper_char (c : Ascii.ascii) : list N :=
  let n := code c in
  (if ((97 <=? n) && (n <=? 122)) || ((224 <=? n) && (n <=? 254) && negb (n =? 247)) then [n - 32]
   else if n =? 223 then [83; 83]
   else if n =? 181 then [924]
   else if n =? 255 then [376]
   else [n])%N.
Definition upper (s : string) : list N := concat (map upper_char (String.list_ascii_of_string s)).
Definition codes (s : string) : list N := map code (String.list_ascii_of_string s).

Definition _SAFE_ENVIRONMENT_NAMES : list string :=
  ["APPDATA"; "COMSPEC"; "HOME"; "HOMEDRIVE"; "HOMEPATH"; "LANG"; "LC_ALL"; "LC_CTYPE"; "LOCALAPPDATA"; "OS";
   "PATH"; "PATHEXT"; "PLAYWRIGHT_BROWSERS_PATH"; "PROGRAMDATA"; "PROGRAMFILES"; "PROGRAMFILES(X86)";
   "SYSTEMDRIVE"; "SYSTEMROOT"; "TEMP"; "TMP"; "TMPDIR"; "USERPROFILE"; "WINDIR"].
Definition _LOG_CHUNK_SIZE : nat := 4096.

Module _BoundedOutput.
Record t := mk { _limit : nat; _parts : list string; _length : nat }.
Definition init (limit : nat) : t := mk limit [] 0.
Definition append (o : t) (value : string) : t :=
  let remaining := (_limit o + 1 - _length o)%nat in
  if (0 <? remaining)%nat then
    let saved := String.substring 0 remaining value in
    mk (_limit o) (_parts o ++ [saved]) (_length o + String.length saved)
  else o.
Definition value (o : t) : string := truncate (join EmptyString (_parts o)) (_limit o).
End _BoundedOutput.

(** The two outputs. *)
Inductive stream := STDOUT | STDERR.
#[export] Instance stream_eq_dec : EqDecision stream.
Proof. solve_decision. Defined.
Definition stream_name (x : stream) : string := match x with STDOUT => "stdout" | STDERR => "stderr" end.

(** The local state of [read_stream], one for each output. *)
Module Reader.
Record t := mk {
  captured : _BoundedOutput.t; emitted : nat; truncated_event_emitted : bool; sink_enabled : bool }.
Definition init (limit : nat) : t := mk (_BoundedOutput.init limit) 0 false true.
End Reader.

(** What became of a process that started: the lines of its outputs in the order in which
    they were read, the exit code if it ended in time, the one after it was killed and
    whether the readers ended. *)
Module Process.
Record t := mk {
  lines : list (stream * string); returncode : option Z; returncode_after_kill : Z; closed : bool }.
End Process.
Class Popen := popen : list string -> path -> list (string * pyval) -> Z -> M tree Process.t.

(** [CompletedProcess], or the exception [TimeoutExpired]; both carry the outputs. *)
Inductive ended :=
  | CompletedProcess (returncode : Z) (stdout stderr : string)
  | TimeoutExpired (stdout stderr : string).

Fixpoint chunks_of (fuel size : nat) (s : string) : list string :=
  match fuel with
  | O => []
  | S n => if empty_str s then []
           else String.substring 0 size s :: chunks_of n size (String.substring size (String.length s - size) s)
  end.

Module SubprocessAdapter.
Record t := mk {
  engine_name : string; command : path -> list string; output_limit : nat;
  pythonpath_entries : list path; artifact_root : option path }.

Section adapter.
  Context `{PyFloat} `{FloatText} `{Files.Process} `{Popen}.
  Context {W : Type}.
  Notation state := (Agent.t W).
  (** [os.environ] and [_RUNNER_PACKAGE_ROOT]. *)
  Context (os_environ : list (string * string)) (package_root : path).

(** [source.get(name)] in the dictionary of upper-cased names: the last one wins. *)
Fixpoint source_get (name : string) (environ : list (string * string)) : option string :=
  match environ with
  | [] => None
  | (key, value) :: rest =>
      match source_get name rest with
      | Some v => Some v
      | None => if bool_decide (upper key = codes name) then Some value else None
      end
  end.
Definition safe_environment : list (string * pyval) :=
  omap (fun name => match source_get name os_environ with Some v => Some (name, PStr v) | None => None end)
    _SAFE_ENVIRONMENT_NAMES.

Definition environment (self : t) (fs : tree) (task : TaskEnvelope.t) (workspace parameters_file : path)
    : res (list (string * pyval)) :=
  let environment := kv_merge safe_environment (TaskEnvelope.environment_variables task) in
  let? root := Path_resolve false fs workspace in
  let? entries := rmap (Path_resolve false fs) (pythonpath_entries self) in
  let environment := kv_set "PYTHONPATH" (PStr (join ":" (map absolute_text (package_root :: root :: entries)))) environment in
  let environment := kv_set "RUNNER_ENGINE" (PStr (engine_name self)) environment in
  let environment := kv_set "RUNNER_WORKSPACE" (PStr (absolute_text root)) environment in
  let environment := kv_set "SMARTTEST_PARAMETERS_FILE" (PStr (absolute_text parameters_file)) environment in
  let environment := kv_set "PYTHONIOENCODING" (PStr "utf-8") environment in
  let environment := kv_set "PYTHONUTF8" (PStr "1") environment in
  let environment := kv_set "PYTHONUNBUFFERED" (PStr "1") environment in
  match artifact_root self with
  | None => Ok environment
  | Some artifact_root =>
      let? artifacts := Path_resolve false fs artifact_root in
      Ok (kv_set "SMARTTEST_ARTIFACTS_DIR" (PStr (absolute_text artifacts)) environment)
  end.

(** *** Streaming *)

(** [on_files]: the parts that only work on the files. *)
Definition on_files {A} (m : M tree A) : M state A := fun s =>
  let '(r, fs) := m (Agent.files s) in
  (r, Agent.mk fs (Agent.sink s) (Agent._seq s) (Agent._heartbeat_stop s) (Agent._heartbeat_error s)
        (Agent.calls s) (Agent.emissions s) (Agent.accepted s)).

Context (output_sink : string -> string -> M state unit).

(** A delivery that may fail: the error, if any. *)
Definition attempt (m : M state unit) : M state (option exn) :=
  try_except (m ;;; ret None) any_exn (fun e => ret (Some e)).

Definition read_line (limit : nat) (name : string) (reader : Reader.t) (line : string) : M state (Reader.t * list exn) :=
  let captured := _BoundedOutput.append (Reader.captured reader) line in
  let message := SubprocessDockerClient.strip_line line in
  let remaining := (limit - Reader.emitted reader)%nat in
  let visible := String.substring 0 remaining message in
  let* error1 :=
    if negb (empty_str visible) && Reader.sink_enabled reader
    then attempt (for_each (chunks_of (String.length visible) _LOG_CHUNK_SIZE visible) (output_sink name)) else ret None in
  let sink_enabled := Reader.sink_enabled reader && bool_decide (error1 = None) in
  let emitted := (Reader.emitted reader + Nat.min (String.length line) remaining)%nat in
  if (remaining <? String.length line)%nat && negb (Reader.truncated_event_emitted reader) then
    let* error2 := if sink_enabled : bool then attempt (output_sink name "...[truncated]") else ret None in
    ret (Reader.mk captured emitted true (sink_enabled && bool_decide (error2 = None)),
         option_list error1 ++ option_list error2)
  else ret (Reader.mk captured emitted (Reader.truncated_event_emitted reader) sink_enabled, option_list error1).

(** The two threads, by the lines in the order of their arrival. *)
Fixpoint read_lines (limit : nat) (stdout stderr : Reader.t) (lines : list (stream * string))
    : M state (Reader.t * Reader.t * list exn) :=
  match lines with
  | [] => ret (stdout, stderr, [])
  | (name, line) :: rest =>
      let* ' (reader, errors) :=
        read_line limit (stream_name name) (match name with STDOUT => stdout | STDERR => stderr end) line in
      let* ' (stdout, stderr, more) :=
        match name with
        | STDOUT => read_lines limit reader stderr rest
        | STDERR => read_lines limit stdout reader rest
        end in
      ret (stdout, stderr, errors ++ more)
  end.

Definition _stream_process (self : t) (process : Process.t) : M state ended :=
  let* ' (stdout, stderr, reader_errors) :=
    read_lines (output_limit self) (Reader.init (output_limit self)) (Reader.init (output_limit self)) (Process.lines process) in
  if negb (Process.closed process) then raise (OSError "OSError")
  else
    let out := _BoundedOutput.value (Reader.captured stdout) in
    let err := _BoundedOutput.value (Reader.captured stderr) in
    match Process.returncode process, reader_errors with
    | Some _, e :: _ => raise e
    | Some return_code, [] => ret (CompletedProcess return_code out err)
    | None, _ => ret (TimeoutExpired out err)
    end.

(** [process.communicate]: the whole outputs. *)
Definition output_of (name : stream) (lines : list (stream * string)) : string :=
  join EmptyString (omap (fun x : stream * string => if decide (x.1 = name) then Some x.2 else None) lines).
Definition communicate (process : Process.t) : M state ended :=
  let out := output_of STDOUT (Process.lines process) in
  let err := output_of STDERR (Process.lines process) in
  ret match Process.returncode process with
      | Some return_code => CompletedProcess return_code out err
      | None => TimeoutExpired out err
      end.

(** [streaming]: an output sink was given. *)
Definition _run_command (self : t) (streaming : bool) (command : list string) (workspace : path)
    (environment : list (string * pyval)) (timeout : Z) : M state ended :=
  let* s := get in
  let* cwd := lift (Path_resolve false (Agent.files s) workspace) in
  let* process := on_files (popen command cwd environment timeout) in
  if streaming then _stream_process self process else communicate process.

(** *** Running *)

Definition deadline_exceeded : AdapterResult.t :=
  AdapterResult.plain ResultOutcome.TIMED_OUT "Task deadline has passed" [("timed_out", PBool true)] true.

Definition bounded (self : t) (text : string) : string := truncate text (output_limit self).

(** The file of the parameters and the process. *)
Definition run_process (self : t) (streaming : bool) (temporary : path) (task : TaskEnvelope.t)
    (workspace entrypoint : path) (timeout : Z) : M state ended :=
  let parameters_file := temporary ++ ["parameters.json"] in
  let* text := lift (dumps false false (PDict (thawed_pairs (TaskEnvelope.parameters task)))) in
  on_files (write_new 384 parameters_file (utf8 text)) ;;;
  let* s := get in
  let* environment := lift (environment self (Agent.files s) task workspace parameters_file) in
  _run_command self streaming (command self entrypoint) workspace environment timeout.

(** [TemporaryDirectory], here on the state of the agent. *)
Definition with_temporary {A} (place : path) (body : M state A) : M state A :=
  on_files (os_mkdir 448 place) ;;;
  try_finally body (on_files (try_except (rmtree place) is_FileNotFoundError (fun _ => ret tt))).

Definition result_of (self : t) (completed : ended) : AdapterResult.t :=
  match completed with
  | TimeoutExpired out err =>
      AdapterResult.mk ResultOutcome.TIMED_OUT "Subprocess timed out" [("timed_out", PBool true)]
        (bounded self out) (bounded self err) None true
  | CompletedProcess returncode out err =>
      let succeeded := (returncode =? 0)%Z in
      AdapterResult.mk (if succeeded then ResultOutcome.SUCCEEDED else ResultOutcome.FAILED)
        (if succeeded then "Subprocess succeeded" else "Subprocess failed") [("exit_code", PInt returncode)]
        (bounded self out) (bounded self err) (Some returncode) false
  end.

Definition _run (self : t) (streaming : bool) (clk : clock) (temporary : path) (task : TaskEnvelope.t) (workspace : path)
    : M state AdapterResult.t :=
  match deadline_remaining (clk 0%nat) task with
  | Err _ => ret deadline_exceeded
  | Ok _ =>
      let* s := get in
      match (let? entrypoint := resolve_entrypoint (Agent.files s) workspace (TaskEnvelope.entrypoint task) in
             let? timeout := execution_timeout (clk 1%nat) task in Ok (entrypoint, timeout)) with
      | Err TimeoutError => ret deadline_exceeded
      | Err e => if is_OSError e || is_ValueError e || bool_decide (e = TypeError)
                 then ret (AdapterResult.plain ResultOutcome.FAILED "Invalid subprocess parameters" [] false)
                 else raise e
      | Ok (entrypoint, timeout) =>
          try_except
            (let* completed := with_temporary temporary (run_process self streaming temporary task workspace entrypoint timeout) in
             ret (result_of self completed))
            is_OSError
            (fun e => ret (AdapterResult.plain ResultOutcome.INFRA_ERROR "Subprocess could not be started"
                             [("error_type", PStr (exn_name e))] false))
      end
  end.
End adapter.

(** As an adapter of the agent. *)
Definition adapter `{PyFloat} `{FloatText} `{Files.Process} `{Popen} {W} (os_environ : list (string * string)) (package_root : path)
    (clk : clock) (temporary : path) (self : t) : Adapter W :=
  mkAdapter
    (fun task workspace => _run os_environ package_root (fun _ _ => ret tt) self false clk temporary task workspace)
    (Some (fun task workspace output_sink => _run os_environ package_root output_sink self true clk temporary task workspace)).
End SubprocessAdapter.

(** [PytestAdapter] and [PlaywrightAdapter]. *)
Definition PytestAdapter (python_executable : string) (output_limit : nat) (pythonpath_entries : list path)
    (artifact_root : option path) : SubprocessAdapter.t :=
  SubprocessAdapter.mk "pytest"
    (fun entrypoint => [python_executable; "-m"; "pytest"; "-p"; "no:cacheprovider"; absolute_text entrypoint])
    output_limit pythonpath_entries artifact_root.
Definition PlaywrightAdapter (python_executable : string) (output_limit : nat) (pythonpath_entries : list path)
    (artifact_root : option path) : SubprocessAdapter.t :=
  SubprocessAdapter.mk "playwright" (fun entrypoint => [python_executable; absolute_text entrypoint])
    output_limit pythonpath_entries artifact_root.

(** ** In the script ([src/runner/context.py]) *)

Definition MAX_PARAMETERS_BYTES : nat := 1048576.

(** [configured] is the argument or the variable [SMARTTEST_PARAMETERS_FILE]. *)
Definition load_parameters (fs : tree) (configured : string) : res (list (string * pyval)) :=
  if empty_str configured then Err (RuntimeError "test parameters are unavailable")
  else
    let? content := read_file fs (parts_of configured) in
    let raw := take (MAX_PARAMETERS_BYTES + 1) content in
    if (MAX_PARAMETERS_BYTES <? length raw)%nat then Err (ValueError "test parameters exceed the supported size")
    else
      match loads_bytes raw with
      | Err e => if bool_decide (e = UnicodeDecodeError) || bool_decide (e = JSONDecodeError)
                 then Err (ValueError "test parameters are invalid") else Err e
      | Ok (PDict result) => Ok result
      | Ok _ => Err (ValueError "test parameters must be a JSON object")
      end.
