(* ===== verification/ScriptTheorems.v ===== *)
(** * Properties of the script adapters

    The outputs that are kept and streamed are bounded, and streaming does not change the
    result; the environment of a script is what the runner decides; a script reads the
    parameters of its task. *)
From stdpp Require Import gmap strings pretty.
From S2P Require Import Prelude PyDict PyText TextFacts Protocol Domain Templates Urls Files FileFacts Json JsonFacts SecretFiles SecretFileTheorems SourceStore SourceReferences HostSources SourceImport DockerExecutor Artifacts Agent AgentTheorems SubprocessAdapter.
Import SubprocessAdapter.
Open Scope string_scope.
Open Scope list_scope.

(** ** Bounded outputs *)

Lemma truncate_short s n : (String.length s <= n)%nat -> truncate s n = s.
Proof. intros Hs. unfold truncate. by destruct (Nat.leb_spec (String.length s) n); [| lia]. Qed.

Lemma truncate_length s n : (String.length (truncate s n) <= n)%nat.
Proof.
  unfold truncate. destruct (Nat.leb_spec (String.length s) n); [done |]. cbv zeta.
  destruct (Nat.leb_spec n (String.length "...[truncated]")).
  - rewrite substring0_length. lia.
  - rewrite str_length_app, substring0_length. lia.
Qed.

Lemma truncate_twice s n : truncate (truncate s n) n = truncate s n.
Proof. apply truncate_short, truncate_length. Qed.

(** One character more than the limit is enough to know that there is more. *)
Lemma truncate_prefix s n : truncate (String.substring 0 (n + 1) s) n = truncate s n.
Proof.
  unfold truncate. rewrite substring0_length. destruct (Nat.leb_spec (String.length s) n).
  - rewrite substring0_all by lia. by destruct (Nat.leb_spec (Nat.min (n + 1) (String.length s)) n); [| lia].
  - destruct (Nat.leb_spec (Nat.min (n + 1) (String.length s)) n); [lia |]. cbv zeta.
    destruct (Nat.leb_spec n (String.length "...[truncated]")); [done |].
    rewrite substring0_substring0. do 3 f_equal. lia.
Qed.

Lemma join_empty_app a b : join EmptyString (a ++ b) = (join EmptyString a ++ join EmptyString b)%string.
Proof.
  induction a as [|x a IH]; [done |]. destruct a as [|y a].
  - cbn [app join]. destruct b; cbn [join]; [by rewrite str_app_nil | done].
  - change (join EmptyString ((x :: y :: a) ++ b)) with (x ++ EmptyString ++ join EmptyString ((y :: a) ++ b))%string.
    rewrite IH. change (join EmptyString (x :: y :: a)) with (x ++ EmptyString ++ join EmptyString (y :: a))%string.
    by rewrite !str_app_assoc.
Qed.

(** What has been appended so far is [text]. *)
Definition holds (o : _BoundedOutput.t) (limit : nat) (text : string) : Prop :=
  _BoundedOutput._limit o = limit
  /\ join EmptyString (_BoundedOutput._parts o) = String.substring 0 (limit + 1) text
  /\ _BoundedOutput._length o = Nat.min (limit + 1) (String.length text).

Lemma holds_init limit : holds (_BoundedOutput.init limit) limit EmptyString.
Proof. split_and!; [done | | cbn; lia]. by destruct limit. Qed.

Lemma holds_append o limit text value : holds o limit text -> holds (_BoundedOutput.append o value) limit (text ++ value)%string.
Proof.
  intros (Hl & Hj & Hn). unfold _BoundedOutput.append. rewrite Hl, Hn. cbv zeta.
  destruct (Nat.ltb_spec 0 (limit + 1 - Nat.min (limit + 1) (String.length text))).
  - split_and!; cbn; [done | |].
    + rewrite join_empty_app, Hj, substring0_app. cbn [join]. do 2 f_equal. lia.
    + rewrite str_length_app, substring0_length. lia.
  - split_and!; [done | |].
    + rewrite Hj, substring0_app. replace (limit + 1 - String.length text)%nat with O by lia.
      assert (forall s, String.substring 0 0 s = EmptyString) as -> by by destruct s. by rewrite str_app_nil.
    + rewrite Hn, str_length_app. lia.
Qed.

Lemma holds_value o limit text : holds o limit text -> _BoundedOutput.value o = truncate text limit.
Proof. intros (Hl & Hj & _). unfold _BoundedOutput.value. by rewrite Hl, Hj, truncate_prefix. Qed.

(** ** Streaming *)

Lemma strip_line_length s : (String.length (SubprocessDockerClient.strip_line s) <= String.length s)%nat.
Proof.
  induction s as [|c s IH]; [done |]. cbn [SubprocessDockerClient.strip_line String.length].
  destruct (SubprocessDockerClient.strip_line s); [destruct (_ || _); cbn; lia | cbn [String.length] in *; lia].
Qed.

Section streaming.
  Context {W : Type}.
  Notation state := (Agent.t W).
  Context (output_sink : string -> string -> M state unit).
  Hypothesis Hsink : forall name message s, exists s', output_sink name message s = (Ok tt, s').

Lemma attempt_ok m (s : state) : (forall s, exists s', m s = (Ok tt, s')) -> exists s', attempt m s = (Ok None, s').
Proof. intros Hm. unfold attempt, try_except, bind. destruct (Hm s) as [s' ->]. by eexists. Qed.

Lemma for_each_ok {A} (xs : list A) (body : A -> M state unit) (s : state) :
  (forall x s, exists s', body x s = (Ok tt, s')) -> exists s', for_each xs body s = (Ok tt, s').
Proof.
  intros Hb. revert s. induction xs as [|x xs IH]; intros s; cbn [for_each]; [by eexists |].
  unfold bind. destruct (Hb x s) as [s1 ->]. apply IH.
Qed.

Lemma read_line_ok limit name reader line text (s : state) :
  holds (Reader.captured reader) limit text -> Reader.sink_enabled reader = true ->
  exists reader' s', read_line output_sink limit name reader line s = (Ok (reader', []), s')
    /\ holds (Reader.captured reader') limit (text ++ line)%string /\ Reader.sink_enabled reader' = true.
Proof.
  intros Hc He. apply (holds_append _ _ _ line) in Hc. unfold read_line. rewrite He, andb_true_r. cbv zeta.
  assert (forall (b : bool) (m : M state unit) s, (forall s, exists s', m s = (Ok tt, s')) ->
    exists s', (if b then attempt m else ret None) s = (Ok None, s')) as Hif.
  { intros b m s0 Hm. destruct b; [by apply attempt_ok | by eexists]. }
  unfold bind at 1.
  match goal with |- context [(if ?b then attempt ?m else ret None) s] => destruct (Hif b m s) as [s1 ->] end.
  { intros s0. apply for_each_ok. intros x s2. apply Hsink. }
  rewrite bool_decide_true by done. cbn [andb]. destruct (_ && negb _).
  - unfold bind. destruct (attempt_ok (output_sink name "...[truncated]") s1) as [s2 ->]; [by apply Hsink |].
    rewrite bool_decide_true by done. by eexists _, _.
  - by eexists _, _.
Qed.

Lemma read_lines_ok limit lines : forall stdout stderr out err (s : state),
  holds (Reader.captured stdout) limit out -> Reader.sink_enabled stdout = true ->
  holds (Reader.captured stderr) limit err -> Reader.sink_enabled stderr = true ->
  exists stdout' stderr' s', read_lines output_sink limit stdout stderr lines s = (Ok (stdout', stderr', []), s')
    /\ holds (Reader.captured stdout') limit (out ++ output_of STDOUT lines)%string
    /\ holds (Reader.captured stderr') limit (err ++ output_of STDERR lines)%string.
Proof.
  assert (forall name x lines, output_of name ((name, x) :: lines) = (x ++ output_of name lines)%string) as Hcons.
  { intros name x l. unfold output_of. cbn [omap list_omap fst snd]. rewrite decide_True by done.
    change (x :: ?l) with ([x] ++ l). by rewrite join_empty_app. }
  induction lines as [|[[|] line] lines IH]; intros stdout stderr out err s Ho Eo He Ee; cbn [read_lines stream_name].
  - eexists _, _, _. split; [reflexivity |]. by rewrite !str_app_nil.
  - unfold bind at 1. destruct (read_line_ok limit "stdout" stdout line out s Ho Eo) as (r & s1 & -> & Hr & Er).
    unfold bind at 1. destruct (IH r stderr _ err s1 Hr Er He Ee) as (o' & e' & s2 & -> & Ho' & He').
    eexists _, _, _. split; [reflexivity |]. rewrite Hcons, <- str_app_assoc. split; [done | exact He'].
  - unfold bind at 1. destruct (read_line_ok limit "stderr" stderr line err s He Ee) as (r & s1 & -> & Hr & Er).
    unfold bind at 1. destruct (IH stdout r out _ s1 Ho Eo Hr Er) as (o' & e' & s2 & -> & Ho' & He').
    eexists _, _, _. split; [reflexivity |]. rewrite Hcons, <- str_app_assoc. split; [exact Ho' | done].
Qed.

End streaming.

(** ** What is streamed *)

Lemma chunks_length fuel size s : (0 < size)%nat -> (String.length s <= fuel)%nat ->
  foldr (fun x n => (String.length x + n)%nat) O (chunks_of fuel size s) = String.length s
  /\ Forall (fun x => (1 <= String.length x <= size)%nat) (chunks_of fuel size s).
Proof.
  intros Hz. revert s. induction fuel as [|fuel IH]; intros s Hs; cbn [chunks_of].
  { destruct s; [by split | cbn in Hs; lia]. }
  unfold empty_str. case_bool_decide as He; [by subst s; split |].
  assert (String.length s <> 0)%nat as Hne by by destruct s.
  assert (forall m, String.length (String.substring size m s) = Nat.min m (String.length s - size)) as Hsub.
  { clear. revert size. induction s as [|c s IH]; intros size m; [by destruct size, m |].
    destruct size as [|size]; [by rewrite substring0_length, Nat.sub_0_r |]. cbn [String.substring String.length Nat.sub]. apply IH. }
  destruct (IH (String.substring size (String.length s - size) s)) as [Hsum Hall]; [rewrite Hsub; lia |].
  cbn [foldr]. rewrite Hsum, Hsub, substring0_length. split; [lia |]. constructor; [| done].
  rewrite substring0_length. lia.
Qed.

Section recorded.
  Notation log := (list (string * string)).
  Notation state := (Agent.t log).

(** A sink that keeps what it is given. *)
Definition record (name message : string) : M state unit := fun s =>
  (Ok tt, Agent.mk (Agent.files s) (Agent.sink s ++ [(name, message)]) (Agent._seq s) (Agent._heartbeat_stop s)
            (Agent._heartbeat_error s) (Agent.calls s) (Agent.emissions s) (Agent.accepted s)).

(** The characters streamed under a name. *)
Definition streamed (name : string) (l : log) : nat :=
  foldr (fun x n => if bool_decide (x.1 = name) then (String.length x.2 + n)%nat else n) O l.

Lemma streamed_app name a b : streamed name (a ++ b) = (streamed name a + streamed name b)%nat.
Proof. unfold streamed. induction a as [|x a IH]; [done |]. cbn [app foldr]. rewrite IH. case_bool_decide; lia. Qed.

Lemma streamed_map name other l :
  streamed name (map (pair other) l)
  = if bool_decide (other = name) then foldr (fun x n => (String.length x + n)%nat) O l else O.
Proof. unfold streamed. induction l as [|x l IH]; cbn [map foldr fst snd]; rewrite ?IH; by case_bool_decide. Qed.

Lemma record_each name l s : exists s', for_each l (record name) s = (Ok tt, s')
  /\ Agent.sink s' = Agent.sink s ++ map (pair name) l.
Proof.
  revert s. induction l as [|x l IH]; intros s; cbn [for_each map].
  - exists s. by rewrite app_nil_r.
  - unfold bind, record at 1. destruct (IH (Agent.mk (Agent.files s) (Agent.sink s ++ [(name, x)]) (Agent._seq s)
      (Agent._heartbeat_stop s) (Agent._heartbeat_error s) (Agent.calls s) (Agent.emissions s) (Agent.accepted s)))
      as (s' & -> & E). exists s'. split; [done |]. rewrite E. cbn [Agent.sink]. by rewrite <- app_assoc.
Qed.

(** What a reader may have streamed so far. *)
Definition allowance (reader : Reader.t) : nat :=
  (Reader.emitted reader + if Reader.truncated_event_emitted reader then 14 else 0)%nat.
Definition message_ok (x : string * string) : Prop := (1 <= String.length x.2 <= _LOG_CHUNK_SIZE)%nat.

(** The two deliveries of a line. *)
Lemma visible_recorded (b : bool) name visible s :
  exists l s', (if b then attempt (for_each (chunks_of (String.length visible) _LOG_CHUNK_SIZE visible) (record name)) else ret None) s
    = (Ok None, s') /\ Agent.sink s' = Agent.sink s ++ map (pair name) l
    /\ (foldr (fun x n => (String.length x + n)%nat) O l <= String.length visible)%nat
    /\ Forall message_ok (map (pair name) l).
Proof.
  destruct (chunks_length (String.length visible) _LOG_CHUNK_SIZE visible) as [Hsum Hall]; [unfold _LOG_CHUNK_SIZE; lia | done |].
  destruct b; [| by exists [], s; split_and!; [done | rewrite app_nil_r | cbn; lia | constructor]].
  destruct (record_each name (chunks_of (String.length visible) _LOG_CHUNK_SIZE visible) s) as (s1 & E & Es).
  eexists _, s1. unfold attempt, try_except, bind. rewrite E. split_and!; [done | exact Es | lia |].
  apply Forall_map. eapply Forall_impl; [exact Hall | done].
Qed.

Lemma mark_recorded (b : bool) name (s : state) :
  exists l s', (if b then attempt (record name "...[truncated]") else ret None) s = (Ok None, s')
    /\ Agent.sink s' = Agent.sink s ++ map (pair name) l
    /\ (foldr (fun x n => (String.length x + n)%nat) O l <= 14)%nat /\ Forall message_ok (map (pair name) l).
Proof.
  destruct b; [| by exists [], s; split_and!; [done | rewrite app_nil_r | cbn; lia | constructor]].
  eexists ["...[truncated]"], _. unfold attempt, try_except, bind, record. split_and!; [reflexivity | done | cbn; lia |].
  repeat constructor.
Qed.

Lemma read_line_recorded limit name reader line s :
  (Reader.emitted reader <= limit)%nat ->
  exists reader' l s', read_line record limit name reader line s = (Ok (reader', []), s')
    /\ Agent.sink s' = Agent.sink s ++ map (pair name) l /\ (Reader.emitted reader' <= limit)%nat
    /\ (allowance reader + foldr (fun x n => (String.length x + n)%nat) O l <= allowance reader')%nat
    /\ Forall message_ok (map (pair name) l).
Proof.
  intros He. unfold read_line. cbv zeta.
  set (visible := String.substring 0 (limit - Reader.emitted reader) (SubprocessDockerClient.strip_line line)).
  assert (String.length visible <= Nat.min (String.length line) (limit - Reader.emitted reader))%nat as Hv.
  { unfold visible. rewrite substring0_length. pose proof (strip_line_length line). lia. }
  destruct (visible_recorded (negb (empty_str visible) && Reader.sink_enabled reader) name visible s)
    as (l1 & s1 & E1 & Es1 & Hl1 & Hm1). unfold bind at 1. rewrite E1, bool_decide_true, andb_true_r by done.
  destruct (_ && negb _) eqn:Et.
  - apply andb_true_iff in Et as [_ Et%negb_true_iff]. unfold bind.
    destruct (mark_recorded (Reader.sink_enabled reader) name s1) as (l2 & s2 & -> & Es2 & Hl2 & Hm2).
    eexists _, (l1 ++ l2), s2. split; [reflexivity |]. rewrite Es2, Es1, map_app, <- app_assoc, foldr_app.
    unfold allowance. cbn [Reader.emitted Reader.truncated_event_emitted]. rewrite Et.
    assert (forall l n, foldr (fun x n => (String.length x + n)%nat) n l = (foldr (fun x n => (String.length x + n)%nat) O l + n)%nat) as Hf.
    { intros l n. induction l as [|x l IH]; [done |]. cbn [foldr]. rewrite IH. lia. }
    rewrite Hf. split_and!; [done | lia | lia |]. by apply Forall_app.
  - eexists _, l1, s1. split; [reflexivity |]. unfold allowance. cbn [Reader.emitted Reader.truncated_event_emitted].
    split_and!; [done | lia | lia | done].
Qed.

(** What the readers stream stays within their allowances. *)
Lemma read_lines_recorded limit lines stdout stderr (s : state) :
  (Reader.emitted stdout <= limit)%nat -> (Reader.emitted stderr <= limit)%nat ->
  exists stdout' stderr' l s', read_lines record limit stdout stderr lines s = (Ok (stdout', stderr', []), s')
    /\ Agent.sink s' = Agent.sink s ++ l
    /\ (Reader.emitted stdout' <= limit)%nat /\ (Reader.emitted stderr' <= limit)%nat
    /\ (allowance stdout + streamed "stdout" l <= allowance stdout')%nat
    /\ (allowance stderr + streamed "stderr" l <= allowance stderr')%nat
    /\ Forall message_ok l.
Proof.
  revert stdout stderr s. induction lines as [|[name line] lines IH]; intros stdout stderr s Ho He; cbn [read_lines].
  { eexists _, _, [], _. split; [reflexivity |]. rewrite app_nil_r. change (streamed ?n []) with O. split_and!; [done.. | lia | lia | constructor]. }
  unfold bind at 1.
  destruct (read_line_recorded limit (stream_name name) (match name with STDOUT => stdout | STDERR => stderr end) line s)
    as (r & l1 & s1 & -> & E1 & Hr & Ha & Hm); [by destruct name |].
  destruct name; unfold bind at 1; cbn [stream_name] in *.
  - destruct (IH r stderr s1 Hr He) as (o & e & l2 & s2 & -> & E2 & Hlo & Hle & Hao & Hae & Hm2).
    eexists _, _, (map (pair "stdout") l1 ++ l2), _. split; [reflexivity |]. rewrite E2, E1, <- app_assoc, !streamed_app, !streamed_map.
    rewrite bool_decide_true, (bool_decide_false ("stdout" = "stderr")) by done.
    split_and!; [done.. | lia | lia | by apply Forall_app].
  - destruct (IH stdout r s1 Ho Hr) as (o & e & l2 & s2 & -> & E2 & Hlo & Hle & Hao & Hae & Hm2).
    eexists _, _, (map (pair "stderr") l1 ++ l2), _. split; [reflexivity |]. rewrite E2, E1, <- app_assoc, !streamed_app, !streamed_map.
    rewrite (bool_decide_false ("stderr" = "stdout")), bool_decide_true by done.
    split_and!; [done.. | lia | lia | by apply Forall_app].
Qed.
(** However much a script writes, and in whatever lines: for each of its outputs at
    most the limit and one mark are streamed, in messages of 1 to 4096 characters. *)
Theorem streamed_output_bounded (self : SubprocessAdapter.t) lines (s : state) :
  exists stdout stderr messages s',
    read_lines record (output_limit self) (Reader.init (output_limit self)) (Reader.init (output_limit self)) lines s
      = (Ok (stdout, stderr, []), s')
    /\ Agent.sink s' = Agent.sink s ++ messages
    /\ (streamed "stdout" messages <= output_limit self + 14)%nat
    /\ (streamed "stderr" messages <= output_limit self + 14)%nat
    /\ Forall (fun m => (1 <= String.length m.2 <= 4096)%nat) messages.
Proof.
  destruct (read_lines_recorded (output_limit self) lines (Reader.init (output_limit self)) (Reader.init (output_limit self)) s)
    as (o & e & l & s' & E & El & Ho & He & Hao & Hae & Hm); [apply Nat.le_0_l.. |].
  exists o, e, l, s'. unfold allowance in *. cbn [Reader.emitted Reader.truncated_event_emitted Reader.init] in *.
  split_and!; [done | done | destruct (Reader.truncated_event_emitted o); lia | destruct (Reader.truncated_event_emitted e); lia | done].
Qed.
End recorded.

(** ** The environment of a script *)

Section environment.
  Context (os_environ : list (string * string)) (package_root : path).

Lemma source_get_Some name environ value : source_get name environ = Some value ->
  exists key, (key, value) ∈ environ /\ upper key = codes name.
Proof.
  induction environ as [|[key v] environ IH]; [done |]. cbn [source_get].
  destruct (source_get name environ) as [w|] eqn:E.
  - intros [= ->]. destruct (IH eq_refl) as (k & Hk & Hu). exists k. split; [by right | done].
  - case_bool_decide; [| done]. intros [= <-]. exists key. split; [by left | done].
Qed.

Lemma safe_environment_Some name v : kv_get name (safe_environment os_environ) = Some v ->
  name ∈ _SAFE_ENVIRONMENT_NAMES /\ exists key value, (key, value) ∈ os_environ /\ upper key = codes name /\ v = PStr value.
Proof.
  intros Hg. assert ((name, v) ∈ safe_environment os_environ) as Hin.
  { revert Hg. induction (safe_environment os_environ) as [|[k w] l IH]; [done |]. cbn [kv_get].
    case_decide; [subst k; intros [= ->]; by left | intros Hl; right; by apply IH]. }
  apply list_elem_of_omap in Hin as (n & Hn & Hv). destruct (source_get n os_environ) as [value|] eqn:E; [| done].
  injection Hv as -> <-. apply source_get_Some in E as (key & Hk & Hu). split; [done |]. by exists key, value.
Qed.

Definition pinned : list string :=
  ["PYTHONPATH"; "RUNNER_ENGINE"; "RUNNER_WORKSPACE"; "SMARTTEST_PARAMETERS_FILE"; "PYTHONIOENCODING"; "PYTHONUTF8";
   "PYTHONUNBUFFERED"; "SMARTTEST_ARTIFACTS_DIR"].

Lemma kv_get_In k v kvs : kv_get k kvs = Some v -> (k, v) ∈ kvs.
Proof.
  induction kvs as [|[k1 v1] l IH]; [done |]. cbn [kv_get]. case_decide; [subst k1; intros [= ->]; by left |].
  intros Hl. right. by apply IH.
Qed.

Lemma kv_get_set_ne k k' v kvs : k' <> k -> kv_get k' (kv_set k v kvs) = kv_get k' kvs.
Proof. intros Hk. by rewrite kv_get_set, decide_False. Qed.

(** What a script sees in its environment: the variables of the task, of the variables
    of the runner only those on the list that the task does not set, and the pinned ones,
    which no task can change; in particular its modules are looked up first in the
    package of the runner and in the workspace. *)
Theorem runner_environment_decided (self : SubprocessAdapter.t) fs task workspace parameters_file env :
  environment os_environ package_root self fs task workspace parameters_file = Ok env ->
  (exists root rest, Path_resolve false fs workspace = Ok root
     /\ kv_get "PYTHONPATH" env = Some (PStr (join ":" (absolute_text package_root :: absolute_text root :: rest)))
     /\ kv_get "RUNNER_WORKSPACE" env = Some (PStr (absolute_text root)))
  /\ kv_get "RUNNER_ENGINE" env = Some (PStr (engine_name self))
  /\ kv_get "SMARTTEST_PARAMETERS_FILE" env = Some (PStr (absolute_text parameters_file))
  /\ forall name v, kv_get name env = Some v -> name ∉ pinned ->
       (name, v) ∈ TaskEnvelope.environment_variables task
       \/ (name ∉ (TaskEnvelope.environment_variables task).*1 /\ name ∈ _SAFE_ENVIRONMENT_NAMES
           /\ exists key value, (key, value) ∈ os_environ /\ upper key = codes name /\ v = PStr value).
Proof.
  unfold environment. cbv zeta. intros (root & Hroot & (entries & Hentries & E)%rbind_Ok)%rbind_Ok.
  set (base := kv_merge _ _) in E. match type of E with match _ with None => Ok ?e | _ => _ end = _ => set (pins := e) in E end.
  assert (env = pins \/ exists text, env = kv_set "SMARTTEST_ARTIFACTS_DIR" (PStr text) pins) as Henv.
  { destruct (artifact_root self); [| injection E as <-; by left].
    apply rbind_Ok in E as (? & _ & [= <-]). right. by eexists. }
  assert (forall name, name <> "SMARTTEST_ARTIFACTS_DIR" -> kv_get name env = kv_get name pins) as Hpins.
  { intros name Hn. destruct Henv as [->|[text ->]]; [done | by rewrite kv_get_set_ne]. }
  split_and!.
  - exists root, (map absolute_text entries). split; [done |]. rewrite !Hpins by done. unfold pins.
    rewrite !kv_get_set. by repeat (rewrite decide_False by done || rewrite decide_True by done).
  - rewrite Hpins by done. unfold pins. rewrite !kv_get_set.
    by repeat (rewrite decide_False by done || rewrite decide_True by done).
  - rewrite Hpins by done. unfold pins. rewrite !kv_get_set.
    by repeat (rewrite decide_False by done || rewrite decide_True by done).
  - intros name v Hv Hn. unfold pinned in Hn. rewrite !not_elem_of_cons in Hn.
    destruct Hn as (? & ? & ? & ? & ? & ? & ? & ? & _). rewrite Hpins in Hv by done. unfold pins in Hv.
    rewrite !kv_get_set_ne in Hv by done. unfold base in Hv. rewrite kv_get_merge in Hv.
    destruct (kv_get name (rev (TaskEnvelope.environment_variables task))) as [w|] eqn:Ew.
    + injection Hv as ->. apply kv_get_In in Ew. left. by rewrite (Permutation_rev (TaskEnvelope.environment_variables task)).
    + right. apply safe_environment_Some in Hv as [Hs Hk]. split; [| done].
      intros Hin. apply eq_None_not_Some in Ew. apply Ew, kv_get_is_Some.
      assert (rev (TaskEnvelope.environment_variables task) ≡ₚ TaskEnvelope.environment_variables task) as ->; [| done].
      symmetry. apply Permutation_rev.
Qed.
End environment.

(** ** The parameters of a script *)

Lemma parts_of_absolute p : Forall plain_part p -> p <> [] -> parts_of (absolute_text p) = p.
Proof.
  intros Hp Hne. pose proof (parts_of_text p Hp Hne) as Hr. unfold parts_of in *. unfold absolute_text.
  change ("/" ++ join "/" p)%string with (EmptyString ++ String slash (join "/" p))%string.
  rewrite split_on_app by done. cbn [List.filter]. rewrite bool_decide_true by done. cbn [negb andb].
  unfold text_of in Hr. by destruct p.
Qed.

Lemma join_head sep a l : exists rest, join sep (a :: l) = (a ++ rest)%string.
Proof. destruct l as [|b l]; [exists EmptyString; symmetry; apply str_app_nil | by eexists]. Qed.

Lemma object_detects `{PyFloat} kvs text : dumps false false (PDict kvs) = Ok text -> detects_utf8 (utf8 text) = true.
Proof.
  intros Ht. apply (dump_dict false) in Ht as (ts & _ & ->). destruct ts as [|[k t] ts]; [reflexivity |].
  cbn [map]. destruct (join_head "," (member_text false (k, t)) (map (member_text false) ts)) as [rest ->].
  unfold member_text at 1. cbn [fst snd]. unfold json_string. rewrite !str_app_assoc.
  match goal with |- context [("{" ++ quote ++ ?x)%string] => assert (exists y, utf8 ("{" ++ quote ++ x)%string = (123 :: 34 :: y)%N) as [y ->] by by eexists end.
  unfold detects_utf8. cbn [length take Nat.leb lookup list_lookup].
  rewrite !bool_decide_false by done. cbn. by destruct (_ || _).
Qed.

Section parameters.
  Context `{PyFloat} `{FloatText} `{Files.Process} `{Popen}.
  Context {W : Type} (os_environ : list (string * string)) (package_root : path)
          (output_sink : string -> string -> M (Agent.t W) unit).

(** C23. The script is started with a file that only its owner may read and from which
    [load_parameters] gets exactly the parameters of the task. *)
Theorem script_reads_its_parameters (self : SubprocessAdapter.t) streaming temporary task workspace entrypoint timeout text
    (s : Agent.t W) :
  tree_ok (Agent.files s) -> dir_at (Agent.files s) temporary -> Forall plain_part temporary ->
  Agent.files s !! (temporary ++ ["parameters.json"]) = None ->
  json_value (PDict (thawed_pairs (TaskEnvelope.parameters task))) ->
  dumps false false (PDict (thawed_pairs (TaskEnvelope.parameters task))) = Ok text ->
  (length (utf8 text) <= MAX_PARAMETERS_BYTES)%nat ->
  let file := temporary ++ ["parameters.json"] in
  exists fs1, fs1 = <[file := File (utf8 text) (created 384)]> (Agent.files s)
    /\ load_parameters fs1 (absolute_text file) = Ok (thawed_pairs (TaskEnvelope.parameters task))
    /\ match environment os_environ package_root self fs1 task workspace file with
       | Err e => (run_process os_environ package_root output_sink self streaming temporary task workspace entrypoint timeout s).1 = Err e
       | Ok env => kv_get "SMARTTEST_PARAMETERS_FILE" env = Some (PStr (absolute_text file))
           /\ run_process os_environ package_root output_sink self streaming temporary task workspace entrypoint timeout s
              = _run_command output_sink self streaming (command self entrypoint) workspace env timeout
                  (with_world fs1 (Agent.sink s) s)
       end.
Proof.
  intros T Hd Hp Hn Hj Ht Hlen file. set (fs1 := <[file := File (utf8 text) (created 384)]> (Agent.files s)).
  exists fs1. split; [done |].
  assert (write_new 384 file (utf8 text) (Agent.files s) = (Ok tt, fs1)) as Hw.
  { unfold write_new. unfold file. rewrite locate_self by done. by rewrite node_at_snoc, Hn. }
  destruct (fresh_insert (Agent.files s) temporary "parameters.json" (File (utf8 text) (created 384)) T Hd ltac:(done) Hn)
    as (T1 & Hd1 & _).
  destruct (file_reads_back fs1 temporary "parameters.json" (utf8 text) (created 384) T1 (Hd1 _ Hd) (lookup_insert_eq _ _ _))
    as (_ & _ & _ & Hread). split_and!.
  - unfold load_parameters, empty_str. rewrite bool_decide_false by done. unfold file at 1. rewrite parts_of_absolute.
    + rewrite Hread. cbn [rbind]. rewrite take_ge by lia. destruct (Nat.ltb_spec MAX_PARAMETERS_BYTES (length (utf8 text))); [lia |].
      unfold loads_bytes. rewrite (object_detects _ _ Ht). cbn [negb]. rewrite utf8_roundtrip.
      by rewrite (loads_dump false _ _ Hj Ht).
    + apply Forall_app. split; [done |]. apply Forall_singleton. by split_and!.
    + apply snoc_not_nil.
  - assert (run_process os_environ package_root output_sink self streaming temporary task workspace entrypoint timeout s
      = match environment os_environ package_root self fs1 task workspace file with
        | Err e => (Err e, with_world fs1 (Agent.sink s) s)
        | Ok env => _run_command output_sink self streaming (command self entrypoint) workspace env timeout
                      (with_world fs1 (Agent.sink s) s)
        end) as ->.
    { unfold run_process. cbv zeta. fold file. unfold bind at 1, lift at 1. rewrite Ht. unfold bind at 1, on_files at 1. rewrite Hw.
      unfold bind at 1, get. unfold bind at 1, lift at 1. cbn [Agent.files].
      by destruct (environment os_environ package_root self fs1 task workspace file). }
    destruct (environment os_environ package_root self fs1 task workspace file) as [env|e] eqn:E; [| done].
    split; [by apply runner_environment_decided in E as (_ & _ & ? & _) | done].
Qed.
End parameters.

(** ** The interface of the agent *)

#[export] Instance script_adapter_law `{PyFloat} `{FloatText} `{Files.Process} `{Popen} {W : Type}
    os_environ package_root clk temporary self :
  AdapterLaw (adapter (W:=W) os_environ package_root clk temporary self).
Proof.
  assert (forall (R : Agent.t W -> Agent.t W -> Prop) `{!PreOrder R} sink task workspace streaming,
    (forall s fs k, R s (with_world fs k s)) -> (forall stream message, steps R (sink stream message)) ->
    steps R (_run os_environ package_root sink self streaming clk temporary task workspace)) as Hrun.
  { intros R HR sink task workspace streaming Hworld Hsink.
    assert (forall A (m : M tree A), steps R (on_files m)) as Hfiles.
    { intros A m s. unfold on_files. destruct (m (Agent.files s)) as [r fs]. apply Hworld. }
    assert (forall limit lines stdout stderr, steps R (read_lines sink limit stdout stderr lines)) as Hlines.
    { assert (forall limit name reader line, steps R (read_line sink limit name reader line)) as Hline
        by (intros; unfold read_line, attempt; cbv zeta; by_steps).
      intros limit lines. induction lines as [|[[|] line] lines IH]; intros stdout stderr; cbn [read_lines]; by_steps. }
    unfold _run, with_temporary, run_process, _run_command, _stream_process, communicate. cbv zeta.
    by_steps. }
  split.
  - intros R HR task workspace Hworld. apply Hrun; [done | done |]. intros stream message.
    apply steps_ret. typeclasses eauto.
  - intros f [= <-] R HR task workspace sink Hworld Hsink. by apply Hrun.
Qed.
