(* ===== verification/HostExecutor.v ===== *)
(** * Running host projects ([src/services/host_executor.py])

    [HostExecutor] runs a pytest or Playwright task on the machine of the service, through
    the agent and the script adapters, with an artifact directory of its own. *)
From stdpp Require Import gmap strings pretty.
From S2P Require Import Prelude PyDict PyText TextFacts Protocol Domain Templates Urls Files FileFacts Json SecretFiles SecretFileTheorems SourceStore SourceStoreTheorems SourceReferences HostSources SourceImport DockerExecutor DockerTheorems Artifacts Agent AgentTheorems SubprocessAdapter ScriptTheorems.
Open Scope string_scope.
Open Scope list_scope.

Module HostExecutor.
Record t := mk { workspace : path; python_executable : path; artifact_spool_root : path }.

Definition init (fs : tree) (workspace python_executable artifact_spool_root : path) : res t :=
  let? workspace := Path_resolve false fs workspace in
  let? python_executable := Path_resolve false fs python_executable in
  let? artifact_spool_root := Path_resolve false fs artifact_spool_root in
  Ok (mk workspace python_executable artifact_spool_root).

Definition failed {A} (msg : string) : res A := Err (HostExecutionError msg).

Section executor.
  Context {S : Type} `{PyFloat} `{FloatText} `{Files.Process} `{Popen} `{MimeTypes}.
  (** What the agent and the adapter draw, the environment of the service, the place of
      the temporary directory and the adapter of HTTP tasks, which is never used. *)
  Context (self : t) (ids : nat -> uuid) (clk : clock) (beats : nat -> nat) (mono : nat -> Z)
          (os_environ : list (string * string)) (package_root temporary : path) (http : Adapter S).
  Context (event_sink : EventEnvelope.t -> M (tree * S) unit).

(** The guards before anything is changed. *)
Definition check (fs : tree) (task : TaskEnvelope.t) : res unit :=
  if negb (bool_decide (TaskEnvelope.engine task ∈ [Engine.PYTEST; Engine.PLAYWRIGHT]))
  then failed "host execution supports only pytest and Playwright"
  else if negb (nilb (TaskEnvelope.secret_references task)) then failed "host execution does not support secret references"
  else if (TaskEnvelope.deadline task <=? clk 0%nat)%Z then failed "host execution task deadline has expired"
  else if negb (is_dir fs (workspace self)) || negb (is_file fs (python_executable self))
          || negb (is_relative_to (python_executable self) (workspace self))
  then failed "host execution paths are no longer valid"
  else Ok tt.

(** The two adapters, with the interpreter of the project; 16384 is the default limit. *)
Definition adapters (artifact_root : path) (engine : Engine.t) : Adapter S :=
  let python := absolute_text (python_executable self) in
  let script adapter := SubprocessAdapter.adapter os_environ package_root (fun i => clk (i + 1)%nat) temporary adapter in
  match engine with
  | Engine.PYTEST => script (PytestAdapter python 16384 [workspace self] (Some artifact_root))
  | Engine.PLAYWRIGHT => script (PlaywrightAdapter python 16384 [workspace self] (Some artifact_root))
  | Engine.HTTP => http
  end.

(** [RunnerAgent(...).run()], on the files and the sink. *)
Definition run_agent (task : TaskEnvelope.t) (artifact_root : path) : M (tree * S) ResultEnvelope.t := fun s =>
  let agent := RunnerAgent.mk task (workspace self) event_sink (adapters artifact_root) (Some artifact_root) in
  let '(r, s') := Agent.run agent ids clk beats mono (clk 3%nat) (initial s.1 s.2) in
  (r, (Agent.files s', Agent.sink s')).

Definition on_tree {A} (m : M tree A) : M (tree * S) A := fun s => let '(r, fs) := m s.1 in (r, (fs, s.2)).

Definition execute (task : TaskEnvelope.t) : M (tree * S) ResultEnvelope.t :=
  let* s := get in
  lift (check s.1 task) ;;;
  on_tree (makedirs (artifact_spool_root self)) ;;;
  let artifact_root := artifact_spool_root self ++ [uuid_str (TaskEnvelope.attempt_id task)] in
  on_tree (mkdir 511 false artifact_root) ;;;
  try_finally
    (run_agent task artifact_root)
    (on_tree (try_except (rmtree artifact_root) any_exn (fun _ => ret tt))).
End executor.
End HostExecutor.

(** ** What is left behind *)

Section theorems.
  Import HostExecutor.
  Context {S : Type} `{PyFloat} `{FloatText} `{Files.Process} `{Popen} `{MimeTypes}.
  Context (self : t) (ids : nat -> uuid) (clk : clock) (beats : nat -> nat) (mono : nat -> Z)
          (os_environ : list (string * string)) (package_root parent : path) (name : string) (http : Adapter S).
  Context (event_sink : EventEnvelope.t -> M (tree * S) unit) (kept : path).
  Notation state := (Agent.t S).
  Notation temporary := (parent ++ [name]).

(** The tree is well formed, with the directory to keep and the one of the temporary. *)
Definition good (fs : tree) : Prop := tree_ok fs /\ dir_at fs kept /\ dir_at fs parent.
Definition stays_good (s s' : state) : Prop := good (Agent.files s) -> good (Agent.files s').
#[local] Instance stays_good_preorder : PreOrder stays_good.
Proof. split; [by intros s Hs | intros s1 s2 s3 H1' H2' Hs; auto]. Qed.

Hypothesis Hname : name <> "..".
Hypothesis Hkept : is_relative_to kept temporary = false.
Hypothesis Hpopen : forall command cwd env timeout fs, good fs -> good (popen command cwd env timeout fs).2.
Hypothesis Hsink : forall event fs k, good fs -> good (event_sink event (fs, k)).2.1.

Lemma located_good fs p c : tree_ok fs -> c <> ".." -> forall q, locate fs (p ++ [c]) = Ok q ->
  exists d, q = d ++ [c] /\ dir_at fs d.
Proof.
  intros T Hc q. unfold locate. rewrite name_of_snoc, parent_of_snoc.
  assert (nilb (p ++ [c]) = false) as -> by by destruct p. rewrite bool_decide_false by done. cbn [orb].
  destruct (resolve true fs p) as [d|]; [| done]. cbn [rbind]. destruct (node_at fs d) as [[]|] eqn:E; try done.
  intros [= <-]. exists d. split; [done | by eexists].
Qed.

Lemma insert_good fs d c n : good fs -> dir_at fs d -> c <> ".." -> fs !! (d ++ [c]) = None -> good (<[d ++ [c] := n]> fs).
Proof.
  intros (T & Hk & Hp) Hd Hc Hn. destruct (fresh_insert fs d c n T Hd Hc Hn) as (? & Hdirs & _).
  split_and!; auto.
Qed.

Lemma os_mkdir_good mode p c fs : c <> ".." -> good fs -> good (os_mkdir mode (p ++ [c]) fs).2.
Proof.
  intros Hc G. unfold os_mkdir. destruct (locate fs (p ++ [c])) as [q|e] eqn:E; [| done].
  destruct (located_good fs p c (proj1 G) Hc q E) as (d & -> & Hd). rewrite node_at_snoc.
  destruct (fs !! (d ++ [c])) eqn:En; [done |]. by apply insert_good.
Qed.

Lemma write_new_good mode p c content fs : c <> ".." -> good fs -> good (write_new mode (p ++ [c]) content fs).2.
Proof.
  intros Hc G. unfold write_new. destruct (locate fs (p ++ [c])) as [q|e] eqn:E; [| done].
  destruct (located_good fs p c (proj1 G) Hc q E) as (d & -> & Hd). rewrite node_at_snoc.
  destruct (fs !! (d ++ [c])) eqn:En; [done |]. by apply insert_good.
Qed.

Lemma rmtree_good fs : good fs -> good (rmtree temporary fs).2.
Proof.
  intros (T & Hk & Hp). unfold rmtree. rewrite locate_self, node_at_snoc by done.
  destruct (fs !! temporary) as [[]|]; try by split_and!. split_and!.
  - by apply (without_ok temporary).
  - by apply (without_dir temporary).
  - apply (without_dir temporary); [| done]. apply not_true_iff_false. intros [x Ex]%is_relative_to_spec.
    apply (f_equal length) in Ex. rewrite !length_app in Ex. cbn in Ex. lia.
Qed.

Lemma on_files_good {A} (m : M tree A) : (forall fs, good fs -> good (m fs).2) -> steps stays_good (SubprocessAdapter.on_files (W:=S) m).
Proof.
  intros Hm s Hs. unfold SubprocessAdapter.on_files. specialize (Hm _ Hs). destruct (m (Agent.files s)). exact Hm.
Qed.

Lemma script_good sink adapter streaming clk' task workspace :
  (forall stream message, steps stays_good (sink stream message)) ->
  steps stays_good (SubprocessAdapter._run os_environ package_root sink adapter streaming clk' temporary task workspace).
Proof.
  intros Hs. assert (forall limit lines stdout stderr, steps stays_good (SubprocessAdapter.read_lines sink limit stdout stderr lines)) as Hlines.
  { assert (forall limit n reader line, steps stays_good (SubprocessAdapter.read_line sink limit n reader line)) as Hline
      by (intros; unfold SubprocessAdapter.read_line, SubprocessAdapter.attempt; cbv zeta; by_steps).
    intros limit lines. induction lines as [|[[|] line] lines IH]; intros stdout stderr; cbn [SubprocessAdapter.read_lines]; by_steps. }
  assert (steps stays_good (SubprocessAdapter.on_files (W:=S) (os_mkdir 448 temporary))) as Hmkdir
    by (apply on_files_good; intros; by apply os_mkdir_good).
  assert (forall content, steps stays_good (SubprocessAdapter.on_files (W:=S) (write_new 384 (temporary ++ ["parameters.json"]) content)))
    as Hwrite by (intros; apply on_files_good; intros; by apply write_new_good).
  assert (forall command cwd env timeout, steps stays_good (SubprocessAdapter.on_files (W:=S) (popen command cwd env timeout)))
    as Hp by (intros; apply on_files_good; intros; by apply Hpopen).
  assert (steps stays_good (SubprocessAdapter.on_files (W:=S) (try_except (rmtree temporary) is_FileNotFoundError (fun _ => ret tt)))) as Hrm.
  { apply on_files_good. intros fs G. apply rmtree_good in G. unfold try_except. destruct (rmtree temporary fs) as [[|e] fs']; [done |].
    by destruct (is_FileNotFoundError e). }
  unfold SubprocessAdapter._run, SubprocessAdapter.with_temporary, SubprocessAdapter.run_process, SubprocessAdapter._run_command,
    SubprocessAdapter._stream_process, SubprocessAdapter.communicate. cbv zeta. by_steps.
Qed.

(** The agent, whatever the adapter of HTTP tasks. *)
Lemma agent_good agent completed_at (s : state) :
  RunnerAgent.event_sink agent = event_sink ->
  (forall sink, (forall stream message, steps stays_good (sink stream message)) ->
     match adapter_run_streaming (RunnerAgent.adapters agent (TaskEnvelope.engine (RunnerAgent.task agent))) with
     | Some f => steps stays_good (f (RunnerAgent.task agent) (RunnerAgent.workspace agent) sink)
     | None => steps stays_good (adapter_run (RunnerAgent.adapters agent (TaskEnvelope.engine (RunnerAgent.task agent)))
                                   (RunnerAgent.task agent) (RunnerAgent.workspace agent))
     end) ->
  stays_good s (Agent.run agent ids clk beats mono completed_at s).2.
Proof.
  intros Hs Hadapter. revert s. change (steps stays_good (Agent.run agent ids clk beats mono completed_at)).
  assert (forall ty payload, steps stays_good (_emit agent ids clk ty payload)) as Hemit.
  { intros ty payload s Hg. unfold _emit. destruct (EventEnvelope.validate _) as [event|]; [| exact Hg]. rewrite Hs.
    pose proof (Hsink event (Agent.files s) (Agent.sink s) Hg) as H'. destruct (event_sink event _) as [[|] [fs k]]; exact H'. }
  assert (steps stays_good (let_beat agent ids clk beats)) as Hbeat.
  { assert (steps stays_good (count_emission (S:=S))) as Hc by (by intros s Hg).
    assert (forall e, steps stays_good (heartbeat_failed (S:=S) e)) as Hf by (by intros e s Hg).
    assert (forall n, steps stays_good (heartbeats agent ids clk n)) as Hh
      by (induction n as [|n IH]; cbn [heartbeats]; unfold heartbeat; by_steps).
    unfold let_beat. by_steps. }
  assert (forall ty payload, steps stays_good (Agent.emit agent ids clk beats ty payload)) as Hem by (intros; unfold Agent.emit; by_steps).
  assert (forall root paths total, steps stays_good (announce_all agent ids clk beats root paths total)) as Hann.
  { intros root paths. induction paths as [|p paths IH]; intros total; cbn [announce_all]; unfold announce; cbv zeta; by_steps. }
  assert (steps stays_good (run_adapter agent ids clk beats)) as Hrun.
  { specialize (Hadapter (_emit_output agent ids clk beats)). unfold run_adapter.
    assert (forall stream message, steps stays_good (_emit_output agent ids clk beats stream message)) as Ho
      by (intros; unfold _emit_output; by_steps).
    specialize (Hadapter Ho). destruct (adapter_run_streaming _); by_steps. }
  assert (steps stays_good (stop_heartbeat agent ids clk beats)) as Hstop.
  { unfold stop_heartbeat. apply steps_bind; [typeclasses eauto | done |]. by intros _ s Hg. }
  unfold Agent.run, report, emit_rest, _emit_artifacts. cbv zeta. by_steps.
Qed.
End theorems.

Section clean.
  Import HostExecutor.
  Context {S : Type} `{PyFloat} `{FloatText} `{Files.Process} `{Popen} `{MimeTypes}.
  Context (self : t) (ids : nat -> uuid) (clk : clock) (beats : nat -> nat) (mono : nat -> Z)
          (os_environ : list (string * string)) (package_root parent : path) (name : string) (http : Adapter S).
  Context (event_sink : EventEnvelope.t -> M (tree * S) unit) (task : TaskEnvelope.t).
  Notation artifact_root := (artifact_spool_root self ++ [uuid_str (TaskEnvelope.attempt_id task)]).
  Notation temporary := (parent ++ [name]).
  Notation good := (good parent artifact_root).

Hypothesis Hname : name <> "..".
Hypothesis Hkept : is_relative_to artifact_root temporary = false.
Hypothesis Hpopen : forall command cwd env timeout fs, good fs -> good (popen command cwd env timeout fs).2.
Hypothesis Hsink : forall event fs k, good fs -> good (event_sink event (fs, k)).2.1.

Lemma check_engine fs : check self clk fs task = Ok tt -> TaskEnvelope.engine task <> Engine.HTTP.
Proof. unfold check. case_bool_decide as Hin; [| done]. intros _ Heq. rewrite Heq, !elem_of_cons, elem_of_nil in Hin. naive_solver. Qed.

Lemma run_agent_good fs k : TaskEnvelope.engine task <> Engine.HTTP -> good fs ->
  good (run_agent self ids clk beats mono os_environ package_root temporary http event_sink task artifact_root (fs, k)).2.1.
Proof.
  intros He G. unfold run_agent. match goal with |- context [Agent.run ?a ids clk beats mono ?c ?s0] =>
    pose proof (agent_good ids clk beats mono parent event_sink artifact_root Hsink a c s0 eq_refl) as Hag;
    destruct (Agent.run a ids clk beats mono c s0) as [r s'] eqn:E end.
  cbn [snd fst] in *. apply Hag; [| exact G]. intros sink Hs. cbn [RunnerAgent.adapters RunnerAgent.task RunnerAgent.workspace].
  unfold adapters. destruct (TaskEnvelope.engine task); [done | |]; cbn [adapter_run_streaming SubprocessAdapter.adapter];
    by apply script_good.
Qed.

(** The directory of the artifacts, made and removed. *)
Lemma spool_made fs r fs1 : tree_ok fs -> settled fs (artifact_spool_root self) -> makedirs (artifact_spool_root self) fs = (r, fs1) ->
  tree_ok fs1 /\ (forall p, dir_at fs p -> dir_at fs1 p)
  /\ (forall q, is_relative_to q artifact_root = true -> fs1 !! q = fs !! q)
  /\ (r = Ok tt -> dir_at fs1 (artifact_spool_root self)).
Proof.
  intros T Hset E. destruct (makedirs_spec fs _ _ r fs1 T (proj1 Hset) (resolve_settled _ _ Hset) E) as [D Hr].
  split_and!.
  - apply D.
  - intros p. by apply dirs_added_dir with (artifact_spool_root self).
  - intros q [y ->]%is_relative_to_spec. destruct (da_nodes _ _ _ D (artifact_root ++ y)) as [?|(_ & _ & x & Ex)]; [done | exfalso].
    apply (f_equal length) in Ex. rewrite !length_app in Ex. cbn in Ex. lia.
  - by intros ->.
Qed.

End clean.
