(* ===== verification/HttpAdapter.v ===== *)
(** * The HTTP adapter ([src/runner/adapters/http.py])

    [HTTPAdapter.run] sends the steps of a task in order, each rendered with the values
    extracted so far, checks and extracts from the responses, and decides the outcome.
    The session with its resolver and clock, whose state each call can change, and regular
    expressions are arguments. *)
From stdpp Require Import gmap strings pretty.
From S2P Require Import Prelude PyDict PyText Protocol Domain Graph Templates Flow Codecs Urls Files Json SecretFiles SourceStore HostSources SourceImport DockerExecutor Artifacts Agent SubprocessAdapter.
Open Scope string_scope.
Open Scope list_scope.

(** ** The session *)

Module Response.
Record t := mk {
  status_code : Z; header : string -> option string; cookie : string -> option string;
  json : res pyval; text : string }.
End Response.

(** [timeout] is in microseconds; redirects are never followed. *)
Module Request.
Record t := mk {
  method : list N; url : string; headers : list (string * pyval); params : option pyval;
  json : option pyval; data : option pyval; timeout : Z; allow_redirects : bool }.
End Request.

(** The world of the adapter: [self._resolver], whose answer can differ at each call,
    [datetime.now(UTC)], [requests.Session.request], which finds the host of the URL by
    itself, and the classes of its exceptions. *)
Class Session (W : Type) := {
  resolver : string -> M W (list string);
  utcnow : M W datetime;
  session_request : Request.t -> M W Response.t;
  is_Timeout : exn -> bool; is_RequestException : exn -> bool }.
(** [re.search]: [match.group(0)], and [match.group(1)] if there is a group. *)
Class Regex := re_search : string -> string -> res (option (string * option (option string))).
Definition re_error : exn := OtherException "re.error".

(** ** [str(value)] *)

(** The characters [repr] escapes. *)
Definition repr_char (q : N) (c : Ascii.ascii) : string :=
  let n := code c in
  if (n =? 92)%N || (n =? q)%N then (chr 92 ++ String c EmptyString)%string
  else if (n =? 10)%N then (chr 92 ++ "n")%string
  else if (n =? 13)%N then (chr 92 ++ "r")%string
  else if (n =? 9)%N then (chr 92 ++ "t")%string
  else if (n <? 32)%N || ((127 <=? n)%N && (n <=? 160)%N) || (n =? 173)%N then (chr 92 ++ "x" ++ hex 2 n)%string
  else String c EmptyString.
Definition repr_str (s : string) : string :=
  let q := if has_char (Ascii.ascii_of_N 39) s && negb (has_char (Ascii.ascii_of_N 34) s) then 34%N else 39%N in
  (chr q ++ join EmptyString (map (repr_char q) (String.list_ascii_of_string s)) ++ chr q)%string.

(** The values JSON carries and tuples; other objects are not representable. *)
Fixpoint py_repr `{PyFloat} (v : pyval) : res string :=
  match v with
  | PNone => Ok "None"
  | PBool b => Ok (if b then "True" else "False")
  | PInt z => Ok (pretty z)
  | PFloat m e => Ok (float_repr m e)
  | PStr s => Ok (repr_str s)
  | PList l =>
      let? ts := (fix many (l : list pyval) : res (list string) :=
        match l with [] => Ok [] | x :: r => let? t := py_repr x in let? ts := many r in Ok (t :: ts) end) l in
      Ok ("[" ++ join ", " ts ++ "]")%string
  | PTuple l =>
      let? ts := (fix many (l : list pyval) : res (list string) :=
        match l with [] => Ok [] | x :: r => let? t := py_repr x in let? ts := many r in Ok (t :: ts) end) l in
      Ok ("(" ++ join ", " ts ++ (if (length ts =? 1)%nat then "," else EmptyString) ++ ")")%string
  | PDict kvs =>
      let? ts := (fix many (l : list (string * pyval)) : res (list string) :=
        match l with
        | [] => Ok []
        | (k, x) :: r => let? t := py_repr x in let? ts := many r in Ok ((repr_str k ++ ": " ++ t)%string :: ts)
        end) kvs in
      Ok ("{" ++ join ", " ts ++ "}")%string
  | _ => unmodelled
  end.
Definition py_str `{PyFloat} (v : pyval) : res string := match v with PStr s => Ok s | _ => py_repr v end.

(** ** Templates *)

(** A match of [TEMPLATE_PATTERN] at the start of a text: the name and the rest. *)
Definition placeholder_at (s : string) : option (string * string) :=
  match drop_prefix "${" s with
  | None => None
  | Some body =>
      let '(name, rest) := span is_name_char body in
      if ENVIRONMENT_NAME_PATTERN name then
        match drop_prefix "}" rest with Some after => Some (name, after) | None => None end
      else None
  end.
Definition whole_placeholder (s : string) : option string :=
  match placeholder_at s with Some (name, EmptyString) => Some name | _ => None end.

(** [context[name]], which must not be empty. *)
Definition context_value (name : string) (context : list (string * pyval)) : res pyval :=
  match kv_get name context with
  | None => Err KeyError
  | Some PNone => Err (ValueError "template value is empty")
  | Some v => Ok v
  end.

Section substitute.
  Context `{PyFloat}.

(** [TEMPLATE_PATTERN.sub(replace, value)]. *)
Fixpoint replace_all (fuel : nat) (context : list (string * pyval)) (s : string) : res string :=
  match fuel with
  | O => Ok s
  | S fuel =>
      match placeholder_at s with
      | Some (name, after) =>
          let? resolved := context_value name context in
          let? text := py_str resolved in
          let? rest := replace_all fuel context after in
          Ok (text ++ rest)%string
      | None =>
          match s with
          | EmptyString => Ok EmptyString
          | String c r => let? rest := replace_all fuel context r in Ok (String c rest)
          end
      end
  end.
Definition substitute_text (context : list (string * pyval)) (s : string) : res pyval :=
  match whole_placeholder s with
  | Some name => context_value name context
  | None => let? t := replace_all (S (String.length s)) context s in Ok (PStr t)
  end.

Fixpoint _substitute (context : list (string * pyval)) (value : pyval) : res pyval :=
  match value with
  | PDict kvs | PFrozenMapping kvs =>
      let? kvs' := (fix go (kvs : list (string * pyval)) : res (list (string * pyval)) :=
        match kvs with
        | [] => Ok []
        | (k, x) :: r => let? y := _substitute context x in let? ys := go r in Ok ((k, y) :: ys)
        end) kvs in
      Ok (PDict kvs')
  | PList l | PTuple l =>
      let? l' := (fix go (l : list pyval) : res (list pyval) :=
        match l with
        | [] => Ok []
        | x :: r => let? y := _substitute context x in let? ys := go r in Ok (y :: ys)
        end) l in
      Ok (PList l')
  | PStr s => substitute_text context s
  | _ => Ok value
  end.
End substitute.

(** ** Values of a response *)

Definition index_of (current : pyval) (index : N) : res pyval :=
  let nth (l : list pyval) := match l !! N.to_nat index with Some x => Ok x | None => Err IndexError end in
  match current with
  | PList l | PTuple l => nth l
  | PStr s => nth (map (fun c => PStr (String c EmptyString)) (String.list_ascii_of_string s))
  | PDict _ | PFrozenMapping _ => Err KeyError
  | _ => Err TypeError
  end.

(** One token of the path. *)
Definition json_step (current : pyval) (token : string) : res pyval :=
  match path_token token, as_mapping current with
  | Some (field, index), Some kvs =>
      match kv_get field kvs, index with
      | None, _ => Err KeyError
      | Some v, None => Ok v
      | Some v, Some digits => index_of v (decimal 0 digits)
      end
  | _, _ => Err (ValueError "invalid JSON path")
  end.
Definition _json_path (value : pyval) (path : string) : res pyval :=
  if bool_decide (path = "$") then Ok value
  else match drop_prefix "$." path with
       | None => Err (ValueError "only simple JSON paths are supported")
       | Some rest => rfold json_step value (split_on (Ascii.ascii_of_N 46) rest)
       end.

(** The sources of both kinds of rules. *)
Inductive source := status_code | response_time_ms | header | cookie | json_path | regex | body.
Definition text_of_option (o : option string) : pyval := match o with Some s => PStr s | None => PNone end.
(** [str(expression)]. *)
Definition expression_text (expression : option string) : string := default "None" expression.
Definition MAX_BODY : nat := 65536.

Definition _source_value `{Regex} (response : Response.t) (elapsed_ms : Z) (source : source) (expression : option string)
    : res pyval :=
  let body_text := String.substring 0 MAX_BODY (Response.text response) in
  match source with
  | status_code => Ok (PInt (Response.status_code response))
  | response_time_ms => Ok (PInt elapsed_ms)
  | header => Ok (text_of_option (Response.header response (expression_text expression)))
  | cookie => Ok (text_of_option (Response.cookie response (expression_text expression)))
  | json_path => let? value := Response.json response in _json_path value (expression_text expression)
  | regex =>
      let? found := re_search (expression_text expression) body_text in
      match found with
      | None => Err (ValueError "regex did not match")
      | Some (_, Some group1) => Ok (text_of_option group1)
      | Some (group0, None) => Ok (PStr group0)
      end
  | body => Ok (PStr body_text)
  end.

Definition ordered (actual expected : pyval) (test : comparison -> bool) : res bool :=
  match py_compare actual expected with Some c => Ok (test c) | None => Err TypeError end.
Definition compare `{PyFloat} `{Regex} (actual expected : pyval) (operator : AssertionRule.Operator) : res bool :=
  match operator with
  | AssertionRule.eq => Ok (py_eqb actual expected)
  | AssertionRule.ne => Ok (negb (py_eqb actual expected))
  | AssertionRule.gt => ordered actual expected (fun c => match c with Gt => true | _ => false end)
  | AssertionRule.gte => ordered actual expected (fun c => match c with Lt => false | _ => true end)
  | AssertionRule.lt => ordered actual expected (fun c => match c with Lt => true | _ => false end)
  | AssertionRule.lte => ordered actual expected (fun c => match c with Gt => false | _ => true end)
  | AssertionRule.contains => match py_contains actual expected with Some b => Ok b | None => Err TypeError end
  | AssertionRule.matches =>
      let? pattern := py_str expected in
      let? text := py_str actual in
      let? found := re_search pattern (String.substring 0 MAX_BODY text) in
      Ok (match found with Some _ => true | None => false end)
  end.

(** The exceptions both kinds of rules expect. *)
Definition rule_error (e : exn) : bool :=
  bool_decide (e = KeyError) || bool_decide (e = TypeError) || is_ValueError e || bool_decide (e = re_error).

Definition assertion_source (s : AssertionRule.Source) : source :=
  match s with
  | AssertionRule.status_code => status_code | AssertionRule.header => header
  | AssertionRule.json_path => json_path | AssertionRule.body => body
  | AssertionRule.response_time_ms => response_time_ms
  end.
Definition assertion_source_text (s : AssertionRule.Source) : string :=
  match s with
  | AssertionRule.status_code => "status_code" | AssertionRule.header => "header"
  | AssertionRule.json_path => "json_path" | AssertionRule.body => "body"
  | AssertionRule.response_time_ms => "response_time_ms"
  end.
Definition operator_text (o : AssertionRule.Operator) : string :=
  match o with
  | AssertionRule.eq => "eq" | AssertionRule.ne => "ne" | AssertionRule.gt => "gt" | AssertionRule.gte => "gte"
  | AssertionRule.lt => "lt" | AssertionRule.lte => "lte" | AssertionRule.contains => "contains"
  | AssertionRule.matches => "matches"
  end.
Definition extraction_source (s : ExtractionRule.Source) : source :=
  match s with
  | ExtractionRule.header => header | ExtractionRule.json_path => json_path
  | ExtractionRule.regex => regex | ExtractionRule.cookie => cookie
  end.

(** ** Destinations *)

Section destination.
  Context `{Ipaddress} {W : Type} `{Session W}.

(** [ip_address(text)]. *)
Definition ip_address (s : string) : res string :=
  match ip_version s with Some _ => Ok s | None => Err (ValueError "does not appear to be an IPv4 or IPv6 address") end.
Definition _is_unsafe (address : string) : bool := negb (ip_is_global address).

Definition addresses_of (hostname : string) : M W (list string) :=
  match ip_address hostname with
  | Ok a => ret [a]
  | Err _ => let* found := resolver hostname in lift (rmap ip_address found)
  end.

Definition _validate_url (url : string) : M W unit :=
  let* parsed := lift (urlsplit url) in
  if negb (bool_decide (lower (SplitResult.scheme parsed) ∈ ["http"; "https"])) then raise (ValueError "unsupported URL scheme")
  else
    match Split.hostname parsed with
    | None => raise (ValueError "URL must include a hostname")
    | Some hostname =>
        if negb (bool_decide (Split.username parsed = None)) || negb (bool_decide (Split.password parsed = None))
        then raise (ValueError "URL userinfo is forbidden")
        else
          let* _ := lift (Split.port parsed) in
          let* addresses := addresses_of hostname in
          if nilb addresses || existsb _is_unsafe addresses
          then raise (ValueError "URL resolves to a non-public address") else ret tt
    end.
End destination.

(** [isinstance(value, Collection)] and its elements. *)
Definition elements_of (value : pyval) : list pyval :=
  match value with
  | PList l | PTuple l | PSet l | PFrozenset l => l
  | PDict kvs | PFrozenMapping kvs => map (fun kv => PStr kv.1) kvs
  | PBytearray l => map (fun n => PInt (Z.of_N n)) l
  | v => [v]
  end.
Definition _expected_codes (value : pyval) : res (list Z) :=
  let? codes := rmap Flow.py_int (elements_of value) in
  let codes := remove_dups codes in
  if nilb codes || existsb (fun code => (code <? 100) || (599 <? code))%Z codes
  then Err (ValueError "expected_status must contain HTTP status codes") else Ok codes.

(** ** A step *)

Section steps.
  Context `{PyFloat} `{FloatText} `{Ipaddress} `{Regex}.
  Context {W : Type} `{Session W}.
  (** The time a request took, by the number of the step. *)
  Context (elapsed : nat -> Z).

(** What [_execute] does before it sends. *)
Definition prepare_request (task : TaskEnvelope.t) (request_spec : pyval) (context : list (string * pyval))
    : M W (Request.t * list Z) :=
  match as_mapping request_spec with
  | None => raise (ValueError "request must be a mapping")
  | Some _ =>
      let* rendered := lift (_substitute context request_spec) in
      let request := default [] (as_mapping rendered) in
      let* method := lift (py_str (default (PStr "GET") (kv_get "method" request))) in
      let* url := lift (match kv_get "url" request with Some v => py_str v | None => Err KeyError end) in
      _validate_url url ;;;
      match as_mapping (default (PDict []) (kv_get "headers" request)) with
      | None => raise (ValueError "headers must be a mapping")
      | Some headers =>
          let* timeout := lift (seconds (default (PInt 30) (kv_get "timeout" request))) in
          if (timeout <=? 0)%Z then raise (ValueError "timeout must be positive")
          else
            let* now := utcnow in
            let* remaining := lift (deadline_remaining now task) in
            let* expected_codes := lift (_expected_codes (default (PInt 200) (kv_get "expected_status" request))) in
            ret (Request.mk (upper method) url headers (kv_get "params" request) (kv_get "json" request)
                   (kv_get "data" request) (Z.min timeout remaining) false, expected_codes)
      end
  end.

(** One entry of the [assertions] of the details. *)
Definition checked_entry (source operator : string) (passed : bool) : list (string * pyval) :=
  [("source", PStr source); ("operator", PStr operator); ("passed", PBool passed)].
Definition passed_of (entry : list (string * pyval)) : bool :=
  match kv_get "passed" entry with Some (PBool b) => b | _ => false end.

Definition _assert (response : Response.t) (elapsed_ms : Z) (rule : AssertionRule.t) : res (list (string * pyval)) :=
  let entry := checked_entry (assertion_source_text (AssertionRule.source rule)) (operator_text (AssertionRule.operator rule)) in
  match (let? actual := _source_value response elapsed_ms (assertion_source (AssertionRule.source rule)) (AssertionRule.expression rule) in
         compare actual (AssertionRule.expected rule) (AssertionRule.operator rule)) with
  | Ok passed => Ok (entry passed)
  | Err e => if rule_error e then Ok (entry false) else Err e
  end.

(** [None] for a value that is not there and not required. *)
Definition _extract (response : Response.t) (rule : ExtractionRule.t) : res (option pyval) :=
  match _source_value response 0 (extraction_source (ExtractionRule.source rule)) (Some (ExtractionRule.expression rule)) with
  | Err e => if rule_error e && negb (ExtractionRule.required rule) then Ok None else Err e
  | Ok PNone => if ExtractionRule.required rule then Err (ValueError "required extraction is empty") else Ok None
  | Ok value => Ok (Some value)
  end.
Fixpoint extract_all (response : Response.t) (rules : list ExtractionRule.t) (extracted : list (string * pyval))
    : res (list (string * pyval)) :=
  match rules with
  | [] => Ok extracted
  | rule :: rest =>
      let? value := _extract response rule in
      extract_all response rest
        match value with Some v => kv_set (ExtractionRule.name rule) v extracted | None => extracted end
  end.

Definition _deadline_exceeded : AdapterResult.t :=
  AdapterResult.plain ResultOutcome.TIMED_OUT "Task deadline has passed" [("timed_out", PBool true)] true.

(** The result, what was extracted and what was checked. *)
Definition step_result : Type := AdapterResult.t * list (string * pyval) * list (list (string * pyval)).

(** The exceptions of an invalid step. *)
Definition invalid_step (e : exn) : bool :=
  bool_decide (e = KeyError) || is_OSError e || bool_decide (e = TypeError) || is_ValueError e.

(** What a response means. *)
Definition judge (response : Response.t) (elapsed_ms : Z) (expected_codes : list Z)
    (assertions : list AssertionRule.t) (extractions : list ExtractionRule.t) (name : string) : res step_result :=
  let status := checked_entry "status_code" "in" (bool_decide (Response.status_code response ∈ expected_codes)) in
  let? entries := rmap (_assert response elapsed_ms) assertions in
  let checked := status :: entries in
  let passed := forallb passed_of checked in
  match extract_all response extractions [] with
  | Err e =>
      if rule_error e then
        Ok (AdapterResult.plain ResultOutcome.FAILED ("Required extraction failed in HTTP step " ++ name)%string
              [("status_code", PInt (Response.status_code response))] false, [], checked)
      else Err e
  | Ok extracted =>
      Ok (AdapterResult.plain (if passed then ResultOutcome.SUCCEEDED else ResultOutcome.FAILED)
            (if passed then "HTTP assertions passed" else "HTTP assertion failed")
            [("status_code", PInt (Response.status_code response));
             ("expected_status", PList (map PInt (py_sorted Z.leb expected_codes)))] false, extracted, checked)
  end.

(** [i] is the number of the step. *)
Definition _execute (i : nat) (task : TaskEnvelope.t) (request_spec : pyval) (assertions : list AssertionRule.t)
    (extractions : list ExtractionRule.t) (context : list (string * pyval)) (name phase : string) : M W step_result := fun w =>
  match prepare_request task request_spec context w with
  | (Err TimeoutError, w) => (Ok (_deadline_exceeded, [], []), w)
  | (Err e, w) =>
      if invalid_step e
      then (Ok (AdapterResult.plain ResultOutcome.FAILED ("Invalid HTTP " ++ phase ++ " step")%string [] false, [], []), w)
      else (Err e, w)
  | (Ok (request, expected_codes), w) =>
      match session_request request w with
      | (Err e, w) =>
          if is_Timeout e then
            (Ok (AdapterResult.plain ResultOutcome.TIMED_OUT ("HTTP step " ++ name ++ " timed out")%string
                   [("timed_out", PBool true)] true, [], []), w)
          else if is_RequestException e then
            (Ok (AdapterResult.plain ResultOutcome.INFRA_ERROR ("HTTP step " ++ name ++ " failed")%string
                   [("error_type", PStr (exn_name e))] false, [], []), w)
          else (Err e, w)
      | (Ok response, w) =>
          (judge response (Z.max 0 (elapsed i)) expected_codes assertions extractions name, w)
      end
  end.
End steps.

(** ** A task *)

Module HTTPAdapter.
(** What [run] has gathered. *)
Record progress := mk {
  context : list (string * pyval); summaries : list pyval; assertions : list pyval; extraction_names : list pyval;
  primary : option AdapterResult.t; count : nat }.

Definition _step_summary (name phase : string) (result : AdapterResult.t) : pyval :=
  PDict [("name", PStr name); ("phase", PStr phase); ("outcome", PStr (ResultOutcome.value (AdapterResult.outcome result)))].

Definition succeeded (result : AdapterResult.t) : bool :=
  bool_decide (AdapterResult.outcome result = ResultOutcome.SUCCEEDED).

(** After a step. *)
Definition gather (p : progress) (name phase : string) (r : step_result) : progress :=
  let '(result, extracted, checked) := r in
  mk (kv_merge (context p) extracted) (summaries p ++ [_step_summary name phase result])
     (assertions p ++ map PDict checked) (extraction_names p ++ map (fun kv => PStr kv.1) extracted)
     (primary p) (S (count p)).
Definition with_primary (r : option AdapterResult.t) (p : progress) : progress :=
  mk (context p) (summaries p) (assertions p) (extraction_names p) r (count p).

Section run.
  Context `{PyFloat} `{FloatText} `{Ipaddress} `{Regex}.
  Context {W : Type} `{Session W} (elapsed : nat -> Z).

Definition run_step (task : TaskEnvelope.t) (phase : string) (step : HttpStep.t) (p : progress)
    : M W (progress * AdapterResult.t) :=
  let* r := _execute elapsed (count p) task (PDict (HttpStep.request step)) (HttpStep.assertions step)
              (HttpStep.extractions step) (context p) (HttpStep.name step) phase in
  ret (gather p (HttpStep.name step) phase r, r.1.1).

(** The first required step that fails ends the loop. *)
Fixpoint before_steps (task : TaskEnvelope.t) (steps : list HttpStep.t) (p : progress) : M W progress :=
  match steps with
  | [] => ret p
  | step :: rest =>
      let* ' (p, result) := run_step task "before" step p in
      if negb (succeeded result) && HttpStep.required step then ret (with_primary (Some result) p)
      else before_steps task rest p
  end.

Definition main_step (task : TaskEnvelope.t) (p : progress) : M W progress :=
  match primary p with
  | Some _ => ret p
  | None =>
      let* r := _execute elapsed (count p) task (default PNone (kv_get "request" (TaskEnvelope.parameters task)))
                  (ExecutionPolicy.assertions (TaskEnvelope.execution_policy task))
                  (ExecutionPolicy.extractions (TaskEnvelope.execution_policy task)) (context p) "request" "main" in
      ret (with_primary (Some r.1.1) (gather p "request" "main" r))
  end.

(** Every step runs; the first required one that fails counts, if nothing failed before. *)
Fixpoint after_steps (task : TaskEnvelope.t) (steps : list HttpStep.t) (p : progress) : M W progress :=
  match steps with
  | [] => ret p
  | step :: rest =>
      let* ' (p, result) := run_step task "after" step p in
      let p := if negb (succeeded result) && HttpStep.required step
                  && match primary p with Some r => succeeded r | None => false end
               then with_primary (Some result) p else p in
      after_steps task rest p
  end.

Definition start (task : TaskEnvelope.t) : progress :=
  mk (filter (fun kv => kv.1 <> "request") (TaskEnvelope.parameters task)) [] [] [] None 0.

Definition finish (p : progress) (primary : AdapterResult.t) : AdapterResult.t :=
  AdapterResult.plain (AdapterResult.outcome primary) (AdapterResult.message primary)
    (kv_merge (AdapterResult.details primary)
       [("steps", PList (summaries p)); ("assertions", PList (assertions p)); ("extractions", PList (extraction_names p))])
    (AdapterResult.timed_out primary).

Definition run (task : TaskEnvelope.t) : M W AdapterResult.t :=
  let* now := utcnow in
  match deadline_remaining now task with
  | Err _ => ret _deadline_exceeded
  | Ok _ =>
      let* p := before_steps task (ExecutionPolicy.before_steps (TaskEnvelope.execution_policy task)) (start task) in
      let* p := main_step task p in
      let* p := after_steps task (ExecutionPolicy.after_steps (TaskEnvelope.execution_policy task)) p in
      ret (finish p (default _deadline_exceeded (primary p)))
  end.
End run.

(** As an adapter of the agent: the session is part of what the sink works on. *)
Definition adapter `{PyFloat} `{FloatText} `{Ipaddress} `{Regex} {W} `{Session W} (elapsed : nat -> Z)
    : Adapter W :=
  mkAdapter
    (fun task _ s => let '(r, w) := run elapsed task (Agent.sink s) in
       (r, Agent.mk (Agent.files s) w (Agent._seq s) (Agent._heartbeat_stop s) (Agent._heartbeat_error s)
             (Agent.calls s) (Agent.emissions s) (Agent.accepted s)))
    None.
End HTTPAdapter.
