(* ===== verification/HttpTheorems.v ===== *)
(** * Properties of the HTTP adapter

    No request leaves before its host was checked and the clock read; the outcome is that of
    the first required step that failed; and an adapter that conforms to the agent. *)
From stdpp Require Import gmap strings pretty.
From S2P Require Import Prelude PyDict PyText TextFacts Protocol Domain Graph Templates Flow Codecs Urls Files Json SecretFiles SourceStore JsonFacts HostSources SourceImport DockerExecutor Artifacts Agent AgentTheorems SubprocessAdapter HttpAdapter.
Open Scope string_scope.
Open Scope list_scope.

(** ** Requests *)

(** What the world of the adapter was asked and answered. *)
Inductive act := Resolved (host : string) (found : list string) | ReadClock (now : datetime) | Sent (request : Request.t).
(** A world that takes notes. *)
#[export] Instance recording {W} (inner : Session W) : Session (list act * W) := {
  resolver := fun host s =>
    let '(r, w) := resolver host s.2 in
    (r, (s.1 ++ match r with Ok found => [Resolved host found] | Err _ => [] end, w));
  utcnow := fun s =>
    let '(r, w) := utcnow s.2 in (r, (s.1 ++ match r with Ok now => [ReadClock now] | Err _ => [] end, w));
  session_request := fun request s =>
    let '(r, w) := session_request request s.2 in (r, (s.1 ++ [Sent request], w));
  is_Timeout := is_Timeout (Session := inner); is_RequestException := is_RequestException (Session := inner) }.

Section http.
  Context `{PyFloat} `{FloatText} `{Ipaddress} `{Regex}.
  Context {W : Type} (inner : Session W) (elapsed : nat -> Z).
  Import HTTPAdapter.
  Notation world := (list act * W)%type.

(** An address of the internet. *)
Definition public (address : string) : Prop := ip_version address <> None /\ ip_is_global address = true.

(** The notes [l] end with what clears [request] of [task]: its host is a public address, or
    resolved to such addresses alone; then the clock was read. *)
Definition cleared (task : TaskEnvelope.t) (request : Request.t) (l : list act) : Prop :=
  exists parsed host now before,
    urlsplit (Request.url request) = Ok parsed /\ lower (SplitResult.scheme parsed) ∈ ["http"; "https"]
    /\ Split.hostname parsed = Some host /\ Split.username parsed = None /\ Split.password parsed = None
    /\ (exists port, Split.port parsed = Ok port)
    /\ Request.allow_redirects request = false
    /\ (0 < Request.timeout request <= TaskEnvelope.deadline task - now)%Z
    /\ ((public host /\ l = before ++ [ReadClock now])
        \/ (ip_version host = None /\ exists found, l = before ++ [Resolved host found; ReadClock now]
            /\ found <> [] /\ Forall public found)).
(** Every request in the notes was cleared right before it was sent. *)
Definition guarded (task : TaskEnvelope.t) (l : list act) : Prop :=
  forall before request after, l = before ++ Sent request :: after -> cleared task request before.

(** What a call notes. *)
Definition notes (P : list act -> Prop) (a b : world) : Prop := exists l, b.1 = a.1 ++ l /\ P l.
Definition unsent (l : list act) : Prop := forall request, Sent request ∉ l.
#[local] Instance notes_unsent_preorder : PreOrder (notes unsent).
Proof.
  split; [intros a; exists []; rewrite app_nil_r; split; [done |]; by intros r ?%elem_of_nil |].
  intros a b c (l & E & Hl) (m & F & Hm). exists (l ++ m). rewrite F, E, app_assoc. split; [done |].
  intros r [|]%elem_of_app; [by eapply Hl | by eapply Hm].
Qed.

Lemma cleared_later task request l m : cleared task request m -> cleared task request (l ++ m).
Proof.
  intros (parsed & host & now & before & Hu & Hs & Hh & Hn & Hp & Hport & Hr & Ht & Hl).
  exists parsed, host, now, (l ++ before). repeat (split; [assumption |]).
  destruct Hl as [[Hg ->]|(Hv & found & -> & Hf)]; [left | right]; (split; [done |]); [by rewrite app_assoc |].
  exists found. by rewrite app_assoc.
Qed.
#[local] Instance notes_guarded_preorder task : PreOrder (notes (guarded task)).
Proof.
  split; [intros a; exists []; rewrite app_nil_r; split; [done |]; by intros [] ? ? ? |].
  intros a b c (l & E & Hl) (m & F & Hm). exists (l ++ m). rewrite F, E, app_assoc. split; [done |].
  intros before request after Es. apply app_eq_app in Es as (k & [[-> Ek]|[-> Ek]]).
  - destruct k as [|x k]; [| injection Ek as <- ->; by eapply Hl].
    rewrite <- (app_nil_r before). apply cleared_later. by eapply (Hm [] request after).
  - apply cleared_later. by eapply Hm.
Qed.

Lemma unsent_guarded task a b : notes unsent a b -> notes (guarded task) a b.
Proof.
  intros (l & E & Hl). exists l. split; [done |]. intros before request after ->. destruct (Hl request).
  apply elem_of_app. right. by left.
Qed.

Lemma ip_address_Ok s a : ip_address s = Ok a -> a = s /\ ip_version s <> None.
Proof. unfold ip_address. destruct (ip_version s); [| done]. by intros [= <-]. Qed.
Lemma ip_addresses_Ok l a : rmap ip_address l = Ok a -> a = l /\ forall x, x ∈ l -> ip_version x <> None.
Proof.
  revert a. induction l as [|x l IH]; intros a; cbn [rmap].
  - intros [= <-]. split; [done |]. intros x Hx. by apply not_elem_of_nil in Hx.
  - destruct (ip_address x) as [y|] eqn:E; [| done]. apply ip_address_Ok in E as [-> Hx]. cbn [rbind].
    destruct (rmap ip_address l) as [ys|]; [| done]. destruct (IH ys) as [-> Hl]; [done |]. intros [= <-].
    split; [done |]. intros z [->|Hz]%elem_of_cons; auto.
Qed.

(** *** The calls of the world *)

Lemma resolver_unsent host : steps (notes unsent) (resolver (W := world) host).
Proof.
  intros [log w]. cbn. destruct (resolver host w) as [[found|e] w']; eexists; (split; [reflexivity |]); intros r Hin; cbn in Hin.
  - by apply list_elem_of_singleton in Hin.
  - by apply elem_of_nil in Hin.
Qed.
Lemma utcnow_unsent : steps (notes unsent) (utcnow (W := world)).
Proof.
  intros [log w]. cbn. destruct (utcnow w) as [[now|e] w']; eexists; (split; [reflexivity |]); intros r Hin; cbn in Hin.
  - by apply list_elem_of_singleton in Hin.
  - by apply elem_of_nil in Hin.
Qed.
Hint Resolve resolver_unsent utcnow_unsent : steps.

Lemma prepare_unsent task request_spec context : steps (notes unsent) (prepare_request (W := world) task request_spec context).
Proof. unfold prepare_request, _validate_url, addresses_of. cbv zeta. by_steps. Qed.

(** *** What is cleared *)

Lemma lift_Ok {S A} (r : res A) (x : A) (s s' : S) : lift r s = (Ok x, s') -> r = Ok x /\ s' = s.
Proof. by intros [= -> ->]. Qed.

Lemma safe_addresses addresses : existsb _is_unsafe addresses = false -> Forall (fun a => ip_is_global a = true) addresses.
Proof.
  unfold _is_unsafe. intros Hu. apply Forall_forall. intros a Hin. destruct (ip_is_global a) eqn:E; [done |].
  apply not_true_iff_false in Hu. destruct Hu. apply existsb_exists. exists a. split; [by apply list_elem_of_In | by rewrite E].
Qed.

Lemma addresses_of_Ok host addresses (s s' : world) : addresses_of host s = (Ok addresses, s') ->
  (ip_version host <> None /\ addresses = [host] /\ s' = s)
  \/ (ip_version host = None /\ s'.1 = s.1 ++ [Resolved host addresses] /\ forall a, a ∈ addresses -> ip_version a <> None).
Proof.
  unfold addresses_of, ip_address at 1. destruct (ip_version host) eqn:Ev; [intros [= <- <-]; by left |].
  intros (found & s1 & Er & [Ha%ip_addresses_Ok ->]%lift_Ok)%bind_Ok. destruct Ha as [-> Hall]. right.
  cbn in Er. destruct (resolver host s.2) as [[x|] w]; [| done]. injection Er as -> <-. done.
Qed.

Lemma validate_url_Ok url (s s' : world) : _validate_url url s = (Ok tt, s') ->
  exists parsed host,
    urlsplit url = Ok parsed /\ lower (SplitResult.scheme parsed) ∈ ["http"; "https"]
    /\ Split.hostname parsed = Some host /\ Split.username parsed = None /\ Split.password parsed = None
    /\ (exists port, Split.port parsed = Ok port)
    /\ ((public host /\ s' = s)
        \/ (ip_version host = None /\ exists found, s'.1 = s.1 ++ [Resolved host found] /\ found <> [] /\ Forall public found)).
Proof.
  unfold _validate_url. intros (parsed & s1 & [Ep ->]%lift_Ok & E)%bind_Ok.
  destruct (bool_decide (lower _ ∈ _)) eqn:Es; [| done]. destruct (Split.hostname parsed) as [host|] eqn:Eh; [| done].
  destruct (bool_decide (Split.username parsed = None)) eqn:Eu; [| done].
  destruct (bool_decide (Split.password parsed = None)) eqn:Ew; [| done]. cbn [negb orb] in E.
  apply bind_Ok in E as (port & s1 & [Eport ->]%lift_Ok & (addresses & s2 & Ea%addresses_of_Ok & E)%bind_Ok).
  destruct (nilb addresses) eqn:En; [done |]. destruct (existsb _is_unsafe addresses) eqn:Eunsafe; [done |].
  injection E as <-. apply bool_decide_eq_true in Es, Eu, Ew. apply safe_addresses in Eunsafe.
  exists parsed, host. split_and!; try done; [by exists port |]. destruct Ea as [(Hv & -> & ->)|(Hv & Hlog & Hall)]; [left | right].
  - apply (proj1 (Forall_singleton _ _)) in Eunsafe. split; [split; [exact Hv | exact Eunsafe] | done].
  - split; [done |]. exists addresses. split_and!; [done | by destruct addresses |]. rewrite Forall_forall in Eunsafe |- *.
    intros a Ha. split; auto.
Qed.

Lemma prepare_clears task request_spec context request codes (s s' : world) :
  prepare_request task request_spec context s = (Ok (request, codes), s') -> exists l, s'.1 = s.1 ++ l /\ cleared task request l.
Proof.
  unfold prepare_request. destruct (as_mapping request_spec) as [spec|]; [| done].
  intros (rendered & s1 & [_ ->]%lift_Ok & E)%bind_Ok. cbv zeta in E. set (m := default [] (as_mapping rendered)) in E.
  apply bind_Ok in E as (method & s1 & [_ ->]%lift_Ok & (url & s2 & [_ ->]%lift_Ok & ([] & s3 & Hurl%validate_url_Ok & E)%bind_Ok)%bind_Ok).
  destruct (as_mapping (default (PDict []) (kv_get "headers" m))) as [headers|]; [| done].
  apply bind_Ok in E as (timeout & s4 & [_ ->]%lift_Ok & E). destruct (Z.leb_spec timeout 0); [done |].
  apply bind_Ok in E as (now & s5 & Enow & (remaining & s6 & [Er ->]%lift_Ok & (found & s7 & [_ ->]%lift_Ok & E)%bind_Ok)%bind_Ok).
  injection E as <- _ <-. revert Er. unfold deadline_remaining. destruct (Z.leb_spec (TaskEnvelope.deadline task - now) 0); [done |].
  intros [= <-]. assert (s5.1 = s3.1 ++ [ReadClock now]) as Hlog.
  { cbn in Enow. destruct (utcnow s3.2) as [[x|] w]; [| done]. by injection Enow as -> <-. }
  destruct Hurl as (parsed & host & Hsplit & Hs & Hh & Hn & Hw & Hport & Hd).
  assert (exists l, s5.1 = s.1 ++ l /\ ((public host /\ l = [ReadClock now])
    \/ (ip_version host = None /\ exists found, l = [Resolved host found; ReadClock now] /\ found <> [] /\ Forall public found)))
    as (l & El & Hl).
  { destruct Hd as [[Hp ->]|(Hv & addresses & E & Ha)]; [eexists; split; [exact Hlog | by left] |].
    exists [Resolved host addresses; ReadClock now]. rewrite Hlog, E, <- app_assoc. split; [done | right]. split; [done |]. by exists addresses. }
  exists l. split; [done |]. exists parsed, host, now, []. cbn [Request.url Request.allow_redirects Request.timeout].
  repeat (split; [assumption || reflexivity |]). split; [lia | exact Hl].
Qed.

Lemma execute_guarded i task spec assertions extractions context name phase :
  steps (notes (guarded task)) (_execute (W := world) elapsed i task spec assertions extractions context name phase).
Proof.
  intros s. unfold _execute. pose proof (prepare_unsent task spec context s) as Hu.
  destruct (prepare_request task spec context s) as [[[request codes]|e] s1] eqn:E; cbn [snd] in Hu.
  - apply prepare_clears in E as (l & El & Hc).
    assert (notes (guarded task) s (session_request request s1).2) as Hs.
    { cbn. destruct (session_request request s1.2) as [r w]. cbn [snd]. exists (l ++ [Sent request]). rewrite app_assoc, <- El. split; [done |].
      destruct Hu as (l' & El' & Hl'). assert (l' = l) as -> by (apply (app_inv_head s.1); congruence).
      intros before request' after Eq. apply app_eq_app in Eq as (k & [[-> Ek]|[-> Ek]]).
      - destruct k as [|x k]; [injection Ek as <- _; by rewrite app_nil_r in Hc |]. injection Ek as <- _.
        destruct (Hl' request'). apply elem_of_app. right. by left.
      - destruct k as [|x k]; injection Ek; [intros <- <-; by rewrite app_nil_r | intros ?; by destruct k]. }
    destruct (session_request request s1) as [[response|e] s2]; [exact Hs |]. by repeat case_match.
  - apply (unsent_guarded task) in Hu. destruct e; cbv zeta; repeat case_match; exact Hu.
Qed.

Lemma run_guarded task : steps (notes (guarded task)) (run (W := world) elapsed task).
Proof.
  assert (steps (notes (guarded task)) (utcnow (W := world))) as Hnow by (intros s; apply unsent_guarded, utcnow_unsent).
  assert (forall phase step p, steps (notes (guarded task)) (run_step (W := world) elapsed task phase step p)) as Hstep
    by (intros; unfold run_step; apply steps_bind; [typeclasses eauto | by apply execute_guarded | intros ?; by_steps]).
  assert (forall steps' p, steps (notes (guarded task)) (before_steps (W := world) elapsed task steps' p)) as Hbefore
    by (intros steps'; induction steps'; intros p; cbn [before_steps]; by_steps).
  assert (forall steps' p, steps (notes (guarded task)) (after_steps (W := world) elapsed task steps' p)) as Hafter
    by (intros steps'; induction steps'; intros p; cbn [after_steps]; cbv zeta; by_steps).
  assert (forall p, steps (notes (guarded task)) (main_step (W := world) elapsed task p)) as Hmain.
  { intros p. unfold main_step. destruct (primary p); [by_steps |].
    apply steps_bind; [typeclasses eauto | by apply execute_guarded | intros ?; by_steps]. }
  unfold run. by_steps.
Qed.

(** C24. Whatever the task asks for, the resolver finds, the clock shows and the servers
    answer: right before a request is sent its host was found to be public (a public address,
    or a name that the resolver answered with public addresses alone, at least one) and then
    the clock was read; the request has an http(s) URL without user information, follows no
    redirect and may take no longer than the task had left at that reading. The session
    resolves the name once more when it connects, and that answer is not checked
    ([rebinding_reaches_inside]). *)
Theorem http_requests_vetted task (w : W) before request after :
  (run (W := world) elapsed task ([], w)).2.1 = before ++ Sent request :: after ->
  cleared task request before.
Proof.
  intros E. destruct (run_guarded task ([], w)) as (l & El & Hl). rewrite El in E. by eapply Hl.
Qed.
End http.
(** The fuel of [replace_all] is enough: more changes nothing. *)
Lemma placeholder_shorter s name after : placeholder_at s = Some (name, after) -> (String.length after < String.length s)%nat.
Proof.
  unfold placeholder_at. destruct (drop_prefix "${" s) as [body|] eqn:E; [| done]. apply drop_prefix_length in E; [| done].
  destruct (span is_name_char body) as [n rest] eqn:Es. destruct (ENVIRONMENT_NAME_PATTERN n); [| done].
  destruct (drop_prefix "}" rest) as [a|] eqn:Ed; [| done]. apply drop_prefix_length in Ed; [| done]. intros [= -> ->].
  pose proof (span_length is_name_char body) as Hl. rewrite Es in Hl. cbn in Hl. lia.
Qed.
Lemma replace_all_fuel `{PyFloat} context n : forall m s, (String.length s < n)%nat -> (String.length s < m)%nat ->
  replace_all n context s = replace_all m context s.
Proof.
  induction n as [|n IH]; [lia |]. intros [|m] s Hn Hm; [lia |]. cbn [replace_all].
  destruct (placeholder_at s) as [[name after]|] eqn:E.
  - apply placeholder_shorter in E. by rewrite (IH m) by lia.
  - destruct s as [|c r]; [done |]. cbn in *. by rewrite (IH m) by lia.
Qed.

(** ** Outcomes *)

(** A step that was executed. *)
Record executed := mkExecuted { name_of_step : string; phase_of : string; is_required : bool; result_of_step : AdapterResult.t }.
Definition failure (x : executed) : bool :=
  is_required x && negb (bool_decide (AdapterResult.outcome (result_of_step x) = ResultOutcome.SUCCEEDED)).
Definition executes (phase : string) (steps : list HttpStep.t) (l : list executed) : Prop :=
  Forall2 (fun step x => name_of_step x = HttpStep.name step /\ is_required x = HttpStep.required step /\ phase_of x = phase) steps l.
(** The entry of [steps] in the details of the result. *)
Definition entry_of (x : executed) : pyval :=
  PDict [("name", PStr (name_of_step x)); ("phase", PStr (phase_of x));
         ("outcome", PStr (ResultOutcome.value (AdapterResult.outcome (result_of_step x))))].

Section outcomes.
  Context `{PyFloat} `{FloatText} `{Ipaddress} `{Regex}.
  Context {W : Type} `{Session W} (elapsed : nat -> Z).
  Import HTTPAdapter.

Lemma find_app_None {A} (f : A -> bool) l1 l2 : find f l1 = None -> find f (l1 ++ l2) = find f l2.
Proof. induction l1 as [|x l1 IH]; [done |]. cbn. destruct (f x); [done | exact IH]. Qed.
Lemma find_app_Some {A} (f : A -> bool) l1 l2 x : find f l1 = Some x -> find f (l1 ++ l2) = Some x.
Proof. induction l1 as [|y l1 IH]; [done |]. cbn. destruct (f y); [done | exact IH]. Qed.

(** What a step adds to the progress. *)
Lemma run_step_spec task phase step p w p' result w' :
  run_step elapsed task phase step p w = (Ok (p', result), w') ->
  primary p' = primary p
  /\ summaries p' = summaries p ++ [entry_of (mkExecuted (HttpStep.name step) phase (HttpStep.required step) result)].
Proof.
  unfold run_step, bind. destruct (_execute _ _ _ _ _ _ _ _ _ w) as [[[[r extracted] checked]|] w1]; [| done].
  by intros [= <- <- <-].
Qed.

Lemma before_steps_spec task steps : forall p w p' w',
  before_steps elapsed task steps p w = (Ok p', w') -> primary p = None ->
  exists ran, summaries p' = summaries p ++ map entry_of ran
    /\ ((executes "before" steps ran /\ find failure ran = None /\ primary p' = None)
        \/ (exists n, executes "before" (take n steps) ran)
           /\ exists init x, ran = init ++ [x] /\ find failure init = None /\ failure x = true
                /\ primary p' = Some (result_of_step x)).
Proof.
  induction steps as [|step steps IH]; intros p w p' w'; cbn [before_steps].
  { intros [= <- <-] Hp. exists []. rewrite app_nil_r. split; [done |]. left. by split_and!; [constructor | |]. }
  unfold bind. destruct (run_step _ task "before" step p w) as [[[p1 result]|] w1] eqn:E; [| done].
  apply run_step_spec in E as [E1 E2]. set (x := mkExecuted _ _ _ _) in E2.
  destruct (negb (succeeded result) && HttpStep.required step) eqn:Hf.
  - intros [= <- <-] Hp. exists [x]. split; [exact E2 |]. right. split; [exists 1%nat; by repeat constructor |].
    exists [], x. split_and!; [done | done | | done]. unfold failure, x. cbn. by rewrite andb_comm.
  - intros Hr Hp. destruct (IH _ _ _ _ Hr) as (ran & Es & Hran); [by rewrite E1 |].
    assert (failure x = false) as Hx by (unfold failure, x; cbn; by rewrite andb_comm).
    exists (x :: ran). split; [by rewrite Es, E2, <- app_assoc |]. destruct Hran as [(Hex & Hfind & Hn)|([n Hex] & init & y & -> & Hfind & Hy & Hp')].
    + left. split_and!; [by constructor | cbn; by rewrite Hx | done].
    + right. split; [exists (S n); by constructor |]. exists (x :: init), y. split_and!; [done | cbn; by rewrite Hx | done..].
Qed.

Lemma after_steps_spec task steps : forall p w p' w' r,
  after_steps elapsed task steps p w = (Ok p', w') -> primary p = Some r ->
  exists ran, summaries p' = summaries p ++ map entry_of ran /\ executes "after" steps ran
    /\ primary p' = Some (if succeeded r then match find failure ran with Some x => result_of_step x | None => r end else r).
Proof.
  induction steps as [|step steps IH]; intros p w p' w' r; cbn [after_steps].
  { intros [= <- <-] Hp. exists []. rewrite app_nil_r. split_and!; [done | constructor | cbn; by destruct (succeeded r)]. }
  unfold bind. destruct (run_step _ task "after" step p w) as [[[p1 result]|] w1] eqn:E; [| done].
  apply run_step_spec in E as [E1 E2]. set (x := mkExecuted _ _ _ _) in E2. cbv zeta. intros Hr Hp. rewrite E1, Hp in Hr.
  assert (failure x = negb (succeeded result) && HttpStep.required step) as Hx by (unfold failure, x; cbn; by rewrite andb_comm).
  destruct (negb (succeeded result) && HttpStep.required step) eqn:Hf; cbn [andb] in Hr; [destruct (succeeded r) eqn:Hsr |].
  - destruct (IH _ _ _ _ result Hr) as (ran & Es & Hex & Hpr); [done |]. exists (x :: ran).
    split_and!; [by rewrite Es; cbn [with_primary summaries]; rewrite E2, <- app_assoc | by constructor |].
    cbn [find]. rewrite Hx, Hpr. apply andb_true_iff in Hf as [Hf _]. by destruct (succeeded result).
  - destruct (IH _ _ _ _ r Hr) as (ran & Es & Hex & Hpr); [by rewrite E1 |]. exists (x :: ran).
    split_and!; [by rewrite Es, E2, <- app_assoc | by constructor | by rewrite Hpr, Hsr].
  - destruct (IH _ _ _ _ r Hr) as (ran & Es & Hex & Hpr); [by rewrite E1 |]. exists (x :: ran).
    split_and!; [by rewrite Es, E2, <- app_assoc | by constructor | cbn [find]; by rewrite Hx].
Qed.

Lemma main_step_spec task p w p' w' :
  main_step elapsed task p w = (Ok p', w') ->
  match primary p with
  | Some _ => p' = p
  | None => exists r, summaries p' = summaries p ++ map entry_of [mkExecuted "request" "main" true r] /\ primary p' = Some r
  end.
Proof.
  unfold main_step. destruct (primary p); [by intros [= <- <-] |]. unfold bind.
  destruct (_execute _ _ _ _ _ _ _ _ _ w) as [[[[r extracted] checked]|] w1]; [| done].
  intros [= <- <-]. by exists r.
Qed.

(** C25. A run that returns before the deadline executed a prefix of the before steps that ends
    at the first required one that failed, the request itself exactly if none did, and
    every after step, in this order; the details list them, and the result is that of the
    first required step that failed, or else the success of the request. *)
Theorem http_outcome_first_failure task w now w0 result w' :
  utcnow w = (Ok now, w0) -> (now < TaskEnvelope.deadline task)%Z ->
  run elapsed task w = (Ok result, w') ->
  exists before main after,
    let ran := before ++ main ++ after in
    let policy := TaskEnvelope.execution_policy task in
    executes "before" (take (length before) (ExecutionPolicy.before_steps policy)) before
    /\ match find failure before with
       | Some x => main = [] /\ exists init, before = init ++ [x] /\ find failure init = None
       | None => length before = length (ExecutionPolicy.before_steps policy)
                 /\ exists r, main = [mkExecuted "request" "main" true r]
       end
    /\ executes "after" (ExecutionPolicy.after_steps policy) after
    /\ kv_get "steps" (AdapterResult.details result) = Some (PList (map entry_of ran))
    /\ match find failure ran with
       | Some x => AdapterResult.outcome result = AdapterResult.outcome (result_of_step x)
                   /\ AdapterResult.message result = AdapterResult.message (result_of_step x)
       | None => AdapterResult.outcome result = ResultOutcome.SUCCEEDED
       end.
Proof.
  intros Enow Hnow. unfold run, bind. rewrite Enow. unfold deadline_remaining.
  destruct (Z.leb_spec (TaskEnvelope.deadline task - now) 0); [lia |].
  destruct (before_steps _ _ _ _ w0) as [[p1|] w1] eqn:E1; [| done].
  apply before_steps_spec in E1 as (before & Es1 & Hbefore); [| done]. cbn [start summaries app] in Es1.
  destruct (main_step _ task p1 w1) as [[p2|] w2] eqn:E2; [| done]. apply main_step_spec in E2.
  assert (exists main r, summaries p2 = summaries p1 ++ map entry_of main /\ primary p2 = Some r
    /\ match find failure before with
       | Some x => main = [] /\ r = result_of_step x
       | None => main = [mkExecuted "request" "main" true r]
       end) as (main & r & Es2 & Hr & Hmain).
  { destruct Hbefore as [(_ & -> & Hn)|(_ & init & x & -> & Hi & Hx & Hp)].
    - rewrite Hn in E2. destruct E2 as (r & ? & ?). by exists [mkExecuted "request" "main" true r], r.
    - rewrite Hp in E2. subst p2. exists [], (result_of_step x). rewrite app_nil_r, find_app_None by done. cbn [find].
      by rewrite Hx. }
  destruct (after_steps _ _ _ p2 w2) as [[p3|] w3] eqn:E3; [| done].
  eapply after_steps_spec in E3 as (after & Es3 & Hafter & Hp3); [| exact Hr].
  intros [= <- <-]. exists before, main, after. cbv zeta. rewrite Hp3. cbn [default].
  split_and!; [| | done | |].
  - destruct Hbefore as [(Hex & _)|([n Hex] & _)].
    + rewrite <- (Forall2_length _ _ _ Hex), take_ge by lia. done.
    + rewrite <- (Forall2_length _ _ _ Hex), length_take.
      destruct (Nat.min_spec n (length (ExecutionPolicy.before_steps (TaskEnvelope.execution_policy task)))) as [[? ->]|[? ->]];
        [done |]. by rewrite take_ge by lia; rewrite take_ge in Hex by lia.
  - destruct Hbefore as [(Hex & Hf & _)|(_ & init & x & -> & Hi & Hx & _)].
    + rewrite Hf in Hmain |- *. split; [by rewrite (Forall2_length _ _ _ Hex) | by exists r].
    + rewrite find_app_None in Hmain |- * by done. cbn [find] in Hmain |- *. rewrite Hx in Hmain |- *.
      destruct Hmain as [-> _]. split; [done |]. by exists init.
  - cbn [finish AdapterResult.plain AdapterResult.details]. rewrite kv_get_merge. cbn.
    by rewrite Es3, Es2, Es1, !map_app, <- app_assoc.
  - destruct (find failure before) as [x|] eqn:Hf.
    + destruct Hmain as [-> ->]. rewrite (find_app_Some _ _ _ _ Hf). apply find_some in Hf as [_ Hx].
      unfold failure in Hx. apply andb_true_iff in Hx as [_ Hx]. unfold succeeded. by destruct (bool_decide _).
    + rewrite Hmain, find_app_None by done. cbn [find app]. unfold failure at 1, succeeded. cbn [is_required result_of_step andb].
      destruct (bool_decide (AdapterResult.outcome r = _)) eqn:Ho; cbn [negb]; [| done].
      destruct (find failure after); [done |]. by apply bool_decide_eq_true in Ho.
Qed.
End outcomes.

(** ** JSON paths *)

Lemma json_step_select current token x :
  path_step current token = x -> match x with Err (ValueError _) => True | _ => json_step current token = x end.
Proof.
  unfold path_step, json_step. intros <-. destruct (path_token token) as [[field index]|]; [| done]. unfold select.
  destruct (as_mapping current) as [kvs|]; [| done]. destruct (kv_get field kvs) as [v|]; [| done].
  destruct index as [digits|]; [| done]. destruct v; try done. cbn [index_of]. by destruct (_ !! _).
Qed.

(** The paths of the runner are those of workflows: where [extract_json_path] finds a value
    or a key or an index that is not there, so does [_json_path]. *)
Theorem json_path_as_workflow value path :
  match extract_json_path value path with
  | Err (ValueError _) => True
  | found => _json_path value path = found
  end.
Proof.
  unfold extract_json_path, _json_path. destruct (bool_decide (path = "$")); [done |].
  destruct (drop_prefix "$." path) as [rest|]; [| done]. generalize (split_on (Ascii.ascii_of_N 46) rest). clear path rest.
  intros tokens. revert value. induction tokens as [|token tokens IH]; intros value; cbn [rfold]; [done |].
  pose proof (json_step_select value token _ eq_refl) as Hs. destruct (path_step value token) as [v|e]; cbn [rbind].
  - rewrite Hs. apply IH.
  - destruct e; try done; by rewrite Hs.
Qed.

Section escapes.
  Context `{PyFloat} `{FloatText} `{Ipaddress} `{Regex}.
  Context {W : Type} `{Session W} (elapsed : nat -> Z).
  Import HTTPAdapter.

(** C26. An assertion whose path indexes past the end of a list does not fail: when it is the
    first of a task without before steps, the exception leaves the run, with nothing sent
    after the response, so that no after step runs. *)
Theorem http_index_error_aborts task w now w0 w1 w' request codes response rule rest path value :
  utcnow w = (Ok now, w0) -> (now < TaskEnvelope.deadline task)%Z ->
  ExecutionPolicy.before_steps (TaskEnvelope.execution_policy task) = [] ->
  prepare_request task (default PNone (kv_get "request" (TaskEnvelope.parameters task))) (context (start task)) w0
    = (Ok (request, codes), w1) ->
  session_request request w1 = (Ok response, w') ->
  ExecutionPolicy.assertions (TaskEnvelope.execution_policy task) = rule :: rest ->
  AssertionRule.source rule = AssertionRule.json_path -> AssertionRule.expression rule = Some path ->
  Response.json response = Ok value -> extract_json_path value path = Err IndexError ->
  run elapsed task w = (Err IndexError, w').
Proof.
  intros Enow Hnow Hb Hp Hsent Ha Hsource He Hj Hpath.
  assert (forall elapsed_ms, _assert response elapsed_ms rule = Err IndexError) as Hassert.
  { intros elapsed_ms. unfold _assert, _source_value. rewrite Hsource, He. cbn [assertion_source]. rewrite Hj.
    cbn [rbind]. change (expression_text (Some path)) with path. pose proof (json_path_as_workflow value path) as Hw. rewrite Hpath in Hw. by rewrite Hw. }
  assert (main_step elapsed task (start task) w0 = (Err IndexError, w')) as Hmain.
  { unfold main_step. cbn [start primary count]. unfold bind, _execute. cbn [Nat.add]. fold (start task).
    rewrite Hp, Hsent. unfold judge. cbv zeta. rewrite Ha. cbn [rmap]. by rewrite Hassert. }
  unfold run, bind at 1. rewrite Enow. unfold deadline_remaining.
  destruct (Z.leb_spec (TaskEnvelope.deadline task - now) 0); [lia |]. rewrite Hb.
  unfold bind at 1. cbn [before_steps ret]. unfold bind at 1. by rewrite Hmain.
Qed.
End escapes.

(** ** The interface of the agent *)

#[export] Instance http_adapter_law `{PyFloat} `{FloatText} `{Ipaddress} `{Regex} {W : Type} `{!Session W} elapsed :
  AdapterLaw (HTTPAdapter.adapter (W:=W) elapsed).
Proof.
  split; [| done]. intros R HR task workspace Hworld s. cbn. destruct (HTTPAdapter.run _ _ _). apply Hworld.
Qed.
