(* ===== verification/RunnerExamples.v ===== *)
(** * The runner on concrete inputs: a pytest task in a project and an HTTP task *)
From stdpp Require Import gmap strings pretty.
From S2P Require Import Prelude PyDict PyText TextFacts Protocol Domain Templates Flow Runs RunsExamples ResolverTheorems Urls Files FileFacts Json JsonFacts SourceStore HostSources SourceImport SourceStoreExamples SecretFiles SecretFileTheorems DockerExecutor DockerTheorems Artifacts ArtifactTheorems Agent AgentTheorems SubprocessAdapter ScriptTheorems HostExecutor HttpAdapter HttpTheorems.
Open Scope string_scope.
Open Scope list_scope.

#[local] Existing Instances no_floats worker by_extension.
#[local] Instance no_float_text : FloatText := fun _ => Err (ValueError "could not convert string to float").

(** ** A project *)

Definition runner_disk : tree :=
  <[["spool"] := folder]> (<[["tmp"] := folder]> (<[["home"; "app"; "bin"] := folder]> (<[["home"; "app"; "bin"; "python"] := script]>
  (<[["home"; "app"; "test.py"] := script]> (<[["home"; "app"] := folder]> (<[["home"] := folder]> ∅)))))).
Definition project_task : TaskEnvelope.t :=
  TaskEnvelope.mk 20 9 Engine.PYTEST 22 3 1 "key" 0 600000000 "test.py" [("url", PStr "u")] None None None [("TOKEN", PStr "t")]
    None None [] ExecutionPolicy.default.
Definition steady : clock := fun i => (1000 * Z.of_nat i)%Z.

(** The process writes to both outputs, leaves a screenshot and fails. *)
Definition shot : path := ["spool"; uuid_str 9; "a.png"].
Definition written_lines : list (stream * string) := [(STDOUT, "one"); (STDERR, "oops"); (STDOUT, "two")].
Definition failing_process : Process.t := Process.mk written_lines (Some 1%Z) 1 true.
#[local] Instance failing : Popen := fun _ _ _ _ fs =>
  (Ok failing_process,
   match node_at fs ["spool"; uuid_str 9] with
   | Some (Directory _) => if bool_decide (fs !! shot = None) then <[shot := File image (created 420)]> fs else fs
   | _ => fs
   end).

(** A sink that takes every event. *)
Definition keep_all (e : EventEnvelope.t) : M (tree * list EventEnvelope.t) unit := fun s => (Ok tt, (s.1, s.2 ++ [e])).
Definition unused : Adapter (list EventEnvelope.t) := mkAdapter (fun _ _ => raise (RuntimeError "unused")) None.
Definition project_executor : HostExecutor.t :=
  HostExecutor.mk ["home"; "app"] ["home"; "app"; "bin"; "python"] ["spool"].
Definition one_beat (n : nat) : nat := if (n =? 1)%nat then 1 else 0.
Definition mono_clock (n : nat) : Z := (5000000 * Z.of_nat n)%Z.

Definition host_call : M (tree * list EventEnvelope.t) ResultEnvelope.t :=
  HostExecutor.execute project_executor (fun n => N.of_nat n) steady one_beat mono_clock [] ["srv"; "runner"]
    (["tmp"] ++ ["t1"]) unused keep_all project_task.

Example host_outcome : rbind (SourceStoreExamples.run host_call (runner_disk, [])) (fun r => Ok (ResultEnvelope.outcome r, ResultEnvelope.duration_ms r))
  = Ok (ResultOutcome.FAILED, 5000%Z).
Proof. vm_compute. reflexivity. Qed.
Example host_events : map (fun e => (EventEnvelope.seq e, EventEnvelope.type e)) (after host_call (runner_disk, [])).2
  = [(0, EventType.STARTED); (1, EventType.LOG); (2, EventType.HEARTBEAT); (3, EventType.LOG); (4, EventType.LOG);
     (5, EventType.SCREENSHOT); (6, EventType.ASSERTION); (7, EventType.ERROR); (8, EventType.FINISHED)]%Z.
Proof. vm_compute. reflexivity. Qed.

Lemma runner_disk_ok : tree_ok runner_disk.
Proof. apply well_formed_ok. vm_compute. reflexivity. Qed.
Lemma dir_by_eval fs p : match node_at fs p with Some (Directory _) => true | _ => false end = true -> dir_at fs p.
Proof. unfold dir_at. destruct (node_at fs p) as [[|a|]|]; try done. intros _. by exists a. Qed.

Lemma failing_good command cwd env timeout fs :
  good ["tmp"] ["spool"; uuid_str 9] fs -> good ["tmp"] ["spool"; uuid_str 9] (popen command cwd env timeout fs).2.
Proof.
  intros (T & [a Ha] & Hp). unfold popen, failing. cbn [snd]. rewrite Ha. case_bool_decide; [| by split_and!; [| exists a |]].
  destruct (fresh_insert fs ["spool"; uuid_str 9] "a.png" (File image (created 420)) T (ex_intro _ a Ha) ltac:(done) H)
    as (T1 & D1 & _). split_and!; [exact T1 | apply D1; by exists a | by apply D1].
Qed.


(** The same process below the agent alone, and an adapter that raises. *)
Definition script_agent : RunnerAgent.t (list EventEnvelope.t) :=
  RunnerAgent.mk project_task ["home"; "app"] keep_all
    (fun _ => SubprocessAdapter.adapter [] ["srv"; "runner"] steady ["tmp"; "t1"] (PytestAdapter "python" 64 [] None)) None.
Definition script_call : M (Agent.t (list EventEnvelope.t)) ResultEnvelope.t :=
  Agent.run script_agent (fun n => N.of_nat n) steady one_beat mono_clock 7.

Lemma agent_events_numbered_witness :
  map EventEnvelope.seq (Agent.accepted (after script_call (initial runner_disk []))) = [0; 1; 2; 3; 4; 5; 6; 7]%Z.
Proof.
  destruct (agent_events_numbered script_agent (fun n => N.of_nat n) steady one_beat mono_clock (fun _ => _) 7 runner_disk []
    (SourceStoreExamples.run script_call (initial runner_disk [])) (after script_call (initial runner_disk [])))
    as (Hseq & _ & _).
  - apply run_after. reflexivity.
  - rewrite Hseq. vm_compute. reflexivity.
Defined.

#[local] Instance unused_law : AdapterLaw unused.
Proof. split; [| done]. intros R HR task workspace _ s. cbn. reflexivity. Qed.
Definition shot_state : Agent.t (list EventEnvelope.t) :=
  initial (<[shot := File image (created 420)]> (<[["spool"; uuid_str 9] := folder]> runner_disk)) [].
Definition unused_agent : RunnerAgent.t (list EventEnvelope.t) :=
  RunnerAgent.mk project_task ["home"; "app"] keep_all (fun _ => unused) (Some ["spool"; uuid_str 9]).

(** The adapter raises; one artifact lies in the directory. *)
Lemma agent_always_reports_witness :
  exists envelope s', Agent.run unused_agent (fun n => N.of_nat n) steady one_beat mono_clock 7 shot_state = (Ok envelope, s')
    /\ ResultEnvelope.outcome envelope = ResultOutcome.INFRA_ERROR
    /\ kv_get "error_type" (ResultEnvelope.summary envelope) = Some (PStr "RuntimeError").
Proof.
  destruct (agent_always_reports unused_agent (fun n => N.of_nat n) steady one_beat mono_clock (fun _ => _)
    ltac:(intros event files l; eexists _, _; split; [reflexivity | by intros dir _]) 7 (Agent.files shot_state) [])
    as (s1 & s3 & E1 & Hends).
  assert (adapter_call unused_agent (fun n => N.of_nat n) steady one_beat s1 = (Err (RuntimeError "unused"), s1)) as Hcall by reflexivity.
  rewrite Hcall in Hends. assert (Agent.files s1 = Agent.files shot_state) as Hf by (by injection E1 as <-). rewrite Hf in Hends.
  assert (artifacts_error (RunnerAgent.artifact_root unused_agent) (Agent.files shot_state) = None) as Hok by (vm_compute; reflexivity).
  rewrite Hok in Hends. destruct Hends as (envelope & Hrun & Ho & He).
  - right. apply well_formed_ok. vm_compute. reflexivity.
  - exists envelope, s3. split; [exact Hrun | split; [exact Ho | exact He]].
Defined.

Definition announcing : M (Agent.t (list EventEnvelope.t)) Z :=
  announce script_agent (fun n => N.of_nat n) steady one_beat ["spool"; uuid_str 9] shot 10.
(** The files of the collector, which sees the spool under the same name and keeps some of
    its own. *)
Definition collector_disk : tree := <[["home"; "store"] := folder]> (Agent.files shot_state).

Lemma announced_artifact_collectable_witness :
  exists event, Agent.accepted (after announcing shot_state) = [event]
    /\ ArtifactCollector.source_of collector collector_disk 9 (EventEnvelope.payload event) = Ok shot.
Proof.
  destruct (announced_artifact_collectable script_agent (fun n => N.of_nat n) steady one_beat collector
    ["spool"; uuid_str 9] shot 10 14 collector_disk ["spool"; uuid_str 9] shot_state (after announcing shot_state))
    as (before & event & rel & content & a & Ha & Hp & _ & _ & _ & _ & _ & _ & Hs).
  - apply well_formed_ok. vm_compute. reflexivity.
  - apply (bool_decide_unpack _). vm_compute. reflexivity.
  - repeat constructor; done.
  - apply well_formed_ok. vm_compute. reflexivity.
  - intros rel _. unfold collector_disk. by rewrite lookup_insert_ne.
  - vm_compute. reflexivity.
  - apply run_after. vm_compute. reflexivity.
  - apply (app_inj_1 ["spool"; uuid_str 9] ["spool"; uuid_str 9] [name_of shot]) in Hp as [_ <-]; [| done].
    exists event. split; [| exact Hs].
    assert (length (Agent.accepted (after announcing shot_state)) = 1%nat) as Hl by (vm_compute; reflexivity).
    rewrite Ha, length_app in Hl. cbn in Hl. destruct before as [|x before]; [exact Ha | cbn in Hl; lia].
Defined.

(** ** The script *)

Definition small_adapter : SubprocessAdapter.t := PytestAdapter "python" 4 [] None.
Definition note (name message : string) : M (Agent.t (list EventEnvelope.t)) unit := ret tt.


Definition script_environ : list (string * string) := [("Path", "/bin"); ("SECRET", "s")].
Definition script_environment : list (string * pyval) :=
  Eval vm_compute in match SubprocessAdapter.environment script_environ ["srv"; "runner"] small_adapter runner_disk project_task
                             ["home"; "app"] ["tmp"; "t1"; "parameters.json"] with Ok env => env | Err _ => [] end.
Example environment_names : script_environment.*1
  = ["PATH"; "TOKEN"; "PYTHONPATH"; "RUNNER_ENGINE"; "RUNNER_WORKSPACE"; "SMARTTEST_PARAMETERS_FILE";
     "PYTHONIOENCODING"; "PYTHONUTF8"; "PYTHONUNBUFFERED"].
Proof. reflexivity. Qed.

Lemma runner_environment_decided_witness :
  kv_get "RUNNER_ENGINE" script_environment = Some (PStr "pytest")
  /\ exists key value, (key, value) ∈ script_environ /\ SubprocessAdapter.upper key = codes "PATH" /\ PStr "/bin" = PStr value.
Proof.
  destruct (runner_environment_decided script_environ ["srv"; "runner"] small_adapter runner_disk project_task ["home"; "app"]
    ["tmp"; "t1"; "parameters.json"] script_environment) as (_ & Hengine & _ & Hall); [vm_compute; reflexivity |].
  split; [exact Hengine |]. destruct (Hall "PATH" (PStr "/bin") eq_refl) as [Hin|(_ & _ & Hsource)].
  - apply (bool_decide_unpack _). vm_compute. reflexivity.
  - exfalso. revert Hin. apply (bool_decide_unpack _). vm_compute. reflexivity.
  - exact Hsource.
Defined.

Definition temporary_state : Agent.t (list EventEnvelope.t) := initial (<[["tmp"; "t1"] := folder]> runner_disk) [].
Lemma script_reads_its_parameters_witness :
  exists fs1, load_parameters fs1 "/tmp/t1/parameters.json" = Ok [("url", PStr "u")].
Proof.
  destruct (script_reads_its_parameters script_environ ["srv"; "runner"] note small_adapter true ["tmp"; "t1"] project_task
    ["home"; "app"] ["home"; "app"; "test.py"] 1000 ("{" ++ quote ++ "url" ++ quote ++ ":" ++ quote ++ "u" ++ quote ++ "}")%string temporary_state) as (fs1 & _ & Hload & _).
  - apply well_formed_ok. vm_compute. reflexivity.
  - apply dir_by_eval. vm_compute. reflexivity.
  - repeat constructor; done.
  - vm_compute. reflexivity.
  - apply json_value_dict. split; [by apply NoDup_singleton | by repeat constructor].
  - vm_compute. reflexivity.
  - apply (bool_decide_unpack _). vm_compute. reflexivity.
  - exists fs1. exact Hload.
Defined.

(** ** HTTP *)

#[local] Instance two_hosts : Ipaddress := {|
  ip_version a := if bool_decide (a ∈ ["8.8.8.8"; "10.0.0.1"]) then Some 4%Z else None;
  ip_is_global a := bool_decide (a = "8.8.8.8") |}.
Definition two_names (host : string) : res (list string) :=
  if bool_decide (host = "api.test") then Ok ["8.8.8.8"] else if bool_decide (host = "inner.test") then Ok ["8.8.8.8"; "10.0.0.1"]
  else Err (OSError "getaddrinfo").
#[local] Instance no_regex : Regex := fun _ _ => Ok None.
(** Every request is answered with an empty list of items and a token; it is kept. *)
Definition answer : Response.t :=
  Response.mk 200 (fun _ => None) (fun _ => None) (Ok (PDict [("items", PList []); ("token", PStr "t-1")])) "body".
#[local] Instance answering : Session (list string) := {|
  resolver host := lift (two_names host);
  utcnow sent := (Ok (1000 * Z.of_nat (length sent))%Z, sent);
  session_request request sent := (Ok answer, sent ++ [Request.url request]);
  is_Timeout _ := false; is_RequestException _ := false |}.

Definition get_of (url : string) : list (string * pyval) := [("url", PStr url)].
Definition login : HttpStep.t :=
  HttpStep.mk "login" (get_of "https://api.test/login") [] [ExtractionRule.mk "token" ExtractionRule.json_path "$.token" true] true.
Definition logout : HttpStep.t := HttpStep.mk "logout" (get_of "https://api.test/logout?t=${token}") [] [] true.
Definition inner_call : HttpStep.t := HttpStep.mk "inner" (get_of "http://inner.test/") [] [] true.
Definition http_task (before after : list HttpStep.t) (path : string) : TaskEnvelope.t :=
  TaskEnvelope.mk 20 9 Engine.HTTP 22 3 1 "key" 0 600000000 "request"
    [("request", PDict [("url", PStr "https://api.test/items")])] None None None [] None None []
    (ExecutionPolicy.mk before [AssertionRule.mk AssertionRule.json_path (Some path) AssertionRule.eq (PStr "t-1")] [] after
       (ExecutionPolicy.retry ExecutionPolicy.default)).
Definition http_call (task : TaskEnvelope.t) : M (list string) AdapterResult.t :=
  HTTPAdapter.run (fun _ => 5%Z) task.

Example http_sent : after (http_call (http_task [login] [logout] "$.token")) []
  = ["https://api.test/login"; "https://api.test/items"; "https://api.test/logout?t=t-1"].
Proof. vm_compute. reflexivity. Qed.
(** A step that would reach an address inside is not sent, and ends the steps before. *)
Example http_inner_not_sent : after (http_call (http_task [inner_call; login] [logout] "$.token")) [] = [].
Proof. vm_compute. reflexivity. Qed.

Lemma http_outcome_first_failure_witness :
  exists result, SourceStoreExamples.run (http_call (http_task [inner_call; login] [logout] "$.token")) [] = Ok result
    /\ AdapterResult.outcome result = ResultOutcome.FAILED /\ AdapterResult.message result = "Invalid HTTP before step".
Proof.
  assert (exists result, SourceStoreExamples.run (http_call (http_task [inner_call; login] [logout] "$.token")) [] = Ok result)
    as [result Hr] by (eexists; vm_compute; reflexivity).
  exists result. split; [exact Hr |].
  destruct (http_outcome_first_failure (fun _ => 5%Z) (http_task [inner_call; login] [logout] "$.token") [] 0 [] result
    (after (http_call (http_task [inner_call; login] [logout] "$.token")) [])) as (before & main & after & _ & _ & _ & Hs & Ho).
  - reflexivity.
  - vm_compute. reflexivity.
  - apply run_after. exact Hr.
  - revert Hr. intros Hr. vm_compute in Hr. injection Hr as <-. split; reflexivity.
Defined.

Definition sent_request : Request.t := Request.mk (codes "GET") "https://api.test/items" [] None None None 30000000 false.
Lemma http_index_error_aborts_witness :
  http_call (http_task [] [logout] "$.items[0]") [] = (Err IndexError, ["https://api.test/items"]).
Proof.
  apply (http_index_error_aborts (fun _ => 5%Z) (http_task [] [logout] "$.items[0]") [] 0 [] [] ["https://api.test/items"]
    sent_request [200%Z] answer (AssertionRule.mk AssertionRule.json_path (Some "$.items[0]") AssertionRule.eq (PStr "t-1")) []
    "$.items[0]" (PDict [("items", PList []); ("token", PStr "t-1")]));
    [reflexivity | vm_compute; reflexivity | reflexivity | vm_compute; reflexivity | reflexivity.. | vm_compute; reflexivity].
Defined.

(** The first request of a task: its host was resolved and the clock read right before. *)
Lemma http_requests_vetted_witness :
  cleared (http_task [login] [logout] "$.token") (Request.mk (codes "GET") "https://api.test/login" [] None None None 30000000 false)
    [ReadClock 0; Resolved "api.test" ["8.8.8.8"]; ReadClock 0].
Proof.
  eapply (http_requests_vetted answering (fun _ => 5%Z) (http_task [login] [logout] "$.token") []).
  vm_compute. reflexivity.
Defined.

(** ** The second resolution

    A name that resolves to a public address, and to an inner one ever after; the session
    connects to where the name leads when it connects. *)
Definition rebound (s : nat * list string) : string := match s.1 with O => "8.8.8.8" | S _ => "10.0.0.1" end.
Definition rebinding : Session (nat * list string) := {|
  resolver host s := (Ok [rebound s], (S s.1, s.2));
  utcnow s := (Ok 0%Z, s);
  session_request request s := (Ok answer, (S s.1, s.2 ++ [rebound s]));
  is_Timeout _ := false; is_RequestException _ := false |}.
Example rebinding_reaches_inside :
  (after (HTTPAdapter.run (H3 := rebinding) (fun _ => 5%Z) (http_task [] [] "$.token")) (0%nat, [])).2 = ["10.0.0.1"].
Proof. vm_compute. reflexivity. Qed.
