(* ===== verification/LoadAuth.v ===== *)
(** * Authentication of load tests ([src/services/api/load_test_auth.py])

    [LoadTestAuthResolver.resolve] reads the conventional keys of an active environment
    through the configuration resolver. *)
From stdpp Require Import gmap strings.
From S2P Require Import Prelude PyDict PyText Protocol Versioned EnvironmentCrypto Environments Json SubprocessAdapter.
Open Scope string_scope.
Open Scope list_scope.

Module LoadTestAuthMode.
Inductive t := TOKEN | LOGIN.
#[global] Instance eq_dec : EqDecision t.
Proof. solve_decision. Defined.
(** [LoadTestAuthMode(text)] of a text in upper case. *)
Definition of_codes (text : list N) : option t :=
  if bool_decide (text = codes "TOKEN") then Some TOKEN
  else if bool_decide (text = codes "LOGIN") then Some LOGIN else None.
End LoadTestAuthMode.

Module LoadTestAuthConfiguration.
Record t := mk {
  base_url : option string; mode : option LoadTestAuthMode.t; login_url : option string;
  account_field : string; password_field : string; login_body : list (string * pyval);
  token_path : string; auth_header : string; auth_prefix : string;
  token : option string; account : option string; password : option string }.
End LoadTestAuthConfiguration.

Definition _PUBLIC_KEYS : list string :=
  ["BASE_URL"; "AUTH_MODE"; "LOGIN_URL"; "ACCOUNT_FIELD"; "PASSWORD_FIELD";
   "LOGIN_BODY"; "TOKEN_PATH"; "AUTH_HEADER"; "AUTH_PREFIX"].
Definition _SECRET_KEYS : list string := ["AUTH_TOKEN"; "AUTH_ACCOUNT"; "AUTH_PASSWORD"].

Module LoadTestAuthResolver.
Section resolver.
  Context `{PyFloat} `{Aead} {ER Op : Type} `{EnvironmentReader ER Op}.
  (** The repository, its [get_environment] and the encryptor of the resolver. *)
  Context (_repository : ER) (get_environment : uuid -> res EnvironmentRecord.t) (_encryptor : SecretEncryptor.t).
  Notation snapshot := (ConfigurationResolver.snapshot _repository _encryptor).

Definition _optional_string (values : pydict string pyval) (key : string) : res (option string) :=
  match values !! key with
  | None | Some PNone => Ok None
  | Some (PStr value) => if empty_str (strip value) then Err EnvironmentConflict else Ok (Some (strip value))
  | Some _ => Err EnvironmentConflict
  end.
Definition _string (values : pydict string pyval) (key default : string) (allow_empty : bool) : res string :=
  match values !! key with
  | None => Ok (if allow_empty then default else strip default)
  | Some (PStr value) =>
      if negb allow_empty && empty_str (strip value) then Err EnvironmentConflict
      else Ok (if allow_empty then value else strip value)
  | Some _ => Err EnvironmentConflict
  end.
Definition _login_body (values : pydict string pyval) : res (list (string * pyval)) :=
  match values !! "LOGIN_BODY" with
  | None => Ok []
  | Some (PStr raw) =>
      match loads raw with
      | Ok (PDict kvs) => Ok kvs
      | Ok _ => Err EnvironmentConflict
      | Err e => if bool_decide (e = JSONDecodeError) then Err EnvironmentConflict else Err e
      end
  | Some _ => Err EnvironmentConflict
  end.

(** The variables of the environment by name. *)
Definition variables_of (record : EnvironmentRecord.t) : pydict string ConfigurationValue.t :=
  of_pairs (omap (fun item => if bool_decide (ConfigurationValue.category item = ConfigurationCategory.ENVIRONMENT_VARIABLE)
                              then Some (ConfigurationValue.name item, item) else None) (EnvironmentRecord.values record)).
Definition has_secrecy (values : pydict string ConfigurationValue.t) (secret : bool) (key : string) : bool :=
  match values !! key with Some v => Bool.eqb (ConfigurationValue.secret v) secret | None => false end.

Definition mode_of (public : pydict string pyval) : res (option LoadTestAuthMode.t) :=
  let? mode_value := _optional_string public "AUTH_MODE" in
  match mode_value with
  | None => Ok None
  | Some text =>
      let normalized := if bool_decide (upper text = codes "DIRECT_TOKEN") then codes "TOKEN" else upper text in
      match LoadTestAuthMode.of_codes normalized with
      | Some mode => Ok (Some mode)
      | None => Err EnvironmentConflict
      end
  end.
Definition required_keys (mode : option LoadTestAuthMode.t) : list string :=
  match mode with
  | Some LoadTestAuthMode.TOKEN => ["AUTH_TOKEN"]
  | Some LoadTestAuthMode.LOGIN => ["AUTH_ACCOUNT"; "AUTH_PASSWORD"]
  | None => []
  end.
Definition reference_of (values : pydict string ConfigurationValue.t) (key : string) : res SecretReference.t :=
  match values !! key with
  | Some value =>
      match ConfigurationValue.secret value, ConfigurationValue.secret_ref value with
      | true, Some ref => Ok (SecretReference.mk SecretReference.environment_variable key ref)
      | _, _ => Err EnvironmentConflict
      end
  | None => Err EnvironmentConflict
  end.
(** [resolved.get(key)]; variables are texts. *)
Definition credential (resolved : pydict string pyval) (key : string) : res (option string) :=
  match resolved !! key with None => Ok None | Some (PStr s) => Ok (Some s) | Some _ => unmodelled end.

(** The record, checked. *)
Definition usable_environment (project_id environment_id : uuid) : res EnvironmentRecord.t :=
  let? environment := get_environment environment_id in
  if negb (bool_decide (EnvironmentRecord.project_id environment = project_id)) then Err EnvironmentNotFound
  else if negb (bool_decide (EnvironmentRecord.status environment = EnvironmentStatus.ACTIVE)) then Err EnvironmentConflict
  else if existsb (has_secrecy (variables_of environment) true) _PUBLIC_KEYS then Err EnvironmentConflict
  else if existsb (has_secrecy (variables_of environment) false) _SECRET_KEYS then Err EnvironmentConflict
  else Ok environment.

Definition resolve (project_id : uuid) (environment_id : option uuid) : res (option LoadTestAuthConfiguration.t) :=
  match environment_id with
  | None => Ok None
  | Some environment_id =>
      let? environment := usable_environment project_id environment_id in
      let snapshot_of references :=
        let? s := snapshot project_id (EnvironmentRecord.id environment) (EnvironmentRecord.revision environment) references in
        Ok (ConfigurationSnapshot.environment_variables s) in
      let? public := snapshot_of [] in
      let? mode := mode_of public in
      let? references := rmap (reference_of (variables_of environment)) (required_keys mode) in
      let? resolved := snapshot_of references in
      let? login_url := _optional_string public "LOGIN_URL" in
      if bool_decide (mode = Some LoadTestAuthMode.LOGIN) && bool_decide (login_url = None) then Err EnvironmentConflict
      else
        let? login_body := _login_body public in
        let? base_url := _optional_string public "BASE_URL" in
        let? account_field := _string public "ACCOUNT_FIELD" "username" false in
        let? password_field := _string public "PASSWORD_FIELD" "password" false in
        let? token_path := _string public "TOKEN_PATH" "data.token" false in
        let? auth_header := _string public "AUTH_HEADER" "Authorization" false in
        let? auth_prefix := _string public "AUTH_PREFIX" "Bearer" true in
        let? token := credential resolved "AUTH_TOKEN" in
        let? account := credential resolved "AUTH_ACCOUNT" in
        let? password := credential resolved "AUTH_PASSWORD" in
        Ok (Some (LoadTestAuthConfiguration.mk base_url mode login_url account_field password_field login_body
                    token_path auth_header auth_prefix token account password))
  end.
End resolver.
End LoadTestAuthResolver.
