(* ===== verification/LoadRequests.v ===== *)
(** * Requests of the load generator ([src/services/api/load_test_executor.py], without metrics and workers)

    Dynamic templates, destinations, headers, responses with their redaction, the pinned
    connection and the login.  The network and the random source are arguments. *)
From stdpp Require Import gmap strings pretty.
From S2P Require Import Prelude PyDict PyText Protocol Retry Templates WorkflowSchemas Json Urls Files LoadAuth LoadTests Agent HttpAdapter.
Open Scope string_scope.
Open Scope list_scope.

(** ** Dynamic templates *)

(** [secrets], [uuid4] and [time.time] in microseconds. *)
Class Entropy (R : Type) := { randbelow : Z -> M R Z; uuid4 : M R uuid; wall_clock : M R Z }.

Definition template_invalid {S A} : M S A := raise (WorkflowExecutionError "a dynamic template is invalid").

(** A match of [_DYNAMIC_TEMPLATE] at the start of a text: the expression and the rest.
    No brace occurs in an expression, so that its end is the next brace. *)
Definition is_alnum (c : Ascii.ascii) : bool := is_alpha c || is_digit c.
Definition open_paren : Ascii.ascii := Ascii.ascii_of_N 40.
Definition close_paren : Ascii.ascii := Ascii.ascii_of_N 41.
Definition is_brace (c : Ascii.ascii) : bool := (code c =? 123)%N || (code c =? 125)%N.
Definition name_ok (name : string) : bool :=
  match name with String c r => is_alpha c && all_chars is_alnum r | EmptyString => false end.
(** The expression is a name, or a name with at most 128 characters in parentheses. *)
Definition expression_ok (text : string) : bool :=
  let '(name, rest) := span is_alnum text in
  name_ok name
  && match rest with
     | EmptyString => true
     | String c arguments =>
         Ascii.eqb c open_paren && ends_with ")" arguments && (String.length arguments <=? 129)%nat
     end.
Definition dynamic_at (s : string) : option (string * string) :=
  match drop_prefix "{{$" s with
  | None => None
  | Some inner =>
      let '(expression, rest) := span (fun c => negb (is_brace c)) inner in
      if expression_ok expression then
        match drop_prefix "}}" rest with Some after => Some (expression, after) | None => None end
      else None
  end.
Definition whole_dynamic (s : string) : option string :=
  match dynamic_at s with Some (expression, EmptyString) => Some expression | _ => None end.

(** [\s*(-?[0-9]{1,n})\s*] and what follows. *)
Definition spaced_number (signed : bool) (n : nat) (s : string) : option (Z * string) :=
  let s := lstrip s in
  let '(negative, s) := match drop_prefix "-" s with
                        | Some r => if signed then (true, r) else (false, s)
                        | None => (false, s)
                        end in
  let '(digits, rest) := span is_digit s in
  if empty_str digits || (n <? String.length digits)%nat then None
  else Some ((if negative then -1 else 1) * Z.of_N (decimal 0 digits), lstrip rest)%Z.
(** The arguments of the calls. *)
Definition randomInt_arguments (s : string) : option (Z * Z) :=
  match drop_prefix "randomInt(" s with
  | None => None
  | Some s =>
      match spaced_number true 10 s with
      | Some (minimum, String comma s) =>
          if negb (code comma =? 44)%N then None
          else match spaced_number true 10 s with
               | Some (maximum, rest) => if bool_decide (rest = ")") then Some (minimum, maximum) else None
               | None => None
               end
      | _ => None
      end
  end.
Definition sized_arguments (prefix s : string) : option Z :=
  match drop_prefix prefix s with
  | None => None
  | Some s => match spaced_number false 3 s with
              | Some (length, rest) => if bool_decide (rest = ")") then Some length else None
              | None => None
              end
  end.
Definition choice_arguments (s : string) : option string :=
  match drop_prefix "randomChoice(" s with
  | None => None
  | Some s => let '(inner, rest) := span (fun c => negb (Ascii.eqb c open_paren || Ascii.eqb c close_paren)) s in
              if bool_decide (rest = ")") then Some inner else None
  end.

Definition ascii_lowercase : string := "abcdefghijklmnopqrstuvwxyz".
Definition ascii_letters : string := "abcdefghijklmnopqrstuvwxyzABCDEFGHIJKLMNOPQRSTUVWXYZ".
Definition digit_chars : string := "0123456789".

Section dynamic.
  Context `{PyFloat} {R : Type} `{Entropy R}.

(** [secrets.choice], of a text and of a list. *)
Definition choice {A} (l : list A) : M R A :=
  let* i := randbelow (Z.of_nat (length l)) in
  match l !! Z.to_nat i with Some x => ret x | None => raise IndexError end.
Definition char_choice (alphabet : string) : M R string :=
  choice (map (fun c => String c EmptyString) (String.list_ascii_of_string alphabet)).
Fixpoint random_text (n : nat) (alphabet : string) : M R string :=
  match n with
  | O => ret EmptyString
  | S n => let* c := char_choice alphabet in let* r := random_text n alphabet in ret (c ++ r)%string
  end.

Definition randomInt (minimum maximum : Z) : M R pyval :=
  if (minimum <? -1000000000)%Z || (1000000000 <? maximum)%Z || (maximum <? minimum)%Z then template_invalid
  else let* n := randbelow (maximum - minimum + 1)%Z in ret (PInt (minimum + n)).
Definition random_sized (alphabet : string) (length : Z) : M R pyval :=
  if negb ((1 <=? length) && (length <=? 128))%Z then template_invalid
  else let* s := random_text (Z.to_nat length) alphabet in ret (PStr s).
Definition randomChoice (inner : string) : M R pyval :=
  let options := map strip (split_on (Ascii.ascii_of_N 44) inner) in
  if negb ((2 <=? length options)%nat && (length options <=? 20)%nat)
     || existsb (fun item => empty_str item || (128 <? String.length item)%nat) options
  then template_invalid
  else let* s := choice options in ret (PStr s).

Definition _generate_dynamic_value (expression : string) (sequence : Z) : M R pyval :=
  if bool_decide (expression = "uuid") then let* u := uuid4 in ret (PStr (uuid_str u))
  else if bool_decide (expression = "sequence") then ret (PInt sequence)
  else if bool_decide (expression = "timestamp") then let* t := wall_clock in ret (PInt (Z.quot t 1000000))
  else if bool_decide (expression = "timestampMs") then let* t := wall_clock in ret (PInt (Z.quot t 1000))
  else if bool_decide (expression = "randomBoolean") then let* n := randbelow 2 in ret (PBool (negb (n =? 0)%Z))
  else if bool_decide (expression = "randomPhone") then
    let* c := char_choice "3456789" in let* r := random_text 9 digit_chars in ret (PStr ("1" ++ c ++ r)%string)
  else if bool_decide (expression = "randomEmail") then
    let* local := random_text 10 (ascii_lowercase ++ digit_chars) in ret (PStr ("test_" ++ local ++ "@example.com")%string)
  else
    match randomInt_arguments expression with
    | Some (minimum, maximum) => randomInt minimum maximum
    | None =>
        match sized_arguments "randomString(" expression, sized_arguments "randomDigits(" expression with
        | Some length, _ => random_sized (ascii_letters ++ digit_chars) length
        | None, Some length => random_sized digit_chars length
        | None, None =>
            match choice_arguments expression with
            | Some inner => randomChoice inner
            | None => template_invalid
            end
        end
    end.

(** The random source beside the cache [resolved]. *)
Notation state := (R * list (string * pyval))%type.

Definition generate (sequence : Z) (expression : string) : M state pyval := fun s =>
  match kv_get expression s.2 with
  | Some v => (Ok v, s)
  | None =>
      match _generate_dynamic_value expression sequence s.1 with
      | (Ok v, r) => (Ok v, (r, kv_set expression v s.2))
      | (Err e, r) => (Err e, (r, s.2))
      end
  end.
(** [_stringify_dynamic_value] is the function of workflow templates. *)
Definition _stringify_dynamic_value (value : pyval) : res string := _stringify_template_value value.

(** [_DYNAMIC_TEMPLATE.sub(replace, value)]. *)
Fixpoint substitute_dynamic (fuel : nat) (sequence : Z) (s : string) : M state string :=
  match fuel with
  | O => ret s
  | S fuel =>
      match dynamic_at s with
      | Some (expression, after) =>
          let* v := generate sequence expression in
          let* text := lift (_stringify_dynamic_value v) in
          let* rest := substitute_dynamic fuel sequence after in
          ret (text ++ rest)%string
      | None =>
          match s with
          | EmptyString => ret EmptyString
          | String c r => let* rest := substitute_dynamic fuel sequence r in ret (String c rest)
          end
      end
  end.
Definition render_dynamic_text (sequence : Z) (s : string) : M state pyval :=
  match whole_dynamic s with
  | Some expression => generate sequence expression
  | None => let* t := substitute_dynamic (S (String.length s)) sequence s in ret (PStr t)
  end.
Fixpoint render_dynamic (sequence : Z) (value : pyval) : M state pyval :=
  match value with
  | PStr s => render_dynamic_text sequence s
  | PList l =>
      let* l' := (fix go (l : list pyval) : M state (list pyval) :=
        match l with
        | [] => ret []
        | x :: r => let* y := render_dynamic sequence x in let* ys := go r in ret (y :: ys)
        end) l in
      ret (PList l')
  | PDict kvs | PFrozenMapping kvs =>
      let* kvs' := (fix go (kvs : list (string * pyval)) : M state (list (string * pyval)) :=
        match kvs with
        | [] => ret []
        | (k, x) :: r => let* y := render_dynamic sequence x in let* ys := go r in ret ((k, y) :: ys)
        end) kvs in
      ret (PDict kvs')
  | _ => ret value
  end.
(** With a cache of its own. *)
Definition render_dynamic_templates (sequence : Z) (value : pyval) : M R pyval := fun r =>
  let '(x, s) := render_dynamic sequence value (r, []) in (x, s.1).
End dynamic.

(** ** Destinations *)

Definition execution_failed {A} (message code : string) (status : option Z) : res A :=
  Err (LoadTestExecutionError message code status).
Definition not_allowed {A} : res A := execution_failed "HTTP destination is not allowed" "execution_error" None.

(** What the code asks of an address besides [Ipaddress]. *)
Class AddressKinds := {
  ipv4_mapped : string -> option string; ip_in_network : string -> string -> bool;
  is_private : string -> bool; is_loopback : string -> bool; is_link_local : string -> bool;
  is_multicast : string -> bool; is_reserved : string -> bool; is_unspecified : string -> bool }.

Definition _EXPLICITLY_BLOCKED_NETWORKS : list string := ["0.0.0.0/8"; "100.64.0.0/10"; "192.0.0.0/24"].

(** The parsed URL and the addresses of its host. *)
Notation destination := (SplitResult.t * list string)%type.

(** [parsed.port or (443 if ... else 80)]. *)
Definition effective_port (parsed : SplitResult.t) : res Z :=
  let? port := Split.port parsed in
  Ok match port with
     | Some port => if (port =? 0)%Z then (if bool_decide (lower (SplitResult.scheme parsed) = "https") then 443 else 80)%Z else port
     | None => if bool_decide (lower (SplitResult.scheme parsed) = "https") then 443%Z else 80%Z
     end.

(** [self._resolver]: the addresses of a host. Connections are opened to the addresses that
    were checked, no name is resolved again for them. *)
Class Resolver := resolve_host : string -> res (list string).

Section destinations.
  Context `{Ipaddress} `{AddressKinds} `{Resolver}.

Definition addresses_of (hostname : string) : res (list string) :=
  match ip_address hostname with
  | Ok a => Ok [a]
  | Err _ => let? found := resolve_host hostname in rmap ip_address found
  end.

Definition candidate_of (address : string) : string := default address (ipv4_mapped address).
(** All the networks are of version 4. *)
Definition explicitly_blocked (candidate : string) : bool :=
  bool_decide (ip_version candidate = Some 4%Z) && existsb (ip_in_network candidate) _EXPLICITLY_BLOCKED_NETWORKS.
Definition _is_public_address (address : string) : bool :=
  let candidate := candidate_of address in
  if explicitly_blocked candidate then false
  else ip_is_global candidate && negb (is_private candidate) && negb (is_loopback candidate)
       && negb (is_link_local candidate) && negb (is_multicast candidate) && negb (is_reserved candidate)
       && negb (is_unspecified candidate).
Definition _is_allowed_private_address (address : string) : bool :=
  let candidate := candidate_of address in
  negb (explicitly_blocked candidate) && negb (is_loopback candidate) && negb (is_link_local candidate)
  && negb (is_multicast candidate) && negb (is_reserved candidate) && negb (is_unspecified candidate).

Definition address_allowed (allowed_private_hosts : list string) (hostname : string) : string -> bool :=
  if bool_decide (lower hostname ∈ allowed_private_hosts) then _is_allowed_private_address else _is_public_address.

(** [allowed hostname] is the check of the addresses of a host. *)
Definition checked_destination (allowed : string -> string -> bool) (url : string) : res destination :=
  let? parsed := urlsplit url in
  match Split.hostname parsed with
  | Some hostname =>
      if negb (bool_decide (lower (SplitResult.scheme parsed) ∈ ["http"; "https"])) then Err (ValueError EmptyString)
      else if negb (bool_decide (Split.username parsed = None)) || negb (bool_decide (Split.password parsed = None))
      then Err (ValueError EmptyString)
      else
        let? _ := Split.port parsed in
        let? addresses := addresses_of hostname in
        if nilb addresses || existsb (fun a => negb (allowed hostname a)) addresses
        then Err (ValueError EmptyString) else Ok (parsed, addresses)
  | None => Err (ValueError EmptyString)
  end.
Definition _validate_public_url (allowed_private_hosts : list string) (url : string) : res destination :=
  match checked_destination (address_allowed allowed_private_hosts) url with Ok d => Ok d | Err _ => not_allowed end.

(** *** [urljoin] of an absolute URL and one without scheme and host *)

(** [_splitparams]: what is before and after the [;] of the last segment. *)
Definition split_params (path : string) : string * string :=
  let '(before, last) := match rcut (Ascii.ascii_of_N 47) path with
                         | Some (b, l) => ((b ++ "/")%string, l)
                         | None => (EmptyString, path)
                         end in
  match cut (Ascii.ascii_of_N 59) last with
  | Some (p, params) => ((before ++ p)%string, params)
  | None => (path, EmptyString)
  end.
Definition uses_params : list string :=
  [EmptyString; "ftp"; "hdl"; "prospero"; "http"; "https"; "shttp"; "rtsp"; "rtsps"; "rtspu"; "sip"; "sips"; "mms"; "sftp"; "tel"].
Definition params_of (scheme path : string) : string * string :=
  if bool_decide (scheme ∈ uses_params) && has_char (Ascii.ascii_of_N 59) path then split_params path else (path, EmptyString).
(** Schemes in [uses_relative] and [uses_netloc], as far as HTTP destinations have them. *)
Definition joins_scheme (scheme : string) : bool := bool_decide (scheme ∈ ["http"; "https"]).

Fixpoint resolve_segments (segments resolved : list string) : list string :=
  match segments with
  | [] => resolved
  | seg :: rest =>
      if bool_decide (seg = "..") then resolve_segments rest (removelast resolved)
      else if bool_decide (seg = ".") then resolve_segments rest resolved
      else resolve_segments rest (resolved ++ [seg])
  end.
(** [segments[1:-1] = filter(None, segments[1:-1])]. *)
Definition filter_inner (segments : list string) : list string :=
  match segments with
  | first :: (_ :: _) as rest => first :: List.filter (fun x => negb (empty_str x)) (removelast (tail segments)) ++ [List.last segments EmptyString]
  | _ => segments
  end.
Definition join_path (bpath path : string) : string :=
  let base_parts := split_on slash bpath in
  let base_parts := if empty_str (List.last base_parts EmptyString) then base_parts else removelast base_parts in
  let segments := if String.prefix "/" path then split_on slash path else filter_inner (base_parts ++ split_on slash path) in
  let resolved := resolve_segments segments [] in
  let resolved := if bool_decide (List.last segments EmptyString ∈ ["."; ".."]) then resolved ++ [EmptyString] else resolved in
  let joined := join "/" resolved in
  if empty_str joined then "/" else joined.
(** [urlunparse] of a URL with a host. *)
Definition unparse (scheme netloc path params query fragment : string) : string :=
  let path := if empty_str params then path else (path ++ ";" ++ params)%string in
  let path := if negb (empty_str path) && negb (String.prefix "/" path) then ("/" ++ path)%string else path in
  let url := (scheme ++ "://" ++ netloc ++ path)%string in
  let url := if empty_str query then url else (url ++ "?" ++ query)%string in
  if empty_str fragment then url else (url ++ "#" ++ fragment)%string.
Definition urljoin (base url : string) : res string :=
  if empty_str url then Ok base
  else
    let? b := urlsplit base in
    let? u := urlsplit url in
    let scheme := SplitResult.scheme b in
    if negb (joins_scheme scheme) then unmodelled
    else
      let '(bpath, bparams) := params_of scheme (SplitResult.path b) in
      let '(path, params) := params_of scheme (SplitResult.path u) in
      Ok (if empty_str path && empty_str params
          then unparse scheme (SplitResult.netloc b) bpath bparams
                 (if empty_str (SplitResult.query u) then SplitResult.query b else SplitResult.query u) (SplitResult.fragment u)
          else unparse scheme (SplitResult.netloc b) (join_path bpath path) params (SplitResult.query u) (SplitResult.fragment u)).

(** [text.rstrip("/")]. *)
Fixpoint rstrip_slash (s : string) : string :=
  match s with
  | EmptyString => EmptyString
  | String c r => let r' := rstrip_slash r in
                  if Ascii.eqb c slash && empty_str r' then EmptyString else String c r'
  end.
Definition _resolve_url (url : string) (base_url : option string) : res string :=
  let? parsed := urlsplit url in
  if negb (empty_str (SplitResult.scheme parsed)) then Ok url
  else match base_url with
       | Some base =>
           if negb (empty_str (SplitResult.netloc parsed)) || empty_str base then not_allowed
           else urljoin (rstrip_slash base ++ "/")%string url
       | None => not_allowed
       end.

(** A rendered URL must lead where the template was validated. *)
Definition _rendered_destination (url : string) (d : destination) : res destination :=
  let '(pinned, addresses) := d in
  let? rendered := urlsplit url in
  let place parsed :=
    let? port := effective_port parsed in
    Ok (lower (SplitResult.scheme parsed), lower (default EmptyString (Split.hostname parsed)), port) in
  match place pinned, place rendered with
  | Ok pinned_place, Ok rendered_place =>
      if bool_decide (rendered_place = pinned_place) then Ok (rendered, addresses)
      else Err (WorkflowExecutionError "a dynamic URL cannot change its destination")
  | _, _ => Err (WorkflowExecutionError "a dynamic URL is invalid")
  end.
End destinations.

(** ** Targets *)

(** [target[name]]. *)
Definition entry (name : string) (target : list (string * pyval)) : res pyval :=
  match kv_get name target with Some v => Ok v | None => Err KeyError end.
Definition mapping_entry (name : string) (target : list (string * pyval)) : res (list (string * pyval)) :=
  let? v := entry name target in match as_mapping v with Some kvs => Ok kvs | None => Err TypeError end.
Definition text_entry (name : string) (target : list (string * pyval)) : res string :=
  let? v := entry name target in match v with PStr s => Ok s | _ => Err TypeError end.

Section targets.
  Context `{PyFloat} `{Ipaddress} `{AddressKinds} `{Resolver}.

(** [_HEADER_NAME]. *)
Definition header_char (c : Ascii.ascii) : bool :=
  is_alnum c || bool_decide (code c ∈ [33; 35; 36; 37; 38; 39; 42; 43; 45; 46; 94; 95; 96; 124; 126]%N).
Definition header_name_ok (name : string) : bool := negb (empty_str name) && all_chars header_char name.
Definition breaks_line (value : string) : bool := has_char (Ascii.ascii_of_N 13) value || has_char (Ascii.ascii_of_N 10) value.
Definition _validated_headers (raw_headers : list (string * pyval)) : res (list (string * pyval)) :=
  rfold (fun headers '(name, raw_value) =>
    let? value := py_str raw_value in
    if negb (header_name_ok name) || breaks_line value
    then execution_failed "HTTP request header is not allowed" "execution_error" None
    else Ok (kv_set name (PStr value) headers)) [] raw_headers.

Definition _prepare_target (target : list (string * pyval)) (config : option LoadTestAuthConfiguration.t)
    : res (list (string * pyval)) :=
  let? raw_headers := mapping_entry "headers" target in
  let? headers := _validated_headers raw_headers in
  let? query := mapping_entry "query" target in
  let? raw_url := text_entry "url" target in
  let? url := _resolve_url raw_url (match config with Some c => LoadTestAuthConfiguration.base_url c | None => None end) in
  Ok (kv_set "url" (PStr url) (kv_set "query" (PDict query) (kv_set "headers" (PDict headers) target))).

Definition _inject_auth (target : list (string * pyval)) (config : LoadTestAuthConfiguration.t) (token : string)
    : res (list (string * pyval)) :=
  let? raw_headers := mapping_entry "headers" target in
  let header_name := LoadTestAuthConfiguration.auth_header config in
  let headers := filter (fun kv => lower kv.1 <> lower header_name) raw_headers in
  let prefix := strip (LoadTestAuthConfiguration.auth_prefix config) in
  let value := if empty_str prefix then token else (prefix ++ " " ++ token)%string in
  let? auth := _validated_headers [(header_name, PStr value)] in
  Ok (kv_set "headers" (PDict (kv_merge headers auth)) target).

Definition scenario_fields : list string := ["url"; "headers"; "query"; "body"].
Definition _render_scenario_target (target variables : list (string * pyval)) : res (list (string * pyval)) :=
  rfold (fun rendered field_name =>
    let? raw := entry field_name target in
    let? v := render_templates variables raw in
    Ok (kv_set field_name v rendered)) target scenario_fields.
End targets.

(** ** Responses *)

Definition _RESPONSE_LIMIT : nat := Z.to_nat 1048576.

(** What a response offers to read: a stream, which may break after what it gave, chunks,
    a JSON document or the content. *)
Inductive content :=
  | Readable (bytes : list N) (broken : option exn)
  | Chunked (chunks : list (list N)) (broken : option exn)
  | Parsed (value : res pyval)
  | Plain (bytes : list N).
Module LoadResponse.
Record t := mk { status : Z; source : content }.
End LoadResponse.

Definition all_of {A} (x : A) (broken : option exn) : res A := match broken with Some e => Err e | None => Ok x end.

Section responses.
  Context `{PyFloat}.

(** [source.read(limit)]: it breaks only if it has to give more than it has. *)
Definition read_stream (limit : nat) (bytes : list N) (broken : option exn) : res (list N) :=
  if (limit <=? length bytes)%nat then Ok (take limit bytes) else all_of bytes broken.

Fixpoint chunks_within (chunks : list (list N)) (size : nat) (broken : option exn) : res (list N) :=
  match chunks with
  | [] => all_of [] broken
  | chunk :: rest =>
      let size := (size + length chunk)%nat in
      if (_RESPONSE_LIMIT <? size)%nat then Err (ValueError EmptyString)
      else let? l := chunks_within rest size broken in Ok (chunk ++ l)
  end.
Definition _read_limited_body (source : content) : res (list N) :=
  let? raw := match source with
              | Readable bytes broken => read_stream (_RESPONSE_LIMIT + 1) bytes broken
              | Chunked chunks broken => chunks_within chunks 0 broken
              | Parsed value => let? v := value in let? t := dumps false true v in Ok (utf8 t)
              | Plain bytes => Ok bytes
              end in
  if (_RESPONSE_LIMIT <? length raw)%nat then Err (ValueError EmptyString) else Ok raw.

Fixpoint chunks_until (limit : nat) (chunks : list (list N)) (size : nat) (broken : option exn) : res (list N) :=
  match chunks with
  | [] => all_of [] broken
  | chunk :: rest =>
      let size := (size + length chunk)%nat in
      if (limit <=? size)%nat then Ok chunk
      else let? l := chunks_until limit rest size broken in Ok (chunk ++ l)
  end.

(** [json.dumps(value, ensure_ascii=False)], with its default separators, and the same with
    [indent=2] below [level] levels. *)
Fixpoint dumps_with (separator colon : string) (indent : option nat) (level : nat) (v : pyval) : res string :=
  let newline (level : nat) : string :=
    match indent with None => EmptyString | Some n => (chr 10 ++ join EmptyString (repeat " " (n * level)))%string end in
  let many := fix many (l : list pyval) : res (list string) :=
    match l with
    | [] => Ok []
    | x :: r => let? t := dumps_with separator colon indent (S level) x in let? ts := many r in Ok (t :: ts)
    end in
  let pairs := fix pairs (l : list (string * pyval)) : res (list string) :=
    match l with
    | [] => Ok []
    | (k, x) :: r => let? t := dumps_with separator colon indent (S level) x in let? ts := pairs r in
                     Ok ((json_string false k ++ colon ++ t)%string :: ts)
    end in
  match v with
  | PList l | PTuple l =>
      let? ts := many l in
      Ok (if nilb ts then "[]" else "[" ++ newline (S level) ++ join (separator ++ newline (S level)) ts ++ newline level ++ "]")%string
  | PDict kvs =>
      let? ts := pairs kvs in
      Ok (if nilb ts then "{}" else "{" ++ newline (S level) ++ join (separator ++ newline (S level)) ts ++ newline level ++ "}")%string
  | _ => dumps false false v
  end.
Definition dumps_spaced : pyval -> res string := dumps_with ", " ": " None 0.
Definition dumps_indented : pyval -> res string := dumps_with "," ": " (Some 2%nat) 0.

(** The bytes kept, whether some were cut off, and their number. *)
Definition _read_captured_body (source : content) : res (list N * bool * nat) :=
  let limit := (_RESPONSE_LIMIT + 1)%nat in
  let? raw := match source with
              | Readable bytes broken => read_stream limit bytes broken
              | Chunked chunks broken => let? l := chunks_until limit chunks 0 broken in Ok (take limit l)
              | Parsed value => let? v := value in let? t := dumps_spaced v in Ok (utf8 t)
              | Plain bytes => Ok bytes
              end in
  Ok (take _RESPONSE_LIMIT raw, (_RESPONSE_LIMIT <? length raw)%nat, length raw).

(** *** Tokens *)

(** [re.sub(r"\[([0-9]+)\]", r".\1", path)]. *)
Fixpoint normalize_indices (fuel : nat) (path : string) : string :=
  match fuel with
  | O => path
  | S fuel =>
      match path with
      | EmptyString => EmptyString
      | String c r =>
          match (if Ascii.eqb c (Ascii.ascii_of_N 91) then
                   let '(digits, rest) := span is_digit r in
                   if empty_str digits then None
                   else match drop_prefix "]" rest with Some after => Some (digits, after) | None => None end
                 else None) with
          | Some (digits, after) => ("." ++ digits ++ normalize_indices fuel after)%string
          | None => String c (normalize_indices fuel r)
          end
      end
  end.
(** One part of the path; [int] raises [ValueError] where [isdigit] holds of other digits. *)
Definition token_step (current : pyval) (part : string) : res pyval :=
  let missing := Err (ValueError EmptyString) in
  match current with
  | PDict kvs => match kv_get part kvs with Some v => Ok v | None => missing end
  | PList l =>
      if negb (empty_str part) && all_chars is_digit part && (py_len part <=? 4300)%Z then
        match l !! N.to_nat (decimal 0 part) with Some v => Ok v | None => missing end
      else missing
  | _ => missing
  end.
Definition _extract_token (payload : pyval) (path : string) : res pyval :=
  let parts := split_on (Ascii.ascii_of_N 46) (normalize_indices (S (String.length path)) path) in
  if existsb empty_str parts then Err (ValueError EmptyString) else rfold token_step payload parts.

(** *** Redaction *)

Definition _SENSITIVE_RESPONSE_KEYS : list string := ["authorization"; "cookie"; "password"; "passwd"; "secret"; "token"].
Definition REDACTED : string := "[REDACTED]".
Definition sensitive (key : string) : bool := existsb (fun marker => has_substring marker (lower key)) _SENSITIVE_RESPONSE_KEYS.
Fixpoint _redact_response (value : pyval) : pyval :=
  match value with
  | PDict kvs => PDict (map (fun kv => (kv.1, if sensitive kv.1 then PStr REDACTED else _redact_response kv.2)) kvs)
  | PList l => PList (map _redact_response l)
  | _ => value
  end.

(** A match of the pattern of [_redact_text] at the start of a text: what it keeps and the
    rest. *)
Definition separator_char (c : Ascii.ascii) : bool := (code c =? 61)%N || (code c =? 58)%N.
Definition value_char (c : Ascii.ascii) : bool :=
  negb (is_space c || (code c =? 44)%N || (code c =? 59)%N || (code c =? 38)%N).
(** A prefix without regard to case, as it is written in the text. *)
Fixpoint drop_prefix_nocase (prefix s : string) : option (string * string) :=
  match prefix, s with
  | EmptyString, _ => Some (EmptyString, s)
  | String c p, String d r =>
      if Ascii.eqb (lower_char d) c then
        match drop_prefix_nocase p r with Some (a, b) => Some (String d a, b) | None => None end
      else None
  | _, EmptyString => None
  end.
Definition redact_at (s : string) : option (string * string) :=
  let after_marker '(word, rest) :=
    let '(before, rest) := span is_space rest in
    match rest with
    | String c rest =>
        if separator_char c then
          let '(after, rest) := span is_space rest in
          let '(secret, rest) := span value_char rest in
          if empty_str secret then None else Some ((word ++ before ++ String c after)%string, rest)
        else None
    | EmptyString => None
    end in
  match omap (fun marker => match drop_prefix_nocase marker s with Some m => after_marker m | None => None end)
          _SENSITIVE_RESPONSE_KEYS with
  | found :: _ => Some found
  | [] => None
  end.
Fixpoint redact_all (fuel : nat) (s : string) : string :=
  match fuel with
  | O => s
  | S fuel =>
      match redact_at s with
      | Some (kept, rest) => (kept ++ REDACTED ++ redact_all fuel rest)%string
      | None => match s with EmptyString => EmptyString | String c r => String c (redact_all fuel r) end
      end
  end.
Definition _redact_text (value : string) : string := redact_all (S (String.length value)) value.

End responses.

(** *** Details *)

Module ResponseDetails.
Record t := mk { body : option string; sample_body : pyval; body_kind : string; truncated : bool; body_bytes : Z }.
End ResponseDetails.

Section details.
  Context `{PyFloat}.

(** [raw.decode("utf-8")]: [None] where it fails. *)
Definition decode_text (raw : list N) : res (option string) :=
  match utf8_decode raw with
  | Some text => Ok (Some text)
  | None => if utf8_valid raw then unmodelled else Ok None
  end.
Definition _response_details (raw : list N) (truncated : bool) (body_bytes : Z) : res ResponseDetails.t :=
  if nilb raw then Ok (ResponseDetails.mk None PNone "empty" truncated body_bytes)
  else
    let? decoded := decode_text raw in
    match decoded with
    | None => Ok (ResponseDetails.mk None PNone "binary" truncated body_bytes)
    | Some text =>
        let? payload :=
          if truncated then Ok PNone
          else match loads text with
               | Ok v => Ok v
               | Err e => if bool_decide (e = JSONDecodeError) || bool_decide (e = UnicodeDecodeError) then Ok PNone else Err e
               end in
        match payload with
        | PNone => Ok (ResponseDetails.mk (Some (_redact_text text)) PNone "text" truncated body_bytes)
        | _ =>
            let redacted := _redact_response payload in
            let? printed := dumps_indented redacted in
            Ok (ResponseDetails.mk (Some printed) redacted "json" false body_bytes)
        end
    end.
End details.

(** ** Sending *)

(** *** [urlencode(query, doseq=True)] *)

Definition hex_digit (n : N) : string := String.substring (N.to_nat n) 1 "0123456789ABCDEF".
Definition quote_byte (b : N) : string :=
  let c := Ascii.ascii_of_N b in
  if is_alnum c || bool_decide (b ∈ [95; 46; 45; 126]%N) then String c EmptyString
  else if (b =? 32)%N then "+" else ("%" ++ hex_digit (b / 16) ++ hex_digit (b mod 16))%string.
Definition quote_plus (s : string) : string := join EmptyString (map quote_byte (utf8 s)).

Section sending.
  Context `{PyFloat}.

Definition query_values (v : pyval) : res (list string) :=
  match v with
  | PList l | PTuple l => rmap py_str l
  | PDict kvs | PFrozenMapping kvs => Ok (map fst kvs)
  | _ => let? s := py_str v in Ok [s]
  end.
Definition urlencode (query : list (string * pyval)) : res string :=
  let? parts := rmap (fun '(k, v) => let? vs := query_values v in
                                     Ok (map (fun x => (quote_plus k ++ "=" ++ quote_plus x)%string) vs)) query in
  Ok (join "&" (concat parts)).
End sending.

(** What a connection pool is given: the address, the host whose certificate is required,
    and the request; it follows no redirect and does not retry. *)
Module PinnedRequest.
Record t := mk {
  address : string; port : Z; certificate_host : option string; method : string; path : string;
  body : option (list N); headers : list (string * pyval); timeout : pyval }.
End PinnedRequest.
(** The arguments of an injected [request_callable]. *)
Module RequestCall.
Record t := mk {
  method : string; url : string; headers : list (string * pyval); params : list (string * pyval);
  json : pyval; timeout : pyval }.
End RequestCall.

(** [urlopen] of a new pool and the exception classes of the two libraries. *)
Class Network (W : Type) := {
  urlopen : PinnedRequest.t -> M W LoadResponse.t;
  is_urllib3_error : exn -> bool; is_requests_error : exn -> bool }.
Definition HTTPError : exn := OtherException "urllib3.exceptions.HTTPError".

(** The outcome of one request. *)
Module Attempt.
Record t := mk { status : option Z; success : bool; error : option string; details : option ResponseDetails.t }.
End Attempt.

Module LoadTestExecutor.
Record t (W : Type) := mk {
  _request : option (RequestCall.t -> M W LoadResponse.t); _max_workers : Z; _allowed_private_hosts : list string }.
Arguments mk {W}.
Arguments _request {W}.
Arguments _max_workers {W}.
Arguments _allowed_private_hosts {W}.

Definition init {W} (request_callable : option (RequestCall.t -> M W LoadResponse.t)) (max_workers : Z)
    (allowed_private_hosts : list string) : res (t W) :=
  if negb ((1 <=? max_workers) && (max_workers <=? 100))%Z then Err (ValueError "max_workers must be between 1 and 100")
  else Ok (mk request_callable max_workers (map (fun host => lower (strip host)) allowed_private_hosts)).

Section executor.
  Context `{PyFloat} `{Ipaddress} `{AddressKinds} `{Resolver}.
  Context {W : Type} `{Network W} (self : t W).

(** What is sent to every address. *)
Definition pinned_request (parsed : SplitResult.t) (target : list (string * pyval)) (timeout : pyval) : res (string -> PinnedRequest.t) :=
  let? port := effective_port parsed in
  let? query_map := mapping_entry "query" target in
  let? query := urlencode query_map in
  let existing := SplitResult.query parsed in
  let path := if empty_str (SplitResult.path parsed) then "/" else SplitResult.path parsed in
  let path := if empty_str existing && empty_str query then path
              else (path ++ "?" ++ join "&" (List.filter (fun x => negb (empty_str x)) [existing; query]))%string in
  let? raw_headers := mapping_entry "headers" target in
  let? headers := rmap (fun '(k, v) => let? s := py_str v in Ok (k, PStr s)) raw_headers in
  let has name := existsb (fun kv : string * pyval => bool_decide (lower kv.1 = name)) in
  let headers := if has "host" headers then headers else kv_set "Host" (PStr (SplitResult.netloc parsed)) headers in
  let? raw_body := entry "body" target in
  let? '(payload, headers) :=
    match raw_body with
    | PNone => Ok (None, headers)
    | _ => let? text := dumps false false raw_body in
           Ok (Some (utf8 text), if has "content-type" headers then headers
                                 else kv_set "Content-Type" (PStr "application/json") headers)
    end in
  let? method := text_entry "method" target in
  let secure := bool_decide (lower (SplitResult.scheme parsed) = "https") in
  Ok (fun address => PinnedRequest.mk address port (if secure then Split.hostname parsed else None) method path
                       payload headers timeout).

(** One address after the other until one answers. *)
Fixpoint try_addresses (make : string -> PinnedRequest.t) (addresses : list string) : M W LoadResponse.t :=
  match addresses with
  | [] => raise HTTPError
  | address :: rest =>
      try_except (urlopen (make address)) (fun e => is_urllib3_error e || is_OSError e) (fun _ => try_addresses make rest)
  end.
Definition _request_pinned (d : destination) (target : list (string * pyval)) (timeout : pyval) : M W LoadResponse.t :=
  let* make := lift (pinned_request d.1 target timeout) in try_addresses make d.2.

Definition send (target : list (string * pyval)) (d : destination) (timeout : pyval) : M W LoadResponse.t :=
  match _request self with
  | None => _request_pinned d target timeout
  | Some request =>
      let* method := lift (text_entry "method" target) in
      let* url := lift (text_entry "url" target) in
      let* headers := lift (mapping_entry "headers" target) in
      let* params := lift (mapping_entry "query" target) in
      let* json := lift (entry "body" target) in
      request (RequestCall.mk method url headers params json timeout)
  end.

(** The exceptions of a request that failed. *)
Definition request_error (e : exn) : bool :=
  is_requests_error e || is_urllib3_error e || bool_decide (e = HTTPError) || is_OSError e
  || bool_decide (e = TypeError) || is_ValueError e.
Definition failed_request : Attempt.t := Attempt.mk None false (Some "request_error") None.

(** [status in set(target["expected_statuses"])]. *)
Definition status_expected (status : Z) (target : list (string * pyval)) : res bool :=
  let? expected := entry "expected_statuses" target in
  match expected with
  | PList l => Ok (existsb (py_eqb (PInt status)) l)
  | _ => Err TypeError
  end.
Definition captured_details (response : LoadResponse.t) : res (list N * bool * ResponseDetails.t) :=
  let? '(raw, truncated, body_bytes) := _read_captured_body (LoadResponse.source response) in
  let? details := _response_details raw truncated (Z.of_nat body_bytes) in
  Ok (raw, truncated, details).

Definition _request_target (target : list (string * pyval)) (d : destination) (timeout : pyval) : M W Attempt.t :=
  try_except
    (let* response := send target d timeout in
     let* success := lift (status_expected (LoadResponse.status response) target) in
     let* ' (_, _, details) := lift (captured_details response) in
     ret (Attempt.mk (Some (LoadResponse.status response)) success
            (if success then None else Some "unexpected_status") (Some details)))
    request_error (fun _ => ret failed_request).

(** The variables the extractors read from the response. *)
Definition extract_variables (raw : list N) (truncated : bool) (extractors : list (string * pyval)) : res (list (string * pyval)) :=
  if truncated then Err (ValueError EmptyString)
  else
    let? payload := loads_bytes raw in
    rfold (fun acc '(name, path) =>
      match path with
      | PStr path => let? v := _extract_token payload path in Ok (kv_set name v acc)
      | _ => Err TypeError
      end) [] extractors.
Definition _request_scenario_target (target : list (string * pyval)) (d : destination) (timeout : pyval)
    : M W (Attempt.t * list (string * pyval)) :=
  try_except
    (let* response := send target d timeout in
     let status := LoadResponse.status response in
     let* ' (raw, truncated, details) := lift (captured_details response) in
     let* success := lift (status_expected status target) in
     let attempt success error := Attempt.mk (Some status) success error (Some details) in
     if negb success then ret (attempt false (Some "unexpected_status"), [])
     else
       let* extractors := lift (mapping_entry "extractors" target) in
       if nilb extractors then ret (attempt true None, [])
       else
         match extract_variables raw truncated extractors with
         | Ok extracted => ret (attempt true None, extracted)
         | Err e => if bool_decide (e = TypeError) || is_ValueError e then ret (attempt false (Some "extractor_error"), [])
                    else raise e
         end)
    request_error (fun _ => ret (failed_request, [])).

(** *** Authentication *)

Definition login_failed {A} : res A := execution_failed "Load test login request failed" "login_request_failed" None.
Definition is_login_error (e : exn) : bool :=
  match e with LoadTestExecutionError _ code _ => String.prefix "login_" code | _ => false end.

Definition login_target (config : LoadTestAuthConfiguration.t) (url account password : string) : list (string * pyval) :=
  let data := kv_set (LoadTestAuthConfiguration.password_field config) (PStr password)
                (kv_set (LoadTestAuthConfiguration.account_field config) (PStr account) (LoadTestAuthConfiguration.login_body config)) in
  [("method", PStr "POST"); ("url", PStr url); ("headers", PDict []); ("query", PDict []); ("body", PDict data)].

(** The token of the answer. *)
Definition token_of (config : LoadTestAuthConfiguration.t) (response : LoadResponse.t) : res string :=
  let status := LoadResponse.status response in
  if ((status <? 200) || (300 <=? status))%Z
  then execution_failed "Load test login returned an unsuccessful status" "login_http_error" (Some status)
  else
    let? payload :=
      match (let? raw := _read_limited_body (LoadResponse.source response) in
             let? decoded := decode_text raw in
             match decoded with Some text => loads text | None => Err UnicodeDecodeError end) with
      | Ok v => Ok v
      | Err e => if bool_decide (e = TypeError) || is_ValueError e
                 then execution_failed "Load test login response is not valid JSON" "login_response_invalid" None else Err e
      end in
    let? token :=
      match _extract_token payload (LoadTestAuthConfiguration.token_path config) with
      | Ok v => Ok v
      | Err e => if bool_decide (e = TypeError) || is_ValueError e
                 then execution_failed "Load test login token path was not found" "login_token_path_missing" None else Err e
      end in
    match token with
    | PStr text => if empty_str text then execution_failed "Load test login token is not a non-empty string" "login_token_invalid" None
                   else Ok text
    | _ => execution_failed "Load test login token is not a non-empty string" "login_token_invalid" None
    end.

Definition _login (config : LoadTestAuthConfiguration.t) (timeout : pyval) : M W string :=
  try_except
    (match LoadTestAuthConfiguration.login_url config, LoadTestAuthConfiguration.account config,
           LoadTestAuthConfiguration.password config with
     | Some login_url, Some account, Some password =>
         if empty_str login_url
         then lift (execution_failed "Load test login configuration is incomplete" "login_configuration_invalid" None)
         else
           let* url := lift (_resolve_url login_url (LoadTestAuthConfiguration.base_url config)) in
           let* d := lift (_validate_public_url (_allowed_private_hosts self) url) in
           let* response := send (login_target config url account password) d timeout in
           lift (token_of config response)
     | _, _, _ => lift (execution_failed "Load test login configuration is incomplete" "login_configuration_invalid" None)
     end)
    any_exn
    (fun e => if is_login_error e then raise e else lift login_failed).

Definition _authentication_token (config : option LoadTestAuthConfiguration.t) (timeout : pyval) : M W (option string) :=
  match config with
  | None => ret None
  | Some config =>
      match LoadTestAuthConfiguration.mode config with
      | None => ret None
      | Some LoadTestAuthMode.TOKEN =>
          match LoadTestAuthConfiguration.token config with
          | Some token => if empty_str token then lift (execution_failed "Load test authentication failed" "execution_error" None)
                          else ret (Some token)
          | None => lift (execution_failed "Load test authentication failed" "execution_error" None)
          end
      | Some LoadTestAuthMode.LOGIN => let* token := _login config timeout in ret (Some token)
      end
  end.

Definition configuration_invalid {A} : res A :=
  execution_failed "Load test authentication configuration is invalid" "execution_error" None.
(** [0.1 <= timeout <= 60]. *)
Definition timeout_ok (timeout : pyval) : bool :=
  number_le (PFloat 3602879701896397 (-55)) timeout && number_le timeout (PInt 60).
Definition test_authentication (config : LoadTestAuthConfiguration.t) (timeout : pyval) : M W LoadTestAuthMode.t :=
  match LoadTestAuthConfiguration.mode config, LoadTestAuthConfiguration.base_url config with
  | Some mode, Some base_url =>
      if negb (timeout_ok timeout) || empty_str base_url then lift configuration_invalid
      else
        (if bool_decide (mode = LoadTestAuthMode.TOKEN)
         then let* d := lift (_validate_public_url (_allowed_private_hosts self) base_url) in ret tt else ret tt) ;;;
        let* token := _authentication_token (Some config) timeout in
        match token with
        | None => lift configuration_invalid
        | Some token =>
            let* headers := lift (_validated_headers [(LoadTestAuthConfiguration.auth_header config,
              PStr (strip (LoadTestAuthConfiguration.auth_prefix config ++ " " ++ token)%string))]) in
            ret mode
        end
  | _, _ => lift configuration_invalid
  end.
End executor.
End LoadTestExecutor.
