(* ===== verification/LoadRequestTheorems.v ===== *)
(** * Properties of the requests of a load test

    Where they go, what is kept of the answers, and what credentials they carry. *)
From stdpp Require Import gmap strings pretty.
From S2P Require Import Prelude PyDict PyText TextFacts Protocol Versioned EnvironmentCrypto Environments Templates Json Urls Files JsonFacts LoadAuth LoadTests Agent HttpAdapter HttpTheorems LoadRequests.
Open Scope string_scope.
Open Scope list_scope.

(** ** Destinations *)

(** A network that notes what it was asked to open. *)
#[export] Instance recording_network {W} (inner : Network W) : Network (list PinnedRequest.t * W) := {
  urlopen := fun request s => let '(r, w) := urlopen request s.2 in (r, (s.1 ++ [request], w));
  is_urllib3_error := is_urllib3_error (Network := inner); is_requests_error := is_requests_error (Network := inner) }.

Section destinations.
  Context `{PyFloat} `{Ipaddress} `{AddressKinds} `{Resolver} (hosts : list string).

(** The addresses of a host: itself or what it resolves to, read as addresses. *)
Definition reaches (host address : string) : Prop :=
  if bool_decide (ip_version host = None)
  then exists found, resolve_host host = Ok found /\ address ∈ found else address = host.

(** An address the host may be reached at. *)
Definition address_fits (host address : string) : Prop :=
  let a := default address (ipv4_mapped address) in
  (forall network, network ∈ ["0.0.0.0/8"; "100.64.0.0/10"; "192.0.0.0/24"] -> ip_version a = Some 4%Z -> ip_in_network a network = false)
  /\ is_loopback a = false /\ is_link_local a = false /\ is_multicast a = false /\ is_reserved a = false /\ is_unspecified a = false
  /\ (lower host ∈ hosts \/ (ip_is_global a = true /\ is_private a = false)).

(** Requests go to such an address of the host of an HTTP URL, to its port, and demand its
    certificate. *)
Definition permitted (request : PinnedRequest.t) : Prop :=
  exists url parsed host,
    urlsplit url = Ok parsed /\ lower (SplitResult.scheme parsed) ∈ ["http"; "https"] /\ Split.hostname parsed = Some host
    /\ Split.username parsed = None /\ Split.password parsed = None
    /\ reaches host (PinnedRequest.address request) /\ address_fits host (PinnedRequest.address request)
    /\ effective_port parsed = Ok (PinnedRequest.port request)
    /\ (lower (SplitResult.scheme parsed) = "https" ->
        exists name, PinnedRequest.certificate_host request = Some name /\ lower name = lower host).

Lemma address_allowed_fits host a : address_allowed hosts host a = true -> address_fits host a.
Proof.
  unfold address_fits. set (c := default a (ipv4_mapped a)). cbv zeta.
  assert (explicitly_blocked c = false -> forall network, network ∈ _EXPLICITLY_BLOCKED_NETWORKS -> ip_version c = Some 4%Z ->
    ip_in_network c network = false) as Hblocked.
  { unfold explicitly_blocked. intros Hb network Hin Hv. rewrite bool_decide_true in Hb by done. cbn [andb] in Hb.
    apply not_true_iff_false. intros E. apply not_true_iff_false in Hb. apply Hb, existsb_exists. exists network.
    split; [by apply list_elem_of_In | done]. }
  unfold address_allowed. case_bool_decide as Hhost.
  - unfold _is_allowed_private_address, candidate_of. fold c. cbv zeta. intros Hall.
    repeat (apply andb_true_iff in Hall as [Hall ?]). rewrite ?negb_true_iff in *. split_and!; auto.
  - unfold _is_public_address, candidate_of. fold c. cbv zeta. destruct (explicitly_blocked c); [done |]. intros Hall.
    repeat (apply andb_true_iff in Hall as [Hall ?]). rewrite ?negb_true_iff in *. split_and!; auto.
Qed.

(** A destination whose addresses belong to a checked URL with the same place. *)
Definition sound (d : destination) : Prop :=
  exists url parsed host,
    urlsplit url = Ok parsed /\ lower (SplitResult.scheme parsed) ∈ ["http"; "https"] /\ Split.hostname parsed = Some host
    /\ Split.username parsed = None /\ Split.password parsed = None
    /\ (forall a, a ∈ d.2 -> reaches host a /\ address_fits host a)
    /\ effective_port d.1 = effective_port parsed
    /\ lower (SplitResult.scheme d.1) = lower (SplitResult.scheme parsed)
    /\ lower (default EmptyString (Split.hostname d.1)) = lower host.

Lemma addresses_of_reaches host addresses a : addresses_of host = Ok addresses -> a ∈ addresses -> reaches host a.
Proof.
  unfold addresses_of, reaches, ip_address at 1. destruct (ip_version host) eqn:Ev.
  - intros [= <-] ->%list_elem_of_singleton. by rewrite bool_decide_false.
  - destruct (resolve_host host) as [found|] eqn:Er; [| done]. cbn [rbind]. intros [-> _]%ip_addresses_Ok Hin.
    rewrite bool_decide_true by done. by exists found.
Qed.

(** What a checked destination is. *)
Lemma checked_destination_Ok allowed url d : checked_destination allowed url = Ok d ->
  exists host, urlsplit url = Ok d.1 /\ lower (SplitResult.scheme d.1) ∈ ["http"; "https"] /\ Split.hostname d.1 = Some host
    /\ Split.username d.1 = None /\ Split.password d.1 = None /\ forall a, a ∈ d.2 -> reaches host a /\ allowed host a = true.
Proof.
  unfold checked_destination. destruct (urlsplit url) as [parsed|] eqn:Eu; [| done]. cbn [rbind].
  destruct (Split.hostname parsed) as [host|] eqn:Eh; [| done].
  case_bool_decide as Hs; [| done]. case_bool_decide as Hu; [| done]. case_bool_decide as Hp; [| done]. cbn [negb orb].
  destruct (Split.port parsed) as [port|]; [| done]. cbn [rbind].
  destruct (addresses_of host) as [addresses|] eqn:Ea; [| done]. cbn [rbind].
  destruct (nilb addresses); [done |]. cbn [orb]. destruct (existsb _ addresses) eqn:Ex; [done |]. intros [= <-].
  exists host. cbn [fst snd]. split_and!; try done. intros a Hin.
  split; [by eapply addresses_of_reaches |]. destruct (allowed host a) eqn:E; [done |].
  exfalso. apply not_true_iff_false in Ex. apply Ex, existsb_exists. exists a. split; [by apply list_elem_of_In | by rewrite E].
Qed.
Lemma validated_sound url d : _validate_public_url hosts url = Ok d -> sound d.
Proof.
  unfold _validate_public_url. destruct (checked_destination _ url) as [x|] eqn:E; [| done]. intros [= ->].
  apply checked_destination_Ok in E as (host & E1 & E2 & E3 & E4 & E5 & Hall). exists url, d.1, host. rewrite E3.
  split_and!; try done. intros a [Hr Ha]%Hall. split; [done | by apply address_allowed_fits].
Qed.

Lemma rendered_sound url d d' : _rendered_destination url d = Ok d' -> sound d -> sound d'.
Proof.
  destruct d as [pinned addresses]. unfold _rendered_destination. destruct (urlsplit url) as [rendered|]; [| done]. cbn [rbind].
  destruct (effective_port pinned) as [p|] eqn:Ep; [| done]. destruct (effective_port rendered) as [r|] eqn:Er; [| done]. cbn [rbind].
  case_bool_decide as Heq; [| done]. injection Heq as E1 E2 E3. intros [= <-] (url0 & parsed & host & H1' & H2' & H3' & H4' & H5' & H6' & H7' & H8' & H9').
  cbn [fst snd] in *. exists url0, parsed, host. cbn [fst snd]. split_and!; try done; congruence.
Qed.

Lemma pinned_permitted d target timeout make a : sound d -> LoadTestExecutor.pinned_request d.1 target timeout = Ok make -> a ∈ d.2 -> permitted (make a).
Proof.
  intros (url & parsed & host & E1 & E2 & E3 & E4 & E5 & Hall & Eport & Escheme & Ehost) Hmake Hin.
  destruct (Hall a Hin) as [Hr Hf].
  assert (PinnedRequest.address (make a) = a /\ effective_port d.1 = Ok (PinnedRequest.port (make a))
    /\ PinnedRequest.certificate_host (make a)
       = if bool_decide (lower (SplitResult.scheme d.1) = "https") then Split.hostname d.1 else None) as (Ea & Ep & Ec).
  { revert Hmake. unfold LoadTestExecutor.pinned_request. destruct (effective_port d.1) as [port|]; [| done]. cbn [rbind].
    destruct (mapping_entry "query" target); [| done]. cbn [rbind]. destruct (urlencode _); [| done]. cbn [rbind]. cbv zeta.
    destruct (mapping_entry "headers" target); [| done]. cbn [rbind]. destruct (rmap _ _); [| done]. cbn [rbind].
    destruct (entry "body" target) as [raw|]; [| done]. cbn [rbind].
    match goal with |- context [rbind ?x _] => destruct x as [[payload headers]|]; [| done] end. cbn [rbind].
    destruct (text_entry "method" target); [| done]. cbn [rbind]. by intros [= <-]. }
  exists url, parsed, host. rewrite Ea, Ec, <- Ep, <- Escheme, Eport. split_and!; try done; try by rewrite Escheme.
  intros Hs. rewrite bool_decide_true by done. destruct (Split.hostname d.1) as [name|]; [by exists name |].
  exfalso. cbn in Ehost. unfold Split.hostname in E3. destruct (empty_str (Split.hostinfo parsed).1) eqn:Ee; [done |].
  assert (lower host = EmptyString -> host = EmptyString) as Hl by by destruct host.
  specialize (Hl (eq_sym Ehost)). subst host. revert E3 Ee. destruct (Split.hostinfo parsed).1 as [|c r]; [done |].
  destruct (cut percent (String c r)) as [[x y]|]; intros [= E3]; by destruct (lower x).
Qed.
End destinations.

(** ** What an executor sends *)

(** What follows a pure call may rely on its result. *)
Lemma steps_lift_bind {S A B} (R : S -> S -> Prop) `{!PreOrder R} (r : res A) (k : A -> M S B) :
  (forall a, r = Ok a -> steps R (k a)) -> steps R (bind (lift r) k).
Proof. intros Hk s. unfold bind, lift. destruct r as [a|e]; [by apply Hk | cbn; reflexivity]. Qed.

Section sends.
  Context `{PyFloat} `{Ipaddress} `{AddressKinds} `{Resolver} {W : Type} `{Network W} (self : LoadTestExecutor.t W).
  Context (R : W -> W -> Prop) `{!PreOrder R}.
  Import LoadTestExecutor.
  Hypothesis Hself : _request self = None.
  Hypothesis Hopen : forall request, permitted (_allowed_private_hosts self) request -> steps R (urlopen request).

Lemma send_permitted target d timeout : sound (_allowed_private_hosts self) d -> steps R (send self target d timeout).
Proof.
  intros Hd. unfold send, _request_pinned. rewrite Hself. destruct (pinned_request d.1 target timeout) as [make|e] eqn:E.
  - intros w. unfold bind, lift. pose proof (fun a => pinned_permitted _ _ _ _ _ a Hd E) as Hp.
    revert w. change (steps R (try_addresses make d.2)). induction (d.2) as [|a rest IH]; cbn [try_addresses]; [by_steps |].
    assert (steps R (urlopen (make a))) by (apply Hopen, Hp; left).
    assert (steps R (try_addresses make rest)) by (apply IH; intros x Hx; apply Hp; by right). by_steps.
  - intros w. unfold bind, lift. reflexivity.
Qed.
Lemma request_target_permitted target d timeout : sound (_allowed_private_hosts self) d -> steps R (_request_target self target d timeout).
Proof. intros Hd%(fun x => send_permitted target d timeout x). unfold _request_target. by_steps. Qed.
Lemma request_scenario_permitted target d timeout : sound (_allowed_private_hosts self) d ->
  steps R (_request_scenario_target self target d timeout).
Proof. intros Hd%(fun x => send_permitted target d timeout x). unfold _request_scenario_target. cbv zeta. by_steps. Qed.

Lemma login_permitted config timeout : steps R (_login self config timeout).
Proof.
  unfold _login. apply steps_try; [typeclasses eauto | | intros e; by_steps].
  destruct (LoadTestAuthConfiguration.login_url config) as [login_url|], (LoadTestAuthConfiguration.account config) as [account|],
    (LoadTestAuthConfiguration.password config) as [password|]; try (by_steps; fail).
  destruct (empty_str login_url); [by_steps |]. apply steps_lift_bind; [typeclasses eauto |]. intros url _.
  apply steps_lift_bind; [typeclasses eauto |]. intros d Hd%validated_sound.
  pose proof (fun target => send_permitted target d timeout Hd). by_steps.
Qed.
Lemma token_permitted config timeout : steps R (_authentication_token self config timeout).
Proof. pose proof login_permitted. unfold _authentication_token. by_steps. Qed.

Lemma test_authentication_permitted config timeout : steps R (test_authentication self config timeout).
Proof. pose proof token_permitted. unfold test_authentication. by_steps. Qed.
End sends.

(** ** Redaction *)

(** The key has one of six words in it, in any case. *)
Definition names_credential (key : string) : Prop :=
  exists word before after,
    word ∈ ["authorization"; "cookie"; "password"; "passwd"; "secret"; "token"] /\ lower key = (before ++ word ++ after)%string.

Lemma drop_prefix_spec prefix s rest : drop_prefix prefix s = Some rest <-> s = (prefix ++ rest)%string.
Proof.
  revert s. induction prefix as [|c p IH]; intros s; cbn; [by split; [intros [= ->] | intros ->] |].
  destruct s as [|d s]; [done |]. destruct (Ascii.ascii_dec c d) as [->|Hne]; [| by split; [| intros [=]]].
  rewrite IH. split; [by intros -> | by intros [= ->]].
Qed.
Lemma has_substring_spec needle s : has_substring needle s = true <-> exists before after, s = (before ++ needle ++ after)%string.
Proof.
  induction s as [|c s IH]; cbn [has_substring]; destruct (drop_prefix needle _) as [rest|] eqn:E.
  - apply drop_prefix_spec in E. split; [by exists EmptyString, rest | done].
  - split; [done |]. intros ([|b before] & after & Es); [rewrite (proj2 (drop_prefix_spec needle _ after) Es) in E; done | done].
  - apply drop_prefix_spec in E. split; [by exists EmptyString, rest | done].
  - rewrite IH. split.
    + intros (before & after & ->). by exists (String c before), after.
    + intros ([|b before] & after & Es); [rewrite (proj2 (drop_prefix_spec needle _ after) Es) in E; done |]. injection Es as -> ->. by exists before, after.
Qed.
Lemma sensitive_spec key : sensitive key = true <-> names_credential key.
Proof.
  unfold sensitive, names_credential. rewrite existsb_exists. split.
  - intros (word & Hin & (before & after & E)%has_substring_spec). exists word, before, after. by rewrite list_elem_of_In.
  - intros (word & before & after & Hin & E). exists word. rewrite list_elem_of_In in Hin. split; [exact Hin |].
    apply has_substring_spec. by exists before, after.
Qed.

(** The mark is all there is under a key that names a credential, in the value at any depth. *)
Fixpoint redacted (v : pyval) : Prop :=
  match v with
  | PDict kvs => (fix all (kvs : list (string * pyval)) : Prop :=
      match kvs with
      | [] => True
      | (k, x) :: rest => (names_credential k -> x = PStr "[REDACTED]") /\ (~ names_credential k -> redacted x) /\ all rest
      end) kvs
  | PList l => (fix all (l : list pyval) : Prop := match l with [] => True | x :: rest => redacted x /\ all rest end) l
  | _ => True
  end.
(** The same value where no such key leads. *)
Fixpoint agrees (v w : pyval) : Prop :=
  match v with
  | PDict kvs => exists kvs', w = PDict kvs' /\ (fix all (kvs kvs' : list (string * pyval)) : Prop :=
      match kvs, kvs' with
      | [], [] => True
      | (k, x) :: rest, (k', x') :: rest' => k' = k /\ (~ names_credential k -> agrees x x') /\ all rest rest'
      | _, _ => False
      end) kvs kvs'
  | PList l => exists l', w = PList l' /\ (fix all (l l' : list pyval) : Prop :=
      match l, l' with
      | [], [] => True
      | x :: rest, x' :: rest' => agrees x x' /\ all rest rest'
      | _, _ => False
      end) l l'
  | _ => w = v
  end.

(** Redaction hides the value of every key that names a credential, at any depth, and
    changes nothing else. *)
Lemma redact_response_spec value : redacted (_redact_response value) /\ agrees value (_redact_response value).
Proof.
  induction value as [| | | | | | |l IH|l IH|l IH|l IH|kvs IH|kvs IH] using pyval_ind; cbn [_redact_response redacted agrees]; try done.
  - split; [| eexists; split; [done |]]; induction IH as [|x l [Hr Ha] _ IHl]; cbn [map]; by split.
  - split; [| eexists; split; [done |]]; induction IH as [|[k x] l [Hr Ha] _ IHl]; cbn [map fst snd]; try done;
      pose proof (sensitive_spec k) as Hs; split_and!; try done; intros Hk.
    + by rewrite (proj2 Hs Hk).
    + destruct (sensitive k); [by destruct Hk; apply Hs | exact Hr].
    + destruct (sensitive k); [by destruct Hk; apply Hs | exact Ha].
Qed.

(** C31. What is kept of an answer. Of a complete JSON answer, other than [null], it is the
    answer with the mark under every key that names a credential, at any depth, and as it
    came everywhere else; the text kept is the text of that. Of any other text, a JSON answer
    cut at the limit among them, it is the text after [_redact_text], which can show
    credentials ([truncated_json_not_redacted]); of no text, nothing. *)
Theorem redaction_complete `{PyFloat} raw truncated body_bytes details :
  _response_details raw truncated body_bytes = Ok details ->
  (forall text payload, utf8_decode raw = Some text -> truncated = false -> loads text = Ok payload -> payload <> PNone ->
     redacted (ResponseDetails.sample_body details) /\ agrees payload (ResponseDetails.sample_body details)
     /\ exists printed, dumps_indented (ResponseDetails.sample_body details) = Ok printed
          /\ ResponseDetails.body details = Some printed)
  /\ (forall text, utf8_decode raw = Some text -> raw <> [] ->
        truncated = true \/ loads text = Ok PNone \/ loads text = Err JSONDecodeError ->
        ResponseDetails.sample_body details = PNone /\ ResponseDetails.body details = Some (_redact_text text))
  /\ (utf8_decode raw = None \/ raw = [] ->
        ResponseDetails.sample_body details = PNone /\ ResponseDetails.body details = None).
Proof.
  unfold _response_details, decode_text. destruct (nilb raw) eqn:En.
  { destruct raw; [| done]. intros [= <-]. split_and!; [| done | done]. intros text payload [= <-] _ Hl. by vm_compute in Hl. }
  assert (raw <> []) as Hne by by destruct raw.
  destruct (utf8_decode raw) as [text|]; cbn [rbind].
  2: { destruct (utf8_valid raw); [done |]. cbn [rbind]. intros [= <-]. by split_and!. }
  destruct truncated; cbn [rbind].
  { intros [= <-]. split_and!; [done | by intros ? [= <-] | by intros [|]]. }
  intros E. split_and!; [| | by intros [|]].
  - intros t payload [= <-] _ Hl Hnone. rewrite Hl in E. cbn [rbind] in E.
    assert ((let? printed := dumps_indented (_redact_response payload) in
             Ok (ResponseDetails.mk (Some printed) (_redact_response payload) "json" false body_bytes)) = Ok details) as E'
      by by destruct payload.
    apply rbind_Ok in E' as (printed & Hp & [= <-]). cbn. destruct (redact_response_spec payload). split_and!; [done.. |]. by exists printed.
  - intros t [= <-] _ [|[Hl|Hl]]; [done | |]; rewrite Hl in E; cbn in E; by injection E as <-.
Qed.

(** ** Fuel

    The fuel of the substitutions is enough: more changes nothing. *)

Lemma span_shorter p s a b : span p s = (a, b) -> (String.length b <= String.length s)%nat.
Proof. intros E. pose proof (span_length p s) as Hl. rewrite E in Hl. cbn in Hl. lia. Qed.

Lemma dynamic_shorter s expression after : dynamic_at s = Some (expression, after) -> (String.length after < String.length s)%nat.
Proof.
  unfold dynamic_at. destruct (drop_prefix "{{$" s) as [inner|] eqn:E; [| done]. apply drop_prefix_length in E; [| done].
  destruct (span _ inner) as [name rest] eqn:Es. apply span_shorter in Es. destruct (expression_ok name); [| done].
  destruct (drop_prefix "}}" rest) as [a|] eqn:Ed; [| done]. apply drop_prefix_length in Ed; [| done]. intros [= _ <-]. lia.
Qed.
Lemma substitute_dynamic_fuel `{PyFloat} {R} `{Entropy R} sequence n : forall m s r,
  (String.length s < n)%nat -> (String.length s < m)%nat -> substitute_dynamic (R:=R) n sequence s r = substitute_dynamic m sequence s r.
Proof.
  induction n as [|n IH]; [lia |]. intros [|m] s r Hn Hm; [lia |]. cbn [substitute_dynamic].
  destruct (dynamic_at s) as [[expression after]|] eqn:E.
  - apply dynamic_shorter in E. unfold bind, lift. destruct (generate sequence expression r) as [[v|e] r1]; [| done].
    destruct (_stringify_dynamic_value v); [| done]. by rewrite (IH m) by lia.
  - destruct s as [|c s]; [done |]. cbn in Hn, Hm. unfold bind. by rewrite (IH m) by lia.
Qed.

Lemma nocase_shorter prefix s a b : drop_prefix_nocase prefix s = Some (a, b) -> (String.length b <= String.length s)%nat.
Proof.
  revert s a b. induction prefix as [|c p IH]; intros s a b; cbn [drop_prefix_nocase]; [by intros [= <- <-] |].
  destruct s as [|d s]; [done |]. destruct (Ascii.eqb _ c); [| done]. destruct (drop_prefix_nocase p s) as [[x y]|] eqn:E; [| done].
  intros [= <- <-]. apply IH in E. cbn. lia.
Qed.
Lemma redact_at_shorter s kept rest : redact_at s = Some (kept, rest) -> (String.length rest < String.length s)%nat.
Proof.
  unfold redact_at. destruct (omap _ _) as [|x l] eqn:E; [done |]. intros [= ->].
  assert ((kept, rest) ∈ (kept, rest) :: l) as Hin by left. rewrite <- E in Hin.
  apply list_elem_of_omap in Hin as (marker & _ & Hm). destruct (drop_prefix_nocase marker s) as [[word s1]|] eqn:E1; [| done].
  apply nocase_shorter in E1. destruct (span is_space s1) as [before s2] eqn:E2. apply span_shorter in E2.
  destruct s2 as [|c s2]; [done |]. destruct (separator_char c); [| done].
  destruct (span is_space s2) as [after s3] eqn:E3. apply span_shorter in E3.
  destruct (span value_char s3) as [secret s4] eqn:E4. apply span_shorter in E4.
  destruct (empty_str secret); [done |]. injection Hm as _ <-. cbn in E2. lia.
Qed.
Lemma redact_all_fuel n : forall m s, (String.length s < n)%nat -> (String.length s < m)%nat -> redact_all n s = redact_all m s.
Proof.
  induction n as [|n IH]; [lia |]. intros [|m] s Hn Hm; [lia |]. cbn [redact_all].
  destruct (redact_at s) as [[kept rest]|] eqn:E; [apply redact_at_shorter in E; by rewrite (IH m) by lia |].
  destruct s as [|c s]; [done |]. cbn in Hn, Hm. by rewrite (IH m) by lia.
Qed.

Lemma normalize_indices_fuel n : forall m s, (String.length s < n)%nat -> (String.length s < m)%nat ->
  normalize_indices n s = normalize_indices m s.
Proof.
  induction n as [|n IH]; [lia |]. intros [|m] s Hn Hm; [lia |]. cbn [normalize_indices].
  destruct s as [|c s]; [done |]. cbn in Hn, Hm. destruct (if Ascii.eqb c _ then _ else None) as [[digits after]|] eqn:E;
    [| by rewrite (IH m) by lia].
  destruct (Ascii.eqb c _); [| done]. destruct (span is_digit s) as [d rest] eqn:Es. apply span_shorter in Es.
  destruct (empty_str d); [done |]. destruct (drop_prefix "]" rest) as [a|] eqn:Ed; [| done].
  apply drop_prefix_length in Ed; [| done]. injection E as _ <-. by rewrite (IH m) by lia.
Qed.

(** ** Logins *)

Lemma token_of_text `{PyFloat} config response token : LoadTestExecutor.token_of config response = Ok token -> token <> EmptyString.
Proof.
  unfold LoadTestExecutor.token_of, execution_failed. destruct (_ || _); [done |].
  match goal with |- rbind ?x _ = _ -> _ => destruct x as [payload|] end; [| done]. cbn [rbind].
  match goal with |- rbind ?x _ = _ -> _ => destruct x as [v|] end; [| done]. cbn [rbind].
  destruct v; try done. destruct (empty_str s) eqn:E; [done |]. intros [= <-] ->. done.
Qed.
Lemma prefix_rest p code : String.prefix p code = true -> exists rest, code = (p ++ rest)%string.
Proof.
  revert code. induction p as [|c p IH]; intros code; [by exists code |]. destruct code as [|d code]; [done |].
  cbn [String.prefix]. destruct (Ascii.ascii_dec c d) as [->|]; [| done]. intros (rest & ->)%IH. by exists rest.
Qed.

(** A login ends in a token that is a non-empty text, or in an error of the load test
    whose code names the login; in nothing else, whatever the server and the network do. *)
Theorem login_result `{PyFloat} `{Ipaddress} `{AddressKinds} `{Resolver} {W} `{Network W} (self : LoadTestExecutor.t W) config timeout w :
  match (LoadTestExecutor._login self config timeout w).1 with
  | Ok token => token <> EmptyString
  | Err e => exists message rest status, e = LoadTestExecutionError message ("login_" ++ rest)%string status
  end.
Proof.
  unfold LoadTestExecutor._login, try_except, any_exn.
  match goal with |- context [match ?m w with _ => _ end] =>
    assert (forall token w', m w = (Ok token, w') -> token <> EmptyString) as Hok end.
  { intros token w'. destruct (LoadTestAuthConfiguration.login_url config) as [login_url|], (LoadTestAuthConfiguration.account config),
      (LoadTestAuthConfiguration.password config); try done.
    destruct (empty_str login_url); [done |]. unfold bind, lift. destruct (_resolve_url _ _); [| done].
    destruct (_validate_public_url _ _) as [d|]; [| done]. destruct (LoadTestExecutor.send _ _ _ _ w) as [[response|] w1]; [| done].
    intros [= E _]. by eapply token_of_text. }
  match goal with |- context [match ?m w with _ => _ end] => destruct (m w) as [[token|e] w'] eqn:E end.
  - cbn [fst]. by eapply Hok.
  - destruct (LoadTestExecutor.is_login_error e) eqn:El; cbn.
    + destruct e; try done. apply prefix_rest in El as [rest ->]. by eexists _, rest, _.
    + by eexists _, "request_failed", _.
Qed.

(** ** What redaction of texts misses *)

(** The text of a JSON answer that was cut is kept with its credentials: the quotation mark
    after the key keeps the pattern from matching. *)
Definition cut_answer : string := ("{" ++ quote ++ "token" ++ quote ++ ": " ++ quote ++ "abc" ++ quote ++ ",")%string.
Lemma truncated_json_not_redacted `{PyFloat} :
  (let? details := _response_details (utf8 cut_answer) true 1048577 in Ok (ResponseDetails.body details)) = Ok (Some cut_answer)
  /\ _redact_text "token: abc, x" = "token: [REDACTED], x".
Proof. split; vm_compute; reflexivity. Qed.

(** A complete answer. *)
Definition whole_answer : string := (cut_answer ++ " " ++ quote ++ "id" ++ quote ++ ": 1}")%string.
#[local] Instance half_floats : PyFloat := fun _ _ => "0.5".

Lemma redaction_complete_witness : exists details,
  _response_details (utf8 whole_answer) false 23 = Ok details
  /\ redacted (ResponseDetails.sample_body details)
  /\ ResponseDetails.sample_body details = PDict [("token", PStr "[REDACTED]"); ("id", PInt 1)].
Proof.
  destruct (_response_details (utf8 whole_answer) false 23) as [details|] eqn:E; [| vm_compute in E; discriminate].
  destruct (redaction_complete _ _ _ _ E) as (Hjson & _). exists details. split; [reflexivity |].
  destruct (Hjson whole_answer (PDict [("token", PStr "abc"); ("id", PInt 1)])) as (Hr & _);
    [vm_compute; reflexivity | reflexivity | vm_compute; reflexivity | discriminate |].
  split; [exact Hr |]. vm_compute in E. injection E as <-. reflexivity.
Defined.
