(* ===== verification/LoadTraffic.v ===== *)
(** * Metrics and workers of the load generator ([src/services/api/load_test_executor.py])

    [_Metrics] with its bounded samples, and the workers of [execute] and
    [_execute_scenarios] as machines that share the sequence number, the metrics, the
    network and the event of a cancellation: a step of a worker is what it does under one
    lock or in one request.  Times are exact numbers of microseconds. *)
From stdpp Require Import gmap strings pretty.
From S2P Require Import Prelude PyDict PyText Protocol Templates Json Urls Files LoadAuth LoadTests Agent HttpAdapter LoadRequests.
Open Scope string_scope.
Open Scope list_scope.

Definition _SAMPLE_LIMIT : nat := 10000.
Definition _SUCCESS_RESPONSE_SAMPLES : nat := 5.
Definition _FAILED_RESPONSE_SAMPLES : nat := 10.

(** The float nearest to a number of thousandths, as [round(..., 3)] gives it. *)
Definition thousandths (z : Z) : pyval :=
  if (z <=? 0)%Z then zero_float
  else match nearest z 1000 with Some (m, e) => PFloat m e | None => zero_float end.

(** ** Metrics *)

Module _MetricValues.
Record t := mk {
  latencies : list Z; total : Z; latency_sum : Z; minimum : option Z; maximum : option Z;
  successful : Z; failed : Z; statuses : gmap Z Z; errors : gmap string Z }.
Definition init : t := mk [] 0 0 None None 0 0 ∅ ∅.

Definition count `{Countable K} (k : option K) (counter : gmap K Z) : gmap K Z :=
  match k with Some k => <[k := (default 0 (counter !! k) + 1)%Z]> counter | None => counter end.

(** [sample_index] is the result of [randrange]. *)
Definition add (v : t) (sample_index : Z) (latency : Z) (success : bool) (status : option Z) (error : option string) : t :=
  mk (if (length (latencies v) <? _SAMPLE_LIMIT)%nat then latencies v ++ [latency]
      else if (sample_index <? Z.of_nat _SAMPLE_LIMIT)%Z then <[Z.to_nat sample_index := latency]> (latencies v)
      else latencies v)
     (total v + 1) (latency_sum v + latency)
     (Some match minimum v with Some m => Z.min m latency | None => latency end)
     (Some match maximum v with Some m => Z.max m latency | None => latency end)
     (successful v + if success then 1 else 0) (failed v + if success then 0 else 1)
     (count status (statuses v)) (count error (errors v)).
End _MetricValues.

Module _Metrics.
Record t := mk {
  _started : Z; _all : _MetricValues.t; _targets : list (string * _MetricValues.t); _scenarios : _MetricValues.t;
  successful_samples : list pyval; failed_samples : list pyval; _last_snapshot : Z }.
Definition init (target_names : list string) (started : Z) : t :=
  mk started _MetricValues.init (map (fun name => (name, _MetricValues.init)) target_names) _MetricValues.init [] [] started.

(** A sample of a response. *)
Definition unavailable : ResponseDetails.t := ResponseDetails.mk None PNone "unavailable" false 0.
Definition sample_kind (details : ResponseDetails.t) : string :=
  let kind := ResponseDetails.body_kind details in
  if bool_decide (kind ∈ ["json"; "empty"]) then kind
  else if ResponseDetails.truncated details then "truncated" else "non_json".
Definition opt_int (o : option Z) : pyval := match o with Some z => PInt z | None => PNone end.
Definition opt_str (o : option string) : pyval := match o with Some s => PStr s | None => PNone end.
Definition sample_of (name : string) (latency : Z) (attempt : Attempt.t) : pyval :=
  let details := default unavailable (Attempt.details attempt) in
  PDict [("target", PStr name); ("status", opt_int (Attempt.status attempt)); ("latency_ms", thousandths latency);
         ("error", opt_str (Attempt.error attempt)); ("body", ResponseDetails.sample_body details);
         ("body_kind", PStr (sample_kind details)); ("truncated", PBool (ResponseDetails.truncated details))].
Definition sampled (limit : nat) (sample : pyval) (samples : list pyval) : list pyval :=
  if (length samples <? limit)%nat then samples ++ [sample] else samples.

(** The values of a target of a dictionary whose names differ. *)
Fixpoint add_target (name : string) (f : _MetricValues.t -> _MetricValues.t) (targets : list (string * _MetricValues.t))
    : res (list (string * _MetricValues.t)) :=
  match targets with
  | [] => Err KeyError
  | (n, v) :: rest =>
      if bool_decide (n = name) then Ok ((n, f v) :: rest)
      else let? rest := add_target name f rest in Ok ((n, v) :: rest)
  end.
(** [draws] are the two results of [randrange]. *)
Definition add (draws : Z * Z) (name : string) (latency : Z) (attempt : Attempt.t) : M t Z := fun m =>
  let add_to draw v := _MetricValues.add v draw latency (Attempt.success attempt) (Attempt.status attempt) (Attempt.error attempt) in
  let all := add_to draws.1 (_all m) in
  match add_target name (add_to draws.2) (_targets m) with
  | Err e => (Err e, mk (_started m) all (_targets m) (_scenarios m) (successful_samples m) (failed_samples m) (_last_snapshot m))
  | Ok targets =>
      let sample := sample_of name latency attempt in
      (Ok (_MetricValues.total all),
       mk (_started m) all targets (_scenarios m)
         (if Attempt.success attempt then sampled _SUCCESS_RESPONSE_SAMPLES sample (successful_samples m) else successful_samples m)
         (if Attempt.success attempt then failed_samples m else sampled _FAILED_RESPONSE_SAMPLES sample (failed_samples m))
         (_last_snapshot m))
  end.
Definition add_scenario (draw : Z) (latency : Z) (success : bool) (m : t) : t :=
  mk (_started m) (_all m) (_targets m) (_MetricValues.add (_scenarios m) draw latency success None None)
     (successful_samples m) (failed_samples m) (_last_snapshot m).

(** *** Summaries *)

(** [ordered[min(len - 1, max(0, round((len - 1) * ratio)))]], the ratio in hundredths. *)
Definition percentile_index (len : nat) (hundredths : Z) : nat :=
  Nat.min (len - 1) (Z.to_nat (Z.max 0 (round_half_even (Z.of_nat (len - 1) * hundredths) 100))).
Definition percentile (ordered : list Z) (hundredths : Z) : pyval :=
  thousandths (default 0%Z (ordered !! percentile_index (length ordered) hundredths)).
(** [round(extreme or 0, 3)]. *)
Definition extreme (o : option Z) : pyval :=
  match o with Some z => if (z =? 0)%Z then PInt 0 else thousandths z | None => PInt 0 end.
Definition per_second (total elapsed : Z) : pyval := thousandths (round_half_even (total * 1000000000) elapsed).
Definition average (v : _MetricValues.t) : pyval :=
  thousandths (round_half_even (_MetricValues.latency_sum v) (_MetricValues.total v)).

Definition _summarize (v : _MetricValues.t) (elapsed : Z) : list (string * pyval) :=
  if (_MetricValues.total v =? 0)%Z
  then List.filter (fun kv => negb (bool_decide (kv.1 ∈ ["target_metrics"; "scenario_metrics"; "response_samples"]))) (empty_metrics [])
  else
    let ordered := py_sorted Z.leb (_MetricValues.latencies v) in
    [("total_requests", PInt (_MetricValues.total v)); ("successful_requests", PInt (_MetricValues.successful v));
     ("failed_requests", PInt (_MetricValues.failed v)); ("requests_per_second", per_second (_MetricValues.total v) elapsed);
     ("average_ms", average v); ("min_ms", extreme (_MetricValues.minimum v)); ("max_ms", extreme (_MetricValues.maximum v));
     ("p50_ms", percentile ordered 50); ("p95_ms", percentile ordered 95); ("p99_ms", percentile ordered 99);
     ("status_counts", PDict (map (fun kv => (pretty kv.1, PInt kv.2))
                                (py_sorted (fun a b => Z.leb a.1 b.1) (map_to_list (_MetricValues.statuses v)))));
     ("error_counts", PDict (map (fun kv => (kv.1, PInt kv.2))
                               (py_sorted (fun a b => str_leb a.1 b.1) (map_to_list (_MetricValues.errors v)))))].
Definition _summarize_scenarios (v : _MetricValues.t) (elapsed : Z) : pyval :=
  if (_MetricValues.total v =? 0)%Z then default PNone (kv_get "scenario_metrics" (empty_metrics []))
  else
    let ordered := py_sorted Z.leb (_MetricValues.latencies v) in
    PDict
      [("total_scenarios", PInt (_MetricValues.total v)); ("successful_scenarios", PInt (_MetricValues.successful v));
       ("failed_scenarios", PInt (_MetricValues.failed v)); ("scenarios_per_second", per_second (_MetricValues.total v) elapsed);
       ("average_ms", average v); ("min_ms", extreme (_MetricValues.minimum v)); ("max_ms", extreme (_MetricValues.maximum v));
       ("p50_ms", percentile ordered 50); ("p95_ms", percentile ordered 95); ("p99_ms", percentile ordered 99)].

Definition _snapshot (now : Z) (m : t) : list (string * pyval) :=
  let elapsed := Z.max (now - _started m) 1 in
  _summarize (_all m) elapsed ++
  [("target_metrics", PDict (map (fun nv => (nv.1, PDict (_summarize nv.2 elapsed ++ [("target_metrics", PDict [])]))) (_targets m)));
   ("scenario_metrics", _summarize_scenarios (_scenarios m) elapsed);
   ("response_samples", PDict [("successful", PList (successful_samples m)); ("failed", PList (failed_samples m))])].

Definition periodic_snapshot (now : Z) (m : t) : option (list (string * pyval)) * t :=
  if (now - _last_snapshot m <? 1000000)%Z then (None, m)
  else (Some (_snapshot now m),
        mk (_started m) (_all m) (_targets m) (_scenarios m) (successful_samples m) (failed_samples m) now).
End _Metrics.

(** [_response_record]. *)
Definition _response_record (sequence : Z) (target : string) (latency : Z) (attempt : Attempt.t) : ResponseItem.t :=
  let details := default _Metrics.unavailable (Attempt.details attempt) in
  ResponseItem.mk sequence target (Attempt.success attempt) (Attempt.status attempt) (thousandths latency)
    (Attempt.error attempt) (ResponseDetails.body details) (ResponseDetails.body_kind details)
    (ResponseDetails.truncated details) (ResponseDetails.body_bytes details).

(** ** Workers *)

(** What the workers share. *)
Module Shared.
Record t (R W : Type) := mk { sequence : Z; metrics : _Metrics.t; entropy : R; world : W; cancelled : bool }.
Arguments mk {R W}.
Arguments sequence {R W}.
Arguments metrics {R W}.
Arguments entropy {R W}.
Arguments world {R W}.
Arguments cancelled {R W}.
End Shared.

(** Two readings of the clock and the results of [randrange] in a step. *)
Record oracle := mkOracle { now : Z; later : Z; draws : Z * Z }.

(** Workers over a shared state; another thread may set the event at any time. *)
Inductive action := Cancel | Step (worker : nat) (o : oracle).
Section system.
  Context {X S : Type} (step : oracle -> X -> S -> X * S) (cancel : S -> S).
Definition act (a : action) (sys : S * list X) : S * list X :=
  match a with
  | Cancel => (cancel sys.1, sys.2)
  | Step i o =>
      match sys.2 !! i with
      | Some x => let '(x, s) := step o x sys.1 in (s, <[i := x]> sys.2)
      | None => sys
      end
  end.
Definition run_schedule (schedule : list action) (sys : S * list X) : S * list X := fold_left (fun sys a => act a sys) schedule sys.
End system.

Section traffic.
  Context `{PyFloat} `{Ipaddress} `{AddressKinds} `{Resolver} {R : Type} `{Entropy R} {W : Type} `{Network W}.
  Context (self : LoadTestExecutor.t W) (definition : LoadTestRecord.t).
  Context (auth_config : option LoadTestAuthConfiguration.t).
  Context (response_callback : option (ResponseItem.t -> M W unit)) (snapshot_callback : option (list (string * pyval) -> M W unit)).
  Notation shared := (Shared.t R W).
  Notation target := (list (string * pyval)).

Definition set_cancelled (s : shared) : shared :=
  Shared.mk (Shared.sequence s) (Shared.metrics s) (Shared.entropy s) (Shared.world s) true.
Definition set_metrics (m : _Metrics.t) (s : shared) : shared :=
  Shared.mk (Shared.sequence s) m (Shared.entropy s) (Shared.world s) (Shared.cancelled s).
Definition take_sequence (s : shared) : shared :=
  Shared.mk (Shared.sequence s + 1) (Shared.metrics s) (Shared.entropy s) (Shared.world s) (Shared.cancelled s).
Definition on_world {A} (m : M W A) (s : shared) : res A * shared :=
  let '(r, w) := m (Shared.world s) in
  (r, Shared.mk (Shared.sequence s) (Shared.metrics s) (Shared.entropy s) w (Shared.cancelled s)).
Definition on_entropy {A} (m : M R A) (s : shared) : res A * shared :=
  let '(r, e) := m (Shared.entropy s) in
  (r, Shared.mk (Shared.sequence s) (Shared.metrics s) e (Shared.world s) (Shared.cancelled s)).

Definition counting : bool := bool_decide (LoadTestRecord.mode definition = LoadTestMode.COUNT).
(** The sequence number has reached the count; the deadline has passed. *)
Definition count_reached (s : shared) : bool := counting && (LoadTestRecord.request_count definition <=? Shared.sequence s)%Z.
Definition deadline_of (started : Z) : Z := (started + LoadTestRecord.duration_seconds definition * 1000000)%Z.
Definition deadline_passed (deadline now : Z) : bool := negb counting && (deadline <=? now)%Z.
(** A pause, cut at the deadline. *)
Definition pause (milliseconds deadline now : Z) : Z :=
  let delay := (milliseconds * 1000)%Z in if counting then delay else Z.min delay (Z.max 0 (deadline - now)).
Definition timeout : pyval := LoadTestRecord.timeout_seconds definition.

Definition template_error : Attempt.t := Attempt.mk None false (Some "template_error") None.
Definition is_template_error (e : exn) : bool := match e with WorkflowExecutionError _ => true | _ => false end.

(** *** Independent requests *)

Inductive worker :=
  | Checking | Taking | Requesting (index : Z) | Adding (index latency : Z) (attempt : Attempt.t)
  | Reporting (item : ResponseItem.t) | Snapping | Delivering (metrics : list (string * pyval))
  | Deciding | Pausing | Returned | Raised (e : exn).

Section requests.
  Context (prepared_targets : list target) (destinations : list destination) (deadline : Z).

(** [index % len(targets)]. *)
Definition target_index (index : Z) : nat := Z.to_nat (index mod Z.of_nat (length (LoadTestRecord.targets definition))).
Definition request_once (index : Z) (s : shared) : res Attempt.t * shared :=
  match prepared_targets !! target_index index, destinations !! target_index index with
  | Some prepared, Some d =>
      match on_entropy (render_dynamic_templates (index + 1) (PDict prepared)) s with
      | (Ok (PDict target), s) =>
          match (let? url := text_entry "url" target in _rendered_destination url d) with
          | Ok d => on_world (LoadTestExecutor._request_target self target d timeout) s
          | Err e => (Err e, s)
          end
      | (Ok _, s) => (Err TypeError, s)
      | (Err e, s) => (Err e, s)
      end
  | _, _ => (Err IndexError, s)
  end.
Definition target_name_of (index : Z) : res string :=
  match prepared_targets !! target_index index with Some target => text_entry "name" target | None => Err IndexError end.

Definition step (o : oracle) (x : worker) (s : shared) : worker * shared :=
  match x with
  | Checking => (if Shared.cancelled s then Returned else Taking, s)
  | Taking =>
      if count_reached s || deadline_passed deadline (now o) then (Returned, s)
      else (Requesting (Shared.sequence s), take_sequence s)
  | Requesting index =>
      let latency := (later o - now o)%Z in
      match request_once index s with
      | (Ok attempt, s) => (Adding index latency attempt, s)
      | (Err e, s) => (if is_template_error e then Adding index latency template_error else Raised e, s)
      end
  | Adding index latency attempt =>
      match target_name_of index with
      | Err e => (Raised e, s)
      | Ok name =>
          match _Metrics.add (draws o) name latency attempt (Shared.metrics s) with
          | (Ok n, m) =>
              (match response_callback with
               | Some _ => Reporting (_response_record n name latency attempt)
               | None => Snapping
               end, set_metrics m s)
          | (Err e, m) => (Raised e, set_metrics m s)
          end
      end
  | Reporting item =>
      match response_callback with
      | Some callback => let '(r, s) := on_world (callback item) s in
                         (match r with Ok _ => Snapping | Err e => Raised e end, s)
      | None => (Snapping, s)
      end
  | Snapping =>
      let '(snapshot, m) := _Metrics.periodic_snapshot (now o) (Shared.metrics s) in
      (match snapshot with Some metrics => Delivering metrics | None => Deciding end, set_metrics m s)
  | Delivering metrics =>
      match snapshot_callback with
      | Some callback => let '(r, s) := on_world (callback metrics) s in
                         (match r with Ok _ => Deciding | Err e => Raised e end, s)
      | None => (Deciding, s)
      end
  | Deciding => (if count_reached s then Returned else Pausing, s)
  | Pausing =>
      let delay := pause (LoadTestRecord.interval_ms definition) deadline (now o) in
      (if negb (delay =? 0)%Z && Shared.cancelled s then Returned else Checking, s)
  | Returned => (Returned, s)
  | Raised e => (Raised e, s)
  end.
End requests.

(** *** Scenarios *)

(** A scenario under way: its number, its start, its variables and whether all went well. *)
Record journey := mkJourney { number : Z; began : Z; variables : list (string * pyval); all_good : bool }.
Inductive traveller :=
  | Looking | Claiming | Entering (j : journey) (i : nat) | Attempting (j : journey) (i : nat)
  | Counting (j : journey) (i : nat) (latency : Z) (attempt : Attempt.t)
  | Telling (j : journey) (i : nat) (success : bool) (item : ResponseItem.t)
  | Watching (j : journey) (i : nat) (success : bool)
  | Handing (j : journey) (i : nat) (success : bool) (metrics : list (string * pyval))
  | Thinking (j : journey) (i : nat) (success : bool)
  | Closing (j : journey) (completed : bool) | Overseeing | Passing (metrics : list (string * pyval))
  | Judging | Resting | Left | Failed (e : exn).

Section scenarios.
  Context (token : option string) (deadline : Z).
  Notation targets := (LoadTestRecord.targets definition).

(** The preparation of a target within a scenario. *)
Definition scenario_target (rendered : target) : res (target * destination) :=
  let? prepared := _prepare_target rendered auth_config in
  let? prepared := match token, auth_config with
                   | Some token, Some config => _inject_auth prepared config token
                   | _, _ => Ok prepared
                   end in
  let? url := text_entry "url" prepared in
  let? d := _validate_public_url (LoadTestExecutor._allowed_private_hosts self) url in
  Ok (prepared, d).
Definition attempt_once (j : journey) (raw_target : target) (s : shared) : res (Attempt.t * list (string * pyval)) * shared :=
  match _render_scenario_target raw_target (variables j) with
  | Err e => (Err e, s)
  | Ok rendered =>
      match on_entropy (render_dynamic_templates (number j) (PDict rendered)) s with
      | (Ok (PDict rendered), s) =>
          match scenario_target rendered with
          | Ok (target, d) => on_world (LoadTestExecutor._request_scenario_target self target d timeout) s
          | Err e => (Err e, s)
          end
      | (Ok _, s) => (Err TypeError, s)
      | (Err e, s) => (Err e, s)
      end
  end.
(** The exceptions of a step of a scenario. *)
Definition expected_error (e : exn) : bool := bool_decide (e = KeyError) || bool_decide (e = TypeError) || is_ValueError e.

Definition travel (o : oracle) (x : traveller) (s : shared) : traveller * shared :=
  match x with
  | Looking => (if Shared.cancelled s then Left else Claiming, s)
  | Claiming =>
      if count_reached s || deadline_passed deadline (now o) then (Left, s)
      else (Entering (mkJourney (Shared.sequence s + 1) (later o) (LoadTestRecord.initial_variables definition) true) 0, take_sequence s)
  | Entering j i =>
      match targets !! i with
      | None => (Closing j true, s)
      | Some _ => (if Shared.cancelled s || deadline_passed deadline (now o) then Closing j false else Attempting j i, s)
      end
  | Attempting j i =>
      match targets !! i with
      | None => (Failed IndexError, s)
      | Some raw_target =>
          let latency := (later o - now o)%Z in
          match attempt_once j raw_target s with
          | (Ok (attempt, extracted), s) =>
              let j := if Attempt.success attempt then mkJourney (number j) (began j) (kv_merge (variables j) extracted) (all_good j)
                       else j in
              (Counting j i latency attempt, s)
          | (Err e, s) =>
              (if is_template_error e then Counting j i latency template_error
               else if expected_error e then Counting j i latency LoadTestExecutor.failed_request else Failed e, s)
          end
      end
  | Counting j i latency attempt =>
      match targets !! i with
      | None => (Failed IndexError, s)
      | Some raw_target =>
          match text_entry "name" raw_target with
          | Err e => (Failed e, s)
          | Ok name =>
              let success := Attempt.success attempt in
              let j := mkJourney (number j) (began j) (variables j) (all_good j && success) in
              match _Metrics.add (draws o) name latency attempt (Shared.metrics s) with
              | (Ok n, m) =>
                  (match response_callback with
                   | Some _ => Telling j i success (_response_record n name latency attempt)
                   | None => Watching j i success
                   end, set_metrics m s)
              | (Err e, m) => (Failed e, set_metrics m s)
              end
          end
      end
  | Telling j i success item =>
      match response_callback with
      | Some callback => let '(r, s) := on_world (callback item) s in
                         (match r with Ok _ => Watching j i success | Err e => Failed e end, s)
      | None => (Watching j i success, s)
      end
  | Watching j i success =>
      let '(snapshot, m) := _Metrics.periodic_snapshot (now o) (Shared.metrics s) in
      (match snapshot with Some metrics => Handing j i success metrics | None => Thinking j i success end, set_metrics m s)
  | Handing j i success metrics =>
      match snapshot_callback with
      | Some callback => let '(r, s) := on_world (callback metrics) s in
                         (match r with Ok _ => Thinking j i success | Err e => Failed e end, s)
      | None => (Thinking j i success, s)
      end
  | Thinking j i success =>
      if negb success && LoadTestRecord.stop_on_failure definition then (Closing j true, s)
      else
        match targets !! i with
        | None => (Failed IndexError, s)
        | Some raw_target =>
            match entry "think_time_ms" raw_target with
            | Ok (PInt think_time_ms) =>
                let think_time := pause think_time_ms deadline (now o) in
                if negb (think_time =? 0)%Z && Shared.cancelled s then (Closing j false, s)
                else if deadline_passed deadline (later o) && (i <? length targets - 1)%nat then (Closing j false, s)
                else (Entering j (S i), s)
            | Ok _ => (Failed TypeError, s)
            | Err e => (Failed e, s)
            end
        end
  | Closing j completed =>
      (Overseeing, if completed then set_metrics (_Metrics.add_scenario (draws o).1 (now o - began j) (all_good j) (Shared.metrics s)) s
                   else s)
  | Overseeing =>
      let '(snapshot, m) := _Metrics.periodic_snapshot (now o) (Shared.metrics s) in
      (match snapshot with Some metrics => Passing metrics | None => Judging end, set_metrics m s)
  | Passing metrics =>
      match snapshot_callback with
      | Some callback => let '(r, s) := on_world (callback metrics) s in
                         (match r with Ok _ => Judging | Err e => Failed e end, s)
      | None => (Judging, s)
      end
  | Judging => (if Shared.cancelled s || count_reached s then Left else Resting, s)
  | Resting =>
      let delay := pause (LoadTestRecord.interval_ms definition) deadline (now o) in
      (if negb (delay =? 0)%Z && Shared.cancelled s then Left else Looking, s)
  | Left => (Left, s)
  | Failed e => (Failed e, s)
  end.
End scenarios.

(** *** A load test *)

Definition worker_count : Z :=
  let workers := Z.min (LoadTestRecord.concurrency definition) (LoadTestExecutor._max_workers self) in
  if counting then Z.min workers (LoadTestRecord.request_count definition) else workers.

(** Everything before the clock is started. *)
Definition prepare_all : M W (list target * list destination) :=
  let* prepared := lift (rmap (fun target => _prepare_target target auth_config) (LoadTestRecord.targets definition)) in
  let* destinations := lift (rmap (fun target => let? url := text_entry "url" target in
                                                 _validate_public_url (LoadTestExecutor._allowed_private_hosts self) url) prepared) in
  let* token := LoadTestExecutor._authentication_token self auth_config timeout in
  let* prepared := lift match token, auth_config with
                        | Some token, Some config => rmap (fun target => _inject_auth target config token) prepared
                        | _, _ => Ok prepared
                        end in
  ret (prepared, destinations).

Definition initial_shared (names : list string) (started : Z) (entropy : R) (world : W) (cancelled : bool) : shared :=
  Shared.mk 0 (_Metrics.init names started) entropy world cancelled.

(** [future.result()] of every worker in order, then the last snapshot. *)
Definition outcome {X} (error : X -> option exn) (ended : Z) (sys : shared * list X) : res (list (string * pyval)) :=
  match omap error sys.2 with
  | e :: _ => Err e
  | [] => Ok (_Metrics._snapshot ended (Shared.metrics sys.1))
  end.
Definition worker_error (x : worker) : option exn := match x with Raised e => Some e | _ => None end.
Definition traveller_error (x : traveller) : option exn := match x with Failed e => Some e | _ => None end.

(** [execute] with the schedule of the workers and the readings of the clock at its start
    and end; the schedule goes on until every worker has ended. *)
Definition execute (started ended : Z) (schedule : list action) (cancelled : bool) (entropy : R) (w : W)
    : res (list (string * pyval)) * shared :=
  let names := rmap (text_entry "name") (LoadTestRecord.targets definition) in
  let failed e w := (Err e, initial_shared [] started entropy w cancelled) in
  if bool_decide (LoadTestRecord.traffic_mode definition = LoadTestTrafficMode.SCENARIO) then
    match LoadTestExecutor._authentication_token self auth_config timeout w with
    | (Err e, w) => failed e w
    | (Ok token, w) =>
        match names with
        | Err e => failed e w
        | Ok names =>
            let sys := run_schedule (travel token (deadline_of started)) set_cancelled schedule
                         (initial_shared names started entropy w cancelled, repeat Looking (Z.to_nat worker_count)) in
            (outcome traveller_error ended sys, sys.1)
        end
    end
  else
    match prepare_all w with
    | (Err e, w) => failed e w
    | (Ok (prepared, destinations), w) =>
        match names with
        | Err e => failed e w
        | Ok names =>
            let sys := run_schedule (step prepared destinations (deadline_of started)) set_cancelled schedule
                         (initial_shared names started entropy w cancelled, repeat Checking (Z.to_nat worker_count)) in
            (outcome worker_error ended sys, sys.1)
        end
    end.
End traffic.
