(* ===== verification/LoadTrafficTheorems.v ===== *)
(** * Properties of the workers of a load test

    Whatever the order in which the workers take their steps: a test by count sends the
    request of every index once and ends; the metrics count what was sent. *)
From stdpp Require Import gmap strings pretty list_numbers.
From S2P Require Import Prelude PyDict PyText Protocol Templates Json Urls Files LoadAuth LoadTests Agent HttpAdapter LoadRequests LoadRequestTheorems LoadTraffic.
Open Scope string_scope.
Open Scope list_scope.

(** ** Metrics *)

Section metrics.
Import _MetricValues.

(** One call of [add]. *)
Record call := mkCall { call_draw : Z; call_latency : Z; call_success : bool; call_status : option Z; call_error : option string }.
Definition added (calls : list call) : t :=
  fold_left (fun v c => add v (call_draw c) (call_latency c) (call_success c) (call_status c) (call_error c)) calls init.
Definition count_if {A} (p : A -> bool) (l : list A) : Z := Z.of_nat (length (List.filter p l)).
Definition has_status (k : Z) (c : call) : bool := bool_decide (call_status c = Some k).
Definition has_error (k : string) (c : call) : bool := bool_decide (call_error c = Some k).

Lemma count_if_app {A} (p : A -> bool) l x : count_if p (l ++ [x]) = (count_if p l + if p x then 1 else 0)%Z.
Proof. unfold count_if. rewrite List.filter_app, length_app. cbn. destruct (p x); cbn; lia. Qed.

Lemma count_if_perm {A} (p : A -> bool) l l' : l ≡ₚ l' -> count_if p l = count_if p l'.
Proof. unfold count_if. induction 1; cbn; repeat (case_match; cbn in *); try lia. Qed.

Lemma count_lookup `{Countable K} (k k' : K) (c : gmap K Z) :
  default 0%Z (count (Some k') c !! k) = (default 0%Z (c !! k) + if bool_decide (k = k') then 1 else 0)%Z.
Proof.
  unfold count. destruct (decide (k = k')) as [->|Hne].
  - by rewrite lookup_insert_eq, bool_decide_true.
  - rewrite lookup_insert_ne, bool_decide_false by done. lia.
Qed.

Lemma elem_of_list_insert {A} (l : list A) i (x y : A) : y ∈ <[i := x]> l -> y = x \/ y ∈ l.
Proof.
  intros [j Hj]%list_elem_of_lookup. destruct (decide (i = j)) as [<-|Hne].
  - apply list_lookup_insert_Some in Hj as [(_ & -> & _)|(? & _)]; [by left | done].
  - rewrite list_lookup_insert_ne in Hj by done. right. apply list_elem_of_lookup. by exists j.
Qed.

Record summary_of (calls : list call) (v : t) : Prop := {
  so_total : total v = Z.of_nat (length calls);
  so_sum : latency_sum v = foldr (fun c n => call_latency c + n)%Z 0%Z calls;
  so_successful : successful v = count_if call_success calls;
  so_failed : failed v = count_if (fun c => negb (call_success c)) calls;
  so_length : length (latencies v) = Nat.min (length calls) _SAMPLE_LIMIT;
  so_sample : forall l, l ∈ latencies v -> l ∈ map call_latency calls;
  so_minimum : match minimum v with
               | Some m => m ∈ map call_latency calls /\ forall l, l ∈ map call_latency calls -> (m <= l)%Z
               | None => calls = []
               end;
  so_maximum : match maximum v with
               | Some m => m ∈ map call_latency calls /\ forall l, l ∈ map call_latency calls -> (l <= m)%Z
               | None => calls = []
               end;
  so_statuses : forall k, default 0%Z (statuses v !! k) = count_if (has_status k) calls;
  so_errors : forall k, default 0%Z (errors v !! k) = count_if (has_error k) calls }.

Lemma foldr_sum_app l c : foldr (fun c n => call_latency c + n)%Z 0%Z (l ++ [c])
  = (foldr (fun c n => call_latency c + n)%Z 0%Z l + call_latency c)%Z.
Proof. induction l as [|x l IH]; cbn; [lia |]. rewrite IH. lia. Qed.

Lemma counter_add `{Countable K} (field : call -> option K) calls c (counter : gmap K Z) :
  (forall k, default 0%Z (counter !! k) = count_if (fun c => bool_decide (field c = Some k)) calls) ->
  forall k, default 0%Z (count (field c) counter !! k) = count_if (fun c => bool_decide (field c = Some k)) (calls ++ [c]).
Proof.
  intros Hc k. rewrite count_if_app. destruct (field c) as [k'|].
  - rewrite count_lookup, Hc. destruct (decide (k = k')) as [->|Hne]; [by rewrite !bool_decide_true |].
    by rewrite !bool_decide_false by congruence.
  - cbn [count]. rewrite Hc, bool_decide_false by done. lia.
Qed.

Lemma summary_add calls v c : summary_of calls v ->
  summary_of (calls ++ [c]) (add v (call_draw c) (call_latency c) (call_success c) (call_status c) (call_error c)).
Proof.
  intros [Ht Hs Hok Hf Hl Hin Hmin Hmax Hst He]. split; cbn [add total latency_sum successful failed latencies minimum maximum statuses errors].
  - rewrite Ht, length_app. cbn. lia.
  - by rewrite foldr_sum_app, Hs.
  - by rewrite count_if_app, Hok.
  - rewrite count_if_app, Hf. by destruct (call_success c).
  - rewrite length_app. cbn [length]. destruct (Nat.ltb_spec (length (latencies v)) _SAMPLE_LIMIT).
    + rewrite length_app, Hl. cbn [length]. lia.
    + destruct (call_draw c <? Z.of_nat _SAMPLE_LIMIT)%Z; rewrite ?length_insert; lia.
  - intros l Hlin. rewrite map_app, elem_of_app. revert Hlin. destruct (length (latencies v) <? _SAMPLE_LIMIT)%nat.
    + intros [?|E%list_elem_of_singleton]%elem_of_app; [by left; apply Hin | rewrite E; right; left].
    + destruct (call_draw c <? Z.of_nat _SAMPLE_LIMIT)%Z; [| intros; left; by apply Hin].
      intros [->|?]%elem_of_list_insert; [right; left | left; by apply Hin].
  - rewrite map_app. destruct (minimum v) as [m|].
    + destruct Hmin as [Hm Hall]. split.
      * destruct (Z.min_spec m (call_latency c)) as [[_ ->]|[_ ->]]; apply elem_of_app; [by left | right; left].
      * intros l [Hl'%Hall|E%list_elem_of_singleton]%elem_of_app; lia.
    + subst calls. split; [left |]. intros l ->%list_elem_of_singleton. lia.
  - rewrite map_app. destruct (maximum v) as [m|].
    + destruct Hmax as [Hm Hall]. split.
      * destruct (Z.max_spec m (call_latency c)) as [[_ ->]|[_ ->]]; apply elem_of_app; [right; left | by left].
      * intros l [Hl'%Hall|E%list_elem_of_singleton]%elem_of_app; lia.
    + subst calls. split; [left |]. intros l ->%list_elem_of_singleton. lia.
  - by apply counter_add.
  - by apply counter_add.
Qed.

(** The metrics of a target count exactly what was added, whatever is drawn for the
    samples: totals, sums, extremes, the numbers of every status and error; at most 10000
    latencies are kept, all of them among those added. *)
Theorem metrics_count_exactly calls : summary_of calls (added calls).
Proof.
  unfold added. induction calls as [|c calls IH] using rev_ind.
  - by split.
  - rewrite fold_left_app. by apply summary_add.
Qed.
End metrics.

(** ** Schedules *)

Section schedules.
  Context {X S : Type} (step : oracle -> X -> S -> X * S) (cancel : S -> S).

(** An invariant of every action is one of every schedule. *)
Lemma schedule_invariant (P : S * list X -> Prop) schedule sys :
  (forall s xs, P (s, xs) -> P (cancel s, xs)) ->
  (forall o i x s xs x' s', P (s, xs) -> xs !! i = Some x -> step o x s = (x', s') -> P (s', <[i := x']> xs)) ->
  P sys -> P (run_schedule step cancel schedule sys).
Proof.
  intros Hc Hs. unfold run_schedule. revert sys. induction schedule as [|a schedule IH]; intros sys Hp; [done |].
  cbn [fold_left]. apply IH. destruct sys as [s xs], a as [|i o]; cbn; [by apply Hc |].
  destruct (xs !! i) as [x|] eqn:Ex; [| done]. destruct (step o x s) as [x' s'] eqn:E. by eapply Hs.
Qed.
End schedules.

(** What the workers hold, one of them apart. *)
Lemma concat_update {X A} (f : X -> list A) (xs : list X) i x : xs !! i = Some x ->
  exists rest, concat (map f xs) ≡ₚ f x ++ rest /\ forall y, concat (map f (<[i := y]> xs)) ≡ₚ f y ++ rest.
Proof.
  intros Hi. exists (concat (map f (take i xs)) ++ concat (map f (drop (S i) xs))). split.
  - rewrite <- (take_drop_middle _ _ _ Hi) at 1. rewrite map_app, concat_app. cbn. by rewrite !app_assoc, (Permutation_app_comm (f x)).
  - intros y. rewrite insert_take_drop by (by eapply lookup_lt_Some). rewrite map_app, concat_app. cbn.
    by rewrite !app_assoc, (Permutation_app_comm (f y)).
Qed.

Lemma elem_of_updated {X} (xs : list X) i x y : xs !! i = Some x -> y ∈ <[i := y]> xs.
Proof. intros Hi. apply list_elem_of_lookup. exists i. apply list_lookup_insert_eq. by eapply lookup_lt_Some. Qed.
Lemma elem_of_update_other {X} (xs : list X) i x y z : xs !! i = Some x -> z ∈ xs -> z = x \/ z ∈ <[i := y]> xs.
Proof.
  intros Hi [j Hj]%list_elem_of_lookup. destruct (decide (i = j)) as [<-|Hne]; [left; congruence |].
  right. apply list_elem_of_lookup. exists j. by rewrite list_lookup_insert_ne.
Qed.

Lemma seqZ_snoc m n : (0 <= n)%Z -> seqZ m (n + 1) = seqZ m n ++ [(m + n)%Z].
Proof. intros Hn. by rewrite seqZ_app by lia. Qed.

Fixpoint assoc {A} (name : string) (l : list (string * A)) : option A :=
  match l with [] => None | (n, v) :: rest => if bool_decide (n = name) then Some v else assoc name rest end.
Lemma add_target_assoc name f targets targets' : _Metrics.add_target name f targets = Ok targets' ->
  forall n, assoc n targets' = if bool_decide (n = name) then f <$> assoc n targets else assoc n targets.
Proof.
  revert targets'. induction targets as [|[m v] rest IH]; intros targets'; cbn [_Metrics.add_target]; [done |].
  destruct (bool_decide (m = name)) eqn:E.
  - apply bool_decide_eq_true in E as ->. intros [= <-] n. cbn [assoc]. destruct (decide (name = n)) as [->|Hne].
    + by rewrite !bool_decide_true.
    + by rewrite !bool_decide_false by congruence.
  - destruct (_Metrics.add_target name f rest) as [rest'|]; [| done]. intros [= <-] n. cbn [assoc]. rewrite (IH rest') by done.
    apply bool_decide_eq_false in E. destruct (decide (m = n)) as [->|Hne]; [by rewrite bool_decide_true, bool_decide_false |].
    by rewrite bool_decide_false.
Qed.

(** ** Requests by count *)

Section requests.
  Context `{PyFloat} `{Ipaddress} `{AddressKinds} `{Resolver} {R : Type} `{Entropy R} {W : Type} `{Network W}.
  Context (self : LoadTestExecutor.t W) (definition : LoadTestRecord.t).
  Context (response_callback : option (ResponseItem.t -> M W unit)) (snapshot_callback : option (list (string * pyval) -> M W unit)).
  Context (prepared_targets : list (list (string * pyval))) (destinations : list (SplitResult.t * list string)) (deadline : Z).
  Notation shared := (Shared.t R W).
  Notation step := (step self definition response_callback snapshot_callback prepared_targets destinations deadline).
  Notation request_once := (request_once (R:=R) self definition prepared_targets destinations).
  Notation name_of := (target_name_of definition prepared_targets).

(** The index a worker has taken and not yet recorded, and whether its request was made; the
    record it is about to report. *)
Definition pending (x : worker) : list Z := match x with Requesting i => [i] | Adding i _ _ => [i] | _ => [] end.
Definition answered (x : worker) : list Z := match x with Adding i _ _ => [i] | _ => [] end.
Definition unreported (x : worker) : list Z := match x with Reporting item => [ResponseItem.sequence item] | _ => [] end.
Definition ended (x : worker) : bool := match x with Returned | Raised _ => true | _ => false end.

(** A request changes nothing the workers share but the world and the random source. *)
Lemma request_once_counters index (s : shared) r s' : request_once index s = (r, s') ->
  Shared.sequence s' = Shared.sequence s /\ Shared.metrics s' = Shared.metrics s /\ Shared.cancelled s' = Shared.cancelled s.
Proof.
  unfold LoadTraffic.request_once. destruct (prepared_targets !! _) as [prepared|]; [| by intros [= <- <-]].
  destruct (destinations !! _) as [d|]; [| by intros [= <- <-]]. unfold on_entropy, on_world.
  destruct (render_dynamic_templates _ _ _) as [[v|e] r1]; [| by intros [= <- <-]].
  destruct v; try by intros [= <- <-]. destruct (rbind _ _) as [d'|e]; [| by intros [= <- <-]]. cbn [Shared.world].
  destruct (LoadTestExecutor._request_target _ _ _ _ _) as [x w']. by intros [= <- <-].
Qed.

Definition raised (x : worker) : bool := match x with Raised _ => true | _ => false end.

Lemma on_callback {A B} (f : A -> M W B) a (s : shared) r s' : on_world (f a) s = (r, s') ->
  s' = Shared.mk (Shared.sequence s) (Shared.metrics s) (Shared.entropy s) (f a (Shared.world s)).2 (Shared.cancelled s).
Proof. unfold on_world. by destruct (f a (Shared.world s)) as [x w]; intros [= <- <-]. Qed.

(** *** Bounds *)

Definition within (s : shared) (xs : list worker) : Prop :=
  (Shared.sequence s <= LoadTestRecord.request_count definition)%Z
  /\ (Shared.cancelled s = false -> Returned ∈ xs -> (LoadTestRecord.request_count definition <= Shared.sequence s)%Z).

Lemma step_within o x s x' s' : counting definition = true -> step o x s = (x', s') ->
  (Shared.sequence s <= LoadTestRecord.request_count definition)%Z ->
  (Shared.sequence s <= Shared.sequence s' <= LoadTestRecord.request_count definition)%Z
  /\ Shared.cancelled s' = Shared.cancelled s
  /\ (x' = Returned -> x = Returned \/ Shared.cancelled s = true \/ (LoadTestRecord.request_count definition <= Shared.sequence s)%Z).
Proof.
  intros Hc. destruct x; cbn [LoadTraffic.step]; unfold count_reached; rewrite ?Hc; cbn [andb].
  - intros [= <- <-] Hs. split_and!; [lia.. | done |]. destruct (Shared.cancelled s); [by right; left | done].
  - unfold deadline_passed. rewrite Hc. cbn [negb andb]. rewrite orb_false_r.
    destruct (Z.leb_spec (LoadTestRecord.request_count definition) (Shared.sequence s)); intros [= <- <-] Hs;
      cbn [take_sequence Shared.sequence Shared.cancelled]; split_and!; try done; try lia; by right; right.
  - destruct (request_once index s) as [r s1] eqn:E. apply request_once_counters in E as (E1 & _ & E3).
    destruct r as [attempt|e]; intros [= <- <-] Hs; rewrite E1; split_and!; try done; try lia. by destruct (is_template_error e).
  - destruct (name_of index); [| by intros [= <- <-]]. destruct (_Metrics.add _ _ _ _ _) as [[n|] m]; intros [= <- <-] Hs;
      split_and!; try done; cbn; try lia. by destruct response_callback.
  - destruct response_callback as [f|]; [| by intros [= <- <-]]. destruct (on_world (f item) s) as [r s1] eqn:E.
    apply on_callback in E as ->. intros [= <- <-] Hs. split_and!; try done; cbn; try lia. by destruct r.
  - destruct (_Metrics.periodic_snapshot _ _) as [snapshot m]. intros [= <- <-] Hs. split_and!; try done; cbn; try lia.
    by destruct snapshot.
  - destruct snapshot_callback as [f|]; [| by intros [= <- <-]]. destruct (on_world (f metrics) s) as [r s1] eqn:E.
    apply on_callback in E as ->. intros [= <- <-] Hs. split_and!; try done; cbn; try lia. by destruct r.
  - destruct (Z.leb_spec (LoadTestRecord.request_count definition) (Shared.sequence s)); intros [= <- <-] Hs;
      split_and!; try done; try lia.
  - intros [= <- <-] Hs. split_and!; try done; try lia. destruct (_ && _) eqn:E; [| done].
    apply andb_true_iff in E as [_ E]. by right; left.
  - intros [= <- <-] Hs. split_and!; try done; try lia. by left.
  - intros [= <- <-] Hs. split_and!; try done; lia.
Qed.

(** *** Termination *)

Definition rank (x : worker) : Z :=
  match x with
  | Requesting _ => 9 | Adding _ _ _ => 8 | Reporting _ => 7 | Snapping => 6 | Delivering _ => 5
  | Deciding => 4 | Pausing => 3 | Checking => 2 | Taking => 1 | Returned | Raised _ => 0
  end.
Definition work_left (sys : shared * list worker) : Z :=
  (9 * (LoadTestRecord.request_count definition - Shared.sequence sys.1) + foldr (fun x n => rank x + n) 0 sys.2)%Z.

(** Every step is one of a worker that has not ended. *)
Fixpoint productive (schedule : list action) (sys : shared * list worker) : Prop :=
  match schedule with
  | [] => True
  | a :: rest =>
      match a with Cancel => True | Step i _ => exists x, sys.2 !! i = Some x /\ ended x = false end
      /\ productive rest (act step set_cancelled a sys)
  end.
Definition step_count (schedule : list action) : Z := count_if (fun a => match a with Step _ _ => true | Cancel => false end) schedule.

Lemma rank_update xs i x y : xs !! i = Some x ->
  foldr (fun x n => rank x + n)%Z 0%Z (<[i := y]> xs) = (foldr (fun x n => rank x + n)%Z 0%Z xs - rank x + rank y)%Z.
Proof.
  revert i. induction xs as [|z xs IH]; intros [|i] Hi; [done.. | injection Hi as ->; cbn; lia |]. specialize (IH i Hi).
  change (foldr (fun x n => rank x + n)%Z 0%Z (<[S i := y]> (z :: xs)))
    with (rank z + foldr (fun x n => rank x + n)%Z 0%Z (<[i := y]> xs))%Z.
  rewrite IH. cbn [foldr]. lia.
Qed.

Lemma step_decreases o x s x' s' : counting definition = true -> step o x s = (x', s') -> ended x = false ->
  (rank x' + 9 * (Shared.sequence s - Shared.sequence s') < rank x)%Z.
Proof.
  intros Hc. destruct x; cbn [LoadTraffic.step ended]; try done; intros E _; revert E.
  - intros [= <- <-]. destruct (Shared.cancelled s); cbn; lia.
  - destruct (_ || _); intros [= <- <-]; cbn; lia.
  - destruct (request_once index s) as [r s1] eqn:E. apply request_once_counters in E as (E1 & _).
    destruct r as [attempt|e]; intros [= <- <-]; rewrite E1; [cbn; lia |]. destruct (is_template_error e); cbn; lia.
  - destruct (name_of index); [| intros [= <- <-]; cbn; lia]. destruct (_Metrics.add _ _ _ _ _) as [[n|] m]; intros [= <- <-];
      [destruct response_callback |]; cbn; lia.
  - destruct response_callback as [f|]; [| intros [= <- <-]; cbn; lia]. destruct (on_world (f item) s) as [r s1] eqn:E.
    apply on_callback in E as ->. intros [= <- <-]. destruct r; cbn; lia.
  - destruct (_Metrics.periodic_snapshot _ _) as [snapshot m]. intros [= <- <-]. destruct snapshot; cbn; lia.
  - destruct snapshot_callback as [f|]; [| intros [= <- <-]; cbn; lia]. destruct (on_world (f metrics) s) as [r s1] eqn:E.
    apply on_callback in E as ->. intros [= <- <-]. destruct r; cbn; lia.
  - intros [= <- <-]. destruct (count_reached definition s); cbn; lia.
  - intros [= <- <-]. destruct (_ && _); cbn; lia.
Qed.

Lemma productive_bounded schedule : counting definition = true -> forall sys,
  (Shared.sequence sys.1 <= LoadTestRecord.request_count definition)%Z -> productive schedule sys ->
  (step_count schedule <= work_left sys)%Z.
Proof.
  intros Hc. unfold step_count, count_if. induction schedule as [|a rest IH]; intros [s xs] Hs Hp.
  - unfold work_left. cbn [fst snd] in *. assert (0 <= foldr (fun x n => rank x + n)%Z 0%Z xs)%Z.
    { clear. induction xs as [|x xs IH]; cbn; [lia |]. destruct x; cbn; lia. }
    cbn. lia.
  - destruct Hp as [Ha Hp]. destruct a as [|i o]; [by apply (IH (set_cancelled s, xs)) |].
    destruct Ha as (x & Hx & He). cbn [act fst snd] in *. rewrite Hx in Hp. destruct (step o x s) as [x' s'] eqn:E.
    destruct (step_within _ _ _ _ _ Hc E Hs) as ([_ Hs'] & _). specialize (IH (s', <[i := x']> xs) Hs' Hp).
    pose proof (step_decreases _ _ _ _ _ Hc E He). unfold work_left in *. cbn [fst snd] in *.
    rewrite (rank_update _ _ _ _ Hx) in IH. cbn [List.filter length]. lia.
Qed.

(** C30. A test by count ends under every schedule: its workers take at most nine steps for
    each request and two each to stop, whatever the network and the callbacks do. *)
Theorem load_workers_terminate names started entropy w n schedule :
  counting definition = true -> (0 < LoadTestRecord.request_count definition)%Z ->
  productive schedule (initial_shared names started entropy w false, repeat Checking n) ->
  (step_count schedule <= 9 * LoadTestRecord.request_count definition + 2 * Z.of_nat n)%Z.
Proof.
  intros Hc Hpos Hp. apply (productive_bounded _ Hc) in Hp; [| cbn; lia]. unfold work_left in Hp. cbn [fst snd] in Hp.
  assert (foldr (fun x n => rank x + n)%Z 0%Z (repeat Checking n) = 2 * Z.of_nat n)%Z as Hr
    by (clear; induction n as [|n IH]; [done |]; cbn [repeat foldr]; rewrite IH; cbn [rank]; lia).
  rewrite Hr in Hp. cbn in Hp. lia.
Qed.

(** *** What is sent *)

(** The target of an index: the next one for each index, in turn. *)
Definition turn (i : Z) : nat := Z.to_nat (i mod Z.of_nat (length (LoadTestRecord.targets definition))).
Definition named (name : string) (i : Z) : bool :=
  match prepared_targets !! turn i with Some target => bool_decide (text_entry "name" target = Ok name) | None => false end.

(** What the index [i] sends: the target whose turn it is, rendered with the number [i + 1],
    to the first of the addresses of its destination and on to the next ones; nothing only
    if that request cannot be made. *)
Definition sends (i : Z) (requests : list PinnedRequest.t) : Prop :=
  exists prepared place (e : R),
    prepared_targets !! turn i = Some prepared /\ destinations !! turn i = Some place
    /\ match (render_dynamic_templates (i + 1) (PDict prepared) e).1 with
       | Ok (PDict target) =>
           match (let? url := text_entry "url" target in
                  let? d := _rendered_destination url place in
                  let? make := LoadTestExecutor.pinned_request d.1 target (timeout definition) in Ok (map make d.2)) with
           | Ok all => exists k, requests = take k all /\ (all <> [] -> requests <> [])
           | Err _ => requests = []
           end
       | _ => requests = []
       end.

(** The world keeps the requests it was asked to open and the numbers of the reports. *)
Class Tracked (sent : W -> list PinnedRequest.t) (reports : W -> list Z) : Prop := {
  no_request : LoadTestExecutor._request self = None;
  urlopen_sent : forall request w, sent (urlopen request w).2 = sent w ++ [request] /\ reports (urlopen request w).2 = reports w;
  snapshot_kept : forall f, snapshot_callback = Some f -> forall m w, sent (f m w).2 = sent w /\ reports (f m w).2 = reports w;
  response_kept : forall f, response_callback = Some f -> forall item w,
    sent (f item w).2 = sent w /\ reports (f item w).2 = reports w ++ [ResponseItem.sequence item] }.

Context (sent : W -> list PinnedRequest.t) (reports : W -> list Z) `{!Tracked sent reports}.

Lemma try_addresses_sent make addresses w : exists k,
  sent (LoadTestExecutor.try_addresses make addresses w).2 = sent w ++ take k (map make addresses)
  /\ reports (LoadTestExecutor.try_addresses make addresses w).2 = reports w /\ (addresses <> [] -> k <> 0%nat).
Proof.
  revert w. induction addresses as [|a rest IH]; intros w; cbn [LoadTestExecutor.try_addresses].
  { exists 0%nat. by rewrite app_nil_r. }
  unfold try_except. destruct (urlopen_sent (make a) w) as [E1 E2].
  destruct (urlopen (make a) w) as [[response|e] w1]; cbn [snd] in *; [by exists 1%nat |].
  destruct (_ || _); [| by exists 1%nat]. destruct (IH w1) as (k & E3 & E4 & _). exists (Datatypes.S k).
  rewrite E3, E4, E1, E2, <- app_assoc. done.
Qed.

Lemma request_target_sent target d timeout w :
  reports (LoadTestExecutor._request_target self target d timeout w).2 = reports w
  /\ exists requests, sent (LoadTestExecutor._request_target self target d timeout w).2 = sent w ++ requests
     /\ match LoadTestExecutor.pinned_request d.1 target timeout with
        | Ok make => exists k, requests = take k (map make d.2) /\ (map make d.2 <> [] -> requests <> [])
        | Err _ => requests = []
        end.
Proof.
  unfold LoadTestExecutor._request_target, LoadTestExecutor.send, LoadTestExecutor._request_pinned. rewrite no_request.
  destruct (LoadTestExecutor.pinned_request d.1 target timeout) as [make|e].
  2: { unfold try_except, bind, lift. destruct (LoadTestExecutor.request_error e); (split; [done |]); exists []; by rewrite app_nil_r. }
  destruct (try_addresses_sent make d.2 w) as (k & E1 & E2 & Hk).
  assert (forall P : W -> Prop, P (LoadTestExecutor.try_addresses make d.2 w).2 ->
    P (try_except (let* response := (let* make := lift (Ok make) in LoadTestExecutor.try_addresses make d.2) in
       let* success := lift (LoadTestExecutor.status_expected (LoadResponse.status response) target) in
       let* ' (_, _, details) := lift (LoadTestExecutor.captured_details response) in
       ret (Attempt.mk (Some (LoadResponse.status response)) success
              (if success then None else Some "unexpected_status") (Some details)))
     LoadTestExecutor.request_error (fun _ => ret LoadTestExecutor.failed_request) w).2) as Hworld.
  { intros P HP. unfold try_except, bind, lift, ret. destruct (LoadTestExecutor.try_addresses make d.2 w) as [[response|e] w1]; cbn [snd] in HP;
      [| by destruct (LoadTestExecutor.request_error e)].
    destruct (LoadTestExecutor.status_expected _ _); [| by case_match].
    destruct (LoadTestExecutor.captured_details response) as [[[raw truncated] details]|]; [done | by case_match]. }
  split; [by apply Hworld |]. exists (take k (map make d.2)). split; [by apply Hworld |]. exists k. split; [done |].
  intros Hne. destruct d.2 as [|a rest]; [done |]. destruct k; [by destruct Hk | done].
Qed.

(** A request leaves what its index sends, and no report. *)
Lemma request_once_sent index (s : shared) r s' : request_once index s = (r, s') ->
  reports (Shared.world s') = reports (Shared.world s)
  /\ (r = Err IndexError
      \/ exists requests, sends index requests /\ sent (Shared.world s') = sent (Shared.world s) ++ requests).
Proof.
  unfold LoadTraffic.request_once, target_index, sends, turn.
  destruct (prepared_targets !! _) as [prepared|] eqn:Ep; [| intros [= <- <-]; split; [done | by left]].
  destruct (destinations !! _) as [d|] eqn:Ed; [| intros [= <- <-]; split; [done | by left]]. unfold on_entropy, on_world.
  intros E. symmetry in E. destruct (render_dynamic_templates (index + 1) (PDict prepared) (Shared.entropy s)) as [rendered r1] eqn:Er.
  assert (forall requests,
    match rendered with
    | Ok (PDict target) =>
        match (let? url := text_entry "url" target in let? d' := _rendered_destination url d in
               let? make := LoadTestExecutor.pinned_request d'.1 target (timeout definition) in Ok (map make d'.2)) with
        | Ok all => exists k, requests = take k all /\ (all <> [] -> requests <> [])
        | Err _ => requests = []
        end
    | _ => requests = []
    end -> sent (Shared.world s') = sent (Shared.world s) ++ requests ->
    exists requests, (exists prepared' place e, Some prepared = Some prepared' /\ Some d = Some place
      /\ match (render_dynamic_templates (index + 1) (PDict prepared') e).1 with
         | Ok (PDict target) =>
             match (let? url := text_entry "url" target in let? d' := _rendered_destination url place in
                    let? make := LoadTestExecutor.pinned_request d'.1 target (timeout definition) in Ok (map make d'.2)) with
             | Ok all => exists k, requests = take k all /\ (all <> [] -> requests <> [])
             | Err _ => requests = []
             end
         | _ => requests = []
         end) /\ sent (Shared.world s') = sent (Shared.world s) ++ requests) as Hgive.
  { intros requests Hr Hs. exists requests. split; [| exact Hs]. exists prepared, d, (Shared.entropy s). by rewrite Er. }
  assert (forall v, (r, s') = (v, Shared.mk (Shared.sequence s) (Shared.metrics s) r1 (Shared.world s) (Shared.cancelled s)) ->
    reports (Shared.world s') = reports (Shared.world s) /\ sent (Shared.world s') = sent (Shared.world s) ++ []) as Hnone
    by (intros v [= -> ->]; by rewrite app_nil_r).
  destruct rendered as [v|e]; [destruct v as [| | | | | | |l|l|l|l|kvs|fields]|]; try (apply Hnone in E as [E1 E2]; split; [exact E1 | right; by eapply Hgive]).
  destruct (text_entry "url" kvs) as [url|]; cbn [rbind] in *;
    [| apply Hnone in E as [E1 E2]; split; [exact E1 | right; by eapply Hgive]].
  destruct (_rendered_destination url d) as [d'|]; cbn [rbind] in *;
    [| apply Hnone in E as [E1 E2]; split; [exact E1 | right; by eapply Hgive]].
  destruct (request_target_sent kvs d' (timeout definition) (Shared.world s)) as (Hrep & requests & Hsent & Hr).
  cbn [Shared.world] in E. destruct (LoadTestExecutor._request_target _ _ _ _ _) as [x w']. injection E as -> ->. cbn [snd Shared.world] in *.
  split; [exact Hrep | right]. apply (Hgive requests); [| exact Hsent].
  by destruct (LoadTestExecutor.pinned_request d'.1 kvs (timeout definition)).
Qed.

(** What has been sent and recorded, with the indices [p] taken and not recorded, [a] of them
    sent, and the numbers [u] unreported; [order] is that of the requests. *)
Definition tally (s : shared) (p a u : list Z) : Prop :=
  exists recorded order chunks,
    (0 <= Shared.sequence s)%Z
    /\ recorded ++ p ≡ₚ seqZ 0 (Shared.sequence s)
    /\ order ≡ₚ recorded ++ a /\ Forall2 sends order chunks /\ sent (Shared.world s) = concat chunks
    /\ _MetricValues.total (_Metrics._all (Shared.metrics s)) = Z.of_nat (length recorded)
    /\ (forall name v, assoc name (_Metrics._targets (Shared.metrics s)) = Some v ->
         _MetricValues.total v = count_if (named name) recorded)
    /\ (is_Some response_callback -> reports (Shared.world s) ++ u ≡ₚ seqZ 1 (Z.of_nat (length recorded))).

Lemma tally_perm s p p' a a' u u' : p ≡ₚ p' -> a ≡ₚ a' -> u ≡ₚ u' -> tally s p a u -> tally s p' a' u'.
Proof.
  intros Hp Ha Hu (recorded & order & chunks & H'). exists recorded, order, chunks.
  by setoid_rewrite <- Hp; setoid_rewrite <- Ha; setoid_rewrite <- Hu.
Qed.

Lemma tally_same s s' p a u : Shared.sequence s' = Shared.sequence s ->
  _Metrics._all (Shared.metrics s') = _Metrics._all (Shared.metrics s) ->
  _Metrics._targets (Shared.metrics s') = _Metrics._targets (Shared.metrics s) ->
  sent (Shared.world s') = sent (Shared.world s) -> reports (Shared.world s') = reports (Shared.world s) ->
  tally s p a u -> tally s' p a u.
Proof. intros E1 E2 E3 E4 E5 (recorded & order & chunks & H'). exists recorded, order, chunks. by rewrite E1, E2, E3, E4, E5. Qed.

Lemma tally_take s p a u : tally s p a u -> tally (take_sequence s) (Shared.sequence s :: p) a u.
Proof.
  intros (recorded & order & chunks & Hn & Hp & Hrest). exists recorded, order, chunks. split; [cbn; lia |]. split; [| exact Hrest].
  cbn [take_sequence Shared.sequence]. rewrite seqZ_snoc, <- Hp by done. by rewrite <- Permutation_middle, Permutation_cons_append.
Qed.

Lemma tally_send s s' index requests p a u : Shared.sequence s' = Shared.sequence s -> Shared.metrics s' = Shared.metrics s ->
  reports (Shared.world s') = reports (Shared.world s) ->
  sends index requests -> sent (Shared.world s') = sent (Shared.world s) ++ requests ->
  tally s p a u -> tally s' p (index :: a) u.
Proof.
  intros E1 E2 E3 Hs E4 (recorded & order & chunks & Hn & Hp & Ho & Hc & Hsent & Hrest).
  exists recorded, (order ++ [index]), (chunks ++ [requests]). rewrite E1, E2, E3. split_and!; [done | done | | | | apply Hrest..].
  - by rewrite Ho, <- app_assoc, (Permutation_app_comm a).
  - by apply Forall2_app; [| constructor].
  - rewrite E4, Hsent, concat_app. cbn. by rewrite app_nil_r.
Qed.

Lemma named_spec name i : named name i = bool_decide (name_of i = Ok name).
Proof.
  unfold named, target_name_of. change (target_index definition i) with (turn i). by destruct (prepared_targets !! turn i).
Qed.

Lemma tally_add draws name index latency attempt n m s p a u :
  name_of index = Ok name -> _Metrics.add draws name latency attempt (Shared.metrics s) = (Ok n, m) ->
  tally s (index :: p) (index :: a) u ->
  tally (set_metrics m s) p a (match response_callback with Some _ => n :: u | None => u end).
Proof.
  intros Hname Hadd (recorded & order & chunks & Hn & Hp & Ho & Hc & Hsent & Ht & Htargets & Hlog). revert Hadd. unfold _Metrics.add.
  destruct (_Metrics.add_target _ _ _) as [targets|] eqn:Ea; [| done]. intros [= <- <-]. exists (recorded ++ [index]), order, chunks.
  cbn [set_metrics Shared.sequence Shared.metrics Shared.world _Metrics._all _Metrics._targets _MetricValues.add _MetricValues.total].
  rewrite length_app, Ht. split_and!; [done | | | done | done | cbn; lia | |].
  - rewrite <- Hp, <- app_assoc. done.
  - rewrite Ho, <- app_assoc. done.
  - intros name' v. rewrite (add_target_assoc _ _ _ _ Ea), count_if_app, named_spec, Hname. destruct (decide (name' = name)) as [->|Hne].
    + rewrite !bool_decide_true by done. intros Hv. apply fmap_Some in Hv as (v' & Ev & ->). rewrite <- (Htargets name v' Ev). done.
    + rewrite !bool_decide_false by congruence. intros Hv. rewrite <- (Htargets name' v Hv). lia.
  - intros Hcb. destruct Hcb as [f ->]. replace (Z.of_nat (length recorded + length [index])) with (Z.of_nat (length recorded) + 1)%Z
      by (cbn; lia). rewrite seqZ_snoc by lia. rewrite <- Hlog by done.
    rewrite <- Permutation_middle, Permutation_cons_append. by rewrite (Z.add_comm 1).
Qed.

Lemma tally_report s p a u item : tally s p a (ResponseItem.sequence item :: u) ->
  match response_callback with
  | Some f => tally (Shared.mk (Shared.sequence s) (Shared.metrics s) (Shared.entropy s) (f item (Shared.world s)).2 (Shared.cancelled s)) p a u
  | None => tally s p a u
  end.
Proof.
  intros (recorded & order & chunks & H1' & H2' & H3' & H4' & H5' & H6' & H7' & Hlog). pose proof response_kept as Hl.
  destruct response_callback as [f|] eqn:Ef; exists recorded, order, chunks.
  - destruct (Hl f eq_refl item (Shared.world s)) as [E1 E2]. cbn [Shared.world Shared.sequence Shared.metrics].
    rewrite E1, E2. split_and!; try done. intros _. rewrite <- Hlog by eauto. by rewrite <- app_assoc.
  - split_and!; try done. intros [? Hc]. congruence.
Qed.

Lemma step_tally o x s x' s' p a u : step o x s = (x', s') -> raised x' = false ->
  tally s (pending x ++ p) (answered x ++ a) (unreported x ++ u) -> tally s' (pending x' ++ p) (answered x' ++ a) (unreported x' ++ u).
Proof.
  destruct x; cbn [LoadTraffic.step].
  - intros [= <- <-]. by destruct (Shared.cancelled s).
  - destruct (count_reached definition s || deadline_passed definition deadline (now o)); intros [= <- <-]; [done |].
    intros _. apply tally_take.
  - destruct (request_once index s) as [r s1] eqn:E. pose proof (request_once_sent _ _ _ _ E) as [E4 Hr].
    apply request_once_counters in E as (E1 & E2 & E3). destruct Hr as [->|(requests & Hs & E5)]; [by intros [= <- <-] |].
    destruct r as [attempt|e]; intros [= <- <-]; [| destruct (is_template_error e); [| done]]; intros _; by eapply tally_send.
  - destruct (name_of index) as [name|] eqn:En; [| by intros [= <- <-]].
    destruct (_Metrics.add _ _ _ _ _) as [[n|] m] eqn:Ea; [| by intros [= <- <-]].
    intros [= <- <-] _ Ht. apply (tally_add _ _ _ _ _ _ _ _ _ _ _ En Ea) in Ht. destruct response_callback; exact Ht.
  - pose proof (tally_report s p a u item) as Hreport. destruct response_callback as [f|] eqn:Ef.
    + destruct (on_world (f item) s) as [r s1] eqn:E. apply on_callback in E as ->. intros [= <- <-].
      destruct r; [| done]. intros _. exact Hreport.
    + intros [= <- <-] _. exact Hreport.
  - destruct (_Metrics.periodic_snapshot _ _) as [snapshot m] eqn:E. intros [= <- <-] _.
    assert (m = _Metrics.mk (_Metrics._started (Shared.metrics s)) (_Metrics._all (Shared.metrics s)) (_Metrics._targets (Shared.metrics s))
      (_Metrics._scenarios (Shared.metrics s)) (_Metrics.successful_samples (Shared.metrics s)) (_Metrics.failed_samples (Shared.metrics s))
      (_Metrics._last_snapshot m)) as -> by (revert E; unfold _Metrics.periodic_snapshot; by case_match; intros [= <- <-]; destruct (Shared.metrics s)).
    intros Ht. destruct snapshot; exact Ht.
  - pose proof snapshot_kept as Hl. destruct snapshot_callback as [f|]; [| by intros [= <- <-]].
    destruct (Hl f eq_refl metrics (Shared.world s)) as [E1 E2].
    destruct (on_world (f metrics) s) as [r s1] eqn:E. apply on_callback in E as ->. intros [= <- <-].
    destruct r; [| done]. intros _. by apply tally_same.
  - intros [= <- <-] _. by destruct (count_reached definition s).
  - intros [= <- <-] _. by destruct (_ && _).
  - by intros [= <- <-].
  - by intros [= <- <-].
Qed.

(** The invariant of a test by count. *)
Definition settled_count (sys : shared * list worker) : Prop :=
  within sys.1 sys.2
  /\ ((forall e, Raised e ∉ sys.2) -> tally sys.1 (concat (map pending sys.2)) (concat (map answered sys.2)) (concat (map unreported sys.2))).

Lemma act_settled o i x s xs x' s' : counting definition = true ->
  settled_count (s, xs) -> xs !! i = Some x -> step o x s = (x', s') -> settled_count (s', <[i := x']> xs).
Proof.
  intros Hc [[Hs Hr] Ht] Hi Hstep. cbn [fst snd] in *. destruct (step_within _ _ _ _ _ Hc Hstep Hs) as (Hle & Hcan & Hret).
  split; [split; [cbn; lia |] |]; cbn [fst snd].
  - rewrite Hcan. intros Hno Hin. apply elem_of_list_insert in Hin as [E|Hin]; [| specialize (Hr Hno Hin); lia].
    destruct (Hret (eq_sym E)) as [->|[?|?]]; [| congruence | lia]. specialize (Hr Hno (list_elem_of_lookup_2 _ _ _ Hi)). lia.
  - intros Hno. assert (raised x' = false) as Hx'.
    { destruct x'; try done. exfalso. by eapply Hno, elem_of_updated. }
    assert (forall e, Raised e ∉ xs) as Hall.
    { intros e Hin. destruct (elem_of_update_other _ _ _ x' _ Hi Hin) as [<-|Hin']; [| by eapply Hno].
      cbn [LoadTraffic.step] in Hstep. injection Hstep as <- <-. done. }
    destruct (concat_update pending _ _ _ Hi) as (p & Hp & Hp'). destruct (concat_update answered _ _ _ Hi) as (a & Ha & Ha').
    destruct (concat_update unreported _ _ _ Hi) as (u & Hu & Hu').
    apply (tally_perm _ _ _ _ _ _ _ (symmetry (Hp' x')) (symmetry (Ha' x')) (symmetry (Hu' x'))).
    apply (step_tally _ _ _ _ _ _ _ _ Hstep Hx'). by apply (tally_perm _ _ _ _ _ _ _ Hp Ha Hu), Ht.
Qed.

Lemma initial_settled names started entropy w n : counting definition = true ->
  (0 < LoadTestRecord.request_count definition)%Z -> sent w = [] -> reports w = [] ->
  settled_count (initial_shared names started entropy w false, repeat Checking n).
Proof.
  intros Hc Hn Hsent Hlog. split; [split; [cbn; lia |] |]; cbn [fst snd].
  - intros _ Hin. exfalso. apply list_elem_of_In, repeat_spec in Hin. done.
  - intros _. assert (forall f : worker -> list Z, f Checking = [] -> concat (map f (repeat Checking n)) = []) as Hempty.
    { intros f Hf. induction n as [|n IH]; [done |]. cbn. by rewrite Hf, IH. }
    rewrite !Hempty by done. exists [], [], []. cbn. rewrite Hsent, Hlog. split_and!; try done.
    intros name v. induction names as [|m names IH]; cbn; [done |]. case_bool_decide; [by intros [= <-] | exact IH].
Qed.

(** What a test by count has done when its workers have returned. *)
Lemma counted_out names started entropy w n schedule :
  counting definition = true -> (0 < LoadTestRecord.request_count definition)%Z -> (0 < n)%nat -> sent w = [] -> reports w = [] ->
  let '(s, workers) := run_schedule step set_cancelled schedule
                         (initial_shared names started entropy w false, repeat Checking n) in
  let count := LoadTestRecord.request_count definition in
  (Shared.sequence s <= count)%Z
  /\ (Forall (fun x => x = Returned) workers -> Shared.cancelled s = false ->
      (exists order chunks, order ≡ₚ seqZ 0 count /\ Forall2 sends order chunks /\ sent (Shared.world s) = concat chunks)
      /\ _MetricValues.total (_Metrics._all (Shared.metrics s)) = count
      /\ (forall name v, assoc name (_Metrics._targets (Shared.metrics s)) = Some v ->
           _MetricValues.total v = count_if (named name) (seqZ 0 count))
      /\ (is_Some response_callback -> reports (Shared.world s) ≡ₚ seqZ 1 count)).
Proof.
  intros Hc Hpos Hn Hsent Hlog.
  assert (settled_count (run_schedule step set_cancelled schedule
    (initial_shared names started entropy w false, repeat Checking n))) as Hset.
  { apply schedule_invariant; [| intros; by eapply act_settled | by apply initial_settled].
    intros s xs [[Hs _] Ht]. split; [split; [exact Hs | done] | exact Ht]. }
  assert (length (run_schedule step set_cancelled schedule (initial_shared names started entropy w false, repeat Checking n)).2 = n) as Hlen.
  { apply (schedule_invariant _ _ (fun sys => length sys.2 = n)); [done | | by apply repeat_length].
    intros. cbn. by rewrite length_insert. }
  destruct (run_schedule _ _ _ _) as [s xs]. destruct Hset as [[Hs Hret] Ht]. cbn [fst snd] in *. cbv zeta. split; [exact Hs |].
  intros Hall Hno. assert (Returned ∈ xs) as Hin.
  { destruct xs as [|x xs]; cbn in Hlen; [lia |]. apply Forall_cons in Hall as [-> _]. left. }
  specialize (Hret Hno Hin). assert (Shared.sequence s = LoadTestRecord.request_count definition) as Hseq by lia.
  assert (forall f : worker -> list Z, f Returned = [] -> concat (map f xs) = []) as Hempty.
  { intros f Hf. clear -Hall Hf. induction Hall as [|x xs -> _ IH]; [done |]. cbn. by rewrite Hf, IH. }
  destruct Ht as (recorded & order & chunks & _ & Hp & Ho & Hchunks & Hall' & Htotal & Htargets & Hreports).
  { intros e Hin'. by apply (proj1 (Forall_forall _ _) Hall) in Hin'. }
  rewrite !Hempty, !app_nil_r in * by done. rewrite Hseq in Hp.
  assert (Z.of_nat (length recorded) = LoadTestRecord.request_count definition) as Hrec
    by (rewrite Hp, length_seqZ; lia).
  split_and!; [exists order, chunks; split; [by transitivity recorded | done] | by rewrite Htotal | | by rewrite <- Hrec].
  intros name v Hv. rewrite (Htargets name v Hv). by apply count_if_perm.
Qed.
End requests.

(** *** A world that keeps requests and reports *)

Section notes.
  Context {W : Type}.
  Notation noted := (list PinnedRequest.t * list Z * W)%type.

(** A network beside the notes, and the callbacks of the service. *)
Definition noting_network (inner : Network W) : Network noted := {|
  urlopen request s := let '(r, w) := urlopen request s.2 in (r, (s.1.1 ++ [request], s.1.2, w));
  is_urllib3_error := is_urllib3_error (Network := inner); is_requests_error := is_requests_error (Network := inner) |}.
Definition noting_report (f : ResponseItem.t -> M W unit) : ResponseItem.t -> M noted unit := fun item s =>
  let '(r, w) := f item s.2 in (r, (s.1.1, s.1.2 ++ [ResponseItem.sequence item], w)).
Definition noting_snapshot (f : list (string * pyval) -> M W unit) : list (string * pyval) -> M noted unit := fun metrics s =>
  let '(r, w) := f metrics s.2 in (r, (s.1, w)).

Lemma noting_tracked (inner : Network W) max_workers hosts response_callback snapshot_callback :
  Tracked (H4 := noting_network inner) (LoadTestExecutor.mk None max_workers hosts) (noting_report <$> response_callback)
    (noting_snapshot <$> snapshot_callback) (fun s => s.1.1) (fun s => s.1.2).
Proof.
  split; [done | | |].
  - intros request [[l m] w]. cbn. by destruct (urlopen request w).
  - intros f Hf m [[l r] w]. apply fmap_Some in Hf as (g & _ & ->). unfold noting_snapshot. cbn. by destruct (g m w).
  - intros f Hf item [[l r] w]. apply fmap_Some in Hf as (g & _ & ->). unfold noting_report. cbn. by destruct (g item w).
Qed.
End notes.


(** ** Where a load test sends its requests *)

Section everywhere.
  Context `{PyFloat} `{Ipaddress} `{AddressKinds} `{Resolver} {R : Type} `{Entropy R} {W : Type} `{Network W}.
  Context (self : LoadTestExecutor.t W) (definition : LoadTestRecord.t) (auth_config : option LoadTestAuthConfiguration.t).
  Context (response_callback : option (ResponseItem.t -> M W unit)) (snapshot_callback : option (list (string * pyval) -> M W unit)).
  Context (kept : W -> W -> Prop) `{!PreOrder kept}.
  Notation shared := (Shared.t R W).
  Notation hosts := (LoadTestExecutor._allowed_private_hosts self).
  Hypothesis Hself : LoadTestExecutor._request self = None.
  Hypothesis Hopen : forall request, permitted hosts request -> steps kept (urlopen request).
  Hypothesis Hresponse : forall f, response_callback = Some f -> forall item, steps kept (f item).
  Hypothesis Hsnapshot : forall f, snapshot_callback = Some f -> forall metrics, steps kept (f metrics).

Definition world_kept (s s' : shared) : Prop := kept (Shared.world s) (Shared.world s').

Lemma on_world_kept {A} (m : M W A) (s : shared) r s' : steps kept m -> on_world m s = (r, s') -> world_kept s s'.
Proof. intros Hm. unfold on_world, world_kept. specialize (Hm (Shared.world s)). destruct (m (Shared.world s)). by intros [= <- <-]. Qed.
Lemma on_entropy_kept {A} (m : M R A) (s : shared) r s' : on_entropy m s = (r, s') -> Shared.world s' = Shared.world s.
Proof. unfold on_entropy. destruct (m (Shared.entropy s)). by intros [= <- <-]. Qed.
Lemma world_same s s' : Shared.world s' = Shared.world s -> world_kept s s'.
Proof. unfold world_kept. intros ->. reflexivity. Qed.

Lemma request_once_kept prepared destinations index (s : shared) r s' :
  Forall (sound hosts) destinations -> request_once self definition prepared destinations index s = (r, s') -> world_kept s s'.
Proof.
  intros Hall. unfold request_once. destruct (prepared !! _) as [target|]; [| intros [= <- <-]; by apply world_same].
  destruct (destinations !! _) as [d|] eqn:Ed; [| intros [= <- <-]; by apply world_same].
  pose proof (Forall_lookup_1 _ _ _ _ Hall Ed) as Hd. destruct (on_entropy _ s) as [[v|e] s1] eqn:E; apply on_entropy_kept in E;
    [| intros [= <- <-]; by apply world_same].
  destruct v as [| | | | | | |l|l|l|l|target'|kvs]; try (intros [= <- <-]; by apply world_same).
  destruct (text_entry "url" target') as [url|]; cbn [rbind]; [| intros [= <- <-]; by apply world_same].
  destruct (_rendered_destination url d) as [d'|] eqn:E'; [| intros [= <- <-]; by apply world_same].
  intros Hw%on_world_kept; [by unfold world_kept in *; rewrite <- E |].
  apply request_target_permitted; [done.. | by eapply rendered_sound].
Qed.

Ltac moves := intros [= <- <-]; by apply world_same.
Lemma step_kept prepared destinations deadline o x (s : shared) x' s' : Forall (sound hosts) destinations ->
  step self definition response_callback snapshot_callback prepared destinations deadline o x s = (x', s') -> world_kept s s'.
Proof.
  intros Hall. destruct x; cbn [step]; try moves.
  - destruct (_ || _); moves.
  - destruct (request_once _ _ _ _ index s) as [r s1] eqn:E. apply request_once_kept in E; [| done]. destruct r; by intros [= <- <-].
  - destruct (target_name_of _ _ index); [| moves]. destruct (_Metrics.add _ _ _ _ _) as [[n|] m]; moves.
  - destruct response_callback as [f|]; [| moves]. destruct (on_world (f item) s) as [r s1] eqn:E.
    apply on_world_kept in E; [by intros [= <- <-] | by apply Hresponse].
  - destruct (_Metrics.periodic_snapshot _ _); moves.
  - destruct snapshot_callback as [f|]; [| moves]. destruct (on_world (f metrics) s) as [r s1] eqn:E.
    apply on_world_kept in E; [by intros [= <- <-] | by apply Hsnapshot].
Qed.

Lemma scenario_target_sound token rendered target d :
  scenario_target self auth_config token rendered = Ok (target, d) -> sound hosts d.
Proof.
  unfold scenario_target. destruct (_prepare_target rendered auth_config) as [prepared|]; [| done]. cbn [rbind].
  match goal with |- context [rbind ?x _] => destruct x as [prepared'|]; [| done] end. cbn [rbind].
  destruct (text_entry "url" prepared') as [url|]; [| done]. cbn [rbind].
  destruct (_validate_public_url hosts url) as [d'|] eqn:E; [| done]. cbn [rbind]. intros [= _ <-]. by eapply validated_sound.
Qed.
Lemma attempt_once_kept token j raw_target (s : shared) r s' :
  attempt_once self definition auth_config token j raw_target s = (r, s') -> world_kept s s'.
Proof.
  unfold attempt_once. destruct (_render_scenario_target _ _) as [rendered|]; [| moves].
  destruct (on_entropy _ s) as [[v|e] s1] eqn:E; apply on_entropy_kept in E; [| moves].
  destruct v as [| | | | | | |l|l|l|l|target'|kvs]; try moves.
  destruct (scenario_target _ _ _ _) as [[target d]|] eqn:Ed; [| moves]. apply scenario_target_sound in Ed.
  intros Hw%on_world_kept; [by unfold world_kept in *; rewrite <- E | by apply request_scenario_permitted].
Qed.

Lemma travel_kept token deadline o x (s : shared) x' s' :
  travel self definition auth_config response_callback snapshot_callback token deadline o x s = (x', s') -> world_kept s s'.
Proof.
  destruct x; cbn [travel]; try moves.
  - destruct (_ || _); moves.
  - destruct (_ !! i); moves.
  - destruct (_ !! i) as [raw_target|]; [| moves]. destruct (attempt_once _ _ _ _ j raw_target s) as [r s1] eqn:E.
    apply attempt_once_kept in E. destruct r as [[attempt extracted]|]; by intros [= <- <-].
  - destruct (_ !! i) as [raw_target|]; [| moves]. destruct (text_entry _ _); [| moves].
    destruct (_Metrics.add _ _ _ _ _) as [[n|] m]; moves.
  - destruct response_callback as [f|]; [| moves]. destruct (on_world (f item) s) as [r s1] eqn:E.
    apply on_world_kept in E; [by intros [= <- <-] | by apply Hresponse].
  - destruct (_Metrics.periodic_snapshot _ _); moves.
  - destruct snapshot_callback as [f|]; [| moves]. destruct (on_world (f metrics) s) as [r s1] eqn:E.
    apply on_world_kept in E; [by intros [= <- <-] | by apply Hsnapshot].
  - destruct (_ && _); [moves |]. destruct (_ !! i) as [raw_target|]; [| moves]. destruct (entry _ _) as [[]|]; try moves.
    destruct (_ && _); [moves |]. destruct (_ && _); moves.
  - destruct completed; moves.
  - destruct (_Metrics.periodic_snapshot _ _); moves.
  - destruct snapshot_callback as [f|]; [| moves]. destruct (on_world (f metrics) s) as [r s1] eqn:E.
    apply on_world_kept in E; [by intros [= <- <-] | by apply Hsnapshot].
Qed.

Lemma schedule_kept {X} (move : oracle -> X -> shared -> X * shared) schedule s xs :
  (forall o x s x' s', move o x s = (x', s') -> world_kept s s') ->
  world_kept s (run_schedule move set_cancelled schedule (s, xs)).1.
Proof.
  intros Hmove. apply (schedule_invariant _ _ (fun sys => world_kept s sys.1)); cbn [fst]; unfold world_kept in *; [done | | reflexivity].
  intros o i x s1 ys x' s' Hs _ E%Hmove. by etrans.
Qed.

Lemma prepare_all_sound w r w' : prepare_all self definition auth_config w = (r, w') ->
  kept w w' /\ match r with Ok (_, destinations) => Forall (sound hosts) destinations | Err _ => True end.
Proof.
  unfold prepare_all, bind, lift, ret. destruct (rmap _ (LoadTestRecord.targets definition)) as [prepared|]; [| intros [= <- <-]; split; [reflexivity | done]].
  destruct (rmap _ prepared) as [destinations|] eqn:E; [| intros [= <- <-]; split; [reflexivity | done]].
  assert (Forall (sound hosts) destinations) as Hall.
  { clear -E. revert destinations E. induction prepared as [|target rest IH]; cbn [rmap]; intros destinations; [by intros [= <-] |].
    destruct (text_entry "url" target) as [url|]; [| done]. cbn [rbind].
    destruct (_validate_public_url hosts url) as [d|] eqn:Ed; [| done]. cbn [rbind].
    destruct (rmap _ rest) as [ds|]; [| done]. intros [= <-]. constructor; [by eapply validated_sound | by apply IH]. }
  pose proof (token_permitted self kept Hself Hopen auth_config (timeout definition) w) as Hw.
  destruct (LoadTestExecutor._authentication_token _ _ _ w) as [[token|e] w1]; [| by intros [= <- <-]].
  match goal with |- context [match ?x with Ok _ => _ | Err _ => _ end] => destruct x end; by intros [= <- <-].
Qed.

Lemma execute_kept started ended schedule cancelled entropy w :
  kept w (Shared.world (execute self definition auth_config response_callback snapshot_callback
                          started ended schedule cancelled entropy w).2).
Proof.
  unfold execute. case_bool_decide.
  - pose proof (token_permitted self kept Hself Hopen auth_config (timeout definition) w) as Hw.
    destruct (LoadTestExecutor._authentication_token _ _ _ w) as [[token|e] w1]; [| done].
    destruct (rmap _ _) as [names|]; [| done]. cbn [snd] in *. etrans; [exact Hw |].
    refine (schedule_kept _ _ (initial_shared _ _ _ _ _) _ _). intros o x s x' s'. apply travel_kept.
  - destruct (prepare_all _ _ _ w) as [r w1] eqn:E. apply prepare_all_sound in E as [Hw Hall].
    destruct r as [[prepared destinations]|e]; [| done]. destruct (rmap _ _) as [names|]; [| done]. etrans; [exact Hw |].
    refine (schedule_kept _ _ (initial_shared _ _ _ _ _) _ _). intros o x s x' s'. by apply step_kept.
Qed.
End everywhere.

(** A callback beside the record of the network. *)
Definition beside {W A} (f : A -> M W unit) : A -> M (list PinnedRequest.t * W) unit := fun a s =>
  let '(r, w) := f a s.2 in (r, (s.1, w)).

(** C29. Whatever a load test sends — logins, requests of its workers, steps of its
    scenarios with rendered addresses — goes to an address that the host of an HTTP URL
    resolved to and that is public, or whose host is allowed and that is not special, to
    the port of that URL and with its certificate. *)
Theorem load_requests_permitted `{PyFloat} `{Ipaddress} `{AddressKinds} `{Resolver} {R W : Type} `{Entropy R} (inner : Network W)
    max_workers hosts definition auth_config response_callback snapshot_callback started ended schedule cancelled entropy w :
  let executor := LoadTestExecutor.mk None max_workers hosts in
  let '(_, s) := execute executor definition auth_config (beside <$> response_callback) (beside <$> snapshot_callback)
                   started ended schedule cancelled entropy ([], w) in
  Forall (permitted hosts) (Shared.world s).1.
Proof.
  intros executor.
  pose (kept := fun s s' : list PinnedRequest.t * W => Forall (permitted hosts) s.1 -> Forall (permitted hosts) s'.1).
  assert (PreOrder kept) as Hpre by (split; unfold kept; [by intros x | intros x y z; tauto]).
  assert (forall A (f : A -> M W unit) a, steps kept (beside f a)) as Hbeside.
  { intros A f a [l w']. unfold kept, beside. cbn [fst snd]. by destruct (f a w'). }
  pose proof (execute_kept executor definition auth_config (beside <$> response_callback) (beside <$> snapshot_callback) kept eq_refl)
    as Hall.
  assert (forall request, permitted hosts request -> steps kept (urlopen request)) as Hopen.
  { intros request Hp [l w']. unfold kept. cbn. destruct (urlopen request w') as [r w'']. cbn. intros Hl.
    apply Forall_app. by split; [| constructor]. }
  specialize (Hall Hopen). destruct (execute _ _ _ _ _ _ _ _ _ _ _) as [r s] eqn:E.
  assert (kept ([], w) (Shared.world s)) as Hk.
  { pose proof (f_equal (fun x => Shared.world x.2) E) as Ew. cbn [snd] in Ew. rewrite <- Ew. apply Hall.
    - intros f Hf item. destruct response_callback as [g|]; [| done]. injection Hf as <-. apply Hbeside.
    - intros f Hf metrics. destruct snapshot_callback as [g|]; [| done]. injection Hf as <-. apply Hbeside. }
  by apply Hk.
Qed.

(** ** Two workers, two targets, three requests *)

#[local] Instance shown_floats : PyFloat := fun _ _ => "0.5".
#[local] Instance one_host : Ipaddress := {| ip_version _ := None; ip_is_global a := bool_decide (a = "8.8.8.8") |}.
#[local] Instance plain_addresses : AddressKinds := {|
  ipv4_mapped _ := None; ip_in_network _ _ := false; is_private _ := false; is_loopback _ := false; is_link_local _ := false;
  is_multicast _ := false; is_reserved _ := false; is_unspecified _ := false |}.
#[local] Instance one_name : Resolver := fun _ => Ok ["8.8.8.8"].
#[local] Instance no_chance : Entropy unit := {| randbelow _ := ret 0%Z; uuid4 := ret 1%N; wall_clock := ret 0%Z |}.
(** One path answers 500. *)
#[local] Instance small_network : Network unit := {|
  urlopen request := ret (LoadResponse.mk (if bool_decide (PinnedRequest.path request = "/b") then 500 else 200)
                            (Plain (utf8 "{}")));
  is_urllib3_error _ := false; is_requests_error _ := false |}.

Definition small_target (name path : string) : list (string * pyval) :=
  [("name", PStr name); ("method", PStr "GET"); ("url", PStr ("https://api.test" ++ path)%string); ("headers", PDict []); ("query", PDict []);
   ("body", PNone); ("expected_statuses", PList [PInt 200]); ("extractors", PDict []); ("think_time_ms", PInt 0)].
Definition small_targets : list (list (string * pyval)) := [small_target "a" "/a"; small_target "b" "/b"].
Definition small_test : LoadTestRecord.t :=
  LoadTestRecord.mk 1 2 "small" EmptyString small_targets LoadTestMode.COUNT 3 1 2 0 (PInt 10) 1 0 0 None LoadTestTrafficMode.REQUESTS [] false
    "API".
Notation noted := (list PinnedRequest.t * list Z * unit)%type.
Notation small_executor := (LoadTestExecutor.mk (W := noted) None 100 []).
Definition small_destinations : list (SplitResult.t * list string) :=
  omap (fun path => match urlsplit ("https://api.test" ++ path)%string with Ok p => Some (p, ["8.8.8.8"]) | Err _ => None end) ["/a"; "/b"].
Definition take_report (item : ResponseItem.t) : M unit unit := ret tt.
Definition tick (i n : nat) : action := Step i (mkOracle (Z.of_nat n) (Z.of_nat n + 1) (0, 0)%Z).
(** Both workers in turn, then the one that took the last request. *)
Definition small_schedule : list action :=
  concat (map (fun n => [tick 1 n; tick 0 n]) (List.seq 0 12)) ++ map (tick 1) (List.seq 12 8).
#[local] Existing Instance noting_network.
Notation small_step := (step small_executor small_test (noting_report <$> Some take_report) (noting_snapshot <$> None)
  small_targets small_destinations 0).
Notation small_end := (run_schedule small_step set_cancelled small_schedule
  (initial_shared ["a"; "b"] 0%Z tt ([], [], tt) false, repeat Checking 2)).


Example small_counts :
  (_MetricValues.successful (_Metrics._all (Shared.metrics small_end.1)), _MetricValues.failed (_Metrics._all (Shared.metrics small_end.1)))
  = (2, 1)%Z.
Proof. vm_compute. reflexivity. Qed.

Lemma load_workers_terminate_witness : (step_count (take 16 small_schedule) <= 31)%Z.
Proof.
  refine (load_workers_terminate small_executor small_test (noting_report <$> Some take_report) (noting_snapshot <$> None)
    small_targets small_destinations 0 ["a"; "b"] 0 tt ([], [], tt) 2 (take 16 small_schedule) eq_refl eq_refl _).
  vm_compute. repeat match goal with |- _ /\ _ => split | |- ex _ => eexists end; reflexivity || exact I.
Defined.
