(* ===== verification/ConnectorClient.v ===== *)
(** * Connection tests of connectors
    ([src/services/api/connector_client.py], the test of [connector_routes.py])

    [ConnectorClient.test] sends one request to an HTTP connector, or initializes an MCP
    session and lists its tools page by page; every request goes to a checked address.
    Connection pools are an argument, closing a response is not modelled. *)
From stdpp Require Import gmap strings pretty.
From S2P Require Import Prelude PyDict PyText TextFacts Protocol Templates Codecs Json JsonFacts Urls Files FileFacts Versioned EnvironmentCrypto Connectors HttpAdapter HttpTheorems LoadRequests LoadRequestTheorems LoadTraffic.
Open Scope string_scope.
Open Scope list_scope.

Definition _BODY_LIMIT : nat := Z.to_nat 1048576.
Definition _TOOLS_SIZE_LIMIT : Z := 4 * 1048576.
Definition _BLOCKED_NETWORKS : list (Z * string) :=
  [(4, "0.0.0.0/8"); (4, "100.64.0.0/10"); (4, "192.0.0.0/24"); (6, "2001::/32"); (6, "2002::/16")]%Z.
Definition _PROTOCOLS : list string := ["2025-11-25"; "2025-03-26"; "2024-11-05"].

Definition connection_failed {A} (message : string) : res A := Err (ConnectorConnectionError message).
Definition is_connection_error (e : exn) : bool := match e with ConnectorConnectionError _ => true | _ => false end.

(** What a response offers to read: chunks, which may break after those it gave, the whole
    content, or nothing. *)
Inductive source := Chunks (chunks : list (list N)) (broken : option exn) | Whole (bytes : list N) | Unavailable.
Module ConnectorResponse.
Record t := mk { status : Z; body : source; headers : list (string * string) }.
End ConnectorResponse.
(** The arguments of an injected [request_callable]. *)
Module ConnectorCall.
Record t := mk { method : string; url : string; headers : list (string * string); json : option (list (string * pyval)); timeout : Z }.
End ConnectorCall.
(** [urlopen] of a new pool and the exceptions of the two libraries. *)
Class ConnectorPool (W : Type) := {
  pool_open : PinnedRequest.t -> M W ConnectorResponse.t;
  is_pool_error : exn -> bool; is_request_error : exn -> bool }.

(** ** Destinations *)

Section destinations.
  Context `{Ipaddress} `{AddressKinds} `{Resolver}.

Definition blocked (candidate : string) : bool :=
  existsb (fun '(version, network) => bool_decide (ip_version candidate = Some version) && ip_in_network candidate network)
    _BLOCKED_NETWORKS.
Definition _is_public (address : string) : bool :=
  let candidate := candidate_of address in
  negb (blocked candidate) && ip_is_global candidate && negb (is_private candidate) && negb (is_loopback candidate)
  && negb (is_link_local candidate) && negb (is_multicast candidate) && negb (is_reserved candidate)
  && negb (is_unspecified candidate).
Definition _is_allowed_private (address : string) : bool :=
  let candidate := candidate_of address in
  negb (blocked candidate) && negb (is_loopback candidate) && negb (is_link_local candidate)
  && negb (is_multicast candidate) && negb (is_reserved candidate) && negb (is_unspecified candidate).
Definition validator (allowed_private_hosts : list string) (hostname : string) : string -> bool :=
  if bool_decide (lower hostname ∈ allowed_private_hosts) then _is_allowed_private else _is_public.
Definition _validate_destination (allowed_private_hosts : list string) (url : string) : res destination :=
  match checked_destination (validator allowed_private_hosts) url with
  | Ok d => Ok d
  | Err _ => connection_failed "Connector destination is not allowed"
  end.
End destinations.

(** ** Headers and bodies *)

Definition header_of (headers : list (string * string)) (name : string) : option string :=
  match List.find (fun kv => bool_decide (lower kv.1 = lower name)) headers with Some kv => Some kv.2 | None => None end.
(** [headers[name] = value]. *)
Fixpoint header_set (name value : string) (headers : list (string * string)) : list (string * string) :=
  match headers with
  | [] => [(name, value)]
  | (n, v) :: rest => if bool_decide (n = name) then (name, value) :: rest else (n, v) :: header_set name value rest
  end.
Definition has_header (name : string) (headers : list (string * string)) : bool :=
  existsb (fun kv => bool_decide (kv.1 = name)) headers.

Definition _validated_headers (headers : list (string * string)) : res (list (string * string)) :=
  rfold (fun result '(name, value) =>
    if negb (header_name_ok name) || breaks_line value then connection_failed "Connector HTTP header is not allowed"
    else Ok (header_set name value result)) [] headers.
Definition _auth_headers (connector : ConnectorRecord.t) (credential : option string) : res (list (string * string)) :=
  match ConnectorRecord.auth_type connector with
  | ConnectorAuthType.NONE => Ok []
  | auth_type =>
      match credential with
      | Some credential =>
          if empty_str credential then connection_failed "Connector credential is unavailable"
          else _validated_headers
                 [(ConnectorRecord.auth_header connector,
                   if bool_decide (auth_type = ConnectorAuthType.BEARER) then ("Bearer " ++ credential)%string else credential)]
      | None => connection_failed "Connector credential is unavailable"
      end
  end.

Definition _require_success (response : ConnectorResponse.t) : res unit :=
  let status := ConnectorResponse.status response in
  if ((300 <=? status) && (status <? 400))%Z then connection_failed "Connector redirects are not allowed"
  else if ((status <? 200) || (300 <=? status))%Z then connection_failed "Connector returned a non-success status"
  else Ok tt.
Fixpoint read_chunks (chunks : list (list N)) (size : nat) (broken : option exn) : res (list N) :=
  match chunks with
  | [] => all_of [] broken
  | chunk :: rest =>
      let size := (size + length chunk)%nat in
      if (_BODY_LIMIT <? size)%nat then connection_failed "Connector response exceeded its size limit"
      else let? l := read_chunks rest size broken in Ok (chunk ++ l)
  end.
Definition _read_body (response : ConnectorResponse.t) : res (list N) :=
  match ConnectorResponse.body response with
  | Chunks chunks broken => read_chunks chunks 0 broken
  | Whole bytes => read_chunks [bytes] 0 None
  | Unavailable => connection_failed "Connector response is unavailable"
  end.

(** ** MCP messages *)

Definition lf : Ascii.ascii := Ascii.ascii_of_N 10.
Definition cr : Ascii.ascii := Ascii.ascii_of_N 13.
(** [text.replace("\r\n", "\n").replace("\r", "\n")]. *)
Fixpoint unix_lines (s : string) : string :=
  match s with
  | EmptyString => EmptyString
  | String c r =>
      if Ascii.eqb c cr then
        match r with
        | String d r' => if Ascii.eqb d lf then String lf (unix_lines r') else String lf (unix_lines r)
        | EmptyString => String lf EmptyString
        end
      else String c (unix_lines r)
  end.
Definition push (c : Ascii.ascii) (l : list string) : list string :=
  match l with [] => [String c EmptyString] | x :: rest => String c x :: rest end.
(** [re.split(r"\n\n+", text)]; [gap] holds within a separator. *)
Fixpoint split_events (gap : bool) (s : string) : list string :=
  match s with
  | EmptyString => [EmptyString]
  | String c r =>
      if Ascii.eqb c lf then
        if gap then split_events true r
        else match r with
             | String d r' => if Ascii.eqb d lf then EmptyString :: split_events true r' else push c (split_events false r)
             | EmptyString => push c [EmptyString]
             end
      else push c (split_events false r)
  end.
(** The value of a line [data: ...]. *)
Definition data_line (line : string) : option string :=
  if empty_str line || String.prefix ":" line then None
  else
    let '(field, value) := match cut (Ascii.ascii_of_N 58) line with Some p => p | None => (line, EmptyString) end in
    if bool_decide (field = "data") then Some match drop_prefix " " value with Some v => v | None => value end else None.
Definition data_values (event : string) : list string := omap data_line (split_on lf event).

Section payloads.
  Context `{PyFloat}.

(** A JSON-RPC message with the expected id. *)
Definition answers (expected_id : option Z) (payload : pyval) : bool :=
  match payload with
  | PDict kvs =>
      match kv_get "jsonrpc" kvs with Some v => py_eqb v (PStr "2.0") | None => false end
      && match expected_id with
         | None => true
         | Some n => match kv_get "id" kvs with Some v => py_eqb v (PInt n) | None => false end
         end
  | _ => false
  end.
Fixpoint first_answer (expected_id : option Z) (events : list string) (saw_data : bool) : res pyval :=
  match events with
  | [] => if saw_data then Err (ValueError EmptyString) else Ok PNone
  | event :: rest =>
      match data_values event with
      | [] => first_answer expected_id rest saw_data
      | values =>
          match loads (join (String lf EmptyString) values) with
          | Ok payload => if answers expected_id payload then Ok payload else first_answer expected_id rest true
          | Err e => if bool_decide (e = JSONDecodeError) then first_answer expected_id rest true else Err e
          end
      end
  end.
Definition is_event_stream (content_type : option string) : bool :=
  match content_type with
  | Some text =>
      let main := match cut (Ascii.ascii_of_N 59) text with Some (a, _) => a | None => text end in
      negb (empty_str text) && bool_decide (lower (strip main) = "text/event-stream")
  | None => false
  end.
Definition _parse_mcp_payload (raw : list N) (content_type : option string) (expected_id : option Z) : res pyval :=
  match (let? decoded := decode_text raw in
         match decoded with
         | None => Err UnicodeDecodeError
         | Some text => if is_event_stream content_type then first_answer expected_id (split_events false (unix_lines text)) false
                        else loads text
         end) with
  | Ok v => Ok v
  | Err e => if is_ValueError e then connection_failed "MCP response is invalid" else Err e
  end.

Definition tools_invalid {A} : res A := connection_failed "MCP tools response is invalid".
Definition _safe_tool (raw : pyval) : res ConnectorTool.t :=
  match raw with
  | PDict kvs =>
      match kv_get "name" kvs, default (PStr EmptyString) (kv_get "description" kvs), default (PDict []) (kv_get "inputSchema" kvs) with
      | Some (PStr name), PStr description, PDict schema =>
          if empty_str (strip name) || (255 <? py_len name)%Z || (10000 <? py_len description)%Z then tools_invalid
          else
            match dumps_spaced (PDict schema) with
            | Ok text => if (65536 <? Z.of_nat (length (utf8 text)))%Z then tools_invalid
                         else Ok (ConnectorTool.mk (strip name) description schema)
            | Err e => if bool_decide (e = TypeError) || is_ValueError e then tools_invalid else Err e
            end
      | _, _, _ => tools_invalid
      end
  | _ => tools_invalid
  end.
Definition tool_size (tool : ConnectorTool.t) : res Z :=
  let? text := dumps false false (PDict [("name", PStr (ConnectorTool.name tool)); ("description", PStr (ConnectorTool.description tool));
                                         ("inputSchema", PDict (ConnectorTool.input_schema tool))]) in
  Ok (Z.of_nat (length (utf8 text))).
Fixpoint add_tools (items : list pyval) (tools : list ConnectorTool.t) (size : Z) : res (list ConnectorTool.t * Z) :=
  match items with
  | [] => Ok (tools, size)
  | item :: rest =>
      let? tool := _safe_tool item in
      let? n := tool_size tool in
      let size := (size + n)%Z in
      if (_TOOLS_SIZE_LIMIT <? size)%Z then connection_failed "MCP tool discovery exceeded its aggregate size limit"
      else add_tools rest (tools ++ [tool]) size
  end.
End payloads.

(** ** The client *)

Module ConnectorClient.
Record t (W : Type) := mk { _request : option (ConnectorCall.t -> M W ConnectorResponse.t); _allowed_private_hosts : list string }.
Arguments mk {W}.
Arguments _request {W}.
Arguments _allowed_private_hosts {W}.
Definition init {W} (request_callable : option (ConnectorCall.t -> M W ConnectorResponse.t)) (allowed_private_hosts : list string) : t W :=
  mk request_callable (map (fun host => lower (strip host)) allowed_private_hosts).

Section client.
  Context `{PyFloat} `{Ipaddress} `{AddressKinds} `{Resolver} {W : Type} `{ConnectorPool W} (self : t W).
  Notation headers := (list (string * string)).

Definition pinned_request (parsed : SplitResult.t) (method : string) (request_headers : headers)
    (body : option (list (string * pyval))) (timeout : Z) : res (string -> PinnedRequest.t) :=
  let? port := effective_port parsed in
  let path := if empty_str (SplitResult.path parsed) then "/" else SplitResult.path parsed in
  let path := if empty_str (SplitResult.query parsed) then path else (path ++ "?" ++ SplitResult.query parsed)%string in
  let request_headers := if has_header "Host" request_headers then request_headers
                         else request_headers ++ [("Host", SplitResult.netloc parsed)] in
  let? encoded := match body with
                  | None => Ok None
                  | Some kvs => let? text := dumps false false (PDict kvs) in Ok (Some (utf8 text))
                  end in
  let secure := bool_decide (lower (SplitResult.scheme parsed) = "https") in
  Ok (fun address => PinnedRequest.mk address port (if secure then Split.hostname parsed else None) method path encoded
                       (map (fun kv => (kv.1, PStr kv.2)) request_headers) (PInt timeout)).
Fixpoint try_addresses (make : string -> PinnedRequest.t) (addresses : list string) : M W ConnectorResponse.t :=
  match addresses with
  | [] => raise HTTPError
  | address :: rest =>
      try_except (pool_open (make address)) (fun e => is_pool_error e || is_OSError e) (fun _ => try_addresses make rest)
  end.
Definition _request_pinned (d : destination) (method : string) (request_headers : headers)
    (body : option (list (string * pyval))) (timeout : Z) : M W ConnectorResponse.t :=
  let* make := lift (pinned_request d.1 method request_headers body timeout) in try_addresses make d.2.

(** The exceptions of a request that failed. *)
Definition request_failed (e : exn) : bool :=
  is_request_error e || is_pool_error e || bool_decide (e = HTTPError) || is_OSError e || bool_decide (e = TypeError) || is_ValueError e.
Definition _send (method url : string) (request_headers : headers) (body : option (list (string * pyval))) (timeout : Z)
    : M W ConnectorResponse.t :=
  let* d := lift (_validate_destination (_allowed_private_hosts self) url) in
  let* clean_headers := lift (_validated_headers request_headers) in
  try_except
    (match _request self with
     | Some request => request (ConnectorCall.mk method url clean_headers body timeout)
     | None => _request_pinned d method clean_headers body timeout
     end)
    (fun e => negb (is_connection_error e) && request_failed e)
    (fun _ => lift (connection_failed "Connector request failed")).

(** A JSON-RPC message: its id, method and parameters. *)
Definition rpc_body (id : option Z) (method : string) (params : option (list (string * pyval))) : list (string * pyval) :=
  [("jsonrpc", PStr "2.0")] ++ match id with Some n => [("id", PInt n)] | None => [] end ++ [("method", PStr method)]
  ++ match params with Some p => [("params", PDict p)] | None => [] end.
Definition _rpc (connector : ConnectorRecord.t) (request_headers : headers) (id : option Z) (method : string)
    (params : option (list (string * pyval))) (require_payload : bool) : M W (list (string * pyval) * headers) :=
  let* response := _send "POST" (ConnectorRecord.base_url connector) request_headers (Some (rpc_body id method params))
                     (ConnectorRecord.timeout_seconds connector) in
  let received := ConnectorResponse.headers response in
  lift (_require_success response) ;;;
  let* raw := lift (_read_body response) in
  if nilb raw && negb require_payload then ret ([], received)
  else
    let* payload := lift (_parse_mcp_payload raw (header_of received "Content-Type") id) in
    if bool_decide (payload = PNone) && negb require_payload then ret ([], received)
    else
      match payload with
      | PDict kvs =>
          if negb match kv_get "jsonrpc" kvs with Some v => py_eqb v (PStr "2.0") | None => false end || bool_decide (is_Some (kv_get "error" kvs))
          then lift (connection_failed "MCP response is invalid")
          else ret (kvs, received)
      | _ => lift (connection_failed "MCP response is invalid")
      end.

(** [payload.get("result")] as a dict. *)
Definition result_of (payload : list (string * pyval)) : list (string * pyval) :=
  match kv_get "result" payload with Some (PDict kvs) => kvs | _ => [] end.
(** The pages for the request ids. *)
Fixpoint list_pages (connector : ConnectorRecord.t) (rpc_headers : headers) (request_ids : list Z) (cursor : option string)
    (tools : list ConnectorTool.t) (size : Z) : M W (list ConnectorTool.t) :=
  match request_ids with
  | [] => lift (connection_failed "MCP tool discovery exceeded its page limit")
  | request_id :: rest =>
      let params := match cursor with
                    | Some cursor => if empty_str cursor then [] else [("cursor", PStr cursor)]
                    | None => []
                    end in
      let* ' (payload, _) := _rpc connector rpc_headers (Some request_id) "tools/list" (Some params) true in
      let page := result_of payload in
      match kv_get "tools" page with
      | Some (PList raw_tools) =>
          let* ' (tools, size) := lift (add_tools raw_tools tools size) in
          if (1000 <? length tools)%nat then lift (connection_failed "MCP tool discovery exceeded its limit")
          else
            match kv_get "nextCursor" page with
            | None | Some PNone => ret tools
            | Some (PStr next_cursor) =>
                if empty_str next_cursor || (2048 <? py_len next_cursor)%Z then lift tools_invalid
                else list_pages connector rpc_headers rest (Some next_cursor) tools size
            | Some _ => lift tools_invalid
            end
      | _ => lift tools_invalid
      end
  end.

Definition client_info : list (string * pyval) :=
  [("protocolVersion", PStr "2025-11-25"); ("capabilities", PDict []);
   ("clientInfo", PDict [("name", PStr "smarttest-connector-center"); ("version", PStr "1")])].
Definition request_ids : list Z := map Z.of_nat (List.seq 2 100).
Definition _test_mcp (connector : ConnectorRecord.t) (auth_headers : headers) : M W (list ConnectorTool.t) :=
  let rpc_headers := header_set "Content-Type" "application/json"
                       (header_set "Accept" "application/json, text/event-stream" auth_headers) in
  let* ' (initialized, response_headers) := _rpc connector rpc_headers (Some 1%Z) "initialize" (Some client_info) true in
  match kv_get "protocolVersion" (result_of initialized) with
  | Some (PStr protocol) =>
      if negb (bool_decide (protocol ∈ _PROTOCOLS)) then lift (connection_failed "MCP initialize response is invalid")
      else
        let rpc_headers := header_set "MCP-Protocol-Version" protocol rpc_headers in
        let rpc_headers := match header_of response_headers "Mcp-Session-Id" with
                           | Some session => if empty_str session then rpc_headers else header_set "Mcp-Session-Id" session rpc_headers
                           | None => rpc_headers
                           end in
        _rpc connector rpc_headers None "notifications/initialized" None false ;;;
        list_pages connector rpc_headers request_ids None [] 0
  | _ => lift (connection_failed "MCP initialize response is invalid")
  end.

(** The message and the tools; [test] adds the time it took. *)
Definition _test_validated (connector : ConnectorRecord.t) (credential : option string) : M W (string * list ConnectorTool.t) :=
  let* auth_headers := lift (_auth_headers connector credential) in
  match ConnectorRecord.kind connector with
  | ConnectorKind.HTTP =>
      let* response := _send "GET" (ConnectorRecord.base_url connector) auth_headers None (ConnectorRecord.timeout_seconds connector) in
      lift (_require_success response) ;;;
      let* _ := lift (_read_body response) in
      ret ("Connection succeeded", [])
  | ConnectorKind.MCP =>
      let* tools := _test_mcp connector auth_headers in
      ret ("MCP connection and tool discovery succeeded", tools)
  end.
Definition test (connector : ConnectorRecord.t) (credential : option string) : M W (string * list ConnectorTool.t) :=
  try_except (_test_validated connector credential) (fun e => negb (is_connection_error e))
    (fun _ => lift (connection_failed "Connector request failed")).
End client.
End ConnectorClient.

(** ** The test of a stored connector *)

Module ConnectorTestResponse.
Record t := mk { connector : ConnectorRecord.t; success : bool; message : string; latency_ms : pyval; tool_count : Z }.
End ConnectorTestResponse.

Definition connection_message (e : exn) : string := match e with ConnectorConnectionError message => message | _ => EmptyString end.

Section route.
  Context `{PyFloat} `{Aead} `{Ipaddress} `{AddressKinds} `{Resolver} {W : Type} `{ConnectorPool W}.
  Context (_encryptor : SecretEncryptor.t) (client : ConnectorClient.t W).

(** Storing the outcome for the version that was tested. *)
Definition save_test (elapsed : Z) (tested_at read : datetime) (connector_id : uuid) (version : Z) (success : bool)
    (message : string) (tools : list ConnectorTool.t) (error : option string) : M ConnectorRepository.t ConnectorTestResponse.t :=
  let response message updated :=
    ConnectorTestResponse.mk updated success message (thousandths elapsed) (Z.of_nat (length tools)) in
  try_except
    (let* updated := ConnectorRepository.record_test tested_at read connector_id version success tools error in
     ret (response message updated))
    (fun e => bool_decide (e = ConnectorVersionConflict))
    (fun _ =>
       let* updated := ConnectorRepository.get_connector connector_id in
       ret (response (message ++ ". Test result was not saved because the connector configuration changed during the test.")%string
              updated)).

(** Other requests may change the repository while the connection is tested ([meanwhile]);
    [elapsed] is the time it takes, in microseconds. *)
Definition test_connector (meanwhile : ConnectorRepository.t -> ConnectorRepository.t) (elapsed : Z) (tested_at read : datetime)
    (connector_id : uuid) : M (ConnectorRepository.t * W) ConnectorTestResponse.t := fun '(s, w) =>
  match ConnectorRepository.get_connector connector_id s with
  | (Err e, s) => (Err e, (s, w))
  | (Ok record, s) =>
      match ConnectorRepository.credential_for _encryptor record with
      | Err e => (Err e, (s, w))
      | Ok credential =>
          let '(r, w) := ConnectorClient.test client record credential w in
          let save success message tools error :=
            let '(r, s) := save_test elapsed tested_at read connector_id (ConnectorRecord.state_version record)
                             success message tools error (meanwhile s) in
            (r, (s, w)) in
          match r with
          | Ok (message, tools) => save true message tools None
          | Err e =>
              if is_connection_error e
              then save false (connection_message e) (ConnectorRecord.tools record) (Some (connection_message e))
              else (Err e, (meanwhile s, w))
          end
      end
  end.
End route.

(** * Theorems about connection tests *)

(** ** Where the requests go *)

(** A pool that notes what it was asked to open. *)
#[export] Instance recording_pool {W} (inner : ConnectorPool W) : ConnectorPool (list PinnedRequest.t * W) := {
  pool_open := fun request s => let '(r, w) := pool_open request s.2 in (r, (s.1 ++ [request], w));
  is_pool_error := is_pool_error (ConnectorPool := inner); is_request_error := is_request_error (ConnectorPool := inner) }.

Section requests.
  Context `{PyFloat} `{Ipaddress} `{AddressKinds} `{Resolver} (hosts : list string) (url : string).

(** An address the host may be reached at. *)
Definition connector_fits (host address : string) : Prop :=
  let a := default address (ipv4_mapped address) in
  (forall version network, (version, network) ∈ [(4, "0.0.0.0/8"); (4, "100.64.0.0/10"); (4, "192.0.0.0/24"); (6, "2001::/32"); (6, "2002::/16")]%Z ->
     ip_version a = Some version -> ip_in_network a network = false)
  /\ is_loopback a = false /\ is_link_local a = false /\ is_multicast a = false /\ is_reserved a = false /\ is_unspecified a = false
  /\ (lower host ∈ hosts \/ (ip_is_global a = true /\ is_private a = false)).
(** A request to such an address of the host of the URL, to its port and with its
    certificate. *)
Definition connector_permitted (request : PinnedRequest.t) : Prop :=
  exists parsed host,
    urlsplit url = Ok parsed /\ lower (SplitResult.scheme parsed) ∈ ["http"; "https"] /\ Split.hostname parsed = Some host
    /\ Split.username parsed = None /\ Split.password parsed = None
    /\ reaches host (PinnedRequest.address request) /\ connector_fits host (PinnedRequest.address request)
    /\ effective_port parsed = Ok (PinnedRequest.port request)
    /\ (lower (SplitResult.scheme parsed) = "https" -> PinnedRequest.certificate_host request = Some host).

Lemma validator_fits host a : validator hosts host a = true -> connector_fits host a.
Proof.
  unfold connector_fits. set (c := default a (ipv4_mapped a)). cbv zeta.
  assert (blocked c = false -> forall version network, (version, network) ∈ _BLOCKED_NETWORKS -> ip_version c = Some version ->
    ip_in_network c network = false) as Hblocked.
  { intros Hb version network Hin Hv. apply not_true_iff_false. intros E. apply not_true_iff_false in Hb.
    apply Hb, existsb_exists. exists (version, network). split; [by apply list_elem_of_In |]. by rewrite bool_decide_true, E. }
  unfold validator. case_bool_decide as Hhost; unfold _is_allowed_private, _is_public, candidate_of; fold c; cbv zeta; intros Hall;
    repeat (apply andb_true_iff in Hall as [Hall ?]); rewrite ?negb_true_iff in *; split_and!; auto; by apply Hblocked.
Qed.

Lemma connector_pinned d method request_headers body timeout make a :
  _validate_destination hosts url = Ok d -> ConnectorClient.pinned_request d.1 method request_headers body timeout = Ok make ->
  a ∈ d.2 -> connector_permitted (make a).
Proof.
  unfold _validate_destination. destruct (checked_destination _ url) as [x|] eqn:E; [| done]. intros [= ->].
  apply checked_destination_Ok in E as (host & E1 & E2 & E3 & E4 & E5 & Hall). intros Hmake [Hr Ha%validator_fits]%Hall.
  exists d.1, host. revert Hmake. unfold ConnectorClient.pinned_request. destruct (effective_port d.1) as [port|]; [| done]. cbn [rbind]. cbv zeta.
  match goal with |- context [rbind ?x _] => destruct x as [encoded|]; [| done] end. cbn [rbind]. intros [= <-].
  cbn [PinnedRequest.address PinnedRequest.port PinnedRequest.certificate_host]. split_and!; try done.
  intros Hs. by rewrite bool_decide_true.
Qed.
End requests.

Section sends.
  Context `{PyFloat} `{Ipaddress} `{AddressKinds} `{Resolver} {W : Type} `{ConnectorPool W} (self : ConnectorClient.t W) (url : string).
  Context (R : W -> W -> Prop) `{!PreOrder R}.
  Import ConnectorClient.
  Hypothesis Hself : _request self = None.
  Hypothesis Hopen : forall request, connector_permitted (_allowed_private_hosts self) url request -> steps R (pool_open request).

Lemma connector_send_permitted method request_headers body timeout : steps R (_send self method url request_headers body timeout).
Proof.
  unfold _send. apply steps_lift_bind; [typeclasses eauto |]. intros d Hd. rewrite Hself.
  assert (forall clean, steps R (_request_pinned d method clean body timeout)) as Hpinned.
  { intros clean. unfold _request_pinned. apply steps_lift_bind; [typeclasses eauto |]. intros make Hmake.
    assert (forall a, a ∈ d.2 -> steps R (pool_open (make a))) as Hall by (intros; by eapply Hopen, connector_pinned).
    induction (d.2) as [|a rest IH]; cbn [try_addresses]; [by_steps |].
    assert (steps R (pool_open (make a))) by (apply Hall; left).
    assert (steps R (try_addresses make rest)) by (apply IH; intros x Hx; apply Hall; by right). by_steps. }
  by_steps.
Qed.

Lemma connector_test_permitted connector credential : ConnectorRecord.base_url connector = url ->
  steps R (test self connector credential).
Proof.
  intros Hurl. pose proof connector_send_permitted as Hsend.
  assert (forall rpc_headers id method params require, steps R (_rpc self connector rpc_headers id method params require)) as Hrpc
    by (intros; unfold _rpc; rewrite Hurl; by_steps).
  assert (forall rpc_headers ids cursor tools size, steps R (list_pages self connector rpc_headers ids cursor tools size)) as Hpages.
  { intros rpc_headers ids. induction ids as [|id ids IH]; intros cursor tools size; cbn [list_pages]; [by_steps |]. by_steps. }
  assert (forall auth_headers, steps R (_test_mcp self connector auth_headers)) as Hmcp by (intros; unfold _test_mcp; by_steps).
  unfold test, _test_validated. rewrite Hurl. by_steps.
Qed.
End sends.

(** C32. Whatever a server answers, the test of a connector sends every request — the
    credential it carries included — to an address that the host of its base URL resolved
    to and that is public, or whose host is allowed and that is not special, to the port of
    that URL and with its certificate. *)
Theorem connector_requests_permitted `{PyFloat} `{Ipaddress} `{AddressKinds} `{Resolver} {W} (inner : ConnectorPool W)
    hosts connector credential (w : W) :
  let client := ConnectorClient.mk None hosts in
  let '(_, s) := ConnectorClient.test client connector credential ([], w) in
  Forall (connector_permitted hosts (ConnectorRecord.base_url connector)) s.1.
Proof.
  intros client. set (P := connector_permitted hosts (ConnectorRecord.base_url connector)).
  pose (kept := fun s s' : list PinnedRequest.t * W => Forall P s.1 -> Forall P s'.1).
  assert (PreOrder kept) as Hpre by (split; unfold kept; [by intros x | intros x y z; tauto]).
  assert (steps kept (ConnectorClient.test client connector credential)) as Hall.
  { apply (connector_test_permitted client (ConnectorRecord.base_url connector)); [typeclasses eauto | done | | done].
    intros request Hp [l w']. unfold kept. cbn. destruct (pool_open request w') as [r w'']. cbn. intros Hl.
    apply Forall_app. by split; [| constructor]. }
  specialize (Hall ([], w)). destruct (ConnectorClient.test _ _ _ _) as [r s]. by apply Hall.
Qed.

(** ** What a test accepts *)

(** A property of the result of a call that returns. *)
Definition yields {S A} (P : A -> Prop) (m : M S A) : Prop := forall s x s', m s = (Ok x, s') -> P x.
Lemma yields_bind {S A B} (P : B -> Prop) (m : M S A) (k : A -> M S B) : (forall a, yields P (k a)) -> yields P (bind m k).
Proof. intros Hk s x s'. unfold bind. destruct (m s) as [[a|e] s1]; [apply Hk | done]. Qed.
Lemma yields_lift_bind {S A B} (P : B -> Prop) (r : res A) (k : A -> M S B) :
  (forall a, r = Ok a -> yields P (k a)) -> yields P (bind (lift r) k).
Proof. intros Hk s x s'. unfold bind, lift. destruct r as [a|e]; [by apply Hk | done]. Qed.
Lemma yields_error {S A} (P : A -> Prop) e : yields P (@lift S A (Err e)).
Proof. by intros s x s'. Qed.
Lemma yields_ret {S A} (P : A -> Prop) x : P x -> yields P (@ret S A x).
Proof. by intros Hx s y s' [= <- _]. Qed.

Section discovery.
  Context `{PyFloat} `{Ipaddress} `{AddressKinds} `{Resolver} {W : Type} `{ConnectorPool W} (self : ConnectorClient.t W).

(** A tool within the limits of a tool. *)
Definition tool_fits (tool : ConnectorTool.t) : Prop :=
  ConnectorTool.name tool <> EmptyString /\ (py_len (ConnectorTool.name tool) <= 255)%Z
  /\ (py_len (ConnectorTool.description tool) <= 10000)%Z
  /\ exists text, dumps_spaced (PDict (ConnectorTool.input_schema tool)) = Ok text /\ (Z.of_nat (length (utf8 text)) <= 65536)%Z.
(** Tools within the limits of a connector; [size] is the number of bytes of their texts. *)
Definition tools_fit (tools : list ConnectorTool.t) (size : Z) : Prop :=
  Forall tool_fits tools /\ (size <= 4194304)%Z
  /\ exists sizes, Forall2 (fun tool n => tool_size tool = Ok n) tools sizes /\ size = foldr Z.add 0%Z sizes.

Lemma safe_tool_fits raw tool : _safe_tool raw = Ok tool -> tool_fits tool.
Proof.
  unfold _safe_tool. destruct raw as [| | | | | | | | | | |kvs|]; try done. destruct (kv_get "name" kvs) as [[]|]; try done.
  destruct (default _ (kv_get "description" kvs)); try done. destruct (default _ (kv_get "inputSchema" kvs)); try done.
  destruct (empty_str (strip s)) eqn:En; [done |].
  destruct (Z.ltb_spec 255 (py_len s)); [done |]. pose proof (strip_length s). destruct (Z.ltb_spec 10000 (py_len s0)); [done |].
  cbn [orb]. destruct (dumps_spaced _) as [text|] eqn:Ed; [| destruct (_ || _); done].
  destruct (Z.ltb_spec 65536 (Z.of_nat (length (utf8 text)))); [done |]. intros [= <-]. unfold tool_fits. cbn.
  split_and!; [intros E; by rewrite E in En | lia | done |]. by exists text.
Qed.

Lemma add_tools_fit items : forall tools size tools' size',
  tools_fit tools size -> add_tools items tools size = Ok (tools', size') -> tools_fit tools' size'.
Proof.
  induction items as [|item items IH]; intros tools size tools' size' Hfit; cbn [add_tools]; [by intros [= <- <-] |].
  destruct (_safe_tool item) as [tool|] eqn:Et; [| done]. cbn [rbind]. destruct (tool_size tool) as [n|] eqn:En; [| done]. cbn [rbind].
  destruct (Z.ltb_spec _TOOLS_SIZE_LIMIT (size + n)); [done |]. apply IH. destruct Hfit as (Hall & Hs & sizes & Hsizes & ->).
  split_and!; [apply Forall_app; split; [done | by repeat constructor; eapply safe_tool_fits] | unfold _TOOLS_SIZE_LIMIT in *; lia |].
  exists (sizes ++ [n]). split; [by apply Forall2_app; [| constructor; [| constructor]] |].
  clear. induction sizes as [|m sizes IH]; cbn; lia.
Qed.

Definition discovered (tools : list ConnectorTool.t) : Prop := (length tools <= 1000)%nat /\ exists size, tools_fit tools size.

Lemma list_pages_discovered connector rpc_headers ids : forall cursor tools size, tools_fit tools size ->
  yields discovered (ConnectorClient.list_pages self connector rpc_headers ids cursor tools size).
Proof.
  induction ids as [|id ids IH]; intros cursor tools size Hfit; cbn [ConnectorClient.list_pages]; [apply yields_error |].
  apply yields_bind. intros [payload received]. destruct (kv_get "tools" _) as [[]|]; try apply yields_error.
  apply yields_lift_bind. intros [tools' size'] Hadd%add_tools_fit; [| done].
  destruct (Nat.ltb_spec 1000 (length tools')); [apply yields_error |].
  assert (discovered tools') as Hd by (split; [lia | by exists size']).
  destruct (kv_get "nextCursor" _) as [[]|]; try apply yields_error; try by apply yields_ret.
  destruct (_ || _); [apply yields_error |]. by apply IH.
Qed.

Lemma test_validated_discovered connector credential :
  yields (fun r => discovered r.2) (ConnectorClient._test_validated self connector credential).
Proof.
  assert (tools_fit [] 0) as Hnil by (split_and!; [constructor | lia | by exists []]).
  unfold ConnectorClient._test_validated. apply yields_bind. intros auth_headers. destruct (ConnectorRecord.kind connector).
  - unfold bind at 1. intros s [message tools] s' E. destruct (ConnectorClient._test_mcp _ _ _ s) as [[found|e] s1] eqn:Em; [| done].
    injection E as _ <- _. cbn [snd]. revert Em.
    assert (yields discovered (ConnectorClient._test_mcp self connector auth_headers)) as Hy; [| apply Hy].
    unfold ConnectorClient._test_mcp. apply yields_bind. intros [initialized received].
    destruct (kv_get "protocolVersion" _) as [[]|]; try apply yields_error. destruct (negb _); [apply yields_error |].
    apply yields_bind. intros _. by apply list_pages_discovered.
  - apply yields_bind. intros response. apply yields_bind. intros _. apply yields_bind. intros raw. apply yields_ret.
    split; [cbn; lia | by exists 0%Z].
Qed.

(** C33. The test of a connector ends in tools within all limits — at most 1000, each with a
    name of 1 to 255 characters, a description of at most 10000 and a schema of at most 65536
    bytes, and 4 MiB together — or in an error of the connection; in nothing else, whatever
    the server sends. *)
Theorem mcp_discovery_bounded connector credential w :
  match (ConnectorClient.test self connector credential w).1 with
  | Ok (_, tools) => discovered tools
  | Err e => exists message, e = ConnectorConnectionError message
  end.
Proof.
  unfold ConnectorClient.test, try_except. destruct (ConnectorClient._test_validated _ _ _ w) as [[[message tools]|e] w'] eqn:E; cbn [fst].
  - exact (test_validated_discovered _ _ _ _ _ E).
  - destruct e; cbn; by eexists.
Qed.
End discovery.

(** ** Event streams *)

Section streams.
  Context `{PyFloat}.

Definition free_of (c : Ascii.ascii) (s : string) : Prop := all_chars (fun x => negb (Ascii.eqb x c)) s = true.

Lemma unix_plain x s : free_of cr x -> unix_lines (x ++ s) = (x ++ unix_lines s)%string.
Proof.
  unfold free_of. induction x as [|c x IH]; [done |]. cbn [all_chars]. intros [Hc Hx]%andb_true_iff.
  change (String c x ++ ?t)%string with (String c (x ++ t)). cbn [unix_lines]. apply negb_true_iff in Hc. by rewrite Hc, IH.
Qed.
Lemma split_plain x s h t : free_of lf x -> split_events false s = h :: t -> split_events false (x ++ s) = (x ++ h)%string :: t.
Proof.
  unfold free_of. intros Hx Hs. induction x as [|c x IH]; [done |]. revert Hx. cbn [all_chars]. intros [Hc Hx]%andb_true_iff.
  change (String c x ++ ?t)%string with (String c (x ++ t)). cbn [split_events]. apply negb_true_iff in Hc. by rewrite Hc, IH.
Qed.
Lemma unix_newline newline s : newline = chr 10 \/ newline = (chr 13 ++ chr 10)%string ->
  unix_lines (newline ++ s) = String lf (unix_lines s).
Proof. by intros [->| ->]. Qed.

(** The first answer in an event stream is the result, whatever follows it, with either
    kind of line ends. *)
Theorem event_stream_answer payload text newline rest id :
  json_value payload -> dumps false false payload = Ok text -> free_of lf text -> free_of cr text -> answers id payload = true ->
  newline = chr 10 \/ newline = (chr 13 ++ chr 10)%string ->
  _parse_mcp_payload (utf8 ("event: message" ++ newline ++ "data: " ++ text ++ newline ++ newline ++ rest)%string)
    (Some "text/event-stream; charset=utf-8") id = Ok payload.
Proof.
  intros Hv Ht Hlf Hcr Ha Hn. unfold _parse_mcp_payload, decode_text. rewrite utf8_roundtrip. cbn [rbind].
  replace (is_event_stream _) with true by (symmetry; vm_compute; reflexivity).
  rewrite (unix_plain "event: message"), unix_newline, (unix_plain "data: "), (unix_plain text), !unix_newline by done.
  assert (split_events false ("event: message" ++ String lf ("data: " ++ text ++ String lf (String lf (unix_lines rest))))
    = ("event: message" ++ String lf ("data: " ++ text))%string :: split_events true (unix_lines rest)) as ->.
  { apply split_plain; [done |].
    assert (split_events false ("data: " ++ text ++ String lf (String lf (unix_lines rest)))
      = ("data: " ++ text)%string :: split_events true (unix_lines rest)) as E.
    { rewrite <- str_app_assoc. rewrite (split_plain ("data: " ++ text) _ EmptyString (split_events true (unix_lines rest))); [| | done].
      - by rewrite TextFacts.str_app_nil.
      - done. }
    change (split_events false (String lf ("data: " ++ text ++ String lf (String lf (unix_lines rest)))))
      with (push lf (split_events false ("data: " ++ text ++ String lf (String lf (unix_lines rest))))).
    by rewrite E. }
  cbn [first_answer]. unfold data_values.
  assert (omap data_line (split_on lf ("event: message" ++ String lf ("data: " ++ text))) = [text]) as ->.
  { rewrite split_on_app by done. rewrite split_on_none by exact Hlf. cbn [omap list_omap].
    replace (data_line "event: message") with (@None string) by (vm_compute; reflexivity).
    replace (data_line ("data: " ++ text)) with (Some text); [done |]. reflexivity. }
  cbn [join]. rewrite (loads_dump false payload text Hv Ht), Ha. reflexivity.
Qed.
End streams.

(** ** What a test stores *)

Section saving.
  Context `{PyFloat} `{Aead} `{Ipaddress} `{AddressKinds} `{Resolver} {W : Type} `{ConnectorPool W}.
  Context (e : SecretEncryptor.t) (client : ConnectorClient.t W).
  Import ConnectorRepository.

(** What is stored for a connector that had been read before. *)
Definition saved (tested_at read : datetime) (i : uuid) (s s' : t) (record : ConnectorRecord.t) (r : ConnectorTestResponse.t) : Prop :=
  exists now, _records s !! i = Some now /\
    if bool_decide (ConnectorRecord.state_version now = ConnectorRecord.state_version record)
    then exists tools error,
           ConnectorTestResponse.connector r
           = ConnectorRecord.update_test read now tools tested_at (ConnectorTestResponse.success r) error
           /\ s' = mk (<[i := ConnectorTestResponse.connector r]> (_records s)) (_names s)
           /\ (ConnectorTestResponse.success r = true <-> error = None)
           /\ (ConnectorTestResponse.success r = false -> tools = ConnectorRecord.tools record)
    else ConnectorTestResponse.connector r = now /\ s' = s.

Lemma save_test_saved elapsed tested_at read i record success message tools error s r s' :
  (success = true <-> error = None) -> (success = false -> tools = ConnectorRecord.tools record) ->
  save_test elapsed tested_at read i (ConnectorRecord.state_version record) success message tools error s = (Ok r, s') ->
  saved tested_at read i s s' record r.
Proof.
  intros Herr Htools. unfold save_test, record_test, get_connector, _check_version, try_except, bind, lift, get, put, ret, saved.
  destruct (_records s !! i) as [now|] eqn:En; [| done].
  destruct (Z.eqb_spec (ConnectorRecord.state_version now) (ConnectorRecord.state_version record)) as [Hv|Hv]; cbn [negb].
  - intros [= <- <-]. exists now. split; [done |]. rewrite bool_decide_true by done. by exists tools, error.
  - rewrite bool_decide_true by done. rewrite En. intros [= <- <-]. exists now. split; [done |]. by rewrite bool_decide_false.
Qed.

(** A test of a connector whose configuration changed meanwhile stores nothing; otherwise
    it changes that connector alone, and only its tools and the outcome, and a test that
    fails keeps the tools. *)
Theorem connector_test_saves meanwhile elapsed tested_at read i s w r s' w' record :
  _records s !! i = Some record ->
  test_connector e client meanwhile elapsed tested_at read i (s, w) = (Ok r, (s', w')) ->
  saved tested_at read i (meanwhile s) s' record r.
Proof.
  unfold test_connector, get_connector. intros -> E. destruct (credential_for e record) as [credential|]; [| done].
  destruct (ConnectorClient.test client record credential w) as [[[message tools]|error] w1].
  - destruct (save_test _ _ _ _ _ _ _ _ _ _) as [r0 s0] eqn:Es in E. injection E as -> -> _. by eapply save_test_saved, Es.
  - destruct (is_connection_error error); [| done].
    destruct (save_test _ _ _ _ _ _ _ _ _ _) as [r0 s0] eqn:Es in E. injection E as -> -> _. by eapply save_test_saved, Es.
Qed.
End saving.

(** ** A server with two pages of tools *)

#[local] Instance listed_floats : PyFloat := fun _ _ => "0.5".
#[local] Instance mcp_host : Ipaddress := {| ip_version a := if bool_decide (a = "8.8.8.8") then Some 4%Z else None; ip_is_global a := bool_decide (a = "8.8.8.8") |}.
#[local] Instance mcp_addresses : AddressKinds := {|
  ipv4_mapped _ := None; ip_in_network _ _ := false; is_private _ := false; is_loopback _ := false; is_link_local _ := false;
  is_multicast _ := false; is_reserved _ := false; is_unspecified _ := false |}.
#[local] Instance mcp_name : Resolver := fun _ => Ok ["8.8.8.8"].

Definition small_answer : pyval := PDict [("jsonrpc", PStr "2.0"); ("id", PInt 1); ("result", PDict [])].
Lemma event_stream_answer_witness :
  exists text, dumps false false small_answer = Ok text
    /\ _parse_mcp_payload (utf8 ("event: message" ++ chr 10 ++ "data: " ++ text ++ chr 10 ++ chr 10 ++ ": end")%string)
         (Some "text/event-stream; charset=utf-8") (Some 1%Z) = Ok small_answer.
Proof.
  eexists. split; [vm_compute; reflexivity |].
  refine (event_stream_answer small_answer _ (chr 10) ": end" (Some 1%Z) _ eq_refl eq_refl eq_refl eq_refl (or_introl eq_refl)).
  apply json_value_dict. split; [apply (bool_decide_unpack _); vm_compute; reflexivity |].
  repeat constructor; apply json_value_dict; repeat constructor.
Defined.

(** Ids are sent back; the first page has a tool and a cursor, the second a tool. *)
Definition page (tools : list pyval) (next : list (string * pyval)) : pyval := PDict ([("tools", PList tools)] ++ next).
Definition reply (id : pyval) (result : pyval) : ConnectorResponse.t :=
  ConnectorResponse.mk 200
    (Whole match dumps false false (PDict [("jsonrpc", PStr "2.0"); ("id", id); ("result", result)]) with Ok t => utf8 t | Err _ => [] end)
    [("Content-Type", "application/json"); ("mcp-session-id", "s-1")].
Definition serve (call : ConnectorCall.t) : M (list string) ConnectorResponse.t := fun log =>
  let body := default [] (ConnectorCall.json call) in
  let id := default PNone (kv_get "id" body) in
  let method := match kv_get "method" body with Some (PStr m) => m | _ => EmptyString end in
  let params := match kv_get "params" body with Some (PDict p) => p | _ => [] end in
  (Ok (if bool_decide (method = "initialize") then reply id (PDict [("protocolVersion", PStr "2025-03-26")])
       else if bool_decide (method = "tools/list") then
         match kv_get "cursor" params with
         | None => reply id (page [PDict [("name", PStr " a ")]] [("nextCursor", PStr "c")])
         | Some _ => reply id (page [PDict [("name", PStr "b"); ("description", PStr "x")]] [])
         end
       else ConnectorResponse.mk 202 (Whole []) []),
   log ++ [(method ++ ":" ++ default EmptyString (header_of (ConnectorCall.headers call) "Mcp-Session-Id"))%string]).
#[local] Instance no_pool : ConnectorPool (list string) := {|
  pool_open _ := raise HTTPError; is_pool_error _ := false; is_request_error _ := false |}.
Definition mcp_connector : ConnectorRecord.t :=
  ConnectorRecord.mk 1 "tools" EmptyString ConnectorKind.MCP "https://mcp.test/rpc" ConnectorAuthType.BEARER "Authorization" true 10 0 1
    None [] None None None 0 0.
Example mcp_tools_listed :
  ConnectorClient.test (ConnectorClient.mk (Some serve) []) mcp_connector (Some "key") []
  = (Ok ("MCP connection and tool discovery succeeded", [ConnectorTool.mk "a" EmptyString []; ConnectorTool.mk "b" "x" []]),
     ["initialize:"; "notifications/initialized:s-1"; "tools/list:s-1"; "tools/list:s-1"]).
Proof. vm_compute. reflexivity. Qed.
